(* ===== verification/_CoqProject ===== *)
-Q . S2P
Prelude.v
Strings.v
Errors.v
Serde.v
Floats.v
FloatArith.v
CoreTypes.v
Target.v
Catalog.v
GgufContainer.v
GgufFormat.v
GgufWriter.v
GgufWriterSpec.v
GgufSafety.v
GgufConvention.v
Paths.v
Names.v
Numbers.v
HfHub.v
PerfSample.v
Mlir.v
Symbols.v
SymbolLogic.v
Kernels.v
SafeTensors.v
Sharded.v
StConventions.v
Ir.v
KernelRegistry.v
Encodings.v
EncodingSpecs.v
Codegen.v
CodegenSymbols.v
Coverage.v
Config.v
Fingerprint.v
Support.v
Binding.v
Provider.v
Builder.v
Graph.v
Building.v
Layers.v
Models.v
ModelGraphs.v
ModelNames.v
Registry.v
Tokenizer.v
Session.v
SessionSpec.v
LogitTrace.v
LogitTraceSpec.v
Manifest.v
Generate.v
Perf.v
Compiler.v
Decoder.v
ParameterSymbols.v
DecoderSymbols.v
PagedDecoder.v
PagedSymbols.v
StaticDecoder.v
StaticSymbols.v
DecoderProgram.v
ProgramSymbols.v
Bundle.v
CompilerSpec.v
BundleSpec.v
Drift.v
DriftRun.v
DriftSpec.v
LoadSpec.v
Cache.v
Publishing.v
BundleFiles.v
BundleFilesSpec.v
