(* ===== verification/Prelude.v ===== *)
(** * A formal model of dyninfer

    dyninfer reads a model checkpoint, binds it to one of its architectures,
    compiles the bound model for a device and runs it token by token. This
    development models that pipeline as written in src/crates and proves what
    each stage promises the next one.

    ** The pipeline and the files that model it

    Foundations.
    - [Prelude]: results with errors and panics, machine words, sorting, strings;
      [Strings]: trimming, lines, UTF-8, hexadecimal as Rust's library has them;
      [Errors] (dyninfer-error): the error taxonomy, codes, messages, diagnostics;
      [Serde]: what the code uses of JSON values ([SerdeJson]), of byte order, of
      deserialisation and of IEEE floats, the [spec_float]s of the library;
      [Floats], [FloatArith]: their arithmetic, order, bits and decimal texts.
    - [CoreTypes] (dyninfer-core scalar.rs, shape.rs, types.rs): scalars, shapes,
      byte ranges, physical encodings, bindings, KV-cache descriptors.
    - [Target] (types.rs [TargetProfile], dyninfer-target): parsing the dump of
      devices, target requests, resolution.

    Checkpoints.
    - [Source], [Catalog] (dyninfer-checkpoint source.rs, limits.rs, catalog.rs,
      role.rs): random-access sources as a class, indices, catalogs.
    - [GgufTypes], [GgufContainer], [GgufFormat], [GgufSafety], [GgufConvention]
      (dyninfer-checkpoint-gguf): type tables, the indexer, the abstract file
      format it decodes, its safety, and the decoding of entries; [GgufWriter]
      and [GgufWriterSpec] (q4.rs): block packing and the writer of files.
    - [Paths], [Names], [SafeTensors], [Sharded], [StConventions]
      (dyninfer-checkpoint-safetensors, dyninfer-architecture naming.rs and
      remapping.rs): path components, canonical names, the SafeTensors indexer,
      sharded checkpoints, dense and MLX decoding.
    - [Fingerprint], [Support], [Binding], [Provider] (fingerprint.rs,
      support.rs, dyninfer-binding, provider.rs): schema fingerprints, probing,
      binding of slots to parameters, the plan of file ranges for the runtime.

    Encodings and kernels.
    - [KernelRegistry] (dyninfer-kernel-registry), [Encodings], [EncodingSpecs],
      [Coverage] (dyninfer-quantization): kernel candidates and their selection,
      encoding definitions and what they accept, the dry run of coverage.

    Architectures.
    - [Ir], [Config], [Builder], [Graph], [Building], [Sublayers], [Layers],
      [Models], [ModelGraphs], [ModelNames], [Registry]
      (dyninfer-architecture, ModelLoader::bind): the graph IR, configuration,
      the builder as a state monad and a small program logic for it, the three
      model families, their names, the registry and renaming of catalogs.

    Compilation and loading.
    - [Manifest] (ir.rs [BoundModel], types.rs [ExecutableManifest], model.rs),
      [Compiler] (dyninfer-compiler lib.rs, and the configuration part of
      lowering/dense_decoder.rs), [Bundle] (builtins.rs, the rest of model.rs,
      iree-runtime FileParameterStorage); [CompilerSpec], [BundleSpec] and
      [LoadSpec] hold their theorems.
    - [Template], [Mlir] (dyninfer-mlir builder.rs, func_builder.rs, dialect/):
      the format strings of the emitters as templates, and the module and
      function builders as state monads; [Kernels] (lowering/kernels.rs),
      [Codegen] (gguf_codegen.rs, mlx_affine.rs), [Parameters]
      (lowering/parameter.rs), [Decoder], [PagedDecoder], [StaticDecoder],
      [DecoderProgram] (lowering/dense_decoder.rs): every emitter, with the text
      of the source. [Symbols] is a scanner of the symbols of such a text and an
      abstract scanner of templates that is sound for it; [SymbolLogic] a
      program logic for the symbols an emitter declares and refers to;
      [KernelSymbols], [CodegenSymbols], [ParameterSymbols], [DecoderSymbols],
      [PagedSymbols], [StaticSymbols] apply it to the emitters of the file of
      their name, [ProgramSymbols] to a whole program.
    - [Cache] (dyninfer-cache): the artifact cache, sequentially and with
      concurrent publishers.

    Execution.
    - [Tokenizer] (tokenizer_bpe.rs), [Session] and [SessionSpec] (session.rs),
      [Generate] (generate.rs).
    - [LogitTrace], [LogitTraceSpec], [Drift], [DriftRun], [DriftSpec]
      (dyninfer-cli logit_trace.rs, drift.rs, logits.rs): traces of logits, the
      metrics of drift between two of them, and the command that compares a
      model with a reference trace.

    ** How state and effects are modelled

    A fallible function returns [Ok], [Err] or [Panic], so that "no panic" is a
    statement. The architecture builder is a state monad that drops its state on
    an error, because the code drops the builder. A session method instead
    returns its state with either outcome ([Method]), because [&mut self]
    survives an error, and what a failing prefill leaves behind matters. The
    cache is a store of directories and locks; [operation] is one file-system
    call of one publisher, [step] any publisher doing one, so that every
    interleaving, failure and crash is a run. Integers are [Z] at their width:
    checked and saturating operations are written out, unchecked ones wrap as in
    a release build ([wrap32], [wrap64]). Strings are bytes. B-tree maps and sets
    are [gmap]s, with [btree_iter] their order; hash maps are read through an
    unspecified order wherever it could matter ([HashOrder], [vocab_iter],
    [keys]).

    ** Code outside the repository

    is an argument or a class, with its documented behaviour as named hypotheses
    and a concrete instance in the witnesses: JSON ([SerdeJson]), byte order
    ([LittleEndian]), the host CPU ([Host]), hashing ([content_digest]), the
    native runtime ([IreeContext], with [CausalContext] stating that a compiled
    causal model computes a function of the tokens in its cache), IREE's compiler
    ([inprocess], [tools]), file metadata ([stat]), the opening of contexts
    ([open_context]), the derived [Debug] texts in messages ([debug_*]), half
    precision ([HalfPrecision]), the JSON of traces ([TraceJson]), the files,
    hashes and companion process of a drift run ([DriftHost]), MLIR's parser,
    verifier and printer ([MlirApi]), and powf, cosf and sinf
    ([FloatFunctions]).

    ** Fuel

    [gguf_index] takes the depth of the stack, since the reader recurses on
    nested arrays without a bound: one frame per twelve bytes of the file is
    enough ([gguf_index_no_panic]), and for any fixed depth a small file
    exhausts it ([gguf_index_exhausts_stack]). The merge loop needs at most as
    many turns as there are pieces ([bpe_merge_total]); encoding, when no special
    piece is empty, at most a number of turns bounded by the text
    ([encode_termination]). [decoder_is_byte_level] takes the nesting the JSON
    parser allows. The other recursions on fuel ([lines], [lossy],
    [str_replace], [chunks]) take the length of their argument, of which every
    turn consumes some.

    ** What the theorems show

    - Reading. Every well-formed GGUF file is read back exactly; what is read
      from any file, hostile ones included, lies inside the file; the same for
      SafeTensors with disjointness, and for sharded checkpoints with their
      weight map; the conventions account for every tensor.
    - Binding. A binding answers every slot in order with a parameter that meets
      its type; a provider plan hands out ranges inside the sources only; plans
      exist for bindings by canonical name, and none for bindings by alias;
      fingerprints ignore where the bytes are.
    - Architectures. The graph check accepts exactly the well-formed graphs; the
      three families build well-formed graphs for every configuration; their
      slots are the images of checkpoint names; renaming, building and binding
      compose; resolution does not depend on hash order.
    - Kernels. Selection is optimal and order-independent; decoded GGUF and MLX
      parameters are accepted by the definition of their encoding; the dry run
      decides coverage; what coverage selects, the compiler lowers.
    - Artifacts. A compiled manifest passes the ABI check, its sessions are
      valid, its bundle loads against its checkpoint with exactly the planned
      file ranges; publication in the cache is atomic while no lock is taken for
      stale.
    - Emission. Whatever the configuration, the encodings and the selected
      lowerings, every symbol an emitted program refers to is declared before,
      by a global or a function of that very configuration, and the entry points
      the runtime calls are declared.
    - Execution. The tokenizer terminates and loses nothing; a session refines
      the language model it runs; generation is the greedy continuation and
      ends; traces are read back exactly and appear only when complete; a drift
      run that succeeds compared the model's own logits.

    Each theorem with hypotheses is applied to a concrete input next to it.

    ** Not modelled

    What an emitted text computes is defined by MLIR and IREE, outside the
    repository; the theorems about emission are about its symbols. The typed
    wrappers of MLIR's C library, the wrappers of IREE and ROCm and the
    discovery of tools call C libraries and subprocesses. File and network I/O
    around the modelled functions, clocks, logging and the allocator statistics
    are left out. The argument parsing of the command line, the performance
    measurements, the hub downloads, the fixtures and the floating-point
    reference used by the tests, and the tests are not modelled. *)
From Stdlib Require Import ZArith Lia Ascii String Sorted.
From stdpp Require Import base list strings gmap.
From stdpp Require Import options.
Set Default Proof Using "Type".

#[global] Open Scope Z_scope.

Abbreviation byte := ascii (only parsing).
Abbreviation bytes := (list ascii) (only parsing).

(** ** Outcomes of fallible code

    A Rust function that returns [Result<A, E>] ends in [Ok], in [Err] or in a
    panic (an out-of-range index, a division by zero, an [expect] on [None]).
    The three are kept apart, so that "no panic" is a statement of its own. *)

Inductive result (E A : Type) : Type :=
  | Ok (a : A)
  | Err (e : E)
  | Panic (why : string).
Arguments Ok {E A} a.
Arguments Err {E A} e.
Arguments Panic {E A} why.

Global Instance result_mret {E} : MRet (result E) := fun A a => Ok a.
Global Instance result_mbind {E} : MBind (result E) :=
  fun A B f r =>
    match r with
    | Ok a => f a
    | Err e => Err e
    | Panic w => Panic w
    end.
Global Instance result_fmap {E} : FMap (result E) :=
  fun A B f r =>
    match r with
    | Ok a => Ok (f a)
    | Err e => Err e
    | Panic w => Panic w
    end.

Definition is_Ok {E A} (r : result E A) : bool :=
  match r with Ok _ => true | _ => false end.
Definition is_Err {E A} (r : result E A) : bool :=
  match r with Err _ => true | _ => false end.
Definition is_Panic {E A} (r : result E A) : bool :=
  match r with Panic _ => true | _ => false end.

(** [ok_or o e] is Rust's [o.ok_or_else(|| e)]. *)
Definition ok_or {E A} (o : option A) (e : E) : result E A :=
  match o with Some a => Ok a | None => Err e end.

(** [ensure b e] is the early return [if !b { return Err(e); }]. *)
Definition ensure {E} (b : bool) (e : E) : result E unit :=
  if b then Ok tt else Err e.

(** Iterator adaptors that stop at the first error. *)
Fixpoint try_map {E A B} (f : A -> result E B) (l : list A) : result E (list B) :=
  match l with
  | [] => Ok []
  | a :: l => b ← f a; bs ← try_map f l; Ok (b :: bs)
  end.

Fixpoint try_fold {E A S} (f : S -> A -> result E S) (s : S) (l : list A) : result E S :=
  match l with
  | [] => Ok s
  | a :: l => s' ← f s a; try_fold f s' l
  end.

Fixpoint try_for_each {E A} (f : A -> result E unit) (l : list A) : result E unit :=
  match l with
  | [] => Ok tt
  | a :: l => _ ← f a; try_for_each f l
  end.

(** [repeat_read n p s] runs the stateful reader [p] [n] times. *)
Fixpoint repeat_read {E A S} (n : nat) (p : S -> result E (A * S)) (s : S)
    : result E (list A * S) :=
  match n with
  | O => Ok ([], s)
  | Datatypes.S n =>
      '(a, s) ← p s; '(l, s) ← repeat_read n p s; Ok (a :: l, s)
  end.

(** ** Machine integers: [u64], [u32] and [usize] (64-bit) as [Z] *)

Definition u64_max : Z := 2 ^ 64 - 1.
Definition u32_max : Z := 2 ^ 32 - 1.
Definition is_u64 (n : Z) : Prop := 0 <= n <= u64_max.
Definition is_u32 (n : Z) : Prop := 0 <= n <= u32_max.

Definition checked_u64 (n : Z) : option Z :=
  if n <=? u64_max then Some n else None.
Definition checked_add (a b : Z) : option Z := checked_u64 (a + b).
Definition checked_mul (a b : Z) : option Z := checked_u64 (a * b).
Definition saturating_add (a b : Z) : Z := Z.min u64_max (a + b).
Definition saturating_mul (a b : Z) : Z := Z.min u64_max (a * b).

(** [l.len()]. *)
Definition length_z {A} (l : list A) : Z := Z.of_nat (length l).

(** Unchecked arithmetic of a release build wraps. *)
Definition wrap64 (n : Z) : Z := n mod 2 ^ 64.
Definition wrap32 (n : Z) : Z := n mod 2 ^ 32.

(** Operators of [u32] in a release build, and the saturating ones. *)
Definition mul32 (a b : Z) : Z := wrap32 (a * b).
Definition add32 (a b : Z) : Z := wrap32 (a + b).
Definition sub32 (a b : Z) : Z := wrap32 (a - b).
Definition saturating_sub (a b : Z) : Z := Z.max 0 (a - b).
Definition saturating_mul32 (a b : Z) : Z := Z.min u32_max (a * b).

(** [u64::is_multiple_of] and [u64::div_ceil]. *)
Definition is_multiple_of (a b : Z) : bool :=
  if b =? 0 then a =? 0 else a mod b =? 0.
Definition div_ceil (a b : Z) : Z :=
  if a mod b =? 0 then a / b else a / b + 1.

(** ** Bytes *)

Definition u8 (b : byte) : Z := Z.of_N (N_of_ascii b).
Definition byte_of (n : Z) : byte := ascii_of_N (Z.to_N (n mod 256)).

(** Little-endian value of a byte string, and the bytes of a value. *)
Fixpoint le_value (bs : bytes) : Z :=
  match bs with
  | [] => 0
  | b :: bs => u8 b + 256 * le_value bs
  end.

Fixpoint le_bytes (n : nat) (v : Z) : bytes :=
  match n with
  | O => []
  | S n => byte_of v :: le_bytes n (v / 256)
  end.

(** Two's complement reading of a [w]-bit value. *)
Definition signed (w v : Z) : Z := if v <? 2 ^ (w - 1) then v else v - 2 ^ w.

(** ** Stable sort by a total preorder, as [slice::sort_by] *)

Section StableSort.
Context {A : Type} (leb : A -> A -> bool).

Fixpoint sort_insert (x : A) (l : list A) : list A :=
  match l with
  | [] => [x]
  | y :: l' => if leb x y then x :: y :: l' else y :: sort_insert x l'
  end.

Fixpoint stable_sort (l : list A) : list A :=
  match l with
  | [] => []
  | x :: l => sort_insert x (stable_sort l)
  end.

End StableSort.

(** The byte order of strings. *)
Definition string_leb (a b : string) : bool := String.leb a b.

(** The pairs of a [BTreeMap] in its iteration order. *)
Definition btree_iter {A} (m : gmap string A) : list (string * A) :=
  stable_sort (fun a b => string_leb a.1 b.1) (map_to_list m).

(** The elements of a [BTreeSet] in its iteration order. *)
Definition btree_elements (s : gset string) : list string :=
  stable_sort string_leb (elements s).

(** [adjacent f l] runs [f] over the pairs of neighbours, as [l.windows(2)]. *)
Fixpoint adjacent {E A} (f : A -> A -> result E unit) (l : list A) : result E unit :=
  match l with
  | x :: ((y :: _) as l') => _ ← f x y; adjacent f l'
  | _ => Ok tt
  end.

(** [*v.last_mut().unwrap() = x], [v] not empty. *)
Definition set_last (l : list Z) (x : Z) : list Z := removelast l ++ [x].

(** ** Strings (UTF-8 byte strings, as [String]) *)

Definition strlen (s : string) : Z := Z.of_nat (String.length s).

Fixpoint strip_prefix (p s : string) : option string :=
  match p, s with
  | EmptyString, _ => Some s
  | String a p, String b s => if Ascii.eqb a b then strip_prefix p s else None
  | String _ _, EmptyString => None
  end.

Definition starts_with (p s : string) : bool :=
  match strip_prefix p s with Some _ => true | None => false end.

(** [strip_suffix x s] is the prefix of [s] that [x] completes. *)
Fixpoint strip_suffix (x s : string) : option string :=
  if String.eqb s x then Some EmptyString
  else match s with
       | EmptyString => None
       | String a s => String a <$> strip_suffix x s
       end.

Definition ends_with (x s : string) : bool :=
  match strip_suffix x s with Some _ => true | None => false end.

(** [str_find p s] is the offset of the first occurrence of [p]. *)
Fixpoint str_find (p s : string) : option nat :=
  if starts_with p s then Some O
  else match s with
       | EmptyString => None
       | String _ s => S <$> str_find p s
       end.

Definition contains (p s : string) : bool :=
  match str_find p s with Some _ => true | None => false end.

(** [s.split_once(c)] for an ASCII character [c]. *)
Fixpoint split_once (c : ascii) (s : string) : option (string * string) :=
  match s with
  | EmptyString => None
  | String a s =>
      if Ascii.eqb a c then Some (EmptyString, s)
      else '(x, y) ← split_once c s; Some (String a x, y)
  end.

Fixpoint str_map (f : ascii -> ascii) (s : string) : string :=
  match s with
  | EmptyString => EmptyString
  | String a s => String (f a) (str_map f s)
  end.

Definition ascii_lower (a : ascii) : ascii :=
  let n := N_of_ascii a in
  if ((65 <=? n) && (n <=? 90))%N then ascii_of_N (n + 32) else a.

Definition to_ascii_lowercase : string -> string := str_map ascii_lower.

(** Decimal parsing, as [str::parse::<u32>]: an optional [+], at least one
    digit, and no value above [u32::MAX]. *)
Definition digit_value (a : ascii) : option Z :=
  let n := u8 a in if (48 <=? n) && (n <=? 57) then Some (n - 48) else None.

Fixpoint parse_digits (acc : Z) (s : string) : option Z :=
  match s with
  | EmptyString => Some acc
  | String a s =>
      d ← digit_value a;
      let acc := 10 * acc + d in
      if acc <=? u32_max then parse_digits acc s else None
  end.

Definition parse_u32 (s : string) : option Z :=
  match s with
  | EmptyString => None
  | String a s' =>
      if Ascii.eqb a "+" then
        match s' with EmptyString => None | _ => parse_digits 0 s' end
      else parse_digits 0 s
  end.

Definition string_of_bytes (bs : bytes) : string := string_of_list_ascii bs.
Definition bytes_of_string (s : string) : bytes := list_ascii_of_string s.

(** ** UTF-8 well-formedness, as [String::from_utf8] checks it *)

Definition in_range (lo hi : Z) (b : byte) : bool := (lo <=? u8 b) && (u8 b <=? hi).
Definition continuation (b : byte) : bool := in_range 128 191 b.

Fixpoint utf8_valid (bs : bytes) : bool :=
  match bs with
  | [] => true
  | a :: rest =>
      if in_range 0 127 a then utf8_valid rest
      else if in_range 194 223 a then
        match rest with
        | b :: rest => continuation b && utf8_valid rest
        | _ => false
        end
      else if in_range 224 239 a then
        match rest with
        | b :: c :: rest =>
            in_range (if u8 a =? 224 then 160 else 128) (if u8 a =? 237 then 159 else 191) b
            && continuation c && utf8_valid rest
        | _ => false
        end
      else if in_range 240 244 a then
        match rest with
        | b :: c :: d :: rest =>
            in_range (if u8 a =? 240 then 144 else 128) (if u8 a =? 244 then 143 else 191) b
            && continuation c && continuation d && utf8_valid rest
        | _ => false
        end
      else false
  end.

(** [s.chars()] of a well-formed string: a character is a byte with the
    continuation bytes that follow it. *)
Definition head_continuation (s : string) : bool :=
  match s with String b _ => continuation b | EmptyString => false end.

Fixpoint chars (s : string) : list string :=
  match s with
  | EmptyString => []
  | String a s' =>
      match chars s' with
      | c :: cs =>
          if head_continuation s' then String a c :: cs else String a EmptyString :: c :: cs
      | [] => [String a EmptyString]
      end
  end.

(** [iter.collect::<String>()]. *)
Definition concat_strings (l : list string) : string := foldr String.append EmptyString l.

Definition from_utf8 (bs : bytes) : option string :=
  if utf8_valid bs then Some (string_of_bytes bs) else None.

(** ** Absence of panics *)

Definition no_panic {E A} (r : result E A) : Prop := is_Panic r = false.

(** * Lemmas *)

Create HintDb dyninfer.

(** Equality of closed terms, left to the kernel's virtual machine. *)
Ltac by_vm := match goal with |- _ = ?b => vm_cast_no_check (eq_refl b) end.

(** Distinctness of concrete names, by evaluation. *)
Lemma NoDup_eval (l : list string) : bool_decide (NoDup l) = true -> NoDup l.
Proof. apply bool_decide_eq_true_1. Qed.

(** ** Outcomes *)

Lemma bind_Ok {E A B} (x : result E A) (f : A -> result E B) b :
  (x ≫= f) = Ok b <-> exists a, x = Ok a /\ f a = Ok b.
Proof.
  destruct x as [a|e|w]; cbn; split; try discriminate; try (intros (? & ? & ?); congruence).
  eauto.
Qed.

Lemma bind_Err {E A B} (x : result E A) (f : A -> result E B) e :
  (x ≫= f) = Err e <-> x = Err e \/ exists a, x = Ok a /\ f a = Err e.
Proof.
  destruct x as [a|e'|w]; cbn; split; intros H.
  - right; eauto.
  - destruct H as [H|(a' & H & ?)]; congruence.
  - injection H as ->. by left.
  - destruct H as [H|(a' & H & ?)]; congruence.
  - discriminate H.
  - destruct H as [H|(a' & H & ?)]; congruence.
Qed.

Lemma ensure_Ok {E} b (e : E) u : ensure b e = Ok u <-> b = true.
Proof. destruct b, u; cbn; split; congruence. Qed.

Lemma ok_or_Ok {E A} (o : option A) (e : E) a : ok_or o e = Ok a <-> o = Some a.
Proof. destruct o; cbn; split; congruence. Qed.

(** [ok_inv] splits every hypothesis [... = Ok _] along its binds. *)
Ltac ok_inv_step :=
  match goal with
  | H : mbind _ _ = Ok _ |- _ =>
      let a := fresh "v" in let H1 := fresh "Hv" in
      apply bind_Ok in H as (a & H1 & H)
  | H : ensure _ _ = Ok ?u |- _ => apply ensure_Ok in H
  | H : ok_or _ _ = Ok _ |- _ => apply ok_or_Ok in H
  | H : Ok _ = Ok _ |- _ => injection H as H
  | H : Err _ = Ok _ |- _ => discriminate H
  | H : Panic _ = Ok _ |- _ => discriminate H
  | H : (let '(_, _) := ?p in _) = Ok _ |- _ => destruct p
  | u : unit |- _ => destruct u
  end.
Ltac ok_inv := repeat (ok_inv_step; subst).

Lemma try_map_Ok {E A B} (f : A -> result E B) l bs :
  try_map f l = Ok bs <-> Forall2 (fun a b => f a = Ok b) l bs.
Proof.
  revert bs; induction l as [|a l IH]; intros bs; cbn; split; intros H.
  - ok_inv. constructor.
  - inversion H; subst; done.
  - ok_inv. constructor; [done|]. by apply IH.
  - inversion H as [|? b ? bs' Hb Hbs]; subst. rewrite Hb; cbn.
    apply IH in Hbs. by rewrite Hbs.
Qed.

(** A function without repeated values is injective on the list. *)
Lemma NoDup_fmap_elem {A B} (f : A -> B) l x y :
  NoDup (f <$> l) -> x ∈ l -> y ∈ l -> f x = f y -> x = y.
Proof.
  induction l as [|z l IH]; [by intros _ ?%elem_of_nil|]. cbn. intros [Hz Hnd]%NoDup_cons Hx Hy Hf.
  apply elem_of_cons in Hx, Hy. destruct Hx as [->|Hx], Hy as [->|Hy]; auto.
  - destruct Hz. rewrite Hf. by apply list_elem_of_fmap_2.
  - destruct Hz. rewrite <- Hf. by apply list_elem_of_fmap_2.
Qed.

Lemma try_for_each_Ok {E A} (f : A -> result E unit) l u :
  try_for_each f l = Ok u <-> Forall (fun a => f a = Ok tt) l.
Proof.
  destruct u; induction l as [|a l IH]; cbn; split; intros H; try done.
  - ok_inv. constructor; [done|]. by apply IH.
  - inversion H as [|? ? Ha Hl]; subst. rewrite Ha; cbn. by apply IH.
Qed.

Lemma repeat_read_length {E A S} n (p : S -> result E (A * S)) s l s' :
  repeat_read n p s = Ok (l, s') -> length l = n.
Proof.
  revert s l; induction n as [|n IH]; cbn; intros s l H; ok_inv; [done|].
  cbn. f_equal. eauto.
Qed.

(** An invariant of the reader's state is one of its repetition. *)
Lemma repeat_read_inv {E A S} (I : S -> Prop) (Q : A -> Prop)
    (p : S -> result E (A * S)) n s l s' :
  (forall s a s', I s -> p s = Ok (a, s') -> I s' /\ Q a) ->
  I s -> repeat_read n p s = Ok (l, s') -> I s' /\ Forall Q l.
Proof.
  intros Hp. revert s l; induction n as [|n IH]; cbn; intros s l HI H; ok_inv.
  - done.
  - destruct (Hp _ _ _ HI Hv) as [HI' HQ].
    destruct (IH _ _ HI' Hv0) as [HI'' HF]. split; [done|by constructor].
Qed.

Lemma no_panic_Ok {E A} (a : A) : no_panic (Ok a : result E A).
Proof. done. Qed.
Lemma no_panic_Err {E A} (e : E) : no_panic (Err e : result E A).
Proof. done. Qed.
Lemma no_panic_ensure {E} b (e : E) : no_panic (ensure b e).
Proof. by destruct b. Qed.
Lemma no_panic_ok_or {E A} (o : option A) (e : E) : no_panic (ok_or o e).
Proof. by destruct o. Qed.
Lemma no_panic_bind {E A B} (x : result E A) (f : A -> result E B) :
  no_panic x -> (forall a, x = Ok a -> no_panic (f a)) -> no_panic (x ≫= f).
Proof. unfold no_panic; destruct x; cbn; auto. Qed.
Lemma no_panic_try_map {E A B} (f : A -> result E B) l :
  (forall a, no_panic (f a)) -> no_panic (try_map f l).
Proof.
  intros Hf; induction l as [|a l IH]; cbn; [done|].
  apply no_panic_bind; [done|]. intros b _. by apply no_panic_bind.
Qed.
Lemma no_panic_try_for_each {E A} (f : A -> result E unit) l :
  (forall a, no_panic (f a)) -> no_panic (try_for_each f l).
Proof.
  intros Hf; induction l as [|a l IH]; cbn; [done|].
  by apply no_panic_bind.
Qed.
Lemma no_panic_repeat_read {E A S} n (p : S -> result E (A * S)) s :
  (forall s, no_panic (p s)) -> no_panic (repeat_read n p s).
Proof.
  intros Hp; revert s; induction n as [|n IH]; intros s; cbn; [done|].
  apply no_panic_bind; [done|]. intros [a s1] _.
  apply no_panic_bind; [done|]. by intros [l s2] _.
Qed.
#[export] Hint Resolve no_panic_Ok no_panic_Err no_panic_ensure no_panic_ok_or : dyninfer.

(** [no_panic_tac] follows the binds, conditionals and matches of a body. *)
Ltac no_panic_tac :=
  repeat first
    [ apply no_panic_Ok | apply no_panic_Err | apply no_panic_ensure
    | apply no_panic_ok_or
    | (apply no_panic_bind; [|intros ? ?])
    | solve [eauto with dyninfer]
    | match goal with
      | |- no_panic (let '(_, _) := ?p in _) => destruct p
      | |- no_panic (match ?x with _ => _ end) => destruct x eqn:?
      end ].

(** ** Machine integers *)

Lemma checked_u64_Some n m : checked_u64 n = Some m <-> n = m /\ n <= u64_max.
Proof.
  unfold checked_u64. destruct (Z.leb_spec n u64_max); split; intros Hc.
  - injection Hc as ->. done.
  - by destruct Hc as [-> _].
  - discriminate Hc.
  - lia.
Qed.
Lemma checked_add_Some a b c : checked_add a b = Some c <-> c = a + b /\ a + b <= u64_max.
Proof. unfold checked_add. rewrite checked_u64_Some. intuition congruence. Qed.
Lemma checked_mul_Some a b c : checked_mul a b = Some c <-> c = a * b /\ a * b <= u64_max.
Proof. unfold checked_mul. rewrite checked_u64_Some. intuition congruence. Qed.

Lemma wrap64_small n : is_u64 n -> wrap64 n = n.
Proof. unfold is_u64, u64_max, wrap64. intros H. apply Z.mod_small. lia. Qed.

Lemma is_multiple_of_spec a b :
  0 < b -> is_multiple_of a b = true <-> exists k, a = k * b.
Proof.
  intros Hb. unfold is_multiple_of. case_match eqn:E; [lia|].
  rewrite Z.eqb_eq. rewrite Z.mod_divide by lia. done.
Qed.

Lemma div_ceil_spec a b : 0 < b -> 0 <= a -> a <= div_ceil a b * b < a + b.
Proof.
  intros Hb Ha. unfold div_ceil. pose proof (Z.div_mod a b ltac:(lia)).
  pose proof (Z.mod_pos_bound a b ltac:(lia)). case_match; nia.
Qed.

(** ** Bytes *)

Lemma u8_range b : 0 <= u8 b < 256.
Proof. unfold u8. pose proof (N_ascii_bounded b). lia. Qed.

Lemma u8_byte_of n : u8 (byte_of n) = n mod 256.
Proof.
  unfold u8, byte_of. pose proof (Z.mod_pos_bound n 256 ltac:(lia)).
  rewrite N_ascii_embedding by lia. lia.
Qed.

Lemma byte_of_u8 b : byte_of (u8 b) = b.
Proof.
  unfold byte_of. rewrite Z.mod_small by apply u8_range.
  unfold u8. rewrite N2Z.id. apply ascii_N_embedding.
Qed.

Lemma le_value_range bs : 0 <= le_value bs < 2 ^ (8 * Z.of_nat (length bs)).
Proof.
  induction bs as [|b bs IH]; cbn [le_value length]; [done|].
  pose proof (u8_range b).
  replace (8 * Z.of_nat (S (length bs))) with (8 + 8 * Z.of_nat (length bs)) by lia.
  rewrite Z.pow_add_r by lia. change (2 ^ 8) with 256. lia.
Qed.

Lemma length_le_bytes n v : length (le_bytes n v) = n.
Proof. revert v; induction n; intros v; cbn; auto. Qed.

Lemma le_value_le_bytes n v :
  le_value (le_bytes n v) = v mod 2 ^ (8 * Z.of_nat n).
Proof.
  revert v; induction n as [|n IH]; intros v; cbn [le_value le_bytes].
  - by rewrite Z.mod_1_r.
  - rewrite IH, u8_byte_of.
    replace (8 * Z.of_nat (S n)) with (8 + 8 * Z.of_nat n) by lia.
    rewrite Z.pow_add_r by lia. change (2 ^ 8) with 256.
    rewrite Z.rem_mul_r by lia. done.
Qed.

Lemma le_bytes_le_value bs : le_bytes (length bs) (le_value bs) = bs.
Proof.
  induction bs as [|b bs IH]; cbn [le_value le_bytes length]; [done|].
  pose proof (u8_range b). f_equal.
  - rewrite <-(byte_of_u8 b) at 2. unfold byte_of. do 2 f_equal.
    by rewrite Z.mul_comm, Z_mod_plus_full.
  - rewrite Z.mul_comm, Z.div_add by lia.
    rewrite Z.div_small by done. by rewrite Z.add_0_l.
Qed.

Lemma le_value_app a b :
  le_value (a ++ b) = le_value a + 2 ^ (8 * Z.of_nat (length a)) * le_value b.
Proof.
  induction a as [|x a IH]; cbn [le_value length app]; [lia|].
  rewrite IH. replace (8 * Z.of_nat (S (length a))) with (8 + 8 * Z.of_nat (length a)) by lia.
  rewrite Z.pow_add_r by lia. change (2 ^ 8) with 256. lia.
Qed.

(** ** The stable sort *)

Section StableSortLemmas.
Context {A : Type} (leb : A -> A -> bool).
Context (leb_total : forall x y, leb x y = true \/ leb y x = true).
Context (leb_trans : forall x y z, leb x y = true -> leb y z = true -> leb x z = true).

Lemma sort_insert_perm x l : sort_insert leb x l ≡ₚ x :: l.
Proof.
  induction l as [|y l IH]; cbn; [done|].
  destruct (leb x y); [done|]. rewrite IH. apply Permutation_swap.
Qed.

Lemma stable_sort_perm l : stable_sort leb l ≡ₚ l.
Proof. induction l as [|x l IH]; cbn; [done|]. by rewrite sort_insert_perm, IH. Qed.

Lemma sort_insert_sorted x l :
  StronglySorted (fun a b => leb a b = true) l ->
  StronglySorted (fun a b => leb a b = true) (sort_insert leb x l).
Proof using leb_total leb_trans.
  induction 1 as [|y l Hs IH Hy]; cbn; [repeat constructor|].
  destruct (leb x y) eqn:E.
  - constructor; [by constructor|]. constructor; [done|].
    eapply Forall_impl; [exact Hy|]. intros z Hz. by eapply leb_trans.
  - constructor; [done|]. rewrite sort_insert_perm. constructor; [|done].
    destruct (leb_total x y); congruence.
Qed.

Lemma stable_sort_sorted l :
  StronglySorted (fun a b => leb a b = true) (stable_sort leb l).
Proof using leb_total leb_trans.
  induction l as [|x l IH]; cbn; [constructor|]. by apply sort_insert_sorted.
Qed.

(** Sorting keeps the first of the greatest elements first: the head of the
    result is below every element of the input. *)
Lemma stable_sort_head l x l' :
  stable_sort leb l = x :: l' -> x ∈ l /\ Forall (fun y => leb x y = true) l.
Proof using leb_total leb_trans.
  intros H. pose proof (stable_sort_sorted l) as Hs. rewrite H in Hs.
  inversion Hs as [|? ? _ Hx]; subst.
  assert (Hp : l ≡ₚ x :: l') by (rewrite <-H; symmetry; apply stable_sort_perm).
  split; [rewrite Hp; set_solver|]. rewrite Hp. constructor; [|done].
  destruct (leb_total x x); done.
Qed.

(** The sort is stable: what comes first is the first element that is below
    all the others. *)
Lemma stable_sort_first l x l' :
  stable_sort leb l = x :: l' ->
  exists l1 l2, l = l1 ++ x :: l2 /\ Forall (fun y => leb y x = false) l1 /\
    Forall (fun y => leb x y = true) l2.
Proof using leb_total leb_trans.
  revert x l'. induction l as [|a l IH]; intros x l'; cbn [stable_sort]; [done|].
  destruct (stable_sort leb l) as [|y l''] eqn:E; cbn.
  - intros [= <- <-]. exists [], l. split; [done|]. split; [constructor|].
    assert (l = []) as ->.
    { apply Permutation_nil_r. rewrite <-E. symmetry. apply stable_sort_perm. }
    constructor.
  - destruct (leb a y) eqn:Eay; intros [= <- <-].
    + exists [], l. split; [done|]. split; [constructor|].
      apply stable_sort_head in E as [_ Hy]. eapply Forall_impl; [exact Hy|].
      intros z. by apply leb_trans.
    + destruct (IH _ _ eq_refl) as (l1 & l2 & -> & H1 & H2).
      exists (a :: l1), l2. split; [done|]. split; [by constructor|done].
Qed.

(** A permutation of the input is sorted to the same list when equivalent
    elements are equal. *)
Lemma stable_sort_perm_eq l1 l2 :
  (forall x y, x ∈ l1 -> y ∈ l1 -> leb x y = true -> leb y x = true -> x = y) ->
  l1 ≡ₚ l2 -> stable_sort leb l1 = stable_sort leb l2.
Proof using leb_total leb_trans.
  intros Hanti Hp.
  assert (Hp' : stable_sort leb l1 ≡ₚ stable_sort leb l2).
  { by rewrite !stable_sort_perm. }
  assert (Hanti' : forall x y, x ∈ stable_sort leb l1 -> y ∈ stable_sort leb l1 ->
    leb x y = true -> leb y x = true -> x = y).
  { intros x y. rewrite !stable_sort_perm. auto. }
  pose proof (stable_sort_sorted l1) as H1. pose proof (stable_sort_sorted l2) as H2.
  clear Hanti Hp. revert Hp' Hanti' H1 H2.
  generalize (stable_sort leb l1) (stable_sort leb l2). clear l1 l2.
  induction l as [|x l IH]; intros l2 Hp Hanti H1 H2.
  { apply Permutation_nil_l in Hp. done. }
  destruct l2 as [|y l2]; [by apply Permutation_nil_r in Hp|].
  inversion H1 as [|? ? Hs1 Hx]; inversion H2 as [|? ? Hs2 Hy]; subst.
  assert (x = y) as ->.
  { assert (Hyin : y ∈ x :: l) by (rewrite Hp; by left).
    assert (Hxin : x ∈ y :: l2) by (rewrite <-Hp; by left).
    apply elem_of_cons in Hyin as [->|Hyin]; [done|].
    apply elem_of_cons in Hxin as [->|Hxin]; [done|].
    rewrite Forall_forall in Hx, Hy. apply Hanti; [by left|by right| |]; auto. }
  f_equal. apply IH; [by apply Permutation_cons_inv in Hp| |done|done].
  intros; apply Hanti; set_solver.
Qed.

End StableSortLemmas.

(** Checking the neighbours checks every pair, when the relation composes
    through the elements of the list. *)
Lemma adjacent_Ok {E A} (f : A -> A -> result E unit) (P : A -> Prop) (R : A -> A -> Prop) l u :
  (forall x y, f x y = Ok tt -> R x y) ->
  (forall x y z, P y -> R x y -> R y z -> R x z) ->
  Forall P l -> adjacent f l = Ok u -> StronglySorted R l.
Proof.
  intros Hf Htrans. destruct u.
  induction l as [|x l IH]; [constructor|]. destruct l as [|y l]; [repeat constructor|].
  cbn [adjacent]. intros [Hx Hl]%Forall_cons H. ok_inv. specialize (IH Hl H).
  constructor; [done|]. apply Forall_cons in Hl as [Hy _].
  inversion IH as [|? ? _ Hyl]; subst. constructor; [auto|].
  eapply Forall_impl; [exact Hyl|]. intros z Hz. eapply Htrans; eauto.
Qed.

Lemma adjacent_complete {E A} (f : A -> A -> result E unit) (R : A -> A -> Prop) l :
  (forall x y, R x y -> f x y = Ok tt) -> StronglySorted R l -> adjacent f l = Ok tt.
Proof.
  intros Hf Hs. induction Hs as [|x l Hs IH Hx]; [done|]. destruct l as [|y l]; [done|].
  cbn [adjacent]. apply Forall_cons in Hx as [Hxy _]. rewrite (Hf _ _ Hxy). apply IH.
Qed.

Lemma StronglySorted_and {A} (R R' : A -> A -> Prop) l :
  StronglySorted R l -> StronglySorted R' l -> StronglySorted (fun x y => R x y /\ R' x y) l.
Proof.
  induction 1 as [|x l Hs IH Hx]; intros Hs'; constructor;
    apply StronglySorted_inv in Hs' as [Hs' Hx']; [by apply IH|by apply Forall_and].
Qed.

(** A total map carries pairwise relations both ways. *)
Lemma StronglySorted_omap {A B} (f : A -> option B) (R : A -> A -> Prop) (R' : B -> B -> Prop) l :
  Forall (fun a => is_Some (f a)) l ->
  (forall a b x y, a ∈ l -> b ∈ l -> f a = Some x -> f b = Some y -> (R a b <-> R' x y)) ->
  StronglySorted R l <-> StronglySorted R' (omap f l).
Proof.
  intros Hf HR. induction l as [|a l IH]; [split; constructor|].
  apply Forall_cons in Hf as [[x Hx] Hf]. cbn. rewrite Hx.
  assert (IH' : StronglySorted R l <-> StronglySorted R' (omap f l)).
  { apply IH; [done|]. intros a1 b1 x1 y1 Ha Hb. apply HR; by right. }
  assert (Hall : Forall (R a) l <-> Forall (R' x) (omap f l)).
  { rewrite !Forall_forall in *. split; intros H.
    - intros y (b & Hb & E)%list_elem_of_omap. eapply (HR a b); [by left|by right|done|done|auto].
    - intros b Hb. destruct (Hf b Hb) as [y Hy].
      eapply (HR a b); [by left|by right|done|exact Hy|]. apply H, list_elem_of_omap. eauto. }
  split; intros [? ?]%StronglySorted_inv; constructor; tauto.
Qed.

Lemma StronglySorted_impl {A} (R R' : A -> A -> Prop) l :
  (forall x y, x ∈ l -> y ∈ l -> R x y -> R' x y) -> StronglySorted R l -> StronglySorted R' l.
Proof.
  intros Himpl Hs. induction Hs as [|x l Hs IH Hx]; constructor.
  - apply IH. intros; apply Himpl; [by right|by right|done].
  - rewrite Forall_forall in Hx |- *. intros y Hy. apply Himpl; [by left|by right|auto].
Qed.

(** A symmetric relation holds between all pairs in any order of the list. *)
Lemma StronglySorted_perm {A} (R : A -> A -> Prop) l l' :
  (forall x y, R x y -> R y x) -> l ≡ₚ l' -> StronglySorted R l -> StronglySorted R l'.
Proof.
  intros Hsym Hp. induction Hp as [|x l l' Hp IH|x y l|l1 l2 l3 _ IH1 _ IH2]; intros Hs; auto.
  - apply StronglySorted_inv in Hs as [Hs Hx]. constructor; [auto|]. by rewrite <-Hp.
  - apply StronglySorted_inv in Hs as [Hs Hy]. apply StronglySorted_inv in Hs as [Hs Hx].
    apply Forall_cons in Hy as [Hyx Hy]. repeat constructor; auto.
Qed.

Lemma sum_perm l l' : l ≡ₚ l' -> foldr Z.add 0 l = foldr Z.add 0 l'.
Proof. induction 1; cbn; lia. Qed.

Lemma saturating_sum acc l :
  acc <= u64_max -> Forall (fun n => 0 <= n) l ->
  foldl saturating_add acc l = Z.min u64_max (acc + foldr Z.add 0 l).
Proof.
  intros Hacc Hl. revert acc Hacc. induction Hl as [|n l Hn Hl IH]; intros acc Hacc; cbn; [lia|].
  assert (0 <= foldr Z.add 0 l) by (clear IH; induction Hl; cbn; lia).
  rewrite IH; unfold saturating_add; lia.
Qed.

Lemma try_fold_inv {E A S} (I : S -> Prop) (f : S -> A -> result E S) s l s' :
  (forall s a s', I s -> a ∈ l -> f s a = Ok s' -> I s') ->
  I s -> try_fold f s l = Ok s' -> I s'.
Proof.
  revert s. induction l as [|a l IH]; intros s Hf Hs H; cbn in H; ok_inv; [done|].
  eapply IH; [|by eapply Hf; [|by left|]|exact H].
  intros s1 a1 s2 Hs1 Hin. eapply Hf; [exact Hs1|by right].
Qed.

(** As [try_fold_inv], with the elements already folded. *)
Lemma try_fold_prefix {E A S} (I : list A -> S -> Prop) (f : S -> A -> result E S) s l s' :
  (forall pre s a s', I pre s -> f s a = Ok s' -> I (pre ++ [a]) s') ->
  I [] s -> try_fold f s l = Ok s' -> I l s'.
Proof.
  intros Hf. enough (forall pre s, I pre s -> try_fold f s l = Ok s' -> I (pre ++ l) s') as Hg.
  { intros Hs. by apply (Hg []). }
  clear s. induction l as [|a l IH]; intros pre s Hs H; cbn in H; ok_inv.
  { by rewrite app_nil_r. }
  replace (pre ++ a :: l) with ((pre ++ [a]) ++ l) by (by rewrite <-app_assoc). eauto.
Qed.

Lemma elem_of_btree_iter {A} (m : gmap string A) k x : (k, x) ∈ btree_iter m <-> m !! k = Some x.
Proof. unfold btree_iter. rewrite stable_sort_perm. apply elem_of_map_to_list. Qed.

(** Inserting the pairs of a map one by one is their union over the base. *)
Lemma insert_all_lookup {A} (l : list (string * A)) (m : gmap string A) k :
  NoDup l.*1 ->
  (forall v, (k, v) ∈ l -> foldl (fun m kv => <[kv.1 := kv.2]> m) m l !! k = Some v) /\
  (k ∉ l.*1 -> foldl (fun m kv => <[kv.1 := kv.2]> m) m l !! k = m !! k).
Proof.
  revert m. induction l as [|[j w] l IH]; intros m Hnd; cbn in *.
  { split; [|done]. by intros v ?%not_elem_of_nil. }
  apply NoDup_cons in Hnd as [Hj Hnd]. destruct (IH (<[j := w]> m) Hnd) as [H1 H2]. split.
  - intros v [[= -> ->]|Hin]%elem_of_cons; [|by apply H1].
    rewrite H2 by done. apply lookup_insert_eq.
  - rewrite not_elem_of_cons. intros [Hne Hk]. rewrite H2 by done.
    by apply lookup_insert_ne.
Qed.

Lemma btree_iter_keys {A} (m : gmap string A) : NoDup (btree_iter m).*1.
Proof. unfold btree_iter. rewrite stable_sort_perm. apply NoDup_fst_map_to_list. Qed.

Lemma btree_extend_lookup {A} (n m : gmap string A) k :
  foldl (fun m kv => <[kv.1 := kv.2]> m) m (btree_iter n) !! k
  = match n !! k with Some v => Some v | None => m !! k end.
Proof.
  destruct (insert_all_lookup (btree_iter n) m k (btree_iter_keys n)) as [H1 H2].
  destruct (n !! k) as [v|] eqn:E; [by apply H1, elem_of_btree_iter|].
  apply H2. intros ([k' v] & -> & Hin)%list_elem_of_fmap.
  apply elem_of_btree_iter in Hin. cbn in *. congruence.
Qed.

(** ** The byte order on strings *)

Lemma ascii_compare_trans a b c o :
  Ascii.compare a b = o -> Ascii.compare b c = o -> Ascii.compare a c = o.
Proof.
  unfold Ascii.compare. destruct o; rewrite ?N.compare_eq_iff, ?N.compare_lt_iff,
    ?N.compare_gt_iff; intros; try lia; congruence.
Qed.

Lemma ascii_compare_eq a b : Ascii.compare a b = Eq <-> a = b.
Proof.
  unfold Ascii.compare. rewrite N.compare_eq_iff. split; [|by intros ->].
  intros H%(f_equal ascii_of_N). by rewrite !ascii_N_embedding in H.
Qed.

Lemma string_leb_trans a b c :
  string_leb a b = true -> string_leb b c = true -> string_leb a c = true.
Proof.
  unfold string_leb, String.leb. revert b c.
  induction a as [|x a IH]; intros [|y b] [|z c]; cbn; try done.
  destruct (Ascii.compare x y) eqn:Exy, (Ascii.compare y z) eqn:Eyz; try done;
    repeat match goal with
    | H : Ascii.compare _ _ = Eq |- _ => apply ascii_compare_eq in H; subst
    end; try (rewrite ?Exy, ?Eyz; done).
  - rewrite (proj2 (ascii_compare_eq z z) eq_refl). apply IH.
  - by rewrite (ascii_compare_trans _ _ _ _ Exy Eyz).
Qed.

Lemma string_leb_total a b : string_leb a b = true \/ string_leb b a = true.
Proof.
  unfold string_leb, String.leb. rewrite String.compare_antisym.
  destruct (String.compare b a); cbn; auto.
Qed.

Lemma string_leb_antisym a b : string_leb a b = true -> string_leb b a = true -> a = b.
Proof.
  unfold string_leb, String.leb. rewrite (String.compare_antisym b a).
  destruct (String.compare a b) eqn:E; cbn; try done.
  intros _ _. by apply String.compare_eq_iff.
Qed.

(** ** Concatenation and prefixes of strings *)

Lemma append_String a s t :
  String.append (String a s) t = String a (String.append s t).
Proof. done. Qed.
Lemma append_Empty t : String.append EmptyString t = t.
Proof. done. Qed.
Lemma append_nil_r s : String.append s EmptyString = s.
Proof. induction s as [|a s IH]; [done|]. by rewrite append_String, IH. Qed.
Lemma append_inj p s t : String.append p s = String.append p t -> s = t.
Proof. induction p as [|a p IH]; [done|]. rewrite !append_String. intros [= H]. auto. Qed.
Lemma append_assoc p s t :
  String.append (String.append p s) t = String.append p (String.append s t).
Proof. induction p as [|a p IH]; [done|]. by rewrite !append_String, IH. Qed.
Lemma length_append a b :
  String.length (String.append a b) = (String.length a + String.length b)%nat.
Proof. induction a as [|c a IH]; [done|]. rewrite append_String. cbn. by rewrite IH. Qed.

Lemma strip_prefix_Some p s r : strip_prefix p s = Some r <-> s = String.append p r.
Proof.
  revert s. induction p as [|c p IH]; intros s; cbn; [rewrite append_Empty; split; congruence|].
  rewrite append_String. destruct s as [|d s]; [done|].
  destruct (Ascii.eqb_spec c d) as [->|Hne]; [rewrite IH|]; split; congruence.
Qed.
Lemma strip_prefix_app p s : strip_prefix p (String.append p s) = Some s.
Proof. by apply strip_prefix_Some. Qed.
Lemma starts_with_append p s : starts_with p (String.append p s) = true.
Proof. unfold starts_with. by rewrite strip_prefix_app. Qed.

Lemma strip_suffix_Some x s r : strip_suffix x s = Some r -> s = String.append r x.
Proof.
  revert r. induction s as [|a s IH]; intros r H; unfold strip_suffix in H; fold strip_suffix in H.
  - destruct (String.eqb_spec EmptyString x) as [<-|Hne]; [|done]. by injection H as <-.
  - destruct (String.eqb_spec (String a s) x) as [<-|Hne]; [by injection H as <-|].
    destruct (strip_suffix x s) as [t|] eqn:E; [|done]. cbn in H.
    injection H as <-. rewrite append_String. f_equal. by apply IH.
Qed.
