(* ===== verification/Strings.v ===== *)
(** * Strings

    The operations of Rust's [str] and [String] that the program uses beyond
    those of the prelude, on UTF-8 byte strings. *)
From S2P Require Import Prelude.
From Stdlib Require Import ZArith Lia Ascii String.
From stdpp Require Import base list strings gmap.
From stdpp Require Import options.

Local Open Scope Z_scope.

(** ** [trim] and [lines] *)

(** The encodings of the code points with the White_Space property. *)
Definition whitespace_chars : list string :=
  map (fun l => string_of_bytes (map byte_of l))
    ([[9]; [10]; [11]; [12]; [13]; [32]; [194; 133]; [194; 160]; [225; 154; 128]] ++
     map (fun k => [226; 128; 128 + k]) [0; 1; 2; 3; 4; 5; 6; 7; 8; 9; 10; 40; 41; 47] ++
     [[226; 129; 159]; [227; 128; 128]]).

Fixpoint first_some {A B} (f : A -> option B) (l : list A) : option B :=
  match l with
  | [] => None
  | a :: l => match f a with Some b => Some b | None => first_some f l end
  end.

(** Remove something as long as there is something to remove. *)
Fixpoint exhaust (fuel : nat) (f : string -> option string) (s : string) : string :=
  match fuel with
  | O => s
  | S fuel => match f s with Some s => exhaust fuel f s | None => s end
  end.

Definition space_prefix (s : string) : option string :=
  first_some (fun w => Prelude.strip_prefix w s) whitespace_chars.
Definition space_suffix (s : string) : option string :=
  first_some (fun w => Prelude.strip_suffix w s) whitespace_chars.
Definition trim_start (s : string) : string := exhaust (String.length s) space_prefix s.
Definition trim_end (s : string) : string := exhaust (String.length s) space_suffix s.
Definition trim (s : string) : string := trim_end (trim_start s).

Definition newline : ascii := ascii_of_nat 10.
Definition carriage_return : string := String (ascii_of_nat 13) EmptyString.

(** [str::lines]: the pieces ended by a newline, without a final carriage
    return, and what follows the last newline when it is not empty. *)
Fixpoint lines_fuel (fuel : nat) (s : string) : list string :=
  match fuel with
  | O => []
  | S fuel =>
      match split_once newline s with
      | Some (l, rest) =>
          default l (Prelude.strip_suffix carriage_return l) :: lines_fuel fuel rest
      | None => if bool_decide (s = EmptyString) then [] else [s]
      end
  end.
Definition lines (s : string) : list string := lines_fuel (S (String.length s)) s.

(** [s.split(c)] *)
Fixpoint split_char (c : ascii) (s : string) : list string :=
  match s with
  | EmptyString => [EmptyString]
  | String a s =>
      if Ascii.eqb a c then EmptyString :: split_char c s
      else match split_char c s with
           | x :: l => String a x :: l
           | [] => [String a EmptyString]
           end
  end.

(** [s.trim_start_matches('#')] *)
Fixpoint trim_hashes (s : string) : string :=
  match s with
  | String a r => if Ascii.eqb a "#" then trim_hashes r else s
  | EmptyString => EmptyString
  end.

(** ** UTF-8 *)

(** The length of the first chunk of a byte string, and whether it is a whole
    character: [str::from_utf8]'s classification of maximal invalid parts. *)
Definition utf8_chunk (bs : bytes) : nat * bool :=
  match bs with
  | [] => (0%nat, true)
  | a :: rest =>
      if in_range 0 127 a then (1%nat, true)
      else if in_range 194 223 a then
        match rest with
        | b :: _ => if continuation b then (2%nat, true) else (1%nat, false)
        | [] => (1%nat, false)
        end
      else if in_range 224 239 a then
        match rest with
        | b :: rest =>
            if in_range (if u8 a =? 224 then 160 else 128) (if u8 a =? 237 then 159 else 191) b then
              match rest with
              | c :: _ => if continuation c then (3%nat, true) else (2%nat, false)
              | [] => (2%nat, false)
              end
            else (1%nat, false)
        | [] => (1%nat, false)
        end
      else if in_range 240 244 a then
        match rest with
        | b :: rest =>
            if in_range (if u8 a =? 240 then 144 else 128) (if u8 a =? 244 then 143 else 191) b then
              match rest with
              | c :: rest =>
                  if continuation c then
                    match rest with
                    | d :: _ => if continuation d then (4%nat, true) else (3%nat, false)
                    | [] => (3%nat, false)
                    end
                  else (2%nat, false)
              | [] => (2%nat, false)
              end
            else (1%nat, false)
        | [] => (1%nat, false)
        end
      else (1%nat, false)
  end.

(** The replacement character U+FFFD. *)
Definition replacement : bytes := map byte_of [239; 191; 189].

(** [String::from_utf8_lossy]: invalid chunks become the replacement character. *)
Fixpoint lossy (fuel : nat) (bs : bytes) : bytes :=
  match fuel, bs with
  | S fuel, _ :: _ =>
      let '(n, valid) := utf8_chunk bs in
      (if valid then take n bs else replacement) ++ lossy fuel (drop n bs)
  | _, _ => []
  end.
Definition from_utf8_lossy (bs : bytes) : string := string_of_bytes (lossy (length bs) bs).

(** The encoding of a code point below U+0800. *)
Definition utf8_encode (c : Z) : string :=
  string_of_bytes (map byte_of (if c <? 128 then [c] else [192 + c / 64; 128 + c mod 64])).

(** ** Searching, replacing, numbers *)

(** [&s[..n]] and [&s[n..]] *)
Fixpoint str_take (n : nat) (s : string) : string :=
  match n, s with
  | S n, String a s => String a (str_take n s)
  | _, _ => EmptyString
  end.
Fixpoint str_drop (n : nat) (s : string) : string :=
  match n, s with
  | S n, String _ s => str_drop n s
  | _, _ => s
  end.

(** [s.replace(p, q)], [p] not empty. *)
Fixpoint str_replace (fuel : nat) (p q s : string) : string :=
  match fuel, s with
  | S fuel, String a r =>
      match Prelude.strip_prefix p s with
      | Some rest => String.append q (str_replace fuel p q rest)
      | None => String a (str_replace fuel p q r)
      end
  | _, _ => s
  end.

(** The digit of a hexadecimal character. *)
Definition hex_value (a : ascii) : option Z :=
  let n := u8 a in
  if (48 <=? n) && (n <=? 57) then Some (n - 48)
  else if (65 <=? n) && (n <=? 70) then Some (n - 55)
  else if (97 <=? n) && (n <=? 102) then Some (n - 87)
  else None.

Fixpoint parse_hex_digits (acc : Z) (s : string) : option Z :=
  match s with
  | EmptyString => Some acc
  | String a s =>
      d ← hex_value a;
      let acc := acc * 16 + d in
      if acc <=? 255 then parse_hex_digits acc s else None
  end.

(** [u8::from_str_radix(s, 16)]: an optional plus sign and digits. *)
Definition parse_hex_u8 (s : string) : option Z :=
  let digits := match s with String "+" r => r | _ => s end in
  if bool_decide (digits = EmptyString) then None else parse_hex_digits 0 digits.

Definition hex_digit (n : Z) : ascii :=
  ascii_of_N (Z.to_N (if n <? 10 then 48 + n else 55 + n)).
(** [{b:02X}] *)
Definition hex2 (b : Z) : string := String (hex_digit (b / 16)) (String (hex_digit (b mod 16)) EmptyString).

(** ** Lemmas *)

Lemma first_some_None {A B} (f : A -> option B) l a :
  first_some f l = None -> a ∈ l -> f a = None.
Proof.
  induction l as [|x l IH]; cbn; [set_solver|].
  destruct (f x) eqn:E; [done|]. intros H [->|Ha]%elem_of_cons; auto.
Qed.

Lemma first_some_Some {A B} (f : A -> option B) l b :
  first_some f l = Some b -> exists a, a ∈ l /\ f a = Some b.
Proof.
  induction l as [|x l IH]; cbn; [done|].
  destruct (f x) eqn:E; [intros [= <-]; exists x; split; [by left|done]|].
  intros (a & Ha & H)%IH. exists a. split; [by right|done].
Qed.

(** What is left has nothing more to remove, when every removal shortens. *)
Lemma exhaust_done f s n :
  (forall s r, f s = Some r -> (String.length r < String.length s)%nat) ->
  (String.length s <= n)%nat -> f (exhaust n f s) = None.
Proof.
  intros Hf. revert s. induction n as [|n IH]; intros s Hn; cbn.
  - destruct (f s) as [r|] eqn:E; [|done]. apply Hf in E. lia.
  - destruct (f s) as [r|] eqn:E; [|done]. apply IH. apply Hf in E. lia.
Qed.

Lemma exhaust_None f n s : f s = None -> exhaust n f s = s.
Proof. destruct n; cbn; [done|]. by intros ->. Qed.

Lemma whitespace_chars_cons : Forall (fun w => (1 <= String.length w)%nat) whitespace_chars.
Proof. by apply (bool_decide_eq_true_1 (Forall _ _)). Qed.

Lemma space_prefix_shorter s r : space_prefix s = Some r -> (String.length r < String.length s)%nat.
Proof.
  intros (w & Hw & ->%strip_prefix_Some)%first_some_Some.
  rewrite length_append. pose proof (proj1 (Forall_forall _ _) whitespace_chars_cons w Hw). cbn in *. lia.
Qed.

Lemma space_suffix_shorter s r : space_suffix s = Some r -> (String.length r < String.length s)%nat.
Proof.
  intros (w & Hw & ->%strip_suffix_Some)%first_some_Some.
  rewrite length_append. pose proof (proj1 (Forall_forall _ _) whitespace_chars_cons w Hw). cbn in *. lia.
Qed.

Lemma trim_end_prefix n s : exists r, s = String.append (exhaust n space_suffix s) r.
Proof.
  revert s. induction n as [|n IH]; intros s; cbn [exhaust].
  { exists EmptyString. by rewrite append_nil_r. }
  destruct (space_suffix s) as [t|] eqn:E; [|exists EmptyString; by rewrite append_nil_r].
  apply first_some_Some in E as (w & _ & ->%strip_suffix_Some).
  destruct (IH t) as (r & Hr). exists (String.append r w). by rewrite <-append_assoc, <-Hr.
Qed.

Lemma trim_no_space s : space_prefix (trim s) = None /\ space_suffix (trim s) = None.
Proof.
  unfold trim. assert (H : space_prefix (trim_start s) = None).
  { apply exhaust_done; [apply space_prefix_shorter|done]. }
  split; [|apply exhaust_done; [apply space_suffix_shorter|done]].
  destruct (space_prefix (trim_end (trim_start s))) as [r|] eqn:E; [|done].
  apply first_some_Some in E as (w & Hw & E%strip_prefix_Some).
  destruct (trim_end_prefix (String.length (trim_start s)) (trim_start s)) as (q & Hq).
  fold (trim_end (trim_start s)) in Hq. rewrite E, append_assoc in Hq.
  pose proof (first_some_None _ _ w H Hw) as Hn. cbn in Hn.
  rewrite Hq, strip_prefix_app in Hn. done.
Qed.

Lemma trim_idempotent s : trim (trim s) = trim s.
Proof.
  destruct (trim_no_space s) as [H1 H2]. generalize dependent (trim s). clear s. intros s H1 H2.
  unfold trim, trim_start. rewrite (exhaust_None _ _ s H1). by apply exhaust_None.
Qed.

Lemma bytes_of_string_of_bytes bs : bytes_of_string (string_of_bytes bs) = bs.
Proof. apply list_ascii_of_string_of_list_ascii. Qed.
Lemma string_of_bytes_of_string s : string_of_bytes (bytes_of_string s) = s.
Proof. apply string_of_list_ascii_of_string. Qed.

(** A valid byte string consists of valid chunks. *)
Lemma utf8_chunk_valid a bs :
  utf8_valid (a :: bs) = true ->
  exists n, utf8_chunk (a :: bs) = (S n, true) /\ utf8_valid (drop n bs) = true.
Proof.
  cbn [utf8_valid utf8_chunk]. intros H.
  destruct (in_range 0 127 a); [by exists 0%nat|].
  destruct (in_range 194 223 a).
  { destruct bs as [|b bs]; [done|]. apply andb_prop in H as [-> H]. by exists 1%nat. }
  destruct (in_range 224 239 a).
  { destruct bs as [|b [|c bs]]; try done. apply andb_prop in H as [H Hv].
    apply andb_prop in H as [-> ->]. by exists 2%nat. }
  destruct (in_range 240 244 a); [|done].
  destruct bs as [|b [|c [|d bs]]]; try done. apply andb_prop in H as [H Hv].
  apply andb_prop in H as [H Hd]. apply andb_prop in H as [-> ->]. rewrite Hd. by exists 3%nat.
Qed.

Lemma lossy_valid bs n : utf8_valid bs = true -> (length bs <= n)%nat -> lossy n bs = bs.
Proof.
  revert bs. induction n as [|n IH]; intros [|a bs] Hv Hn; cbn [length] in Hn; try done; [lia|].
  destruct (utf8_chunk_valid a bs Hv) as (k & Hk & Hd). unfold lossy. fold lossy. rewrite Hk.
  cbn [drop take app]. rewrite IH; [by rewrite take_drop|done|]. rewrite length_drop. lia.
Qed.

(** Valid UTF-8 is read as it is. *)
Lemma from_utf8_lossy_valid s :
  utf8_valid (bytes_of_string s) = true -> from_utf8_lossy (bytes_of_string s) = s.
Proof.
  intros H. unfold from_utf8_lossy. rewrite lossy_valid by (done || lia).
  apply string_of_bytes_of_string.
Qed.

Lemma length_str_drop n s : String.length (str_drop n s) = (String.length s - n)%nat.
Proof.
  revert s. induction n as [|n IH]; intros [|a s]; cbn [str_drop String.length]; try lia.
  rewrite IH. lia.
Qed.

Lemma str_take_drop n s : String.append (str_take n s) (str_drop n s) = s.
Proof.
  revert s. induction n as [|n IH]; intros [|a s]; cbn [str_take str_drop]; try done.
  rewrite append_String. by rewrite IH.
Qed.

Lemma str_find_le p s n :
  str_find p s = Some n -> (n + String.length p <= String.length s)%nat.
Proof.
  revert n. induction s as [|a s IH]; intros n H; unfold str_find in H; fold str_find in H.
  - unfold starts_with in H. destruct (Prelude.strip_prefix p EmptyString) as [r|] eqn:E; [|done].
    injection H as <-. apply strip_prefix_Some in E. by destruct p.
  - unfold starts_with in H. destruct (Prelude.strip_prefix p (String a s)) as [r|] eqn:E.
    + injection H as <-. apply strip_prefix_Some in E. rewrite E, length_append. lia.
    + destruct (str_find p s) as [m|]; [|done]. cbn in H. injection H as <-.
      specialize (IH m eq_refl). cbn. lia.
Qed.

Lemma str_find_empty s : str_find EmptyString s = Some 0%nat.
Proof. by destruct s. Qed.

Lemma str_find_zero p s : str_find p s = Some 0%nat -> starts_with p s = true.
Proof.
  destruct s as [|a s]; unfold str_find; fold str_find; destruct (starts_with p _); try done.
  by destruct (str_find p s).
Qed.

Lemma concat_strings_app l k :
  concat_strings (l ++ k) = String.append (concat_strings l) (concat_strings k).
Proof.
  induction l as [|a l IH]; cbn [concat_strings foldr app]; [done|].
  unfold concat_strings in *. by rewrite IH, append_assoc.
Qed.

(** ** Characters *)

(** A string that is one character. *)
Fixpoint all_continuation (s : string) : bool :=
  match s with EmptyString => true | String a s => continuation a && all_continuation s end.
Definition is_char (c : string) : bool :=
  match c with String a r => negb (continuation a) && all_continuation r | EmptyString => false end.

Lemma chars_nil s : chars s = [] -> s = EmptyString.
Proof.
  destruct s as [|a s]; [done|]. cbn. destruct (chars s) as [|c cs]; [done|].
  by destruct (head_continuation s).
Qed.

Lemma chars_char a r s :
  all_continuation r = true -> head_continuation s = false ->
  chars (String a (String.append r s)) = String a r :: chars s.
Proof.
  revert a. induction r as [|b r IH]; intros a Hr Hs.
  - rewrite append_Empty. cbn [chars]. destruct (chars s) as [|c cs] eqn:E; [done|]. by rewrite Hs.
  - cbn [all_continuation] in Hr. apply andb_prop in Hr as [Hb Hr].
    rewrite append_String. change (chars (String a (String b (String.append r s)))) with
      (match chars (String b (String.append r s)) with
       | c :: cs => if head_continuation (String b (String.append r s)) then String a c :: cs
                    else String a EmptyString :: c :: cs
       | [] => [String a EmptyString]
       end).
    rewrite IH by done. cbn [head_continuation]. by rewrite Hb.
Qed.

Lemma chars_concat l : Forall (fun c => is_char c = true) l -> chars (concat_strings l) = l.
Proof.
  intros Hl. enough (H : chars (concat_strings l) = l /\ head_continuation (concat_strings l) = false)
    by apply H.
  induction Hl as [|c l Hc _ [IH IHh]]; [done|]. destruct c as [|a r]; [done|].
  cbn [is_char] in Hc. apply andb_prop in Hc as [Ha Hr]. apply negb_true_iff in Ha.
  cbn [concat_strings foldr]. fold (concat_strings l). rewrite append_String. split; [|exact Ha].
  rewrite chars_char by done. by rewrite IH.
Qed.
