(* ===== verification/Errors.v ===== *)
(** * Errors: the taxonomy of crates/dyninfer-error

    One constructor per variant of [DynInferError], one record per error
    struct.  A rendered message is kept as the format string of the source
    with its arguments ([text]): two errors are told apart by what the code
    puts into them, and no decimal printing is modelled. *)
From S2P Require Import Prelude.
From Stdlib Require Import ZArith Lia Ascii String.
From stdpp Require Import base list strings.
From stdpp Require Import options.

Local Open Scope Z_scope.

Inductive text : Type :=
  | Format (template : string) (arguments : list format_arg)
with format_arg : Type :=
  | AStr (s : string)
  | AInt (n : Z)
  | AInts (l : list Z)
  | AStrs (l : list string)
  | AText (t : text).

Definition lit (s : string) : text := Format s [].

Record IoError := { io_message : text; io_path : option string }.
Record UnsupportedContainerError :=
  { uc_message : text; uc_path : option string; uc_probed_formats : list string }.
Record CheckpointValidationError :=
  { cv_message : text; cv_key : option string; cv_detail : option text }.
Record UnsupportedEncodingError := {
  ue_message : text;
  ue_key : option string;
  ue_codec : option text;
  ue_codec_version : option Z;
  ue_expected : option text;
  ue_actual : option text;
}.
Record ArchitectureMismatchError :=
  { am_message : text; am_architecture_id : option string; am_detail : option text }.
Record BindingError := {
  be_message : text;
  be_slot : option string;
  be_checkpoint_key : option string;
  be_expected : option text;
  be_actual : option text;
}.

Inductive Severity := SevError | SevWarning | SevNote | SevRemark.

Record Diagnostic := {
  diag_code : string;
  diag_severity : Severity;
  diag_message : text;
  diag_architecture_op : option string;
  diag_parameter_slot : option string;
  diag_checkpoint_key : option string;
  diag_expected : option text;
  diag_actual : option text;
  diag_pass_name : option string;
  diag_suggestion : option text;
}.

Record CompilationError :=
  { ce_message : text; ce_pass : option string; ce_diagnostics : list Diagnostic }.
Record IreeRuntimeError := { ir_message : text; ir_status_code : option Z }.
Record DeviceError :=
  { de_message : text; de_driver : option string; de_device : option string }.
Record CacheError :=
  { cache_message : text; cache_digest : option string; cache_path : option string }.
Record ConfigError := { config_message : text }.

Inductive DynInferError : Type :=
  | Io (e : IoError)
  | UnsupportedContainer (e : UnsupportedContainerError)
  | InvalidCheckpoint (e : CheckpointValidationError)
  | UnsupportedEncoding (e : UnsupportedEncodingError)
  | ArchitectureMismatch (e : ArchitectureMismatchError)
  | Binding (e : BindingError)
  | Compilation (e : CompilationError)
  | IreeRuntime (e : IreeRuntimeError)
  | Device (e : DeviceError)
  | Cache (e : CacheError)
  | Config (e : ConfigError)
  | Internal (message : text).

Abbreviation Result := (result DynInferError).

Definition code (e : DynInferError) : string :=
  match e with
  | Io _ => "E_IO"
  | UnsupportedContainer _ => "E_UNSUPPORTED_CONTAINER"
  | InvalidCheckpoint _ => "E_INVALID_CHECKPOINT"
  | UnsupportedEncoding _ => "E_UNSUPPORTED_ENCODING"
  | ArchitectureMismatch _ => "E_ARCHITECTURE_MISMATCH"
  | Binding _ => "E_BINDING"
  | Compilation _ => "E_COMPILATION"
  | IreeRuntime _ => "E_IREE_RUNTIME"
  | Device _ => "E_DEVICE"
  | Cache _ => "E_CACHE"
  | Config _ => "E_CONFIG"
  | Internal _ => "E_INTERNAL"
  end.

Definition io (message : text) : DynInferError :=
  Io {| io_message := message; io_path := None |}.
Definition io_path_error (path : string) (message : text) : DynInferError :=
  Io {| io_message := message; io_path := Some path |}.
Definition internal (message : text) : DynInferError := Internal message.

(** The [InvalidCheckpoint] literal that the readers build inline. *)
Definition invalid_checkpoint (message : text) (key : option string)
    (detail : option text) : DynInferError :=
  InvalidCheckpoint {| cv_message := message; cv_key := key; cv_detail := detail |}.

Definition Diagnostic_new (severity : Severity) (code : string) (message : text) : Diagnostic :=
  {| diag_code := code; diag_severity := severity; diag_message := message;
     diag_architecture_op := None; diag_parameter_slot := None;
     diag_checkpoint_key := None; diag_expected := None; diag_actual := None;
     diag_pass_name := None; diag_suggestion := None |}.
Definition Diagnostic_error := Diagnostic_new SevError.
Definition Diagnostic_warning := Diagnostic_new SevWarning.

(** [Display] of a severity and of a diagnostic. *)
Definition Severity_display (s : Severity) : string :=
  match s with
  | SevError => "error" | SevWarning => "warning" | SevNote => "note" | SevRemark => "remark"
  end.
Definition Diagnostic_display (d : Diagnostic) : text :=
  let head := Format "{}[{}]: {}"
    [AStr (Severity_display (diag_severity d)); AStr (diag_code d); AText (diag_message d)] in
  let keyed := match diag_checkpoint_key d with
               | Some key => Format "{} (key={key})" [AText head; AStr key]
               | None => head
               end in
  match diag_suggestion d with
  | Some suggestion => Format "{}; suggestion: {suggestion}" [AText keyed; AText suggestion]
  | None => keyed
  end.

(** [Display]: the category and the message of the inner error. *)
Definition error_display (e : DynInferError) : text :=
  let show category message := Format category [AText message] in
  match e with
  | Io e => show "I/O error: {0}" (io_message e)
  | UnsupportedContainer e => show "unsupported container: {0}" (uc_message e)
  | InvalidCheckpoint e => show "invalid checkpoint: {0}" (cv_message e)
  | UnsupportedEncoding e => show "unsupported encoding: {0}" (ue_message e)
  | ArchitectureMismatch e => show "architecture mismatch: {0}" (am_message e)
  | Binding e => show "binding error: {0}" (be_message e)
  | Compilation e => show "compilation error: {0}" (ce_message e)
  | IreeRuntime e => show "IREE runtime error: {0}" (ir_message e)
  | Device e => show "device error: {0}" (de_message e)
  | Cache e => show "cache error: {0}" (cache_message e)
  | Config e => show "configuration error: {0}" (config_message e)
  | Internal message => show "internal error: {0}" message
  end.
