(* ===== verification/Serde.v ===== *)
(** * The interface to serde_json and byteorder

    [serde_json::Value] and [byteorder::LittleEndian] are third-party code.
    The development is parametric in them: a class carries the operations the
    source calls together with the documented laws it relies on, and every
    component that touches a JSON value takes an instance.  Module [Json] is
    one concrete instance, used to evaluate the model on concrete inputs. *)
From S2P Require Import Prelude Errors.
From Stdlib Require Import ZArith Lia Ascii String.
From Corelib Require Import SpecFloat.
From stdpp Require Import base list strings gmap.
From stdpp Require Import options.

Local Open Scope Z_scope.

(** ** IEEE 754 values: [f32] and [f64] as [spec_float] *)

Abbreviation f64 := spec_float (only parsing).
Abbreviation f32 := spec_float (only parsing).

(** [float_of_bits p w v] is the value of the bit pattern [v] of a format
    with [p] bits of precision and [w] exponent bits. *)
Definition float_of_bits (p w v : Z) : spec_float :=
  let m := v mod 2 ^ (p - 1) in
  let e := (v / 2 ^ (p - 1)) mod 2 ^ w in
  let s := Z.odd (v / 2 ^ (p - 1 + w)) in
  let bias := 2 ^ (w - 1) - 1 in
  if e =? 2 ^ w - 1 then (if m =? 0 then S754_infinity s else S754_nan)
  else if e =? 0 then
    match m with Zpos q => S754_finite s q (2 - bias - p) | _ => S754_zero s end
  else
    match 2 ^ (p - 1) + m with
    | Zpos q => S754_finite s q (e - bias - (p - 1))
    | _ => S754_zero s
    end.

Definition f32_of_bits : Z -> f32 := float_of_bits 24 8.
Definition f64_of_bits : Z -> f64 := float_of_bits 53 11.

(** The exact widening [x as f64]. *)
Definition f64_of_f32 (x : f32) : f64 :=
  match x with
  | S754_finite s m e => binary_normalize 53 1024 (cond_Zopp s (Zpos m)) e s
  | _ => x
  end.

(** The rounding narrowing [x as f32]. *)
Definition f32_of_f64 (x : f64) : f32 :=
  match x with
  | S754_finite s m e => binary_normalize 24 128 (cond_Zopp s (Zpos m)) e s
  | _ => x
  end.

(** [x as f64] for an unsigned integer. *)
Definition f64_of_Z (n : Z) : f64 := binary_normalize 53 1024 n 0 false.

Definition is_finite (x : spec_float) : bool :=
  match x with S754_infinity _ | S754_nan => false | _ => true end.

(** ** JSON values *)

Class SerdeJson : Type := {
  Value : Type;
  value_null : Value;
  value_bool : bool -> Value;
  value_u64 : Z -> Value;
  value_i64 : Z -> Value;
  value_f64 : f64 -> Value;
  value_string : string -> Value;
  value_array : list Value -> Value;
  as_bool : Value -> option bool;
  as_u64 : Value -> option Z;
  as_f64 : Value -> option f64;
  as_str : Value -> option string;
  as_array : Value -> option (list Value);
  (** The members of an object in the iteration order of its map. *)
  as_object : Value -> option (list (string * Value));
  as_u64_value n : is_u64 n -> as_u64 (value_u64 n) = Some n;
  as_u64_range v n : as_u64 v = Some n -> is_u64 n;
  as_str_value s : as_str (value_string s) = Some s;
  as_array_value l : as_array (value_array l) = Some l;
  as_u64_string s : as_u64 (value_string s) = None;
}.

(** [Number::from_f64(x).map(Value::Number).unwrap_or(Value::Null)], which is
    also [Value::from(x)]. *)
Definition number_from_f64 {SJ : SerdeJson} (x : f64) : Value :=
  if is_finite x then value_f64 x else value_null.

(** [map.get(k)] of an object. *)
Definition obj_get {SJ : SerdeJson} (obj : list (string * Value)) (k : string) : option Value :=
  snd <$> List.find (fun kv => String.eqb kv.1 k) obj.

(** ** Little-endian readers *)

Class LittleEndian : Type := {
  read_u16_le : bytes -> Z;
  read_u32_le : bytes -> Z;
  read_u64_le : bytes -> Z;
  read_u16_le_spec bs : length bs = 2%nat -> read_u16_le bs = le_value bs;
  read_u32_le_spec bs : length bs = 4%nat -> read_u32_le bs = le_value bs;
  read_u64_le_spec bs : length bs = 8%nat -> read_u64_le bs = le_value bs;
}.

(** ** Metadata maps *)

(** [MetadataMap = BTreeMap<String, Value>]. *)
Abbreviation MetadataMap := (gmap string Value).

(** [map.entry(k).or_insert(v)]. *)
Definition or_insert {A} (m : gmap string A) (k : string) (v : A) : gmap string A :=
  match m !! k with Some _ => m | None => <[k := v]> m end.

(** ** A concrete instance *)

Module Json.

#[warnings="-register-all"]
Inductive json : Type :=
  | JNull
  | JBool (b : bool)
  | JInt (n : Z)
  | JFloat (x : f64)
  | JString (s : string)
  | JArray (l : list json)
  | JObject (l : list (string * json)).

Definition json_u64 (v : json) : option Z :=
  match v with
  | JInt n => if (0 <=? n) && (n <=? u64_max) then Some n else None
  | _ => None
  end.

Definition json_f64 (v : json) : option f64 :=
  match v with
  | JInt n => Some (f64_of_Z n)
  | JFloat x => Some x
  | _ => None
  end.

Lemma json_u64_value n : is_u64 n -> json_u64 (JInt n) = Some n.
Proof.
  unfold is_u64, json_u64. intros [H1 H2].
  apply Z.leb_le in H1 as ->. by apply Z.leb_le in H2 as ->.
Qed.

Lemma json_u64_range v n : json_u64 v = Some n -> is_u64 n.
Proof.
  unfold is_u64, json_u64. destruct v; try discriminate.
  case_match eqn:E; intros [= <-]. apply andb_prop in E as [E1 E2].
  apply Z.leb_le in E1, E2. done.
Qed.

#[export] Instance serde : SerdeJson := {|
  Value := json;
  value_null := JNull;
  value_bool := JBool;
  value_u64 := JInt;
  value_i64 := JInt;
  value_f64 := JFloat;
  value_string := JString;
  value_array := JArray;
  as_bool v := match v with JBool b => Some b | _ => None end;
  as_u64 := json_u64;
  as_f64 := json_f64;
  as_str v := match v with JString s => Some s | _ => None end;
  as_array v := match v with JArray l => Some l | _ => None end;
  as_object v := match v with JObject l => Some l | _ => None end;
  as_u64_value := json_u64_value;
  as_u64_range := json_u64_range;
  as_str_value s := eq_refl;
  as_array_value l := eq_refl;
  as_u64_string s := eq_refl;
|}.

#[export] Instance little_endian : LittleEndian := {|
  read_u16_le := le_value;
  read_u32_le := le_value;
  read_u64_le := le_value;
  read_u16_le_spec bs _ := eq_refl;
  read_u32_le_spec bs _ := eq_refl;
  read_u64_le_spec bs _ := eq_refl;
|}.

End Json.
