(* ===== verification/Floats.v ===== *)
(** * IEEE floats: bit patterns, orders, rounding and casts

    What the code uses of [f32] and [f64] beyond arithmetic: [to_bits] and its
    inverse, [total_cmp], [max] and [min], [round], [clamp] and the saturating
    casts of [as]. A float is a [spec_float]; every NaN is one value. *)
From S2P Require Import Prelude Errors Serde.
From Stdlib Require Import ZArith Lia Ascii String.
From Corelib Require Import SpecFloat.
From stdpp Require Import base list strings.
From stdpp Require Import options.

Local Open Scope Z_scope.

(** ** Bit patterns *)

(** The bit pattern of a magnitude [m * 2 ^ e] in a format with [p] bits of
    precision and [w] exponent bits. *)
Definition magnitude_bits (p w m e : Z) : Z :=
  if m <? 2 ^ (p - 1) then m
  else (e + (2 ^ (w - 1) - 1) + (p - 1)) * 2 ^ (p - 1) + (m - 2 ^ (p - 1)).

Definition sign_bits (p w : Z) (s : bool) : Z := if s then 2 ^ (p - 1 + w) else 0.

(** [to_bits]. *)
Definition bits_of_float (p w : Z) (x : spec_float) : Z :=
  match x with
  | S754_zero s => sign_bits p w s
  | S754_infinity s => sign_bits p w s + (2 ^ w - 1) * 2 ^ (p - 1)
  | S754_nan => (2 ^ w - 1) * 2 ^ (p - 1) + 2 ^ (p - 2)
  | S754_finite s m e => sign_bits p w s + magnitude_bits p w (Zpos m) e
  end.

Definition bits_of_f32 : f32 -> Z := bits_of_float 24 8.
Definition bits_of_f64 : f64 -> Z := bits_of_float 53 11.

(** The values of the two types among the [spec_float]s. *)
Definition is_f32 (x : spec_float) : bool := valid_binary 24 128 x.
Definition is_f64 (x : spec_float) : bool := valid_binary 53 1024 x.

(** ** The total order of [total_cmp] *)

(** The key it compares: the bits of a positive float, the complement of the
    magnitude of a negative one. *)
Definition total_key (p w : Z) (x : spec_float) : Z :=
  let b := bits_of_float p w x in
  if b <? 2 ^ (p - 1 + w) then b else - (b - 2 ^ (p - 1 + w)) - 1.
Definition f32_key : f32 -> Z := total_key 24 8.
Definition f64_key : f64 -> Z := total_key 53 11.

(** ** Operations *)

Definition is_nan (x : spec_float) : bool := match x with S754_nan => true | _ => false end.

(** [a.max(b)] and [a.min(b)], which prefer a number to a NaN. *)
Definition float_max (a b : spec_float) : spec_float :=
  if is_nan a then b else if SFltb a b then b else a.
Definition float_min (a b : spec_float) : spec_float :=
  if is_nan a then b else if SFltb b a then b else a.
(** [x.clamp(lo, hi)] with [lo <= hi]. *)
Definition clamp (lo hi x : spec_float) : spec_float :=
  if SFltb x lo then lo else if SFltb hi x then hi else x.

Definition f32_add : f32 -> f32 -> f32 := SFadd 24 128.
Definition f32_sub : f32 -> f32 -> f32 := SFsub 24 128.
Definition f32_mul : f32 -> f32 -> f32 := SFmul 24 128.
Definition f32_div : f32 -> f32 -> f32 := SFdiv 24 128.
(** [n as f32] for an integer. *)
Definition f32_of_Z (n : Z) : f32 := binary_normalize 24 128 n 0 false.
Definition f32_zero : f32 := S754_zero false.
Definition f32_one : f32 := f32_of_Z 1.

Definition f64_add : f64 -> f64 -> f64 := SFadd 53 1024.
Definition f64_sub : f64 -> f64 -> f64 := SFsub 53 1024.
Definition f64_mul : f64 -> f64 -> f64 := SFmul 53 1024.
Definition f64_div : f64 -> f64 -> f64 := SFdiv 53 1024.
Definition f64_sqrt : f64 -> f64 := SFsqrt 53 1024.
Definition f64_zero : f64 := S754_zero false.
Definition f64_one : f64 := f64_of_Z 1.
(** [iter.sum::<f64>()], which starts from the negative zero. *)
Definition f64_sum (l : list f64) : f64 := foldl f64_add (S754_zero true) l.

(** The magnitude of a finite float rounded to an integer, half away from zero. *)
Definition round_magnitude (m : positive) (e : Z) : Z :=
  if 0 <=? e then Zpos m * 2 ^ e
  else (Zpos m + 2 ^ (- e - 1)) / 2 ^ (- e).

(** [x.round()]. *)
Definition f32_round (x : f32) : f32 :=
  match x with
  | S754_finite s m e =>
      if 0 <=? e then x
      else binary_normalize 24 128 (cond_Zopp s (round_magnitude m e)) 0 s
  | _ => x
  end.

(** [x as iN] or [x as uN]: towards zero, saturating, NaN to zero. *)
Definition saturate (lo hi n : Z) : Z := Z.max lo (Z.min hi n).
Definition float_trunc (m : positive) (e : Z) : Z :=
  if 0 <=? e then Zpos m * 2 ^ e else Zpos m / 2 ^ (- e).
Definition cast_int (lo hi : Z) (x : spec_float) : Z :=
  match x with
  | S754_finite s m e => saturate lo hi (cond_Zopp s (float_trunc m e))
  | S754_infinity s => if s then lo else hi
  | S754_zero _ | S754_nan => 0
  end.
Definition f32_as_i32 : f32 -> Z := cast_int (- 2 ^ 31) (2 ^ 31 - 1).
Definition f32_as_u8 : f32 -> Z := cast_int 0 255.

(** * Lemmas *)

(** ** Digits *)

Lemma digits2_pos_bounds m :
  2 ^ (Zpos (digits2_pos m) - 1) <= Zpos m < 2 ^ Zpos (digits2_pos m).
Proof.
  assert (Hpow : forall d, 1 <= d -> 2 ^ d = 2 * 2 ^ (d - 1)).
  { intros d Hd. rewrite <-Z.pow_succ_r by lia. f_equal. lia. }
  induction m as [m IH|m IH|]; cbn [digits2_pos]; [..|done].
  all: rewrite Pos2Z.inj_succ; set (d := Zpos (digits2_pos m)) in *.
  all: pose proof (Hpow d ltac:(lia)); pose proof (Hpow (Z.succ d) ltac:(lia)) as H2.
  all: replace (Z.succ d - 1) with d in * by lia; lia.
Qed.

Section Format.
Set Default Proof Using "All".
(** A format: [p] bits of precision, [w] exponent bits. *)
Variables p w : Z.
Hypothesis Hp : 2 <= p.
Hypothesis Hw : 3 <= w.
Let bias := 2 ^ (w - 1) - 1.
Let emax := 2 ^ (w - 1).

(** What validity says of a finite float: its mantissa is normalised, or its
    exponent is the least. *)
Lemma bounded_spec m e :
  bounded p emax m e = true <->
  Zpos m < 2 ^ p /\ 3 - emax - p <= e <= emax - p /\ (2 ^ (p - 1) <= Zpos m \/ e = 3 - emax - p).
Proof.
  unfold bounded, canonical_mantissa, fexp, emin. rewrite andb_true_iff, Z.eqb_eq, Z.leb_le.
  pose proof (digits2_pos_bounds m) as [Hlo Hhi]. set (d := Zpos (digits2_pos m)) in *.
  assert (Hd : 1 <= d) by lia.
  assert (Hmono : forall a b, 0 <= a <= b -> 2 ^ a <= 2 ^ b)
    by (intros; apply Z.pow_le_mono_r; lia).
  split.
  - intros [He1 He2]. assert (d <= p) by lia. pose proof (Hmono d p ltac:(lia)).
    split; [lia|]. split; [lia|]. destruct (decide (d = p)) as [->|]; [left; lia|right; lia].
  - intros (Hm & He & Hn). split; [|lia].
    assert (d <= p). { apply Z.nlt_ge. intros Hlt. pose proof (Hmono p (d - 1) ltac:(lia)). lia. }
    destruct Hn as [Hn|Hn]; [|lia].
    assert (p <= d). { apply Z.nlt_ge. intros Hlt. pose proof (Hmono d (p - 1) ltac:(lia)). lia. }
    lia.
Qed.

Lemma pow_split : 2 ^ p = 2 * 2 ^ (p - 1).
Proof. rewrite <-Z.pow_succ_r by lia. f_equal. lia. Qed.
Lemma pow_pos_1 : 2 <= 2 ^ (p - 1).
Proof. replace 2 with (2 ^ 1) at 1 by done. apply Z.pow_le_mono_r; lia. Qed.
Lemma pow_w : 2 ^ w = 2 * 2 ^ (w - 1).
Proof. rewrite <-Z.pow_succ_r by lia. f_equal. lia. Qed.
Lemma pow_w_1 : 4 <= 2 ^ (w - 1).
Proof. replace 4 with (2 ^ 2) by done. apply Z.pow_le_mono_r; lia. Qed.
Lemma pow_pw : 2 ^ (p - 1 + w) = 2 ^ w * 2 ^ (p - 1).
Proof. rewrite Z.pow_add_r by lia. lia. Qed.

(** The exponent field and the fraction of a finite float. *)
Definition exponent_field (m : positive) (e : Z) : Z :=
  if Zpos m <? 2 ^ (p - 1) then 0 else e + bias + (p - 1).
Definition fraction (m : positive) : Z :=
  if Zpos m <? 2 ^ (p - 1) then Zpos m else Zpos m - 2 ^ (p - 1).

Lemma magnitude_fields m e :
  magnitude_bits p w (Zpos m) e = exponent_field m e * 2 ^ (p - 1) + fraction m.
Proof. unfold magnitude_bits, exponent_field, fraction, bias. case_match; lia. Qed.

Lemma fields_range m e :
  bounded p emax m e = true ->
  0 <= exponent_field m e < 2 ^ w - 1 /\ 0 <= fraction m < 2 ^ (p - 1).
Proof.
  intros Hb%bounded_spec. pose proof pow_split. pose proof pow_pos_1. pose proof pow_w. pose proof pow_w_1.
  unfold exponent_field, fraction, bias, emax in *.
  destruct (Z.ltb_spec (Zpos m) (2 ^ (p - 1))); split; lia.
Qed.

(** A bit pattern from its fields is read as those fields. *)
Lemma float_of_fields s f m :
  0 <= f < 2 ^ w -> 0 <= m < 2 ^ (p - 1) ->
  let v := sign_bits p w s + (f * 2 ^ (p - 1) + m) in
  v mod 2 ^ (p - 1) = m /\ (v / 2 ^ (p - 1)) mod 2 ^ w = f /\ Z.odd (v / 2 ^ (p - 1 + w)) = s.
Proof.
  intros Hf Hm v. unfold v. pose proof pow_pos_1. rewrite pow_pw.
  assert (Hs : sign_bits p w s = Z.b2z s * 2 ^ w * 2 ^ (p - 1)).
  { unfold sign_bits. rewrite pow_pw. destruct s; cbn; lia. }
  assert (Hv : sign_bits p w s + (f * 2 ^ (p - 1) + m) = m + (f + Z.b2z s * 2 ^ w) * 2 ^ (p - 1))
    by (rewrite Hs; lia).
  rewrite Hv. split; [rewrite Z.mod_add by lia; by apply Z.mod_small|].
  assert (Hq : (m + (f + Z.b2z s * 2 ^ w) * 2 ^ (p - 1)) / 2 ^ (p - 1) = f + Z.b2z s * 2 ^ w).
  { rewrite Z.div_add by lia. rewrite Z.div_small by lia. lia. }
  split.
  - rewrite Hq, Z.mod_add by lia. by apply Z.mod_small.
  - rewrite (Z.mul_comm (2 ^ w)), <-Z.div_div by lia.
    rewrite Hq, Z.div_add, (Z.div_small f) by lia. by destruct s.
Qed.

(** Round trip: the bits of a float are read back as that float. *)
Lemma float_of_bits_of_float x :
  valid_binary p emax x = true -> float_of_bits p w (bits_of_float p w x) = x.
Proof.
  intros Hx. pose proof pow_pos_1. pose proof pow_w. pose proof pow_w_1.
  assert (Hh : 1 <= 2 ^ (p - 2)) by (pose proof (Z.pow_pos_nonneg 2 (p - 2) ltac:(lia) ltac:(lia)); lia).
  assert (Hh2 : 2 ^ (p - 1) = 2 * 2 ^ (p - 2)) by (rewrite <-Z.pow_succ_r by lia; f_equal; lia).
  destruct x as [s|s| |s m e]; unfold float_of_bits; cbn [bits_of_float].
  - destruct (float_of_fields s 0 0) as (R1 & R2 & R3); [lia|lia|].
    rewrite Z.mul_0_l, !Z.add_0_r in R1, R2, R3. rewrite R1, R2, R3. cbn zeta.
    rewrite (proj2 (Z.eqb_neq 0 _)) by lia. done.
  - destruct (float_of_fields s (2 ^ w - 1) 0) as (R1 & R2 & R3); [lia|lia|].
    rewrite Z.add_0_r in R1, R2, R3. rewrite R1, R2, R3. cbn zeta. by rewrite Z.eqb_refl.
  - destruct (float_of_fields false (2 ^ w - 1) (2 ^ (p - 2))) as (R1 & R2 & R3); [lia|lia|].
    unfold sign_bits in R1, R2, R3. rewrite Z.add_0_l in R1, R2, R3. rewrite R1, R2, R3. cbn zeta.
    rewrite Z.eqb_refl, (proj2 (Z.eqb_neq (2 ^ (p - 2)) 0)) by lia. done.
  - cbn [valid_binary] in Hx. destruct (fields_range m e Hx) as [Hf Hm].
    rewrite magnitude_fields.
    destruct (float_of_fields s (exponent_field m e) (fraction m)) as (R1 & R2 & R3); [lia|lia|].
    rewrite R1, R2, R3. cbn zeta. rewrite (proj2 (Z.eqb_neq (exponent_field m e) (2 ^ w - 1))) by lia.
    apply bounded_spec in Hx. unfold exponent_field, fraction, emax, bias in *.
    destruct (Z.ltb_spec (Zpos m) (2 ^ (p - 1))) as [Hs|Hs].
    + rewrite Z.eqb_refl. f_equal. lia.
    + rewrite (proj2 (Z.eqb_neq _ 0)) by lia.
      replace (2 ^ (p - 1) + (Zpos m - 2 ^ (p - 1))) with (Zpos m) by lia. f_equal. lia.
Qed.

Lemma bits_range x :
  valid_binary p emax x = true -> 0 <= bits_of_float p w x < 2 ^ (p + w).
Proof.
  intros Hx. pose proof pow_pos_1. pose proof pow_w. pose proof pow_w_1. pose proof pow_pw.
  assert (Hpw : 2 ^ (p + w) = 2 * 2 ^ (p - 1 + w)) by (rewrite <-Z.pow_succ_r by lia; f_equal; lia).
  assert (Hh : 2 ^ (p - 1) = 2 * 2 ^ (p - 2)) by (rewrite <-Z.pow_succ_r by lia; f_equal; lia).
  assert (Hs : forall s, 0 <= sign_bits p w s <= 2 ^ (p - 1 + w))
    by (intros []; unfold sign_bits; lia).
  destruct x as [s|s| |s m e]; cbn [bits_of_float]; try specialize (Hs s); [lia|nia|nia|].
  cbn [valid_binary] in Hx. destruct (fields_range m e Hx) as [Hf Hm].
  rewrite magnitude_fields. nia.
Qed.

(** A bit pattern is its sign, its exponent field and its fraction. *)
Lemma bits_fields v :
  0 <= v < 2 ^ (p + w) ->
  v = sign_bits p w (Z.odd (v / 2 ^ (p - 1 + w)))
      + ((v / 2 ^ (p - 1)) mod 2 ^ w * 2 ^ (p - 1) + v mod 2 ^ (p - 1)).
Proof.
  intros Hv. pose proof pow_pos_1. pose proof pow_w. pose proof pow_w_1. pose proof pow_pw.
  assert (Hpw : 2 ^ (p + w) = 2 * 2 ^ (p - 1 + w)) by (rewrite <-Z.pow_succ_r by lia; f_equal; lia).
  pose proof (Z.div_mod v (2 ^ (p - 1)) ltac:(lia)) as E1.
  pose proof (Z.div_mod (v / 2 ^ (p - 1)) (2 ^ w) ltac:(lia)) as E2.
  rewrite Z.div_div, (Z.mul_comm (2 ^ (p - 1))), <-pow_pw in E2 by lia.
  assert (0 <= v / 2 ^ (p - 1 + w) < 2).
  { split; [apply Z.div_pos; lia|]. apply Z.div_lt_upper_bound; lia. }
  assert (Hs : sign_bits p w (Z.odd (v / 2 ^ (p - 1 + w))) = v / 2 ^ (p - 1 + w) * 2 ^ (p - 1 + w)).
  { assert (v / 2 ^ (p - 1 + w) = 0 \/ v / 2 ^ (p - 1 + w) = 1) as [-> | ->] by lia; unfold sign_bits; cbn [Z.odd]; lia. }
  rewrite Hs. nia.
Qed.

(** The reading of a bit pattern is a value of the format. *)
Lemma float_of_bits_valid v : valid_binary p emax (float_of_bits p w v) = true.
Proof.
  pose proof pow_split. pose proof pow_pos_1. pose proof pow_w. pose proof pow_w_1.
  unfold float_of_bits.
  pose proof (Z.mod_pos_bound v (2 ^ (p - 1)) ltac:(lia)).
  pose proof (Z.mod_pos_bound (v / 2 ^ (p - 1)) (2 ^ w) ltac:(lia)).
  set (m := v mod _) in *. set (e := (v / _) mod _) in *.
  destruct (Z.eqb_spec e (2 ^ w - 1)); [by case_match|].
  destruct (Z.eqb_spec e 0).
  - destruct m as [|q|q]; try done. cbn [valid_binary]. apply bounded_spec. unfold emax. lia.
  - destruct (2 ^ (p - 1) + m) as [|q|q] eqn:E; try done. cbn [valid_binary]. apply bounded_spec.
    unfold emax. lia.
Qed.

(** Round trip: a finite bit pattern is written back as itself. *)
Lemma bits_of_float_of_bits v :
  0 <= v < 2 ^ (p + w) -> is_finite (float_of_bits p w v) = true ->
  bits_of_float p w (float_of_bits p w v) = v.
Proof.
  intros Hv. pose proof pow_split. pose proof pow_pos_1. pose proof pow_w. pose proof pow_w_1.
  rewrite (bits_fields v Hv) at 3. unfold float_of_bits.
  pose proof (Z.mod_pos_bound v (2 ^ (p - 1)) ltac:(lia)).
  pose proof (Z.mod_pos_bound (v / 2 ^ (p - 1)) (2 ^ w) ltac:(lia)).
  set (m := v mod _) in *. set (e := (v / _) mod _) in *. set (s := Z.odd _).
  destruct (Z.eqb_spec e (2 ^ w - 1)); [by case_match|].
  destruct (Z.eqb_spec e 0) as [->|]; intros _.
  - destruct m as [|q|q] eqn:Em; [cbn [bits_of_float]; lia| |lia].
    cbn [bits_of_float]. unfold magnitude_bits. rewrite (proj2 (Z.ltb_lt _ _)) by lia. lia.
  - destruct (2 ^ (p - 1) + m) as [|q|q] eqn:E; [lia| |lia].
    cbn [bits_of_float]. unfold magnitude_bits. rewrite (proj2 (Z.ltb_ge _ _)) by lia. lia.
Qed.

(** ** Order *)

Definition is_zero (x : spec_float) : bool := match x with S754_zero _ => true | _ => false end.

(** Floats of one sign compare by their exponents and then their mantissas,
    that is, by their bits. *)
Lemma magnitude_compare m1 e1 m2 e2 :
  bounded p emax m1 e1 = true -> bounded p emax m2 e2 = true ->
  match e1 ?= e2 with Lt => Lt | Gt => Gt | Eq => Pos.compare_cont Eq m1 m2 end
  = (magnitude_bits p w (Zpos m1) e1 ?= magnitude_bits p w (Zpos m2) e2).
Proof.
  intros H1%bounded_spec H2%bounded_spec. pose proof pow_split. pose proof pow_pos_1. pose proof pow_w.
  change (Pos.compare_cont Eq m1 m2) with (Zpos m1 ?= Zpos m2).
  symmetry. unfold magnitude_bits. fold bias. unfold emax, bias in *. set (q := 2 ^ (p - 1)) in *.
  assert (Hlt : forall a b c d, 0 <= c < q -> 0 <= d < q -> a < b -> a * q + c < b * q + d) by nia.
  destruct (Z.compare_spec e1 e2) as [->|He|He].
  - destruct (Z.ltb_spec (Zpos m1) q), (Z.ltb_spec (Zpos m2) q);
      destruct (Z.compare_spec (Zpos m1) (Zpos m2)); try done; try lia; first [apply Z.compare_eq_iff|
      apply Z.compare_lt_iff|apply Z.compare_gt_iff]; nia.
  - apply Z.compare_lt_iff. rewrite (proj2 (Z.ltb_ge (Zpos m2) q)) by lia.
    destruct (Z.ltb_spec (Zpos m1) q); [nia|]. apply Hlt; lia.
  - apply Z.compare_gt_iff. rewrite (proj2 (Z.ltb_ge (Zpos m1) q)) by lia.
    destruct (Z.ltb_spec (Zpos m2) q); [nia|]. apply Hlt; lia.
Qed.

Lemma magnitude_positive m e :
  bounded p emax m e = true -> 0 < magnitude_bits p w (Zpos m) e < 2 ^ (p - 1 + w).
Proof.
  intros Hb. pose proof (fields_range m e Hb). pose proof Hb as H1%bounded_spec.
  rewrite pow_pw, magnitude_fields. pose proof pow_pos_1.
  split; [|nia]. unfold exponent_field, fraction, emax, bias in *.
  destruct (Z.ltb_spec (Zpos m) (2 ^ (p - 1))); nia.
Qed.

Lemma key_finite s m e :
  bounded p emax m e = true ->
  total_key p w (S754_finite s m e)
  = if s then - magnitude_bits p w (Zpos m) e - 1 else magnitude_bits p w (Zpos m) e.
Proof.
  intros Hb%magnitude_positive. unfold total_key. cbn [bits_of_float]. unfold sign_bits.
  destruct s; [rewrite (proj2 (Z.ltb_ge _ _)) by lia; lia|].
  rewrite (proj2 (Z.ltb_lt _ _)) by lia. lia.
Qed.

Lemma key_zero s : total_key p w (S754_zero s) = if s then -1 else 0.
Proof.
  pose proof (Z.pow_pos_nonneg 2 (p - 1 + w) ltac:(lia) ltac:(lia)).
  unfold total_key. cbn [bits_of_float]. unfold sign_bits.
  destruct s; [rewrite (proj2 (Z.ltb_ge _ _)) by lia; lia|]. by rewrite (proj2 (Z.ltb_lt _ _)) by lia.
Qed.

Let top := (2 ^ w - 1) * 2 ^ (p - 1).

Lemma key_infinity s : total_key p w (S754_infinity s) = if s then - top - 1 else top.
Proof.
  pose proof pow_pos_1. pose proof pow_pw. pose proof pow_w. pose proof pow_w_1.
  unfold total_key. cbn [bits_of_float]. unfold sign_bits. fold top. assert (0 <= top < 2 ^ (p - 1 + w)) by (unfold top; nia).
  destruct s; [rewrite (proj2 (Z.ltb_ge _ _)) by lia; lia|]. rewrite (proj2 (Z.ltb_lt _ _)) by lia. lia.
Qed.

Lemma magnitude_top m e : bounded p emax m e = true -> 0 < magnitude_bits p w (Zpos m) e < top.
Proof.
  intros Hb. split; [by apply magnitude_positive|]. pose proof (fields_range m e Hb).
  rewrite magnitude_fields. pose proof pow_pos_1. unfold top. nia.
Qed.

(** The sign of a key is the sign of the float. *)
Lemma key_sign x :
  is_nan x = false -> valid_binary p emax x = true ->
  match x with
  | S754_zero false => total_key p w x = 0
  | S754_zero true => total_key p w x = -1
  | S754_finite false _ _ | S754_infinity false => 0 < total_key p w x <= top
  | _ => - top - 1 <= total_key p w x < -1
  end.
Proof.
  pose proof pow_pos_1. pose proof pow_w. pose proof pow_w_1.
  assert (0 < top) by (unfold top; nia).
  destruct x as [[]|[]| |[] m e]; intros Hn Hv; try done; rewrite ?key_zero, ?key_infinity, ?key_finite by done;
    try lia; apply magnitude_top in Hv; lia.
Qed.

(** [<] on floats that are numbers is the total order, except that it equates
    the zeros. *)
Lemma ltb_key x y :
  is_nan x = false -> is_nan y = false ->
  valid_binary p emax x = true -> valid_binary p emax y = true ->
  SFltb x y = true <-> total_key p w x < total_key p w y /\ is_zero x && is_zero y = false.
Proof.
  intros Fx Fy Vx Vy. pose proof pow_pos_1. pose proof pow_w. pose proof pow_w_1.
  assert (0 < top) by (unfold top; nia).
  assert (Hfin : forall s1 m1 e1 s2 m2 e2, x = S754_finite s1 m1 e1 -> y = S754_finite s2 m2 e2 ->
    SFltb x y = true <-> total_key p w x < total_key p w y).
  { intros s1 m1 e1 s2 m2 e2 -> ->. cbn [valid_binary] in *. rewrite !key_finite by done.
    pose proof (magnitude_compare _ _ _ _ Vx Vy) as Hc. apply magnitude_positive in Vx, Vy.
    unfold SFltb, SFcompare. change (Pos.compare_cont Eq m1 m2) with (m1 ?= m2)%positive in *.
    destruct s1, s2; [| split; [lia|done]| split; [done|lia] |].
    - assert (Hr : (match e1 ?= e2 with Lt => Gt | Eq => CompOpp (m1 ?= m2)%positive | Gt => Lt end) =
        CompOpp (match e1 ?= e2 with Lt => Lt | Eq => (m1 ?= m2)%positive | Gt => Gt end)) by by destruct (e1 ?= e2).
      rewrite Hr, Hc. destruct (Z.compare_spec (magnitude_bits p w (Zpos m1) e1) (magnitude_bits p w (Zpos m2) e2));
        cbn; (split; [done || lia|done || lia]).
    - rewrite Hc. destruct (Z.compare_spec (magnitude_bits p w (Zpos m1) e1) (magnitude_bits p w (Zpos m2) e2));
        cbn; (split; [done || lia|done || lia]). }
  destruct x as [s1|s1| |s1 m1 e1]; try done; destruct y as [s2|s2| |s2 m2 e2]; try done;
    try (rewrite (Hfin _ _ _ _ _ _ eq_refl eq_refl); cbn [is_zero andb]; naive_solver);
    clear Hfin; cbn [valid_binary is_zero andb] in *; rewrite ?key_zero, ?key_infinity, ?key_finite by done;
    try apply magnitude_top in Vx; try apply magnitude_top in Vy;
    unfold SFltb, SFcompare; destruct s1, s2; (split; [intros|intros [? ?]]); try done; try lia; split; done || lia.
Qed.

(** The order of the keys carries [<] over: a number below one of two ordered
    numbers is below the other. *)
Lemma ltb_key_trans x y z :
  is_nan x = false -> is_nan y = false -> is_nan z = false ->
  valid_binary p emax x = true -> valid_binary p emax y = true -> valid_binary p emax z = true ->
  (SFltb x y = true -> total_key p w y <= total_key p w z -> SFltb x z = true) /\
  (SFltb y x = true -> total_key p w z <= total_key p w y -> SFltb z x = true).
Proof.
  intros Nx Ny Nz Vx Vy Vz. rewrite !ltb_key by done.
  pose proof (key_sign x Nx Vx). pose proof (key_sign y Ny Vy). pose proof (key_sign z Nz Vz).
  split; intros [? Hz] ?; (split; [lia|]);
    destruct x as [[]|[]| |[] ? ?], y as [[]|[]| |[] ? ?], z as [[]|[]| |[] ? ?]; try done; cbn in *; lia.
Qed.
End Format.

Lemma f32_of_bits_of_f32 x : is_f32 x = true -> f32_of_bits (bits_of_f32 x) = x.
Proof. intros H. by apply (float_of_bits_of_float 24 8 ltac:(lia) ltac:(lia)). Qed.

Lemma bits_of_f32_range x : is_f32 x = true -> 0 <= bits_of_f32 x < 2 ^ 32.
Proof. intros H. by apply (bits_range 24 8 ltac:(lia) ltac:(lia)). Qed.

Lemma f32_of_bits_valid v : is_f32 (f32_of_bits v) = true.
Proof. apply (float_of_bits_valid 24 8); lia. Qed.

Lemma bits_of_f32_of_bits v :
  0 <= v < 2 ^ 32 -> is_finite (f32_of_bits v) = true -> bits_of_f32 (f32_of_bits v) = v.
Proof. by apply (bits_of_float_of_bits 24 8 ltac:(lia) ltac:(lia)). Qed.

Lemma is_finite_number x : is_finite x = true -> is_nan x = false.
Proof. by destruct x. Qed.

(** [<] on finite [f32]s. *)
Lemma f32_ltb_key x y :
  is_finite x = true -> is_finite y = true -> is_f32 x = true -> is_f32 y = true ->
  SFltb x y = true <-> f32_key x < f32_key y /\ is_zero x && is_zero y = false.
Proof. intros. apply (ltb_key 24 8); try lia; by apply is_finite_number || done. Qed.
