(* ===== verification/FloatArith.v ===== *)
(** * Float arithmetic stays in its format

    The standard library's operations on [spec_float] round to a precision and
    an exponent range. Their results are values of the format, so that what is
    known of the values of a format (their bits, their order) holds of every
    result of a computation. *)
From S2P Require Import Prelude Errors Serde Floats.
From Stdlib Require Import ZArith Lia Ascii String SpecFloat.
From stdpp Require Import base list strings.
From stdpp Require Import options.

Local Open Scope Z_scope.

(** ** Digits *)

Lemma Zdigits2_bounds m : 0 < m -> 2 ^ (Zdigits2 m - 1) <= m < 2 ^ Zdigits2 m.
Proof. destruct m as [|m|m]; try done. intros _. apply digits2_pos_bounds. Qed.

Lemma Zdigits2_nonneg m : 0 <= Zdigits2 m.
Proof. by destruct m. Qed.

Lemma Zdigits2_positive m : 0 < m -> 1 <= Zdigits2 m.
Proof. destruct m; cbn; lia. Qed.

(** The digits of a number between two powers of two. *)
Lemma Zdigits2_ge m d : 2 ^ (d - 1) <= m -> 0 < m -> d <= Zdigits2 m.
Proof.
  intros Hm Hpos. apply Z.nlt_ge. intros Hlt. pose proof (Zdigits2_bounds m Hpos).
  pose proof (Z.pow_le_mono_r 2 (Zdigits2 m) (d - 1) ltac:(lia) ltac:(lia)). lia.
Qed.

Lemma Zdigits2_unique m d : 0 < m -> 1 <= d -> 2 ^ (d - 1) <= m < 2 ^ d -> Zdigits2 m = d.
Proof.
  intros Hpos Hd [Hlo Hhi]. apply Z.le_antisymm; [|by apply Zdigits2_ge].
  apply Z.nlt_ge. intros Hlt. pose proof (Zdigits2_bounds m Hpos).
  pose proof (Z.pow_le_mono_r 2 d (Zdigits2 m - 1) ltac:(lia) ltac:(lia)). lia.
Qed.

Lemma Zdigits2_mono m n : 0 <= m <= n -> Zdigits2 m <= Zdigits2 n.
Proof.
  intros H. destruct (decide (m = 0)) as [->|]; [apply Zdigits2_nonneg|].
  apply Zdigits2_ge; [|lia]. pose proof (Zdigits2_bounds m). lia.
Qed.

Lemma Zdigits2_div_pow m k :
  0 <= k -> 0 < m / 2 ^ k -> Zdigits2 (m / 2 ^ k) = Zdigits2 m - k.
Proof.
  intros Hk Hd. pose proof (Z.pow_pos_nonneg 2 k ltac:(lia) Hk).
  assert (Hm : 2 ^ k <= m).
  { apply Z.nlt_ge. intros Hlt. destruct (Z.lt_trichotomy m 0) as [?|[->|?]].
    - pose proof (Z.div_lt_upper_bound m (2 ^ k) 0 ltac:(lia)). lia.
    - rewrite Z.div_0_l in Hd; lia.
    - rewrite Z.div_small in Hd; lia. }
  pose proof (Zdigits2_bounds m ltac:(lia)) as [Hlo Hhi]. pose proof (Zdigits2_ge m (k + 1)).
  replace (k + 1 - 1) with k in * by lia.
  apply Zdigits2_unique; [done|lia|]. split.
  - apply Z.div_le_lower_bound; [done|]. rewrite <-Z.pow_add_r by lia.
    replace (k + (Zdigits2 m - k - 1)) with (Zdigits2 m - 1) by lia. done.
  - apply Z.div_lt_upper_bound; [done|]. rewrite <-Z.pow_add_r by lia.
    replace (k + (Zdigits2 m - k)) with (Zdigits2 m) by lia. done.
Qed.

Lemma digits2_pos_shift m d : Zpos (digits2_pos (Pos.iter xO m d)) = Zpos (digits2_pos m) + Zpos d.
Proof.
  induction d as [|d IH] using Pos.peano_ind; [cbn [Pos.iter digits2_pos]; lia|].
  rewrite Pos.iter_succ. cbn [digits2_pos]. rewrite Pos2Z.inj_succ, IH. lia.
Qed.

(** ** Shifts to the right *)

Lemma shr_1_m mrs : 0 <= shr_m mrs -> shr_m (shr_1 mrs) = shr_m mrs / 2.
Proof.
  destruct mrs as [m r s]. cbn [shr_m]. intros Hm. rewrite <-Z.div2_div.
  destruct m as [|[p|p|]|p]; try done; lia.
Qed.

Lemma iter_shr_1_m p mrs :
  0 <= shr_m mrs -> shr_m (SpecFloat.iter_pos shr_1 p mrs) = shr_m mrs / 2 ^ Zpos p.
Proof.
  revert mrs. induction p as [p IH|p IH|]; intros mrs Hm; cbn [SpecFloat.iter_pos].
  - assert (H1 : 0 <= shr_m mrs / 2) by (apply Z.div_pos; lia).
    assert (H2 : 0 <= shr_m mrs / 2 / 2 ^ Zpos p) by (apply Z.div_pos; [done|lia]).
    rewrite !IH, shr_1_m by (rewrite ?IH, ?shr_1_m; rewrite ?shr_1_m; done).
    rewrite !Z.div_div, <-!Z.pow_add_r by lia. rewrite <-Z.pow_succ_r by lia. do 2 f_equal. lia.
  - assert (H1 : 0 <= shr_m mrs / 2 ^ Zpos p) by (apply Z.div_pos; [done|lia]).
    rewrite !IH by (rewrite ?IH; done). rewrite Z.div_div, <-Z.pow_add_r by lia. do 2 f_equal. lia.
  - by rewrite shr_1_m.
Qed.

Lemma shr_record_of_loc_m m l : shr_m (shr_record_of_loc m l) = m.
Proof. by destruct l as [|[]]. Qed.

Lemma round_nearest_even_bounds m l : m <= round_nearest_even m l <= m + 1.
Proof. destruct l as [|[]]; cbn; try case_match; lia. Qed.

Section Closure.
Set Default Proof Using "All".
Variables prec emax : Z.
Hypothesis Hprec : 2 <= prec.
Hypothesis Hemax : 4 <= emax.
Let fe := fexp prec emax.
Let low := 3 - emax - prec.
Let valid (x : spec_float) : Prop := valid_binary prec emax x = true.

Lemma fexp_spec e : fe e = Z.max (e - prec) low.
Proof. done. Qed.

(** A shift to the exponent of the digits: the mantissa is divided, and keeps
    the digits that are left. *)
Lemma shr_fexp_spec m e l mrs e' :
  0 <= m -> e <= fe (Zdigits2 m + e) -> shr_fexp prec emax m e l = (mrs, e') ->
  shr_m mrs = m / 2 ^ (e' - e) /\ e' = fe (Zdigits2 m + e).
Proof.
  intros Hm He. unfold shr_fexp. fold fe. set (n := fe (Zdigits2 m + e) - e).
  assert (Hn : 0 <= n) by (unfold n; lia).
  unfold shr. destruct n as [|p|p] eqn:En; [| |lia]; intros [= <- <-].
  - rewrite shr_record_of_loc_m, Z.sub_diag, Z.pow_0_r, Z.div_1_r. lia.
  - rewrite iter_shr_1_m; rewrite shr_record_of_loc_m; [|done].
    split; [f_equal; f_equal; lia|lia].
Qed.

Lemma shr_canonical m e e' :
  0 < m / 2 ^ (e' - e) -> e <= e' -> e' = fe (Zdigits2 m + e) ->
  fe (Zdigits2 (m / 2 ^ (e' - e)) + e') = e'.
Proof. intros Hd Hle He. rewrite Zdigits2_div_pow by lia. rewrite He at 3. f_equal. lia. Qed.

(** Rounding up after the shift leaves room for a second one. *)
Lemma shr_round_room m m1 e e' :
  0 <= m -> e <= e' -> e' = fe (Zdigits2 m + e) ->
  m / 2 ^ (e' - e) <= m1 <= m / 2 ^ (e' - e) + 1 -> e' <= fe (Zdigits2 m1 + e').
Proof.
  intros Hm Hle He Hm1. set (q := m / 2 ^ (e' - e)) in *.
  assert (Hq : 0 <= q) by (apply Z.div_pos; [done|apply Z.pow_pos_nonneg; lia]).
  destruct (decide (q = 0)) as [Hq0|Hq0].
  - pose proof (Zdigits2_nonneg m1). enough (e' = low) by (rewrite fexp_spec; lia).
    destruct (decide (m = 0)) as [->|Hm0]; [cbn [Zdigits2] in He; rewrite fexp_spec in He; unfold low in *; lia|].
    assert (Hlt : m < 2 ^ (e' - e)).
    { apply Z.nle_gt. intros Hge. enough (1 <= q) by lia. apply Z.div_le_lower_bound; [|lia].
      apply Z.pow_pos_nonneg; lia. }
    assert (Zdigits2 m <= e' - e).
    { apply Z.nlt_ge. intros Hlt'. pose proof (Zdigits2_bounds m ltac:(lia)).
      pose proof (Z.pow_le_mono_r 2 (e' - e) (Zdigits2 m - 1) ltac:(lia) ltac:(lia)). lia. }
    rewrite fexp_spec in He. lia.
  - pose proof (shr_canonical m e e' ltac:(fold q; lia) Hle He) as Hc. fold q in Hc.
    pose proof (Zdigits2_mono q m1 ltac:(lia)). rewrite fexp_spec in *. lia.
Qed.

Lemma binary_round_aux_valid sx m e l :
  0 <= m -> e <= fe (Zdigits2 m + e) -> valid (binary_round_aux prec emax sx m e l).
Proof.
  intros Hm He. unfold binary_round_aux.
  destruct (shr_fexp prec emax m e l) as [mrs e1] eqn:E1.
  apply shr_fexp_spec in E1 as [Hm1 He1]; [|done..].
  pose proof (round_nearest_even_bounds (shr_m mrs) (loc_of_shr_record mrs)) as Hr.
  set (m1 := round_nearest_even _ _) in *. rewrite Hm1 in Hr.
  assert (Hroom : e1 <= fe (Zdigits2 m1 + e1)) by (apply (shr_round_room m m1 e); [..|done]; lia).
  assert (Hq : 0 <= m / 2 ^ (e1 - e)) by (apply Z.div_pos; [done|apply Z.pow_pos_nonneg; lia]).
  destruct (shr_fexp prec emax m1 e1 loc_Exact) as [mrs2 e2] eqn:E2.
  apply shr_fexp_spec in E2 as [Hm2 He2]; [|lia|done].
  destruct (shr_m mrs2) as [|q|q] eqn:Eq; try done.
  destruct (Z.leb_spec e2 (emax - prec)); [|done]. unfold valid. cbn [valid_binary].
  unfold bounded, canonical_mantissa. rewrite andb_true_iff, Z.eqb_eq, Z.leb_le. split; [|done].
  change (Zpos (digits2_pos q)) with (Zdigits2 (Zpos q)). rewrite Hm2. apply shr_canonical; [lia|lia|done].
Qed.

Lemma shl_align_spec m e e' m' e1 :
  shl_align m e e' = (m', e1) -> Zdigits2 (Zpos m') + e1 = Zdigits2 (Zpos m) + e /\ e1 = Z.min e e'.
Proof.
  unfold shl_align. destruct (e' - e) as [|d|d] eqn:Ed; intros [= <- <-]; [lia|lia|].
  cbn [Zdigits2]. rewrite digits2_pos_shift. lia.
Qed.

Lemma binary_round_valid sx m e : valid (binary_round prec emax sx m e).
Proof.
  unfold binary_round. destruct (shl_align _ _ _) as [m' e'] eqn:E. apply shl_align_spec in E as [Hd He].
  apply binary_round_aux_valid; [lia|]. rewrite Hd. cbn [Zdigits2] in *. fold fe in He. lia.
Qed.

Lemma binary_normalize_valid m e s : valid (binary_normalize prec emax m e s).
Proof. destruct m; [done|apply binary_round_valid..]. Qed.

(** What validity says of the exponent. *)
Lemma valid_finite s m e :
  valid (S754_finite s m e) -> e = fe (Zdigits2 (Zpos m) + e) /\ e <= emax - prec.
Proof.
  unfold valid. cbn [valid_binary]. unfold bounded, canonical_mantissa.
  rewrite andb_true_iff, Z.eqb_eq, Z.leb_le. cbn [Zdigits2]. unfold fe. intros [H ?]. by rewrite H.
Qed.

Lemma SFopp_valid x : valid x -> valid (SFopp x).
Proof. by destruct x. Qed.
Lemma SFabs_valid x : valid x -> valid (SFabs x).
Proof. by destruct x. Qed.

Lemma SFadd_valid x y : valid x -> valid y -> valid (SFadd prec emax x y).
Proof.
  destruct x as [[]|[]| |], y as [[]|[]| |]; intros; try done. apply binary_normalize_valid.
Qed.
Lemma SFsub_valid x y : valid x -> valid y -> valid (SFsub prec emax x y).
Proof.
  destruct x as [[]|[]| |], y as [[]|[]| |]; intros; try done. apply binary_normalize_valid.
Qed.

Lemma SFmul_valid x y : valid x -> valid y -> valid (SFmul prec emax x y).
Proof.
  destruct x as [|[]| |s1 m1 e1], y as [|[]| |s2 m2 e2]; intros Hx Hy; try done.
  apply valid_finite in Hx as [Hx _], Hy as [Hy _]. unfold SFmul. apply binary_round_aux_valid; [lia|].
  pose proof (Zdigits2_bounds (Zpos m1) ltac:(lia)). pose proof (Zdigits2_bounds (Zpos m2) ltac:(lia)).
  pose proof (Zdigits2_positive (Zpos m1) ltac:(lia)). pose proof (Zdigits2_positive (Zpos m2) ltac:(lia)).
  assert (Hd : Zdigits2 (Zpos m1) + Zdigits2 (Zpos m2) - 1 <= Zdigits2 (Zpos (m1 * m2))).
  { apply Zdigits2_ge; [|lia]. rewrite Pos2Z.inj_mul.
    replace (Zdigits2 (Zpos m1) + Zdigits2 (Zpos m2) - 1 - 1)
      with (Zdigits2 (Zpos m1) - 1 + (Zdigits2 (Zpos m2) - 1)) by lia.
    rewrite Z.pow_add_r by lia. apply Z.mul_le_mono_nonneg; lia. }
  rewrite fexp_spec in *. unfold low in *. lia.
Qed.

Lemma SFdiv_valid x y : valid x -> valid y -> valid (SFdiv prec emax x y).
Proof.
  destruct x as [|[]| |s1 m1 e1], y as [|[]| |s2 m2 e2]; intros Hx Hy; try done. unfold SFdiv.
  destruct (SFdiv_core_binary _ _ _ _ _ _) as [[q e] l] eqn:E. unfold SFdiv_core_binary in E.
  fold fe in E. set (d1 := Zdigits2 (Zpos m1)) in *. set (d2 := Zdigits2 (Zpos m2)) in *.
  set (e' := Z.min (fe (d1 + e1 - (d2 + e2))) (e1 - e2)) in *.
  set (s := e1 - e2 - e') in *. assert (Hs : 0 <= s) by lia.
  assert (Hm : match s with Zpos _ => Z.shiftl (Zpos m1) s | Z0 => Zpos m1 | Zneg _ => Z0 end
             = Zpos m1 * 2 ^ s).
  { rewrite <-Z.shiftl_mul_pow2 by done. destruct s; [by rewrite Z.shiftl_0_r|done|lia]. }
  rewrite Hm in E. clear Hm. pose proof (Z.pow_pos_nonneg 2 s ltac:(lia) Hs).
  pose proof (Z_div_mod (Zpos m1 * 2 ^ s) (Zpos m2) ltac:(lia)) as Hq.
  destruct (Z.div_eucl _ _) as [q' r]. destruct Hq as [Hq Hr]. injection E as -> <- _.
  assert (Hq0 : 0 <= q) by nia. apply binary_round_aux_valid; [done|].
  pose proof (Zdigits2_bounds (Zpos m1) ltac:(lia)) as Hm1. pose proof (Zdigits2_bounds (Zpos m2) ltac:(lia)) as Hm2.
  pose proof (Zdigits2_positive (Zpos m1) ltac:(lia)). pose proof (Zdigits2_positive (Zpos m2) ltac:(lia)).
  fold d1 in Hm1. fold d2 in Hm2.
  assert (Hd : d1 + s - d2 <= Zdigits2 q).
  { destruct (Z.le_gt_cases (d1 + s - d2) 0) as [|Hpos]; [pose proof (Zdigits2_nonneg q); lia|].
    assert (Hge : 2 ^ (d1 + s - d2 - 1) <= q).
    { pose proof (Z.pow_pos_nonneg 2 (d1 + s - d2 - 1) ltac:(lia) ltac:(lia)).
      assert (Hp : 2 ^ (d1 - 1) * 2 ^ s = 2 ^ (d1 + s - d2 - 1) * 2 ^ d2).
      { rewrite <-!Z.pow_add_r by lia. f_equal. lia. }
      set (a := 2 ^ (d1 + s - d2 - 1)) in *. apply Z.nlt_ge. intros Hlt.
      assert (Hle : 2 ^ (d1 - 1) * 2 ^ s <= Zpos m1 * 2 ^ s) by (apply Z.mul_le_mono_nonneg_r; lia).
      assert (a * 2 ^ d2 > Zpos m2 * a) by nia. nia. }
    apply Zdigits2_ge; [done|]. pose proof (Z.pow_pos_nonneg 2 (d1 + s - d2 - 1) ltac:(lia) ltac:(lia)). lia. }
  assert (He : e' <= fe (d1 + e1 - (d2 + e2))) by apply Z.le_min_l.
  clearbody e'. rewrite fexp_spec in *. lia.
Qed.

Lemma SFsqrt_valid x : valid x -> valid (SFsqrt prec emax x).
Proof.
  destruct x as [|[]| |[] m e]; intros Hx; try done. unfold SFsqrt.
  destruct (SFsqrt_core_binary _ _ _ _) as [[q e1] l] eqn:E. unfold SFsqrt_core_binary in E.
  fold fe in E. rewrite !Z.div2_div in E. set (d := Zdigits2 (Zpos m)) in *.
  set (e' := Z.min (fe ((d + e + 1) / 2)) (e / 2)) in *. set (s := e - 2 * e') in *.
  pose proof (Z.div_mod e 2 ltac:(lia)). pose proof (Z.mod_pos_bound e 2 ltac:(lia)).
  assert (Hs : 0 <= s) by lia.
  assert (Hm : match s with Zpos _ => Z.shiftl (Zpos m) s | Z0 => Zpos m | Zneg _ => Z0 end
             = Zpos m * 2 ^ s).
  { rewrite <-Z.shiftl_mul_pow2 by done. destruct s; [by rewrite Z.shiftl_0_r|done|lia]. }
  rewrite Hm in E. clear Hm. pose proof (Z.pow_pos_nonneg 2 s ltac:(lia) Hs).
  pose proof (Z.sqrtrem_spec (Zpos m * 2 ^ s) ltac:(lia)) as Hq.
  destruct (Z.sqrtrem _) as [q' r]. destruct Hq as [Hq Hr]. injection E as -> <- _.
  assert (Hq0 : 0 < q) by nia. apply binary_round_aux_valid; [lia|].
  pose proof (Zdigits2_bounds (Zpos m) ltac:(lia)) as Hm. fold d in Hm.
  pose proof (Zdigits2_positive (Zpos m) ltac:(lia)) as Hd1. fold d in Hd1.
  pose proof (Zdigits2_bounds q Hq0) as Hqd. pose proof (Zdigits2_positive q Hq0).
  assert (Hd : d + s <= 2 * Zdigits2 q).
  { apply Z.nlt_ge. intros Hlt.
    assert (Ha : 2 ^ (d - 1) * 2 ^ s <= Zpos m * 2 ^ s) by (apply Z.mul_le_mono_nonneg_r; lia).
    rewrite <-Z.pow_add_r in Ha by lia.
    pose proof (Z.pow_le_mono_r 2 (2 * Zdigits2 q) (d - 1 + s) ltac:(lia) ltac:(lia)) as Hb.
    replace (2 * Zdigits2 q) with (Zdigits2 q + Zdigits2 q) in Hb by lia.
    rewrite Z.pow_add_r in Hb by lia. nia. }
  assert ((d + e + 1) / 2 <= Zdigits2 q + e').
  { pose proof (Z.div_lt_upper_bound (d + e + 1) 2 (Zdigits2 q + e' + 1) ltac:(lia) ltac:(lia)). lia. }
  assert (He : e' <= fe ((d + e + 1) / 2)) by apply Z.le_min_l.
  clearbody e'. rewrite fexp_spec in *. lia.
Qed.

(** ** Results that do not overflow *)

Lemma Zdigits2_succ m : 0 <= m -> Zdigits2 (m + 1) <= Zdigits2 m + 1.
Proof.
  intros Hm. apply Z.nlt_ge. intros Hlt. pose proof (Zdigits2_bounds (m + 1) ltac:(lia)) as [Hb _].
  pose proof (Zdigits2_nonneg m). destruct (decide (m = 0)) as [->|]; [by vm_compute in Hlt|].
  pose proof (Zdigits2_bounds m ltac:(lia)) as [_ Hm2].
  pose proof (Z.pow_le_mono_r 2 (Zdigits2 m + 1) (Zdigits2 (m + 1) - 1) ltac:(lia) ltac:(lia)) as Hp.
  rewrite Z.pow_add_r in Hp by lia. lia.
Qed.

(** A magnitude above the least one and below the greatest rounds to a finite
    float that is not zero. *)
Lemma binary_round_aux_number sx m e l :
  0 < m -> e <= fe (Zdigits2 m + e) -> low < Zdigits2 m + e < emax ->
  exists m' e', binary_round_aux prec emax sx m e l = S754_finite sx m' e'.
Proof.
  intros Hm He Hlt. unfold binary_round_aux.
  destruct (shr_fexp prec emax m e l) as [mrs e1] eqn:E1.
  apply shr_fexp_spec in E1 as [Hm1 He1]; [|lia|done].
  pose proof (round_nearest_even_bounds (shr_m mrs) (loc_of_shr_record mrs)) as Hr.
  set (m1 := round_nearest_even _ _) in *. rewrite Hm1 in Hr.
  assert (Hle : e <= e1) by lia.
  assert (Hroom : e1 <= fe (Zdigits2 m1 + e1)) by (apply (shr_round_room m m1 e); [..|done]; lia).
  set (q := m / 2 ^ (e1 - e)) in *.
  assert (Hq : 0 < q).
  { rewrite fexp_spec in He1. unfold low in *. apply Z.div_str_pos. split; [apply Z.pow_pos_nonneg; lia|].
    pose proof (Zdigits2_bounds m Hm).
    pose proof (Z.pow_le_mono_r 2 (e1 - e) (Zdigits2 m - 1) ltac:(lia) ltac:(lia)). lia. }
  assert (Hdq : Zdigits2 q = Zdigits2 m - (e1 - e)) by (apply Zdigits2_div_pow; [lia|done]).
  assert (Hd : Zdigits2 q <= Zdigits2 m1 <= Zdigits2 q + 1).
  { split; [apply Zdigits2_mono; lia|].
    etrans; [apply (Zdigits2_mono _ (q + 1)); lia|]. apply Zdigits2_succ. lia. }
  destruct (shr_fexp prec emax m1 e1 loc_Exact) as [mrs2 e2] eqn:E2.
  apply shr_fexp_spec in E2 as [Hm2 He2]; [|lia|done].
  rewrite fexp_spec in He1, He2. unfold low in *.
  assert (Hpos : 0 < shr_m mrs2).
  { rewrite Hm2. apply Z.div_str_pos. split; [apply Z.pow_pos_nonneg; lia|].
    pose proof (Zdigits2_bounds m1 ltac:(lia)).
    pose proof (Zdigits2_positive q Hq).
    pose proof (Z.pow_le_mono_r 2 (e2 - e1) (Zdigits2 m1 - 1) ltac:(lia) ltac:(lia)). lia. }
  destruct (shr_m mrs2) as [|n|n]; try lia.
  destruct (Z.leb_spec e2 (emax - prec)) as [|Hov]; [by eexists _, _|lia].
Qed.

Lemma binary_normalize_number m e s :
  m <> 0 -> low < Zdigits2 (Z.abs m) + e < emax ->
  exists m' e', binary_normalize prec emax m e s = S754_finite (m <? 0) m' e'.
Proof.
  assert (H : forall sx q, low < Zdigits2 (Zpos q) + e < emax ->
    exists m' e', binary_round prec emax sx q e = S754_finite sx m' e').
  { intros sx q Hq. unfold binary_round. destruct (shl_align _ _ _) as [m' e'] eqn:E.
    apply shl_align_spec in E as [Hd He]. apply binary_round_aux_number; [lia| |lia].
    rewrite Hd. cbn [Zdigits2] in *. fold fe in He. lia. }
  intros Hm Hd. destruct m as [|q|q]; [done|by apply H..].
Qed.
End Closure.

(** An [f32] is a number of [f64] too. *)
Lemma f64_of_f32_finite x : is_f32 x = true -> is_finite x = true -> is_finite (f64_of_f32 x) = true.
Proof.
  destruct x as [s|s| |s m e]; try done. intros Hx _.
  apply (bounded_spec 24 8) in Hx as (Hm & He & _); [|lia..].
  pose proof (Zdigits2_bounds (Zpos m) ltac:(lia)). pose proof (Zdigits2_positive (Zpos m) ltac:(lia)).
  assert (Zdigits2 (Zpos m) <= 24).
  { apply Z.nlt_ge. intros Hlt. pose proof (Z.pow_le_mono_r 2 24 (Zdigits2 (Zpos m) - 1) ltac:(lia) ltac:(lia)). lia. }
  assert (Ha : Z.abs (cond_Zopp s (Zpos m)) = Zpos m) by by destruct s.
  destruct (binary_normalize_number 53 1024 ltac:(lia) ltac:(lia) (cond_Zopp s (Zpos m)) e s) as (m' & e' & Hr).
  - by destruct s.
  - rewrite Ha. change (2 ^ (8 - 1)) with 128 in He. lia.
  - unfold f64_of_f32. by rewrite Hr.
Qed.

(** An integer of at most a thousand bits is a positive number. *)
Lemma f64_of_Z_number n : 0 < n < 2 ^ 1000 -> exists m e, f64_of_Z n = S754_finite false m e.
Proof.
  intros Hn. destruct (binary_normalize_number 53 1024 ltac:(lia) ltac:(lia) n 0 false) as (m & e & Hr).
  - lia.
  - rewrite Z.abs_eq by lia. pose proof (Zdigits2_positive n ltac:(lia)).
    pose proof (Zdigits2_bounds n ltac:(lia)).
    assert (Zdigits2 n <= 1000); [|lia].
    apply Z.nlt_ge. intros Hlt. pose proof (Z.pow_le_mono_r 2 1000 (Zdigits2 n - 1) ltac:(lia) ltac:(lia)). lia.
  - rewrite (proj2 (Z.ltb_ge n 0)) in Hr by lia. by exists m, e.
Qed.

(** [x - x]. *)
Lemma SFsub_self prec emax x : is_finite x = true -> SFsub prec emax x x = S754_zero false.
Proof.
  destruct x as [[]|[]| |s m e]; try done. intros _. unfold SFsub. by rewrite Z.sub_diag.
Qed.

(** ** Exact results *)

Definition exact_record (m : Z) : shr_record := {| shr_m := m; shr_r := false; shr_s := false |}.

Lemma shr_1_exact m : 0 <= m -> shr_1 (exact_record (m * 2)) = exact_record m.
Proof. intros Hm. unfold exact_record. destruct m as [|p|p]; [done| |lia]. by rewrite Z.mul_comm. Qed.

Lemma iter_shr_1_exact p m :
  0 <= m -> SpecFloat.iter_pos shr_1 p (exact_record (m * 2 ^ Zpos p)) = exact_record m.
Proof.
  revert m. induction p as [p IH|p IH|]; intros m Hm; cbn [SpecFloat.iter_pos].
  - replace (m * 2 ^ Zpos (xI p)) with (m * 2 ^ Zpos p * 2 ^ Zpos p * 2).
    2: { replace (Zpos (xI p)) with (1 + Zpos p + Zpos p) by lia. rewrite !Z.pow_add_r by lia. ring. }
    pose proof (Z.pow_nonneg 2 (Zpos p) ltac:(lia)).
    rewrite shr_1_exact by nia. rewrite IH by nia. by apply IH.
  - replace (m * 2 ^ Zpos (xO p)) with (m * 2 ^ Zpos p * 2 ^ Zpos p).
    2: { replace (Zpos (xO p)) with (Zpos p + Zpos p) by lia. rewrite !Z.pow_add_r by lia. ring. }
    pose proof (Z.pow_nonneg 2 (Zpos p) ltac:(lia)). rewrite IH by nia. by apply IH.
  - by apply shr_1_exact.
Qed.

Section Exact.
Variables prec emax : Z.
Hypothesis Hprec : 2 <= prec.
Hypothesis Hemax : 4 <= emax.
Let fe := fexp prec emax.

Lemma shr_fexp_exact a m e e' :
  0 <= a -> e' = fe (Zdigits2 m + e) -> e <= e' -> m = a * 2 ^ (e' - e) ->
  shr_fexp prec emax m e loc_Exact = (exact_record a, e').
Proof.
  intros Ha He Hle Hm. unfold shr_fexp. fold fe. rewrite <-He. cbn [shr_record_of_loc]. unfold shr.
  destruct (e' - e) as [|p|p] eqn:Ed; [| |lia].
  - rewrite Z.pow_0_r, Z.mul_1_r in Hm. subst m. do 2 f_equal. lia.
  - rewrite Hm. fold (exact_record (a * 2 ^ Zpos p)). rewrite iter_shr_1_exact by done. f_equal. lia.
Qed.

(** A magnitude that fits in the precision is not rounded. *)
Lemma binary_round_aux_exact sx a m e e' :
  e' = fe (Zdigits2 m + e) -> e <= e' -> m = Zpos a * 2 ^ (e' - e) -> e' <= emax - prec ->
  binary_round_aux prec emax sx m e loc_Exact = S754_finite sx a e'.
Proof using Hprec Hemax.
  intros He Hle Hm Hmax. unfold binary_round_aux.
  rewrite (shr_fexp_exact (Zpos a) m e e') by done.
  cbn [exact_record shr_m loc_of_shr_record round_nearest_even].
  pose proof (Z.pow_pos_nonneg 2 (e' - e) ltac:(lia) ltac:(lia)).
  assert (Hdiv : m / 2 ^ (e' - e) = Zpos a) by (rewrite Hm; apply Z.div_mul; lia).
  assert (Hc : fe (Zdigits2 (Zpos a) + e') = e').
  { rewrite <-Hdiv. apply (shr_canonical prec emax); try done. lia. }
  rewrite (shr_fexp_exact (Zpos a) (Zpos a) e' e'); [|done|by rewrite Hc|lia|rewrite Z.sub_diag; lia].
  cbn [exact_record shr_m]. by rewrite (proj2 (Z.leb_le _ _)).
Qed.

(** A magnitude below a multiple of the last place rounds to at most it. *)
Lemma binary_round_aux_upper m e l a e2 b :
  0 <= m -> let e1 := fe (Zdigits2 m + e) in e <= e1 -> m < b * 2 ^ (e1 - e) ->
  binary_round_aux prec emax false m e l = S754_finite false a e2 ->
  e1 <= e2 /\ Zpos a * 2 ^ (e2 - e1) <= b.
Proof using Hprec Hemax.
  cbv zeta. intros Hm He Hb. unfold binary_round_aux.
  destruct (shr_fexp prec emax m e l) as [mrs e1] eqn:E1.
  apply (shr_fexp_spec prec emax Hprec Hemax) in E1 as [Hm1 He1]; [|done..]. fold fe in He1. rewrite <-He1 in *.
  pose proof (round_nearest_even_bounds (shr_m mrs) (loc_of_shr_record mrs)) as Hr.
  set (m1 := round_nearest_even _ _) in *. rewrite Hm1 in Hr.
  assert (Hroom : e1 <= fe (Zdigits2 m1 + e1)).
  { apply (shr_round_room prec emax Hprec Hemax m m1 e); try lia. done. }
  pose proof (Z.pow_pos_nonneg 2 (e1 - e) ltac:(lia) ltac:(lia)) as Hpow.
  assert (Hq : m / 2 ^ (e1 - e) < b) by (apply Z.div_lt_upper_bound; lia).
  assert (Hq0 : 0 <= m / 2 ^ (e1 - e)) by (apply Z.div_pos; lia).
  destruct (shr_fexp prec emax m1 e1 loc_Exact) as [mrs2 e2'] eqn:E2.
  apply (shr_fexp_spec prec emax Hprec Hemax) in E2 as [Hm2 He2]; [|lia|done]. fold fe in He2.
  destruct (shr_m mrs2) as [|q|q] eqn:Eq; [done| |done].
  destruct (Z.leb_spec e2' (emax - prec)); [|done]. intros [= <- <-]. split; [lia|].
  pose proof (Z.pow_pos_nonneg 2 (e2' - e1) ltac:(lia) ltac:(lia)) as Hp2.
  pose proof (Z.mul_div_le m1 (2 ^ (e2' - e1)) Hp2). lia.
Qed.
End Exact.

(** ** Small integers as [f64] *)

Lemma Zdigits2_mul_pow m k : 0 < m -> 0 <= k -> Zdigits2 (m * 2 ^ k) = Zdigits2 m + k.
Proof.
  intros Hm Hk. pose proof (Zdigits2_bounds m Hm). pose proof (Zdigits2_positive m Hm).
  apply Zdigits2_unique; [nia|lia|]. replace (Zdigits2 m + k - 1) with (Zdigits2 m - 1 + k) by lia.
  rewrite !Z.pow_add_r by lia. pose proof (Z.pow_pos_nonneg 2 k). nia.
Qed.

Lemma shl_align_fst m e e' : e' <= e -> Zpos (fst (shl_align m e e')) = Zpos m * 2 ^ (e - e').
Proof.
  intros He. unfold shl_align. destruct (e' - e) as [|p|p] eqn:Ed; [|lia|].
  - replace (e - e') with 0 by lia. cbn. lia.
  - replace (e - e') with (Zpos p) by lia. cbn [fst].
    enough (H : forall q, Zpos (Pos.iter xO m q) = Zpos m * 2 ^ Zpos q) by apply H.
    intros q. induction q as [|q IH] using Pos.peano_ind; [cbn; lia|].
    rewrite Pos.iter_succ, (Pos2Z.inj_xO (Pos.iter xO m q)), IH, Pos2Z.inj_succ, Z.pow_succ_r by lia. ring.
Qed.

(** An integer below 2^53, in any place, is not rounded. *)
Lemma binary_normalize_exact n k :
  0 < n < 2 ^ 53 -> 0 <= k <= 1000 ->
  exists a, binary_normalize 53 1024 (n * 2 ^ k) (- k) false = S754_finite false a (Zdigits2 n - 53) /\
    Zpos a = n * 2 ^ (53 - Zdigits2 n).
Proof.
  intros Hn Hk. set (d := Zdigits2 n).
  pose proof (Zdigits2_bounds n ltac:(lia)) as Hd. pose proof (Zdigits2_positive n ltac:(lia)) as Hd1. fold d in Hd, Hd1.
  assert (Hd53 : d <= 53).
  { apply Z.nlt_ge. intros Hlt. pose proof (Z.pow_le_mono_r 2 53 (d - 1) ltac:(lia) ltac:(lia)). lia. }
  pose proof (Z.pow_pos_nonneg 2 k ltac:(lia) ltac:(lia)). pose proof (Z.pow_pos_nonneg 2 (53 - d) ltac:(lia) ltac:(lia)).
  assert (Ha : exists a, Zpos a = n * 2 ^ (53 - d)).
  { destruct (n * 2 ^ (53 - d)) as [|a|a] eqn:E; [nia|by exists a|nia]. }
  destruct Ha as [a Ha]. exists a. split; [|done].
  destruct (n * 2 ^ k) as [|q|q] eqn:Eq; [nia| |nia]. cbn [binary_normalize]. unfold binary_round.
  assert (Hdq : Zpos (digits2_pos q) = d + k).
  { change (Zpos (digits2_pos q)) with (Zdigits2 (Zpos q)). rewrite <-Eq. by rewrite Zdigits2_mul_pow by lia. }
  rewrite Hdq. replace (fexp 53 1024 (d + k + - k)) with (d - 53) by (unfold fexp, emin; lia).
  destruct (shl_align q (- k) (d - 53)) as [m' e'] eqn:E.
  pose proof (shl_align_spec 53 1024 ltac:(lia) ltac:(lia) q (- k) (d - 53) m' e' E) as [Hdm ->].
  change (Zdigits2 (Zpos q)) with (Zpos (digits2_pos q)) in Hdm. rewrite Hdq in Hdm.
  apply (binary_round_aux_exact 53 1024 ltac:(lia) ltac:(lia)); [|lia| |lia].
  - rewrite Hdm. unfold fexp, emin. lia.
  - destruct (Z.le_gt_cases (d - 53) (- k)) as [Hle|Hgt].
    + assert (Hm : Zpos m' = Zpos q * 2 ^ (- k - (d - 53))) by (rewrite <-shl_align_fst by done; by rewrite E).
      rewrite Hm, <-Eq, Ha, Z.min_r, Z.sub_diag, Z.pow_0_r, Z.mul_1_r by lia.
      rewrite <-Z.mul_assoc, <-Z.pow_add_r by lia. do 2 f_equal. lia.
    + assert (Hm : m' = q).
      { unfold shl_align in E. destruct (d - 53 - - k) as [|p|p] eqn:Ep; [|by injection E as <- _|]; lia. }
      rewrite Hm, <-Eq, Ha, Z.min_l by lia. rewrite <-Z.mul_assoc, <-Z.pow_add_r by lia. do 2 f_equal. lia.
Qed.

Lemma f64_of_Z_exact n : 0 < n < 2 ^ 53 ->
  exists a, f64_of_Z n = S754_finite false a (Zdigits2 n - 53) /\ Zpos a = n * 2 ^ (53 - Zdigits2 n).
Proof.
  intros Hn. destruct (binary_normalize_exact n 0 Hn ltac:(lia)) as (a & Hr & Ha). exists a. split; [|done].
  rewrite Z.pow_0_r, Z.mul_1_r in Hr. exact Hr.
Qed.

(** [n as f64 - 1.0] *)
Lemma f64_pred n : 2 <= n < 2 ^ 53 -> f64_sub (f64_of_Z n) f64_one = f64_of_Z (n - 1).
Proof.
  intros Hn. destruct (f64_of_Z_exact n ltac:(lia)) as (a & -> & Ha).
  change f64_one with (S754_finite false 4503599627370496 (-52)).
  pose proof (Zdigits2_positive n ltac:(lia)) as Hd1. pose proof (Zdigits2_bounds n ltac:(lia)) as Hd.
  assert (Hd53 : Zdigits2 n <= 53).
  { apply Z.nlt_ge. intros Hlt. pose proof (Z.pow_le_mono_r 2 53 (Zdigits2 n - 1) ltac:(lia) ltac:(lia)). lia. }
  unfold f64_sub, SFsub. rewrite (Z.min_r (Zdigits2 n - 53) (-52)) by lia. cbn [cond_Zopp].
  rewrite !shl_align_fst by lia. rewrite Ha, <-Z.mul_assoc, <-Z.pow_add_r by lia.
  replace (53 - Zdigits2 n + (Zdigits2 n - 53 - -52)) with 52 by lia. change (2 ^ (-52 - -52)) with 1.
  change (4503599627370496 * 1) with (1 * 2 ^ 52). rewrite <-Z.mul_sub_distr_r.
  destruct (binary_normalize_exact (n - 1) 52 ltac:(lia) ltac:(lia)) as (b & Hb & Hb').
  change (-52) with (- (52)). rewrite Hb. destruct (f64_of_Z_exact (n - 1) ltac:(lia)) as (c & -> & Hc).
  f_equal. lia.
Qed.

(** A fraction below one of a small integer is at most the integer. *)
Lemma f64_mul_fraction p n : Zpos p < 2 ^ 53 -> 2 ^ 52 <= Zpos p -> 0 < n < 2 ^ 53 ->
  exists a e, f64_mul (S754_finite false p (-53)) (f64_of_Z n) = S754_finite false a e /\
    (0 <= e -> Zpos a * 2 ^ e <= n) /\ (e < 0 -> Zpos a <= n * 2 ^ (- e)).
Proof.
  intros Hp Hp2 Hn. destruct (f64_of_Z_exact n Hn) as (y & -> & Hy). set (d := Zdigits2 n) in *.
  pose proof (Zdigits2_bounds n ltac:(lia)) as Hd. pose proof (Zdigits2_positive n ltac:(lia)) as Hd1. fold d in Hd, Hd1.
  assert (Hd53 : d <= 53).
  { apply Z.nlt_ge. intros Hlt. pose proof (Z.pow_le_mono_r 2 53 (d - 1) ltac:(lia) ltac:(lia)). lia. }
  unfold f64_mul, SFmul. cbn [xorb]. set (P := Zpos (p * y)). set (E := -53 + (d - 53)).
  assert (HP : P = Zpos p * Zpos y) by apply Pos2Z.inj_mul.
  assert (Hy53 : 2 ^ 52 <= Zpos y < 2 ^ 53).
  { rewrite Hy. split.
    - replace 52 with (d - 1 + (53 - d)) by lia. rewrite Z.pow_add_r by lia.
      pose proof (Z.pow_pos_nonneg 2 (53 - d) ltac:(lia) ltac:(lia)). nia.
    - replace (2 ^ 53) with (2 ^ d * 2 ^ (53 - d)) by (rewrite <-Z.pow_add_r by lia; f_equal; lia).
      apply Z.mul_lt_mono_pos_r; [apply Z.pow_pos_nonneg|]; lia. }
  assert (HdP : 105 <= Zdigits2 P <= 106).
  { assert (HPb : 2 ^ 104 <= P < 2 ^ 106).
    { rewrite HP. change (2 ^ 104) with (2 ^ 52 * 2 ^ 52). change (2 ^ 106) with (2 ^ 53 * 2 ^ 53).
      split; [apply Z.mul_le_mono_nonneg|apply Z.mul_lt_mono_nonneg]; lia. }
    split.
    - apply Zdigits2_ge; [|lia]. change (105 - 1) with 104. lia.
    - apply Z.nlt_ge. intros Hlt. pose proof (Zdigits2_bounds P ltac:(lia)).
      pose proof (Z.pow_le_mono_r 2 106 (Zdigits2 P - 1) ltac:(lia) ltac:(lia)). lia. }
  set (e1 := fexp 53 1024 (Zdigits2 P + E)).
  assert (He1 : e1 = Zdigits2 P + E - 53) by (unfold e1, fexp, emin, E; lia).
  destruct (binary_round_aux_number 53 1024 ltac:(lia) ltac:(lia) false P E loc_Exact) as (a & e2 & Hr).
  { lia. } { fold e1. lia. } { unfold E. lia. }
  exists a, e2. split; [exact Hr|].
  destruct (binary_round_aux_upper 53 1024 ltac:(lia) ltac:(lia) P E loc_Exact a e2 (n * 2 ^ (- e1))) as [Hle Hb].
  { lia. } { fold e1. lia. }
  { fold e1. rewrite <-Z.mul_assoc, <-Z.pow_add_r by lia. replace (- e1 + (e1 - E)) with (53 + (53 - d)) by (unfold E; lia).
    rewrite Z.pow_add_r by lia. rewrite HP, Hy. pose proof (Z.pow_pos_nonneg 2 (53 - d) ltac:(lia) ltac:(lia)) as HT.
    rewrite (Z.mul_assoc n), (Z.mul_comm n (2 ^ 53)), <-Z.mul_assoc. apply Z.mul_lt_mono_pos_r; [nia|done]. }
  { exact Hr. }
  fold e1 in Hle, Hb. split; intros He.
  - replace (e2 - e1) with (e2 + - e1) in Hb by lia. rewrite Z.pow_add_r in Hb by lia.
    pose proof (Z.pow_pos_nonneg 2 (- e1) ltac:(lia) ltac:(lia)). nia.
  - replace (- e1) with (- e2 + (e2 - e1)) in Hb by lia. rewrite Z.pow_add_r in Hb by lia.
    pose proof (Z.pow_pos_nonneg 2 (e2 - e1) ltac:(lia) ltac:(lia)). nia.
Qed.
