(* ===== verification/CoreTypes.v ===== *)
(** * Core types: crates/dyninfer-core (scalar.rs, shape.rs, types.rs)

    Scalar and storage element types, shapes, byte ranges, physical
    encodings, parameter slots, bindings and the KV-cache descriptor.
    Identifier newtypes of ids.rs are strings. *)
From S2P Require Import Prelude Errors Serde.
From Stdlib Require Import ZArith Lia Ascii String.
From stdpp Require Import base list strings gmap.
From stdpp Require Import options.

Local Open Scope Z_scope.

(** ** scalar.rs *)

Inductive ScalarType : Set :=
  | F32 | F16 | Bf16 | F64 | I8 | I16 | I32 | I64 | U8 | U16 | U32 | U64 | Bool.
#[export] Instance ScalarType_eq_dec : EqDecision ScalarType.
Proof. solve_decision. Defined.

Definition size_bytes (t : ScalarType) : option Z :=
  Some match t with
       | F32 | I32 | U32 => 4
       | F16 | Bf16 | I16 | U16 => 2
       | F64 | I64 | U64 => 8
       | I8 | U8 | Bool => 1
       end.

Definition ScalarType_parse (s : string) : option ScalarType :=
  let s := to_ascii_lowercase s in
  if String.eqb s "f32" || String.eqb s "float32" then Some F32
  else if String.eqb s "f16" || String.eqb s "float16" then Some F16
  else if String.eqb s "bf16" || String.eqb s "bfloat16" then Some Bf16
  else if String.eqb s "f64" || String.eqb s "float64" then Some F64
  else if String.eqb s "i8" || String.eqb s "int8" then Some I8
  else if String.eqb s "i16" || String.eqb s "int16" then Some I16
  else if String.eqb s "i32" || String.eqb s "int32" then Some I32
  else if String.eqb s "i64" || String.eqb s "int64" then Some I64
  else if String.eqb s "u8" || String.eqb s "uint8" then Some U8
  else if String.eqb s "u16" || String.eqb s "uint16" then Some U16
  else if String.eqb s "u32" || String.eqb s "uint32" then Some U32
  else if String.eqb s "u64" || String.eqb s "uint64" then Some U64
  else if String.eqb s "bool" || String.eqb s "boolean" then Some Bool
  else None.

Definition ScalarType_display (t : ScalarType) : string :=
  match t with
  | F32 => "f32" | F16 => "f16" | Bf16 => "bf16" | F64 => "f64"
  | I8 => "i8" | I16 => "i16" | I32 => "i32" | I64 => "i64"
  | U8 => "u8" | U16 => "u16" | U32 => "u32" | U64 => "u64" | Bool => "bool"
  end.

(** Derived [Debug]. *)
Definition ScalarType_debug (t : ScalarType) : string :=
  match t with
  | F32 => "F32" | F16 => "F16" | Bf16 => "Bf16" | F64 => "F64"
  | I8 => "I8" | I16 => "I16" | I32 => "I32" | I64 => "I64"
  | U8 => "U8" | U16 => "U16" | U32 => "U32" | U64 => "U64" | Bool => "Bool"
  end.

Inductive StorageElementType : Type :=
  | Scalar (ty : ScalarType)
  | PackedBits (bits : Z) (signed : bool)
  | OpaqueElement (codec : string).
#[export] Instance StorageElementType_eq_dec : EqDecision StorageElementType.
Proof. solve_decision. Defined.

Definition StorageElementType_display (t : StorageElementType) : text :=
  match t with
  | Scalar ty => lit (ScalarType_display ty)
  | PackedBits bits sg => Format "{}i{bits}" [AStr (if sg then "s" else "u"); AInt bits]
  | OpaqueElement codec => Format "opaque({codec})" [AStr codec]
  end.

Inductive Endianness : Set := Little | Big | Native.
Inductive TensorOrder : Set := RowMajor | ColumnMajor.
#[export] Instance Endianness_eq_dec : EqDecision Endianness.
Proof. solve_decision. Defined.
#[export] Instance TensorOrder_eq_dec : EqDecision TensorOrder.
Proof. solve_decision. Defined.

(** ** shape.rs *)

Abbreviation Shape := (list Z) (only parsing).

Definition rank (s : Shape) : Z := Z.of_nat (length s).

(** [numel]: the product of the dimensions, [None] on overflow. *)
Fixpoint try_product (acc : Z) (dims : list Z) : option Z :=
  match dims with
  | [] => Some acc
  | d :: dims => acc ← checked_mul acc d; try_product acc dims
  end.
Definition numel (s : Shape) : option Z := try_product 1 s.

Definition is_compatible_with (a b : Shape) : bool := bool_decide (a = b).

Record ByteRange := { br_offset : Z; br_length : Z }.
#[export] Instance ByteRange_eq_dec : EqDecision ByteRange.
Proof. solve_decision. Defined.

Definition br_end (r : ByteRange) : Z := saturating_add (br_offset r) (br_length r).

Record Range64 := { r64_start : Z; r64_end : Z }.

Record ShapeProfile {SJ : SerdeJson} := {
  sp_batch_sizes : list Z;
  sp_sequence_buckets : list Z;
  sp_max_sequence_length : Z;
  sp_extra : option Value;
}.
Definition ShapeProfile_default {SJ : SerdeJson} : ShapeProfile :=
  {| sp_batch_sizes := [1]; sp_sequence_buckets := [128; 512; 2048];
     sp_max_sequence_length := 2048; sp_extra := None |}.
Definition single_bucket {SJ : SerdeJson} (max_seq : Z) : ShapeProfile :=
  {| sp_batch_sizes := [1]; sp_sequence_buckets := [max_seq];
     sp_max_sequence_length := max_seq; sp_extra := None |}.

(** ** types.rs *)

Abbreviation Digest := string (only parsing).
Abbreviation TokenId := Z (only parsing).

Record SourceFile :=
  { sf_path : string; sf_size_bytes : Z; sf_content_digest : option Digest }.

Record SchemaFingerprint :=
  { fp_digest : Digest; fp_entry_count : Z; fp_total_bytes : Z }.

Inductive ParameterRole : Type :=
  | Embedding | AttentionQ | AttentionK | AttentionV | AttentionO
  | FfnGate | FfnUp | FfnDown | Norm | Output | Bias | RopeFreqs
  | Other (s : string).
#[export] Instance ParameterRole_eq_dec : EqDecision ParameterRole.
Proof. solve_decision. Defined.

Definition role_as_str (r : ParameterRole) : string :=
  match r with
  | Embedding => "embedding"
  | AttentionQ => "attention.q"
  | AttentionK => "attention.k"
  | AttentionV => "attention.v"
  | AttentionO => "attention.o"
  | FfnGate => "ffn.gate"
  | FfnUp => "ffn.up"
  | FfnDown => "ffn.down"
  | Norm => "norm"
  | Output => "output"
  | Bias => "bias"
  | RopeFreqs => "rope.freqs"
  | Other s => s
  end.

Record LogicalTensorType := { lt_shape : Shape; lt_element_type : ScalarType }.

Record LogicalTensorConstraint := {
  lc_rank : option Z;
  lc_shape : option Shape;
  lc_element_types : list ScalarType;
}.

Inductive ZeroPointMode : Type :=
  | ZpNone | Symmetric | Asymmetric (zero_point_type : ScalarType) | Constant (value : Z).

Record BlockLayoutField := {
  bl_name : string;
  bl_byte_offset : Z;
  bl_byte_length : Z;
  bl_storage_type : StorageElementType;
}.

Inductive PhysicalEncoding {SJ : SerdeJson} : Type :=
  | Plain (storage_type : ScalarType) (order : TensorOrder)
  | GroupQuantized
      (logical_type : ScalarType) (storage_bits : Z) (storage_container : ScalarType)
      (signed : bool) (axis : Z) (group_size : Z) (scale_type : ScalarType)
      (bias_type : option ScalarType) (zero_point : ZeroPointMode) (packing : string)
      (order : TensorOrder) (components : list string)
  | BlockQuantized
      (logical_type : ScalarType) (block_shape : list Z) (bytes_per_block : Z)
      (codec : string) (codec_version : Z) (components : list string)
      (layout : list BlockLayoutField) (order : TensorOrder) (endianness : Endianness)
  | Sparse (logical_type : ScalarType) (format : string) (block_shape : list Z)
  | OpaqueEncoding (codec : string) (codec_version : Z) (descriptor : Value).

Definition plain {SJ : SerdeJson} (storage_type : ScalarType) : PhysicalEncoding :=
  Plain storage_type RowMajor.

Record StorageComponent := {
  sc_name : string;
  sc_key : string;
  sc_source_file_index : Z;
  sc_shape : Shape;
  sc_storage_type : StorageElementType;
  sc_byte_ranges : list ByteRange;
  sc_alignment : Z;
  sc_endianness : Endianness;
}.

Record ParameterSlot := {
  slot_id : string;
  slot_canonical_name : string;
  slot_role : ParameterRole;
  slot_expected_type : LogicalTensorConstraint;
  slot_optional : bool;
  slot_tied_group : option string;
}.
#[export] Instance LogicalTensorConstraint_eq_dec : EqDecision LogicalTensorConstraint.
Proof. solve_decision. Defined.
#[export] Instance ParameterSlot_eq_dec : EqDecision ParameterSlot.
Proof. solve_decision. Defined.

Inductive BindingTransform : Type :=
  | Identity
  | Rename
  | Reshape (shape : list Z)
  | LogicalTranspose (permutation : list Z)
  | Slice (ranges : list Range64)
  | Concatenate (axis : Z)
  | Split (axis : Z) (segments : list Z)
  | Permute (permutation : list Z)
  | Alias.

Record ParameterComponentBinding := {
  pc_component_name : string;
  pc_external_key : string;
  pc_checkpoint_key : string;
  pc_source_file_index : Z;
  pc_shape : Shape;
  pc_storage_type : StorageElementType;
  pc_byte_lengths : list Z;
  pc_alignment : Z;
  pc_endianness : Endianness;
}.

Record ParameterBinding {SJ : SerdeJson} := {
  pb_slot_id : string;
  pb_canonical_name : string;
  pb_checkpoint_keys : list string;
  pb_encoding : PhysicalEncoding;
  pb_logical_shape : Shape;
  pb_logical_type : ScalarType;
  pb_components : list ParameterComponentBinding;
  pb_transform : BindingTransform;
  pb_scope : string;
  pb_parameter_key : string;
  pb_storage_bytes : Z;
  pb_alignment : Z;
}.

Record BindingPlan {SJ : SerdeJson} := {
  bp_architecture_id : string;
  bp_checkpoint_schema : SchemaFingerprint;
  bp_bindings : list ParameterBinding;
  bp_unresolved_optional_slots : list string;
}.

Inductive KvCacheLayout : Type :=
  | LayersHeadsSeqDim | LayersSeqHeadsDim | Custom (s : string).

Inductive KvCacheStorage : Type :=
  | StaticGlobals
  | Paged (page_size chunk_size : Z).

Record KvCacheDescriptor := {
  kv_layer_count : Z;
  kv_max_batch_size : Z;
  kv_max_sequence_length : Z;
  kv_head_count : Z;
  kv_head_dimension : Z;
  kv_element_type : ScalarType;
  kv_layout : KvCacheLayout;
  kv_alignment : Z;
  kv_storage : KvCacheStorage;
}.

Definition page_size (d : KvCacheDescriptor) : option Z :=
  match kv_storage d with StaticGlobals => None | Paged p _ => Some p end.
Definition chunk_size (d : KvCacheDescriptor) : option Z :=
  match kv_storage d with StaticGlobals => None | Paged _ c => Some c end.

Definition bytes_per_token_component (d : KvCacheDescriptor) : Z :=
  let elem := default 4 (size_bytes (kv_element_type d)) in
  saturating_mul
    (saturating_mul
      (saturating_mul (kv_layer_count d) (kv_head_count d))
      (kv_head_dimension d))
    elem.

Definition bytes_for_tokens (d : KvCacheDescriptor) (tokens : Z) : Z :=
  let t := Z.min tokens (kv_max_sequence_length d) in
  saturating_mul (saturating_mul (bytes_per_token_component d) t) 2.

Definition capacity_bytes (d : KvCacheDescriptor) : Z :=
  bytes_for_tokens d (kv_max_sequence_length d).

Record ModelMetadata {SJ : SerdeJson} := {
  mm_architecture_id : string;
  mm_architecture_revision : string;
  mm_vocabulary_size : Z;
  mm_context_length : Z;
  mm_num_layers : Z;
  mm_num_heads : Z;
  mm_num_kv_heads : Z;
  mm_head_dim : Z;
  mm_hidden_size : Z;
  mm_extra : MetadataMap;
}.

Record SessionConfig := {
  cfg_max_sequence_length : Z;
  cfg_batch_size : Z;
  cfg_seed : option Z;
}.
Definition SessionConfig_default : SessionConfig :=
  {| cfg_max_sequence_length := 2048; cfg_batch_size := 1; cfg_seed := None |}.

(** * Lemmas *)

Definition product (dims : list Z) : Z := foldr Z.mul 1 dims.

Lemma try_product_Some acc dims n :
  try_product acc dims = Some n -> n = acc * product dims.
Proof.
  revert acc; induction dims as [|d dims IH]; intros acc; cbn.
  - intros [= <-]. lia.
  - destruct (checked_mul acc d) as [a|] eqn:E; [|done]. cbn.
    intros H%IH. apply checked_mul_Some in E as [-> _]. rewrite H. unfold product. lia.
Qed.

Lemma try_product_bound acc dims n :
  is_u64 acc -> Forall (fun d => 0 <= d) dims -> try_product acc dims = Some n -> is_u64 n.
Proof.
  intros Hacc Hd. revert acc Hacc; induction Hd as [|d dims Hd0 _ IH]; intros acc Hacc; cbn.
  - by intros [= <-].
  - destruct (checked_mul acc d) as [a|] eqn:E; [|done]. cbn. apply IH.
    apply checked_mul_Some in E as [-> ?]. unfold is_u64 in *. nia.
Qed.

(** [numel] is the product, or [None] when some prefix overflows. *)
Lemma numel_Some s n : numel s = Some n -> n = product s.
Proof. unfold numel. intros H%try_product_Some. lia. Qed.

Lemma numel_u64 s n : Forall (fun d => 0 <= d) s -> numel s = Some n -> is_u64 n.
Proof. intros Hs. apply try_product_bound; [|done]. unfold is_u64, u64_max. lia. Qed.

Lemma size_bytes_Some t : exists n, size_bytes t = Some n /\ 1 <= n <= 8.
Proof. destruct t; cbn; eexists; split; try reflexivity; lia. Qed.
