(* ===== verification/Target.v ===== *)
(** * Execution targets

    [TargetProfile] of crates/dyninfer-core/src/types.rs, and the discovery and
    selection of a local device of crates/dyninfer-target/src/lib.rs.

    The facts of the host (target triple, detected CPU features), the SHA-256
    digest of the formatted capability line and the output of the device dump
    tool are parameters: they are not computed by this code. *)
From S2P Require Import Prelude Strings Errors CoreTypes.
From Stdlib Require Import ZArith Lia Ascii String.
From stdpp Require Import base list strings gmap.
From stdpp Require Import options.

Local Open Scope Z_scope.

(** * types.rs: the target profile *)

Record TargetProfile := {
  tp_driver : string;
  tp_device_id : option Z;
  tp_triple : option string;
  tp_architecture : option string;
  tp_features : list string;
  tp_capability_fingerprint : Digest;
  tp_device_uri : option string;
  tp_device_name : option string;
  tp_subgroup_size : option Z;
  tp_max_workgroup_invocations : option Z;
  tp_executable_target_flags : list string;
  tp_verified : bool;
}.

Definition nonempty (value : string) : option string :=
  if bool_decide (trim value = EmptyString) then None else Some (trim value).

Definition cuda_sm (architecture : string) : option Z :=
  digits ← (match Prelude.strip_prefix "sm_" architecture with
            | Some d => Some d
            | None => Prelude.strip_prefix "sm" architecture
            end);
  parse_u32 digits.

(** [Vec::dedup]: of equal neighbours the first is kept. *)
Fixpoint dedup (l : list string) : list string :=
  match l with
  | [] => []
  | a :: l =>
      match dedup l with
      | b :: l' => if String.eqb a b then b :: l' else a :: b :: l'
      | [] => [a]
      end
  end.

(** What the host and the digest function contribute. *)
Class Host := {
  host_triple : string;
  detected_host_features : list string;
  Digest_of : text -> Digest;
}.

(** [{:?}] of an optional string or number. *)
Definition debug_option {A} (show : A -> format_arg) (o : option A) : format_arg :=
  AText (match o with Some a => Format "Some({:?})" [show a] | None => lit "None" end).

Section Profile.
Context {H : Host}.

Definition refresh_fingerprint (p : TargetProfile) : TargetProfile :=
  let features := dedup (stable_sort string_leb (tp_features p)) in
  let flags := dedup (stable_sort string_leb (tp_executable_target_flags p)) in
  {| tp_driver := tp_driver p; tp_device_id := tp_device_id p; tp_triple := tp_triple p;
     tp_architecture := tp_architecture p; tp_features := features;
     tp_capability_fingerprint := Digest_of
       (Format "driver={}|device_id={:?}|triple={:?}|architecture={:?}|features={:?}|uri={:?}|name={:?}|subgroup={:?}|max_workgroup={:?}|flags={:?}|verified={}"
          [AStr (tp_driver p); debug_option AInt (tp_device_id p);
           debug_option AStr (tp_triple p); debug_option AStr (tp_architecture p);
           AStrs features; debug_option AStr (tp_device_uri p);
           debug_option AStr (tp_device_name p); debug_option AInt (tp_subgroup_size p);
           debug_option AInt (tp_max_workgroup_invocations p); AStrs flags;
           AStr (if tp_verified p then "true" else "false")]);
     tp_device_uri := tp_device_uri p; tp_device_name := tp_device_name p;
     tp_subgroup_size := tp_subgroup_size p;
     tp_max_workgroup_invocations := tp_max_workgroup_invocations p;
     tp_executable_target_flags := flags; tp_verified := tp_verified p |}.

Definition pending_fingerprint : Digest := Digest_of (lit "pending").

Definition llvm_cpu_host : TargetProfile :=
  refresh_fingerprint
    {| tp_driver := "local-task"; tp_device_id := Some 0; tp_triple := Some host_triple;
       tp_architecture := None; tp_features := detected_host_features;
       tp_capability_fingerprint := pending_fingerprint;
       tp_device_uri := Some "local-task://"; tp_device_name := Some "host-cpu";
       tp_subgroup_size := None; tp_max_workgroup_invocations := None;
       tp_executable_target_flags :=
         ["--iree-hal-target-device=local"; "--iree-hal-local-target-device-backends=llvm-cpu";
          "--iree-llvmcpu-target-cpu=host"];
       tp_verified := negb (String.eqb host_triple "unknown") |}.

Definition hip_rocm (chip : string) : TargetProfile :=
  let architecture := nonempty chip in
  refresh_fingerprint
    {| tp_driver := "hip"; tp_device_id := Some 0; tp_triple := None;
       tp_architecture := architecture;
       tp_features := match architecture with
                      | Some chip => [String.append "rocm-target=" chip]
                      | None => []
                      end;
       tp_capability_fingerprint := pending_fingerprint;
       tp_device_uri := None; tp_device_name := None;
       tp_subgroup_size := None; tp_max_workgroup_invocations := None;
       tp_executable_target_flags :=
         match architecture with
         | Some chip => ["--iree-hal-target-device=hip"; String.append "--iree-rocm-target=" chip]
         | None => []
         end;
       tp_verified := bool_decide (is_Some architecture) |}.

(** The features every compute capability from a given one on has. *)
Definition cuda_features (sm : Z) : list string :=
  (if 53 <=? sm then ["native_f16"] else []) ++
  (if 61 <=? sm then ["integer_dot_product"] else []) ++
  (if 70 <=? sm then ["tensor_cores"] else []) ++
  (if 80 <=? sm then ["native_bf16"] else []) ++
  (if 100 <=? sm then ["nvfp4"] else []).

Definition cuda (arch : string) : TargetProfile :=
  let architecture := nonempty arch in
  refresh_fingerprint
    {| tp_driver := "cuda"; tp_device_id := Some 0; tp_triple := None;
       tp_architecture := architecture;
       tp_features :=
         match architecture with Some arch => [String.append "cuda-target=" arch] | None => [] end ++
         match architecture ≫= cuda_sm with Some sm => cuda_features sm | None => [] end;
       tp_capability_fingerprint := pending_fingerprint;
       tp_device_uri := None; tp_device_name := None;
       tp_subgroup_size := Some 32; tp_max_workgroup_invocations := None;
       tp_executable_target_flags :=
         match architecture with
         | Some arch => ["--iree-hal-target-device=cuda"; String.append "--iree-cuda-target=" arch]
         | None => []
         end;
       tp_verified := bool_decide (is_Some architecture) |}.

Definition with_device_identity (device_id : Z) (device_uri device_name : string)
    (p : TargetProfile) : TargetProfile :=
  refresh_fingerprint
    {| tp_driver := tp_driver p; tp_device_id := Some device_id; tp_triple := tp_triple p;
       tp_architecture := tp_architecture p; tp_features := tp_features p;
       tp_capability_fingerprint := tp_capability_fingerprint p;
       tp_device_uri := nonempty device_uri; tp_device_name := nonempty device_name;
       tp_subgroup_size := tp_subgroup_size p;
       tp_max_workgroup_invocations := tp_max_workgroup_invocations p;
       tp_executable_target_flags := tp_executable_target_flags p;
       tp_verified := tp_verified p |}.

Definition with_discovered_features (features : list string) (p : TargetProfile) : TargetProfile :=
  refresh_fingerprint
    {| tp_driver := tp_driver p; tp_device_id := tp_device_id p; tp_triple := tp_triple p;
       tp_architecture := tp_architecture p; tp_features := tp_features p ++ features;
       tp_capability_fingerprint := tp_capability_fingerprint p;
       tp_device_uri := tp_device_uri p; tp_device_name := tp_device_name p;
       tp_subgroup_size := tp_subgroup_size p;
       tp_max_workgroup_invocations := tp_max_workgroup_invocations p;
       tp_executable_target_flags := tp_executable_target_flags p;
       tp_verified := tp_verified p |}.

Definition option_or {A} (a b : option A) : option A :=
  match a with Some _ => a | None => b end.

Definition with_execution_limits (subgroup_size max_workgroup_invocations : option Z)
    (p : TargetProfile) : TargetProfile :=
  refresh_fingerprint
    {| tp_driver := tp_driver p; tp_device_id := tp_device_id p; tp_triple := tp_triple p;
       tp_architecture := tp_architecture p; tp_features := tp_features p;
       tp_capability_fingerprint := tp_capability_fingerprint p;
       tp_device_uri := tp_device_uri p; tp_device_name := tp_device_name p;
       tp_subgroup_size := option_or subgroup_size (tp_subgroup_size p);
       tp_max_workgroup_invocations :=
         option_or max_workgroup_invocations (tp_max_workgroup_invocations p);
       tp_executable_target_flags := tp_executable_target_flags p;
       tp_verified := tp_verified p |}.

Definition is_gpu_driver (driver : string) : bool := bool_decide (driver ∈ ["cuda"; "hip"; "rocm"]).

Definition is_compile_ready (p : TargetProfile) : bool :=
  tp_verified p && (negb (is_gpu_driver (tp_driver p)) || bool_decide (is_Some (tp_architecture p))).

Definition runtime_device (p : TargetProfile) : string :=
  match tp_device_uri p with
  | Some uri => if bool_decide (uri = EmptyString) then tp_driver p else uri
  | None => tp_driver p
  end.

Definition rocm_target (p : TargetProfile) : option string :=
  if bool_decide (tp_driver p ∈ ["hip"; "rocm"]) then tp_architecture p else None.
Definition cuda_target (p : TargetProfile) : option string :=
  if String.eqb (tp_driver p) "cuda" then tp_architecture p else None.
Definition gpu_compile_arch (p : TargetProfile) : option string :=
  option_or (rocm_target p) (cuda_target p).

(** * dyninfer-target: discovery *)

Record DiscoveredDevice := {
  dd_driver : string;
  dd_device_id : Z;
  dd_name : string;
  dd_uri : string;
  dd_arch : option string;
  dd_profile : TargetProfile;
}.

Definition cpu_device : DiscoveredDevice :=
  {| dd_driver := "local-task"; dd_device_id := 0; dd_name := "host-cpu";
     dd_uri := "local-task://"; dd_arch := None; dd_profile := llvm_cpu_host |}.

Definition driver_rank (driver : string) : Z :=
  if String.eqb driver "cuda" then 0
  else if bool_decide (driver ∈ ["hip"; "rocm"]) then 1
  else if bool_decide (driver ∈ ["local-task"; "local-sync"; "local"]) then 2
  else 3.

Definition preference_leb (a b : DiscoveredDevice) : bool :=
  match Z.compare (driver_rank (dd_driver a)) (driver_rank (dd_driver b)) with
  | Lt => true
  | Gt => false
  | Eq => dd_device_id a <=? dd_device_id b
  end.
Definition sort_by_preference (devices : list DiscoveredDevice) : list DiscoveredDevice :=
  stable_sort preference_leb devices.

Definition unverified_target_error (device : DiscoveredDevice) : DynInferError :=
  Config {| config_message := Format
    "selected local device `{}` ({}) did not report an exact compile architecture; refusing to guess target flags"
    [AStr (dd_name device); AStr (dd_uri device)] |}.

Definition canonical_driver (driver : string) : string :=
  if String.eqb driver "rocm" then "hip" else driver.

Record GpuRequest :=
  { gr_driver : string; gr_architecture : option string; gr_uri : option string }.

(** The two separators of [for sep in [':', '/']]. *)
Fixpoint separated (spec lower prefix driver : string) (seps : list string)
    : option (option GpuRequest) :=
  match seps with
  | [] => None
  | sep :: seps =>
      let marker := String.append prefix sep in
      if starts_with marker lower then
        let raw := trim (String.substring (String.length marker)
                           (String.length spec - String.length marker) spec) in
        Some (if bool_decide (raw = EmptyString) then None
              else Some {| gr_driver := driver; gr_architecture := Some raw; gr_uri := None |})
      else separated spec lower prefix driver seps
  end.

(** The loop over the driver prefixes; [Some r] is its early return of [r]. *)
Fixpoint prefixed (spec lower : string) (drivers : list (string * string))
    : option (option GpuRequest) :=
  match drivers with
  | [] => None
  | (prefix, driver) :: drivers =>
      if String.eqb lower prefix then
        Some (Some {| gr_driver := driver; gr_architecture := None; gr_uri := None |})
      else match separated spec lower prefix driver [":"; "/"] with
           | Some r => Some r
           | None => prefixed spec lower drivers
           end
  end.

Definition parse_gpu_request (spec : string) : option GpuRequest :=
  let lower := to_ascii_lowercase spec in
  if starts_with "hip://" lower || starts_with "rocm://" lower then
    Some {| gr_driver := "hip"; gr_architecture := None; gr_uri := Some spec |}
  else if starts_with "cuda://" lower then
    Some {| gr_driver := "cuda"; gr_architecture := None; gr_uri := Some spec |}
  else
    match prefixed spec lower [("rocm", "hip"); ("hip", "hip"); ("cuda", "cuda")] with
    | Some r => r
    | None =>
        if starts_with "gfx" lower || starts_with "mi" lower || starts_with "rdna" lower then
          Some {| gr_driver := "hip"; gr_architecture := Some spec; gr_uri := None |}
        else if starts_with "sm_" lower then
          Some {| gr_driver := "cuda"; gr_architecture := Some spec; gr_uri := None |}
        else None
    end.

Record PendingDevice := {
  pd_driver : string;
  pd_uri : string;
  pd_name : string;
  pd_arch : option string;
  pd_features : list string;
  pd_subgroup_size : option Z;
  pd_max_workgroup_invocations : option Z;
}.

Definition nonempty_name (name fallback : string) : string :=
  if bool_decide (trim name = EmptyString) then fallback else name.

Definition gpu_device (driver : string) (profile : string -> TargetProfile) (prefix : string)
    (p : PendingDevice) (id : Z) : DiscoveredDevice :=
  let arch := match pd_arch p with
              | Some a => if bool_decide (a = EmptyString) then None else Some a
              | None => None
              end in
  let name := nonempty_name (pd_name p)
    match arch with
    | Some arch => String.append prefix (String.append "-" arch)
    | None => String.append prefix "-device"
    end in
  {| dd_driver := driver; dd_device_id := id; dd_name := name; dd_uri := pd_uri p;
     dd_arch := arch;
     dd_profile :=
       with_execution_limits (pd_subgroup_size p) (pd_max_workgroup_invocations p)
         (with_discovered_features (pd_features p)
           (with_device_identity id (pd_uri p) name (profile (default EmptyString arch)))) |}.

(** The device of a finished block of the dump, and the next indices. *)
Definition pending_to_device (p : PendingDevice) (hip_index cuda_index : Z)
    : option DiscoveredDevice * Z * Z :=
  if String.eqb (pd_driver p) "cuda" then
    (Some (gpu_device "cuda" cuda "cuda" p cuda_index), hip_index, wrap32 (cuda_index + 1))
  else if bool_decide (pd_driver p ∈ ["hip"; "rocm"]) then
    (Some (gpu_device "hip" hip_rocm "rocm" p hip_index), wrap32 (hip_index + 1), cuda_index)
  else if String.eqb (pd_driver p) "local-task" then
    (Some {| dd_driver := "local-task"; dd_device_id := 0;
             dd_name := nonempty_name (pd_name p) "host-cpu"; dd_uri := pd_uri p;
             dd_arch := None; dd_profile := llvm_cpu_host |}, hip_index, cuda_index)
  else (None, hip_index, cuda_index).

Record DumpState := {
  ds_devices : list DiscoveredDevice;
  ds_current_driver : option string;
  ds_pending : option PendingDevice;
  ds_hip_index : Z;
  ds_cuda_index : Z;
}.

Definition dump_start : DumpState :=
  {| ds_devices := []; ds_current_driver := None; ds_pending := None;
     ds_hip_index := 0; ds_cuda_index := 0 |}.

Definition flush (st : DumpState) : DumpState :=
  match ds_pending st with
  | None => st
  | Some p =>
      let '(dev, hip_index, cuda_index) :=
        pending_to_device p (ds_hip_index st) (ds_cuda_index st) in
      {| ds_devices := ds_devices st ++ match dev with Some d => [d] | None => [] end;
         ds_current_driver := ds_current_driver st; ds_pending := None;
         ds_hip_index := hip_index; ds_cuda_index := cuda_index |}
  end.

Definition with_pending (p : PendingDevice) (st : DumpState) : DumpState :=
  {| ds_devices := ds_devices st; ds_current_driver := ds_current_driver st;
     ds_pending := Some p; ds_hip_index := ds_hip_index st; ds_cuda_index := ds_cuda_index st |}.

(** The attribute lines of the block of a device. *)
Definition pending_line (p : PendingDevice) (trimmed : string) : PendingDevice :=
  if starts_with "#   " trimmed && bool_decide (pd_name p = EmptyString) then
    {| pd_driver := pd_driver p; pd_uri := pd_uri p; pd_name := trim (trim_hashes trimmed);
       pd_arch := pd_arch p; pd_features := pd_features p;
       pd_subgroup_size := pd_subgroup_size p;
       pd_max_workgroup_invocations := pd_max_workgroup_invocations p |}
  else match Prelude.strip_prefix "- gpu-arch-name:" trimmed with
  | Some arch =>
      {| pd_driver := pd_driver p; pd_uri := pd_uri p; pd_name := pd_name p;
         pd_arch := Some (trim arch); pd_features := pd_features p;
         pd_subgroup_size := pd_subgroup_size p;
         pd_max_workgroup_invocations := pd_max_workgroup_invocations p |}
  | None =>
  match Prelude.strip_prefix "- gpu-compute-capability:" trimmed with
  | Some capability =>
      {| pd_driver := pd_driver p; pd_uri := pd_uri p; pd_name := pd_name p;
         pd_arch := pd_arch p;
         pd_features := pd_features p ++ [String.append "compute_capability=" (trim capability)];
         pd_subgroup_size := pd_subgroup_size p;
         pd_max_workgroup_invocations := pd_max_workgroup_invocations p |}
  | None =>
  match Prelude.strip_prefix "- gpu-subgroup-size:" trimmed with
  | Some value =>
      {| pd_driver := pd_driver p; pd_uri := pd_uri p; pd_name := pd_name p;
         pd_arch := pd_arch p; pd_features := pd_features p;
         pd_subgroup_size := parse_u32 (trim value);
         pd_max_workgroup_invocations := pd_max_workgroup_invocations p |}
  | None =>
  match Prelude.strip_prefix "- gpu-max-workgroup-invocations:" trimmed with
  | Some value =>
      {| pd_driver := pd_driver p; pd_uri := pd_uri p; pd_name := pd_name p;
         pd_arch := pd_arch p; pd_features := pd_features p;
         pd_subgroup_size := pd_subgroup_size p;
         pd_max_workgroup_invocations := parse_u32 (trim value) |}
  | None => p
  end end end end.

Definition dump_line (st : DumpState) (line : string) : DumpState :=
  let trimmed := trim line in
  match Prelude.strip_prefix "# Enumerated devices for driver '" trimmed
          ≫= Prelude.strip_suffix "'" with
  | Some driver =>
      let st := flush st in
      {| ds_devices := ds_devices st; ds_current_driver := Some driver;
         ds_pending := ds_pending st; ds_hip_index := ds_hip_index st;
         ds_cuda_index := ds_cuda_index st |}
  | None =>
  match Prelude.strip_prefix "# --device=" trimmed with
  | Some rest =>
      let st := flush st in
      let uri := trim rest in
      let scheme := match str_find "://" uri with
                    | Some n => String.substring 0 n uri
                    | None => uri
                    end in
      with_pending
        {| pd_driver := default scheme (ds_current_driver st); pd_uri := uri;
           pd_name := EmptyString; pd_arch := None; pd_features := [];
           pd_subgroup_size := None; pd_max_workgroup_invocations := None |} st
  | None =>
  match ds_pending st with
  | Some p => with_pending (pending_line p trimmed) st
  | None => st
  end end end.

Definition parse_dump_devices (dump : string) : list DiscoveredDevice :=
  let st := flush (fold_left dump_line (lines dump) dump_start) in
  if existsb (fun d => starts_with "local" (dd_driver d)) (ds_devices st) then ds_devices st
  else ds_devices st ++ [cpu_device].

(** [dump] is what running the device dump tool gives. *)
Definition discover (dump : Result string) : Result (list DiscoveredDevice) :=
  match dump with
  | Ok dump =>
      let devices := parse_dump_devices dump in
      Ok (sort_by_preference (match devices with [] => [cpu_device] | _ => devices end))
  | Err _ => Ok [cpu_device]
  | Panic why => Panic why
  end.

Definition select_best (dump : Result string) : Result TargetProfile :=
  devices ← discover dump;
  let device := default cpu_device (head devices) in
  if is_compile_ready (dd_profile device) then Ok (dd_profile device)
  else Err (unverified_target_error device).

Definition matches_request (request : GpuRequest) (device : DiscoveredDevice) : bool :=
  String.eqb (canonical_driver (dd_driver device)) (gr_driver request) &&
  match gr_architecture request with
  | Some arch => bool_decide (dd_arch device = Some arch)
  | None => true
  end &&
  match gr_uri request with
  | Some uri => String.eqb (dd_uri device) uri
  | None => true
  end.

Definition is_cpu_spec (spec : string) : bool :=
  String.eqb spec "cpu" || String.eqb spec "llvm-cpu" || starts_with "local" spec.

Definition resolve_target (dump : Result string) (spec : string) : Result TargetProfile :=
  let spec := trim spec in
  if String.eqb spec "auto" then select_best dump
  else if is_cpu_spec spec then Ok llvm_cpu_host
  else
    request ← ok_or (parse_gpu_request spec) (Config {| config_message := Format
      "unknown target specification: {spec} (expected auto|cpu|rocm|hip|cuda|rocm:<gfx>|cuda:<sm>|hip://<device>|cuda://<device>)"
      [AStr spec] |});
    devices ← discover dump;
    device ← ok_or (List.find (matches_request request) devices) (Config {| config_message := Format
      "target `{spec}` does not match a locally discovered device; cross-target or guessed GPU compilation is not supported"
      [AStr spec] |});
    if is_compile_ready (dd_profile device) then Ok (dd_profile device)
    else Err (unverified_target_error device).

End Profile.

(** * Properties *)

Section Discovery.
Context {H : Host}.

(** The dump has a line that reports the architecture [arch]. *)
Definition reported (dump arch : string) : Prop :=
  exists line rest, line ∈ lines dump /\
    Prelude.strip_prefix "- gpu-arch-name:" (trim line) = Some rest /\ arch = trim rest.

(** What every device of an inventory satisfies: a local device has the
    profile of the host, a GPU has the architecture the dump reports, or none. *)
Definition device_ok (P : string -> Prop) (d : DiscoveredDevice) : Prop :=
  (dd_driver d = "local-task" /\ dd_arch d = None /\ dd_profile d = llvm_cpu_host) \/
  (dd_driver d ∈ ["cuda"; "hip"] /\ tp_driver (dd_profile d) = dd_driver d /\
   tp_architecture (dd_profile d) = dd_arch d /\
   tp_verified (dd_profile d) = bool_decide (is_Some (dd_arch d)) /\
   forall a, dd_arch d = Some a -> P a /\ a = trim a).

Lemma gpu_device_ok P driver profile prefix p id :
  (driver = "cuda" /\ profile = cuda \/ driver = "hip" /\ profile = hip_rocm) ->
  (forall a, pd_arch p = Some a -> P a /\ a = trim a) ->
  device_ok P (gpu_device driver profile prefix p id).
Proof.
  intros Hdriver Hp. right. unfold gpu_device. cbn [dd_driver dd_arch dd_profile].
  split; [destruct Hdriver as [[-> _]|[-> _]]; set_solver|].
  set (arch := match pd_arch p with Some _ => _ | None => None end).
  assert (Harch : forall a, arch = Some a -> P a /\ a = trim a /\ a <> EmptyString).
  { unfold arch. intros a. destruct (pd_arch p) as [b|]; [|done].
    case_bool_decide; [done|]. intros [= <-]. destruct (Hp b eq_refl). done. }
  assert (Hne : nonempty (default EmptyString arch) = arch).
  { unfold nonempty. destruct arch as [a|]; [|done].
    destruct (Harch a eq_refl) as (_ & Ht & Hne). change (default EmptyString (Some a)) with a.
    rewrite <-Ht.
    by rewrite bool_decide_eq_false_2. }
  destruct Hdriver as [[-> ->]|[-> ->]]; cbn; rewrite Hne; repeat split; try done;
    intros; by apply Harch.
Qed.

Lemma pending_to_device_ok P p hip_index cuda_index d h c :
  pending_to_device p hip_index cuda_index = (Some d, h, c) ->
  (forall a, pd_arch p = Some a -> P a /\ a = trim a) -> device_ok P d.
Proof.
  unfold pending_to_device. intros Hd Hp.
  destruct (String.eqb _ _); [injection Hd as <- _ _; apply gpu_device_ok; auto|].
  destruct (bool_decide _); [injection Hd as <- _ _; apply gpu_device_ok; auto|].
  destruct (String.eqb _ _); [|done]. injection Hd as <- _ _. by left.
Qed.

(** The invariant of the state of the dump parser. *)
Definition dump_ok (P : string -> Prop) (st : DumpState) : Prop :=
  Forall (device_ok P) (ds_devices st) /\
  forall p a, ds_pending st = Some p -> pd_arch p = Some a -> P a /\ a = trim a.

Lemma flush_ok P st : dump_ok P st -> dump_ok P (flush st) /\ ds_pending (flush st) = None.
Proof.
  intros [Hd Hp]. unfold flush. destruct (ds_pending st) as [p|] eqn:E;
    [|split; [split; [done|by rewrite E]|done]].
  destruct (pending_to_device p _ _) as [[dev h] c] eqn:Ed. split; [split; [|done]|done].
  cbn. apply Forall_app. split; [done|]. destruct dev as [d|]; [|constructor].
  constructor; [|constructor]. eapply pending_to_device_ok; [exact Ed|]. intros a. by apply Hp.
Qed.

Lemma pending_line_arch p line a :
  pd_arch (pending_line p line) = Some a ->
  pd_arch p = Some a \/
  exists rest, Prelude.strip_prefix "- gpu-arch-name:" line = Some rest /\ a = trim rest.
Proof.
  unfold pending_line. destruct (_ && _); [by left|].
  destruct (Prelude.strip_prefix "- gpu-arch-name:" line) as [rest|].
  { cbn. intros [= <-]. right. by exists rest. }
  destruct (Prelude.strip_prefix "- gpu-compute-capability:" line); [intros Ha; by left|].
  destruct (Prelude.strip_prefix "- gpu-subgroup-size:" line); [intros Ha; by left|].
  destruct (Prelude.strip_prefix "- gpu-max-workgroup-invocations:" line); intros Ha; by left.
Qed.

Lemma dump_line_ok dump st line :
  line ∈ lines dump -> dump_ok (reported dump) st -> dump_ok (reported dump) (dump_line st line).
Proof.
  intros Hline Hst. unfold dump_line. destruct (flush_ok _ st Hst) as [[Hd Hp] Hn].
  destruct (_ ≫= _) as [driver|]; [split; [done|]; cbn; rewrite Hn; done|].
  destruct (Prelude.strip_prefix "# --device=" _) as [rest|].
  { split; [done|]. cbn. intros p a [= <-]. done. }
  destruct Hst as [Hd' Hp']. destruct (ds_pending st) as [p|] eqn:E; [|split; [done|by rewrite E]].
  split; [done|]. cbn. intros q a [= <-] [Ha|(rest & Hr & ->)]%pending_line_arch.
  - by apply (Hp' p).
  - split; [by exists line, rest|]. by rewrite trim_idempotent.
Qed.

Lemma parse_dump_devices_ok dump : Forall (device_ok (reported dump)) (parse_dump_devices dump).
Proof.
  assert (Hl : forall ls st, (forall l, l ∈ ls -> l ∈ lines dump) -> dump_ok (reported dump) st ->
    dump_ok (reported dump) (fold_left dump_line ls st)).
  { induction ls as [|l ls IH]; intros st Hls Hst; cbn; [done|].
    apply IH; [set_solver|]. apply dump_line_ok; [set_solver|done]. }
  unfold parse_dump_devices.
  destruct (flush_ok (reported dump) (fold_left dump_line (lines dump) dump_start)) as [[Hd _] _].
  { apply Hl; [done|]. split; [constructor|done]. }
  destruct (existsb _ _); [done|]. apply Forall_app. split; [done|].
  constructor; [by left|constructor].
Qed.

Lemma parse_dump_devices_local dump :
  exists d, d ∈ parse_dump_devices dump /\ starts_with "local" (dd_driver d) = true.
Proof.
  unfold parse_dump_devices. destruct (existsb _ _) eqn:E.
  - apply existsb_exists in E as (d & Hin & Hd). exists d. split; [by apply list_elem_of_In|done].
  - exists cpu_device. split; [set_solver|done].
Qed.

Lemma preference_leb_total a b : preference_leb a b = true \/ preference_leb b a = true.
Proof.
  unfold preference_leb. rewrite (Z.compare_antisym _ (driver_rank (dd_driver b))).
  destruct (Z.compare_spec (driver_rank (dd_driver a)) (driver_rank (dd_driver b)));
    unfold CompOpp; rewrite ?Z.leb_le; auto; lia.
Qed.

Lemma preference_leb_trans a b c :
  preference_leb a b = true -> preference_leb b c = true -> preference_leb a c = true.
Proof.
  unfold preference_leb.
  destruct (Z.compare_spec (driver_rank (dd_driver a)) (driver_rank (dd_driver b)));
    destruct (Z.compare_spec (driver_rank (dd_driver b)) (driver_rank (dd_driver c)));
    destruct (Z.compare_spec (driver_rank (dd_driver a)) (driver_rank (dd_driver c)));
    rewrite ?Z.leb_le; auto; lia.
Qed.

Lemma parse_gpu_request_driver spec r :
  parse_gpu_request spec = Some r -> gr_driver r ∈ ["cuda"; "hip"].
Proof.
  assert (Hsep : forall spec lower prefix driver seps q, driver ∈ ["cuda"; "hip"] ->
    separated spec lower prefix driver seps = Some (Some q) -> gr_driver q ∈ ["cuda"; "hip"]).
  { intros ? ? ? driver seps q Hd. induction seps as [|sep seps IH]; cbn; [done|].
    destruct (starts_with _ _); [|done]. case_bool_decide; [done|]. intros [= <-]. done. }
  assert (Hpre : forall spec lower drivers q, Forall (fun d => d.2 ∈ ["cuda"; "hip"]) drivers ->
    prefixed spec lower drivers = Some (Some q) -> gr_driver q ∈ ["cuda"; "hip"]).
  { intros sp lower drivers q. induction drivers as [|[p d] ds IH]; intros Hf Hq; [done|].
    apply Forall_cons in Hf as [Hd Hf]. cbn [prefixed] in Hq.
    destruct (String.eqb _ _); [by injection Hq as <-|].
    destruct (separated _ _ _ _ _) as [r'|] eqn:E; [|by apply IH].
    injection Hq as ->. by eapply Hsep. }
  unfold parse_gpu_request. destruct (_ || _); [intros [= <-]; set_solver|].
  destruct (starts_with "cuda://" _); [intros [= <-]; set_solver|].
  destruct (prefixed _ _ _) as [r'|] eqn:E.
  { intros ->. eapply Hpre; [|exact E]. repeat constructor; set_solver. }
  destruct (_ || _); [intros [= <-]; set_solver|].
  destruct (starts_with _ _); [intros [= <-]; set_solver|done].
Qed.

Lemma sort_by_preference_head l d rest :
  sort_by_preference l = d :: rest -> d ∈ l /\ Forall (fun d' => preference_leb d d' = true) l.
Proof.
  apply stable_sort_head; [apply preference_leb_total|apply preference_leb_trans].
Qed.

Lemma discover_Ok dump devices :
  discover (Ok dump) = Ok devices -> devices = sort_by_preference (parse_dump_devices dump).
Proof.
  unfold discover. destruct (parse_dump_devices_local dump) as (d & Hd & _).
  destruct (parse_dump_devices dump) eqn:E; [set_solver|]. by intros [= <-].
Qed.

(** A device that is ready to compile for: the host, or a GPU whose
    architecture the dump reports. *)
Lemma compile_ready_device P d :
  device_ok P d -> is_compile_ready (dd_profile d) = true ->
  dd_driver d = "local-task" /\ dd_profile d = llvm_cpu_host \/
  dd_driver d ∈ ["cuda"; "hip"] /\
    exists a, gpu_compile_arch (dd_profile d) = Some a /\ dd_arch d = Some a /\ P a.
Proof.
  intros [(Hd & _ & Hp)|(Hd & Ht & Ha & Hv & HP)] Hr; [by left|]. right. split; [done|].
  unfold is_compile_ready in Hr. apply andb_prop in Hr as [Hr _].
  rewrite Hv in Hr. apply bool_decide_eq_true_1 in Hr as [a Ea].
  exists a. destruct (HP a Ea) as [Pa _].
  unfold gpu_compile_arch, rocm_target, cuda_target. rewrite Ht, Ha, Ea.
  apply elem_of_cons in Hd as [->|[->|Hd%elem_of_nil]%elem_of_cons]; done.
Qed.

(** C28: Resolving a target never guesses. A specification of the CPU gives the
    profile of the host. Any other one gives the profile of a device of the
    dump that is ready to compile for: for [auto] one that no device is
    preferred to, otherwise one that matches the requested driver,
    architecture and URI. A GPU profile has the exact architecture that a line
    of the dump reports; without one there is an error, not a profile. *)
Theorem resolve_target_never_guesses dump spec p :
  resolve_target (Ok dump) spec = Ok p ->
  (is_cpu_spec (trim spec) = true /\ p = llvm_cpu_host) \/
  exists d, d ∈ parse_dump_devices dump /\ dd_profile d = p /\ is_compile_ready p = true /\
    (trim spec = "auto" /\ Forall (fun d' => preference_leb d d' = true) (parse_dump_devices dump) \/
     exists request, parse_gpu_request (trim spec) = Some request /\
       matches_request request d = true /\ dd_driver d ∈ ["cuda"; "hip"]) /\
    (dd_driver d = "local-task" /\ p = llvm_cpu_host \/
     dd_driver d ∈ ["cuda"; "hip"] /\
       exists a, gpu_compile_arch p = Some a /\ reported dump a).
Proof.
  intros Hr. unfold resolve_target in Hr. pose proof (parse_dump_devices_ok dump) as Hok.
  destruct (String.eqb_spec (trim spec) "auto") as [Hauto|Hauto].
  - right. unfold select_best in Hr. apply bind_Ok in Hr as (devices & Hd & Hr).
    apply discover_Ok in Hd as ->.
    destruct (sort_by_preference (parse_dump_devices dump)) as [|d rest] eqn:E.
    { destruct (parse_dump_devices_local dump) as (d & Hd & _).
      assert (Hd' : d ∈ sort_by_preference (parse_dump_devices dump))
        by (unfold sort_by_preference; by rewrite stable_sort_perm).
      rewrite E in Hd'. by apply elem_of_nil in Hd'. }
    apply sort_by_preference_head in E as [Hin Hbest]. cbn in Hr.
    destruct (is_compile_ready (dd_profile d)) eqn:Ec; [|done]. injection Hr as <-.
    exists d. repeat split; [done|done|by left|].
    destruct (compile_ready_device _ d (proj1 (Forall_forall _ _) Hok d Hin) Ec)
      as [?|(? & a & ? & _ & ?)]; [by left|right]. eauto.
  - destruct (is_cpu_spec (trim spec)) eqn:Ecpu; [left; by injection Hr as <-|]. right.
    apply bind_Ok in Hr as (request & Hreq%ok_or_Ok & Hr).
    apply bind_Ok in Hr as (devices & ->%discover_Ok & Hr).
    apply bind_Ok in Hr as (d & Hd%ok_or_Ok & Hr).
    apply find_some in Hd as [Hin Hm]. apply list_elem_of_In in Hin.
    unfold sort_by_preference in Hin. rewrite stable_sort_perm in Hin.
    destruct (is_compile_ready (dd_profile d)) eqn:Ec; [|done]. injection Hr as <-.
    pose proof (compile_ready_device _ d (proj1 (Forall_forall _ _) Hok d Hin) Ec) as Hc.
    assert (Hgpu : dd_driver d ∈ ["cuda"; "hip"]).
    { apply parse_gpu_request_driver in Hreq. destruct Hc as [[Hl _]|[Hg _]]; [|done].
      unfold matches_request in Hm. rewrite Hl in Hm.
      apply andb_prop in Hm as [Hm _]. apply andb_prop in Hm as [Hm _].
      apply String.eqb_eq in Hm. rewrite <-Hm in Hreq. set_solver. }
    exists d. repeat split; [done|done|right; by exists request|].
    destruct Hc as [[Hl _]|(_ & a & Ha & _ & Hrep)]; [left|right; eauto].
    rewrite Hl in Hgpu. set_solver.
Qed.

End Discovery.

Module TargetSample.
#[local] Instance host : Host :=
  {| host_triple := "x86_64-unknown-linux-gnu"; detected_host_features := ["avx2"; "fma"];
     Digest_of := fun t => match t with Format s _ => s end |}.

(** The device dump of the tests of crates/dyninfer-target/src/lib.rs. *)
Definition dump : string :=
"# Enumerated devices for driver 'cuda'

# Enumerated devices for driver 'hip'
# ===----------------------------------------------------------------------===
# --device=hip://GPU-58580000-0000-0000-0000-000000000000
#   AMD Radeon 8060S Graphics
# ===----------------------------------------------------------------------===

- gpu-compute-capability: 11.5
- gpu-arch-name: gfx1151

# Enumerated devices for driver 'local-task'
# --device=local-task://
#   default

# Enumerated devices for driver 'vulkan'
# --device=vulkan://00000000-f400-0000-0000-000000000000
#   AMD Radeon 8060S Graphics
".

Example dump_inventory :
  map (fun d => (dd_driver d, dd_name d, dd_arch d)) (parse_dump_devices dump) =
  [("hip", "AMD Radeon 8060S Graphics", Some "gfx1151"); ("local-task", "default", None)].
Proof. by_vm. Qed.
End TargetSample.

Lemma resolve_target_never_guesses_witness :
  exists d, d ∈ @parse_dump_devices TargetSample.host TargetSample.dump /\
    gpu_compile_arch (dd_profile d) = Some "gfx1151" /\
    reported TargetSample.dump "gfx1151".
Proof.
  assert (Ha : match @resolve_target TargetSample.host (Ok TargetSample.dump) "rocm" with
               | Ok p => gpu_compile_arch p
               | _ => None
               end = Some "gfx1151") by by_vm.
  destruct (@resolve_target TargetSample.host (Ok TargetSample.dump) "rocm") as [p| |] eqn:Hp;
    [|discriminate Ha|discriminate Ha].
  destruct (@resolve_target_never_guesses TargetSample.host TargetSample.dump "rocm" p Hp)
    as [[Hcpu _]|(d & Hd & <- & _ & _ & [[_ Hl]|(_ & a & Ha' & Hr)])].
  - assert (Hno : is_cpu_spec (trim "rocm") = false) by by_vm. congruence.
  - rewrite Hl in Ha. discriminate Ha.
  - exists d. rewrite Ha in Ha'. injection Ha' as <-. exact (conj Hd (conj Ha Hr)).
Defined.
