(* ===== verification/Catalog.v ===== *)
(** * Catalog model: catalog.rs, traits.rs and role.rs of
    crates/dyninfer-checkpoint

    The data a container reader and a convention decoder exchange, and the
    two traits as records of operations (the code holds them as
    [Arc<dyn Trait>]). *)
From S2P Require Import Prelude Errors Serde CoreTypes.
From Stdlib Require Import ZArith Lia Ascii String Sorted.
From stdpp Require Import base list strings gmap.
From stdpp Require Import options.

(** * Byte sources and inspection limits: source.rs and limits.rs of
    crates/dyninfer-checkpoint

    The trait [RandomAccessSource] is a class whose laws are what the
    container readers rely on; [BytesSource] and [FileSource] discharge it. *)

Local Open Scope Z_scope.

Class RandomAccessSource (S : Type) : Type := {
  src_path : S -> option string;
  src_len : S -> Z;
  (** [read_exact_at s offset n] fills a buffer of [n] bytes. *)
  read_exact_at : S -> Z -> Z -> Result bytes;
  src_len_u64 s : is_u64 (src_len s);
  read_exact_at_Ok s offset n bs :
    0 <= offset -> 0 <= n -> read_exact_at s offset n = Ok bs ->
    Z.of_nat (length bs) = n /\ offset + n <= src_len s;
  read_exact_at_no_panic s offset n : no_panic (read_exact_at s offset n);
}.

Definition is_empty {S} `{RandomAccessSource S} (s : S) : bool := src_len s =? 0.

(** [usize::try_from] cannot fail on a 64-bit target for a [u64]. *)
Definition read_range {S} `{RandomAccessSource S} (s : S) (offset len : Z) : Result bytes :=
  if len <=? u64_max then read_exact_at s offset len
  else Err (io (lit "range length does not fit usize")).

(** ** FileSource *)

(** The operating system's side of an open file: whether [seek] to an offset
    succeeds, and what [read_exact] of [n] bytes there yields. *)
Record FileSource := {
  fs_path : string;
  fs_len : Z;
  fs_seek : Z -> bool;
  fs_read : Z -> Z -> option bytes;
  fs_len_ok : is_u64 fs_len;
  fs_read_length : forall offset n bs,
    0 <= n -> fs_read offset n = Some bs -> Z.of_nat (length bs) = n;
}.

Definition FileSource_read_exact_at (s : FileSource) (offset n : Z) : Result bytes :=
  end_ ← ok_or (checked_add offset n) (io (lit "byte range overflow"));
  _ ← ensure (end_ <=? fs_len s)
        (io_path_error (fs_path s)
          (Format "read past end: offset={offset} len={} file_len={}"
             [AInt offset; AInt n; AInt (fs_len s)]));
  _ ← ensure (fs_seek s offset) (io_path_error (fs_path s) (lit "seek failed: {e}"));
  ok_or (fs_read s offset n) (io_path_error (fs_path s) (lit "read failed: {e}")).

(** ** BytesSource *)

Record BytesSource := {
  bs_path : option string;
  bs_data : bytes;
  bs_len_ok : is_u64 (Z.of_nat (length bs_data));
}.

Definition BytesSource_len (s : BytesSource) : Z := Z.of_nat (length (bs_data s)).

(** The slice [data[start..start + n]]. *)
Definition slice (data : bytes) (start n : Z) : bytes :=
  take (Z.to_nat n) (drop (Z.to_nat start) data).

Definition BytesSource_read_exact_at (s : BytesSource) (offset n : Z) : Result bytes :=
  end_ ← ok_or (checked_add offset n) (io (lit "byte range overflow"));
  _ ← ensure (end_ <=? BytesSource_len s)
        (io (Format "read past end: offset={offset} len={} source_len={}"
               [AInt offset; AInt n; AInt (BytesSource_len s)]));
  Ok (slice (bs_data s) offset n).

(** ** Limits *)

Record InspectionLimits := {
  max_header_bytes : Z;
  max_tensor_count : Z;
  max_metadata_entries : Z;
  max_key_len : Z;
  max_shape_rank : Z;
  max_dim : Z;
  max_total_declared_bytes : Z;
}.

Definition InspectionLimits_default : InspectionLimits := {|
  max_header_bytes := 64 * 1024 * 1024;
  max_tensor_count := 1000000;
  max_metadata_entries := 1000000;
  max_key_len := 16 * 1024;
  max_shape_rank := 16;
  max_dim := 2 ^ 40;
  max_total_declared_bytes := 2 ^ 50;
|}.

Definition validate_key (l : InspectionLimits) (key : string) : Result unit :=
  ensure (strlen key <=? max_key_len l)
    (invalid_checkpoint
       (Format "tensor key length {} exceeds limit {}"
          [AInt (strlen key); AInt (max_key_len l)])
       (Some (concat_strings (take 64 (chars key)))) None).

Definition validate_shape (l : InspectionLimits) (shape : list Z) : Result unit :=
  _ ← ensure (Z.of_nat (length shape) <=? max_shape_rank l)
        (invalid_checkpoint
           (Format "shape rank {} exceeds limit {}"
              [AInt (Z.of_nat (length shape)); AInt (max_shape_rank l)]) None None);
  try_for_each (fun d =>
    ensure (d <=? max_dim l)
      (invalid_checkpoint
         (Format "dimension {d} exceeds limit {}" [AInt d; AInt (max_dim l)]) None None))
    shape.

(** * Lemmas *)

Lemma FileSource_read_Ok s offset n bs :
  0 <= offset -> 0 <= n -> FileSource_read_exact_at s offset n = Ok bs ->
  Z.of_nat (length bs) = n /\ offset + n <= fs_len s.
Proof.
  unfold FileSource_read_exact_at. intros _ Hn H. ok_inv.
  apply checked_add_Some in Hv as [-> _]. apply Z.leb_le in Hv0.
  split; [|done]. by eapply fs_read_length.
Qed.

Lemma slice_length data start n :
  0 <= start -> 0 <= n -> start + n <= Z.of_nat (length data) ->
  Z.of_nat (length (slice data start n)) = n.
Proof.
  intros H1 H2 H3. unfold slice. rewrite length_take, length_drop. lia.
Qed.

Lemma BytesSource_read_Ok s offset n bs :
  0 <= offset -> 0 <= n -> BytesSource_read_exact_at s offset n = Ok bs ->
  Z.of_nat (length bs) = n /\ offset + n <= BytesSource_len s.
Proof.
  unfold BytesSource_read_exact_at. intros Ho Hn H. ok_inv.
  apply checked_add_Some in Hv as [-> _]. apply Z.leb_le in Hv0.
  split; [|done]. apply slice_length; done.
Qed.

Lemma validate_shape_Ok l shape u :
  validate_shape l shape = Ok u ->
  Z.of_nat (length shape) <= max_shape_rank l /\ Forall (fun d => d <= max_dim l) shape.
Proof.
  unfold validate_shape. intros H. ok_inv. split; [by apply Z.leb_le|].
  apply try_for_each_Ok in H. eapply Forall_impl; [exact H|].
  intros d Hd. apply ensure_Ok in Hd. by apply Z.leb_le.
Qed.

Lemma no_panic_validate_shape l shape : no_panic (validate_shape l shape).
Proof.
  unfold validate_shape. no_panic_tac. apply no_panic_try_for_each. no_panic_tac.
Qed.
#[export] Hint Resolve no_panic_validate_shape : dyninfer.

Lemma FileSource_len_u64 s : is_u64 (fs_len s).
Proof. apply fs_len_ok. Qed.
Lemma FileSource_no_panic s offset n : no_panic (FileSource_read_exact_at s offset n).
Proof. unfold FileSource_read_exact_at. no_panic_tac. Qed.
Lemma BytesSource_len_u64 s : is_u64 (BytesSource_len s).
Proof. apply bs_len_ok. Qed.
Lemma BytesSource_no_panic s offset n : no_panic (BytesSource_read_exact_at s offset n).
Proof. unfold BytesSource_read_exact_at. no_panic_tac. Qed.

(** ** The two implementations of the trait *)

#[export] Instance FileSource_source : RandomAccessSource FileSource := {|
  src_path s := Some (fs_path s);
  src_len := fs_len;
  read_exact_at := FileSource_read_exact_at;
  src_len_u64 := FileSource_len_u64;
  read_exact_at_Ok := FileSource_read_Ok;
  read_exact_at_no_panic := FileSource_no_panic;
|}.

#[export] Instance BytesSource_source : RandomAccessSource BytesSource := {|
  src_path := bs_path;
  src_len := BytesSource_len;
  read_exact_at := BytesSource_read_exact_at;
  src_len_u64 := BytesSource_len_u64;
  read_exact_at_Ok := BytesSource_read_Ok;
  read_exact_at_no_panic := BytesSource_no_panic;
|}.

Section ReadRange.
Context {S : Type} `{RandomAccessSource S}.

Lemma read_range_Ok s offset n bs :
  0 <= offset -> 0 <= n -> read_range s offset n = Ok bs ->
  Z.of_nat (length bs) = n /\ offset + n <= src_len s.
Proof. unfold read_range. case_match; [apply read_exact_at_Ok|done]. Qed.

Lemma no_panic_read_range s offset n : no_panic (read_range s offset n).
Proof. unfold read_range. case_match; [apply read_exact_at_no_panic|done]. Qed.
Lemma no_panic_read_exact_at s offset n : no_panic (read_exact_at s offset n).
Proof. apply read_exact_at_no_panic. Qed.

End ReadRange.
#[export] Hint Resolve no_panic_read_range no_panic_read_exact_at : dyninfer.

(** In memory, a range inside the data is read back byte for byte. *)
Lemma BytesSource_read_range s pre bs post :
  bs_data s = pre ++ bs ++ post ->
  read_range s (Z.of_nat (length pre)) (Z.of_nat (length bs)) = Ok bs.
Proof.
  intros Hd. pose proof (bs_len_ok s) as Hlen. unfold is_u64 in Hlen.
  rewrite Hd, !length_app in Hlen. unfold read_range. cbn.
  destruct (Z.leb_spec (Z.of_nat (length bs)) u64_max); [|lia].
  unfold BytesSource_read_exact_at, checked_add, checked_u64, BytesSource_len.
  rewrite Hd, !length_app.
  destruct (Z.leb_spec (Z.of_nat (length pre) + Z.of_nat (length bs)) u64_max); [|lia].
  cbn. rewrite (proj2 (Z.leb_le _ _)) by lia. cbn. f_equal.
  unfold slice. rewrite !Nat2Z.id, drop_app_length, take_app_length. done.
Qed.

(** An in-memory file of fewer than [2 ^ 64] bytes. *)
Definition memory (data : bytes) (H : is_u64 (Z.of_nat (length data))) : BytesSource :=
  {| bs_path := None; bs_data := data; bs_len_ok := H |}.

Lemma small_file (data : bytes) : (Z.of_nat (length data) <=? u64_max) = true -> is_u64 (Z.of_nat (length data)).
Proof. intros H%Z.leb_le. unfold is_u64. lia. Qed.

(** A file on a disk that holds [data] and never fails. *)
Definition disk_read (data : bytes) (offset n : Z) : option bytes :=
  if (0 <=? offset) && (0 <=? n) && (offset + n <=? Z.of_nat (length data))
  then Some (slice data offset n) else None.

Lemma disk_read_length data offset n bs :
  0 <= n -> disk_read data offset n = Some bs -> Z.of_nat (length bs) = n.
Proof.
  unfold disk_read. intros Hn H. case_match eqn:E; [|done]. injection H as <-.
  rewrite !andb_true_iff, !Z.leb_le in E. apply slice_length; lia.
Qed.

Definition disk_file (path : string) (data : bytes) (H : is_u64 (Z.of_nat (length data)))
    : FileSource :=
  {| fs_path := path; fs_len := Z.of_nat (length data); fs_seek _ := true;
     fs_read := disk_read data; fs_len_ok := H; fs_read_length := disk_read_length data |}.


Section Catalog.
Context {SJ : SerdeJson}.

Record ContainerIdentity :=
  { ci_format_id : string; ci_version : option Z; ci_magic : option string }.

(** [ProbeScore] and [MatchScore] wrap a [u32]. *)
Record ProbeScore := { ps_score : Z }.
Definition PROBE_NONE : ProbeScore := {| ps_score := 0 |}.
Definition PROBE_WEAK : ProbeScore := {| ps_score := 10 |}.
Definition PROBE_STRONG : ProbeScore := {| ps_score := 100 |}.
Definition ps_is_match (p : ProbeScore) : bool := 0 <? ps_score p.

Record MatchScore := { ms_score : Z }.
Definition MATCH_NONE : MatchScore := {| ms_score := 0 |}.
Definition ms_is_match (m : MatchScore) : bool := 0 <? ms_score m.

Record RawTensorEntry := {
  re_key : string;
  re_source_file_index : Z;
  re_shape : list Z;
  re_storage_type : StorageElementType;
  re_byte_ranges : list ByteRange;
  re_alignment : Z;
  re_endianness : Endianness;
  re_metadata : MetadataMap;
}.

Record RawCheckpointIndex := {
  ix_container : ContainerIdentity;
  ix_source_files : list SourceFile;
  ix_metadata : MetadataMap;
  ix_entries : list RawTensorEntry;
  ix_data_offset : Z;
}.

Record LogicalParameter := {
  lp_canonical_name : string;
  lp_role : ParameterRole;
  lp_logical_type : LogicalTensorType;
  lp_encoding : PhysicalEncoding;
  lp_components : list StorageComponent;
  lp_aliases : list string;
}.

Record ParameterCatalog := {
  pcat_convention_id : string;
  pcat_parameters : list LogicalParameter;
  pcat_metadata : MetadataMap;
}.

Record CheckpointCatalog := {
  cc_container : ContainerIdentity;
  cc_convention_id : string;
  cc_source_files : list SourceFile;
  cc_metadata : MetadataMap;
  cc_raw_entries : list RawTensorEntry;
  cc_parameters : list LogicalParameter;
  cc_schema_fingerprint : SchemaFingerprint;
}.

Record ProviderParameterDescriptor := {
  pd_external_key : string;
  pd_aliases : list string;
  pd_source_file_index : Z;
  pd_offset : Z;
  pd_length : Z;
}.

Record RuntimeProviderPlan := {
  rp_kind : string;
  rp_scope : string;
  rp_file_paths : list string;
  rp_parameters : list ProviderParameterDescriptor;
  rp_notes : list string;
}.

Record DecodeContext := {
  dc_architecture_hint : option string;
  dc_overrides : MetadataMap;
}.

(** ** Traits *)

Record CheckpointContainerReader {S : Type} := {
  cr_format_id : string;
  cr_probe : S -> Result ProbeScore;
  cr_index : S -> InspectionLimits -> Result RawCheckpointIndex;
  cr_runtime_provider_plan : RawCheckpointIndex -> Result RuntimeProviderPlan;
}.

Record CheckpointConventionDecoder := {
  cd_convention_id : string;
  cd_match_score : RawCheckpointIndex -> DecodeContext -> Result MatchScore;
  cd_decode : RawCheckpointIndex -> DecodeContext -> Result ParameterCatalog;
}.

(** The [source_files] of an index over one source. *)
Definition single_source_files {S} `{RandomAccessSource S} (source : S) : list SourceFile :=
  match src_path source with
  | Some p => [{| sf_path := p; sf_size_bytes := src_len source; sf_content_digest := None |}]
  | None => []
  end.

(** [entries.sort_by(|a, b| a.key.cmp(&b.key))]. *)
Definition entry_leb (a b : RawTensorEntry) : bool := string_leb (re_key a) (re_key b).
Definition sort_entries : list RawTensorEntry -> list RawTensorEntry := stable_sort entry_leb.

Lemma sort_entries_sorted es :
  StronglySorted (fun a b => entry_leb a b = true) (sort_entries es).
Proof.
  apply stable_sort_sorted; intros; [apply string_leb_total|by eapply string_leb_trans].
Qed.

Lemma elem_of_sort_entries e es : e ∈ sort_entries es <-> e ∈ es.
Proof. unfold sort_entries. by rewrite stable_sort_perm. Qed.

End Catalog.

(** ** role.rs *)

Definition infer_role (name : string) : ParameterRole :=
  let n := to_ascii_lowercase name in
  if contains "embed" n || contains "token_embd" n || contains "tok_embeddings" n
  then Embedding
  else if contains "q_norm" n || contains "k_norm" n then Norm
  else if contains "attn_q" n || contains "attention.wq" n || contains "q_proj" n
          || ends_with ".q.weight" n then AttentionQ
  else if contains "attn_k" n || contains "attention.wk" n || contains "k_proj" n
          || ends_with ".k.weight" n then AttentionK
  else if contains "attn_v" n || contains "attention.wv" n || contains "v_proj" n
          || ends_with ".v.weight" n then AttentionV
  else if contains "attn_output" n || contains "attn_o" n || contains "attention.wo" n
          || contains "o_proj" n || ends_with ".o.weight" n then AttentionO
  else if contains "ffn_gate" n || contains "w1" n || contains "gate_proj" n then FfnGate
  else if contains "ffn_up" n || contains "w3" n || contains "up_proj" n then FfnUp
  else if contains "ffn_down" n || contains "w2" n || contains "down_proj" n then FfnDown
  else if contains "norm" n || contains "ln_" n || contains "layernorm" n then Norm
  else if contains "output" n || contains "lm_head" n || ends_with "output.weight" n
  then Output
  else if contains "bias" n then Bias
  else if contains "rope" n || contains "freq" n then RopeFreqs
  else Other name.
