(* ===== verification/GgufContainer.v ===== *)
(** * GGUF container indexing: crates/dyninfer-checkpoint-gguf/src/container.rs

    A cursor over a byte source, the typed metadata reader and the indexer of
    the tensor directory.  [read_value] recurses on nested arrays without a
    bound of its own: the model takes the number of stack frames available
    and panics when they run out, as the program does. *)
From S2P Require Import Prelude Errors Serde CoreTypes Catalog.
From Stdlib Require Import ZArith Lia Ascii String.
From stdpp Require Import base list strings gmap.
From stdpp Require Import options.

(** * GGUF tensor types: crates/dyninfer-checkpoint-gguf/src/types.rs *)

Local Open Scope Z_scope.

Module GgufType.

Inductive t : Set :=
  | F32 | F16 | Q4_0 | Q4_1 | Q5_0 | Q5_1 | Q8_0 | Q8_1
  | Q2_K | Q3_K | Q4_K | Q5_K | Q6_K | Q8_K
  | IQ2_XXS | IQ2_XS | IQ3_XXS | IQ1_S | IQ4_NL | IQ3_S | IQ2_S | IQ4_XS
  | I8 | I16 | I32 | I64 | F64 | IQ1_M | BF16 | TQ1_0 | TQ2_0 | MXFP4.
#[export] Instance t_eq_dec : EqDecision t.
Proof. solve_decision. Defined.

(** The discriminants of [#[repr(u32)] enum GgufType]. *)
Definition as_u32 (ty : t) : Z :=
  match ty with
  | F32 => 0 | F16 => 1 | Q4_0 => 2 | Q4_1 => 3 | Q5_0 => 6 | Q5_1 => 7
  | Q8_0 => 8 | Q8_1 => 9 | Q2_K => 10 | Q3_K => 11 | Q4_K => 12 | Q5_K => 13
  | Q6_K => 14 | Q8_K => 15 | IQ2_XXS => 16 | IQ2_XS => 17 | IQ3_XXS => 18
  | IQ1_S => 19 | IQ4_NL => 20 | IQ3_S => 21 | IQ2_S => 22 | IQ4_XS => 23
  | I8 => 24 | I16 => 25 | I32 => 26 | I64 => 27 | F64 => 28 | IQ1_M => 29
  | BF16 => 30 | TQ1_0 => 34 | TQ2_0 => 35 | MXFP4 => 39
  end.

Definition from_u32 (v : Z) : Result t :=
  match v with
  | 0 => Ok F32 | 1 => Ok F16 | 2 => Ok Q4_0 | 3 => Ok Q4_1 | 6 => Ok Q5_0
  | 7 => Ok Q5_1 | 8 => Ok Q8_0 | 9 => Ok Q8_1 | 10 => Ok Q2_K | 11 => Ok Q3_K
  | 12 => Ok Q4_K | 13 => Ok Q5_K | 14 => Ok Q6_K | 15 => Ok Q8_K
  | 16 => Ok IQ2_XXS | 17 => Ok IQ2_XS | 18 => Ok IQ3_XXS | 19 => Ok IQ1_S
  | 20 => Ok IQ4_NL | 21 => Ok IQ3_S | 22 => Ok IQ2_S | 23 => Ok IQ4_XS
  | 24 => Ok I8 | 25 => Ok I16 | 26 => Ok I32 | 27 => Ok I64 | 28 => Ok F64
  | 29 => Ok IQ1_M | 30 => Ok BF16 | 34 => Ok TQ1_0 | 35 => Ok TQ2_0 | 39 => Ok MXFP4
  | other =>
      Err (invalid_checkpoint
             (Format "unknown GGUF tensor type code {other}" [AInt other]) None None)
  end.

Definition name (ty : t) : string :=
  match ty with
  | F32 => "f32" | F16 => "f16" | Q4_0 => "q4_0" | Q4_1 => "q4_1"
  | Q5_0 => "q5_0" | Q5_1 => "q5_1" | Q8_0 => "q8_0" | Q8_1 => "q8_1"
  | Q2_K => "q2_k" | Q3_K => "q3_k" | Q4_K => "q4_k" | Q5_K => "q5_k"
  | Q6_K => "q6_k" | Q8_K => "q8_k" | IQ2_XXS => "iq2_xxs" | IQ2_XS => "iq2_xs"
  | IQ3_XXS => "iq3_xxs" | IQ1_S => "iq1_s" | IQ4_NL => "iq4_nl"
  | IQ3_S => "iq3_s" | IQ2_S => "iq2_s" | IQ4_XS => "iq4_xs"
  | I8 => "i8" | I16 => "i16" | I32 => "i32" | I64 => "i64" | F64 => "f64"
  | IQ1_M => "iq1_m" | BF16 => "bf16" | TQ1_0 => "tq1_0" | TQ2_0 => "tq2_0"
  | MXFP4 => "mxfp4"
  end.

Definition is_q4_0 (ty : t) : bool := match ty with Q4_0 => true | _ => false end.
Definition is_dense_v1 (ty : t) : bool :=
  match ty with F32 | F16 | BF16 => true | _ => false end.

Definition block_size (ty : t) : option Z :=
  match ty with
  | Q4_0 | Q4_1 | Q5_0 | Q5_1 | Q8_0 | Q8_1 | IQ4_NL | MXFP4 => Some 32
  | Q2_K | Q3_K | Q4_K | Q5_K | Q6_K | Q8_K | IQ2_XXS | IQ2_XS | IQ3_XXS
  | IQ1_S | IQ3_S | IQ2_S | IQ4_XS | IQ1_M | TQ1_0 | TQ2_0 => Some 256
  | _ => None
  end.

Definition type_size (ty : t) : option Z :=
  match ty with
  | Q4_0 => Some 18 | Q4_1 => Some 20 | Q5_0 => Some 22 | Q5_1 => Some 24
  | Q8_0 => Some 34 | Q8_1 => Some 36 | Q2_K => Some 84 | Q3_K => Some 110
  | Q4_K => Some 144 | Q5_K => Some 176 | Q6_K => Some 210 | Q8_K => Some 292
  | IQ2_XXS => Some 66 | IQ2_XS => Some 74 | IQ3_XXS => Some 98 | IQ1_S => Some 50
  | IQ4_NL => Some 18 | IQ3_S => Some 110 | IQ2_S => Some 82 | IQ4_XS => Some 136
  | IQ1_M => Some 56 | TQ1_0 => Some 54 | TQ2_0 => Some 66 | MXFP4 => Some 17
  | F32 => Some 4
  | F16 | BF16 => Some 2
  | F64 | I64 => Some 8
  | I32 => Some 4
  | I16 => Some 2
  | I8 => Some 1
  end.

Definition storage_element_type (ty : t) : StorageElementType :=
  match ty with
  | F32 => Scalar CoreTypes.F32
  | F16 => Scalar CoreTypes.F16
  | BF16 => Scalar CoreTypes.Bf16
  | F64 => Scalar CoreTypes.F64
  | I8 => Scalar CoreTypes.I8
  | I16 => Scalar CoreTypes.I16
  | I32 => Scalar CoreTypes.I32
  | I64 => Scalar CoreTypes.I64
  | other => OpaqueElement (String.append "gguf." (name other))
  end.

Definition nbytes_for_shape (ty : t) (shape : list Z) : Result Z :=
  n ← ok_or (try_product 1 shape)
        (invalid_checkpoint (lit "shape numel overflow") None None);
  match block_size ty with
  | Some block =>
      type_size ← ok_or (type_size ty)
        (invalid_checkpoint (Format "cannot size GGUF type {}" [AStr (name ty)]) None None);
      _ ← ensure (is_multiple_of n block)
        (invalid_checkpoint
           (Format "GGUF {} numel {numel} not divisible by block {block}"
              [AStr (name ty); AInt n; AInt block]) None None);
      ok_or (checked_mul (n / block) type_size)
        (invalid_checkpoint (lit "tensor byte size overflow") None None)
  | None =>
      sz ← ok_or (type_size ty)
        (invalid_checkpoint (Format "cannot size GGUF type {}" [AStr (name ty)]) None None);
      ok_or (checked_mul n sz)
        (invalid_checkpoint (lit "tensor byte size overflow") None None)
  end.

(** The sizing rule the routine implements: a whole number of blocks of
    [block] elements, each of [size] bytes; a scalar type has one-element
    blocks. *)
Definition block_geometry (ty : t) : Z * Z :=
  (default 1 (block_size ty), default 0 (type_size ty)).

(** ** Lemmas *)

Lemma type_size_Some ty : exists n, type_size ty = Some n /\ 1 <= n <= 292.
Proof. destruct ty; cbn; eexists; split; try reflexivity; lia. Qed.

Lemma block_size_pos ty b : block_size ty = Some b -> 0 < b.
Proof. destruct ty; cbn; intros [= <-]; lia. Qed.

Lemma no_panic_nbytes ty shape : no_panic (nbytes_for_shape ty shape).
Proof. unfold nbytes_for_shape. no_panic_tac. Qed.

Lemma no_panic_from_u32 v : no_panic (from_u32 v).
Proof. unfold from_u32. repeat case_match; done. Qed.
#[export] Hint Resolve no_panic_nbytes no_panic_from_u32 : dyninfer.

Lemma from_u32_as_u32 v ty : from_u32 v = Ok ty -> as_u32 ty = v.
Proof. unfold from_u32. repeat case_match; intros [= <-]; reflexivity. Qed.

Lemma as_u32_range ty : is_u32 (as_u32 ty).
Proof. unfold is_u32, u32_max. destruct ty; cbn; lia. Qed.

Lemma nbytes_exact ty shape n :
  nbytes_for_shape ty shape = Ok n <->
  exists count blocks, numel shape = Some count /\
    count = blocks * fst (block_geometry ty) /\
    n = blocks * snd (block_geometry ty) /\ n <= u64_max.
Proof.
  unfold nbytes_for_shape, numel, block_geometry. cbn.
  destruct (type_size_Some ty) as (sz & Hsz & Hpos). rewrite Hsz. cbn.
  destruct (try_product 1 shape) as [count|]; cbn; [|split; [done|]; by intros (? & ? & ? & _)].
  destruct (block_size ty) as [b|] eqn:Hb; cbn.
  - apply block_size_pos in Hb. split.
    + intros H. ok_inv. apply checked_mul_Some in H as [-> H].
      apply is_multiple_of_spec in Hv as [k ->]; [|done].
      rewrite Z.div_mul in H |- * by lia. eauto 10.
    + intros (? & k & [= <-] & -> & -> & H).
      rewrite (proj2 (is_multiple_of_spec _ _ Hb)) by eauto. cbn.
      rewrite Z.div_mul by lia. apply ok_or_Ok, checked_mul_Some. done.
  - split.
    + intros H. apply ok_or_Ok, checked_mul_Some in H as [-> H].
      exists count, count. split; [done|]. lia.
    + intros (? & k & [= <-] & -> & -> & H). apply ok_or_Ok, checked_mul_Some. lia.
Qed.

(** ** Properties *)

(** The codes of the types, and nothing else, are read back. *)
Theorem type_code_roundtrip ty v :
  from_u32 (as_u32 ty) = Ok ty /\ (from_u32 v = Ok ty <-> v = as_u32 ty).
Proof.
  assert (H : from_u32 (as_u32 ty) = Ok ty) by (destruct ty; reflexivity).
  split; [done|]. split; [|by intros ->]. by intros <-%from_u32_as_u32.
Qed.

End GgufType.


Section Gguf.
Context {SJ : SerdeJson} {LE : LittleEndian} {Src : Type} {RS : RandomAccessSource Src}.

Definition GGUF_MAGIC : bytes := bytes_of_string "GGUF".
Definition ALIGNMENT_DEFAULT : Z := 32.

(** ** The cursor *)

Record Cursor := { cur_source : Src; cur_pos : Z; cur_limits : InspectionLimits }.

Definition set_pos (c : Cursor) (pos : Z) : Cursor :=
  {| cur_source := cur_source c; cur_pos := pos; cur_limits := cur_limits c |}.

(** A reading step: a value and the advanced cursor. *)
Abbreviation reader A := (Cursor -> Result (A * Cursor)).

Definition read_exact (len : Z) : reader bytes := fun c =>
  buf ← read_range (cur_source c) (cur_pos c) len;
  pos ← ok_or (checked_add (cur_pos c) len) (io (lit "GGUF cursor overflow"));
  Ok (buf, set_pos c pos).

Definition read_u32 : reader Z := fun c =>
  '(b, c) ← read_exact 4 c; Ok (read_u32_le b, c).
Definition read_u64 : reader Z := fun c =>
  '(b, c) ← read_exact 8 c; Ok (read_u64_le b, c).
Definition read_i32 : reader Z := fun c =>
  '(b, c) ← read_exact 4 c; Ok (signed 32 (read_u32_le b), c).
Definition read_f32 : reader f32 := fun c =>
  '(b, c) ← read_exact 4 c; Ok (f32_of_bits (read_u32_le b), c).

(** [b[0]] of a vector. *)
Definition index0 (b : bytes) : Result byte :=
  match b with x :: _ => Ok x | [] => Panic "index out of bounds" end.

Definition read_bool : reader bool := fun c =>
  '(b, c) ← read_exact 1 c; x ← index0 b; Ok (negb (u8 x =? 0), c).
Definition read_u8 : reader Z := fun c =>
  '(b, c) ← read_exact 1 c; x ← index0 b; Ok (u8 x, c).
Definition read_i8 : reader Z := fun c =>
  '(b, c) ← read_exact 1 c; x ← index0 b; Ok (signed 8 (u8 x), c).
Definition read_u16 : reader Z := fun c =>
  '(b, c) ← read_exact 2 c; Ok (read_u16_le b, c).
Definition read_i16 : reader Z := fun c =>
  '(b, c) ← read_exact 2 c; Ok (signed 16 (read_u16_le b), c).

Definition read_string : reader string := fun c =>
  '(len, c) ← read_u64 c;
  _ ← ensure (len <=? max_key_len (cur_limits c))
        (invalid_checkpoint
           (Format "GGUF string length {len} exceeds limit" [AInt len]) None None);
  '(bs, c) ← read_exact len c;
  s ← ok_or (from_utf8 bs)
        (invalid_checkpoint (lit "GGUF string is not UTF-8: {e}") None None);
  Ok (s, c).

(** [stack] is the number of frames left for the recursion on arrays. *)
Fixpoint read_value (stack : nat) (value_type : Z) (c : Cursor) : Result (Value * Cursor) :=
  match stack with
  | O => Panic "stack overflow"
  | S stack =>
    match value_type with
    | 0 => '(v, c) ← read_u8 c; Ok (value_u64 v, c)
    | 1 => '(v, c) ← read_i8 c; Ok (value_i64 v, c)
    | 2 => '(v, c) ← read_u16 c; Ok (value_u64 v, c)
    | 3 => '(v, c) ← read_i16 c; Ok (value_i64 v, c)
    | 4 => '(v, c) ← read_u32 c; Ok (value_u64 v, c)
    | 5 => '(v, c) ← read_i32 c; Ok (value_i64 v, c)
    | 6 => '(v, c) ← read_f32 c; Ok (number_from_f64 (f64_of_f32 v), c)
    | 7 => '(v, c) ← read_bool c; Ok (value_bool v, c)
    | 8 => '(v, c) ← read_string c; Ok (value_string v, c)
    | 9 =>
        '(elem_type, c) ← read_u32 c;
        '(count, c) ← read_u64 c;
        _ ← ensure (count <=? max_metadata_entries (cur_limits c))
              (invalid_checkpoint
                 (Format "GGUF array length {count} exceeds limit" [AInt count]) None None);
        '(arr, c) ← repeat_read (Z.to_nat count) (read_value stack elem_type) c;
        Ok (value_array arr, c)
    | 10 => '(v, c) ← read_u64 c; Ok (value_u64 v, c)
    | 11 => '(b, c) ← read_exact 8 c; Ok (value_i64 (signed 64 (read_u64_le b)), c)
    | 12 => '(b, c) ← read_exact 8 c;
            Ok (number_from_f64 (f64_of_bits (read_u64_le b)), c)
    | other =>
        Err (invalid_checkpoint
               (Format "unsupported GGUF metadata value type {other}" [AInt other])
               None None)
    end
  end.

Definition align_up (value align : Z) : Z :=
  if align =? 0 then value else wrap64 (div_ceil value align * align).

(** ** Probe and index *)

Definition gguf_format_id : string := "gguf".

Definition gguf_probe (source : Src) : Result ProbeScore :=
  if src_len source <? 4 then Ok PROBE_NONE
  else
    magic ← read_exact_at source 0 4;
    Ok (if bool_decide (magic = GGUF_MAGIC) then PROBE_STRONG else PROBE_NONE).

(** One turn of the metadata loop: key, type tag, value. *)
Definition read_kv (stack : nat) : reader (string * Value) := fun c =>
  '(key, c) ← read_string c;
  _ ← validate_key (cur_limits c) key;
  '(value_type, c) ← read_u32 c;
  '(value, c) ← read_value stack value_type c;
  Ok ((key, value), c).

Fixpoint read_metadata (stack n : nat) (metadata : MetadataMap) (c : Cursor)
    : Result (MetadataMap * Cursor) :=
  match n with
  | O => Ok (metadata, c)
  | S n =>
      '(kv, c) ← read_kv stack c;
      read_metadata stack n (<[kv.1 := kv.2]> metadata) c
  end.

Record TensorDir := {
  td_name : string;
  td_shape : list Z;
  td_type : GgufType.t;
  td_offset : Z;
}.

(** One turn of the tensor-directory loop. *)
Definition read_dir : reader TensorDir := fun c =>
  '(name, c) ← read_string c;
  _ ← validate_key (cur_limits c) name;
  '(n_dims, c) ← read_u32 c;
  _ ← ensure (n_dims <=? max_shape_rank (cur_limits c))
        (invalid_checkpoint
           (Format "GGUF tensor rank {n_dims} exceeds limit" [AInt n_dims]) (Some name) None);
  '(dims, c) ← repeat_read (Z.to_nat n_dims) read_u64 c;
  let shape := reverse dims in
  _ ← validate_shape (cur_limits c) shape;
  '(type_code, c) ← read_u32 c;
  gguf_type ← GgufType.from_u32 type_code;
  '(offset, c) ← read_u64 c;
  Ok ({| td_name := name; td_shape := shape; td_type := gguf_type; td_offset := offset |}, c).

(** The body of the placement loop: absolute range and bounds check. *)
Definition place_tensor (source : Src) (data_offset alignment : Z) (dir : TensorDir)
    : Result RawTensorEntry :=
  nbytes ← GgufType.nbytes_for_shape (td_type dir) (td_shape dir);
  abs ← ok_or (checked_add data_offset (td_offset dir))
          (invalid_checkpoint (lit "tensor absolute offset overflow")
             (Some (td_name dir)) None);
  _ ← ensure (default u64_max (checked_add abs nbytes) <=? src_len source)
        (invalid_checkpoint (lit "tensor data extends past end of file")
           (Some (td_name dir)) None);
  Ok {| re_key := td_name dir;
        re_source_file_index := 0;
        re_shape := td_shape dir;
        re_storage_type := GgufType.storage_element_type (td_type dir);
        re_byte_ranges := [{| br_offset := abs; br_length := nbytes |}];
        re_alignment := alignment;
        re_endianness := Little;
        re_metadata :=
          <["gguf.type_code" := value_u64 (GgufType.as_u32 (td_type dir))]>
          (<["gguf.type" := value_string (GgufType.name (td_type dir))]> ∅) |}.

(** The header after the magic: version and the two counts. *)
Definition read_header : reader (Z * Z * Z) := fun c =>
  '(magic, c) ← read_exact 4 c;
  _ ← ensure (bool_decide (magic = GGUF_MAGIC))
        (invalid_checkpoint (lit "not a GGUF file") None None);
  '(version, c) ← read_u32 c;
  _ ← ensure (negb ((version <? 2) || (version >? 3)))
        (invalid_checkpoint (Format "unsupported GGUF version {version}" [AInt version])
           None (Some (lit "supported: 2, 3")));
  '(tensor_count, c) ← read_u64 c;
  '(kv_count, c) ← read_u64 c;
  _ ← ensure (negb ((tensor_count >? max_tensor_count (cur_limits c))
                    || (kv_count >? max_metadata_entries (cur_limits c))))
        (invalid_checkpoint
           (Format "GGUF counts exceed limits: tensors={tensor_count} kv={kv_count}"
              [AInt tensor_count; AInt kv_count]) None None);
  Ok ((version, tensor_count, kv_count), c).

Definition metadata_alignment (metadata : MetadataMap) : Z :=
  default ALIGNMENT_DEFAULT (v ← metadata !! "general.alignment"; as_u64 v).

Definition gguf_index (stack : nat) (source : Src) (limits : InspectionLimits)
    : Result RawCheckpointIndex :=
  let c := {| cur_source := source; cur_pos := 0; cur_limits := limits |} in
  '(header, c) ← read_header c;
  let '(version, tensor_count, kv_count) := header in
  '(metadata, c) ← read_metadata stack (Z.to_nat kv_count) ∅ c;
  let alignment := metadata_alignment metadata in
  '(dirs, c) ← repeat_read (Z.to_nat tensor_count) read_dir c;
  let data_offset := align_up (cur_pos c) alignment in
  entries ← try_map (place_tensor source data_offset alignment) dirs;
  Ok {| ix_container :=
          {| ci_format_id := gguf_format_id; ci_version := Some version;
             ci_magic := Some "GGUF" |};
        ix_source_files := single_source_files source;
        ix_metadata := metadata;
        ix_entries := sort_entries entries;
        ix_data_offset := data_offset |}.

Definition gguf_runtime_provider_plan (index : RawCheckpointIndex) : Result RuntimeProviderPlan :=
  Ok {| rp_kind := "file-mapped-external-parameters";
        rp_scope := "weights";
        rp_file_paths := sf_path <$> ix_source_files index;
        rp_parameters := [];
        rp_notes := ["GGUF tensors addressed by absolute file offsets"] |}.

Definition GgufContainer (stack : nat) : CheckpointContainerReader := {|
  cr_format_id := gguf_format_id;
  cr_probe := gguf_probe;
  cr_index := gguf_index stack;
  cr_runtime_provider_plan := gguf_runtime_provider_plan;
|}.

End Gguf.
