(* ===== verification/GgufFormat.v ===== *)
(** * The GGUF format as a specification, and the reader against it

    An encoder written from the published layout (magic, version, counts,
    typed key/value section, tensor directory, padding and data).  The
    indexer decodes every well-formed file to exactly its contents; and a
    family of small malformed files exhausts any stack. *)
From S2P Require Import Prelude Errors Serde CoreTypes Catalog.
From S2P Require Import GgufContainer.
From Stdlib Require Import ZArith Lia Ascii String Sorted.
From stdpp Require Import base list strings gmap.
From stdpp Require Import options.
Import Json.

Local Open Scope Z_scope.

(** ** Typed metadata values and their encoding *)

#[warnings="-register-all"]
Inductive gvalue : Type :=
  | GU8 (n : Z) | GI8 (n : Z) | GU16 (n : Z) | GI16 (n : Z)
  | GU32 (n : Z) | GI32 (n : Z) | GF32 (bits : Z) | GBool (b : bool)
  | GString (s : string) | GArray (elem : Z) (l : list gvalue)
  | GU64 (n : Z) | GI64 (n : Z) | GF64 (bits : Z).

Definition value_tag (v : gvalue) : Z :=
  match v with
  | GU8 _ => 0 | GI8 _ => 1 | GU16 _ => 2 | GI16 _ => 3 | GU32 _ => 4 | GI32 _ => 5
  | GF32 _ => 6 | GBool _ => 7 | GString _ => 8 | GArray _ _ => 9
  | GU64 _ => 10 | GI64 _ => 11 | GF64 _ => 12
  end.

Definition encode_string (s : string) : bytes :=
  le_bytes 8 (strlen s) ++ bytes_of_string s.

Fixpoint encode_value (v : gvalue) : bytes :=
  match v with
  | GU8 n | GI8 n => le_bytes 1 n
  | GU16 n | GI16 n => le_bytes 2 n
  | GU32 n | GI32 n | GF32 n => le_bytes 4 n
  | GBool b => le_bytes 1 (if b then 1 else 0)
  | GString s => encode_string s
  | GArray elem l =>
      le_bytes 4 elem ++ le_bytes 8 (Z.of_nat (length l)) ++ concat (map encode_value l)
  | GU64 n | GI64 n | GF64 n => le_bytes 8 n
  end.

Fixpoint depth (v : gvalue) : nat :=
  match v with
  | GArray _ l => S (foldr Nat.max O (map depth l))
  | _ => 1%nat
  end.

Definition in_unsigned (w n : Z) : bool := (0 <=? n) && (n <? 2 ^ w).
Definition in_signed (w n : Z) : bool := (- 2 ^ (w - 1) <=? n) && (n <? 2 ^ (w - 1)).

Definition string_ok (lim : InspectionLimits) (s : string) : bool :=
  utf8_valid (bytes_of_string s) && (strlen s <=? max_key_len lim) && (strlen s <=? u64_max).

Fixpoint value_ok (lim : InspectionLimits) (v : gvalue) : bool :=
  match v with
  | GU8 n => in_unsigned 8 n | GI8 n => in_signed 8 n
  | GU16 n => in_unsigned 16 n | GI16 n => in_signed 16 n
  | GU32 n | GF32 n => in_unsigned 32 n | GI32 n => in_signed 32 n
  | GBool _ => true
  | GString s => string_ok lim s
  | GArray elem l =>
      in_unsigned 32 elem && in_unsigned 64 (Z.of_nat (length l))
      && (Z.of_nat (length l) <=? max_metadata_entries lim)
      && forallb (fun v => value_tag v =? elem) l && forallb (value_ok lim) l
  | GU64 n | GF64 n => in_unsigned 64 n | GI64 n => in_signed 64 n
  end.

(** ** Files *)

Record gguf_file := {
  gf_version : Z;
  gf_kvs : list (string * gvalue);
  gf_tensors : list TensorDir;
  gf_data : bytes;
}.

Definition encode_kv (kv : string * gvalue) : bytes :=
  encode_string kv.1 ++ le_bytes 4 (value_tag kv.2) ++ encode_value kv.2.

Definition encode_dir (d : TensorDir) : bytes :=
  encode_string (td_name d) ++ le_bytes 4 (Z.of_nat (length (td_shape d)))
  ++ concat (map (le_bytes 8) (reverse (td_shape d)))
  ++ le_bytes 4 (GgufType.as_u32 (td_type d)) ++ le_bytes 8 (td_offset d).

Definition encode_directory (f : gguf_file) : bytes :=
  GGUF_MAGIC ++ le_bytes 4 (gf_version f)
  ++ le_bytes 8 (Z.of_nat (length (gf_tensors f)))
  ++ le_bytes 8 (Z.of_nat (length (gf_kvs f)))
  ++ concat (map encode_kv (gf_kvs f)) ++ concat (map encode_dir (gf_tensors f)).

Definition encode_file (f : gguf_file) : bytes := encode_directory f ++ gf_data f.

Definition kv_ok (lim : InspectionLimits) (kv : string * gvalue) : bool :=
  string_ok lim kv.1 && value_ok lim kv.2.

Definition tensor_ok (lim : InspectionLimits) (d : TensorDir) : bool :=
  string_ok lim (td_name d)
  && in_unsigned 32 (Z.of_nat (length (td_shape d)))
  && (Z.of_nat (length (td_shape d)) <=? max_shape_rank lim)
  && forallb (fun n => in_unsigned 64 n && (n <=? max_dim lim)) (td_shape d)
  && in_unsigned 64 (td_offset d).

Definition file_ok (lim : InspectionLimits) (f : gguf_file) : bool :=
  ((gf_version f =? 2) || (gf_version f =? 3))
  && in_unsigned 64 (Z.of_nat (length (gf_tensors f)))
  && in_unsigned 64 (Z.of_nat (length (gf_kvs f)))
  && (Z.of_nat (length (gf_tensors f)) <=? max_tensor_count lim)
  && (Z.of_nat (length (gf_kvs f)) <=? max_metadata_entries lim)
  && forallb (kv_ok lim) (gf_kvs f) && forallb (tensor_ok lim) (gf_tensors f).

Definition file_depth (f : gguf_file) : nat :=
  foldr Nat.max O (map (fun kv => depth kv.2) (gf_kvs f)).

(** [n] nested one-element arrays that end in the middle of a header. *)
Fixpoint nested_header (n : nat) : bytes :=
  match n with
  | O => []
  | S n => le_bytes 4 9 ++ le_bytes 8 1 ++ nested_header n
  end.

(** A file of [37 + 12 * n] bytes whose only metadata value is that array. *)
Definition nested_file (n : nat) : bytes :=
  GGUF_MAGIC ++ le_bytes 4 3 ++ le_bytes 8 0 ++ le_bytes 8 1
  ++ encode_string "a" ++ le_bytes 4 9 ++ nested_header n.

Section Format.
Context {SJ : SerdeJson} {LE : LittleEndian}.

(** The JSON value the reader is to produce. *)
Fixpoint value_json (v : gvalue) : Value :=
  match v with
  | GU8 n | GU16 n | GU32 n | GU64 n => value_u64 n
  | GI8 n | GI16 n | GI32 n | GI64 n => value_i64 n
  | GF32 bits => number_from_f64 (f64_of_f32 (f32_of_bits bits))
  | GF64 bits => number_from_f64 (f64_of_bits bits)
  | GBool b => value_bool b
  | GString s => value_string s
  | GArray _ l => value_array (map value_json l)
  end.

Definition file_metadata (f : gguf_file) : MetadataMap :=
  foldl (fun m kv => <[kv.1 := value_json kv.2]> m) ∅ (gf_kvs f).

Definition file_alignment (f : gguf_file) : Z := metadata_alignment (file_metadata f).
Definition file_data_offset (f : gguf_file) : Z :=
  align_up (Z.of_nat (length (encode_directory f))) (file_alignment f).

(** The entry of a tensor of [n] bytes. *)
Definition file_entry (f : gguf_file) (d : TensorDir) (n : Z) : RawTensorEntry :=
  {| re_key := td_name d;
     re_source_file_index := 0;
     re_shape := td_shape d;
     re_storage_type := GgufType.storage_element_type (td_type d);
     re_byte_ranges := [{| br_offset := file_data_offset f + td_offset d; br_length := n |}];
     re_alignment := file_alignment f;
     re_endianness := Little;
     re_metadata :=
       <["gguf.type_code" := value_u64 (GgufType.as_u32 (td_type d))]>
       (<["gguf.type" := value_string (GgufType.name (td_type d))]> ∅) |}.

(** A tensor whose bytes are in the file. *)
Definition fits (f : gguf_file) (d : TensorDir) (n : Z) : Prop :=
  GgufType.nbytes_for_shape (td_type d) (td_shape d) = Ok n /\ 0 <= n /\
  file_data_offset f + td_offset d + n <= Z.of_nat (length (encode_file f)).

Context {Src : Type} {RS : RandomAccessSource Src}.

(** [source] holds [data]: its ranges read back. *)
Definition holds (source : Src) (data : bytes) : Prop :=
  src_len source = Z.of_nat (length data) /\
  forall pre bs post, data = pre ++ bs ++ post ->
    read_range source (Z.of_nat (length pre)) (Z.of_nat (length bs)) = Ok bs.

(** The cursor behind the bytes [pre]. *)
Definition at_ (source : Src) (lim : InspectionLimits) (pre : bytes) : Cursor :=
  {| cur_source := source; cur_pos := Z.of_nat (length pre); cur_limits := lim |}.

(** The reader [r] decodes [bs] to [a], wherever [bs] stands. *)
Definition parses {A} (lim : InspectionLimits) (r : Cursor -> Result (A * Cursor))
    (bs : bytes) (a : A) : Prop :=
  forall source pre post, holds source (pre ++ bs ++ post) ->
    r (at_ source lim pre) = Ok (a, at_ source lim (pre ++ bs)).

Lemma cur_limits_at (source : Src) lim pre : cur_limits (at_ source lim pre) = lim.
Proof. done. Qed.

(** ** Composition of decoders *)

Lemma parses_ret {A} lim (a : A) : parses lim (fun c => Ok (a, c)) [] a.
Proof. intros source pre post _. by rewrite app_nil_r. Qed.

Lemma parses_bind {A B} lim (r : Cursor -> Result (A * Cursor))
    (f : A -> Cursor -> Result (B * Cursor)) bs1 bs2 a b :
  parses lim r bs1 a -> parses lim (f a) bs2 b ->
  parses lim (fun c => '(a, c) ← r c; f a c) (bs1 ++ bs2) b.
Proof.
  intros H1 H2 source pre post Hh. rewrite <-app_assoc in Hh.
  rewrite (H1 _ _ _ Hh). cbn. rewrite (H2 _ _ post); [by rewrite app_assoc|].
  by rewrite <-app_assoc.
Qed.

Lemma parses_map {A B} lim (f : A -> B) (r : Cursor -> Result (A * Cursor)) bs a :
  parses lim r bs a -> parses lim (fun c => '(v, c) ← r c; Ok (f v, c)) bs (f a).
Proof.
  intros H. rewrite <-(app_nil_r bs). apply (parses_bind _ _ _ _ _ a); [done|].
  apply parses_ret.
Qed.

Lemma parses_guard {A X} lim (g : Cursor -> Result X)
    (f : X -> Cursor -> Result (A * Cursor)) x bs a :
  (forall source pre, g (at_ source lim pre) = Ok x) -> parses lim (f x) bs a ->
  parses lim (fun c => x ← g c; f x c) bs a.
Proof. intros Hg Hf source pre post Hh. rewrite Hg. cbn. by eapply Hf. Qed.

Lemma parses_exact lim n bs : Z.of_nat (length bs) = n -> parses lim (read_exact n) bs bs.
Proof.
  intros <- source pre post [Hlen Hread]. unfold read_exact, at_. cbn.
  rewrite (Hread pre bs post) by done. cbn.
  pose proof (src_len_u64 source) as Hu. unfold is_u64 in Hu.
  rewrite Hlen, !length_app in Hu.
  unfold checked_add, checked_u64. rewrite (proj2 (Z.leb_le _ _)) by lia. cbn.
  unfold set_pos, at_. cbn. do 4 f_equal. rewrite length_app. lia.
Qed.

Lemma parses_repeat {A X} lim (r : Cursor -> Result (A * Cursor)) (enc : X -> bytes)
    (dec : X -> A) l :
  Forall (fun x => parses lim r (enc x) (dec x)) l ->
  parses lim (repeat_read (length l) r) (concat (map enc l)) (map dec l).
Proof.
  induction 1 as [|x l Hx _ IH]; [apply parses_ret|]. cbn [repeat_read length map concat].
  apply (parses_bind _ _ _ _ _ (dec x)); [done|]. by apply (parses_map _ (cons (dec x))).
Qed.

(** ** Fixed-width readers *)

Lemma in_unsigned_spec w n : in_unsigned w n = true <-> 0 <= n < 2 ^ w.
Proof. unfold in_unsigned. rewrite andb_true_iff, Z.leb_le, Z.ltb_lt. done. Qed.

Lemma in_signed_spec w n : in_signed w n = true <-> - 2 ^ (w - 1) <= n < 2 ^ (w - 1).
Proof. unfold in_signed. rewrite andb_true_iff, Z.leb_le, Z.ltb_lt. done. Qed.

Lemma le_roundtrip k n :
  0 <= n < 2 ^ (8 * Z.of_nat k) -> le_value (le_bytes k n) = n.
Proof. intros H. rewrite le_value_le_bytes. by apply Z.mod_small. Qed.

(** A signed value survives the two's complement encoding. *)
Lemma signed_roundtrip k n :
  (0 < k)%nat -> - 2 ^ (8 * Z.of_nat k - 1) <= n < 2 ^ (8 * Z.of_nat k - 1) ->
  signed (8 * Z.of_nat k) (le_value (le_bytes k n)) = n.
Proof.
  intros Hk H. rewrite le_value_le_bytes. unfold signed.
  set (w := 8 * Z.of_nat k) in *.
  assert (Hw : 2 ^ w = 2 * 2 ^ (w - 1)).
  { rewrite <-Z.pow_succ_r by lia. f_equal. lia. }
  destruct (Z_lt_ge_dec n 0) as [Hn|Hn].
  - rewrite <-(Z.mod_unique n (2 ^ w) (-1) (n + 2 ^ w)) by lia.
    rewrite (proj2 (Z.ltb_ge _ _)) by lia. lia.
  - rewrite Z.mod_small by lia. rewrite (proj2 (Z.ltb_lt _ _)) by lia. done.
Qed.

(** Readers of [k] bytes followed by a pure function. *)
Lemma parses_fixed {A} lim k v (f : bytes -> A) a :
  f (le_bytes k v) = a ->
  parses lim (fun c => '(b, c) ← read_exact (Z.of_nat k) c; Ok (f b, c)) (le_bytes k v) a.
Proof. intros <-. apply parses_map, parses_exact. by rewrite length_le_bytes. Qed.

Lemma read_u16_le_bytes n : read_u16_le (le_bytes 2 n) = le_value (le_bytes 2 n).
Proof. by rewrite read_u16_le_spec by apply length_le_bytes. Qed.
Lemma read_u32_le_bytes n : read_u32_le (le_bytes 4 n) = le_value (le_bytes 4 n).
Proof. by rewrite read_u32_le_spec by apply length_le_bytes. Qed.
Lemma read_u64_le_bytes n : read_u64_le (le_bytes 8 n) = le_value (le_bytes 8 n).
Proof. by rewrite read_u64_le_spec by apply length_le_bytes. Qed.

Lemma parses_u32 lim n : 0 <= n < 2 ^ 32 -> parses lim read_u32 (le_bytes 4 n) n.
Proof.
  intros Hn. apply (parses_fixed lim 4 n read_u32_le).
  by rewrite read_u32_le_bytes, le_roundtrip.
Qed.

Lemma parses_u64 lim n : 0 <= n < 2 ^ 64 -> parses lim read_u64 (le_bytes 8 n) n.
Proof.
  intros Hn. apply (parses_fixed lim 8 n read_u64_le).
  by rewrite read_u64_le_bytes, le_roundtrip.
Qed.

Lemma parses_byte {A} lim v (f : ascii -> A) a :
  f (byte_of v) = a ->
  parses lim (fun c => '(b, c) ← read_exact 1 c; x ← index0 b; Ok (f x, c)) (le_bytes 1 v) a.
Proof.
  intros <- source pre post Hh. rewrite (parses_exact lim 1 (le_bytes 1 v) eq_refl _ _ _ Hh). done.
Qed.

Lemma length_list_ascii s : length (list_ascii_of_string s) = String.length s.
Proof. induction s; cbn; congruence. Qed.

Lemma parses_string lim s : string_ok lim s = true -> parses lim read_string (encode_string s) s.
Proof.
  unfold string_ok. rewrite !andb_true_iff, !Z.leb_le. intros [[Hu Hl] Hm].
  unfold read_string, encode_string.
  apply (parses_bind _ _ _ _ _ (strlen s)).
  { apply parses_u64. unfold strlen, u64_max in *. lia. }
  apply (parses_guard _ (fun c => ensure (strlen s <=? max_key_len (cur_limits c)) _) _ tt).
  { intros. cbn. by rewrite (proj2 (Z.leb_le _ _) Hl). }
  rewrite <-(app_nil_r (bytes_of_string s)).
  apply (parses_bind _ _ _ _ _ (bytes_of_string s)).
  { apply parses_exact. unfold bytes_of_string. by rewrite length_list_ascii. }
  apply (parses_guard _ (fun _ => ok_or (from_utf8 (bytes_of_string s)) _) _ s).
  { intros. unfold from_utf8. rewrite Hu. cbn. f_equal. apply string_of_list_ascii_of_string. }
  apply parses_ret.
Qed.

(** ** Values *)

Lemma gvalue_induction (P : gvalue -> Prop) :
  (forall v, (forall e l, v <> GArray e l) -> P v) ->
  (forall e l, Forall P l -> P (GArray e l)) -> forall v, P v.
Proof.
  intros Hs Ha. fix IH 1. intros v. destruct v; try (apply Hs; congruence).
  apply Ha. induction l as [|v l IHl]; constructor; [apply IH|exact IHl].
Qed.

Lemma u8_byte_value n : u8 (byte_of n) = le_value (le_bytes 1 n).
Proof. cbn. lia. Qed.

Lemma depth_le l v n : v ∈ l -> (foldr Nat.max O (map depth l) <= n)%nat -> (depth v <= n)%nat.
Proof.
  induction l as [|w l IH]; cbn; intros Hv Hn; [by apply not_elem_of_nil in Hv|].
  apply elem_of_cons in Hv as [->|Hv]; [lia|]. apply IH; [done|lia].
Qed.

(** Scalars decode in one frame. *)
Lemma parses_scalar lim stack v :
  (forall e l, v <> GArray e l) -> value_ok lim v = true ->
  parses lim (read_value (S stack) (value_tag v)) (encode_value v) (value_json v).
Proof.
  intros Hv Hok.
  destruct v; cbn [value_ok value_tag encode_value value_json] in *;
    rewrite ?in_unsigned_spec, ?in_signed_spec in Hok.
  - apply (parses_map lim value_u64 read_u8), parses_byte.
    by rewrite u8_byte_value, le_roundtrip.
  - apply (parses_map lim value_i64 read_i8), parses_byte.
    rewrite u8_byte_value. apply (signed_roundtrip 1); [lia|exact Hok].
  - apply (parses_map lim value_u64 read_u16), (parses_fixed lim 2).
    by rewrite read_u16_le_bytes, le_roundtrip.
  - apply (parses_map lim value_i64 read_i16), (parses_fixed lim 2 _ (fun b => signed 16 _)).
    rewrite read_u16_le_bytes. apply (signed_roundtrip 2); [lia|exact Hok].
  - apply (parses_map lim value_u64 read_u32), parses_u32. done.
  - apply (parses_map lim value_i64 read_i32), (parses_fixed lim 4 _ (fun b => signed 32 _)).
    rewrite read_u32_le_bytes. apply (signed_roundtrip 4); [lia|exact Hok].
  - apply (parses_map lim (fun v => number_from_f64 (f64_of_f32 v)) read_f32),
      (parses_fixed lim 4 _ (fun b => f32_of_bits _)).
    by rewrite read_u32_le_bytes, le_roundtrip.
  - apply (parses_map lim value_bool read_bool),
      (parses_byte lim _ (fun x => negb (u8 x =? 0))). by destruct b.
  - apply (parses_map lim value_string read_string), parses_string. done.
  - by destruct (Hv elem l).
  - apply (parses_map lim value_u64 read_u64), parses_u64. done.
  - apply (parses_fixed lim 8 _ (fun b => value_i64 (signed 64 (read_u64_le b)))).
    rewrite read_u64_le_bytes. f_equal. apply (signed_roundtrip 8); [lia|exact Hok].
  - apply (parses_fixed lim 8 _ (fun b => number_from_f64 (f64_of_bits (read_u64_le b)))).
    by rewrite read_u64_le_bytes, le_roundtrip.
Qed.

Lemma parses_value lim v stack :
  value_ok lim v = true -> (depth v <= stack)%nat ->
  parses lim (read_value stack (value_tag v)) (encode_value v) (value_json v).
Proof.
  revert stack. induction v as [v Hv|elem l IH] using gvalue_induction; intros stack Hok Hd.
  { destruct stack; [destruct v; cbn in Hd; lia|]. by apply parses_scalar. }
  destruct stack as [|stack]; [cbn in Hd; lia|]. cbn [depth] in Hd.
  cbn [value_ok value_tag encode_value value_json read_value] in *.
  rewrite !andb_true_iff, !in_unsigned_spec, Z.leb_le, !forallb_forall in Hok.
  destruct Hok as [[[[He Hl] Hm] Htag] Hok].
  apply (parses_bind _ _ _ _ _ elem); [by apply parses_u32|].
  apply (parses_bind _ _ _ _ _ (Z.of_nat (length l))); [by apply parses_u64|].
  apply (parses_guard _ (fun c => ensure (_ <=? max_metadata_entries (cur_limits c)) _) _ tt).
  { intros. cbn. by rewrite (proj2 (Z.leb_le _ _) Hm). }
  apply (parses_map lim value_array). rewrite Nat2Z.id. apply parses_repeat.
  rewrite Forall_forall in IH |- *. intros v Hv.
  assert (Hin : In v l) by by apply list_elem_of_In.
  specialize (Htag v Hin). apply Z.eqb_eq in Htag. rewrite <-Htag.
  apply IH; [done|auto|]. eapply depth_le; [done|lia].
Qed.

(** ** The header, the metadata and the directory *)

Lemma parses_kv lim stack kv :
  kv_ok lim kv = true -> (depth kv.2 <= stack)%nat ->
  parses lim (read_kv stack) (encode_kv kv) (kv.1, value_json kv.2).
Proof.
  destruct kv as [k v]. unfold kv_ok, read_kv, encode_kv. cbn [fst snd].
  rewrite andb_true_iff. intros [Hk Hv] Hd.
  apply (parses_bind _ _ _ _ _ k); [by apply parses_string|].
  apply (parses_guard _ (fun c => validate_key (cur_limits c) k) _ tt).
  { intros. unfold validate_key, string_ok in *. cbn. rewrite !andb_true_iff in Hk.
    by destruct Hk as [[_ ->] _]. }
  apply (parses_bind _ _ _ _ _ (value_tag v)).
  { apply parses_u32. destruct v; cbn; lia. }
  by apply (parses_map lim (pair k)), parses_value.
Qed.

Lemma parses_metadata lim stack kvs m :
  forallb (kv_ok lim) kvs = true ->
  (foldr Nat.max O (map (fun kv => depth kv.2) kvs) <= stack)%nat ->
  parses lim (read_metadata stack (length kvs) m) (concat (map encode_kv kvs))
    (foldl (fun m kv => <[kv.1 := value_json kv.2]> m) m kvs).
Proof.
  revert m. induction kvs as [|kv kvs IH]; intros m;
    cbn [forallb length map concat foldr foldl read_metadata];
    [intros _ _; apply parses_ret|].
  rewrite andb_true_iff. intros [Hkv Hkvs] Hd.
  apply (parses_bind _ _ _ _ _ (kv.1, value_json kv.2)); [apply parses_kv; [done|lia]|].
  apply IH; [done|lia].
Qed.

Lemma parses_dir lim d : tensor_ok lim d = true -> parses lim read_dir (encode_dir d) d.
Proof.
  unfold tensor_ok. rewrite !andb_true_iff, !in_unsigned_spec, Z.leb_le, forallb_forall.
  intros [[[[Hn Hr] Hrank] Hd] Ho]. unfold read_dir, encode_dir.
  apply (parses_bind _ _ _ _ _ (td_name d)); [by apply parses_string|].
  apply (parses_guard _ (fun c => validate_key (cur_limits c) _) _ tt).
  { intros. unfold validate_key, string_ok in *. cbn. rewrite !andb_true_iff in Hn.
    by destruct Hn as [[_ ->] _]. }
  apply (parses_bind _ _ _ _ _ (Z.of_nat (length (td_shape d)))); [by apply parses_u32|].
  apply (parses_guard _ (fun c => ensure (_ <=? max_shape_rank (cur_limits c)) _) _ tt).
  { intros. cbn. by rewrite (proj2 (Z.leb_le _ _) Hrank). }
  apply (parses_bind _ _ _ _ _ (map id (reverse (td_shape d)))).
  { rewrite Nat2Z.id, <-length_reverse. apply parses_repeat, Forall_forall.
    intros n Hin. rewrite elem_of_reverse, list_elem_of_In in Hin. specialize (Hd n Hin).
    rewrite andb_true_iff, in_unsigned_spec in Hd. apply parses_u64, Hd. }
  rewrite map_id.
  apply (parses_guard _ (fun c => validate_shape (cur_limits c) _) _ tt).
  { intros. rewrite reverse_involutive. unfold validate_shape. cbn.
    rewrite (proj2 (Z.leb_le _ _) Hrank). cbn.
    apply try_for_each_Ok, Forall_forall. intros n Hin%list_elem_of_In.
    specialize (Hd n Hin). apply andb_true_iff in Hd as [_ ->]. done. }
  apply (parses_bind _ _ _ _ _ (GgufType.as_u32 (td_type d))).
  { apply parses_u32. pose proof (GgufType.as_u32_range (td_type d)) as H.
    unfold is_u32, u32_max in H. lia. }
  apply (parses_guard _ (fun _ => GgufType.from_u32 _) _ (td_type d)).
  { intros. by destruct (td_type d). }
  rewrite <-(app_nil_r (le_bytes 8 _)).
  apply (parses_bind _ _ _ _ _ (td_offset d)); [by apply parses_u64|].
  rewrite reverse_involutive. destruct d. apply parses_ret.
Qed.

Lemma parses_header lim version t k :
  version = 2 \/ version = 3 -> 0 <= t < 2 ^ 64 -> 0 <= k < 2 ^ 64 ->
  t <= max_tensor_count lim -> k <= max_metadata_entries lim ->
  parses lim read_header
    (GGUF_MAGIC ++ le_bytes 4 version ++ le_bytes 8 t ++ le_bytes 8 k) (version, t, k).
Proof.
  intros Hv Ht Hk Htl Hkl. unfold read_header.
  apply (parses_bind _ _ _ _ _ GGUF_MAGIC); [by apply parses_exact|].
  apply (parses_guard _ (fun _ => ensure _ _) _ tt); [done|].
  apply (parses_bind _ _ _ _ _ version); [apply parses_u32; lia|].
  apply (parses_guard _ (fun _ => ensure _ _) _ tt); [by destruct Hv as [-> | ->]|].
  apply (parses_bind _ _ _ _ _ t); [by apply parses_u64|].
  rewrite <-(app_nil_r (le_bytes 8 k)).
  apply (parses_bind _ _ _ _ _ k); [by apply parses_u64|].
  apply (parses_guard _ (fun c => ensure (negb (_ || _)) _) _ tt); [|apply parses_ret].
  intros. cbn. rewrite !Z.gtb_ltb, !(proj2 (Z.ltb_ge _ _)) by done. done.
Qed.

Lemma place_tensor_fits f (source : Src) d n :
  src_len source = Z.of_nat (length (encode_file f)) -> fits f d n ->
  place_tensor source (file_data_offset f) (file_alignment f) d = Ok (file_entry f d n).
Proof.
  intros Hlen (Hn & H0 & Hf). pose proof (src_len_u64 source) as [_ Hu].
  unfold place_tensor. rewrite Hn. cbn.
  unfold checked_add, checked_u64. rewrite (proj2 (Z.leb_le _ _)) by lia. cbn.
  rewrite (proj2 (Z.leb_le (_ + _ + _) _)) by lia. cbn.
  rewrite (proj2 (Z.leb_le _ _)) by lia. done.
Qed.

(** The indexer on an encoded file. *)
Lemma index_encoded stack lim f (source : Src) sizes :
  file_ok lim f = true -> (file_depth f <= stack)%nat ->
  holds source (encode_file f) -> Forall2 (fits f) (gf_tensors f) sizes ->
  gguf_index stack source lim = Ok
    {| ix_container :=
         {| ci_format_id := "gguf"; ci_version := Some (gf_version f);
            ci_magic := Some "GGUF" |};
       ix_source_files := single_source_files source;
       ix_metadata := file_metadata f;
       ix_entries := sort_entries (zip_with (file_entry f) (gf_tensors f) sizes);
       ix_data_offset := file_data_offset f |}.
Proof.
  intros Hok Hd Hh Hfits. pose proof Hok as Hok'. unfold file_ok in Hok'.
  rewrite !andb_true_iff, orb_true_iff, !in_unsigned_spec, !Z.leb_le, !Z.eqb_eq in Hok'.
  destruct Hok' as [[[[[[Hv Ht] Hk] Htl] Hkl] Hkvs] Hts].
  unfold gguf_index. change {| cur_source := source; cur_pos := 0; cur_limits := lim |}
    with (at_ source lim []).
  pose proof Hh as Hh0. unfold encode_file, encode_directory in Hh0.
  rewrite <-!app_assoc in Hh0.
  rewrite (parses_header lim _ _ _ Hv Ht Hk Htl Hkl source [] _
    ltac:(rewrite <-!app_assoc; exact Hh0)).
  cbn -[GGUF_MAGIC le_bytes]. rewrite !Nat2Z.id.
  rewrite (parses_metadata lim stack _ ∅ Hkvs Hd source _
    (concat (map encode_dir (gf_tensors f)) ++ gf_data f))
    by (rewrite <-!app_assoc; exact Hh0).
  cbn -[GGUF_MAGIC le_bytes].
  assert (Hdirs : Forall (fun d => parses lim read_dir (encode_dir d) (id d)) (gf_tensors f)).
  { apply Forall_forall. intros d Hin%list_elem_of_In. apply parses_dir.
    by apply (proj1 (forallb_forall _ _) Hts). }
  rewrite (parses_repeat lim read_dir encode_dir id _ Hdirs source _ (gf_data f))
    by (rewrite <-!app_assoc; exact Hh0).
  cbn -[GGUF_MAGIC le_bytes]. rewrite map_id.
  match goal with |- context [align_up (Z.of_nat (length ?bs)) _] =>
    replace bs with (encode_directory f) by (unfold encode_directory; by rewrite <-!app_assoc)
  end.
  fold (file_metadata f) (file_alignment f) (file_data_offset f).
  assert (Hent : try_map (place_tensor source (file_data_offset f) (file_alignment f))
    (gf_tensors f) = Ok (zip_with (file_entry f) (gf_tensors f) sizes)).
  { apply try_map_Ok. destruct Hh as [Hlen _]. clear -Hlen Hfits.
    induction Hfits; cbn; constructor; [by apply place_tensor_fits|done]. }
  rewrite Hent. done.
Qed.

(** C9: Round trip: the indexer reads every well-formed encoded file back to
    its version, its metadata and its tensors, each at its absolute range, for
    every source that holds the bytes and any stack that fits the nesting. *)
Theorem gguf_index_encode stack lim f (source : Src) sizes :
  file_ok lim f = true -> (file_depth f <= stack)%nat ->
  holds source (encode_file f) -> Forall2 (fits f) (gf_tensors f) sizes ->
  gguf_index stack source lim = Ok
    {| ix_container :=
         {| ci_format_id := "gguf"; ci_version := Some (gf_version f);
            ci_magic := Some "GGUF" |};
       ix_source_files := single_source_files source;
       ix_metadata := file_metadata f;
       ix_entries := sort_entries (zip_with (file_entry f) (gf_tensors f) sizes);
       ix_data_offset := file_data_offset f |}.
Proof. apply index_encoded. Qed.

(** ** Unbounded recursion *)

Lemma nested_panics lim stack n (source : Src) pre post :
  (stack <= n)%nat -> 1 <= max_metadata_entries lim ->
  holds source (pre ++ nested_header n ++ post) ->
  read_value stack 9 (at_ source lim pre) = Panic "stack overflow".
Proof.
  intros Hn Hm. revert n pre Hn. induction stack as [|stack IH]; intros n pre Hn Hh; [done|].
  destruct n as [|n]; [lia|]. cbn [nested_header] in Hh. cbn [read_value].
  rewrite <-!app_assoc in Hh.
  rewrite (parses_u32 lim 9 ltac:(lia) _ _ _ Hh). cbn -[le_bytes at_]. rewrite ?cur_limits_at.
  rewrite (parses_u64 lim 1 ltac:(lia) source (pre ++ le_bytes 4 9) (nested_header n ++ post))
    by (rewrite <-app_assoc; exact Hh).
  cbn -[le_bytes at_]. rewrite ?cur_limits_at, (proj2 (Z.leb_le _ _) Hm).
  cbn -[le_bytes at_ repeat_read].
  change (Z.to_nat 1) with 1%nat. cbn [repeat_read].
  rewrite (IH n); [done|lia|]. by rewrite <-!app_assoc.
Qed.

Lemma length_nested_file n : length (nested_file n) = (37 + 12 * n)%nat.
Proof.
  unfold nested_file, encode_string. rewrite !length_app, !length_le_bytes.
  assert (H : length (nested_header n) = (12 * n)%nat).
  { induction n as [|n IH]; [done|]. cbn [nested_header].
    rewrite !length_app, !length_le_bytes, IH. lia. }
  rewrite H. cbn. lia.
Qed.

(** C37: The recursion of the metadata reader is bounded by nothing but the
    file: for every stack there is a file of twelve bytes per frame (and
    thirty-seven more) that passes all limits and exhausts it. *)
Theorem gguf_index_exhausts_stack stack lim (source : Src) :
  1 <= max_metadata_entries lim -> 1 <= max_key_len lim -> 0 <= max_tensor_count lim ->
  holds source (nested_file stack) ->
  src_len source = 37 + 12 * Z.of_nat stack /\
  gguf_index stack source lim = Panic "stack overflow".
Proof.
  intros Hm Hk Ht Hh. split.
  { destruct Hh as [-> _]. rewrite length_nested_file. lia. }
  pose proof (parses_header lim 3 0 1 ltac:(lia) ltac:(lia) ltac:(lia) Ht Hm) as Hhead.
  assert (Hname : parses lim read_string (encode_string "a") "a").
  { apply parses_string. unfold string_ok. change (strlen "a") with 1.
    by rewrite (proj2 (Z.leb_le _ _) Hk). }
  unfold gguf_index. change {| cur_source := source; cur_pos := 0; cur_limits := lim |}
    with (at_ source lim []).
  unfold nested_file in Hh.
  rewrite (Hhead source [] (encode_string "a" ++ le_bytes 4 9 ++ nested_header stack))
    by (rewrite <-!app_assoc; exact Hh).
  cbn -[GGUF_MAGIC le_bytes at_ read_kv]. change (Z.to_nat 1) with 1%nat.
  cbn -[GGUF_MAGIC le_bytes at_ read_kv]. unfold read_kv.
  rewrite (Hname source _ (le_bytes 4 9 ++ nested_header stack))
    by (rewrite <-!app_assoc; exact Hh).
  cbn -[GGUF_MAGIC le_bytes encode_string at_ strlen validate_key].
  unfold validate_key. change (strlen "a") with 1. cbn -[GGUF_MAGIC le_bytes encode_string at_].
  rewrite ?cur_limits_at, (proj2 (Z.leb_le _ _) Hk). cbn -[GGUF_MAGIC le_bytes encode_string at_].
  rewrite (parses_u32 lim 9 ltac:(lia) source _ (nested_header stack))
    by (rewrite <-!app_assoc; exact Hh).
  cbn -[GGUF_MAGIC le_bytes encode_string read_value at_].
  rewrite (nested_panics lim stack stack source _ []); [done|done|done|].
  rewrite app_nil_r, <-!app_assoc. exact Hh.
Qed.

End Format.

(** ** In-memory sources *)

Lemma BytesSource_holds (s : BytesSource) : holds s (bs_data s).
Proof. split; [done|]. intros pre bs post H. by eapply BytesSource_read_range. Qed.

(** ** A concrete file *)

Definition sample_file : gguf_file := {|
  gf_version := 3;
  gf_kvs := [("general.alignment", GU32 32);
             ("general.shape", GArray 9 [GArray 4 [GU32 1; GU32 2]; GArray 4 []]);
             ("general.name", GString "tiny")];
  gf_tensors :=
    [{| td_name := "blk.0.attn_q.weight"; td_shape := [2; 32];
        td_type := GgufType.Q4_0; td_offset := 0 |};
     {| td_name := "a.norm"; td_shape := [8]; td_type := GgufType.F32; td_offset := 64 |}];
  gf_data := replicate 128 (byte_of 0);
|}.

Definition sample_source : BytesSource := memory _ (small_file (encode_file sample_file) eq_refl).

Definition sample_index : RawCheckpointIndex :=
  {| ix_container := {| ci_format_id := "gguf"; ci_version := Some (gf_version sample_file);
          ci_magic := Some "GGUF" |};
     ix_source_files := single_source_files sample_source;
     ix_metadata := file_metadata sample_file;
     ix_entries :=
       sort_entries (zip_with (file_entry sample_file) (gf_tensors sample_file) [36; 32]);
     ix_data_offset := file_data_offset sample_file |}.

Lemma sample_fits : Forall2 (fits sample_file) (gf_tensors sample_file) [36; 32].
Proof. repeat constructor; vm_compute; done. Qed.

Lemma gguf_index_encode_witness :
  file_ok InspectionLimits_default sample_file = true /\
  gguf_index 3 sample_source InspectionLimits_default = Ok sample_index.
Proof.
  split; [vm_compute; reflexivity|].
  apply (gguf_index_encode 3 InspectionLimits_default sample_file sample_source [36; 32]).
  - vm_compute. reflexivity.
  - vm_compute. lia.
  - apply (BytesSource_holds sample_source).
  - apply sample_fits.
Defined.

Definition nested_source : BytesSource := memory _ (small_file (nested_file 40) eq_refl).

Lemma gguf_index_exhausts_stack_witness :
  src_len nested_source = 517 /\
  gguf_index 40 nested_source InspectionLimits_default = Panic "stack overflow".
Proof.
  apply (gguf_index_exhausts_stack 40 InspectionLimits_default nested_source).
  - vm_compute. discriminate.
  - vm_compute. discriminate.
  - vm_compute. discriminate.
  - apply (BytesSource_holds nested_source).
Defined.
