(* ===== verification/GgufWriter.v ===== *)
(** * The GGUF writer and its block codecs: crates/dyninfer-checkpoint-gguf/src/q4.rs

    Packing rows of [f32] into the block formats Q4_0, Q4_1 and Q8_0, the
    reference dequantisation of Q4_0, and the writer of GGUF files that the
    fixtures are made with. *)
From S2P Require Import Prelude Errors Serde CoreTypes Floats GgufContainer.
From Stdlib Require Import ZArith Lia Ascii String SpecFloat.
From stdpp Require Import base list strings gmap.
From stdpp Require Import options.

Local Open Scope Z_scope.

(** The half-precision conversions of the [half] crate. *)
Class HalfPrecision := {
  f16_of_f32 : f32 -> Z;       (** the bits of [f16::from_f32] *)
  f16_to_f32 : Z -> f32;
  f16_of_f32_range x : 0 <= f16_of_f32 x < 2 ^ 16;
}.

Definition Q4_0_BLOCK : Z := 32.
Definition Q4_0_TYPE_SIZE : Z := 18.
Definition Q4_1_TYPE_SIZE : Z := 20.
Definition Q8_0_TYPE_SIZE : Z := 34.

(** [l.chunks_exact(n)] of [n > 0]. *)
Fixpoint chunks_exact_from {A} (fuel n : nat) (l : list A) : list (list A) :=
  match fuel with
  | O => []
  | S fuel => if (length l <? n)%nat then [] else take n l :: chunks_exact_from fuel n (drop n l)
  end.
Definition chunks_exact {A} (n : nat) (l : list A) : list (list A) := chunks_exact_from (length l) n l.

(** [if scale > 0.0 { 1.0 / scale } else { 0.0 }] *)
Definition inverse_of (scale : f32) : f32 :=
  if SFltb f32_zero scale then f32_div f32_one scale else f32_zero.
(** The greatest magnitude of a block over the number of levels. *)
Definition amax (block : list f32) : f32 := foldl (fun a w => float_max a (SFabs w)) f32_zero block.
Definition scale_of (levels : Z) (block : list f32) : f32 :=
  let amax := amax block in
  if SFltb f32_zero amax then f32_div amax (f32_of_Z levels) else f32_zero.

(** [values[i]] of a whole block. *)
Definition value_at (block : list f32) (i : nat) : f32 := nth i block S754_nan.

(** Two nibbles: [low | (high << 4)] of [u8]s. *)
Definition nibbles (low high : Z) : ascii :=
  byte_of (Z.lor (low mod 256) (Z.shiftl (high mod 256) 4 mod 256)).

(** A tensor: shape, type code, bytes. *)
Abbreviation TensorData := (list Z * Z * bytes)%type.

Section Codecs.
Context {HF : HalfPrecision}.

Definition f16_bytes (x : f32) : bytes := le_bytes 2 (f16_of_f32 x).

Definition not_divisible (format : string) (n : Z) : DynInferError :=
  io (Format "{format} pack: numel {} not divisible by {Q4_0_BLOCK}" [AStr format; AInt n; AInt Q4_0_BLOCK]).

(** Q4_0: a value's level, from 0 to 15. *)
Definition q4_0_level (inv w : f32) : Z :=
  Z.max (-8) (Z.min 7 (f32_as_i32 (f32_round (f32_mul w inv)))) + 8.
Definition q4_0_block (block : list f32) : bytes :=
  let scale := scale_of 7 block in
  let inv := inverse_of scale in
  f16_bytes scale
  ++ ((fun i => nibbles (q4_0_level inv (value_at block i)) (q4_0_level inv (value_at block (i + 16))))
      <$> seq 0 16).
Definition pack_q4_0 (weights : list f32) : Result bytes :=
  if negb (is_multiple_of (length_z weights) Q4_0_BLOCK)
  then Err (not_divisible "Q4_0" (length_z weights))
  else Ok (concat (q4_0_block <$> chunks_exact 32 weights)).

(** Q4_1: levels above the least value. *)
Definition q4_1_level (minimum inverse w : f32) : Z :=
  f32_as_u8 (clamp f32_zero (f32_of_Z 15) (f32_round (f32_mul (f32_sub w minimum) inverse))).
Definition q4_1_block (block : list f32) : bytes :=
  let minimum := foldl float_min (S754_infinity false) block in
  let maximum := foldl float_max (S754_infinity true) block in
  let scale := if SFltb minimum maximum then f32_div (f32_sub maximum minimum) (f32_of_Z 15) else f32_zero in
  let inverse := inverse_of scale in
  f16_bytes scale ++ f16_bytes minimum
  ++ ((fun lane => nibbles (q4_1_level minimum inverse (value_at block lane))
                           (q4_1_level minimum inverse (value_at block (lane + 16)))) <$> seq 0 16).
Definition pack_q4_1 (weights : list f32) : Result bytes :=
  if negb (is_multiple_of (length_z weights) Q4_0_BLOCK)
  then Err (not_divisible "Q4_1" (length_z weights))
  else Ok (concat (q4_1_block <$> chunks_exact 32 weights)).

(** Q8_0: signed bytes. *)
Definition q8_0_block (block : list f32) : bytes :=
  let scale := scale_of 127 block in
  let inverse := inverse_of scale in
  f16_bytes scale
  ++ ((fun value => byte_of (Z.max (-127) (Z.min 127 (f32_as_i32 (f32_round (f32_mul value inverse))))))
      <$> block).
Definition pack_q8_0 (weights : list f32) : Result bytes :=
  if negb (is_multiple_of (length_z weights) Q4_0_BLOCK)
  then Err (not_divisible "Q8_0" (length_z weights))
  else Ok (concat (q8_0_block <$> chunks_exact 32 weights)).

(** One block of 18 bytes, dequantised. *)
Definition dequant_block (packed : bytes) : list f32 :=
  let scale := f16_to_f32 (le_value (take 2 packed)) in
  let qs := drop 2 packed in
  (fun i =>
     let byte := u8 (nth (i mod 16) qs zero) in
     let nibble := if (i <? 16)%nat then Z.land byte 15 else Z.shiftr byte 4 in
     f32_mul (f32_of_Z (nibble - 8)) scale) <$> seq 0 32.
Definition dequant_q4_0 (packed : bytes) (numel : Z) : Result (list f32) :=
  if negb (is_multiple_of numel Q4_0_BLOCK)
  then Err (io (Format "Q4_0 dequant: numel {numel} not divisible by {Q4_0_BLOCK}"
                  [AInt numel; AInt Q4_0_BLOCK]))
  else
    let nblocks := numel / Q4_0_BLOCK in
    let expected := nblocks * Q4_0_TYPE_SIZE in
    if negb (length_z packed =? expected)
    then Err (io (Format "Q4_0 dequant: packed {} bytes, expected {expected}"
                    [AInt (length_z packed); AInt expected]))
    else Ok (concat ((fun bi => dequant_block (take 18 (drop (bi * 18) packed))) <$> seq 0 (Z.to_nat nblocks))).

Definition q4_0_nbytes (numel : Z) : Result Z := GgufType.nbytes_for_shape GgufType.Q4_0 [numel].

(** ** Writing a file *)

Inductive MetaValue : Type := MU32 (x : Z) | MU64 (x : Z) | MF32 (x : f32) | MString (s : string).

Definition write_string (s : string) : bytes := le_bytes 8 (strlen s) ++ bytes_of_string s.

Definition write_meta (body : bytes) (kv : string * MetaValue) : bytes :=
  body ++ write_string kv.1 ++
  match kv.2 with
  | MU32 x => le_bytes 4 4 ++ le_bytes 4 x
  | MU64 x => le_bytes 4 10 ++ le_bytes 8 x
  | MF32 x => le_bytes 4 6 ++ le_bytes 4 (bits_of_f32 x)
  | MString s => le_bytes 4 8 ++ write_string s
  end.

Definition write_alignment : Z := 32.
Definition padding (n : Z) : bytes :=
  repeat zero (Z.to_nat ((write_alignment - n mod write_alignment) mod write_alignment)).

(** One turn of the loop over the tensors: the body and the data so far. *)
Definition write_tensor (st : bytes * bytes) (tensor : string * TensorData) : bytes * bytes :=
  let '(body, data) := st in
  let '(name, (shape, type_code, payload)) := tensor in
  let body := body ++ write_string name ++ le_bytes 4 (length_z shape)
              ++ concat (le_bytes 8 <$> reverse shape) ++ le_bytes 4 type_code in
  let data := data ++ padding (length_z data) in
  (body ++ le_bytes 8 (length_z data), data ++ payload).

(** Writing to a vector does not fail. *)
Definition write_gguf (tensors : gmap string TensorData) (metadata : gmap string MetaValue) : Result bytes :=
  let body := bytes_of_string "GGUF" ++ le_bytes 4 3 ++ le_bytes 8 (Z.of_nat (size tensors))
              ++ le_bytes 8 (Z.of_nat (size metadata)) in
  let body := foldl write_meta body (btree_iter metadata) in
  let '(body, data) := foldl write_tensor (body, []) (btree_iter tensors) in
  Ok (body ++ padding (length_z body) ++ data).

(** ** Fixtures *)

(** The [i]-th value and those after it, from the generator's state. *)
Fixpoint fill_from (n : nat) (i x : Z) : list f32 :=
  match n with
  | O => []
  | S n =>
      let x := wrap32 (wrap32 (wrap32 (x * 1664525) + 1013904223) + wrap32 i) in
      f32_sub (f32_div (f32_of_Z (x mod 1000)) (f32_of_Z 1000)) (f32_of_bits 1056964608)
        :: fill_from n (i + 1) x
  end.
Definition fill_f32 (n : nat) (seed : Z) : list f32 := fill_from n 0 seed.

Definition f32_bytes (v : list f32) : bytes := concat ((fun x => le_bytes 4 (bits_of_f32 x)) <$> v).

(** 1e-5. *)
Definition epsilon : f32 := f32_of_bits 925353388.

Definition tiny_meta : gmap string MetaValue := list_to_map
  [("general.architecture", MString "llama"); ("llama.block_count", MU32 1);
   ("llama.embedding_length", MU32 64); ("llama.feed_forward_length", MU32 128);
   ("llama.attention.head_count", MU32 4); ("llama.attention.head_count_kv", MU32 4);
   ("llama.vocab_size", MU32 32); ("llama.context_length", MU32 128);
   ("llama.rope.dimension_count", MU32 16); ("llama.attention.layer_norm_rms_epsilon", MF32 epsilon)].

Definition tiny_linears : list (string * Z * Z * Z) :=
  [("blk.0.attn_q.weight", 2, 64, 64); ("blk.0.attn_k.weight", 3, 64, 64);
   ("blk.0.attn_v.weight", 4, 64, 64); ("blk.0.attn_output.weight", 5, 64, 64);
   ("blk.0.ffn_gate.weight", 6, 128, 64); ("blk.0.ffn_up.weight", 7, 128, 64);
   ("blk.0.ffn_down.weight", 8, 64, 128); ("output.weight", 9, 32, 64)].

Definition tiny_linear (t : string * Z * Z * Z) : Result (string * TensorData) :=
  let '(name, seed, rows, cols) := t in
  let w := fill_f32 (Z.to_nat (rows * cols)) seed in
  '(kind, packed) ←
    (if String.eqb name "blk.0.attn_q.weight" then b ← pack_q4_1 w; Ok (GgufType.Q4_1, b)
     else if String.eqb name "blk.0.attn_v.weight" then b ← pack_q8_0 w; Ok (GgufType.Q8_0, b)
     else b ← pack_q4_0 w; Ok (GgufType.Q4_0, b));
  Ok (name, ([rows; cols], GgufType.as_u32 kind, packed)).

Definition tiny_llama_q4_0 : Result bytes :=
  let ones := f32_bytes (repeat f32_one 64) in
  let norm := ([64], GgufType.as_u32 GgufType.F32, ones) in
  linears ← try_map tiny_linear tiny_linears;
  let tensors := list_to_map
    ([("token_embd.weight", ([32; 64], GgufType.as_u32 GgufType.F32, f32_bytes (fill_f32 2048 1)));
      ("blk.0.attn_norm.weight", norm)]
     ++ linears
     ++ [("blk.0.ffn_norm.weight", norm); ("output_norm.weight", norm)]) in
  write_gguf tensors tiny_meta.

End Codecs.
