(* ===== verification/GgufWriterSpec.v ===== *)
(** * The GGUF writer against the reader

    A file of the writer is an encoded file of [GgufFormat], so the indexer
    reads it back; packed blocks have the size their type declares and are
    dequantised lane by lane. *)
From S2P Require Import Prelude Errors Serde CoreTypes Catalog Floats FloatArith.
From S2P Require Import GgufContainer GgufFormat GgufWriter.
From Stdlib Require Import ZArith Lia Ascii String SpecFloat.
From stdpp Require Import base list strings gmap.
From stdpp Require Import options.

Local Open Scope Z_scope.

(** ** What is written, as an encoded file *)

Definition gvalue_of (v : MetaValue) : gvalue :=
  match v with
  | MU32 x => GU32 x
  | MU64 x => GU64 x
  | MF32 x => GF32 (bits_of_f32 x)
  | MString s => GString s
  end.
Definition kv_of (kv : string * MetaValue) : string * gvalue := (kv.1, gvalue_of kv.2).

Lemma write_meta_all l body : foldl write_meta body l = body ++ concat (map encode_kv (map kv_of l)).
Proof.
  revert body. induction l as [|[k v] l IH]; intros body; cbn [foldl map concat]; [by rewrite app_nil_r|].
  rewrite IH. unfold write_meta. rewrite <-!app_assoc. f_equal. unfold encode_kv at 2. cbn [fst snd kv_of].
  rewrite <-!app_assoc. f_equal. by destruct v; cbn [gvalue_of value_tag encode_value]; rewrite <-?app_assoc.
Qed.

Definition type_of (code : Z) : GgufType.t :=
  match GgufType.from_u32 code with Ok ty => ty | _ => GgufType.F32 end.

(** The directory and the data of some tensors after the data so far. *)
Fixpoint placed (data : bytes) (l : list (string * TensorData)) : list TensorDir * bytes :=
  match l with
  | [] => ([], data)
  | (name, (shape, code, payload)) :: l =>
      let data := data ++ padding (length_z data) in
      let r := placed (data ++ payload) l in
      ({| td_name := name; td_shape := shape; td_type := type_of code; td_offset := length_z data |} :: r.1, r.2)
  end.

Definition typed (t : string * TensorData) : Prop := exists ty, GgufType.from_u32 t.2.1.2 = Ok ty.

Lemma write_tensor_all l body data :
  Forall typed l ->
  foldl write_tensor (body, data) l = (body ++ concat (map encode_dir (placed data l).1), (placed data l).2).
Proof.
  intros H. revert body data. induction H as [|[name [[shape code] payload]] l [ty Hty] _ IH]; intros body data;
    cbn [foldl placed map concat fst snd]; [by rewrite app_nil_r|].
  cbn [write_tensor]. rewrite IH. cbn [fst snd]. f_equal. rewrite <-!app_assoc. f_equal.
  unfold encode_dir at 2. cbn [td_name td_shape td_type td_offset]. cbn [fst snd] in Hty.
  unfold type_of. rewrite Hty, (GgufType.from_u32_as_u32 _ _ Hty). rewrite <-!app_assoc. done.
Qed.

Lemma padded_mod n : 0 <= n -> (n + (32 - n mod 32) mod 32) mod 32 = 0.
Proof.
  intros Hn. pose proof (Z.mod_pos_bound n 32 ltac:(lia)). pose proof (Z.div_mod n 32 ltac:(lia)).
  destruct (Z.eq_dec (n mod 32) 0) as [Hr|Hr].
  - rewrite Hr. change ((32 - 0) mod 32) with 0. by rewrite Z.add_0_r.
  - rewrite (Z.mod_small (32 - n mod 32)) by lia.
    replace (n + (32 - n mod 32)) with ((n / 32 + 1) * 32) by lia. apply Z.mod_mul. lia.
Qed.

Lemma length_padding n : 0 <= n -> length_z (padding n) = (32 - n mod 32) mod 32.
Proof.
  intros Hn. unfold length_z, padding, write_alignment. rewrite repeat_length.
  pose proof (Z.mod_pos_bound (32 - n mod 32) 32 ltac:(lia)). lia.
Qed.

(** Each tensor is in the data at its offset. *)
Lemma placed_spec l data :
  (exists rest, (placed data l).2 = data ++ rest) /\
  Forall2 (fun (t : string * TensorData) d =>
    td_name d = t.1 /\ td_shape d = t.2.1.1 /\ td_type d = type_of t.2.1.2 /\
    td_offset d mod 32 = 0 /\
    exists pre post, (placed data l).2 = pre ++ t.2.2 ++ post /\ length_z pre = td_offset d) l (placed data l).1.
Proof.
  revert data. induction l as [|[name [[shape code] payload]] l IH]; intros data; cbn [placed fst snd].
  { split; [exists []; by rewrite app_nil_r|constructor]. }
  set (data1 := data ++ padding (length_z data)) in *.
  destruct (IH (data1 ++ payload)) as [[rest Hrest] Hall]. split.
  { exists (padding (length_z data) ++ payload ++ rest). rewrite Hrest. unfold data1. by rewrite <-!app_assoc. }
  constructor; [|exact Hall]. cbn [td_name td_shape td_type td_offset fst snd].
  split_and!; try done.
  - assert (Hl : length_z data1 = length_z data + length_z (padding (length_z data)))
      by (unfold data1, length_z; rewrite length_app; lia).
    rewrite Hl, length_padding by (unfold length_z; lia). apply padded_mod. unfold length_z. lia.
  - exists data1, rest. rewrite Hrest, <-app_assoc. done.
Qed.

Definition file_of (tensors : gmap string TensorData) (metadata : gmap string MetaValue) : gguf_file :=
  let kvs := map kv_of (btree_iter metadata) in
  let p := placed [] (btree_iter tensors) in
  let f := {| gf_version := 3; gf_kvs := kvs; gf_tensors := p.1; gf_data := [] |} in
  {| gf_version := 3; gf_kvs := kvs; gf_tensors := p.1;
     gf_data := padding (length_z (encode_directory f)) ++ p.2 |}.

Lemma length_placed l data : length (placed data l).1 = length l.
Proof. destruct (placed_spec l data) as [_ H]. by apply Forall2_length in H. Qed.

Lemma length_btree_iter {A} (m : gmap string A) : length (btree_iter m) = size m.
Proof. unfold btree_iter. rewrite stable_sort_perm. by rewrite length_map_to_list. Qed.

Lemma write_gguf_encoded tensors metadata :
  Forall typed (btree_iter tensors) ->
  write_gguf tensors metadata = Ok (encode_file (file_of tensors metadata)).
Proof.
  intros Ht. unfold write_gguf. rewrite write_meta_all.
  rewrite write_tensor_all by done. f_equal. unfold encode_file, file_of. cbn [gf_data].
  assert (Hd : encode_directory (file_of tensors metadata) =
    (bytes_of_string "GGUF" ++ le_bytes 4 3 ++ le_bytes 8 (Z.of_nat (size tensors)) ++
     le_bytes 8 (Z.of_nat (size metadata))) ++ concat (map encode_kv (map kv_of (btree_iter metadata))) ++
    concat (map encode_dir (placed [] (btree_iter tensors)).1)).
  { unfold encode_directory, file_of. cbn [gf_version gf_tensors gf_kvs].
    rewrite length_placed, length_map, !length_btree_iter, <-!app_assoc. done. }
  unfold encode_directory in Hd |- *. unfold file_of in Hd. cbn [gf_version gf_tensors gf_kvs] in Hd |- *.
  rewrite Hd. rewrite <-!app_assoc. done.
Qed.

Section Indexed.
Context {SJ : SerdeJson} {LE : LittleEndian} {Src : Type} {RS : RandomAccessSource Src}.

(** ** The reader on a written file *)

Definition meta_json (v : MetaValue) : Value := value_json (gvalue_of v).

(** What may be written: names and strings the limits admit, values of their
    Rust types, tensors whose bytes are those of their type and shape, and no
    other alignment than the writer's. *)
Record writable (lim : InspectionLimits) (tensors : gmap string TensorData)
    (metadata : gmap string MetaValue) : Prop := {
  wb_tensor_count : Z.of_nat (size tensors) <= max_tensor_count lim <= u64_max;
  wb_meta_count : Z.of_nat (size metadata) <= max_metadata_entries lim <= u64_max;
  wb_meta k v : metadata !! k = Some v -> kv_ok lim (kv_of (k, v)) = true;
  wb_alignment : match metadata !! "general.alignment" with
                 | None | Some (MU32 32) | Some (MU64 32) => True
                 | _ => False
                 end;
  wb_tensor name shape code payload : tensors !! name = Some (shape, code, payload) ->
    exists ty, GgufType.from_u32 code = Ok ty /\
      GgufType.nbytes_for_shape ty shape = Ok (length_z payload) /\
      tensor_ok lim {| td_name := name; td_shape := shape; td_type := ty; td_offset := 0 |} = true;
}.

Lemma insert_kvs_lookup l (m : MetadataMap) k :
  NoDup l.*1 ->
  foldl (fun m kv => <[kv.1 := value_json kv.2]> m) m (map kv_of l) !! k
  = match snd <$> List.find (fun kv => String.eqb kv.1 k) l with
    | Some v => Some (meta_json v)
    | None => m !! k
    end.
Proof.
  revert m. induction l as [|[j w] l IH]; intros m Hnd; [done|]. cbn [map foldl List.find fst] in *.
  apply NoDup_cons in Hnd as [Hj Hnd]. rewrite IH by done.
  destruct (String.eqb_spec j k) as [->|Hne].
  - destruct (List.find _ l) as [[k' v]|] eqn:Ef; cbn.
    + apply find_some in Ef as [Hin He]. cbn in He. apply String.eqb_eq in He as ->.
      destruct Hj. apply list_elem_of_fmap. exists (k, v). by rewrite list_elem_of_In.
    + apply lookup_insert_eq.
  - destruct (List.find _ l) as [[k' v]|]; cbn; [done|]. by apply lookup_insert_ne.
Qed.

Lemma find_btree_iter {A} (m : gmap string A) k :
  snd <$> List.find (fun kv => String.eqb kv.1 k) (btree_iter m) = m !! k.
Proof.
  destruct (List.find _ _) as [[k' v]|] eqn:Ef; cbn.
  - apply find_some in Ef as [Hin He]. cbn in He. apply String.eqb_eq in He as ->.
    symmetry. by apply elem_of_btree_iter, list_elem_of_In.
  - destruct (m !! k) as [v|] eqn:E; [|done].
    apply elem_of_btree_iter, list_elem_of_In in E. apply (find_none _ _ Ef) in E. cbn in E.
    by rewrite String.eqb_refl in E.
Qed.

Lemma file_metadata_lookup tensors metadata k :
  file_metadata (file_of tensors metadata) !! k = meta_json <$> metadata !! k.
Proof.
  unfold file_metadata, file_of. cbn [gf_kvs]. rewrite insert_kvs_lookup by apply btree_iter_keys.
  rewrite find_btree_iter. by destruct (metadata !! k).
Qed.

Lemma file_of_alignment lim tensors metadata :
  writable lim tensors metadata -> file_alignment (file_of tensors metadata) = 32.
Proof.
  intros H. unfold file_alignment, metadata_alignment. rewrite file_metadata_lookup.
  pose proof (wb_alignment _ _ _ H) as Ha. destruct (metadata !! _) as [v|]; [|done]. cbn.
  destruct v as [x|x|x|x]; try done; unfold meta_json; cbn [gvalue_of value_json];
    (destruct x as [|x|x]; try done; do 6 (destruct x as [x|x|]; try done));
    by rewrite as_u64_value.
Qed.

Lemma file_of_depth tensors metadata : (file_depth (file_of tensors metadata) <= 1)%nat.
Proof.
  unfold file_depth, file_of. cbn [gf_kvs]. induction (btree_iter metadata) as [|[k v] l IH]; [cbn; lia|].
  cbn [map foldr kv_of snd] in *. assert (depth (gvalue_of v) = 1%nat) as -> by by destruct v. lia.
Qed.

Lemma writable_typed lim tensors metadata :
  writable lim tensors metadata -> Forall typed (btree_iter tensors).
Proof.
  intros H. apply Forall_forall. intros [name [[shape code] payload]] Hin%elem_of_btree_iter.
  destruct (wb_tensor _ _ _ H _ _ _ _ Hin) as (ty & Hty & _). by exists ty.
Qed.

(** The file: the directory, its padding, the data. *)
Lemma length_file_of tensors metadata :
  length_z (encode_file (file_of tensors metadata)) =
  length_z (encode_directory (file_of tensors metadata))
  + (32 - length_z (encode_directory (file_of tensors metadata)) mod 32) mod 32
  + length_z (placed [] (btree_iter tensors)).2.
Proof.
  set (f := file_of tensors metadata).
  assert (Hd : gf_data f = padding (length_z (encode_directory f)) ++ (placed [] (btree_iter tensors)).2) by done.
  unfold encode_file, length_z at 1. rewrite Hd, !length_app. unfold padding. rewrite repeat_length.
  unfold write_alignment, length_z.
  pose proof (Z.mod_pos_bound (32 - Z.of_nat (length (encode_directory f)) mod 32) 32 ltac:(lia)). lia.
Qed.

Lemma pad_align n : 0 <= n <= 2 ^ 62 -> align_up n 32 = n + (32 - n mod 32) mod 32.
Proof.
  intros Hn. unfold align_up, div_ceil. cbn [Z.eqb]. pose proof (Z.div_mod n 32 ltac:(lia)).
  pose proof (Z.mod_pos_bound n 32 ltac:(lia)).
  destruct (Z.eqb_spec (n mod 32) 0) as [Hr|Hr].
  - rewrite Hr. change ((32 - 0) mod 32) with 0. unfold wrap64. rewrite Z.mod_small; lia.
  - rewrite (Z.mod_small (32 - n mod 32)) by lia. unfold wrap64. rewrite Z.mod_small; lia.
Qed.

Lemma file_of_ok lim tensors metadata :
  writable lim tensors metadata -> length_z (encode_file (file_of tensors metadata)) <= 2 ^ 62 ->
  file_ok lim (file_of tensors metadata) = true.
Proof.
  intros H Hlen. rewrite length_file_of in Hlen.
  pose proof (Z.mod_pos_bound (32 - length_z (encode_directory (file_of tensors metadata)) mod 32) 32 ltac:(lia)).
  unfold file_ok. cbn [file_of gf_version gf_tensors gf_kvs].
  pose proof (wb_tensor_count _ _ _ H). pose proof (wb_meta_count _ _ _ H). unfold u64_max in *.
  rewrite length_placed, length_map, !length_btree_iter, !andb_true_iff, !in_unsigned_spec, !Z.leb_le.
  split; [split; [split_and!; (done || lia)|]|]; apply forallb_forall; intros x Hx%list_elem_of_In.
  - apply list_elem_of_fmap in Hx as ([k v] & -> & Hin). apply elem_of_btree_iter in Hin. by eapply wb_meta.
  - destruct (placed_spec (btree_iter tensors) []) as [_ Hall].
    apply list_elem_of_lookup in Hx as [i Hx]. apply Forall2_lookup_r with (2 := Hx) in Hall as ([name [[shape code] payload]] & Hi & Ht).
    cbn [fst snd] in Ht. destruct Ht as (Hn & Hs & Hty & _ & pre & post & Hd & Hoff).
    apply list_elem_of_lookup_2, elem_of_btree_iter in Hi.
    destruct (wb_tensor _ _ _ H _ _ _ _ Hi) as (ty & Hc & _ & Hok).
    unfold tensor_ok in Hok |- *. cbn [td_name td_shape td_offset] in Hok. rewrite Hn, Hs.
    rewrite !andb_true_iff in Hok |- *. destruct Hok as [[[[Hok1 Hok2] Hok3] Hok4] _]. split_and!; try done.
    rewrite in_unsigned_spec. rewrite Hd in Hlen. unfold length_z in *. rewrite length_app in Hlen. lia.
Qed.

(** The payloads' sizes, and that they are in the file. *)
Lemma file_of_fits lim tensors metadata :
  writable lim tensors metadata -> length_z (encode_file (file_of tensors metadata)) <= 2 ^ 62 ->
  Forall2 (fits (file_of tensors metadata)) (gf_tensors (file_of tensors metadata))
    (map (fun t : string * TensorData => length_z t.2.2) (btree_iter tensors)).
Proof.
  intros H Hlen. pose proof (file_of_alignment _ _ _ H) as Hal.
  destruct (placed_spec (btree_iter tensors) []) as [_ Hall].
  pose proof (Forall2_length _ _ _ Hall) as Hlength. cbn [file_of gf_tensors].
  apply Forall2_same_length_lookup_2; [by rewrite length_map|].
  intros i d n Hd Hn0. apply list_lookup_fmap_Some in Hn0 as ([name [[shape code] payload]] & -> & Hi).
  pose proof (Forall2_lookup_lr _ _ _ _ _ _ Hall Hi Hd) as Ht. cbn [fst snd] in Ht |- *.
  destruct Ht as (Hn & Hs & Hty & _ & pre & post & Hdata & Hoff).
  apply list_elem_of_lookup_2, elem_of_btree_iter in Hi. rename Hi into Hin. destruct (wb_tensor _ _ _ H _ _ _ _ Hin) as (ty & Hc & Hb & _).
  unfold fits. rewrite Hty, Hs. unfold type_of. rewrite Hc. split; [exact Hb|]. split; [unfold length_z; lia|].
  unfold file_data_offset. rewrite Hal.
  rewrite length_file_of in Hlen. pose proof (length_file_of tensors metadata) as Hl. unfold length_z in Hl at 1. rewrite Hl.
  unfold length_z in *. set (n := Z.of_nat (length (encode_directory _))) in *.
  pose proof (Z.mod_pos_bound (32 - n mod 32) 32 ltac:(lia)).
  rewrite pad_align by lia. rewrite Hdata, !length_app. lia.
Qed.

(** The data begins after the padded directory. *)
Lemma data_start lim tensors metadata :
  let f := file_of tensors metadata in
  writable lim tensors metadata -> length_z (encode_file f) <= 2 ^ 62 ->
  file_data_offset f = length_z (encode_directory f ++ padding (length_z (encode_directory f))) /\
  file_data_offset f mod 32 = 0.
Proof.
  intros f H Hlen. unfold file_data_offset. rewrite (file_of_alignment _ _ _ H : file_alignment f = 32).
  unfold f in Hlen. rewrite length_file_of in Hlen. fold f in Hlen. set (n := length_z (encode_directory f)) in *.
  assert (Hn : 0 <= n) by (unfold n, length_z; lia).
  pose proof (Z.mod_pos_bound (32 - n mod 32) 32 ltac:(lia)).
  assert (0 <= length_z (placed [] (btree_iter tensors)).2) by (unfold length_z; lia).
  change (Z.of_nat (length (encode_directory f))) with n. rewrite pad_align by lia. split; [|by apply padded_mod].
  assert (Hl : length_z (encode_directory f ++ padding n) = n + length_z (padding n))
    by (unfold n, length_z; rewrite length_app; lia).
  by rewrite Hl, length_padding.
Qed.

(** C10: Round trip: what the writer writes the indexer reads. For names, values
    and tensors the limits admit, the file is indexed to exactly the metadata
    that was written, and to one entry for each tensor, with its shape and type,
    at an aligned range of the file that holds exactly the tensor's bytes. *)
Theorem written_file_is_read stack lim (source : Src) tensors metadata bs :
  writable lim tensors metadata -> write_gguf tensors metadata = Ok bs -> length_z bs <= 2 ^ 62 ->
  (1 <= stack)%nat -> holds source bs ->
  exists index, gguf_index stack source lim = Ok index /\
    ix_container index = {| ci_format_id := "gguf"; ci_version := Some 3; ci_magic := Some "GGUF" |} /\
    (forall k, ix_metadata index !! k = meta_json <$> metadata !! k) /\
    length (ix_entries index) = size tensors /\
    forall name shape code payload, tensors !! name = Some (shape, code, payload) ->
      exists e offset, e ∈ ix_entries index /\ re_key e = name /\ re_shape e = shape /\
        re_metadata e !! "gguf.type_code" = Some (value_u64 code) /\
        re_byte_ranges e = [{| br_offset := offset; br_length := length_z payload |}] /\
        offset mod 32 = 0 /\ read_range source offset (length_z payload) = Ok payload.
Proof.
  intros H Hw Hlen Hstack Hh. rewrite write_gguf_encoded in Hw by by eapply writable_typed.
  injection Hw as <-. set (f := file_of tensors metadata) in *.
  pose proof (file_of_fits lim tensors metadata H Hlen) as Hfits.
  eexists. split; [eapply index_encoded; [by apply file_of_ok|etrans; [apply file_of_depth|exact Hstack]|exact Hh|exact Hfits]|].
  cbn [ix_container ix_metadata ix_entries]. split; [done|]. split; [apply file_metadata_lookup|].
  destruct (placed_spec (btree_iter tensors) []) as [_ Hall].
  pose proof (Forall2_length _ _ _ Hall) as Hlength. split.
  { unfold sort_entries. rewrite stable_sort_perm, length_zip_with, length_map.
    rewrite <-length_btree_iter. rewrite Nat.min_r; [done|]. apply Nat.eq_le_incl. exact Hlength. }
  intros name shape code payload Ht. pose proof Ht as Hin.
  apply elem_of_btree_iter, list_elem_of_lookup in Hin as [i Hi].
  pose proof (Forall2_lookup_l _ _ _ _ _ Hall Hi) as (d & Hd & Hn & Hs & Hty & Hal & pre & post & Hdata & Hoff).
  cbn [fst snd] in *. destruct (wb_tensor _ _ _ H _ _ _ _ Ht) as (ty & Hc & _ & _).
  exists (file_entry f d (length_z payload)), (file_data_offset f + td_offset d). split.
  { unfold sort_entries. rewrite stable_sort_perm. apply list_elem_of_lookup. exists i.
    apply lookup_zip_with_Some. exists d, (length_z payload). split; [done|]. split; [exact Hd|].
    by rewrite list_lookup_fmap, Hi. }
  cbn [file_entry re_key re_shape re_metadata re_byte_ranges]. split_and!; try done.
  - rewrite Hty. unfold type_of. rewrite Hc, (GgufType.from_u32_as_u32 _ _ Hc). apply lookup_insert_eq.
  - destruct (data_start lim tensors metadata H Hlen) as [_ Hmod]. fold f in Hmod.
    rewrite Z.add_mod, Hal, Hmod by lia. done.
  - destruct (data_start lim tensors metadata H Hlen) as [Hstart _]. fold f in Hstart.
    destruct Hh as [_ Hread]. rewrite Hstart, <-Hoff.
    set (dir := encode_directory f) in *.
    replace (length_z (dir ++ padding (length_z dir)) + length_z pre)
      with (Z.of_nat (length ((dir ++ padding (length_z dir)) ++ pre)))
      by (unfold length_z; rewrite !length_app; lia).
    apply (Hread _ payload post). unfold encode_file. fold dir.
    assert (Hg : gf_data f = padding (length_z dir) ++ (placed [] (btree_iter tensors)).2) by done.
    rewrite Hg, Hdata, <-!app_assoc. done.
Qed.

End Indexed.

(** ** Blocks *)

Section Blocks.
Context {HF : HalfPrecision}.

Lemma chunks_exact_from_spec {A} fuel n (l : list A) k :
  (0 < n)%nat -> length l = (k * n)%nat -> (k <= fuel)%nat ->
  length (chunks_exact_from fuel n l) = k /\ Forall (fun c => length c = n) (chunks_exact_from fuel n l) /\
  concat (chunks_exact_from fuel n l) = l.
Proof.
  intros Hn. revert l k. induction fuel as [|fuel IH]; intros l k Hl Hk; cbn [chunks_exact_from].
  { assert (k = 0)%nat as -> by lia. destruct l; [done|cbn in Hl; lia]. }
  destruct (Nat.ltb_spec (length l) n) as [Hlt|Hge].
  - assert (k = 0)%nat as -> by nia. destruct l; [done|cbn in Hl; lia].
  - destruct k as [|k]; [cbn in Hl; lia|]. destruct (IH (drop n l) k) as (Hlen & Hall & Hc).
    + rewrite length_drop, Hl. cbn. lia.
    + lia.
    + cbn [length concat]. rewrite Hlen, Hc, take_drop. split; [done|]. split; [|done].
      constructor; [rewrite length_take; lia|done].
Qed.

Lemma chunks_32 {A} (l : list A) :
  is_multiple_of (length_z l) Q4_0_BLOCK = true ->
  length_z (chunks_exact 32 l) = length_z l / 32 /\ Forall (fun c => length c = 32%nat) (chunks_exact 32 l) /\
  concat (chunks_exact 32 l) = l.
Proof.
  intros [k Hk]%is_multiple_of_spec; [|done]. unfold Q4_0_BLOCK, length_z in *.
  destruct (chunks_exact_from_spec (length l) 32 l (Z.to_nat k)) as (Hl & Ha & Hc); [lia..|].
  unfold chunks_exact. split; [|done]. rewrite Hl, Hk, Z.div_mul; lia.
Qed.

Lemma length_concat_blocks {A B} (f : list A -> list B) (n : nat) l :
  Forall (fun c => length (f c) = n) l -> length_z (concat (f <$> l)) = length_z l * Z.of_nat n.
Proof.
  unfold length_z. induction 1 as [|c l Hc _ IH]; [done|]. cbn [fmap list_fmap concat length].
  rewrite length_app, Hc. lia.
Qed.

Lemma length_f16_bytes x : length (f16_bytes x) = 2%nat.
Proof. apply length_le_bytes. Qed.

Lemma length_q4_0_block block : length (q4_0_block block) = 18%nat.
Proof. unfold q4_0_block. by rewrite length_app, length_f16_bytes, length_fmap, length_seq. Qed.
Lemma length_q4_1_block block : length (q4_1_block block) = 20%nat.
Proof. unfold q4_1_block. by rewrite !length_app, !length_f16_bytes, length_fmap, length_seq. Qed.
Lemma length_q8_0_block block : length (q8_0_block block) = (2 + length block)%nat.
Proof. unfold q8_0_block. by rewrite length_app, length_f16_bytes, length_fmap. Qed.

(** The declared size of a whole number of blocks. *)
Lemma nbytes_of_blocks ty block size n :
  GgufType.block_size ty = Some block -> GgufType.type_size ty = Some size -> 0 < block -> 0 <= size <= 2 ^ 16 ->
  0 <= n <= 2 ^ 40 -> is_multiple_of n block = true ->
  GgufType.nbytes_for_shape ty [n] = Ok (n / block * size).
Proof.
  intros Hb Hs Hpos Hsize Hn Hm. unfold GgufType.nbytes_for_shape. cbn [try_product].
  assert (0 <= n / block <= n) by (split; [apply Z.div_pos; lia|apply Z.div_le_upper_bound; nia]).
  unfold checked_mul, checked_u64, u64_max. rewrite Z.mul_1_l, (proj2 (Z.leb_le n _)) by lia.
  cbn [mbind option_bind ok_or result_mbind]. rewrite Hb, Hs. cbn [ok_or mbind result_mbind]. rewrite Hm.
  cbn [ensure mbind result_mbind]. by rewrite (proj2 (Z.leb_le (_ * _) _)) by nia.
Qed.

(** Packing succeeds on whole blocks only, and gives the size the type
    declares. *)
Lemma pack_sizes w b :
  length_z w <= 2 ^ 40 ->
  (pack_q4_0 w = Ok b -> GgufType.nbytes_for_shape GgufType.Q4_0 [length_z w] = Ok (length_z b)) /\
  (pack_q4_1 w = Ok b -> GgufType.nbytes_for_shape GgufType.Q4_1 [length_z w] = Ok (length_z b)) /\
  (pack_q8_0 w = Ok b -> GgufType.nbytes_for_shape GgufType.Q8_0 [length_z w] = Ok (length_z b)).
Proof.
  intros Hw. unfold pack_q4_0, pack_q4_1, pack_q8_0.
  destruct (is_multiple_of (length_z w) Q4_0_BLOCK) eqn:Hm; [|done]. cbn [negb].
  pose proof (chunks_32 w Hm) as (Hl & Hall & _).
  assert (Hn : 0 <= length_z w <= 2 ^ 40) by (unfold length_z in *; lia).
  split_and!; intros [= <-].
  - rewrite (length_concat_blocks _ 18) by (eapply Forall_impl; [exact Hall|]; intros; apply length_q4_0_block).
    rewrite Hl. by apply (nbytes_of_blocks GgufType.Q4_0 32 18).
  - rewrite (length_concat_blocks _ 20) by (eapply Forall_impl; [exact Hall|]; intros; apply length_q4_1_block).
    rewrite Hl. by apply (nbytes_of_blocks GgufType.Q4_1 32 20).
  - rewrite (length_concat_blocks _ 34)
      by (eapply Forall_impl; [exact Hall|]; intros c Hc; by rewrite length_q8_0_block, Hc).
    rewrite Hl. by apply (nbytes_of_blocks GgufType.Q8_0 32 34).
Qed.

(** ** Nibbles *)

Definition nibble_ok (low high : Z) : bool :=
  let b := u8 (nibbles low high) in (Z.land b 15 =? low) && (Z.shiftr b 4 =? high).
Definition levels : list Z := Z.of_nat <$> seq 0 16.

Lemma all_nibbles_ok : forallb (fun low => forallb (nibble_ok low) levels) levels = true.
Proof. by vm_compute. Qed.

Lemma nibbles_spec low high :
  0 <= low < 16 -> 0 <= high < 16 ->
  Z.land (u8 (nibbles low high)) 15 = low /\ Z.shiftr (u8 (nibbles low high)) 4 = high.
Proof.
  intros Hl Hh. pose proof all_nibbles_ok as H. rewrite forallb_forall in H.
  assert (Hin : forall n, 0 <= n < 16 -> In n levels).
  { intros n Hn. apply in_map_iff. exists (Z.to_nat n). rewrite in_seq. lia. }
  specialize (H low (Hin low Hl)). rewrite forallb_forall in H. specialize (H high (Hin high Hh)).
  by apply andb_true_iff in H as [?%Z.eqb_eq ?%Z.eqb_eq].
Qed.

Lemma q4_0_level_range inv w : 0 <= q4_0_level inv w < 16.
Proof. unfold q4_0_level. lia. Qed.

(** What the levels of a block stand for. *)
Definition dequantised (block : list f32) : list f32 :=
  let scale := scale_of 7 block in
  (fun w => f32_mul (f32_of_Z (q4_0_level (inverse_of scale) w - 8)) (f16_to_f32 (f16_of_f32 scale))) <$> block.

Lemma dequant_q4_0_block block : length block = 32%nat -> dequant_block (q4_0_block block) = dequantised block.
Proof.
  intros Hl. unfold dequant_block, q4_0_block. set (scale := scale_of 7 block).
  set (nib := fun i => nibbles (q4_0_level (inverse_of scale) (value_at block i))
                               (q4_0_level (inverse_of scale) (value_at block (i + 16)))).
  assert (H2 : 2%nat = length (f16_bytes scale)) by (symmetry; apply length_f16_bytes).
  cbv zeta. rewrite take_app_length', drop_app_length' by done.
  assert (Hs : le_value (f16_bytes scale) = f16_of_f32 scale).
  { unfold f16_bytes. rewrite le_value_le_bytes. apply Z.mod_small. apply (f16_of_f32_range scale). }
  rewrite Hs. unfold dequantised. fold scale. apply list_eq. intros i.
  rewrite !list_lookup_fmap. destruct (decide (i < 32)%nat) as [Hi|Hi].
  2:{ rewrite (lookup_ge_None_2 block) by lia. by rewrite lookup_ge_None_2 by (rewrite length_seq; lia). }
  rewrite lookup_seq_lt by done. destruct (lookup_lt_is_Some_2 block i ltac:(lia)) as [w Hw]. rewrite Hw.
  cbn [fmap option_fmap option_map]. do 2 f_equal. rewrite Nat.add_0_l.
  assert (Hval : forall j v, block !! j = Some v -> value_at block j = v)
    by (intros j v Hj; unfold value_at; by apply nth_lookup_Some).
  assert (Hq : nth (i mod 16) (nib <$> seq 0 16) zero = nib (i mod 16)%nat).
  { apply nth_lookup_Some. rewrite list_lookup_fmap, lookup_seq_lt; [done|]. by apply Nat.mod_upper_bound. }
  rewrite Hq. unfold nib.
  destruct (nibbles_spec (q4_0_level (inverse_of scale) (value_at block (i mod 16)))
    (q4_0_level (inverse_of scale) (value_at block (i mod 16 + 16)))) as [Hlow Hhigh]; [apply q4_0_level_range..|].
  rewrite Hlow, Hhigh. destruct (Nat.ltb_spec i 16) as [Hlt|Hge].
  - rewrite (Nat.mod_small i 16) by done. by rewrite (Hval i w Hw).
  - assert (Hi16 : (i mod 16 + 16)%nat = i).
    { replace i with ((i - 16) + 1 * 16)%nat at 1 by lia. rewrite Nat.Div0.mod_add, Nat.mod_small by lia. lia. }
    rewrite Hi16. by rewrite (Hval i w Hw).
Qed.

(** Blocks are dequantised one after the other. *)
Lemma dequant_blocks (cs : list (list f32)) pre k :
  Forall (fun c => length c = 32%nat) cs -> length pre = (k * 18)%nat ->
  (fun bi => dequant_block (take 18 (drop (bi * 18) (pre ++ concat (q4_0_block <$> cs)))))
    <$> seq k (length cs) = dequantised <$> cs.
Proof.
  intros H. revert pre k. induction H as [|c cs Hc _ IH]; intros pre k Hp; [done|].
  cbn [length seq fmap list_fmap concat]. f_equal.
  - rewrite <-Hp, drop_app_length. rewrite <-(length_q4_0_block c) at 1. rewrite take_app_length.
    by apply dequant_q4_0_block.
  - specialize (IH (pre ++ q4_0_block c) (S k)). rewrite <-app_assoc in IH. apply IH.
    rewrite length_app, length_q4_0_block, Hp. lia.
Qed.

(** C40: Round trip of a codec that loses precision: dequantising what was
    packed gives, in the order of the weights, each weight's own level times the
    block's stored scale. *)
Theorem dequant_pack_q4_0 w packed :
  pack_q4_0 w = Ok packed ->
  dequant_q4_0 packed (length_z w) = Ok (concat (dequantised <$> chunks_exact 32 w)) /\
  length (concat (dequantised <$> chunks_exact 32 w)) = length w.
Proof.
  unfold pack_q4_0. destruct (is_multiple_of (length_z w) Q4_0_BLOCK) eqn:Hm; [|done]. cbn [negb]. intros [= <-].
  destruct (chunks_32 w Hm) as (Hl & Hall & Hc). split.
  - unfold dequant_q4_0. rewrite Hm. cbn [negb].
    assert (Hlen : length_z (concat (q4_0_block <$> chunks_exact 32 w)) = length_z w / Q4_0_BLOCK * Q4_0_TYPE_SIZE).
    { rewrite (length_concat_blocks _ 18) by (eapply Forall_impl; [exact Hall|]; intros; apply length_q4_0_block).
      by rewrite Hl. }
    rewrite Hlen, Z.eqb_refl. cbn [negb]. do 2 f_equal.
    unfold Q4_0_BLOCK. rewrite <-Hl. unfold length_z. rewrite Nat2Z.id. clear -Hall.
    apply (dequant_blocks (chunks_exact 32 w) [] 0 Hall eq_refl).
  - pose proof (length_concat_blocks dequantised 32 (chunks_exact 32 w)) as H.
    rewrite Hl in H. unfold length_z in H. apply is_multiple_of_spec in Hm as [k Hk]; [|done].
    unfold Q4_0_BLOCK, length_z in *. rewrite Hk, Z.div_mul in H by done.
    assert (Hd : Forall (fun c => length (dequantised c) = 32%nat) (chunks_exact 32 w)).
    { eapply Forall_impl; [exact Hall|]. intros c Hc32. unfold dequantised. by rewrite length_fmap. }
    specialize (H Hd). lia.
Qed.
End Blocks.

Import Json.

(** ** A concrete file

    The conversions of [half] are IEEE: round to nearest, ties to even. *)
Module Sample.
Definition convert (p emax : Z) (x : spec_float) : spec_float :=
  match x with
  | S754_finite s m e => binary_normalize p emax (cond_Zopp s (Zpos m)) e s
  | _ => x
  end.
#[global, refine] Instance ieee : HalfPrecision := {|
  f16_of_f32 x := bits_of_float 11 5 (convert 11 16 x);
  f16_to_f32 v := convert 24 128 (float_of_bits 11 5 v);
|}.
Proof.
  intros x. apply (bits_range 11 5); [lia|lia|]. destruct x; try done. apply binary_normalize_valid; lia.
Defined.

(** The weights of the unit test: 64 values from -0.3 on. *)
Definition weights : list f32 :=
  (fun i => f32_sub (f32_mul (f32_of_Z (Z.of_nat i)) (f32_of_bits 1008981770)) (f32_of_bits 1050253722)) <$> seq 0 64.
Definition packed : bytes := match pack_q4_0 weights with Ok b => b | _ => [] end.
Definition tensors : gmap string TensorData :=
  {["blk.0.attn_q.weight" := ([2; 32], 2, packed);
    "a.norm" := ([2], 0, f32_bytes [f32_one; f32_zero])]}.
Definition metadata : gmap string MetaValue :=
  {["general.architecture" := MString "llama"; "general.alignment" := MU32 32;
    "llama.attention.layer_norm_rms_epsilon" := MF32 epsilon]}.

(** [writable], computed. *)
Definition tensor_writable (lim : InspectionLimits) (t : string * TensorData) : bool :=
  match GgufType.from_u32 t.2.1.2 with
  | Ok ty =>
      match GgufType.nbytes_for_shape ty t.2.1.1 with
      | Ok n => (n =? length_z t.2.2)
                && tensor_ok lim {| td_name := t.1; td_shape := t.2.1.1; td_type := ty; td_offset := 0 |}
      | _ => false
      end
  | _ => false
  end.

Lemma tensors_writable :
  map_Forall (fun name t => tensor_writable InspectionLimits_default (name, t) = true) tensors.
Proof. apply map_Forall_insert_2; [vm_compute; reflexivity|]. apply map_Forall_singleton. vm_compute. reflexivity. Qed.

Lemma metadata_writable :
  map_Forall (fun k v => kv_ok InspectionLimits_default (kv_of (k, v)) = true) metadata.
Proof. do 2 (apply map_Forall_insert_2; [vm_compute; reflexivity|]). apply map_Forall_singleton. vm_compute. reflexivity. Qed.

Lemma sample_writable {SJ : SerdeJson} : writable InspectionLimits_default tensors metadata.
Proof.
  split.
  - vm_compute. split; discriminate.
  - vm_compute. split; discriminate.
  - exact metadata_writable.
  - vm_compute. exact I.
  - intros name shape code payload H. pose proof (tensors_writable name _ H) as Hw.
    unfold tensor_writable in Hw. cbn [fst snd] in Hw.
    destruct (GgufType.from_u32 code) as [ty| |]; [|discriminate..].
    destruct (GgufType.nbytes_for_shape ty shape) as [n| |] eqn:En; [|discriminate..].
    apply andb_true_iff in Hw as [->%Z.eqb_eq Hok]. by exists ty.
Qed.

Definition file : bytes := match write_gguf tensors metadata with Ok b => b | _ => [] end.
Definition source : BytesSource := memory _ (small_file file eq_refl).
End Sample.

Lemma written_file_is_read_witness :
  exists index e offset,
    gguf_index 1 Sample.source InspectionLimits_default = Ok index /\
    length (ix_entries index) = 2%nat /\ e ∈ ix_entries index /\
    re_byte_ranges e = [{| br_offset := offset; br_length := 36 |}] /\
    read_range Sample.source offset 36 = pack_q4_0 Sample.weights.
Proof.
  destruct (written_file_is_read 1 InspectionLimits_default Sample.source Sample.tensors Sample.metadata Sample.file)
    as (index & Hi & _ & _ & Hl & He).
  - apply Sample.sample_writable.
  - vm_compute. reflexivity.
  - vm_compute. discriminate.
  - lia.
  - apply (BytesSource_holds Sample.source).
  - destruct (He "blk.0.attn_q.weight" [2; 32] 2 Sample.packed) as (e & offset & Hin & _ & _ & _ & Hr & _ & Hread);
      [reflexivity|].
    exists index, e, offset. split; [exact Hi|]. split; [exact Hl|]. split; [exact Hin|].
    assert (Hp : length_z Sample.packed = 36) by (vm_compute; reflexivity).
    rewrite Hp in Hr, Hread. split; [exact Hr|]. rewrite Hread. vm_compute. reflexivity.
Defined.

Lemma dequant_pack_q4_0_witness :
  dequant_q4_0 Sample.packed 64 = Ok (concat (dequantised <$> chunks_exact 32 Sample.weights)).
Proof.
  apply (dequant_pack_q4_0 Sample.weights Sample.packed). vm_compute. reflexivity.
Defined.
