(* ===== verification/GgufSafety.v ===== *)
(** * Safety of GGUF indexing on untrusted bytes

    Every reader only moves its cursor forward inside the source; no byte
    string makes the indexer panic while stack frames remain; an index it
    returns describes byte ranges inside the file. *)
From S2P Require Import Prelude Errors Serde CoreTypes Catalog.
From S2P Require Import GgufContainer GgufFormat.
From Stdlib Require Import ZArith Lia Ascii String Sorted.
From stdpp Require Import base list strings gmap.
From stdpp Require Import options.
Import Json.

Local Open Scope Z_scope.

Section Safety.
Context {SJ : SerdeJson} {LE : LittleEndian} {Src : Type} {RS : RandomAccessSource Src}.

(** The cursor lies inside its source. *)
Definition cur_ok (c : Cursor) : Prop := 0 <= cur_pos c <= src_len (cur_source c).

(** [later k c c']: the same reader, at least [k] bytes further. *)
Definition later (k : Z) (c c' : Cursor) : Prop :=
  cur_source c' = cur_source c /\ cur_limits c' = cur_limits c /\
  cur_pos c + k <= cur_pos c' /\ cur_ok c'.

(** A reader that consumes at least [k] bytes and never panics. *)
Definition good {A} (k : Z) (r : Cursor -> Result (A * Cursor)) : Prop :=
  forall c, cur_ok c ->
    no_panic (r c) /\ forall a c', r c = Ok (a, c') -> later k c c'.

Lemma later_refl c : cur_ok c -> later 0 c c.
Proof. intros H. repeat split; try done; try lia; apply H. Qed.

Lemma later_trans j k n c1 c2 c3 :
  n <= j + k -> later j c1 c2 -> later k c2 c3 -> later n c1 c3.
Proof.
  unfold later. intros Hn (H1 & H2 & H3 & H4) (H5 & H6 & H7 & H8).
  rewrite H5, H6. repeat split; [done|done|lia|apply H8|apply H8].
Qed.

Lemma later_ok k c c' : later k c c' -> cur_ok c'.
Proof. by intros (_ & _ & _ & H). Qed.

Lemma good_bind {A B} j k n (r : Cursor -> Result (A * Cursor))
    (f : A -> Cursor -> Result (B * Cursor)) :
  n <= j + k -> good j r -> (forall a, good k (f a)) ->
  good n (fun c => '(a, c) ← r c; f a c).
Proof.
  intros Hn Hr Hf c Hc. destruct (Hr c Hc) as [Hp Hl]. split.
  - apply no_panic_bind; [done|]. intros [a c1] E. apply Hl in E.
    eapply Hf, later_ok, E.
  - intros b c' H. ok_inv. apply Hl in Hv.
    eapply later_trans; [exact Hn|exact Hv|].
    eapply Hf; [by eapply later_ok|exact H].
Qed.

(** Steps that do not touch the cursor; what they check may depend on it. *)
Lemma good_guard {A B} k (g : Cursor -> Result A) (f : A -> Cursor -> Result (B * Cursor)) :
  (forall c, no_panic (g c)) -> (forall a, good k (f a)) ->
  good k (fun c => a ← g c; f a c).
Proof.
  intros Hg Hf c Hc. split.
  - apply no_panic_bind; [done|]. intros a _. by apply Hf.
  - intros b c' H. ok_inv. by eapply Hf.
Qed.

Lemma good_ret {A} (a : A) : good 0 (fun c => Ok (a, c)).
Proof. intros c Hc. split; [done|]. intros ? ? [= <- <-]. by apply later_refl. Qed.

Lemma good_weaken {A} j k (r : Cursor -> Result (A * Cursor)) : k <= j -> good j r -> good k r.
Proof.
  intros Hk Hr c Hc. destruct (Hr c Hc) as [Hp Hl]. split; [done|].
  intros a c' (? & ? & ? & ?)%Hl. unfold later. repeat split; try done; try lia; by apply H2.
Qed.

Lemma read_exact_good n : 0 <= n -> good n (read_exact n).
Proof.
  intros Hn c Hc. unfold read_exact. split; [no_panic_tac|].
  intros bs c' H. ok_inv. destruct Hc as [Hc0 Hc1].
  apply read_range_Ok in Hv as [_ Hv]; [|done|done].
  apply checked_add_Some in Hv0 as [-> _].
  repeat split; cbn; try done; lia.
Qed.

Lemma read_exact_length n c bs c' :
  cur_ok c -> 0 <= n -> read_exact n c = Ok (bs, c') -> Z.of_nat (length bs) = n.
Proof.
  unfold read_exact. intros [Hc _] Hn H. ok_inv. by apply read_range_Ok in Hv as [? _].
Qed.

(** The one-byte readers index a buffer that has its byte. *)
Lemma read_byte_good {A} (f : byte -> A) :
  good 1 (fun c => '(b, c) ← read_exact 1 c; x ← index0 b; Ok (f x, c)).
Proof.
  intros c Hc. destruct (read_exact_good 1 ltac:(lia) c Hc) as [Hp Hl]. split.
  - apply no_panic_bind; [done|]. intros [b c1] E.
    apply read_exact_length in E; [|done|lia]. by destruct b.
  - intros a c' H. ok_inv. eauto.
Qed.

Lemma read_fixed_good {A} n (f : bytes -> A) :
  0 <= n -> good n (fun c => '(b, c) ← read_exact n c; Ok (f b, c)).
Proof.
  intros Hn. apply (good_bind n 0); [lia|by apply read_exact_good|].
  intros b. apply good_ret.
Qed.

Lemma read_u32_good : good 4 read_u32.
Proof. by apply read_fixed_good. Qed.
Lemma read_u64_good : good 8 read_u64.
Proof. by apply read_fixed_good. Qed.

Lemma read_u64_nonneg c n c' : cur_ok c -> read_u64 c = Ok (n, c') -> is_u64 n.
Proof.
  intros Hc. unfold read_u64. intros H. ok_inv.
  apply read_exact_length in Hv; [|done|lia].
  rewrite read_u64_le_spec by lia.
  match goal with |- context [le_value ?l] =>
    pose proof (le_value_range l) as Hr;
    replace (8 * Z.of_nat (length l)) with 64 in Hr by lia
  end. unfold is_u64, u64_max. lia.
Qed.

Lemma read_string_good : good 8 read_string.
Proof.
  intros c Hc. destruct (read_u64_good c Hc) as [Hp Hl]. unfold read_string. split.
  - apply no_panic_bind; [done|]. intros [len c1] E.
    pose proof (read_u64_nonneg _ _ _ Hc E) as [Hlen _].
    apply Hl, later_ok in E. apply no_panic_bind; [apply no_panic_ensure|]. intros _ _.
    apply no_panic_bind; [by apply read_exact_good|]. intros [bs c2] _. no_panic_tac.
  - intros s c' H. ok_inv. pose proof (read_u64_nonneg _ _ _ Hc Hv) as [Hlen _].
    apply Hl in Hv.
    apply (read_exact_good _ Hlen) in Hv1; [|by eapply later_ok].
    by eapply (later_trans 8 z 8); [lia|exact Hv|].
Qed.

Lemma repeat_read_good {A} n (r : Cursor -> Result (A * Cursor)) :
  good 0 r -> good 0 (repeat_read n r).
Proof.
  intros Hr. induction n as [|n IH]; [apply good_ret|]. cbn [repeat_read].
  apply (good_bind 0 0); [lia|done|]. intros a.
  apply (good_bind 0 0); [lia|done|]. intros l. apply good_ret.
Qed.

(** ** Metadata values: the frames needed are bounded by the bytes left *)

(** Enough frames for whatever the bytes after the cursor encode: each
    nested array header takes twelve bytes. *)
Definition enough (stack : nat) (c : Cursor) : Prop :=
  src_len (cur_source c) - cur_pos c < 12 * Z.of_nat stack.

Lemma enough_later stack k c c' : 0 <= k -> later k c c' -> enough stack c -> enough stack c'.
Proof. unfold later, enough. intros Hk (-> & _ & H & _). lia. Qed.

Lemma repeat_read_enough {A} stack n (r : Cursor -> Result (A * Cursor)) c :
  (forall c, cur_ok c -> enough stack c -> no_panic (r c)) ->
  (forall c a c', cur_ok c -> r c = Ok (a, c') -> later 0 c c') ->
  cur_ok c -> enough stack c -> no_panic (repeat_read n r c).
Proof.
  intros Hp Hl. revert c. induction n as [|n IH]; intros c Hc He; cbn; [done|].
  apply no_panic_bind; [by apply Hp|]. intros [a c1] E. apply Hl in E; [|done].
  apply no_panic_bind; [|by intros [] _].
  apply IH; [by eapply later_ok|by eapply enough_later].
Qed.

Lemma repeat_read_later {A} n (r : Cursor -> Result (A * Cursor)) c l c' :
  (forall c a c', cur_ok c -> r c = Ok (a, c') -> later 0 c c') ->
  cur_ok c -> repeat_read n r c = Ok (l, c') -> later 0 c c'.
Proof.
  intros Hl. revert c l. induction n as [|n IH]; intros c l Hc H; cbn in H; ok_inv.
  - by apply later_refl.
  - apply Hl in Hv; [|done].
    apply (later_trans 0 0 0 _ c0); [done|done|]. eapply IH; [by eapply later_ok|done].
Qed.

Lemma good_map {A B} k (f : A -> B) (r : Cursor -> Result (A * Cursor)) :
  0 <= k -> good k r -> good 0 (fun c => '(v, c) ← r c; Ok (f v, c)).
Proof. intros Hk Hr. apply (good_bind k 0); [lia|done|]. intros a. apply good_ret. Qed.

(** Every value that is not an array takes one frame. *)
Lemma read_value_scalar stack ty : ty <> 9 -> good 0 (read_value (S stack) ty).
Proof.
  intros Hty c Hc. cbn [read_value].
  repeat case_match; subst; try congruence; try done.
  all: first
    [ by apply (good_map 1 _ read_u8 ltac:(lia) (read_byte_good _))
    | by apply (good_map 1 _ read_i8 ltac:(lia) (read_byte_good _))
    | by apply (good_map 1 _ read_bool ltac:(lia) (read_byte_good _))
    | by apply (good_map 8 _ read_string ltac:(lia) read_string_good)
    | by apply (good_map 8 _ read_u64 ltac:(lia) read_u64_good)
    | by apply (good_map 4 _ read_u32 ltac:(lia) read_u32_good)
    | by apply (good_map 2 _ read_u16 ltac:(lia) (read_fixed_good 2 _ ltac:(lia)))
    | by apply (good_map 2 _ read_i16 ltac:(lia) (read_fixed_good 2 _ ltac:(lia)))
    | by apply (good_map 4 _ read_i32 ltac:(lia) (read_fixed_good 4 _ ltac:(lia)))
    | by apply (good_map 4 _ read_f32 ltac:(lia) (read_fixed_good 4 _ ltac:(lia)))
    | by apply (good_map 8 _ (read_exact 8) ltac:(lia) (read_exact_good 8 ltac:(lia))) ].
Qed.

Lemma read_value_later stack ty c v c' :
  cur_ok c -> read_value stack ty c = Ok (v, c') -> later 0 c c'.
Proof.
  revert ty c v c'. induction stack as [|stack IH]; intros ty c v c' Hc H; [done|].
  destruct (decide (ty = 9)) as [->|Hty];
    [|by eapply (proj2 (read_value_scalar stack ty Hty c Hc))].
  cbn [read_value] in H. ok_inv.
  apply (read_u32_good c Hc) in Hv. apply (read_u64_good _ (later_ok _ _ _ Hv)) in Hv0.
  pose proof (later_trans 4 8 0 _ _ _ ltac:(lia) Hv Hv0) as H1.
  apply repeat_read_later in Hv2; [|by eauto|by eapply later_ok].
  by eapply (later_trans 0 0 0); [lia|exact H1|].
Qed.

(** A value read with frames for the bytes left does not panic. *)
Lemma read_value_no_panic stack ty c :
  cur_ok c -> enough stack c -> no_panic (read_value stack ty c).
Proof.
  revert ty c. induction stack as [|stack IH]; intros ty c Hc He.
  { unfold enough, cur_ok in *. lia. }
  destruct (decide (ty = 9)) as [->|Hty];
    [|apply (proj1 (read_value_scalar stack ty Hty c Hc))].
  cbn [read_value]. apply no_panic_bind; [by apply read_u32_good|]. intros [ety c1] E1.
  apply (read_u32_good c Hc) in E1.
  apply no_panic_bind; [by eapply read_u64_good, later_ok|]. intros [count c2] E2.
  apply (read_u64_good _ (later_ok _ _ _ E1)) in E2.
  apply no_panic_bind; [apply no_panic_ensure|]. intros _ _.
  apply no_panic_bind; [|by intros [] _].
  apply (repeat_read_enough stack); [by auto| |by eapply later_ok|].
  - intros ????. by apply read_value_later.
  - destruct E1 as (E1 & _ & ? & _), E2 as (E2 & _ & ? & _).
    unfold enough in *. rewrite E2, E1. lia.
Qed.

(** ** The indexer *)

Lemma read_kv_later stack c kv c' :
  cur_ok c -> read_kv stack c = Ok (kv, c') -> later 0 c c'.
Proof.
  unfold read_kv. intros Hc H. ok_inv.
  apply (read_string_good _ Hc) in Hv.
  apply (read_u32_good _ (later_ok _ _ _ Hv)) in Hv1.
  apply (read_value_later _ _ _ _ _ (later_ok _ _ _ Hv1)) in Hv2.
  eapply (later_trans 8 0); [lia|exact Hv|].
  by eapply (later_trans 4 0); [lia|exact Hv1|].
Qed.

Lemma read_metadata_later stack n m c m' c' :
  cur_ok c -> read_metadata stack n m c = Ok (m', c') -> later 0 c c'.
Proof.
  revert m c. induction n as [|n IH]; intros m c Hc H; cbn [read_metadata] in H; ok_inv.
  - by apply later_refl.
  - apply read_kv_later in Hv; [|done].
    apply (later_trans 0 0 0 _ c0); [done|done|]. eapply IH; [by eapply later_ok|done].
Qed.

Lemma read_kv_no_panic stack c : cur_ok c -> enough stack c -> no_panic (read_kv stack c).
Proof.
  intros Hc He. unfold read_kv.
  apply no_panic_bind; [by apply read_string_good|]. intros [key c1] E1.
  apply (read_string_good _ Hc) in E1.
  apply no_panic_bind; [apply no_panic_ensure|]. intros _ _.
  apply no_panic_bind; [by eapply read_u32_good, later_ok|]. intros [ty c2] E2.
  apply (read_u32_good _ (later_ok _ _ _ E1)) in E2.
  apply no_panic_bind; [|by intros [] _].
  apply read_value_no_panic; [by eapply later_ok|].
  eapply enough_later; [|exact E2|]; [lia|]. by eapply enough_later; [|exact E1|].
Qed.

Lemma read_metadata_no_panic stack n m c :
  cur_ok c -> enough stack c -> no_panic (read_metadata stack n m c).
Proof.
  revert m c. induction n as [|n IH]; intros m c Hc He; cbn [read_metadata]; [done|].
  apply no_panic_bind; [by apply read_kv_no_panic|]. intros [kv c1] E.
  apply read_kv_later in E; [|done].
  apply IH; [by eapply later_ok|by eapply enough_later].
Qed.

Lemma read_dir_good : good 0 read_dir.
Proof.
  unfold read_dir.
  apply (good_bind 8 0); [lia|apply read_string_good|]. intros name.
  apply (good_guard _ (fun c => validate_key (cur_limits c) name));
    [intros; apply no_panic_ensure|]. intros _.
  apply (good_bind 4 0); [lia|apply read_u32_good|]. intros n_dims.
  apply (good_guard _ (fun c => ensure (n_dims <=? max_shape_rank (cur_limits c)) _));
    [intros; apply no_panic_ensure|]. intros _.
  apply (good_bind 0 0);
    [lia|apply repeat_read_good, (good_weaken 8), read_u64_good; lia|]. intros dims.
  apply (good_guard _ (fun c => validate_shape (cur_limits c) _));
    [intros; apply no_panic_validate_shape|]. intros _.
  apply (good_bind 4 0); [lia|apply read_u32_good|]. intros type_code.
  apply (good_guard _ (fun _ => GgufType.from_u32 type_code));
    [intros; apply GgufType.no_panic_from_u32|]. intros ty.
  apply (good_bind 8 0); [lia|apply read_u64_good|]. intros offset. apply good_ret.
Qed.

Lemma read_header_good : good 0 read_header.
Proof.
  unfold read_header.
  apply (good_bind 4 0); [lia|by apply read_exact_good|]. intros magic.
  apply (good_guard _ (fun _ => ensure _ _)); [intros; apply no_panic_ensure|]. intros _.
  apply (good_bind 4 0); [lia|apply read_u32_good|]. intros version.
  apply (good_guard _ (fun _ => ensure _ _)); [intros; apply no_panic_ensure|]. intros _.
  apply (good_bind 8 0); [lia|apply read_u64_good|]. intros tensor_count.
  apply (good_bind 8 0); [lia|apply read_u64_good|]. intros kv_count.
  apply (good_guard _ (fun c => ensure (negb
    ((tensor_count >? max_tensor_count (cur_limits c))
     || (kv_count >? max_metadata_entries (cur_limits c)))) _));
    [intros; apply no_panic_ensure|]. intros _. apply good_ret.
Qed.

Lemma place_tensor_no_panic (source : Src) data_offset alignment dir :
  no_panic (place_tensor source data_offset alignment dir).
Proof. unfold place_tensor. no_panic_tac. Qed.

Lemma cursor_start_ok (source : Src) limits :
  cur_ok {| cur_source := source; cur_pos := 0; cur_limits := limits |}.
Proof. unfold cur_ok; cbn. pose proof (src_len_u64 source) as H. unfold is_u64 in H. lia. Qed.

(** ** What an index describes *)

(** A directory entry that passed the reader's checks. *)
Definition dir_ok (limits : InspectionLimits) (d : TensorDir) : Prop :=
  Z.of_nat (length (td_shape d)) <= max_shape_rank limits /\
  Forall (fun n => 0 <= n <= max_dim limits) (td_shape d) /\
  0 <= td_offset d.

(** What an index entry says of the tensor of type [ty] it describes. *)
Definition entry_ok (source : Src) (limits : InspectionLimits) (data_offset alignment : Z)
    (e : RawTensorEntry) : Prop :=
  exists ty offset n,
    re_byte_ranges e = [{| br_offset := offset; br_length := n |}] /\
    data_offset <= offset /\ 0 <= n /\ offset + n <= src_len source /\
    GgufType.nbytes_for_shape ty (re_shape e) = Ok n /\
    re_storage_type e = GgufType.storage_element_type ty /\
    re_metadata e !! "gguf.type_code" = Some (value_u64 (GgufType.as_u32 ty)) /\
    Z.of_nat (length (re_shape e)) <= max_shape_rank limits /\
    Forall (fun d => 0 <= d <= max_dim limits) (re_shape e) /\
    re_alignment e = alignment /\ re_source_file_index e = 0.

Lemma align_up_spec value align :
  0 <= value <= 2 ^ 63 -> is_u64 align ->
  value <= align_up value align /\
  (align <> 0 -> align_up value align mod align = 0 /\ align_up value align < value + align) /\
  (align = 0 -> align_up value align = value).
Proof.
  unfold align_up, is_u64, u64_max. intros Hv Ha.
  destruct (Z.eqb_spec align 0) as [->|Hne]; [lia|].
  pose proof (div_ceil_spec value align ltac:(lia) ltac:(lia)) as Hd.
  assert (Hs : 0 <= div_ceil value align * align < 2 ^ 64).
  { split; [lia|]. destruct (Z_le_gt_dec align value); [lia|].
    unfold div_ceil. rewrite Z.div_small by lia. case_match; lia. }
  unfold wrap64. rewrite Z.mod_small by done.
  split; [lia|]. split; [|lia]. intros _. split; [|lia]. apply Z_mod_mult.
Qed.

Lemma metadata_alignment_u64 (m : MetadataMap) : is_u64 (metadata_alignment m).
Proof.
  unfold metadata_alignment. destruct (m !! _) as [v|]; cbn; [|done].
  destruct (as_u64 v) eqn:E; [by eapply as_u64_range|done].
Qed.

Lemma read_dir_ok c d c' :
  cur_ok c -> read_dir c = Ok (d, c') -> dir_ok (cur_limits c) d.
Proof.
  intros Hc H. unfold read_dir in H. ok_inv.
  apply (read_string_good _ Hc) in Hv. pose proof (later_ok _ _ _ Hv) as H1.
  apply (read_u32_good _ H1) in Hv1. pose proof (later_ok _ _ _ Hv1) as H2.
  assert (Hg : good 0 read_u64) by (apply (good_weaken 8); [lia|apply read_u64_good]).
  pose proof (repeat_read_good (Z.to_nat z) _ Hg _ H2) as [_ Hd]. pose proof (Hd _ _ Hv3) as H3.
  apply (read_u32_good _ (later_ok _ _ _ H3)) in Hv5.
  apply read_u64_nonneg in Hv7; [|by eapply later_ok].
  apply validate_shape_Ok in Hv4 as [Hr Hdim].
  assert (Hl : cur_limits c2 = cur_limits c).
  { destruct H3 as (_ & -> & _), Hv1 as (_ & -> & _). by destruct Hv as (_ & -> & _). }
  rewrite Hl in *. unfold dir_ok; cbn. split; [done|]. split; [|apply Hv7].
  apply Forall_and. split; [|done]. rewrite reverse_Permutation.
  eapply (repeat_read_inv cur_ok) in Hv3 as [_ Hv3]; [exact Hv3| |done].
  intros c4 n c5 H4 E. split; [by eapply later_ok, read_u64_good|].
  by eapply read_u64_nonneg.
Qed.

Lemma place_tensor_ok (source : Src) limits data_offset alignment d e :
  src_len source < u64_max -> 0 <= data_offset -> dir_ok limits d ->
  place_tensor source data_offset alignment d = Ok e ->
  entry_ok source limits data_offset alignment e.
Proof.
  intros Hlen H0 (Hr & Hd & Ho) H. unfold place_tensor in H. ok_inv.
  apply checked_add_Some in Hv0 as [-> Hu]. apply Z.leb_le in Hv1.
  exists (td_type d), (data_offset + td_offset d), v. cbn.
  assert (Hn : 0 <= v).
  { apply GgufType.nbytes_exact in Hv as (count & k & Hc & E & -> & _).
    apply numel_u64 in Hc as [Hc _]; [|eapply Forall_impl; [exact Hd|]; cbn; lia].
    destruct (GgufType.type_size_Some (td_type d)) as (sz & Hsz & ?).
    unfold GgufType.block_geometry in *. rewrite Hsz. cbn [fst snd default] in *.
    destruct (GgufType.block_size (td_type d)) eqn:Hb; cbn in *;
      [apply GgufType.block_size_pos in Hb|]; nia. }
  assert (data_offset + td_offset d + v <= src_len source).
  { unfold checked_add, checked_u64 in Hv1.
    destruct (Z.leb_spec (data_offset + td_offset d + v) u64_max); cbn in Hv1; lia. }
  repeat split; try done; lia.
Qed.


(** The shape of a returned index: its entries describe the file, sorted, and
    its data section starts at an aligned-up position inside the file. *)
Lemma gguf_index_entries stack (source : Src) limits idx :
  src_len source <= 2 ^ 63 -> gguf_index stack source limits = Ok idx ->
  Forall (entry_ok source limits (ix_data_offset idx) (metadata_alignment (ix_metadata idx)))
    (ix_entries idx) /\
  (exists es, ix_entries idx = sort_entries es) /\
  exists pos, 0 <= pos <= src_len source /\
    ix_data_offset idx = align_up pos (metadata_alignment (ix_metadata idx)).
Proof.
  intros Hlen H. unfold gguf_index in H. pose proof (cursor_start_ok source limits) as H0.
  ok_inv. apply (read_header_good _ H0) in Hv. pose proof (later_ok _ _ _ Hv) as H1.
  apply read_metadata_later in Hv0; [|done]. pose proof (later_ok _ _ _ Hv0) as H2.
  assert (Hd : later 0 c0 c1 /\ Forall (dir_ok limits) l).
  { split; [by eapply (repeat_read_good _ _ read_dir_good)|].
    assert (Hl : cur_limits c0 = limits).
    { destruct Hv0 as (_ & -> & _). by destruct Hv as (_ & -> & _). }
    eapply (repeat_read_inv (fun c => cur_ok c /\ cur_limits c = limits)) in Hv1 as [_ ?];
      [done| |done].
    intros c3 d c4 [Hc3 <-] E. split; [|by eapply read_dir_ok].
    apply (read_dir_good _ Hc3) in E. split; [by eapply later_ok|]. by destruct E as (_ & -> & _). }
  destruct Hd as [H3 Hdirs]. cbn.
  assert (Hsrc : cur_source c1 = source).
  { destruct H3 as (-> & _), Hv0 as (-> & _). by destruct Hv as (-> & _). }
  apply later_ok in H3. unfold cur_ok in H3. rewrite Hsrc in H3.
  destruct (align_up_spec (cur_pos c1) _ ltac:(lia) (metadata_alignment_u64 g)) as [Hge _].
  split; [|split; [by eexists|by exists (cur_pos c1)]].
  unfold sort_entries. rewrite stable_sort_perm.
  apply try_map_Ok in Hv2. clear -Hv2 Hdirs Hlen Hge H3.
  induction Hv2 as [|d e ds es Hde _ IH]; inversion Hdirs; subst; constructor; [|auto].
  eapply place_tensor_ok; [|lia|done|done]. unfold u64_max. lia.
Qed.

(** C11: An index that is returned describes the file: every entry has one byte
    range, inside the file and at or after the data section, whose length is
    the size of its type and shape; its shape respects the limits; the entries
    are sorted by key; and the data section is aligned as the metadata asks. *)
Theorem gguf_index_sound stack (source : Src) limits idx :
  src_len source <= 2 ^ 63 -> gguf_index stack source limits = Ok idx ->
  Forall (entry_ok source limits (ix_data_offset idx) (metadata_alignment (ix_metadata idx)))
    (ix_entries idx) /\
  StronglySorted (fun a b => entry_leb a b = true) (ix_entries idx) /\
  (metadata_alignment (ix_metadata idx) <> 0 ->
   ix_data_offset idx mod metadata_alignment (ix_metadata idx) = 0).
Proof.
  intros Hlen H. apply gguf_index_entries in H as (He & (es & Hs) & pos & Hp & Ho); [|done].
  split; [done|]. rewrite Hs, Ho. split; [apply sort_entries_sorted|].
  intros Ha. apply align_up_spec; [lia|apply metadata_alignment_u64|done].
Qed.

End Safety.

(** ** Witnesses *)


Lemma gguf_index_sound_witness :
  gguf_index 3 sample_source InspectionLimits_default = Ok sample_index /\
  Forall (entry_ok sample_source InspectionLimits_default (ix_data_offset sample_index)
    (metadata_alignment (ix_metadata sample_index))) (ix_entries sample_index).
Proof.
  assert (H : gguf_index 3 sample_source InspectionLimits_default = Ok sample_index)
    by by_vm.
  split; [exact H|].
  assert (Hlen : src_len sample_source <= 2 ^ 63) by (vm_compute; discriminate).
  exact (proj1 (gguf_index_sound 3 sample_source InspectionLimits_default sample_index Hlen H)).
Defined.
