(* ===== verification/GgufConvention.v ===== *)
(** * Mixed per-tensor GGUF convention:
    crates/dyninfer-checkpoint-gguf/src/convention.rs

    The physical encoding of each GGUF type, the byte layout of its blocks,
    the decoder from a raw index to logical parameters and the normalisation
    of the GGUF metadata keys. *)
From S2P Require Import Prelude Errors Serde CoreTypes Catalog.
From S2P Require Import GgufContainer GgufFormat GgufSafety.
From Stdlib Require Import ZArith Lia Ascii String Sorted.
From stdpp Require Import base list strings gmap.
From stdpp Require Import options.
Import Json.

Local Open Scope Z_scope.

(** ** Block layouts *)

Definition layout_byte_lengths (ty : GgufType.t) : list Z :=
  match ty with
  | GgufType.Q4_0 => [2; 16]
  | GgufType.Q4_1 => [2; 2; 16]
  | GgufType.Q5_0 => [2; 4; 16]
  | GgufType.Q5_1 => [2; 2; 4; 16]
  | GgufType.Q8_0 => [2; 32]
  | GgufType.Q8_1 => [2; 2; 32]
  | GgufType.Q2_K => [16; 64; 4]
  | GgufType.Q3_K => [32; 64; 12; 2]
  | GgufType.Q4_K => [4; 12; 128]
  | GgufType.Q5_K => [4; 12; 32; 128]
  | GgufType.Q6_K => [128; 64; 16; 2]
  | GgufType.Q8_K => [4; 256; 32]
  | GgufType.IQ2_XXS => [2; 64]
  | GgufType.IQ2_XS => [2; 64; 8]
  | GgufType.IQ3_XXS => [2; 96]
  | GgufType.IQ1_S => [2; 32; 16]
  | GgufType.IQ4_NL => [2; 16]
  | GgufType.IQ3_S => [2; 64; 8; 32; 4]
  | GgufType.IQ2_S => [2; 64; 8; 8]
  | GgufType.IQ4_XS => [2; 2; 4; 128]
  | GgufType.IQ1_M => [32; 16; 8]
  | GgufType.TQ1_0 => [2; 4; 48]
  | GgufType.TQ2_0 => [2; 64]
  | GgufType.MXFP4 => [1; 16]
  | _ => []
  end.

Definition layout_components (ty : GgufType.t) : list string :=
  match ty with
  | GgufType.Q4_0 => ["scale_f16"; "quants_u4"]
  | GgufType.Q4_1 => ["scale_f16"; "minimum_f16"; "quants_u4"]
  | GgufType.Q5_0 => ["scale_f16"; "high_bits"; "quants_u4"]
  | GgufType.Q5_1 => ["scale_f16"; "minimum_f16"; "high_bits"; "quants_u4"]
  | GgufType.Q8_0 => ["scale_f16"; "quants_i8"]
  | GgufType.Q8_1 => ["scale_f16"; "sum_f16"; "quants_i8"]
  | GgufType.Q2_K => ["scales_and_mins_u4"; "quants_u2"; "scale_min_f16"]
  | GgufType.Q3_K => ["high_bits"; "quants_u2"; "scales_u6"; "scale_f16"]
  | GgufType.Q4_K => ["scale_min_f16"; "scales_and_mins_u6"; "quants_u4"]
  | GgufType.Q5_K => ["scale_min_f16"; "scales_and_mins_u6"; "high_bits"; "quants_u4"]
  | GgufType.Q6_K => ["quants_low_u4"; "quants_high_u2"; "scales_i8"; "scale_f16"]
  | GgufType.Q8_K => ["scale_f32"; "quants_i8"; "block_sums_i16"]
  | GgufType.IQ2_XXS => ["scale_f16"; "grid_indices_and_signs_u16"]
  | GgufType.IQ2_XS => ["scale_f16"; "grid_indices_and_signs_u16"; "scales_u8"]
  | GgufType.IQ3_XXS => ["scale_f16"; "grid_indices_and_signs_u8"]
  | GgufType.IQ1_S => ["scale_f16"; "grid_indices_u8"; "high_bits_and_delta_u16"]
  | GgufType.IQ4_NL => ["scale_f16"; "nonlinear_quants_u4"]
  | GgufType.IQ3_S =>
      ["scale_f16"; "grid_indices_low_u8"; "grid_indices_high_u8"; "signs_u8"; "scales_u8"]
  | GgufType.IQ2_S =>
      ["scale_f16"; "grid_indices_low_u8"; "grid_indices_high_u8"; "scales_u8"]
  | GgufType.IQ4_XS => ["scale_f16"; "scales_high_u16"; "scales_low_u8"; "nonlinear_quants_u4"]
  | GgufType.IQ1_M => ["grid_indices_u8"; "high_bits_and_delta_u8"; "scales_u8"]
  | GgufType.TQ1_0 => ["scale_f16"; "block_scales_u8"; "ternary_quants_base3"]
  | GgufType.TQ2_0 => ["scale_f16"; "ternary_quants_u2"]
  | GgufType.MXFP4 => ["e8m0_scale_u8"; "mxfp4_quants_u4"]
  | _ => []
  end.

Definition layout_storage_type (name : string) : StorageElementType :=
  if ends_with "f16" name then Scalar F16
  else if ends_with "f32" name then Scalar F32
  else if ends_with "i8" name then Scalar I8
  else if ends_with "i16" name then Scalar I16
  else if ends_with "u8" name then Scalar U8
  else if ends_with "u16" name then Scalar U16
  else OpaqueElement (String.append "packed." name).

(** The mapping closure of [block_layout] with its running [u32] offset. *)
Fixpoint layout_fields (offset : Z) (fields : list (string * Z)) : list BlockLayoutField * Z :=
  match fields with
  | [] => ([], offset)
  | (name, byte_length) :: fields =>
      let field :=
        {| bl_name := name; bl_byte_offset := offset; bl_byte_length := byte_length;
           bl_storage_type := layout_storage_type name |} in
      let '(l, total) := layout_fields (wrap32 (offset + byte_length)) fields in
      (field :: l, total)
  end.

Definition block_layout (ty : GgufType.t) : Result (list BlockLayoutField) :=
  let names := layout_components ty in
  let lengths := layout_byte_lengths ty in
  _ ← ensure (bool_decide (length names = length lengths))
        (internal (Format "GGUF {} layout name/length count mismatch" [AStr (GgufType.name ty)]));
  let '(layout, offset) := layout_fields 0 (zip names lengths) in
  _ ← ensure (bool_decide (Some offset = GgufType.type_size ty))
        (internal (Format "GGUF {} layout totals {offset} bytes, expected {:?}"
           [AStr (GgufType.name ty); AInt offset;
            AInts (option_list (GgufType.type_size ty))]));
  Ok layout.

Section Convention.
Context {SJ : SerdeJson}.

Definition entry_gguf_type (entry : RawTensorEntry) : Result GgufType.t :=
  code ← ok_or (v ← re_metadata entry !! "gguf.type_code"; as_u64 v)
    (UnsupportedEncoding
      {| ue_message := lit "missing gguf.type_code on tensor entry";
         ue_key := Some (re_key entry); ue_codec := None; ue_codec_version := None;
         ue_expected := Some (lit "known GGUF ggml_type"); ue_actual := None |});
  GgufType.from_u32 (wrap32 code).

Definition physical_encoding (ty : GgufType.t) : Result (PhysicalEncoding * ScalarType) :=
  let scalar :=
    match ty with
    | GgufType.F32 => Some F32
    | GgufType.F16 => Some F16
    | GgufType.BF16 => Some Bf16
    | GgufType.F64 => Some F64
    | GgufType.I8 => Some I8
    | GgufType.I16 => Some I16
    | GgufType.I32 => Some I32
    | GgufType.I64 => Some I64
    | _ => None
    end in
  match scalar with
  | Some scalar => Ok (plain scalar, scalar)
  | None =>
      block ← ok_or (GgufType.block_size ty)
        (UnsupportedEncoding
          {| ue_message := Format "GGUF type {} has no block layout" [AStr (GgufType.name ty)];
             ue_key := None;
             ue_codec := Some (Format "gguf.{}" [AStr (GgufType.name ty)]);
             ue_codec_version := Some 1;
             ue_expected := Some (lit "registered scalar or block layout");
             ue_actual := Some (lit (GgufType.name ty)) |});
      bytes_per_block ← ok_or (GgufType.type_size ty)
        (UnsupportedEncoding
          {| ue_message := Format "GGUF type {} has no byte size" [AStr (GgufType.name ty)];
             ue_key := None;
             ue_codec := Some (Format "gguf.{}" [AStr (GgufType.name ty)]);
             ue_codec_version := Some 1;
             ue_expected := Some (lit "registered block byte size");
             ue_actual := None |});
      layout ← block_layout ty;
      Ok (BlockQuantized F16 [wrap32 block] (wrap32 bytes_per_block)
            (String.append "gguf." (GgufType.name ty)) 1 (layout_components ty) layout
            RowMajor Little,
          F16)
  end.

Definition metadata_renames : list (string * string) :=
  [("block_count", "num_layers");
   ("embedding_length", "hidden_size");
   ("feed_forward_length", "intermediate_size");
   ("attention.head_count", "num_heads");
   ("attention.head_count_kv", "num_kv_heads");
   ("attention.key_length", "head_dim");
   ("context_length", "context_length");
   ("attention.layer_norm_rms_epsilon", "rms_norm_eps");
   ("rope.freq_base", "rope_theta")].

(** [format!("{architecture}.{suffix}")]. *)
Definition dotted (architecture suffix : string) : string :=
  String.append architecture (String.append "." suffix).

Definition rename_step (metadata : MetadataMap) (architecture : string)
    (normalized : MetadataMap) (r : string * string) : MetadataMap :=
  match metadata !! dotted architecture r.1 with
  | Some value => <[r.2 := value]> normalized
  | None => normalized
  end.

Definition normalized_metadata (metadata : MetadataMap) : MetadataMap :=
  let architecture := v ← metadata !! "general.architecture"; as_str v in
  let normalized :=
    match architecture with
    | Some architecture =>
        let n := <["model_type" := value_string architecture]> metadata in
        let n := foldl (rename_step metadata architecture) n metadata_renames in
        match n !! "head_dim" with
        | None =>
            match metadata !! dotted architecture "rope.dimension_count" with
            | Some value => <["head_dim" := value]> n
            | None => n
            end
        | Some _ => n
        end
    | None => metadata
    end in
  match (v ← metadata !! "tokenizer.ggml.tokens"; as_array v) with
  | Some tokens => <["vocab_size" := value_u64 (Z.of_nat (length tokens))]> normalized
  | None => normalized
  end.

Definition gguf_convention_id : string := "gguf.mixed".

Definition gguf_match_score (index : RawCheckpointIndex) (context : DecodeContext)
    : Result MatchScore :=
  if negb (String.eqb (ci_format_id (ix_container index)) "gguf")
     || bool_decide (ix_entries index = [])
  then Ok MATCH_NONE
  else Ok {| ms_score := 100 |}.

Definition gguf_decode_entry (entry : RawTensorEntry) : Result LogicalParameter :=
  gguf_type ← entry_gguf_type entry;
  '(encoding, logical_type) ← physical_encoding gguf_type;
  Ok {| lp_canonical_name := re_key entry;
        lp_role := infer_role (re_key entry);
        lp_logical_type :=
          {| lt_shape := re_shape entry; lt_element_type := logical_type |};
        lp_encoding := encoding;
        lp_components :=
          [{| sc_name := "data"; sc_key := re_key entry;
              sc_source_file_index := re_source_file_index entry;
              sc_shape := re_shape entry;
              sc_storage_type := re_storage_type entry;
              sc_byte_ranges := re_byte_ranges entry;
              sc_alignment := re_alignment entry;
              sc_endianness := Little |}];
        lp_aliases := [re_key entry] |}.

Definition gguf_decode (index : RawCheckpointIndex) (context : DecodeContext)
    : Result ParameterCatalog :=
  parameters ← try_map gguf_decode_entry (ix_entries index);
  Ok {| pcat_convention_id := gguf_convention_id;
        pcat_parameters := parameters;
        pcat_metadata := normalized_metadata (ix_metadata index) |}.

Definition GgufMixedConvention : CheckpointConventionDecoder := {|
  cd_convention_id := gguf_convention_id;
  cd_match_score := gguf_match_score;
  cd_decode := gguf_decode;
|}.

(** ** What a layout is to be *)

(** The fields tile [[start, start + total)] without gap or overlap. *)
Fixpoint tiles (start total : Z) (l : list BlockLayoutField) : Prop :=
  match l with
  | [] => total = 0
  | f :: l =>
      bl_byte_offset f = start /\ 0 < bl_byte_length f /\
      tiles (start + bl_byte_length f) (total - bl_byte_length f) l
  end.

(** The components a parameter takes from its index entry. *)
Definition decodes_entry (ty : GgufType.t) (e : RawTensorEntry) (p : LogicalParameter) : Prop :=
  physical_encoding ty = Ok (lp_encoding p, lt_element_type (lp_logical_type p)) /\
  lp_canonical_name p = re_key e /\ lt_shape (lp_logical_type p) = re_shape e /\
  exists c, lp_components p = [c] /\ sc_key c = re_key e /\
    sc_byte_ranges c = re_byte_ranges e /\ sc_alignment c = re_alignment e.

(** The metadata keys [normalized_metadata] may write. *)
Definition normalized_keys : list string :=
  "model_type" :: "vocab_size" :: map snd metadata_renames.

(** ** Lemmas *)

Lemma physical_encoding_Ok ty : exists enc st, physical_encoding ty = Ok (enc, st).
Proof. destruct ty; eexists _, _; vm_compute; reflexivity. Qed.

Lemma entry_gguf_type_Ok e ty :
  re_metadata e !! "gguf.type_code" = Some (value_u64 (GgufType.as_u32 ty)) ->
  entry_gguf_type e = Ok ty.
Proof.
  intros Hcode. pose proof (GgufType.as_u32_range ty) as Hr. unfold is_u32, u32_max in Hr.
  unfold entry_gguf_type. rewrite Hcode. cbn.
  rewrite as_u64_value by (unfold is_u64, u64_max; lia). cbn.
  unfold wrap32. rewrite Z.mod_small by lia. by destruct ty.
Qed.

Lemma gguf_decode_entry_Ok e ty :
  re_metadata e !! "gguf.type_code" = Some (value_u64 (GgufType.as_u32 ty)) ->
  exists p, gguf_decode_entry e = Ok p /\ decodes_entry ty e p.
Proof.
  intros Hcode. destruct (physical_encoding_Ok ty) as (enc & st & Henc).
  pose proof (entry_gguf_type_Ok e ty Hcode) as Hty.
  unfold gguf_decode_entry. rewrite Hty. cbn. rewrite Henc. cbn.
  eexists; split; [done|]. unfold decodes_entry. cbn. rewrite Henc.
  repeat split. by eexists.
Qed.

Lemma rename_step_other metadata architecture n r k :
  k <> r.2 -> rename_step metadata architecture n r !! k = n !! k.
Proof. intros Hk. unfold rename_step. case_match; [by apply lookup_insert_ne|done]. Qed.

Lemma renames_other metadata architecture rs n k :
  k ∉ map snd rs -> foldl (rename_step metadata architecture) n rs !! k = n !! k.
Proof.
  revert n. induction rs as [|r rs IH]; intros n; [done|]. cbn [map foldl]. intros Hk.
  apply not_elem_of_cons in Hk as [Hk Hk']. rewrite IH by done. by apply rename_step_other.
Qed.

Lemma renames_target metadata architecture rs n src dst v :
  NoDup (map snd rs) -> (src, dst) ∈ rs -> metadata !! dotted architecture src = Some v ->
  foldl (rename_step metadata architecture) n rs !! dst = Some v.
Proof.
  intros Hnd Hin Hv. revert n. induction rs as [|r rs IH]; intros n.
  { by apply not_elem_of_nil in Hin. }
  cbn [map foldl] in *. apply NoDup_cons in Hnd as [Hr Hnd].
  apply elem_of_cons in Hin as [<-|Hin]; [|by apply IH].
  cbn in Hr. rewrite renames_other by done. unfold rename_step. cbn. rewrite Hv.
  apply lookup_insert_eq.
Qed.

(** ** Properties *)

(** Every block-quantised type has a layout, and its fields tile the block
    exactly: contiguous from byte zero, non-empty, with distinct names, adding
    up to the bytes of a block. *)
Theorem block_layout_tiles ty b :
  GgufType.block_size ty = Some b ->
  exists layout size, block_layout ty = Ok layout /\ GgufType.type_size ty = Some size /\
    tiles 0 size layout /\ NoDup (bl_name <$> layout).
Proof.
  intros Hb. destruct ty; try discriminate Hb; eexists _, _;
    (split; [vm_compute; reflexivity|]); (split; [reflexivity|]);
    (split; [repeat split; vm_compute; reflexivity|apply NoDup_eval; reflexivity]).
Qed.

(** The convention decodes whatever the GGUF indexer returns: one
    parameter per entry, in order, with the entry's name, shape, byte ranges
    and alignment and with the encoding of the entry's type. *)
Theorem gguf_decode_index `{LE : LittleEndian} `{RS : RandomAccessSource Src}
    stack (source : Src) limits idx ctx :
  src_len source <= 2 ^ 63 -> gguf_index stack source limits = Ok idx ->
  exists cat, gguf_decode idx ctx = Ok cat /\
    Forall2 (fun e p => exists ty, decodes_entry ty e p /\
                          GgufType.nbytes_for_shape ty (re_shape e) =
                            Ok (foldr Z.add 0 (br_length <$> re_byte_ranges e)))
      (ix_entries idx) (pcat_parameters cat).
Proof.
  intros Hlen H. apply gguf_index_entries in H as (He & _ & _); [|done].
  unfold gguf_decode. induction He as [|e es Hok _ (cat & IHc & IHf)]; cbn [try_map].
  { eexists; split; [done|constructor]. }
  destruct Hok as (ty & off & n & Hr & _ & _ & _ & Hn & _ & Hcode & _).
  destruct (gguf_decode_entry_Ok e ty Hcode) as (p & Hp & Hd).
  apply bind_Ok in IHc as (ps & Hps & [= <-]).
  rewrite Hp; cbn. rewrite Hps; cbn. eexists; split; [done|].
  constructor; [|done]. exists ty. split; [done|]. rewrite Hr, Hn. cbn. f_equal. lia.
Qed.

(** Normalisation keeps every key it does not define and copies the
    architecture's own hyperparameters to their generic names. *)
Theorem normalized_metadata_spec metadata arch k src dst v :
  metadata !! "general.architecture" = Some (value_string arch) ->
  (k ∉ normalized_keys -> normalized_metadata metadata !! k = metadata !! k) /\
  normalized_metadata metadata !! "model_type" = Some (value_string arch) /\
  ((src, dst) ∈ metadata_renames -> metadata !! dotted arch src = Some v ->
   normalized_metadata metadata !! dst = Some v).
Proof.
  intros Harch. unfold normalized_metadata. rewrite Harch. cbn [mbind option_bind].
  rewrite as_str_value.
  set (base := <["model_type" := value_string arch]> metadata).
  set (n := foldl _ base _).
  set (n' := match n !! "head_dim" with None => _ | Some _ => n end).
  assert (Hn' : forall k, k <> "head_dim" \/ is_Some (n !! k) -> n' !! k = n !! k).
  { intros k' Hk. unfold n'. destruct (n !! "head_dim") eqn:E; [done|].
    case_match; [|done]. apply lookup_insert_ne. intros <-.
    destruct Hk as [Hk|[x Hk]]; congruence. }
  assert (Hv : forall (o : option (list Value)) (m : MetadataMap) k', k' <> "vocab_size" ->
    (match o with
     | Some tokens => <["vocab_size" := value_u64 (Z.of_nat (length tokens))]> m
     | None => m end) !! k' = m !! k').
  { intros o m k' Hk'. case_match; [by apply lookup_insert_ne|done]. }
  split; [|split].
  - unfold normalized_keys. cbn [map]. rewrite !not_elem_of_cons. intros (Hm & Hvk & Hk).
    rewrite Hv, Hn' by (try done; left; set_solver).
    unfold n. rewrite renames_other by set_solver. by apply lookup_insert_ne.
  - rewrite Hv, Hn' by (try done; by left). unfold n.
    rewrite renames_other by (apply (bool_decide_unpack _); vm_compute; exact I).
    apply lookup_insert_eq.
  - intros Hin Hsrc.
    assert (Hd : n !! dst = Some v).
    { eapply renames_target; [apply NoDup_eval; reflexivity|done|done]. }
    rewrite Hv, Hn'; [done|right; by eexists|].
    intros ->. cbn in Hin. set_solver.
Qed.

End Convention.
(** ** Witnesses *)

Lemma block_layout_tiles_witness :
  GgufType.block_size GgufType.Q5_K = Some 256 /\
  exists layout size, block_layout GgufType.Q5_K = Ok layout /\
    GgufType.type_size GgufType.Q5_K = Some size /\
    tiles 0 size layout /\ NoDup (bl_name <$> layout).
Proof. split; [reflexivity|]. by apply (block_layout_tiles GgufType.Q5_K 256). Defined.

Definition sample_context : DecodeContext :=
  {| dc_architecture_hint := None; dc_overrides := ∅ |}.

Lemma gguf_decode_index_witness :
  gguf_index 3 sample_source InspectionLimits_default = Ok sample_index /\
  exists cat, gguf_decode sample_index sample_context = Ok cat.
Proof.
  assert (H : gguf_index 3 sample_source InspectionLimits_default = Ok sample_index)
    by by_vm.
  split; [exact H|].
  assert (Hlen : src_len sample_source <= 2 ^ 63) by (vm_compute; discriminate).
  destruct (gguf_decode_index 3 sample_source InspectionLimits_default sample_index
    sample_context Hlen H) as (cat & Hcat & _).
  by exists cat.
Defined.

Definition sample_metadata : MetadataMap :=
  <["general.architecture" := value_string "llama"]>
  (<["llama.block_count" := value_u64 4]> ∅).

Lemma normalized_metadata_spec_witness :
  sample_metadata !! "general.architecture" = Some (value_string "llama") /\
  normalized_metadata sample_metadata !! "num_layers" = Some (value_u64 4).
Proof.
  split; [reflexivity|].
  eapply (normalized_metadata_spec sample_metadata "llama" "x" "block_count");
    [reflexivity|by left|reflexivity].
Defined.
