(* ===== verification/Paths.v ===== *)
(** * Unix paths, as std::path reads them

    A path is the string it was made from.  [components] follows
    [Path::components]: a leading separator is the root, empty segments and
    [.] segments after the first are skipped, [..] is kept. *)
From S2P Require Import Prelude.
From Stdlib Require Import ZArith Lia Ascii String.
From stdpp Require Import base list strings.
From stdpp Require Import options.

Inductive Component : Type :=
  | RootDir | CurDir | ParentDir | Normal (name : string).
#[export] Instance Component_eq_dec : EqDecision Component.
Proof. solve_decision. Defined.

(** The segments of [s] between the separators. *)
Fixpoint segments (s : string) : list string :=
  match s with
  | EmptyString => [EmptyString]
  | String a s =>
      if Ascii.eqb a "/" then EmptyString :: segments s
      else match segments s with
           | x :: l => String a x :: l
           | [] => [String a EmptyString]
           end
  end.

Definition segment_component (x : string) : option Component :=
  if String.eqb x EmptyString || String.eqb x "." then None
  else if String.eqb x ".." then Some ParentDir
  else Some (Normal x).

Definition is_absolute (s : string) : bool := starts_with "/" s.

Definition components (s : string) : list Component :=
  match segments s with
  | [] => []
  | x :: l =>
      (if is_absolute s then [RootDir]
       else if String.eqb x "." then [CurDir]
       else option_list (segment_component x))
      ++ omap segment_component l
  end.

(** [path.file_name()]. *)
Definition file_name (s : string) : option string :=
  match last (components s) with
  | Some (Normal x) => Some x
  | _ => None
  end.

(** [rsplit_once c x]: the parts around the last [c]. *)
Fixpoint rsplit_once (c : ascii) (s : string) : option (string * string) :=
  match s with
  | EmptyString => None
  | String a s' =>
      match rsplit_once c s' with
      | Some (x, y) => Some (String a x, y)
      | None => if Ascii.eqb a c then Some (EmptyString, s') else None
      end
  end.

(** [path.extension()]: what follows the last dot of the file name, when
    something precedes that dot. *)
Definition extension (s : string) : option string :=
  x ← file_name s;
  '(stem, ext) ← rsplit_once "." x;
  if String.eqb stem EmptyString then None else Some ext.

Definition skipped (x : string) : bool :=
  match segment_component x with None => true | Some _ => false end.

(** Segments without the ones a path ends in that name nothing. *)
Fixpoint trim_segments (l : list string) : list string :=
  match l with
  | [] => []
  | x :: l =>
      match trim_segments l with
      | [] => if skipped x then [] else [x]
      | l' => x :: l'
      end
  end.

(** As [trim_segments], keeping a leading [.] of a relative path. *)
Definition trim_relative (l : list string) : list string :=
  match l with
  | [] => []
  | x :: l =>
      if String.eqb x "." then x :: trim_segments l else trim_segments (x :: l)
  end.

Fixpoint join_segments (l : list string) : string :=
  match l with
  | [] => EmptyString
  | [x] => x
  | x :: l => String.append x (String "/" (join_segments l))
  end.

(** [path.parent()]. *)
Definition parent (s : string) : option string :=
  if is_absolute s then
    match trim_segments (tail (segments s)) with
    | [] => None
    | l => Some (String "/" (join_segments (trim_segments (removelast l))))
    end
  else
    match trim_relative (segments s) with
    | [] => None
    | l => Some (join_segments (trim_relative (removelast l)))
    end.

(** [base.join(name)]. *)
Definition path_join (base name : string) : string :=
  if is_absolute name then name
  else if String.eqb base EmptyString || ends_with "/" base then String.append base name
  else String.append base (String "/" name).

(** ** Examples *)

Example parent_examples :
  parent "dir/model.safetensors" = Some "dir" /\ parent "/a" = Some "/" /\
  parent "a/./b" = Some "a" /\ parent "a" = Some EmptyString /\
  parent "/" = None /\ parent EmptyString = None /\ parent "./a/" = Some ".".
Proof. repeat split. Qed.

Example components_examples :
  components "../a" = [ParentDir; Normal "a"] /\ components "a//b/." = [Normal "a"; Normal "b"]
  /\ components "./a" = [CurDir; Normal "a"] /\ components EmptyString = []
  /\ extension "x/a.safetensors" = Some "safetensors" /\ extension ".safetensors" = None.
Proof. repeat split. Qed.

(** ** Lemmas *)

Definition is_normal (c : Component) : bool := match c with Normal _ => true | _ => false end.

(** Joining a relative name appends it to the directory. *)
Lemma join_relative base name :
  is_absolute name = false -> exists sep, path_join base name = String.append base (String.append sep name).
Proof.
  intros H. unfold path_join. rewrite H. case_match; [by exists EmptyString|by exists "/"].
Qed.

(** ** File names *)

Fixpoint has_slash (s : string) : bool :=
  match s with
  | EmptyString => false
  | String a s => Ascii.eqb a "/" || has_slash s
  end.

Lemma is_absolute_inv s : is_absolute s = true -> exists r, s = String "/" r.
Proof.
  unfold is_absolute, starts_with. destruct (Prelude.strip_prefix "/" s) as [r|] eqn:E; [|done].
  intros _. apply Prelude.strip_prefix_Some in E. by exists r.
Qed.

Lemma segments_not_nil s : segments s <> [].
Proof. destruct s as [|a s]; [done|]. cbn. case_match; [done|]. by case_match. Qed.

Lemma segments_plain s : has_slash s = false -> segments s = [s].
Proof.
  induction s as [|a s IH]; [done|]. cbn. intros [Ha Hs]%orb_false_iff. by rewrite Ha, IH.
Qed.

Lemma segments_slash base s : segments (String.append base (String "/" s)) = segments base ++ segments s.
Proof.
  induction base as [|a base IH]; [done|]. rewrite append_String. cbn [segments].
  case_match; [by rewrite IH|]. rewrite IH.
  destruct (segments base) as [|x l] eqn:E; [by destruct (segments_not_nil base)|done].
Qed.

(** A path that ends in a separator has an empty last segment. *)
Lemma segments_ends base :
  ends_with "/" base = true -> exists l, segments base = l ++ [EmptyString].
Proof.
  unfold ends_with. destruct (Prelude.strip_suffix "/" base) as [r|] eqn:E; [|done]. intros _.
  apply Prelude.strip_suffix_Some in E as ->. exists (segments r).
  by rewrite (segments_slash r EmptyString).
Qed.

Lemma segments_append_ends base l s :
  segments base = l ++ [EmptyString] -> has_slash s = false ->
  segments (String.append base s) = l ++ [s].
Proof.
  revert l. induction base as [|a base IH]; intros l H Hs.
  - cbn in H. destruct l as [|x [|y l]]; [|done..]. cbn. by apply segments_plain.
  - rewrite append_String. cbn [segments] in *. destruct (Ascii.eqb a "/").
    + destruct l as [|x l]; [by injection H as ?%segments_not_nil|]. injection H as <- H.
      by rewrite (IH l).
    + destruct (segments base) as [|x k] eqn:E; [by destruct (segments_not_nil base)|].
      destruct l as [|y l]; [done|]. injection H as <- H.
      rewrite (IH (x :: l)) by (done || by rewrite H). done.
Qed.

(** The last segment of a joined path is the joined name. *)
Lemma segments_join base name :
  has_slash name = false -> exists l, segments (path_join base name) = l ++ [name].
Proof.
  intros Hn. unfold path_join.
  assert (is_absolute name = false) as ->.
  { apply not_true_iff_false. intros [r ->]%is_absolute_inv. done. }
  destruct (String.eqb_spec base EmptyString) as [->|Hb]; cbn [orb].
  { exists []. by apply segments_plain. }
  destruct (ends_with "/" base) eqn:E.
  - apply segments_ends in E as [l Hl]. exists l. by apply segments_append_ends.
  - exists (segments base). rewrite segments_slash. by rewrite (segments_plain name).
Qed.

Lemma last_omap_snoc {A B} (f : A -> option B) l x y : f x = Some y -> last (omap f (l ++ [x])) = Some y.
Proof. intros H. rewrite omap_app. cbn. rewrite H. apply last_snoc. Qed.

Lemma last_app_r {A} (l k : list A) x : last k = Some x -> last (l ++ k) = Some x.
Proof. intros H. rewrite last_app, H. done. Qed.

Lemma file_name_join base name :
  has_slash name = false -> segment_component name = Some (Normal name) ->
  file_name (path_join base name) = Some name.
Proof.
  intros Hn Hc. destruct (segments_join base name Hn) as [l Hl]. unfold file_name, components.
  rewrite Hl. destruct l as [|x l]; cbn [app].
  - assert (Ha : is_absolute (path_join base name) = false).
    { apply not_true_iff_false. intros [r E]%is_absolute_inv. rewrite E in Hl. cbn in Hl.
      by injection Hl as _ ?%segments_not_nil. }
    rewrite Ha. rewrite Hc.
    destruct (String.eqb_spec name ".") as [->|_]; [done|]. done.
  - destruct (omap segment_component (l ++ [name])) eqn:E.
    { assert (H := last_omap_snoc segment_component l name _ Hc). by rewrite E in H. }
    rewrite <-E, (last_app_r _ _ (Normal name)); [done|]. by apply last_omap_snoc.
Qed.

Lemma segments_no_slash s x : x ∈ segments s -> has_slash x = false.
Proof.
  revert x. induction s as [|a s IH]; intros x; cbn [segments].
  { intros ->%list_elem_of_singleton. done. }
  destruct (Ascii.eqb a "/") eqn:Ea.
  { intros [->|H]%elem_of_cons; [done|by apply IH]. }
  destruct (segments s) as [|y l] eqn:E; [by destruct (segments_not_nil s)|].
  intros [->|H]%elem_of_cons; [|apply IH; by right].
  cbn. rewrite Ea. apply IH. by left.
Qed.

Lemma file_name_no_slash s x : file_name s = Some x -> has_slash x = false.
Proof.
  unfold file_name. destruct (last (components s)) as [[| | |y]|] eqn:E; try done. intros [= <-].
  apply last_Some_elem_of in E. apply (segments_no_slash s).
  assert (Hseg : forall z, segment_component z = Some (Normal y) -> z = y).
  { unfold segment_component. intros z. repeat case_match; congruence. }
  unfold components in E. destruct (segments s) as [|z l]; [by apply elem_of_nil in E|].
  apply elem_of_app in E as [E|E].
  - destruct (is_absolute s); [by apply list_elem_of_singleton in E|].
    destruct (String.eqb z "."); [by apply list_elem_of_singleton in E|].
    destruct (segment_component z) eqn:Ez; [|by apply elem_of_nil in E].
    cbn in E. apply list_elem_of_singleton in E as <-. rewrite (Hseg z Ez). by left.
  - apply list_elem_of_omap in E as (u & Hu & E). apply Hseg in E as ->. by right.
Qed.

Lemma has_slash_append s t : has_slash (String.append s t) = has_slash s || has_slash t.
Proof. induction s as [|a s IH]; [done|]. rewrite append_String. cbn. by rewrite IH, orb_assoc. Qed.

Lemma segment_component_long x : (2 < String.length x)%nat -> segment_component x = Some (Normal x).
Proof.
  unfold segment_component. intros H.
  destruct (String.eqb_spec x EmptyString) as [->|_]; [cbn in H; lia|].
  destruct (String.eqb_spec x ".") as [->|_]; [cbn in H; lia|].
  destruct (String.eqb_spec x "..") as [->|_]; [cbn in H; lia|]. done.
Qed.
