(* ===== verification/Names.v ===== *)
(** * Parameter names: hf_names.rs of crates/dyninfer-checkpoint-safetensors,
    naming.rs, remapping.rs and the name map of models/lfm2.rs of
    crates/dyninfer-architecture

    The maps from Hugging Face keys to canonical (GGUF-style) names, the tie
    of the output projection to the embedding and the table from model types
    to architecture ids. *)
From S2P Require Import Prelude Strings Errors Serde CoreTypes Catalog.
From Stdlib Require Import ZArith Lia Ascii String.
From stdpp Require Import base list strings gmap pretty.
From stdpp Require Import options.
Import Json.

Local Open Scope Z_scope.

(** [format!("{n}")] of an unsigned integer. *)
Definition decimal (n : Z) : string := pretty (Z.to_N n).

(** ** Rotary caches, which are no weights *)

Definition is_rope_cache (key : string) : bool :=
  contains "rotary_emb" key || ends_with ".inv_freq" key.

(** ** Hugging Face keys *)

Definition hf_suffixes : list (string * string) :=
  [("input_layernorm.weight", "attn_norm.weight");
   ("post_attention_layernorm.weight", "ffn_norm.weight");
   ("self_attn.q_proj.weight", "attn_q.weight");
   ("self_attn.k_proj.weight", "attn_k.weight");
   ("self_attn.v_proj.weight", "attn_v.weight");
   ("self_attn.o_proj.weight", "attn_output.weight");
   ("self_attn.q_norm.weight", "attn_q_norm.weight");
   ("self_attn.k_norm.weight", "attn_k_norm.weight");
   ("mlp.gate_proj.weight", "ffn_gate.weight");
   ("mlp.up_proj.weight", "ffn_up.weight");
   ("mlp.down_proj.weight", "ffn_down.weight")].

(** The arms of a [match] on string literals. *)
Definition match_arms (arms : list (string * string)) (s : string) : option string :=
  snd <$> List.find (fun arm => String.eqb arm.1 s) arms.

(** [format!("blk.{layer}.{canonical_suffix}")]. *)
Definition blk_name (layer : Z) (canonical_suffix : string) : string :=
  String.append "blk." (String.append (decimal layer) (String "." canonical_suffix)).

Definition try_hf_remap (key : string) : option string :=
  if String.eqb key "model.embed_tokens.weight" || String.eqb key "embed_tokens.weight"
  then Some "token_embd.weight"
  else if String.eqb key "model.norm.weight" || String.eqb key "norm.weight"
  then Some "output_norm.weight"
  else if String.eqb key "lm_head.weight" then Some "output.weight"
  else
    rest ← match Prelude.strip_prefix "model.layers." key with
           | Some rest => Some rest
           | None => Prelude.strip_prefix "layers." key
           end;
    '(idx_str, suffix) ← split_once "." rest;
    layer ← parse_u32 idx_str;
    canonical_suffix ← match_arms hf_suffixes suffix;
    Some (blk_name layer canonical_suffix).

Definition canonicalize_hf_family (key : string) : option string :=
  if is_rope_cache key then None
  else match try_hf_remap key with
       | Some mapped => Some mapped
       | None => Some key
       end.

(** hf_names.rs: the same table, without the fallback. *)
Definition hf_to_canonical (key : string) : option string :=
  if is_rope_cache key then None else try_hf_remap key.

Definition looks_like_hf_llama (key : string) : bool :=
  starts_with "model." key || String.eqb key "lm_head.weight" || contains "rotary_emb" key.

(** ** LFM2 keys *)

Definition lfm2_names : list (string * string) :=
  [("model.embed_tokens.weight", "token_embd.weight");
   ("model.embedding_norm.weight", "output_norm.weight");
   ("lm_head.weight", "output.weight")].

Definition lfm2_suffixes : list (string * string) :=
  [("operator_norm.weight", "attn_norm.weight");
   ("ffn_norm.weight", "ffn_norm.weight");
   ("feed_forward.w1.weight", "ffn_gate.weight");
   ("feed_forward.w3.weight", "ffn_up.weight");
   ("feed_forward.w2.weight", "ffn_down.weight");
   ("self_attn.q_proj.weight", "attn_q.weight");
   ("self_attn.k_proj.weight", "attn_k.weight");
   ("self_attn.v_proj.weight", "attn_v.weight");
   ("self_attn.out_proj.weight", "attn_output.weight");
   ("self_attn.q_layernorm.weight", "attn_q_norm.weight");
   ("self_attn.k_layernorm.weight", "attn_k_norm.weight");
   ("conv.in_proj.weight", "shortconv.in_proj.weight");
   ("conv.conv.weight", "shortconv.conv.weight");
   ("conv.out_proj.weight", "shortconv.out_proj.weight")].

Definition canonicalize_lfm2 (key : string) : option string :=
  if is_rope_cache key then None
  else match match_arms lfm2_names key with
  | Some name => Some name
  | None =>
      match Prelude.strip_prefix "model.layers." key with
      | None => Some key
      | Some rest =>
          match split_once "." rest with
          | None => Some key
          | Some (index, suffix) =>
              match parse_u32 index with
              | None => Some key
              | Some layer =>
                  match match_arms lfm2_suffixes suffix with
                  | None => Some key
                  | Some canonical_suffix => Some (blk_name layer canonical_suffix)
                  end
              end
          end
      end
  end.

(** ** Tied embeddings *)

Section Tie.
Context {SJ : SerdeJson}.

Definition named (name : string) (p : LogicalParameter) : bool :=
  String.eqb (lp_canonical_name p) name.

Definition tied_output (emb : LogicalParameter) : LogicalParameter :=
  {| lp_canonical_name := "output.weight";
     lp_role := Output;
     lp_logical_type := lp_logical_type emb;
     lp_encoding := lp_encoding emb;
     lp_components := lp_components emb;
     lp_aliases := lp_aliases emb ++ ["output.weight"; "lm_head.weight"] |}.

Definition tie_output_to_embed (catalog : ParameterCatalog) : ParameterCatalog :=
  if existsb (named "output.weight") (pcat_parameters catalog) then catalog
  else match List.find (named "token_embd.weight") (pcat_parameters catalog) with
  | None => catalog
  | Some emb =>
      {| pcat_convention_id := pcat_convention_id catalog;
         pcat_parameters := pcat_parameters catalog ++ [tied_output emb];
         pcat_metadata := or_insert (pcat_metadata catalog) "tie_word_embeddings" (value_bool true) |}
  end.

End Tie.

(** ** Model types: remapping.rs *)

Definition MODEL_REMAPPING : list (string * string) :=
  [("llama", "llama"); ("mistral", "llama"); ("LlamaForCausalLM", "llama");
   ("MistralForCausalLM", "llama"); ("qwen3", "qwen3"); ("Qwen3ForCausalLM", "qwen3");
   ("lfm2", "lfm2"); ("Lfm2ForCausalLM", "lfm2")].

Definition architecture_id_for_stem (stem : string) : option string :=
  match_arms [("llama", "llama.decoder"); ("qwen3", "qwen3.decoder"); ("lfm2", "lfm2.hybrid")] stem.

Definition eq_ignore_ascii_case (a b : string) : bool :=
  String.eqb (to_ascii_lowercase a) (to_ascii_lowercase b).

Definition remapped_stem (mt : string) : option string :=
  snd <$> List.find (fun kv => eq_ignore_ascii_case kv.1 mt) MODEL_REMAPPING.

Definition remap_model_type (model_type : string) : option string :=
  let mt := trim model_type in
  if String.eqb mt EmptyString then None
  else
    let stem :=
      match remapped_stem mt with
      | Some stem => stem
      | None =>
          match (s ← Prelude.strip_suffix "ForCausalLM" mt; remapped_stem (to_ascii_lowercase s)) with
          | Some stem => stem
          | None => mt
          end
      end in
    match architecture_id_for_stem stem with
    | Some id => Some id
    | None => architecture_id_for_stem (to_ascii_lowercase stem)
    end.

(** ** Decimal numerals *)

Fixpoint all_digits (s : string) : bool :=
  match s with
  | EmptyString => true
  | String a s => match digit_value a with Some _ => all_digits s | None => false end
  end.

Fixpoint no_digits (s : string) : bool :=
  match s with
  | EmptyString => true
  | String a s => match digit_value a with Some _ => false | None => no_digits s end
  end.

Lemma digit_pretty_N_char d : (d < 10)%N -> digit_value (pretty_N_char d) = Some (Z.of_N d).
Proof.
  intros Hd. assert (d = 0 \/ d = 1 \/ d = 2 \/ d = 3 \/ d = 4 \/ d = 5 \/ d = 6 \/ d = 7
    \/ d = 8 \/ d = 9)%N as Hc by lia.
  repeat destruct Hc as [->|Hc]; [reflexivity..|]. by rewrite Hc.
Qed.

Lemma pretty_go_digits x s : all_digits s = true -> all_digits (pretty_N_go x s) = true.
Proof.
  revert s. induction (N.lt_wf_0 x) as [x _ IH]; intros s Hs.
  assert (x = 0 \/ 0 < x)%N as [->|Hx] by lia; [by rewrite pretty_N_go_0|].
  rewrite pretty_N_go_step by done. apply IH; [by apply N.div_lt|]. cbn [all_digits].
  by rewrite digit_pretty_N_char by (by apply N.mod_lt).
Qed.

Lemma parse_pretty_go x s :
  (0 < x)%N -> Z.of_N x <= u32_max ->
  parse_digits 0 (pretty_N_go x s) = parse_digits (Z.of_N x) s.
Proof.
  revert s. induction (N.lt_wf_0 x) as [x _ IH]; intros s Hx Hmax.
  rewrite pretty_N_go_step by done.
  pose proof (N.div_mod x 10 ltac:(done)) as Hdm.
  pose proof (N.mod_lt x 10 ltac:(done)) as Hlt.
  set (d := (x mod 10)%N) in *. set (q := (x / 10)%N) in *.
  assert (Hstep : forall s, parse_digits (Z.of_N q) (String (pretty_N_char d) s)
                            = parse_digits (Z.of_N x) s).
  { intros s'. cbn [parse_digits]. rewrite digit_pretty_N_char by done. cbn.
    replace (10 * Z.of_N q + Z.of_N d) with (Z.of_N x) by lia.
    by rewrite (proj2 (Z.leb_le _ _)). }
  assert (q = 0 \/ 0 < q)%N as [Hq|Hq] by lia.
  - rewrite Hq, pretty_N_go_0. rewrite Hq in Hstep. apply Hstep.
  - rewrite IH; [apply Hstep|apply N.div_lt; lia|done|lia].
Qed.

Lemma decimal_digits n : all_digits (decimal n) = true.
Proof.
  unfold decimal, pretty, pretty_N. case_decide; [done|]. by apply pretty_go_digits.
Qed.

Lemma parse_digits_plus acc s : parse_digits acc (String "+" s) = None.
Proof. done. Qed.

Lemma parse_u32_decimal n : is_u32 n -> parse_u32 (decimal n) = Some n.
Proof.
  unfold is_u32. intros Hn.
  assert (Hp : parse_digits 0 (decimal n) = Some n).
  { unfold decimal, pretty, pretty_N. case_decide as Hz.
    - assert (n = 0) as -> by lia. reflexivity.
    - rewrite parse_pretty_go by lia. cbn. f_equal. lia. }
  destruct (decimal n) as [|a s] eqn:E.
  { exfalso. unfold decimal, pretty, pretty_N in E. case_decide; [done|].
    assert (Hg : parse_digits 0 (pretty_N_go (Z.to_N n) EmptyString) = Some 0) by by rewrite E.
    rewrite parse_pretty_go in Hg by lia. cbn in Hg. injection Hg. lia. }
  unfold parse_u32. destruct (Ascii.eqb_spec a "+") as [->|]; [|done].
  by rewrite parse_digits_plus in Hp.
Qed.

Lemma decimal_not_empty n : decimal n <> EmptyString.
Proof.
  unfold decimal, pretty, pretty_N. case_decide as Hz; [done|].
  intros E. assert (Hl : forall x s, s <> EmptyString -> pretty_N_go x s <> EmptyString).
  { intros x. induction (N.lt_wf_0 x) as [x _ IH]; intros s Hs.
    assert (x = 0 \/ 0 < x)%N as [->|Hx] by lia; [by rewrite pretty_N_go_0|].
    rewrite pretty_N_go_step by done. apply IH; [by apply N.div_lt|done]. }
  rewrite pretty_N_go_step in E by lia. by eapply Hl in E.
Qed.

Lemma split_once_digits d s :
  all_digits d = true -> split_once "." (String.append d (String "." s)) = Some (d, s).
Proof.
  induction d as [|a d IH]; [done|]. rewrite append_String. cbn [all_digits split_once].
  destruct (digit_value a) eqn:E; [|done]. intros Hd.
  assert (a <> "."%char) by (intros ->; discriminate E). rewrite (IH Hd). destruct (Ascii.eqb_spec a ".") as [->|]; [done|done].
Qed.

(** ** Needles without digits do not reach across a numeral *)

Lemma starts_with_cut p a c b x :
  no_digits p = true -> digit_value c = Some x ->
  starts_with p (String.append a (String c b)) = starts_with p a.
Proof.
  intros Hp Hc. revert a Hp. unfold starts_with.
  induction p as [|y p IH]; intros [|z a]; rewrite ?append_String, ?append_Empty; cbn; try done.
  - destruct (digit_value y) eqn:Ey; [done|]. destruct (Ascii.eqb_spec y c); [congruence|done].
  - destruct (digit_value y) eqn:Ey; [done|]. intros Hp.
    destruct (Ascii.eqb y z); [by apply IH|done].
Qed.

Lemma contains_String p a s : contains p (String a s) = starts_with p (String a s) || contains p s.
Proof.
  unfold contains. cbn [str_find]. destruct (starts_with p (String a s)); [done|].
  by destruct (str_find p s).
Qed.

Lemma contains_cut p a c b x :
  p <> EmptyString -> no_digits p = true -> digit_value c = Some x ->
  contains p (String.append a (String c b)) = contains p a || contains p b.
Proof.
  intros Hne Hp Hc. pose proof (starts_with_cut p) as Hcut. induction a as [|z a IH].
  - rewrite append_Empty, contains_String.
    specialize (Hcut EmptyString c b x Hp Hc). rewrite append_Empty in Hcut. rewrite Hcut.
    by destruct p.
  - specialize (Hcut (String z a) c b x Hp Hc). rewrite append_String in *.
    by rewrite !contains_String, Hcut, IH, orb_assoc.
Qed.

Lemma contains_digits p a d b :
  p <> EmptyString -> no_digits p = true -> d <> EmptyString -> all_digits d = true ->
  contains p (String.append a (String.append d b)) = contains p a || contains p b.
Proof.
  intros Hne Hp. revert a. induction d as [|c d IH]; intros a Hd Had; [done|].
  cbn in Had. destruct (digit_value c) as [x|] eqn:Ec; [|done]. rewrite append_String.
  rewrite (contains_cut _ _ _ _ x) by done. destruct d as [|c' d]; [done|].
  specialize (IH EmptyString ltac:(done) Had). rewrite append_Empty in IH. rewrite IH.
  assert (contains p EmptyString = false) as -> by by destruct p. done.
Qed.

Lemma ends_with_String x a s :
  ends_with x (String a s) = String.eqb (String a s) x || ends_with x s.
Proof.
  unfold ends_with. change (Prelude.strip_suffix x (String a s)) with
    (if String.eqb (String a s) x then Some EmptyString
     else String a <$> Prelude.strip_suffix x s).
  destruct (String.eqb (String a s) x); [done|]. by destruct (Prelude.strip_suffix x s).
Qed.

Lemma ends_with_app x a b :
  (String.length x <= String.length b)%nat -> ends_with x (String.append a b) = ends_with x b.
Proof.
  intros Hl. induction a as [|c a IH]; [done|]. rewrite append_String, ends_with_String, IH.
  destruct (String.eqb_spec (String c (String.append a b)) x) as [<-|_]; [|done].
  exfalso. cbn in Hl. rewrite length_append in Hl. lia.
Qed.

(** A name [pre<layer>.suffix] is a rotary cache only by its fixed parts. *)
Lemma layer_rope_cache pre n suffix :
  (9 <= String.length suffix)%nat ->
  is_rope_cache (String.append pre (String.append (decimal n) (String "." suffix)))
  = contains "rotary_emb" pre || contains "rotary_emb" (String "." suffix)
    || ends_with ".inv_freq" suffix.
Proof.
  intros Hl. unfold is_rope_cache.
  rewrite contains_digits by (done || apply decimal_not_empty || apply decimal_digits).
  rewrite ends_with_app; [rewrite ends_with_app; [|cbn; lia]|].
  - change (String "." suffix) with (String.append "." suffix). by rewrite (ends_with_app ".inv_freq" "." suffix).
  - rewrite length_append. cbn. lia.
Qed.

Definition layer_key (prefix : string) (layer : Z) (suffix : string) : string :=
  String.append prefix (String.append (decimal layer) (String "." suffix)).

(** The suffixes and names of a table that denote weights. *)
Definition plain_suffix (s : string) : bool :=
  bool_decide (9 <= String.length s)%nat &&
  negb (contains "rotary_emb" (String "." s) || ends_with ".inv_freq" s).

Lemma layer_key_not_rope prefix n suffix :
  contains "rotary_emb" prefix = false -> plain_suffix suffix = true ->
  is_rope_cache (layer_key prefix n suffix) = false.
Proof.
  intros Hp Hs. apply andb_prop in Hs as [Hl Hs]. apply bool_decide_eq_true_1 in Hl.
  apply negb_true_iff, orb_false_iff in Hs as [H1 H2].
  unfold layer_key. rewrite layer_rope_cache by done. by rewrite Hp, H1, H2.
Qed.

Lemma match_arms_In arms s c : match_arms arms s = Some c -> (s, c) ∈ arms.
Proof.
  unfold match_arms. destruct (List.find _ arms) as [[s' c']|] eqn:E; [|done].
  intros [= <-]. apply List.find_some in E as [Hin Heq]. cbn in Heq.
  apply String.eqb_eq in Heq as <-. by apply list_elem_of_In.
Qed.

Lemma match_arms_table arms s c :
  NoDup arms.*1 -> (s, c) ∈ arms -> match_arms arms s = Some c.
Proof.
  unfold match_arms. induction arms as [|[s' c'] arms IH]; intros Hnd Hin.
  { by apply not_elem_of_nil in Hin. }
  cbn in *. apply NoDup_cons in Hnd as [Hs Hnd].
  apply elem_of_cons in Hin as [[= <- <-]|Hin]; [by rewrite String.eqb_refl|].
  destruct (String.eqb_spec s' s) as [->|]; [|by apply IH].
  exfalso. apply Hs, list_elem_of_fmap. by exists (s, c).
Qed.

Lemma table_plain arms s c :
  forallb (fun kv => plain_suffix kv.1 && plain_suffix kv.2) arms = true ->
  (s, c) ∈ arms -> plain_suffix s = true /\ plain_suffix c = true.
Proof.
  rewrite forallb_forall. intros H Hin. apply list_elem_of_In in Hin.
  by apply H, andb_prop in Hin.
Qed.

(** Canonical layer names are left alone by both maps. *)
Lemma blk_name_fixed n c :
  plain_suffix c = true ->
  canonicalize_hf_family (blk_name n c) = Some (blk_name n c) /\
  canonicalize_lfm2 (blk_name n c) = Some (blk_name n c).
Proof.
  intros Hc. pose proof (layer_key_not_rope "blk." n c eq_refl Hc) as Hr.
  change (layer_key "blk." n c) with (blk_name n c) in Hr.
  unfold canonicalize_hf_family, canonicalize_lfm2. by rewrite Hr.
Qed.

(** What the table of Hugging Face names yields. *)
Lemma try_hf_remap_image key m :
  try_hf_remap key = Some m ->
  m ∈ ["token_embd.weight"; "output_norm.weight"; "output.weight"] \/
  exists n suffix, (suffix.1, suffix.2) ∈ hf_suffixes /\ m = blk_name n suffix.2.
Proof.
  unfold try_hf_remap. intros H.
  case_match; [injection H as <-; left; set_solver|].
  case_match; [injection H as <-; left; set_solver|].
  case_match; [injection H as <-; left; set_solver|].
  apply bind_Some in H as (rest & _ & H). apply bind_Some in H as ([i s] & _ & H).
  apply bind_Some in H as (n & _ & H). apply bind_Some in H as (c & Hc & H).
  injection H as <-. right. exists n, (s, c). split; [by apply match_arms_In|done].
Qed.

Lemma hf_layer_key n suffix c :
  is_u32 n -> (suffix, c) ∈ hf_suffixes ->
  canonicalize_hf_family (layer_key "model.layers." n suffix) = Some (blk_name n c) /\
  canonicalize_hf_family (layer_key "layers." n suffix) = Some (blk_name n c) /\
  hf_to_canonical (layer_key "model.layers." n suffix) = Some (blk_name n c).
Proof.
  intros Hn Hin. destruct (table_plain hf_suffixes suffix c eq_refl Hin) as [Hs _].
  apply match_arms_table in Hin; [|apply NoDup_eval; reflexivity].
  unfold canonicalize_hf_family, hf_to_canonical. rewrite !layer_key_not_rope by done.
  assert (Hrest : forall pre, (pre = "model.layers." \/ pre = "layers.") ->
    try_hf_remap (layer_key pre n suffix) = Some (blk_name n c)).
  { intros pre Hpre. unfold try_hf_remap, layer_key.
    replace (match Prelude.strip_prefix "model.layers." _ with Some r => Some r | None => _ end)
      with (Some (String.append (decimal n) (String "." suffix)))
      by (destruct Hpre as [->| ->]; [by rewrite strip_prefix_app|by destruct n]).
    destruct Hpre as [->| ->]; cbn [mbind option_bind];
      rewrite split_once_digits by apply decimal_digits; cbn [mbind option_bind];
      rewrite parse_u32_decimal by done; cbn [mbind option_bind]; by rewrite Hin. }
  rewrite !Hrest by auto. done.
Qed.

Lemma lfm2_layer_key n suffix c :
  is_u32 n -> (suffix, c) ∈ lfm2_suffixes ->
  canonicalize_lfm2 (layer_key "model.layers." n suffix) = Some (blk_name n c).
Proof.
  intros Hn Hin.
  destruct (table_plain lfm2_suffixes suffix c eq_refl Hin) as [Hs _].
  apply match_arms_table in Hin; [|apply NoDup_eval; reflexivity].
  unfold canonicalize_lfm2. rewrite layer_key_not_rope by done. unfold layer_key at 1 2.
  rewrite strip_prefix_app, split_once_digits by apply decimal_digits.
  by rewrite parse_u32_decimal, Hin by done.
Qed.

(** ** Properties *)

(** Every weight of a layer gets its canonical name, for every layer
    number: the Llama table under both spellings of the prefix, and the LFM2
    table under its own. *)
Theorem layer_keys_canonical n suffix c :
  is_u32 n ->
  ((suffix, c) ∈ hf_suffixes ->
   canonicalize_hf_family (layer_key "model.layers." n suffix) = Some (blk_name n c) /\
   canonicalize_hf_family (layer_key "layers." n suffix) = Some (blk_name n c) /\
   hf_to_canonical (layer_key "model.layers." n suffix) = Some (blk_name n c)) /\
  ((suffix, c) ∈ lfm2_suffixes ->
   canonicalize_lfm2 (layer_key "model.layers." n suffix) = Some (blk_name n c)).
Proof. intros Hn. split; intros Hin; [by apply hf_layer_key|by apply lfm2_layer_key]. Qed.

(** Both name maps are idempotent: a name one of them returns is returned
    unchanged when it is mapped again. *)
Theorem canonicalize_idempotent key c :
  (canonicalize_hf_family key = Some c -> canonicalize_hf_family c = Some c) /\
  (canonicalize_lfm2 key = Some c -> canonicalize_lfm2 c = Some c).
Proof.
  unfold canonicalize_hf_family at 1, canonicalize_lfm2 at 1.
  destruct (is_rope_cache key) eqn:Hr; [done|]. split.
  - destruct (try_hf_remap key) as [m|] eqn:E; intros [= <-].
    + apply try_hf_remap_image in E as [Hm|(n & [sf cn] & Hin & ->)].
      { repeat (apply elem_of_cons in Hm as [->|Hm]; [reflexivity|]).
        by apply not_elem_of_nil in Hm. }
      apply blk_name_fixed. by eapply (table_plain hf_suffixes).
    + unfold canonicalize_hf_family. by rewrite Hr, E.
  - assert (Hself : canonicalize_lfm2 key = Some key -> Some key = Some c ->
      canonicalize_lfm2 c = Some c) by (intros Hk [= <-]; exact Hk).
    unfold canonicalize_lfm2 at 1 in Hself. rewrite Hr in Hself.
    destruct (match_arms lfm2_names key) as [m|] eqn:Em.
    { intros [= <-]. apply match_arms_In in Em.
      repeat (apply elem_of_cons in Em as [[= _ ->]|Em]; [reflexivity|]).
      by apply not_elem_of_nil in Em. }
    repeat case_match; try by apply Hself.
    intros [= <-]. apply blk_name_fixed.
    match goal with H : match_arms lfm2_suffixes _ = _ |- _ => apply match_arms_In in H end.
    by eapply (table_plain lfm2_suffixes).
Qed.

Lemma names_examples :
  canonicalize_hf_family "model.layers.12.mlp.up_proj.weight" = Some "blk.12.ffn_up.weight" /\
  canonicalize_hf_family "model.layers.0.self_attn.rotary_emb.inv_freq" = None /\
  remap_model_type " LLAMAForCausalLM" = Some "llama.decoder" /\
  remap_model_type "gpt2" = None.
Proof. repeat split; vm_compute; reflexivity. Qed.

Section TieProperties.
Context {SJ : SerdeJson}.

(** After tying, a catalog with an embedding has an output projection;
    the parameters it had are kept in place, at most one is added, and the
    added one is the embedding's storage under the name and role of the
    output. *)
Theorem tie_output_spec catalog :
  let tied := tie_output_to_embed catalog in
  (exists emb, emb ∈ pcat_parameters catalog /\ named "token_embd.weight" emb = true) ->
  (exists out, out ∈ pcat_parameters tied /\ named "output.weight" out = true) /\
  (pcat_parameters tied = pcat_parameters catalog \/
   (~ (exists out, out ∈ pcat_parameters catalog /\ named "output.weight" out = true) /\
    exists emb, emb ∈ pcat_parameters catalog /\ named "token_embd.weight" emb = true /\
     pcat_parameters tied = pcat_parameters catalog ++ [tied_output emb] /\
     lp_components (tied_output emb) = lp_components emb /\
     lp_encoding (tied_output emb) = lp_encoding emb)) /\
  tie_output_to_embed tied = tied.
Proof.
  intros tied (emb & Hin & Hn). unfold tied, tie_output_to_embed.
  destruct (existsb (named "output.weight") (pcat_parameters catalog)) eqn:E.
  { rewrite E. split; [|split; [by left|done]].
    apply existsb_exists in E as (out & Ho & Hno). exists out. by rewrite list_elem_of_In. }
  destruct (List.find _ _) as [e|] eqn:Ef.
  - apply List.find_some in Ef as [He Hne]. cbn. split; [|split].
    + exists (tied_output e). rewrite elem_of_app. split; [right; by left|done].
    + right. split.
      { intros (out & Ho & Hno). apply list_elem_of_In in Ho.
        assert (existsb (named "output.weight") (pcat_parameters catalog) = true)
          by (apply existsb_exists; eauto). congruence. }
      exists e. rewrite list_elem_of_In. repeat split; done.
    + rewrite existsb_app, E. cbn. done.
  - exfalso. eapply List.find_none in Ef; [|by apply list_elem_of_In]. congruence.
Qed.

End TieProperties.

(** ** Witnesses *)

Lemma layer_keys_canonical_witness :
  canonicalize_hf_family (layer_key "model.layers." 31 "mlp.up_proj.weight")
    = Some "blk.31.ffn_up.weight".
Proof.
  assert (H : is_u32 31) by (unfold is_u32, u32_max; lia).
  assert (Hin : ("mlp.up_proj.weight", "ffn_up.weight") ∈ hf_suffixes).
  { apply list_elem_of_In. cbn. tauto. }
  exact (proj1 (proj1 (layer_keys_canonical 31 "mlp.up_proj.weight" "ffn_up.weight" H) Hin)).
Defined.

Lemma canonicalize_idempotent_witness :
  canonicalize_lfm2 "blk.2.shortconv.conv.weight" = Some "blk.2.shortconv.conv.weight".
Proof.
  apply (proj2 (canonicalize_idempotent "model.layers.2.conv.conv.weight"
    "blk.2.shortconv.conv.weight")).
  by_vm.
Defined.

Definition sample_embedding : LogicalParameter :=
  {| lp_canonical_name := "token_embd.weight"; lp_role := Embedding;
     lp_logical_type := {| lt_shape := [4; 2]; lt_element_type := F32 |};
     lp_encoding := plain F32; lp_components := []; lp_aliases := [] |}.
Definition sample_parameters : ParameterCatalog :=
  {| pcat_convention_id := "c"; pcat_parameters := [sample_embedding]; pcat_metadata := ∅ |}.

Lemma tie_output_spec_witness :
  exists out, out ∈ pcat_parameters (tie_output_to_embed sample_parameters) /\
    named "output.weight" out = true.
Proof.
  apply (tie_output_spec sample_parameters). exists sample_embedding. split; [by left|reflexivity].
Defined.
