(* ===== verification/Numbers.v ===== *)
(** * Numbers as text: [str::parse] and [split_whitespace]

    What the standard library reads as a [u64] and as an [f64], and the words
    of a line. *)
From S2P Require Import Prelude Strings Errors Serde Floats Names Paths.
From Stdlib Require Import ZArith Lia Ascii String SpecFloat.
From stdpp Require Import base list strings pretty.
From stdpp Require Import options.

Local Open Scope Z_scope.

(** ** Unsigned integers *)

(** The value of a string of digits, when all of them are digits. *)
Fixpoint digits_value (acc : Z) (s : string) : option Z :=
  match s with
  | EmptyString => Some acc
  | String a s => d ← digit_value a; digits_value (10 * acc + d) s
  end.

(** [s.parse::<u64>()], which is [s.parse::<usize>()] on a 64-bit target: an
    optional [+], at least one digit, and no value above the type's. *)
Definition parse_u64 (s : string) : option Z :=
  let digits := default s (Prelude.strip_prefix "+" s) in
  if String.eqb digits EmptyString then None
  else n ← digits_value 0 digits; if n <=? u64_max then Some n else None.

(** ** Floats *)

(** The digits a string starts with, their number, and the rest. *)
Fixpoint take_digits (s : string) : string * string :=
  match s with
  | String a r =>
      match digit_value a with
      | Some _ => let '(d, rest) := take_digits r in (String a d, rest)
      | None => (EmptyString, s)
      end
  | EmptyString => (EmptyString, EmptyString)
  end.

(** The exponent at the end: nothing, or [e], a sign and digits. *)
Definition parse_exponent (s : string) : option Z :=
  match s with
  | EmptyString => Some 0
  | String a r =>
      if Ascii.eqb (ascii_lower a) "e" then
        let '(negative, r) := match r with
                              | String "-" r => (true, r)
                              | String "+" r => (false, r)
                              | _ => (false, r)
                              end in
        if String.eqb r EmptyString then None
        else n ← digits_value 0 r; Some (if negative then - n else n)
      else None
  end.

(** The [f64] nearest to [m * 10 ^ e], ties to even. *)
Definition decimal_f64 (negative : bool) (m e : Z) : f64 :=
  match m with
  | Zpos p =>
      if 0 <=? e then binary_normalize 53 1024 (cond_Zopp negative (Zpos p * 10 ^ e)) 0 negative
      else match 10 ^ (- e) with
           | Zpos q => SFdiv 53 1024 (S754_finite negative p 0) (S754_finite false q 0)
           | _ => S754_nan
           end
  | _ => S754_zero negative
  end.

(** [s.parse::<f64>()] *)
Definition parse_f64 (s : string) : option f64 :=
  let '(negative, r) := match s with
                        | String "-" r => (true, r)
                        | String "+" r => (false, r)
                        | _ => (false, s)
                        end in
  if existsb (String.eqb (to_ascii_lowercase r)) ["inf"; "infinity"] then Some (S754_infinity negative)
  else if String.eqb (to_ascii_lowercase r) "nan" then Some S754_nan
  else
    let '(whole, r) := take_digits r in
    let '(fraction, r) := match r with String "." r => take_digits r | _ => (EmptyString, r) end in
    let digits := String.append whole fraction in
    if String.eqb digits EmptyString then None
    else
      m ← digits_value 0 digits;
      e ← parse_exponent r;
      Some (decimal_f64 negative m (e - strlen fraction)).

(** ** Words *)

(** [s.split_whitespace()], from the characters of [s]. *)
Fixpoint words_of (cs : list string) : list string * bool :=
  (** The flag says whether the last word may still grow at its start. *)
  match cs with
  | [] => ([], false)
  | c :: cs =>
      let '(l, grows) := words_of cs in
      if existsb (String.eqb c) whitespace_chars then (l, false)
      else match grows, l with
           | true, w :: l => (String.append c w :: l, true)
           | _, _ => (c :: l, true)
           end
  end.
Definition split_whitespace (s : string) : list string := (words_of (chars s)).1.

Example parses :
  parse_u64 "18446744073709551615" = Some u64_max /\ parse_u64 "18446744073709551616" = None /\
  parse_u64 "+007" = Some 7 /\ parse_u64 "+" = None /\ parse_u64 "-1" = None /\
  parse_f64 "1.5" = Some (f64_of_bits 4609434218613702656) /\
  parse_f64 "0.1" = Some (f64_of_bits 4591870180066957722) /\
  parse_f64 "-.5e1" = Some (f64_of_bits 13840687554816376832) /\
  parse_f64 "." = None /\ parse_f64 "1e" = None /\ parse_f64 "NaN" = Some S754_nan /\
  parse_f64 "1e400" = Some (S754_infinity false) /\ parse_f64 "0x1" = None /\ parse_f64 "-0" = Some (S754_zero true) /\
  split_whitespace "  S 1   22 " = ["S"; "1"; "22"].
Proof. vm_compute. repeat split. Qed.

(** ** Lemmas *)

Lemma digits_value_pretty_go x s :
  (0 < x)%N -> digits_value 0 (pretty_N_go x s) = digits_value (Z.of_N x) s.
Proof.
  revert s. induction (N.lt_wf_0 x) as [x _ IH]; intros s Hx. rewrite pretty_N_go_step by done.
  pose proof (N.div_mod x 10 ltac:(done)) as Hdm. pose proof (N.mod_lt x 10 ltac:(done)) as Hlt.
  set (d := (x mod 10)%N) in *. set (q := (x / 10)%N) in *.
  assert (Hstep : digits_value (Z.of_N q) (String (pretty_N_char d) s) = digits_value (Z.of_N x) s).
  { cbn [digits_value]. rewrite digit_pretty_N_char by done. cbn [mbind option_bind]. f_equal. lia. }
  assert (q = 0 \/ 0 < q)%N as [Hq|Hq] by lia.
  - rewrite Hq, pretty_N_go_0. by rewrite Hq in Hstep.
  - rewrite IH; [apply Hstep|apply N.div_lt; lia|done].
Qed.

Lemma digits_value_decimal n : 0 <= n -> digits_value 0 (decimal n) = Some n.
Proof.
  intros Hn. unfold decimal, pretty, pretty_N. case_decide as Hz.
  - assert (n = 0) as -> by lia. reflexivity.
  - rewrite digits_value_pretty_go by lia. cbn [digits_value]. f_equal. lia.
Qed.

(** A string that starts with a digit has no sign. *)
Lemma decimal_no_sign n : Prelude.strip_prefix "+" (decimal n) = None.
Proof.
  pose proof (decimal_digits n) as Hd. destruct (Prelude.strip_prefix "+" (decimal n)) as [r|] eqn:E; [|done].
  apply Prelude.strip_prefix_Some in E. by rewrite E in Hd.
Qed.

Lemma parse_u64_decimal n : is_u64 n -> parse_u64 (decimal n) = Some n.
Proof.
  intros [H0 Hm]. unfold parse_u64. rewrite decimal_no_sign. cbn [default].
  destruct (String.eqb_spec (decimal n) EmptyString) as [E|_]; [by destruct (decimal_not_empty n)|].
  rewrite digits_value_decimal by done. cbn [mbind option_bind]. by rewrite (proj2 (Z.leb_le _ _)).
Qed.

(** ** Words of printable characters *)

Definition printable (a : ascii) : bool := (33 <=? u8 a) && (u8 a <=? 126).
Fixpoint all_printable (s : string) : bool :=
  match s with EmptyString => true | String a s => printable a && all_printable s end.
Definition is_word (s : string) : bool := negb (String.eqb s EmptyString) && all_printable s.

Lemma printable_char a : printable a = true ->
  continuation a = false /\ existsb (String.eqb (String a EmptyString)) whitespace_chars = false.
Proof. destruct a as [[] [] [] [] [] [] [] []]; intros H; vm_compute in H |- *; done. Qed.

Lemma words_of_word w c cs :
  is_word w = true -> existsb (String.eqb c) whitespace_chars = true ->
  words_of (map (fun a => String a EmptyString) (list_ascii_of_string w) ++ c :: cs) = (w :: (words_of cs).1, true).
Proof.
  unfold is_word. intros [Hne Hw]%andb_prop Hc. apply negb_true_iff, String.eqb_neq in Hne.
  assert (Hsep : words_of (c :: cs) = ((words_of cs).1, false)).
  { cbn [words_of]. destruct (words_of cs) as [l g]. by rewrite Hc. }
  induction w as [|a w IH]; [done|]. cbn [all_printable] in Hw. apply andb_prop in Hw as [Ha Hw].
  apply printable_char in Ha as [_ Ha]. cbn [list_ascii_of_string map app words_of].
  destruct w as [|b w].
  - cbn [list_ascii_of_string map app]. change (words_of (c :: cs)) with (words_of (c :: cs)).
    rewrite Hsep, Ha. done.
  - rewrite IH by done. by rewrite Ha.
Qed.

Lemma chars_space a s : head_continuation s = false -> chars (String a s) = String a EmptyString :: chars s.
Proof. exact (chars_char a EmptyString s eq_refl). Qed.

Lemma chars_printable w s :
  all_printable w = true -> head_continuation s = false ->
  chars (String.append w s) = map (fun a => String a EmptyString) (list_ascii_of_string w) ++ chars s /\
  head_continuation (String.append w s) = false.
Proof.
  intros Hw Hs. induction w as [|a w IH]; [done|]. cbn [all_printable] in Hw. apply andb_prop in Hw as [Ha Hw].
  destruct (IH Hw) as [IH1 IH2]. rewrite append_String. split; [|by apply printable_char].
  rewrite chars_space by done. cbn [list_ascii_of_string map app]. by rewrite IH1.
Qed.

(** A line of words. *)
Fixpoint line_of (ws : list string) : string :=
  match ws with
  | [] => EmptyString
  | [w] => String.append w (String Strings.newline EmptyString)
  | w :: ws => String.append w (String " " (line_of ws))
  end.

Lemma line_of_head ws : Forall (fun w => is_word w = true) ws -> head_continuation (line_of ws) = false.
Proof.
  intros H. assert (Hp : forall w s, is_word w = true -> head_continuation (String.append w s) = false).
  { intros w s. unfold is_word. destruct w as [|a w]; [done|]. cbn [String.eqb negb andb all_printable].
    intros [Ha _]%andb_prop. by apply printable_char. }
  destruct H as [|w ws Hw H]; [done|]. destruct ws; by apply Hp.
Qed.

Lemma split_whitespace_line ws : Forall (fun w => is_word w = true) ws -> split_whitespace (line_of ws) = ws.
Proof.
  unfold split_whitespace. induction 1 as [|w ws Hw H IH]; [done|].
  pose proof Hw as Hp. unfold is_word in Hp. apply andb_prop in Hp as [_ Hp].
  destruct ws as [|w' ws].
  - cbn [line_of]. destruct (chars_printable w (String Strings.newline EmptyString) Hp) as [-> _]; [done|].
    rewrite chars_space by done. by rewrite words_of_word.
  - change (line_of (w :: w' :: ws)) with (String.append w (String " " (line_of (w' :: ws)))).
    pose proof (line_of_head (w' :: ws) H) as Hl.
    destruct (chars_printable w (String " " (line_of (w' :: ws))) Hp) as [-> _]; [done|].
    rewrite chars_space by done. rewrite words_of_word by done. cbn [fst]. by rewrite IH.
Qed.
