(* ===== verification/HfHub.v ===== *)
(** * The local model hub: crates/dyninfer-runtime/src/hf_hub.rs

    A repository id is resolved to a snapshot directory of the local Hugging
    Face cache, and a checkpoint is chosen in a directory. Nothing is
    downloaded: the module only looks at the environment and the file system,
    which are the class [HostView]. *)
From S2P Require Import Prelude Strings Errors Paths Names.
From Stdlib Require Import ZArith Lia Ascii String Sorted.
From stdpp Require Import base list strings.
From stdpp Require Import options.

Local Open Scope Z_scope.

(** ** The order of [std::path::PathBuf]: component by component *)

Definition component_rank (c : Component) : Z :=
  match c with RootDir => 1 | CurDir => 2 | ParentDir => 3 | Normal _ => 4 end.
Definition component_leb (a b : Component) : bool :=
  match a, b with
  | Normal x, Normal y => string_leb x y
  | _, _ => component_rank a <=? component_rank b
  end.
Fixpoint components_leb (a b : list Component) : bool :=
  match a, b with
  | [], _ => true
  | _ :: _, [] => false
  | x :: a, y :: b => if bool_decide (x = y) then components_leb a b else component_leb x y
  end.
Definition path_leb (a b : string) : bool := components_leb (components a) (components b).

Lemma component_leb_total a b : component_leb a b = true \/ component_leb b a = true.
Proof. destruct a, b; cbn; auto. apply string_leb_total. Qed.
Lemma component_leb_trans a b c : component_leb a b = true -> component_leb b c = true -> component_leb a c = true.
Proof. destruct a, b, c; cbn; try done. apply string_leb_trans. Qed.
Lemma component_leb_antisym a b : component_leb a b = true -> component_leb b a = true -> a = b.
Proof. destruct a, b; cbn; try done. intros H1 H2. f_equal. by apply string_leb_antisym. Qed.

Lemma components_leb_total a b : components_leb a b = true \/ components_leb b a = true.
Proof.
  revert b. induction a as [|x a IH]; intros [|y b]; cbn; auto.
  rewrite (bool_decide_ext (y = x) (x = y)) by naive_solver.
  case_bool_decide; [apply IH|apply component_leb_total].
Qed.
Lemma components_leb_trans a b c :
  components_leb a b = true -> components_leb b c = true -> components_leb a c = true.
Proof.
  revert b c. induction a as [|x a IH]; intros [|y b] [|z c]; cbn; try done.
  repeat case_bool_decide; subst; try done.
  - apply IH.
  - intros H1 H2. by destruct (component_leb_antisym y z).
  - apply component_leb_trans.
Qed.
Lemma components_leb_antisym a b : components_leb a b = true -> components_leb b a = true -> a = b.
Proof.
  revert b. induction a as [|x a IH]; intros [|y b]; cbn; try done.
  rewrite (bool_decide_ext (y = x) (x = y)) by naive_solver.
  case_bool_decide as E; [intros; f_equal; auto|]. intros H1 H2. by destruct (component_leb_antisym x y).
Qed.

(** ** hf_hub.rs *)

Definition DEFAULT_HF_REVISION : string := "main".

(** [name.to_str()] *)
Definition to_str (name : string) : option string :=
  if utf8_valid (bytes_of_string name) then Some name else None.

(** [s.trim_start_matches(p)] and [s.trim_end_matches(p)] *)
Definition trim_start_matches (p s : string) : string := exhaust (String.length s) (Prelude.strip_prefix p) s.
Definition trim_end_matches (p s : string) : string := exhaust (String.length s) (Prelude.strip_suffix p) s.

Definition not_empty (s : string) : bool := negb (String.eqb s EmptyString).

Definition hf_repo_folder_name (repo_id : string) : string :=
  let cleaned := trim_start_matches "https://huggingface.co/" (trim repo_id) in
  let cleaned := trim_end_matches "/" cleaned in
  match List.filter not_empty (split_char "/" cleaned) with
  | org :: name :: _ => String.append "models--" (String.append org (String.append "--" name))
  | [name] => String.append "models--" name
  | [] => String.append "models--" cleaned
  end.

Section HfHub.

(** What the process sees of its host: [std::env::var], [Path::is_dir]
    and [Path::is_file], [fs::read_to_string], the names of the entries
    [fs::read_dir] can read, and the modification time of a path. *)
Class HostView := {
  env_var : string -> option string;
  is_dir : string -> bool;
  is_file : string -> bool;
  read_to_string : string -> option string;
  dir_names : string -> option (list string);
  modified : string -> option Z;
}.
Context {HH : HostView}.

Definition dirs_home : string := default "." (env_var "HOME").

Definition hf_hub_cache_dir : string :=
  match env_var "HF_HUB_CACHE", env_var "HUGGINGFACE_HUB_CACHE", env_var "HF_HOME" with
  | Some p, _, _ => p
  | None, Some p, _ => p
  | None, None, Some home => path_join home "hub"
  | None, None, None => path_join (path_join (path_join dirs_home ".cache") "huggingface") "hub"
  end.

(** One turn of the loop over the snapshots: the outer [option] is the [?] on
    the modification time. *)
Definition newer (snapshots : string) (best : option (Z * string)) (name : string)
    : option (option (Z * string)) :=
  let p := path_join snapshots name in
  if negb (is_dir p) then Some best
  else
    modified ← modified p;
    Some (match best with
          | None => Some (modified, p)
          | Some (t, _) => if t <? modified then Some (modified, p) else best
          end).
Definition newest_snapshot (snapshots : string) : option string :=
  names ← dir_names snapshots;
  best ← foldl (fun acc name => best ← acc; newer snapshots best name) (Some None) names;
  snd <$> best.

(** The snapshots a revision may abbreviate. *)
Definition abbreviates (snapshots revision name : string) : bool :=
  let p := path_join snapshots name in
  is_dir p && match (n ← file_name p; to_str n) with Some n => starts_with revision n | None => false end.
Definition matches (snapshots revision : string) (names : list string) : list string :=
  stable_sort path_leb (path_join snapshots <$> List.filter (abbreviates snapshots revision) names).

Definition resolve_revision_snapshot (repo_dir revision : string) : Result string :=
  let refs_file := path_join (path_join repo_dir "refs") revision in
  let snapshots := path_join repo_dir "snapshots" in
  if is_file refs_file then
    content ← ok_or (read_to_string refs_file) (io_path_error refs_file (lit "read ref: {e}"));
    let hash := trim content in
    if String.eqb hash EmptyString then Err (io (Format "empty HF ref file {}" [AStr refs_file]))
    else
      let snap := path_join snapshots hash in
      if is_dir snap then Ok snap
      else Err (io (Format "HF ref `{revision}` → `{hash}` but snapshot missing at {}"
                      [AStr revision; AStr hash; AStr snap]))
  else
    let direct := path_join snapshots revision in
    let not_found := Err (io (Format "HF revision `{revision}` not found under {} (no refs/{revision})"
                                [AStr revision; AStr repo_dir; AStr revision])) in
    if is_dir direct then Ok direct
    else if is_dir snapshots then
      match dir_names snapshots with
      | Some names =>
          match matches snapshots revision names with
          | [p] => Ok p
          | _ =>
              if String.eqb revision DEFAULT_HF_REVISION then
                match newest_snapshot snapshots with
                | Some best => Ok best
                | None => not_found
                end
              else not_found
          end
      | None => not_found
      end
    else not_found.

Definition has_extension (ext p : string) : bool := bool_decide (extension p = Some ext).
(** The entries of a directory, as paths; none when it cannot be read. *)
Definition dir_entries (dir : string) : list string := path_join dir <$> default [] (dir_names dir).

Definition ensure_model_files (snap repo_id : string) : Result unit :=
  if is_file (path_join snap "model.safetensors") || is_file (path_join snap "model.safetensors.index.json")
  then Ok tt
  else
    let has_st := existsb (has_extension "safetensors") (dir_entries snap) in
    let has_gguf := existsb (has_extension "gguf") (dir_entries snap) in
    ensure (has_st || has_gguf)
      (io (Format "HF snapshot for `{repo_id}` at {} has no .safetensors or .gguf weights"
             [AStr repo_id; AStr snap])).

Definition resolve_hf_snapshot (repo_id : string) (revision : option string) : Result string :=
  let revision := default DEFAULT_HF_REVISION revision in
  let repo_dir := path_join hf_hub_cache_dir (hf_repo_folder_name repo_id) in
  if negb (is_dir repo_dir) then
    Err (io (Format "HF model `{repo_id}` not in local cache at {} (run: hf download {repo_id})"
               [AStr repo_id; AStr repo_dir; AStr repo_id]))
  else
    snap ← resolve_revision_snapshot repo_dir revision;
    _ ← ensure_model_files snap repo_id;
    Ok snap.

(** ** The checkpoint of a directory *)

Definition name_contains (part p : string) : bool :=
  match (n ← file_name p; to_str n) with Some n => contains part n | None => false end.
Definition is_shard (p : string) : bool := has_extension "safetensors" p && negb (name_contains "index" p).

Definition find_safetensors_checkpoint (model_dir : string) : Result string :=
  let preferred := path_join model_dir "model.safetensors" in
  let sharded := path_join model_dir "model.safetensors.index.json" in
  if is_file preferred then Ok preferred
  else if is_file sharded then Ok sharded
  else ok_or (head (stable_sort path_leb (List.filter is_shard (dir_entries model_dir))))
         (io (Format "no .safetensors checkpoint in {}" [AStr model_dir])).

(** Q4_0 before the other four-bit formats, those before the rest. *)
Definition score (p : string) : Z :=
  let name := to_ascii_lowercase (default EmptyString (n ← file_name p; to_str n)) in
  if contains "q4_0" name then 0 else if contains "q4" name then 1 else 2.
Definition gguf_leb (a b : string) : bool :=
  if score a =? score b then path_leb a b else score a <? score b.

Definition find_gguf_checkpoint (model_dir : string) : Result string :=
  let found := List.filter (has_extension "gguf") (dir_entries model_dir) in
  if bool_decide (found = []) then Err (io (Format "no .gguf checkpoint in {}" [AStr model_dir]))
  else match stable_sort gguf_leb found with
       | p :: _ => Ok p
       | [] => Panic "removal index (is 0) should be < len (is 0)"
       end.

Definition find_checkpoint (model_dir : string) : Result string :=
  match find_safetensors_checkpoint model_dir with
  | Ok p => Ok p
  | Err _ => find_gguf_checkpoint model_dir
  | Panic why => Panic why
  end.


(** ** What is resolved *)

(** The snapshot a revision stands for: what its ref file names; without one
    the directory of that name, the only directory it abbreviates, or for the
    default revision a newest one. *)
Inductive Resolves (repo_dir revision : string) : string -> Prop :=
  | resolves_ref content :
      is_file (path_join (path_join repo_dir "refs") revision) = true ->
      read_to_string (path_join (path_join repo_dir "refs") revision) = Some content ->
      trim content <> EmptyString ->
      is_dir (path_join (path_join repo_dir "snapshots") (trim content)) = true ->
      Resolves repo_dir revision (path_join (path_join repo_dir "snapshots") (trim content))
  | resolves_direct :
      is_file (path_join (path_join repo_dir "refs") revision) = false ->
      is_dir (path_join (path_join repo_dir "snapshots") revision) = true ->
      Resolves repo_dir revision (path_join (path_join repo_dir "snapshots") revision)
  | resolves_prefix names name :
      is_file (path_join (path_join repo_dir "refs") revision) = false ->
      is_dir (path_join (path_join repo_dir "snapshots") revision) = false ->
      is_dir (path_join repo_dir "snapshots") = true ->
      dir_names (path_join repo_dir "snapshots") = Some names ->
      List.filter (abbreviates (path_join repo_dir "snapshots") revision) names = [name] ->
      Resolves repo_dir revision (path_join (path_join repo_dir "snapshots") name)
  | resolves_newest names name t :
      is_file (path_join (path_join repo_dir "refs") revision) = false ->
      is_dir (path_join (path_join repo_dir "snapshots") revision) = false ->
      is_dir (path_join repo_dir "snapshots") = true ->
      revision = DEFAULT_HF_REVISION ->
      dir_names (path_join repo_dir "snapshots") = Some names ->
      length (List.filter (abbreviates (path_join repo_dir "snapshots") revision) names) <> 1%nat ->
      name ∈ names -> is_dir (path_join (path_join repo_dir "snapshots") name) = true ->
      modified (path_join (path_join repo_dir "snapshots") name) = Some t ->
      (forall m, m ∈ names -> is_dir (path_join (path_join repo_dir "snapshots") m) = true ->
         exists t', modified (path_join (path_join repo_dir "snapshots") m) = Some t' /\ t' <= t) ->
      Resolves repo_dir revision (path_join (path_join repo_dir "snapshots") name).

(** A directory holds weights. *)
Definition has_weights (dir : string) : Prop :=
  is_file (path_join dir "model.safetensors") = true \/
  is_file (path_join dir "model.safetensors.index.json") = true \/
  exists p, p ∈ dir_entries dir /\ (extension p = Some "safetensors" \/ extension p = Some "gguf").

Lemma ensure_model_files_spec snap repo_id :
  match ensure_model_files snap repo_id with
  | Ok _ => has_weights snap
  | Err _ => ~ has_weights snap
  | Panic _ => False
  end.
Proof.
  unfold ensure_model_files, has_weights.
  destruct (is_file _); [by left|]. destruct (is_file _); [right; by left|]. cbn [orb].
  unfold ensure. destruct (existsb _ _ || existsb _ _) eqn:E.
  - apply orb_true_iff in E. right. right.
    destruct E as [E|E]; apply existsb_exists in E as (p & Hp & E);
      apply bool_decide_eq_true in E; exists p; rewrite list_elem_of_In; auto.
  - apply orb_false_iff in E as [E1 E2]. intros [?|[?|(p & Hp & He)]]; [done|done|].
    apply list_elem_of_In in Hp. rewrite <-not_true_iff_false, existsb_exists in E1, E2.
    destruct He; [apply E1|apply E2]; exists p; (split; [done|by apply bool_decide_eq_true]).
Qed.

(** The loop over the snapshots keeps a newest of those seen. *)
Lemma newest_fold snapshots names best r :
  foldl (fun acc name => best ← acc; newer snapshots best name) (Some best) names = Some r ->
  (forall m, m ∈ names -> is_dir (path_join snapshots m) = true -> exists t', modified (path_join snapshots m) = Some t') /\
  (forall t p, r = Some (t, p) ->
     (best = Some (t, p) \/ exists m, m ∈ names /\ p = path_join snapshots m /\ is_dir p = true /\ modified p = Some t) /\
     (forall t' p', best = Some (t', p') -> t' <= t) /\
     (forall m t', m ∈ names -> is_dir (path_join snapshots m) = true ->
        modified (path_join snapshots m) = Some t' -> t' <= t)) /\
  (r = None -> best = None /\ forall m, m ∈ names -> is_dir (path_join snapshots m) = false).
Proof.
  revert best. induction names as [|n names IH]; intros best H; cbn [foldl] in H.
  { injection H as <-. split; [by intros m ?%not_elem_of_nil|]. split.
    - intros t p ->. split; [by left|]. split; [by intros t' p' [= <- <-]|by intros m t' ?%not_elem_of_nil].
    - intros ->. split; [done|]. by intros m ?%not_elem_of_nil. }
  cbn [mbind option_bind] in H. destruct (newer snapshots best n) as [b|] eqn:En.
  2:{ exfalso. clear -H. induction names; cbn in H; [done|auto]. }
  apply IH in H as (H1 & H2 & H3). clear IH. unfold newer in En.
  destruct (is_dir (path_join snapshots n)) eqn:Ed; cbn [negb] in En.
  2:{ injection En as <-. split; [|split].
      - intros m [->|Hm]%elem_of_cons; [congruence|auto].
      - intros t p Hr. destruct (H2 t p Hr) as (Ha & Hb & Hc). split; [|split; [done|]].
        + destruct Ha as [?|(m & ? & ?)]; [by left|right; exists m; split; [by right|done]].
        + intros m t' [->|Hm]%elem_of_cons; [congruence|eauto].
      - intros Hr. destruct (H3 Hr) as [? Hn]. split; [done|]. intros m [->|Hm]%elem_of_cons; auto. }
  destruct (modified (path_join snapshots n)) as [tn|] eqn:Em; [|done]. cbn [mbind option_bind] in En.
  injection En as Eb.
  assert (Hbest : forall t' p', best = Some (t', p') -> exists tb pb, b = Some (tb, pb) /\ t' <= tb).
  { intros t' p' ->. destruct (Z.ltb_spec t' tn); subst b; eexists _, _; (split; [done|lia]). }
  assert (Hn : exists tb pb, b = Some (tb, pb) /\ tn <= tb /\ (b = best \/ (tb = tn /\ pb = path_join snapshots n))).
  { subst b. destruct best as [[t' p']|]; [|eexists _, _; split; [done|]; split; [lia|by right]].
    destruct (Z.ltb_spec t' tn); eexists _, _; (split; [done|]); (split; [lia|]); [by right|by left]. }
  clear Eb. destruct Hn as (tb & pb & -> & Htn & Hor). split; [|split].
  - intros m [->|Hm]%elem_of_cons; [by exists tn|auto].
  - intros t p Hr. destruct (H2 t p Hr) as (Ha & Hb & Hc). pose proof (Hb tb pb eq_refl). split; [|split].
    + destruct Ha as [[= -> ->]|(m & ? & ?)]; [|right; exists m; split; [by right|done]].
      destruct Hor as [<-|[-> ->]]; [by left|]. right. exists n. split; [by left|done].
    + intros t' p' E. destruct (Hbest t' p' E) as (? & ? & [= <- <-] & ?). lia.
    + intros m t' [->|Hm]%elem_of_cons Hd Ht; [|eauto]. rewrite Em in Ht. injection Ht as <-. lia.
  - intros Hr. by destruct (H3 Hr) as [? _].
Qed.

Lemma newest_snapshot_Some snapshots names best :
  dir_names snapshots = Some names -> newest_snapshot snapshots = Some best ->
  exists name t, name ∈ names /\ best = path_join snapshots name /\ is_dir best = true /\ modified best = Some t /\
    forall m, m ∈ names -> is_dir (path_join snapshots m) = true ->
      exists t', modified (path_join snapshots m) = Some t' /\ t' <= t.
Proof.
  intros Hn H. unfold newest_snapshot in H. rewrite Hn in H. cbn [mbind option_bind] in H.
  destruct (foldl _ _ _) as [r|] eqn:E; [|done]. cbn in H.
  destruct r as [[t p]|]; [|done]. injection H as <-. apply newest_fold in E as (H1 & H2 & _).
  destruct (H2 t p eq_refl) as ([?|(m & Hm & -> & Hd & Ht)] & _ & Hmax); [done|].
  exists m, t. split_and!; [done..|]. intros k Hk Hdk. destruct (H1 k Hk Hdk) as [t' Ht'].
  exists t'. split; [done|]. by apply (Hmax k).
Qed.

Lemma newest_snapshot_None snapshots names :
  dir_names snapshots = Some names -> newest_snapshot snapshots = None ->
  (forall m, m ∈ names -> is_dir (path_join snapshots m) = true -> exists t, modified (path_join snapshots m) = Some t) ->
  forall m, m ∈ names -> is_dir (path_join snapshots m) = false.
Proof.
  intros Hn H Hall. unfold newest_snapshot in H. rewrite Hn in H. cbn [mbind option_bind] in H.
  destruct (foldl _ _ _) as [r|] eqn:E.
  - cbn in H. destruct r as [|]; [done|]. apply newest_fold in E as (_ & _ & H3). by destruct (H3 eq_refl).
  - exfalso. revert E. generalize (@None (Z * string)). clear -Hall. induction names as [|n names IH]; intros b E; [done|].
    cbn [foldl mbind option_bind] in E. destruct (newer snapshots b n) as [b'|] eqn:En.
    + eapply IH; [|exact E]. intros m Hm. apply Hall. by right.
    + unfold newer in En. destruct (is_dir (path_join snapshots n)) eqn:Ed; [|done]. cbn [negb] in En.
      destruct (Hall n ltac:(by left) Ed) as [t Ht]. by rewrite Ht in En.
Qed.

Lemma matches_one snapshots revision names p :
  matches snapshots revision names = [p] ->
  exists name, List.filter (abbreviates snapshots revision) names = [name] /\ p = path_join snapshots name.
Proof.
  unfold matches. intros H. pose proof (stable_sort_perm path_leb (path_join snapshots <$> List.filter (abbreviates snapshots revision) names)) as Hp.
  rewrite H in Hp. apply Permutation_length_1_inv in Hp.
  destruct (List.filter _ _) as [|n [|]]; try done. injection Hp as Hp. by exists n.
Qed.
Lemma length_matches snapshots revision names :
  length (matches snapshots revision names) = length (List.filter (abbreviates snapshots revision) names).
Proof. unfold matches. by rewrite (Permutation_length (stable_sort_perm path_leb _)), length_fmap. Qed.

Lemma one_or {A} (l : list string) (f : string -> A) x :
  length l <> 1%nat -> match l with [p] => f p | _ => x end = x.
Proof. by destruct l as [|p [|]]. Qed.

Lemma resolve_revision_snapshot_spec repo_dir revision :
  match resolve_revision_snapshot repo_dir revision with
  | Ok snap => Resolves repo_dir revision snap
  | Err _ => forall snap, ~ Resolves repo_dir revision snap
  | Panic _ => False
  end.
Proof.
  unfold resolve_revision_snapshot. cbv zeta.
  destruct (is_file _) eqn:Hf.
  { destruct (read_to_string _) as [content|] eqn:Hc; cbn [ok_or mbind result_mbind].
    2:{ intros snap []; congruence. }
    destruct (String.eqb_spec (trim content) EmptyString) as [E|E].
    { intros snap []; congruence. }
    destruct (is_dir _) eqn:Hd; [by apply (resolves_ref _ _ content)|].
    intros snap []; congruence. }
  destruct (is_dir (path_join (path_join repo_dir "snapshots") revision)) eqn:Hd.
  { by apply resolves_direct. }
  destruct (is_dir (path_join repo_dir "snapshots")) eqn:Hs; [|intros snap []; congruence].
  destruct (dir_names (path_join repo_dir "snapshots")) as [names|] eqn:Hn; [|intros snap []; congruence].
  pose proof (length_matches (path_join repo_dir "snapshots") revision names) as Hlen.
  destruct (decide (length (matches (path_join repo_dir "snapshots") revision names) = 1%nat)) as [Hp|Hone].
  { destruct (matches _ _ _) as [|p [|]] eqn:Hm; try done.
    apply matches_one in Hm as (name & Hname & ->). by apply (resolves_prefix _ _ names). }
  rewrite one_or in * by done. rewrite Hlen in Hone.
  destruct (String.eqb_spec revision DEFAULT_HF_REVISION) as [Hr|Hr].
  - destruct (newest_snapshot _) as [best|] eqn:Hb.
    + apply (newest_snapshot_Some _ _ _ Hn) in Hb as (name & t & ? & -> & ? & ? & ?).
      by apply (resolves_newest _ _ names name t).
    + intros snap H. destruct H as [| |? ? ? ? ? E F|? ? t ? ? ? ? E ? Hin Hdir Ht Hmax]; [congruence..| |].
      * rewrite Hn in E. injection E as <-. apply Hone. by rewrite F.
      * rewrite Hn in E. injection E as <-.
        pose proof (newest_snapshot_None _ _ Hn Hb) as Hnone. rewrite Hnone in Hdir; [done| |done].
        intros m Hm Hdm. destruct (Hmax m Hm Hdm) as (t' & ? & _). by exists t'.
  - intros snap H. destruct H as [| |? ? ? ? ? E F|]; [congruence..| |congruence].
    rewrite Hn in E. injection E as <-. apply Hone. by rewrite F.
Qed.

(** ** What is chosen in a directory *)

Inductive Chosen (dir : string) : string -> Prop :=
  | chosen_single :
      is_file (path_join dir "model.safetensors") = true -> Chosen dir (path_join dir "model.safetensors")
  | chosen_index :
      is_file (path_join dir "model.safetensors") = false ->
      is_file (path_join dir "model.safetensors.index.json") = true ->
      Chosen dir (path_join dir "model.safetensors.index.json")
  | chosen_shard p :
      is_file (path_join dir "model.safetensors") = false ->
      is_file (path_join dir "model.safetensors.index.json") = false ->
      p ∈ dir_entries dir -> is_shard p = true ->
      (forall q, q ∈ dir_entries dir -> is_shard q = true -> path_leb p q = true) ->
      Chosen dir p
  | chosen_gguf p :
      is_file (path_join dir "model.safetensors") = false ->
      is_file (path_join dir "model.safetensors.index.json") = false ->
      (forall q, q ∈ dir_entries dir -> is_shard q = false) ->
      p ∈ dir_entries dir -> extension p = Some "gguf" ->
      (forall q, q ∈ dir_entries dir -> extension q = Some "gguf" -> gguf_leb p q = true) ->
      Chosen dir p.

Lemma path_leb_total a b : path_leb a b = true \/ path_leb b a = true.
Proof. apply components_leb_total. Qed.
Lemma path_leb_trans a b c : path_leb a b = true -> path_leb b c = true -> path_leb a c = true.
Proof. apply components_leb_trans. Qed.
Lemma gguf_leb_true a b :
  gguf_leb a b = true <-> score a < score b \/ score a = score b /\ path_leb a b = true.
Proof. unfold gguf_leb. destruct (Z.eqb_spec (score a) (score b)); rewrite ?Z.ltb_lt; intuition lia. Qed.
Lemma gguf_leb_total a b : gguf_leb a b = true \/ gguf_leb b a = true.
Proof.
  rewrite !gguf_leb_true. destruct (Z.lt_total (score a) (score b)) as [|[|]]; [auto| |auto].
  destruct (path_leb_total a b); auto.
Qed.
Lemma gguf_leb_trans a b c : gguf_leb a b = true -> gguf_leb b c = true -> gguf_leb a c = true.
Proof.
  rewrite !gguf_leb_true. intros [|[? H1]] [|[? H2]]; [lia..|]. right. split; [lia|]. by apply (path_leb_trans a b c).
Qed.

(** The first element of a sorted selection is a least one of those selected. *)
Lemma least_selected (leb : string -> string -> bool) (keep : string -> bool) l p :
  (forall a b, leb a b = true \/ leb b a = true) ->
  (forall a b c, leb a b = true -> leb b c = true -> leb a c = true) ->
  head (stable_sort leb (List.filter keep l)) = Some p ->
  p ∈ l /\ keep p = true /\ forall q, q ∈ l -> keep q = true -> leb p q = true.
Proof.
  intros Ht Htr H. destruct (stable_sort leb _) as [|x l'] eqn:E; [done|]. injection H as ->.
  apply stable_sort_head in E as [Hin Hall]; [|done..].
  rewrite list_elem_of_In, filter_In, <-list_elem_of_In in Hin. destruct Hin. split_and!; [done..|].
  rewrite Forall_forall in Hall. intros q Hq Hk. apply Hall.
  by rewrite list_elem_of_In, filter_In, <-list_elem_of_In.
Qed.
Lemma none_selected (leb : string -> string -> bool) (keep : string -> bool) l :
  head (stable_sort leb (List.filter keep l)) = None -> List.filter keep l = [] /\ forall q, q ∈ l -> keep q = false.
Proof.
  intros H. assert (E : List.filter keep l = []).
  { apply Permutation_nil_r. rewrite <-(stable_sort_perm leb). by destruct (stable_sort leb _). }
  split; [done|]. intros q Hq. apply not_true_iff_false. intros Hk.
  assert (Hin : q ∈ List.filter keep l) by by rewrite list_elem_of_In, filter_In, <-list_elem_of_In.
  rewrite E in Hin. by apply not_elem_of_nil in Hin.
Qed.

Lemma has_extension_true ext p : has_extension ext p = true <-> extension p = Some ext.
Proof. apply bool_decide_eq_true. Qed.

Lemma find_checkpoint_spec dir :
  match find_checkpoint dir with
  | Ok p => Chosen dir p
  | Err _ => is_file (path_join dir "model.safetensors") = false /\
             is_file (path_join dir "model.safetensors.index.json") = false /\
             forall p, p ∈ dir_entries dir -> is_shard p = false /\ extension p <> Some "gguf"
  | Panic _ => False
  end.
Proof.
  unfold find_checkpoint, find_safetensors_checkpoint.
  destruct (is_file (path_join dir "model.safetensors")) eqn:H1; [by apply chosen_single|].
  destruct (is_file (path_join dir "model.safetensors.index.json")) eqn:H2; [by apply chosen_index|].
  destruct (head _) as [p|] eqn:E; cbn [ok_or].
  { apply least_selected in E as (? & ? & ?); [|apply path_leb_total|apply path_leb_trans].
    by apply chosen_shard. }
  apply none_selected in E as [_ Hno]. unfold find_gguf_checkpoint.
  case_bool_decide as Hg.
  - split_and!; [done..|]. intros p Hp. split; [by apply Hno|]. intros He.
    apply has_extension_true in He.
    assert (Hin : p ∈ List.filter (has_extension "gguf") (dir_entries dir))
      by by rewrite list_elem_of_In, filter_In, <-list_elem_of_In.
    rewrite Hg in Hin. by apply not_elem_of_nil in Hin.
  - destruct (stable_sort gguf_leb _) as [|p l] eqn:E.
    { destruct Hg. apply Permutation_nil_r. rewrite <-(stable_sort_perm gguf_leb). by rewrite E. }
    assert (Eh : head (stable_sort gguf_leb (List.filter (has_extension "gguf") (dir_entries dir))) = Some p) by by rewrite E.
    apply least_selected in Eh as (Hin & Hk & Hmin); [|apply gguf_leb_total|apply gguf_leb_trans].
    apply chosen_gguf; [done..| |].
    + by apply has_extension_true.
    + intros q Hq He. apply Hmin; [done|]. by apply has_extension_true.
Qed.

(** ** The choice does not depend on the order of the directory *)

(** The names of a directory's entries: no separators, no [.] or [..]. *)
Definition entry_name (n : string) : Prop := has_slash n = false /\ segment_component n = Some (Normal n).

Lemma siblings_antisym dir p q :
  (forall names n, dir_names dir = Some names -> n ∈ names -> entry_name n) ->
  p ∈ dir_entries dir -> q ∈ dir_entries dir -> path_leb p q = true -> path_leb q p = true -> p = q.
Proof.
  unfold dir_entries. intros Hn Hp Hq H1 H2.
  destruct (dir_names dir) as [names|] eqn:E; [|by apply not_elem_of_nil in Hp].
  apply list_elem_of_fmap in Hp as (a & -> & Ha), Hq as (b & -> & Hb).
  pose proof (components_leb_antisym _ _ H1 H2) as Hc.
  destruct (Hn names a eq_refl Ha) as [Sa Ca], (Hn names b eq_refl Hb) as [Sb Cb].
  pose proof (file_name_join dir a Sa Ca) as Fa. pose proof (file_name_join dir b Sb Cb) as Fb.
  unfold file_name in Fa, Fb. rewrite Hc, Fb in Fa. injection Fa as ->. done.
Qed.

Lemma checkpoint_unique dir p q :
  (forall names n, dir_names dir = Some names -> n ∈ names -> entry_name n) ->
  Chosen dir p -> Chosen dir q -> p = q.
Proof.
  intros Hn Hp Hq. destruct Hp, Hq; try congruence.
  - eapply siblings_antisym; eauto.
  - match goal with H : forall q, q ∈ dir_entries dir -> is_shard q = false, H1 : ?p ∈ _, H2 : is_shard ?p = true |- _ =>
      by rewrite H in H2 end.
  - match goal with H : forall q, q ∈ dir_entries dir -> is_shard q = false, H1 : ?p ∈ _, H2 : is_shard ?p = true |- _ =>
      by rewrite H in H2 end.
  - assert (gguf_leb p p0 = true /\ gguf_leb p0 p = true) as [G1 G2] by auto.
    apply gguf_leb_true in G1, G2. destruct G1 as [|[? G1]], G2 as [|[? G2]]; [lia..|].
    eapply siblings_antisym; eauto.
Qed.

(** C20: A repository id is resolved to a snapshot of the local cache that the
    revision stands for and that holds weights, and to none only when the
    repository is not cached, the revision stands for nothing, or a snapshot it
    stands for holds no weights. In a resolved snapshot the checkpoint is the
    single SafeTensors file, the shard index, the least shard or the least GGUF
    file in the documented order; none is found only when every weight file is
    a SafeTensors file with [index] in its name. *)
Theorem resolve_hf_snapshot_spec repo_id revision :
  let repo_dir := path_join hf_hub_cache_dir (hf_repo_folder_name repo_id) in
  let wanted := default DEFAULT_HF_REVISION revision in
  match resolve_hf_snapshot repo_id revision with
  | Ok snap =>
      is_dir repo_dir = true /\ Resolves repo_dir wanted snap /\ has_weights snap /\
      match find_checkpoint snap with
      | Ok p => Chosen snap p
      | Err _ => forall p, p ∈ dir_entries snap ->
          extension p = Some "safetensors" \/ extension p = Some "gguf" ->
          extension p = Some "safetensors" /\ name_contains "index" p = true
      | Panic _ => False
      end
  | Err _ => is_dir repo_dir = false \/ (forall snap, ~ Resolves repo_dir wanted snap) \/
             exists snap, Resolves repo_dir wanted snap /\ ~ has_weights snap
  | Panic _ => False
  end.
Proof.
  cbv zeta. unfold resolve_hf_snapshot.
  destruct (is_dir _) eqn:Hd; cbn [negb]; [|by left].
  pose proof (resolve_revision_snapshot_spec (path_join hf_hub_cache_dir (hf_repo_folder_name repo_id))
                (default DEFAULT_HF_REVISION revision)) as Hr.
  destruct (resolve_revision_snapshot _ _) as [snap| |]; cbn [mbind result_mbind]; [|by right; left|done].
  pose proof (ensure_model_files_spec snap repo_id) as He.
  destruct (ensure_model_files snap repo_id); cbn [mbind result_mbind]; [|right; right; by exists snap|done].
  split_and!; [done..|]. pose proof (find_checkpoint_spec snap) as Hc.
  destruct (find_checkpoint snap); [done| |done]. destruct Hc as (_ & _ & Hno).
  intros p Hp Hx. destruct (Hno p Hp) as [Hs Hg]. destruct Hx as [Hx|Hx]; [|done]. split; [done|].
  unfold is_shard in Hs. apply has_extension_true in Hx. rewrite Hx in Hs. cbn in Hs.
  by apply negb_false_iff in Hs.
Qed.

End HfHub.

(** ** A cache with one repository *)

Module HubSample.
Definition root : string := "/hub/models--Maykeye--TinyLLama-v0".
Definition snapshot : string := "/hub/models--Maykeye--TinyLLama-v0/snapshots/abc1".
Definition host (weights : list string) : HostView := {|
  env_var v := if String.eqb v "HF_HUB_CACHE" then Some "/hub" else None;
  is_dir p := existsb (String.eqb p) [root; String.append root "/snapshots"; snapshot];
  is_file p := String.eqb p (String.append root "/refs/main");
  read_to_string p := if String.eqb p (String.append root "/refs/main")
                      then Some (String.append "abc1" (String newline EmptyString)) else None;
  dir_names p := if String.eqb p snapshot then Some weights
                 else if String.eqb p (String.append root "/snapshots") then Some ["abc1"] else None;
  modified p := Some 1;
|}.

Example folder_names :
  hf_repo_folder_name "Maykeye/TinyLLama-v0" = "models--Maykeye--TinyLLama-v0" /\
  hf_repo_folder_name " https://huggingface.co/Maykeye/TinyLLama-v0/ " = "models--Maykeye--TinyLLama-v0" /\
  hf_repo_folder_name "gpt2" = "models--gpt2".
Proof. by vm_compute. Qed.

(** The default revision, a commit prefix, and a revision that is unknown. *)
Example resolved :
  let _ := host ["config.json"; "tiny-Q8_0.gguf"; "tiny-q4_K.gguf"; "tiny-Q4_0.gguf"] in
  resolve_hf_snapshot "Maykeye/TinyLLama-v0" None = Ok snapshot /\
  resolve_hf_snapshot "Maykeye/TinyLLama-v0" (Some "ab") = Ok snapshot /\
  is_Err (resolve_hf_snapshot "Maykeye/TinyLLama-v0" (Some "xy")) = true /\
  is_Err (resolve_hf_snapshot "gpt2" None) = true /\
  find_checkpoint snapshot = Ok (String.append snapshot "/tiny-Q4_0.gguf").
Proof. by vm_compute. Qed.

(** A snapshot is accepted for a weight file the search then passes over. *)
Example index_in_name :
  let _ := host ["adapter-index.safetensors"] in
  resolve_hf_snapshot "Maykeye/TinyLLama-v0" None = Ok snapshot /\
  is_Err (find_checkpoint snapshot) = true.
Proof. by vm_compute. Qed.
End HubSample.
