(* ===== verification/PerfSample.v ===== *)
(** * Resource samples: crates/dyninfer-runtime/src/perf_sample.rs

    What the sampler reads from [/proc] and the DRM directory of sysfs, how it
    finds the directory of the selected GPU, how a phase's samples are
    summarised, and the sizes of the command line. The host is the class
    [HostView] of [HfHub]; the turns of the sampling thread are the list of
    what each of them saw. *)
From S2P Require Import Prelude Strings Errors Serde CoreTypes Floats Numbers Paths Names Target HfHub FloatArith.
From Stdlib Require Import ZArith Lia Ascii String SpecFloat Sorted.
From stdpp Require Import base list strings.
From stdpp Require Import options.

Local Open Scope Z_scope.

Record Sample := {
  sm_rss_bytes : Z;
  sm_cpu_pct : option f64;
  sm_gpu_busy_pct : option f64;
  sm_mem_busy_pct : option f64;
  sm_dedicated_vram_bytes : option Z;
  sm_gtt_bytes : option Z;
}.

Record PhaseSampleStats := {
  ps_peak_rss_bytes : Z;
  ps_cpu_avg_pct : option f64;
  ps_cpu_p50_pct : option f64;
  ps_cpu_p90_pct : option f64;
  ps_gpu_busy_avg_pct : option f64;
  ps_gpu_busy_p50_pct : option f64;
  ps_gpu_busy_p90_pct : option f64;
  ps_mem_busy_avg_pct : option f64;
  ps_mem_busy_p50_pct : option f64;
  ps_mem_busy_p90_pct : option f64;
  ps_peak_dedicated_vram_bytes : option Z;
  ps_peak_gtt_bytes : option Z;
  ps_sample_count : Z;
}.

(** ** Summaries *)

(** [x.floor() as usize] and [x.ceil() as usize] of a rank. *)
Definition floor_usize (x : f64) : Z := cast_int 0 u64_max x.
Definition ceil_usize (x : f64) : Z :=
  match x with
  | S754_finite false m e =>
      if 0 <=? e then floor_usize x else saturate 0 u64_max (- (- Zpos m / 2 ^ (- e)))
  | _ => cast_int 0 u64_max x
  end.

(** [values[i]] *)
Definition index_f64 (values : list f64) (i : Z) : Result f64 :=
  match values !! Z.to_nat i with
  | Some x => Ok x
  | None => Panic "index out of bounds"
  end.

Definition percentile_sorted (sorted : list f64) (p : f64) : Result f64 :=
  match sorted with
  | [] => Ok f64_zero
  | [x] => Ok x
  | _ =>
      let rank := f64_mul p (f64_sub (f64_of_Z (length_z sorted)) f64_one) in
      let lo := floor_usize rank in
      let hi := ceil_usize rank in
      if lo =? hi then index_f64 sorted lo
      else
        let w := f64_sub rank (f64_of_Z lo) in
        low ← index_f64 sorted lo;
        high ← index_f64 sorted hi;
        Ok (f64_add (f64_mul low (f64_sub f64_one w)) (f64_mul high w))
  end.

(** 0.50 and 0.90 *)
Definition p_50 : f64 := f64_of_bits 4602678819172646912.
Definition p_90 : f64 := f64_of_bits 4606281698874543309.

(** [a.partial_cmp(b).unwrap_or(Equal)] is not [Greater]. *)
Definition f64_leb (a b : f64) : bool := negb (SFltb b a).

(** Average, median and 90th percentile. *)
Definition percentile_summary (values : list f64) : Result (option f64 * option f64 * option f64) :=
  if bool_decide (values = []) then Ok (None, None, None)
  else
    let avg := f64_div (f64_sum values) (f64_of_Z (length_z values)) in
    let sorted := stable_sort f64_leb values in
    p50 ← percentile_sorted sorted p_50;
    p90 ← percentile_sorted sorted p_90;
    Ok (Some avg, Some p50, Some p90).

(** [iter.max()] *)
Definition max_z (l : list Z) : option Z :=
  match l with [] => None | x :: l => Some (foldl Z.max x l) end.

Definition aggregate_samples (samples : list Sample) : Result PhaseSampleStats :=
  if bool_decide (length samples = O) then
    Ok {| ps_peak_rss_bytes := 0; ps_cpu_avg_pct := None; ps_cpu_p50_pct := None; ps_cpu_p90_pct := None;
          ps_gpu_busy_avg_pct := None; ps_gpu_busy_p50_pct := None; ps_gpu_busy_p90_pct := None;
          ps_mem_busy_avg_pct := None; ps_mem_busy_p50_pct := None; ps_mem_busy_p90_pct := None;
          ps_peak_dedicated_vram_bytes := None; ps_peak_gtt_bytes := None; ps_sample_count := 0 |}
  else
    '(cpu_avg, cpu_p50, cpu_p90) ← percentile_summary (omap sm_cpu_pct samples);
    '(gpu_avg, gpu_p50, gpu_p90) ← percentile_summary (omap sm_gpu_busy_pct samples);
    '(mem_avg, mem_p50, mem_p90) ← percentile_summary (omap sm_mem_busy_pct samples);
    Ok {| ps_peak_rss_bytes := default 0 (max_z (sm_rss_bytes <$> samples));
          ps_cpu_avg_pct := cpu_avg; ps_cpu_p50_pct := cpu_p50; ps_cpu_p90_pct := cpu_p90;
          ps_gpu_busy_avg_pct := gpu_avg; ps_gpu_busy_p50_pct := gpu_p50; ps_gpu_busy_p90_pct := gpu_p90;
          ps_mem_busy_avg_pct := mem_avg; ps_mem_busy_p50_pct := mem_p50; ps_mem_busy_p90_pct := mem_p90;
          ps_peak_dedicated_vram_bytes := max_z (omap sm_dedicated_vram_bytes samples);
          ps_peak_gtt_bytes := max_z (omap sm_gtt_bytes samples);
          ps_sample_count := length_z samples |}.

(** ** Reading the host *)

(** [s.rsplit_once(p)] for a pattern: the parts around its last occurrence. *)
Fixpoint rsplit_once_str (p s : string) : option (string * string) :=
  let here := r ← Prelude.strip_prefix p s; Some (EmptyString, r) in
  match s with
  | EmptyString => here
  | String a s' =>
      match rsplit_once_str p s' with
      | Some (x, y) => Some (String a x, y)
      | None => here
      end
  end.

Definition is_hex (a : ascii) : bool := match hex_value a with Some _ => true | None => false end.
Fixpoint str_filter (f : ascii -> bool) (s : string) : string :=
  match s with
  | EmptyString => EmptyString
  | String a s => if f a then String a (str_filter f s) else str_filter f s
  end.

Definition normalize_gpu_id (value : string) : option string :=
  let device := match rsplit_once_str "://" (trim value) with Some (_, id) => id | None => trim value end in
  let hex := to_ascii_lowercase (str_filter is_hex device) in
  if String.eqb hex EmptyString then None
  else
    let trimmed := trim_start_matches "0" hex in
    Some (if String.eqb trimmed EmptyString then "0" else trimmed).

Definition card_index (path : string) : option Z :=
  name ← file_name path;
  name ← to_str name;
  digits ← Prelude.strip_prefix "card" name;
  parse_u32 digits.

Record GpuPaths := { gp_gpu_busy : string; gp_mem_busy : string; gp_vram_used : string; gp_gtt_used : string }.

Section Host.
Context {HV : HostView}.

Definition read_uevent_value (path key : string) : option string :=
  text ← read_to_string path;
  first_some (fun line => rest ← Prelude.strip_prefix key line; Prelude.strip_prefix "=" rest) (lines text).

Definition read_vm_rss_bytes : option Z :=
  status ← read_to_string "/proc/self/status";
  rest ← first_some (Prelude.strip_prefix "VmRSS:") (lines status);
  word ← head (split_whitespace rest);
  kb ← parse_u64 word;
  Some (saturating_mul kb 1024).

(** The 14th and 15th fields of the line, counted after the command name. *)
Definition read_process_cpu_ticks : option Z :=
  stat ← read_to_string "/proc/self/stat";
  '(_, after_comm) ← rsplit_once_str ") " stat;
  let fields := split_whitespace after_comm in
  utime ← fields !! 11%nat;
  utime ← parse_u64 utime;
  stime ← fields !! 12%nat;
  stime ← parse_u64 stime;
  Some (saturating_add utime stime).

Definition read_percent_file (path : string) : option f64 :=
  s ← read_to_string path; parse_f64 (trim s).
Definition read_u64_file (path : string) : option Z :=
  s ← read_to_string path; parse_u64 (trim s).

Definition has_gpu_metrics (paths : GpuPaths) : bool :=
  is_file (gp_gpu_busy paths) || is_file (gp_vram_used paths) || is_file (gp_gtt_used paths).

Definition paths_of (device : string) : GpuPaths :=
  {| gp_gpu_busy := path_join device "gpu_busy_percent"; gp_mem_busy := path_join device "mem_busy_percent";
     gp_vram_used := path_join device "mem_info_vram_used"; gp_gtt_used := path_join device "mem_info_gtt_used" |}.

Definition is_card (path : string) : bool :=
  match (n ← file_name path; to_str n) with
  | Some n => starts_with "card" n && negb (contains "-" n)
  | None => false
  end.
Definition card_leb (a b : string) : bool :=
  default u32_max (card_index a) <=? default u32_max (card_index b).

(** The card's device directory, when its driver is the expected one. *)
Definition candidate (expected_driver card : string) : option (string * GpuPaths) :=
  let device := path_join card "device" in
  if bool_decide (read_uevent_value (path_join device "uevent") "DRIVER" = Some expected_driver)
  then Some (device, paths_of device) else None.
Definition candidates (expected_driver : string) (entries : list string) : list (string * GpuPaths) :=
  omap (candidate expected_driver) (stable_sort card_leb (List.filter is_card entries)).

Definition expected_driver (driver : string) : option string :=
  if existsb (String.eqb driver) ["hip"; "rocm"] then Some "amdgpu"
  else if String.eqb driver "cuda" then Some "nvidia"
  else None.

(** The card's UUID is the target's, and it has something to read. *)
Definition has_uuid (uri_id : string) (c : string * GpuPaths) : bool :=
  has_gpu_metrics c.2 &&
  bool_decide ((id ← read_to_string (path_join c.1 "unique_id"); normalize_gpu_id id) = Some uri_id).

Definition discover_gpu_paths_at (drm : string) (target : TargetProfile) : option GpuPaths :=
  driver ← expected_driver (tp_driver target);
  names ← dir_names drm;
  let candidates := candidates driver (path_join drm <$> names) in
  let by_uuid := uri ← tp_device_uri target; id ← normalize_gpu_id uri; List.find (has_uuid id) candidates in
  match by_uuid with
  | Some (_, paths) => Some paths
  | None =>
      id ← tp_device_id target;
      '(_, paths) ← candidates !! Z.to_nat id;
      if has_gpu_metrics paths then Some paths else None
  end.
Definition discover_gpu_paths (target : option TargetProfile) : option GpuPaths :=
  target ← target; discover_gpu_paths_at "/sys/class/drm" target.

Definition take_sample (gpu : option GpuPaths) (cpu_pct : option f64) : Sample :=
  {| sm_rss_bytes := default 0 read_vm_rss_bytes;
     sm_cpu_pct := cpu_pct;
     sm_gpu_busy_pct := g ← gpu; read_percent_file (gp_gpu_busy g);
     sm_mem_busy_pct := g ← gpu; read_percent_file (gp_mem_busy g);
     sm_dedicated_vram_bytes := g ← gpu; read_u64_file (gp_vram_used g);
     sm_gtt_bytes := g ← gpu; read_u64_file (gp_gtt_used g) |}.
End Host.

(** ** The sampler *)

(** 1e-9 *)
Definition f64_nano : f64 := f64_of_bits 4472406533629990549.
(** [((now - prev) as f64 / TICKS_PER_SEC) / wall * 100.0], when the counter did
    not go back. *)
Definition cpu_percent (prev now : option Z) (elapsed : f64) : option f64 :=
  match prev, now with
  | Some prev, Some now =>
      if prev <=? now then
        let wall := float_max elapsed f64_nano in
        Some (f64_mul (f64_div (f64_div (f64_of_Z (now - prev)) (f64_of_Z 100)) wall) (f64_of_Z 100))
      else None
  | _, _ => None
  end.

(** What one turn of the worker sees: the time since the last one, and the host. *)
Record Turn := { tn_elapsed : f64; tn_host : HostView }.

Fixpoint worker_turns (gpu : option GpuPaths) (prev_cpu : option Z) (turns : list Turn) : list Sample :=
  match turns with
  | [] => []
  | t :: turns =>
      let cpu_now := @read_process_cpu_ticks (tn_host t) in
      let cpu_pct := cpu_percent prev_cpu cpu_now (tn_elapsed t) in
      @take_sample (tn_host t) gpu cpu_pct :: worker_turns gpu cpu_now turns
  end.

(** [samples.last_mut()] with its CPU percentage set. *)
Fixpoint set_last_cpu (pct : f64) (samples : list Sample) : list Sample :=
  match samples with
  | [] => []
  | [s] => [{| sm_rss_bytes := sm_rss_bytes s; sm_cpu_pct := Some pct; sm_gpu_busy_pct := sm_gpu_busy_pct s;
               sm_mem_busy_pct := sm_mem_busy_pct s; sm_dedicated_vram_bytes := sm_dedicated_vram_bytes s;
               sm_gtt_bytes := sm_gtt_bytes s |}]
  | s :: samples => s :: set_last_cpu pct samples
  end.

(** [PhaseSampler::start] on the host [started], whose worker takes the sample
    of [seeded] and then [turns] until it is stopped. *)
Record PhaseSampler := {
  pr_samples : list Sample;
  pr_start_cpu_ticks : option Z;
  pr_gpu : option GpuPaths;
}.
Definition sampler_start (target : option TargetProfile) (started seeded : HostView) (turns : list Turn) : PhaseSampler :=
  let gpu := @discover_gpu_paths started target in
  let ticks := @read_process_cpu_ticks started in
  {| pr_samples := @take_sample seeded gpu None :: worker_turns gpu ticks turns;
     pr_start_cpu_ticks := ticks; pr_gpu := gpu |}.

(** [PhaseSampler::stop], [elapsed] after the start, on the host [now]. *)
Definition sampler_stop (sampler : PhaseSampler) (elapsed : f64) (now : HostView) : Result PhaseSampleStats :=
  let samples := pr_samples sampler in
  let samples :=
    if forallb (fun s => negb (bool_decide (is_Some (sm_cpu_pct s)))) samples then
      match cpu_percent (pr_start_cpu_ticks sampler) (@read_process_cpu_ticks now) elapsed with
      | Some pct =>
          if bool_decide (length samples = O)
          then [{| sm_rss_bytes := default 0 (@read_vm_rss_bytes now); sm_cpu_pct := Some pct;
                   sm_gpu_busy_pct := None; sm_mem_busy_pct := None; sm_dedicated_vram_bytes := None;
                   sm_gtt_bytes := None |}]
          else set_last_cpu pct samples
      | None => samples
      end
    else samples in
  aggregate_samples (samples ++ [@take_sample now (pr_gpu sampler) None]).

(** ** Sizes on the command line *)

(** The number of bytes of the last character is one for a suffix. *)
Definition parse_token_count (s : string) : result text Z :=
  let s := trim s in
  if String.eqb s EmptyString then Err (lit "empty token count")
  else
    let '(num, mult) :=
      match last (list_ascii_of_string s) with
      | Some a =>
          if Ascii.eqb (ascii_lower a) "k" then (str_take (String.length s - 1) s, 1024)
          else if Ascii.eqb (ascii_lower a) "m" then (str_take (String.length s - 1) s, 1024 * 1024)
          else (s, 1)
      | None => (s, 1)
      end in
    n ← ok_or (parse_u64 num) (Format "invalid token count '{s}'" [AStr s]);
    ok_or (checked_mul n mult) (Format "token count overflow '{s}'" [AStr s]).

(** ** The fields of /proc/self/stat *)

Fixpoint no_paren (s : string) : bool :=
  match s with EmptyString => true | String a s => negb (Ascii.eqb a ")") && no_paren s end.
Definition is_field (s : string) : bool := is_word s && no_paren s.

Lemma no_paren_append a b : no_paren (String.append a b) = no_paren a && no_paren b.
Proof. induction a as [|c a IH]; [done|]. rewrite append_String. cbn [no_paren]. rewrite IH. apply andb_assoc. Qed.

Lemma line_of_no_paren ws : Forall (fun w => is_field w = true) ws -> no_paren (line_of ws) = true.
Proof.
  induction 1 as [|w ws Hw H IH]; [done|]. unfold is_field in Hw. apply andb_prop in Hw as [_ Hw].
  destruct ws as [|w' ws]; [cbn [line_of]; by rewrite no_paren_append, Hw|].
  change (line_of (w :: w' :: ws)) with (String.append w (String " " (line_of (w' :: ws)))).
  rewrite no_paren_append, Hw. exact IH.
Qed.

Lemma strip_paren a s : Ascii.eqb a ")" = false -> Prelude.strip_prefix ") " (String a s) = None.
Proof.
  intros Ha. destruct (Prelude.strip_prefix ") " (String a s)) as [r|] eqn:E; [|done].
  apply Prelude.strip_prefix_Some in E. injection E as -> _. done.
Qed.
Lemma rsplit_none s : no_paren s = true -> rsplit_once_str ") " s = None.
Proof.
  induction s as [|a s IH]; [done|]. cbn [no_paren]. intros [Ha%negb_true_iff Hs]%andb_prop.
  cbn [rsplit_once_str]. by rewrite (IH Hs), strip_paren.
Qed.
Lemma rsplit_last pre tail :
  no_paren tail = true -> rsplit_once_str ") " (String.append pre (String.append ") " tail)) = Some (pre, tail).
Proof.
  intros Ht. induction pre as [|a pre IH].
  - change (String.append EmptyString (String.append ") " tail)) with (String ")" (String " " tail)).
    cbn [rsplit_once_str]. rewrite (rsplit_none tail Ht), strip_paren by done. done.
  - rewrite append_String. cbn [rsplit_once_str]. by rewrite IH.
Qed.

(** Whatever the name of the command, blanks and closing parentheses
    included, the processor time read from [/proc/self/stat] is the sum of the
    fields 14 and 15 of the line, saturating. *)
Theorem cpu_ticks_any_command {HV : HostView} pid comm fields utime stime :
  read_to_string "/proc/self/stat" =
    Some (String.append (String.append pid (String.append " (" comm)) (String.append ") " (line_of fields))) ->
  Forall (fun w => is_field w = true) fields ->
  fields !! 11%nat = Some (decimal utime) -> fields !! 12%nat = Some (decimal stime) ->
  is_u64 utime -> is_u64 stime ->
  read_process_cpu_ticks = Some (saturating_add utime stime).
Proof.
  intros Hr Hf H11 H12 Hu Hs. unfold read_process_cpu_ticks. rewrite Hr. cbn [mbind option_bind].
  rewrite rsplit_last by by apply line_of_no_paren. cbn [mbind option_bind].
  rewrite split_whitespace_line.
  2: { eapply Forall_impl; [exact Hf|]. intros w. unfold is_field. by intros [? _]%andb_prop. }
  cbv zeta. rewrite H11, H12. cbn [mbind option_bind]. by rewrite !parse_u64_decimal.
Qed.

(** ** The directory of the selected GPU *)

Section Discovery.
Context {HV : HostView}.

(** The card directories of a driver. *)
Definition drives (driver card : string) : bool :=
  is_card card && bool_decide (read_uevent_value (path_join (path_join card "device") "uevent") "DRIVER" = Some driver).

Lemma card_leb_total a b : card_leb a b = true \/ card_leb b a = true.
Proof. unfold card_leb. rewrite !Z.leb_le. lia. Qed.
Lemma card_leb_trans a b c : card_leb a b = true -> card_leb b c = true -> card_leb a c = true.
Proof. unfold card_leb. rewrite !Z.leb_le. lia. Qed.

Lemma candidate_Some driver card c :
  candidate driver card = Some c <->
  read_uevent_value (path_join (path_join card "device") "uevent") "DRIVER" = Some driver /\
  c = (path_join card "device", paths_of (path_join card "device")).
Proof. unfold candidate. cbv zeta. case_bool_decide; naive_solver. Qed.

Lemma filter_perm {A} (f : A -> bool) l k : l ≡ₚ k -> List.filter f l ≡ₚ List.filter f k.
Proof.
  induction 1 as [|x l k _ IH|x y l|l k m _ IH1 _ IH2]; cbn; [done| | |by rewrite IH1].
  - destruct (f x); by rewrite IH.
  - destruct (f x), (f y); try done. apply Permutation_swap.
Qed.
Lemma filter_sorted {A} (R : A -> A -> Prop) (f : A -> bool) l :
  StronglySorted R l -> StronglySorted R (List.filter f l).
Proof.
  induction 1 as [|x l _ IH Hx]; cbn; [constructor|]. destruct (f x); [|done]. constructor; [done|].
  rewrite Forall_forall in *. intros y. rewrite list_elem_of_In, filter_In, <-list_elem_of_In. intros [? _]. auto.
Qed.
Lemma filter_twice {A} (f g : A -> bool) l : List.filter g (List.filter f l) = List.filter (fun x => f x && g x) l.
Proof. induction l as [|x l IH]; cbn; [done|]. destruct (f x); cbn; [|done]. destruct (g x); by rewrite IH. Qed.

(** The candidates are those of the driver's cards, by index. *)
Lemma candidates_cards driver entries :
  exists cards,
    cards ≡ₚ List.filter (drives driver) entries /\ StronglySorted (fun a b => card_leb a b = true) cards /\
    candidates driver entries = (fun card => (path_join card "device", paths_of (path_join card "device"))) <$> cards.
Proof.
  set (ok := fun card => bool_decide (read_uevent_value (path_join (path_join card "device") "uevent") "DRIVER" = Some driver)).
  set (l := stable_sort card_leb (List.filter is_card entries)).
  exists (List.filter ok l). split; [|split].
  - unfold l. rewrite (filter_perm ok _ _ (stable_sort_perm card_leb _)), filter_twice. done.
  - apply filter_sorted. apply stable_sort_sorted; [apply card_leb_total|apply card_leb_trans].
  - unfold candidates. fold l. clearbody l. induction l as [|card l IH]; [done|]. cbn [omap list_omap List.filter].
    unfold candidate at 1, ok at 1. cbv zeta. case_bool_decide; [cbn [fmap list_fmap]; by f_equal|done].
Qed.

(** The directory of a card, as the function returns it. *)
Definition card_paths (card : string) : GpuPaths := paths_of (path_join card "device").
Definition card_uuid (card : string) : option string :=
  id ← read_to_string (path_join (path_join card "device") "unique_id"); normalize_gpu_id id.

End Discovery.

(** ** Percentiles of a phase *)

(** A percentile of at least two values lies between two of them. *)
Lemma rank_range p n :
  Zpos p < 2 ^ 53 -> 2 ^ 52 <= Zpos p -> 2 <= n < 2 ^ 53 ->
  let rank := f64_mul (S754_finite false p (-53)) (f64_sub (f64_of_Z n) f64_one) in
  0 <= floor_usize rank < n /\ 0 <= ceil_usize rank < n.
Proof.
  intros Hp1 Hp2 Hn. cbv zeta. rewrite f64_pred by done.
  destruct (f64_mul_fraction p (n - 1) Hp1 Hp2 ltac:(lia)) as (a & e & -> & Hpos & Hneg).
  unfold ceil_usize, floor_usize, cast_int, cond_Zopp, float_trunc, saturate, u64_max.
  destruct (Z.leb_spec 0 e) as [He|He].
  - specialize (Hpos He). lia.
  - specialize (Hneg He). pose proof (Z.pow_pos_nonneg 2 (- e) ltac:(lia) ltac:(lia)) as H2.
    pose proof (Z.div_le_upper_bound (Zpos a) (2 ^ (- e)) (n - 1) H2 ltac:(lia)).
    pose proof (Z.div_le_lower_bound (- Zpos a) (2 ^ (- e)) (- (n - 1)) H2 ltac:(lia)). lia.
Qed.

Lemma index_f64_Ok values i : 0 <= i < length_z values -> exists x, index_f64 values i = Ok x.
Proof.
  unfold length_z. intros Hi. unfold index_f64.
  destruct (lookup_lt_is_Some_2 values (Z.to_nat i) ltac:(lia)) as [x ->]. by exists x.
Qed.

Lemma percentile_sorted_Ok values p :
  Zpos p < 2 ^ 53 -> 2 ^ 52 <= Zpos p -> length_z values < 2 ^ 53 ->
  exists x, percentile_sorted values (S754_finite false p (-53)) = Ok x.
Proof.
  intros Hp1 Hp2 Hl. unfold percentile_sorted. destruct values as [|x [|y l]]; [by eexists..|]. cbv zeta.
  set (values := x :: y :: l) in *.
  destruct (rank_range p (length_z values) Hp1 Hp2) as [H1 H2]; [unfold length_z, values in *; cbn [length] in *; lia|].
  destruct (index_f64_Ok values _ H1) as [a Ha]. destruct (index_f64_Ok values _ H2) as [b Hb].
  rewrite Ha, Hb. cbn [mbind result_mbind]. case_match; by eexists.
Qed.

Lemma percentile_summary_Ok values :
  length_z values < 2 ^ 53 -> exists r, percentile_summary values = Ok r.
Proof.
  intros Hl. unfold percentile_summary. case_bool_decide as Hne; [by eexists|]. cbv zeta.
  pose proof (Permutation_length (stable_sort_perm f64_leb values)) as Hlen.
  assert (Hs : length_z (stable_sort f64_leb values) < 2 ^ 53) by by unfold length_z; rewrite Hlen.
  change p_50 with (S754_finite false 4503599627370496 (-53)).
  change p_90 with (S754_finite false 8106479329266893 (-53)).
  destruct (percentile_sorted_Ok (stable_sort f64_leb values) 4503599627370496 ltac:(lia) ltac:(lia) Hs) as [a ->].
  destruct (percentile_sorted_Ok (stable_sort f64_leb values) 8106479329266893 ltac:(lia) ltac:(lia) Hs) as [b ->].
  by eexists.
Qed.

(** ** The samples of a phase *)

Lemma length_omap_le {A B} (f : A -> option B) l : (length (omap f l) <= length l)%nat.
Proof. induction l as [|x l IH]; cbn; [done|]. destruct (f x); cbn; lia. Qed.

Lemma max_z_spec l :
  match max_z l with
  | Some m => m ∈ l /\ forall x, x ∈ l -> x <= m
  | None => l = []
  end.
Proof.
  destruct l as [|x l]; [done|]. cbn [max_z].
  enough (H : forall a k, (foldl Z.max a k = a \/ foldl Z.max a k ∈ k) /\ a <= foldl Z.max a k /\ forall y, y ∈ k -> y <= foldl Z.max a k).
  { destruct (H x l) as ([->|Hin] & Hx & Hl); (split; [by (left || right)|]); intros y [->|Hy]%elem_of_cons; auto. }
  intros a k. revert a. induction k as [|b k IH]; intros a; cbn [foldl].
  { split; [by left|]. split; [lia|]. by intros y ?%not_elem_of_nil. }
  destruct (IH (Z.max a b)) as (H1 & H2 & H3). split; [|split; [lia|]].
  - destruct H1 as [->|Hin]; [|right; by right]. destruct (Z.max_spec a b) as [[_ ->]|[_ ->]]; [right; by left|by left].
  - intros y [->|Hy]%elem_of_cons; [lia|auto].
Qed.

Lemma aggregate_samples_spec samples :
  samples <> [] -> length_z samples < 2 ^ 53 ->
  exists stats, aggregate_samples samples = Ok stats /\ ps_sample_count stats = length_z samples /\
    (exists s, s ∈ samples /\ sm_rss_bytes s = ps_peak_rss_bytes stats) /\
    (forall s, s ∈ samples -> sm_rss_bytes s <= ps_peak_rss_bytes stats).
Proof.
  intros Hne Hl. unfold aggregate_samples. case_bool_decide as H0; [by destruct samples|].
  assert (Hp : forall f : Sample -> option f64, exists r, percentile_summary (omap f samples) = Ok r).
  { intros f. apply percentile_summary_Ok. unfold length_z in *. pose proof (length_omap_le f samples). lia. }
  destruct (Hp sm_cpu_pct) as [[[? ?] ?] ->], (Hp sm_gpu_busy_pct) as [[[? ?] ?] ->],
    (Hp sm_mem_busy_pct) as [[[? ?] ?] ->]. cbn [mbind result_mbind].
  eexists. split; [reflexivity|]. cbn [ps_sample_count ps_peak_rss_bytes]. split; [done|].
  pose proof (max_z_spec (sm_rss_bytes <$> samples)) as Hm. destruct (max_z _) as [m|].
  - destruct Hm as [Hin Hmax]. cbn [default from_option id]. split.
    + apply list_elem_of_fmap in Hin as (s & -> & Hs). by exists s.
    + intros s Hs. apply Hmax, list_elem_of_fmap. by exists s.
  - by destruct samples.
Qed.

Lemma length_worker_turns gpu prev turns : length (worker_turns gpu prev turns) = length turns.
Proof. revert prev. induction turns as [|t turns IH]; intros prev; [done|]. cbn. by rewrite IH. Qed.
Lemma length_set_last_cpu pct l : length (set_last_cpu pct l) = length l.
Proof. induction l as [|s [|s' l] IH]; [done..|]. cbn in *. by rewrite IH. Qed.

(** A sampler that is stopped always reports: one sample when it starts, one
    per turn and one when it stops. *)
Lemma sampler_reports target started seeded turns elapsed now :
  length_z turns < 2 ^ 53 - 2 ->
  exists stats, sampler_stop (sampler_start target started seeded turns) elapsed now = Ok stats /\
    ps_sample_count stats = length_z turns + 2.
Proof.
  intros Hl. unfold sampler_stop.
  match goal with |- context [aggregate_samples (?l ++ [?x])] => set (samples := l); set (final := x) end.
  assert (Hlen : length samples = S (length turns)).
  { subst samples. cbn [sampler_start pr_samples length].
    assert (Hs : length (@take_sample seeded (@discover_gpu_paths started target) None ::
       worker_turns (@discover_gpu_paths started target) (@read_process_cpu_ticks started) turns) = S (length turns)).
    { cbn [length]. by rewrite length_worker_turns. }
    repeat case_match; by rewrite ?length_set_last_cpu. }
  destruct (aggregate_samples_spec (samples ++ [final])) as (stats & Hr & Hc & _).
  - by destruct samples.
  - unfold length_z in *. rewrite length_app, Hlen. cbn [length]. lia.
  - exists stats. split; [done|]. rewrite Hc. unfold length_z. rewrite length_app, Hlen. cbn [length]. lia.
Qed.


(** ** Witnesses *)

Module PerfSamples.
(** [/proc/self/stat] of a command called [a) b]. *)
Definition fields : list string :=
  ["S"; "1"; "22"; "22"; "0"; "-1"; "4194304"; "90"; "0"; "0"; "0"; "250"; "30"; "0"; "0"; "20"].
Definition stat : string :=
  String.append (String.append "22" (String.append " (" "a) b")) (String.append ") " (line_of fields)).

(** Two cards of the driver, found in any order, and a connector. *)
Definition uuid_of (p : string) : option string :=
  if String.eqb p "/drm/card0/device/unique_id" then Some "0xaa"
  else if String.eqb p "/drm/card1/device/unique_id" then Some "0xbb" else None.
#[local] Instance host : HostView := {|
  env_var _ := None; is_dir _ := true; modified _ := None;
  is_file p := existsb (String.eqb p) ["/drm/card0/device/gpu_busy_percent"; "/drm/card1/device/gpu_busy_percent"];
  read_to_string p :=
    if String.eqb p "/proc/self/stat" then Some stat
    else if ends_with "/uevent" p then Some (String.append "DRIVER=amdgpu" (String newline EmptyString))
    else uuid_of p;
  dir_names p := if String.eqb p "/drm" then Some ["card1"; "card0-DP-1"; "card0"; "version"] else None;
|}.
Definition target (uri : string) (id : Z) : TargetProfile := {|
  tp_driver := "hip"; tp_device_id := Some id; tp_triple := None; tp_architecture := Some "gfx1151";
  tp_features := []; tp_capability_fingerprint := "digest"; tp_device_uri := Some uri;
  tp_device_name := None; tp_subgroup_size := None; tp_max_workgroup_invocations := None;
  tp_executable_target_flags := []; tp_verified := true |}.

Example discovered :
  discover_gpu_paths_at "/drm" (target "hip://GPU-00000000-0000-0000-0000-0000000000bb" 0) = Some (card_paths "/drm/card1") /\
  discover_gpu_paths_at "/drm" (target "hip://GPU-unmatched" 1) = Some (card_paths "/drm/card1") /\
  discover_gpu_paths_at "/drm" (target "hip://GPU-unmatched" 0) = Some (card_paths "/drm/card0") /\
  discover_gpu_paths_at "/drm" (target "hip://GPU-unmatched" 2) = None.
Proof. by vm_compute. Qed.

Example token_counts :
  parse_token_count "128" = Ok 128 /\ parse_token_count " 4k " = Ok 4096 /\ parse_token_count "4K" = Ok 4096 /\
  parse_token_count "1m" = Ok 1048576 /\ is_Err (parse_token_count EmptyString) = true /\
  is_Err (parse_token_count "xk") = true /\ is_Err (parse_token_count "18014398509481984k") = true.
Proof. by vm_compute. Qed.
End PerfSamples.

Lemma cpu_ticks_any_command_witness :
  @read_to_string PerfSamples.host "/proc/self/stat" = Some PerfSamples.stat /\ @read_process_cpu_ticks PerfSamples.host = Some 280.
Proof.
  split; [reflexivity|].
  refine (@cpu_ticks_any_command PerfSamples.host "22" "a) b" PerfSamples.fields 250 30 _ _ _ _ _ _).
  - reflexivity.
  - repeat constructor.
  - reflexivity.
  - reflexivity.
  - by vm_compute.
  - by vm_compute.
Defined.

