(* ===== verification/Mlir.v ===== *)
(** * The MLIR builders: crates/dyninfer-mlir

    [ModuleBuilder] (builder.rs) collects top-level fragments of assembly, each
    checked by parsing the module so far; [FuncBuilder] (func_builder.rs)
    writes one function. MLIR itself, reached through its C API, is the class
    [MlirApi]. *)
From S2P Require Import Prelude Strings Serde Floats Names Errors.
From Stdlib Require Import ZArith Lia Ascii String SpecFloat.
From stdpp Require Import base list strings gmap.
From stdpp Require Import options.

(** * Format strings: Rust's [format!], for the texts the compiler emits

    A template is a literal with holes; an environment gives the values of the
    captured variables and named arguments. The quotation marks of a literal
    are written as apostrophes, of which the emitted texts have none. *)

Local Open Scope Z_scope.

Definition quote_char : ascii := ascii_of_nat 34.
Definition nl : string := String newline EmptyString.

Inductive piece : Set := Lit (s : string) | Hole (name : string).

(** The text up to the first boundary and the pieces after it; [hole] tells
    whether the text is the name of a hole. A hole is named by everything
    between its braces, the format specification included. *)
Fixpoint pieces_from (hole : bool) (s : string) : string * list piece :=
  match s with
  | EmptyString => (EmptyString, [])
  | String c s' =>
      if hole then
        if Ascii.eqb c "}" then
          let '(text, rest) := pieces_from false s' in (EmptyString, Lit text :: rest)
        else let '(name, rest) := pieces_from true s' in (String c name, rest)
      else if Ascii.eqb c "{" then
        match s' with
        | String "{" s'' => let '(text, rest) := pieces_from false s'' in (String "{" text, rest)
        | _ => let '(name, rest) := pieces_from true s' in (EmptyString, Hole name :: rest)
        end
      else if Ascii.eqb c "}" then
        match s' with
        | String "}" s'' => let '(text, rest) := pieces_from false s'' in (String "}" text, rest)
        | _ => let '(text, rest) := pieces_from false s' in (text, rest)
        end
      else
        let '(text, rest) := pieces_from false s' in
        (String (if Ascii.eqb c "'" then quote_char else c) text, rest)
  end.
Definition template (s : string) : list piece :=
  let '(text, rest) := pieces_from false s in Lit text :: rest.

Definition env := list (string * string).

Fixpoint env_get (e : env) (name : string) : string :=
  match e with
  | [] => EmptyString
  | (k, v) :: e => if String.eqb k name then v else env_get e name
  end.

Fixpoint render (e : env) (ps : list piece) : string :=
  match ps with
  | [] => EmptyString
  | Lit s :: ps => String.append s (render e ps)
  | Hole name :: ps => String.append (env_get e name) (render e ps)
  end.

(** [format!(s)] with the variables of [e]. *)
Definition fmt (e : env) (s : string) : string := render e (template s).

(** ** Values *)

(** [Display] of unsigned integers. *)
Definition num (n : Z) : string := decimal n.
(** Of signed ones. *)
Definition snum (n : Z) : string :=
  if n <? 0 then String.append "-" (decimal (- n)) else decimal n.

(** [l.join(separator)] *)
Fixpoint join_with (separator : string) (l : list string) : string :=
  match l with
  | [] => EmptyString
  | [s] => s
  | s :: l => String.append s (String.append separator (join_with separator l))
  end.

(** A rational to an integer, the nearest, ties to even. *)
Definition round_div (n d : Z) : Z :=
  let q := n / d in
  let r := n mod d in
  match Z.compare (2 * r) d with
  | Lt => q
  | Gt => q + 1
  | Eq => if Z.even q then q else q + 1
  end.

(** [decimal n], with zeros in front up to [width] digits. *)
Fixpoint zeros (n : nat) : string :=
  match n with O => EmptyString | S n => String "0" (zeros n) end.
Definition padded (width : nat) (n : Z) : string :=
  let s := decimal n in String.append (zeros (width - String.length s)) s.

(** The greatest [k] with [10 ^ k <= n / d], for positive [n] and [d]. *)
Fixpoint log10_up (fuel : nat) (k n d : Z) : Z :=
  match fuel with
  | O => k
  | S fuel => if 10 * d <=? n then log10_up fuel (k + 1) n (10 * d) else k
  end.
Fixpoint log10_down (fuel : nat) (k n d : Z) : Z :=
  match fuel with
  | O => k
  | S fuel => if n <? d then log10_down fuel (k - 1) (10 * n) d else k
  end.
Definition log10 (n d : Z) : Z :=
  if n <? d then log10_down 400 0 n d else log10_up 400 0 n d.

(** [format!(":.{digits}e")]: one digit, the fraction, the exponent. *)
Definition fmt_exp_positive (digits : nat) (n d : Z) : string :=
  let k := log10 n d in
  let scaled := Z.of_nat digits - k in
  let q := if 0 <=? scaled then round_div (n * 10 ^ scaled) d else round_div n (d * 10 ^ (- scaled)) in
  let '(q, k) := if q =? 10 ^ (Z.of_nat digits + 1) then (q / 10, k + 1) else (q, k) in
  let lead := q / 10 ^ Z.of_nat digits in
  let rest := q mod 10 ^ Z.of_nat digits in
  String.append (decimal lead)
    (String.append (match digits with O => EmptyString | _ => String.append "." (padded digits rest) end)
      (String.append "e" (snum k))).

Definition ratio (m : positive) (e : Z) : Z * Z :=
  if 0 <=? e then (Zpos m * 2 ^ e, 1) else (Zpos m, 2 ^ (- e)).

Definition minus (s : bool) (t : string) : string := if s then String.append "-" t else t.

Definition fmt_exp (digits : nat) (x : spec_float) : string :=
  match x with
  | S754_nan => "NaN"
  | S754_infinity s => minus s "inf"
  | S754_zero s => minus s (String.append "0"
      (String.append (match digits with O => EmptyString | _ => String.append "." (zeros digits) end) "e0"))
  | S754_finite s m e => let '(n, d) := ratio m e in minus s (fmt_exp_positive digits n d)
  end.

(** [format!(":.{digits}")] *)
Definition fmt_fixed (digits : nat) (x : spec_float) : string :=
  match x with
  | S754_nan => "NaN"
  | S754_infinity s => minus s "inf"
  | S754_zero s => minus s (String.append "0"
      (match digits with O => EmptyString | _ => String.append "." (zeros digits) end))
  | S754_finite s m e =>
      let '(n, d) := ratio m e in
      let q := round_div (n * 10 ^ Z.of_nat digits) d in
      minus s (String.append (decimal (q / 10 ^ Z.of_nat digits))
        (match digits with
         | O => EmptyString
         | _ => String.append "." (padded digits (q mod 10 ^ Z.of_nat digits))
         end))
  end.

(** 0.1, 1e-5 and 1000000.0 as [f32]. *)
Example fmt_examples :
  fmt [("s", num 4); ("h", num 64)] "tensor<{s}x{h}xf32> ['parallel'] {{noinline}}"
    = String.append "tensor<4x64xf32> [" (String quote_char (String.append "parallel"
        (String quote_char "] {noinline}"))) /\
  fmt_exp 8 (f32_of_bits 1036831949) = "1.00000001e-1" /\
  fmt_exp 8 (f32_of_bits 925353388) = "9.99999975e-6" /\
  fmt_exp 8 (f32_of_bits 1232348160) = "1.00000000e6" /\
  fmt_fixed 1 (f32_of_Z 2048) = "2048.0".
Proof. repeat split; vm_compute; reflexivity. Qed.


(** ** State with errors *)

(** A computation that owns a builder: on an error the builder is dropped. *)
Definition Emit (S A : Type) : Type := S -> Result (A * S).
#[export] Instance emit_ret {S} : MRet (Emit S) := fun A a s => Ok (a, s).
#[export] Instance emit_bind {S} : MBind (Emit S) := fun A B k m s => '(a, s) ← m s; k a s.

Definition modify {S} (f : S -> S) : Emit S unit := fun s => Ok (tt, f s).
Definition lift {S A} (r : Result A) : Emit S A := fun s => a ← r; Ok (a, s).
Fixpoint emit_each {S A} (f : A -> Emit S unit) (l : list A) : Emit S unit :=
  match l with
  | [] => mret tt
  | a :: l => _ ← f a; emit_each f l
  end.
(** [if b { m }] *)
Definition emit_if {S} (b : bool) (m : Emit S unit) : Emit S unit := if b then m else mret tt.

(** ** builder.rs *)

(** The C API: a context, and modules parsed, verified and printed in it. *)
Class MlirApi := {
  mlir_module : Type;
  context_new : Result unit;
  module_parse : string -> Result mlir_module;
  module_verify : mlir_module -> Result unit;
  module_print : mlir_module -> string;
}.

Section Builders.
Context {ML : MlirApi}.

Record ModuleBuilder := {
  md_module_name : option string;
  md_toplevel : list string;
  md_verified_text : option string;
}.

Definition ModuleBuilder_new : Result ModuleBuilder :=
  _ ← context_new;
  Ok {| md_module_name := None; md_toplevel := []; md_verified_text := None |}.
Definition new_named (name : string) : Result ModuleBuilder :=
  b ← ModuleBuilder_new;
  Ok {| md_module_name := Some name; md_toplevel := md_toplevel b;
        md_verified_text := md_verified_text b |}.

(** The fragments, each ended by a newline. *)
Fixpoint push_lines (l : list string) : string :=
  match l with
  | [] => EmptyString
  | op :: l => String.append op (String.append (if ends_with nl op then EmptyString else nl) (push_lines l))
  end.
Definition module_source (b : ModuleBuilder) : string :=
  String.append
    (match md_module_name b with
     | Some name => fmt [("name", name)] "module @{name} {{
"
     | None => "module {
"
     end)
    (String.append (push_lines (md_toplevel b)) "}
").
Definition materialize (b : ModuleBuilder) : Result mlir_module := module_parse (module_source b).

Definition append_toplevel_asm (asm : string) : Emit ModuleBuilder unit := fun b =>
  let trimmed := trim asm in
  if bool_decide (trimmed = EmptyString) then Ok (tt, b)
  else
    let b' := {| md_module_name := md_module_name b; md_toplevel := md_toplevel b ++ [trimmed];
                 md_verified_text := None |} in
    _ ← materialize b'; Ok (tt, b').

(** dialect/util.rs *)
Definition util_global_parameter (sym key ty_asm : string) : Emit ModuleBuilder unit :=
  append_toplevel_asm (fmt [("sym", sym); ("key", key); ("ty_asm", ty_asm)]
    "util.global private @{sym} = #stream.parameter.named<'weights'::'{key}'> : {ty_asm}").
Definition util_global_mutable_zero (sym ty_asm : string) : Emit ModuleBuilder unit :=
  append_toplevel_asm (fmt [("sym", sym); ("ty_asm", ty_asm)]
    "util.global private mutable @{sym} = dense<0.0> : {ty_asm}").
(** dialect/func.rs *)
Definition func_asm (asm : string) : Emit ModuleBuilder unit := append_toplevel_asm asm.

Definition verify_builder (b : ModuleBuilder) : Result ModuleBuilder :=
  m ← materialize b;
  _ ← module_verify m;
  Ok {| md_module_name := md_module_name b; md_toplevel := md_toplevel b;
        md_verified_text := Some (module_print m) |}.

Definition print_builder (b : ModuleBuilder) : string :=
  match md_verified_text b with
  | Some text => text
  | None => match materialize b with Ok m => module_print m | _ => EmptyString end
  end.

Definition mlir_err (message : text) (pass : string) : DynInferError :=
  Compilation {| ce_message := message; ce_pass := Some pass; ce_diagnostics := [] |}.

Definition finish_module (b : ModuleBuilder) : Result string :=
  b ← (match md_verified_text b with Some _ => Ok b | None => verify_builder b end);
  match md_verified_text b with
  | Some t => Ok t
  | None => Err (mlir_err (lit "verify produced no text") "mlir-finish")
  end.

(** [body.rfind(c)]: the text before the last [c]. *)
Fixpoint before_last (c : ascii) (s : string) : option string :=
  match s with
  | EmptyString => None
  | String a s =>
      match before_last c s with
      | Some l => Some (String a l)
      | None => if Ascii.eqb a c then Some EmptyString else None
      end
  end.
Definition extract_module_body (printed : string) : list string :=
  let body := trim printed in
  let body :=
    match Prelude.strip_prefix "module" body with
    | Some rest =>
        let body := trim_start rest in
        let body := match split_once "{" body with Some (_, after) => after | None => body end in
        default body (before_last "}" body)
    | None => body
    end in
  let trimmed := trim body in
  if bool_decide (trimmed = EmptyString) then [] else [trimmed].

Definition parse_source (source : string) (b : ModuleBuilder) : Result ModuleBuilder :=
  m ← module_parse source;
  Ok {| md_module_name := md_module_name b; md_toplevel := extract_module_body (module_print m);
        md_verified_text := None |}.

(** lib.rs *)
Definition parse_verify_print (source : string) : Result string :=
  b ← ModuleBuilder_new;
  b ← parse_source source b;
  b ← verify_builder b;
  Ok (print_builder b).

(** ** func_builder.rs *)

Record FuncBuilder := {
  fb_name : string;
  fb_private : bool;
  fb_args : list (string * string);
  fb_results : list string;
  fb_body : list string;
  fb_next_id : Z;
  fb_attrs : option string;
}.

Definition FuncBuilder_new (name : string) (private : bool) : FuncBuilder :=
  {| fb_name := name; fb_private := private; fb_args := []; fb_results := []; fb_body := [];
     fb_next_id := 0; fb_attrs := None |}.

Definition with_body (l : list string) (f : FuncBuilder) : FuncBuilder :=
  {| fb_name := fb_name f; fb_private := fb_private f; fb_args := fb_args f; fb_results := fb_results f;
     fb_body := l; fb_next_id := fb_next_id f; fb_attrs := fb_attrs f |}.

Definition attrs (a : string) : Emit FuncBuilder unit := modify (fun f =>
  {| fb_name := fb_name f; fb_private := fb_private f; fb_args := fb_args f; fb_results := fb_results f;
     fb_body := fb_body f; fb_next_id := fb_next_id f; fb_attrs := Some a |}).

(** value.rs: an SSA name, shown with its percent sign. *)
Definition ssa (v : string) : string := String "%" v.

Definition arg_attrs (name ty attributes : string) : Emit FuncBuilder string := fun f =>
  let attributes := trim attributes in
  let ty := if bool_decide (attributes = EmptyString) then ty
            else fmt [("", ty); ("attrs", attributes)] "{} {attrs}" in
  Ok (name, {| fb_name := fb_name f; fb_private := fb_private f; fb_args := fb_args f ++ [(name, ty)];
               fb_results := fb_results f; fb_body := fb_body f; fb_next_id := fb_next_id f;
               fb_attrs := fb_attrs f |}).
Definition arg (name ty : string) : Emit FuncBuilder string := arg_attrs name ty "".

Definition returns (tys : list string) : Emit FuncBuilder unit := modify (fun f =>
  {| fb_name := fb_name f; fb_private := fb_private f; fb_args := fb_args f;
     fb_results := fb_results f ++ tys; fb_body := fb_body f; fb_next_id := fb_next_id f;
     fb_attrs := fb_attrs f |}).
Definition result_ty (ty : string) : Emit FuncBuilder unit := returns [ty].

Definition alloc (hint : string) : Emit FuncBuilder string := fun f =>
  Ok (fmt [("hint", hint); ("id", num (fb_next_id f))] "_{hint}{id}",
      {| fb_name := fb_name f; fb_private := fb_private f; fb_args := fb_args f;
         fb_results := fb_results f; fb_body := fb_body f; fb_next_id := wrap32 (fb_next_id f + 1);
         fb_attrs := fb_attrs f |}).

Definition push (line : string) : Emit FuncBuilder unit :=
  modify (fun f => with_body (fb_body f ++ [line]) f).

Definition op_asm (asm : string) : Emit FuncBuilder unit :=
  let trimmed := trim_end asm in
  if bool_decide (trimmed = EmptyString) then mret tt else push trimmed.

(** An operation whose result is a new value, or one of a given name. *)
Definition define (v : string) (e : env) (line : string) : Emit FuncBuilder string :=
  _ ← push (fmt (("v", ssa v) :: e) line); mret v.
Definition fresh (hint : string) (e : env) (line : string) : Emit FuncBuilder string :=
  v ← alloc hint; define v e line.

Definition global_load_line : string := "  {v} = util.global.load @{sym} : {ty}".
Definition global_load (sym ty : string) : Emit FuncBuilder string :=
  fresh "ld" [("sym", sym); ("ty", ty)] global_load_line.
Definition global_load_as (v sym ty : string) : Emit FuncBuilder string :=
  define v [("sym", sym); ("ty", ty)] global_load_line.
Definition global_store (sym val ty : string) : Emit FuncBuilder unit :=
  push (fmt [("val", ssa val); ("sym", sym); ("ty", ty)] "  util.global.store {val}, @{sym} : {ty}").

Definition index_line : string := "  {v} = arith.constant {value} : index".
Definition constant_index (value : Z) : Emit FuncBuilder string :=
  fresh "c" [("value", snum value)] index_line.
Definition constant_index_as (v : string) (value : Z) : Emit FuncBuilder string :=
  define v [("value", snum value)] index_line.
Definition f32_line : string := "  {v} = arith.constant {lit} : f32".
Definition constant_f32 (literal : string) : Emit FuncBuilder string := fresh "cst" [("lit", literal)] f32_line.
Definition constant_f32_as (v literal : string) : Emit FuncBuilder string :=
  define v [("lit", literal)] f32_line.
Definition constant_typed (literal ty : string) : Emit FuncBuilder string :=
  fresh "cst" [("lit", literal); ("ty", ty)] "  {v} = arith.constant {lit} : {ty}".

Definition cast_env (src from_ty to_ty : string) : env :=
  [("src", ssa src); ("from_ty", from_ty); ("to_ty", to_ty)].
Definition extf_line : string := "  {v} = arith.extf {src} : {from_ty} to {to_ty}".
Definition extf (src from_ty to_ty : string) : Emit FuncBuilder string :=
  fresh "ext" (cast_env src from_ty to_ty) extf_line.
Definition extf_as (v src from_ty to_ty : string) : Emit FuncBuilder string :=
  define v (cast_env src from_ty to_ty) extf_line.
Definition index_cast_line : string := "  {v} = arith.index_cast {src} : {from_ty} to {to_ty}".
Definition index_cast (src from_ty to_ty : string) : Emit FuncBuilder string :=
  fresh "ic" (cast_env src from_ty to_ty) index_cast_line.
Definition index_cast_as (v src from_ty to_ty : string) : Emit FuncBuilder string :=
  define v (cast_env src from_ty to_ty) index_cast_line.

Definition binary_env (a b ty : string) : env := [("a", ssa a); ("b", ssa b); ("ty", ty)].
Definition addf (a b ty : string) := fresh "add" (binary_env a b ty) "  {v} = arith.addf {a}, {b} : {ty}".
Definition mulf (a b ty : string) := fresh "mul" (binary_env a b ty) "  {v} = arith.mulf {a}, {b} : {ty}".
Definition divf (a b ty : string) := fresh "div" (binary_env a b ty) "  {v} = arith.divf {a}, {b} : {ty}".
Definition subf (a b ty : string) := fresh "sub" (binary_env a b ty) "  {v} = arith.subf {a}, {b} : {ty}".
Definition negf (a ty : string) := fresh "neg" [("a", ssa a); ("ty", ty)] "  {v} = arith.negf {a} : {ty}".
Definition addi (a b ty : string) := fresh "addi" (binary_env a b ty) "  {v} = arith.addi {a}, {b} : {ty}".
Definition remui (a b ty : string) := fresh "rem" (binary_env a b ty) "  {v} = arith.remui {a}, {b} : {ty}".
Definition cmpi (pred a b ty : string) :=
  fresh "cmp" (("pred", pred) :: binary_env a b ty) "  {v} = arith.cmpi {pred}, {a}, {b} : {ty}".
Definition select (cond a b ty : string) :=
  fresh "sel" (("cond", ssa cond) :: binary_env a b ty) "  {v} = arith.select {cond}, {a}, {b} : {ty}".
Definition math_sqrt (a ty : string) := fresh "sqrt" [("a", ssa a); ("ty", ty)] "  {v} = math.sqrt {a} : {ty}".
Definition math_exp (a ty : string) := fresh "exp" [("a", ssa a); ("ty", ty)] "  {v} = math.exp {a} : {ty}".

Definition tensor_empty_line : string := "  {v} = tensor.empty() : {ty}".
Definition tensor_empty (ty : string) : Emit FuncBuilder string := fresh "empty" [("ty", ty)] tensor_empty_line.
Definition tensor_empty_as (v ty : string) : Emit FuncBuilder string := define v [("ty", ty)] tensor_empty_line.
Definition tensor_extract_line : string := "  {v} = tensor.extract {src}[{indices}] : {ty}".
Definition tensor_extract (src indices ty : string) : Emit FuncBuilder string :=
  fresh "ex" [("src", ssa src); ("indices", indices); ("ty", ty)] tensor_extract_line.
Definition tensor_extract_as (v src indices ty : string) : Emit FuncBuilder string :=
  define v [("src", ssa src); ("indices", indices); ("ty", ty)] tensor_extract_line.
Definition tensor_extract_slice (src offsets sizes strides from_ty to_ty : string) : Emit FuncBuilder string :=
  fresh "slice" (("offsets", offsets) :: ("sizes", sizes) :: ("strides", strides) :: cast_env src from_ty to_ty)
    "  {v} = tensor.extract_slice {src}[{offsets}] [{sizes}] [{strides}] : {from_ty} to {to_ty}".
Definition tensor_insert_slice (src dst offsets sizes strides src_ty dst_ty : string) : Emit FuncBuilder string :=
  fresh "ins" [("src", ssa src); ("dst", ssa dst); ("offsets", offsets); ("sizes", sizes);
               ("strides", strides); ("src_ty", src_ty); ("dst_ty", dst_ty)]
    "  {v} = tensor.insert_slice {src} into {dst}[{offsets}] [{sizes}] [{strides}] : {src_ty} into {dst_ty}".
Definition expand_shape (src reassoc from_ty to_ty : string) : Emit FuncBuilder string :=
  fresh "exp" (("reassoc", reassoc) :: cast_env src from_ty to_ty)
    "  {v} = tensor.expand_shape {src} {reassoc} : {from_ty} into {to_ty}".
Definition collapse_shape (src reassoc from_ty to_ty : string) : Emit FuncBuilder string :=
  fresh "col" (("reassoc", reassoc) :: cast_env src from_ty to_ty)
    "  {v} = tensor.collapse_shape {src} {reassoc} : {from_ty} into {to_ty}".

Definition linalg_fill (scalar init ty : string) : Emit FuncBuilder string :=
  fresh "fill" [("scalar", ssa scalar); ("init", ssa init); ("ty", ty)]
    "  {v} = linalg.fill ins({scalar} : f32) outs({init} : {ty}) -> {ty}".
Definition matmul_env (a b c a_ty b_ty c_ty : string) : env :=
  [("a", ssa a); ("b", ssa b); ("c", ssa c); ("a_ty", a_ty); ("b_ty", b_ty); ("c_ty", c_ty)].
Definition linalg_matmul (a b c a_ty b_ty c_ty : string) : Emit FuncBuilder string :=
  fresh "mm" (matmul_env a b c a_ty b_ty c_ty)
    "  {v} = linalg.matmul ins({a}, {b} : {a_ty}, {b_ty}) outs({c} : {c_ty}) -> {c_ty}".
Definition linalg_batch_matmul (a b c a_ty b_ty c_ty : string) : Emit FuncBuilder string :=
  fresh "bmm" (matmul_env a b c a_ty b_ty c_ty)
    "  {v} = linalg.batch_matmul ins({a}, {b} : {a_ty}, {b_ty}) outs({c} : {c_ty}) -> {c_ty}".
Definition linalg_transpose (src init perm from_ty to_ty : string) : Emit FuncBuilder string :=
  fresh "tr" (("init", ssa init) :: ("perm", perm) :: cast_env src from_ty to_ty)
    "  {v} = linalg.transpose ins({src} : {from_ty}) outs({init} : {to_ty}) permutation = {perm}".
Definition linalg_softmax (src init : string) (dimension : Z) (ty : string) : Emit FuncBuilder string :=
  fresh "sm" [("src", ssa src); ("init", ssa init); ("dimension", num dimension); ("ty", ty)]
    "  {v} = linalg.softmax dimension({dimension}) ins({src} : {ty}) outs({init} : {ty}) -> {ty}".

Definition call_env (callee : string) (args : list string) (func_ty : string) : env :=
  [("callee", callee); ("args_s", join_with ", " (ssa <$> args)); ("func_ty", func_ty)].
Definition call_line : string := "  {v} = func.call @{callee}({args_s}) : {func_ty}".
Definition call_ty (callee : string) (args : list string) (func_ty : string) : Emit FuncBuilder string :=
  fresh "call" (call_env callee args func_ty) call_line.
Definition call_ty_as (v callee : string) (args : list string) (func_ty : string) : Emit FuncBuilder string :=
  define v (call_env callee args func_ty) call_line.
Definition ret_ty (vals : list string) (tys : string) : Emit FuncBuilder unit :=
  push (fmt [("vs", join_with ", " (ssa <$> vals)); ("tys", tys)] "  return {vs} : {tys}").

Definition arg_text (a : string * string) : string := fmt [("n", a.1); ("t", a.2)] "%{n}: {t}".
Definition rets_text (results : list string) : string :=
  match results with
  | [] => EmptyString
  | [r] => fmt [("", r)] " -> {}"
  | _ => fmt [("", join_with ", " results)] " -> ({})"
  end.
Definition to_asm (f : FuncBuilder) : string :=
  String.append
    (fmt [("priv_kw", if fb_private f then " private" else EmptyString); ("name", fb_name f);
          ("args", join_with ", " (arg_text <$> fb_args f)); ("rets", rets_text (fb_results f));
          ("attr", match fb_attrs f with Some a => fmt [("a", a)] " attributes {a}" | None => EmptyString end)]
       "func.func{priv_kw} @{name}({args}){rets}{attr} {{
")
    (String.append (push_lines (fb_body f)) "}
").

(** [let mut f = module.func(name); body; f.finish(module)] *)
Definition emit_function (private : bool) (name : string) (body : Emit FuncBuilder unit)
    : Emit ModuleBuilder unit := fun b =>
  '(_, f) ← body (FuncBuilder_new name private);
  append_toplevel_asm (to_asm f) b.
Definition func_private := emit_function true.
Definition func := emit_function false.

End Builders.
