(* ===== verification/Symbols.v ===== *)
(** * The symbols of MLIR assembly

    A scanner that lists the symbols a text declares and refers to, in order,
    and its abstract interpretation on templates: the symbols of a formatted
    text are those of the template, with the values of the holes in the names. *)
From S2P Require Import Prelude Strings Names Mlir.
From Stdlib Require Import ZArith Lia Ascii String.
From stdpp Require Import base list strings gmap.
From stdpp Require Import options.

Local Open Scope Z_scope.

(** ** The scanner *)

(** A symbol after an at sign, and whether the operation before it declares it. *)
Definition symbol : Type := bool * string.

Inductive scan_state : Set :=
  (** Outside names and strings: the word being read and the one before it. *)
  | Text (cur last : string)
  | Quoted
  | Escaped
  | Name (declared : bool) (name : string).

Definition is_blank (c : ascii) : bool :=
  let n := N_of_ascii c in N.eqb n 32 || (N.leb 9 n && N.leb n 13).
Definition is_digit (c : ascii) : bool :=
  let n := N_of_ascii c in N.leb 48 n && N.leb n 57.
(** The characters of a suffix identifier. *)
Definition is_name_char (c : ascii) : bool :=
  let n := N_of_ascii c in
  is_digit c || (N.leb 65 n && N.leb n 90) || (N.leb 97 n && N.leb n 122) ||
  Ascii.eqb c "_" || Ascii.eqb c "." || Ascii.eqb c "-" || Ascii.eqb c "$".

(** The words before a declared symbol: a visibility, or the operation itself. *)
Definition is_declaring (word : string) : bool :=
  String.eqb word "private" || String.eqb word "mutable" || String.eqb word "func.func".
Definition declares (cur last : string) : bool :=
  match cur with EmptyString => is_declaring last | _ => false end.

Definition snoc (s : string) (c : ascii) : string := String.append s (String c EmptyString).

Definition step_text (cur last : string) (c : ascii) : scan_state :=
  if Ascii.eqb c quote_char then Quoted
  else if Ascii.eqb c "@" then Name (declares cur last) EmptyString
  else if is_blank c then Text EmptyString (match cur with EmptyString => last | _ => cur end)
  else Text (snoc cur c) last.

Definition step (st : scan_state) (c : ascii) : scan_state * list symbol :=
  match st with
  | Text cur last => (step_text cur last c, [])
  | Quoted => (if Ascii.eqb c quote_char then Text EmptyString EmptyString
               else if Ascii.eqb c "\" then Escaped else Quoted, [])
  | Escaped => (Quoted, [])
  | Name d name =>
      if is_name_char c then (Name d (snoc name c), [])
      else (step_text EmptyString EmptyString c, [(d, name)])
  end.

Fixpoint run (st : scan_state) (s : string) : scan_state * list symbol :=
  match s with
  | EmptyString => (st, [])
  | String c s =>
      let '(st, l) := step st c in
      let '(st, l') := run st s in (st, l ++ l')
  end.

Definition flush (st : scan_state) : list symbol :=
  match st with Name d name => [(d, name)] | _ => [] end.

Definition scan_start : scan_state := Text EmptyString EmptyString.
Definition symbols (s : string) : list symbol :=
  let '(st, l) := run scan_start s in l ++ flush st.

Definition declared_by (s : string) : list string :=
  (fun x => x.2) <$> List.filter (fun x => x.1) (symbols s).
Definition referred_by (s : string) : list string :=
  (fun x => x.2) <$> List.filter (fun x => negb x.1) (symbols s).

(** Fragments of assembly in order: no symbol is referred to before the
    fragment that declares it. *)
Fixpoint resolved (scope : list string) (fragments : list string) : Prop :=
  match fragments with
  | [] => True
  | s :: fragments =>
      Forall (fun name => name ∈ scope ++ declared_by s) (referred_by s) /\
      resolved (scope ++ declared_by s) fragments
  end.

Example symbols_example :
  symbols (fmt [] "func.func private @f(%x: f32) -> f32 {{
  %y = func.call @g.x(%x) : (f32) -> f32 // '@h'
  util.global.store %y, @state : f32
}}") = [(true, "f"); (false, "g.x"); (false, "state")].
Proof. reflexivity. Qed.

(** ** Composition *)

Lemma run_app st s t :
  run st (String.append s t) =
  let '(st, l) := run st s in let '(st, l') := run st t in (st, l ++ l').
Proof.
  revert st. induction s as [|c s IH]; intros st; cbn [run].
  { change (String.append EmptyString t) with t. by destruct (run st t). }
  change (String.append (String c s) t) with (String c (String.append s t)). cbn [run].
  destruct (step st c) as [st' l]. rewrite IH. destruct (run st' s) as [st'' l'].
  destruct (run st'' t). by rewrite <-app_assoc.
Qed.

Lemma snoc_append s c t : String.append (snoc s c) t = String.append s (String c t).
Proof. unfold snoc. by rewrite append_assoc. Qed.

(** Whole pieces of text: read from outside a name or a string they end there,
    and their symbols have a property. *)
Section Yields.
Context (P : symbol -> Prop).

Definition outside (x : scan_state * list symbol) : Prop :=
  match x.1 with Text _ _ => Forall P x.2 | _ => False end.
Definition yields (s : string) : Prop := forall cur last, outside (run (Text cur last) s).

Lemma yields_nil : yields EmptyString.
Proof. intros cur last. constructor. Qed.

Lemma yields_app s t : yields s -> yields t -> yields (String.append s t).
Proof.
  intros Hs Ht cur last. rewrite run_app. specialize (Hs cur last).
  destruct (run (Text cur last) s) as [st l]. destruct st; try done.
  specialize (Ht cur0 last0). destruct (run (Text cur0 last0) t) as [st l'].
  destruct st; try done. unfold outside in *. cbn in *. by apply Forall_app_2.
Qed.

Lemma yields_symbols s : yields s -> Forall P (symbols s).
Proof.
  intros H. specialize (H EmptyString EmptyString). unfold symbols, scan_start.
  destruct (run _ s) as [[] l]; try done. unfold outside in H. cbn in H. by rewrite app_nil_r.
Qed.
End Yields.

Lemma yields_mono (P Q : symbol -> Prop) s : (forall x, P x -> Q x) -> yields P s -> yields Q s.
Proof.
  intros H Hs cur last. specialize (Hs cur last). unfold outside in *.
  destruct (run _ s) as [[] l]; try done. cbn in *. by eapply Forall_impl.
Qed.

Abbreviation calm := (yields (fun _ => False)).
Lemma calm_yields P s : calm s -> yields P s.
Proof. by apply yields_mono. Qed.

(** ** Trimming *)

(** Characters that end a name and are neither quotes nor backslashes. *)
Definition is_spacer (c : ascii) : bool :=
  negb (is_name_char c || Ascii.eqb c quote_char || Ascii.eqb c "@" || Ascii.eqb c "\").
Fixpoint all_chars (f : ascii -> bool) (s : string) : bool :=
  match s with EmptyString => true | String c s => f c && all_chars f s end.

Lemma all_chars_app f s t : all_chars f (String.append s t) = all_chars f s && all_chars f t.
Proof. induction s as [|c s IH]; [done|].
  change (String.append (String c s) t) with (String c (String.append s t)). cbn. by rewrite IH, andb_assoc. Qed.

Lemma is_spacer_step c st : is_spacer c = true ->
  (step st c).2 = flush st /\
  match st with
  | Text _ _ | Name _ _ => exists cur last, (step st c).1 = Text cur last
  | Quoted | Escaped => (step st c).1 = Quoted
  end.
Proof.
  unfold is_spacer. rewrite negb_true_iff, !orb_false_iff. intros (((H1 & H2) & H3) & H4).
  assert (Ht : forall cur last, exists cur' last', step_text cur last c = Text cur' last').
  { intros cur last. unfold step_text. rewrite H2, H3. destruct (is_blank c); eauto. }
  destruct st; cbn [step]; rewrite ?H1, ?H2, ?H4; cbn; auto.
Qed.

(** After spacers the scanner is outside, or where it was inside a string. *)
Lemma run_spacers s st : all_chars is_spacer s = true -> s <> EmptyString ->
  (run st s).2 = flush st /\
  match st with
  | Text _ _ | Name _ _ => exists cur last, (run st s).1 = Text cur last
  | Quoted | Escaped => (run st s).1 = Quoted
  end.
Proof.
  revert st. induction s as [|c s IH]; intros st H Hne; [done|]. cbn in H.
  apply andb_true_iff in H as [Hc Hs]. cbn.
  destruct (is_spacer_step c st Hc) as [Hl Hst]. destruct (step st c) as [st' l]. cbn in *. subst l.
  destruct (decide (s = EmptyString)) as [->|Hs'].
  { cbn [run fst snd]. by rewrite app_nil_r. }
  destruct (IH st' Hs Hs') as [Hl' Hst']. destruct (run st' s) as [st'' l']. cbn in *. subst l'.
  destruct st; [destruct Hst as (? & ? & ->)|subst st'..|destruct Hst as (? & ? & ->)]; done.
Qed.

Lemma space_suffix_spacers s r : space_suffix s = Some r ->
  exists w, s = String.append r w /\ all_chars is_spacer w = true.
Proof.
  intros (w & Hw & ->%strip_suffix_Some)%first_some_Some. exists w. split; [done|].
  revert w Hw. apply Forall_forall. by apply (bool_decide_eq_true_1 (Forall _ _)).
Qed.

Lemma trim_end_spacers s : exists w, s = String.append (trim_end s) w /\ all_chars is_spacer w = true.
Proof.
  unfold trim_end. generalize (String.length s). intros n. revert s.
  induction n as [|n IH]; intros s; cbn [exhaust]; [exists EmptyString; by rewrite append_nil_r|].
  destruct (space_suffix s) as [t|] eqn:E; [|exists EmptyString; by rewrite append_nil_r].
  apply space_suffix_spacers in E as (w & -> & Hw). destruct (IH t) as (r & Hr & Hr').
  exists (String.append r w). rewrite all_chars_app, Hr', Hw. by rewrite <-append_assoc, <-Hr.
Qed.

Lemma symbols_spacers s w : all_chars is_spacer w = true -> symbols (String.append s w) = symbols s.
Proof.
  intros Hw. destruct (decide (w = EmptyString)) as [->|Hne]; [by rewrite append_nil_r|].
  unfold symbols. rewrite run_app. destruct (run scan_start s) as [st l].
  destruct (run_spacers w st Hw Hne) as [Hl Hst]. destruct (run st w) as [st' l']. cbn in *. subst l'.
  destruct st; [destruct Hst as (? & ? & ->)|subst st'..|destruct Hst as (? & ? & ->)]; cbn;
    by rewrite ?app_nil_r.
Qed.

Lemma symbols_trim_end s : symbols (trim_end s) = symbols s.
Proof.
  destruct (trim_end_spacers s) as (w & Hs & Hw). rewrite Hs at 2. by rewrite symbols_spacers.
Qed.

(** A line of a block, its newline included, survives trimming its end. *)
Lemma yields_trim_end P s : yields P s -> yields P (String.append (trim_end s) nl).
Proof.
  intros H cur last. destruct (trim_end_spacers s) as (w & Hs & Hw). specialize (H cur last).
  rewrite Hs in H. revert H. rewrite !run_app. destruct (run _ (trim_end s)) as [st l].
  assert (Hnl : all_chars is_spacer nl = true) by reflexivity.
  destruct (run_spacers nl st Hnl ltac:(done)) as [Hl Hst].
  destruct (run st nl) as [st' l']. cbn in Hl, Hst. subst l'.
  destruct (decide (w = EmptyString)) as [->|Hne].
  - cbn. destruct st; try done. destruct Hst as (? & ? & ->). unfold outside. done.
  - destruct (run_spacers w st Hw Hne) as [Hl Hst2]. destruct (run st w) as [st2 l2].
    cbn in Hl, Hst2. subst l2.
    destruct st; [destruct Hst as (? & ? & ->); destruct Hst2 as (? & ? & ->)|subst..
                 |destruct Hst as (? & ? & ->); destruct Hst2 as (? & ? & ->)]; done.
Qed.

(** The newline is not repeated when it is there already. *)
Lemma yields_closed_line P s :
  yields P (String.append s nl) ->
  yields P (String.append s (if ends_with nl s then EmptyString else nl)).
Proof.
  destruct (ends_with nl s) eqn:E; [|done]. rewrite append_nil_r. intros H cur last.
  specialize (H cur last). rewrite run_app in H.
  unfold ends_with in E. destruct (Prelude.strip_suffix nl s) as [r|] eqn:Er; [|done].
  apply strip_suffix_Some in Er as ->. revert H. rewrite !run_app.
  destruct (run (Text cur last) r) as [st l].
  destruct (run_spacers nl st eq_refl ltac:(done)) as [Hl Hst].
  destruct (run st nl) as [st' l']. cbn in Hl, Hst. subst l'.
  destruct st; [destruct Hst as (? & ? & ->)|subst..|destruct Hst as (? & ? & ->)]; unfold outside; cbn;
    by rewrite ?app_nil_r.
Qed.

(** ** The abstract scanner *)

(** What is known of a word: all of it, that no extension of it declares, or
    nothing. *)
Inductive known : Set := Exactly (s : string) | NotDeclaring | Unknown.

Definition declaring_start (c : ascii) : bool :=
  Ascii.eqb c "p" || Ascii.eqb c "m" || Ascii.eqb c "f".
Definition known_snoc (k : known) (c : ascii) : known :=
  match k with
  | Exactly EmptyString => if declaring_start c then Exactly (String c EmptyString) else NotDeclaring
  | Exactly s => Exactly (snoc s c)
  | k => k
  end.
Definition known_blank (cur last : known) : known :=
  match cur with
  | Exactly EmptyString => last
  | Unknown => Unknown
  | k => k
  end.
(** [declares], when it is known. *)
Definition known_declares (cur last : known) : option bool :=
  match cur with
  | Exactly EmptyString =>
      match last with
      | Exactly w => Some (is_declaring w)
      | NotDeclaring => Some false
      | Unknown => None
      end
  | Exactly _ | NotDeclaring => Some false
  | Unknown => None
  end.

(** A name read so far: pieces, and the literal text after them. *)
Inductive abs_state : Set :=
  | AText (cur last : known)
  | AQuoted
  | AEscaped
  | AName (declared : bool) (ps : list piece) (s : string).

Definition abs_symbol : Set := bool * list piece.
Definition name_pieces (ps : list piece) (s : string) : list piece :=
  match s with EmptyString => ps | _ => ps ++ [Lit s] end.

Definition abs_text (cur last : known) (c : ascii) : option abs_state :=
  if Ascii.eqb c quote_char then Some AQuoted
  else if Ascii.eqb c "@" then d ← known_declares cur last; Some (AName d [] EmptyString)
  else if is_blank c then Some (AText (Exactly EmptyString) (known_blank cur last))
  else Some (AText (known_snoc cur c) last).

Definition abs_step (st : abs_state) (c : ascii) : option (abs_state * list abs_symbol) :=
  match st with
  | AText cur last => st ← abs_text cur last c; Some (st, [])
  | AQuoted => Some (if Ascii.eqb c quote_char then AText (Exactly EmptyString) (Exactly EmptyString)
                     else if Ascii.eqb c "\" then AEscaped else AQuoted, [])
  | AEscaped => Some (AQuoted, [])
  | AName d ps s =>
      if is_name_char c then Some (AName d ps (snoc s c), [])
      else st ← abs_text (Exactly EmptyString) (Exactly EmptyString) c; Some (st, [(d, name_pieces ps s)])
  end.
Fixpoint abs_run (st : abs_state) (s : string) : option (abs_state * list abs_symbol) :=
  match s with
  | EmptyString => Some (st, [])
  | String c s =>
      '(st, l) ← abs_step st c;
      '(st, l') ← abs_run st s;
      Some (st, l ++ l')
  end.

(** What a hole holds: characters of a name, whole pieces of text, or the text
    of a string. *)
Inductive kind : Set := Ident | Block | Quotable.
Definition kinds := list (string * kind).
Fixpoint kind_of (K : kinds) (name : string) : option kind :=
  match K with
  | [] => None
  | (k, v) :: K => if String.eqb k name then Some v else kind_of K name
  end.

Definition abs_hole (K : kinds) (st : abs_state) (name : string) : option abs_state :=
  k ← kind_of K name;
  match st, k with
  | AText cur last, Ident =>
      Some (AText (match cur with NotDeclaring => NotDeclaring | _ => Unknown end) last)
  | AText _ _, Block => Some (AText Unknown Unknown)
  | AQuoted, (Ident | Quotable) => Some AQuoted
  | AName d ps s, Ident => Some (AName d (name_pieces ps s ++ [Hole name]) EmptyString)
  | _, _ => None
  end.
Fixpoint abs_pieces (K : kinds) (st : abs_state) (ps : list piece) : option (abs_state * list abs_symbol) :=
  match ps with
  | [] => Some (st, [])
  | p :: ps =>
      '(st, l) ← (match p with
                  | Lit s => abs_run st s
                  | Hole name => st ← abs_hole K st name; Some (st, [])
                  end);
      '(st, l') ← abs_pieces K st ps;
      Some (st, l ++ l')
  end.
(** The symbols of a template, when it is a whole piece of text; from any place
    outside names and strings, and from the start. *)
Definition abs_symbols_from (st : abs_state) (K : kinds) (template : list piece) : option (list abs_symbol) :=
  match abs_pieces K st template with
  | Some (AText _ _, l) => Some l
  | _ => None
  end.
Definition abs_symbols := abs_symbols_from (AText Unknown Unknown).
Definition abs_fragment := abs_symbols_from (AText (Exactly EmptyString) (Exactly EmptyString)).

(** ** Soundness *)

Definition is_ident (s : string) : Prop := all_chars is_name_char s = true.
Definition is_quotable (s : string) : Prop :=
  all_chars (fun c => negb (Ascii.eqb c quote_char || Ascii.eqb c "\")) s = true.

Fixpoint name_text (e : env) (ps : list piece) : string :=
  match ps with
  | [] => EmptyString
  | Lit s :: ps => match ps with [] => s | _ => String.append s (name_text e ps) end
  | Hole name :: ps =>
      match ps with [] => env_get e name | _ => String.append (env_get e name) (name_text e ps) end
  end.
Definition symbol_of (e : env) (x : abs_symbol) : symbol := (x.1, name_text e x.2).

Lemma name_text_app e ps qs : name_text e (ps ++ qs) = String.append (name_text e ps) (name_text e qs).
Proof.
  induction ps as [|p ps IH]; [done|]. destruct qs as [|q qs].
  { rewrite app_nil_r. cbn [name_text]. by rewrite append_nil_r. }
  assert (H : ps ++ q :: qs <> []) by by destruct ps.
  cbn [app]. destruct p as [s|name]; cbn [name_text];
    (destruct (ps ++ q :: qs) eqn:E; [done|]); rewrite IH; destruct ps; try done;
    by rewrite append_assoc.
Qed.

Definition word_known (k : known) (w : string) : Prop :=
  match k with
  | Exactly s => w = s
  | NotDeclaring => match w with EmptyString => False | String c _ => declaring_start c = false end
  | Unknown => True
  end.
Definition state_known (e : env) (st : abs_state) (x : scan_state) : Prop :=
  match st, x with
  | AText cur last, Text c l => word_known cur c /\ word_known last l
  | AQuoted, Quoted | AEscaped, Escaped => True
  | AName d ps s, Name d' name => d' = d /\ name = String.append (name_text e ps) s
  | _, _ => False
  end.

Lemma word_known_snoc k w c : word_known k w -> word_known (known_snoc k c) (snoc w c).
Proof.
  destruct k as [s| |]; cbn; [|by destruct w|done]. intros ->. destruct s as [|a s]; [|done].
  destruct (declaring_start c) eqn:E; [done|exact E].
Qed.
Lemma word_known_blank cur last c l :
  word_known cur c -> word_known last l ->
  word_known (known_blank cur last) (match c with EmptyString => l | _ => c end).
Proof. destruct cur as [[|a s]| |]; cbn; [by intros ->|by intros ->|by destruct c|done]. Qed.
Lemma not_declaring w c : declaring_start c = false -> is_declaring (String c w) = false.
Proof.
  unfold declaring_start, is_declaring. rewrite !orb_false_iff. intros [[H1 H2] H3]. cbn.
  by rewrite H1, H2, H3.
Qed.
Lemma word_known_declares cur last c l d :
  word_known cur c -> word_known last l -> known_declares cur last = Some d -> declares c l = d.
Proof.
  destruct cur as [[|a s]| |]; cbn; [|intros -> _; by intros [= <-]|..|done].
  - intros ->. destruct last as [w| |]; cbn; [by intros -> [= <-]| |done].
    destruct l as [|a l]; [done|]. intros H [= <-]. by apply not_declaring.
  - destruct c as [|a c]; [done|]. by intros _ _ [= <-].
Qed.

Section Soundness.
Context (e : env).

Lemma abs_text_sound cur last c l a st :
  word_known cur c -> word_known last l -> abs_text cur last a = Some st ->
  state_known e st (step_text c l a).
Proof.
  intros Hc Hl. unfold abs_text, step_text. destruct (Ascii.eqb a quote_char); [by intros [= <-]|].
  destruct (Ascii.eqb a "@").
  { destruct (known_declares cur last) as [d|] eqn:E; cbn; [|done]. intros [= <-]. cbn.
    by rewrite (word_known_declares _ _ _ _ _ Hc Hl E). }
  destruct (is_blank a); intros [= <-]; cbn.
  - split; [done|by apply word_known_blank].
  - split; [by apply word_known_snoc|done].
Qed.

Lemma name_text_pieces ps s : name_text e (name_pieces ps s) = String.append (name_text e ps) s.
Proof. destruct s; cbn [name_pieces]; [by rewrite append_nil_r|by rewrite name_text_app]. Qed.

Lemma abs_step_sound st x c st' l :
  state_known e st x -> abs_step st c = Some (st', l) ->
  state_known e st' (step x c).1 /\ (step x c).2 = symbol_of e <$> l.
Proof.
  destruct st as [cur last| | |d ps s], x as [w v| | |d' name]; cbn [state_known]; try done; intros H;
    cbn [abs_step step].
  - destruct H as [Hw Hv]. destruct (abs_text cur last c) as [st|] eqn:E; cbn; [|done].
    intros [= <- <-]. split; [by eapply abs_text_sound|done].
  - intros [= <- <-]. split; [|done]. destruct (Ascii.eqb c quote_char); [done|].
    by destruct (Ascii.eqb c "\").
  - by intros [= <- <-].
  - destruct H as [-> ->]. destruct (is_name_char c).
    { intros [= <- <-]. split; [|done]. cbn. split; [done|]. unfold snoc. by rewrite append_assoc. }
    destruct (abs_text _ _ c) as [st|] eqn:E; cbn; [|done]. intros [= <- <-]. split.
    + by eapply abs_text_sound; [| |done].
    + cbn. unfold symbol_of. cbn. by rewrite name_text_pieces.
Qed.

Lemma abs_run_sound s st x st' l :
  state_known e st x -> abs_run st s = Some (st', l) ->
  state_known e st' (run x s).1 /\ (run x s).2 = symbol_of e <$> l.
Proof.
  revert st x st' l. induction s as [|c s IH]; intros st x st' l H; cbn; [by intros [= <- <-]|].
  destruct (abs_step st c) as [[st1 l1]|] eqn:E; cbn; [|done].
  destruct (abs_run st1 s) as [[st2 l2]|] eqn:E2; cbn; [|done]. intros [= <- <-].
  destruct (abs_step_sound _ _ _ _ _ H E) as [H1 Hl1]. destruct (step x c) as [x1 l1']. cbn in *.
  destruct (IH _ _ _ _ H1 E2) as [H2 Hl2]. destruct (run x1 s) as [x2 l2']. cbn in *. subst.
  by rewrite fmap_app.
Qed.
End Soundness.

(** ** Holes *)

Definition kind_holds (P : symbol -> Prop) (k : kind) (v : string) : Prop :=
  match k with Ident => is_ident v | Block => yields P v | Quotable => is_quotable v end.
Definition env_holds (P : symbol -> Prop) (K : kinds) (e : env) : Prop :=
  Forall2 (fun k v => k.1 = v.1 /\ kind_holds P k.2 v.2) K e.

Lemma env_holds_nil P : env_holds P [] [].
Proof. constructor. Qed.
Lemma env_holds_cons P K e name k v :
  kind_holds P k v -> env_holds P K e -> env_holds P ((name, k) :: K) ((name, v) :: e).
Proof. by constructor. Qed.
Lemma env_holds_app P K K' e e' : env_holds P K e -> env_holds P K' e' -> env_holds P (K ++ K') (e ++ e').
Proof. apply Forall2_app. Qed.

Lemma env_holds_get P K e name k :
  env_holds P K e -> kind_of K name = Some k -> kind_holds P k (env_get e name).
Proof.
  induction 1 as [|[name' k'] [name'' v] K e [Hn Hk] _ IH]; cbn; [done|]. cbn in *. subst.
  destruct (String.eqb name'' name); [by intros [= <-]|done].
Qed.

Lemma name_char_other c : is_name_char c = true ->
  Ascii.eqb c quote_char = false /\ Ascii.eqb c "\" = false /\ Ascii.eqb c "@" = false /\ is_blank c = false.
Proof.
  destruct c as [[] [] [] [] [] [] [] []]; vm_compute; intros H; by repeat split.
Qed.

Lemma run_ident s st : is_ident s ->
  (run st s).2 = [] /\
  match st with
  | Text cur last => (run st s).1 = Text (String.append cur s) last
  | Name d name => (run st s).1 = Name d (String.append name s)
  | Quoted => (run st s).1 = Quoted
  | Escaped => True
  end.
Proof.
  unfold is_ident. revert st. induction s as [|c s IH]; intros st H.
  { cbn [run fst snd]. destruct st; rewrite ?append_nil_r; done. }
  cbn in H. apply andb_true_iff in H as [Hc Hs].
  destruct (name_char_other c Hc) as (H1 & H2 & H3 & H4).
  assert (Hst : exists st', step st c = (st', []) /\
    match st with
    | Text cur last => st' = Text (snoc cur c) last
    | Name d name => st' = Name d (snoc name c)
    | Quoted | Escaped => st' = Quoted
    end).
  { destruct st; cbn [step]; unfold step_text; rewrite ?H1, ?H2, ?H3, ?H4, ?Hc; eauto. }
  destruct Hst as (st' & E & Hst). cbn [run]. rewrite E. destruct (IH st' Hs) as [Hl Hr].
  destruct (run st' s) as [st2 l2]. cbn in *. split; [done|].
  destruct st; subst st'; try done; by rewrite snoc_append in Hr.
Qed.

Lemma run_quotable s : is_quotable s -> run Quoted s = (Quoted, []).
Proof.
  unfold is_quotable. induction s as [|c s IH]; [done|]. cbn. intros [Hc Hs]%andb_true_iff.
  apply negb_true_iff, orb_false_iff in Hc as [H1 H2]. rewrite H1, H2, IH; done.
Qed.

Lemma ident_quotable s : is_ident s -> is_quotable s.
Proof.
  unfold is_ident, is_quotable. induction s as [|c s IH]; [done|]. cbn. intros [Hc Hs]%andb_true_iff.
  destruct (name_char_other c Hc) as (-> & -> & _). by apply IH.
Qed.
Lemma ident_yields P s : is_ident s -> yields P s.
Proof.
  intros H cur last. destruct (run_ident s (Text cur last) H) as [Hl Hr].
  destruct (run _ s) as [st l]. cbn in *. subst. constructor.
Qed.
Lemma ident_append s t : is_ident s -> is_ident t -> is_ident (String.append s t).
Proof. unfold is_ident. rewrite all_chars_app. by intros -> ->. Qed.

(** The symbols of a template, with those of the blocks between them. *)
Inductive with_blocks (P : symbol -> Prop) : list symbol -> list symbol -> Prop :=
  | with_nil : with_blocks P [] []
  | with_symbol x l l' : with_blocks P l l' -> with_blocks P (x :: l) (x :: l')
  | with_block x l l' : P x -> with_blocks P l l' -> with_blocks P l (x :: l').

Section WithBlocks.
Context (P : symbol -> Prop).

Lemma with_blocks_refl l : with_blocks P l l.
Proof. induction l; by constructor. Qed.
Lemma with_blocks_only l : Forall P l -> with_blocks P [] l.
Proof. induction 1; by constructor. Qed.
Lemma with_blocks_app l1 l1' l2 l2' :
  with_blocks P l1 l1' -> with_blocks P l2 l2' -> with_blocks P (l1 ++ l2) (l1' ++ l2').
Proof. intros H1 H2. induction H1; cbn; [done|by constructor..]. Qed.
Lemma with_blocks_Forall (Q : symbol -> Prop) l l' :
  with_blocks P l l' -> (forall x, P x -> Q x) -> Forall Q l -> Forall Q l'.
Proof. intros H HQ. induction H; rewrite ?Forall_cons; naive_solver. Qed.
Lemma with_blocks_elem l l' x : with_blocks P l l' -> x ∈ l -> x ∈ l'.
Proof. intros H. induction H; set_solver. Qed.
Lemma with_blocks_elem_inv l l' x : with_blocks P l l' -> x ∈ l' -> x ∈ l \/ P x.
Proof. intros H. induction H; set_solver. Qed.
End WithBlocks.

Section Templates.
Context (P : symbol -> Prop) (K : kinds) (e : env) (He : env_holds P K e).

Lemma abs_hole_sound st x name st' :
  state_known e st x -> abs_hole K st name = Some st' ->
  state_known e st' (run x (env_get e name)).1 /\ Forall P (run x (env_get e name)).2.
Proof using All.
  unfold abs_hole. destruct (kind_of K name) as [k|] eqn:Ek; cbn; [|done].
  pose proof (env_holds_get _ _ _ _ _ He Ek) as Hv. intros Hs.
  destruct st as [cur last| | |d ps s], x as [w v| | |d' name']; try done; destruct k; try done;
    cbn in Hv; intros [= <-].
  - destruct (run_ident _ (Text w v) Hv) as [Hl ->]. rewrite Hl. destruct Hs as [Hw Hl'].
    split; [|done]. cbn. split; [|done]. destruct cur; [done| |done]. by destruct w.
  - specialize (Hv w v). unfold outside in Hv. by destruct (run _ _) as [[] l].
  - by rewrite run_quotable by by apply ident_quotable.
  - by rewrite run_quotable.
  - destruct Hs as [-> ->]. destruct (run_ident _ (Name d (String.append (name_text e ps) s)) Hv) as [Hl ->].
    rewrite Hl. split; [|done]. cbn. split; [done|].
    by rewrite append_nil_r, name_text_app, name_text_pieces.
Qed.

(** One piece of a template. *)
Definition piece_text (p : piece) : string := match p with Lit s => s | Hole name => env_get e name end.
Lemma abs_piece_sound st x p st' l :
  state_known e st x ->
  (match p with
   | Lit s => abs_run st s
   | Hole name => st ← abs_hole K st name; Some (st, [])
   end) = Some (st', l) ->
  state_known e st' (run x (piece_text p)).1 /\
  with_blocks P (symbol_of e <$> l) (run x (piece_text p)).2.
Proof using All.
  intros Hs. destruct p as [s|name]; cbn [piece_text].
  - intros E. destruct (abs_run_sound e _ _ _ _ _ Hs E) as [H ->]. split; [done|apply with_blocks_refl].
  - destruct (abs_hole K st name) as [st1|] eqn:E; cbn; [|done]. intros [= <- <-].
    destruct (abs_hole_sound _ _ _ _ Hs E) as [H1 H2]. split; [done|by apply with_blocks_only].
Qed.

Lemma abs_pieces_sound ps st x st' l :
  state_known e st x -> abs_pieces K st ps = Some (st', l) ->
  state_known e st' (run x (render e ps)).1 /\ with_blocks P (symbol_of e <$> l) (run x (render e ps)).2.
Proof using All.
  revert st x st' l. induction ps as [|p ps IH]; intros st x st' l Hs; cbn [abs_pieces].
  { intros [= <- <-]. split; [done|constructor]. }
  destruct (match p with Lit s => _ | Hole name => _ end) as [[st1 l1]|] eqn:E1; cbn [mbind option_bind]; [|done].
  destruct (abs_pieces K st1 ps) as [[st2 l2]|] eqn:E2; cbn [mbind option_bind]; [|done]. intros [= <- <-].
  destruct (abs_piece_sound _ _ _ _ _ Hs E1) as [Hs1 Hl1].
  assert (Hr : render e (p :: ps) = String.append (piece_text p) (render e ps)) by by destruct p.
  rewrite Hr, run_app. destruct (run x (piece_text p)) as [x1 l1']. cbn in Hs1, Hl1.
  destruct (IH _ _ _ _ Hs1 E2) as [Hs2 Hl2]. destruct (run x1 (render e ps)) as [x2 l2']. cbn in *.
  split; [done|]. rewrite fmap_app. by apply with_blocks_app.
Qed.

(** A formatted text is a whole piece of text with the symbols of its template. *)
Lemma run_fmt st t l w v :
  abs_symbols_from st K (template t) = Some l -> state_known e st (Text w v) ->
  exists cur last l', run (Text w v) (fmt e t) = (Text cur last, l') /\ with_blocks P (symbol_of e <$> l) l'.
Proof using All.
  unfold abs_symbols_from. destruct (abs_pieces K _ _) as [[st' l']|] eqn:E; [|done].
  destruct st' as [cur last| | |]; try done. intros [= <-] Hs.
  destruct (abs_pieces_sound _ _ _ _ _ Hs E) as [Hs' Hp].
  unfold fmt. destruct (run _ _) as [[] l2]; try done. eauto.
Qed.

Lemma yields_fmt t l :
  abs_symbols K (template t) = Some l -> Forall (fun y => P (symbol_of e y)) l -> yields P (fmt e t).
Proof using All.
  intros H Hl w v. destruct (run_fmt _ t l w v H) as (cur & last & l' & -> & Hw); [done|].
  unfold outside. cbn. eapply with_blocks_Forall; [done..|]. by apply Forall_fmap.
Qed.

Lemma symbols_fmt t l :
  abs_fragment K (template t) = Some l -> with_blocks P (symbol_of e <$> l) (symbols (fmt e t)).
Proof using All.
  intros H. unfold symbols, scan_start.
  destruct (run_fmt _ t l EmptyString EmptyString H) as (cur & last & l' & -> & Hw); [done|].
  by rewrite app_nil_r.
Qed.
End Templates.

(** Closed texts, as templates of one literal. *)
Lemma yields_literal P s l :
  abs_symbols [] [Lit s] = Some l -> Forall (fun y => P (symbol_of [] y)) l -> yields P s.
Proof.
  intros H Hl w v. unfold abs_symbols, abs_symbols_from in H.
  destruct (abs_pieces [] _ [Lit s]) as [[st l']|] eqn:E; [|done].
  destruct st as [cur last| | |]; try done. injection H as ->.
  destruct (abs_pieces_sound P [] [] (env_holds_nil P) _ (AText Unknown Unknown) (Text w v) _ _ ltac:(done) E) as [Hs Hp].
  cbn [render] in *. rewrite append_nil_r in *. unfold outside. destruct (run _ s) as [[] l2]; try done.
  eapply with_blocks_Forall; [done..|]. by apply Forall_fmap.
Qed.
