(* ===== verification/SymbolLogic.v ===== *)
(** * Reasoning about the symbols an emitter writes

    Judgements over the monad of the builders: [Refs R m Q], the lines [m] adds
    to a function refer only to the symbols of [R]; [Scoped pre m adds], in a
    module that declares [pre] the fragments [m] appends refer to declared
    symbols and declare [adds]. *)
From S2P Require Import Prelude Strings Errors Names Mlir Symbols.
From Stdlib Require Import ZArith Lia Ascii String.
From stdpp Require Import base list strings gmap.
From stdpp Require Import options.

Local Open Scope Z_scope.

Definition refers (R : string -> Prop) (x : symbol) : Prop := x.1 = false /\ R x.2.
Abbreviation calm := (yields (fun _ => False)).

Lemma refers_mono (R R' : string -> Prop) x : (forall n, R n -> R' n) -> refers R x -> refers R' x.
Proof. intros H [H1 H2]. split; auto. Qed.

(** ** Values *)

Lemma all_chars_impl (f g : ascii -> bool) s :
  (forall c, f c = true -> g c = true) -> all_chars f s = true -> all_chars g s = true.
Proof.
  intros H. induction s as [|c s IH]; cbn; [done|]. intros [Hc Hs]%andb_true_iff.
  apply andb_true_iff. auto.
Qed.

Lemma ident_num n : is_ident (num n).
Proof.
  unfold is_ident, num. pose proof (decimal_digits n) as H. revert H. generalize (decimal n). intros s.
  induction s as [|c s IH]; cbn; [done|].
  destruct (digit_value c) eqn:Hc; [|done]. intros Hs. apply andb_true_iff. split; [|auto]. clear IH Hs.
  revert Hc. destruct c as [[] [] [] [] [] [] [] []]; vm_compute; done.
Qed.
Lemma ident_snum n : is_ident (snum n).
Proof. unfold snum. destruct (n <? 0); [apply (ident_append "-"); [done|]|]; apply ident_num. Qed.
Lemma ident_zeros n : is_ident (zeros n).
Proof. induction n as [|n IH]; [done|exact IH]. Qed.
Lemma ident_padded w n : is_ident (padded w n).
Proof. unfold padded. apply ident_append; [apply ident_zeros|apply ident_num]. Qed.
Lemma ident_minus s t : is_ident t -> is_ident (Mlir.minus s t).
Proof. destruct s; [|done]. apply (ident_append "-"). done. Qed.
Lemma ident_fmt_exp n x : is_ident (fmt_exp n x).
Proof.
  destruct x as [s|s| |s m e]; cbn [fmt_exp]; [| |done|].
  - apply ident_minus. apply (ident_append "0"); [done|]. apply ident_append; [|done].
    destruct n; [done|]. apply (ident_append "."); [done|]. apply ident_zeros.
  - by apply ident_minus.
  - destruct (ratio m e) as [a b]. apply ident_minus. unfold fmt_exp_positive.
    destruct (if _ =? _ then _ else _) as [q k].
    apply ident_append; [apply ident_num|]. apply ident_append.
    + destruct n; [done|]. apply (ident_append "."); [done|]. apply ident_padded.
    + apply (ident_append "e"); [done|]. apply ident_snum.
Qed.
Lemma ident_fmt_fixed n x : is_ident (fmt_fixed n x).
Proof.
  destruct x as [s|s| |s m e]; cbn [fmt_fixed]; [| |done|].
  - apply ident_minus. apply (ident_append "0"); [done|].
    destruct n; [done|]. apply (ident_append "."); [done|]. apply ident_zeros.
  - by apply ident_minus.
  - destruct (ratio m e) as [a b]. apply ident_minus. apply ident_append; [apply ident_num|].
    destruct n; [done|]. apply (ident_append "."); [done|]. apply ident_padded.
Qed.

(** A template of name characters whose holes are. *)
Definition ident_piece (K : kinds) (p : piece) : bool :=
  match p with
  | Lit s => all_chars is_name_char s
  | Hole name => match kind_of K name with Some Ident => true | _ => false end
  end.
Lemma ident_fmt P K e t : env_holds P K e -> forallb (ident_piece K) (template t) = true -> is_ident (fmt e t).
Proof.
  intros He. unfold fmt. induction (template t) as [|p ps IH]; [done|].
  cbn [forallb render]. rewrite andb_true_iff. intros [Hp Hps]. specialize (IH Hps).
  destruct p as [s|name]; apply ident_append; try done.
  unfold ident_piece in Hp. destruct (kind_of K name) as [[]|] eqn:E; try done.
  apply (env_holds_get _ _ _ _ _ He E).
Qed.

Lemma yields_ssa P v : is_ident v -> yields P (ssa v).
Proof. intros H. apply (yields_app P "%"); [by apply (yields_literal P _ [])|by apply ident_yields]. Qed.
Lemma yields_join P l : Forall (yields P) l -> yields P (join_with ", " l).
Proof.
  induction 1 as [|s l Hs Hl IH]; cbn [join_with]; [apply yields_nil|]. destruct l as [|t l]; [done|].
  apply yields_app; [done|]. apply yields_app; [by apply (yields_literal P _ [])|done].
Qed.
Lemma yields_concat P l : Forall (yields P) l -> yields P (concat_strings l).
Proof. induction 1 as [|s l Hs Hl IH]; [apply yields_nil|by apply yields_app]. Qed.

Lemma kind_if P k (b : bool) v w :
  (b = true -> kind_holds P k v) -> (b = false -> kind_holds P k w) ->
  kind_holds P k (if b then v else w).
Proof. destruct b; auto. Qed.

(** Texts without an at sign or a quote, which trimming keeps so. *)
Definition plain_char (c : ascii) : bool := negb (Ascii.eqb c quote_char) && negb (Ascii.eqb c "@").
Definition is_plain_text (s : string) : Prop := all_chars plain_char s = true.
Lemma plain_yields P s : is_plain_text s -> yields P s.
Proof.
  unfold is_plain_text. induction s as [|c s IH]; [intros _; apply yields_nil|]. cbn. unfold plain_char.
  rewrite !andb_true_iff, !negb_true_iff. intros [[Hq Ha] Hs] cur last. specialize (IH Hs). cbn [run step].
  unfold step_text. rewrite Hq, Ha.
  destruct (is_blank c);
    match goal with |- context [run (Text ?x ?y) s] => specialize (IH x y); destruct (run (Text x y) s) end; done.
Qed.
Lemma plain_append s t : is_plain_text s -> is_plain_text t -> is_plain_text (String.append s t).
Proof. unfold is_plain_text. rewrite all_chars_app. by intros -> ->. Qed.
Lemma ident_plain s : is_ident s -> is_plain_text s.
Proof.
  apply all_chars_impl. intros c Hc. apply name_char_other in Hc. unfold plain_char.
  apply andb_true_iff. split; apply negb_true_iff; tauto.
Qed.
Lemma plain_trim s : is_plain_text s -> is_plain_text (trim s).
Proof.
  intros H. unfold trim. assert (Hs : is_plain_text (trim_start s)).
  { unfold trim_start. generalize (String.length s). intros n. revert s H. induction n as [|n IH]; intros s H; [done|].
    cbn [exhaust]. destruct (space_prefix s) as [r|] eqn:E; [|done]. apply IH.
    apply first_some_Some in E as (w & _ & ->%strip_prefix_Some).
    unfold is_plain_text in *. rewrite all_chars_app in H. by apply andb_true_iff in H as [_ H]. }
  destruct (trim_end_spacers (trim_start s)) as (w & Hw & _). rewrite Hw in Hs.
  unfold is_plain_text in *. rewrite all_chars_app in Hs. by apply andb_true_iff in Hs as [Hs _].
Qed.

(** The name a template gives. *)
Definition nonempty (p : piece) : bool := match p with Lit EmptyString => false | _ => true end.
Lemma fmt_name e t : fmt e t = name_text e (List.filter nonempty (template t)).
Proof.
  unfold fmt. induction (template t) as [|p ps IH]; [done|]. cbn [render].
  assert (H : forall s, String.append s (name_text e (List.filter nonempty ps)) =
    match List.filter nonempty ps with [] => s | qs => String.append s (name_text e qs) end).
  { intros s. destruct (List.filter nonempty ps); [by rewrite append_nil_r|done]. }
  destruct p as [s|name]; rewrite IH, H.
  - destruct s as [|c s]; [by rewrite <-H|]. cbn [List.filter nonempty name_text]. by destruct (List.filter _ _).
  - cbn [List.filter nonempty name_text]. by destruct (List.filter _ _).
Qed.

(** Reading the closed templates of a goal. *)
Ltac read_templates :=
  repeat match goal with
  | |- context [template ?t] =>
      let v := eval vm_compute in (template t) in change (template t) with v
  | |- context [fmt ?e ?t] => unfold fmt
  end;
  cbn [render env_get String.eqb Ascii.eqb Bool.eqb].


Create HintDb ident.

Lemma env_holds_ident P K e name v :
  is_ident v -> env_holds P K e -> env_holds P ((name, Ident) :: K) ((name, v) :: e).
Proof. intros H. by apply env_holds_cons. Qed.
Lemma env_holds_block P K e name v :
  yields P v -> env_holds P K e -> env_holds P ((name, Block) :: K) ((name, v) :: e).
Proof. intros H. by apply env_holds_cons. Qed.
Lemma env_holds_quotable P K e name v :
  is_quotable v -> env_holds P K e -> env_holds P ((name, Quotable) :: K) ((name, v) :: e).
Proof. intros H. by apply env_holds_cons. Qed.

(** ** Automation

    [ident], [text] and [holds] prove the judgements on values, environments
    and texts; [declared_name] proves that a name is in scope and is extended
    where the scope is known. *)

Ltac declared_name := fail.

Ltac unfold_head m :=
  lazymatch m with
  | ?f _ => unfold_head f
  | ?f => unfold f
  end.

Ltac ident :=
  lazymatch goal with
  | |- is_ident ?v =>
      lazymatch v with
      | num _ => apply ident_num
      | snum _ => apply ident_snum
      | fmt_exp _ _ => apply ident_fmt_exp
      | fmt_fixed _ _ => apply ident_fmt_fixed
      | String _ _ => exact (eq_refl true)
      | EmptyString => exact (eq_refl true)
      | String.append _ _ => apply ident_append; ident
      | fmt _ _ => eapply (ident_fmt (fun _ => False)); [holds|vm_compute; reflexivity]
      | (if ?b then _ else _) => destruct b eqn:?; ident
      | _ => first [lazymatch goal with H : is_ident v |- _ => exact H end|solve [auto with ident]]
      end
  end
with holds :=
  lazymatch goal with
  | H : env_holds ?P _ ?e |- env_holds ?P _ ?e => exact H
  | |- env_holds _ _ [] => apply env_holds_nil
  | |- env_holds _ _ (_ ++ _) => apply env_holds_app; holds
  | |- env_holds _ _ (_ :: _) =>
      first [eapply env_holds_ident; [solve [ident]|]|eapply env_holds_block; [text|]]; holds
  | |- env_holds _ _ ?e => first [solve [auto with ident]|unfold_head e; holds]
  end
with text :=
  lazymatch goal with
  | |- yields ?P ?v =>
      first [match goal with H : yields P v |- _ => exact H end|
             match goal with H : yields (fun _ => False) v |- _ => exact (calm_yields P v H) end|
      lazymatch v with
      | fmt _ _ => eapply yields_fmt; [holds|vm_compute; reflexivity|names]
      | String _ _ => eapply yields_literal; [vm_compute; reflexivity|names]
      | EmptyString => apply yields_nil
      | ssa _ => apply yields_ssa; ident
      | (if ?b then _ else _) => destruct b eqn:?; text
      | join_with _ _ => first [solve [auto with ident]|apply yields_join]
      | _ => first [apply ident_yields; solve [ident]|solve [auto with ident]]
      end]
  end
with names :=
  lazymatch goal with
  | |- Forall _ [] => apply Forall_nil_2
  | |- Forall _ (_ :: _) =>
      apply Forall_cons_2; [split; [reflexivity|cbn [symbol_of fst snd]; declared_name]|names]
  end.

(** ** Functions *)

Section Functions.
Context {ML : MlirApi}.

Record func_ok (R : string -> Prop) (f : FuncBuilder) : Prop := {
  ok_args : Forall (fun a => is_ident a.1 /\ calm a.2) (fb_args f);
  ok_results : Forall calm (fb_results f);
  ok_attrs : match fb_attrs f with Some a => calm a | None => True end;
  ok_body : Forall (fun line => yields (refers R) (String.append line nl)) (fb_body f);
}.

Definition Refs {A} (R : string -> Prop) (m : Emit FuncBuilder A) (Q : A -> Prop) : Prop :=
  forall f a f', func_ok R f -> m f = Ok (a, f') ->
  func_ok R f' /\ fb_name f' = fb_name f /\ fb_private f' = fb_private f /\ Q a.
Definition any {A} (_ : A) : Prop := True.

Context (R : string -> Prop).

Lemma Refs_ret {A} (a : A) (Q : A -> Prop) : Q a -> Refs R (mret a) Q.
Proof. intros H f a' f' Hf [= <- <-]. done. Qed.

Lemma Refs_bind {A B} (m : Emit FuncBuilder A) (k : A -> Emit FuncBuilder B) (Q : A -> Prop) (Q' : B -> Prop) :
  Refs R m Q -> (forall a, Q a -> Refs R (k a) Q') -> Refs R (m ≫= k) Q'.
Proof.
  intros Hm Hk f b f' Hf. unfold mbind, emit_bind. destruct (m f) as [[a f1]|e|s] eqn:E; cbn; try done.
  intros Ek. destruct (Hm _ _ _ Hf E) as (H1 & Hn & Hp & Ha).
  destruct (Hk a Ha _ _ _ H1 Ek) as (H2 & Hn2 & Hp2 & Hb). by rewrite Hn2, Hp2.
Qed.

Lemma Refs_weaken {A} (m : Emit FuncBuilder A) (Q Q' : A -> Prop) :
  Refs R m Q -> (forall a, Q a -> Q' a) -> Refs R m Q'.
Proof. intros H HQ f a f' Hf E. destruct (H _ _ _ Hf E) as (? & ? & ? & ?). auto. Qed.

Lemma Refs_each {A} (f : A -> Emit FuncBuilder unit) l :
  (forall x, x ∈ l -> Refs R (f x) any) -> Refs R (emit_each f l) any.
Proof.
  induction l as [|x l IH]; intros H; cbn [emit_each]; [by apply Refs_ret|].
  eapply Refs_bind; [apply H, list_elem_of_here|]. intros [] _. apply IH. intros y Hy.
  apply H. by apply list_elem_of_further.
Qed.

Lemma Refs_if (b : bool) m : (b = true -> Refs R m any) -> Refs R (emit_if b m) any.
Proof. destruct b; intros H; [by apply H|by apply Refs_ret]. Qed.

Lemma Refs_lift {A} (r : Result A) (Q : A -> Prop) : (forall a, r = Ok a -> Q a) -> Refs R (lift r) Q.
Proof. intros H f a f' Hf. unfold lift. destruct r; cbn; [|done|done]. intros [= -> ->]. auto. Qed.

Lemma Refs_push line : yields (refers R) (String.append line nl) -> Refs R (push line) any.
Proof.
  intros H f [] f' Hf [= <-]. split; [|done]. destruct Hf. split; [done..|]. cbn.
  apply Forall_app_2; [done|by constructor].
Qed.
Lemma Refs_push_text line : yields (refers R) line -> Refs R (push line) any.
Proof. intros H. apply Refs_push, yields_app; [done|]. by apply (yields_literal _ _ []). Qed.

Lemma Refs_op_asm s : yields (refers R) s -> Refs R (op_asm s) any.
Proof.
  intros H. unfold op_asm. case_bool_decide; [by apply Refs_ret|].
  by apply Refs_push, yields_trim_end.
Qed.

Lemma Refs_arg_attrs name ty attributes :
  is_ident name -> calm ty -> calm (trim attributes) ->
  Refs R (arg_attrs name ty attributes) (fun v => v = name).
Proof.
  intros Hn Ht Ha f v f' Hf. unfold arg_attrs. intros E.
  assert (E2 : v = name /\ exists ty', calm ty' /\
    f' = {| fb_name := fb_name f; fb_private := fb_private f; fb_args := fb_args f ++ [(name, ty')];
            fb_results := fb_results f; fb_body := fb_body f; fb_next_id := fb_next_id f;
            fb_attrs := fb_attrs f |}).
  { injection E as <- <-. split; [done|]. eexists. split; [|done]. case_bool_decide; [done|].
    eapply (yields_fmt _ [("", Block); ("attrs", Block)]); [|reflexivity|constructor].
    repeat constructor; done. }
  destruct E2 as (-> & ty' & Hty & ->). destruct Hf. split; [|done]. split; [|done..]. cbn.
  apply Forall_app_2; [done|]. by repeat constructor.
Qed.
Lemma Refs_arg name ty : is_ident name -> calm ty -> Refs R (arg name ty) (fun v => v = name).
Proof. intros Hn Ht. apply Refs_arg_attrs; [done..|]. apply yields_nil. Qed.

Lemma Refs_returns tys : Forall calm tys -> Refs R (returns tys) any.
Proof.
  intros H f [] f' Hf [= <-]. destruct Hf. split; [|done]. split; [done| |done..]. cbn.
  by apply Forall_app_2.
Qed.
Lemma Refs_result_ty ty : calm ty -> Refs R (result_ty ty) any.
Proof. intros H. apply Refs_returns. by repeat constructor. Qed.

Lemma Refs_attrs a : calm a -> Refs R (attrs a) any.
Proof. intros H f [] f' Hf [= <-]. by destruct Hf. Qed.

(** A new value has a name. *)
Lemma Refs_alloc hint : is_ident hint -> Refs R (alloc hint) is_ident.
Proof.
  intros H f v f' Hf [= <- <-]. destruct Hf. split; [done|]. split; [done|]. split; [done|].
  eapply (ident_fmt (fun _ => False) [("hint", Ident); ("id", Ident)]); [|reflexivity].
  repeat constructor; [done|]. cbn. apply ident_num.
Qed.
Lemma Refs_define v e line :
  is_ident v -> yields (refers R) (fmt (("v", ssa v) :: e) line) -> Refs R (define v e line) is_ident.
Proof.
  intros Hv H. unfold define. eapply Refs_bind; [by apply Refs_push_text|]. intros _ _. by apply Refs_ret.
Qed.
Lemma Refs_fresh hint e line :
  is_ident hint -> (forall v, is_ident v -> yields (refers R) (fmt (("v", ssa v) :: e) line)) ->
  Refs R (Mlir.fresh hint e line) is_ident.
Proof.
  intros Hh H. unfold Mlir.fresh. eapply Refs_bind; [by apply Refs_alloc|]. intros v Hv.
  apply Refs_define; auto.
Qed.
Lemma Refs_ret_ty vals tys : Forall is_ident vals -> calm tys -> Refs R (ret_ty vals tys) any.
Proof.
  intros Hv Ht. apply Refs_push_text.
  eapply (yields_fmt _ [("vs", Block); ("tys", Block)]); [|reflexivity|constructor].
  repeat constructor; cbn; [|by apply calm_yields]. apply yields_join, Forall_fmap.
  eapply Forall_impl; [done|]. intros v. apply yields_ssa.
Qed.

(** The text of a function declares its name. *)
Lemma push_lines_yields l :
  Forall (fun line => yields (refers R) (String.append line nl)) l -> yields (refers R) (push_lines l).
Proof.
  induction 1 as [|line l Hline _ IH]; cbn [push_lines]; [apply yields_nil|].
  rewrite <-append_assoc. apply yields_app; [|done]. by apply yields_closed_line.
Qed.
End Functions.

(** ** Modules *)

Lemma bool_filter_elem {A} (f : A -> bool) l x : x ∈ List.filter f l <-> x ∈ l /\ f x = true.
Proof. by rewrite !list_elem_of_In, filter_In. Qed.

Lemma declared_by_elem s n : n ∈ declared_by s <-> (true, n) ∈ symbols s.
Proof.
  unfold declared_by. rewrite list_elem_of_fmap. setoid_rewrite bool_filter_elem. split.
  - intros ([[] m] & -> & H & Hd); done.
  - intros H. by exists (true, n).
Qed.
Lemma referred_by_elem s n : n ∈ referred_by s <-> (false, n) ∈ symbols s.
Proof.
  unfold referred_by. rewrite list_elem_of_fmap. setoid_rewrite bool_filter_elem. split.
  - intros ([[] m] & -> & H & Hd); done.
  - intros H. by exists (false, n).
Qed.

(** The names a template declares or refers to. *)
Definition names (e : env) (l : list abs_symbol) (d : bool) : list string :=
  (fun y => name_text e y.2) <$> List.filter (fun y => Bool.eqb y.1 d) l.
Lemma names_elem e l d n : n ∈ names e l d <-> (d, n) ∈ symbol_of e <$> l.
Proof.
  unfold names. rewrite !list_elem_of_fmap. setoid_rewrite bool_filter_elem. unfold symbol_of. split.
  - intros ([d' ps] & -> & H & Hd%eqb_prop). exists (d', ps). cbn in *. by subst.
  - intros ([d' ps] & [= -> ->] & H). exists (d', ps). by rewrite eqb_reflx.
Qed.

Section Modules.
Context {ML : MlirApi}.

Definition declared (b : ModuleBuilder) : list string := flat_map declared_by (md_toplevel b).
(** Every fragment refers to what it or an earlier one declares, and there is
    no verified text of fewer fragments. *)
Definition module_ok (b : ModuleBuilder) : Prop :=
  md_verified_text b = None /\ resolved [] (md_toplevel b).

Definition Scoped {A} (pre : list string) (m : Emit ModuleBuilder A) (adds : list string) : Prop :=
  forall b a b', module_ok b -> pre ⊆ declared b -> m b = Ok (a, b') ->
  module_ok b' /\ declared b ⊆ declared b' /\ adds ⊆ declared b'.

Lemma resolved_snoc scope l s :
  resolved scope (l ++ [s]) <->
  resolved scope l /\
  Forall (fun name => name ∈ (scope ++ flat_map declared_by l) ++ declared_by s) (referred_by s).
Proof.
  revert scope. induction l as [|x l IH]; intros scope0; cbn.
  - rewrite app_nil_r. by split; [intros [H _]|intros [_ H]].
  - rewrite IH, (app_assoc scope0 (declared_by x)). split; [intros (H1 & H2 & H3)|intros ((H1 & H2) & H3)]; by repeat split.
Qed.

Lemma Scoped_ret pre : Scoped pre (mret tt) [].
Proof. intros b [] b' Hb _ [= <-]. split; [done|]. set_solver. Qed.

Lemma Scoped_bind {A B} pre (m : Emit ModuleBuilder A) (k : A -> Emit ModuleBuilder B) adds adds' :
  Scoped pre m adds -> (forall a, Scoped (pre ++ adds) (k a) adds') -> Scoped pre (m ≫= k) (adds ++ adds').
Proof.
  intros Hm Hk b c b' Hb Hpre. unfold mbind, emit_bind. destruct (m b) as [[a b1]|e|s] eqn:E; cbn; try done.
  intros Ek. destruct (Hm _ _ _ Hb Hpre E) as (H1 & Hd & Ha).
  assert (Hpre' : pre ++ adds ⊆ declared b1).
  { apply list_subseteq_app_iff_l. split; [by etrans|done]. }
  destruct (Hk a _ _ _ H1 Hpre' Ek) as (H2 & Hd2 & Ha2). split; [done|]. split; [by etrans|].
  apply list_subseteq_app_iff_l. split; [by etrans|done].
Qed.

Lemma Scoped_weaken {A} pre pre' (m : Emit ModuleBuilder A) adds adds' :
  Scoped pre m adds -> pre ⊆ pre' -> adds' ⊆ adds -> Scoped pre' m adds'.
Proof.
  intros H Hp Ha b a b' Hb Hpre E. destruct (H _ _ _ Hb ltac:(set_solver) E) as (? & ? & ?).
  split; [done|]. set_solver.
Qed.
Lemma Scoped_pre {A} pre pre' (m : Emit ModuleBuilder A) adds :
  Scoped pre m adds -> pre ⊆ pre' -> Scoped pre' m adds.
Proof. intros H Hp. by eapply Scoped_weaken. Qed.

Lemma Scoped_each {A} pre (f : A -> Emit ModuleBuilder unit) (adds : A -> list string) l :
  (forall x, x ∈ l -> Scoped pre (f x) (adds x)) -> Scoped pre (emit_each f l) (flat_map adds l).
Proof.
  induction l as [|x l IH]; intros H; cbn [emit_each flat_map]; [apply Scoped_ret|].
  eapply Scoped_bind; [apply H, list_elem_of_here|]. intros _.
  eapply Scoped_pre; [apply IH; intros y Hy; by apply H, list_elem_of_further|]. set_solver.
Qed.

Lemma Scoped_if pre (b : bool) m adds :
  (b = true -> Scoped pre m adds) -> Scoped pre (emit_if b m) (if b then adds else []).
Proof. destruct b; intros H; [by apply H|apply Scoped_ret]. Qed.

Lemma Scoped_lift {A} pre (r : Result A) : Scoped pre (lift r) [].
Proof.
  intros b a b' Hb Hp. unfold lift. destruct r; cbn; [|done..]. intros [= -> ->].
  split; [done|]. set_solver.
Qed.

(** A fragment whose references are known to be declared. *)
Lemma Scoped_append pre s adds :
  space_prefix s = None -> adds ⊆ declared_by s ->
  Forall (fun n => n ∈ pre ++ declared_by s) (referred_by s) ->
  Scoped pre (append_toplevel_asm s) adds.
Proof.
  intros Hs Ha Hr b [] b' Hb Hp. unfold append_toplevel_asm.
  assert (Ht : trim s = trim_end s).
  { unfold trim, trim_start. by rewrite (exhaust_None _ _ s Hs). }
  assert (Hd : declared_by (trim s) = declared_by s) by by unfold declared_by; rewrite Ht, symbols_trim_end.
  assert (Hr' : referred_by (trim s) = referred_by s) by by unfold referred_by; rewrite Ht, symbols_trim_end.
  case_bool_decide as Hn.
  { intros [= <-]. split; [done|]. split; [done|].
    rewrite Hn in Hd. rewrite <-Hd in Ha. etrans; [exact Ha|apply list_subseteq_nil]. }
  destruct (materialize _); cbn; [|done..]. intros [= <-].
  unfold module_ok, declared in *. cbn [md_toplevel md_verified_text]. destruct Hb as [_ Hb].
  rewrite resolved_snoc, flat_map_app.
  cbn [flat_map]. rewrite Hd, Hr', app_nil_r. split; [split; [done|split; [done|]]|split].
  - eapply Forall_impl; [done|]. cbn. intros n. rewrite !elem_of_app. intros [?|?]; [left; by apply Hp|by right].
  - apply list_subseteq_app_l. done.
  - by apply list_subseteq_app_r.
Qed.

(** The same for a formatted text: its template declares [adds], and what else
    it names is declared before. *)
Definition scope (pre : list string) (n : string) : Prop := n ∈ pre.

Lemma Scoped_append_fmt pre K e t l :
  env_holds (refers (scope pre)) K e -> space_prefix (fmt e t) = None ->
  abs_fragment K (template t) = Some l ->
  Forall (fun n => n ∈ pre ++ names e l true) (names e l false) ->
  Scoped pre (append_toplevel_asm (fmt e t)) (names e l true).
Proof.
  intros He Hs Hl Hr. pose proof (symbols_fmt _ _ _ He _ _ Hl) as Hw.
  assert (Hd : names e l true ⊆ declared_by (fmt e t)).
  { intros n Hn. apply declared_by_elem. eapply with_blocks_elem; [done|].
    by apply (names_elem e l true). }
  apply Scoped_append; [done..|]. apply Forall_forall. intros n Hn%referred_by_elem.
  destruct (with_blocks_elem_inv _ _ _ _ Hw Hn) as [H|[_ H]]; [|by apply elem_of_app; left].
  apply (names_elem e l false) in H. rewrite Forall_forall in Hr. specialize (Hr n H).
  apply elem_of_app in Hr as [Hr|Hr]; apply elem_of_app; [by left|right; by apply Hd].
Qed.

(** A function declares its name and refers to what its body does. *)
Definition function_template (private : bool) : string :=
  if private then "func.func private @{name}({args}){rets}{attr} {{
{body}}}
" else "func.func @{name}({args}){rets}{attr} {{
{body}}}
".
Definition function_env (f : FuncBuilder) : env :=
  [("name", fb_name f); ("args", join_with ", " (arg_text <$> fb_args f)); ("rets", rets_text (fb_results f));
   ("attr", match fb_attrs f with Some a => fmt [("a", a)] " attributes {a}" | None => EmptyString end);
   ("body", push_lines (fb_body f))].
Lemma to_asm_fmt f : to_asm f = fmt (function_env f) (function_template (fb_private f)).
Proof.
  unfold to_asm, function_env, function_template.
  destruct (fb_private f); read_templates; rewrite !append_assoc; reflexivity.
Qed.

Definition function_kinds : kinds :=
  [("name", Ident); ("args", Block); ("rets", Block); ("attr", Block); ("body", Block)].
Lemma function_env_holds R f : is_ident (fb_name f) -> func_ok R f ->
  env_holds (refers R) function_kinds (function_env f).
Proof.
  intros Hn [Ha Hr Ht Hb]. unfold function_env, function_kinds.
  apply env_holds_ident; [done|]. repeat apply env_holds_block; [..|apply env_holds_nil].
  - apply yields_join, Forall_fmap. eapply Forall_impl; [done|]. intros [n t] [Hn' Ht']. cbn [fst snd] in Hn', Ht'.
    change (yields (refers R) (fmt [("n", n); ("t", t)] "%{n}: {t}")). text.
  - destruct Hr as [|r l Hr Hl]; [apply yields_nil|]. destruct l as [|r' l]; cbn [rets_text]; [text|].
    assert (H : calm (join_with ", " (r :: r' :: l))) by (apply yields_join; by constructor). text.
  - destruct (fb_attrs f); text.
  - by apply push_lines_yields.
Qed.

Lemma Scoped_function pre private name body Q :
  is_ident name -> Refs (scope pre) body Q -> Scoped pre (emit_function private name body) [name].
Proof.
  intros Hn Hbody b [] b' Hb Hp. unfold emit_function.
  destruct (body (FuncBuilder_new name private)) as [[a f]|e|s] eqn:E; cbn; [|done..].
  assert (Hnew : func_ok (scope pre) (FuncBuilder_new name private)) by by repeat constructor.
  destruct (Hbody _ _ _ Hnew E) as (Hf & Hname & Hpriv & _). cbn in Hname, Hpriv.
  rewrite to_asm_fmt, Hpriv. rewrite <-Hname in *. revert b b' Hb Hp.
  assert (HS : forall p, Scoped pre (append_toplevel_asm (fmt (function_env f) (function_template p))) [fb_name f]).
  { intros p. eapply Scoped_weaken;
      [eapply (Scoped_append_fmt pre function_kinds (function_env f) _ [(true, [Hole "name"])])|done|].
    - by apply function_env_holds.
    - destruct p; reflexivity.
    - destruct p; reflexivity.
    - constructor.
    - done. }
  intros b b' Hb Hp. apply (HS private b tt b' Hb Hp).
Qed.

(** *** Globals *)

Lemma Scoped_global_zero pre sym ty :
  is_ident sym -> calm ty -> Scoped pre (util_global_mutable_zero sym ty) [sym].
Proof.
  intros Hs Ht. unfold util_global_mutable_zero. eapply Scoped_weaken;
    [eapply (Scoped_append_fmt pre [("sym", Ident); ("ty_asm", Block)])|done|].
  - holds.
  - done.
  - reflexivity.
  - constructor.
  - done.
Qed.
Lemma Scoped_global_parameter pre sym key ty :
  is_ident sym -> is_quotable key -> calm ty -> Scoped pre (util_global_parameter sym key ty) [sym].
Proof.
  intros Hs Hk Ht. unfold util_global_parameter. eapply Scoped_weaken;
    [eapply (Scoped_append_fmt pre [("sym", Ident); ("key", Quotable); ("ty_asm", Block)])|done|].
  - apply env_holds_ident; [done|]. apply env_holds_quotable; [done|]. holds.
  - done.
  - reflexivity.
  - constructor.
  - done.
Qed.
End Modules.
