(* ===== verification/Kernels.v ===== *)
(** * The kernels of the decoder: crates/dyninfer-compiler/src/lowering/kernels.rs

    Each definition appends one private function to the module. The texts are
    those of the source. *)
From S2P Require Import Prelude Strings Errors Serde Floats Mlir.
From Stdlib Require Import ZArith Lia Ascii String SpecFloat.
From stdpp Require Import base list strings gmap.
From stdpp Require Import options.

Local Open Scope Z_scope.

(** Rust's [f32::powf], [cos] and [sin], whose last bits the platform decides. *)
Class FloatFunctions := {
  powf : f32 -> f32 -> f32;
  cosf : f32 -> f32;
  sinf : f32 -> f32;
}.

Section Kernels.
Context {ML : MlirApi} {FF : FloatFunctions}.

Abbreviation Function := (Emit FuncBuilder).
Abbreviation Program := (Emit ModuleBuilder unit).

(** [for x in [..] { f.arg(..); }] *)
Definition args (l : list (string * string)) : Function unit :=
  emit_each (fun a => _ ← arg a.1 a.2; mret tt) l.

Fixpoint shrink_tile (fuel : nat) (head_dim tile : Z) : Z :=
  match fuel with
  | O => tile
  | S fuel => if (16 <? tile) && negb (head_dim mod tile =? 0) then shrink_tile fuel head_dim (tile - 16)
              else tile
  end.
Definition flash_n_tile (head_dim : Z) : Z :=
  let cap := Z.min 64 head_dim in
  let tile := cap - cap mod 16 in
  let tile := if tile =? 0 then 16 else tile in
  shrink_tile 4 head_dim tile.

Definition flash_config (query_len n_tile : Z) : string :=
  if query_len =? 1 then
    fmt [("n_tile", num n_tile)] "compilation_info = #iree_codegen.compilation_info<
        lowering_config = #iree_gpu.lowering_config<{{
          promote_operands = [0, 1, 2],
          reduction = [0, 0, 0, 64, 0],
          workgroup = [1, 16, 0, 0, {n_tile}]}}>,
        translation_info = #iree_codegen.translation_info<
          pipeline = LLVMGPUVectorDistribute
          workgroup_size = [32, 1, 1]
          subgroup_size = 32,
          {{iree_codegen.denormal_fp_math_f32 = #iree_codegen.denormal_fp_math<'preserve-sign'>}}>>,
      decomposition_config = {{
        pv_attrs = {{lowering_config = #iree_gpu.lowering_config<{{
          mma_kind = #iree_gpu.mma_layout<WMMAR3_F32_16x16x16_F16>,
          promote_operands = [1],
          subgroup_basis = [[1, 1, 1, 1, 1], [0, 1, 3, 4]]}}>}},
        qk_attrs = {{lowering_config = #iree_gpu.lowering_config<{{
          mma_kind = #iree_gpu.mma_layout<WMMAR3_F32_16x16x16_F16>,
          promote_operands = [0, 1],
          subgroup_basis = [[1, 1, 1, 1, 1], [0, 1, 2, 3]]}}>}}}},
"
  else
    fmt [("n_tile", num n_tile)] "compilation_info = #iree_codegen.compilation_info<
        lowering_config = #iree_gpu.lowering_config<{{
          promote_operands = [0, 1, 2],
          reduction = [0, 0, 0, 64, 0],
          workgroup = [1, 64, 0, 0, {n_tile}]}}>,
        translation_info = #iree_codegen.translation_info<
          pipeline = LLVMGPUVectorDistribute
          workgroup_size = [128, 1, 1]
          subgroup_size = 32,
          {{iree_codegen.denormal_fp_math_f32 = #iree_codegen.denormal_fp_math<'preserve-sign'>}}>>,
      decomposition_config = {{
        pv_attrs = {{lowering_config = #iree_gpu.lowering_config<{{
          mma_kind = #iree_gpu.mma_layout<WMMAR3_F32_16x16x16_F16>,
          promote_operands = [1],
          subgroup_basis = [[1, 4, 1, 1, 1], [0, 1, 3, 4]]}}>}},
        qk_attrs = {{lowering_config = #iree_gpu.lowering_config<{{
          mma_kind = #iree_gpu.mma_layout<WMMAR3_F32_16x16x16_F16>,
          promote_operands = [0, 1],
          subgroup_basis = [[1, 4, 1, 1, 1], [0, 1, 2, 3]]}}>}}}},
".

Definition emit_iree_online_attention_page (name : string)
    (query_len page_size kv_heads gqa_group head_dim : Z) : Program :=
  let flash_queries := mul32 gqa_group query_len in
  let kernel_queries := if query_len =? 1 then 16 else flash_queries in
  let n := [("kv_heads", num kv_heads); ("gqa_group", num gqa_group); ("query_len", num query_len);
            ("head_dim", num head_dim); ("page_size", num page_size);
            ("flash_queries", num flash_queries); ("kernel_queries", num kernel_queries)] in
  let q_ty := fmt n "tensor<{kv_heads}x{gqa_group}x{query_len}x{head_dim}xf32>" in
  let q_flash_ty := fmt n "tensor<{kv_heads}x{gqa_group}x{query_len}x{head_dim}xf16>" in
  let q_flat_ty := fmt n "tensor<{kv_heads}x{flash_queries}x{head_dim}xf16>" in
  let output_flat_ty := fmt n "tensor<{kv_heads}x{flash_queries}x{head_dim}xf32>" in
  let q_kernel_ty := fmt n "tensor<{kv_heads}x{kernel_queries}x{head_dim}xf16>" in
  let output_kernel_ty := fmt n "tensor<{kv_heads}x{kernel_queries}x{head_dim}xf32>" in
  let kv_ty := fmt n "tensor<{kv_heads}x{page_size}x{head_dim}xf32>" in
  let kv_flash_ty := fmt n "tensor<{kv_heads}x{page_size}x{head_dim}xf16>" in
  let mask_ty := fmt n "tensor<{kv_heads}x{gqa_group}x{query_len}x{page_size}xf32>" in
  let mask_flash_ty := fmt n "tensor<{kv_heads}x{gqa_group}x{query_len}x{page_size}xf16>" in
  let mask_flat_ty := fmt n "tensor<{kv_heads}x{flash_queries}x{page_size}xf16>" in
  let mask_kernel_ty := fmt n "tensor<{kv_heads}x{kernel_queries}x{page_size}xf16>" in
  let row_ty := fmt n "tensor<{kv_heads}x{gqa_group}x{query_len}xf32>" in
  let row_flat_ty := fmt n "tensor<{kv_heads}x{flash_queries}xf32>" in
  let row_kernel_ty := fmt n "tensor<{kv_heads}x{kernel_queries}xf32>" in
  let t := [("q_ty", q_ty); ("q_flash_ty", q_flash_ty); ("q_flat_ty", q_flat_ty);
            ("output_flat_ty", output_flat_ty); ("q_kernel_ty", q_kernel_ty);
            ("output_kernel_ty", output_kernel_ty); ("kv_ty", kv_ty); ("kv_flash_ty", kv_flash_ty);
            ("mask_ty", mask_ty); ("mask_flash_ty", mask_flash_ty); ("mask_flat_ty", mask_flat_ty);
            ("mask_kernel_ty", mask_kernel_ty); ("row_ty", row_ty); ("row_flat_ty", row_flat_ty);
            ("row_kernel_ty", row_kernel_ty)] ++ n in
  func_private name (
    _ ← args [("q", q_ty); ("k", kv_ty); ("v", kv_ty); ("scale", "f16"); ("mask", mask_ty);
              ("output", q_ty); ("row_max", row_ty); ("row_sum", row_ty)];
    _ ← returns [q_ty; row_ty; row_ty];
    let decoding := query_len =? 1 in
    let pick (a b : string) := if decoding then a else b in
    let blocks :=
      [("padding", if decoding then fmt t "  %zero16 = arith.constant 0.0 : f16
  %zero32 = arith.constant 0.0 : f32
  %neg16 = arith.constant 0xFC00 : f16
  %neg32 = arith.constant -3.40282347E+38 : f32
  %q_pad_e = tensor.empty() : {q_kernel_ty}
  %mask_pad_e = tensor.empty() : {mask_kernel_ty}
  %output_pad_e = tensor.empty() : {output_kernel_ty}
  %row_max_pad_e = tensor.empty() : {row_kernel_ty}
  %row_sum_pad_e = tensor.empty() : {row_kernel_ty}
  %q_pad = linalg.fill ins(%zero16 : f16) outs(%q_pad_e : {q_kernel_ty}) -> {q_kernel_ty}
  %mask_pad = linalg.fill ins(%neg16 : f16) outs(%mask_pad_e : {mask_kernel_ty}) -> {mask_kernel_ty}
  %output_pad = linalg.fill ins(%zero32 : f32) outs(%output_pad_e : {output_kernel_ty}) -> {output_kernel_ty}
  %row_max_pad = linalg.fill ins(%neg32 : f32) outs(%row_max_pad_e : {row_kernel_ty}) -> {row_kernel_ty}
  %row_sum_pad = linalg.fill ins(%zero32 : f32) outs(%row_sum_pad_e : {row_kernel_ty}) -> {row_kernel_ty}
  %q_kernel = tensor.insert_slice %q_flat into %q_pad[0, 0, 0] [{kv_heads}, {flash_queries}, {head_dim}] [1, 1, 1] : {q_flat_ty} into {q_kernel_ty}
  %mask_kernel = tensor.insert_slice %mask_flat into %mask_pad[0, 0, 0] [{kv_heads}, {flash_queries}, {page_size}] [1, 1, 1] : {mask_flat_ty} into {mask_kernel_ty}
  %output_kernel = tensor.insert_slice %output_flat into %output_pad[0, 0, 0] [{kv_heads}, {flash_queries}, {head_dim}] [1, 1, 1] : {output_flat_ty} into {output_kernel_ty}
  %max_kernel = tensor.insert_slice %max_flat into %row_max_pad[0, 0] [{kv_heads}, {flash_queries}] [1, 1] : {row_flat_ty} into {row_kernel_ty}
  %sum_kernel = tensor.insert_slice %sum_flat into %row_sum_pad[0, 0] [{kv_heads}, {flash_queries}] [1, 1] : {row_flat_ty} into {row_kernel_ty}
" else EmptyString);
       ("result_slices", if decoding then fmt t "  %output_real = tensor.extract_slice %next#0[0, 0, 0] [{kv_heads}, {flash_queries}, {head_dim}] [1, 1, 1] : {output_kernel_ty} to {output_flat_ty}
  %max_real = tensor.extract_slice %next#1[0, 0] [{kv_heads}, {flash_queries}] [1, 1] : {row_kernel_ty} to {row_flat_ty}
  %sum_real = tensor.extract_slice %next#2[0, 0] [{kv_heads}, {flash_queries}] [1, 1] : {row_kernel_ty} to {row_flat_ty}
" else EmptyString);
       ("flash_config", flash_config query_len (flash_n_tile head_dim))] in
    let names :=
      [("q_input", pick "q_kernel" "q_flat"); ("mask_input", pick "mask_kernel" "mask_flat");
       ("output_input", pick "output_kernel" "output_flat"); ("max_input", pick "max_kernel" "max_flat");
       ("sum_input", pick "sum_kernel" "sum_flat"); ("output_result", pick "output_real" "next#0");
       ("max_result", pick "max_real" "next#1"); ("sum_result", pick "sum_real" "next#2")] in
    op_asm (fmt (blocks ++ names ++ t) "  %q16 = arith.truncf %q : {q_ty} to {q_flash_ty}
  %k16 = arith.truncf %k : {kv_ty} to {kv_flash_ty}
  %v16 = arith.truncf %v : {kv_ty} to {kv_flash_ty}
  %mask16 = arith.truncf %mask : {mask_ty} to {mask_flash_ty}
  %q_flat = tensor.collapse_shape %q16 [[0], [1, 2], [3]] : {q_flash_ty} into {q_flat_ty}
  %mask_flat = tensor.collapse_shape %mask16 [[0], [1, 2], [3]] : {mask_flash_ty} into {mask_flat_ty}
  %output_flat = tensor.collapse_shape %output [[0], [1, 2], [3]] : {q_ty} into {output_flat_ty}
  %max_flat = tensor.collapse_shape %row_max [[0], [1, 2]] : {row_ty} into {row_flat_ty}
  %sum_flat = tensor.collapse_shape %row_sum [[0], [1, 2]] : {row_ty} into {row_flat_ty}
{padding}
  %next:3 = iree_linalg_ext.online_attention {{
      {flash_config}
      indexing_maps = [
        affine_map<(h, q, d, p, n) -> (h, q, d)>,
        affine_map<(h, q, d, p, n) -> (h, p, d)>,
        affine_map<(h, q, d, p, n) -> (h, p, n)>,
        affine_map<(h, q, d, p, n) -> ()>,
        affine_map<(h, q, d, p, n) -> (h, q, p)>,
        affine_map<(h, q, d, p, n) -> (h, q, n)>,
        affine_map<(h, q, d, p, n) -> (h, q)>,
        affine_map<(h, q, d, p, n) -> (h, q)>
      ]
    }} ins(%{q_input}, %k16, %v16, %scale, %{mask_input} : {q_kernel_ty}, {kv_flash_ty}, {kv_flash_ty}, f16, {mask_kernel_ty})
       outs(%{output_input}, %{max_input}, %{sum_input} : {output_kernel_ty}, {row_kernel_ty}, {row_kernel_ty}) {{
    ^bb0(%score: f32):
      iree_linalg_ext.yield %score : f32
  }} -> {output_kernel_ty}, {row_kernel_ty}, {row_kernel_ty}
{result_slices}  %output_next = tensor.expand_shape %{output_result} [[0], [1, 2], [3]] output_shape [{kv_heads}, {gqa_group}, {query_len}, {head_dim}] : {output_flat_ty} into {q_ty}
  %max_next = tensor.expand_shape %{max_result} [[0], [1, 2]] output_shape [{kv_heads}, {gqa_group}, {query_len}] : {row_flat_ty} into {row_ty}
  %sum_next = tensor.expand_shape %{sum_result} [[0], [1, 2]] output_shape [{kv_heads}, {gqa_group}, {query_len}] : {row_flat_ty} into {row_ty}
  return %output_next, %max_next, %sum_next : {q_ty}, {row_ty}, {row_ty}
")).

Definition emit_iree_attention (name : string) (query_len kv_len kv_heads gqa_group head_dim : Z) : Program :=
  let flash_queries := mul32 gqa_group query_len in
  let n := [("kv_heads", num kv_heads); ("gqa_group", num gqa_group); ("query_len", num query_len);
            ("head_dim", num head_dim); ("kv_len", num kv_len); ("flash_queries", num flash_queries)] in
  let q_ty := fmt n "tensor<{kv_heads}x{gqa_group}x{query_len}x{head_dim}xf32>" in
  let q_flash_ty := fmt n "tensor<{kv_heads}x{gqa_group}x{query_len}x{head_dim}xf16>" in
  let q_flat_ty := fmt n "tensor<{kv_heads}x{flash_queries}x{head_dim}xf16>" in
  let output_flat_ty := fmt n "tensor<{kv_heads}x{flash_queries}x{head_dim}xf32>" in
  let kv_flash_ty := fmt n "tensor<{kv_heads}x{kv_len}x{head_dim}xf16>" in
  let mask_ty := fmt n "tensor<{kv_heads}x{gqa_group}x{query_len}x{kv_len}xi1>" in
  let mask_flat_ty := fmt n "tensor<{kv_heads}x{flash_queries}x{kv_len}xi1>" in
  let t := [("q_ty", q_ty); ("q_flash_ty", q_flash_ty); ("q_flat_ty", q_flat_ty);
            ("output_flat_ty", output_flat_ty); ("kv_flash_ty", kv_flash_ty); ("mask_ty", mask_ty);
            ("mask_flat_ty", mask_flat_ty)] ++ n in
  func_private name (
    _ ← args [("q", q_ty); ("k", kv_flash_ty); ("v", kv_flash_ty); ("scale", "f16"); ("mask", mask_ty);
              ("output", q_ty)];
    _ ← result_ty q_ty;
    op_asm (fmt t "  %q16 = arith.truncf %q : {q_ty} to {q_flash_ty}
  %q_flat = tensor.collapse_shape %q16 [[0], [1, 2], [3]] : {q_flash_ty} into {q_flat_ty}
  %mask_flat = tensor.collapse_shape %mask [[0], [1, 2], [3]] : {mask_ty} into {mask_flat_ty}
  %output_flat = tensor.collapse_shape %output [[0], [1, 2], [3]] : {q_ty} into {output_flat_ty}
  %next = iree_linalg_ext.attention {{
      indexing_maps = [
        affine_map<(h, q, d, p, n) -> (h, q, d)>,
        affine_map<(h, q, d, p, n) -> (h, p, d)>,
        affine_map<(h, q, d, p, n) -> (h, p, n)>,
        affine_map<(h, q, d, p, n) -> ()>,
        affine_map<(h, q, d, p, n) -> (h, q, p)>,
        affine_map<(h, q, d, p, n) -> (h, q, n)>
      ]
    }} ins(%q_flat, %k, %v, %scale, %mask_flat : {q_flat_ty}, {kv_flash_ty}, {kv_flash_ty}, f16, {mask_flat_ty})
       outs(%output_flat : {output_flat_ty}) {{
    ^bb0(%score: f32):
      iree_linalg_ext.yield %score : f32
  }} -> {output_flat_ty}
  %output_next = tensor.expand_shape %next [[0], [1, 2], [3]] output_shape [{kv_heads}, {gqa_group}, {query_len}, {head_dim}] : {output_flat_ty} into {q_ty}
  return %output_next : {q_ty}
")).

Definition emit_full_causal_mask (name : string) (query_len kv_len kv_heads gqa_group : Z) : Program :=
  let n := [("kv_heads", num kv_heads); ("gqa_group", num gqa_group); ("query_len", num query_len);
            ("kv_len", num kv_len)] in
  let mask_ty := fmt n "tensor<{kv_heads}x{gqa_group}x{query_len}x{kv_len}xi1>" in
  func_private name (
    _ ← args [("start_pos", "tensor<i64>"); ("valid_count", "tensor<i64>")];
    _ ← result_ty mask_ty;
    op_asm (fmt [("mask_ty", mask_ty)] "  %start64 = tensor.extract %start_pos[] : tensor<i64>
  %valid64 = tensor.extract %valid_count[] : tensor<i64>
  %seq_end = arith.addi %start64, %valid64 : i64
  %empty = tensor.empty() : {mask_ty}
  %mask = linalg.generic {{
      indexing_maps = [affine_map<(kh, g, q, k) -> (kh, g, q, k)>],
      iterator_types = ['parallel', 'parallel', 'parallel', 'parallel']}}
    outs(%empty : {mask_ty}) {{
    ^bb0(%o: i1):
      %q = linalg.index 2 : index
      %k = linalg.index 3 : index
      %q64 = arith.index_cast %q : index to i64
      %k64 = arith.index_cast %k : index to i64
      %abs_q = arith.addi %start64, %q64 : i64
      %causal = arith.cmpi ule, %k64, %abs_q : i64
      %written = arith.cmpi ult, %k64, %seq_end : i64
      %visible = arith.andi %causal, %written : i1
      linalg.yield %visible : i1
  }} -> {mask_ty}
  return %mask : {mask_ty}")).

Definition emit_online_attention_page (name : string)
    (query_len page_size kv_heads gqa_group head_dim : Z) : Program :=
  let n := [("kv_heads", num kv_heads); ("gqa_group", num gqa_group); ("query_len", num query_len);
            ("head_dim", num head_dim); ("page_size", num page_size)] in
  let q_ty := fmt n "tensor<{kv_heads}x{gqa_group}x{query_len}x{head_dim}xf32>" in
  let kv_ty := fmt n "tensor<{kv_heads}x{page_size}x{head_dim}xf32>" in
  let score_ty := fmt n "tensor<{kv_heads}x{gqa_group}x{query_len}x{page_size}xf32>" in
  let row_ty := fmt n "tensor<{kv_heads}x{gqa_group}x{query_len}xf32>" in
  func_private name (
    _ ← args [("q", q_ty); ("k", kv_ty); ("v", kv_ty); ("scale", "f32"); ("mask", score_ty);
              ("output", q_ty); ("row_max", row_ty); ("row_sum", row_ty)];
    _ ← returns [q_ty; row_ty; row_ty];
    op_asm (fmt [("q_ty", q_ty); ("kv_ty", kv_ty); ("score_ty", score_ty); ("row_ty", row_ty)] "  %zero = arith.constant 0.0 : f32
  %neg = arith.constant -3.40282347E+38 : f32
  %scores_e = tensor.empty() : {score_ty}
  %scores_z = linalg.fill ins(%zero : f32) outs(%scores_e : {score_ty}) -> {score_ty}
  %dots = linalg.generic {{
      indexing_maps = [
        affine_map<(kh, g, q, p, d) -> (kh, g, q, d)>,
        affine_map<(kh, g, q, p, d) -> (kh, p, d)>,
        affine_map<(kh, g, q, p, d) -> (kh, g, q, p)>
      ],
      iterator_types = ['parallel', 'parallel', 'parallel', 'parallel', 'reduction']}}
    ins(%q, %k : {q_ty}, {kv_ty}) outs(%scores_z : {score_ty}) {{
    ^bb0(%qv: f32, %kv: f32, %acc: f32):
      %product = arith.mulf %qv, %kv : f32
      %next = arith.addf %acc, %product : f32
      linalg.yield %next : f32
  }} -> {score_ty}
  %masked_e = tensor.empty() : {score_ty}
  %scores = linalg.generic {{
      indexing_maps = [
        affine_map<(kh, g, q, p) -> (kh, g, q, p)>,
        affine_map<(kh, g, q, p) -> (kh, g, q, p)>,
        affine_map<(kh, g, q, p) -> (kh, g, q, p)>
      ],
      iterator_types = ['parallel', 'parallel', 'parallel', 'parallel']}}
    ins(%dots, %mask : {score_ty}, {score_ty}) outs(%masked_e : {score_ty}) {{
    ^bb0(%dot: f32, %bias: f32, %o: f32):
      %scaled = arith.mulf %dot, %scale : f32
      %value = arith.addf %scaled, %bias : f32
      linalg.yield %value : f32
  }} -> {score_ty}
  %row_e = tensor.empty() : {row_ty}
  %page_max_z = linalg.fill ins(%neg : f32) outs(%row_e : {row_ty}) -> {row_ty}
  %page_max = linalg.reduce ins(%scores : {score_ty}) outs(%page_max_z : {row_ty}) dimensions = [3]
    (%value: f32, %acc: f32) {{
      %next = arith.maximumf %value, %acc : f32
      linalg.yield %next : f32
    }}
  %new_max_e = tensor.empty() : {row_ty}
  %new_max = arith.maximumf %row_max, %page_max : {row_ty}
  %weights_e = tensor.empty() : {score_ty}
  %weights = linalg.generic {{
      indexing_maps = [
        affine_map<(kh, g, q, p) -> (kh, g, q, p)>,
        affine_map<(kh, g, q, p) -> (kh, g, q)>,
        affine_map<(kh, g, q, p) -> (kh, g, q, p)>
      ],
      iterator_types = ['parallel', 'parallel', 'parallel', 'parallel']}}
    ins(%scores, %new_max : {score_ty}, {row_ty}) outs(%weights_e : {score_ty}) {{
    ^bb0(%score: f32, %maximum: f32, %o: f32):
      %shifted = arith.subf %score, %maximum : f32
      %weight = math.exp %shifted : f32
      linalg.yield %weight : f32
  }} -> {score_ty}
  %page_sum_z = linalg.fill ins(%zero : f32) outs(%row_e : {row_ty}) -> {row_ty}
  %page_sum = linalg.reduce ins(%weights : {score_ty}) outs(%page_sum_z : {row_ty}) dimensions = [3]
    (%value: f32, %acc: f32) {{
      %next = arith.addf %value, %acc : f32
      linalg.yield %next : f32
    }}
  %page_out_e = tensor.empty() : {q_ty}
  %page_out_z = linalg.fill ins(%zero : f32) outs(%page_out_e : {q_ty}) -> {q_ty}
  %page_out = linalg.generic {{
      indexing_maps = [
        affine_map<(kh, g, q, d, p) -> (kh, g, q, p)>,
        affine_map<(kh, g, q, d, p) -> (kh, p, d)>,
        affine_map<(kh, g, q, d, p) -> (kh, g, q, d)>
      ],
      iterator_types = ['parallel', 'parallel', 'parallel', 'parallel', 'reduction']}}
    ins(%weights, %v : {score_ty}, {kv_ty}) outs(%page_out_z : {q_ty}) {{
    ^bb0(%weight: f32, %value: f32, %acc: f32):
      %product = arith.mulf %weight, %value : f32
      %next = arith.addf %acc, %product : f32
      linalg.yield %next : f32
  }} -> {q_ty}
  %old_scale_e = tensor.empty() : {row_ty}
  %old_scale = linalg.generic {{
      indexing_maps = [
        affine_map<(kh, g, q) -> (kh, g, q)>,
        affine_map<(kh, g, q) -> (kh, g, q)>,
        affine_map<(kh, g, q) -> (kh, g, q)>
      ],
      iterator_types = ['parallel', 'parallel', 'parallel']}}
    ins(%row_max, %new_max : {row_ty}, {row_ty}) outs(%old_scale_e : {row_ty}) {{
    ^bb0(%old: f32, %new: f32, %o: f32):
      %delta = arith.subf %old, %new : f32
      %factor = math.exp %delta : f32
      linalg.yield %factor : f32
  }} -> {row_ty}
  %sum_e = tensor.empty() : {row_ty}
  %combined_sum = linalg.generic {{
      indexing_maps = [
        affine_map<(kh, g, q) -> (kh, g, q)>,
        affine_map<(kh, g, q) -> (kh, g, q)>,
        affine_map<(kh, g, q) -> (kh, g, q)>,
        affine_map<(kh, g, q) -> (kh, g, q)>
      ],
      iterator_types = ['parallel', 'parallel', 'parallel']}}
    ins(%row_sum, %old_scale, %page_sum : {row_ty}, {row_ty}, {row_ty}) outs(%sum_e : {row_ty}) {{
    ^bb0(%old: f32, %factor: f32, %page: f32, %o: f32):
      %scaled = arith.mulf %old, %factor : f32
      %value = arith.addf %scaled, %page : f32
      linalg.yield %value : f32
  }} -> {row_ty}
  %out_e = tensor.empty() : {q_ty}
  %combined_out = linalg.generic {{
      indexing_maps = [
        affine_map<(kh, g, q, d) -> (kh, g, q, d)>,
        affine_map<(kh, g, q, d) -> (kh, g, q)>,
        affine_map<(kh, g, q, d) -> (kh, g, q, d)>,
        affine_map<(kh, g, q, d) -> (kh, g, q, d)>
      ],
      iterator_types = ['parallel', 'parallel', 'parallel', 'parallel']}}
    ins(%output, %old_scale, %page_out : {q_ty}, {row_ty}, {q_ty}) outs(%out_e : {q_ty}) {{
    ^bb0(%old: f32, %factor: f32, %page: f32, %o: f32):
      %scaled = arith.mulf %old, %factor : f32
      %value = arith.addf %scaled, %page : f32
      linalg.yield %value : f32
  }} -> {q_ty}
  return %combined_out, %new_max, %combined_sum : {q_ty}, {row_ty}, {row_ty}")).

Definition emit_paged_causal_mask (name : string) (query_len page_size kv_heads gqa_group : Z) : Program :=
  let n := [("kv_heads", num kv_heads); ("gqa_group", num gqa_group); ("query_len", num query_len);
            ("page_size", num page_size)] in
  let mask_ty := fmt n "tensor<{kv_heads}x{gqa_group}x{query_len}x{page_size}xf32>" in
  func_private name (
    _ ← args [("start_pos", "tensor<i64>"); ("page_index", "index"); ("valid_count", "tensor<i64>")];
    _ ← result_ty mask_ty;
    op_asm (fmt (("mask_ty", mask_ty) :: n) "  %start64 = tensor.extract %start_pos[] : tensor<i64>
  %valid64 = tensor.extract %valid_count[] : tensor<i64>
  %seq_end = arith.addi %start64, %valid64 : i64
  %page64 = arith.index_cast %page_index : index to i64
  %page_size64 = arith.constant {page_size} : i64
  %page_start = arith.muli %page64, %page_size64 : i64
  %zero = arith.constant 0.0 : f32
  %neg = arith.constant -3.40282347E+38 : f32
  %empty = tensor.empty() : {mask_ty}
  %mask = linalg.generic {{
      indexing_maps = [affine_map<(kh, g, q, k) -> (kh, g, q, k)>],
      iterator_types = ['parallel', 'parallel', 'parallel', 'parallel']}}
    outs(%empty : {mask_ty}) {{
    ^bb0(%o: f32):
      %q = linalg.index 2 : index
      %k = linalg.index 3 : index
      %q64 = arith.index_cast %q : index to i64
      %k64 = arith.index_cast %k : index to i64
      %abs_q = arith.addi %start64, %q64 : i64
      %abs_k = arith.addi %page_start, %k64 : i64
      %causal = arith.cmpi ule, %abs_k, %abs_q : i64
      %written = arith.cmpi ult, %abs_k, %seq_end : i64
      %visible = arith.andi %causal, %written : i1
      %value = arith.select %visible, %zero, %neg : f32
      linalg.yield %value : f32
  }} -> {mask_ty}
  return %mask : {mask_ty}")).

Definition emit_linear (name : string) (s in_dim out_dim : Z) (weight_out_by_in : bool) : Program :=
  let '(w_rows, w_cols) := if weight_out_by_in then (out_dim, in_dim) else (in_dim, out_dim) in
  let n := [("s", num s); ("in_dim", num in_dim); ("out_dim", num out_dim); ("w_rows", num w_rows);
            ("w_cols", num w_cols)] in
  let x_ty := fmt n "tensor<{s}x{in_dim}xf32>" in
  let w_ty := fmt n "tensor<{w_rows}x{w_cols}xf32>" in
  let y_ty := fmt n "tensor<{s}x{out_dim}xf32>" in
  let wt_ty := fmt n "tensor<{in_dim}x{out_dim}xf32>" in
  func_private name (
    x ← arg "x" x_ty;
    w ← arg "w" w_ty;
    _ ← result_ty y_ty;
    c0 ← constant_f32 "0.0";
    ti ← tensor_empty wt_ty;
    wt ← linalg_transpose w ti "[1, 0]" w_ty wt_ty;
    init ← tensor_empty y_ty;
    z ← linalg_fill c0 init y_ty;
    y ← linalg_matmul x wt z x_ty wt_ty y_ty;
    ret_ty [y] y_ty).

Definition emit_rms_norm (name : string) (s h : Z) (eps : f32) : Program :=
  let n := [("s", num s); ("h", num h)] in
  let x_ty := fmt n "tensor<{s}x{h}xf32>" in
  let w_ty := fmt n "tensor<{h}xf32>" in
  let red_ty := fmt n "tensor<{s}xf32>" in
  let eps_lit := fmt_exp 8 eps in
  let h_f := fmt_fixed 1 (f32_of_Z h) in
  func_private name (
    x ← arg "x" x_ty;
    w ← arg "w" w_ty;
    _ ← result_ty x_ty;
    op_asm (fmt [("x", ssa x); ("w", ssa w); ("x_ty", x_ty); ("w_ty", w_ty); ("red_ty", red_ty);
                 ("eps_lit", eps_lit); ("h_f", h_f)] "  %c0 = arith.constant 0.0 : f32
  %one = arith.constant 1.0 : f32
  %eps = arith.constant {eps_lit} : f32
  %ch = arith.constant {h_f} : f32
  %sq = linalg.generic {{
      indexing_maps = [affine_map<(d0, d1) -> (d0, d1)>, affine_map<(d0, d1) -> (d0, d1)>],
      iterator_types = ['parallel', 'parallel']}}
    ins({x} : {x_ty}) outs({x} : {x_ty}) {{
    ^bb0(%a: f32, %b: f32):
      %p = arith.mulf %a, %a : f32
      linalg.yield %p : f32
  }} -> {x_ty}
  %init = tensor.empty() : {red_ty}
  %z = linalg.fill ins(%c0 : f32) outs(%init : {red_ty}) -> {red_ty}
  %ms = linalg.reduce ins(%sq : {x_ty}) outs(%z : {red_ty}) dimensions = [1]
    (%in: f32, %acc: f32) {{
      %s = arith.addf %in, %acc : f32
      linalg.yield %s : f32
    }}
  %inv = linalg.generic {{
      indexing_maps = [affine_map<(d0) -> (d0)>, affine_map<(d0) -> (d0)>],
      iterator_types = ['parallel']}}
    ins(%ms : {red_ty}) outs(%ms : {red_ty}) {{
    ^bb0(%a: f32, %b: f32):
      %m = arith.divf %a, %ch : f32
      %meps = arith.addf %m, %eps : f32
      %root = math.sqrt %meps : f32
      %i = arith.divf %one, %root : f32
      linalg.yield %i : f32
  }} -> {red_ty}
  %y = linalg.generic {{
      indexing_maps = [affine_map<(d0, d1) -> (d0, d1)>, affine_map<(d0, d1) -> (d0)>, affine_map<(d0, d1) -> (d1)>, affine_map<(d0, d1) -> (d0, d1)>],
      iterator_types = ['parallel', 'parallel']}}
    ins({x}, %inv, {w} : {x_ty}, {red_ty}, {w_ty}) outs({x} : {x_ty}) {{
    ^bb0(%a: f32, %i: f32, %ww: f32, %o: f32):
      %t = arith.mulf %a, %i : f32
      %r = arith.mulf %t, %ww : f32
      linalg.yield %r : f32
  }} -> {x_ty}
  return %y : {x_ty}")).

Definition emit_rms_norm_heads (name : string) (s nh d : Z) (eps : f32) : Program :=
  let n := [("s", num s); ("nh", num nh); ("d", num d)] in
  let x_ty := fmt n "tensor<{s}x{nh}x{d}xf32>" in
  let w_ty := fmt n "tensor<{d}xf32>" in
  let red_ty := fmt n "tensor<{s}x{nh}xf32>" in
  let eps_lit := fmt_exp 8 eps in
  let d_f := fmt_fixed 1 (f32_of_Z d) in
  func_private name (
    x ← arg "x" x_ty;
    w ← arg "w" w_ty;
    _ ← result_ty x_ty;
    op_asm (fmt [("x", ssa x); ("w", ssa w); ("x_ty", x_ty); ("w_ty", w_ty); ("red_ty", red_ty);
                 ("eps_lit", eps_lit); ("d_f", d_f)] "  %c0 = arith.constant 0.0 : f32
  %one = arith.constant 1.0 : f32
  %eps = arith.constant {eps_lit} : f32
  %cd = arith.constant {d_f} : f32
  %sq = linalg.generic {{
      indexing_maps = [affine_map<(p, h, dim) -> (p, h, dim)>, affine_map<(p, h, dim) -> (p, h, dim)>],
      iterator_types = ['parallel', 'parallel', 'parallel']}}
    ins({x} : {x_ty}) outs({x} : {x_ty}) {{
    ^bb0(%a: f32, %b: f32):
      %p = arith.mulf %a, %a : f32
      linalg.yield %p : f32
  }} -> {x_ty}
  %init = tensor.empty() : {red_ty}
  %z = linalg.fill ins(%c0 : f32) outs(%init : {red_ty}) -> {red_ty}
  %ms = linalg.reduce ins(%sq : {x_ty}) outs(%z : {red_ty}) dimensions = [2]
    (%in: f32, %acc: f32) {{
      %s = arith.addf %in, %acc : f32
      linalg.yield %s : f32
    }}
  %inv = linalg.generic {{
      indexing_maps = [affine_map<(p, h) -> (p, h)>, affine_map<(p, h) -> (p, h)>],
      iterator_types = ['parallel', 'parallel']}}
    ins(%ms : {red_ty}) outs(%ms : {red_ty}) {{
    ^bb0(%a: f32, %b: f32):
      %m = arith.divf %a, %cd : f32
      %meps = arith.addf %m, %eps : f32
      %root = math.sqrt %meps : f32
      %i = arith.divf %one, %root : f32
      linalg.yield %i : f32
  }} -> {red_ty}
  %y = linalg.generic {{
      indexing_maps = [
        affine_map<(p, h, dim) -> (p, h, dim)>,
        affine_map<(p, h, dim) -> (p, h)>,
        affine_map<(p, h, dim) -> (dim)>,
        affine_map<(p, h, dim) -> (p, h, dim)>
      ],
      iterator_types = ['parallel', 'parallel', 'parallel']}}
    ins({x}, %inv, {w} : {x_ty}, {red_ty}, {w_ty}) outs({x} : {x_ty}) {{
    ^bb0(%a: f32, %i: f32, %ww: f32, %o: f32):
      %t = arith.mulf %a, %i : f32
      %r = arith.mulf %t, %ww : f32
      linalg.yield %r : f32
  }} -> {x_ty}
  return %y : {x_ty}")).

Definition emit_repeat_kv (name : string) (s nkv nh d g : Z) : Program :=
  let n := [("s", num s); ("nkv", num nkv); ("nh", num nh); ("d", num d); ("g", num g)] in
  let in_ty := fmt n "tensor<{s}x{nkv}x{d}xf32>" in
  let out_ty := fmt n "tensor<{s}x{nh}x{d}xf32>" in
  func_private name (
    x ← arg "x" in_ty;
    _ ← result_ty out_ty;
    op_asm (fmt [("x", ssa x); ("in_ty", in_ty); ("out_ty", out_ty); ("g", num g)] "  %init = tensor.empty() : {out_ty}
  %y = linalg.generic {{
      indexing_maps = [
        affine_map<(p, h, dim) -> (p, h floordiv {g}, dim)>,
        affine_map<(p, h, dim) -> (p, h, dim)>
      ],
      iterator_types = ['parallel', 'parallel', 'parallel']}}
    ins({x} : {in_ty}) outs(%init : {out_ty}) {{
    ^bb0(%a: f32, %o: f32):
      linalg.yield %a : f32
  }} -> {out_ty}
  return %y : {out_ty}")).

(** The angle of position [pos] and pair [i]. *)
Definition rope_angle (theta : f32) (d pos i : Z) : f32 :=
  let freq := f32_div f32_one (powf theta (f32_div (f32_of_Z (2 * i)) (f32_of_Z d))) in
  f32_mul (f32_of_Z pos) freq.
(** Rows of a table, one per position, of one function of the angles. *)
Definition rope_table (f : f32 -> f32) (theta : f32) (rows d : Z) : string :=
  join_with ", " ((fun pos =>
    fmt [("", join_with ", " ((fun i => fmt_exp 8 (f (rope_angle theta d (Z.of_nat pos) (Z.of_nat i))))
                               <$> seq 0 (Z.to_nat (d / 2))))] "[{}]") <$> seq 0 (Z.to_nat rows)).

Definition emit_rope (name : string) (s nh d : Z) (theta : f32) : Program :=
  let half := d / 2 in
  let cos_lit := rope_table cosf theta s d in
  let sin_lit := rope_table sinf theta s d in
  let n := [("s", num s); ("nh", num nh); ("d", num d); ("half", num half)] in
  let x_ty := fmt n "tensor<{s}x{nh}x{d}xf32>" in
  let half_ty := fmt n "tensor<{s}x{half}xf32>" in
  func_private name (
    x ← arg "x" x_ty;
    _ ← result_ty x_ty;
    op_asm (fmt [("x", ssa x); ("x_ty", x_ty); ("half_ty", half_ty); ("half", num half);
                 ("cos_lit", cos_lit); ("sin_lit", sin_lit)] "  %cos = arith.constant dense<[{cos_lit}]> : {half_ty}
  %sin = arith.constant dense<[{sin_lit}]> : {half_ty}
  %init = tensor.empty() : {x_ty}
  %y = linalg.generic {{
      indexing_maps = [
        affine_map<(p, h, dim) -> (p, h, dim)>,
        affine_map<(p, h, dim) -> (p, h, dim)>
      ],
      iterator_types = ['parallel', 'parallel', 'parallel']}}
    ins({x} : {x_ty}) outs(%init : {x_ty}) {{
    ^bb0(%a: f32, %o: f32):
      %p = linalg.index 0 : index
      %hh = linalg.index 1 : index
      %dim = linalg.index 2 : index
      %half_i = arith.constant {half} : index
      %in_first = arith.cmpi ult, %dim, %half_i : index
      %pair_lo = arith.remui %dim, %half_i : index
      %dim_hi = arith.addi %pair_lo, %half_i : index
      %x1 = tensor.extract {x}[%p, %hh, %pair_lo] : {x_ty}
      %x2 = tensor.extract {x}[%p, %hh, %dim_hi] : {x_ty}
      %cv = tensor.extract %cos[%p, %pair_lo] : {half_ty}
      %sv = tensor.extract %sin[%p, %pair_lo] : {half_ty}
      %x1c = arith.mulf %x1, %cv : f32
      %x2s = arith.mulf %x2, %sv : f32
      %x1s = arith.mulf %x1, %sv : f32
      %x2c = arith.mulf %x2, %cv : f32
      %lo = arith.subf %x1c, %x2s : f32
      %hi = arith.addf %x1s, %x2c : f32
      %r = arith.select %in_first, %lo, %hi : f32
      linalg.yield %r : f32
  }} -> {x_ty}
  return %y : {x_ty}")).

Definition emit_rope_chunk (name : string) (chunk heads head_dim : Z) (theta : f32) : Program :=
  let half := head_dim / 2 in
  let n := [("chunk", num chunk); ("heads", num heads); ("head_dim", num head_dim)] in
  let x_ty := fmt n "tensor<{chunk}x{heads}x{head_dim}xf32>" in
  func_private name (
    _ ← args [("x", x_ty); ("start_pos", "tensor<i64>")];
    _ ← result_ty x_ty;
    op_asm (fmt [("x_ty", x_ty); ("half", num half); ("head_dim", num head_dim);
                 ("theta:.8e", fmt_exp 8 theta)] "  %start64 = tensor.extract %start_pos[] : tensor<i64>
  %start = arith.index_cast %start64 : i64 to index
  %init = tensor.empty() : {x_ty}
  %theta = arith.constant {theta:.8e} : f32
  %two = arith.constant 2.0 : f32
  %dimf = arith.constant {head_dim}.0 : f32
  %one = arith.constant 1.0 : f32
  %y = linalg.generic {{
      indexing_maps = [
        affine_map<(p, h, dim) -> (p, h, dim)>,
        affine_map<(p, h, dim) -> (p, h, dim)>
      ],
      iterator_types = ['parallel', 'parallel', 'parallel']}}
    ins(%x : {x_ty}) outs(%init : {x_ty}) {{
    ^bb0(%a: f32, %o: f32):
      %p = linalg.index 0 : index
      %hh = linalg.index 1 : index
      %dim = linalg.index 2 : index
      %half_i = arith.constant {half} : index
      %in_first = arith.cmpi ult, %dim, %half_i : index
      %pair = arith.remui %dim, %half_i : index
      %pair_hi = arith.addi %pair, %half_i : index
      %abs_pos = arith.addi %start, %p : index
      %pos64 = arith.index_cast %abs_pos : index to i64
      %pair64 = arith.index_cast %pair : index to i64
      %posf = arith.sitofp %pos64 : i64 to f32
      %pairf = arith.sitofp %pair64 : i64 to f32
      %twopair = arith.mulf %two, %pairf : f32
      %exponent = arith.divf %twopair, %dimf : f32
      %den = math.powf %theta, %exponent : f32
      %freq = arith.divf %one, %den : f32
      %angle = arith.mulf %posf, %freq : f32
      %cv = math.cos %angle : f32
      %sv = math.sin %angle : f32
      %x1 = tensor.extract %x[%p, %hh, %pair] : {x_ty}
      %x2 = tensor.extract %x[%p, %hh, %pair_hi] : {x_ty}
      %x1c = arith.mulf %x1, %cv : f32
      %x2s = arith.mulf %x2, %sv : f32
      %x1s = arith.mulf %x1, %sv : f32
      %x2c = arith.mulf %x2, %cv : f32
      %lo = arith.subf %x1c, %x2s : f32
      %hi = arith.addf %x1s, %x2c : f32
      %r = arith.select %in_first, %lo, %hi : f32
      linalg.yield %r : f32
  }} -> {x_ty}
  return %y : {x_ty}")).

Definition emit_rope_at (name : string) (mk nh d : Z) (theta : f32) : Program :=
  let half := d / 2 in
  let cos_lit := rope_table cosf theta mk d in
  let sin_lit := rope_table sinf theta mk d in
  let n := [("mk", num mk); ("nh", num nh); ("d", num d); ("half", num half)] in
  let x_ty := fmt n "tensor<1x{nh}x{d}xf32>" in
  let half_ty := fmt n "tensor<{mk}x{half}xf32>" in
  func_private name (
    x ← arg "x" x_ty;
    _ ← arg "pos_t" "tensor<i64>";
    _ ← result_ty x_ty;
    op_asm (fmt [("x", ssa x); ("x_ty", x_ty); ("half_ty", half_ty); ("half", num half);
                 ("cos_lit", cos_lit); ("sin_lit", sin_lit)] "  %cos = arith.constant dense<[{cos_lit}]> : {half_ty}
  %sin = arith.constant dense<[{sin_lit}]> : {half_ty}
  %pos_i64 = tensor.extract %pos_t[] : tensor<i64>
  %pos = arith.index_cast %pos_i64 : i64 to index
  %init = tensor.empty() : {x_ty}
  %y = linalg.generic {{
      indexing_maps = [
        affine_map<(p, h, dim) -> (p, h, dim)>,
        affine_map<(p, h, dim) -> (p, h, dim)>
      ],
      iterator_types = ['parallel', 'parallel', 'parallel']}}
    ins({x} : {x_ty}) outs(%init : {x_ty}) {{
    ^bb0(%a: f32, %o: f32):
      %c0i = arith.constant 0 : index
      %hh = linalg.index 1 : index
      %dim = linalg.index 2 : index
      %half_i = arith.constant {half} : index
      %in_first = arith.cmpi ult, %dim, %half_i : index
      %pair_lo = arith.remui %dim, %half_i : index
      %dim_hi = arith.addi %pair_lo, %half_i : index
      %x1 = tensor.extract {x}[%c0i, %hh, %pair_lo] : {x_ty}
      %x2 = tensor.extract {x}[%c0i, %hh, %dim_hi] : {x_ty}
      %cv = tensor.extract %cos[%pos, %pair_lo] : {half_ty}
      %sv = tensor.extract %sin[%pos, %pair_lo] : {half_ty}
      %x1c = arith.mulf %x1, %cv : f32
      %x2s = arith.mulf %x2, %sv : f32
      %x1s = arith.mulf %x1, %sv : f32
      %x2c = arith.mulf %x2, %cv : f32
      %lo = arith.subf %x1c, %x2s : f32
      %hi = arith.addf %x1s, %x2c : f32
      %r = arith.select %in_first, %lo, %hi : f32
      linalg.yield %r : f32
  }} -> {x_ty}
  return %y : {x_ty}")).

Definition emit_add_smoke : Program :=
  func "add" (
    a ← arg "a" "tensor<4xf32>";
    b ← arg "b" "tensor<4xf32>";
    _ ← result_ty "tensor<4xf32>";
    y ← addf a b "tensor<4xf32>";
    ret_ty [y] "tensor<4xf32>").

Definition load_compute (v sym storage_ty compute_ty shape : string) : Function string :=
  let e := [("shape", shape); ("storage_ty", storage_ty); ("compute_ty", compute_ty)] in
  let storage := fmt e "tensor<{shape}x{storage_ty}>" in
  let compute := fmt e "tensor<{shape}x{compute_ty}>" in
  if String.eqb storage_ty compute_ty then global_load_as v sym compute
  else
    native ← global_load_as (fmt [("ssa", v)] "{ssa}_native") sym storage;
    extf_as v native storage compute.

End Kernels.
