(* ===== verification/SafeTensors.v ===== *)
(** * SafeTensors container: crates/dyninfer-checkpoint-safetensors/src/container.rs

    The probe and the indexer of a single SafeTensors file: an eight-byte
    header length, a JSON header that describes the tensors, the data. *)
From S2P Require Import Prelude Errors Serde CoreTypes Catalog Paths.
From Stdlib Require Import ZArith Lia Ascii String Sorted.
From stdpp Require Import base list strings gmap.
From stdpp Require Import options.
Import Json.

Local Open Scope Z_scope.

Record TensorInfo :=
  { ti_dtype : string; ti_shape : list Z; ti_start : Z; ti_end : Z }.

(** What the readers use of serde_json's deserialiser: the value of a byte
    slice, and the derived [Deserialize] of [TensorInfo], whose integers are
    [u64]. *)
Class SerdeDeserialize {SJ : SerdeJson} : Type := {
  from_slice : bytes -> option Value;
  tensor_info_from_value : Value -> option TensorInfo;
  tensor_info_u64 v info :
    tensor_info_from_value v = Some info ->
    Forall is_u64 (ti_shape info) /\ is_u64 (ti_start info) /\ is_u64 (ti_end info);
}.

Definition parse_dtype (dtype : string) : Result ScalarType :=
  if String.eqb dtype "F32" then Ok F32
  else if String.eqb dtype "F16" then Ok F16
  else if String.eqb dtype "BF16" then Ok Bf16
  else if String.eqb dtype "F64" then Ok F64
  else if String.eqb dtype "I8" then Ok I8
  else if String.eqb dtype "I16" then Ok I16
  else if String.eqb dtype "I32" then Ok I32
  else if String.eqb dtype "I64" then Ok I64
  else if String.eqb dtype "U8" then Ok U8
  else if String.eqb dtype "U16" then Ok U16
  else if String.eqb dtype "U32" then Ok U32
  else if String.eqb dtype "U64" then Ok U64
  else if String.eqb dtype "BOOL" then Ok Bool
  else Err (invalid_checkpoint
              (Format "unsupported SafeTensors dtype: {other}" [AStr dtype]) None None).

Section SafeTensors.
Context {SJ : SerdeJson} {SD : SerdeDeserialize}.
Context {Src : Type} {RS : RandomAccessSource Src}.

Definition st_probe (source : Src) : Result ProbeScore :=
  if src_len source <? 8 then Ok PROBE_NONE
  else
    hdr_len_buf ← read_exact_at source 0 8;
    let header_len := le_value hdr_len_buf in
    if (header_len =? 0) || (header_len >? 64 * 1024 * 1024) then Ok PROBE_NONE
    else if src_len source <? wrap64 (8 + header_len) then Ok PROBE_NONE
    else
      header ← read_range source 8 (Z.min header_len 64);
      if bool_decide (head header = Some "{"%char) then
        if bool_decide ((p ← src_path source; extension p) = Some "safetensors")
        then Ok PROBE_STRONG
        else Ok {| ps_score := 80 |}
      else Ok PROBE_NONE.

Definition invalid_key (key : string) (message : text) : DynInferError :=
  invalid_checkpoint message (Some key) None.

(** The body of the loop over the header's members, for a tensor. *)
Definition st_entry (source : Src) (limits : InspectionLimits) (data_base : Z)
    (key : string) (value : Value) : Result RawTensorEntry :=
  _ ← validate_key limits key;
  info ← ok_or (tensor_info_from_value value)
           (invalid_key key (lit "invalid tensor info: {e}"));
  _ ← validate_shape limits (ti_shape info);
  _ ← ensure (negb (ti_end info <? ti_start info))
        (invalid_key key (lit "data_offsets end < start"));
  let length := ti_end info - ti_start info in
  ty ← parse_dtype (ti_dtype info);
  elem_size ← ok_or (size_bytes ty)
    (invalid_key key (Format "dtype {ty} has no fixed size" [AStr (ScalarType_display ty)]));
  numel ← ok_or (numel (ti_shape info)) (invalid_key key (lit "shape numel overflow"));
  expected_len ← ok_or (checked_mul numel elem_size)
    (invalid_key key (lit "declared tensor byte length overflow"));
  _ ← ensure (length =? expected_len)
        (invalid_key key
           (Format "tensor byte length {length} != numel {numel} * elem {elem_size} (= {expected_len})"
              [AInt length; AInt numel; AInt elem_size; AInt expected_len]));
  abs_offset ← ok_or (checked_add data_base (ti_start info))
    (invalid_key key (lit "tensor offset overflow"));
  _ ← ensure (default u64_max (checked_add abs_offset length) <=? src_len source)
        (invalid_key key (lit "tensor data range extends past end of file"));
  Ok {| re_key := key;
        re_source_file_index := 0;
        re_shape := ti_shape info;
        re_storage_type := Scalar ty;
        re_byte_ranges := [{| br_offset := abs_offset; br_length := length |}];
        re_alignment := 1;
        re_endianness := Little;
        re_metadata := ∅ |}.

(** One member: [__metadata__] feeds the metadata map, any other a tensor. *)
Definition st_member (source : Src) (limits : InspectionLimits) (data_base : Z)
    (acc : MetadataMap * list RawTensorEntry) (member : string * Value)
    : Result (MetadataMap * list RawTensorEntry) :=
  let '(metadata, entries) := acc in
  let '(key, value) := member in
  if String.eqb key "__metadata__" then
    Ok (foldl (fun m kv => <[kv.1 := kv.2]> m) metadata (default [] (as_object value)), entries)
  else
    entry ← st_entry source limits data_base key value;
    Ok (metadata, entries ++ [entry]).

(** The triples [(start, end, key)] of the overlap check. *)
Definition entry_range (e : RawTensorEntry) : option (Z * Z * string) :=
  r ← head (re_byte_ranges e);
  Some (br_offset r, saturating_add (br_offset r) (br_length r), re_key e).

Definition range_leb (a b : Z * Z * string) : bool := a.1.1 <=? b.1.1.

Definition check_neighbours (a b : Z * Z * string) : Result unit :=
  ensure (negb (b.1.1 <? a.1.2))
    (invalid_checkpoint
       (Format "overlapping tensor byte ranges between `{a_key}` and `{b_key}`"
          [AStr a.2; AStr b.2])
       (Some a.2) (Some (lit b.2))).

Definition check_overlaps (entries : list RawTensorEntry) : Result unit :=
  adjacent check_neighbours (stable_sort range_leb (omap entry_range entries)).

Definition total_declared (entries : list RawTensorEntry) : Z :=
  foldl saturating_add 0 (br_length <$> (entries ≫= re_byte_ranges)).

Definition st_format_id : string := "safetensors".

Definition st_index (source : Src) (limits : InspectionLimits) : Result RawCheckpointIndex :=
  hdr_len_buf ← read_exact_at source 0 8;
  let header_len := le_value hdr_len_buf in
  _ ← ensure (negb ((header_len =? 0) || (header_len >? max_header_bytes limits)))
        (invalid_checkpoint
           (Format "invalid SafeTensors header length: {header_len}" [AInt header_len])
           None None);
  _ ← ensure (negb (src_len source <? wrap64 (8 + header_len)))
        (invalid_checkpoint (lit "SafeTensors header extends past end of file") None None);
  header_bytes ← read_range source 8 header_len;
  header_value ← ok_or (from_slice header_bytes)
    (invalid_checkpoint (lit "SafeTensors header JSON invalid: {e}") None None);
  obj ← ok_or (as_object header_value)
    (invalid_checkpoint (lit "SafeTensors header must be a JSON object") None None);
  let data_base := wrap64 (8 + header_len) in
  '(metadata, entries) ← try_fold (st_member source limits data_base) (∅, []) obj;
  _ ← ensure (Z.of_nat (length entries) <=? max_tensor_count limits)
        (invalid_checkpoint
           (Format "tensor count {} exceeds limit {}"
              [AInt (Z.of_nat (length entries)); AInt (max_tensor_count limits)]) None None);
  _ ← check_overlaps entries;
  _ ← ensure (total_declared entries <=? max_total_declared_bytes limits)
        (invalid_checkpoint
           (Format "total declared tensor bytes {total_declared} exceeds limit {}"
              [AInt (total_declared entries); AInt (max_total_declared_bytes limits)])
           None None);
  Ok {| ix_container :=
          {| ci_format_id := st_format_id; ci_version := Some 1;
             ci_magic := Some "safetensors" |};
        ix_source_files := single_source_files source;
        ix_metadata := metadata;
        ix_entries := sort_entries entries;
        ix_data_offset := data_base |}.

Definition st_runtime_provider_plan (index : RawCheckpointIndex) : Result RuntimeProviderPlan :=
  Ok {| rp_kind := "file-mapped-external-parameters";
        rp_scope := "weights";
        rp_file_paths := sf_path <$> ix_source_files index;
        rp_parameters := [];
        rp_notes := ["SafeTensors dense tensors use direct byte ranges"] |}.

Definition SafeTensorsContainer : CheckpointContainerReader := {|
  cr_format_id := st_format_id;
  cr_probe := st_probe;
  cr_index := st_index;
  cr_runtime_provider_plan := st_runtime_provider_plan;
|}.

(** ** What an index describes *)

Definition st_entry_ok (source : Src) (limits : InspectionLimits) (data_base : Z)
    (e : RawTensorEntry) : Prop :=
  exists ty offset n elem,
    re_byte_ranges e = [{| br_offset := offset; br_length := n |}] /\
    data_base <= offset /\ 0 <= n /\ offset + n <= src_len source /\
    re_storage_type e = Scalar ty /\ size_bytes ty = Some elem /\
    n = product (re_shape e) * elem /\
    numel (re_shape e) = Some (product (re_shape e)) /\
    Forall (fun d => 0 <= d <= max_dim limits) (re_shape e) /\
    strlen (re_key e) <= max_key_len limits /\
    re_source_file_index e = 0.

(** No byte belongs to two entries. *)
Definition disjoint_entries (a b : RawTensorEntry) : Prop :=
  forall ra rb x, ra ∈ re_byte_ranges a -> rb ∈ re_byte_ranges b ->
    ~ (br_offset ra <= x < br_offset ra + br_length ra /\
       br_offset rb <= x < br_offset rb + br_length rb).

(** ** Lemmas *)

Lemma read_header_len (source : Src) bs :
  read_exact_at source 0 8 = Ok bs -> 0 <= le_value bs < 2 ^ 64 /\ 8 <= src_len source.
Proof.
  intros H. apply read_exact_at_Ok in H as [Hl Hs]; [|done|done].
  pose proof (le_value_range bs) as Hr.
  replace (8 * Z.of_nat (length bs)) with 64 in Hr by lia. lia.
Qed.

Lemma product_nonneg l : Forall (fun d => 0 <= d) l -> 0 <= product l.
Proof. unfold product. induction 1; cbn; lia. Qed.

Lemma st_entry_Ok (source : Src) limits data_base key value e :
  src_len source < u64_max -> 0 <= data_base ->
  st_entry source limits data_base key value = Ok e ->
  st_entry_ok source limits data_base e /\ re_key e = key.
Proof.
  intros Hlen Hb H. unfold st_entry in H. ok_inv. cbn. split; [|done].
  apply tensor_info_u64 in Hv0 as (Hsh & Hst & Hen). unfold is_u64 in *.
  unfold validate_key in Hv. apply ensure_Ok, Z.leb_le in Hv. apply validate_shape_Ok in Hv1 as [_ Hdim].
  apply negb_true_iff, Z.ltb_ge in Hv2. apply Z.eqb_eq in Hv7.
  pose proof Hv5 as Hnum. apply numel_Some in Hv5 as ->. apply checked_mul_Some in Hv6 as [-> Hmul].
  rewrite Hv7 in *.
  apply checked_add_Some in Hv8 as [-> Hadd]. apply Z.leb_le in Hv9.
  exists v3, (data_base + ti_start v0), (product (ti_shape v0) * v4), v4. cbn.
  unfold checked_add, checked_u64 in Hv9.
  destruct (Z.leb_spec (data_base + ti_start v0 + product (ti_shape v0) * v4) u64_max);
    cbn in Hv9; [|lia].
  repeat split; try done; try lia.
  apply Forall_and; split; [|done]. eapply Forall_impl; [exact Hsh|]. cbn; lia.
Qed.

Lemma st_members_Ok (source : Src) limits data_base obj metadata entries :
  src_len source < u64_max -> 0 <= data_base ->
  try_fold (st_member source limits data_base) (∅, []) obj = Ok (metadata, entries) ->
  Forall (st_entry_ok source limits data_base) entries.
Proof.
  intros Hlen Hb H.
  eapply (try_fold_inv (fun s => Forall (st_entry_ok source limits data_base) s.2)) in H;
    [done| |constructor].
  intros [m es] [key value] [m' es'] Hes _ E. cbn in *. case_match; ok_inv.
  { done. }
  apply Forall_app. split; [done|].
  constructor; [|done]. by eapply st_entry_Ok in Hv as [? _].
Qed.

(** An entry with one range that does not wrap. *)
Definition one_range (e : RawTensorEntry) : Prop :=
  exists r, re_byte_ranges e = [r] /\ 0 <= br_length r /\
    br_offset r + br_length r <= u64_max.

(** Ranges without a byte in common. *)
Definition separate (a b : Z * Z * string) : Prop :=
  a.1.1 < a.1.2 -> b.1.1 < b.1.2 -> a.1.2 <= b.1.1 \/ b.1.2 <= a.1.1.

Lemma separate_sym a b : separate a b -> separate b a.
Proof. unfold separate. intros H Ha Hb. specialize (H Hb Ha). lia. Qed.

Lemma entry_range_one e r :
  re_byte_ranges e = [r] -> br_offset r + br_length r <= u64_max ->
  entry_range e = Some (br_offset r, br_offset r + br_length r, re_key e).
Proof.
  intros Hr Hu. unfold entry_range, saturating_add. rewrite Hr. cbn.
  by rewrite Z.min_r by lia.
Qed.

Lemma disjoint_entries_ranges entries :
  Forall one_range entries ->
  StronglySorted disjoint_entries entries <->
  StronglySorted separate (omap entry_range entries).
Proof.
  intros He. apply StronglySorted_omap.
  { eapply Forall_impl; [exact He|]. intros e (r & Hr & _ & Hu).
    by rewrite (entry_range_one e r). }
  rewrite Forall_forall in He. intros a b x y Ha Hb.
  destruct (He a Ha) as (ra & Hra & Hla & Hua), (He b Hb) as (rb & Hrb & Hlb & Hub).
  rewrite (entry_range_one a ra), (entry_range_one b rb) by done.
  intros [= <-] [= <-]. unfold disjoint_entries, separate. rewrite Hra, Hrb. cbn. split.
  - intros H Hsa Hsb.
    specialize (H ra rb (Z.max (br_offset ra) (br_offset rb)) ltac:(by left) ltac:(by left)). lia.
  - intros H r1 r2 x ->%list_elem_of_singleton ->%list_elem_of_singleton. lia.
Qed.

Lemma entry_ranges_span entries :
  Forall one_range entries ->
  Forall (fun t => t.1.1 <= t.1.2) (omap entry_range entries).
Proof.
  rewrite !Forall_forall. intros He t (e & Hin & Ht)%list_elem_of_omap.
  destruct (He e Hin) as (r & Hr & Hl & Hu). rewrite (entry_range_one e r) in Ht by done.
  injection Ht as <-. cbn. lia.
Qed.

(** Entries that pass the check do not overlap. *)
Lemma check_overlaps_Ok entries u :
  Forall one_range entries -> check_overlaps entries = Ok u ->
  StronglySorted disjoint_entries entries.
Proof.
  intros He H. unfold check_overlaps in H. apply disjoint_entries_ranges; [done|].
  apply (adjacent_Ok _ (fun t => t.1.1 <= t.1.2) (fun a b => a.1.2 <= b.1.1)) in H;
    [| |intros; lia|rewrite stable_sort_perm; by apply entry_ranges_span].
  2: { intros x y Hxy. apply ensure_Ok, negb_true_iff, Z.ltb_ge in Hxy. done. }
  apply (StronglySorted_impl _ separate) in H; [|unfold separate; auto].
  eapply StronglySorted_perm, H; [apply separate_sym|apply stable_sort_perm].
Qed.

(** Entries that do not overlap pass it, when none of them is empty. *)
Lemma check_overlaps_complete entries :
  Forall one_range entries ->
  Forall (fun e => Forall (fun r => 0 < br_length r) (re_byte_ranges e)) entries ->
  StronglySorted disjoint_entries entries -> check_overlaps entries = Ok tt.
Proof.
  intros He Hpos Hd. apply disjoint_entries_ranges in Hd; [|done].
  assert (Hspan : Forall (fun t => t.1.1 < t.1.2) (omap entry_range entries)).
  { apply Forall_forall. intros t (e & Hin & Ht)%list_elem_of_omap.
    destruct (proj1 (Forall_forall _ _) He e Hin) as (r & Hr & Hl & Hu).
    pose proof (proj1 (Forall_forall _ _) Hpos e Hin) as Hp. cbn in Hp.
    rewrite Hr, Forall_singleton in Hp. rewrite (entry_range_one e r) in Ht by done.
    injection Ht as <-. cbn. lia. }
  unfold check_overlaps. eapply adjacent_complete with
    (R := fun a b => range_leb a b = true /\ (a.1.1 < a.1.2 /\ b.1.1 < b.1.2) /\ separate a b).
  { intros a b (Hab & [Ha Hb] & Hsep). unfold range_leb in Hab. apply Z.leb_le in Hab.
    apply ensure_Ok, negb_true_iff, Z.ltb_ge. specialize (Hsep Ha Hb). lia. }
  apply StronglySorted_and.
  { apply stable_sort_sorted; unfold range_leb; intros *; rewrite ?Z.leb_le; lia. }
  apply (StronglySorted_perm separate _ (stable_sort range_leb (omap entry_range entries))) in Hd;
    [|apply separate_sym|symmetry; apply stable_sort_perm].
  eapply StronglySorted_impl, Hd. intros x y.
  rewrite !stable_sort_perm. rewrite Forall_forall in Hspan. auto 10.
Qed.

Lemma st_entry_one_range (source : Src) limits data_base e :
  src_len source < u64_max -> st_entry_ok source limits data_base e -> one_range e.
Proof.
  intros Hlen (ty & off & n & el & Hr & H1 & H2 & H3 & _).
  eexists; split; [exact Hr|]. cbn. lia.
Qed.

Lemma disjoint_entries_sym a b : disjoint_entries a b -> disjoint_entries b a.
Proof. intros H ra rb x Ha Hb [H1 H2]. by eapply (H rb ra x). Qed.

(** C14: An index that is returned describes the file: each entry has one byte
    range, after the header and inside the file, of exactly the bytes its
    shape and type need; no byte belongs to two entries; the entries are
    sorted by key and within the count limit. *)
Theorem st_index_sound (source : Src) limits idx :
  src_len source < u64_max -> max_header_bytes limits <= 2 ^ 63 ->
  st_index source limits = Ok idx ->
  Forall (st_entry_ok source limits (ix_data_offset idx)) (ix_entries idx) /\
  StronglySorted disjoint_entries (ix_entries idx) /\
  StronglySorted (fun a b => entry_leb a b = true) (ix_entries idx) /\
  Z.of_nat (length (ix_entries idx)) <= max_tensor_count limits /\
  (max_total_declared_bytes limits < u64_max ->
   foldr Z.add 0 (br_length <$> (ix_entries idx ≫= re_byte_ranges))
     <= max_total_declared_bytes limits) /\
  8 <= ix_data_offset idx <= src_len source.
Proof.
  intros Hlen Hmax H. unfold st_index in H. ok_inv. cbn.
  apply read_header_len in Hv as [Hh H8].
  apply negb_true_iff, orb_false_iff in Hv0 as [_ Hlim].
  apply negb_true_iff, Z.ltb_ge in Hv1. apply Z.leb_le in Hv6.
  rewrite wrap64_small in * by (unfold is_u64, u64_max; lia).
  apply st_members_Ok in Hv5; [|done|lia].
  apply check_overlaps_Ok in Hv7;
    [|eapply Forall_impl; [exact Hv5|]; intros e; by apply st_entry_one_range].
  unfold sort_entries. split; [by rewrite stable_sort_perm|].
  split.
  { eapply StronglySorted_perm; [apply disjoint_entries_sym| |done].
    symmetry. apply stable_sort_perm. }
  split; [apply sort_entries_sorted|].
  split; [by rewrite (Permutation_length (stable_sort_perm entry_leb l))|].
  split; [|lia]. intros Htot. apply Z.leb_le in Hv8. unfold total_declared in Hv8.
  rewrite saturating_sum in Hv8; [|done|].
  { rewrite (sum_perm _ (br_length <$> (l ≫= re_byte_ranges))); [lia|].
    by rewrite stable_sort_perm. }
  apply Forall_fmap, Forall_forall. intros r (e & Hr & He)%list_elem_of_bind.
  rewrite Forall_forall in Hv5. destruct (Hv5 e He) as (? & ? & ? & ? & Hre & _ & ? & _).
  rewrite Hre in Hr. apply list_elem_of_singleton in Hr as ->. done.
Qed.


(** An empty tensor at the offset of a non-empty one shares no byte with
    it, yet the overlap check accepts the pair only when the empty tensor
    comes first in the header. *)
Theorem check_overlaps_empty_order a b o n :
  re_byte_ranges a = [{| br_offset := o; br_length := 0 |}] ->
  re_byte_ranges b = [{| br_offset := o; br_length := n |}] ->
  is_u64 o -> 0 < n -> o + n <= u64_max ->
  disjoint_entries a b /\
  check_overlaps [a; b] = Ok tt /\ is_Err (check_overlaps [b; a]) = true.
Proof.
  intros Ha Hb Ho Hn Hu. unfold is_u64 in Ho. split.
  { intros ra rb x. rewrite Ha, Hb.
    intros ->%list_elem_of_singleton ->%list_elem_of_singleton. cbn. lia. }
  unfold check_overlaps. cbn [omap list_omap].
  rewrite (entry_range_one a _ Ha), (entry_range_one b _ Hb) by (cbn; lia).
  cbn [stable_sort sort_insert]. unfold range_leb. cbn [fst snd br_offset br_length].
  rewrite Z.leb_refl. cbn [adjacent]. unfold check_neighbours. cbn [fst snd].
  rewrite Z.add_0_r, Z.ltb_irrefl, (proj2 (Z.ltb_lt _ _)) by lia. done.
Qed.

End SafeTensors.

(** ** A concrete deserialiser and a sample file *)

Module Deserialize.

Definition member (k : string) (v : json) : option json :=
  match v with
  | JObject l => snd <$> List.find (fun kv => String.eqb kv.1 k) l
  | _ => None
  end.

Fixpoint u64_list (l : list json) : option (list Z) :=
  match l with
  | [] => Some []
  | v :: l => n ← json_u64 v; l ← u64_list l; Some (n :: l)
  end.

Definition tensor_info (v : json) : option TensorInfo :=
  match member "dtype" v, member "shape" v, member "data_offsets" v with
  | Some (JString dtype), Some (JArray shape), Some (JArray [a; b]) =>
      shape ← u64_list shape;
      a ← json_u64 a; b ← json_u64 b;
      Some {| ti_dtype := dtype; ti_shape := shape; ti_start := a; ti_end := b |}
  | _, _, _ => None
  end.

Lemma u64_list_u64 l ns : u64_list l = Some ns -> Forall is_u64 ns.
Proof.
  revert ns. induction l as [|v l IH]; cbn; intros ns H; [by injection H as <-|].
  destruct (json_u64 v) eqn:E; [|done]. cbn in H.
  destruct (u64_list l) eqn:El; [|done]. cbn in H. injection H as <-.
  constructor; [by eapply json_u64_range|by apply IH].
Qed.

Lemma tensor_info_range v info :
  tensor_info v = Some info ->
  Forall is_u64 (ti_shape info) /\ is_u64 (ti_start info) /\ is_u64 (ti_end info).
Proof.
  unfold tensor_info. intros H. repeat case_match; try done.
  apply bind_Some in H as (sh & Hsh & H). apply bind_Some in H as (a & Ha & H).
  apply bind_Some in H as (b & Hb & H). injection H as <-. cbn.
  split; [by eapply u64_list_u64|]. split; by eapply json_u64_range.
Qed.

(** The deserialiser that knows the values of the given texts. *)
Definition table (l : list (string * json)) : @SerdeDeserialize serde := {|
  from_slice bs := snd <$> List.find (fun kv => String.eqb kv.1 (string_of_bytes bs)) l;
  tensor_info_from_value := tensor_info;
  tensor_info_u64 := tensor_info_range;
|}.

Definition info_value (dtype : string) (shape : list Z) (a b : Z) : json :=
  JObject [("dtype", JString dtype); ("shape", JArray (JInt <$> shape));
           ("data_offsets", JArray [JInt a; JInt b])].

(** The text stands for the value; only its length is read besides. *)
Definition header_text : string := "{tensors}".
Definition header_value : json :=
  JObject [("__metadata__", JObject [("format", JString "pt")]);
           ("b", info_value "F32" [2] 4 12); ("a", info_value "F16" [2; 1] 0 4)].
#[export] Instance sample : SerdeDeserialize := table [(header_text, header_value)].

Definition sample_bytes : bytes :=
  le_bytes 8 9 ++ bytes_of_string header_text ++ repeat "000"%char 12.
Definition source : BytesSource := memory sample_bytes (small_file sample_bytes eq_refl).

Definition entry (key : string) (ty : ScalarType) (shape : list Z) (o n : Z) : RawTensorEntry :=
  {| re_key := key; re_source_file_index := 0; re_shape := shape;
     re_storage_type := Scalar ty;
     re_byte_ranges := [{| br_offset := o; br_length := n |}];
     re_alignment := 1; re_endianness := Little; re_metadata := ∅ |}.

Definition index : RawCheckpointIndex :=
  {| ix_container := {| ci_format_id := "safetensors"; ci_version := Some 1;
          ci_magic := Some "safetensors" |};
     ix_source_files := [];
     ix_metadata := <["format" := JString "pt"]> ∅;
     ix_entries := [entry "a" F16 [2; 1] 17 4; entry "b" F32 [2] 21 8];
     ix_data_offset := 17 |}.

Lemma index_Ok : st_index source InspectionLimits_default = Ok index.
Proof. by_vm. Qed.

End Deserialize.

(** ** Witnesses *)

#[local] Existing Instance Deserialize.sample.

Lemma st_index_sound_witness :
  st_index Deserialize.source InspectionLimits_default = Ok Deserialize.index /\
  StronglySorted disjoint_entries (ix_entries Deserialize.index).
Proof.
  split; [exact Deserialize.index_Ok|].
  assert (H1 : src_len Deserialize.source < u64_max) by (vm_compute; reflexivity).
  assert (H2 : max_header_bytes InspectionLimits_default <= 2 ^ 63) by (vm_compute; discriminate).
  exact (proj1 (proj2 (st_index_sound Deserialize.source InspectionLimits_default
    Deserialize.index H1 H2 Deserialize.index_Ok))).
Defined.

Lemma check_overlaps_empty_order_witness :
  let a := Deserialize.entry "a" F32 [0] 8 0 in
  let b := Deserialize.entry "b" F32 [2] 8 8 in
  check_overlaps [a; b] = Ok tt /\ is_Err (check_overlaps [b; a]) = true.
Proof.
  assert (H : is_u64 8) by (unfold is_u64, u64_max; lia).
  apply (check_overlaps_empty_order (Deserialize.entry "a" F32 [0] 8 0)
    (Deserialize.entry "b" F32 [2] 8 8) 8 8); [reflexivity|reflexivity|exact H|lia|].
  vm_compute. discriminate.
Defined.

