(* ===== verification/Sharded.v ===== *)
(** * Sharded SafeTensors: crates/dyninfer-checkpoint-safetensors/src/sharded.rs

    The reader of a Hugging Face [*.safetensors.index.json]: the weight map
    names the shard of every tensor, each shard is indexed on its own and must
    hold exactly the tensors the map gives it. *)
From S2P Require Import Prelude Errors Serde CoreTypes Catalog Paths SafeTensors.
From Stdlib Require Import ZArith Lia Ascii String Sorted.
From stdpp Require Import base list strings gmap.
From stdpp Require Import options.
Import Json.

Local Open Scope Z_scope.

Definition sharded_invalid (message : text) : DynInferError :=
  invalid_checkpoint message None None.

Definition validate_shard_name (name : string) : Result unit :=
  ensure (negb (is_absolute name || existsb (fun c => negb (is_normal c)) (components name)))
    (sharded_invalid (Format "unsafe SafeTensors shard path `{name}`" [AStr name])).

Section Sharded.
Context {SJ : SerdeJson} {SD : SerdeDeserialize}.
Context {Src : Type} {RS : RandomAccessSource Src}.

Record IndexFile := { if_metadata : MetadataMap; if_weight_map : gmap string string }.

(** The derived [Deserialize] of [IndexFile], and [FileSource::open]. *)
Context (index_file_from_slice : bytes -> option IndexFile).
Context (open_file : string -> Result FileSource).

Definition sharded_format_id : string := "safetensors.sharded".

Definition sharded_probe (source : Src) : Result ProbeScore :=
  Ok (if default false (path ← src_path source; name ← file_name path;
                        Some (ends_with ".safetensors.index.json" name))
      then PROBE_STRONG else PROBE_NONE).

(** [expected_by_shard.entry(shard).or_default().insert(key)]. *)
Definition add_expected (m : gmap string (gset string)) (key shard : string)
    : gmap string (gset string) :=
  <[shard := {[key]} ∪ default ∅ (m !! shard)]> m.

(** One turn of the loop over the weight map. *)
Definition expect_shard (limits : InspectionLimits) (m : gmap string (gset string))
    (kv : string * string) : Result (gmap string (gset string)) :=
  _ ← validate_key limits kv.1;
  _ ← validate_shard_name kv.2;
  Ok (add_expected m kv.1 kv.2).

Record ShardState := {
  ss_entries : list RawTensorEntry;
  ss_source_files : list SourceFile;
  ss_metadata : MetadataMap;
}.

Definition with_file_index (i : Z) (e : RawTensorEntry) : RawTensorEntry :=
  {| re_key := re_key e; re_source_file_index := i; re_shape := re_shape e;
     re_storage_type := re_storage_type e; re_byte_ranges := re_byte_ranges e;
     re_alignment := re_alignment e; re_endianness := re_endianness e;
     re_metadata := re_metadata e |}.

(** One turn of the loop over the shards. *)
Definition read_shard (parent : string) (limits : InspectionLimits) (st : ShardState)
    (shard : string * gset string) : Result ShardState :=
  let '(shard_name, expected) := shard in
  let shard_path := path_join parent shard_name in
  shard_source ← open_file shard_path;
  shard_index ← st_index shard_source limits;
  let actual : gset string := list_to_set (re_key <$> ix_entries shard_index) in
  _ ← ensure (bool_decide (actual = expected))
        (sharded_invalid
           (Format "shard `{shard_name}` disagrees with weight_map; missing={missing:?}, unlisted={unlisted:?}"
              [AStr shard_name; AStrs (btree_elements (expected ∖ actual));
               AStrs (btree_elements (actual ∖ expected))]));
  let source_file_index := Z.of_nat (length (ss_source_files st)) in
  _ ← ensure (source_file_index <=? u32_max)
        (sharded_invalid (lit "too many SafeTensors shards"));
  source_file ← ok_or (head (ix_source_files shard_index))
    (sharded_invalid (Format "shard `{shard_name}` has no source file" [AStr shard_name]));
  Ok {| ss_entries := ss_entries st
          ++ (with_file_index source_file_index <$> ix_entries shard_index);
        ss_source_files := ss_source_files st ++ [source_file];
        ss_metadata :=
          foldl (fun m kv => or_insert m kv.1 kv.2) (ss_metadata st)
            (btree_iter (ix_metadata shard_index)) |}.

Definition sharded_index (source : Src) (limits : InspectionLimits)
    : Result RawCheckpointIndex :=
  _ ← ensure (negb ((src_len source =? 0) || (src_len source >? max_header_bytes limits)))
        (sharded_invalid
           (Format "invalid sharded SafeTensors index length {}" [AInt (src_len source)]));
  index_path ← ok_or (src_path source)
    (sharded_invalid (lit "sharded SafeTensors index requires a filesystem path"));
  parent ← ok_or (parent index_path)
    (sharded_invalid (lit "sharded SafeTensors index has no parent directory"));
  data ← read_range source 0 (src_len source);
  parsed ← ok_or (index_file_from_slice data)
    (sharded_invalid (lit "invalid sharded SafeTensors index JSON: {error}"));
  let weight_map := if_weight_map parsed in
  _ ← ensure (negb (bool_decide (weight_map = ∅)))
        (sharded_invalid (lit "sharded SafeTensors weight_map is empty"));
  _ ← ensure (Z.of_nat (size weight_map) <=? max_tensor_count limits)
        (sharded_invalid
           (Format "sharded tensor count {} exceeds limit {}"
              [AInt (Z.of_nat (size weight_map)); AInt (max_tensor_count limits)]));
  expected_by_shard ← try_fold (expect_shard limits) ∅ (btree_iter weight_map);
  st ← try_fold (read_shard parent limits)
         {| ss_entries := []; ss_source_files := []; ss_metadata := if_metadata parsed |}
         (btree_iter expected_by_shard);
  Ok {| ix_container :=
          {| ci_format_id := sharded_format_id; ci_version := Some 1;
             ci_magic := Some "safetensors.index.json" |};
        ix_source_files := ss_source_files st;
        ix_metadata := ss_metadata st;
        ix_entries := sort_entries (ss_entries st);
        ix_data_offset := 0 |}.

Definition sharded_runtime_provider_plan (index : RawCheckpointIndex)
    : Result RuntimeProviderPlan :=
  Ok {| rp_kind := "file-mapped-external-parameters";
        rp_scope := "weights";
        rp_file_paths := sf_path <$> ix_source_files index;
        rp_parameters := [];
        rp_notes :=
          ["Sharded SafeTensors components retain their source_file_index and direct byte ranges"] |}.

Definition ShardedSafeTensorsContainer : CheckpointContainerReader := {|
  cr_format_id := sharded_format_id;
  cr_probe := sharded_probe;
  cr_index := sharded_index;
  cr_runtime_provider_plan := sharded_runtime_provider_plan;
|}.

(** ** What the loops establish *)

(** The shards of the pairs [l] of the weight map, grouped. *)
Definition groups (l : list (string * string)) (m : gmap string (gset string)) : Prop :=
  (forall shard, is_Some (m !! shard) <-> exists key, (key, shard) ∈ l) /\
  (forall shard keys key, m !! shard = Some keys -> key ∈ keys <-> (key, shard) ∈ l) /\
  Forall (fun kv => validate_shard_name kv.2 = Ok tt) l.

(** [e] is the entry of a tensor that the file [f] of a shard holds. *)
Definition from_shard (parent : string) (limits : InspectionLimits) (files : list SourceFile)
    (shard : string) (e : RawTensorEntry) : Prop :=
  exists f fs idx e0,
    files !! Z.to_nat (re_source_file_index e) = Some f /\ sf_path f = path_join parent shard /\
    open_file (path_join parent shard) = Ok fs /\ st_index fs limits = Ok idx /\
    e0 ∈ ix_entries idx /\ e = with_file_index (re_source_file_index e) e0.

Definition shards_read (parent : string) (limits : InspectionLimits)
    (l : list (string * gset string)) (st : ShardState) : Prop :=
  (forall e, e ∈ ss_entries st ->
     exists shard keys, (shard, keys) ∈ l /\ re_key e ∈ keys /\
       from_shard parent limits (ss_source_files st) shard e) /\
  (forall shard keys key, (shard, keys) ∈ l -> key ∈ keys ->
     exists e, e ∈ ss_entries st /\ re_key e = key).

(** ** Lemmas *)

Lemma expect_shards_Ok limits l m :
  try_fold (expect_shard limits) ∅ l = Ok m -> groups l m.
Proof.
  clear open_file index_file_from_slice. apply try_fold_prefix.
  2: { repeat split; try done.
       - intros [x Hx]. by rewrite lookup_empty in Hx.
       - intros (key & Hk). by apply not_elem_of_nil in Hk. }
  clear m. intros pre m [key shard] m' (Hsome & Hkeys & Hval) H. unfold expect_shard in H.
  ok_inv. cbn in *. unfold add_expected. split; [|split].
  - intros sh. rewrite lookup_insert_is_Some. setoid_rewrite elem_of_app. split.
    + intros [<-|[_ [k Hk]%Hsome]]; [exists key; right; by left|eauto].
    + intros (k & [Hk|Hk]).
      * destruct (decide (shard = sh)); [by left|right]. split; [done|]. apply Hsome. eauto.
      * apply list_elem_of_singleton in Hk as [= -> ->]. by left.
  - intros sh keys k. rewrite elem_of_app, list_elem_of_singleton, pair_equal_spec.
    destruct (decide (shard = sh)) as [->|Hne].
    + rewrite lookup_insert_eq. intros [= <-]. rewrite elem_of_union, elem_of_singleton.
      destruct (m !! sh) as [ks|] eqn:E; cbn.
      * rewrite (Hkeys sh ks k E). tauto.
      * assert (Hno : ~ (k, sh) ∈ pre).
        { intros Hk. assert (is_Some (m !! sh)) as [? ?] by (apply Hsome; eauto). congruence. }
        rewrite elem_of_empty. tauto.
    + rewrite lookup_insert_ne by done. intros E. rewrite (Hkeys sh keys k E).
      split; [tauto|]. intros [?|[_ ->]]; done.
  - apply Forall_app. split; [done|]. by constructor.
Qed.

Lemma validate_shard_name_Ok name u :
  validate_shard_name name = Ok u ->
  is_absolute name = false /\ Forall (fun c => exists x, c = Normal x) (components name).
Proof.
  unfold validate_shard_name. intros H%ensure_Ok. apply negb_true_iff, orb_false_iff in H as [H1 H2].
  split; [done|]. apply Forall_forall. intros c Hc.
  destruct c as [| | |x]; [..|by exists x]; exfalso;
    (assert (Ht : existsb (fun c => negb (is_normal c)) (components name) = true);
      [apply existsb_exists; eexists; split; [by apply list_elem_of_In|done]|congruence]).
Qed.

Lemma read_shards_Ok parent limits l st0 st :
  (forall path fs, open_file path = Ok fs -> fs_path fs = path) ->
  ss_entries st0 = [] -> ss_source_files st0 = [] ->
  try_fold (read_shard parent limits) st0 l = Ok st -> shards_read parent limits l st.
Proof.
  intros Hopen He Hf.
  apply (try_fold_prefix (shards_read parent limits)).
  2: { split; [rewrite He; by intros e ?%not_elem_of_nil|by intros ??? ?%not_elem_of_nil]. }
  clear st. intros pre st [shard keys] st' (Hin & Hall) H. unfold read_shard in H. ok_inv.
  apply bool_decide_eq_true_1 in Hv1.
  assert (Hidx : ix_source_files v0 = single_source_files v).
  { clear -Hv0. unfold st_index in Hv0. by ok_inv. }
  unfold single_source_files in Hidx. cbn in Hidx. rewrite Hidx in Hv3. injection Hv3 as <-.
  split; cbn.
  - intros e. rewrite elem_of_app. intros [Hpre|Hnew].
    + destruct (Hin e Hpre) as (sh & ks & Hl & Hk & f & fs & idx & e0 & Hfile & Hrest).
      exists sh, ks. rewrite elem_of_app. split; [by left|]. split; [done|].
      exists f, fs, idx, e0. split; [by apply lookup_app_l_Some|done].
    + apply list_elem_of_fmap in Hnew as (e0 & -> & He0). exists shard, keys.
      rewrite elem_of_app. split; [right; by left|]. split.
      { rewrite <-Hv1. apply elem_of_list_to_set, list_elem_of_fmap. by exists e0. }
      eexists _, v, v0, e0. cbn. rewrite Nat2Z.id.
      split; [by rewrite lookup_app_r, Nat.sub_diag by lia|].
      split; [by eapply Hopen|done].
  - intros sh ks k. rewrite elem_of_app, list_elem_of_singleton. intros [Hl|[= -> ->]] Hk.
    + destruct (Hall sh ks k Hl Hk) as (e & Hes & Hkey). exists e.
      rewrite elem_of_app. by split; [left|].
    + rewrite <-Hv1 in Hk. apply elem_of_list_to_set, list_elem_of_fmap in Hk as (e0 & -> & He0).
      eexists. rewrite elem_of_app. split; [right; apply list_elem_of_fmap_2, He0|done].
Qed.

(** C13: A sharded index that is returned agrees with the weight map: it has an
    entry for exactly the tensors the map lists, each one read from the file
    of the shard the map names, which is a relative path without [..] below
    the directory of the index file. *)
Theorem sharded_index_sound (source : Src) limits idx :
  (forall path fs, open_file path = Ok fs -> fs_path fs = path) ->
  sharded_index source limits = Ok idx ->
  exists index_path parent_dir data parsed,
    src_path source = Some index_path /\ parent index_path = Some parent_dir /\
    read_range source 0 (src_len source) = Ok data /\
    index_file_from_slice data = Some parsed /\
    (forall key, (exists e, e ∈ ix_entries idx /\ re_key e = key) <->
                 is_Some (if_weight_map parsed !! key)) /\
    (forall e, e ∈ ix_entries idx -> exists shard,
       if_weight_map parsed !! re_key e = Some shard /\
       is_absolute shard = false /\ Forall (fun c => exists x, c = Normal x) (components shard) /\
       from_shard parent_dir limits (ix_source_files idx) shard e) /\
    StronglySorted (fun a b => entry_leb a b = true) (ix_entries idx).
Proof.
  intros Hopen H. unfold sharded_index in H. ok_inv. cbn.
  apply expect_shards_Ok in Hv6 as (Hsome & Hkeys & Hval).
  apply read_shards_Ok in Hv7 as [Hin Hall]; [|done|done|done].
  assert (Hpair : forall e, e ∈ ss_entries v7 -> exists shard,
    if_weight_map v3 !! re_key e = Some shard /\ validate_shard_name shard = Ok tt /\
    from_shard v1 limits (ss_source_files v7) shard e).
  { intros e (shard & keys & Hl & Hk & Hfrom)%Hin. exists shard.
    apply elem_of_btree_iter in Hl. apply (Hkeys _ _ _ Hl) in Hk.
    rewrite Forall_forall in Hval. pose proof (Hval _ Hk).
    by apply elem_of_btree_iter in Hk. }
  exists v0, v1, v2, v3. repeat (split; [done|]).
  split; [|split].
  - intros key. split.
    + intros (e & He & <-). rewrite elem_of_sort_entries in He. by destruct (Hpair e He) as (sh & -> & _).
    + intros [shard Hk]. apply elem_of_btree_iter in Hk.
      assert (is_Some (v6 !! shard)) as [keys Hl] by (apply Hsome; eauto).
      destruct (Hall shard keys key) as (e & He & <-);
        [by apply elem_of_btree_iter|by apply (Hkeys _ _ _ Hl)|].
      exists e. by rewrite elem_of_sort_entries.
  - intros e He. rewrite elem_of_sort_entries in He.
    destruct (Hpair e He) as (shard & Hk & Hv' & Hfrom). exists shard.
    by apply validate_shard_name_Ok in Hv' as [? ?].
  - apply sort_entries_sorted.
Qed.

End Sharded.

(** ** Witness: two tensors in one shard of a directory *)

#[local] Existing Instance Deserialize.sample.

Module Shards.

Definition index_text : string := "{index}".
Definition index_source : BytesSource :=
  {| bs_path := Some "d/m.safetensors.index.json"; bs_data := bytes_of_string index_text;
     bs_len_ok := small_file (bytes_of_string index_text) eq_refl |}.

Definition parse_index (bs : bytes) : option IndexFile :=
  if String.eqb (string_of_bytes bs) index_text then
    Some {| if_metadata := <["total_size" := JInt 12]> ∅;
            if_weight_map := <["a" := "s1"]> (<["b" := "s1"]> ∅) |}
  else None.

Definition open_shard (path : string) : Result FileSource :=
  if String.eqb path "d/s1" then
    Ok (disk_file path Deserialize.sample_bytes (small_file Deserialize.sample_bytes eq_refl))
  else Err (io_path_error path (lit "open failed")).

Lemma open_shard_path path fs : open_shard path = Ok fs -> fs_path fs = path.
Proof. unfold open_shard. case_match; [|done]. by intros [= <-]. Qed.

Definition index : RawCheckpointIndex :=
  {| ix_container := {| ci_format_id := "safetensors.sharded"; ci_version := Some 1;
          ci_magic := Some "safetensors.index.json" |};
     ix_source_files :=
       [{| sf_path := "d/s1"; sf_size_bytes := 29; sf_content_digest := None |}];
     ix_metadata := <["format" := JString "pt"]> (<["total_size" := JInt 12]> ∅);
     ix_entries := ix_entries Deserialize.index;
     ix_data_offset := 0 |}.

Lemma shards_index_Ok : sharded_index parse_index open_shard index_source InspectionLimits_default = Ok index.
Proof. by_vm. Qed.

End Shards.

Lemma sharded_index_sound_witness :
  sharded_index Shards.parse_index Shards.open_shard Shards.index_source InspectionLimits_default
    = Ok Shards.index /\
  StronglySorted (fun a b => entry_leb a b = true) (ix_entries Shards.index).
Proof.
  split; [exact Shards.shards_index_Ok|].
  destruct (sharded_index_sound Shards.parse_index Shards.open_shard Shards.index_source
    InspectionLimits_default Shards.index Shards.open_shard_path Shards.shards_index_Ok)
    as (? & ? & ? & ? & _ & _ & _ & _ & _ & _ & H).
  exact H.
Defined.
