(* ===== verification/StConventions.v ===== *)
(** * SafeTensors conventions: convention.rs, mlx.rs and config_json.rs of
    crates/dyninfer-checkpoint-safetensors

    The metadata read from a sibling [config.json], the dense decoder and the
    MLX decoder that joins packed weights with their scales and biases. *)
From S2P Require Import Prelude Errors Serde CoreTypes Catalog Paths SafeTensors Names.
From Stdlib Require Import ZArith Lia Ascii String Sorted.
From stdpp Require Import base list strings gmap pretty.
From stdpp Require Import options.
Import Json.

Local Open Scope Z_scope.

Section Conventions.
Context {SJ : SerdeJson} {SD : SerdeDeserialize}.

(** [std::fs::read], [None] when it fails. *)
Context (read_file : string -> option bytes).

(** ** config_json.rs *)

(** [out.insert(k, v)] for each of the keys, when there is a value. *)
Definition insert_keys (keys : list string) (v : option Value) (out : MetadataMap) : MetadataMap :=
  match v with
  | Some v => foldl (fun o k => <[k := v]> o) out keys
  | None => out
  end.

(** [a.or_else(|| b)]. *)
Definition or_else {A} (a b : option A) : option A :=
  match a with Some _ => a | None => b end.

Definition config_u (obj : list (string * Value)) (k : string) : option Z :=
  v ← obj_get obj k; as_u64 v.
Definition config_f (obj : list (string * Value)) (k : string) : option f64 :=
  v ← obj_get obj k; as_f64 v.

(** The keys that hold unsigned integers, up to the KV heads. *)
Definition config_sizes (obj : list (string * Value)) (out : MetadataMap) : MetadataMap :=
  let u := config_u obj in
  let out := insert_keys ["num_layers"; "n_layer"; "block_count"; "llama.block_count"]
    (value_u64 <$> or_else (u "num_hidden_layers") (or_else (u "n_layer") (u "num_layers"))) out in
  let out := insert_keys ["hidden_size"; "llama.embedding_length"]
    (value_u64 <$> or_else (u "hidden_size") (u "n_embd")) out in
  let out := insert_keys ["intermediate_size"] (value_u64 <$> u "intermediate_size") out in
  let out := insert_keys ["num_heads"; "llama.attention.head_count"]
    (value_u64 <$> or_else (u "num_attention_heads") (or_else (u "n_head") (u "num_heads"))) out in
  let kv_heads := or_else (u "num_key_value_heads")
    (or_else (u "num_kv_heads") (v ← out !! "num_heads"; as_u64 v)) in
  let out := insert_keys ["num_kv_heads"; "llama.attention.head_count_kv"]
    (value_u64 <$> kv_heads) out in
  let out := insert_keys ["vocab_size"; "llama.vocab_size"] (value_u64 <$> u "vocab_size") out in
  insert_keys ["context_length"; "llama.context_length"]
    (value_u64 <$> or_else (u "max_position_embeddings") (u "context_length")) out.

Definition nested_rope_theta (obj : list (string * Value)) : option f64 :=
  v ← or_else (obj_get obj "rope_parameters") (obj_get obj "rope_scaling");
  rope ← as_object v;
  theta ← obj_get rope "rope_theta";
  as_f64 theta.

(** Norm, rotary embedding, hybrid schedule and special tokens. *)
Definition config_scalars (obj : list (string * Value)) (out : MetadataMap) : MetadataMap :=
  let u := config_u obj in
  let f := config_f obj in
  let out := insert_keys ["rms_norm_eps"]
    (number_from_f64 <$> or_else (f "rms_norm_eps") (f "norm_eps")) out in
  let theta := or_else (f "rope_theta")
    (or_else (f64_of_Z <$> u "rope_theta") (nested_rope_theta obj)) in
  let out := insert_keys ["rope_theta"]
    (Some (number_from_f64 (default (f64_of_Z 10000) theta))) out in
  let out := insert_keys ["layer_types"]
    (value_array <$> (v ← obj_get obj "layer_types"; as_array v)) out in
  let out := insert_keys ["conv_kernel"]
    (value_u64 <$> or_else (u "conv_L_cache") (u "conv_kernel")) out in
  let out := insert_keys ["conv_dim"] (value_u64 <$> u "conv_dim") out in
  let out := insert_keys ["bos_token_id"] (value_u64 <$> u "bos_token_id") out in
  let out := insert_keys ["eos_token_id"] (value_u64 <$> u "eos_token_id") out in
  insert_keys ["pad_token_id"] (value_u64 <$> u "pad_token_id") out.

(** An explicit head dimension, or the quotient when it is exact. *)
Definition config_head_dim (obj : list (string * Value)) (out : MetadataMap) : option Z :=
  match config_u obj "head_dim" with
  | Some v => Some v
  | None =>
      h ← (v ← out !! "hidden_size"; as_u64 v);
      n ← (v ← out !! "num_heads"; as_u64 v);
      if (0 <? n) && (h mod n =? 0) then Some (h / n) else None
  end.

Definition config_quantization (obj : list (string * Value)) (out : MetadataMap) : MetadataMap :=
  match v ← or_else (obj_get obj "quantization_config") (obj_get obj "quantization");
        as_object v with
  | Some quantization =>
      let out := insert_keys ["mlx.quantization.bits"]
        (value_u64 <$> config_u quantization "bits") out in
      insert_keys ["mlx.quantization.group_size"]
        (value_u64 <$> config_u quantization "group_size") out
  | None => out
  end.

Definition config_metadata (obj : list (string * Value)) : MetadataMap :=
  let out := config_scalars obj (config_sizes obj ∅) in
  let out := insert_keys ["head_dim"] (value_u64 <$> config_head_dim obj out) out in
  let out := insert_keys ["hf_architecture"]
    (value_string <$> (v ← obj_get obj "architectures"; l ← as_array v; x ← head l; as_str x)) out in
  let out := insert_keys ["model_type"]
    (value_string <$> (v ← obj_get obj "model_type"; as_str v)) out in
  let out := insert_keys ["tie_word_embeddings"]
    (value_bool <$> (v ← obj_get obj "tie_word_embeddings"; as_bool v)) out in
  config_quantization obj out.

Definition load_hf_config_metadata (checkpoint : string) : MetadataMap :=
  default ∅
    (dir ← parent checkpoint;
     bs ← read_file (path_join dir "config.json");
     v ← from_slice bs;
     obj ← as_object v;
     Some (config_metadata obj)).

(** The [entry(k).or_insert(v)] loop of both decoders. *)
Definition with_hf_config (index : RawCheckpointIndex) : MetadataMap :=
  match head (ix_source_files index) with
  | Some src =>
      foldl (fun m kv => or_insert m kv.1 kv.2) (ix_metadata index)
        (btree_iter (load_hf_config_metadata (sf_path src)))
  | None => ix_metadata index
  end.

(** ** convention.rs *)

Definition is_scalar (ty : StorageElementType) : bool :=
  match ty with Scalar _ => true | _ => false end.

Definition is_dense_float (ty : ScalarType) : bool :=
  match ty with Bf16 | F16 | F32 => true | _ => false end.

Definition dense_convention_id : string := "safetensors.dense".

Definition dense_match_score (index : RawCheckpointIndex) (context : DecodeContext)
    : Result MatchScore :=
  if negb (starts_with "safetensors" (ci_format_id (ix_container index))) then Ok MATCH_NONE
  else
    let dense_count := length (List.filter (fun e => is_scalar (re_storage_type e)) (ix_entries index)) in
    if bool_decide (dense_count = O) then Ok MATCH_NONE
    else
      let score := 50 + Z.of_nat (dense_count `min` 40) in
      let hf := existsb (fun e => starts_with "model." (re_key e)
                                  || String.eqb (re_key e) "lm_head.weight") (ix_entries index) in
      Ok {| ms_score := if hf then score + 20 else score |}.

Definition st_component (name : string) (entry : RawTensorEntry) : StorageComponent :=
  {| sc_name := name;
     sc_key := re_key entry;
     sc_source_file_index := re_source_file_index entry;
     sc_shape := re_shape entry;
     sc_storage_type := re_storage_type entry;
     sc_byte_ranges := re_byte_ranges entry;
     sc_alignment := re_alignment entry;
     sc_endianness := re_endianness entry |}.

(** The parameter of a plain tensor of element type [ty]. *)
Definition dense_parameter (entry : RawTensorEntry) (ty : ScalarType)
    (component : StorageComponent) : LogicalParameter :=
  {| lp_canonical_name := re_key entry;
     lp_role := infer_role (re_key entry);
     lp_logical_type := {| lt_shape := re_shape entry; lt_element_type := ty |};
     lp_encoding := plain ty;
     lp_components := [component];
     lp_aliases := [re_key entry] |}.

(** One turn of the decoding loop; [None] is [continue]. *)
Definition dense_decode_entry (entry : RawTensorEntry) : Result (option LogicalParameter) :=
  match re_storage_type entry with
  | Scalar ty =>
      _ ← ensure (is_dense_float ty)
        (UnsupportedEncoding
          {| ue_message := Format "dense SafeTensors dtype {ty} not in version-1 path"
               [AStr (ScalarType_display ty)];
             ue_key := Some (re_key entry); ue_codec := None; ue_codec_version := None;
             ue_expected := Some (lit "bf16|f16|f32");
             ue_actual := Some (lit (ScalarType_display ty)) |});
      if is_rope_cache (re_key entry) then Ok None
      else Ok (Some (dense_parameter entry ty
             {| sc_name := "data"; sc_key := re_key entry;
                sc_source_file_index := re_source_file_index entry;
                sc_shape := re_shape entry;
                sc_storage_type := re_storage_type entry;
                sc_byte_ranges := re_byte_ranges entry;
                sc_alignment := re_alignment entry;
                sc_endianness := Little |}))
  | other =>
      Err (UnsupportedEncoding
        {| ue_message := lit "non-scalar SafeTensors entry not supported by dense convention";
           ue_key := Some (re_key entry); ue_codec := None; ue_codec_version := None;
           ue_expected := Some (lit "scalar dense");
           ue_actual := Some (StorageElementType_display other) |})
  end.

Definition dense_decode (index : RawCheckpointIndex) (context : DecodeContext)
    : Result ParameterCatalog :=
  parameters ← try_map dense_decode_entry (ix_entries index);
  Ok {| pcat_convention_id := dense_convention_id;
        pcat_parameters := omap id parameters;
        pcat_metadata := with_hf_config index |}.

Definition DenseSafetensorsConvention : CheckpointConventionDecoder := {|
  cd_convention_id := dense_convention_id;
  cd_match_score := dense_match_score;
  cd_decode := dense_decode;
|}.

(** ** mlx.rs *)

Definition mlx_unsupported (key : option string) (message : text)
    (expected actual : option text) : DynInferError :=
  UnsupportedEncoding
    {| ue_message := message; ue_key := key; ue_codec := Some (lit "mlx.affine");
       ue_codec_version := Some 1; ue_expected := expected; ue_actual := actual |}.

Definition is_component_key (key : string) : bool :=
  ends_with ".scales" key || ends_with ".biases" key.

Definition mlx_match_score (index : RawCheckpointIndex) (context : DecodeContext)
    : Result MatchScore :=
  if negb (starts_with "safetensors" (ci_format_id (ix_container index))) then Ok MATCH_NONE
  else
    let declares_mlx :=
      default false (v ← ix_metadata index !! "format"; format ← as_str v;
                     Some (String.eqb (to_ascii_lowercase format) "mlx")) in
    let has_compound_weights := existsb (fun e => is_component_key (re_key e)) (ix_entries index) in
    Ok (if declares_mlx && has_compound_weights then {| ms_score := 150 |} else MATCH_NONE).

Definition required_u32 (metadata : MetadataMap) (key : string) : Result Z :=
  ok_or (v ← metadata !! key; n ← as_u64 v; if n <=? u32_max then Some n else None)
    (mlx_unsupported None (Format "missing required MLX metadata `{key}`" [AStr key])
       (Some (lit "explicit config.json quantization metadata")) None).

Definition scalar_type (entry : RawTensorEntry) : Result ScalarType :=
  match re_storage_type entry with
  | Scalar ty => Ok ty
  | other =>
      Err (mlx_unsupported (Some (re_key entry))
             (lit "MLX SafeTensors component must use scalar storage") None
             (Some (StorageElementType_display other)))
  end.

Definition decode_affine_weight (weight scales biases : RawTensorEntry) (bits group_size : Z)
    : Result LogicalParameter :=
  let fail message expected actual :=
    mlx_unsupported (Some (re_key weight)) message expected actual in
  _ ← ensure (negb (bool_decide (re_shape weight = [])))
        (fail (lit "MLX packed weight must have rank >= 1") None None);
  _ ← ensure (bool_decide (re_storage_type weight = Scalar U32))
        (fail (lit "MLX packed weight storage must be u32") (Some (lit "u32"))
           (Some (StorageElementType_display (re_storage_type weight))));
  scale_type ← scalar_type scales;
  bias_type ← scalar_type biases;
  _ ← ensure (negb (negb (bool_decide (scale_type = bias_type)) || negb (is_dense_float scale_type)))
        (fail (lit "MLX scales and biases must use the same floating-point type")
           (Some (lit "matching f16|bf16|f32"))
           (Some (Format "scales={scale_type}, biases={bias_type}"
                    [AStr (ScalarType_display scale_type); AStr (ScalarType_display bias_type)])));
  packed_last ← (match last (re_shape weight) with
                 | Some d => Ok d
                 | None => Panic "called Option::unwrap() on a None value"
                 end);
  logical_numerator ← ok_or (checked_mul packed_last 32) (internal (lit "MLX logical shape overflow"));
  _ ← ensure (is_multiple_of logical_numerator bits)
        (fail (lit "MLX packed axis cannot be expanded exactly")
           (Some (Format "packed_last * 32 divisible by {bits}" [AInt bits]))
           (Some (Format "{}" [AInt packed_last])));
  let logical_last := logical_numerator / bits in
  let logical_shape := set_last (re_shape weight) logical_last in
  _ ← ensure (is_multiple_of logical_last group_size)
        (fail (lit "MLX logical quantization axis is not group divisible")
           (Some (Format "multiple of {group_size}" [AInt group_size]))
           (Some (Format "{}" [AInt logical_last])));
  let expected_group_shape := set_last logical_shape (logical_last / group_size) in
  _ ← ensure (negb (negb (bool_decide (re_shape scales = expected_group_shape))
                    || negb (bool_decide (re_shape biases = expected_group_shape))))
        (fail (lit "MLX scales/biases shape does not match logical groups")
           (Some (Format "{expected_group_shape:?}" [AInts expected_group_shape]))
           (Some (Format "scales={:?}, biases={:?}"
                    [AInts (re_shape scales); AInts (re_shape biases)])));
  Ok {| lp_canonical_name := re_key weight;
        lp_role := infer_role (re_key weight);
        lp_logical_type := {| lt_shape := logical_shape; lt_element_type := scale_type |};
        lp_encoding :=
          GroupQuantized scale_type (bits mod 256) U32 false (-1) group_size scale_type
            (Some bias_type) ZpNone (String.append "mlx.affine.u" (pretty bits)) RowMajor
            ["packed"; "scales"; "biases"];
        lp_components :=
          [st_component "packed" weight; st_component "scales" scales;
           st_component "biases" biases];
        lp_aliases := [re_key weight] |}.

Definition decode_plain (entry : RawTensorEntry) : Result LogicalParameter :=
  ty ← scalar_type entry;
  _ ← ensure (is_dense_float ty)
        (mlx_unsupported (Some (re_key entry))
           (lit "unpaired MLX tensor is not a supported dense float")
           (Some (lit "bf16|f16|f32")) (Some (lit (ScalarType_display ty))));
  Ok (dense_parameter entry ty (st_component "data" entry)).

Definition entries_by_key (entries : list RawTensorEntry) : gmap string RawTensorEntry :=
  foldl (fun m e => <[re_key e := e]> m) ∅ entries.

(** The entry under the key of [weight] with its [.weight] replaced. *)
Definition companion (by_key : gmap string RawTensorEntry) (key suffix : string)
    : option RawTensorEntry :=
  base ← Prelude.strip_suffix ".weight" key;
  by_key !! String.append base suffix.

(** One turn of the loop: consumed component keys and decoded parameters. *)
Definition mlx_step (by_key : gmap string RawTensorEntry) (bits group_size : Z)
    (st : gset string * list LogicalParameter) (entry : RawTensorEntry)
    : Result (gset string * list LogicalParameter) :=
  let '(consumed, parameters) := st in
  if is_component_key (re_key entry) then Ok st
  else if is_rope_cache (re_key entry) then Ok st
  else
    match companion by_key (re_key entry) ".scales", companion by_key (re_key entry) ".biases" with
    | Some scale, Some bias =>
        parameter ← decode_affine_weight entry scale bias bits group_size;
        Ok ({[re_key bias]} ∪ ({[re_key scale]} ∪ consumed), parameters ++ [parameter])
    | None, None =>
        parameter ← decode_plain entry;
        Ok (consumed, parameters ++ [parameter])
    | scale, bias =>
        Err (mlx_unsupported (Some (re_key entry))
               (lit "MLX quantized weight must have both .scales and .biases components")
               (Some (lit "weight + scales + biases"))
               (Some (Format "scales={}, biases={}"
                        [AStr (if bool_decide (is_Some scale) then "true" else "false");
                         AStr (if bool_decide (is_Some bias) then "true" else "false")])))
    end.

Definition mlx_convention_id : string := "safetensors.mlx.mixed".

Definition mlx_bits_ok (bits : Z) : bool :=
  (bits =? 2) || (bits =? 3) || (bits =? 4) || (bits =? 6) || (bits =? 8).

Definition mlx_decode (index : RawCheckpointIndex) (context : DecodeContext)
    : Result ParameterCatalog :=
  let metadata := with_hf_config index in
  bits ← required_u32 metadata "mlx.quantization.bits";
  group_size ← required_u32 metadata "mlx.quantization.group_size";
  _ ← ensure (negb (negb (mlx_bits_ok bits) || (group_size =? 0)))
        (mlx_unsupported None
           (Format "unsupported MLX affine configuration bits={bits}, group_size={group_size}"
              [AInt bits; AInt group_size])
           (Some (lit "bits in 2|3|4|6|8 and group_size > 0")) None);
  let by_key := entries_by_key (ix_entries index) in
  '(consumed, parameters) ← try_fold (mlx_step by_key bits group_size) (∅, []) (ix_entries index);
  let orphan := re_key <$> List.filter
    (fun e => is_component_key (re_key e) && negb (bool_decide (re_key e ∈ consumed)))
    (ix_entries index) in
  _ ← ensure (bool_decide (orphan = []))
        (mlx_unsupported (head orphan)
           (Format "orphan MLX quantization components: {orphan:?}" [AStrs orphan])
           (Some (lit "components paired with a .weight tensor")) None);
  Ok {| pcat_convention_id := mlx_convention_id;
        pcat_parameters := parameters;
        pcat_metadata := metadata |}.

Definition MlxSafeTensorsConvention : CheckpointConventionDecoder := {|
  cd_convention_id := mlx_convention_id;
  cd_match_score := mlx_match_score;
  cd_decode := mlx_decode;
|}.

(** ** Lemmas *)

Lemma product_app a b : product (a ++ b) = product a * product b.
Proof. unfold product. induction a as [|x a IH]; cbn; [lia|]. rewrite IH. lia. Qed.

Lemma removelast_last {A} (l : list A) x : last l = Some x -> l = removelast l ++ [x].
Proof.
  intros Hl. destruct l as [|y l'] using rev_ind; [done|].
  rewrite last_snoc in Hl. injection Hl as ->. by rewrite List.removelast_last.
Qed.

Lemma removelast_set_last l x : removelast (set_last l x) = removelast l.
Proof. apply List.removelast_last. Qed.

Lemma product_set_last l x : product (set_last l x) = product (removelast l) * x.
Proof. unfold set_last. rewrite product_app. unfold product at 2. cbn. lia. Qed.

Lemma entries_by_key_lookup entries (m : gmap string RawTensorEntry) k e :
  (forall k e, m !! k = Some e -> re_key e = k) ->
  foldl (fun m e => <[re_key e := e]> m) m entries !! k = Some e -> re_key e = k.
Proof.
  revert m. induction entries as [|e' es IH]; cbn; intros m Hm; [by apply Hm|].
  apply IH. intros k' e1. destruct (decide (re_key e' = k')) as [<-|Hne].
  - rewrite lookup_insert_eq. by intros [= <-].
  - rewrite lookup_insert_ne by done. apply Hm.
Qed.

Lemma companion_key entries key suffix e :
  companion (entries_by_key entries) key suffix = Some e ->
  exists base, Prelude.strip_suffix ".weight" key = Some base /\
    re_key e = String.append base suffix.
Proof.
  unfold companion. intros (base & Hb & H)%bind_Some. exists base. split; [done|].
  by eapply entries_by_key_lookup, H; intros ?? ?; rewrite lookup_empty in *.
Qed.

(** The geometry of a decoded group-quantised weight. *)
Definition affine_geometry (bits group_size : Z) (weight scales : RawTensorEntry)
    (p : LogicalParameter) : Prop :=
  let shape := lt_shape (lp_logical_type p) in
  removelast shape = removelast (re_shape weight) /\
  length shape = length (re_shape weight) /\
  product shape * bits = product (re_shape weight) * 32 /\
  product (re_shape scales) * group_size = product shape.

Lemma decode_affine_weight_Ok weight scales biases bits group_size p :
  0 < bits -> 0 < group_size ->
  decode_affine_weight weight scales biases bits group_size = Ok p ->
  affine_geometry bits group_size weight scales p /\
  re_shape biases = re_shape scales /\
  re_storage_type weight = Scalar U32 /\
  re_storage_type scales = Scalar (lt_element_type (lp_logical_type p)) /\
  re_storage_type biases = re_storage_type scales /\
  lp_canonical_name p = re_key weight /\
  lp_components p = [st_component "packed" weight; st_component "scales" scales;
                     st_component "biases" biases].
Proof.
  intros Hb Hg H. unfold decode_affine_weight in H. ok_inv.
  apply bool_decide_eq_true_1 in Hv0.
  unfold scalar_type in Hv1, Hv2. destruct (re_storage_type scales) as [ts| |] eqn:Es; ok_inv.
  destruct (re_storage_type biases) as [tb| |] eqn:Eb; ok_inv.
  apply negb_true_iff, orb_false_iff in Hv3 as [Ht _].
  apply negb_false_iff, bool_decide_eq_true_1 in Ht as <-.
  destruct (last (re_shape weight)) as [d|] eqn:El; ok_inv.
  apply checked_mul_Some in Hv5 as [-> _].
  apply is_multiple_of_spec in Hv6 as [q Hq]; [|done].
  rewrite Hq, Z.div_mul in * by lia.
  apply is_multiple_of_spec in Hv7 as [g Hgq]; [|done].
  rewrite Hgq, Z.div_mul in * by lia.
  apply negb_true_iff, orb_false_iff in Hv8 as [Hs Hbs].
  apply negb_false_iff, bool_decide_eq_true_1 in Hs, Hbs.
  apply removelast_last in El. unfold affine_geometry; cbn. rewrite Hs, Hbs.
  rewrite !product_set_last, removelast_set_last.
  repeat split; try done.
  - unfold set_last. rewrite length_app. rewrite El at 2. by rewrite length_app.
  - rewrite El at 2. rewrite product_app. unfold product at 3. cbn. nia.
  - lia.
Qed.

(** What one turn of the MLX loop adds. *)
Definition mlx_keeps (e : RawTensorEntry) : bool :=
  negb (is_component_key (re_key e)) && negb (is_rope_cache (re_key e)).

Definition mlx_invariant (done : list RawTensorEntry)
    (st : gset string * list LogicalParameter) : Prop :=
  lp_canonical_name <$> st.2 = re_key <$> List.filter mlx_keeps done /\
  forall k, k ∈ st.1 -> exists p c base, p ∈ st.2 /\ c ∈ lp_components p /\ sc_key c = k /\
    Prelude.strip_suffix ".weight" (lp_canonical_name p) = Some base /\
    (k = String.append base ".scales" \/ k = String.append base ".biases").

Lemma dense_parameter_name e ty c : lp_canonical_name (dense_parameter e ty c) = re_key e.
Proof. done. Qed.

Lemma mlx_step_invariant entries bits group_size pre st e st' :
  0 < bits -> 0 < group_size -> mlx_invariant pre st ->
  mlx_step (entries_by_key entries) bits group_size st e = Ok st' ->
  mlx_invariant (pre ++ [e]) st'.
Proof.
  intros Hb Hg [Hn Hc] H. destruct st as [consumed ps]. unfold mlx_step in H. cbn in *.
  unfold mlx_invariant. rewrite List.filter_app, fmap_app. cbn [List.filter].
  assert (Hold : forall (q : LogicalParameter) k, k ∈ consumed ->
    exists p c base, p ∈ ps ++ [q] /\ c ∈ lp_components p /\ sc_key c = k /\
      Prelude.strip_suffix ".weight" (lp_canonical_name p) = Some base /\
      (k = String.append base ".scales" \/ k = String.append base ".biases")).
  { intros q k (p & c & base & Hp & Hrest)%Hc. exists p, c, base.
    rewrite elem_of_app. split; [by left|done]. }
  unfold mlx_keeps at 2. destruct (is_component_key (re_key e)); [ok_inv; by rewrite app_nil_r|].
  destruct (is_rope_cache (re_key e)); [ok_inv; by rewrite app_nil_r|]. cbn.
  destruct (companion _ _ ".scales") as [scale|] eqn:Es,
    (companion _ _ ".biases") as [bias|] eqn:Eb; ok_inv; cbn; rewrite fmap_app, Hn; cbn.
  - apply decode_affine_weight_Ok in Hv as (_ & _ & _ & _ & _ & Hname & Hcomp); [|done|done].
    rewrite Hname. split; [done|]. intros k. rewrite !elem_of_union, !elem_of_singleton.
    apply companion_key in Es as (base & Hs & Hsk), Eb as (base' & Hs' & Hbk).
    rewrite Hs in Hs'. injection Hs' as <-.
    intros [->|[->|Hk]]; [..|by apply Hold].
    + exists v, (st_component "biases" bias), base. rewrite Hcomp, Hname, elem_of_app.
      split; [right; by left|]. split; [by do 2 right; left|]. split; [done|]. auto.
    + exists v, (st_component "scales" scale), base. rewrite Hcomp, Hname, elem_of_app.
      split; [right; by left|]. split; [by right; left|]. split; [done|]. auto.
  - unfold decode_plain in Hv. ok_inv. split; [done|]. by apply Hold.
Qed.

Lemma dense_decode_entry_Ok e o :
  dense_decode_entry e = Ok o ->
  exists ty, re_storage_type e = Scalar ty /\ is_dense_float ty = true /\
    o = if is_rope_cache (re_key e) then None
        else Some (dense_parameter e ty
          {| sc_name := "data"; sc_key := re_key e;
             sc_source_file_index := re_source_file_index e; sc_shape := re_shape e;
             sc_storage_type := re_storage_type e; sc_byte_ranges := re_byte_ranges e;
             sc_alignment := re_alignment e; sc_endianness := Little |}).
Proof.
  unfold dense_decode_entry. intros H. destruct (re_storage_type e) as [ty| |]; ok_inv.
  exists ty. split; [done|]. split; [done|]. case_match; by ok_inv.
Qed.

(** ** Properties *)

(** Decoding a packed MLX weight recovers the logical tensor exactly: the
    packed words hold [bits] bits per element with none left over, there is
    one scale and one bias per group of elements, and only the last axis
    differs from the stored shape. *)
Theorem decode_affine_weight_sound weight scales biases bits group_size p :
  mlx_bits_ok bits = true -> 0 < group_size ->
  decode_affine_weight weight scales biases bits group_size = Ok p ->
  let shape := lt_shape (lp_logical_type p) in
  removelast shape = removelast (re_shape weight) /\
  length shape = length (re_shape weight) /\
  product shape * bits = product (re_shape weight) * 32 /\
  product (re_shape scales) * group_size = product shape /\
  re_shape biases = re_shape scales /\ re_storage_type biases = re_storage_type scales /\
  lp_components p = [st_component "packed" weight; st_component "scales" scales;
                     st_component "biases" biases].
Proof.
  intros Hb Hg H. apply decode_affine_weight_Ok in H as ((? & ? & ? & ?) & ? & _ & _ & ? & _ & ?);
    [done| |done].
  unfold mlx_bits_ok in Hb. rewrite !orb_true_iff, !Z.eqb_eq in Hb. lia.
Qed.

(** The MLX decoder accounts for every tensor of the index: its parameters
    are the tensors that are neither quantisation components nor rotary
    caches, in order, and every scale or bias tensor is a component of the
    parameter of the weight it belongs to. *)
Theorem mlx_decode_accounts index ctx cat :
  mlx_decode index ctx = Ok cat ->
  lp_canonical_name <$> pcat_parameters cat
    = re_key <$> List.filter mlx_keeps (ix_entries index) /\
  forall e, e ∈ ix_entries index -> is_component_key (re_key e) = true ->
    exists p c base, p ∈ pcat_parameters cat /\ c ∈ lp_components p /\ sc_key c = re_key e /\
      Prelude.strip_suffix ".weight" (lp_canonical_name p) = Some base /\
      (re_key e = String.append base ".scales" \/ re_key e = String.append base ".biases").
Proof.
  intros H. unfold mlx_decode in H. ok_inv.
  apply negb_true_iff, orb_false_iff in Hv1 as [Hbits Hgs]. apply negb_false_iff in Hbits.
  assert (Hg : 0 < v0).
  { unfold required_u32 in Hv0. ok_inv. apply bind_Some in Hv0 as (x & _ & H).
    apply bind_Some in H as (n & Hn%as_u64_range & H). case_match; [|done].
    injection H as <-. apply Z.eqb_neq in Hgs. unfold is_u64 in Hn. lia. }
  assert (Hb : 0 < v).
  { unfold mlx_bits_ok in Hbits. rewrite !orb_true_iff, !Z.eqb_eq in Hbits. lia. }
  eapply (try_fold_prefix mlx_invariant) in Hv2 as [Hn Hc].
  - cbn in *. split; [done|]. intros e He Hcomp. apply Hc.
    apply bool_decide_eq_true_1, fmap_nil_inv in Hv3.
    destruct (decide (re_key e ∈ g)) as [?|Hno]; [done|]. exfalso.
    assert (Hin : In e (List.filter (fun e => is_component_key (re_key e)
        && negb (bool_decide (re_key e ∈ g))) (ix_entries index))).
    { apply filter_In. rewrite Hcomp, bool_decide_eq_false_2 by done.
      split; [by apply list_elem_of_In|done]. }
    by rewrite Hv3 in Hin.
  - intros pre st e st'. by apply mlx_step_invariant.
  - split; [done|]. intros k Hk. by apply not_elem_of_empty in Hk.
Qed.

(** The dense decoder accepts an index exactly when every tensor is a
    dense float, and then yields one plain parameter per tensor that is not a
    rotary cache, in order, over that tensor's bytes. *)
Theorem dense_decode_spec index ctx :
  (Forall (fun e => exists ty, re_storage_type e = Scalar ty /\ is_dense_float ty = true)
     (ix_entries index) <->
   exists cat, dense_decode index ctx = Ok cat) /\
  forall cat, dense_decode index ctx = Ok cat ->
    Forall2 (fun e p => exists ty, re_storage_type e = Scalar ty /\
               lp_canonical_name p = re_key e /\ lp_encoding p = plain ty /\
               lp_logical_type p = {| lt_shape := re_shape e; lt_element_type := ty |} /\
               sc_byte_ranges <$> lp_components p = [re_byte_ranges e])
      (List.filter (fun e => negb (is_rope_cache (re_key e))) (ix_entries index))
      (pcat_parameters cat).
Proof.
  unfold dense_decode. split; [split|].
  - intros He. enough (exists ps, try_map dense_decode_entry (ix_entries index) = Ok ps) as [ps ->].
    { by eexists. }
    induction He as [|e es (ty & Hty & Hf) _ (ps & IH)]; cbn; [by eexists|].
    rewrite IH. unfold dense_decode_entry. rewrite Hty, Hf. cbn. case_match; by eexists.
  - intros (cat & H). ok_inv. apply try_map_Ok in Hv.
    induction Hv as [|e o es os Ho _ IH]; constructor; [|done].
    apply dense_decode_entry_Ok in Ho as (ty & ? & ? & _). eauto.
  - intros cat H. ok_inv. cbn. apply try_map_Ok in Hv.
    induction Hv as [|e o es os Ho _ IH]; cbn; [constructor|].
    apply dense_decode_entry_Ok in Ho as (ty & Hty & Hf & ->).
    destruct (is_rope_cache (re_key e)); cbn; [done|]. constructor; [|done].
    exists ty. repeat split; done.
Qed.

End Conventions.

(** ** Witnesses *)

#[local] Existing Instance Deserialize.sample.

Module Mlx.

Definition entry (key : string) (ty : ScalarType) (shape : list Z) : RawTensorEntry :=
  Deserialize.entry key ty shape 0 0.
Definition weight := entry "l.weight" U32 [8; 4].
Definition scales := entry "l.scales" F16 [8; 1].
Definition biases := entry "l.biases" F16 [8; 1].
Definition norm := entry "norm.weight" F32 [8].

Definition index : RawCheckpointIndex :=
  {| ix_container := {| ci_format_id := "safetensors"; ci_version := Some 1; ci_magic := None |};
     ix_source_files := [];
     ix_metadata := <["mlx.quantization.bits" := JInt 4]>
       (<["mlx.quantization.group_size" := JInt 32]> ∅);
     ix_entries := [biases; scales; weight; norm];
     ix_data_offset := 0 |}.

Definition context : DecodeContext := {| dc_architecture_hint := None; dc_overrides := ∅ |}.
Definition no_files (path : string) : option bytes := None.

Definition affine : LogicalParameter :=
  {| lp_canonical_name := "l.weight"; lp_role := Other "l.weight";
     lp_logical_type := {| lt_shape := [8; 32]; lt_element_type := F16 |};
     lp_encoding := GroupQuantized F16 4 U32 false (-1) 32 F16 (Some F16) ZpNone
       "mlx.affine.u4" RowMajor ["packed"; "scales"; "biases"];
     lp_components := [st_component "packed" weight; st_component "scales" scales;
                       st_component "biases" biases];
     lp_aliases := ["l.weight"] |}.

Definition catalog : ParameterCatalog :=
  {| pcat_convention_id := "safetensors.mlx.mixed";
     pcat_parameters := [affine; dense_parameter norm F32 (st_component "data" norm)];
     pcat_metadata := ix_metadata index |}.

Definition dense_index : RawCheckpointIndex :=
  {| ix_container := ix_container index; ix_source_files := []; ix_metadata := ∅;
     ix_entries := [norm; entry "rotary_emb.inv_freq" F32 [4]]; ix_data_offset := 0 |}.

End Mlx.

Lemma decode_affine_weight_sound_witness :
  decode_affine_weight Mlx.weight Mlx.scales Mlx.biases 4 32 = Ok Mlx.affine /\
  product [8; 32] * 4 = product [8; 4] * 32.
Proof.
  assert (H : decode_affine_weight Mlx.weight Mlx.scales Mlx.biases 4 32 = Ok Mlx.affine) by by_vm.
  split; [exact H|].
  destruct (decode_affine_weight_sound Mlx.weight Mlx.scales Mlx.biases 4 32 Mlx.affine
    eq_refl ltac:(lia) H) as (_ & _ & Hp & _).
  exact Hp.
Defined.

Lemma mlx_decode_accounts_witness :
  mlx_decode Mlx.no_files Mlx.index Mlx.context = Ok Mlx.catalog /\
  lp_canonical_name <$> pcat_parameters Mlx.catalog = ["l.weight"; "norm.weight"].
Proof.
  assert (H : mlx_decode Mlx.no_files Mlx.index Mlx.context = Ok Mlx.catalog) by by_vm.
  split; [exact H|].
  exact (proj1 (mlx_decode_accounts Mlx.no_files Mlx.index Mlx.context Mlx.catalog H)).
Defined.

Lemma dense_decode_spec_witness :
  exists cat, dense_decode Mlx.no_files Mlx.dense_index Mlx.context = Ok cat.
Proof.
  apply (proj1 (proj1 (dense_decode_spec Mlx.no_files Mlx.dense_index Mlx.context))).
  repeat constructor; eexists; split; reflexivity.
Defined.
