(* ===== verification/Ir.v ===== *)
(** * Semantic intermediate representation: crates/dyninfer-core/src/ir.rs

    Typed graph values, operations, exports and the architecture graph that
    the builder produces and the compiler consumes. *)
From S2P Require Import Prelude Errors Serde CoreTypes.
From Stdlib Require Import ZArith Lia Ascii String.
From stdpp Require Import base list strings gmap.
From stdpp Require Import options.

Local Open Scope Z_scope.

Inductive TensorDimension : Type :=
  | Static (n : Z)
  | Symbol (s : string).
#[export] Instance TensorDimension_eq_dec : EqDecision TensorDimension.
Proof. solve_decision. Defined.

Inductive SemanticElementType : Set := TokenIdElement | Floating.
#[export] Instance SemanticElementType_eq_dec : EqDecision SemanticElementType.
Proof. solve_decision. Defined.

Record SemanticTensorType :=
  { st_shape : list TensorDimension; st_element_type : SemanticElementType }.
#[export] Instance SemanticTensorType_eq_dec : EqDecision SemanticTensorType.
Proof. solve_decision. Defined.

Definition tokens_type : SemanticTensorType :=
  {| st_shape := [Symbol "batch"; Symbol "sequence"]; st_element_type := TokenIdElement |}.
Definition activations (width : Z) : SemanticTensorType :=
  {| st_shape := [Symbol "batch"; Symbol "sequence"; Static width]; st_element_type := Floating |}.
Definition kv_cache_type (head_count head_dim : Z) : SemanticTensorType :=
  {| st_shape := [Symbol "batch"; Static head_count; Symbol "kv_sequence"; Static head_dim];
     st_element_type := Floating |}.

Record GraphValue := { gv_id : string; gv_tensor_type : SemanticTensorType }.

Inductive ModelInputKind : Set := Tokens.
Inductive KvCacheComponent : Set := KvKey | KvValue.
Inductive ElementwiseFunction : Set := Silu | Multiply.
#[export] Instance KvCacheComponent_eq_dec : EqDecision KvCacheComponent.
Proof. solve_decision. Defined.
#[export] Instance ElementwiseFunction_eq_dec : EqDecision ElementwiseFunction.
Proof. solve_decision. Defined.

Inductive OperationKind : Type :=
  | OpInput (input : ModelInputKind)
  | OpEmbedding
  | OpLinear (role : ParameterRole)
  | OpRmsNorm (epsilon : f64)
  | OpPerHeadRmsNorm (epsilon : f64) (head_count head_dim : Z)
  | OpRope (head_count head_dim : Z) (theta : f64)
  | OpKvCacheWrite (layer : Z) (component : KvCacheComponent)
  | OpKvCacheRead (layer : Z) (component : KvCacheComponent)
  | OpAttention (num_heads num_kv_heads head_dim : Z) (causal : bool)
  | OpShortConv (layer channels kernel_size : Z)
  | OpElementwise (function : ElementwiseFunction)
  | OpResidual
  | OpOutputProjection.

Record ArchitectureOperation := {
  ao_id : string;
  ao_kind : OperationKind;
  ao_inputs : list string;
  ao_outputs : list string;
  ao_parameters : list string;
}.

Inductive ExecutionMode : Set := Prefill | Decode.
#[export] Instance ExecutionMode_eq_dec : EqDecision ExecutionMode.
Proof. solve_decision. Defined.

Record ArchitectureExport := {
  ae_name : string;
  ae_mode : ExecutionMode;
  ae_inputs : list string;
  ae_outputs : list string;
}.

Record ArchitectureGraph := {
  ag_version : Z;
  ag_architecture_id : string;
  ag_values : list GraphValue;
  ag_operations : list ArchitectureOperation;
  ag_parameter_slots : list ParameterSlot;
  ag_exports : list ArchitectureExport;
}.

Record PrecisionPolicy :=
  { pp_id : string; pp_version : Z; pp_sensitive_internal_type : ScalarType }.
Definition conservative_sensitive_ops : PrecisionPolicy :=
  {| pp_id := "conservative_sensitive_ops"; pp_version := 1; pp_sensitive_internal_type := F32 |}.

Record SpecializedExecutionShape := {
  xs_mode : ExecutionMode;
  xs_batch_size : Z;
  xs_sequence_length : Z;
  xs_max_kv_length : Z;
}.

Record SelectedKernel := {
  sk_operation_id : string;
  sk_mode : ExecutionMode;
  sk_kernel_id : string;
  sk_lowering_id : string;
  sk_parameter_slots : list string;
  sk_input_type : ScalarType;
  sk_output_type : ScalarType;
  sk_activation_type : ScalarType;
  sk_accumulator_type : ScalarType;
}.
