(* ===== verification/KernelRegistry.v ===== *)
(** * Kernel candidates: crates/dyninfer-kernel-registry/src/lib.rs

    The candidate descriptors, the reasons to reject one for a request, the
    registry, and the deterministic selection of a kernel. *)
From S2P Require Import Prelude Errors CoreTypes Target Ir.
From Stdlib Require Import ZArith Lia Ascii String Sorted.
From stdpp Require Import base list strings gmap.
From stdpp Require Import options.

Local Open Scope Z_scope.

(** * Data *)

Inductive KernelOperationKind : Set :=
  | KInput | KEmbedding | KLinear | KRmsNorm | KPerHeadRmsNorm | KRope
  | KKvCacheWrite | KKvCacheRead | KAttention | KShortConv | KSilu | KMultiply
  | KResidual | KOutputProjection.
#[export] Instance KernelOperationKind_eq_dec : EqDecision KernelOperationKind.
Proof. solve_decision. Defined.

Definition from_semantic (operation : OperationKind) : KernelOperationKind :=
  match operation with
  | OpInput _ => KInput
  | OpEmbedding => KEmbedding
  | OpLinear _ => KLinear
  | OpRmsNorm _ => KRmsNorm
  | OpPerHeadRmsNorm _ _ _ => KPerHeadRmsNorm
  | OpRope _ _ _ => KRope
  | OpKvCacheWrite _ _ => KKvCacheWrite
  | OpKvCacheRead _ _ => KKvCacheRead
  | OpAttention _ _ _ _ => KAttention
  | OpShortConv _ _ _ => KShortConv
  | OpElementwise Silu => KSilu
  | OpElementwise Multiply => KMultiply
  | OpResidual => KResidual
  | OpOutputProjection => KOutputProjection
  end.

Definition is_precision_sensitive (k : KernelOperationKind) : bool :=
  match k with
  | KRmsNorm | KPerHeadRmsNorm | KRope | KAttention => true
  | _ => false
  end.

Record EncodingKey := { ek_id : string; ek_version : Z }.
#[export] Instance EncodingKey_eq_dec : EqDecision EncodingKey.
Proof. solve_decision. Defined.

Inductive ParameterOrientation : Set := NativeOrientation | LogicalTransposeOrientation.
#[export] Instance ParameterOrientation_eq_dec : EqDecision ParameterOrientation.
Proof. solve_decision. Defined.

Record AxisMultiple := { am_axis : nat; am_multiple_of : Z }.
Record ShapeConstraint :=
  { sc_logical_rank : option Z; sc_axis_multiples : list AxisMultiple }.
Definition ShapeConstraint_default : ShapeConstraint :=
  {| sc_logical_rank := None; sc_axis_multiples := [] |}.

Record TargetConstraint := {
  tc_backends : list string;
  tc_exact_architectures : list string;
  tc_required_features : list string;
}.
Definition TargetConstraint_any : TargetConstraint :=
  {| tc_backends := ["any"]; tc_exact_architectures := []; tc_required_features := [] |}.

Inductive ProductionReadiness : Set := Prototype | Production.
#[export] Instance ProductionReadiness_eq_dec : EqDecision ProductionReadiness.
Proof. solve_decision. Defined.

Record KernelCandidateDescriptor := {
  kc_id : string;
  kc_operation : KernelOperationKind;
  kc_encoding : option EncodingKey;
  kc_input_types : list ScalarType;
  kc_output_types : list ScalarType;
  kc_accumulator_types : list ScalarType;
  kc_shape : ShapeConstraint;
  kc_orientations : list ParameterOrientation;
  kc_target : TargetConstraint;
  kc_modes : list ExecutionMode;
  kc_lowering : string;
  kc_deterministic_score : Z;
  kc_readiness : ProductionReadiness;
  kc_notes : text;
}.

Record KernelRequest := {
  kr_operation_id : string;
  kr_operation : KernelOperationKind;
  kr_encoding : option EncodingKey;
  kr_logical_shape : option Shape;
  kr_orientation : ParameterOrientation;
  kr_mode : ExecutionMode;
  kr_precision_policy : PrecisionPolicy;
  kr_parameter_slots : list string;
  kr_checkpoint_component_keys : list string;
}.

Inductive CandidateRejectionReason : Type :=
  | EncodingMismatch
  | NotProductionReady
  | ModeMismatch
  | BackendMismatch (selected : string)
  | ArchitectureUnsupported (selected : option string)
  | MissingTargetFeature (feature : string)
  | RankMismatch (expected actual : Z)
  | AxisNotDivisible (axis : nat) (dimension multiple_of : Z)
  | OrientationMismatch
  | PrecisionFloor (required : ScalarType) (supported : list ScalarType)
  | MissingTypeChoice.

Record CandidateRejection :=
  { rej_candidate_id : string; rej_reasons : list CandidateRejectionReason }.

Record SelectedKernelCandidate := {
  sc_descriptor : KernelCandidateDescriptor;
  sc_input_type : ScalarType;
  sc_output_type : ScalarType;
  sc_activation_type : ScalarType;
  sc_accumulator_type : ScalarType;
  sc_score : Z;
}.

Definition to_manifest_record (s : SelectedKernelCandidate) (request : KernelRequest)
    : SelectedKernel :=
  {| sk_operation_id := kr_operation_id request; sk_mode := kr_mode request;
     sk_kernel_id := kc_id (sc_descriptor s); sk_lowering_id := kc_lowering (sc_descriptor s);
     sk_parameter_slots := kr_parameter_slots request; sk_input_type := sc_input_type s;
     sk_output_type := sc_output_type s; sk_activation_type := sc_activation_type s;
     sk_accumulator_type := sc_accumulator_type s |}.

Record SelectionReport := {
  sr_selected : option SelectedKernelCandidate;
  sr_rejected : list CandidateRejection;
}.

(** The trait [KernelCostModel]: its one method. *)
Class KernelCostModel :=
  cost_score : KernelCandidateDescriptor -> KernelRequest -> TargetProfile -> Result Z.

Definition wrap_i64 (n : Z) : Z := signed 64 (wrap64 n).

Definition deterministic_cost : KernelCostModel := fun candidate _ target =>
  let exact_backend_bonus :=
    if existsb (String.eqb (tp_driver target)) (tc_backends (kc_target candidate))
    then 1000 else 0 in
  Ok (wrap_i64 (kc_deterministic_score candidate + exact_backend_bonus)).

(** * Rejection reasons *)

Definition when {A} (b : bool) (a : A) : list A := if b then [a] else [].

Definition target_reasons (candidate : KernelCandidateDescriptor) (target : TargetProfile)
    : list CandidateRejectionReason :=
  let c := kc_target candidate in
  when (negb (existsb (fun b => String.eqb b "any" || String.eqb b (tp_driver target))
                (tc_backends c)))
    (BackendMismatch (tp_driver target)) ++
  when (negb (bool_decide (tc_exact_architectures c = [])) &&
        negb (match tp_architecture target with
              | Some a => bool_decide (a ∈ tc_exact_architectures c)
              | None => false
              end))
    (ArchitectureUnsupported (tp_architecture target)) ++
  flat_map (fun feature =>
    when (negb (bool_decide (feature ∈ (list_to_set (tp_features target) : gset string))))
      (MissingTargetFeature feature)) (tc_required_features c).

Definition shape_reasons (candidate : KernelCandidateDescriptor) (request : KernelRequest)
    : list CandidateRejectionReason :=
  match kr_logical_shape request with
  | None => []
  | Some shape =>
      match sc_logical_rank (kc_shape candidate) with
      | Some expected => when (negb (rank shape =? expected)) (RankMismatch expected (rank shape))
      | None => []
      end ++
      flat_map (fun constraint =>
        match shape !! am_axis constraint with
        | Some dimension =>
            when ((am_multiple_of constraint =? 0) ||
                  negb (is_multiple_of dimension (am_multiple_of constraint)))
              (AxisNotDivisible (am_axis constraint) dimension (am_multiple_of constraint))
        | None => []
        end) (sc_axis_multiples (kc_shape candidate))
  end.

Definition is_nil {A} (l : list A) : bool := match l with [] => true | _ => false end.

Definition type_reasons (candidate : KernelCandidateDescriptor) (request : KernelRequest)
    : list CandidateRejectionReason :=
  let required := pp_sensitive_internal_type (kr_precision_policy request) in
  if is_nil (kc_input_types candidate) || is_nil (kc_output_types candidate)
     || is_nil (kc_accumulator_types candidate) then [MissingTypeChoice]
  else when (is_precision_sensitive (kr_operation request) &&
             negb (bool_decide (required ∈ kc_accumulator_types candidate)))
         (PrecisionFloor required (kc_accumulator_types candidate)).

Definition rejection_reasons (candidate : KernelCandidateDescriptor) (request : KernelRequest)
    (target : TargetProfile) : list CandidateRejectionReason :=
  when (negb (bool_decide (kc_encoding candidate = kr_encoding request))) EncodingMismatch ++
  when (negb (bool_decide (kc_readiness candidate = Production))) NotProductionReady ++
  when (negb (bool_decide (kr_mode request ∈ kc_modes candidate))) ModeMismatch ++
  target_reasons candidate target ++
  shape_reasons candidate request ++
  when (negb (is_nil (kc_orientations candidate)) &&
        negb (bool_decide (kr_orientation request ∈ kc_orientations candidate)))
    OrientationMismatch ++
  type_reasons candidate request.

(** * The registry *)

Abbreviation KernelRegistry := (list KernelCandidateDescriptor) (only parsing).

Definition register_kernel (candidate : KernelCandidateDescriptor) (registry : KernelRegistry)
    : Result KernelRegistry :=
  if existsb (fun existing => String.eqb (kc_id existing) (kc_id candidate)) registry then
    Err (internal (Format "duplicate kernel candidate `{}`" [AStr (kc_id candidate)]))
  else Ok (registry ++ [candidate]).

(** [l[0]] *)
Definition first {A} (l : list A) : Result A :=
  match l with a :: _ => Ok a | [] => Panic "index out of bounds" end.

Section Select.
Context {cost : KernelCostModel}.

Definition accept (candidate : KernelCandidateDescriptor) (request : KernelRequest)
    (target : TargetProfile) : Result SelectedKernelCandidate :=
  accumulator_type ←
    (if is_precision_sensitive (kr_operation request)
     then Ok (pp_sensitive_internal_type (kr_precision_policy request))
     else first (kc_accumulator_types candidate));
  input_type ← first (kc_input_types candidate);
  output_type ← first (kc_output_types candidate);
  score ← cost_score candidate request target;
  Ok {| sc_descriptor := candidate; sc_input_type := input_type; sc_output_type := output_type;
        sc_activation_type := input_type; sc_accumulator_type := accumulator_type;
        sc_score := score |}.

(** The loop over the candidates of the operation. *)
Fixpoint classify (candidates : list KernelCandidateDescriptor) (request : KernelRequest)
    (target : TargetProfile) : Result (list SelectedKernelCandidate * list CandidateRejection) :=
  match candidates with
  | [] => Ok ([], [])
  | candidate :: candidates =>
      let reasons := rejection_reasons candidate request target in
      if is_nil reasons then
        s ← accept candidate request target;
        '(accepted, rejected) ← classify candidates request target;
        Ok (s :: accepted, rejected)
      else
        '(accepted, rejected) ← classify candidates request target;
        Ok (accepted, {| rej_candidate_id := kc_id candidate; rej_reasons := reasons |} :: rejected)
  end.

(** [right.score.cmp(&left.score).then_with(|| left.id.cmp(&right.id))] *)
Definition better (a b : SelectedKernelCandidate) : bool :=
  match Z.compare (sc_score b) (sc_score a) with
  | Lt => true
  | Gt => false
  | Eq => string_leb (kc_id (sc_descriptor a)) (kc_id (sc_descriptor b))
  end.

Definition for_operation (registry : KernelRegistry) (request : KernelRequest)
    : list KernelCandidateDescriptor :=
  List.filter (fun c => bool_decide (kc_operation c = kr_operation request)) registry.

Definition select (registry : KernelRegistry) (request : KernelRequest) (target : TargetProfile)
    : Result SelectionReport :=
  '(accepted, rejected) ← classify (for_operation registry request) request target;
  Ok {| sr_selected := head (stable_sort better accepted); sr_rejected := rejected |}.

(** [{:?}] of the data in the diagnostic. *)
Definition debug_list {A} (show : A -> text) (l : list A) : text :=
  Format "[{}]" (map (fun a => AText (show a)) l).

Definition debug_operation (k : KernelOperationKind) : string :=
  match k with
  | KInput => "Input" | KEmbedding => "Embedding" | KLinear => "Linear" | KRmsNorm => "RmsNorm"
  | KPerHeadRmsNorm => "PerHeadRmsNorm" | KRope => "Rope" | KKvCacheWrite => "KvCacheWrite"
  | KKvCacheRead => "KvCacheRead" | KAttention => "Attention" | KShortConv => "ShortConv"
  | KSilu => "Silu" | KMultiply => "Multiply" | KResidual => "Residual"
  | KOutputProjection => "OutputProjection"
  end.

Definition debug_mode (m : ExecutionMode) : string :=
  match m with Prefill => "Prefill" | Decode => "Decode" end.

Definition debug_reason (r : CandidateRejectionReason) : text :=
  match r with
  | EncodingMismatch => lit "EncodingMismatch"
  | NotProductionReady => lit "NotProductionReady"
  | ModeMismatch => lit "ModeMismatch"
  | BackendMismatch s => Format "BackendMismatch { selected: {:?} }" [AStr s]
  | ArchitectureUnsupported s =>
      Format "ArchitectureMismatch { selected: {:?} }" [debug_option AStr s]
  | MissingTargetFeature f => Format "MissingTargetFeature { feature: {:?} }" [AStr f]
  | RankMismatch e a => Format "RankMismatch { expected: {:?}, actual: {:?} }" [AInt e; AInt a]
  | AxisNotDivisible x d m =>
      Format "AxisNotDivisible { axis: {:?}, dimension: {:?}, multiple_of: {:?} }"
        [AInt (Z.of_nat x); AInt d; AInt m]
  | OrientationMismatch => lit "OrientationMismatch"
  | PrecisionFloor q s =>
      Format "PrecisionFloor { required: {:?}, supported: {:?} }"
        [AStr (ScalarType_debug q); AStrs (map ScalarType_debug s)]
  | MissingTypeChoice => lit "MissingTypeChoice"
  end.

Definition debug_rejection (r : CandidateRejection) : text :=
  Format "{}: {:?}" [AStr (rej_candidate_id r); AText (debug_list debug_reason (rej_reasons r))].

Definition encoding_text (request : KernelRequest) : text :=
  match kr_encoding request with
  | Some e => Format "{}@{}" [AStr (ek_id e); AInt (ek_version e)]
  | None => lit "none"
  end.

Definition coverage_message (request : KernelRequest) : text :=
  Format "no production kernel for {:?} with encoding {encoding} in {:?} mode"
    [AStr (debug_operation (kr_operation request)); AText (encoding_text request);
     AStr (debug_mode (kr_mode request))].

Definition debug_target (target : TargetProfile) : list format_arg :=
  [AStr (tp_driver target); debug_option AStr (tp_architecture target);
   debug_option AStr (tp_triple target); AStrs (tp_features target)].

Definition require (registry : KernelRegistry) (request : KernelRequest) (target : TargetProfile)
    : Result SelectedKernelCandidate :=
  report ← select registry request target;
  match sr_selected report with
  | Some selected => Ok selected
  | None =>
      let message := coverage_message request in
      Err (Compilation {| ce_message := message; ce_pass := Some "kernel.coverage";
        ce_diagnostics :=
          [{| diag_code := "E_KERNEL_COVERAGE"; diag_severity := SevError;
              diag_message := message;
              diag_architecture_op := Some (kr_operation_id request);
              diag_parameter_slot := head (kr_parameter_slots request);
              diag_checkpoint_key := head (kr_checkpoint_component_keys request);
              diag_expected := None;
              diag_actual := Some (Format "target={} architecture={:?} triple={:?} features={:?}"
                                     (debug_target target));
              diag_pass_name := Some "kernel.coverage";
              diag_suggestion := Some (Format
                "implement and qualify a {:?}/{encoding} kernel for this target; rejected candidates: {}"
                [AStr (debug_operation (kr_operation request)); AText (encoding_text request);
                 AText (match sr_rejected report with
                        | [] => lit "none registered"
                        | rejected =>
                            Format "{}; ..." (map (fun r => AText (debug_rejection r)) rejected)
                        end)]) |}] |})
  end.

End Select.

(** * register_builtin_semantic_candidates *)

Definition builtin_candidate (operation : KernelOperationKind) (id lowering : string)
    (scalar : ScalarType) (score : Z) (notes : string) : KernelCandidateDescriptor :=
  {| kc_id := id; kc_operation := operation; kc_encoding := None; kc_input_types := [scalar];
     kc_output_types := [scalar]; kc_accumulator_types := [scalar];
     kc_shape := ShapeConstraint_default; kc_orientations := [NativeOrientation];
     kc_target := TargetConstraint_any; kc_modes := [Prefill; Decode]; kc_lowering := lowering;
     kc_deterministic_score := score; kc_readiness := Production; kc_notes := lit notes |}.

Definition builtin_candidates : list KernelCandidateDescriptor :=
  map (fun '(operation, id, lowering, scalar, score) =>
    builtin_candidate operation id lowering scalar score
      "Architecture-independent generated lowering")
    [(KInput, "model.input.abi", "model.input.abi", I64, 100);
     (KRope, "rope.generated.f32", "rope.generated", F32, 100);
     (KKvCacheWrite, "kv_cache.write.generated", "kv_cache.write.generated", F32, 100);
     (KKvCacheRead, "kv_cache.read.generated", "kv_cache.read.generated", F32, 100);
     (KAttention, "attention.gqa.generated.f32", "attention.gqa.generated", F32, 100);
     (KSilu, "elementwise.silu.generated.f32", "elementwise.silu.generated", F32, 100);
     (KMultiply, "elementwise.multiply.generated.f32", "elementwise.multiply.generated", F32, 100);
     (KResidual, "residual.add.generated.f32", "residual.add.generated", F32, 100)] ++
  [builtin_candidate KAttention "attention.online_paged.generated.f32"
     "attention.online_paged.generated" F32 90 "Runtime-paged online-softmax attention"].

Definition register_kernels (candidates : list KernelCandidateDescriptor)
    (registry : KernelRegistry) : Result KernelRegistry :=
  try_fold (fun registry candidate => register_kernel candidate registry) registry candidates.

Definition register_builtin_semantic_candidates (registry : KernelRegistry)
    : Result KernelRegistry :=
  register_kernels builtin_candidates registry.

(** * Properties *)

(** What a candidate must satisfy to be used for a request on a target. *)
Record acceptable (c : KernelCandidateDescriptor) (request : KernelRequest)
    (target : TargetProfile) : Prop := {
  acc_encoding : kc_encoding c = kr_encoding request;
  acc_production : kc_readiness c = Production;
  acc_mode : kr_mode request ∈ kc_modes c;
  acc_backend : exists b, b ∈ tc_backends (kc_target c) /\ (b = "any" \/ b = tp_driver target);
  acc_architecture : tc_exact_architectures (kc_target c) = [] \/
    exists a, tp_architecture target = Some a /\ a ∈ tc_exact_architectures (kc_target c);
  acc_features : forall f, f ∈ tc_required_features (kc_target c) -> f ∈ tp_features target;
  acc_rank : forall shape r, kr_logical_shape request = Some shape ->
    sc_logical_rank (kc_shape c) = Some r -> rank shape = r;
  acc_axes : forall shape m d, kr_logical_shape request = Some shape ->
    m ∈ sc_axis_multiples (kc_shape c) -> shape !! am_axis m = Some d ->
    am_multiple_of m <> 0 /\ is_multiple_of d (am_multiple_of m) = true;
  acc_orientation : kc_orientations c = [] \/ kr_orientation request ∈ kc_orientations c;
  acc_types : kc_input_types c <> [] /\ kc_output_types c <> [] /\ kc_accumulator_types c <> [];
  acc_precision : is_precision_sensitive (kr_operation request) = true ->
    pp_sensitive_internal_type (kr_precision_policy request) ∈ kc_accumulator_types c;
}.

Lemma app_nil_iff {A} (l k : list A) : l ++ k = [] <-> l = [] /\ k = [].
Proof. split; [apply app_eq_nil|by intros [-> ->]]. Qed.

Lemma when_nil {A} b (a : A) : when b a = [] <-> b = false.
Proof. by destruct b. Qed.

Lemma flat_map_nil {A B} (f : A -> list B) l : flat_map f l = [] <-> forall a, a ∈ l -> f a = [].
Proof.
  induction l as [|a l IH]; cbn; [by split; [intros _ a ?%elem_of_nil|]|].
  rewrite app_nil_iff, IH. split.
  - intros [H1 H2] b [->|Hb]%elem_of_cons; auto.
  - intros H. split; [apply H; by left|]. intros b Hb. apply H. by right.
Qed.

Lemma is_nil_true {A} (l : list A) : is_nil l = true <-> l = [].
Proof. by destruct l. Qed.

Lemma is_nil_false {A} (l : list A) : is_nil l = false <-> l <> [].
Proof. by destruct l. Qed.

Lemma target_reasons_nil c target :
  target_reasons c target = [] <->
  (exists b, b ∈ tc_backends (kc_target c) /\ (b = "any" \/ b = tp_driver target)) /\
  (tc_exact_architectures (kc_target c) = [] \/
   exists a, tp_architecture target = Some a /\ a ∈ tc_exact_architectures (kc_target c)) /\
  (forall f, f ∈ tc_required_features (kc_target c) -> f ∈ tp_features target).
Proof.
  unfold target_reasons. rewrite !app_nil_iff, !when_nil, flat_map_nil.
  rewrite negb_false_iff, existsb_exists, andb_false_iff, !negb_false_iff, bool_decide_eq_true.
  split; intros (H1 & H2 & H3); (split; [|split]).
  - destruct H1 as (b & Hb%list_elem_of_In & Hd). exists b. split; [done|].
    apply orb_prop in Hd as [Hd|Hd]; apply String.eqb_eq in Hd; auto.
  - destruct H2 as [H2|H2]; [by left|right]. destruct (tp_architecture target) as [a|]; [|done].
    exists a. split; [done|by apply bool_decide_eq_true in H2].
  - intros f Hf. specialize (H3 f Hf). apply when_nil, negb_false_iff, bool_decide_eq_true in H3.
    by apply elem_of_list_to_set in H3.
  - destruct H1 as (b & Hb & Hd). exists b. split; [by apply list_elem_of_In|].
    apply orb_true_iff. rewrite !String.eqb_eq. done.
  - destruct H2 as [H2|(a & -> & Ha)]; [by left|right]. by apply bool_decide_eq_true.
  - intros f Hf. apply when_nil, negb_false_iff, bool_decide_eq_true, elem_of_list_to_set. auto.
Qed.

Lemma shape_reasons_nil c request :
  shape_reasons c request = [] <->
  (forall shape r, kr_logical_shape request = Some shape ->
     sc_logical_rank (kc_shape c) = Some r -> rank shape = r) /\
  (forall shape m d, kr_logical_shape request = Some shape ->
     m ∈ sc_axis_multiples (kc_shape c) -> shape !! am_axis m = Some d ->
     am_multiple_of m <> 0 /\ is_multiple_of d (am_multiple_of m) = true).
Proof.
  unfold shape_reasons. destruct (kr_logical_shape request) as [shape|]; [|naive_solver].
  rewrite app_nil_iff, flat_map_nil. split; intros [H1 H2]; split.
  - intros s r [= <-] Hr. rewrite Hr in H1. apply when_nil, negb_false_iff, Z.eqb_eq in H1. done.
  - intros s m d [= <-] Hm Hd. specialize (H2 m Hm). rewrite Hd in H2.
    apply when_nil, orb_false_iff in H2 as [Hz Hn]. apply Z.eqb_neq in Hz.
    by apply negb_false_iff in Hn.
  - destruct (sc_logical_rank _) as [r|]; [|done].
    apply when_nil, negb_false_iff, Z.eqb_eq. by apply H1.
  - intros m Hm. destruct (shape !! am_axis m) as [d|] eqn:Ed; [|done].
    destruct (H2 shape m d eq_refl Hm Ed) as [Hz ->]. apply when_nil.
    by apply orb_false_iff; rewrite Z.eqb_neq.
Qed.

Lemma type_reasons_nil c request :
  type_reasons c request = [] <->
  (kc_input_types c <> [] /\ kc_output_types c <> [] /\ kc_accumulator_types c <> []) /\
  (is_precision_sensitive (kr_operation request) = true ->
   pp_sensitive_internal_type (kr_precision_policy request) ∈ kc_accumulator_types c).
Proof.
  unfold type_reasons. destruct (_ || _ || _) eqn:E.
  - split; [done|]. intros [(H1 & H2 & H3) _].
    apply is_nil_false in H1, H2, H3. by rewrite H1, H2, H3 in E.
  - apply orb_false_iff in E as [E H3]. apply orb_false_iff in E as [H1 H2].
    apply is_nil_false in H1, H2, H3. rewrite when_nil, andb_false_iff, negb_false_iff.
    rewrite bool_decide_eq_true. destruct (is_precision_sensitive _); intuition congruence.
Qed.

Lemma rejection_reasons_nil c request target :
  rejection_reasons c request target = [] <-> acceptable c request target.
Proof.
  unfold rejection_reasons. rewrite !app_nil_iff, !when_nil, !negb_false_iff, !bool_decide_eq_true.
  rewrite target_reasons_nil, shape_reasons_nil, type_reasons_nil.
  rewrite andb_false_iff, !negb_false_iff, is_nil_true, bool_decide_eq_true.
  split.
  - intros (?&?&?&(?&?&?)&(?&?)&?&?&?). by constructor.
  - intros [??? ??? ?? ? (?&?&?) ?]. by split_and!.
Qed.

Instance acceptable_dec c request target : Decision (acceptable c request target).
Proof.
  refine (cast_if (decide (is_nil (rejection_reasons c request target) = true)));
    rewrite is_nil_true, rejection_reasons_nil in *; done.
Defined.

(** The candidate a selection is made of, for the deterministic cost model. *)
Definition candidate_score (c : KernelCandidateDescriptor) (target : TargetProfile) : Z :=
  wrap_i64 (kc_deterministic_score c +
    if existsb (String.eqb (tp_driver target)) (tc_backends (kc_target c)) then 1000 else 0).

(** [c] is the candidate to use: acceptable, and no acceptable one has a
    greater score or the same score and a smaller id. *)
Definition chosen (candidates : list KernelCandidateDescriptor) (request : KernelRequest)
    (target : TargetProfile) (c : KernelCandidateDescriptor) : Prop :=
  c ∈ candidates /\ acceptable c request target /\
  forall c', c' ∈ candidates -> acceptable c' request target ->
    candidate_score c' target < candidate_score c target \/
    candidate_score c' target = candidate_score c target /\ string_leb (kc_id c) (kc_id c') = true.

(** The element types a selected kernel computes with. *)
Definition types_of (s : SelectedKernelCandidate) (request : KernelRequest) : Prop :=
  head (kc_input_types (sc_descriptor s)) = Some (sc_input_type s) /\
  head (kc_output_types (sc_descriptor s)) = Some (sc_output_type s) /\
  sc_activation_type s = sc_input_type s /\
  if is_precision_sensitive (kr_operation request)
  then sc_accumulator_type s = pp_sensitive_internal_type (kr_precision_policy request) /\
       sc_accumulator_type s ∈ kc_accumulator_types (sc_descriptor s)
  else head (kc_accumulator_types (sc_descriptor s)) = Some (sc_accumulator_type s).

Lemma accept_acceptable c request target :
  acceptable c request target ->
  exists s, accept (cost := deterministic_cost) c request target = Ok s /\ sc_descriptor s = c /\
    sc_score s = candidate_score c target /\ types_of s request.
Proof.
  intros [_ _ _ _ _ _ _ _ _ (Hi & Ho & Ha) Hp]. unfold accept, types_of.
  destruct (kc_input_types c) as [|i il] eqn:Ei; [done|].
  destruct (kc_output_types c) as [|o os] eqn:Eo; [done|].
  destruct (is_precision_sensitive (kr_operation request)) eqn:E; cbn.
  - eexists. split; [reflexivity|]. cbn. rewrite Ei, Eo. split_and!; auto.
  - destruct (kc_accumulator_types c) as [|a al] eqn:Ea; [done|]. cbn.
    eexists. split; [reflexivity|]. cbn. by rewrite Ei, Eo, Ea.
Qed.

(** The loop classifies every candidate, accepts the acceptable ones in order
    and does not fail. *)
Lemma classify_spec candidates request target :
  exists accepted rejected,
    classify (cost := deterministic_cost) candidates request target = Ok (accepted, rejected) /\
    sc_descriptor <$> accepted = base.filter (fun c => acceptable c request target) candidates /\
    Forall (fun s => sc_score s = candidate_score (sc_descriptor s) target /\ types_of s request)
      accepted /\
    (fun r => (rej_candidate_id r, rej_reasons r)) <$> rejected =
    (fun c => (kc_id c, rejection_reasons c request target)) <$>
      base.filter (fun c => ~ acceptable c request target) candidates.
Proof.
  induction candidates as [|c cs (acc & rej & Hc & Ha & Hs & Hr)].
  { exists [], []. by repeat split. }
  cbn [classify]. destruct (is_nil (rejection_reasons c request target)) eqn:E.
  - apply is_nil_true, rejection_reasons_nil in E as Hacc.
    destruct (accept_acceptable c request target Hacc) as (s & -> & Hd & Hsc & Ht).
    cbn. rewrite Hc. cbn. exists (s :: acc), rej. split; [done|].
    rewrite (decide_True (P := acceptable c request target)) by done.
    rewrite (decide_False (P := ~ acceptable c request target)) by (intros Hn; by apply Hn).
    cbn. rewrite Hd, Ha. split; [done|]. split; [|done]. constructor; [|done].
    by rewrite Hd.
  - assert (Hacc : ~ acceptable c request target).
    { rewrite <-rejection_reasons_nil, <-is_nil_true, E. done. }
    rewrite Hc. cbn. eexists acc, _. split; [reflexivity|].
    rewrite (decide_False (P := acceptable c request target)) by done.
    rewrite (decide_True (P := ~ acceptable c request target)) by done.
    cbn. by rewrite Hr.
Qed.

Lemma better_total a b : better a b = true \/ better b a = true.
Proof.
  unfold better. rewrite (Z.compare_antisym (sc_score b) (sc_score a)).
  destruct (Z.compare_spec (sc_score b) (sc_score a)); unfold CompOpp; auto.
  apply string_leb_total.
Qed.

Lemma better_trans a b c : better a b = true -> better b c = true -> better a c = true.
Proof.
  unfold better.
  destruct (Z.compare_spec (sc_score b) (sc_score a));
    destruct (Z.compare_spec (sc_score c) (sc_score b));
    destruct (Z.compare_spec (sc_score c) (sc_score a)); try (by intros); try lia.
  apply string_leb_trans.
Qed.

Lemma better_spec a b :
  better a b = true <->
  sc_score b < sc_score a \/
  sc_score b = sc_score a /\ string_leb (kc_id (sc_descriptor a)) (kc_id (sc_descriptor b)) = true.
Proof.
  unfold better. destruct (Z.compare_spec (sc_score b) (sc_score a)); intuition lia.
Qed.

(** What a selection returns, in terms of the candidates of the operation. *)
Definition selection (registry : KernelRegistry) (request : KernelRequest) (target : TargetProfile)
    (report : SelectionReport) : Prop :=
  let candidates := for_operation registry request in
  match sr_selected report with
  | Some s => chosen candidates request target (sc_descriptor s) /\ types_of s request /\
              sc_score s = candidate_score (sc_descriptor s) target
  | None => forall c, c ∈ candidates -> ~ acceptable c request target
  end /\
  (fun r => (rej_candidate_id r, rej_reasons r)) <$> sr_rejected report =
  (fun c => (kc_id c, rejection_reasons c request target)) <$>
    base.filter (fun c => ~ acceptable c request target) candidates.

Lemma select_selection registry request target :
  exists report, select (cost := deterministic_cost) registry request target = Ok report /\
    selection registry request target report.
Proof.
  unfold select, selection. set (cs := for_operation registry request).
  destruct (classify_spec cs request target) as (acc & rej & -> & Ha & Hs & Hr).
  cbn. eexists. split; [reflexivity|]. split; [|exact Hr]. cbn.
  assert (Hin : forall c, c ∈ cs -> acceptable c request target -> exists s, s ∈ acc /\ sc_descriptor s = c).
  { intros c Hc Hacc. assert (Hf : c ∈ sc_descriptor <$> acc).
    { rewrite Ha. by apply list_elem_of_filter. }
    apply list_elem_of_fmap in Hf as (s & -> & Hf). eauto. }
  destruct (stable_sort better acc) as [|s rest] eqn:E; cbn.
  - intros c Hc Hacc. destruct (Hin c Hc Hacc) as (s & Hs' & _).
    rewrite <-(stable_sort_perm better acc), E in Hs'. by apply elem_of_nil in Hs'.
  - apply stable_sort_head in E as [Hsin Hbest]; [|apply better_total|apply better_trans].
    rewrite Forall_forall in Hbest, Hs. destruct (Hs s Hsin) as [Hsc Ht]. split; [|done].
    assert (Hf : sc_descriptor s ∈ base.filter (fun c => acceptable c request target) cs)
      by (rewrite <-Ha; by apply list_elem_of_fmap_2).
    apply list_elem_of_filter in Hf as [Hacc Hc]. split; [done|]. split; [done|].
    intros c' Hc' Hacc'. destruct (Hin c' Hc' Hacc') as (s' & Hs' & <-).
    rewrite <-Hsc, <-(proj1 (Hs s' Hs')). apply better_spec. by apply Hbest.
Qed.

(** ** Registration keeps the ids distinct *)

Lemma register_kernel_ids registry c registry' :
  register_kernel c registry = Ok registry' -> NoDup (kc_id <$> registry) ->
  registry' = registry ++ [c] /\ NoDup (kc_id <$> registry').
Proof.
  unfold register_kernel. destruct (existsb _ _) eqn:E; [done|]. intros [= <-] Hnd.
  split; [done|]. rewrite fmap_app. apply NoDup_app. split; [done|]. split; [|apply NoDup_singleton].
  intros x Hx Hc. cbn in Hc. apply list_elem_of_singleton in Hc as ->.
  apply list_elem_of_fmap in Hx as (d & Hd & Hin).
  assert (Ht : existsb (fun existing => String.eqb (kc_id existing) (kc_id c)) registry = true); [|congruence].
  apply existsb_exists. exists d. split; [by apply list_elem_of_In|]. by apply String.eqb_eq.
Qed.

Lemma register_kernels_ids candidates registry registry' :
  register_kernels candidates registry = Ok registry' -> NoDup (kc_id <$> registry) ->
  registry' = registry ++ candidates /\ NoDup (kc_id <$> registry').
Proof.
  unfold register_kernels. revert registry. induction candidates as [|c cs IH]; intros registry; cbn.
  { intros [= <-]. by rewrite app_nil_r. }
  intros (r & Hr & H)%bind_Ok Hnd. apply register_kernel_ids in Hr as [-> Hnd']; [|done].
  destruct (IH _ H Hnd') as [-> ?]. split; [by rewrite <-app_assoc|done].
Qed.

Lemma chosen_unique candidates request target c c' :
  NoDup (kc_id <$> candidates) ->
  chosen candidates request target c -> chosen candidates request target c' -> c = c'.
Proof.
  intros Hnd (Hc & Hacc & Hbest) (Hc' & Hacc' & Hbest').
  assert (Hid : kc_id c = kc_id c').
  { specialize (Hbest c' Hc' Hacc'). specialize (Hbest' c Hc Hacc).
    destruct Hbest as [?|[? H1]], Hbest' as [?|[? H2]]; try lia.
    by apply string_leb_antisym. }
  apply list_elem_of_lookup in Hc as [i Hi], Hc' as [j Hj].
  assert (i = j) as ->; [|congruence].
  eapply (NoDup_lookup (kc_id <$> candidates)); [done| |].
  - by rewrite list_lookup_fmap, Hi.
  - by rewrite list_lookup_fmap, Hj, Hid.
Qed.

Lemma types_of_eq s s' request target :
  sc_descriptor s = sc_descriptor s' -> types_of s request -> types_of s' request ->
  sc_score s = candidate_score (sc_descriptor s) target ->
  sc_score s' = candidate_score (sc_descriptor s') target -> s = s'.
Proof.
  destruct s as [d i o a acc sc], s' as [d' i' o' a' acc' sc']. unfold types_of. cbn.
  intros <- (Hi & Ho & -> & Ha) (Hi' & Ho' & -> & Ha') -> ->.
  assert (i = i') as <- by congruence. assert (o = o') as <- by congruence.
  destruct (is_precision_sensitive _).
  - destruct Ha as [-> _], Ha' as [-> _]. done.
  - assert (acc = acc') as <- by congruence. done.
Qed.

Lemma for_operation_elem registry request c :
  c ∈ for_operation registry request <-> c ∈ registry /\ kc_operation c = kr_operation request.
Proof.
  unfold for_operation. rewrite !list_elem_of_In, filter_In, bool_decide_eq_true. done.
Qed.

Lemma for_operation_ids registry request :
  NoDup (kc_id <$> registry) -> NoDup (kc_id <$> for_operation registry request).
Proof.
  induction registry as [|c cs IH]; [done|]. rewrite fmap_cons. intros [Hn Hnd]%NoDup_cons.
  cbn [for_operation List.filter]. unfold for_operation in *. cbn [List.filter].
  destruct (bool_decide _); [|auto]. rewrite fmap_cons. constructor; [|auto].
  intros (d & Hd & Hin)%list_elem_of_fmap. apply Hn. rewrite Hd. apply list_elem_of_fmap_2.
  by apply (proj1 (for_operation_elem cs request d) Hin).
Qed.

(** C27: For a registry built by registration, selection always returns a
    report. The selected kernel is acceptable for the request on the target
    and no acceptable candidate of the operation has a greater score, or the
    same score and a smaller id; nothing is selected only when no candidate is
    acceptable; every other candidate of the operation is reported with all
    its reasons. The selected kernel does not depend on the order of
    registration. *)
Theorem select_best_candidate candidates registry request target :
  register_kernels candidates [] = Ok registry ->
  exists report,
    select (cost := deterministic_cost) registry request target = Ok report /\
    selection registry request target report /\
    forall candidates' registry' report', candidates' ≡ₚ candidates ->
      register_kernels candidates' [] = Ok registry' ->
      select (cost := deterministic_cost) registry' request target = Ok report' ->
      sr_selected report' = sr_selected report.
Proof.
  intros Hreg. apply register_kernels_ids in Hreg as [-> Hnd]; [|constructor]. cbn in Hnd.
  destruct (select_selection candidates request target) as (report & Hs & Hsel).
  exists report. split; [exact Hs|]. split; [exact Hsel|].
  intros candidates' registry' report' Hp Hreg' Hs'.
  apply register_kernels_ids in Hreg' as [-> _]; [|constructor].
  destruct (select_selection candidates' request target) as (r & Hr & [Hsel' _]).
  assert (Ok report' = Ok r) as [= ->] by (transitivity (select (cost := deterministic_cost) candidates' request target); done). destruct Hsel as [Hsel _].
  assert (Hin : forall c, c ∈ for_operation candidates' request <-> c ∈ for_operation candidates request).
  { intros c. by rewrite !for_operation_elem, Hp. }
  destruct (sr_selected r) as [s'|], (sr_selected report) as [s|].
  - destruct Hsel as (Hc & Ht & Hsc), Hsel' as (Hc' & Ht' & Hsc'). f_equal.
    eapply types_of_eq; try done.
    apply (chosen_unique (for_operation candidates request) request target); [by apply for_operation_ids| |done].
    destruct Hc' as (? & ? & Hb). split_and!; [by apply Hin|done|]. intros c' ?%Hin. by apply Hb.
  - destruct Hsel' as ((Hc & Hacc & _) & _). destruct (Hsel _ (proj1 (Hin _) Hc) Hacc).
  - destruct Hsel as ((Hc & Hacc & _) & _). destruct (Hsel' _ (proj2 (Hin _) Hc) Hacc).
  - done.
Qed.

Module KernelSample.
Definition cpu_target : TargetProfile :=
  {| tp_driver := "local-task"; tp_device_id := Some 0; tp_triple := Some "x86_64-unknown-linux-gnu";
     tp_architecture := None; tp_features := ["avx2"]; tp_capability_fingerprint := "fp";
     tp_device_uri := None; tp_device_name := None; tp_subgroup_size := None;
     tp_max_workgroup_invocations := None; tp_executable_target_flags := []; tp_verified := true |}.

Definition attention_request : KernelRequest :=
  {| kr_operation_id := "blk.0.attn"; kr_operation := KAttention; kr_encoding := None;
     kr_logical_shape := None; kr_orientation := NativeOrientation; kr_mode := Decode;
     kr_precision_policy := conservative_sensitive_ops; kr_parameter_slots := [];
     kr_checkpoint_component_keys := [] |}.

Example attention_selected :
  (r ← select (cost := deterministic_cost) builtin_candidates attention_request cpu_target;
   Ok (kc_id ∘ sc_descriptor <$> sr_selected r)) = Ok (Some "attention.gqa.generated.f32").
Proof. by_vm. Qed.
End KernelSample.

Lemma select_best_candidate_witness :
  exists report,
    select (cost := deterministic_cost) builtin_candidates KernelSample.attention_request
      KernelSample.cpu_target = Ok report /\
    selection builtin_candidates KernelSample.attention_request KernelSample.cpu_target report.
Proof.
  destruct (select_best_candidate builtin_candidates builtin_candidates
    KernelSample.attention_request KernelSample.cpu_target) as (report & Hs & Hsel & _).
  - by_vm.
  - exists report. exact (conj Hs Hsel).
Defined.
