(* ===== verification/Encodings.v ===== *)
(** * Physical encoding definitions: crates/dyninfer-quantization

    The registered encodings (src/quantizations/*.rs), what each of them
    matches, validates and offers as kernel candidates, and their registry
    (src/lib.rs). The MLIR emission hooks of the trait are in [Codegen]. *)
From S2P Require Import Prelude Errors Serde CoreTypes Target Catalog Ir KernelRegistry.
From Stdlib Require Import ZArith Lia Ascii String.
From stdpp Require Import base list strings gmap pretty.
From stdpp Require Import options.

Local Open Scope Z_scope.

Record ExternalEncodingTag := { et_family : string; et_value : string }.
Record EncodingDefinitionDescriptor :=
  { ed_key : EncodingKey; ed_external_tags : list ExternalEncodingTag }.

(** The trait [QuantizationDefinition]. *)
Record QuantizationDefinition {SJ : SerdeJson} := {
  qd_descriptor : EncodingDefinitionDescriptor;
  qd_matches : PhysicalEncoding -> bool;
  qd_validate : LogicalParameter -> Result unit;
  qd_kernel_candidates : Result (list KernelCandidateDescriptor);
}.

(** The bytes of all ranges of the components, [None] on overflow. *)
Definition total_bytes (ranges : list ByteRange) : option Z :=
  foldl (fun total r => total ← total; checked_add total (br_length r)) (Some 0) ranges.
Definition component_ranges (components : list StorageComponent) : list ByteRange :=
  flat_map sc_byte_ranges components.

Definition both_modes : list ExecutionMode := [Prefill; Decode].

Section Definitions.
Context {SJ : SerdeJson}.
(** The derived [Debug] of an encoding, in error messages only. *)
Context (debug_encoding : PhysicalEncoding -> text).

(** ** quantizations/plain.rs *)

Definition plain_id (storage_type : ScalarType) : string :=
  String.append "plain." (ScalarType_display storage_type).

Definition plain_unsupported (storage_type : ScalarType) (parameter : LogicalParameter)
    (message expected actual : text) : DynInferError :=
  UnsupportedEncoding
    {| ue_message := message; ue_key := Some (lp_canonical_name parameter);
       ue_codec := Some (lit (plain_id storage_type)); ue_codec_version := Some 1;
       ue_expected := Some expected; ue_actual := Some actual |}.

Definition plain_logical_rank (operation : KernelOperationKind) : Z :=
  match operation with
  | KRmsNorm | KPerHeadRmsNorm => 1
  | KShortConv => 3
  | _ => 2
  end.

Definition plain_candidate (storage_type : ScalarType) (operation : KernelOperationKind)
    (suffix lowering : string) : KernelCandidateDescriptor :=
  {| kc_id := String.append "dense." (String.append suffix (String.append "."
                (String.append (ScalarType_display storage_type) ".portable_f32")));
     kc_operation := operation;
     kc_encoding := Some {| ek_id := plain_id storage_type; ek_version := 1 |};
     kc_input_types := [F32]; kc_output_types := [F32]; kc_accumulator_types := [F32];
     kc_shape := {| sc_logical_rank := Some (plain_logical_rank operation);
                    sc_axis_multiples := [] |};
     kc_orientations := [NativeOrientation]; kc_target := TargetConstraint_any;
     kc_modes := both_modes; kc_lowering := lowering; kc_deterministic_score := 100;
     kc_readiness := Production;
     kc_notes := Format
       "Consumes plain {} storage directly and computes conservatively in f32"
       [AStr (ScalarType_display storage_type)] |}.

Definition native_suffix (operation : KernelOperationKind) : Result string :=
  match operation with
  | KEmbedding => Ok "gather"
  | KLinear => Ok "matmul"
  | KRmsNorm => Ok "rms_norm"
  | KPerHeadRmsNorm => Ok "per_head_rms_norm"
  | KOutputProjection => Ok "output_projection"
  | KShortConv => Ok "short_conv"
  | _ => Panic "internal error: entered unreachable code"
  end.

Definition plain_native_candidate (storage_type : ScalarType) (operation : KernelOperationKind)
    : Result (option KernelCandidateDescriptor) :=
  match match storage_type with
        | F16 => Some ("native_f16", F16)
        | Bf16 => Some ("native_bf16", Bf16)
        | _ => None
        end with
  | None => Ok None
  | Some (feature, compute_type) =>
      suffix ← native_suffix operation;
      Ok (Some
        {| kc_id := String.append "dense." (String.append suffix (String.append "."
                      (String.append (ScalarType_display storage_type) ".native")));
           kc_operation := operation;
           kc_encoding := Some {| ek_id := plain_id storage_type; ek_version := 1 |};
           kc_input_types := [compute_type]; kc_output_types := [compute_type];
           kc_accumulator_types := [F32];
           kc_shape := {| sc_logical_rank := Some (plain_logical_rank operation);
                          sc_axis_multiples := [] |};
           kc_orientations := [NativeOrientation];
           kc_target := {| tc_backends := ["any"]; tc_exact_architectures := [];
                           tc_required_features := [feature] |};
           kc_modes := both_modes;
           kc_lowering := String.append "dense." (String.append suffix ".native");
           kc_deterministic_score := 200; kc_readiness := Production;
           kc_notes := Format "Native {} activation path gated by verified target capability"
             [AStr (ScalarType_display storage_type)] |})
  end.

Definition plain_operations : list (KernelOperationKind * string * string) :=
  [(KEmbedding, "gather", "dense.gather.linalg");
   (KLinear, "matmul", "dense.matmul.linalg");
   (KRmsNorm, "rms_norm", "dense.rms_norm.generated");
   (KPerHeadRmsNorm, "per_head_rms_norm", "dense.per_head_rms_norm.generated");
   (KOutputProjection, "output_projection", "dense.matmul.linalg");
   (KShortConv, "short_conv", "short_conv.gated.generated")].

Definition plain_kernel_candidates (storage_type : ScalarType)
    : Result (list KernelCandidateDescriptor) :=
  try_fold (fun candidates '(operation, suffix, lowering) =>
    native ← plain_native_candidate storage_type operation;
    Ok (candidates ++ [plain_candidate storage_type operation suffix lowering] ++
        match native with Some c => [c] | None => [] end)) [] plain_operations.

Definition plain_matches (storage_type : ScalarType) (encoding : PhysicalEncoding) : bool :=
  match encoding with
  | Plain ty _ => bool_decide (ty = storage_type)
  | _ => false
  end.

Definition plain_validate (storage_type : ScalarType) (parameter : LogicalParameter)
    : Result unit :=
  let fail := plain_unsupported storage_type parameter in
  _ ← ensure (plain_matches storage_type (lp_encoding parameter))
    (fail (Format "parameter `{}` does not use {} storage"
             [AStr (lp_canonical_name parameter); AStr (ScalarType_display storage_type)])
          (lit (ScalarType_display storage_type)) (debug_encoding (lp_encoding parameter)));
  _ ← ensure (bool_decide (lt_element_type (lp_logical_type parameter) = storage_type))
    (fail (lit "plain logical and storage scalar types differ")
          (lit (ScalarType_display storage_type))
          (lit (ScalarType_display (lt_element_type (lp_logical_type parameter)))));
  expected ← ok_or (n ← numel (lt_shape (lp_logical_type parameter));
                    size ← size_bytes storage_type; checked_mul n size)
    (internal (lit "plain parameter byte size overflow"));
  actual ← ok_or (total_bytes (component_ranges (lp_components parameter)))
    (internal (lit "plain component byte size overflow"));
  let count := Z.of_nat (length (lp_components parameter)) in
  ensure (negb (negb (count =? 1) || negb (actual =? expected)))
    (fail (lit "plain parameter must have one complete storage component")
          (Format "1 component, {expected} bytes" [AInt expected])
          (Format "{} components, {actual} bytes" [AInt count; AInt actual])).

Definition PlainDefinition (storage_type : ScalarType) : QuantizationDefinition :=
  {| qd_descriptor :=
       {| ed_key := {| ek_id := plain_id storage_type; ek_version := 1 |};
          ed_external_tags :=
            [{| et_family := "scalar"; et_value := ScalarType_display storage_type |}] |};
     qd_matches := plain_matches storage_type;
     qd_validate := plain_validate storage_type;
     qd_kernel_candidates := plain_kernel_candidates storage_type |}.

(** [PlainDefinition::new] asserts the storage type. *)
Definition PlainDefinition_new (storage_type : ScalarType) : Result QuantizationDefinition :=
  if bool_decide (storage_type ∈ [F32; F16; Bf16]) then Ok (PlainDefinition storage_type)
  else Panic "assertion failed".

(** ** quantizations/gguf_codegen.rs *)

Inductive BlockLayout : Set := Q40 | Q41 | Q80 | Q6K.

Definition layout_block_size (l : BlockLayout) : Z :=
  match l with Q40 | Q41 | Q80 => 32 | Q6K => 256 end.

Definition layout_bytes_per_block (l : BlockLayout) : Z :=
  match l with Q40 => 18 | Q41 => 20 | Q80 => 34 | Q6K => 210 end.

(** The targets that consume packed weights directly. *)
Definition packed_targets : list (string * TargetConstraint) :=
  [("cpu", {| tc_backends := ["local-task"; "local-sync"]; tc_exact_architectures := [];
              tc_required_features := ["avx2"] |});
   ("hip", {| tc_backends := ["hip"; "rocm"]; tc_exact_architectures := [];
              tc_required_features := [] |})].

Definition block_kernel_candidates (layout : BlockLayout) (codec : string)
    : list KernelCandidateDescriptor :=
  flat_map (fun '(operation, suffix) =>
    map (fun '(backend, target) =>
      let stem := String.append codec (String.append "." (String.append suffix ".iree_block")) in
      {| kc_id := String.append stem (String.append "_" backend);
         kc_operation := operation;
         kc_encoding := Some {| ek_id := codec; ek_version := 1 |};
         kc_input_types := [F32]; kc_output_types := [F32]; kc_accumulator_types := [F32];
         kc_shape := {| sc_logical_rank := Some 2;
                        sc_axis_multiples :=
                          [{| am_axis := 1; am_multiple_of := layout_block_size layout |}] |};
         kc_orientations := [NativeOrientation]; kc_target := target; kc_modes := both_modes;
         kc_lowering := stem; kc_deterministic_score := 300; kc_readiness := Production;
         kc_notes := Format
           "Consumes official GGML {codec} interleaved blocks directly; dequantization remains adjacent to gather/matmul"
           [AStr codec] |}) packed_targets)
    [(KEmbedding, "gather"); (KLinear, "matmul"); (KOutputProjection, "output")].

(** ** quantizations/gguf_block.rs *)

Record GgufBlockDefinition := {
  gb_name : string;
  gb_type_code : Z;
  gb_block_size : Z;
  gb_bytes_per_block : Z;
  gb_layout_components : list string;
}.

Definition gb_codec (d : GgufBlockDefinition) : string := String.append "gguf." (gb_name d).

Definition gb_unsupported (d : GgufBlockDefinition) (parameter : LogicalParameter)
    (message : text) : DynInferError :=
  UnsupportedEncoding
    {| ue_message := message; ue_key := Some (lp_canonical_name parameter);
       ue_codec := Some (lit (gb_codec d)); ue_codec_version := Some 1;
       ue_expected := Some (Format "{} values per {}-byte interleaved block"
         [AInt (gb_block_size d); AInt (gb_bytes_per_block d)]);
       ue_actual := Some (debug_encoding (lp_encoding parameter)) |}.

Definition gb_matches (d : GgufBlockDefinition) (encoding : PhysicalEncoding) : bool :=
  match encoding with
  | BlockQuantized _ _ _ codec codec_version _ _ _ _ =>
      (codec_version =? 1) && String.eqb codec (gb_codec d)
  | _ => false
  end.

(** [offset.checked_add(length)] at [u32]. *)
Definition checked_add_u32 (a b : Z) : option Z :=
  if a + b <=? u32_max then Some (a + b) else None.

(** The offset after the fields, when each begins where the last one ended. *)
Fixpoint contiguous (offset : Z) (layout : list BlockLayoutField) : option Z :=
  match layout with
  | [] => Some offset
  | field :: layout =>
      if bl_byte_offset field =? offset then
        next ← checked_add_u32 offset (bl_byte_length field); contiguous next layout
      else None
  end.

Definition single_data_component (codec : string) (components : list StorageComponent) : bool :=
  match components with
  | [c] => String.eqb (sc_name c) "data" &&
           match sc_storage_type c with OpaqueElement k => String.eqb k codec | _ => false end
  | _ => false
  end.

(** The part of the block validations on the sizes of the parameter. *)
Definition validate_block_bytes (name codec : string) (block_size bytes_per_block : Z)
    (fail : text -> DynInferError) (parameter : LogicalParameter) : Result unit :=
  n ← ok_or (numel (lt_shape (lp_logical_type parameter)))
    (internal (Format "{} numel overflow" [AStr name]));
  _ ← ensure (is_multiple_of n block_size)
    (fail (Format "{} numel {numel} is not divisible by {}" [AStr name; AInt n; AInt block_size]));
  expected ← ok_or (checked_mul (n / block_size) bytes_per_block)
    (internal (Format "{} byte size overflow" [AStr name]));
  actual ← ok_or (total_bytes (component_ranges (lp_components parameter)))
    (internal (Format "{} component byte size overflow" [AStr name]));
  ensure (negb (negb (single_data_component codec (lp_components parameter))
                || negb (actual =? expected)))
    (fail (Format
       "{} requires one interleaved data component of {expected_bytes} bytes, got {} components and {actual_bytes} bytes"
       [AStr name; AInt expected; AInt (Z.of_nat (length (lp_components parameter))); AInt actual])).

Definition gb_descriptor_ok (d : GgufBlockDefinition) (encoding : PhysicalEncoding) : bool :=
  match encoding with
  | BlockQuantized logical_type block_shape bytes_per_block _ _ components layout order endianness =>
      gb_matches d encoding &&
      bool_decide (logical_type = F16) &&
      bool_decide (block_shape = [wrap32 (gb_block_size d)]) &&
      (bytes_per_block =? wrap32 (gb_bytes_per_block d)) &&
      bool_decide (components = gb_layout_components d) &&
      bool_decide (order = RowMajor) &&
      bool_decide (endianness = Little) &&
      bool_decide (length layout = length (gb_layout_components d)) &&
      forallb (fun '(field, name) => String.eqb (bl_name field) name)
        (zip layout (gb_layout_components d)) &&
      bool_decide (contiguous 0 layout = Some (wrap32 (gb_bytes_per_block d)))
  | _ => false
  end.

Definition gb_validate (d : GgufBlockDefinition) (parameter : LogicalParameter) : Result unit :=
  match lp_encoding parameter with
  | BlockQuantized _ _ _ _ _ _ _ _ _ =>
      _ ← ensure (gb_descriptor_ok d (lp_encoding parameter))
        (gb_unsupported d parameter
           (Format "invalid {} descriptor; expected logical=f16 block=[{}] layout={expected_layout:?}"
              [AStr (gb_name d); AInt (gb_block_size d); AStrs (gb_layout_components d)]));
      validate_block_bytes (gb_name d) (gb_codec d) (gb_block_size d) (gb_bytes_per_block d)
        (gb_unsupported d parameter) parameter
  | _ => Err (gb_unsupported d parameter (lit "expected block-quantized storage"))
  end.

Definition block_descriptor (codec : string) (type_code : string) : EncodingDefinitionDescriptor :=
  {| ed_key := {| ek_id := codec; ek_version := 1 |};
     ed_external_tags := [{| et_family := "gguf.ggml_type"; et_value := type_code |}] |}.

Definition GgufBlock (d : GgufBlockDefinition) : QuantizationDefinition :=
  {| qd_descriptor := block_descriptor (gb_codec d) (pretty (gb_type_code d));
     qd_matches := gb_matches d; qd_validate := gb_validate d;
     qd_kernel_candidates := Ok [] |}.

Definition gb (name : string) (type_code block_size bytes_per_block : Z)
    (layout_components : list string) : GgufBlockDefinition :=
  {| gb_name := name; gb_type_code := type_code; gb_block_size := block_size;
     gb_bytes_per_block := bytes_per_block; gb_layout_components := layout_components |}.

Definition SCHEMA_ONLY_DEFINITIONS : list GgufBlockDefinition :=
  [gb "q5_0" 6 32 22 ["scale_f16"; "high_bits"; "quants_u4"];
   gb "q5_1" 7 32 24 ["scale_f16"; "minimum_f16"; "high_bits"; "quants_u4"];
   gb "q8_1" 9 32 36 ["scale_f16"; "sum_f16"; "quants_i8"];
   gb "q2_k" 10 256 84 ["scales_and_mins_u4"; "quants_u2"; "scale_min_f16"];
   gb "q3_k" 11 256 110 ["high_bits"; "quants_u2"; "scales_u6"; "scale_f16"];
   gb "q4_k" 12 256 144 ["scale_min_f16"; "scales_and_mins_u6"; "quants_u4"];
   gb "q5_k" 13 256 176 ["scale_min_f16"; "scales_and_mins_u6"; "high_bits"; "quants_u4"];
   gb "q8_k" 15 256 292 ["scale_f32"; "quants_i8"; "block_sums_i16"];
   gb "iq2_xxs" 16 256 66 ["scale_f16"; "grid_indices_and_signs_u16"];
   gb "iq2_xs" 17 256 74 ["scale_f16"; "grid_indices_and_signs_u16"; "scales_u8"];
   gb "iq3_xxs" 18 256 98 ["scale_f16"; "grid_indices_and_signs_u8"];
   gb "iq1_s" 19 256 50 ["scale_f16"; "grid_indices_u8"; "high_bits_and_delta_u16"];
   gb "iq4_nl" 20 32 18 ["scale_f16"; "nonlinear_quants_u4"];
   gb "iq3_s" 21 256 110 ["scale_f16"; "grid_indices_low_u8"; "grid_indices_high_u8"; "signs_u8"; "scales_u8"];
   gb "iq2_s" 22 256 82 ["scale_f16"; "grid_indices_low_u8"; "grid_indices_high_u8"; "scales_u8"];
   gb "iq4_xs" 23 256 136 ["scale_f16"; "scales_high_u16"; "scales_low_u8"; "nonlinear_quants_u4"];
   gb "iq1_m" 29 256 56 ["grid_indices_u8"; "high_bits_and_delta_u8"; "scales_u8"];
   gb "tq1_0" 34 256 54 ["scale_f16"; "block_scales_u8"; "ternary_quants_base3"];
   gb "tq2_0" 35 256 66 ["scale_f16"; "ternary_quants_u2"];
   gb "mxfp4" 39 32 17 ["e8m0_scale_u8"; "mxfp4_quants_u4"]].

(** ** quantizations/q4_1.rs, q6_k.rs and q8_0.rs: a schema with kernels *)

Definition executable_block (schema : GgufBlockDefinition) (codec type_code : string)
    (layout : BlockLayout) : QuantizationDefinition :=
  {| qd_descriptor := block_descriptor codec type_code;
     qd_matches := gb_matches schema; qd_validate := gb_validate schema;
     qd_kernel_candidates := Ok (block_kernel_candidates layout codec) |}.

Definition GgufQ41Definition : QuantizationDefinition :=
  executable_block (gb "q4_1" 3 32 20 ["scale_f16"; "minimum_f16"; "quants_u4"])
    "gguf.q4_1" "3" Q41.
Definition GgufQ6KDefinition : QuantizationDefinition :=
  executable_block
    (gb "q6_k" 14 256 210 ["quants_low_u4"; "quants_high_u2"; "scales_i8"; "scale_f16"])
    "gguf.q6_k" "14" Q6K.
Definition GgufQ80Definition : QuantizationDefinition :=
  executable_block (gb "q8_0" 8 32 34 ["scale_f16"; "quants_i8"]) "gguf.q8_0" "8" Q80.

(** ** quantizations/q4_0.rs *)

Definition q4_0_unsupported (parameter : LogicalParameter) (message : text) : DynInferError :=
  UnsupportedEncoding
    {| ue_message := message; ue_key := Some (lp_canonical_name parameter);
       ue_codec := Some (lit "gguf.q4_0"); ue_codec_version := Some 1;
       ue_expected := Some (lit "32 values per 18-byte interleaved block");
       ue_actual := Some (debug_encoding (lp_encoding parameter)) |}.

Definition q4_0_matches (encoding : PhysicalEncoding) : bool :=
  match encoding with
  | BlockQuantized _ block_shape _ codec codec_version _ _ _ _ =>
      (codec_version =? 1) && (String.eqb codec "gguf.q4_0" && bool_decide (block_shape = [32]))
  | _ => false
  end.

Definition field_is (name : string) (offset length : Z) (f : BlockLayoutField) : bool :=
  String.eqb (bl_name f) name && (bl_byte_offset f =? offset) && (bl_byte_length f =? length).

Definition q4_0_descriptor_ok (encoding : PhysicalEncoding) : bool :=
  match encoding with
  | BlockQuantized logical_type _ bytes_per_block _ _ components layout order endianness =>
      bool_decide (logical_type = F16) && (bytes_per_block =? 18) &&
      bool_decide (components = ["scale_f16"; "quants_u4"]) &&
      match layout with
      | [f0; f1] => field_is "scale_f16" 0 2 f0 && field_is "quants_u4" 2 16 f1
      | _ => false
      end &&
      bool_decide (order = RowMajor) && bool_decide (endianness = Little)
  | _ => false
  end.

Definition q4_0_validate (parameter : LogicalParameter) : Result unit :=
  let fail := q4_0_unsupported parameter in
  _ ← ensure (q4_0_matches (lp_encoding parameter)) (fail (lit "invalid Q4_0 encoding descriptor"));
  match lp_encoding parameter with
  | BlockQuantized _ _ _ _ _ _ _ _ _ =>
      _ ← ensure (q4_0_descriptor_ok (lp_encoding parameter))
        (fail (lit "Q4_0 requires logical f16 with scale_f16/quants_u4 layout"));
      n ← ok_or (numel (lt_shape (lp_logical_type parameter)))
        (internal (lit "Q4_0 parameter numel overflow"));
      _ ← ensure (is_multiple_of n 32)
        (fail (Format "Q4_0 numel {numel} is not divisible by 32" [AInt n]));
      expected ← ok_or (checked_mul (n / 32) 18) (internal (lit "Q4_0 byte size overflow"));
      actual ← ok_or (total_bytes (component_ranges (lp_components parameter)))
        (internal (lit "Q4_0 component byte size overflow"));
      ensure (negb (negb (single_data_component "gguf.q4_0" (lp_components parameter))
                    || negb (actual =? expected)))
        (fail (Format
           "Q4_0 requires one interleaved component of {expected} bytes, got {} components and {actual} bytes"
           [AInt expected; AInt (Z.of_nat (length (lp_components parameter))); AInt actual]))
  | _ => Panic "internal error: entered unreachable code"
  end.

Definition GgufQ40Definition : QuantizationDefinition :=
  {| qd_descriptor := block_descriptor "gguf.q4_0" "2";
     qd_matches := q4_0_matches; qd_validate := q4_0_validate;
     qd_kernel_candidates := Ok (block_kernel_candidates Q40 "gguf.q4_0") |}.

(** ** quantizations/mlx_affine.rs *)

Definition mlx_id (bits : Z) : string := String.append "mlx.affine.u" (pretty bits).

Definition mlx_affine_unsupported (bits : Z) (parameter : LogicalParameter) (message : text)
    : DynInferError :=
  UnsupportedEncoding
    {| ue_message := message; ue_key := Some (lp_canonical_name parameter);
       ue_codec := Some (lit (mlx_id bits)); ue_codec_version := Some 1;
       ue_expected := Some (Format "MLX unsigned {}-bit affine groups in u32 storage" [AInt bits]);
       ue_actual := Some (debug_encoding (lp_encoding parameter)) |}.

Definition mlx_matches (bits : Z) (encoding : PhysicalEncoding) : bool :=
  match encoding with
  | GroupQuantized _ storage_bits _ _ _ _ _ _ _ packing _ _ =>
      (storage_bits =? bits) && String.eqb packing (mlx_id bits)
  | _ => false
  end.

(** One turn of the loop over the three components. *)
Definition mlx_component_bytes (fail : text -> DynInferError) (c : StorageComponent)
    : Result unit :=
  element_bytes ← ok_or (match sc_storage_type c with Scalar ty => size_bytes ty | _ => None end)
    (fail (lit "component has unsized storage type"));
  expected_bytes ← ok_or (n ← numel (sc_shape c); checked_mul n element_bytes)
    (internal (lit "MLX component byte size overflow"));
  actual_bytes ← ok_or (total_bytes (sc_byte_ranges c))
    (internal (lit "MLX byte range size overflow"));
  ensure (actual_bytes =? expected_bytes) (fail (lit "MLX component byte length is invalid")).

Definition mlx_validate (bits : Z) (parameter : LogicalParameter) : Result unit :=
  let fail message := mlx_affine_unsupported bits parameter (lit message) in
  match lp_encoding parameter with
  | GroupQuantized logical_type storage_bits storage_container signed axis group_size scale_type
      bias_type zero_point packing order components =>
      _ ← ensure (mlx_matches bits (lp_encoding parameter) &&
                  bool_decide (logical_type = scale_type) && (storage_bits =? bits) &&
                  bool_decide (storage_container = U32) && negb signed && (axis =? -1) &&
                  negb (group_size =? 0) && bool_decide (bias_type = Some scale_type) &&
                  match zero_point with ZpNone => true | _ => false end &&
                  String.eqb packing (mlx_id bits) && bool_decide (order = RowMajor) &&
                  bool_decide (components = ["packed"; "scales"; "biases"]))
        (fail "invalid MLX affine encoding descriptor");
      match lp_components parameter with
      | [packed; scales; biases] =>
          _ ← ensure (String.eqb (sc_name packed) "packed" && String.eqb (sc_name scales) "scales"
                      && String.eqb (sc_name biases) "biases")
            (fail "MLX affine component names are invalid");
          _ ← ensure (bool_decide (sc_storage_type packed = Scalar U32) &&
                      bool_decide (sc_storage_type scales = Scalar scale_type) &&
                      bool_decide (sc_storage_type biases = Scalar scale_type))
            (fail "MLX affine component dtypes are invalid");
          let logical_shape := lt_shape (lp_logical_type parameter) in
          _ ← ensure (negb (bool_decide (logical_shape = [])
                            || negb (rank (sc_shape packed) =? rank logical_shape)))
            (fail "MLX affine logical/packed ranks differ");
          logical_last ← (match last logical_shape with
                          | Some d => Ok d
                          | None => Panic "called Option::unwrap() on a None value"
                          end);
          packed_numerator ← ok_or (checked_mul logical_last bits)
            (internal (lit "MLX packed shape overflow"));
          _ ← ensure (is_multiple_of packed_numerator 32)
            (fail "MLX logical axis cannot be packed into complete u32 words");
          let expected_packed := set_last logical_shape (packed_numerator / 32) in
          _ ← ensure (is_multiple_of logical_last group_size)
            (fail "MLX logical axis is not group divisible");
          let expected_groups := set_last logical_shape (logical_last / group_size) in
          _ ← ensure (bool_decide (sc_shape packed = expected_packed) &&
                      bool_decide (sc_shape scales = expected_groups) &&
                      bool_decide (sc_shape biases = expected_groups))
            (fail "MLX affine component shapes are invalid");
          try_for_each (mlx_component_bytes (mlx_affine_unsupported bits parameter))
            [packed; scales; biases]
      | _ => Err (fail "MLX affine parameter requires packed/scales/biases components")
      end
  | _ => Err (fail "expected group-quantized encoding")
  end.

Definition mlx_kernel_candidates (bits : Z) : list KernelCandidateDescriptor :=
  if negb (bits =? 4) then []
  else flat_map (fun '(operation, suffix, lowering) =>
    map (fun '(backend, target) =>
      {| kc_id := String.append "mlx.affine.u4." (String.append suffix
                    (String.append ".iree_grouped_" backend));
         kc_operation := operation;
         kc_encoding := Some {| ek_id := "mlx.affine.u4"; ek_version := 1 |};
         kc_input_types := [F32]; kc_output_types := [F32]; kc_accumulator_types := [F32];
         kc_shape := {| sc_logical_rank := Some 2;
                        sc_axis_multiples := [{| am_axis := 1; am_multiple_of := 32 |}] |};
         kc_orientations := [NativeOrientation]; kc_target := target; kc_modes := both_modes;
         kc_lowering := if String.eqb backend "cpu" then lowering
                        else String.append lowering "_gpu";
         kc_deterministic_score := 300; kc_readiness := Production;
         kc_notes := Format
           "Direct MLX U4 words with groupwise scale/bias on {backend}; CPU permits fused dequantization while GPU uses an on-device dequantization boundary before contraction"
           [AStr backend] |}) packed_targets)
    [(KEmbedding, "embedding", "mlx.affine.u4.gather.iree_grouped");
     (KLinear, "matmul", "mlx.affine.u4.matmul.iree_grouped");
     (KOutputProjection, "output", "mlx.affine.u4.matmul.iree_grouped")].

Definition MlxAffine (bits : Z) : QuantizationDefinition :=
  {| qd_descriptor :=
       {| ed_key := {| ek_id := mlx_id bits; ek_version := 1 |};
          ed_external_tags :=
            [{| et_family := "mlx.quantization.bits"; et_value := pretty bits |}] |};
     qd_matches := mlx_matches bits; qd_validate := mlx_validate bits;
     qd_kernel_candidates := Ok (mlx_kernel_candidates bits) |}.

Definition MLX_SCHEMA_DEFINITIONS : list Z := [2; 3; 4; 6; 8].

(** * The registry: lib.rs *)

Abbreviation QuantizationRegistry := (list QuantizationDefinition) (only parsing).

Definition register_encoding (registry : QuantizationRegistry) (definition : QuantizationDefinition)
    : Result QuantizationRegistry :=
  let key := ed_key (qd_descriptor definition) in
  if existsb (fun existing => bool_decide (ed_key (qd_descriptor existing) = key)) registry then
    Err (internal (Format "duplicate encoding definition `{}@{}`"
                     [AStr (ek_id key); AInt (ek_version key)]))
  else Ok (registry ++ [definition]).

Definition resolve_encoding (registry : QuantizationRegistry) (encoding : PhysicalEncoding)
    : option QuantizationDefinition :=
  List.find (fun d => qd_matches d encoding) registry.

Definition register_kernel_candidates (registry : QuantizationRegistry)
    (kernels : list KernelCandidateDescriptor) : Result (list KernelCandidateDescriptor) :=
  try_fold (fun kernels d => candidates ← qd_kernel_candidates d; register_kernels candidates kernels)
    kernels registry.

Definition register_all (registry : QuantizationRegistry) : Result QuantizationRegistry :=
  f32 ← PlainDefinition_new F32;
  registry ← register_encoding registry f32;
  f16 ← PlainDefinition_new F16;
  registry ← register_encoding registry f16;
  bf16 ← PlainDefinition_new Bf16;
  registry ← register_encoding registry bf16;
  registry ← register_encoding registry GgufQ40Definition;
  registry ← register_encoding registry GgufQ41Definition;
  registry ← register_encoding registry GgufQ6KDefinition;
  registry ← register_encoding registry GgufQ80Definition;
  registry ← try_fold register_encoding registry (map GgufBlock SCHEMA_ONLY_DEFINITIONS);
  try_fold register_encoding registry (map MlxAffine MLX_SCHEMA_DEFINITIONS).

End Definitions.
