(* ===== verification/EncodingSpecs.v ===== *)
(** * Decoded parameters and encoding definitions

    Every parameter the checkpoint conventions decode from a sound index is
    accepted by the registered definition of its encoding. *)
From S2P Require Import Prelude Errors Serde CoreTypes Catalog.
From S2P Require Import GgufContainer GgufFormat GgufSafety GgufConvention.
From S2P Require Import SafeTensors StConventions Target Ir KernelRegistry Encodings.
From Stdlib Require Import ZArith Lia Ascii String.
From stdpp Require Import base list strings gmap pretty.
From stdpp Require Import options.
Import Json.

Local Open Scope Z_scope.

Section Validate.
Context {SJ : SerdeJson} (debug_encoding : PhysicalEncoding -> text).

Abbreviation Definitions := (list QuantizationDefinition) (only parsing).

(** The definitions [register_all] registers, in order. *)
Definition all_definitions : Definitions :=
  [PlainDefinition debug_encoding F32; PlainDefinition debug_encoding F16;
   PlainDefinition debug_encoding Bf16; GgufQ40Definition debug_encoding;
   GgufQ41Definition debug_encoding; GgufQ6KDefinition debug_encoding;
   GgufQ80Definition debug_encoding] ++
  map (GgufBlock debug_encoding) SCHEMA_ONLY_DEFINITIONS ++
  map (MlxAffine debug_encoding) MLX_SCHEMA_DEFINITIONS.

Definition definition_key (d : QuantizationDefinition) : EncodingKey := ed_key (qd_descriptor d).

Lemma register_encoding_new r d :
  bool_decide (definition_key d ∈ map definition_key r) = false ->
  register_encoding r d = Ok (r ++ [d]).
Proof.
  intros Hn. unfold register_encoding. destruct (existsb _ r) eqn:E; [|done].
  apply existsb_exists in E as (d' & Hin & Hk). apply bool_decide_eq_true in Hk.
  apply bool_decide_eq_false in Hn. destruct Hn. rewrite list_elem_of_In.
  unfold definition_key. rewrite <-Hk. by apply (in_map definition_key).
Qed.

Lemma register_encodings_new r ds :
  bool_decide (NoDup (map definition_key (r ++ ds))) = true ->
  try_fold register_encoding r ds = Ok (r ++ ds).
Proof.
  intros Hnd%bool_decide_eq_true. revert r Hnd. induction ds as [|d ds IH]; intros r Hnd; cbn.
  { by rewrite app_nil_r. }
  rewrite register_encoding_new; cbn.
  - rewrite IH; [by rewrite <-app_assoc|]. by rewrite <-app_assoc.
  - apply bool_decide_eq_false. rewrite map_app in Hnd. cbn in Hnd.
    apply NoDup_app in Hnd as (_ & Hd & _). intros Hin. apply (Hd _ Hin). by left.
Qed.

Lemma register_all_Ok : register_all debug_encoding [] = Ok all_definitions.
Proof.
  unfold register_all. cbn [PlainDefinition_new bool_decide].
  change (PlainDefinition_new debug_encoding F32) with (Ok (PlainDefinition debug_encoding F32) : Result _).
  change (PlainDefinition_new debug_encoding F16) with (Ok (PlainDefinition debug_encoding F16) : Result _).
  change (PlainDefinition_new debug_encoding Bf16) with (Ok (PlainDefinition debug_encoding Bf16) : Result _).
  cbn [mbind result_mbind].
  do 7 (rewrite register_encoding_new by (vm_compute; reflexivity); cbn [mbind result_mbind app]).
  rewrite register_encodings_new by (vm_compute; reflexivity). cbn [mbind result_mbind].
  rewrite register_encodings_new by (vm_compute; reflexivity).
  by rewrite <-app_assoc.
Qed.

Lemma total_bytes_single r :
  0 <= br_length r <= u64_max -> total_bytes [r] = Some (br_length r).
Proof. intros H. unfold total_bytes. cbn. apply checked_add_Some. lia. Qed.

(** What the size checks of the block definitions need. *)
Lemma validate_block_bytes_Ok name codec block size fail p n b r :
  numel (lt_shape (lp_logical_type p)) = Some n -> is_multiple_of n block = true ->
  checked_mul (n / block) size = Some b ->
  single_data_component codec (lp_components p) = true ->
  component_ranges (lp_components p) = [r] -> br_length r = b -> 0 <= b <= u64_max ->
  validate_block_bytes name codec block size fail p = Ok tt.
Proof.
  intros Hn Hm Hb Hs Hr Hl Hu. unfold validate_block_bytes.
  rewrite Hn. cbn. rewrite Hm. cbn. rewrite Hb. cbn. rewrite Hr, total_bytes_single by lia.
  cbn. by rewrite Hs, Hl, Z.eqb_refl.
Qed.

Lemma nbytes_block ty shape b block size :
  GgufType.nbytes_for_shape ty shape = Ok b -> GgufType.block_size ty = Some block ->
  GgufType.type_size ty = Some size ->
  exists n, numel shape = Some n /\ is_multiple_of n block = true /\
    checked_mul (n / block) size = Some b.
Proof.
  unfold GgufType.nbytes_for_shape. intros H Hb Hs. rewrite Hb, Hs in H. cbn in H.
  apply bind_Ok in H as (n & Hn%ok_or_Ok & H). cbn in H.
  apply bind_Ok in H as (u & Hu%ensure_Ok & H%ok_or_Ok). by exists n.
Qed.

Lemma nbytes_scalar ty shape b size :
  GgufType.nbytes_for_shape ty shape = Ok b -> GgufType.block_size ty = None ->
  GgufType.type_size ty = Some size ->
  exists n, numel shape = Some n /\ checked_mul n size = Some b.
Proof.
  unfold GgufType.nbytes_for_shape. intros H Hb Hs. rewrite Hb, Hs in H. cbn in H.
  apply bind_Ok in H as (n & Hn%ok_or_Ok & H%ok_or_Ok). by exists n.
Qed.

Lemma nbytes_le ty shape b : GgufType.nbytes_for_shape ty shape = Ok b -> b <= u64_max.
Proof.
  unfold GgufType.nbytes_for_shape. intros (n & _ & H)%bind_Ok.
  destruct (GgufType.block_size ty); ok_inv;
    match goal with Hm : checked_mul _ _ = Some _ |- _ => apply checked_mul_Some in Hm end; lia.
Qed.

(** The scalar types no encoding definition is registered for. *)
Definition unregistered_scalar (ty : GgufType.t) : bool :=
  match ty with
  | GgufType.F64 | GgufType.I8 | GgufType.I16 | GgufType.I32 | GgufType.I64 => true
  | _ => false
  end.

(** The scalar type of a dense GGUF type that has a definition. *)
Definition dense_scalar (ty : GgufType.t) : option ScalarType :=
  match ty with
  | GgufType.F32 => Some F32
  | GgufType.F16 => Some F16
  | GgufType.BF16 => Some Bf16
  | _ => None
  end.

Definition schema_of (ty : GgufType.t) : GgufBlockDefinition :=
  gb (GgufType.name ty) (GgufType.as_u32 ty) (default 0 (GgufType.block_size ty))
    (default 0 (GgufType.type_size ty)) (layout_components ty).

Definition validation (ty : GgufType.t) : LogicalParameter -> Result unit :=
  match dense_scalar ty with
  | Some st => plain_validate debug_encoding st
  | None =>
      match ty with
      | GgufType.Q4_0 => q4_0_validate debug_encoding
      | _ => gb_validate debug_encoding (schema_of ty)
      end
  end.

(** The encoding the GGUF convention gives a type resolves to its definition. *)
Lemma resolve_gguf_encoding ty enc st :
  physical_encoding ty = Ok (enc, st) ->
  if unregistered_scalar ty then resolve_encoding all_definitions enc = None
  else exists d, resolve_encoding all_definitions enc = Some d /\ qd_validate d = validation ty.
Proof.
  intros H. destruct ty; vm_compute in H; injection H as <- <-; cbn [unregistered_scalar];
    first [reflexivity | eexists; split; [reflexivity|reflexivity]].
Qed.

(** A parameter decoded from an entry of the index, in all its fields. *)
Definition gguf_parameter (ty : GgufType.t) (p : LogicalParameter) : Prop :=
  physical_encoding ty = Ok (lp_encoding p, lt_element_type (lp_logical_type p)) /\
  exists c r, lp_components p = [c] /\ sc_name c = "data" /\
    sc_storage_type c = GgufType.storage_element_type ty /\ sc_byte_ranges c = [r] /\
    GgufType.nbytes_for_shape ty (lt_shape (lp_logical_type p)) = Ok (br_length r) /\
    0 <= br_length r <= u64_max.

Lemma plain_validate_Ok st p n size c r :
  lp_encoding p = Plain st RowMajor -> lt_element_type (lp_logical_type p) = st ->
  numel (lt_shape (lp_logical_type p)) = Some n -> size_bytes st = Some size ->
  checked_mul n size = Some (br_length r) -> 0 <= br_length r <= u64_max ->
  lp_components p = [c] -> sc_byte_ranges c = [r] ->
  plain_validate debug_encoding st p = Ok tt.
Proof.
  intros He Ht Hn Hs Hm Hu Hc Hr. unfold plain_validate, plain_matches.
  rewrite He, Ht, Hn, Hs, Hc. rewrite !bool_decide_eq_true_2 by done. cbn [ensure mbind result_mbind].
  cbn [option_bind]. rewrite Hm. cbn [ok_or mbind result_mbind].
  unfold component_ranges. cbn [flat_map]. rewrite Hr. cbn [app].
  rewrite total_bytes_single by done. cbn [ok_or mbind result_mbind].
  rewrite !Z.eqb_refl. reflexivity.
Qed.

(** The block definition of a type accepts the encoding of the type. *)
Lemma block_descriptor_ok ty enc st :
  physical_encoding ty = Ok (enc, st) -> dense_scalar ty = None ->
  unregistered_scalar ty = false ->
  match ty with
  | GgufType.Q4_0 => q4_0_matches enc && q4_0_descriptor_ok enc
  | _ => gb_descriptor_ok (schema_of ty) enc
  end = true.
Proof.
  intros H Hd Hu. destruct ty; try discriminate Hd; try discriminate Hu;
    vm_compute in H; injection H as <- <-; vm_compute; reflexivity.
Qed.

Lemma gb_validate_bytes d p :
  gb_descriptor_ok d (lp_encoding p) = true ->
  gb_validate debug_encoding d p =
  validate_block_bytes (gb_name d) (gb_codec d) (gb_block_size d) (gb_bytes_per_block d)
    (gb_unsupported debug_encoding d p) p.
Proof.
  intros H. unfold gb_validate. destruct (lp_encoding p) eqn:E; try discriminate H.
  unfold ensure. by rewrite H.
Qed.

Lemma q4_0_validate_Ok p n b r :
  q4_0_matches (lp_encoding p) = true -> q4_0_descriptor_ok (lp_encoding p) = true ->
  numel (lt_shape (lp_logical_type p)) = Some n -> is_multiple_of n 32 = true ->
  checked_mul (n / 32) 18 = Some b ->
  single_data_component "gguf.q4_0" (lp_components p) = true ->
  component_ranges (lp_components p) = [r] -> br_length r = b -> 0 <= b <= u64_max ->
  q4_0_validate debug_encoding p = Ok tt.
Proof.
  intros Hm Hd Hn Hmul Hb Hs Hr Hl Hu. unfold q4_0_validate. rewrite Hm.
  destruct (lp_encoding p) eqn:E; try discriminate Hd.
  cbn [ensure mbind result_mbind]. unfold ensure at 1. rewrite Hd, Hn.
  cbn [ok_or mbind result_mbind]. rewrite Hmul. cbn [ensure mbind result_mbind].
  rewrite Hb. cbn [ok_or mbind result_mbind]. rewrite Hr, total_bytes_single by lia.
  cbn [ok_or mbind result_mbind]. rewrite Hs, Hl, Z.eqb_refl. reflexivity.
Qed.

Lemma gguf_parameter_accepted ty p :
  gguf_parameter ty p -> unregistered_scalar ty = false -> validation ty p = Ok tt.
Proof.
  intros (Henc & c & r & Hc & Hname & Hst & Hr & Hn & Hu) Hty. unfold validation.
  destruct (dense_scalar ty) as [st|] eqn:Ed.
  - assert (Hs : GgufType.block_size ty = None /\ GgufType.type_size ty = size_bytes st /\
      physical_encoding ty = Ok (Plain st RowMajor, st)).
    { destruct ty; try discriminate Ed; injection Ed as <-; by repeat split. }
    destruct Hs as (Hb & Hsz & Henc'). rewrite Henc' in Henc. injection Henc as He Ht.
    destruct (size_bytes st) as [size|] eqn:Esz; [|by destruct st].
    destruct (nbytes_scalar ty _ _ size Hn Hb Hsz) as (n & Hnum & Hm).
    by apply (plain_validate_Ok st p n size c r).
  - assert (Hs : exists block size, GgufType.block_size ty = Some block /\
      GgufType.type_size ty = Some size /\ wrap32 block = block /\ wrap32 size = size).
    { destruct ty; try discriminate Ed; try discriminate Hty; eexists _, _; by repeat split. }
    destruct Hs as (block & size & Hb & Hsz & _).
    destruct (nbytes_block ty _ _ block size Hn Hb Hsz) as (n & Hnum & Hm & Hmul).
    assert (Hsingle : single_data_component (String.append "gguf." (GgufType.name ty)) (lp_components p) = true).
    { rewrite Hc. cbn. rewrite Hname, Hst. cbn.
      destruct ty; try discriminate Ed; try discriminate Hty; reflexivity. }
    assert (Hranges : component_ranges (lp_components p) = [r]).
    { rewrite Hc. unfold component_ranges. cbn. by rewrite Hr. }
    pose proof (block_descriptor_ok ty _ _ Henc Ed Hty) as Hdesc.
    destruct (decide (gb_type_code (schema_of ty) = 2)) as [Hq|Hq].
    + destruct ty; try discriminate Hq. apply andb_prop in Hdesc as [Hm' Hd'].
      injection Hb as <-. injection Hsz as <-. by apply (q4_0_validate_Ok p n (br_length r) r).
    + replace (match ty with GgufType.Q4_0 => _ | _ => gb_validate debug_encoding (schema_of ty) end)
        with (gb_validate debug_encoding (schema_of ty)) by (destruct ty; done).
      rewrite gb_validate_bytes by (destruct ty; done).
      apply (validate_block_bytes_Ok _ _ _ _ _ p n (br_length r) r); cbn; rewrite ?Hb, ?Hsz; done.
Qed.

(** C32: Whatever the GGUF indexer returns and the convention decodes is usable:
    the encoding of every parameter resolves to the registered definition of
    its type, and that definition accepts the parameter, its layout and its
    byte count included; the only types without a definition are [f64] and the
    integers. *)
Theorem gguf_parameters_accepted `{LE : LittleEndian} `{RS : RandomAccessSource Src}
    stack (source : Src) limits idx ctx cat registry :
  src_len source <= 2 ^ 63 -> gguf_index stack source limits = Ok idx ->
  gguf_decode idx ctx = Ok cat -> register_all debug_encoding [] = Ok registry ->
  Forall2 (fun e p => exists ty,
      re_metadata e !! "gguf.type_code" = Some (value_u64 (GgufType.as_u32 ty)) /\
      if unregistered_scalar ty then resolve_encoding registry (lp_encoding p) = None
      else exists d, resolve_encoding registry (lp_encoding p) = Some d /\
             qd_validate d p = Ok tt)
    (ix_entries idx) (pcat_parameters cat).
Proof.
  intros Hlen H Hdec Hreg. rewrite register_all_Ok in Hreg. injection Hreg as <-.
  apply gguf_index_entries in H as (He & _ & _); [|done].
  unfold gguf_decode in Hdec. apply bind_Ok in Hdec as (ps & Hps & [= <-]). cbn.
  apply try_map_Ok in Hps. revert He.
  induction Hps as [|e p es ps Hp _ IH]; intros He; [constructor|].
  apply Forall_cons in He as [He Hes]. constructor; [|by apply IH].
  destruct He as (ty & off & n & Hr & Hoff & Hn0 & Hend & Hn & Hst & Hcode & _).
  exists ty. split; [done|].
  destruct (physical_encoding_Ok ty) as (enc & st & Henc).
  assert (Hty : entry_gguf_type e = Ok ty) by (by apply entry_gguf_type_Ok).
  unfold gguf_decode_entry in Hp. rewrite Hty in Hp. cbn [mbind result_mbind] in Hp.
  rewrite Henc in Hp. cbn [mbind result_mbind] in Hp. injection Hp as <-. cbn [lp_encoding].
  pose proof (resolve_gguf_encoding ty enc st Henc) as Hres.
  destruct (unregistered_scalar ty) eqn:Eu; [done|].
  destruct Hres as (d & Hd & Hv). exists d. split; [done|]. rewrite Hv.
  apply gguf_parameter_accepted; [|done].
  split; [done|]. eexists _, _. split; [reflexivity|]. split; [reflexivity|]. cbn.
  split; [done|]. split; [exact Hr|]. cbn. split; [done|].
  apply nbytes_le in Hn. lia.
Qed.

(** An entry that holds exactly the elements of its shape. *)
Definition sized (e : RawTensorEntry) : Prop :=
  exists ty size n r, re_storage_type e = Scalar ty /\ size_bytes ty = Some size /\
    re_byte_ranges e = [r] /\ numel (re_shape e) = Some n /\
    checked_mul n size = Some (br_length r) /\ 0 <= br_length r.

Lemma st_entry_sized `{RS : RandomAccessSource Src} (source : Src) limits base e :
  src_len source < u64_max -> 0 <= base -> st_entry_ok source limits base e -> sized e.
Proof.
  intros Hlen Hb (ty & off & n & el & Hr & H1 & H2 & H3 & Hst & Hsz & -> & Hnum & _).
  eexists ty, el, _, _. split_and!; [done|done|exact Hr|exact Hnum| |done].
  apply checked_mul_Some. cbn [br_length] in *. split; [done|lia].
Qed.

Lemma mlx_component_bytes_Ok fail name e :
  sized e -> mlx_component_bytes fail (st_component name e) = Ok tt.
Proof.
  intros (ty & size & n & r & Hst & Hsz & Hr & Hn & Hm & Hpos).
  unfold mlx_component_bytes, st_component. cbn [sc_storage_type sc_shape sc_byte_ranges].
  rewrite Hst, Hsz, Hn, Hr. cbn [ok_or mbind result_mbind option_bind]. rewrite Hm.
  apply checked_mul_Some in Hm as [Hm Hle]. rewrite total_bytes_single by lia.
  cbn [ok_or mbind result_mbind]. by rewrite Z.eqb_refl.
Qed.

Lemma set_last_twice l x y : set_last (set_last l x) y = set_last l y.
Proof. unfold set_last. by rewrite List.removelast_last. Qed.

Lemma set_last_last l x : last l = Some x -> l = set_last l x.
Proof.
  intros H. unfold set_last. apply last_Some in H as [l' ->]. by rewrite List.removelast_last.
Qed.

Lemma ensure_bind {A} b (e : DynInferError) (f : unit -> Result A) r :
  b = true -> f tt = r -> mbind f (ensure b e) = r.
Proof. by intros ->. Qed.

(** Show that the condition of the next [ensure] holds. *)
Ltac ensured :=
  apply ensure_bind;
  [repeat (apply andb_true_intro; split);
   try first [reflexivity | apply Z.eqb_refl | apply String.eqb_refl
             | apply bool_decide_eq_true_2; done]
  |cbn beta].

(** Every weight the MLX convention unpacks from sized entries is accepted
    by the registered definition of its bit width, so what the convention and
    the definition state of the packed layout is the same. *)
Theorem mlx_weight_accepted weight scales biases bits group_size p registry :
  mlx_bits_ok bits = true -> 0 < group_size ->
  decode_affine_weight weight scales biases bits group_size = Ok p ->
  sized weight -> sized scales -> sized biases ->
  register_all debug_encoding [] = Ok registry ->
  exists d, resolve_encoding registry (lp_encoding p) = Some d /\ qd_validate d p = Ok tt.
Proof.
  intros Hbits Hg H Hw Hs Hb Hreg. rewrite register_all_Ok in Hreg. injection Hreg as <-.
  assert (Hcases : bits = 2 \/ bits = 3 \/ bits = 4 \/ bits = 6 \/ bits = 8).
  { unfold mlx_bits_ok in Hbits. rewrite !orb_true_iff, !Z.eqb_eq in Hbits. lia. }
  assert (Hmod : bits mod 256 = bits) by (apply Z.mod_small; lia).
  unfold decode_affine_weight in H. ok_inv. rewrite Hmod.
  exists (MlxAffine debug_encoding bits). split.
  { destruct Hcases as [->|[->|[->|[->| ->]]]]; reflexivity. }
  apply bool_decide_eq_true_1 in Hv0.
  unfold scalar_type in Hv1, Hv2. destruct (re_storage_type scales) as [ts| |] eqn:Es; ok_inv.
  destruct (re_storage_type biases) as [tb| |] eqn:Eb; ok_inv.
  apply negb_true_iff, orb_false_iff in Hv3 as [Ht _].
  apply negb_false_iff, bool_decide_eq_true_1 in Ht as <-.
  destruct (last (re_shape weight)) as [d|] eqn:El; ok_inv.
  apply checked_mul_Some in Hv5 as [-> Hd].
  pose proof Hv6 as Hq. apply is_multiple_of_spec in Hq as [q Hq]; [|lia].
  rewrite Hq, Z.div_mul in * by lia.
  apply negb_true_iff, orb_false_iff in Hv8 as [Hss Hbs].
  apply negb_false_iff, bool_decide_eq_true_1 in Hss, Hbs.
  set (shape := set_last (re_shape weight) q) in *.
  assert (Hlast : last shape = Some q) by (unfold shape, set_last; apply last_snoc).
  assert (Hpacked : re_shape weight = set_last shape (q * bits / 32)).
  { unfold shape. rewrite set_last_twice, <-Hq, Z.div_mul by lia. by apply set_last_last. }
  cbn [MlxAffine qd_validate]. unfold mlx_validate.
  cbn [lp_encoding lp_components mlx_matches lp_logical_type lt_shape].
  ensured. { apply negb_true_iff, Z.eqb_neq. lia. }
  ensured. ensured. fold shape. ensured.
  { apply negb_true_iff, orb_false_iff. split.
    - apply bool_decide_eq_false. intros E. by rewrite E in Hlast.
    - apply negb_false_iff, Z.eqb_eq. cbn [sc_shape st_component]. unfold rank. rewrite Hpacked.
      unfold shape, set_last. rewrite List.removelast_last, !length_app. done. }
  rewrite Hlast. cbn [mbind result_mbind].
  rewrite (proj2 (checked_mul_Some q bits (q * bits))) by done. cbn [ok_or mbind result_mbind].
  ensured. { rewrite <-Hq. apply is_multiple_of_spec; [lia|]. by exists v4. }
  ensured; [done|]. ensured; [by apply bool_decide_eq_true_2..|].
  cbn [try_for_each]. by rewrite !mlx_component_bytes_Ok.
Qed.

End Validate.

Module EncodingSample.
Definition debug (e : PhysicalEncoding) : text := lit "encoding".
Definition weight : RawTensorEntry := Deserialize.entry "l.weight" U32 [8; 4] 0 128.
Definition scales : RawTensorEntry := Deserialize.entry "l.scales" F16 [8; 1] 128 16.
Definition biases : RawTensorEntry := Deserialize.entry "l.biases" F16 [8; 1] 144 16.
End EncodingSample.

Lemma gguf_parameters_accepted_witness :
  exists cat, gguf_decode sample_index sample_context = Ok cat /\
    Forall2 (fun e p => exists ty,
        re_metadata e !! "gguf.type_code" = Some (value_u64 (GgufType.as_u32 ty)) /\
        if unregistered_scalar ty
        then resolve_encoding (all_definitions EncodingSample.debug) (lp_encoding p) = None
        else exists d, resolve_encoding (all_definitions EncodingSample.debug) (lp_encoding p) = Some d /\
               qd_validate d p = Ok tt)
      (ix_entries sample_index) (pcat_parameters cat).
Proof.
  assert (Hlen : src_len sample_source <= 2 ^ 63) by (vm_compute; discriminate).
  assert (H : gguf_index 3 sample_source InspectionLimits_default = Ok sample_index) by by_vm.
  assert (Hok : is_Ok (gguf_decode sample_index sample_context) = true) by by_vm.
  destruct (gguf_decode sample_index sample_context) as [cat| |] eqn:Hdec; [|done|done].
  exists cat. split; [done|].
  exact (gguf_parameters_accepted EncodingSample.debug 3 sample_source InspectionLimits_default
    sample_index sample_context cat _ Hlen H Hdec (register_all_Ok EncodingSample.debug)).
Defined.

Lemma mlx_weight_accepted_witness :
  exists p d, decode_affine_weight EncodingSample.weight EncodingSample.scales
                EncodingSample.biases 4 32 = Ok p /\
    resolve_encoding (all_definitions EncodingSample.debug) (lp_encoding p) = Some d /\
    qd_validate d p = Ok tt.
Proof.
  assert (Hok : is_Ok (decode_affine_weight EncodingSample.weight EncodingSample.scales
    EncodingSample.biases 4 32) = true) by by_vm.
  destruct (decode_affine_weight EncodingSample.weight EncodingSample.scales EncodingSample.biases 4 32)
    as [p| |] eqn:H; [|done|done].
  destruct (mlx_weight_accepted EncodingSample.debug EncodingSample.weight EncodingSample.scales
    EncodingSample.biases 4 32 p (all_definitions EncodingSample.debug) eq_refl ltac:(lia) H) as (d & Hd & Hv);
    [..|exact (register_all_Ok EncodingSample.debug)|by exists p, d];
    (eexists _, _, _, _; split_and!; [reflexivity|reflexivity|reflexivity|reflexivity|reflexivity|]; done).
Defined.
