(* ===== verification/Codegen.v ===== *)
(** * The assembly of encoded parameters: crates/dyninfer-quantization/src/quantizations

    What the definitions of the block formats of GGUF (gguf_codegen.rs) and of
    the affine format of MLX (mlx_affine.rs) emit: the globals that hold a
    parameter's components, their loads, the helper functions that dequantise
    next to a gather or a matrix product, and the calls of the helpers. *)
From S2P Require Import Prelude Strings Errors Serde CoreTypes Ir KernelRegistry Encodings Mlir Kernels.
From Stdlib Require Import ZArith Lia Ascii String.
From stdpp Require Import base list strings gmap.
From stdpp Require Import options.

Local Open Scope Z_scope.

Section Codegen.
Context {SJ : SerdeJson} {ML : MlirApi}.

Abbreviation Function := (Emit FuncBuilder).
Abbreviation Program := (Emit ModuleBuilder).

(** ** lib.rs *)

Inductive ParameterLoweringOperation : Set :=
  | LowerEmbedding
  | LowerLinear (rows : Z)
  | LowerOutputProjection.

Record ParameterLoweringSpec := {
  pl_binding : ParameterBinding;
  pl_lowering_id : string;
  pl_mode : ExecutionMode;
  pl_operation : ParameterLoweringOperation;
}.
Record LinearCallSpec := {
  lc_lowering : ParameterLoweringSpec;
  lc_result_ssa : string;
  lc_input_ssa : string;
  lc_parameter_ssa : string;
}.
Record EmbeddingCallSpec := {
  ec_lowering : ParameterLoweringSpec;
  ec_result_ssa : string;
  ec_index_ssa : string;
  ec_parameter_ssa : string;
}.

(** The two dimensions of a matrix. *)
Definition matrix_dims (binding : ParameterBinding) : option (Z * Z) :=
  match pb_logical_shape binding with [a; b] => Some (a, b) | _ => None end.
Definition unreachable {A} : Result A := Panic "internal error: entered unreachable code".
Definition matrix {S} (binding : ParameterBinding) : Emit S (Z * Z) :=
  lift (match matrix_dims binding with Some d => Ok d | None => unreachable end).
Definition assert {S} (b : bool) (what : string) : Emit S unit :=
  lift (if b then Ok tt else Panic what).
Definition mul64 (a b : Z) : Z := wrap64 (a * b).

(** ** gguf_codegen.rs *)

Definition stem (l : BlockLayout) : string :=
  match l with
  | Q40 => "gguf_q4_0"
  | Q41 => "gguf_q4_1"
  | Q80 => "gguf_q8_0"
  | Q6K => "gguf_q6_k"
  end.

Definition data_component (binding : ParameterBinding) : Result ParameterComponentBinding :=
  match pb_components binding with
  | [component] =>
      if negb (String.eqb (pc_component_name component) "data")
         || negb (match pc_storage_type component with OpaqueElement _ => true | _ => false end)
      then Err (internal (Format "GGUF block parameter `{}` has an invalid data component"
                            [AStr (pb_canonical_name binding)]))
      else Ok component
  | _ => Err (internal (Format "GGUF block parameter `{}` must have one data component"
                          [AStr (pb_canonical_name binding)]))
  end.
Definition component_bytes (binding : ParameterBinding) : Result Z :=
  component ← data_component binding;
  ok_or (foldl (fun sum n => sum ← sum; checked_add sum n) (Some 0) (pc_byte_lengths component))
    (internal (lit "GGUF block component size overflow")).

Definition linear_fn (layout : BlockLayout) (rows input output : Z) : string :=
  fmt [("", stem layout); ("rows", num rows); ("input", num input); ("output", num output)] "{}_linear_{rows}_{input}_{output}".
Definition gather_fn (layout : BlockLayout) (vocab width : Z) : string :=
  fmt [("", stem layout); ("vocab", num vocab); ("width", num width)] "{}_gather_{vocab}_{width}".

Definition block_external_globals (binding : ParameterBinding) (symbol : string) : Program bool :=
  component ← lift (data_component binding);
  bytes ← lift (component_bytes binding);
  _ ← util_global_parameter (fmt [("symbol", symbol)] "{symbol}_data") (pc_external_key component)
        (fmt [("bytes", num bytes)] "tensor<{bytes}xi8>");
  mret true.

Definition block_parameter_load (binding : ParameterBinding) (ssa symbol : string) : Function bool :=
  bytes ← lift (component_bytes binding);
  _ ← op_asm (fmt [("ssa", ssa); ("symbol", symbol); ("bytes", num bytes)] "  %{ssa}_data = util.global.load @{symbol}_data : tensor<{bytes}xi8>
");
  mret true.

Definition block_helper_key (layout : BlockLayout) (spec : ParameterLoweringSpec) : option string :=
  '(output, input) ← matrix_dims (pl_binding spec);
  let e := [("", stem layout); ("output", num output); ("input", num input)] in
  if negb (is_multiple_of input (layout_block_size layout)) then None
  else
    Some (match pl_operation spec with
          | LowerEmbedding => fmt e "{}-gather-{output}-{input}"
          | LowerLinear rows => fmt (("rows", num rows) :: e) "{}-linear-{rows}-{input}-{output}"
          | LowerOutputProjection => fmt e "{}-linear-1-{input}-{output}"
          end).

(** [parse_block_dimensions]: the dimensions of a tensor type, read back. *)
Definition parse_block_dimensions (result_ty : string) (block : Z) : Result (Z * Z) :=
  body ← (match Prelude.strip_prefix "tensor<" result_ty with
          | Some value =>
              match Prelude.strip_suffix "xf32>" value with
              | Some body => Ok body
              | None => Panic "internal static GGUF result tensor type"
              end
          | None => Panic "internal static GGUF result tensor type"
          end);
  dimensions ← try_map (fun d => match parse_u32 d with
                                 | Some n => Ok n
                                 | None => Panic "internal static GGUF dimension"
                                 end) (split_char "x" body);
  match dimensions with
  | [output; blocks; last] =>
      if last =? block then Ok (output, blocks) else Panic "assertion `left == right` failed"
  | _ => Panic "assertion `left == right` failed"
  end.

Definition emit_q8_linalg (result bytes_ty words_ty result_ty : string) : Function unit :=
  '(output, blocks) ← lift (parse_block_dimensions result_ty 32);
  let n := [("output", num output); ("blocks", num blocks)] in
  let quants_ty := fmt n "tensor<{output}x{blocks}x32xi8>" in
  op_asm (fmt ([("result", result); ("bytes_ty", bytes_ty); ("words_ty", words_ty);
                ("result_ty", result_ty); ("quants_ty", quants_ty)] ++ n) "  %{result}_quants = tensor.extract_slice %{result}_bytes[0, 0, 2] [{output}, {blocks}, 32] [1, 1, 1] : {bytes_ty} to {quants_ty}
  %{result} = linalg.generic {{
      indexing_maps = [
        affine_map<(o, b, k) -> (o, b, k)>,
        affine_map<(o, b, k) -> (o, b, 0)>,
        affine_map<(o, b, k) -> (o, b, k)>
      ],
      iterator_types = ['parallel', 'parallel', 'parallel']}}
    ins(%{result}_quants, %{result}_words : {quants_ty}, {words_ty}) outs(%{result}_init : {result_ty}) {{
    ^bb0(%q: i8, %scale: f16, %unused: f32):
      %qi = arith.extsi %q : i8 to i32
      %qf = arith.sitofp %qi : i32 to f32
      %scale_f32 = arith.extf %scale : f16 to f32
      %dequant = arith.mulf %qf, %scale_f32 : f32
      linalg.yield %dequant : f32
  }} -> {result_ty}
").

Definition emit_q4_linalg (result bytes_ty words_ty result_ty : string) (quant_offset : Z)
    (has_minimum : bool) : Function unit :=
  '(output, blocks) ← lift (parse_block_dimensions result_ty 32);
  let n := [("output", num output); ("blocks", num blocks)] in
  let qbytes_ty := fmt n "tensor<{output}x{blocks}x16xi8>" in
  let qlanes_ty := fmt n "tensor<{output}x{blocks}x16x2xi4>" in
  let result4_ty := fmt n "tensor<{output}x{blocks}x2x16xf32>" in
  let optional (s : string) := if has_minimum then s else EmptyString in
  op_asm (fmt
    ([("result", result); ("bytes_ty", bytes_ty); ("words_ty", words_ty); ("result_ty", result_ty);
      ("qbytes_ty", qbytes_ty); ("qlanes_ty", qlanes_ty); ("result4_ty", result4_ty);
      ("quant_offset", num quant_offset);
      ("minimum_map", optional ",
        affine_map<(o, b, h, l) -> (o, b, 1)>");
      ("minimum_arg", optional (fmt [("result", result)] ", %{result}_words"));
      ("minimum_type", optional (fmt [("words_ty", words_ty)] ", {words_ty}"));
      ("minimum_bb", optional ", %minimum: f16");
      ("zero_or_min", if has_minimum then "      %bias = arith.extf %minimum : f16 to f32
"
                      else "      %bias = arith.constant 0.0 : f32
");
      ("zero_point", num (if has_minimum then 0 else 8))] ++ n) "  %{result}_qbytes = tensor.extract_slice %{result}_bytes[0, 0, {quant_offset}] [{output}, {blocks}, 16] [1, 1, 1] : {bytes_ty} to {qbytes_ty}
  %{result}_qlanes = iree_tensor_ext.bitcast %{result}_qbytes : {qbytes_ty} -> {qlanes_ty}
  %{result}_4_init = tensor.empty() : {result4_ty}
  %{result}_4 = linalg.generic {{
      indexing_maps = [
        affine_map<(o, b, h, l) -> (o, b, l, h)>,
        affine_map<(o, b, h, l) -> (o, b, 0)>{minimum_map},
        affine_map<(o, b, h, l) -> (o, b, h, l)>
      ],
      iterator_types = ['parallel', 'parallel', 'parallel', 'parallel']}}
    ins(%{result}_qlanes, %{result}_words{minimum_arg} : {qlanes_ty}, {words_ty}{minimum_type}) outs(%{result}_4_init : {result4_ty}) {{
    ^bb0(%q: i4, %scale: f16{minimum_bb}, %unused: f32):
      %qi0 = arith.extui %q : i4 to i32
      %zero_point = arith.constant {zero_point} : i32
      %qi = arith.subi %qi0, %zero_point : i32
      %qf = arith.sitofp %qi : i32 to f32
      %scale_f32 = arith.extf %scale : f16 to f32
      %scaled = arith.mulf %qf, %scale_f32 : f32
{zero_or_min}      %dequant = arith.addf %scaled, %bias : f32
      linalg.yield %dequant : f32
  }} -> {result4_ty}
  %{result} = tensor.collapse_shape %{result}_4 [[0], [1], [2, 3]] : {result4_ty} into {result_ty}
").

Definition emit_q6k_linalg (result bytes_ty words_ty result_ty : string) : Function unit :=
  '(output, blocks) ← lift (parse_block_dimensions result_ty 256);
  let n := [("output", num output); ("blocks", num blocks)] in
  let ql_bytes_ty := fmt n "tensor<{output}x{blocks}x128xi8>" in
  let qh_bytes_ty := fmt n "tensor<{output}x{blocks}x64xi8>" in
  let scales_ty := fmt n "tensor<{output}x{blocks}x16xi8>" in
  let ql_ty := fmt n "tensor<{output}x{blocks}x2x2x32x2xi4>" in
  let qh_ty := fmt n "tensor<{output}x{blocks}x2x32x2x2xi2>" in
  let scales6_ty := fmt n "tensor<{output}x{blocks}x2x2x2x2xi8>" in
  let result7_ty := fmt n "tensor<{output}x{blocks}x2x2x2x2x16xf32>" in
  op_asm (fmt
    ([("result", result); ("bytes_ty", bytes_ty); ("words_ty", words_ty); ("result_ty", result_ty);
      ("ql_bytes_ty", ql_bytes_ty); ("qh_bytes_ty", qh_bytes_ty); ("scales_ty", scales_ty);
      ("ql_ty", ql_ty); ("qh_ty", qh_ty); ("scales6_ty", scales6_ty); ("result7_ty", result7_ty)] ++ n)
    "  %{result}_ql_bytes = tensor.extract_slice %{result}_bytes[0, 0, 0] [{output}, {blocks}, 128] [1, 1, 1] : {bytes_ty} to {ql_bytes_ty}
  %{result}_qh_bytes = tensor.extract_slice %{result}_bytes[0, 0, 128] [{output}, {blocks}, 64] [1, 1, 1] : {bytes_ty} to {qh_bytes_ty}
  %{result}_scale_bytes = tensor.extract_slice %{result}_bytes[0, 0, 192] [{output}, {blocks}, 16] [1, 1, 1] : {bytes_ty} to {scales_ty}
  %{result}_ql = iree_tensor_ext.bitcast %{result}_ql_bytes : {ql_bytes_ty} -> {ql_ty}
  %{result}_qh = iree_tensor_ext.bitcast %{result}_qh_bytes : {qh_bytes_ty} -> {qh_ty}
  %{result}_scales = tensor.expand_shape %{result}_scale_bytes [[0], [1], [2, 3, 4, 5]] output_shape [{output}, {blocks}, 2, 2, 2, 2] : {scales_ty} into {scales6_ty}
  %{result}_7_init = tensor.empty() : {result7_ty}
  %{result}_7 = linalg.generic {{
      indexing_maps = [
        affine_map<(o, b, n, h, p, s, l) -> (o, b, n, p, s * 16 + l, h)>,
        affine_map<(o, b, n, h, p, s, l) -> (o, b, n, s * 16 + l, h, p)>,
        affine_map<(o, b, n, h, p, s, l) -> (o, b, n, h, p, s)>,
        affine_map<(o, b, n, h, p, s, l) -> (o, b, 104)>,
        affine_map<(o, b, n, h, p, s, l) -> (o, b, n, h, p, s, l)>
      ],
      iterator_types = ['parallel', 'parallel', 'parallel', 'parallel', 'parallel', 'parallel', 'parallel']}}
    ins(%{result}_ql, %{result}_qh, %{result}_scales, %{result}_words : {ql_ty}, {qh_ty}, {scales6_ty}, {words_ty}) outs(%{result}_7_init : {result7_ty}) {{
    ^bb0(%low: i4, %high2: i2, %scale_byte: i8, %super_scale: f16, %unused: f32):
      %low_i32 = arith.extui %low : i4 to i32
      %high_i32 = arith.extui %high2 : i2 to i32
      %sixteen = arith.constant 16 : i32
      %high = arith.muli %high_i32, %sixteen : i32
      %q_i32_u = arith.addi %low_i32, %high : i32
      %thirty_two = arith.constant 32 : i32
      %q_i32 = arith.subi %q_i32_u, %thirty_two : i32
      %qf = arith.sitofp %q_i32 : i32 to f32
      %scale_i32 = arith.extsi %scale_byte : i8 to i32
      %scale_f32 = arith.sitofp %scale_i32 : i32 to f32
      %super_f32 = arith.extf %super_scale : f16 to f32
      %local_scaled = arith.mulf %qf, %scale_f32 : f32
      %dequant = arith.mulf %local_scaled, %super_f32 : f32
      linalg.yield %dequant : f32
  }} -> {result7_ty}
  %{result} = tensor.collapse_shape %{result}_7 [[0], [1], [2, 3, 4, 5, 6]] : {result7_ty} into {result_ty}
").

Definition emit_dequant (layout : BlockLayout) (data : string) (output blocks : Z) (result : string)
    : Function unit :=
  let block := layout_block_size layout in
  let block_bytes := layout_bytes_per_block layout in
  let bytes := mul64 (mul64 output blocks) block_bytes in
  let words := block_bytes / 2 in
  let n := [("output", num output); ("blocks", num blocks); ("block", num block);
            ("block_bytes", num block_bytes); ("bytes", num bytes); ("words", num words)] in
  let data_ty := fmt n "tensor<{bytes}xi8>" in
  let bytes3_ty := fmt n "tensor<{output}x{blocks}x{block_bytes}xi8>" in
  let words_ty := fmt n "tensor<{output}x{blocks}x{words}xf16>" in
  let result_ty := fmt n "tensor<{output}x{blocks}x{block}xf32>" in
  _ ← op_asm (fmt ([("result", result); ("data", data); ("data_ty", data_ty); ("bytes3_ty", bytes3_ty);
                    ("words_ty", words_ty); ("result_ty", result_ty)] ++ n) "  %{result}_bytes = tensor.expand_shape {data} [[0, 1, 2]] output_shape [{output}, {blocks}, {block_bytes}] : {data_ty} into {bytes3_ty}
  %{result}_words = iree_tensor_ext.bitcast {data} : {data_ty} -> {words_ty}
  %{result}_init = tensor.empty() : {result_ty}
");
  match layout with
  | Q40 => emit_q4_linalg result bytes3_ty words_ty result_ty 2 false
  | Q41 => emit_q4_linalg result bytes3_ty words_ty result_ty 4 true
  | Q80 => emit_q8_linalg result bytes3_ty words_ty result_ty
  | Q6K => emit_q6k_linalg result bytes3_ty words_ty result_ty
  end.

Definition emit_block_linear (layout : BlockLayout) (rows input output : Z) : Program unit :=
  let block := layout_block_size layout in
  let block_bytes := layout_bytes_per_block layout in
  _ ← assert (is_multiple_of input block) "assertion failed: input.is_multiple_of(block)";
  let blocks := input / block in
  let bytes := mul64 (mul64 output blocks) block_bytes in
  let n := [("rows", num rows); ("input", num input); ("output", num output); ("blocks", num blocks);
            ("block", num block); ("bytes", num bytes)] in
  let x_ty := fmt n "tensor<{rows}x{input}xf32>" in
  let xg_ty := fmt n "tensor<{rows}x{blocks}x{block}xf32>" in
  let data_ty := fmt n "tensor<{bytes}xi8>" in
  let w_ty := fmt n "tensor<{output}x{blocks}x{block}xf32>" in
  let y_ty := fmt n "tensor<{rows}x{output}xf32>" in
  func_private (linear_fn layout rows input output) (
    x ← arg "x" x_ty;
    _ ← arg "data" data_ty;
    _ ← result_ty y_ty;
    _ ← op_asm (fmt ([("x", ssa x); ("x_ty", x_ty); ("xg_ty", xg_ty)] ++ n) "  %xg = tensor.expand_shape {x} [[0], [1, 2]] output_shape [{rows}, {blocks}, {block}] : {x_ty} into {xg_ty}
");
    _ ← emit_dequant layout "%data" output blocks "w";
    op_asm (fmt [("y_ty", y_ty); ("xg_ty", xg_ty); ("w_ty", w_ty)] "  %zero = arith.constant 0.0 : f32
  %y_init = tensor.empty() : {y_ty}
  %y_zero = linalg.fill ins(%zero : f32) outs(%y_init : {y_ty}) -> {y_ty}
  %y = linalg.generic {{
      indexing_maps = [
        affine_map<(b, o, g, k) -> (b, g, k)>,
        affine_map<(b, o, g, k) -> (o, g, k)>,
        affine_map<(b, o, g, k) -> (b, o)>
      ],
      iterator_types = ['parallel', 'parallel', 'reduction', 'reduction']}}
    ins(%xg, %w : {xg_ty}, {w_ty}) outs(%y_zero : {y_ty}) {{
    ^bb0(%xv: f32, %wv: f32, %acc: f32):
      %prod = arith.mulf %xv, %wv : f32
      %sum = arith.addf %acc, %prod : f32
      linalg.yield %sum : f32
  }} -> {y_ty}
  return %y : {y_ty}")).

Definition emit_block_gather (layout : BlockLayout) (vocab width : Z) : Program unit :=
  let block := layout_block_size layout in
  let block_bytes := layout_bytes_per_block layout in
  _ ← assert (is_multiple_of width block) "assertion failed: width.is_multiple_of(block)";
  let blocks := width / block in
  let row_bytes := mul64 blocks block_bytes in
  let bytes := mul64 vocab row_bytes in
  let n := [("vocab", num vocab); ("width", num width); ("blocks", num blocks); ("block", num block);
            ("row_bytes", num row_bytes); ("bytes", num bytes)] in
  let data_ty := fmt n "tensor<{bytes}xi8>" in
  let row_data_ty := fmt n "tensor<{row_bytes}xi8>" in
  let row_ty := fmt n "tensor<1x{width}xf32>" in
  let row3_ty := fmt n "tensor<1x{blocks}x{block}xf32>" in
  func_private (gather_fn layout vocab width) (
    data ← arg "data" data_ty;
    index ← arg "index" "index";
    _ ← result_ty row_ty;
    _ ← op_asm (fmt [("row_bytes", num row_bytes); ("index", ssa index); ("data", ssa data);
                     ("data_ty", data_ty); ("row_data_ty", row_data_ty)] "  %row_bytes = arith.constant {row_bytes} : index
  %offset = arith.muli {index}, %row_bytes : index
  %row_data = tensor.extract_slice {data}[%offset] [{row_bytes}] [1] : {data_ty} to {row_data_ty}
");
    _ ← emit_dequant layout "%row_data" 1 blocks "row3";
    op_asm (fmt [("row3_ty", row3_ty); ("row_ty", row_ty)] "  %row = tensor.collapse_shape %row3 [[0], [1, 2]] : {row3_ty} into {row_ty}
  return %row : {row_ty}")).

Definition block_helper (layout : BlockLayout) (spec : ParameterLoweringSpec) : Program bool :=
  match block_helper_key layout spec with
  | None => mret false
  | Some _ =>
      '(output, input) ← matrix (pl_binding spec);
      let output := wrap32 output in
      let input := wrap32 input in
      _ ← (match pl_operation spec with
           | LowerEmbedding => emit_block_gather layout output input
           | LowerLinear rows => emit_block_linear layout rows input output
           | LowerOutputProjection => emit_block_linear layout 1 input output
           end);
      mret true
  end.

Definition block_linear_call (layout : BlockLayout) (spec : LinearCallSpec) : Function bool :=
  match block_helper_key layout (lc_lowering spec) with
  | None => mret false
  | Some _ =>
      '(output, input) ← matrix (pl_binding (lc_lowering spec));
      let call rows :=
        bytes ← lift (component_bytes (pl_binding (lc_lowering spec)));
        let helper := linear_fn layout rows (wrap32 input) (wrap32 output) in
        _ ← op_asm (fmt [("result", lc_result_ssa spec); ("input_ssa", lc_input_ssa spec);
                         ("parameter_ssa", lc_parameter_ssa spec); ("helper", helper); ("rows", num rows);
                         ("input", num input); ("output", num output); ("bytes", num bytes)]
             "  %{result} = func.call @{helper}(%{input_ssa}, %{parameter_ssa}_data) : (tensor<{rows}x{input}xf32>, tensor<{bytes}xi8>) -> tensor<{rows}x{output}xf32>
");
        mret true in
      match pl_operation (lc_lowering spec) with
      | LowerLinear rows => call rows
      | LowerOutputProjection => call 1
      | LowerEmbedding => mret false
      end
  end.

Definition block_embedding_call (layout : BlockLayout) (spec : EmbeddingCallSpec) : Function bool :=
  match block_helper_key layout (ec_lowering spec) with
  | None => mret false
  | Some _ =>
      '(vocab, width) ← matrix (pl_binding (ec_lowering spec));
      bytes ← lift (component_bytes (pl_binding (ec_lowering spec)));
      let helper := gather_fn layout (wrap32 vocab) (wrap32 width) in
      _ ← op_asm (fmt [("result", ec_result_ssa spec); ("parameter_ssa", ec_parameter_ssa spec);
                       ("index_ssa", ec_index_ssa spec); ("helper", helper); ("bytes", num bytes);
                       ("width", num width)]
           "  %{result} = func.call @{helper}(%{parameter_ssa}_data, %{index_ssa}) : (tensor<{bytes}xi8>, index) -> tensor<1x{width}xf32>
");
      mret true
  end.

(** ** mlx_affine.rs *)

Definition mlx_component (binding : ParameterBinding) (name : string) : Result ParameterComponentBinding :=
  ok_or (List.find (fun c => String.eqb (pc_component_name c) name) (pb_components binding))
    (internal (Format "MLX affine parameter `{}` is missing `{name}`"
                 [AStr (pb_canonical_name binding); AStr name])).

Definition mlx_group_size (binding : ParameterBinding) : Result Z :=
  let fail := Err (internal (Format "parameter `{}` is not MLX affine U4" [AStr (pb_canonical_name binding)])) in
  match pb_encoding binding with
  | GroupQuantized _ storage_bits _ _ _ group_size _ _ _ packing _ _ =>
      if (storage_bits =? 4) && String.eqb packing "mlx.affine.u4" then Ok group_size else fail
  | _ => fail
  end.

Definition component_tensor_type (component : ParameterComponentBinding) : Result string :=
  let shape := join_with "x" (num <$> pc_shape component) in
  match pc_storage_type component with
  | Scalar ty =>
      Ok (fmt [("shape", shape); ("ty", match ty with U32 => "ui32" | other => ScalarType_display other end)]
            "tensor<{shape}x{ty}>")
  | other => Err (internal (Format "component `{}` has non-scalar storage {}"
                     [AStr (pc_external_key component); AText (StorageElementType_display other)]))
  end.

Definition emit_aux_f32 (result input : string) (component : ParameterComponentBinding)
    (storage_ty : string) (output groups : Z) : Function unit :=
  let f32_ty := fmt [("output", num output); ("groups", num groups)] "tensor<{output}x{groups}xf32>" in
  let e := [("result", result); ("input", input); ("storage_ty", storage_ty); ("f32_ty", f32_ty)] in
  match pc_storage_type component with
  | Scalar F32 => op_asm (fmt e "  %{result} = tensor.cast %{input} : {storage_ty} to {f32_ty}
")
  | _ => op_asm (fmt e "  %{result} = arith.extf %{input} : {storage_ty} to {f32_ty}
")
  end.

Definition matches_mlx_lowering (actual base : string) : bool :=
  String.eqb actual base || String.eqb actual (fmt [("base", base)] "{base}_gpu").
Definition is_gpu (lowering_id : string) : bool := ends_with "_gpu" lowering_id.
Definition gpu_suffix (gpu : bool) : string := if gpu then "gpu" else "cpu".

Definition mlx_linear_fn (rows input output group : Z) (gpu : bool) : string :=
  fmt [("rows", num rows); ("input", num input); ("output", num output); ("group", num group);
       ("", gpu_suffix gpu)] "mlx_u4_linear_{rows}_{input}_{output}_g{group}_{}".
Definition mlx_gather_fn (gpu : bool) : string := fmt [("", gpu_suffix gpu)] "mlx_u4_embedding_gather_{}".

Definition mlx_external_globals (bits : Z) (binding : ParameterBinding) (symbol : string) : Program bool :=
  if negb (bits =? 4) then mret false
  else
    _ ← emit_each (fun component_name =>
          component ← lift (mlx_component binding component_name);
          ty ← lift (component_tensor_type component);
          util_global_parameter
            (fmt [("symbol", symbol); ("component_name", component_name)] "{symbol}_{component_name}")
            (pc_external_key component) ty) ["packed"; "scales"; "biases"];
    mret true.

Definition mlx_parameter_load (bits : Z) (binding : ParameterBinding) (ssa symbol : string) : Function bool :=
  if negb (bits =? 4) then mret false
  else
    '(output, input) ← lift (ok_or (matrix_dims binding)
      (internal (Format "MLX affine parameter `{}` must have rank 2" [AStr (pb_canonical_name binding)])));
    group ← lift (mlx_group_size binding);
    groups ← lift (if group =? 0 then Panic "attempt to divide by zero" else Ok (input / group));
    packed ← lift (mlx_component binding "packed");
    scales ← lift (mlx_component binding "scales");
    biases ← lift (mlx_component binding "biases");
    packed_ty ← lift (component_tensor_type packed);
    scales_ty ← lift (component_tensor_type scales);
    biases_ty ← lift (component_tensor_type biases);
    let lanes_ty := fmt [("output", num output); ("groups", num groups); ("group", num group)] "tensor<{output}x{groups}x{group}xi4>" in
    let e := [("ssa", ssa); ("symbol", symbol); ("packed_ty", packed_ty); ("scales_ty", scales_ty);
              ("biases_ty", biases_ty); ("lanes_ty", lanes_ty)] in
    _ ← op_asm (fmt e "  %{ssa}_packed_words = util.global.load @{symbol}_packed : {packed_ty}
");
    _ ← op_asm (fmt e "  %{ssa}_packed = iree_tensor_ext.bitcast %{ssa}_packed_words : {packed_ty} -> {lanes_ty}
");
    _ ← op_asm (fmt e "  %{ssa}_scales_storage = util.global.load @{symbol}_scales : {scales_ty}
");
    _ ← op_asm (fmt e "  %{ssa}_biases_storage = util.global.load @{symbol}_biases : {biases_ty}
");
    _ ← emit_aux_f32 (fmt e "{ssa}_scales") (fmt e "{ssa}_scales_storage") scales scales_ty output groups;
    _ ← emit_aux_f32 (fmt e "{ssa}_biases") (fmt e "{ssa}_biases_storage") biases biases_ty output groups;
    mret true.

Definition GATHER : string := "mlx.affine.u4.gather.iree_grouped".
Definition MATMUL : string := "mlx.affine.u4.matmul.iree_grouped".

Definition mlx_helper_key (spec : ParameterLoweringSpec) : option string :=
  '(output, input) ← matrix_dims (pl_binding spec);
  match mlx_group_size (pl_binding spec) with
  | Ok group =>
      let e := [("output", num output); ("input", num input); ("group", num group);
                ("", gpu_suffix (is_gpu (pl_lowering_id spec)))] in
      let when base key := if matches_mlx_lowering (pl_lowering_id spec) base then Some key else None in
      match pl_operation spec with
      | LowerEmbedding => when GATHER (fmt e "mlx-u4-gather-{output}-{input}-g{group}-{}")
      | LowerLinear rows => when MATMUL (fmt (("rows", num rows) :: e) "mlx-u4-linear-{rows}-{input}-{output}-g{group}-{}")
      | LowerOutputProjection => when MATMUL (fmt e "mlx-u4-linear-1-{input}-{output}-g{group}-{}")
      end
  | _ => None
  end.

Definition emit_linear_u4 (name : string) (rows input output group : Z) (gpu : bool) : Program unit :=
  _ ← assert ((0 <? group) && is_multiple_of input group)
        "assertion failed: group > 0 && input.is_multiple_of(group)";
  let groups := input / group in
  let n := [("rows", num rows); ("input", num input); ("output", num output); ("group", num group);
            ("groups", num groups)] in
  let x_ty := fmt n "tensor<{rows}x{input}xf32>" in
  let xg_ty := fmt n "tensor<{rows}x{groups}x{group}xf32>" in
  let q_ty := fmt n "tensor<{output}x{groups}x{group}xi4>" in
  let aux_ty := fmt n "tensor<{output}x{groups}xf32>" in
  let w_ty := fmt n "tensor<{output}x{groups}x{group}xf32>" in
  let y_ty := fmt n "tensor<{rows}x{output}xf32>" in
  func_private name (
    x ← arg "x" x_ty;
    q ← arg "q" q_ty;
    scales ← arg "scales" aux_ty;
    biases ← arg "biases" aux_ty;
    _ ← result_ty y_ty;
    op_asm (fmt
      ([("x", ssa x); ("q", ssa q); ("scales", ssa scales); ("biases", ssa biases); ("x_ty", x_ty);
        ("xg_ty", xg_ty); ("q_ty", q_ty); ("aux_ty", aux_ty); ("w_ty", w_ty); ("y_ty", y_ty);
        ("barrier", if gpu then fmt [("w_ty", w_ty)] "%w_ready = util.optimization_barrier %w : {w_ty}" else EmptyString);
        ("weight", if gpu then "w_ready" else "w")] ++ n) "  %xg = tensor.expand_shape {x} [[0], [1, 2]] output_shape [{rows}, {groups}, {group}] : {x_ty} into {xg_ty}
  %w_init = tensor.empty() : {w_ty}
  %w = linalg.generic {{
      indexing_maps = [
        affine_map<(o, g, k) -> (o, g, k)>,
        affine_map<(o, g, k) -> (o, g)>,
        affine_map<(o, g, k) -> (o, g)>,
        affine_map<(o, g, k) -> (o, g, k)>
      ],
      iterator_types = ['parallel', 'parallel', 'parallel']}}
    ins({q}, {scales}, {biases} : {q_ty}, {aux_ty}, {aux_ty}) outs(%w_init : {w_ty}) {{
    ^bb0(%qv: i4, %scale: f32, %bias: f32, %unused: f32):
      %qi = arith.extui %qv : i4 to i32
      %qf = arith.uitofp %qi : i32 to f32
      %scaled = arith.mulf %qf, %scale : f32
      %dequant = arith.addf %scaled, %bias : f32
      linalg.yield %dequant : f32
  }} -> {w_ty}
  {barrier}
  %zero = arith.constant 0.0 : f32
  %y_init = tensor.empty() : {y_ty}
  %y_zero = linalg.fill ins(%zero : f32) outs(%y_init : {y_ty}) -> {y_ty}
  %y = linalg.generic {{
      indexing_maps = [
        affine_map<(b, o, g, k) -> (b, g, k)>,
        affine_map<(b, o, g, k) -> (o, g, k)>,
        affine_map<(b, o, g, k) -> (b, o)>
      ],
      iterator_types = ['parallel', 'parallel', 'reduction', 'reduction']}}
    ins(%xg, %{weight} : {xg_ty}, {w_ty}) outs(%y_zero : {y_ty}) {{
    ^bb0(%xv: f32, %wv: f32, %acc: f32):
      %prod = arith.mulf %xv, %wv : f32
      %sum = arith.addf %acc, %prod : f32
      linalg.yield %sum : f32
  }} -> {y_ty}
  return %y : {y_ty}")).

Definition emit_gather_u4 (name : string) (vocab width group : Z) : Program unit :=
  _ ← assert ((0 <? group) && is_multiple_of width group)
        "assertion failed: group > 0 && width.is_multiple_of(group)";
  let groups := width / group in
  let n := [("vocab", num vocab); ("width", num width); ("group", num group); ("groups", num groups)] in
  let q_ty := fmt n "tensor<{vocab}x{groups}x{group}xi4>" in
  let aux_ty := fmt n "tensor<{vocab}x{groups}xf32>" in
  let qrow_ty := fmt n "tensor<1x{groups}x{group}xi4>" in
  let auxrow_ty := fmt n "tensor<1x{groups}xf32>" in
  let row3_ty := fmt n "tensor<1x{groups}x{group}xf32>" in
  let row_ty := fmt n "tensor<1x{width}xf32>" in
  func_private name (
    q ← arg "q" q_ty;
    scales ← arg "scales" aux_ty;
    biases ← arg "biases" aux_ty;
    index ← arg "index" "index";
    _ ← result_ty row_ty;
    op_asm (fmt
      ([("q", ssa q); ("scales", ssa scales); ("biases", ssa biases); ("index", ssa index); ("q_ty", q_ty);
        ("aux_ty", aux_ty); ("qrow_ty", qrow_ty); ("auxrow_ty", auxrow_ty); ("row3_ty", row3_ty);
        ("row_ty", row_ty)] ++ n) "  %qrow = tensor.extract_slice {q}[{index}, 0, 0] [1, {groups}, {group}] [1, 1, 1] : {q_ty} to {qrow_ty}
  %srow = tensor.extract_slice {scales}[{index}, 0] [1, {groups}] [1, 1] : {aux_ty} to {auxrow_ty}
  %brow = tensor.extract_slice {biases}[{index}, 0] [1, {groups}] [1, 1] : {aux_ty} to {auxrow_ty}
  %row_init = tensor.empty() : {row3_ty}
  %row3 = linalg.generic {{
      indexing_maps = [
        affine_map<(b, g, k) -> (b, g, k)>,
        affine_map<(b, g, k) -> (b, g)>,
        affine_map<(b, g, k) -> (b, g)>,
        affine_map<(b, g, k) -> (b, g, k)>
      ],
      iterator_types = ['parallel', 'parallel', 'parallel']}}
    ins(%qrow, %srow, %brow : {qrow_ty}, {auxrow_ty}, {auxrow_ty}) outs(%row_init : {row3_ty}) {{
    ^bb0(%qv: i4, %scale: f32, %bias: f32, %unused: f32):
      %qi = arith.extui %qv : i4 to i32
      %qf = arith.uitofp %qi : i32 to f32
      %scaled = arith.mulf %qf, %scale : f32
      %dequant = arith.addf %scaled, %bias : f32
      linalg.yield %dequant : f32
  }} -> {row3_ty}
  %row = tensor.collapse_shape %row3 [[0], [1, 2]] : {row3_ty} into {row_ty}
  return %row : {row_ty}")).

Definition mlx_helper (spec : ParameterLoweringSpec) : Program bool :=
  match mlx_helper_key spec with
  | None => mret false
  | Some _ =>
      '(output, input) ← matrix (pl_binding spec);
      let output := wrap32 output in
      let input := wrap32 input in
      group ← lift (mlx_group_size (pl_binding spec));
      let gpu := is_gpu (pl_lowering_id spec) in
      _ ← (match pl_operation spec with
           | LowerEmbedding => emit_gather_u4 (mlx_gather_fn gpu) output input group
           | LowerLinear rows =>
               emit_linear_u4 (mlx_linear_fn rows input output group gpu) rows input output group gpu
           | LowerOutputProjection =>
               emit_linear_u4 (mlx_linear_fn 1 input output group gpu) 1 input output group gpu
           end);
      mret true
  end.

Definition mlx_linear_call (spec : LinearCallSpec) : Function bool :=
  match mlx_helper_key (lc_lowering spec) with
  | None => mret false
  | Some _ =>
      '(output, input) ← matrix (pl_binding (lc_lowering spec));
      let output := wrap32 output in
      let input := wrap32 input in
      let call rows :=
        group ← lift (mlx_group_size (pl_binding (lc_lowering spec)));
        groups ← lift (if group =? 0 then Panic "attempt to divide by zero" else Ok (input / group));
        let gpu := is_gpu (pl_lowering_id (lc_lowering spec)) in
        let helper := mlx_linear_fn rows input output group gpu in
        _ ← op_asm (fmt [("result", lc_result_ssa spec); ("input_ssa", lc_input_ssa spec);
                         ("p", lc_parameter_ssa spec); ("helper", helper); ("rows", num rows);
                         ("input", num input); ("output", num output); ("groups", num groups);
                         ("group", num group)]
             "  %{result} = func.call @{helper}(%{input_ssa}, %{p}_packed, %{p}_scales, %{p}_biases) : (tensor<{rows}x{input}xf32>, tensor<{output}x{groups}x{group}xi4>, tensor<{output}x{groups}xf32>, tensor<{output}x{groups}xf32>) -> tensor<{rows}x{output}xf32>
");
        mret true in
      match pl_operation (lc_lowering spec) with
      | LowerLinear rows => call rows
      | LowerOutputProjection => call 1
      | LowerEmbedding => mret false
      end
  end.

Definition mlx_embedding_call (spec : EmbeddingCallSpec) : Function bool :=
  match mlx_helper_key (ec_lowering spec) with
  | None => mret false
  | Some _ =>
      '(vocab, width) ← matrix (pl_binding (ec_lowering spec));
      group ← lift (mlx_group_size (pl_binding (ec_lowering spec)));
      groups ← lift (if group =? 0 then Panic "attempt to divide by zero" else Ok (width / group));
      let helper := mlx_gather_fn (is_gpu (pl_lowering_id (ec_lowering spec))) in
      _ ← op_asm (fmt [("result", ec_result_ssa spec); ("p", ec_parameter_ssa spec);
                       ("index_ssa", ec_index_ssa spec); ("helper", helper); ("vocab", num vocab);
                       ("width", num width); ("groups", num groups); ("group", num group)]
           "  %{result} = func.call @{helper}(%{p}_packed, %{p}_scales, %{p}_biases, %{index_ssa}) : (tensor<{vocab}x{groups}x{group}xi4>, tensor<{vocab}x{groups}xf32>, tensor<{vocab}x{groups}xf32>, index) -> tensor<1x{width}xf32>
");
      mret true
  end.

(** ** The methods of a definition

    Those of the trait [QuantizationDefinition] that emit, by the definition
    they belong to; the others have the defaults of the trait. *)
Inductive Emitter : Set := NoLowering | Blocks (layout : BlockLayout) | Affine (bits : Z).

Definition emitters : list (string * Emitter) :=
  [("gguf.q4_0", Blocks Q40); ("gguf.q4_1", Blocks Q41); ("gguf.q6_k", Blocks Q6K);
   ("gguf.q8_0", Blocks Q80); ("mlx.affine.u2", Affine 2); ("mlx.affine.u3", Affine 3);
   ("mlx.affine.u4", Affine 4); ("mlx.affine.u6", Affine 6); ("mlx.affine.u8", Affine 8)].
Definition emitter (d : QuantizationDefinition) : Emitter :=
  match List.find (fun x => String.eqb x.1 (ek_id (ed_key (qd_descriptor d)))) emitters with
  | Some (_, x) => x
  | None => NoLowering
  end.

Definition emit_external_globals (x : Emitter) (binding : ParameterBinding) (symbol : string) : Program bool :=
  match x with
  | NoLowering => mret false
  | Blocks _ => block_external_globals binding symbol
  | Affine bits => mlx_external_globals bits binding symbol
  end.
Definition emit_parameter_load (x : Emitter) (binding : ParameterBinding) (ssa symbol : string) : Function bool :=
  match x with
  | NoLowering => mret false
  | Blocks _ => block_parameter_load binding ssa symbol
  | Affine bits => mlx_parameter_load bits binding ssa symbol
  end.
Definition helper_key (x : Emitter) (spec : ParameterLoweringSpec) : option string :=
  match x with
  | NoLowering => None
  | Blocks layout => block_helper_key layout spec
  | Affine _ => mlx_helper_key spec
  end.
Definition emit_helper (x : Emitter) (spec : ParameterLoweringSpec) : Program bool :=
  match x with
  | NoLowering => mret false
  | Blocks layout => block_helper layout spec
  | Affine _ => mlx_helper spec
  end.
Definition emit_linear_call (x : Emitter) (spec : LinearCallSpec) : Function bool :=
  match x with
  | NoLowering => mret false
  | Blocks layout => block_linear_call layout spec
  | Affine _ => mlx_linear_call spec
  end.
Definition emit_embedding_call (x : Emitter) (spec : EmbeddingCallSpec) : Function bool :=
  match x with
  | NoLowering => mret false
  | Blocks layout => block_embedding_call layout spec
  | Affine _ => mlx_embedding_call spec
  end.

End Codegen.
