(* ===== verification/CodegenSymbols.v ===== *)
(** * The symbols of encoded parameters

    The globals that hold the components of an encoded parameter, the helper
    function of a lowering, and the calls: a call refers to the name the helper
    of the same specification declares, and a specification's key determines
    that name. *)
From S2P Require Import Prelude Strings Errors Serde Floats Mlir Symbols SymbolLogic Kernels CoreTypes Ir KernelRegistry Encodings Names Codegen.
From Stdlib Require Import ZArith Lia Ascii String SpecFloat.
From stdpp Require Import base list strings gmap pretty.
From stdpp Require Import options.

(** * The symbols of the kernels

    Every kernel is a private function under the name it is given that refers
    to no symbol. *)

Local Open Scope Z_scope.

Create HintDb refs.

(** What a step gives. *)
Ltac stepped :=
  let v := fresh "v" in
  let H := fresh "Hv" in
  intros v H; cbv beta in H;
  lazymatch type of H with
  | any _ => clear H
  | v = _ => subst v
  | _ => idtac
  end.

(** The judgement [Refs], by the structure of the emitter. *)
Ltac refs :=
  cbv beta iota zeta;
  lazymatch goal with
  | |- Refs _ (mbind _ _) _ => eapply Refs_bind; [refs|stepped; refs]
  | |- Refs _ (mret _) _ => apply Refs_ret; first [exact I|solve [ident]|idtac]
  | |- Refs _ (if ?b then _ else _) _ => destruct b eqn:?; refs
  | |- Refs _ (emit_if _ _) _ => apply Refs_if; intros ?; refs
  | |- Refs _ (emit_each _ _) _ => apply Refs_each; intros ? ?; refs
  | |- Refs _ (op_asm _) _ => apply Refs_op_asm; text
  | |- Refs _ (arg _ _) _ => apply Refs_arg; [ident|text]
  | |- Refs _ (arg_attrs _ _ _) _ => apply Refs_arg_attrs; [ident|text|text]
  | |- Refs _ (result_ty _) _ => apply Refs_result_ty; text
  | |- Refs _ (returns _) _ => apply Refs_returns; repeat (apply Forall_cons_2; [text|]); apply Forall_nil_2
  | |- Refs _ (ret_ty _ _) _ => apply Refs_ret_ty; [repeat (apply Forall_cons_2; [ident|]); apply Forall_nil_2|text]
  | |- Refs _ (Mlir.fresh _ _ _) _ => apply Refs_fresh; [ident|intros ? ?; text]
  | |- Refs _ (define _ _ _) _ => apply Refs_define; [ident|text]
  | |- Refs _ (push _) _ => apply Refs_push_text; text
  | |- Refs _ (lift ?r) _ => first [apply (Refs_lift _ r (fun a => r = Ok a)); exact (fun _ e => e)|apply Refs_lift; intros ? _; exact I]
  | |- Refs _ (match (if ?b then _ else _) with (_, _) => _ end) _ => destruct b eqn:?; refs
  | |- Refs _ (match ?p with (_, _) => _ end) _ => destruct p; refs
  | |- Refs _ (match ?x with _ => _ end) _ => destruct x eqn:?; refs
  | |- Refs _ ?m _ => first [solve [auto with refs]|progress unfold_head m; refs]
  end.

(** A private function that refers to nothing. *)
Ltac kernel := intros; cbv zeta beta; unfold func_private; eapply Scoped_function; [assumption|refs].

Section KernelSymbols.
Context {ML : MlirApi} {FF : FloatFunctions}.

Lemma Refs_args R l : Forall (fun a => is_ident a.1 /\ calm a.2) l -> Refs R (args l) any.
Proof.
  intros H. unfold args. apply Refs_each. intros a Ha. rewrite Forall_forall in H.
  destruct (H a Ha). refs.
Qed.
Ltac arguments := apply Refs_args; repeat (apply Forall_cons_2; [split; cbn [fst snd]; [ident|text]|]); apply Forall_nil_2.
#[local] Hint Extern 1 (Refs _ (args _) _) => arguments : refs.

Lemma emit_linear_scoped pre name s i o t : is_ident name -> Scoped pre (emit_linear name s i o t) [name].
Proof. unfold emit_linear. destruct t; kernel. Qed.
Lemma emit_rms_norm_scoped pre name s h eps : is_ident name -> Scoped pre (emit_rms_norm name s h eps) [name].
Proof. unfold emit_rms_norm. kernel. Qed.
Lemma emit_rms_norm_heads_scoped pre name s nh d eps :
  is_ident name -> Scoped pre (emit_rms_norm_heads name s nh d eps) [name].
Proof. unfold emit_rms_norm_heads. kernel. Qed.
Lemma emit_repeat_kv_scoped pre name s nkv nh d g :
  is_ident name -> Scoped pre (emit_repeat_kv name s nkv nh d g) [name].
Proof. unfold emit_repeat_kv. kernel. Qed.
Lemma emit_iree_attention_scoped pre name q n h g d :
  is_ident name -> Scoped pre (emit_iree_attention name q n h g d) [name].
Proof. unfold emit_iree_attention. kernel. Qed.
Lemma emit_full_causal_mask_scoped pre name q n h g :
  is_ident name -> Scoped pre (emit_full_causal_mask name q n h g) [name].
Proof. unfold emit_full_causal_mask. kernel. Qed.
Lemma emit_online_attention_page_scoped pre name q p h g d :
  is_ident name -> Scoped pre (emit_online_attention_page name q p h g d) [name].
Proof. unfold emit_online_attention_page. kernel. Qed.
Lemma emit_paged_causal_mask_scoped pre name q p h g :
  is_ident name -> Scoped pre (emit_paged_causal_mask name q p h g) [name].
Proof. unfold emit_paged_causal_mask. kernel. Qed.
Lemma emit_rope_chunk_scoped pre name s h d theta :
  is_ident name -> Scoped pre (emit_rope_chunk name s h d theta) [name].
Proof. unfold emit_rope_chunk. kernel. Qed.
Lemma rope_table_calm P f theta rows d : yields P (rope_table f theta rows d).
Proof.
  unfold rope_table. apply yields_join, Forall_fmap, Forall_forall. intros pos _. cbn beta.
  assert (H : calm (join_with ", " ((fun i => fmt_exp 8 (f (rope_angle theta d (Z.of_nat pos) (Z.of_nat i))))
    <$> seq 0 (Z.to_nat (d / 2))))).
  { apply yields_join, Forall_fmap, Forall_forall. intros i _. apply ident_yields, ident_fmt_exp. }
  change (yields P (fmt [("", join_with ", " ((fun i =>
    fmt_exp 8 (f (rope_angle theta d (Z.of_nat pos) (Z.of_nat i)))) <$> seq 0 (Z.to_nat (d / 2))))] "[{}]")).
  text.
Qed.
#[local] Hint Resolve rope_table_calm : ident.

Lemma emit_rope_scoped pre name s nh d theta :
  is_ident name -> Scoped pre (emit_rope name s nh d theta) [name].
Proof. unfold emit_rope. kernel. Qed.
Lemma emit_rope_at_scoped pre name mk nh d theta :
  is_ident name -> Scoped pre (emit_rope_at name mk nh d theta) [name].
Proof. unfold emit_rope_at. kernel. Qed.
Lemma emit_add_smoke_scoped pre : Scoped pre emit_add_smoke ["add"].
Proof. unfold emit_add_smoke, func. eapply Scoped_function; [done|refs]. Qed.
End KernelSymbols.


Section CodegenSymbols.
Context {SJ : SerdeJson} {ML : MlirApi}.

(** The globals of a parameter under a symbol. *)
Definition encoded_symbols (x : Emitter) (symbol : string) : list string :=
  match x with
  | NoLowering => []
  | Blocks _ => [String.append symbol "_data"]
  | Affine _ => [String.append symbol "_packed"; String.append symbol "_scales"; String.append symbol "_biases"]
  end.

(** The helper function of a specification. *)
Definition helper_name (x : Emitter) (spec : ParameterLoweringSpec) : option string :=
  '(output, input) ← matrix_dims (pl_binding spec);
  let output := wrap32 output in
  let input := wrap32 input in
  match x with
  | NoLowering => None
  | Blocks layout =>
      Some (match pl_operation spec with
            | LowerEmbedding => gather_fn layout output input
            | LowerLinear rows => linear_fn layout rows input output
            | LowerOutputProjection => linear_fn layout 1 input output
            end)
  | Affine _ =>
      match mlx_group_size (pl_binding spec) with
      | Ok group =>
          let gpu := is_gpu (pl_lowering_id spec) in
          Some (match pl_operation spec with
                | LowerEmbedding => mlx_gather_fn gpu
                | LowerLinear rows => mlx_linear_fn rows input output group gpu
                | LowerOutputProjection => mlx_linear_fn 1 input output group gpu
                end)
      | _ => None
      end
  end.

(** ** Values *)

Lemma stem_ident l : is_ident (Codegen.stem l).
Proof. by destruct l. Qed.
Lemma gpu_suffix_ident b : is_ident (gpu_suffix b).
Proof. by destruct b. Qed.
Lemma scalar_type_ident ty : is_ident (ScalarType_display ty).
Proof. by destruct ty. Qed.
#[local] Hint Resolve stem_ident gpu_suffix_ident scalar_type_ident : ident.

Lemma linear_fn_ident l rows input output : is_ident (linear_fn l rows input output).
Proof. unfold linear_fn. ident. Qed.
Lemma gather_fn_ident l vocab width : is_ident (gather_fn l vocab width).
Proof. unfold gather_fn. ident. Qed.
Lemma mlx_linear_fn_ident rows input output group gpu : is_ident (mlx_linear_fn rows input output group gpu).
Proof. unfold mlx_linear_fn. ident. Qed.
Lemma mlx_gather_fn_ident gpu : is_ident (mlx_gather_fn gpu).
Proof. by destruct gpu. Qed.
#[local] Hint Resolve linear_fn_ident gather_fn_ident mlx_linear_fn_ident mlx_gather_fn_ident : ident.

Lemma component_tensor_type_calm component ty : component_tensor_type component = Ok ty -> calm ty.
Proof.
  unfold component_tensor_type. destruct (pc_storage_type component) as [t| |]; try done.
  intros H. assert (Hs : is_ident (join_with "x" (num <$> pc_shape component))).
  { clear. induction (pc_shape component) as [|n l IH]; [done|]. cbn [fmap list_fmap join_with].
    destruct (num <$> l) eqn:E; [ident|]. apply ident_append; [ident|].
    apply (ident_append "x"); [done|]. exact IH. }
  assert (Ht : is_ident (match t with U32 => "ui32" | other => ScalarType_display other end)).
  { destruct t; done. }
  injection H as <-. text.
Qed.

(** ** Declarations *)

(** What an emitter that reports whether it did anything declares when it did. *)
Definition Scoped_when (pre : list string) (m : Emit ModuleBuilder bool) (adds : list string) : Prop :=
  forall b b', module_ok b -> pre ⊆ declared b -> m b = Ok (true, b') ->
  module_ok b' /\ declared b ⊆ declared b' /\ adds ⊆ declared b'.

Lemma Scoped_when_false pre adds : Scoped_when pre (mret false) adds.
Proof. intros b b' _ _ [=]. Qed.
Lemma Scoped_when_then {A} pre (m : Emit ModuleBuilder A) adds :
  Scoped pre m adds -> Scoped_when pre (_ ← m; mret true) adds.
Proof.
  intros H b b' Hb Hp. unfold mbind, emit_bind. destruct (m b) as [[a b1]|e|s] eqn:E; cbn; try done.
  intros [= <-]. by eapply H.
Qed.
Lemma Scoped_when_lift {A} pre (r : Result A) k adds :
  (forall a, r = Ok a -> Scoped_when pre (k a) adds) -> Scoped_when pre (a ← lift r; k a) adds.
Proof.
  intros H b b' Hb Hp. unfold mbind, emit_bind, lift. destruct r as [a|e|s]; cbn; try done.
  by apply H.
Qed.
Lemma Scoped_lift_then {A B} pre (r : Result A) (k : A -> Emit ModuleBuilder B) adds :
  (forall a, r = Ok a -> Scoped pre (k a) adds) -> Scoped pre (a ← lift r; k a) adds.
Proof.
  intros H b a b' Hb Hp. unfold mbind, emit_bind, lift. destruct r as [x|e|s]; cbn; try done.
  by apply H.
Qed.

Definition quotable_keys (binding : ParameterBinding) : Prop :=
  Forall (fun component => is_quotable (pc_external_key component)) (pb_components binding).

Lemma data_component_elem binding component :
  data_component binding = Ok component -> component ∈ pb_components binding.
Proof.
  unfold data_component. destruct (pb_components binding) as [|c [|]]; try done.
  destruct (_ || _); [done|]. intros [= <-]. apply list_elem_of_here.
Qed.
Lemma mlx_component_elem binding name component :
  mlx_component binding name = Ok component -> component ∈ pb_components binding.
Proof.
  unfold mlx_component. destruct (List.find _ _) as [c|] eqn:E; cbn; [|done]. intros [= <-].
  apply List.find_some in E as [E _]. by apply list_elem_of_In.
Qed.

Lemma external_globals_scoped pre x binding symbol :
  is_ident symbol -> quotable_keys binding ->
  Scoped_when pre (emit_external_globals x binding symbol) (encoded_symbols x symbol).
Proof.
  intros Hs Hq. unfold quotable_keys in Hq. rewrite Forall_forall in Hq.
  destruct x as [|layout|bits]; cbn [emit_external_globals encoded_symbols]; [apply Scoped_when_false|..].
  - unfold block_external_globals. apply Scoped_when_lift. intros component Hc%data_component_elem.
    apply Scoped_when_lift. intros bytes _. apply Scoped_when_then.
    rewrite fmt_name. apply Scoped_global_parameter; [|auto|text].
    cbn [name_text List.filter nonempty]. by apply ident_append.
  - unfold mlx_external_globals. destruct (negb _); [apply Scoped_when_false|]. apply Scoped_when_then.
    eapply Scoped_weaken; [apply (Scoped_each _ _ (fun name => [fmt [("symbol", symbol); ("component_name", name)] "{symbol}_{component_name}"]))|done|].
    + intros name Hname. apply Scoped_lift_then. intros component Hc%mlx_component_elem.
      apply Scoped_lift_then. intros ty Hty%component_tensor_type_calm.
      apply Scoped_global_parameter; [|auto|done].
      assert (Hn : is_ident name) by (revert name Hname; apply Forall_forall; repeat constructor). ident.
    + cbn [flat_map app]. rewrite !fmt_name. reflexivity.
Qed.

(** ** Helper functions *)

Lemma emit_dequant_refs R layout data output blocks result :
  calm data -> is_ident result -> Refs R (emit_dequant layout data output blocks result) any.
Proof.
  intros Hd Hr. unfold emit_dequant. destruct layout; cbv zeta; (eapply Refs_bind; [refs|stepped]).
  - unfold emit_q4_linalg. refs.
  - unfold emit_q4_linalg. refs.
  - unfold emit_q8_linalg. refs.
  - unfold emit_q6k_linalg. refs.
Qed.
#[local] Hint Extern 1 (Refs _ (emit_dequant _ _ _ _ _) _) => apply emit_dequant_refs; [text|ident] : refs.

Lemma emit_block_linear_scoped pre layout rows input output :
  Scoped pre (emit_block_linear layout rows input output) [linear_fn layout rows input output].
Proof.
  unfold emit_block_linear. cbv zeta. apply Scoped_lift_then. intros _ _. unfold func_private.
  eapply Scoped_function; [apply linear_fn_ident|refs].
Qed.
Lemma emit_block_gather_scoped pre layout vocab width :
  Scoped pre (emit_block_gather layout vocab width) [gather_fn layout vocab width].
Proof.
  unfold emit_block_gather. cbv zeta. apply Scoped_lift_then. intros _ _. unfold func_private.
  eapply Scoped_function; [apply gather_fn_ident|refs].
Qed.
Lemma emit_linear_u4_scoped pre name rows input output group gpu :
  is_ident name -> Scoped pre (emit_linear_u4 name rows input output group gpu) [name].
Proof.
  intros Hn. unfold emit_linear_u4. cbv zeta. apply Scoped_lift_then. intros _ _. unfold func_private.
  eapply Scoped_function; [done|]. destruct gpu; refs.
Qed.
Lemma emit_gather_u4_scoped pre name vocab width group :
  is_ident name -> Scoped pre (emit_gather_u4 name vocab width group) [name].
Proof.
  intros Hn. unfold emit_gather_u4. cbv zeta. apply Scoped_lift_then. intros _ _. unfold func_private.
  eapply Scoped_function; [done|refs].
Qed.

Lemma matrix_dims_matrix binding d :
  (match matrix_dims binding with Some d => Ok d | None => unreachable end) = Ok d -> matrix_dims binding = Some d.
Proof. destruct (matrix_dims binding); [by intros [= ->]|done]. Qed.

Lemma emit_helper_scoped pre x spec name :
  helper_name x spec = Some name -> Scoped_when pre (emit_helper x spec) [name].
Proof.
  intros Hn. destruct x as [|layout|bits]; cbn [emit_helper]; [apply Scoped_when_false|..].
  - unfold block_helper. destruct (block_helper_key layout spec); [|apply Scoped_when_false].
    apply Scoped_when_lift. intros [output input] Hd%matrix_dims_matrix. apply Scoped_when_then.
    unfold helper_name in Hn. rewrite Hd in Hn. cbn in Hn. injection Hn as <-.
    destruct (pl_operation spec); [apply emit_block_gather_scoped|apply emit_block_linear_scoped..].
  - unfold mlx_helper. destruct (mlx_helper_key spec); [|apply Scoped_when_false].
    apply Scoped_when_lift. intros [output input] Hd%matrix_dims_matrix.
    apply Scoped_when_lift. intros group Hg. apply Scoped_when_then.
    unfold helper_name in Hn. rewrite Hd in Hn. cbn in Hn. rewrite Hg in Hn. injection Hn as <-.
    destruct (pl_operation spec);
      [apply emit_gather_u4_scoped, mlx_gather_fn_ident|apply emit_linear_u4_scoped, mlx_linear_fn_ident..].
Qed.

(** ** Loads and calls *)

Ltac declared_name ::= cbn [name_text env_get String.eqb Ascii.eqb Bool.eqb]; solve [auto].

Lemma emit_parameter_load_refs (R : string -> Prop) x binding ssa symbol :
  is_ident ssa -> is_ident symbol -> (forall n, n ∈ encoded_symbols x symbol -> R n) ->
  Refs R (emit_parameter_load x binding ssa symbol) any.
Proof.
  intros Hv Hs HR. destruct x as [|layout|bits]; cbn [emit_parameter_load encoded_symbols] in *.
  - by apply Refs_ret.
  - assert (Hd : R (String.append symbol "_data")) by (apply HR; set_solver).
    unfold block_parameter_load. refs.
  - assert (Hp : R (String.append symbol "_packed")) by (apply HR; set_solver).
    assert (Hc : R (String.append symbol "_scales")) by (apply HR; set_solver).
    assert (Hb : R (String.append symbol "_biases")) by (apply HR; set_solver).
    assert (Haux : forall result input component ty output groups,
      is_ident result -> is_ident input -> calm ty ->
      Refs R (emit_aux_f32 result input component ty output groups) any).
    { intros result input component ty output groups H1 H2 H3. unfold emit_aux_f32. cbv zeta.
      destruct (pc_storage_type component) as [[]| |]; refs. }
    unfold mlx_parameter_load. destruct (negb _); [by apply Refs_ret|]. cbv zeta.
    eapply Refs_bind; [refs|intros [output input] _].
    do 5 (eapply Refs_bind; [refs|intros ? _]).
    eapply Refs_bind; [refs|intros packed_ty Ht1%component_tensor_type_calm].
    eapply Refs_bind; [refs|intros scales_ty Ht2%component_tensor_type_calm].
    eapply Refs_bind; [refs|intros biases_ty Ht3%component_tensor_type_calm].
    do 4 (eapply Refs_bind; [refs|stepped]).
    do 2 (eapply Refs_bind; [apply Haux; [ident|ident|done]|stepped]). by apply Refs_ret.
Qed.

Lemma emit_linear_call_refs (R : string -> Prop) x spec :
  is_ident (lc_result_ssa spec) -> is_ident (lc_input_ssa spec) -> is_ident (lc_parameter_ssa spec) ->
  (forall n, helper_name x (lc_lowering spec) = Some n -> R n) ->
  Refs R (Codegen.emit_linear_call x spec) any.
Proof.
  intros Hr Hi Hp HR. destruct x as [|layout|bits]; cbn [Codegen.emit_linear_call]; [by apply Refs_ret|..].
  - unfold block_linear_call. destruct (block_helper_key layout _); [|by apply Refs_ret].
    eapply Refs_bind; [unfold matrix; refs|intros [output input] Hd%matrix_dims_matrix].
    unfold helper_name in HR. rewrite Hd in HR. cbn in HR.
    destruct (pl_operation (lc_lowering spec)); [by apply Refs_ret|..]; refs.
  - unfold mlx_linear_call. destruct (mlx_helper_key _); [|by apply Refs_ret].
    eapply Refs_bind; [unfold matrix; refs|intros [output input] Hd%matrix_dims_matrix].
    unfold helper_name in HR. rewrite Hd in HR. cbn in HR.
    destruct (pl_operation (lc_lowering spec)); [by apply Refs_ret|..];
      (eapply Refs_bind; [refs|intros group Hg]; rewrite Hg in HR; refs).
Qed.

Lemma emit_embedding_call_refs (R : string -> Prop) x spec :
  is_ident (ec_result_ssa spec) -> is_ident (ec_index_ssa spec) -> is_ident (ec_parameter_ssa spec) ->
  pl_operation (ec_lowering spec) = LowerEmbedding ->
  (forall n, helper_name x (ec_lowering spec) = Some n -> R n) ->
  Refs R (Codegen.emit_embedding_call x spec) any.
Proof.
  intros Hr Hi Hp Hop HR. destruct x as [|layout|bits]; cbn [Codegen.emit_embedding_call]; [by apply Refs_ret|..].
  - unfold block_embedding_call. destruct (block_helper_key layout _); [|by apply Refs_ret].
    eapply Refs_bind; [unfold matrix; refs|intros [output input] Hd%matrix_dims_matrix].
    unfold helper_name in HR. rewrite Hd, Hop in HR. cbn in HR. refs.
  - unfold mlx_embedding_call. destruct (mlx_helper_key _); [|by apply Refs_ret].
    eapply Refs_bind; [unfold matrix; refs|intros [output input] Hd%matrix_dims_matrix].
    unfold helper_name in HR. rewrite Hd, Hop in HR. cbn in HR.
    eapply Refs_bind; [refs|intros group Hg]. rewrite Hg in HR. refs.
Qed.

(** ** Keys

    A key is a list of fields joined by dashes, of which they have none. *)

Definition no_dash (s : string) : bool := all_chars (fun c => negb (Ascii.eqb c "-")) s.

Lemma dash_inj a a' s s' :
  no_dash a = true -> no_dash a' = true ->
  String.append a (String "-" s) = String.append a' (String "-" s') -> a = a' /\ s = s'.
Proof.
  unfold no_dash. revert a'. induction a as [|c a IH]; intros a' Ha Ha' E; destruct a' as [|c' a']; cbn in *.
  - by injection E.
  - injection E as <- _. by apply andb_true_iff in Ha' as [H _].
  - injection E as -> _. by apply andb_true_iff in Ha as [H _].
  - injection E as -> E. apply andb_true_iff in Ha as [_ Ha]. apply andb_true_iff in Ha' as [_ Ha'].
    by destruct (IH a' Ha Ha' E) as [-> ->].
Qed.
Lemma no_dash_app a s : no_dash (String.append a (String "-" s)) = false.
Proof. unfold no_dash. rewrite all_chars_app. cbn. apply andb_false_r. Qed.

Lemma join_inj l l' :
  Forall (fun s => no_dash s = true) l -> Forall (fun s => no_dash s = true) l' -> l <> [] -> l' <> [] ->
  join_with "-" l = join_with "-" l' -> l = l'.
Proof.
  revert l'. induction l as [|a l IH]; intros l' Hl Hl' Hn Hn'; [done|]. destruct l' as [|a' l']; [done|].
  inversion_clear Hl as [|? ? Ha Hl2]. inversion_clear Hl' as [|? ? Ha' Hl2'].
  destruct l as [|b l], l' as [|b' l']; cbn [join_with].
  - by intros ->.
  - intros ->. exfalso. revert Ha. change (String.append "-" ?x) with (String "-" x).
    by rewrite no_dash_app.
  - intros <-. exfalso. revert Ha'. change (String.append "-" ?x) with (String "-" x).
    by rewrite no_dash_app.
  - intros E. apply dash_inj in E as [-> E]; [|done..]. f_equal. by apply IH.
Qed.

Lemma no_dash_num n : no_dash (num n) = true.
Proof.
  unfold no_dash, num. pose proof (decimal_digits n) as H. revert H. generalize (decimal n). intros s.
  induction s as [|c s IH]; cbn; [done|]. destruct (digit_value c) eqn:Hc; [|done]. intros Hs.
  apply andb_true_iff. split; [|auto]. clear IH Hs.
  revert Hc. destruct c as [[] [] [] [] [] [] [] []]; vm_compute; done.
Qed.
Lemma num_inj m n : 0 <= m -> 0 <= n -> num m = num n -> m = n.
Proof. unfold num, decimal. intros Hm Hn H. apply (inj pretty) in H. lia. Qed.

Definition key_fields (x : Emitter) (spec : ParameterLoweringSpec) : option (list string) :=
  '(output, input) ← matrix_dims (pl_binding spec);
  match x with
  | NoLowering => None
  | Blocks layout =>
      Some (Codegen.stem layout ::
        match pl_operation spec with
        | LowerEmbedding => ["gather"; num output; num input]
        | LowerLinear rows => ["linear"; num rows; num input; num output]
        | LowerOutputProjection => ["linear"; "1"; num input; num output]
        end)
  | Affine _ =>
      match mlx_group_size (pl_binding spec) with
      | Ok group =>
          Some ("mlx" :: "u4" ::
            match pl_operation spec with
            | LowerEmbedding => ["gather"; num output; num input]
            | LowerLinear rows => ["linear"; num rows; num input; num output]
            | LowerOutputProjection => ["linear"; "1"; num input; num output]
            end ++ [String "g" (num group); gpu_suffix (is_gpu (pl_lowering_id spec))])
      | _ => None
      end
  end.

Lemma helper_key_fields x spec key :
  helper_key x spec = Some key ->
  exists fields, key_fields x spec = Some fields /\ key = join_with "-" fields.
Proof.
  unfold key_fields. destruct x as [|layout|bits]; cbn [helper_key]; [done|..].
  - unfold block_helper_key. destruct (matrix_dims _) as [[output input]|]; cbn [mbind option_bind]; [|done].
    destruct (negb _); [done|]. intros [= <-]. eexists. split; [done|].
    destruct (pl_operation spec); rewrite fmt_name; cbn;
      repeat (f_equal; try done).
  - unfold mlx_helper_key. destruct (matrix_dims _) as [[output input]|]; cbn [mbind option_bind]; [|done].
    destruct (mlx_group_size _) as [group| |]; [|done..].
    destruct (pl_operation spec); (destruct (matches_mlx_lowering _ _); [|done]); intros [= <-];
      (eexists; split; [done|]); rewrite fmt_name; cbn; repeat (f_equal; try done).
Qed.

Lemma key_fields_no_dash x spec fields :
  key_fields x spec = Some fields -> Forall (fun s => no_dash s = true) fields /\ fields <> [].
Proof.
  unfold key_fields. destruct (matrix_dims _) as [[output input]|]; cbn; [|done].
  pose proof no_dash_num as Hn.
  destruct x as [|layout|bits]; [done|..].
  - intros [= <-]. split; [|done]. constructor; [by destruct layout|].
    destruct (pl_operation spec); repeat constructor; auto.
  - destruct (mlx_group_size _) as [group| |]; [|done..]. intros [= <-]. split; [|done].
    assert (Hg : no_dash (String "g" (num group)) = true) by apply Hn.
    assert (Hs : no_dash (gpu_suffix (is_gpu (pl_lowering_id spec))) = true) by by destruct (is_gpu _).
    destruct (pl_operation spec); repeat constructor; auto.
Qed.

Definition shape_ok (binding : ParameterBinding) : Prop := Forall (fun d => 0 <= d) (pb_logical_shape binding).

(** Two specifications with one key have one helper. *)
Lemma key_determines_name x x' spec spec' key name :
  shape_ok (pl_binding spec) -> shape_ok (pl_binding spec') ->
  helper_key x spec = Some key -> helper_key x' spec' = Some key ->
  helper_name x spec = Some name -> helper_name x' spec' = Some name.
Proof.
  intros Hs Hs' (fields & Hf & ->)%helper_key_fields (fields' & Hf' & E)%helper_key_fields.
  destruct (key_fields_no_dash _ _ _ Hf) as [Hd Hn]. destruct (key_fields_no_dash _ _ _ Hf') as [Hd' Hn'].
  apply join_inj in E as <-; [|done..]. clear Hd Hd' Hn Hn'.
  unfold key_fields in Hf, Hf'. unfold helper_name, shape_ok, matrix_dims in *.
  destruct (pb_logical_shape (pl_binding spec)) as [|a [|b [|]]]; cbn in *; try done.
  destruct (pb_logical_shape (pl_binding spec')) as [|a' [|b' [|]]]; cbn in *; try done.
  inversion_clear Hs as [|? ? Ha Hb]. inversion_clear Hb as [|? ? Hb' _].
  inversion_clear Hs' as [|? ? Ha' Hb]. inversion_clear Hb as [|? ? Hb2' _].
  assert (Hnum : forall m n, 0 <= m -> 0 <= n -> num m = num n -> wrap32 m = wrap32 n)
    by (intros m n Hm Hn ?; f_equal; by apply num_inj).
  destruct x as [|l|w], x' as [|l'|w']; try done.
  - rewrite <-Hf in Hf'. injection Hf' as Hl Hf'. assert (l' = l) as -> by by destruct l, l'.
    intros [= <-]. f_equal. unfold linear_fn, gather_fn.
    destruct (pl_operation spec), (pl_operation spec'); try done; injection Hf'; intros;
      rewrite (Hnum a' a), (Hnum b' b) by done; f_equal; repeat (f_equal; try done).
  - destruct (mlx_group_size _); [|done..]. rewrite <-Hf in Hf'. injection Hf' as Hl _. by destruct l.
  - destruct (mlx_group_size _); [|done..]. rewrite <-Hf in Hf'. injection Hf' as Hl _. by destruct l'.
  - destruct (mlx_group_size (pl_binding spec)) as [g| |]; [|done..].
    destruct (mlx_group_size (pl_binding spec')) as [g'| |]; [|done..].
    rewrite <-Hf in Hf'. injection Hf' as Hf'. intros [= <-]. f_equal. unfold mlx_linear_fn, mlx_gather_fn.
    destruct (pl_operation spec), (pl_operation spec'); try done; injection Hf'; intros Hgpu Hg; intros;
      rewrite ?(Hnum a' a), ?(Hnum b' b), ?Hgpu, ?Hg by done; repeat (f_equal; try done).
Qed.
End CodegenSymbols.
