(* ===== verification/Coverage.v ===== *)
(** * Kernel coverage: crates/dyninfer-quantization/src/lib.rs

    The dry run that resolves the encoding of every bound parameter and selects
    a kernel for every operation and mode of a graph, and the completeness
    check that gates compilation. *)
From S2P Require Import Prelude Errors Serde CoreTypes Target Catalog Ir KernelRegistry Encodings.
From S2P Require Import EncodingSpecs.
From Stdlib Require Import ZArith Lia Ascii String.
From stdpp Require Import base list strings gmap pretty.
From stdpp Require Import options.

Local Open Scope Z_scope.

Section Coverage.
Context {SJ : SerdeJson}.
(** The derived [Debug] of the data in the diagnostic. *)
Context (debug_rejections : list CandidateRejection -> text).

Record OperationCoverage := {
  oc_operation_id : string;
  oc_operation : KernelOperationKind;
  oc_mode : ExecutionMode;
  oc_encoding : option EncodingKey;
  oc_selected : option SelectedKernelCandidate;
  oc_rejected : list CandidateRejection;
  oc_logical_shape : option Shape;
  oc_parameter_slots : list string;
  oc_checkpoint_component_keys : list string;
  oc_validation_error : option text;
}.

Record CoverageReport := {
  cr_target : TargetProfile;
  cr_target_fingerprint : Digest;
  cr_precision_policy : PrecisionPolicy;
  cr_operations : list OperationCoverage;
}.

Definition is_some {A} (o : option A) : bool := match o with Some _ => true | None => false end.

Definition operation_complete (o : OperationCoverage) : bool :=
  is_some (oc_selected o) && negb (is_some (oc_validation_error o)).

Definition is_complete (report : CoverageReport) : bool :=
  forallb operation_complete (cr_operations report).

Definition selected_kernels (report : CoverageReport) : list SelectedKernel :=
  omap (fun o =>
    s ← oc_selected o;
    Some {| sk_operation_id := oc_operation_id o; sk_mode := oc_mode o;
            sk_kernel_id := kc_id (sc_descriptor s);
            sk_lowering_id := kc_lowering (sc_descriptor s);
            sk_parameter_slots := oc_parameter_slots o; sk_input_type := sc_input_type s;
            sk_output_type := sc_output_type s; sk_activation_type := sc_activation_type s;
            sk_accumulator_type := sc_accumulator_type s |}) (cr_operations report).

Definition coverage_diagnostic (report : CoverageReport) (o : OperationCoverage) : Diagnostic :=
  {| diag_code := "E_KERNEL_COVERAGE"; diag_severity := SevError;
     diag_message := default
       (Format "no production kernel selected for operation `{}` in {:?} mode"
          [AStr (oc_operation_id o); AStr (debug_mode (oc_mode o))]) (oc_validation_error o);
     diag_architecture_op := Some (oc_operation_id o);
     diag_parameter_slot := head (oc_parameter_slots o);
     diag_checkpoint_key := head (oc_checkpoint_component_keys o);
     diag_expected :=
       e ← oc_encoding o;
       Some (Format "production {:?} kernel for {}@{} and shape {:?}"
         [AStr (debug_operation (oc_operation o)); AStr (ek_id e); AInt (ek_version e);
          debug_option AInts (oc_logical_shape o)]);
     diag_actual := Some (Format "target={} architecture={:?} triple={:?} features={:?} fingerprint={}"
       (debug_target (cr_target report) ++ [AStr (cr_target_fingerprint report)]));
     diag_pass_name := Some "kernel.coverage";
     diag_suggestion := Some (Format "add and qualify a matching kernel; rejected candidates: {:?}"
       [AText (debug_rejections (oc_rejected o))]) |}.

Definition require_complete (report : CoverageReport) : Result unit :=
  if is_complete report then Ok tt
  else Err (Compilation
    {| ce_message := lit "bound model has incomplete production kernel coverage";
       ce_pass := Some "kernel.coverage";
       ce_diagnostics := map (coverage_diagnostic report)
         (List.filter (fun o => negb (is_some (oc_selected o)) || is_some (oc_validation_error o))
            (cr_operations report)) |}).

Definition physical_encoding_key (encoding : PhysicalEncoding) : EncodingKey :=
  match encoding with
  | Plain storage_type _ => {| ek_id := plain_id storage_type; ek_version := 1 |}
  | BlockQuantized _ _ _ codec codec_version _ _ _ _ =>
      {| ek_id := codec; ek_version := codec_version |}
  | OpaqueEncoding codec codec_version _ => {| ek_id := codec; ek_version := codec_version |}
  | GroupQuantized _ _ _ _ _ _ _ _ _ packing _ _ => {| ek_id := packing; ek_version := 1 |}
  | Sparse _ format _ => {| ek_id := format; ek_version := 1 |}
  end.

(** The two maps of [dry_run_coverage]; a later binding of a slot wins. *)
Definition definitions_by_slot (parameters : list LogicalParameter) (binding : BindingPlan)
    : gmap string LogicalParameter :=
  foldl (fun m bound =>
    match List.find (fun p => String.eqb (lp_canonical_name p) (pb_canonical_name bound)) parameters with
    | Some p => <[pb_slot_id bound := p]> m
    | None => m
    end) ∅ (bp_bindings binding).

Definition bindings_by_slot (binding : BindingPlan) : gmap string ParameterBinding :=
  foldl (fun m bound => <[pb_slot_id bound := bound]> m) ∅ (bp_bindings binding).

(** The modes of the exports, in their order. *)
Definition export_modes (graph : ArchitectureGraph) : list ExecutionMode :=
  List.filter (fun m => existsb (fun e => bool_decide (ae_mode e = m)) (ag_exports graph))
    [Prefill; Decode].

(** The validation of the parameter of an operation: its error, if any. *)
Definition validation_error (encodings : list QuantizationDefinition)
    (operation : ArchitectureOperation) (parameter : option LogicalParameter)
    : Result (option text) :=
  match parameter with
  | Some parameter =>
      match resolve_encoding encodings (lp_encoding parameter) with
      | Some definition =>
          match qd_validate definition parameter with
          | Ok _ => Ok None
          | Err error => Ok (Some (error_display error))
          | Panic why => Panic why
          end
      | None =>
          let key := physical_encoding_key (lp_encoding parameter) in
          Ok (Some (Format "no encoding definition registered for `{}@{}`"
                      [AStr (ek_id key); AInt (ek_version key)]))
      end
  | None =>
      Ok (if is_nil (ao_parameters operation) then None
          else Some (lit "operation parameter is not present in binding plan"))
  end.

Definition coverage_request (operation : ArchitectureOperation) (mode : ExecutionMode)
    (policy : PrecisionPolicy) (parameter : option LogicalParameter)
    (bound : option ParameterBinding) : KernelRequest :=
  {| kr_operation_id := ao_id operation;
     kr_operation := from_semantic (ao_kind operation);
     kr_encoding := (fun p => physical_encoding_key (lp_encoding p)) <$> parameter;
     kr_logical_shape := pb_logical_shape <$> bound;
     kr_orientation :=
       match bound with
       | Some b => match pb_transform b with
                   | LogicalTranspose _ => LogicalTransposeOrientation
                   | _ => NativeOrientation
                   end
       | None => NativeOrientation
       end;
     kr_mode := mode; kr_precision_policy := policy;
     kr_parameter_slots := ao_parameters operation;
     kr_checkpoint_component_keys :=
       match bound with Some b => map pc_external_key (pb_components b) | None => [] end |}.

(** One turn of the two loops of [dry_run_coverage]. *)
Definition cover (parameters : gmap string LogicalParameter) (bindings : gmap string ParameterBinding)
    (encodings : list QuantizationDefinition) (kernels : list KernelCandidateDescriptor)
    (target : TargetProfile) (policy : PrecisionPolicy)
    (operation : ArchitectureOperation) (mode : ExecutionMode) : Result OperationCoverage :=
  let parameter := slot ← head (ao_parameters operation); parameters !! slot in
  let bound := slot ← head (ao_parameters operation); bindings !! slot in
  error ← validation_error encodings operation parameter;
  let request := coverage_request operation mode policy parameter bound in
  '(selection, error) ← (match select (cost := deterministic_cost) kernels request target with
                         | Ok report => Ok (report, error)
                         | Err e => Ok ({| sr_selected := None; sr_rejected := [] |},
                                        Some (error_display e))
                         | Panic why => Panic why
                         end);
  Ok {| oc_operation_id := ao_id operation; oc_operation := kr_operation request;
        oc_mode := mode; oc_encoding := kr_encoding request;
        oc_selected := sr_selected selection; oc_rejected := sr_rejected selection;
        oc_logical_shape := kr_logical_shape request;
        oc_parameter_slots := kr_parameter_slots request;
        oc_checkpoint_component_keys := kr_checkpoint_component_keys request;
        oc_validation_error := error |}.

Definition coverage_pairs (graph : ArchitectureGraph) : list (ArchitectureOperation * ExecutionMode) :=
  flat_map (fun operation => map (pair operation) (export_modes graph)) (ag_operations graph).

Definition dry_run_coverage (graph : ArchitectureGraph) (parameters : list LogicalParameter)
    (binding : BindingPlan) (encodings : list QuantizationDefinition)
    (kernels : list KernelCandidateDescriptor) (target : TargetProfile) (policy : PrecisionPolicy)
    : Result CoverageReport :=
  let by_slot := definitions_by_slot parameters binding in
  let bindings := bindings_by_slot binding in
  operations ← try_map (fun '(operation, mode) =>
    cover by_slot bindings encodings kernels target policy operation mode) (coverage_pairs graph);
  Ok {| cr_target := target; cr_target_fingerprint := tp_capability_fingerprint target;
        cr_precision_policy := policy; cr_operations := operations |}.

(** * Properties *)

(** Validation by the registered definitions never panics. *)
Lemma no_panic_validate debug_encoding d p :
  d ∈ all_definitions debug_encoding -> no_panic (qd_validate d p).
Proof.
  intros Hd. unfold all_definitions in Hd.
  assert (Hbytes : forall name codec block size fail, no_panic (validate_block_bytes name codec block size fail p)).
  { intros. unfold validate_block_bytes. no_panic_tac. }
  assert (Hgb : forall def, no_panic (gb_validate debug_encoding def p)).
  { intros def. unfold gb_validate. destruct (lp_encoding p); no_panic_tac. }
  assert (Hplain : forall st, no_panic (plain_validate debug_encoding st p)).
  { intros st. unfold plain_validate. no_panic_tac. }
  assert (Hq : no_panic (q4_0_validate debug_encoding p)).
  { unfold q4_0_validate. destruct (lp_encoding p); no_panic_tac; done. }
  assert (Hmlx : forall bits, no_panic (mlx_validate debug_encoding bits p)).
  { intros bits. unfold mlx_validate. destruct (lp_encoding p); no_panic_tac; try done.
    exfalso. match goal with
    | Hn : ensure (negb (bool_decide (?l = []) || _)) _ = Ok _, Hl : last ?l = None |- _ =>
        apply ensure_Ok, negb_true_iff, orb_false_iff in Hn as [Hn _];
        apply bool_decide_eq_false in Hn; by apply Hn, last_None
    end. }
  apply elem_of_app in Hd as [Hd|[Hd|Hd]%elem_of_app].
  - repeat (apply elem_of_cons in Hd as [->|Hd]; [cbn; auto|]). by apply elem_of_nil in Hd.
  - apply list_elem_of_fmap in Hd as (def & -> & _). apply Hgb.
  - apply list_elem_of_fmap in Hd as (bits & -> & _). apply Hmlx.
Qed.

Section Spec.
Context (debug_encoding : PhysicalEncoding -> text).
Context (parameters : gmap string LogicalParameter) (bindings : gmap string ParameterBinding).
Context (kernels : list KernelCandidateDescriptor) (target : TargetProfile) (policy : PrecisionPolicy).

Definition operation_parameter (op : ArchitectureOperation) : option LogicalParameter :=
  slot ← head (ao_parameters op); parameters !! slot.
Definition operation_request (op : ArchitectureOperation) (mode : ExecutionMode) : KernelRequest :=
  coverage_request op mode policy (operation_parameter op)
    (slot ← head (ao_parameters op); bindings !! slot).

(** The parameter an operation reads is bound, in a registered encoding that
    accepts it; an operation without parameters needs none. *)
Definition parameter_valid (op : ArchitectureOperation) : Prop :=
  match operation_parameter op with
  | Some p => exists d, resolve_encoding (all_definitions debug_encoding) (lp_encoding p) = Some d /\
                qd_validate d p = Ok tt
  | None => ao_parameters op = []
  end.

(** [c] is the kernel to use for an operation in a mode. *)
Definition kernel_for (op : ArchitectureOperation) (mode : ExecutionMode)
    (c : KernelCandidateDescriptor) : Prop :=
  chosen (for_operation kernels (operation_request op mode)) (operation_request op mode) target c.

Definition covered (op : ArchitectureOperation) (mode : ExecutionMode) : Prop :=
  parameter_valid op /\
  exists c, c ∈ kernels /\ kc_operation c = from_semantic (ao_kind op) /\
    acceptable c (operation_request op mode) target.

Lemma validation_error_spec op :
  exists error, validation_error (all_definitions debug_encoding) op (operation_parameter op) = Ok error /\
    (error = None <-> parameter_valid op).
Proof using parameters.
  unfold validation_error, parameter_valid. destruct (operation_parameter op) as [p|].
  - destruct (resolve_encoding _ _) as [d|] eqn:Ed.
    + assert (Hin : d ∈ all_definitions debug_encoding).
      { apply find_some in Ed as [Hin _]. by apply list_elem_of_In. }
      pose proof (no_panic_validate debug_encoding d p Hin) as Hp.
      destruct (qd_validate d p) as [[]|e|why] eqn:Ev; [| |done]; eexists; (split; [reflexivity|]).
      * split; [by exists d|done].
      * split; [done|]. intros (d' & [= <-] & Hv). congruence.
    + eexists. split; [reflexivity|]. split; [done|]. by intros (d & Hd & _).
  - eexists. split; [reflexivity|]. destruct (is_nil (ao_parameters op)) eqn:E.
    + apply is_nil_true in E. done.
    + apply is_nil_false in E. done.
Qed.

Lemma cover_spec op mode :
  exists o, cover parameters bindings (all_definitions debug_encoding) kernels target policy op mode = Ok o /\
    (operation_complete o = true <-> covered op mode) /\
    oc_operation_id o = ao_id op /\ oc_mode o = mode /\
    oc_parameter_slots o = ao_parameters op /\
    forall s, oc_selected o = Some s ->
      kernel_for op mode (sc_descriptor s) /\ types_of s (operation_request op mode).
Proof.
  unfold cover. change (slot ← head (ao_parameters op); parameters !! slot) with (operation_parameter op).
  destruct (validation_error_spec op) as (error & -> & Herr). cbn [mbind result_mbind].
  fold (operation_request op mode).
  destruct (select_selection kernels (operation_request op mode) target) as (report & -> & [Hsel _]).
  cbn [mbind result_mbind]. eexists. split; [reflexivity|].
  split; [|split; [done|split; [done|split; [done|]]]]; cbn [oc_selected].
  - unfold operation_complete, covered. cbn [oc_selected oc_validation_error].
    rewrite andb_true_iff, <-Herr, negb_true_iff.
    destruct (sr_selected report) as [s|]; cbn [is_some].
    + destruct Hsel as ((Hin & Hacc & _) & _). apply for_operation_elem in Hin as [Hin Hop].
      split; [intros [_ He]|intros [-> _]; done].
      split; [by destruct error|]. by exists (sc_descriptor s).
    + split; [by intros [? _]|]. intros [_ (c & Hin & Hop & Hacc)]. destruct (Hsel c); [|done].
      by apply for_operation_elem.
  - intros s Hs. rewrite Hs in Hsel. by destruct Hsel as (? & ? & _).
Qed.

End Spec.

Lemma try_map_exists {A B} (f : A -> Result B) (P : A -> B -> Prop) l :
  (forall a, exists b, f a = Ok b /\ P a b) -> exists bs, try_map f l = Ok bs /\ Forall2 P l bs.
Proof.
  intros Hf. induction l as [|a l (bs & Hbs & IH)]; cbn; [by exists []|].
  destruct (Hf a) as (b & -> & Hb). cbn. rewrite Hbs. cbn. exists (b :: bs). by split; [|constructor].
Qed.

(** The report of the registered encodings, operation by operation. *)
Section Report.
Context (debug_encoding : PhysicalEncoding -> text) (graph : ArchitectureGraph).
Context (parameters : list LogicalParameter) (binding : BindingPlan).
Context (kernels : list KernelCandidateDescriptor) (target : TargetProfile) (policy : PrecisionPolicy).

Definition covered_here (om : ArchitectureOperation * ExecutionMode) : Prop :=
  covered debug_encoding (definitions_by_slot parameters binding) (bindings_by_slot binding)
    kernels target policy om.1 om.2.
Definition request_here (om : ArchitectureOperation * ExecutionMode) : KernelRequest :=
  operation_request (definitions_by_slot parameters binding) (bindings_by_slot binding) policy om.1 om.2.
Definition kernel_here (om : ArchitectureOperation * ExecutionMode) : KernelCandidateDescriptor -> Prop :=
  kernel_for (definitions_by_slot parameters binding) (bindings_by_slot binding) kernels target policy om.1 om.2.

(** What the selected kernel of a pair records. *)
Definition kernel_record (om : ArchitectureOperation * ExecutionMode) (k : SelectedKernel) : Prop :=
  sk_operation_id k = ao_id om.1 /\ sk_mode k = om.2 /\ sk_parameter_slots k = ao_parameters om.1 /\
  exists s, kernel_here om (sc_descriptor s) /\ types_of s (request_here om) /\
    sk_kernel_id k = kc_id (sc_descriptor s) /\ sk_lowering_id k = kc_lowering (sc_descriptor s) /\
    sk_input_type k = sc_input_type s /\ sk_output_type k = sc_output_type s /\
    sk_activation_type k = sc_activation_type s /\ sk_accumulator_type k = sc_accumulator_type s.

Definition operation_report (om : ArchitectureOperation * ExecutionMode) (o : OperationCoverage) : Prop :=
  (operation_complete o = true <-> covered_here om) /\
  oc_operation_id o = ao_id om.1 /\ oc_mode o = om.2 /\ oc_parameter_slots o = ao_parameters om.1 /\
  forall s, oc_selected o = Some s -> kernel_here om (sc_descriptor s) /\ types_of s (request_here om).

Lemma dry_run_operations :
  exists os,
    dry_run_coverage graph parameters binding (all_definitions debug_encoding) kernels target policy =
      Ok {| cr_target := target; cr_target_fingerprint := tp_capability_fingerprint target;
            cr_precision_policy := policy; cr_operations := os |} /\
    Forall2 operation_report (coverage_pairs graph) os.
Proof.
  unfold dry_run_coverage.
  destruct (try_map_exists (fun '(op, mode) => cover (definitions_by_slot parameters binding)
      (bindings_by_slot binding) (all_definitions debug_encoding) kernels target policy op mode)
      operation_report (coverage_pairs graph)) as (os & -> & Hos).
  { intros [op mode]. apply cover_spec. }
  cbn [mbind result_mbind]. by exists os.
Qed.

Lemma require_complete_Ok report :
  require_complete report = Ok tt <-> Forall (fun o => operation_complete o = true) (cr_operations report).
Proof.
  unfold require_complete, is_complete. rewrite Forall_forall.
  destruct (forallb operation_complete (cr_operations report)) eqn:E.
  - split; [|done]. intros _ o Ho. rewrite forallb_forall in E. apply E. by apply list_elem_of_In.
  - split; [done|]. intros H. assert (forallb operation_complete (cr_operations report) = true); [|congruence].
    apply forallb_forall. intros o Ho. apply H. by apply list_elem_of_In.
Qed.

Lemma coverage_pairs_elem op mode :
  (op, mode) ∈ coverage_pairs graph <-> op ∈ ag_operations graph /\ mode ∈ export_modes graph.
Proof.
  unfold coverage_pairs. rewrite list_elem_of_In, in_flat_map. split.
  - intros (op' & Hop & Hin). apply in_map_iff in Hin as (m & [= <- <-] & Hm).
    split; by apply list_elem_of_In.
  - intros [Hop Hm]. exists op. split; [by apply list_elem_of_In|]. apply in_map. by apply list_elem_of_In.
Qed.

Lemma operations_covered os :
  Forall2 operation_report (coverage_pairs graph) os ->
  Forall (fun o => operation_complete o = true) os <-> Forall covered_here (coverage_pairs graph).
Proof.
  induction 1 as [|om o oms os [Ho _] _ IH]; [split; constructor|]. by rewrite !Forall_cons, IH, Ho.
Qed.

Lemma selected_records os :
  Forall2 operation_report (coverage_pairs graph) os ->
  Forall (fun o => operation_complete o = true) os ->
  Forall2 kernel_record (coverage_pairs graph)
    (selected_kernels {| cr_target := target; cr_target_fingerprint := tp_capability_fingerprint target;
                         cr_precision_policy := policy; cr_operations := os |}).
Proof.
  unfold selected_kernels. cbn [cr_operations].
  induction 1 as [|om o oms os (_ & Hid & Hm & Hp & Hs) _ IH]; intros Hall; [constructor|].
  apply Forall_cons in Hall as [Hcomp Hall]. cbn [omap list_omap].
  unfold operation_complete in Hcomp. destruct (oc_selected o) as [s|]; [|done].
  cbn [mbind option_bind]. constructor; [|by apply IH].
  destruct (Hs s eq_refl) as [Hk Ht]. unfold kernel_record. cbn. split_and!; [done..|]. by exists s.
Qed.

End Report.

(** C7: The dry run decides coverage. With the registered encodings it always
    produces a report, and the report is complete exactly when every operation
    of the graph has, in every exported mode, a bound parameter its encoding
    definition accepts (or no parameter at all) and some acceptable kernel. A
    complete report selects one kernel for each operation and mode, in order,
    and each is the best acceptable one. *)
Theorem dry_run_decides_coverage debug_encoding encodings graph parameters binding kernels target policy :
  register_all debug_encoding [] = Ok encodings ->
  let by_slot := definitions_by_slot parameters binding in
  let bound := bindings_by_slot binding in
  exists report,
    dry_run_coverage graph parameters binding encodings kernels target policy = Ok report /\
    (require_complete report = Ok tt <->
     forall op mode, op ∈ ag_operations graph -> mode ∈ export_modes graph ->
       covered debug_encoding by_slot bound kernels target policy op mode) /\
    (require_complete report = Ok tt ->
     Forall2 (fun om k => sk_operation_id k = ao_id om.1 /\ sk_mode k = om.2 /\
                exists c, kernel_for by_slot bound kernels target policy om.1 om.2 c /\
                  sk_kernel_id k = kc_id c /\ sk_lowering_id k = kc_lowering c)
       (coverage_pairs graph) (selected_kernels report)).
Proof.
  intros Hreg by_slot bound. rewrite register_all_Ok in Hreg. injection Hreg as <-.
  destruct (dry_run_operations debug_encoding graph parameters binding kernels target policy)
    as (os & -> & Hos).
  eexists. split; [reflexivity|]. rewrite require_complete_Ok. cbn [cr_operations]. split.
  - rewrite (operations_covered debug_encoding _ _ _ _ _ _ _ Hos), Forall_forall. split.
    + intros H op mode Hop Hm. apply (H (op, mode)). by apply coverage_pairs_elem.
    + intros H [op mode] [Hop Hm]%coverage_pairs_elem. by apply H.
  - intros Hall. eapply Forall2_impl; [by eapply selected_records|].
    intros om k (Hid & Hm & _ & s & Hk & _ & Hkid & Hl & _). split; [done|]. split; [done|].
    by exists (sc_descriptor s).
Qed.

End Coverage.

(** The fixture of the tests of crates/dyninfer-quantization/src/lib.rs: one
    linear operation over a dense [f16] weight. *)
Module CoverageSample.
Import Json.

Definition debug (e : PhysicalEncoding) : text := lit "encoding".
Definition debug_rejections (l : list CandidateRejection) : text := lit "rejections".
Definition encodings : list QuantizationDefinition := all_definitions debug.

Definition kernels : list KernelCandidateDescriptor :=
  match register_kernel_candidates encodings [] with Ok k => k | _ => [] end.

Definition graph : ArchitectureGraph :=
  {| ag_version := 1; ag_architecture_id := "test";
     ag_values := [{| gv_id := "input"; gv_tensor_type := activations 64 |};
                   {| gv_id := "output"; gv_tensor_type := activations 64 |}];
     ag_operations := [{| ao_id := "linear"; ao_kind := OpLinear AttentionQ; ao_inputs := ["input"];
                          ao_outputs := ["output"]; ao_parameters := ["weight"] |}];
     ag_parameter_slots := [];
     ag_exports := [{| ae_name := "decode"; ae_mode := Decode; ae_inputs := ["input"];
                       ae_outputs := ["output"] |}] |}.

Definition parameter : LogicalParameter :=
  {| lp_canonical_name := "weight"; lp_role := AttentionQ;
     lp_logical_type := {| lt_shape := [64; 64]; lt_element_type := F16 |};
     lp_encoding := Plain F16 RowMajor;
     lp_components := [{| sc_name := "data"; sc_key := "weight"; sc_source_file_index := 0;
                          sc_shape := [64; 64]; sc_storage_type := Scalar F16;
                          sc_byte_ranges := [{| br_offset := 0; br_length := 8192 |}];
                          sc_alignment := 1; sc_endianness := Little |}];
     lp_aliases := ["weight"] |}.

Definition binding : BindingPlan :=
  {| bp_architecture_id := "test";
     bp_checkpoint_schema := {| fp_digest := "schema"; fp_entry_count := 1; fp_total_bytes := 8192 |};
     bp_bindings :=
       [{| pb_slot_id := "weight"; pb_canonical_name := "weight"; pb_checkpoint_keys := ["weight"];
           pb_encoding := Plain F16 RowMajor; pb_logical_shape := [64; 64]; pb_logical_type := F16;
           pb_components := []; pb_transform := Identity; pb_scope := "weights";
           pb_parameter_key := "weight"; pb_storage_bytes := 8192; pb_alignment := 1 |}];
     bp_unresolved_optional_slots := [] |}.

Definition report : Result CoverageReport :=
  dry_run_coverage graph [parameter] binding encodings kernels KernelSample.cpu_target
    conservative_sensitive_ops.

Example dense_f16_fixture :
  (r ← report; _ ← require_complete debug_rejections r; Ok (map sk_kernel_id (selected_kernels r))) =
  Ok ["dense.matmul.f16.portable_f32"].
Proof. by_vm. Qed.
End CoverageSample.

Lemma dry_run_decides_coverage_witness :
  exists report, CoverageSample.report = Ok report /\
    require_complete CoverageSample.debug_rejections report = Ok tt /\
    covered CoverageSample.debug (definitions_by_slot [CoverageSample.parameter] CoverageSample.binding)
      (bindings_by_slot CoverageSample.binding) CoverageSample.kernels KernelSample.cpu_target
      conservative_sensitive_ops
      {| ao_id := "linear"; ao_kind := OpLinear AttentionQ; ao_inputs := ["input"];
         ao_outputs := ["output"]; ao_parameters := ["weight"] |} Decode.
Proof.
  destruct (dry_run_decides_coverage CoverageSample.debug_rejections CoverageSample.debug
    CoverageSample.encodings CoverageSample.graph [CoverageSample.parameter] CoverageSample.binding
    CoverageSample.kernels KernelSample.cpu_target conservative_sensitive_ops
    (register_all_Ok CoverageSample.debug)) as (report & Hr & Hiff & _).
  assert (Hc : (r ← CoverageSample.report; require_complete CoverageSample.debug_rejections r) = Ok tt)
    by by_vm.
  unfold CoverageSample.report in Hc. rewrite Hr in Hc.
  exists report. split; [exact Hr|]. split; [exact Hc|].
  apply (proj1 Hiff Hc); cbn; [by left|by left].
Defined.
