(* ===== verification/Config.v ===== *)
(** * Model configuration: config.rs and package.rs of crates/dyninfer-architecture

    Schema-driven resolution of hyperparameters from overrides, checkpoint
    metadata and defaults, with the derivation of the head dimension. *)
From S2P Require Import Prelude Errors Serde CoreTypes Ir.
From Stdlib Require Import ZArith Lia Ascii String.
From stdpp Require Import base list strings gmap.
From stdpp Require Import options.
Import Json.

Local Open Scope Z_scope.

Section Config.
Context {SJ : SerdeJson}.

Record ConfigField := {
  cf_name : string;
  cf_ty : string;
  cf_required : bool;
  cf_default : option Value;
  cf_description : option string;
}.

Definition field (name ty : string) (required : bool) (default : option Value) : ConfigField :=
  {| cf_name := name; cf_ty := ty; cf_required := required; cf_default := default;
     cf_description := None |}.

Record ConfigSchema := { fields : list ConfigField }.

Record ResolvedModelConfig := { values : MetadataMap }.

Definition config_error (message : text) : DynInferError :=
  Config {| config_message := message |}.

Definition llama_key (key : string) : string := String.append "llama." key.

(** The first source that has a value for the field, as the [continue] chain. *)
Definition field_value (overrides checkpoint_meta defaults : MetadataMap) (f : ConfigField)
    : option Value :=
  match overrides !! cf_name f with
  | Some v => Some v
  | None =>
  match checkpoint_meta !! cf_name f with
  | Some v => Some v
  | None =>
  match checkpoint_meta !! llama_key (cf_name f) with
  | Some v => Some v
  | None =>
  match defaults !! cf_name f with
  | Some v => Some v
  | None => cf_default f
  end end end end.

Definition resolve_field (overrides checkpoint_meta defaults : MetadataMap)
    (values : MetadataMap) (f : ConfigField) : Result MetadataMap :=
  match field_value overrides checkpoint_meta defaults f with
  | Some v => Ok (<[cf_name f := v]> values)
  | None =>
      if cf_required f then
        Err (config_error (Format "missing required config field `{}`" [AStr (cf_name f)]))
      else Ok values
  end.

Definition contains_key (m : MetadataMap) (k : string) : bool := bool_decide (is_Some (m !! k)).

Definition has_config_value (key : string) (overrides checkpoint_meta defaults : MetadataMap)
    : bool :=
  contains_key overrides key || contains_key checkpoint_meta key
  || contains_key checkpoint_meta (llama_key key) || contains_key defaults key.

Definition config_u64 (values : MetadataMap) (key : string) : Result Z :=
  ok_or (v ← values !! key; as_u64 v)
    (config_error (Format "config field `{key}` missing or not u32" [AStr key])).

(** The derivation that follows the field loop. *)
Definition derive_head_dim (overrides checkpoint_meta defaults values : MetadataMap)
    : Result MetadataMap :=
  let explicit_head_dim := has_config_value "head_dim" overrides checkpoint_meta defaults in
  let configured_dimensions :=
    has_config_value "hidden_size" overrides checkpoint_meta defaults
    || has_config_value "num_heads" overrides checkpoint_meta defaults in
  if negb explicit_head_dim && configured_dimensions && contains_key values "head_dim" then
    hidden_size ← config_u64 values "hidden_size";
    num_heads ← config_u64 values "num_heads";
    if (num_heads =? 0) || negb (hidden_size mod num_heads =? 0) then
      Err (config_error
        (Format "cannot derive `head_dim`: hidden_size ({hidden_size}) must be divisible by non-zero num_heads ({num_heads})"
           [AInt hidden_size; AInt num_heads]))
    else Ok (<["head_dim" := value_u64 (hidden_size / num_heads)]> values)
  else Ok values.

Definition resolve (schema : ConfigSchema) (overrides checkpoint_meta defaults : MetadataMap)
    : Result ResolvedModelConfig :=
  values ← try_fold (resolve_field overrides checkpoint_meta defaults) ∅ (fields schema);
  values ← derive_head_dim overrides checkpoint_meta defaults values;
  Ok {| values := values |}.

(** ** Accessors; [get_u32] truncates, as [v as u32] *)

Definition get_u32 (config : ResolvedModelConfig) (key : string) : Result Z :=
  ok_or (v ← values config !! key; n ← as_u64 v; Some (wrap32 n))
    (config_error (Format "config field `{key}` missing or not u32" [AStr key])).

Definition get_u64 (config : ResolvedModelConfig) (key : string) : Result Z :=
  ok_or (v ← values config !! key; as_u64 v)
    (config_error (Format "config field `{key}` missing or not u64" [AStr key])).

Definition get_f64 (config : ResolvedModelConfig) (key : string) : Result f64 :=
  ok_or (v ← values config !! key; as_f64 v)
    (config_error (Format "config field `{key}` missing or not f64" [AStr key])).

(** [a.or_else(|_| b)] on results. *)
Definition or_else_err {A} (a b : Result A) : Result A :=
  match a with Err _ => b | _ => a end.

Definition num_layers (config : ResolvedModelConfig) : Result Z :=
  or_else_err (or_else_err (get_u32 config "num_layers") (get_u32 config "n_layer"))
    (get_u32 config "block_count").

Record ArchitecturePackage := {
  pkg_id : string;
  pkg_revision : string;
  pkg_graph : ArchitectureGraph;
  pkg_resolved_config : ResolvedModelConfig;
}.

Definition from_module (graph : ArchitectureGraph) (config : ResolvedModelConfig)
    (revision : string) : ArchitecturePackage :=
  {| pkg_id := ag_architecture_id graph; pkg_revision := revision; pkg_graph := graph;
     pkg_resolved_config := config |}.

Definition parameter_slots (p : ArchitecturePackage) : list ParameterSlot :=
  ag_parameter_slots (pkg_graph p).

(** ** Lemmas *)

Lemma resolve_fields_lookup o c d fs m0 m k :
  NoDup (cf_name <$> fs) -> try_fold (resolve_field o c d) m0 fs = Ok m ->
  (forall f, f ∈ fs -> cf_name f = k ->
     m !! k = match field_value o c d f with Some v => Some v | None => m0 !! k end) /\
  (k ∉ cf_name <$> fs -> m !! k = m0 !! k) /\
  (forall f, f ∈ fs -> cf_required f = true -> is_Some (field_value o c d f)).
Proof.
  revert m0. induction fs as [|f fs IH]; intros m0 Hnd H; cbn in *.
  { injection H as <-. repeat split; intros; try done; by apply not_elem_of_nil in H. }
  ok_inv. apply NoDup_cons in Hnd as [Hf Hnd]. unfold resolve_field in Hv.
  assert (Hstep : v = match field_value o c d f with Some x => <[cf_name f := x]> m0 | None => m0 end
    /\ (cf_required f = true -> is_Some (field_value o c d f))).
  { destruct (field_value o c d f); [by injection Hv as <-|].
    destruct (cf_required f); [done|by injection Hv as <-]. }
  destruct Hstep as [-> Hreq]. clear Hv. apply IH in H as (H1 & H2 & H3); [|done].
  split; [|split].
  - intros f' [->|Hin]%elem_of_cons Hk.
    + subst k. rewrite H2 by done. destruct (field_value o c d f); [by rewrite lookup_insert_eq|done].
    + rewrite (H1 f' Hin Hk). destruct (field_value o c d f'); [done|].
      assert (cf_name f <> k). { intros <-. apply Hf. rewrite <-Hk. by apply list_elem_of_fmap_2. }
      destruct (field_value o c d f); [by rewrite lookup_insert_ne|done].
  - rewrite not_elem_of_cons. intros [Hne Hk]. rewrite H2 by done.
    destruct (field_value o c d f); [by rewrite lookup_insert_ne|done].
  - intros f' [->|Hin]%elem_of_cons; [done|]. by apply H3.
Qed.

Lemma derive_head_dim_Ok o c d m m' :
  derive_head_dim o c d m = Ok m' ->
  (forall k, k <> "head_dim" -> m' !! k = m !! k) /\
  (m' = m \/
   has_config_value "head_dim" o c d = false /\
   exists hidden heads, (v ← m !! "hidden_size"; as_u64 v) = Some hidden /\
     (v ← m !! "num_heads"; as_u64 v) = Some heads /\ heads <> 0 /\
     hidden mod heads = 0 /\ m' !! "head_dim" = Some (value_u64 (hidden / heads))).
Proof.
  unfold derive_head_dim. intros H. destruct (_ && _ && _) eqn:E; ok_inv; [|by split; [|left]].
  apply andb_prop in E as [[E _]%andb_prop _]. apply negb_true_iff in E.
  unfold config_u64 in *. ok_inv.
  destruct ((v0 =? 0) || negb (v mod v0 =? 0)) eqn:Ez; ok_inv.
  apply orb_false_iff in Ez as [Hz Hm]. apply Z.eqb_neq in Hz.
  apply negb_false_iff, Z.eqb_eq in Hm.
  split; [intros; by apply lookup_insert_ne|]. right. split; [done|].
  exists v, v0. repeat split; try done. apply lookup_insert_eq.
Qed.

(** Resolution takes every field of the schema from the first source that
    has it (override, checkpoint key, [llama.] key, default, schema default)
    and fails when a required field has none.  Only [head_dim] may differ:
    when no source gives it but the dimensions are configured, it is the
    exact quotient of the hidden size by the head count. *)
Theorem resolve_precedence schema o c d config :
  NoDup (cf_name <$> fields schema) -> resolve schema o c d = Ok config ->
  (forall f, f ∈ fields schema -> cf_required f = true -> is_Some (field_value o c d f)) /\
  (forall f, f ∈ fields schema ->
     cf_name f <> "head_dim" \/ has_config_value "head_dim" o c d = true ->
     values config !! cf_name f = field_value o c d f) /\
  (forall f, f ∈ fields schema -> cf_name f = "head_dim" ->
     values config !! "head_dim" = field_value o c d f \/
     exists hidden heads head_dim,
       (v ← values config !! "hidden_size"; as_u64 v) = Some hidden /\
       (v ← values config !! "num_heads"; as_u64 v) = Some heads /\
       values config !! "head_dim" = Some (value_u64 head_dim) /\
       hidden = head_dim * heads /\ heads <> 0).
Proof.
  intros Hnd H. unfold resolve in H. ok_inv. cbn.
  pose proof (fun k => resolve_fields_lookup o c d _ _ _ k Hnd Hv) as Hf.
  apply derive_head_dim_Ok in Hv0 as [Hsame Hhead].
  assert (Hlook : forall f, f ∈ fields schema -> v !! cf_name f = field_value o c d f).
  { intros f Hin. destruct (Hf (cf_name f)) as [H1 _]. rewrite (H1 f Hin eq_refl).
    by destruct (field_value o c d f). }
  split; [apply (Hf EmptyString)|]. split.
  - intros f Hin [Hne|Hex]; [by rewrite Hsame, Hlook|].
    destruct Hhead as [->|[Hno _]]; [by apply Hlook|congruence].
  - intros f Hin Hn. destruct Hhead as [->|(_ & hd & hs & Hh & Hs & Hz & Hm & Hval)].
    + left. rewrite <-Hn. by apply Hlook.
    + right. exists hd, hs, (hd / hs). rewrite !Hsame by done.
      repeat split; try done. rewrite Z.mul_comm. by apply Z_div_exact_full_2.
Qed.

End Config.

(** ** Witness *)

Definition sample_schema : ConfigSchema :=
  {| fields := [field "head_dim" "u32" true (Some (JInt 64 : @Value serde));
                field "hidden_size" "u32" true (Some (JInt 256));
                field "num_heads" "u32" true (Some (JInt 4))] |}.
Definition sample_overrides : gmap string (@Value serde) :=
  <["hidden_size" := JInt 1024]> (<["num_heads" := JInt 8]> ∅).
Definition sample_config : ResolvedModelConfig :=
  {| values := <["head_dim" := JInt 128]> (<["hidden_size" := JInt 1024]>
       (<["num_heads" := JInt 8]> ∅) : gmap string (@Value serde)) |}.

Lemma resolve_precedence_witness :
  resolve sample_schema sample_overrides ∅ ∅ = Ok sample_config /\
  values sample_config !! "num_heads" = Some (JInt 8 : @Value serde).
Proof.
  assert (H : resolve sample_schema sample_overrides ∅ ∅ = Ok sample_config) by by_vm.
  split; [exact H|].
  assert (Hnd : NoDup (cf_name <$> fields sample_schema)) by (apply NoDup_eval; reflexivity).
  destruct (resolve_precedence sample_schema sample_overrides ∅ ∅ sample_config Hnd H)
    as (_ & Hf & _).
  apply (Hf (field "num_heads" "u32" true (Some (JInt 4 : @Value serde)))).
  - do 2 right. left.
  - left. discriminate.
Defined.
