(* ===== verification/Fingerprint.v ===== *)
(** * Schema fingerprints: crates/dyninfer-checkpoint/src/fingerprint.rs

    The value-independent digest of a list of logical parameters.  Shared
    storage is found through raw identities and enters the digest only as a
    label made of logical names. *)
From S2P Require Import Prelude Errors Serde CoreTypes Catalog.
From Stdlib Require Import ZArith Lia Ascii String Sorted.
From stdpp Require Import base list strings gmap.
From stdpp Require Import options.
Import Json.

Local Open Scope Z_scope.

Section Fingerprint.
Context {SJ : SerdeJson}.

Record FingerprintComponent := {
  fc_name : string;
  fc_shape : list Z;
  fc_storage_type : StorageElementType;
  fc_byte_lengths : list Z;
  fc_alignment : Z;
  fc_endianness : Endianness;
  fc_alias_group : option string;
}.

Record FingerprintEntry := {
  fe_canonical_name : string;
  fe_role : ParameterRole;
  fe_logical_shape : list Z;
  fe_logical_element_type : ScalarType;
  fe_encoding : PhysicalEncoding;
  fe_components : list FingerprintComponent;
}.

(** [content_digest]: serialise with serde_json, hash with SHA-256. *)
Context (content_digest : list FingerprintEntry -> Result Digest).

(** The key of the [identities] map. *)
Definition identity : Type := Z * string * list (Z * Z).
Definition component_identity (c : StorageComponent) : identity :=
  (sc_source_file_index c, sc_key c,
   (fun r => (br_offset r, br_length r)) <$> sc_byte_ranges c).

(** [format!("{}::{}", parameter.canonical_name, component.name)]. *)
Definition member_label (p : LogicalParameter) (c : StorageComponent) : string :=
  String.append (lp_canonical_name p) (String.append "::" (sc_name c)).

(** Every component with its label, in the order of the two loops. *)
Definition labelled (parameters : list LogicalParameter) : list (identity * string) :=
  parameters ≫= fun p => (fun c => (component_identity c, member_label p c)) <$> lp_components p.

Definition identities (parameters : list LogicalParameter) : gmap identity (list string) :=
  foldl (fun m ic => <[ic.1 := default [] (m !! ic.1) ++ [ic.2]]> m) ∅ (labelled parameters).

(** The least label of a group of at least two components. *)
Definition group_label (members : list string) : option string :=
  if (length members <? 2)%nat then None else head (stable_sort string_leb members).

Definition alias_labels (parameters : list LogicalParameter) : gmap identity string :=
  omap group_label (identities parameters).

Definition fingerprint_component (labels : gmap identity string) (c : StorageComponent)
    : FingerprintComponent :=
  {| fc_name := sc_name c;
     fc_shape := sc_shape c;
     fc_storage_type := sc_storage_type c;
     fc_byte_lengths := br_length <$> sc_byte_ranges c;
     fc_alignment := sc_alignment c;
     fc_endianness := sc_endianness c;
     fc_alias_group := labels !! component_identity c |}.

Definition fingerprint_entry (labels : gmap identity string) (p : LogicalParameter)
    : FingerprintEntry :=
  {| fe_canonical_name := lp_canonical_name p;
     fe_role := lp_role p;
     fe_logical_shape := lt_shape (lp_logical_type p);
     fe_logical_element_type := lt_element_type (lp_logical_type p);
     fe_encoding := lp_encoding p;
     fe_components := fingerprint_component labels <$> lp_components p |}.

Definition fingerprint_leb (a b : FingerprintEntry) : bool :=
  string_leb (fe_canonical_name a) (fe_canonical_name b).

Definition fingerprint_entries (parameters : list LogicalParameter) : list FingerprintEntry :=
  stable_sort fingerprint_leb (fingerprint_entry (alias_labels parameters) <$> parameters).

Definition parameters_total_bytes (parameters : list LogicalParameter) : Z :=
  foldl saturating_add 0
    (br_length <$> ((parameters ≫= lp_components) ≫= sc_byte_ranges)).

Definition schema_fingerprint_from_parameters (parameters : list LogicalParameter)
    : Result SchemaFingerprint :=
  digest ← content_digest (fingerprint_entries parameters);
  Ok {| fp_digest := digest;
        fp_entry_count := Z.of_nat (length parameters);
        fp_total_bytes := parameters_total_bytes parameters |}.

(** ** Relocation: other files, keys and offsets for the same schema *)

Definition relocate_component (f : identity -> identity) (c : StorageComponent) : StorageComponent :=
  let '(i, k, rs) := f (component_identity c) in
  {| sc_name := sc_name c; sc_key := k; sc_source_file_index := i; sc_shape := sc_shape c;
     sc_storage_type := sc_storage_type c;
     sc_byte_ranges := (fun r => {| br_offset := r.1; br_length := r.2 |}) <$> rs;
     sc_alignment := sc_alignment c; sc_endianness := sc_endianness c |}.

Definition relocate (f : identity -> identity) (p : LogicalParameter) : LogicalParameter :=
  {| lp_canonical_name := lp_canonical_name p; lp_role := lp_role p;
     lp_logical_type := lp_logical_type p; lp_encoding := lp_encoding p;
     lp_components := relocate_component f <$> lp_components p;
     lp_aliases := lp_aliases p |}.

(** A relocation keeps distinct storage distinct and the lengths of ranges. *)
Definition relocation (f : identity -> identity) : Prop :=
  (forall a b, f a = f b -> a = b) /\ (forall i, (f i).2.*2 = i.2.*2).

(** ** Lemmas *)

Lemma relocate_identity f c :
  component_identity (relocate_component f c) = f (component_identity c).
Proof.
  unfold relocate_component. destruct (f (component_identity c)) as [[i k] rs].
  unfold component_identity. cbn. f_equal. rewrite <-list_fmap_compose.
  induction rs as [|[o n] rs IH]; cbn; congruence.
Qed.

Lemma relocate_name f c : sc_name (relocate_component f c) = sc_name c.
Proof. unfold relocate_component. by destruct (f _) as [[? ?] ?]. Qed.

Lemma relocate_lengths f c :
  relocation f -> br_length <$> sc_byte_ranges (relocate_component f c) = br_length <$> sc_byte_ranges c.
Proof.
  intros [_ Hlen]. specialize (Hlen (component_identity c)).
  unfold relocate_component. destruct (f (component_identity c)) as [[i k] rs]. cbn in *.
  rewrite <-!list_fmap_compose in *. exact Hlen.
Qed.

Lemma identities_lookup (ls : list (identity * string)) (m : gmap identity (list string)) i :
  default [] (foldl (fun m ic => <[ic.1 := default [] (m !! ic.1) ++ [ic.2]]> m) m ls !! i)
  = default [] (m !! i) ++ (ls ≫= fun ic => if decide (ic.1 = i) then [ic.2] else []).
Proof.
  revert m. induction ls as [|[j s] ls IH]; intros m; cbn; [by rewrite app_nil_r|].
  rewrite IH. case_decide as Hj; cbn in *.
  - subst j. rewrite lookup_insert_eq. cbn. by rewrite <-app_assoc.
  - by rewrite lookup_insert_ne.
Qed.

Lemma alias_labels_lookup ps i :
  alias_labels ps !! i
  = group_label (labelled ps ≫= fun ic => if decide (ic.1 = i) then [ic.2] else []).
Proof.
  unfold alias_labels. rewrite lookup_omap.
  pose proof (identities_lookup (labelled ps) ∅ i) as H. rewrite lookup_empty in H. cbn in H.
  rewrite <-H. unfold identities. destruct (foldl _ _ _ !! i); done.
Qed.

Lemma labelled_relocate f ps :
  labelled (relocate f <$> ps) = (fun ic => (f ic.1, ic.2)) <$> labelled ps.
Proof.
  unfold labelled. induction ps as [|p ps IH]; [done|]. cbn.
  rewrite fmap_app. f_equal; [|exact IH]. rewrite <-!list_fmap_compose.
  apply list_fmap_ext. intros ? c _. cbn. unfold member_label. by rewrite relocate_identity, relocate_name.
Qed.

Lemma alias_labels_relocate f ps i :
  (forall a b, f a = f b -> a = b) -> alias_labels (relocate f <$> ps) !! f i = alias_labels ps !! i.
Proof.
  intros Hinj. rewrite !alias_labels_lookup, labelled_relocate. f_equal.
  induction (labelled ps) as [|[j s] l IH]; [done|]. cbn. rewrite IH. f_equal.
  destruct (decide (j = i)) as [->|Hne]; cbn; [by rewrite decide_True|].
  rewrite decide_False; [done|]. by intros ?%Hinj.
Qed.

(** A fingerprint does not depend on where the bytes are: giving the
    storage other files, keys and offsets, one for one, leaves it unchanged. *)
Theorem fingerprint_relocation f parameters :
  relocation f ->
  schema_fingerprint_from_parameters (relocate f <$> parameters)
  = schema_fingerprint_from_parameters parameters.
Proof.
  intros Hf. unfold schema_fingerprint_from_parameters, fingerprint_entries.
  rewrite length_fmap.
  replace (parameters_total_bytes (relocate f <$> parameters))
    with (parameters_total_bytes parameters).
  2: { unfold parameters_total_bytes. f_equal.
       induction parameters as [|p ps IH]; [done|]. cbn. rewrite !bind_app, !fmap_app, IH.
       f_equal. cbn. induction (lp_components p) as [|c cs IHc]; [done|]. cbn.
       rewrite !fmap_app, <-IHc. f_equal. by rewrite relocate_lengths. }
  replace (fingerprint_entry (alias_labels (relocate f <$> parameters)) <$> (relocate f <$> parameters))
    with (fingerprint_entry (alias_labels parameters) <$> parameters); [done|].
  rewrite <-list_fmap_compose. apply list_fmap_ext. intros _ p _. unfold fingerprint_entry. cbn.
  f_equal. rewrite <-list_fmap_compose. apply list_fmap_ext. intros _ c _.
  unfold fingerprint_component. cbn. rewrite relocate_lengths by done.
  rewrite relocate_identity, alias_labels_relocate by apply Hf.
  unfold relocate_component. by destruct (f (component_identity c)) as [[? ?] ?].
Qed.

Lemma group_label_perm l l' : l ≡ₚ l' -> group_label l = group_label l'.
Proof.
  intros Hp. unfold group_label. rewrite (Permutation_length Hp).
  rewrite (stable_sort_perm_eq string_leb string_leb_total string_leb_trans l l'); [done| |done].
  intros. by apply string_leb_antisym.
Qed.

Lemma alias_labels_perm ps ps' : ps ≡ₚ ps' -> alias_labels ps = alias_labels ps'.
Proof.
  intros Hp. apply map_eq. intros i. rewrite !alias_labels_lookup. apply group_label_perm.
  unfold labelled. by rewrite Hp.
Qed.

Lemma fingerprint_leb_name_eq labels ps x y :
  NoDup (lp_canonical_name <$> ps) ->
  x ∈ fingerprint_entry labels <$> ps -> y ∈ fingerprint_entry labels <$> ps ->
  fe_canonical_name x = fe_canonical_name y -> x = y.
Proof.
  intros Hnd (p & -> & Hp)%list_elem_of_fmap (q & -> & Hq)%list_elem_of_fmap. cbn.
  apply list_elem_of_lookup in Hp as [i Hi], Hq as [j Hj]. intros E.
  assert (i = j) as <-; [|congruence].
  eapply NoDup_lookup; [exact Hnd|by rewrite list_lookup_fmap, Hi|].
  by rewrite list_lookup_fmap, Hj, E.
Qed.

(** Nor does it depend on the order in which the parameters are listed,
    when their names are distinct. *)
Theorem fingerprint_order ps ps' :
  NoDup (lp_canonical_name <$> ps) -> ps ≡ₚ ps' ->
  Forall (fun r => 0 <= br_length r) ((ps ≫= lp_components) ≫= sc_byte_ranges) ->
  schema_fingerprint_from_parameters ps = schema_fingerprint_from_parameters ps'.
Proof.
  intros Hnd Hp Hlen. unfold schema_fingerprint_from_parameters, fingerprint_entries.
  rewrite <-(alias_labels_perm _ _ Hp), <-(Permutation_length Hp).
  replace (parameters_total_bytes ps') with (parameters_total_bytes ps).
  2: { unfold parameters_total_bytes. rewrite !saturating_sum; try done.
       - f_equal. f_equal. apply sum_perm. by rewrite Hp.
       - apply Forall_fmap. by rewrite <-Hp.
       - by apply Forall_fmap. }
  rewrite (stable_sort_perm_eq fingerprint_leb) with (l2 := fingerprint_entry (alias_labels ps) <$> ps');
    [done|..].
  - intros x y. apply string_leb_total.
  - intros x y z. apply string_leb_trans.
  - intros x y Hx Hy Hxy Hyx. eapply fingerprint_leb_name_eq; [exact Hnd|done|done|].
    by apply string_leb_antisym.
  - by apply fmap_Permutation.
Qed.

End Fingerprint.

(** ** Witnesses *)

Definition sample_digest {SJ : SerdeJson} (entries : list FingerprintEntry) : Result Digest :=
  Ok (concat_strings (fe_canonical_name <$> entries)).

Definition sample_parameter (name key : string) (offset : Z) : LogicalParameter :=
  {| lp_canonical_name := name; lp_role := AttentionQ;
     lp_logical_type := {| lt_shape := [4; 8]; lt_element_type := F16 |};
     lp_encoding := plain F16;
     lp_components :=
       [{| sc_name := "data"; sc_key := key; sc_source_file_index := 0; sc_shape := [4; 8];
           sc_storage_type := Scalar F16;
           sc_byte_ranges := [{| br_offset := offset; br_length := 64 |}];
           sc_alignment := 1; sc_endianness := Little |}];
     lp_aliases := [key] |}.

(** The same storage 4096 bytes further on, under another name. *)
Definition move_storage (i : identity) : identity :=
  (i.1.1, String.append "x" i.1.2, (fun r => (r.1 + 4096, r.2)) <$> i.2).

Lemma move_storage_relocation : relocation move_storage.
Proof.
  split.
  - intros [[i k] rs] [[i' k'] rs'] H. unfold move_storage in H. cbn in H.
    injection H as -> Hk Hr. change (k = k') in Hk. subst k'. f_equal.
    revert rs' Hr. induction rs as [|[o n] rs IH]; intros [|[o' n'] rs']; cbn; try done.
    intros [= Ho -> Hr]. f_equal; [f_equal; lia|auto].
  - intros [[i k] rs]. cbn. rewrite <-list_fmap_compose. by apply list_fmap_ext.
Qed.

Lemma fingerprint_relocation_witness :
  schema_fingerprint_from_parameters sample_digest
    (relocate move_storage <$> [sample_parameter "a" "k" 0; sample_parameter "b" "k" 0])
  = schema_fingerprint_from_parameters sample_digest
      [sample_parameter "a" "k" 0; sample_parameter "b" "k" 0].
Proof. exact (fingerprint_relocation sample_digest move_storage _ move_storage_relocation). Defined.

Lemma fingerprint_order_witness :
  schema_fingerprint_from_parameters sample_digest [sample_parameter "b" "k" 0; sample_parameter "a" "k" 0]
  = schema_fingerprint_from_parameters sample_digest [sample_parameter "a" "k" 0; sample_parameter "b" "k" 0].
Proof.
  apply (fingerprint_order sample_digest).
  - apply NoDup_eval. reflexivity.
  - apply Permutation_swap.
  - repeat constructor; discriminate.
Defined.
