(* ===== verification/Support.v ===== *)
(** * Checkpoint support registry: crates/dyninfer-checkpoint/src/support.rs

    The registered container readers and convention decoders, and the choice
    of the best one of each for a source. *)
From S2P Require Import Prelude Errors Serde CoreTypes Catalog Paths.
From S2P Require Import GgufContainer GgufFormat GgufSafety GgufConvention.
From S2P Require Import SafeTensors Sharded StConventions Fingerprint.
From Stdlib Require Import ZArith Lia Ascii String Sorted.
From stdpp Require Import base list strings gmap.
From stdpp Require Import options.
Import Json.

Local Open Scope Z_scope.

Section Support.
Context {SJ : SerdeJson} {Src : Type} {RS : RandomAccessSource Src}.
Context (content_digest : list FingerprintEntry -> Result Digest).

Abbreviation Reader := (@CheckpointContainerReader SJ Src).
Abbreviation Decoder := CheckpointConventionDecoder.

Record BuiltinCheckpointSupport := {
  container_readers : list Reader;
  convention_decoders : list Decoder;
}.

Definition support_new : BuiltinCheckpointSupport :=
  {| container_readers := []; convention_decoders := [] |}.

Definition register_container (reader : Reader) (s : BuiltinCheckpointSupport)
    : BuiltinCheckpointSupport :=
  {| container_readers := container_readers s ++ [reader];
     convention_decoders := convention_decoders s |}.

Definition register_convention (decoder : Decoder) (s : BuiltinCheckpointSupport)
    : BuiltinCheckpointSupport :=
  {| container_readers := container_readers s;
     convention_decoders := convention_decoders s ++ [decoder] |}.

(** [a.sort_by(|a, b| b.0.cmp(&a.0))]: greatest score first. *)
Definition score_leb {A} (a b : Z * A) : bool := b.1 <=? a.1.

(** The loop that scores the candidates and keeps the ones that match. *)
Fixpoint scored {A} (score : A -> Result Z) (l : list A) : Result (list (Z * A)) :=
  match l with
  | [] => Ok []
  | a :: l =>
      s ← score a;
      rest ← scored score l;
      Ok (if 0 <? s then (s, a) :: rest else rest)
  end.

Definition index_source (support : BuiltinCheckpointSupport) (source : Src)
    (limits : InspectionLimits) : Result (Reader * RawCheckpointIndex) :=
  probed ← scored (fun r => ps_score <$> cr_probe r source) (container_readers support);
  match stable_sort score_leb probed with
  | [] =>
      Err (UnsupportedContainer
        {| uc_message := lit "no registered container matched the checkpoint";
           uc_path := src_path source;
           uc_probed_formats := cr_format_id <$> container_readers support |})
  | (_, reader) :: _ =>
      index ← cr_index reader source limits;
      Ok (reader, index)
  end.

Definition decode_index (support : BuiltinCheckpointSupport) (index : RawCheckpointIndex)
    (context : DecodeContext) : Result CheckpointCatalog :=
  scored ← scored (fun d => ms_score <$> cd_match_score d index context)
             (convention_decoders support);
  match stable_sort score_leb scored with
  | [] =>
      Err (invalid_checkpoint (lit "no convention decoder matched the checkpoint index") None
        (Some (Format "container={}" [AStr (ci_format_id (ix_container index))])))
  | (_, decoder) :: _ =>
      cat ← cd_decode decoder index context;
      schema_fingerprint ← schema_fingerprint_from_parameters content_digest (pcat_parameters cat);
      Ok {| cc_container := ix_container index;
            cc_convention_id := pcat_convention_id cat;
            cc_source_files := ix_source_files index;
            cc_metadata :=
              foldl (fun m kv => <[kv.1 := kv.2]> m) (ix_metadata index)
                (btree_iter (pcat_metadata cat));
            cc_raw_entries := ix_entries index;
            cc_parameters := pcat_parameters cat;
            cc_schema_fingerprint := schema_fingerprint |}
  end.

Definition inspect_source (support : BuiltinCheckpointSupport) (source : Src)
    (limits : InspectionLimits) (context : DecodeContext) : Result CheckpointCatalog :=
  '(_, index) ← index_source support source limits;
  decode_index support index context.

(** ** The candidate chosen *)

(** [x] is the first candidate of the greatest score, and it matches. *)
Definition best {A} (score : A -> Result Z) (l : list A) (x : A) : Prop :=
  exists l1 l2 s, l = l1 ++ x :: l2 /\ score x = Ok s /\ 0 < s /\
    Forall (fun y => exists t, score y = Ok t /\ t < s) l1 /\
    Forall (fun y => exists t, score y = Ok t /\ t <= s) l2.

Lemma scored_split {A} (score : A -> Result Z) l1 l2 sc l :
  scored score l = Ok sc -> forall s x, sc = l1 ++ (s, x) :: l2 ->
  exists k1 k2, l = k1 ++ x :: k2 /\ score x = Ok s /\ 0 < s /\
    scored score k1 = Ok l1 /\ scored score k2 = Ok l2.
Proof.
  revert sc l1. induction l as [|a l IH]; intros sc l1 H s x Hsc; cbn in H.
  { injection H as <-. by destruct l1. }
  apply bind_Ok in H as (v & Hv & H). apply bind_Ok in H as (v0 & Hv0 & H).
  injection H as <-.
  destruct (Z.ltb_spec 0 v).
  - destruct l1 as [|y l1]; cbn in Hsc.
    + injection Hsc as <- <- <-. by exists [], l.
    + injection Hsc as <- Hsc. destruct (IH _ l1 Hv0 s x Hsc) as (k1 & k2 & -> & Hx & Hpos & H1 & H2).
      exists (a :: k1), k2. cbn. rewrite Hv. cbn. rewrite H1. cbn.
      rewrite (proj2 (Z.ltb_lt _ _)) by done. done.
  - destruct (IH _ l1 Hv0 s x Hsc) as (k1 & k2 & -> & Hx & Hpos & H1 & H2).
    exists (a :: k1), k2. cbn. rewrite Hv. cbn. rewrite H1. cbn.
    rewrite (proj2 (Z.ltb_ge _ _)) by done. done.
Qed.

Lemma scored_Forall {A} (score : A -> Result Z) (P : Z -> Prop) l sc :
  (forall t, t <= 0 -> P t) -> scored score l = Ok sc -> Forall (fun y => P y.1) sc ->
  Forall (fun y => exists t, score y = Ok t /\ P t) l.
Proof.
  intros HP. revert sc. induction l as [|a l IH]; intros sc H HF; cbn in H; ok_inv; constructor.
  - exists v. split; [done|]. destruct (Z.ltb_spec 0 v); [|by apply HP].
    by inversion HF.
  - eapply IH; [done|]. destruct (Z.ltb_spec 0 v); [by inversion HF|done].
Qed.

Lemma stable_sort_best {A} (score : A -> Result Z) l sc s x rest :
  scored score l = Ok sc -> stable_sort score_leb sc = (s, x) :: rest -> best score l x.
Proof.
  intros Hsc Hsort. apply stable_sort_first in Hsort as (l1 & l2 & E & H1 & H2).
  - destruct (scored_split score l1 l2 sc l Hsc s x E) as (k1 & k2 & -> & Hx & Hpos & E1 & E2).
    exists k1, k2, s. repeat split; try done.
    + eapply (scored_Forall score (fun t => t < s)); [intros; lia|exact E1|].
      eapply Forall_impl; [exact H1|]. intros [t y] Hy. apply Z.leb_gt in Hy. exact Hy.
    + eapply (scored_Forall score (fun t => t <= s)); [intros; lia|exact E2|].
      eapply Forall_impl; [exact H2|]. intros [t y] Hy. apply Z.leb_le in Hy. exact Hy.
  - intros a b. unfold score_leb. rewrite !Z.leb_le. lia.
  - intros a b c. unfold score_leb. rewrite !Z.leb_le. lia.
Qed.

(** Inspection uses the best registered implementations: the container
    reader with the greatest probe score and the convention with the greatest
    match score, the earliest registered one on a tie; every candidate is
    scored, none that does not match is used, and the catalog keeps the index
    and the decoded parameters as they are. *)
Theorem inspect_source_best support source limits context cat :
  inspect_source support source limits context = Ok cat ->
  exists reader index decoder decoded,
    best (fun r => ps_score <$> cr_probe r source) (container_readers support) reader /\
    cr_index reader source limits = Ok index /\
    best (fun d => ms_score <$> cd_match_score d index context)
      (convention_decoders support) decoder /\
    cd_decode decoder index context = Ok decoded /\
    cc_raw_entries cat = ix_entries index /\ cc_source_files cat = ix_source_files index /\
    cc_parameters cat = pcat_parameters decoded /\
    cc_convention_id cat = pcat_convention_id decoded /\
    (forall k v, pcat_metadata decoded !! k = Some v -> cc_metadata cat !! k = Some v) /\
    (forall k, pcat_metadata decoded !! k = None -> cc_metadata cat !! k = ix_metadata index !! k).
Proof.
  intros H. unfold inspect_source, index_source in H.
  apply bind_Ok in H as ([reader index] & Hi & H).
  apply bind_Ok in Hi as (probed & Hprobed & Hi).
  destruct (stable_sort score_leb probed) as [|[s r] rest] eqn:Es; [done|].
  apply bind_Ok in Hi as (ix & Hix & [= <- <-]).
  unfold decode_index in H. apply bind_Ok in H as (matched & Hmatched & H).
  destruct (stable_sort score_leb matched) as [|[s' decoder] rest'] eqn:Ed; [done|].
  apply bind_Ok in H as (decoded & Hdec & H). apply bind_Ok in H as (fp & _ & [= <-]).
  exists r, ix, decoder, decoded. cbn.
  split; [by eapply stable_sort_best|]. split; [done|].
  split; [by eapply stable_sort_best|]. repeat (split; [done|]).
  split; intros k; [intros v|]; intros Hk; by rewrite btree_extend_lookup, Hk.
Qed.

End Support.

(** ** The registry of the runtime: default_checkpoint_support of
    crates/dyninfer-runtime/src/builtins.rs *)

Section Builtins.
Context {SJ : SerdeJson} {LE : LittleEndian} {SD : SerdeDeserialize}.
Context {Src : Type} {RS : RandomAccessSource Src}.
Context (stack : nat) (index_file_from_slice : bytes -> option IndexFile).
Context (open_file : string -> Result FileSource) (read_file : string -> option bytes).

Definition register_safetensors (s : @BuiltinCheckpointSupport SJ Src) : BuiltinCheckpointSupport :=
  register_convention (DenseSafetensorsConvention read_file)
    (register_convention (MlxSafeTensorsConvention read_file)
      (register_container SafeTensorsContainer
        (register_container (ShardedSafeTensorsContainer index_file_from_slice open_file) s))).

Definition register_gguf (s : @BuiltinCheckpointSupport SJ Src) : BuiltinCheckpointSupport :=
  register_convention GgufMixedConvention (register_container (GgufContainer stack) s).

Definition default_checkpoint_support : @BuiltinCheckpointSupport SJ Src :=
  register_gguf (register_safetensors support_new).

End Builtins.

(** ** The formats do not overlap *)

Lemma le_value_gguf (a : bytes) :
  (4 <= length a)%nat -> take 4 a = GGUF_MAGIC -> 2 ^ 26 < le_value a.
Proof.
  intros Hl Ht. rewrite <-(take_drop 4 a), Ht, le_value_app.
  pose proof (le_value_range (drop 4 a)).
  assert (le_value GGUF_MAGIC = 1179993927) as -> by reflexivity.
  assert (0 <= 2 ^ (8 * Z.of_nat (length GGUF_MAGIC))) by lia. nia.
Qed.

(** No byte string is taken for both formats: what the GGUF probe accepts
    the SafeTensors probe rejects. *)
Theorem probes_exclusive `{SJ : SerdeJson} (source : BytesSource) :
  gguf_probe source = Ok PROBE_STRONG -> st_probe source = Ok PROBE_NONE.
Proof.
  unfold gguf_probe, st_probe. cbn [src_len read_exact_at BytesSource_source].
  destruct (Z.ltb_spec (BytesSource_len source) 4) as [|H4]; [done|].
  destruct (Z.ltb_spec (BytesSource_len source) 8) as [|H8]; [done|].
  intros H. apply bind_Ok in H as (m & Hm & H).
  destruct (bool_decide_reflect (m = GGUF_MAGIC)) as [->|]; [|done].
  pose proof (bs_len_ok source) as Hu. unfold is_u64 in Hu.
  assert (Hread : forall n, 0 <= n <= BytesSource_len source ->
    BytesSource_read_exact_at source 0 n = Ok (take (Z.to_nat n) (bs_data source))).
  { intros n Hn. unfold BytesSource_read_exact_at, checked_add, checked_u64.
    unfold BytesSource_len in *. rewrite (proj2 (Z.leb_le (0 + n) u64_max)) by lia. cbn.
    by rewrite (proj2 (Z.leb_le _ _)) by lia. }
  rewrite Hread in Hm |- * by lia. injection Hm as Hm. cbn [mbind result_mbind].
  assert (Hbig : 2 ^ 26 < le_value (take (Z.to_nat 8) (bs_data source))).
  { apply le_value_gguf.
    - rewrite length_take. unfold BytesSource_len in H8. lia.
    - rewrite take_take. exact Hm. }
  rewrite (proj2 (Z.eqb_neq _ _)), Z.gtb_ltb, (proj2 (Z.ltb_lt _ _)) by lia. done.
Qed.

(** ** Witnesses *)

#[local] Existing Instance Deserialize.sample.

Definition sample_support : @BuiltinCheckpointSupport serde BytesSource :=
  default_checkpoint_support 40 Shards.parse_index Shards.open_shard Mlx.no_files.

Definition sample_catalog : CheckpointCatalog :=
  match inspect_source sample_digest sample_support sample_source InspectionLimits_default
          sample_context with
  | Ok cat => cat
  | _ => {| cc_container := ix_container sample_index; cc_convention_id := EmptyString;
            cc_source_files := []; cc_metadata := ∅; cc_raw_entries := []; cc_parameters := [];
            cc_schema_fingerprint :=
              {| fp_digest := EmptyString; fp_entry_count := 0; fp_total_bytes := 0 |} |}
  end.

Lemma inspect_source_best_witness :
  inspect_source sample_digest sample_support sample_source InspectionLimits_default sample_context
    = Ok sample_catalog /\
  exists reader, best (fun r => ps_score <$> cr_probe r sample_source)
    (container_readers sample_support) reader.
Proof.
  assert (H : inspect_source sample_digest sample_support sample_source InspectionLimits_default
    sample_context = Ok sample_catalog) by by_vm.
  split; [exact H|].
  destruct (inspect_source_best sample_digest sample_support sample_source
    InspectionLimits_default sample_context sample_catalog H) as (reader & _ & _ & _ & Hb & _).
  exists reader. exact Hb.
Defined.

Lemma probes_exclusive_witness :
  gguf_probe sample_source = Ok PROBE_STRONG /\ st_probe sample_source = Ok PROBE_NONE.
Proof.
  assert (H : gguf_probe sample_source = Ok PROBE_STRONG) by by_vm.
  split; [exact H|]. exact (probes_exclusive sample_source H).
Defined.
