(* ===== verification/Binding.v ===== *)
(** * Parameter binding: crates/dyninfer-binding/src/lib.rs

    Matching of architecture slots with checkpoint parameters by name, the
    checks on each match, and the resulting binding plan. *)
From S2P Require Import Prelude Errors Serde CoreTypes Catalog Ir Config.
From Stdlib Require Import ZArith Lia Ascii String Sorted.
From stdpp Require Import base list strings gmap.
From stdpp Require Import options.
Import Json.

Local Open Scope Z_scope.

Section Binding.
Context {SJ : SerdeJson}.

Record Binder := { parameter_scope : string }.
Definition Binder_default : Binder := {| parameter_scope := "weights" |}.

Abbreviation NameMap := (gmap string LogicalParameter).

(** Canonical names first, then the aliases that are still free. *)
Definition insert_canonical (m : NameMap) (p : LogicalParameter) : NameMap :=
  <[lp_canonical_name p := p]> m.
Definition insert_aliases (m : NameMap) (p : LogicalParameter) : NameMap :=
  foldl (fun m alias => or_insert m alias p) m (lp_aliases p).
Definition parameters_by_name (parameters : list LogicalParameter) : NameMap :=
  foldl insert_aliases (foldl insert_canonical ∅ parameters) parameters.

Definition roles_compatible (slot param : ParameterRole) : bool :=
  match slot, param with
  | _, Other _ => true
  | Other _, _ => true
  | a, b => bool_decide (a = b)
  end.

Definition binding_error (message : text) (slot : ParameterSlot) (checkpoint_key : option string)
    (expected actual : option text) : DynInferError :=
  Binding {| be_message := message; be_slot := Some (slot_id slot);
             be_checkpoint_key := checkpoint_key; be_expected := expected; be_actual := actual |}.

Definition shape_text (s : list Z) : text := Format "{}" [AInts s].

Definition component_ranges (p : LogicalParameter) : list ByteRange :=
  lp_components p ≫= sc_byte_ranges.

Definition storage_bytes (p : LogicalParameter) : Z :=
  foldl saturating_add 0 (br_length <$> component_ranges p).

(** The checks of rank, shape, role and element type. *)
Definition check_type (slot : ParameterSlot) (p : LogicalParameter) : Result unit :=
  let key := Some (lp_canonical_name p) in
  let shape := lt_shape (lp_logical_type p) in
  _ ← match lc_rank (slot_expected_type slot) with
      | Some r =>
          ensure (rank shape =? r)
            (binding_error (lit "parameter rank mismatch") slot
               (Some (default EmptyString (head (lp_aliases p))))
               (Some (Format "rank {rank}" [AInt r]))
               (Some (Format "rank {}" [AInt (rank shape)])))
      | None => Ok tt
      end;
  _ ← match lc_shape (slot_expected_type slot) with
      | Some expected =>
          ensure (is_compatible_with shape expected)
            (binding_error (lit "parameter shape mismatch") slot key
               (Some (shape_text expected)) (Some (shape_text shape)))
      | None => Ok tt
      end;
  _ ← ensure (roles_compatible (slot_role slot) (lp_role p))
        (binding_error
           (Format "parameter role mismatch: slot `{}` expects `{}`, checkpoint parameter `{}` is `{}`"
              [AStr (slot_id slot); AStr (role_as_str (slot_role slot));
               AStr (lp_canonical_name p); AStr (role_as_str (lp_role p))])
           slot key (Some (lit (role_as_str (slot_role slot))))
           (Some (lit (role_as_str (lp_role p)))));
  let types := lc_element_types (slot_expected_type slot) in
  ensure (bool_decide (types = [])
          || bool_decide (lt_element_type (lp_logical_type p) ∈ types))
    (binding_error (lit "parameter element type mismatch") slot key
       (Some (Format "{:?}" [AStrs (ScalarType_debug <$> types)]))
       (Some (lit (ScalarType_display (lt_element_type (lp_logical_type p)))))).

(** The byte length of plain encodings with declared storage. *)
Definition check_storage (slot : ParameterSlot) (p : LogicalParameter) : Result unit :=
  let key := Some (lp_canonical_name p) in
  let shape := lt_shape (lp_logical_type p) in
  if bool_decide (lp_components p = []) then Ok tt
  else match lp_encoding p with
  | Plain storage_type _ =>
      match size_bytes storage_type with
      | Some elem =>
          numel ← ok_or (numel shape)
            (binding_error (lit "parameter shape numel overflow") slot key None
               (Some (shape_text shape)));
          let expected := saturating_mul numel elem in
          ensure (storage_bytes p =? expected)
            (binding_error (lit "parameter storage byte length mismatch") slot key
               (Some (Format "{expected} bytes" [AInt expected]))
               (Some (Format "{storage_bytes} bytes" [AInt (storage_bytes p)])))
      | None => Ok tt
      end
  | _ => Ok tt
  end.

(** The alignment of the first component, which every range must respect. *)
Definition parameter_alignment (p : LogicalParameter) : Z :=
  default 1 (sc_alignment <$> head (lp_components p)).

Definition check_alignment (slot : ParameterSlot) (p : LogicalParameter) : Result unit :=
  let key := Some (lp_canonical_name p) in
  let alignment := parameter_alignment p in
  _ ← ensure (negb (alignment =? 0))
        (binding_error (lit "parameter alignment must be non-zero") slot key
           (Some (lit "alignment >= 1")) (Some (lit "0")));
  try_for_each (fun range =>
    ensure (br_offset range mod alignment =? 0)
      (binding_error (lit "parameter byte range is misaligned") slot key
         (Some (Format "offset % {alignment} == 0" [AInt alignment]))
         (Some (Format "offset {}" [AInt (br_offset range)]))))
    (component_ranges p).

(** [format!("{}::{}::{}", scope, param.canonical_name, component.name)]. *)
Definition external_key (b : Binder) (p : LogicalParameter) (c : StorageComponent) : string :=
  String.append (parameter_scope b) (String.append "::"
    (String.append (lp_canonical_name p) (String.append "::" (sc_name c)))).

Definition component_binding (b : Binder) (p : LogicalParameter) (c : StorageComponent)
    : ParameterComponentBinding :=
  {| pc_component_name := sc_name c;
     pc_external_key := external_key b p c;
     pc_checkpoint_key := sc_key c;
     pc_source_file_index := sc_source_file_index c;
     pc_shape := sc_shape c;
     pc_storage_type := sc_storage_type c;
     pc_byte_lengths := br_length <$> sc_byte_ranges c;
     pc_alignment := sc_alignment c;
     pc_endianness := sc_endianness c |}.

Definition parameter_binding (b : Binder) (slot : ParameterSlot) (p : LogicalParameter)
    : ParameterBinding :=
  {| pb_slot_id := slot_id slot;
     pb_canonical_name := slot_canonical_name slot;
     pb_checkpoint_keys := lp_aliases p;
     pb_encoding := lp_encoding p;
     pb_logical_shape := lt_shape (lp_logical_type p);
     pb_logical_type := lt_element_type (lp_logical_type p);
     pb_components := component_binding b p <$> lp_components p;
     pb_transform := Identity;
     pb_scope := parameter_scope b;
     pb_parameter_key := default (lp_canonical_name p) (sc_key <$> head (lp_components p));
     pb_storage_bytes := storage_bytes p;
     pb_alignment := parameter_alignment p |}.

Definition bind_slot (b : Binder) (by_name : NameMap) (slot : ParameterSlot)
    : Result (option ParameterBinding) :=
  match by_name !! slot_canonical_name slot with
  | None => Ok None
  | Some p =>
      _ ← check_type slot p;
      _ ← check_storage slot p;
      _ ← check_alignment slot p;
      Ok (Some (parameter_binding b slot p))
  end.

Record BindState := {
  bd_bindings : list ParameterBinding;
  bd_unresolved_optional : list string;
  bd_tied_shapes : gmap string (string * list Z);
}.

(** The tied-group bookkeeping for a slot that was bound. *)
Definition check_tied (slot : ParameterSlot) (binding : ParameterBinding)
    (tied : gmap string (string * list Z)) : Result (gmap string (string * list Z)) :=
  match slot_tied_group slot with
  | None => Ok tied
  | Some group_key =>
      let shape := pb_logical_shape binding in
      match tied !! group_key with
      | Some (other_slot, other_shape) =>
          _ ← ensure (bool_decide (other_shape = shape))
                (binding_error
                   (Format "tied group `{group_key}` shape mismatch between `{other_slot}` and `{}`"
                      [AStr group_key; AStr other_slot; AStr (slot_id slot)])
                   slot (Some (pb_parameter_key binding))
                   (Some (shape_text other_shape)) (Some (shape_text shape)));
          Ok tied
      | None => Ok (<[group_key := (slot_id slot, shape)]> tied)
      end
  end.

(** One turn of the loop over the slots. *)
Definition bind_step (b : Binder) (by_name : NameMap) (st : BindState) (slot : ParameterSlot)
    : Result BindState :=
  o ← bind_slot b by_name slot;
  match o with
  | Some binding =>
      tied ← check_tied slot binding (bd_tied_shapes st);
      Ok {| bd_bindings := bd_bindings st ++ [binding];
            bd_unresolved_optional := bd_unresolved_optional st;
            bd_tied_shapes := tied |}
  | None =>
      if slot_optional slot then
        Ok {| bd_bindings := bd_bindings st;
              bd_unresolved_optional := bd_unresolved_optional st ++ [slot_id slot];
              bd_tied_shapes := bd_tied_shapes st |}
      else
        Err (binding_error
          (Format "required parameter slot `{}` not found in checkpoint"
             [AStr (slot_canonical_name slot)])
          slot None (Some (lit (slot_canonical_name slot))) None)
  end.

Definition bind_start : BindState :=
  {| bd_bindings := []; bd_unresolved_optional := []; bd_tied_shapes := ∅ |}.

Definition bind (b : Binder) (architecture : ArchitecturePackage) (catalog : CheckpointCatalog)
    : Result BindingPlan :=
  let by_name := parameters_by_name (cc_parameters catalog) in
  st ← try_fold (bind_step b by_name) bind_start (parameter_slots architecture);
  Ok {| bp_architecture_id := pkg_id architecture;
        bp_checkpoint_schema := cc_schema_fingerprint catalog;
        bp_bindings := bd_bindings st;
        bp_unresolved_optional_slots := bd_unresolved_optional st |}.

(** ** What a binding guarantees *)

(** The parameter [p] satisfies the contract of [slot]. *)
Definition fits_slot (slot : ParameterSlot) (p : LogicalParameter) : Prop :=
  let shape := lt_shape (lp_logical_type p) in
  (forall r, lc_rank (slot_expected_type slot) = Some r -> rank shape = r) /\
  (forall s, lc_shape (slot_expected_type slot) = Some s -> shape = s) /\
  roles_compatible (slot_role slot) (lp_role p) = true /\
  (lc_element_types (slot_expected_type slot) = [] \/
   lt_element_type (lp_logical_type p) ∈ lc_element_types (slot_expected_type slot)) /\
  (forall ty o elem, lp_encoding p = Plain ty o -> lp_components p <> [] ->
     size_bytes ty = Some elem -> product shape * elem <= u64_max ->
     storage_bytes p = product shape * elem) /\
  parameter_alignment p <> 0 /\
  Forall (fun r => br_offset r mod parameter_alignment p = 0) (component_ranges p).

(** The bindings [bs] of the slots [slots], in order; a slot without one is
    optional and listed as unresolved. *)
Definition bound_slots (b : Binder) (by_name : NameMap) (slots : list ParameterSlot)
    (bs : list ParameterBinding) (unresolved : list string) : Prop :=
  bs = omap (fun slot => parameter_binding b slot <$> by_name !! slot_canonical_name slot) slots /\
  unresolved = slot_id <$>
    List.filter (fun slot => bool_decide (by_name !! slot_canonical_name slot = None)) slots /\
  (forall slot, slot ∈ slots ->
     match by_name !! slot_canonical_name slot with
     | Some p => fits_slot slot p
     | None => slot_optional slot = true
     end).

(** Bindings of slots of one tied group have one shape, the recorded one. *)
Definition tied_ok (by_name : NameMap) (slots : list ParameterSlot)
    (tied : gmap string (string * list Z)) : Prop :=
  forall slot p g, slot ∈ slots -> by_name !! slot_canonical_name slot = Some p ->
    slot_tied_group slot = Some g -> snd <$> tied !! g = Some (lt_shape (lp_logical_type p)).

(** ** Lemmas *)

Lemma check_type_Ok slot p u :
  check_type slot p = Ok u ->
  (forall r, lc_rank (slot_expected_type slot) = Some r -> rank (lt_shape (lp_logical_type p)) = r) /\
  (forall s, lc_shape (slot_expected_type slot) = Some s -> lt_shape (lp_logical_type p) = s) /\
  roles_compatible (slot_role slot) (lp_role p) = true /\
  (lc_element_types (slot_expected_type slot) = [] \/
   lt_element_type (lp_logical_type p) ∈ lc_element_types (slot_expected_type slot)).
Proof.
  unfold check_type. intros H. apply bind_Ok in H as ([] & H1 & H).
  apply bind_Ok in H as ([] & H2 & H). apply bind_Ok in H as ([] & H3 & H).
  apply ensure_Ok in H3, H. split; [|split; [|split]].
  - intros r Hr. rewrite Hr in H1. by apply ensure_Ok, Z.eqb_eq in H1.
  - intros s Hs. rewrite Hs in H2. by apply ensure_Ok, bool_decide_eq_true_1 in H2.
  - done.
  - apply orb_true_iff in H as [H|H]; apply bool_decide_eq_true_1 in H; auto.
Qed.

Lemma check_storage_Ok slot p u ty o elem :
  check_storage slot p = Ok u -> lp_encoding p = Plain ty o -> lp_components p <> [] ->
  size_bytes ty = Some elem -> product (lt_shape (lp_logical_type p)) * elem <= u64_max ->
  storage_bytes p = product (lt_shape (lp_logical_type p)) * elem.
Proof.
  unfold check_storage. intros H He Hc Hs Hm. rewrite bool_decide_eq_false_2 in H by done.
  rewrite He, Hs in H. ok_inv. apply numel_Some in Hv as ->. apply Z.eqb_eq in H.
  rewrite H. unfold saturating_mul. lia.
Qed.

Lemma check_alignment_Ok slot p u :
  check_alignment slot p = Ok u ->
  parameter_alignment p <> 0 /\
  Forall (fun r => br_offset r mod parameter_alignment p = 0) (component_ranges p).
Proof.
  unfold check_alignment. intros H. ok_inv. apply negb_true_iff, Z.eqb_neq in Hv.
  split; [done|]. apply try_for_each_Ok in H. eapply Forall_impl; [exact H|].
  intros r Hr. by apply ensure_Ok, Z.eqb_eq in Hr.
Qed.

Lemma bind_slot_Ok b by_name slot o :
  bind_slot b by_name slot = Ok o ->
  o = parameter_binding b slot <$> by_name !! slot_canonical_name slot /\
  forall p, by_name !! slot_canonical_name slot = Some p -> fits_slot slot p.
Proof.
  unfold bind_slot. destruct (by_name !! _) as [p|] eqn:E; intros H; ok_inv; [|done].
  split; [done|]. intros ? [= <-]. apply check_type_Ok in Hv as (? & ? & ? & ?).
  apply check_alignment_Ok in Hv1 as [? ?]. repeat split; try done.
  intros ????. by eapply check_storage_Ok.
Qed.

Lemma bind_steps_Ok b by_name slots st :
  try_fold (bind_step b by_name) bind_start slots = Ok st ->
  bound_slots b by_name slots (bd_bindings st) (bd_unresolved_optional st) /\
  tied_ok by_name slots (bd_tied_shapes st).
Proof.
  apply (try_fold_prefix (fun slots st =>
    bound_slots b by_name slots (bd_bindings st) (bd_unresolved_optional st) /\
    tied_ok by_name slots (bd_tied_shapes st))).
  2: { split; [|by intros ??? ?%not_elem_of_nil].
       repeat split; try done. by intros ? ?%not_elem_of_nil. }
  clear st. intros pre st slot st' [(Hb & Hu & Hall) Htied] H. unfold bind_step in H.
  apply bind_Ok in H as (o & Ho & H). apply bind_slot_Ok in Ho as [-> Hfit].
  unfold bound_slots. rewrite omap_app, List.filter_app, fmap_app.
  cbn [omap list_omap List.filter].
  destruct (by_name !! slot_canonical_name slot) as [p|] eqn:E; cbn [fmap option_fmap option_map] in H.
  - apply bind_Ok in H as (tied & Ht & [= <-]). cbn. rewrite Hb, Hu, app_nil_r.
    split; [split; [done|]; split; [done|]|].
    + intros s [Hs| ->%list_elem_of_singleton]%elem_of_app; [by apply Hall|].
      rewrite E. by apply Hfit.
    + assert (Hgrow : (forall g, is_Some (bd_tied_shapes st !! g) -> tied !! g = bd_tied_shapes st !! g)
        /\ forall g, slot_tied_group slot = Some g ->
           snd <$> tied !! g = Some (lt_shape (lp_logical_type p))).
      { unfold check_tied in Ht. destruct (slot_tied_group slot) as [g|]; [|ok_inv; done].
        destruct (bd_tied_shapes st !! g) as [[os sh]|] eqn:Eg; ok_inv.
        - apply bool_decide_eq_true_1 in Hv as ->. split; [done|]. intros ? [= <-]. by rewrite Eg.
        - split; [|intros ? [= <-]; by rewrite lookup_insert_eq].
          intros g' Hg'. apply lookup_insert_ne. intros <-. rewrite Eg in Hg'. by destruct Hg'. }
      destruct Hgrow as [Hold Hnew].
      intros s q g [Hs| ->%list_elem_of_singleton]%elem_of_app Hq Hg.
      * specialize (Htied s q g Hs Hq Hg). rewrite Hold; [done|].
        destruct (bd_tied_shapes st !! g); [by eexists|done].
      * rewrite E in Hq. injection Hq as <-. by apply Hnew.
  - destruct (slot_optional slot) eqn:Eo; [|done]. injection H as <-. cbn.
    rewrite Hb, Hu, app_nil_r. split; [split; [done|]; split; [done|]|].
    + intros s [Hs| ->%list_elem_of_singleton]%elem_of_app; [by apply Hall|]. by rewrite E.
    + intros s q g [Hs| ->%list_elem_of_singleton]%elem_of_app Hq Hg; [by eapply Htied|congruence].
Qed.

(** ** Which parameter a name denotes *)

Lemma insert_canonical_lookup ps m k :
  foldl insert_canonical m ps !! k
  = match last (List.filter (fun p => String.eqb (lp_canonical_name p) k) ps) with
    | Some p => Some p
    | None => m !! k
    end.
Proof.
  revert m. induction ps as [|p ps IH]; intros m; [done|]. cbn. rewrite IH.
  unfold insert_canonical at 1. destruct (String.eqb_spec (lp_canonical_name p) k) as [<-|Hne].
  - destruct (List.filter _ ps) as [|q l] eqn:E; cbn; [by rewrite lookup_insert_eq|]. by assert (is_Some (last (q :: l))) as [? ->] by (by apply last_is_Some).
  - by rewrite lookup_insert_ne.
Qed.

Lemma or_inserts_keep (p : LogicalParameter) l (m : NameMap) k q :
  m !! k = Some q -> foldl (fun m alias => or_insert m alias p) m l !! k = Some q.
Proof.
  revert m. induction l as [|a l IH]; intros m Hm; [done|].
  cbn. apply IH. unfold or_insert. destruct (m !! a) eqn:E; [done|].
  rewrite lookup_insert_ne; [done|]. intros <-. congruence.
Qed.

Lemma insert_aliases_keep p (m : NameMap) k q : m !! k = Some q -> insert_aliases m p !! k = Some q.
Proof. apply or_inserts_keep. Qed.

Lemma insert_aliases_source p (m : NameMap) k q :
  insert_aliases m p !! k = Some q -> m !! k = Some q \/ (q = p /\ k ∈ lp_aliases p).
Proof.
  unfold insert_aliases. revert m. induction (lp_aliases p) as [|a l IH]; intros m H; [by left|].
  cbn in H. apply IH in H as [H|[-> H]]; [|right; split; [done|by right]].
  unfold or_insert in H. destruct (m !! a) eqn:E; [by left|].
  destruct (decide (a = k)) as [->|Hne].
  - rewrite lookup_insert_eq in H. injection H as <-. right. split; [done|by left].
  - rewrite lookup_insert_ne in H by done. by left.
Qed.

Lemma aliases_keep ps (m : NameMap) k q : m !! k = Some q -> foldl insert_aliases m ps !! k = Some q.
Proof.
  revert m. induction ps as [|p ps IH]; intros m Hm; [done|]. cbn. by apply IH, insert_aliases_keep.
Qed.

Lemma aliases_source ps (m : NameMap) k q :
  foldl insert_aliases m ps !! k = Some q -> m !! k = Some q \/ (q ∈ ps /\ k ∈ lp_aliases q).
Proof.
  revert m. induction ps as [|p ps IH]; intros m H; [by left|]. cbn in H.
  apply IH in H as [H|[Hq Hk]]; [|right; split; [by right|done]].
  apply insert_aliases_source in H as [H|[-> Hk]]; [by left|right; split; [by left|done]].
Qed.

Lemma filter_name_unique ps p :
  NoDup (lp_canonical_name <$> ps) -> p ∈ ps ->
  List.filter (fun q => String.eqb (lp_canonical_name q) (lp_canonical_name p)) ps = [p].
Proof.
  induction ps as [|q ps IH]; intros Hnd Hin; [by apply not_elem_of_nil in Hin|].
  cbn in *. apply NoDup_cons in Hnd as [Hq Hnd].
  assert (Hnone : forall r, lp_canonical_name r ∉ lp_canonical_name <$> ps ->
    List.filter (fun q => String.eqb (lp_canonical_name q) (lp_canonical_name r)) ps = []).
  { intros r Hr. clear -Hr. induction ps as [|s ps IH]; [done|]. cbn in *.
    apply not_elem_of_cons in Hr as [Hne Hr].
    destruct (String.eqb_spec (lp_canonical_name s) (lp_canonical_name r)); [congruence|auto]. }
  apply elem_of_cons in Hin as [->|Hin].
  - rewrite String.eqb_refl. by rewrite Hnone.
  - destruct (String.eqb_spec (lp_canonical_name q) (lp_canonical_name p)) as [E|_]; [|auto].
    exfalso. apply Hq. rewrite E. by apply list_elem_of_fmap_2.
Qed.

(** A canonical name denotes its own parameter. *)
Lemma by_name_canonical ps p :
  NoDup (lp_canonical_name <$> ps) -> p ∈ ps ->
  parameters_by_name ps !! lp_canonical_name p = Some p.
Proof.
  intros Hnd Hin. unfold parameters_by_name. apply aliases_keep.
  by rewrite insert_canonical_lookup, filter_name_unique.
Qed.

(** What a name denotes has it as its canonical name or as an alias. *)
Lemma by_name_source ps k p :
  parameters_by_name ps !! k = Some p ->
  p ∈ ps /\ (lp_canonical_name p = k \/ k ∈ lp_aliases p).
Proof.
  unfold parameters_by_name. intros [H|[? ?]]%aliases_source; [|auto].
  rewrite insert_canonical_lookup, lookup_empty in H.
  destruct (last _) as [q|] eqn:E; [|done]. injection H as <-.
  apply last_Some_elem_of, list_elem_of_In, filter_In in E as [Hin Hk].
  apply String.eqb_eq in Hk. split; [by apply list_elem_of_In|by left].
Qed.

Lemma insert_aliases_some p (m : NameMap) k : k ∈ lp_aliases p -> is_Some (insert_aliases m p !! k).
Proof.
  unfold insert_aliases. revert m.
  induction (lp_aliases p) as [|a l IH]; intros m Hk; [by apply not_elem_of_nil in Hk|].
  cbn. apply elem_of_cons in Hk as [->|Hk]; [|by apply IH].
  assert (Hs : is_Some (or_insert m a p !! a)).
  { unfold or_insert. destruct (m !! a) eqn:E; [by rewrite E|by rewrite lookup_insert_eq]. }
  destruct Hs as [q Hq]. exists q. by apply or_inserts_keep.
Qed.

Lemma alias_resolves ps p k :
  p ∈ ps -> k ∈ lp_aliases p -> is_Some (parameters_by_name ps !! k).
Proof.
  intros Hin Hk. unfold parameters_by_name. generalize (foldl insert_canonical ∅ ps).
  induction ps as [|q ps IH]; intros m; [by apply not_elem_of_nil in Hin|]. cbn.
  apply elem_of_cons in Hin as [->|Hin]; [|by apply IH].
  destruct (insert_aliases_some q m k Hk) as [x Hx]. exists x. by apply aliases_keep.
Qed.

(** ** Properties *)

(** Names resolve as intended: with distinct canonical names each
    canonical name denotes its own parameter, whatever the aliases are, and
    any other name denotes a parameter that has it as an alias. *)
Theorem canonical_names_win ps :
  NoDup (lp_canonical_name <$> ps) ->
  (forall p, p ∈ ps -> parameters_by_name ps !! lp_canonical_name p = Some p) /\
  (forall k p, parameters_by_name ps !! k = Some p ->
     p ∈ ps /\ (lp_canonical_name p = k \/
                (k ∈ lp_aliases p /\ k ∉ lp_canonical_name <$> ps))) /\
  (forall p k, p ∈ ps -> k ∈ lp_aliases p -> is_Some (parameters_by_name ps !! k)).
Proof.
  intros Hnd. split; [|split].
  - intros p. by apply by_name_canonical.
  - intros k p Hk. pose proof Hk as [Hin Hor]%by_name_source. split; [done|].
    destruct (decide (lp_canonical_name p = k)) as [?|Hne]; [by left|right].
    destruct Hor as [?|Ha]; [done|]. split; [done|].
    intros (q & -> & Hq)%list_elem_of_fmap.
    rewrite (by_name_canonical ps q Hnd Hq) in Hk. congruence.
  - intros p k Hin Ha. apply alias_resolves with p; done.
Qed.

(** C15: A binding plan has one binding per slot that the checkpoint has a
    parameter for, in the order of the slots; each satisfies the slot's rank,
    shape, role, element type, storage size and alignment; the slots without
    one are optional and reported; and slots of a tied group share one shape. *)
Theorem bind_sound b architecture catalog plan :
  bind b architecture catalog = Ok plan ->
  let by_name := parameters_by_name (cc_parameters catalog) in
  let slots := parameter_slots architecture in
  bound_slots b by_name slots (bp_bindings plan) (bp_unresolved_optional_slots plan) /\
  forall s1 s2 p1 p2 g, s1 ∈ slots -> s2 ∈ slots ->
    slot_tied_group s1 = Some g -> slot_tied_group s2 = Some g ->
    by_name !! slot_canonical_name s1 = Some p1 -> by_name !! slot_canonical_name s2 = Some p2 ->
    lt_shape (lp_logical_type p1) = lt_shape (lp_logical_type p2).
Proof.
  intros H by_name slots. unfold bind in H. ok_inv. cbn.
  apply bind_steps_Ok in Hv as [Hb Ht]. split; [exact Hb|].
  intros s1 s2 p1 p2 g H1 H2 Hg1 Hg2 Hp1 Hp2.
  pose proof (Ht s1 p1 g H1 Hp1 Hg1). pose proof (Ht s2 p2 g H2 Hp2 Hg2). congruence.
Qed.

End Binding.

(** ** Witnesses *)

Module BindingSample.

Definition slot (id name : string) (role : ParameterRole) (tied : option string) : ParameterSlot :=
  {| slot_id := id; slot_canonical_name := name; slot_role := role;
     slot_expected_type := {| lc_rank := Some 2; lc_shape := None; lc_element_types := [F32] |};
     slot_optional := false; slot_tied_group := tied |}.

Definition package (slots : list ParameterSlot) : @ArchitecturePackage serde :=
  {| pkg_id := "llama.decoder"; pkg_revision := "0.1.0";
     pkg_graph := {| ag_version := 1; ag_architecture_id := "llama.decoder"; ag_values := [];
                     ag_operations := []; ag_parameter_slots := slots; ag_exports := [] |};
     pkg_resolved_config := {| values := ∅ |} |}.

Definition parameter : @LogicalParameter serde :=
  {| lp_canonical_name := "token_embd.weight"; lp_role := Embedding;
     lp_logical_type := {| lt_shape := [4; 2]; lt_element_type := F32 |};
     lp_encoding := plain F32;
     lp_components :=
       [{| sc_name := "data"; sc_key := "emb"; sc_source_file_index := 0; sc_shape := [4; 2];
           sc_storage_type := Scalar F32;
           sc_byte_ranges := [{| br_offset := 64; br_length := 32 |}];
           sc_alignment := 32; sc_endianness := Little |}];
     lp_aliases := ["emb"] |}.

Definition fingerprint : SchemaFingerprint :=
  {| fp_digest := "x"; fp_entry_count := 1; fp_total_bytes := 32 |}.

Definition catalog : @CheckpointCatalog serde :=
  {| cc_container := {| ci_format_id := "gguf"; ci_version := Some 3; ci_magic := None |};
     cc_convention_id := "gguf.mixed";
     cc_source_files := [{| sf_path := "m.gguf"; sf_size_bytes := 96; sf_content_digest := None |}];
     cc_metadata := ∅; cc_raw_entries := []; cc_parameters := [parameter];
     cc_schema_fingerprint := fingerprint |}.

Definition tied_slots : list ParameterSlot :=
  [slot "a" "token_embd.weight" Embedding (Some "g"); slot "b" "token_embd.weight" Embedding (Some "g")].

Definition plan (slots : list ParameterSlot) : @BindingPlan serde :=
  {| bp_architecture_id := "llama.decoder"; bp_checkpoint_schema := fingerprint;
     bp_bindings := (fun s => parameter_binding Binder_default s parameter) <$> slots;
     bp_unresolved_optional_slots := [] |}.

End BindingSample.

Lemma bind_sound_witness :
  bind Binder_default (BindingSample.package BindingSample.tied_slots) BindingSample.catalog
    = Ok (BindingSample.plan BindingSample.tied_slots) /\
  bound_slots Binder_default (parameters_by_name [BindingSample.parameter])
    BindingSample.tied_slots
    (bp_bindings (BindingSample.plan BindingSample.tied_slots)) [].
Proof.
  assert (H : bind Binder_default (BindingSample.package BindingSample.tied_slots)
    BindingSample.catalog = Ok (BindingSample.plan BindingSample.tied_slots)) by by_vm.
  split; [exact H|].
  exact (proj1 (bind_sound Binder_default (BindingSample.package BindingSample.tied_slots)
    BindingSample.catalog (BindingSample.plan BindingSample.tied_slots) H)).
Defined.

Lemma canonical_names_win_witness :
  parameters_by_name [BindingSample.parameter] !! "token_embd.weight" = Some BindingSample.parameter.
Proof.
  assert (Hnd : NoDup (lp_canonical_name <$> [BindingSample.parameter]))
    by (apply NoDup_eval; reflexivity).
  exact (proj1 (canonical_names_win [BindingSample.parameter] Hnd) BindingSample.parameter
    ltac:(by left)).
Defined.
