(* ===== verification/Provider.v ===== *)
(** * Runtime provider plans: crates/dyninfer-checkpoint/src/provider.rs

    The plan of file ranges the runtime maps for a bound model, built from
    the catalog and the binding plan. *)
From S2P Require Import Prelude Errors Serde CoreTypes Catalog Ir Config Binding.
From Stdlib Require Import ZArith Lia Ascii String Sorted.
From stdpp Require Import base list strings gmap.
From stdpp Require Import options.
Import Json.

Local Open Scope Z_scope.

Section Provider.
Context {SJ : SerdeJson}.

Definition provider_error (message : text) (slot checkpoint_key : option string) : DynInferError :=
  Binding {| be_message := message; be_slot := slot; be_checkpoint_key := checkpoint_key;
             be_expected := None; be_actual := None |}.

(** The state of the two nested loops: descriptors and external keys seen. *)
Abbreviation PlanState := (list ProviderParameterDescriptor * gset string)%type.

Definition matches_component (cb : ParameterComponentBinding) (c : StorageComponent) : bool :=
  String.eqb (sc_name c) (pc_component_name cb) && String.eqb (sc_key c) (pc_checkpoint_key cb).

(** One turn of the inner loop: the descriptor of a bound component. *)
Definition plan_component (files : list SourceFile) (slot : string) (parameter : LogicalParameter)
    (st : PlanState) (cb : ParameterComponentBinding) : Result PlanState :=
  let '(descriptors, external_keys) := st in
  component ← ok_or (List.find (matches_component cb) (lp_components parameter))
    (provider_error (lit "bound storage component is absent from checkpoint catalog")
       (Some slot) (Some (pc_checkpoint_key cb)));
  let fail message := provider_error message (Some slot) (Some (sc_key component)) in
  _ ← ensure (sc_source_file_index component =? pc_source_file_index cb)
        (fail (lit "bound component source file differs from checkpoint catalog"));
  range ← match sc_byte_ranges component with
          | [range] => Ok range
          | _ => Err (fail (lit "direct parameter components must occupy one contiguous byte range"))
          end;
  _ ← ensure (bool_decide (pc_byte_lengths cb = [br_length range]))
        (fail (lit "bound component length differs from checkpoint catalog"));
  source ← ok_or (files !! Z.to_nat (sc_source_file_index component))
    (fail (lit "component source_file_index is out of range"));
  end_ ← ok_or (checked_add (br_offset range) (br_length range))
    (fail (lit "component byte range overflows"));
  _ ← ensure (negb ((br_length range =? 0) || (end_ >? sf_size_bytes source)))
        (fail (Format "component byte range [{}, {end}) exceeds source size {}"
                 [AInt (br_offset range); AInt end_; AInt (sf_size_bytes source)]));
  _ ← ensure (negb (bool_decide (pc_external_key cb ∈ external_keys)))
        (provider_error (lit "duplicate stable external parameter key") (Some slot)
           (Some (pc_external_key cb)));
  Ok (descriptors ++
        [{| pd_external_key := pc_external_key cb;
            pd_aliases := [pc_checkpoint_key cb];
            pd_source_file_index := sc_source_file_index component;
            pd_offset := br_offset range;
            pd_length := br_length range |}],
      {[pc_external_key cb]} ∪ external_keys).

(** One turn of the outer loop. *)
Definition plan_binding (catalog : CheckpointCatalog) (st : PlanState) (bound : ParameterBinding)
    : Result PlanState :=
  parameter ← ok_or
    (List.find (fun p => String.eqb (lp_canonical_name p) (pb_canonical_name bound))
       (cc_parameters catalog))
    (provider_error (lit "bound logical parameter is absent from checkpoint catalog")
       (Some (pb_slot_id bound)) (Some (pb_canonical_name bound)));
  try_fold (plan_component (cc_source_files catalog) (pb_slot_id bound) parameter) st
    (pb_components bound).

Definition descriptor_leb (a b : ProviderParameterDescriptor) : bool :=
  string_leb (pd_external_key a) (pd_external_key b).

Definition build_runtime_provider_plan (catalog : CheckpointCatalog) (binding : BindingPlan)
    : Result RuntimeProviderPlan :=
  _ ← ensure (negb (bool_decide (cc_source_files catalog = [])))
        (provider_error (lit "checkpoint has no source files") None None);
  '(parameters, _) ← try_fold (plan_binding catalog) ([], ∅) (bp_bindings binding);
  Ok {| rp_kind := "direct-file-ranges-v1";
        rp_scope := "weights";
        rp_file_paths := sf_path <$> cc_source_files catalog;
        rp_parameters := stable_sort descriptor_leb parameters;
        rp_notes :=
          ["Entries reference original checkpoint files; aliases serve legacy MLIR keys"] |}.

(** ** What a plan guarantees *)

Definition descriptor_ok (files : list SourceFile) (d : ProviderParameterDescriptor) : Prop :=
  exists f, files !! Z.to_nat (pd_source_file_index d) = Some f /\
    0 <> pd_length d /\ pd_offset d + pd_length d <= sf_size_bytes f.

Definition plan_ok (files : list SourceFile) (st : PlanState) : Prop :=
  Forall (descriptor_ok files) st.1 /\ NoDup (pd_external_key <$> st.1) /\
  st.2 = list_to_set (pd_external_key <$> st.1).

Lemma plan_component_Ok files slot p st cb st' :
  plan_ok files st -> plan_component files slot p st cb = Ok st' ->
  plan_ok files st' /\ pd_external_key <$> st'.1 = (pd_external_key <$> st.1) ++ [pc_external_key cb].
Proof.
  destruct st as [ds keys]. intros (Hd & Hnd & Hk) H. unfold plan_component in H. cbn in *.
  apply bind_Ok in H as (c & Hc & H). apply bind_Ok in H as ([] & Hi & H).
  apply bind_Ok in H as (r & Hr & H). apply bind_Ok in H as ([] & Hl & H).
  apply bind_Ok in H as (f & Hf & H). apply bind_Ok in H as (e & He & H).
  apply bind_Ok in H as ([] & Hb & H). apply bind_Ok in H as ([] & Hx & [= <-]).
  apply ok_or_Ok in Hf, He. apply checked_add_Some in He as [-> _].
  apply ensure_Ok, negb_true_iff, orb_false_iff in Hb as [Hz He].
  apply Z.eqb_neq in Hz. rewrite Z.gtb_ltb in He. apply Z.ltb_ge in He.
  apply ensure_Ok, negb_true_iff, bool_decide_eq_false_1 in Hx.
  rewrite Hk, elem_of_list_to_set in Hx. unfold plan_ok. cbn.
  rewrite !fmap_app, list_to_set_app_L. cbn. split; [split; [|split]|done].
  - apply Forall_app. split; [done|]. constructor; [|done]. exists f. cbn. auto.
  - apply NoDup_app. split; [done|]. split; [|apply NoDup_singleton].
    intros x Hin ->%list_elem_of_singleton. done.
  - by rewrite Hk, union_empty_r_L, union_comm_L.
Qed.

Lemma plan_components_Ok files slot p st cbs st' :
  plan_ok files st -> try_fold (plan_component files slot p) st cbs = Ok st' ->
  plan_ok files st' /\
  pd_external_key <$> st'.1 = (pd_external_key <$> st.1) ++ (pc_external_key <$> cbs).
Proof.
  intros Hok H.
  eapply (try_fold_prefix (fun pre s => plan_ok files s /\
    pd_external_key <$> s.1 = (pd_external_key <$> st.1) ++ (pc_external_key <$> pre))) in H;
    [exact H| |split; [done|by rewrite app_nil_r]].
  intros pre s cb s' [Hs Hkeys] E. apply plan_component_Ok in E as [Hs' ->]; [|done].
  split; [done|]. by rewrite Hkeys, fmap_app, app_assoc.
Qed.


(** The keys and lengths of a plan are those of the bound components. *)
Lemma plan_component_lengths files slot p st cb st' :
  plan_component files slot p st cb = Ok st' ->
  (fun d => (pd_external_key d, [pd_length d])) <$> st'.1 =
  ((fun d => (pd_external_key d, [pd_length d])) <$> st.1) ++ [(pc_external_key cb, pc_byte_lengths cb)].
Proof.
  destruct st as [ds keys]. intros H. unfold plan_component in H. cbn in *.
  apply bind_Ok in H as (c & _ & H). apply bind_Ok in H as ([] & _ & H).
  apply bind_Ok in H as (r & _ & H). apply bind_Ok in H as ([] & Hl & H).
  apply bind_Ok in H as (f & _ & H). apply bind_Ok in H as (e & _ & H).
  apply bind_Ok in H as ([] & _ & H). apply bind_Ok in H as ([] & _ & [= <-]).
  apply ensure_Ok, bool_decide_eq_true_1 in Hl. cbn. by rewrite fmap_app, Hl.
Qed.

Lemma plan_parameters catalog binding plan :
  build_runtime_provider_plan catalog binding = Ok plan ->
  rp_scope plan = "weights" /\ rp_file_paths plan = sf_path <$> cc_source_files catalog /\
  cc_source_files catalog <> [] /\ Forall (descriptor_ok (cc_source_files catalog)) (rp_parameters plan) /\
  NoDup (pd_external_key <$> rp_parameters plan) /\
  ((fun d => (pd_external_key d, [pd_length d])) <$> rp_parameters plan) ≡ₚ
    ((fun cb => (pc_external_key cb, pc_byte_lengths cb)) <$> (bp_bindings binding ≫= pb_components)).
Proof.
  intros H. unfold build_runtime_provider_plan in H.
  apply bind_Ok in H as ([] & Hfiles & H). apply bind_Ok in H as ([ds keys] & H & [= <-]). cbn.
  apply ensure_Ok, negb_true_iff, bool_decide_eq_false in Hfiles.
  split; [done|]. split; [done|]. split; [done|].
  eapply (try_fold_prefix (fun pre s => plan_ok (cc_source_files catalog) s /\
    (fun d => (pd_external_key d, [pd_length d])) <$> s.1 =
    (fun cb => (pc_external_key cb, pc_byte_lengths cb)) <$> (pre ≫= pb_components))) in H
    as [(Hd & Hnd & _) Hkeys].
  - cbn in *. pose proof (stable_sort_perm descriptor_leb ds) as Hp.
    split; [by rewrite Hp|]. split; [by rewrite (fmap_Permutation pd_external_key _ _ Hp)|].
    by rewrite (fmap_Permutation (fun d => (pd_external_key d, [pd_length d])) _ _ Hp), Hkeys.
  - intros pre s bound s' [Hs Hk] E. unfold plan_binding in E.
    apply bind_Ok in E as (p & _ & E). split; [by eapply plan_components_Ok|].
    rewrite bind_app, fmap_app. cbn. rewrite app_nil_r, <-Hk.
    eapply (try_fold_prefix (fun pre s2 => (fun d => (pd_external_key d, [pd_length d])) <$> s2.1 =
      ((fun d => (pd_external_key d, [pd_length d])) <$> s.1) ++
      ((fun cb => (pc_external_key cb, pc_byte_lengths cb)) <$> pre))) in E; [exact E| |by rewrite app_nil_r].
    intros pre2 s2 cb s3 Hs2 E2. apply plan_component_lengths in E2 as ->.
    by rewrite Hs2, fmap_app, app_assoc.
  - cbn. split; [|done]. split; [constructor|]. split; [constructor|done].
Qed.

(** ** A plan exists for what the binder binds by canonical name *)

(** A component that can be mapped: one non-empty range inside its file. *)
Definition mappable (files : list SourceFile) (c : StorageComponent) : Prop :=
  exists r f, sc_byte_ranges c = [r] /\ files !! Z.to_nat (sc_source_file_index c) = Some f /\
    0 <= br_offset r /\ 0 < br_length r /\ br_offset r + br_length r <= sf_size_bytes f /\
    sf_size_bytes f <= u64_max.

Lemma find_component cs c cb :
  NoDup (sc_name <$> cs) -> c ∈ cs -> sc_name c = pc_component_name cb ->
  sc_key c = pc_checkpoint_key cb -> List.find (matches_component cb) cs = Some c.
Proof.
  intros Hnd Hin Hn Hk. induction cs as [|c' cs IH]; [by apply not_elem_of_nil in Hin|].
  cbn in *. apply NoDup_cons in Hnd as [Hc Hnd].
  apply elem_of_cons in Hin as [<-|Hin].
  { unfold matches_component. by rewrite Hn, Hk, !String.eqb_refl. }
  destruct (matches_component cb c') eqn:E; [|by apply IH].
  exfalso. apply andb_prop in E as [E _]. apply String.eqb_eq in E.
  apply Hc. rewrite E, <-Hn. by apply list_elem_of_fmap_2.
Qed.

Lemma plan_component_mappable files b slot p st c :
  NoDup (sc_name <$> lp_components p) -> c ∈ lp_components p -> mappable files c ->
  external_key b p c ∉ st.2 ->
  exists st', plan_component files slot p st (component_binding b p c) = Ok st' /\
    st'.2 = {[external_key b p c]} ∪ st.2.
Proof.
  destruct st as [ds keys]. intros Hnd Hin (r & f & Hr & Hf & H0 & Hpos & Hend & Hmax) Hk.
  unfold plan_component. rewrite (find_component _ c) by done. cbn [ok_or mbind result_mbind].
  rewrite Z.eqb_refl. cbn [ensure mbind result_mbind]. rewrite Hr. cbn [mbind result_mbind].
  assert (pc_byte_lengths (component_binding b p c) = [br_length r]) as -> by (cbn; by rewrite Hr).
  rewrite (bool_decide_eq_true_2 ([br_length r] = _)) by done. cbn [ensure mbind result_mbind].
  rewrite Hf. cbn [ok_or mbind result_mbind].
  assert (checked_add (br_offset r) (br_length r) = Some (br_offset r + br_length r)) as ->
    by (apply checked_add_Some; lia). cbn [ok_or mbind result_mbind].
  rewrite (proj2 (Z.eqb_neq _ _)), Z.gtb_ltb, (proj2 (Z.ltb_ge _ _)) by lia.
  cbn [ensure negb orb mbind result_mbind].
  rewrite bool_decide_eq_false_2 by done. cbn. by eexists.
Qed.

Lemma plan_components_mappable files b slot p cs st :
  NoDup (sc_name <$> lp_components p) -> (forall c, c ∈ cs -> c ∈ lp_components p /\ mappable files c) ->
  NoDup (external_key b p <$> cs) -> (forall c, c ∈ cs -> external_key b p c ∉ st.2) ->
  exists st', try_fold (plan_component files slot p) st (component_binding b p <$> cs) = Ok st' /\
    st'.2 = list_to_set (external_key b p <$> cs) ∪ st.2.
Proof.
  intros Hnd. revert st. induction cs as [|c cs IH]; intros st Hcs Hk Hfresh.
  { exists st. split; [done|set_solver]. }
  cbn in Hk. apply NoDup_cons in Hk as [Hc Hk].
  destruct (Hcs c ltac:(by left)) as [Hin Hmap].
  destruct (plan_component_mappable files b slot p st c Hnd Hin Hmap (Hfresh c ltac:(by left)))
    as (st1 & E1 & K1).
  destruct (IH st1) as (st2 & E2 & K2).
  - intros c' Hc'. apply Hcs. by right.
  - done.
  - intros c' Hc'. rewrite K1, not_elem_of_union, not_elem_of_singleton. split.
    + intros E. apply Hc. rewrite <-E. by apply list_elem_of_fmap_2.
    + apply Hfresh. by right.
  - exists st2. cbn [fmap list_fmap try_fold]. rewrite E1. cbn. split; [exact E2|].
    rewrite K2, K1. set_solver.
Qed.

(** The external keys of the parameters bound to [slots]. *)
Definition plan_keys (b : Binder) (ps : list LogicalParameter) : list string :=
  ps ≫= fun p => external_key b p <$> lp_components p.

Lemma find_by_name ps p :
  NoDup (lp_canonical_name <$> ps) -> p ∈ ps ->
  List.find (fun q => String.eqb (lp_canonical_name q) (lp_canonical_name p)) ps = Some p.
Proof.
  intros Hnd Hin. induction ps as [|q ps IH]; [by apply not_elem_of_nil in Hin|].
  cbn in *. apply NoDup_cons in Hnd as [Hq Hnd].
  destruct (String.eqb_spec (lp_canonical_name q) (lp_canonical_name p)) as [E|Hne].
  - apply elem_of_cons in Hin as [->|Hin]; [done|].
    exfalso. apply Hq. rewrite E. by apply list_elem_of_fmap_2.
  - apply elem_of_cons in Hin as [->|Hin]; [done|]. by apply IH.
Qed.

Lemma plan_bindings_mappable catalog b sps st :
  NoDup (lp_canonical_name <$> cc_parameters catalog) ->
  (forall slot p, (slot, p) ∈ sps -> p ∈ cc_parameters catalog /\
     slot_canonical_name slot = lp_canonical_name p /\
     NoDup (sc_name <$> lp_components p) /\
     Forall (mappable (cc_source_files catalog)) (lp_components p)) ->
  NoDup (plan_keys b sps.*2) -> (forall k, k ∈ plan_keys b sps.*2 -> k ∉ st.2) ->
  exists st', try_fold (plan_binding catalog) st
    ((fun sp => parameter_binding b sp.1 sp.2) <$> sps) = Ok st'.
Proof.
  intros Hnames. revert st. induction sps as [|[slot p] sps IH]; intros st Hsps Hk Hfresh.
  { by eexists. }
  destruct (Hsps slot p ltac:(by left)) as (Hin & Hslot & Hnd & Hmap).
  unfold plan_keys in Hk, Hfresh. cbn in Hk, Hfresh. apply NoDup_app in Hk as (Hk1 & Hk2 & Hk3).
  rewrite Forall_forall in Hmap.
  destruct (plan_components_mappable (cc_source_files catalog) b (slot_id slot) p
    (lp_components p) st) as (st1 & E1 & K1); [done|auto|done| |].
  { intros c Hc. apply Hfresh, elem_of_app. left. by apply list_elem_of_fmap_2. }
  destruct (IH st1) as [st2 E2].
  - intros s q Hq. apply Hsps. by right.
  - done.
  - intros k Hkin. rewrite K1, not_elem_of_union, elem_of_list_to_set. split.
    + intros Hno. by eapply Hk2.
    + apply Hfresh, elem_of_app. by right.
  - exists st2. cbn [fmap list_fmap try_fold fst snd].
    assert (plan_binding catalog st (parameter_binding b slot p) = Ok st1) as ->; [|exact E2].
    unfold plan_binding. cbn [parameter_binding pb_canonical_name pb_components pb_slot_id].
    by rewrite Hslot, find_by_name by done.
Qed.

(** C35: Binding and planning agree: when every slot that was bound names its
    parameter canonically, the parameters' components can be mapped and their
    external keys are distinct, the provider plan of a binding plan exists. *)
Theorem bind_then_provider_plan b architecture catalog plan :
  NoDup (lp_canonical_name <$> cc_parameters catalog) ->
  cc_source_files catalog <> [] ->
  (forall slot p, slot ∈ parameter_slots architecture ->
     parameters_by_name (cc_parameters catalog) !! slot_canonical_name slot = Some p ->
     slot_canonical_name slot = lp_canonical_name p /\
     NoDup (sc_name <$> lp_components p) /\
     Forall (mappable (cc_source_files catalog)) (lp_components p)) ->
  NoDup (plan_keys b (omap (fun slot =>
     parameters_by_name (cc_parameters catalog) !! slot_canonical_name slot)
     (parameter_slots architecture))) ->
  bind b architecture catalog = Ok plan ->
  exists provider, build_runtime_provider_plan catalog plan = Ok provider.
Proof.
  intros Hnames Hfiles Hslots Hkeys H. unfold bind in H. ok_inv.
  apply bind_steps_Ok in Hv as [(Hb & _ & _) _].
  set (by_name := parameters_by_name (cc_parameters catalog)) in *.
  set (sps := omap (fun slot => pair slot <$> by_name !! slot_canonical_name slot)
                (parameter_slots architecture)).
  assert (Hsps : bd_bindings v = (fun sp => parameter_binding b sp.1 sp.2) <$> sps
    /\ sps.*2 = omap (fun slot => by_name !! slot_canonical_name slot)
                  (parameter_slots architecture)).
  { rewrite Hb. unfold sps. clear. induction (parameter_slots architecture) as [|s ss [IH1 IH2]];
      [done|]. cbn. destruct (by_name !! slot_canonical_name s); cbn; [|done].
    split; f_equal; done. }
  destruct Hsps as [Hbs Hps]. unfold build_runtime_provider_plan. cbn.
  rewrite bool_decide_eq_false_2 by done. cbn. rewrite Hbs.
  destruct (plan_bindings_mappable catalog b sps ([], ∅)) as [[ds ks] ->]; [done|..|by eexists].
  - intros slot p Hin. unfold sps in Hin. apply list_elem_of_omap in Hin as (s & Hs & E).
    destruct (by_name !! slot_canonical_name s) as [q|] eqn:Eq; [|done].
    cbn in E. injection E as <- <-. destruct (Hslots s q Hs Eq) as (Hn & Hnd & Hm).
    split; [|done]. by apply by_name_source in Eq as [? _].
  - by rewrite Hps.
  - intros k _. apply not_elem_of_empty.
Qed.

(** C38: A slot that was bound through an alias has no provider plan: the
    planner looks the binding's canonical name up among the canonical names
    of the catalog, where an alias is not. *)
Theorem alias_binding_has_no_plan b architecture catalog plan slot p provider :
  bind b architecture catalog = Ok plan ->
  slot ∈ parameter_slots architecture ->
  parameters_by_name (cc_parameters catalog) !! slot_canonical_name slot = Some p ->
  slot_canonical_name slot ∉ lp_canonical_name <$> cc_parameters catalog ->
  build_runtime_provider_plan catalog plan <> Ok provider.
Proof.
  intros H Hslot Hp Hno Hplan. unfold bind in H. ok_inv.
  apply bind_steps_Ok in Hv as [(Hb & _ & _) _].
  unfold build_runtime_provider_plan in Hplan. cbn in Hplan.
  apply bind_Ok in Hplan as ([] & _ & Hplan). apply bind_Ok in Hplan as ([ds ks] & Hplan & _).
  apply (try_fold_prefix (fun pre _ => Forall (fun bound =>
    pb_canonical_name bound ∈ lp_canonical_name <$> cc_parameters catalog) pre)) in Hplan;
    [| |constructor].
  - rewrite Forall_forall in Hplan. apply Hno.
    change (slot_canonical_name slot) with (pb_canonical_name (parameter_binding b slot p)).
    apply Hplan. rewrite Hb. apply list_elem_of_omap. exists slot. by rewrite Hp.
  - intros pre s bound s' Hpre E. apply Forall_app. split; [done|]. constructor; [|done].
    unfold plan_binding in E. apply bind_Ok in E as (q & Hq & _). apply ok_or_Ok in Hq.
    apply List.find_some in Hq as [Hin Heq]. apply String.eqb_eq in Heq as <-.
    apply list_elem_of_fmap_2, list_elem_of_In, Hin.
Qed.

End Provider.

(** ** Witnesses *)

Module ProviderSample.
Import BindingSample.

Definition slots : list ParameterSlot := [slot "a" "token_embd.weight" Embedding None].
Definition alias_slots : list ParameterSlot := [slot "a" "emb" Embedding None].

Definition provider : RuntimeProviderPlan :=
  {| rp_kind := "direct-file-ranges-v1"; rp_scope := "weights"; rp_file_paths := ["m.gguf"];
     rp_parameters :=
       [{| pd_external_key := "weights::token_embd.weight::data"; pd_aliases := ["emb"];
           pd_source_file_index := 0; pd_offset := 64; pd_length := 32 |}];
     rp_notes :=
       ["Entries reference original checkpoint files; aliases serve legacy MLIR keys"] |}.

Lemma bound_Ok : bind Binder_default (package slots) catalog = Ok (plan slots).
Proof. by_vm. Qed.

Lemma planned_Ok : build_runtime_provider_plan catalog (plan slots) = Ok provider.
Proof. by_vm. Qed.

End ProviderSample.


Lemma bind_then_provider_plan_witness :
  exists provider, build_runtime_provider_plan BindingSample.catalog
    (BindingSample.plan ProviderSample.slots) = Ok provider.
Proof.
  apply (bind_then_provider_plan Binder_default (BindingSample.package ProviderSample.slots)
    BindingSample.catalog).
  - apply NoDup_eval. reflexivity.
  - discriminate.
  - intros slot p ->%list_elem_of_singleton Hp.
    assert (Hq : parameters_by_name (cc_parameters BindingSample.catalog)
      !! slot_canonical_name (BindingSample.slot "a" "token_embd.weight" Embedding None)
      = Some BindingSample.parameter) by reflexivity.
    rewrite Hq in Hp. injection Hp as <-.
    split; [reflexivity|]. split; [apply NoDup_eval; reflexivity|].
    constructor; [|constructor].
    exists {| br_offset := 64; br_length := 32 |},
      {| sf_path := "m.gguf"; sf_size_bytes := 96; sf_content_digest := None |}.
    cbn. unfold u64_max. repeat split; lia.
  - apply NoDup_eval. vm_compute. reflexivity.
  - exact ProviderSample.bound_Ok.
Defined.

Lemma alias_binding_has_no_plan_witness :
  bind Binder_default (BindingSample.package ProviderSample.alias_slots) BindingSample.catalog
    = Ok (BindingSample.plan ProviderSample.alias_slots) /\
  build_runtime_provider_plan BindingSample.catalog
    (BindingSample.plan ProviderSample.alias_slots) <> Ok ProviderSample.provider.
Proof.
  assert (H : bind Binder_default (BindingSample.package ProviderSample.alias_slots)
    BindingSample.catalog = Ok (BindingSample.plan ProviderSample.alias_slots)) by by_vm.
  split; [exact H|].
  apply (alias_binding_has_no_plan Binder_default
    (BindingSample.package ProviderSample.alias_slots) BindingSample.catalog _
    (BindingSample.slot "a" "emb" Embedding None) BindingSample.parameter _ H).
  - by left.
  - reflexivity.
  - apply (bool_decide_unpack _). vm_compute. exact I.
Defined.
