(* ===== verification/Builder.v ===== *)
(** * The graph builder: builder.rs of crates/dyninfer-architecture

    [ModelBuilder] as a state record, its methods as state-passing functions
    and the graph checks that [finish] ends with. *)
From S2P Require Import Prelude Errors Serde CoreTypes Catalog Names Ir.
From Stdlib Require Import ZArith Lia Ascii String.
From stdpp Require Import base list strings gmap.
From stdpp Require Import options.

Local Open Scope Z_scope.

(** ** State *)

(** [builder::Value]: a handle on a graph value. *)
Record BuilderValue := { bv_id : string; bv_tensor_type : SemanticTensorType }.

Record DecoderBlockSpec := {
  db_hidden_size : Z;
  db_intermediate_size : Z;
  db_num_heads : Z;
  db_num_kv_heads : Z;
  db_head_dim : Z;
  db_rms_norm_epsilon : f64;
  db_rope_theta : option f64;
}.

Record ShortConvBlockSpec := {
  sb_hidden_size : Z;
  sb_channels : Z;
  sb_kernel_size : Z;
  sb_rms_norm_epsilon : f64;
}.

Record ModelBuilder := {
  mb_architecture_id : option string;
  mb_slots : list ParameterSlot;
  mb_values : list GraphValue;
  mb_operations : list ArchitectureOperation;
  mb_exports : list ArchitectureExport;
  mb_primary_input : option string;
}.

Definition ModelBuilder_new : ModelBuilder :=
  {| mb_architecture_id := None; mb_slots := []; mb_values := []; mb_operations := [];
     mb_exports := []; mb_primary_input := None |}.

Definition set_architecture_id (id : string) (b : ModelBuilder) : ModelBuilder :=
  {| mb_architecture_id := Some id; mb_slots := mb_slots b; mb_values := mb_values b;
     mb_operations := mb_operations b; mb_exports := mb_exports b;
     mb_primary_input := mb_primary_input b |}.

Definition with_slots (l : list ParameterSlot) (b : ModelBuilder) : ModelBuilder :=
  {| mb_architecture_id := mb_architecture_id b; mb_slots := l; mb_values := mb_values b;
     mb_operations := mb_operations b; mb_exports := mb_exports b;
     mb_primary_input := mb_primary_input b |}.
Definition with_values (l : list GraphValue) (b : ModelBuilder) : ModelBuilder :=
  {| mb_architecture_id := mb_architecture_id b; mb_slots := mb_slots b; mb_values := l;
     mb_operations := mb_operations b; mb_exports := mb_exports b;
     mb_primary_input := mb_primary_input b |}.
Definition with_operations (l : list ArchitectureOperation) (b : ModelBuilder) : ModelBuilder :=
  {| mb_architecture_id := mb_architecture_id b; mb_slots := mb_slots b; mb_values := mb_values b;
     mb_operations := l; mb_exports := mb_exports b;
     mb_primary_input := mb_primary_input b |}.
Definition with_exports (l : list ArchitectureExport) (b : ModelBuilder) : ModelBuilder :=
  {| mb_architecture_id := mb_architecture_id b; mb_slots := mb_slots b; mb_values := mb_values b;
     mb_operations := mb_operations b; mb_exports := l;
     mb_primary_input := mb_primary_input b |}.
Definition with_primary_input (i : string) (b : ModelBuilder) : ModelBuilder :=
  {| mb_architecture_id := mb_architecture_id b; mb_slots := mb_slots b; mb_values := mb_values b;
     mb_operations := mb_operations b; mb_exports := mb_exports b;
     mb_primary_input := Some i |}.

(** ** The methods, as a state and error monad

    A method that fails drops the builder with it: its callers propagate the
    error out of the function that owns the builder. *)

Definition Build (A : Type) : Type := ModelBuilder -> Result (A * ModelBuilder).
#[export] Instance Build_ret : MRet Build := fun A a b => Ok (a, b).
#[export] Instance Build_bind : MBind Build := fun A B f m b =>
  match m b with
  | Ok (a, b') => f a b'
  | Err e => Err e
  | Panic w => Panic w
  end.

Definition lift {A} (r : Result A) : Build A := fun b => a ← r; Ok (a, b).

Definition declare_parameter (slot : ParameterSlot) : Build unit := fun b =>
  if existsb (fun existing => String.eqb (slot_id existing) (slot_id slot)) (mb_slots b)
  then Err (internal (Format "duplicate parameter slot `{}`" [AStr (slot_id slot)]))
  else Ok (tt, with_slots (mb_slots b ++ [slot]) b).

Definition required_slot (name : string) (role : ParameterRole) (rank : Z) : ParameterSlot :=
  {| slot_id := name; slot_canonical_name := name; slot_role := role;
     slot_expected_type :=
       {| lc_rank := Some rank; lc_shape := None; lc_element_types := [Bf16; F16; F32] |};
     slot_optional := false; slot_tied_group := None |}.

Definition push_slot (name : string) (role : ParameterRole) (rank : Z) : Build string :=
  _ ← declare_parameter (required_slot name role rank);
  mret name.

Definition value (id : string) (tensor_type : SemanticTensorType) : Build BuilderValue := fun b =>
  if existsb (fun v => String.eqb (gv_id v) id) (mb_values b)
  then Err (internal (Format "duplicate graph value `{id}`" [AStr id]))
  else Ok ({| bv_id := id; bv_tensor_type := tensor_type |},
           with_values (mb_values b ++ [{| gv_id := id; gv_tensor_type := tensor_type |}]) b).

Definition operation (id : string) (kind : OperationKind) (inputs outputs : list BuilderValue)
    (parameters : list string) : Build unit := fun b =>
  if existsb (fun o => String.eqb (ao_id o) id) (mb_operations b)
  then Err (internal (Format "duplicate architecture operation `{id}`" [AStr id]))
  else Ok (tt, with_operations (mb_operations b ++
    [{| ao_id := id; ao_kind := kind; ao_inputs := bv_id <$> inputs;
        ao_outputs := bv_id <$> outputs; ao_parameters := parameters |}]) b).

(** [format!("{id}.output")]. *)
Definition output_id (id : string) : string := String.append id ".output".

Definition unary (id : string) (kind : OperationKind) (input : BuilderValue)
    (output_type : SemanticTensorType) (parameters : list string) : Build BuilderValue :=
  output ← value (output_id id) output_type;
  _ ← operation id kind [input] [output] parameters;
  mret output.

Definition set_primary_input (i : string) : Build unit := fun b => Ok (tt, with_primary_input i b).

Definition input_tokens (name : string) : Build BuilderValue := fun b =>
  match mb_primary_input b with
  | Some _ => Err (internal (lit "an architecture graph may declare only one primary token input"))
  | None =>
      (v ← value name tokens_type;
       _ ← operation (String.append "input." name) (OpInput Tokens) [] [v] [];
       _ ← set_primary_input (bv_id v);
       mret v) b
  end.

Definition embedding (operation_id : string) (tokens : BuilderValue) (weight : string)
    (hidden_size : Z) : Build BuilderValue :=
  slot ← push_slot weight Embedding 2;
  unary operation_id OpEmbedding tokens (activations hidden_size) [slot].

Definition linear (operation_id : string) (input : BuilderValue) (weight : string)
    (output_width : Z) (role : ParameterRole) : Build BuilderValue :=
  slot ← push_slot weight role 2;
  unary operation_id (OpLinear role) input (activations output_width) [slot].

Definition rms_norm (operation_id : string) (input : BuilderValue) (weight : string)
    (epsilon : f64) : Build BuilderValue :=
  slot ← push_slot weight Norm 1;
  unary operation_id (OpRmsNorm epsilon) input (bv_tensor_type input) [slot].

Definition per_head_rms_norm (operation_id : string) (input : BuilderValue) (weight : string)
    (epsilon : f64) (head_count head_dim : Z) : Build BuilderValue :=
  slot ← push_slot weight Norm 1;
  unary operation_id (OpPerHeadRmsNorm epsilon head_count head_dim) input
    (bv_tensor_type input) [slot].

Definition rope (operation_id : string) (input : BuilderValue) (head_count head_dim : Z)
    (theta : f64) : Build BuilderValue :=
  unary operation_id (OpRope head_count head_dim theta) input (bv_tensor_type input) [].

Definition cache_write (operation_id : string) (input : BuilderValue) (layer : Z)
    (component : KvCacheComponent) : Build unit :=
  operation operation_id (OpKvCacheWrite layer component) [input] [] [].

Definition cache_read (operation_id : string) (current : BuilderValue) (layer : Z)
    (component : KvCacheComponent) (head_count head_dim : Z) : Build BuilderValue :=
  unary operation_id (OpKvCacheRead layer component) current (kv_cache_type head_count head_dim) [].

(** [num_heads * head_dim] on [u32]. *)
Definition attention (operation_id : string) (query key_cache value_cache : BuilderValue)
    (spec : DecoderBlockSpec) : Build BuilderValue :=
  output ← value (output_id operation_id)
             (activations (wrap32 (db_num_heads spec * db_head_dim spec)));
  _ ← operation operation_id
        (OpAttention (db_num_heads spec) (db_num_kv_heads spec) (db_head_dim spec) true)
        [query; key_cache; value_cache] [output] [];
  mret output.

Definition elementwise_unary (operation_id : string) (input : BuilderValue)
    (function : ElementwiseFunction) : Build BuilderValue :=
  unary operation_id (OpElementwise function) input (bv_tensor_type input) [].

Definition binary (operation_id : string) (kind : OperationKind) (left right : BuilderValue)
    : Build BuilderValue :=
  if negb (bool_decide (bv_tensor_type left = bv_tensor_type right))
  then lift (Err (internal
    (Format "operation `{operation_id}` requires equal input tensor types" [AStr operation_id])))
  else
    output ← value (output_id operation_id) (bv_tensor_type left);
    _ ← operation operation_id kind [left; right] [output] [];
    mret output.

Definition short_conv (operation_id : string) (input : BuilderValue) (weight : string)
    (layer channels kernel_size : Z) : Build BuilderValue :=
  slot ← push_slot weight (Other "shortconv.conv") 3;
  unary operation_id (OpShortConv layer channels kernel_size) input (activations channels) [slot].

(** ** Sublayers *)

Definition validate_block (s : DecoderBlockSpec) : Result unit :=
  _ ← ensure (negb ((db_hidden_size s =? 0) || (db_intermediate_size s =? 0)
                    || (db_num_heads s =? 0) || (db_num_kv_heads s =? 0) || (db_head_dim s =? 0)))
        (internal (lit "decoder block dimensions and head counts must be non-zero"));
  ensure (is_multiple_of (db_num_heads s) (db_num_kv_heads s))
    (internal (Format "num_heads ({}) must be divisible by num_kv_heads ({})"
                 [AInt (db_num_heads s); AInt (db_num_kv_heads s)])).

Definition validate_conv (s : ShortConvBlockSpec) : Result unit :=
  ensure (negb ((sb_hidden_size s =? 0) || (sb_channels s =? 0) || (sb_kernel_size s =? 0)))
    (internal (lit "short-conv dimensions and kernel size must be non-zero")).

(** [format!("blk.{layer}")]. *)
Definition blk (layer : Z) : string := String.append "blk." (decimal layer).

Definition qk_norm (has_qk_norm : bool) (at_ : string -> string) (spec : DecoderBlockSpec)
    (query key : BuilderValue) : Build (BuilderValue * BuilderValue) :=
  if has_qk_norm then
    query ← per_head_rms_norm (at_ ".attn_q_norm") query (at_ ".attn_q_norm.weight")
              (db_rms_norm_epsilon spec) (db_num_heads spec) (db_head_dim spec);
    key ← per_head_rms_norm (at_ ".attn_k_norm") key (at_ ".attn_k_norm.weight")
            (db_rms_norm_epsilon spec) (db_num_kv_heads spec) (db_head_dim spec);
    mret (query, key)
  else mret (query, key).

Definition qk_rope (at_ : string -> string) (spec : DecoderBlockSpec)
    (query key : BuilderValue) : Build (BuilderValue * BuilderValue) :=
  match db_rope_theta spec with
  | Some theta =>
      query ← rope (at_ ".attn_q_rope") query (db_num_heads spec) (db_head_dim spec) theta;
      key ← rope (at_ ".attn_k_rope") key (db_num_kv_heads spec) (db_head_dim spec) theta;
      mret (query, key)
  | None => mret (query, key)
  end.

Definition attention_sublayer (input : BuilderValue) (layer : Z) (has_qk_norm : bool)
    (spec : DecoderBlockSpec) : Build BuilderValue :=
  _ ← lift (validate_block spec);
  let at_ := String.append (blk layer) in
  let residual := input in
  normalized ← rms_norm (at_ ".attn_norm") input (at_ ".attn_norm.weight")
                 (db_rms_norm_epsilon spec);
  let q_dim := wrap32 (db_num_heads spec * db_head_dim spec) in
  let kv_dim := wrap32 (db_num_kv_heads spec * db_head_dim spec) in
  query ← linear (at_ ".attn_q") normalized (at_ ".attn_q.weight") q_dim AttentionQ;
  key ← linear (at_ ".attn_k") normalized (at_ ".attn_k.weight") kv_dim AttentionK;
  value ← linear (at_ ".attn_v") normalized (at_ ".attn_v.weight") kv_dim AttentionV;
  '(query, key) ← qk_norm has_qk_norm at_ spec query key;
  '(query, key) ← qk_rope at_ spec query key;
  _ ← cache_write (at_ ".key_cache_write") key layer KvKey;
  _ ← cache_write (at_ ".value_cache_write") value layer KvValue;
  key_cache ← cache_read (at_ ".key_cache_read") key layer KvKey
                (db_num_kv_heads spec) (db_head_dim spec);
  value_cache ← cache_read (at_ ".value_cache_read") value layer KvValue
                  (db_num_kv_heads spec) (db_head_dim spec);
  attended ← attention (at_ ".attention") query key_cache value_cache spec;
  projected ← linear (at_ ".attn_output") attended (at_ ".attn_output.weight")
                (db_hidden_size spec) AttentionO;
  binary (at_ ".attn_residual") OpResidual residual projected.

Definition short_conv_sublayer (input : BuilderValue) (layer : Z) (spec : ShortConvBlockSpec)
    : Build BuilderValue :=
  _ ← lift (validate_conv spec);
  let at_ := String.append (blk layer) in
  let residual := input in
  normalized ← rms_norm (at_ ".attn_norm") input (at_ ".attn_norm.weight")
                 (sb_rms_norm_epsilon spec);
  gates ← linear (at_ ".shortconv_in") normalized (at_ ".shortconv.in_proj.weight")
            (wrap32 (3 * sb_channels spec)) (Other "shortconv.in");
  mixed ← short_conv (at_ ".shortconv") gates (at_ ".shortconv.conv.weight") layer
            (sb_channels spec) (sb_kernel_size spec);
  projected ← linear (at_ ".shortconv_out") mixed (at_ ".shortconv.out_proj.weight")
                (sb_hidden_size spec) (Other "shortconv.out");
  binary (at_ ".shortconv_residual") OpResidual residual projected.

Definition feed_forward_sublayer (input : BuilderValue) (layer : Z) (spec : DecoderBlockSpec)
    : Build BuilderValue :=
  let at_ := String.append (blk layer) in
  let ffn_residual := input in
  ffn_input ← rms_norm (at_ ".ffn_norm") input (at_ ".ffn_norm.weight") (db_rms_norm_epsilon spec);
  gate ← linear (at_ ".ffn_gate") ffn_input (at_ ".ffn_gate.weight")
           (db_intermediate_size spec) FfnGate;
  up ← linear (at_ ".ffn_up") ffn_input (at_ ".ffn_up.weight") (db_intermediate_size spec) FfnUp;
  activated ← elementwise_unary (at_ ".ffn_silu") gate Silu;
  gated ← binary (at_ ".ffn_multiply") (OpElementwise Multiply) activated up;
  down ← linear (at_ ".ffn_down") gated (at_ ".ffn_down.weight") (db_hidden_size spec) FfnDown;
  binary (at_ ".ffn_residual") OpResidual ffn_residual down.

Definition decoder_block (input : BuilderValue) (layer : Z) (has_qk_norm : bool)
    (spec : DecoderBlockSpec) : Build BuilderValue :=
  after_attention ← attention_sublayer input layer has_qk_norm spec;
  feed_forward_sublayer after_attention layer spec.

Definition final_rms_norm := rms_norm.

Definition output_projection (operation_id : string) (input : BuilderValue) (weight : string)
    (vocab_size : Z) : Build BuilderValue :=
  slot ← push_slot weight Output 2;
  unary operation_id OpOutputProjection input (activations vocab_size) [slot].

Definition export_prefill_and_decode (logits : BuilderValue) : Build unit := fun b =>
  input ← ok_or (mb_primary_input b) (internal (lit "model has no token input"));
  let export name mode :=
    {| ae_name := name; ae_mode := mode; ae_inputs := [input]; ae_outputs := [bv_id logits] |} in
  Ok (tt, with_exports (mb_exports b ++ [export "prefill" Prefill; export "decode" Decode]) b).

(** ** Graph checks *)

Definition insert_new (what : string) (ids : gset string) (id : string) : Result (gset string) :=
  _ ← ensure (negb (bool_decide (id ∈ ids))) (internal (Format what [AStr id]));
  Ok ({[id]} ∪ ids).

Definition known (what : string) (ids : gset string) (op id : string) : Result unit :=
  ensure (bool_decide (id ∈ ids)) (internal (Format what [AStr op; AStr id])).

(** Operations whose two inputs must have one type. *)
Definition is_binary (kind : OperationKind) : bool :=
  match kind with OpResidual | OpElementwise Multiply => true | _ => false end.

Definition check_binary (value_types : gmap string SemanticTensorType)
    (op : ArchitectureOperation) : Result unit :=
  if is_binary (ao_kind op) then
    ensure
      match ao_inputs op with
      | [l; r] => bool_decide (value_types !! l = value_types !! r)
      | _ => false
      end
      (internal (Format "binary operation `{}` requires two equal tensor types" [AStr (ao_id op)]))
  else Ok tt.

Record Seen := { seen_operations : gset string; produced : gset string; consumed : gset string }.

Definition produce (value_ids : gset string) (op : string) (acc : gset string) (output : string)
    : Result (gset string) :=
  _ ← known "operation `{}` references unknown output `{output}`" value_ids op output;
  insert_new "graph value `{output}` has multiple producers" acc output.

Definition consume (slot_ids : gset string) (op : string) (acc : gset string) (parameter : string)
    : Result (gset string) :=
  _ ← known "operation `{}` references unknown parameter slot `{parameter}`" slot_ids op parameter;
  Ok ({[parameter]} ∪ acc).

Definition check_operation (value_ids slot_ids : gset string)
    (value_types : gmap string SemanticTensorType) (st : Seen) (op : ArchitectureOperation)
    : Result Seen :=
  ops ← insert_new "duplicate architecture operation `{}`" (seen_operations st) (ao_id op);
  _ ← try_for_each (known "operation `{}` references unknown input `{input}`" value_ids (ao_id op))
        (ao_inputs op);
  produced ← try_fold (produce value_ids (ao_id op)) (produced st) (ao_outputs op);
  consumed ← try_fold (consume slot_ids (ao_id op)) (consumed st) (ao_parameters op);
  _ ← check_binary value_types op;
  Ok {| seen_operations := ops; produced := produced; consumed := consumed |}.

Definition check_export (value_ids names : gset string) (export : ArchitectureExport)
    : Result (gset string) :=
  names ← insert_new "duplicate architecture export `{}`" names (ae_name export);
  _ ← ensure (negb (bool_decide (ae_outputs export = [])))
        (internal (Format "architecture export `{}` has no output" [AStr (ae_name export)]));
  _ ← try_for_each
        (known "architecture export `{}` references unknown value `{value}`" value_ids
           (ae_name export))
        (ae_inputs export ++ ae_outputs export);
  Ok names.

Definition verify_architecture_graph (graph : ArchitectureGraph) : Result unit :=
  _ ← ensure (ag_version graph =? 1)
        (internal (Format "unsupported Architecture IR version {}" [AInt (ag_version graph)]));
  let value_types := foldl (fun m v => <[gv_id v := gv_tensor_type v]> m) ∅ (ag_values graph) in
  value_ids ← try_fold (insert_new "duplicate graph value `{}`") ∅ (gv_id <$> ag_values graph);
  slot_ids ← try_fold (insert_new "duplicate parameter slot `{}`") ∅
               (slot_id <$> ag_parameter_slots graph);
  seen ← try_fold (check_operation value_ids slot_ids value_types)
           {| seen_operations := ∅; produced := ∅; consumed := ∅ |} (ag_operations graph);
  _ ← try_for_each (fun v => ensure (bool_decide (gv_id v ∈ produced seen))
          (internal (Format "graph value `{}` has no producer" [AStr (gv_id v)])))
        (ag_values graph);
  _ ← try_for_each (fun slot =>
          ensure (slot_optional slot || bool_decide (slot_id slot ∈ consumed seen))
            (internal (Format "required parameter slot `{}` has no consuming operation"
                         [AStr (slot_id slot)])))
        (ag_parameter_slots graph);
  _ ← try_fold (check_export value_ids) ∅ (ag_exports graph);
  Ok tt.

Definition has_export (graph : ArchitectureGraph) (name : string) (mode : ExecutionMode) : bool :=
  existsb (fun e => String.eqb (ae_name e) name && bool_decide (ae_mode e = mode))
    (ag_exports graph).

Definition verify_architecture_conformance (graph : ArchitectureGraph) : Result unit :=
  _ ← verify_architecture_graph graph;
  try_for_each (fun '(name, mode) => ensure (has_export graph name mode)
      (internal (Format "architecture `{}` is missing its `{name}` export"
                   [AStr (ag_architecture_id graph); AStr name])))
    [("prefill", Prefill); ("decode", Decode)].

Section Conformance.
Context {SJ : SerdeJson}.

Definition check_fixture_slot (parameters : gmap string LogicalParameter) (slot : ParameterSlot)
    : Result unit :=
  match parameters !! slot_canonical_name slot with
  | None => ensure (slot_optional slot)
      (internal (Format "architecture fixture is missing canonical parameter `{}`"
                   [AStr (slot_canonical_name slot)]))
  | Some parameter =>
      match lc_rank (slot_expected_type slot) with
      | None => Ok tt
      | Some r => ensure (rank (lt_shape (lp_logical_type parameter)) =? r)
          (internal (Format "architecture fixture parameter `{}` has rank {}, expected {rank}"
             [AStr (slot_canonical_name slot); AInt (rank (lt_shape (lp_logical_type parameter)));
              AInt r]))
      end
  end.

Definition verify_architecture_catalog_conformance (graph : ArchitectureGraph)
    (catalog : ParameterCatalog) : Result unit :=
  _ ← verify_architecture_conformance graph;
  let parameters := foldl (fun m p => <[lp_canonical_name p := p]> m) ∅
                      (pcat_parameters catalog) in
  try_for_each (check_fixture_slot parameters) (ag_parameter_slots graph).

End Conformance.

(** [finish] takes the builder's parts and leaves it empty. *)
Definition finish : Build ArchitectureGraph := fun b =>
  architecture_id ← ok_or (mb_architecture_id b)
    (internal (lit "ModelBuilder missing architecture_id"));
  let graph :=
    {| ag_version := 1; ag_architecture_id := architecture_id; ag_values := mb_values b;
       ag_operations := mb_operations b; ag_parameter_slots := mb_slots b;
       ag_exports := mb_exports b |} in
  _ ← verify_architecture_conformance graph;
  Ok (graph,
      {| mb_architecture_id := None; mb_slots := []; mb_values := []; mb_operations := [];
         mb_exports := []; mb_primary_input := mb_primary_input b |}).
