(* ===== verification/Graph.v ===== *)
(** * Well-formed graphs

    The declarative well-formedness of an architecture graph, and the proof
    that [verify_architecture_graph] of builder.rs decides it. *)
From S2P Require Import Prelude Errors CoreTypes Ir Builder.
From Stdlib Require Import ZArith Lia Ascii String.
From stdpp Require Import base list strings gmap.
From stdpp Require Import options.

Local Open Scope Z_scope.

(** * Specification *)

(** What one operation needs of the graph it is in. *)
Definition op_ok (value_ids slot_ids : list string) (types : string -> option SemanticTensorType)
    (op : ArchitectureOperation) : Prop :=
  Forall (fun i => i ∈ value_ids) (ao_inputs op) /\
  Forall (fun i => i ∈ value_ids) (ao_outputs op) /\
  Forall (fun i => i ∈ slot_ids) (ao_parameters op) /\
  (is_binary (ao_kind op) = true -> exists l r, ao_inputs op = [l; r] /\ types l = types r).

Definition export_ok (value_ids : list string) (e : ArchitectureExport) : Prop :=
  ae_outputs e <> [] /\ Forall (fun i => i ∈ value_ids) (ae_inputs e ++ ae_outputs e).

(** The last type recorded for an id. *)
Definition type_of (l : list GraphValue) (id : string) : option SemanticTensorType :=
  gv_tensor_type <$> List.find (fun v => String.eqb (gv_id v) id) (reverse l).

(** A well-formed graph: single assignment, closed references, every value
    produced once, every required parameter used. *)
Record wf_graph (g : ArchitectureGraph) : Prop := {
  wf_version : ag_version g = 1;
  wf_values : NoDup (gv_id <$> ag_values g);
  wf_slots : NoDup (slot_id <$> ag_parameter_slots g);
  wf_operations : NoDup (ao_id <$> ag_operations g);
  wf_ops : Forall (op_ok (gv_id <$> ag_values g) (slot_id <$> ag_parameter_slots g)
                     (type_of (ag_values g))) (ag_operations g);
  wf_producers : NoDup (ag_operations g ≫= ao_outputs);
  wf_produced : Forall (fun v => gv_id v ∈ ag_operations g ≫= ao_outputs) (ag_values g);
  wf_consumed : Forall (fun s => slot_optional s = true \/
                                 slot_id s ∈ ag_operations g ≫= ao_parameters)
                  (ag_parameter_slots g);
  wf_export_names : NoDup (ae_name <$> ag_exports g);
  wf_exports : Forall (export_ok (gv_id <$> ag_values g)) (ag_exports g);
}.

(** * Lemmas *)

Lemma existsb_ids {A} (f : A -> string) id (l : list A) :
  existsb (fun a => String.eqb (f a) id) l = false <-> id ∉ f <$> l.
Proof.
  induction l as [|a l IH]; cbn; [split; [intros _; apply not_elem_of_nil|done]|].
  rewrite not_elem_of_cons, orb_false_iff, IH, String.eqb_neq. intuition congruence.
Qed.

(** ** Folds over sets of identifiers *)

Section IdFolds.
Context {E A : Type} (f : A -> string) (P : A -> Prop) (step : gset string -> A -> result E (gset string)).

Lemma try_fold_ids l ids ids' :
  (forall s a s', step s a = Ok s' <-> P a /\ f a ∉ s /\ s' = {[f a]} ∪ s) ->
  try_fold step ids l = Ok ids' <->
  Forall P l /\ NoDup (f <$> l) /\ (forall a, a ∈ f <$> l -> a ∉ ids) /\
  ids' = list_to_set (f <$> l) ∪ ids.
Proof.
  intros Hstep. revert ids. induction l as [|a l IH]; intros ids; cbn.
  - split; [intros [= <-]|intros (_ & _ & _ & ->)].
    + split; [constructor|]. split; [constructor|].
      split; [by intros a ?%not_elem_of_nil|set_solver].
    + f_equal. set_solver.
  - split.
    + intros H. apply bind_Ok in H as (s & (Hp & Ha & ->)%Hstep & (HP & Hnd & Hids & ->)%IH).
      split; [by constructor|]. split; [constructor; [|done]|].
      * intros Hin. specialize (Hids _ Hin). set_solver.
      * split; [|set_solver]. intros b [->|Hb]%elem_of_cons; [done|]. specialize (Hids _ Hb). set_solver.
    + intros ([Hp HP]%Forall_cons & [Ha Hnd]%NoDup_cons & Hids & ->).
      assert (step ids a = Ok ({[f a]} ∪ ids)) as Hok.
      { apply Hstep. split; [done|]. split; [|done]. apply Hids. left. }
      rewrite Hok. cbn. apply IH. split; [done|]. split; [done|]. split.
      * intros b Hb. assert (b ∉ ids) by (apply Hids; by right).
        intros [->%elem_of_singleton|?]%elem_of_union; done.
      * set_solver.
Qed.

Lemma try_fold_marks l ids ids' :
  (forall s a s', step s a = Ok s' <-> P a /\ s' = {[f a]} ∪ s) ->
  try_fold step ids l = Ok ids' <-> Forall P l /\ ids' = list_to_set (f <$> l) ∪ ids.
Proof.
  intros Hstep. revert ids. induction l as [|a l IH]; intros ids; cbn.
  - split; [intros [= <-]|intros (_ & ->)]; [split; [constructor|set_solver]|f_equal; set_solver].
  - split.
    + intros H. apply bind_Ok in H as (s & (Hp & ->)%Hstep & (HP & ->)%IH).
      split; [by constructor|set_solver].
    + intros ([Hp HP]%Forall_cons & ->).
      assert (step ids a = Ok ({[f a]} ∪ ids)) as Hok by (by apply Hstep).
      rewrite Hok. cbn. apply IH. split; [done|set_solver].
Qed.

End IdFolds.

Lemma insert_new_Ok what ids id ids' :
  insert_new what ids id = Ok ids' <-> id ∉ ids /\ ids' = {[id]} ∪ ids.
Proof.
  unfold insert_new. destruct (bool_decide_reflect (id ∈ ids)); cbn; split; [done|tauto| |].
  - by intros [= <-].
  - by intros [_ ->].
Qed.

Lemma known_Ok what ids op id u : known what ids op id = Ok u <-> id ∈ ids.
Proof. unfold known. by rewrite ensure_Ok, bool_decide_eq_true. Qed.

Lemma insert_all_Ok what l ids' :
  try_fold (insert_new what) ∅ l = Ok ids' <-> NoDup l /\ ids' = list_to_set l.
Proof.
  rewrite (try_fold_ids id (fun _ => True)).
  - rewrite list_fmap_id. split.
    + intros (_ & Hnd & _ & ->). split; [done|set_solver].
    + intros (Hnd & ->). split; [by apply Forall_true|]. split; [done|].
      split; [set_solver|set_solver].
  - intros s a s'. rewrite insert_new_Ok. unfold id. tauto.
Qed.

(** ** One operation *)

Section Operation.
Variables (V S : list string) (types : gmap string SemanticTensorType).
Let vs : gset string := list_to_set V.
Let ss : gset string := list_to_set S.

Lemma check_binary_Ok op u :
  check_binary types op = Ok u <->
  (is_binary (ao_kind op) = true -> exists l r, ao_inputs op = [l; r] /\ types !! l = types !! r).
Proof.
  unfold check_binary. destruct u, (is_binary (ao_kind op)); [|by split].
  rewrite ensure_Ok. destruct (ao_inputs op) as [|l [|r [|? ?]]];
    try (split; [done|by intros (? & ? & ? & _)]).
  rewrite bool_decide_eq_true. split.
  - intros Ht _. by exists l, r.
  - intros H. destruct (H eq_refl) as (? & ? & [= <- <-] & Ht). done.
Qed.

Lemma elem_of_vs i : i ∈ vs <-> i ∈ V.
Proof. unfold vs. by rewrite elem_of_list_to_set. Qed.
Lemma elem_of_ss i : i ∈ ss <-> i ∈ S.
Proof. unfold ss. by rewrite elem_of_list_to_set. Qed.

Lemma produce_all_Ok op acc l out :
  try_fold (produce vs op) acc l = Ok out <->
  Forall (fun i => i ∈ V) l /\ NoDup l /\ (forall o, o ∈ l -> o ∉ acc) /\
  out = (list_to_set l : gset string) ∪ acc.
Proof.
  rewrite (try_fold_ids id (fun i => i ∈ V)); [by rewrite list_fmap_id|].
  intros s a s'. unfold id. rewrite <-elem_of_vs, <-insert_new_Ok.
  unfold produce. split.
  - intros H. apply bind_Ok in H as (u & Hk%known_Ok & H). by split; [|exact H].
  - intros (Hk & Hs). unfold known. rewrite bool_decide_eq_true_2; done.
Qed.

Lemma consume_all_Ok op acc l out :
  try_fold (consume ss op) acc l = Ok out <->
  Forall (fun i => i ∈ S) l /\ out = (list_to_set l : gset string) ∪ acc.
Proof.
  rewrite (try_fold_marks id (fun i => i ∈ S)); [by rewrite list_fmap_id|].
  intros s a s'. unfold id, consume. rewrite <-elem_of_ss. split.
  - intros H. apply bind_Ok in H as (u & Hk%known_Ok & [= <-]). done.
  - intros (Hk & ->). unfold known. rewrite bool_decide_eq_true_2; done.
Qed.

Lemma known_all_Ok what op l u :
  try_for_each (known what vs op) l = Ok u <-> Forall (fun i => i ∈ V) l.
Proof. rewrite try_for_each_Ok. apply Forall_iff. intros i. by rewrite known_Ok, elem_of_vs. Qed.

Lemma check_operation_Ok st op st' :
  check_operation vs ss types st op = Ok st' <->
  (op_ok V S (fun id => types !! id) op /\ ao_id op ∉ seen_operations st /\
   NoDup (ao_outputs op) /\ (forall o, o ∈ ao_outputs op -> o ∉ produced st)) /\
  st' = {| seen_operations := {[ao_id op]} ∪ seen_operations st;
           produced := list_to_set (ao_outputs op) ∪ produced st;
           consumed := list_to_set (ao_parameters op) ∪ consumed st |}.
Proof.
  unfold check_operation, op_ok. split.
  - intros H. apply bind_Ok in H as (ops & (Hid & ->)%insert_new_Ok & H).
    apply bind_Ok in H as (u & Hi%known_all_Ok & H).
    apply bind_Ok in H as (out & (Ho1 & Ho2 & Ho3 & ->)%produce_all_Ok & H).
    apply bind_Ok in H as (par & (Hp & ->)%consume_all_Ok & H).
    apply bind_Ok in H as (u' & Hb & [= <-]).
    pose proof (proj1 (check_binary_Ok _ _) Hb). done.
  - intros (((Hi & Ho & Hp & Hb) & Hid & Hnd & Hfr) & ->).
    rewrite (proj2 (insert_new_Ok _ _ _ _) (conj Hid eq_refl)). cbn [mbind result_mbind].
    rewrite (proj2 (known_all_Ok _ _ _ tt) Hi). cbn [mbind result_mbind].
    rewrite (proj2 (produce_all_Ok _ _ _ _) (conj Ho (conj Hnd (conj Hfr eq_refl)))).
    cbn [mbind result_mbind].
    rewrite (proj2 (consume_all_Ok _ _ _ _) (conj Hp eq_refl)). cbn [mbind result_mbind].
    by rewrite (proj2 (check_binary_Ok op tt) Hb).
Qed.

(** ** The loop over the operations *)

Lemma check_operations_Ok st ops st' :
  try_fold (check_operation vs ss types) st ops = Ok st' <->
  (Forall (op_ok V S (fun id => types !! id)) ops /\
   NoDup (ao_id <$> ops) /\ (forall i, i ∈ ao_id <$> ops -> i ∉ seen_operations st) /\
   NoDup (ops ≫= ao_outputs) /\ (forall o, o ∈ ops ≫= ao_outputs -> o ∉ produced st)) /\
  st' = {| seen_operations := list_to_set (ao_id <$> ops) ∪ seen_operations st;
           produced := list_to_set (ops ≫= ao_outputs) ∪ produced st;
           consumed := list_to_set (ops ≫= ao_parameters) ∪ consumed st |}.
Proof.
  revert st. induction ops as [|op ops IH]; intros st; cbn.
  - split.
    + intros [= <-]. split; [|destruct st; cbn; f_equal; set_solver].
      repeat split; try constructor; by intros i ?%not_elem_of_nil.
    + intros [_ ->]. destruct st; cbn. do 2 f_equal; set_solver.
  - split.
    + intros H. apply bind_Ok in H as (s & ((Hop & Hid & Hnd & Hfr) & ->)%check_operation_Ok & H).
      apply IH in H as ((HF & Hids & Hseen & Hout & Hprod) & ->). cbn in *.
      split; [|f_equal; set_solver]. split; [by constructor|]. split_and!.
      * constructor; [|done]. intros Hin. specialize (Hseen _ Hin). set_solver.
      * intros i [->|Hi]%elem_of_cons; [done|]. specialize (Hseen _ Hi). set_solver.
      * apply NoDup_app. split; [done|]. split; [|done].
        intros o Ho Ho'. specialize (Hprod _ Ho'). set_solver.
      * intros o [Ho|Ho]%elem_of_app; [by apply Hfr|]. specialize (Hprod _ Ho). set_solver.
    + intros ((HF & Hids & Hseen & Hout & Hprod) & ->).
      apply Forall_cons in HF as [Hop HF]. apply NoDup_cons in Hids as [Hid Hids].
      apply NoDup_app in Hout as (Ho1 & Ho2 & Ho3).
      rewrite (proj2 (check_operation_Ok _ _ _) (conj (conj Hop (conj (Hseen _ ltac:(left))
        (conj Ho1 (fun o Ho => Hprod o (proj2 (elem_of_app _ _ _) (or_introl Ho)))))) eq_refl)).
      cbn [mbind result_mbind]. apply IH. cbn. split; [|f_equal; set_solver].
      split; [done|]. split; [done|]. split_and!; [|done|].
      * intros i Hi [->%elem_of_singleton|Hs]%elem_of_union; [done|].
        by apply (Hseen i); [right|].
      * intros o Ho [Hs%elem_of_list_to_set|Hs]%elem_of_union; [by apply (Ho2 o)|].
        by apply (Hprod o); [apply elem_of_app; right|].
Qed.

End Operation.

Lemma check_export_Ok V names e names' :
  check_export (list_to_set V) names e = Ok names' <->
  export_ok V e /\ ae_name e ∉ names /\ names' = {[ae_name e]} ∪ names.
Proof.
  unfold check_export, export_ok. split.
  - intros H. apply bind_Ok in H as (ns & (Hn & ->)%insert_new_Ok & H).
    apply bind_Ok in H as (u & He%ensure_Ok & H).
    apply bind_Ok in H as (u' & Hk%known_all_Ok & [= <-]).
    apply negb_true_iff, bool_decide_eq_false in He. done.
  - intros ((Hne & Hk) & Hn & ->).
    rewrite (proj2 (insert_new_Ok _ _ _ _) (conj Hn eq_refl)). cbn [mbind result_mbind].
    rewrite bool_decide_eq_false_2 by done. cbn [negb ensure mbind result_mbind].
    by rewrite (proj2 (known_all_Ok _ _ _ _ tt) Hk).
Qed.

(** The map of types is the last type recorded. *)
Lemma value_types_lookup l id :
  foldl (fun m v => <[gv_id v := gv_tensor_type v]> m) (∅ : gmap string SemanticTensorType) l !! id
  = type_of l id.
Proof.
  unfold type_of. induction l as [|v l IH] using rev_ind; [done|].
  rewrite foldl_app, reverse_snoc. cbn. destruct (String.eqb_spec (gv_id v) id) as [->|Hne].
  - by rewrite lookup_insert_eq.
  - by rewrite lookup_insert_ne.
Qed.

Lemma op_ok_types V S t t' op : (forall id, t id = t' id) -> op_ok V S t op <-> op_ok V S t' op.
Proof.
  intros Ht. unfold op_ok. split; intros (H1 & H2 & H3 & H4); (split_and!; try done);
    intros Hb; destruct (H4 Hb) as (l & r & Hl & Hr); exists l, r; split; try done; congruence.
Qed.

(** ** Characterisation of the graph checks *)

Lemma wf_graph_verify g u : verify_architecture_graph g = Ok u <-> wf_graph g.
Proof.
  destruct u. unfold verify_architecture_graph.
  set (types := foldl _ _ _).
  assert (Hty : forall op, op_ok (gv_id <$> ag_values g) (slot_id <$> ag_parameter_slots g)
      (fun id => types !! id) op <->
    op_ok (gv_id <$> ag_values g) (slot_id <$> ag_parameter_slots g) (type_of (ag_values g)) op).
  { intros op. apply op_ok_types. intros id. apply value_types_lookup. }
  split.
  - intros H. apply bind_Ok in H as (u & Hv%ensure_Ok & H). apply Z.eqb_eq in Hv.
    apply bind_Ok in H as (vs & (Hvnd & ->)%insert_all_Ok & H).
    apply bind_Ok in H as (ss & (Hsnd & ->)%insert_all_Ok & H).
    apply bind_Ok in H as (seen & ((Hops & Hids & _ & Hout & _) & ->)%check_operations_Ok & H).
    apply bind_Ok in H as (u1 & Hp%try_for_each_Ok & H).
    apply bind_Ok in H as (u2 & Hc%try_for_each_Ok & H).
    apply bind_Ok in H as (names & He & _). cbn in *.
    eapply (try_fold_ids ae_name (export_ok (gv_id <$> ag_values g))) in He;
      [|intros; apply check_export_Ok]. destruct He as (He & Hen & _ & _).
    split; try done.
    + eapply Forall_impl; [exact Hops|]. intros op. apply Hty.
    + eapply Forall_impl; [exact Hp|]. intros v Hin%ensure_Ok.
      apply bool_decide_eq_true_1 in Hin. set_solver.
    + eapply Forall_impl; [exact Hc|]. intros s Hin%ensure_Ok.
      apply orb_prop in Hin as [?|Hin%bool_decide_eq_true_1]; [by left|right; set_solver].
  - intros [Hv Hvnd Hsnd Hids Hops Hout Hp Hc Hen He].
    rewrite Hv. cbn [ensure Z.eqb Pos.eqb mbind result_mbind].
    rewrite (proj2 (insert_all_Ok _ _ _) (conj Hvnd eq_refl)). cbn [mbind result_mbind].
    rewrite (proj2 (insert_all_Ok _ _ _) (conj Hsnd eq_refl)). cbn [mbind result_mbind].
    assert (Hops' : Forall (op_ok (gv_id <$> ag_values g) (slot_id <$> ag_parameter_slots g)
      (fun id => types !! id)) (ag_operations g)).
    { eapply Forall_impl; [exact Hops|]. intros op. apply Hty. }
    assert (Hseen := proj2 (check_operations_Ok (gv_id <$> ag_values g)
      (slot_id <$> ag_parameter_slots g) types
      {| seen_operations := ∅; produced := ∅; consumed := ∅ |} (ag_operations g) _)
      (conj (conj Hops'
        (conj Hids (conj (fun i _ => not_elem_of_empty i) (conj Hout (fun i _ => not_elem_of_empty i)))))
        eq_refl)).
    rewrite Hseen. cbn [mbind result_mbind produced consumed].
    rewrite (proj2 (try_for_each_Ok _ (ag_values g) tt)).
    2:{ eapply Forall_impl; [exact Hp|]. intros v Hin. rewrite bool_decide_eq_true_2; set_solver. }
    cbn [mbind result_mbind]. rewrite (proj2 (try_for_each_Ok _ (ag_parameter_slots g) tt)).
    2:{ eapply Forall_impl; [exact Hc|]. intros s [->|Hin]; [done|].
        rewrite bool_decide_eq_true_2 by set_solver. by rewrite orb_true_r. }
    cbn [mbind result_mbind].
    pose proof (proj2 (try_fold_ids ae_name (export_ok (gv_id <$> ag_values g))
      (check_export (list_to_set (gv_id <$> ag_values g))) (ag_exports g) ∅ _
      (fun s a s' => check_export_Ok _ _ _ _))
      (conj He (conj Hen (conj (fun i _ => not_elem_of_empty i) eq_refl)))) as ->. done.
Qed.

Lemma no_panic_try_fold {E A S} (f : S -> A -> result E S) s l :
  (forall s a, no_panic (f s a)) -> no_panic (try_fold f s l).
Proof.
  intros Hf. revert s. induction l as [|a l IH]; intros s; cbn; [done|].
  apply no_panic_bind; [apply Hf|]. intros. apply IH.
Qed.

Lemma no_panic_insert_new what ids id : no_panic (insert_new what ids id).
Proof. unfold insert_new. apply no_panic_bind; auto with dyninfer. Qed.
Lemma no_panic_known what ids op id : no_panic (known what ids op id).
Proof. apply no_panic_ensure. Qed.
#[export] Hint Resolve no_panic_insert_new no_panic_known : dyninfer.

Lemma no_panic_check_operation vs ss types st op :
  no_panic (check_operation vs ss types st op).
Proof.
  unfold check_operation. apply no_panic_bind; [auto with dyninfer|]. intros ops _.
  apply no_panic_bind; [apply no_panic_try_for_each; auto with dyninfer|]. intros _ _.
  apply no_panic_bind.
  { apply no_panic_try_fold. intros. unfold produce. apply no_panic_bind; auto with dyninfer. }
  intros out _. apply no_panic_bind.
  { apply no_panic_try_fold. intros. unfold consume. apply no_panic_bind; auto with dyninfer. }
  intros par _. apply no_panic_bind; [|done].
  unfold check_binary. case_match; [apply no_panic_ensure|done].
Qed.

Lemma no_panic_check_export vs names e : no_panic (check_export vs names e).
Proof.
  unfold check_export. apply no_panic_bind; [auto with dyninfer|]. intros ? _.
  apply no_panic_bind; [auto with dyninfer|]. intros ? _.
  apply no_panic_bind; [apply no_panic_try_for_each; auto with dyninfer|done].
Qed.

Lemma no_panic_verify g : no_panic (verify_architecture_graph g).
Proof.
  unfold verify_architecture_graph. repeat (apply no_panic_bind; [|intros ? _]); try done;
    first [apply no_panic_ensure | apply no_panic_try_fold | apply no_panic_try_for_each];
    intros; auto using no_panic_check_operation, no_panic_check_export with dyninfer.
Qed.

(** * Property *)

(** C25: The graph check is exact: it accepts a graph when and only when the
    graph is well-formed (version 1, every value, slot, operation and export
    named once, all references closed, every value produced exactly once,
    every required slot consumed, binary operations on equal types), and it
    rejects every other graph with an error, never a panic. *)
Theorem verify_exact g :
  (verify_architecture_graph g = Ok tt <-> wf_graph g) /\
  (~ wf_graph g -> exists e, verify_architecture_graph g = Err e).
Proof.
  split; [apply wf_graph_verify|]. intros Hno.
  pose proof (no_panic_verify g) as Hp. destruct (verify_architecture_graph g) as [u|e|w] eqn:E.
  - by apply wf_graph_verify in E.
  - by exists e.
  - done.
Qed.

Definition empty_graph (version : Z) : ArchitectureGraph :=
  {| ag_version := version; ag_architecture_id := "empty"; ag_values := []; ag_operations := [];
     ag_parameter_slots := []; ag_exports := [] |}.

Lemma verify_exact_witness :
  wf_graph (empty_graph 1) /\ exists e, verify_architecture_graph (empty_graph 2) = Err e.
Proof.
  split.
  - apply (proj1 (verify_exact (empty_graph 1))). reflexivity.
  - apply (proj2 (verify_exact (empty_graph 2))). intros [Hv]. discriminate Hv.
Defined.
