(* ===== verification/Building.v ===== *)
(** * Runs of the graph builder

    The invariant that the builder's methods keep and what each method adds
    to the graph, for the names that are fresh in it. *)
From S2P Require Import Prelude Errors Serde CoreTypes Names Ir Builder Graph.
From Stdlib Require Import ZArith Lia Ascii String.
From stdpp Require Import base list strings gmap.
From stdpp Require Import options.

Local Open Scope Z_scope.

#[global] Arguments type_of : simpl never.

(** ** The invariant *)

Definition value_names (b : ModelBuilder) : list string := gv_id <$> mb_values b.
Definition operation_kinds (b : ModelBuilder) : list (string * OperationKind) :=
  (fun o => (ao_id o, ao_kind o)) <$> mb_operations b.
Definition slot_names (b : ModelBuilder) : list string := slot_id <$> mb_slots b.

#[global] Arguments value_names : simpl never.
#[global] Arguments operation_kinds : simpl never.
#[global] Arguments slot_names : simpl never.

(** Single assignment, in order: the operations produce the values and use the
    slots in the order these were declared; [pending] slots wait for their
    operation. *)
Record building (pending : list string) (b : ModelBuilder) : Prop := {
  bd_values : NoDup (value_names b);
  bd_operations : NoDup (ao_id <$> mb_operations b);
  bd_slots : NoDup (slot_names b);
  bd_ops : Forall (op_ok (value_names b) (slot_names b) (type_of (mb_values b))) (mb_operations b);
  bd_outputs : mb_operations b ≫= ao_outputs = value_names b;
  bd_parameters : (mb_operations b ≫= ao_parameters) ++ pending = slot_names b;
  bd_required : Forall (fun s => slot_optional s = false) (mb_slots b);
}.

(** A handle that denotes a value of the builder. *)
Definition valid (b : ModelBuilder) (v : BuilderValue) : Prop :=
  type_of (mb_values b) (bv_id v) = Some (bv_tensor_type v).

(** What a run adds. *)
Record adds (b b' : ModelBuilder) (V : list string) (O : list (string * OperationKind))
    (S : list ParameterSlot) : Prop := {
  ad_building : building [] b';
  ad_values : value_names b' = value_names b ++ V;
  ad_operations : operation_kinds b' = operation_kinds b ++ O;
  ad_slots : mb_slots b' = mb_slots b ++ S;
  ad_valid : forall v, valid b v -> valid b' v;
  ad_id : mb_architecture_id b' = mb_architecture_id b;
  ad_exports : mb_exports b' = mb_exports b;
  ad_input : mb_primary_input b' = mb_primary_input b;
}.

(** ** Lemmas *)

Lemma run_bind {A B} (m : Build A) (k : A -> Build B) b a b' :
  m b = Ok (a, b') -> (m ≫= k) b = k a b'.
Proof. unfold mbind, Build_bind. by intros ->. Qed.

Lemma run_bind_Err {A B} (m : Build A) (k : A -> Build B) b e :
  m b = Err e -> (m ≫= k) b = Err e.
Proof. unfold mbind, Build_bind. by intros ->. Qed.

Lemma type_of_snoc l v id :
  type_of (l ++ [v]) id = if String.eqb (gv_id v) id then Some (gv_tensor_type v) else type_of l id.
Proof. unfold type_of. rewrite reverse_snoc. cbn. by destruct (String.eqb (gv_id v) id). Qed.

Lemma type_of_elem l id t : type_of l id = Some t -> id ∈ gv_id <$> l.
Proof.
  induction l as [|v l IH] using rev_ind; [done|]. rewrite type_of_snoc, fmap_app.
  destruct (String.eqb_spec (gv_id v) id) as [<-|Hne].
  - intros _. apply elem_of_app. right. left.
  - intros H. apply elem_of_app. left. auto.
Qed.

Lemma valid_elem b v : valid b v -> bv_id v ∈ value_names b.
Proof. apply type_of_elem. Qed.

Lemma op_ok_mono V S t V' S' t' op :
  V ⊆ V' -> S ⊆ S' -> (forall id, id ∈ V -> t' id = t id) -> op_ok V S t op -> op_ok V' S' t' op.
Proof.
  intros HV HS Ht (Hi & Ho & Hp & Hb). split_and!.
  - eapply Forall_impl; [exact Hi|]. auto.
  - eapply Forall_impl; [exact Ho|]. auto.
  - eapply Forall_impl; [exact Hp|]. auto.
  - intros E. destruct (Hb E) as (l & r & El & Er). exists l, r. split; [done|].
    rewrite El in Hi. apply Forall_cons in Hi as [Hl [Hr _]%Forall_cons].
    by rewrite !Ht.
Qed.

Lemma push_slot_run b name role rank :
  name ∉ slot_names b ->
  push_slot name role rank b = Ok (name, with_slots (mb_slots b ++ [required_slot name role rank]) b).
Proof.
  intros H. unfold push_slot, declare_parameter, mbind, Build_bind. cbn [slot_id required_slot].
  by rewrite (proj2 (existsb_ids slot_id name (mb_slots b)) H).
Qed.

Lemma push_slot_building b name role rank :
  building [] b -> name ∉ slot_names b ->
  building [name] (with_slots (mb_slots b ++ [required_slot name role rank]) b).
Proof.
  intros [Hv Ho Hs Hops Hout Hpar Hreq] Hn.
  assert (E : slot_names (with_slots (mb_slots b ++ [required_slot name role rank]) b)
              = slot_names b ++ [name]) by (unfold slot_names; cbn; by rewrite fmap_app).
  rewrite app_nil_r in Hpar. split; try rewrite E; cbn; try done.
  - apply NoDup_app. split; [done|]. split; [|apply NoDup_singleton].
    intros s Hs' ->%list_elem_of_singleton. done.
  - eapply Forall_impl; [exact Hops|]. intros op. apply op_ok_mono; [done| |done].
    intros s Hs'. apply elem_of_app. by left.
  - by rewrite Hpar.
  - apply Forall_app. split; [done|]. by constructor.
Qed.

(** ** A value and the operation that produces it *)

Section Emit.
Variables (b : ModelBuilder) (id : string) (kind : OperationKind) (inputs : list BuilderValue)
  (ty : SemanticTensorType) (ps : list string).

Definition emitted : ModelBuilder :=
  with_operations (mb_operations b ++
    [{| ao_id := id; ao_kind := kind; ao_inputs := bv_id <$> inputs;
        ao_outputs := [output_id id]; ao_parameters := ps |}])
    (with_values (mb_values b ++ [{| gv_id := output_id id; gv_tensor_type := ty |}]) b).

Hypothesis Hb : building ps b.
Hypothesis Hinputs : Forall (valid b) inputs.
Hypothesis Hkind : is_binary kind = true ->
  exists l r, inputs = [l; r] /\ bv_tensor_type l = bv_tensor_type r.
Hypothesis Hop : id ∉ ao_id <$> mb_operations b.
Hypothesis Hout : output_id id ∉ value_names b.

Lemma emit_run :
  (output ← value (output_id id) ty;
   _ ← operation id kind inputs [output] ps;
   mret output) b = Ok ({| bv_id := output_id id; bv_tensor_type := ty |}, emitted).
Proof using Hop Hout.
  unfold mbind, Build_bind, value. rewrite (proj2 (existsb_ids gv_id _ _) Hout).
  unfold operation. cbn [mb_operations with_values].
  by rewrite (proj2 (existsb_ids ao_id _ _) Hop).
Qed.

Lemma emit_type v : valid b v -> valid emitted v.
Proof using Hout.
  unfold valid. cbn. rewrite type_of_snoc. cbn. intros H.
  destruct (String.eqb_spec (output_id id) (bv_id v)) as [E|]; [|done].
  destruct Hout. rewrite E. by apply valid_elem.
Qed.

Lemma emit_building : building [] emitted.
Proof using Hb Hinputs Hkind Hop Hout.
  destruct Hb as [Hv Ho Hs Hops Hprod Hpar Hreq].
  assert (E : value_names emitted = value_names b ++ [output_id id])
    by (unfold value_names; cbn; by rewrite fmap_app).
  split; try rewrite E; cbn; try done.
  - apply NoDup_app. split; [done|]. split; [|apply NoDup_singleton].
    by intros s Hs' ->%list_elem_of_singleton.
  - rewrite fmap_app. apply NoDup_app. split; [done|]. split; [|apply NoDup_singleton].
    by intros s Hs' ->%list_elem_of_singleton.
  - apply Forall_app. split; [|apply Forall_singleton; split_and!].
    + eapply Forall_impl; [exact Hops|]. intros op. apply op_ok_mono; [|done|].
      * intros s Hs'. apply elem_of_app. by left.
      * intros s Hs'. rewrite type_of_snoc. cbn.
        destruct (String.eqb_spec (output_id id) s) as [<-|]; done.
    + cbn. apply Forall_fmap. eapply Forall_impl; [exact Hinputs|]. intros v Hval. cbn.
      apply elem_of_app. left. by apply valid_elem.
    + cbn. apply Forall_singleton. apply elem_of_app. right. left.
    + cbn. rewrite Forall_forall. intros p Hp. change (p ∈ slot_names b).
      rewrite <-Hpar. apply elem_of_app. by right.
    + intros Hk. destruct (Hkind Hk) as (l & r & -> & Ht). exists (bv_id l), (bv_id r).
      split; [done|]. cbn.
      apply Forall_cons in Hinputs as [Hl [Hr _]%Forall_cons].
      pose proof (emit_type l Hl) as El. pose proof (emit_type r Hr) as Er.
      unfold valid in El, Er. cbn in El, Er. by rewrite El, Er, Ht.
  - rewrite bind_app, Hprod. done.
  - rewrite bind_app. cbn. rewrite !app_nil_r. exact Hpar.
Qed.

Lemma emit_adds :
  adds b emitted [output_id id] [(id, kind)] [] /\
  valid emitted {| bv_id := output_id id; bv_tensor_type := ty |}.
Proof using Hb Hinputs Hkind Hop Hout.
  split; [split; try done|].
  - apply emit_building.
  - unfold value_names. cbn. by rewrite fmap_app.
  - unfold operation_kinds. cbn. by rewrite fmap_app.
  - cbn. by rewrite app_nil_r.
  - apply emit_type.
  - unfold valid. cbn. rewrite type_of_snoc. cbn. by rewrite String.eqb_refl.
Qed.

End Emit.

(** ** One step, with or without a weight *)

Lemma step_emit b id kind inputs ty :
  building [] b -> Forall (valid b) inputs ->
  (is_binary kind = true -> exists l r, inputs = [l; r] /\ bv_tensor_type l = bv_tensor_type r) ->
  id ∉ ao_id <$> mb_operations b -> output_id id ∉ value_names b ->
  let v := {| bv_id := output_id id; bv_tensor_type := ty |} in
  exists b', (output ← value (output_id id) ty; _ ← operation id kind inputs [output] []; mret output) b
               = Ok (v, b') /\
    adds b b' [output_id id] [(id, kind)] [] /\ valid b' v.
Proof.
  intros Hb Hi Hk Ho Hv v. exists (emitted b id kind inputs ty []).
  split; [by apply emit_run|]. by apply emit_adds.
Qed.

Lemma step_weighted b id kind input ty name role rank :
  building [] b -> valid b input -> is_binary kind = false ->
  id ∉ ao_id <$> mb_operations b -> output_id id ∉ value_names b -> name ∉ slot_names b ->
  let v := {| bv_id := output_id id; bv_tensor_type := ty |} in
  exists b', (slot ← push_slot name role rank; unary id kind input ty [slot]) b = Ok (v, b') /\
    adds b b' [output_id id] [(id, kind)] [required_slot name role rank] /\ valid b' v.
Proof.
  intros Hb Hi Hk Ho Hv Hn v.
  set (b1 := with_slots (mb_slots b ++ [required_slot name role rank]) b).
  pose proof (push_slot_building b name role rank Hb Hn) as Hb1. fold b1 in Hb1.
  assert (Hk1 : is_binary kind = true ->
    exists l r, [input] = [l; r] /\ bv_tensor_type l = bv_tensor_type r) by congruence.
  exists (emitted b1 id kind [input] ty [name]).
  split; [rewrite (run_bind _ _ _ _ _ (push_slot_run b name role rank Hn)); by apply emit_run|].
  destruct (emit_adds b1 id kind [input] ty [name] Hb1) as [[A1 A2 A3 A4 A5 A6 A7 A8] Hval];
    [by constructor|done..|].
  split; [by split|done].
Qed.

Lemma step_operation b id kind inputs :
  building [] b -> Forall (valid b) inputs -> is_binary kind = false ->
  id ∉ ao_id <$> mb_operations b ->
  exists b', operation id kind inputs [] [] b = Ok (tt, b') /\ adds b b' [] [(id, kind)] [].
Proof.
  intros [Hv Ho Hs Hops Hprod Hpar Hreq] Hi Hk Hid. unfold operation.
  rewrite (proj2 (existsb_ids ao_id _ _) Hid). eexists. split; [done|].
  split.
  - split; try done; cbn.
    + rewrite fmap_app. apply NoDup_app. split; [done|]. split; [|apply NoDup_singleton].
      by intros s Hs' ->%list_elem_of_singleton.
    + apply Forall_app. split; [done|]. apply Forall_singleton.
      split_and!; cbn; [|constructor..|congruence].
      apply Forall_fmap. eapply Forall_impl; [exact Hi|]. apply valid_elem.
    + rewrite bind_app, Hprod. cbn. by rewrite app_nil_r.
    + rewrite bind_app. cbn. rewrite !app_nil_r. by rewrite app_nil_r in Hpar.
  - unfold value_names. cbn. by rewrite app_nil_r.
  - unfold operation_kinds. cbn. by rewrite fmap_app.
  - cbn. by rewrite app_nil_r.
  - done.
  - done.
  - done.
  - done.
Qed.

(** ** Composition *)

Lemma adds_refl b : building [] b -> adds b b [] [] [].
Proof. intros Hb. split; try done; by rewrite app_nil_r. Qed.

Lemma adds_trans b1 b2 b3 V O S V' O' S' :
  adds b1 b2 V O S -> adds b2 b3 V' O' S' -> adds b1 b3 (V ++ V') (O ++ O') (S ++ S').
Proof.
  intros [? A2 A3 A4 A5 A6 A7 A8] [? C2 C3 C4 C5 C6 C7 C8]. split; try done.
  - by rewrite C2, A2, app_assoc.
  - by rewrite C3, A3, app_assoc.
  - by rewrite C4, A4, app_assoc.
  - auto.
  - congruence.
  - congruence.
  - congruence.
Qed.

(** ** Steps inside a layer

    The names of a layer are a common prefix [p] followed by a suffix.
    [layer_adds] is [adds] on the suffixes, and [unused p N b] says that none
    of the names with a suffix of [N] is in use. *)

Definition prefixed_op (p : string) (o : string * OperationKind) : string * OperationKind :=
  (String.append p o.1, o.2).
Definition prefixed_slot (p : string) (s : string * ParameterRole * Z) : ParameterSlot :=
  required_slot (String.append p s.1.1) s.1.2 s.2.

Definition layer_adds (p : string) (b b' : ModelBuilder) (L : list string)
    (O : list (string * OperationKind)) (S : list (string * ParameterRole * Z)) : Prop :=
  adds b b' (String.append p <$> L) (prefixed_op p <$> O) (prefixed_slot p <$> S).

Definition unused (p : string) (N : list string) (b : ModelBuilder) : Prop :=
  forall s, s ∈ N -> String.append p s ∉ value_names b /\
    String.append p s ∉ ao_id <$> mb_operations b /\ String.append p s ∉ slot_names b.

Definition mem (s : string) (l : list string) : bool := existsb (String.eqb s) l.

(** The suffix [s] of an operation, with its output, is allowed and unused. *)
Definition op_free (N L : list string) (O : list (string * OperationKind)) (s : string) : bool :=
  mem s N && mem (String.append s ".output") N && negb (mem s O.*1)
  && negb (mem (String.append s ".output") L).
Definition slot_free (N : list string) (S : list (string * ParameterRole * Z)) (s : string) : bool :=
  mem s N && negb (mem s S.*1.*1).

Lemma mem_true s l : mem s l = true -> s ∈ l.
Proof.
  unfold mem. rewrite existsb_exists. intros (x & Hx & ->%String.eqb_eq). by apply list_elem_of_In.
Qed.
Lemma mem_false s l : mem s l = false -> s ∉ l.
Proof.
  intros H Hin. apply list_elem_of_In in Hin. unfold mem in H.
  assert (existsb (String.eqb s) l = true) by (apply existsb_exists; exists s; by rewrite String.eqb_refl).
  congruence.
Qed.

Lemma operation_ids_kinds b : ao_id <$> mb_operations b = (operation_kinds b).*1.
Proof. unfold operation_kinds. rewrite <-list_fmap_compose. by apply list_fmap_ext. Qed.

Lemma not_elem_prefixed p s (l : list string) : s ∉ l -> String.append p s ∉ String.append p <$> l.
Proof. intros H (t & Ht & Hin)%list_elem_of_fmap. apply append_inj in Ht as ->. done. Qed.

Section Layer.
Variables (p : string) (N : list string) (b0 b : ModelBuilder) (L : list string)
  (O : list (string * OperationKind)) (S : list (string * ParameterRole * Z)).
Hypothesis Hfresh : unused p N b0.
Hypothesis Hat : layer_adds p b0 b L O S.

Lemma layer_op_free s :
  mem s N = true -> mem s O.*1 = false -> String.append p s ∉ ao_id <$> mb_operations b.
Proof using Hfresh Hat.
  intros HN%mem_true HO%mem_false. rewrite operation_ids_kinds, (ad_operations _ _ _ _ _ Hat).
  rewrite fmap_app, <-operation_ids_kinds. intros [H|H]%elem_of_app; [by destruct (Hfresh s HN) as (? & ? & ?)|].
  apply (not_elem_prefixed p s O.*1 HO). rewrite <-!list_fmap_compose in *.
  erewrite list_fmap_ext; [exact H|done].
Qed.

Lemma layer_value_free s :
  mem s N = true -> mem s L = false -> String.append p s ∉ value_names b.
Proof using Hfresh Hat.
  intros HN%mem_true HO%mem_false. rewrite (ad_values _ _ _ _ _ Hat).
  intros [H|H]%elem_of_app; [by destruct (Hfresh s HN) as (? & ? & ?)|]. revert H. by apply not_elem_prefixed.
Qed.

Lemma layer_slot_free s : slot_free N S s = true -> String.append p s ∉ slot_names b.
Proof using Hfresh Hat.
  intros [HN%mem_true HO%negb_true_iff%mem_false]%andb_prop.
  unfold slot_names. rewrite (ad_slots _ _ _ _ _ Hat).
  rewrite fmap_app. intros [H|H]%elem_of_app; [by destruct (Hfresh s HN) as (? & ? & ?)|].
  apply (not_elem_prefixed p s S.*1.*1 HO). rewrite <-!list_fmap_compose in *.
  erewrite list_fmap_ext; [exact H|done].
Qed.

Definition out (s : string) (ty : SemanticTensorType) : BuilderValue :=
  {| bv_id := String.append p (String.append s ".output"); bv_tensor_type := ty |}.

Lemma op_free_spec s : op_free N L O s = true ->
  String.append p s ∉ ao_id <$> mb_operations b /\
  output_id (String.append p s) ∉ value_names b /\
  output_id (String.append p s) = String.append p (String.append s ".output").
Proof using Hfresh Hat.
  intros [[[H1 H2]%andb_prop H3%negb_true_iff]%andb_prop H4%negb_true_iff]%andb_prop.
  unfold output_id. rewrite append_assoc.
  split; [by apply layer_op_free|]. split; [by apply layer_value_free|done].
Qed.

Lemma layer_emit s kind inputs ty :
  Forall (valid b) inputs ->
  (is_binary kind = true -> exists l r, inputs = [l; r] /\ bv_tensor_type l = bv_tensor_type r) ->
  op_free N L O s = true ->
  exists b', (output ← value (output_id (String.append p s)) ty;
              _ ← operation (String.append p s) kind inputs [output] []; mret output) b
               = Ok (out s ty, b') /\
    layer_adds p b0 b' (L ++ [String.append s ".output"]) (O ++ [(s, kind)]) S /\
    valid b' (out s ty) /\ (forall u, valid b u -> valid b' u).
Proof using Hfresh Hat.
  intros Hi Hk (Ho & Hv & Eo)%op_free_spec.
  destruct (step_emit b (String.append p s) kind inputs ty) as (b' & Hrun & Ha & Hval); try done.
  { apply Hat. }
  exists b'. rewrite Eo in *. split; [done|]. split; [|split; [done|apply Ha]].
  unfold layer_adds. rewrite !fmap_app. cbn [fmap list_fmap].
  pose proof (adds_trans _ _ _ _ _ _ _ _ _ Hat Ha) as Ht. by rewrite app_nil_r in Ht.
Qed.

Lemma layer_weighted s w kind input ty role rank :
  valid b input -> is_binary kind = false ->
  op_free N L O s && slot_free N S w = true ->
  exists b', (slot ← push_slot (String.append p w) role rank;
              unary (String.append p s) kind input ty [slot]) b = Ok (out s ty, b') /\
    layer_adds p b0 b' (L ++ [String.append s ".output"]) (O ++ [(s, kind)]) (S ++ [(w, role, rank)]) /\
    valid b' (out s ty) /\ (forall u, valid b u -> valid b' u).
Proof using Hfresh Hat.
  intros Hi Hk [(Ho & Hv & Eo)%op_free_spec Hw%layer_slot_free]%andb_prop.
  destruct (step_weighted b (String.append p s) kind input ty (String.append p w) role rank)
    as (b' & Hrun & Ha & Hval); try done.
  { apply Hat. }
  exists b'. unfold out. rewrite <-Eo in *. split; [done|]. split; [|split; [done|apply Ha]].
  unfold layer_adds. rewrite !fmap_app. cbn [fmap list_fmap].
  pose proof (adds_trans _ _ _ _ _ _ _ _ _ Hat Ha) as Ht. by rewrite Eo in Ht.
Qed.

Lemma layer_operation s kind inputs :
  Forall (valid b) inputs -> is_binary kind = false ->
  mem s N && negb (mem s O.*1) = true ->
  exists b', operation (String.append p s) kind inputs [] [] b = Ok (tt, b') /\
    layer_adds p b0 b' L (O ++ [(s, kind)]) S /\ (forall u, valid b u -> valid b' u).
Proof using Hfresh Hat.
  intros Hi Hk [HN HO%negb_true_iff]%andb_prop.
  destruct (step_operation b (String.append p s) kind inputs) as (b' & Hrun & Ha); try done.
  { apply Hat. }
  { by apply layer_op_free. }
  exists b'. split; [done|]. split; [|apply Ha].
  unfold layer_adds. rewrite !fmap_app. cbn [fmap list_fmap].
  pose proof (adds_trans _ _ _ _ _ _ _ _ _ Hat Ha) as Ht. by rewrite !app_nil_r in Ht.
Qed.

End Layer.
