(* ===== verification/Layers.v ===== *)
(** * Stacks of decoder layers

    Layers of different indices have different names, so a decoder of any
    depth can be built; what a stack of layers adds to the graph. *)
From S2P Require Import Prelude Errors Serde CoreTypes Names Ir Builder Graph Building.
From Stdlib Require Import ZArith Lia Ascii String.
From stdpp Require Import base list strings gmap.
From stdpp Require Import options.

(** * The sublayers of a decoder

    What the composite methods of builder.rs add to the graph: the schedule
    of operations and the parameter slots of an attention, a short-convolution
    and a feed-forward sublayer. *)

Local Open Scope Z_scope.

(** ** Schedules, by suffix *)

Definition attention_ops (layer : Z) (qk : bool) (s : DecoderBlockSpec)
    : list (string * OperationKind) :=
  let eps := db_rms_norm_epsilon s in
  let heads := db_num_heads s in let kv := db_num_kv_heads s in let dim := db_head_dim s in
  [(".attn_norm", OpRmsNorm eps); (".attn_q", OpLinear AttentionQ);
   (".attn_k", OpLinear AttentionK); (".attn_v", OpLinear AttentionV)]
  ++ (if qk then [(".attn_q_norm", OpPerHeadRmsNorm eps heads dim);
                  (".attn_k_norm", OpPerHeadRmsNorm eps kv dim)] else [])
  ++ match db_rope_theta s with
     | Some theta => [(".attn_q_rope", OpRope heads dim theta); (".attn_k_rope", OpRope kv dim theta)]
     | None => []
     end
  ++ [(".key_cache_write", OpKvCacheWrite layer KvKey);
      (".value_cache_write", OpKvCacheWrite layer KvValue);
      (".key_cache_read", OpKvCacheRead layer KvKey);
      (".value_cache_read", OpKvCacheRead layer KvValue);
      (".attention", OpAttention heads kv dim true);
      (".attn_output", OpLinear AttentionO); (".attn_residual", OpResidual)].

Definition attention_slots (qk : bool) : list (string * ParameterRole * Z) :=
  [(".attn_norm.weight", Norm, 1); (".attn_q.weight", AttentionQ, 2);
   (".attn_k.weight", AttentionK, 2); (".attn_v.weight", AttentionV, 2)]
  ++ (if qk then [(".attn_q_norm.weight", Norm, 1); (".attn_k_norm.weight", Norm, 1)] else [])
  ++ [(".attn_output.weight", AttentionO, 2)].

Definition short_conv_ops (layer : Z) (s : ShortConvBlockSpec) : list (string * OperationKind) :=
  [(".attn_norm", OpRmsNorm (sb_rms_norm_epsilon s));
   (".shortconv_in", OpLinear (Other "shortconv.in"));
   (".shortconv", OpShortConv layer (sb_channels s) (sb_kernel_size s));
   (".shortconv_out", OpLinear (Other "shortconv.out"));
   (".shortconv_residual", OpResidual)].

Definition short_conv_slots : list (string * ParameterRole * Z) :=
  [(".attn_norm.weight", Norm, 1); (".shortconv.in_proj.weight", Other "shortconv.in", 2);
   (".shortconv.conv.weight", Other "shortconv.conv", 3);
   (".shortconv.out_proj.weight", Other "shortconv.out", 2)].

Definition ffn_ops (s : DecoderBlockSpec) : list (string * OperationKind) :=
  [(".ffn_norm", OpRmsNorm (db_rms_norm_epsilon s)); (".ffn_gate", OpLinear FfnGate);
   (".ffn_up", OpLinear FfnUp); (".ffn_silu", OpElementwise Silu);
   (".ffn_multiply", OpElementwise Multiply); (".ffn_down", OpLinear FfnDown);
   (".ffn_residual", OpResidual)].

Definition ffn_slots : list (string * ParameterRole * Z) :=
  [(".ffn_norm.weight", Norm, 1); (".ffn_gate.weight", FfnGate, 2);
   (".ffn_up.weight", FfnUp, 2); (".ffn_down.weight", FfnDown, 2)].

(** Every operation but a cache write produces the value [<id>.output]. *)
Definition is_cache_write (k : OperationKind) : bool :=
  match k with OpKvCacheWrite _ _ => true | _ => false end.
Definition outputs_of (O : list (string * OperationKind)) : list string :=
  omap (fun o => if is_cache_write o.2 then None else Some (String.append o.1 ".output")) O.

(** The suffixes a schedule uses. *)
Definition names_of (O : list (string * OperationKind)) (S : list (string * ParameterRole * Z))
    : list string := O.*1 ++ outputs_of O ++ S.*1.*1.

(** ** Runs with a postcondition *)

Definition runs {A} (r : Result (A * ModelBuilder)) (Q : A -> ModelBuilder -> Prop) : Prop :=
  exists a b, r = Ok (a, b) /\ Q a b.

Lemma runs_bind {A B} (m : Build A) (k : A -> Build B) b P Q :
  runs (m b) P -> (forall a b', P a b' -> runs (k a b') Q) -> runs ((m ≫= k) b) Q.
Proof. intros (a & b' & Hrun & HP) Hk. rewrite (run_bind _ _ _ _ _ Hrun). auto. Qed.

Lemma runs_assoc {A B C} (m : Build A) (k : A -> Build B) (h : B -> Build C) b Q :
  runs ((m ≫= (fun a => k a ≫= h)) b) Q -> runs (((m ≫= k) ≫= h) b) Q.
Proof. unfold mbind, Build_bind. by destruct (m b) as [[a b']| |]. Qed.

Lemma runs_ret_bind {A B} (a : A) (h : A -> Build B) b Q :
  runs (h a b) Q -> runs ((mret a ≫= h) b) Q.
Proof. done. Qed.

Lemma runs_ret {A} (a : A) b (Q : A -> ModelBuilder -> Prop) : Q a b -> runs ((mret a : Build A) b) Q.
Proof. intros H. by exists a, b. Qed.

Lemma runs_impl {A} (r : Result (A * ModelBuilder)) (P Q : A -> ModelBuilder -> Prop) :
  runs r P -> (forall a b, P a b -> Q a b) -> runs r Q.
Proof. intros (a & b & -> & HP) H. exists a, b. auto. Qed.

Lemma runs_lift {A} (r : Result A) b a : r = Ok a -> runs (lift r b) (fun a' b' => a' = a /\ b' = b).
Proof. intros ->. by exists a, b. Qed.

Section Steps.
Variables (p : string) (N : list string) (b0 b : ModelBuilder) (L : list string)
  (O : list (string * OperationKind)) (S : list (string * ParameterRole * Z)).
Hypothesis Hfresh : unused p N b0.
Hypothesis Hat : layer_adds p b0 b L O S.

(** The state after a step, and the handle it returns. *)
Definition after (L' : list string) (O' : list (string * OperationKind))
    (S' : list (string * ParameterRole * Z)) (o : BuilderValue) (v : BuilderValue)
    (b' : ModelBuilder) : Prop :=
  v = o /\ layer_adds p b0 b' (L ++ L') (O ++ O') (S ++ S') /\ valid b' o /\
  (forall u, valid b u -> valid b' u).

Lemma step_linear s w input width role :
  valid b input -> op_free N L O s && slot_free N S w = true ->
  runs (linear (String.append p s) input (String.append p w) width role b)
    (after [String.append s ".output"] [(s, OpLinear role)] [(w, role, 2)] (out p s (activations width))).
Proof using Hfresh Hat.
  intros Hi Hs. destruct (layer_weighted p N b0 b L O S Hfresh Hat s w (OpLinear role) input
    (activations width) role 2 Hi eq_refl Hs) as (b' & Hrun & Ha & Hv & Hm).
  by exists (out p s (activations width)), b'.
Qed.

Lemma step_rms_norm s w input eps :
  valid b input -> op_free N L O s && slot_free N S w = true ->
  runs (rms_norm (String.append p s) input (String.append p w) eps b)
    (after [String.append s ".output"] [(s, OpRmsNorm eps)] [(w, Norm, 1)]
       (out p s (bv_tensor_type input))).
Proof using Hfresh Hat.
  intros Hi Hs. destruct (layer_weighted p N b0 b L O S Hfresh Hat s w (OpRmsNorm eps) input
    (bv_tensor_type input) Norm 1 Hi eq_refl Hs) as (b' & Hrun & Ha & Hv & Hm).
  by exists (out p s (bv_tensor_type input)), b'.
Qed.

Lemma step_per_head_rms_norm s w input eps n d :
  valid b input -> op_free N L O s && slot_free N S w = true ->
  runs (per_head_rms_norm (String.append p s) input (String.append p w) eps n d b)
    (after [String.append s ".output"] [(s, OpPerHeadRmsNorm eps n d)] [(w, Norm, 1)]
       (out p s (bv_tensor_type input))).
Proof using Hfresh Hat.
  intros Hi Hs. destruct (layer_weighted p N b0 b L O S Hfresh Hat s w (OpPerHeadRmsNorm eps n d)
    input (bv_tensor_type input) Norm 1 Hi eq_refl Hs) as (b' & Hrun & Ha & Hv & Hm).
  by exists (out p s (bv_tensor_type input)), b'.
Qed.

Lemma step_short_conv s w input layer channels k :
  valid b input -> op_free N L O s && slot_free N S w = true ->
  runs (short_conv (String.append p s) input (String.append p w) layer channels k b)
    (after [String.append s ".output"] [(s, OpShortConv layer channels k)]
       [(w, Other "shortconv.conv", 3)] (out p s (activations channels))).
Proof using Hfresh Hat.
  intros Hi Hs. destruct (layer_weighted p N b0 b L O S Hfresh Hat s w
    (OpShortConv layer channels k) input (activations channels) (Other "shortconv.conv") 3
    Hi eq_refl Hs) as (b' & Hrun & Ha & Hv & Hm).
  by exists (out p s (activations channels)), b'.
Qed.

Lemma step_emits s kind inputs ty :
  Forall (valid b) inputs ->
  (is_binary kind = true -> exists l r, inputs = [l; r] /\ bv_tensor_type l = bv_tensor_type r) ->
  op_free N L O s = true ->
  runs ((output ← value (output_id (String.append p s)) ty;
         _ ← operation (String.append p s) kind inputs [output] []; mret output) b)
    (after [String.append s ".output"] [(s, kind)] [] (out p s ty)).
Proof using Hfresh Hat.
  intros Hi Hk Hs. destruct (layer_emit p N b0 b L O S Hfresh Hat s kind inputs ty Hi Hk Hs)
    as (b' & Hrun & Ha & Hv & Hm).
  exists (out p s ty), b'. unfold after. by rewrite app_nil_r.
Qed.

Lemma step_unary s kind input ty :
  valid b input -> is_binary kind = false -> op_free N L O s = true ->
  runs (unary (String.append p s) kind input ty [] b)
    (after [String.append s ".output"] [(s, kind)] [] (out p s ty)).
Proof using Hfresh Hat.
  intros Hi Hk. apply (step_emits s kind [input] ty); [by constructor|congruence].
Qed.

Lemma step_attention s q k v spec :
  valid b q -> valid b k -> valid b v -> op_free N L O s = true ->
  runs (attention (String.append p s) q k v spec b)
    (after [String.append s ".output"]
       [(s, OpAttention (db_num_heads spec) (db_num_kv_heads spec) (db_head_dim spec) true)] []
       (out p s (activations (wrap32 (db_num_heads spec * db_head_dim spec))))).
Proof using Hfresh Hat.
  intros Hq Hk Hv. apply (step_emits s _ [q; k; v]); [by repeat constructor|done].
Qed.

Lemma step_binary s kind l r :
  valid b l -> valid b r -> bv_tensor_type l = bv_tensor_type r -> op_free N L O s = true ->
  runs (binary (String.append p s) kind l r b)
    (after [String.append s ".output"] [(s, kind)] [] (out p s (bv_tensor_type l))).
Proof using Hfresh Hat.
  intros Hl Hr Ht Hs. unfold binary. rewrite bool_decide_eq_true_2 by done.
  apply (step_emits s kind [l; r]); [by repeat constructor|by exists l, r|done].
Qed.

Lemma step_cache_write s input layer c :
  valid b input -> mem s N && negb (mem s O.*1) = true ->
  runs (cache_write (String.append p s) input layer c b)
    (fun _ b' => layer_adds p b0 b' L (O ++ [(s, OpKvCacheWrite layer c)]) S /\
                 forall u, valid b u -> valid b' u).
Proof using Hfresh Hat.
  intros Hi Hs. destruct (layer_operation p N b0 b L O S Hfresh Hat s (OpKvCacheWrite layer c)
    [input]) as (b' & Hrun & Ha & Hm); [by constructor|done..|].
  by exists tt, b'.
Qed.

End Steps.

(** ** Sublayers *)

Definition sublayer_post (p : string) (b0 : ModelBuilder) (O : list (string * OperationKind))
    (S : list (string * ParameterRole * Z)) (ty : SemanticTensorType)
    (v : BuilderValue) (b' : ModelBuilder) : Prop :=
  layer_adds p b0 b' (outputs_of O) O S /\ valid b' v /\ bv_tensor_type v = ty.

(** One step of a sublayer: run it, carry the handles over to the new state. *)
Ltac carry Hm := repeat match goal with H : valid _ _ |- _ => apply Hm in H end; clear Hm.
Ltac sub_step lem :=
  eapply runs_bind;
    [ eapply lem; [eassumption|eassumption|..]; first [eassumption | reflexivity | cbn; congruence]
    | let Hm := fresh "Hm" in let A := fresh "A" in let Hv := fresh "Hv" in
      match goal with Hat : layer_adds _ _ _ _ _ _ |- _ =>
        intros ? ? (-> & A & Hv & Hm); clear Hat; carry Hm end ].
Ltac write_step :=
  eapply runs_bind;
    [ eapply step_cache_write; [eassumption|eassumption|eassumption|reflexivity]
    | let Hm := fresh "Hm" in let A := fresh "A" in
      match goal with Hat : layer_adds _ _ _ _ _ _ |- _ =>
        intros ? ? (A & Hm); clear Hat; carry Hm end ].
Ltac last_step lem :=
  eapply runs_impl;
    [ eapply lem; [eassumption|eassumption|..]; first [eassumption | reflexivity | cbn; congruence]
    | let A := fresh "A" in let Hv := fresh "Hv" in
      intros ? ? (-> & A & Hv & _); split; [exact A|split; [exact Hv|cbn; congruence]] ].


(** The two steps of a normalisation or rotation of query and key. *)
Ltac pair_step lem :=
  do 2 (apply runs_assoc; sub_step lem); apply runs_ret_bind; cbv beta iota.
(** From the cache on, all attention sublayers agree. *)
Ltac attention_tail :=
  cbv beta iota; do 2 write_step; do 2 sub_step step_unary; sub_step step_attention;
  sub_step step_linear; last_step step_binary.

Lemma layer_adds_refl p b : building [] b -> layer_adds p b b [] [] [].
Proof. apply adds_refl. Qed.

Lemma feed_forward_run b layer spec input :
  let p := blk layer in
  building [] b -> unused p (names_of (ffn_ops spec) ffn_slots) b -> valid b input ->
  bv_tensor_type input = activations (db_hidden_size spec) ->
  runs (feed_forward_sublayer input layer spec b)
    (sublayer_post p b (ffn_ops spec) ffn_slots (activations (db_hidden_size spec))).
Proof.
  intros p Hb Hfree Hin Hty. pose proof (layer_adds_refl p b Hb) as A.
  unfold feed_forward_sublayer, elementwise_unary. cbv zeta. fold p. clearbody p.
  sub_step step_rms_norm. sub_step step_linear. sub_step step_linear. sub_step step_unary.
  sub_step step_binary. sub_step step_linear.
  last_step step_binary.
Qed.

Lemma short_conv_run b layer spec input :
  let p := blk layer in
  building [] b -> unused p (names_of (short_conv_ops layer spec) short_conv_slots) b ->
  valid b input -> bv_tensor_type input = activations (sb_hidden_size spec) ->
  validate_conv spec = Ok tt ->
  runs (short_conv_sublayer input layer spec b)
    (sublayer_post p b (short_conv_ops layer spec) short_conv_slots
       (activations (sb_hidden_size spec))).
Proof.
  intros p Hb Hfree Hin Hty Hspec. pose proof (layer_adds_refl p b Hb) as A.
  unfold short_conv_sublayer. eapply runs_bind; [apply (runs_lift _ _ _ Hspec)|].
  intros [] ? [_ ->]. cbv zeta. fold p. clearbody p.
  sub_step step_rms_norm. sub_step step_linear. sub_step step_short_conv. sub_step step_linear.
  last_step step_binary.
Qed.

Lemma attention_run b layer qk spec input :
  let p := blk layer in
  building [] b -> unused p (names_of (attention_ops layer qk spec) (attention_slots qk)) b ->
  valid b input -> bv_tensor_type input = activations (db_hidden_size spec) ->
  validate_block spec = Ok tt ->
  runs (attention_sublayer input layer qk spec b)
    (sublayer_post p b (attention_ops layer qk spec) (attention_slots qk)
       (activations (db_hidden_size spec))).
Proof.
  intros p Hb Hfree Hin Hty Hspec. pose proof (layer_adds_refl p b Hb) as A.
  unfold attention_sublayer. eapply runs_bind; [apply (runs_lift _ _ _ Hspec)|].
  intros [] ? [_ ->]. cbv zeta. fold p. clearbody p.
  unfold qk_norm, qk_rope, rope, cache_read. revert Hfree. unfold attention_ops.
  destruct qk, (db_rope_theta spec) as [theta|]; intros Hfree;
    sub_step step_rms_norm; do 3 sub_step step_linear.
  - pair_step step_per_head_rms_norm. pair_step step_unary. attention_tail.
  - pair_step step_per_head_rms_norm. apply runs_ret_bind. attention_tail.
  - apply runs_ret_bind. pair_step step_unary. attention_tail.
  - do 2 apply runs_ret_bind. attention_tail.
Qed.


(** ** Names of layers *)

Lemma decimal_inj m n : is_u32 m -> is_u32 n -> decimal m = decimal n -> m = n.
Proof.
  intros Hm Hn E. apply parse_u32_decimal in Hm, Hn. rewrite E in Hm. congruence.
Qed.

Definition dotted (s : string) : bool := starts_with "." s.

Lemma dotted_spec s : dotted s = true -> exists t, s = String "." t.
Proof.
  unfold dotted, starts_with. destruct s as [|c t]; [done|]. cbn [Prelude.strip_prefix].
  destruct (Ascii.eqb "." c) eqn:E; [|done]. apply Ascii.eqb_eq in E as <-. by exists t.
Qed.

Lemma blk_inj m n s t :
  is_u32 m -> is_u32 n -> dotted s = true -> dotted t = true ->
  String.append (blk m) s = String.append (blk n) t -> m = n.
Proof.
  intros Hm Hn (s' & ->)%dotted_spec (t' & ->)%dotted_spec. unfold blk.
  rewrite !append_assoc. intros E%append_inj.
  pose proof (split_once_digits (decimal m) s' (decimal_digits m)) as Es.
  rewrite E, split_once_digits in Es by apply decimal_digits.
  injection Es as Ed _. by apply decimal_inj.
Qed.

(** No name in the graph belongs to layer [m]. *)
Definition layer_free (m : Z) (b : ModelBuilder) : Prop :=
  forall s, dotted s = true -> String.append (blk m) s ∉ value_names b /\
    String.append (blk m) s ∉ ao_id <$> mb_operations b /\ String.append (blk m) s ∉ slot_names b.

Definition layers_free (k : Z) (b : ModelBuilder) : Prop :=
  forall m, k <= m -> is_u32 m -> layer_free m b.

Lemma layer_free_unused m N b :
  layer_free m b -> forallb dotted N = true -> unused (blk m) N b.
Proof.
  intros H HN s Hs. apply H. rewrite forallb_forall in HN. by apply HN, list_elem_of_In.
Qed.

(** The names of an extension. *)
Lemma layer_adds_names p b b' L O S :
  layer_adds p b b' L O S ->
  value_names b' = value_names b ++ (String.append p <$> L) /\
  ao_id <$> mb_operations b' = (ao_id <$> mb_operations b) ++ (String.append p <$> O.*1) /\
  slot_names b' = slot_names b ++ (String.append p <$> S.*1.*1).
Proof.
  intros [_ Hv Ho Hs _ _ _ _]. split; [done|]. split.
  - rewrite !operation_ids_kinds, Ho, fmap_app. f_equal. rewrite <-!list_fmap_compose.
    by apply list_fmap_ext.
  - unfold slot_names. rewrite Hs, fmap_app. f_equal. rewrite <-!list_fmap_compose.
    by apply list_fmap_ext.
Qed.

Lemma not_elem_other_layer m k s (l : list string) :
  is_u32 m -> is_u32 k -> m <> k -> dotted s = true -> forallb dotted l = true ->
  String.append (blk m) s ∉ String.append (blk k) <$> l.
Proof.
  intros Hm Hk Hne Hs Hl (t & E & Ht)%list_elem_of_fmap. apply Hne.
  apply (blk_inj m k s t); try done. rewrite forallb_forall in Hl. by apply Hl, list_elem_of_In.
Qed.

Lemma layer_adds_free k b b' L O S m :
  layer_adds (blk k) b b' L O S -> is_u32 k -> is_u32 m -> m <> k ->
  forallb dotted (L ++ O.*1 ++ S.*1.*1) = true ->
  layer_free m b -> layer_free m b'.
Proof.
  intros Ha Hk Hm Hne Hd Hfree s Hs. rewrite !forallb_app in Hd.
  apply andb_prop in Hd as [HL [HO HS]%andb_prop].
  destruct (layer_adds_names _ _ _ _ _ _ Ha) as (-> & -> & ->).
  destruct (Hfree s Hs) as (H1 & H2 & H3).
  rewrite !not_elem_of_app. split_and!; auto using not_elem_other_layer.
Qed.

(** A second sublayer of the same layer. *)
Lemma layer_adds_unused p b b' L O S N :
  layer_adds p b b' L O S -> unused p N b ->
  forallb (fun s => negb (mem s L) && negb (mem s O.*1) && negb (mem s S.*1.*1)) N = true ->
  unused p N b'.
Proof.
  intros Ha Hu HN s Hs. destruct (layer_adds_names _ _ _ _ _ _ Ha) as (-> & -> & ->).
  rewrite forallb_forall in HN. specialize (HN s (proj1 (list_elem_of_In _ _) Hs)).
  apply andb_prop in HN as [[H1 H2]%andb_prop H3].
  apply negb_true_iff, mem_false in H1, H2, H3. destruct (Hu s Hs) as (U1 & U2 & U3).
  rewrite !not_elem_of_app. split_and!; auto using not_elem_prefixed.
Qed.

Lemma layer_adds_trans p b1 b2 b3 L O S L' O' S' :
  layer_adds p b1 b2 L O S -> layer_adds p b2 b3 L' O' S' ->
  layer_adds p b1 b3 (L ++ L') (O ++ O') (S ++ S').
Proof. unfold layer_adds. rewrite !fmap_app. apply adds_trans. Qed.

Lemma outputs_of_app O O' : outputs_of (O ++ O') = outputs_of O ++ outputs_of O'.
Proof. unfold outputs_of. by rewrite omap_app. Qed.

(** ** One layer: a first sublayer followed by the feed-forward sublayer *)

Section Layer.
Variables (k hidden : Z) (spec : DecoderBlockSpec)
  (first : BuilderValue -> Build BuilderValue) (O1 : list (string * OperationKind))
  (S1 : list (string * ParameterRole * Z)).
Hypothesis Hk : is_u32 k.
Hypothesis Hhidden : db_hidden_size spec = hidden.
Hypothesis Hfirst : forall b x, building [] b -> unused (blk k) (names_of O1 S1) b -> valid b x ->
  bv_tensor_type x = activations hidden ->
  runs (first x b) (sublayer_post (blk k) b O1 S1 (activations hidden)).
Hypothesis Hdotted : forallb dotted (names_of O1 S1) = true.
Hypothesis Hapart : forallb (fun s => negb (mem s (outputs_of O1)) && negb (mem s O1.*1)
  && negb (mem s S1.*1.*1)) (names_of (ffn_ops spec) ffn_slots) = true.

Lemma ffn_dotted : forallb dotted (names_of (ffn_ops spec) ffn_slots) = true.
Proof. reflexivity. Qed.

Lemma layer_run b x :
  building [] b -> layers_free k b -> valid b x -> bv_tensor_type x = activations hidden ->
  runs ((y ← first x; feed_forward_sublayer y k spec) b) (fun v b' =>
    sublayer_post (blk k) b (O1 ++ ffn_ops spec) (S1 ++ ffn_slots) (activations hidden) v b' /\
    layers_free (k + 1) b').
Proof using Hk Hhidden Hfirst Hdotted Hapart.
  intros Hb Hfree Hx Hty. assert (Hmine : layer_free k b) by (apply Hfree; [lia|done]).
  eapply runs_bind.
  { apply Hfirst; try done. by apply layer_free_unused. }
  intros y b1 (A1 & Hy & Ey). eapply runs_impl.
  { apply feed_forward_run; [apply A1| |done|congruence].
    eapply layer_adds_unused; [exact A1| |exact Hapart].
    apply layer_free_unused; [done|]. apply ffn_dotted. }
  intros v b2 (A2 & Hv & Ev). rewrite Hhidden in Ev.
  pose proof (layer_adds_trans _ _ _ _ _ _ _ _ _ _ A1 A2) as A.
  rewrite <-outputs_of_app in A. split; [done|].
  intros m Hm Hm32. eapply layer_adds_free; [exact A|done|done|lia| |apply Hfree; [lia|done]].
  pose proof ffn_dotted as Hd. unfold names_of in Hd, Hdotted.
  rewrite outputs_of_app, !fmap_app, !forallb_app in *.
  repeat (apply andb_prop in Hd as [? Hd]).
  pose proof Hdotted as He. repeat (apply andb_prop in He as [? He]).
  repeat (apply andb_true_intro; split); done.
Qed.

End Layer.

(** ** A stack of layers *)

(** [for a in l { x = step(x, a)?; }] *)
Fixpoint for_layers {A} (step : BuilderValue -> A -> Build BuilderValue) (x : BuilderValue)
    (l : list A) : Build BuilderValue :=
  match l with
  | [] => mret x
  | a :: l => y ← step x a; for_layers step y l
  end.

Section Stack.
Context {A : Type}.
Variables (index : A -> Z) (step : BuilderValue -> A -> Build BuilderValue)
  (O : A -> list (string * OperationKind)) (S : A -> list (string * ParameterRole * Z))
  (ty : SemanticTensorType).

Definition stack_values (l : list A) : list string :=
  l ≫= fun a => String.append (blk (index a)) <$> outputs_of (O a).
Definition stack_ops (l : list A) : list (string * OperationKind) :=
  l ≫= fun a => prefixed_op (blk (index a)) <$> O a.
Definition stack_slots (l : list A) : list ParameterSlot :=
  l ≫= fun a => prefixed_slot (blk (index a)) <$> S a.

Variable good : A -> Prop.
Hypothesis Hstep : forall a b x, good a -> is_u32 (index a) -> building [] b ->
  layers_free (index a) b -> valid b x -> bv_tensor_type x = ty ->
  runs (step x a b) (fun v b' =>
    sublayer_post (blk (index a)) b (O a) (S a) ty v b' /\ layers_free (index a + 1) b').

Lemma stack_run l k b x :
  Forall good l -> index <$> l = seqZ k (Z.of_nat (length l)) -> 0 <= k ->
  k + Z.of_nat (length l) <= u32_max + 1 ->
  building [] b -> layers_free k b -> valid b x -> bv_tensor_type x = ty ->
  runs (for_layers step x l b) (fun v b' =>
    adds b b' (stack_values l) (stack_ops l) (stack_slots l) /\ valid b' v /\
    bv_tensor_type v = ty).
Proof using Hstep.
  revert k b x. induction l as [|a l IH]; intros k b x Hgood Hidx Hk Hmax Hb Hfree Hx Hty.
  { cbn. apply runs_ret. split; [by apply adds_refl|done]. }
  apply Forall_cons in Hgood as [Ha Hgood]. cbn [length] in *. rewrite Nat2Z.inj_succ in *.
  rewrite seqZ_cons in Hidx by lia. rewrite Z.pred_succ in Hidx.
  cbn [fmap list_fmap] in Hidx. injection Hidx as Hik Hidx.
  cbn [for_layers]. eapply runs_bind.
  { apply (Hstep a b x Ha); [unfold is_u32; rewrite Hik; lia|done|by rewrite Hik|done..]. }
  intros y b1 ((A1 & Hy & Ey) & Hf1). eapply runs_impl.
  { apply (IH (k + 1) b1 y); try done; try lia.
    - apply A1.
    - by rewrite <-Hik. }
  intros v b2 (A2 & Hv & Ev). split; [|done]. exact (adds_trans _ _ _ _ _ _ _ _ _ A1 A2).
Qed.

(** Names outside the layers. *)
Lemma not_elem_stack_values c t l : c <> "b"%char -> String c t ∉ stack_values l.
Proof.
  intros Hc (a & (s & E & _)%list_elem_of_fmap & _)%list_elem_of_bind.
  unfold blk in E. rewrite append_assoc, append_String in E. congruence.
Qed.
Lemma not_elem_stack_ops c t l : c <> "b"%char -> String c t ∉ (stack_ops l).*1.
Proof.
  intros Hc (o & Eo & Hin)%list_elem_of_fmap.
  apply list_elem_of_bind in Hin as (a & (s & E & _)%list_elem_of_fmap & _).
  rewrite E in Eo. cbn in Eo. unfold blk in Eo. rewrite append_assoc, append_String in Eo.
  congruence.
Qed.
Lemma not_elem_stack_slots c t l : c <> "b"%char -> String c t ∉ slot_id <$> stack_slots l.
Proof.
  intros Hc (o & Eo & Hin)%list_elem_of_fmap.
  apply list_elem_of_bind in Hin as (a & (s & E & _)%list_elem_of_fmap & _).
  rewrite E in Eo. cbn in Eo. unfold blk in Eo. rewrite append_assoc, append_String in Eo.
  congruence.
Qed.

End Stack.

(** ** From the builder to the graph *)

(** The state in which a model's [build] starts. *)
Definition start (id : string) : ModelBuilder := set_architecture_id id ModelBuilder_new.

Lemma building_wf b id i o :
  building [] b -> mb_exports b =
    [{| ae_name := "prefill"; ae_mode := Prefill; ae_inputs := [i]; ae_outputs := [o] |};
     {| ae_name := "decode"; ae_mode := Decode; ae_inputs := [i]; ae_outputs := [o] |}] ->
  i ∈ value_names b -> o ∈ value_names b ->
  wf_graph {| ag_version := 1; ag_architecture_id := id; ag_values := mb_values b;
              ag_operations := mb_operations b; ag_parameter_slots := mb_slots b;
              ag_exports := mb_exports b |}.
Proof.
  intros [Hv Ho Hs Hops Hout Hpar Hreq] He Hi Hlo. rewrite app_nil_r in Hpar.
  split; cbn; try done.
  - by rewrite Hout.
  - rewrite Hout. rewrite Forall_forall. intros v Hin. by apply list_elem_of_fmap_2.
  - rewrite Hpar. rewrite Forall_forall. intros s Hin. right. by apply list_elem_of_fmap_2.
  - rewrite He. cbn. apply NoDup_eval. reflexivity.
  - rewrite He. repeat constructor; done.
Qed.
