(* ===== verification/Models.v ===== *)
(** * The built-in architectures: crates/dyninfer-architecture/src/models

    Llama, Qwen3 and LFM2 as instances of the trait [ArchitectureDefinition],
    and the graphs that they build for every configuration. *)
From S2P Require Import Prelude Errors Serde CoreTypes Catalog Names Ir Config Builder Graph.
From S2P Require Import Building Layers.
From Stdlib Require Import ZArith Lia Ascii String.
From stdpp Require Import base list strings gmap.
From stdpp Require Import options.
Import Json.

Local Open Scope Z_scope.

Section Models.
Context {SJ : SerdeJson}.

(** ** The trait *)

Record ArchitectureDefinition := {
  ad_id : string;
  ad_revision : string;
  ad_config_schema : ConfigSchema;
  ad_model_types : list string;
  ad_build : ResolvedModelConfig -> Build ArchitectureGraph;
  ad_canonicalize_param : string -> option string;
  ad_sanitize_catalog : ParameterCatalog -> ParameterCatalog;
}.

(** [serde_json::json!(n)] of an integer, a float or an array of strings. *)
Definition json_int (n : Z) : option Value := Some (value_u64 n).
Definition json_float (bits : Z) : option Value := Some (number_from_f64 (f64_of_bits bits)).
Definition json_strings (l : list string) : option Value :=
  Some (value_array (value_string <$> l)).

(** The bit patterns of the literals [1e-5], [1e-6] and [1_000_000.0]. *)
Definition float_1e_5 : Z := 4532020583610935537.
Definition float_1e_6 : Z := 4517329193108106637.
Definition float_1e6 : Z := 4696837146684686336.

(** [config.values.get("rope_theta").and_then(|value| value.as_f64())] *)
Definition rope_theta (config : ResolvedModelConfig) : option f64 :=
  v ← values config !! "rope_theta"; as_f64 v.

End Models.

(** ** Llama *)

Module Llama.
Section Llama.
Context {SJ : SerdeJson}.

Definition CONFIG_SCHEMA : ConfigSchema := {| fields := [
  field "num_layers" "u32" true (json_int 2);
  field "num_heads" "u32" true (json_int 4);
  field "num_kv_heads" "u32" true (json_int 4);
  field "head_dim" "u32" true (json_int 64);
  field "hidden_size" "u32" true (json_int 256);
  field "intermediate_size" "u32" true (json_int 512);
  field "vocab_size" "u32" true (json_int 32000);
  field "context_length" "u32" true (json_int 2048);
  field "rms_norm_eps" "f64" false (json_float float_1e_5);
  field "rope_theta" "f64" false None;
  field "prefill_window" "u32" false None;
  field "max_kv" "u32" false None] |}.

Definition build (config : ResolvedModelConfig) : Build ArchitectureGraph :=
  num_layers ← lift (num_layers config);
  hidden ← lift (get_u32 config "hidden_size");
  vocab ← lift (get_u32 config "vocab_size");
  intermediate_size ← lift (get_u32 config "intermediate_size");
  num_heads ← lift (get_u32 config "num_heads");
  num_kv_heads ← lift (get_u32 config "num_kv_heads");
  head_dim ← lift (get_u32 config "head_dim");
  rms_norm_epsilon ← lift (get_f64 config "rms_norm_eps");
  let block :=
    {| db_hidden_size := hidden; db_intermediate_size := intermediate_size;
       db_num_heads := num_heads; db_num_kv_heads := num_kv_heads; db_head_dim := head_dim;
       db_rms_norm_epsilon := rms_norm_epsilon; db_rope_theta := rope_theta config |} in
  tokens ← input_tokens "tokens";
  x ← embedding "token_embedding" tokens "token_embd.weight" hidden;
  x ← for_layers (fun x layer => decoder_block x layer false block) x (seqZ 0 num_layers);
  x ← final_rms_norm "output_norm" x "output_norm.weight" (db_rms_norm_epsilon block);
  logits ← output_projection "output_projection" x "output.weight" vocab;
  _ ← export_prefill_and_decode logits;
  finish.

Definition architecture : ArchitectureDefinition :=
  {| ad_id := "llama.decoder"; ad_revision := "0.2.0"; ad_config_schema := CONFIG_SCHEMA;
     ad_model_types := ["llama"; "mistral"; "LlamaForCausalLM"; "MistralForCausalLM"];
     ad_build := build; ad_canonicalize_param := canonicalize_hf_family;
     ad_sanitize_catalog := tie_output_to_embed |}.

End Llama.
End Llama.

(** ** Qwen3 *)

Module Qwen3.
Section Qwen3.
Context {SJ : SerdeJson}.

Definition CONFIG_SCHEMA : ConfigSchema := {| fields := [
  field "num_layers" "u32" true (json_int 28);
  field "num_heads" "u32" true (json_int 16);
  field "num_kv_heads" "u32" true (json_int 8);
  field "head_dim" "u32" true (json_int 128);
  field "hidden_size" "u32" true (json_int 1024);
  field "intermediate_size" "u32" true (json_int 3072);
  field "vocab_size" "u32" true (json_int 151936);
  field "context_length" "u32" true (json_int 40960);
  field "rms_norm_eps" "f64" false (json_float float_1e_6);
  field "rope_theta" "f64" false (json_float float_1e6);
  field "prefill_window" "u32" false None;
  field "max_kv" "u32" false None] |}.

Definition build (config : ResolvedModelConfig) : Build ArchitectureGraph :=
  num_layers ← lift (num_layers config);
  hidden ← lift (get_u32 config "hidden_size");
  vocab ← lift (get_u32 config "vocab_size");
  intermediate_size ← lift (get_u32 config "intermediate_size");
  num_heads ← lift (get_u32 config "num_heads");
  num_kv_heads ← lift (get_u32 config "num_kv_heads");
  head_dim ← lift (get_u32 config "head_dim");
  rms_norm_epsilon ← lift (get_f64 config "rms_norm_eps");
  let block :=
    {| db_hidden_size := hidden; db_intermediate_size := intermediate_size;
       db_num_heads := num_heads; db_num_kv_heads := num_kv_heads; db_head_dim := head_dim;
       db_rms_norm_epsilon := rms_norm_epsilon; db_rope_theta := rope_theta config |} in
  tokens ← input_tokens "tokens";
  x ← embedding "token_embedding" tokens "token_embd.weight" hidden;
  x ← for_layers (fun x layer => decoder_block x layer true block) x (seqZ 0 num_layers);
  x ← final_rms_norm "output_norm" x "output_norm.weight" (db_rms_norm_epsilon block);
  logits ← output_projection "output_projection" x "output.weight" vocab;
  _ ← export_prefill_and_decode logits;
  finish.

Definition architecture : ArchitectureDefinition :=
  {| ad_id := "qwen3.decoder"; ad_revision := "0.1.0"; ad_config_schema := CONFIG_SCHEMA;
     ad_model_types := ["qwen3"; "Qwen3ForCausalLM"];
     ad_build := build; ad_canonicalize_param := canonicalize_hf_family;
     ad_sanitize_catalog := tie_output_to_embed |}.

End Qwen3.
End Qwen3.

(** ** LFM2 *)

Module Lfm2.
Section Lfm2.
Context {SJ : SerdeJson}.

Definition ATTENTION_LAYER : string := "full_attention".
Definition CONV_LAYER : string := "conv".

Definition CONFIG_SCHEMA : ConfigSchema := {| fields := [
  field "num_layers" "u32" true (json_int 3);
  field "num_heads" "u32" true (json_int 4);
  field "num_kv_heads" "u32" true (json_int 2);
  field "head_dim" "u32" true (json_int 64);
  field "hidden_size" "u32" true (json_int 256);
  field "intermediate_size" "u32" true (json_int 512);
  field "vocab_size" "u32" true (json_int 32000);
  field "context_length" "u32" true (json_int 4096);
  field "layer_types" "array<string>" true (json_strings [CONV_LAYER; CONV_LAYER; ATTENTION_LAYER]);
  field "rms_norm_eps" "f64" false (json_float float_1e_5);
  field "rope_theta" "f64" false (json_float float_1e6);
  field "conv_kernel" "u32" false (json_int 3);
  field "conv_dim" "u32" false None;
  field "prefill_window" "u32" false None;
  field "max_kv" "u32" false None] |}.

Inductive LayerKind : Set := Attention | ShortConv.

Definition invalid (message : text) : DynInferError := Errors.Config {| config_message := message |}.

Definition layer_kind (i : nat) (entry : Value) : Result LayerKind :=
  let unsupported actual :=
    Err (invalid (Format "unsupported `layer_types[{index}]` value {other:?}; expected `{ATTENTION_LAYER}` or `{CONV_LAYER}`"
      [AInt (Z.of_nat i); AText actual; AStr ATTENTION_LAYER; AStr CONV_LAYER])) in
  match as_str entry with
  | Some s =>
      if String.eqb s ATTENTION_LAYER then Ok Attention
      else if String.eqb s CONV_LAYER then Ok ShortConv
      else unsupported (Format "Some({:?})" [AStr s])
  | None => unsupported (lit "None")
  end.

(** [entries.iter().enumerate().map(..).collect()], from index [i] on. *)
Fixpoint layer_kinds (i : nat) (entries : list Value) : Result (list LayerKind) :=
  match entries with
  | [] => Ok []
  | e :: entries =>
      k ← layer_kind i e;
      ks ← layer_kinds (S i) entries;
      Ok (k :: ks)
  end.

Definition layer_schedule (config : ResolvedModelConfig) (num_layers : Z)
    : Result (list LayerKind) :=
  entries ← ok_or (v ← values config !! "layer_types"; as_array v)
    (invalid (lit "config field `layer_types` missing or not an array"));
  _ ← ensure (Z.of_nat (length entries) =? num_layers)
        (invalid (Format "`layer_types` has {} entries but `num_layers` is {num_layers}"
           [AInt (Z.of_nat (length entries)); AInt num_layers]));
  layer_kinds 0 entries.

(** [schedule.into_iter().enumerate()] with [layer as u32]. *)
Definition enumerated (schedule : list LayerKind) : list (Z * LayerKind) :=
  imap (fun i kind => (wrap32 (Z.of_nat i), kind)) schedule.

Definition layer_step (block : DecoderBlockSpec) (short_conv : ShortConvBlockSpec)
    (x : BuilderValue) (a : Z * LayerKind) : Build BuilderValue :=
  let '(layer, kind) := a in
  x ← match kind with
      | Attention => attention_sublayer x layer true block
      | ShortConv => short_conv_sublayer x layer short_conv
      end;
  feed_forward_sublayer x layer block.

Definition build (config : ResolvedModelConfig) : Build ArchitectureGraph :=
  num_layers ← lift (num_layers config);
  hidden ← lift (get_u32 config "hidden_size");
  vocab ← lift (get_u32 config "vocab_size");
  rms_norm_epsilon ← lift (get_f64 config "rms_norm_eps");
  schedule ← lift (layer_schedule config num_layers);
  intermediate_size ← lift (get_u32 config "intermediate_size");
  num_heads ← lift (get_u32 config "num_heads");
  num_kv_heads ← lift (get_u32 config "num_kv_heads");
  head_dim ← lift (get_u32 config "head_dim");
  let block :=
    {| db_hidden_size := hidden; db_intermediate_size := intermediate_size;
       db_num_heads := num_heads; db_num_kv_heads := num_kv_heads; db_head_dim := head_dim;
       db_rms_norm_epsilon := rms_norm_epsilon; db_rope_theta := rope_theta config |} in
  conv_kernel ← lift (get_u32 config "conv_kernel");
  let short_conv :=
    {| sb_hidden_size := hidden;
       sb_channels := match get_u32 config "conv_dim" with Ok n => n | _ => hidden end;
       sb_kernel_size := conv_kernel; sb_rms_norm_epsilon := rms_norm_epsilon |} in
  tokens ← input_tokens "tokens";
  x ← embedding "token_embedding" tokens "token_embd.weight" hidden;
  x ← for_layers (layer_step block short_conv) x (enumerated schedule);
  x ← final_rms_norm "output_norm" x "output_norm.weight" rms_norm_epsilon;
  logits ← output_projection "output_projection" x "output.weight" vocab;
  _ ← export_prefill_and_decode logits;
  finish.

Definition architecture : ArchitectureDefinition :=
  {| ad_id := "lfm2.hybrid"; ad_revision := "0.1.0"; ad_config_schema := CONFIG_SCHEMA;
     ad_model_types := ["lfm2"; "Lfm2ForCausalLM"];
     ad_build := build; ad_canonicalize_param := canonicalize_lfm2;
     ad_sanitize_catalog := tie_output_to_embed |}.

End Lfm2.
End Lfm2.
