(* ===== verification/ModelGraphs.v ===== *)
(** * The graphs of the built-in architectures

    For every configuration the models build a well-formed graph, and its
    operations and parameter slots are the documented ones. *)
From S2P Require Import Prelude Errors Serde CoreTypes Catalog Names Ir Config Builder Graph.
From S2P Require Import Building Layers Models.
From Stdlib Require Import ZArith Lia Ascii String.
From stdpp Require Import base list strings gmap.
From stdpp Require Import options.
Import Json.

Local Open Scope Z_scope.

(** ** The frame around the layers *)

Definition frame (hidden vocab : Z) (eps : f64) (stack : BuilderValue -> Build BuilderValue)
    : Build ArchitectureGraph :=
  tokens ← input_tokens "tokens";
  x ← embedding "token_embedding" tokens "token_embd.weight" hidden;
  x ← stack x;
  x ← final_rms_norm "output_norm" x "output_norm.weight" eps;
  logits ← output_projection "output_projection" x "output.weight" vocab;
  _ ← export_prefill_and_decode logits;
  finish.

(** The two exports. *)
Definition the_exports (i o : string) : list ArchitectureExport :=
  (fun '(name, mode) => {| ae_name := name; ae_mode := mode; ae_inputs := [i]; ae_outputs := [o] |})
    <$> [("prefill", Prefill); ("decode", Decode)].

(** A graph with the given layers between embedding and output. *)
Record decoder_graph (id : string) (eps : f64) (O : list (string * OperationKind))
    (S : list ParameterSlot) (g : ArchitectureGraph) : Prop := {
  dg_wf : wf_graph g;
  dg_id : ag_architecture_id g = id;
  dg_operations : (fun o => (ao_id o, ao_kind o)) <$> ag_operations g =
    [("input.tokens", OpInput Tokens); ("token_embedding", OpEmbedding)] ++ O ++
    [("output_norm", OpRmsNorm eps); ("output_projection", OpOutputProjection)];
  dg_slots : ag_parameter_slots g =
    [required_slot "token_embd.weight" Embedding 2] ++ S ++
    [required_slot "output_norm.weight" Norm 1; required_slot "output.weight" Output 2];
  dg_exports : ag_exports g = the_exports "tokens" "output_projection.output";
}.

(** The state after the token input. *)
Definition with_tokens (id : string) : ModelBuilder :=
  {| mb_architecture_id := Some id; mb_slots := [];
     mb_values := [{| gv_id := "tokens"; gv_tensor_type := tokens_type |}];
     mb_operations := [{| ao_id := "input.tokens"; ao_kind := OpInput Tokens; ao_inputs := [];
                          ao_outputs := ["tokens"]; ao_parameters := [] |}];
     mb_exports := []; mb_primary_input := Some "tokens" |}.

Lemma with_tokens_building id : building [] (with_tokens id).
Proof.
  split; cbn; try done; try apply NoDup_singleton; try constructor.
  - split_and!; cbn; [constructor|apply Forall_singleton; left|constructor|done].
  - constructor.
Qed.

(** Names that do not start like a layer's are free next to a stack. *)
Definition outside (V : list string) (O : list (string * OperationKind)) (S : list ParameterSlot)
    : Prop := forall c t, c <> "b"%char -> String c t ∉ V /\ String c t ∉ O.*1 /\
                          String c t ∉ slot_id <$> S.

Lemma blk_not_elem m s (l : list string) :
  forallb (fun x => negb (starts_with "b" x)) l = true -> String.append (blk m) s ∉ l.
Proof.
  intros Hl Hin. rewrite forallb_forall in Hl. apply list_elem_of_In, Hl in Hin.
  unfold blk in Hin. rewrite append_assoc, append_String in Hin. done.
Qed.

Lemma operation_ids_adds b b' V O S :
  adds b b' V O S -> ao_id <$> mb_operations b' = (ao_id <$> mb_operations b) ++ O.*1.
Proof. intros [_ _ Ho _ _ _ _ _]. by rewrite !operation_ids_kinds, Ho, fmap_app. Qed.

Lemma slot_names_adds b b' V O S :
  adds b b' V O S -> slot_names b' = slot_names b ++ (slot_id <$> S).
Proof. intros [_ _ _ Hs _ _ _ _]. unfold slot_names. by rewrite Hs, fmap_app. Qed.

(** A weighted operation at the top level, next to a stack of layers. *)
Lemma frame_step b0 b V O S id w kind input ty role rank :
  adds b0 b V O S -> valid b input -> is_binary kind = false ->
  id ∉ ao_id <$> mb_operations b0 -> output_id id ∉ value_names b0 -> w ∉ slot_names b0 ->
  output_id id ∉ V /\ id ∉ O.*1 /\ w ∉ slot_id <$> S ->
  let v := {| bv_id := output_id id; bv_tensor_type := ty |} in
  exists b', (slot ← push_slot w role rank; unary id kind input ty [slot]) b = Ok (v, b') /\
    adds b b' [output_id id] [(id, kind)] [required_slot w role rank] /\ valid b' v.
Proof.
  intros Ha Hi Hk Ho Hv Hw (HV & HO & HS). apply step_weighted; try done; [apply Ha|..].
  - by rewrite (operation_ids_adds _ _ _ _ _ Ha), not_elem_of_app.
  - by rewrite (ad_values _ _ _ _ _ Ha), not_elem_of_app.
  - by rewrite (slot_names_adds _ _ _ _ _ Ha), not_elem_of_app.
Qed.

Lemma input_tokens_run id :
  input_tokens "tokens" (start id) =
  Ok ({| bv_id := "tokens"; bv_tensor_type := tokens_type |}, with_tokens id).
Proof. reflexivity. Qed.

(** Absence from a list of literals. *)
Ltac absent := apply (bool_decide_unpack _); vm_compute; exact I.

(** Exporting the logits and finishing. *)

Lemma export_run b i v :
  mb_primary_input b = Some i -> mb_exports b = [] ->
  export_prefill_and_decode v b = Ok (tt, with_exports (the_exports i (bv_id v)) b).
Proof. intros Hi He. unfold export_prefill_and_decode. by rewrite Hi, He. Qed.

Lemma finish_Ok b id :
  mb_architecture_id b = Some id ->
  let g := {| ag_version := 1; ag_architecture_id := id; ag_values := mb_values b;
              ag_operations := mb_operations b; ag_parameter_slots := mb_slots b;
              ag_exports := mb_exports b |} in
  wf_graph g -> has_export g "prefill" Prefill = true -> has_export g "decode" Decode = true ->
  runs (finish b) (fun g' _ => g' = g).
Proof.
  intros Hid g Hg Hp Hd. unfold finish. rewrite Hid. cbn [ok_or mbind result_mbind]. fold g.
  unfold verify_architecture_conformance. apply (wf_graph_verify g tt) in Hg. rewrite Hg.
  cbn [mbind result_mbind try_for_each]. rewrite Hp, Hd. by eexists _, _.
Qed.

Lemma finish_run id eps b v V O S :
  adds (with_tokens id) b ([output_id "token_embedding"] ++ (V ++ [output_id "output_norm"]) ++
      [output_id "output_projection"])
    ([("token_embedding", OpEmbedding)] ++ (O ++ [("output_norm", OpRmsNorm eps)]) ++
      [("output_projection", OpOutputProjection)])
    ([required_slot "token_embd.weight" Embedding 2] ++
      (S ++ [required_slot "output_norm.weight" Norm 1]) ++ [required_slot "output.weight" Output 2]) ->
  bv_id v = output_id "output_projection" -> valid b v ->
  runs ((_ ← export_prefill_and_decode v; finish) b) (fun g _ => decoder_graph id eps O S g).
Proof.
  intros [Hb Hv Ho Hs _ Hid He Hi] Ev Hval.
  rewrite (run_bind _ _ _ _ _ (export_run b "tokens" v Hi He)). rewrite Ev.
  set (b' := with_exports _ b). assert (Hwf : wf_graph
    {| ag_version := 1; ag_architecture_id := id; ag_values := mb_values b';
       ag_operations := mb_operations b'; ag_parameter_slots := mb_slots b';
       ag_exports := mb_exports b' |}).
  { apply (building_wf b' id "tokens" (output_id "output_projection")); try done.
    - by destruct Hb.
    - change (value_names b') with (value_names b). rewrite Hv. left.
    - change (value_names b') with (value_names b). rewrite <-Ev. by apply valid_elem. }
  eapply runs_impl; [apply (finish_Ok _ id); [exact Hid|exact Hwf|reflexivity..]|].
  intros g _ ->. split; cbn; try done.
  - change ((fun o => (ao_id o, ao_kind o)) <$> mb_operations b) with (operation_kinds b).
    rewrite Ho. cbn. by rewrite <-app_assoc.
  - rewrite Hs. cbn. by rewrite <-app_assoc.
Qed.

Lemma frame_run id hidden vocab eps stack V O S :
  (forall b x, building [] b -> layers_free 0 b -> valid b x ->
     bv_tensor_type x = activations hidden ->
     runs (stack x b) (fun v b' => adds b b' V O S /\ valid b' v /\
                                   bv_tensor_type v = activations hidden)) ->
  outside V O S ->
  runs (frame hidden vocab eps stack (start id)) (fun g _ => decoder_graph id eps O S g).
Proof.
  intros Hstack Hout. unfold frame. rewrite (run_bind _ _ _ _ _ (input_tokens_run id)).
  (* embedding *)
  destruct (step_weighted (with_tokens id) "token_embedding" OpEmbedding
    {| bv_id := "tokens"; bv_tensor_type := tokens_type |} (activations hidden)
    "token_embd.weight" Embedding 2) as (b2 & Hrun & A2 & Hv2);
    [apply with_tokens_building|reflexivity|reflexivity|absent..|].
  unfold embedding at 1. rewrite (run_bind _ _ _ _ _ Hrun).
  (* layers *)
  eapply runs_bind.
  { apply (Hstack b2 _); [apply A2| |exact Hv2|done].
    intros m _ _ s _. rewrite (ad_values _ _ _ _ _ A2), (operation_ids_adds _ _ _ _ _ A2),
      (slot_names_adds _ _ _ _ _ A2). split_and!; by apply blk_not_elem. }
  intros x b3 (A3 & Hx & Ex).
  (* final norm *)
  destruct (frame_step b2 b3 V O S "output_norm" "output_norm.weight" (OpRmsNorm eps) x
    (bv_tensor_type x) Norm 1 A3) as (b4 & Hrun4 & A4 & Hv4); try done.
  { rewrite (operation_ids_adds _ _ _ _ _ A2). absent. }
  { rewrite (ad_values _ _ _ _ _ A2). absent. }
  { rewrite (slot_names_adds _ _ _ _ _ A2). absent. }
  { split_and!; by apply Hout. }
  unfold final_rms_norm, rms_norm. rewrite (run_bind _ _ _ _ _ Hrun4).
  pose proof (adds_trans _ _ _ _ _ _ _ _ _ A3 A4) as A34.
  (* output projection *)
  destruct (frame_step b2 b4 _ _ _ "output_projection" "output.weight" OpOutputProjection
    {| bv_id := output_id "output_norm"; bv_tensor_type := bv_tensor_type x |}
    (activations vocab) Output 2 A34) as (b5 & Hrun5 & A5 & Hv5); try done.
  { rewrite (operation_ids_adds _ _ _ _ _ A2). absent. }
  { rewrite (ad_values _ _ _ _ _ A2). absent. }
  { rewrite (slot_names_adds _ _ _ _ _ A2). absent. }
  { rewrite !fmap_app, !not_elem_of_app. split_and!; try absent; by apply Hout. }
  unfold output_projection. rewrite (run_bind _ _ _ _ _ Hrun5).
  (* exports and checks *)
  pose proof (adds_trans _ _ _ _ _ _ _ _ _ A2 (adds_trans _ _ _ _ _ _ _ _ _ A34 A5)) as A.
  by apply (finish_run _ _ _ _ _ _ _ A).
Qed.

Lemma stack_outside {A} (index : A -> Z) O S l :
  outside (stack_values index O l) (stack_ops index O l) (stack_slots index S l).
Proof.
  intros c t Hc. split_and!;
    [by apply not_elem_stack_values|by apply not_elem_stack_ops|by apply not_elem_stack_slots].
Qed.

(** ** Reading the configuration *)

Section Builds.
Context {SJ : SerdeJson}.

Lemma get_u32_range config key n : get_u32 config key = Ok n -> is_u32 n.
Proof.
  unfold get_u32. intros H%ok_or_Ok. apply bind_Some in H as (v & _ & H).
  apply bind_Some in H as (m & _ & [= <-]). unfold is_u32, wrap32, u32_max.
  pose proof (Z.mod_pos_bound m (2 ^ 32)). lia.
Qed.

Lemma num_layers_range config n : num_layers config = Ok n -> is_u32 n.
Proof.
  unfold num_layers, or_else_err. intros H.
  destruct (get_u32 config "num_layers") as [a|e|] eqn:E1; cbn in H;
    [by apply (get_u32_range config "num_layers"); congruence| |done].
  destruct (get_u32 config "n_layer") as [a|e'|] eqn:E2;
    [by apply (get_u32_range config "n_layer"); congruence| |done].
  by apply (get_u32_range config "block_count").
Qed.

(** The fields that the decoders read. *)
Record decoder_config (config : ResolvedModelConfig) (n vocab : Z) (spec : DecoderBlockSpec)
    : Prop := {
  dc_layers : num_layers config = Ok n;
  dc_hidden : get_u32 config "hidden_size" = Ok (db_hidden_size spec);
  dc_vocab : get_u32 config "vocab_size" = Ok vocab;
  dc_intermediate : get_u32 config "intermediate_size" = Ok (db_intermediate_size spec);
  dc_heads : get_u32 config "num_heads" = Ok (db_num_heads spec);
  dc_kv_heads : get_u32 config "num_kv_heads" = Ok (db_num_kv_heads spec);
  dc_head_dim : get_u32 config "head_dim" = Ok (db_head_dim spec);
  dc_eps : get_f64 config "rms_norm_eps" = Ok (db_rms_norm_epsilon spec);
  dc_theta : rope_theta config = db_rope_theta spec;
}.

Lemma lift_bind {A B} (r : Result A) (k : A -> Build B) b a :
  r = Ok a -> (lift r ≫= k) b = k a b.
Proof. intros ->. done. Qed.

(** The layers of Llama ([qk] false) and Qwen3 ([qk] true). *)
Definition decoder_ops (qk : bool) (spec : DecoderBlockSpec) (layer : Z)
    : list (string * OperationKind) := attention_ops layer qk spec ++ ffn_ops spec.
Definition decoder_slots (qk : bool) (layer : Z) : list (string * ParameterRole * Z) :=
  attention_slots qk ++ ffn_slots.

Lemma decoder_stack_run qk spec n b x :
  is_u32 n -> n = 0 \/ validate_block spec = Ok tt ->
  building [] b -> layers_free 0 b -> valid b x ->
  bv_tensor_type x = activations (db_hidden_size spec) ->
  runs (for_layers (fun x layer => decoder_block x layer qk spec) x (seqZ 0 n) b) (fun v b' =>
    adds b b' (stack_values id (decoder_ops qk spec) (seqZ 0 n))
      (stack_ops id (decoder_ops qk spec) (seqZ 0 n))
      (stack_slots id (decoder_slots qk) (seqZ 0 n)) /\ valid b' v /\
    bv_tensor_type v = activations (db_hidden_size spec)).
Proof.
  intros Hn Hok Hb Hfree Hx Hty. destruct Hok as [->|Hok].
  { cbn. apply runs_ret. split; [by apply adds_refl|done]. }
  unfold is_u32 in Hn.
  apply (stack_run id _ _ _ (activations (db_hidden_size spec)) (fun _ => True)) with (k := 0);
    try done.
  - intros k b1 y _ Hk Hb1 Hf1 Hy Ety. unfold decoder_ops, decoder_slots, id in *.
    apply (layer_run k (db_hidden_size spec) spec (fun x => attention_sublayer x k qk spec)
      (attention_ops k qk spec) (attention_slots qk)); try done.
    + intros b2 z ? ? ? ?. by apply attention_run.
    + unfold attention_ops. by destruct qk, (db_rope_theta spec).
    + unfold attention_ops. by destruct qk, (db_rope_theta spec).
  - by apply Forall_true.
  - rewrite list_fmap_id, length_seqZ. f_equal. lia.
  - rewrite length_seqZ. lia.
Qed.

(** What a decoder's [build] answers: the graph, or the error of the first
    layer's validation. *)
Definition builds (r : Result (ArchitectureGraph * ModelBuilder)) (id : string) (qk : bool)
    (n : Z) (spec : DecoderBlockSpec) : Prop :=
  (n = 0 \/ validate_block spec = Ok tt ->
   runs r (fun g _ => decoder_graph id (db_rms_norm_epsilon spec)
     (stack_ops Datatypes.id (decoder_ops qk spec) (seqZ 0 n))
     (stack_slots Datatypes.id (decoder_slots qk) (seqZ 0 n)) g)) /\
  (forall e, n <> 0 -> validate_block spec = Err e -> r = Err e).

Lemma frame_builds id qk n vocab spec :
  is_u32 n ->
  builds (frame (db_hidden_size spec) vocab (db_rms_norm_epsilon spec)
    (fun x => for_layers (fun x layer => decoder_block x layer qk spec) x (seqZ 0 n)) (start id))
    id qk n spec.
Proof.
  intros Hn. split.
  - intros Hok. eapply frame_run; [|by apply stack_outside].
    intros b x Hb Hf Hx Hty. by apply decoder_stack_run.
  - intros e Hne He. unfold frame. rewrite (run_bind _ _ _ _ _ (input_tokens_run id)).
    destruct (step_weighted (with_tokens id) "token_embedding" OpEmbedding
      {| bv_id := "tokens"; bv_tensor_type := tokens_type |} (activations (db_hidden_size spec))
      "token_embd.weight" Embedding 2) as (b2 & Hrun & _ & _);
      [apply with_tokens_building|reflexivity|reflexivity|absent..|].
    unfold embedding at 1. rewrite (run_bind _ _ _ _ _ Hrun). apply run_bind_Err.
    rewrite seqZ_cons by (unfold is_u32 in Hn; lia). cbn [for_layers].
    apply run_bind_Err. unfold decoder_block. apply run_bind_Err. unfold attention_sublayer.
    apply run_bind_Err. unfold lift. by rewrite He.
Qed.

(** C24: Llama and Qwen3 build for every configuration and every number of
    layers: when the block dimensions are valid the result is a well-formed
    graph with the exports of the runtime, whose operations and slots are,
    in order, the embedding, one attention and one feed-forward sublayer per
    layer (with per-head norms for Qwen3 only) and the output; otherwise the
    build fails with the validation error. *)
Theorem decoder_models_build config n vocab spec :
  decoder_config config n vocab spec ->
  builds (ad_build Llama.architecture config (start "llama.decoder")) "llama.decoder" false n spec /\
  builds (ad_build Qwen3.architecture config (start "qwen3.decoder")) "qwen3.decoder" true n spec.
Proof.
  intros H. pose proof (num_layers_range _ _ (dc_layers _ _ _ _ H)) as Hn.
  destruct H as [H1 H2 H3 H4 H5 H6 H7 H8 H9].
  destruct spec as [hidden inter heads kv dim eps theta]. cbn in *.
  split; unfold Llama.build, Qwen3.build; rewrite (lift_bind _ _ _ _ H1), (lift_bind _ _ _ _ H2),
    (lift_bind _ _ _ _ H3), (lift_bind _ _ _ _ H4), (lift_bind _ _ _ _ H5),
    (lift_bind _ _ _ _ H6), (lift_bind _ _ _ _ H7), (lift_bind _ _ _ _ H8), H9;
    by apply (frame_builds _ _ n vocab (Build_DecoderBlockSpec hidden inter heads kv dim eps theta)).
Qed.

(** ** LFM2 *)

Section Schedule.
Variables (spec : DecoderBlockSpec) (conv : ShortConvBlockSpec).

(** The operator sublayer follows the kind of the layer. *)
Definition hybrid_ops (a : Z * Lfm2.LayerKind) : list (string * OperationKind) :=
  match a.2 with
  | Lfm2.Attention => attention_ops a.1 true spec
  | Lfm2.ShortConv => short_conv_ops a.1 conv
  end ++ ffn_ops spec.
Definition hybrid_slots (a : Z * Lfm2.LayerKind) : list (string * ParameterRole * Z) :=
  match a.2 with Lfm2.Attention => attention_slots true | Lfm2.ShortConv => short_conv_slots end
  ++ ffn_slots.

(** The dimensions that the layer needs are valid. *)
Definition kind_ok (a : Z * Lfm2.LayerKind) : Prop :=
  match a.2 with
  | Lfm2.Attention => validate_block spec = Ok tt
  | Lfm2.ShortConv => validate_conv conv = Ok tt
  end.

Lemma hybrid_stack_run schedule b x :
  Forall kind_ok (Lfm2.enumerated schedule) -> Z.of_nat (length schedule) <= u32_max ->
  sb_hidden_size conv = db_hidden_size spec ->
  building [] b -> layers_free 0 b -> valid b x ->
  bv_tensor_type x = activations (db_hidden_size spec) ->
  runs (for_layers (Lfm2.layer_step spec conv) x (Lfm2.enumerated schedule) b) (fun v b' =>
    adds b b' (stack_values fst hybrid_ops (Lfm2.enumerated schedule))
      (stack_ops fst hybrid_ops (Lfm2.enumerated schedule))
      (stack_slots fst hybrid_slots (Lfm2.enumerated schedule)) /\ valid b' v /\
    bv_tensor_type v = activations (db_hidden_size spec)).
Proof.
  intros Hok Hlen Hconv Hb Hfree Hx Hty.
  apply (stack_run fst _ _ _ (activations (db_hidden_size spec)) kind_ok) with (k := 0); try done.
  - intros [k kind] b1 y Hgood Hk Hb1 Hf1 Hy Ety. unfold hybrid_ops, hybrid_slots.
    unfold kind_ok in Hgood. cbn [fst snd] in *. destruct kind; unfold Lfm2.layer_step.
    + apply (layer_run k (db_hidden_size spec) spec (fun x => attention_sublayer x k true spec)
        (attention_ops k true spec) (attention_slots true)); try done.
      * intros b2 z ? ? ? ?. by apply attention_run.
      * unfold attention_ops. by destruct (db_rope_theta spec).
      * unfold attention_ops. by destruct (db_rope_theta spec).
    + apply (layer_run k (db_hidden_size spec) spec (fun x => short_conv_sublayer x k conv)
        (short_conv_ops k conv) short_conv_slots); try done.
      intros b2 z ? ? ? ?. rewrite <-Hconv. apply short_conv_run; try done. congruence.
  - unfold Lfm2.enumerated. rewrite length_imap. apply list_eq. intros i.
    rewrite list_lookup_fmap, list_lookup_imap.
    destruct (schedule !! i) as [kind|] eqn:E; cbn.
    + apply lookup_lt_Some in E. rewrite lookup_seqZ_lt by lia. f_equal.
      unfold wrap32. rewrite Z.mod_small; [lia|]. unfold u32_max in Hlen. lia.
    + apply lookup_ge_None in E. rewrite lookup_seqZ_ge by lia. done.
  - unfold Lfm2.enumerated. rewrite length_imap. lia.
Qed.

End Schedule.

Definition kind_name (k : Lfm2.LayerKind) : string :=
  match k with Lfm2.Attention => Lfm2.ATTENTION_LAYER | Lfm2.ShortConv => Lfm2.CONV_LAYER end.

Lemma layer_kinds_Ok i entries ks :
  Lfm2.layer_kinds i entries = Ok ks -> as_str <$> entries = (fun k => Some (kind_name k)) <$> ks.
Proof.
  revert i ks. induction entries as [|e entries IH]; intros i ks H; cbn in *; ok_inv; [done|].
  cbn. f_equal; [|by eapply IH]. unfold Lfm2.layer_kind in Hv.
  destruct (as_str e) as [entry|]; [|done].
  destruct (String.eqb entry Lfm2.ATTENTION_LAYER) eqn:Ea;
    [apply String.eqb_eq in Ea; injection Hv as <-; by rewrite Ea|].
  destruct (String.eqb entry Lfm2.CONV_LAYER) eqn:Ec; [|done].
  apply String.eqb_eq in Ec. injection Hv as <-. by rewrite Ec.
Qed.

Lemma layer_schedule_Ok config n ks :
  Lfm2.layer_schedule config n = Ok ks ->
  Z.of_nat (length ks) = n /\
  exists entries, (v ← values config !! "layer_types"; as_array v) = Some entries /\
    as_str <$> entries = (fun k => Some (kind_name k)) <$> ks.
Proof.
  unfold Lfm2.layer_schedule. intros H. ok_inv. apply Z.eqb_eq in Hv0 as <-.
  apply layer_kinds_Ok in H. split; [|by exists v].
  apply (f_equal length) in H. rewrite !length_fmap in H. by rewrite H.
Qed.

(** The short-convolution attributes that LFM2's [build] derives. *)
Definition conv_spec (config : ResolvedModelConfig) (spec : DecoderBlockSpec) (kernel : Z)
    : ShortConvBlockSpec :=
  {| sb_hidden_size := db_hidden_size spec;
     sb_channels := match get_u32 config "conv_dim" with Ok n => n | _ => db_hidden_size spec end;
     sb_kernel_size := kernel; sb_rms_norm_epsilon := db_rms_norm_epsilon spec |}.

(** LFM2 builds for every configuration whose schedule has one entry per
    layer: the graph is well-formed, and layer [i] has an attention sublayer
    exactly where [layer_types] says [full_attention] and a short convolution
    exactly where it says [conv], each followed by the feed-forward sublayer. *)
Theorem lfm2_follows_schedule config n vocab spec kernel schedule :
  decoder_config config n vocab spec ->
  get_u32 config "conv_kernel" = Ok kernel ->
  Lfm2.layer_schedule config n = Ok schedule ->
  Forall (kind_ok spec (conv_spec config spec kernel)) (Lfm2.enumerated schedule) ->
  Z.of_nat (length schedule) = n /\
  (exists entries, (v ← values config !! "layer_types"; as_array v) = Some entries /\
     as_str <$> entries = (fun k => Some (kind_name k)) <$> schedule) /\
  runs (ad_build Lfm2.architecture config (start "lfm2.hybrid")) (fun g _ =>
    decoder_graph "lfm2.hybrid" (db_rms_norm_epsilon spec)
      (stack_ops fst (hybrid_ops spec (conv_spec config spec kernel)) (Lfm2.enumerated schedule))
      (stack_slots fst hybrid_slots (Lfm2.enumerated schedule)) g).
Proof.
  intros H Hkernel Hsched Hok. pose proof (layer_schedule_Ok _ _ _ Hsched) as [Hlen Hent].
  split; [done|]. split; [done|].
  pose proof (num_layers_range _ _ (dc_layers _ _ _ _ H)) as Hn. unfold is_u32 in Hn.
  destruct H as [H1 H2 H3 H4 H5 H6 H7 H8 H9].
  destruct spec as [hidden inter heads kv dim eps theta]. cbn in *. unfold Lfm2.build.
  rewrite (lift_bind _ _ _ _ H1), (lift_bind _ _ _ _ H2), (lift_bind _ _ _ _ H3),
    (lift_bind _ _ _ _ H8), (lift_bind _ _ _ _ Hsched), (lift_bind _ _ _ _ H4),
    (lift_bind _ _ _ _ H5), (lift_bind _ _ _ _ H6), (lift_bind _ _ _ _ H7), H9,
    (lift_bind _ _ _ _ Hkernel).
  eapply (frame_run "lfm2.hybrid" hidden vocab eps (fun x =>
    for_layers (Lfm2.layer_step _ _) x (Lfm2.enumerated schedule))); [|by apply stack_outside].
  intros b x Hb Hf Hx Hty. by apply hybrid_stack_run; [|lia|..].
Qed.

End Builds.

(** ** Witnesses *)

Module ModelSample.

Definition spec : DecoderBlockSpec :=
  {| db_hidden_size := 256; db_intermediate_size := 512; db_num_heads := 4;
     db_num_kv_heads := 4; db_head_dim := 64;
     db_rms_norm_epsilon := f64_of_bits float_1e_5; db_rope_theta := None |}.

Definition llama_config : ResolvedModelConfig :=
  match resolve Llama.CONFIG_SCHEMA ∅ ∅ ∅ with Ok c => c | _ => {| values := ∅ |} end.

Lemma llama_config_ok : decoder_config llama_config 2 32000 spec.
Proof. split; by_vm. Qed.

Definition lfm2_config : ResolvedModelConfig :=
  match resolve Lfm2.CONFIG_SCHEMA ∅ ∅ ∅ with Ok c => c | _ => {| values := ∅ |} end.
Definition lfm2_spec : DecoderBlockSpec :=
  {| db_hidden_size := 256; db_intermediate_size := 512; db_num_heads := 4;
     db_num_kv_heads := 2; db_head_dim := 64;
     db_rms_norm_epsilon := f64_of_bits float_1e_5;
     db_rope_theta := Some (f64_of_bits float_1e6) |}.
Definition lfm2_schedule : list Lfm2.LayerKind := [Lfm2.ShortConv; Lfm2.ShortConv; Lfm2.Attention].

Lemma lfm2_config_ok : decoder_config lfm2_config 3 32000 lfm2_spec.
Proof. split; by_vm. Qed.

End ModelSample.

Lemma decoder_models_build_witness :
  decoder_config ModelSample.llama_config 2 32000 ModelSample.spec /\
  validate_block ModelSample.spec = Ok tt /\
  exists g b, ad_build Llama.architecture ModelSample.llama_config (start "llama.decoder")
    = Ok (g, b) /\ wf_graph g.
Proof.
  split; [exact ModelSample.llama_config_ok|]. split; [reflexivity|].
  destruct (decoder_models_build ModelSample.llama_config 2 32000 ModelSample.spec
    ModelSample.llama_config_ok) as [[H _] _].
  destruct H as (g & b & Hrun & Hg); [right; reflexivity|].
  exists g, b. split; [exact Hrun|apply Hg].
Defined.

Lemma lfm2_follows_schedule_witness :
  Lfm2.layer_schedule ModelSample.lfm2_config 3 = Ok ModelSample.lfm2_schedule /\
  exists g b, ad_build Lfm2.architecture ModelSample.lfm2_config (start "lfm2.hybrid")
    = Ok (g, b) /\ wf_graph g.
Proof.
  assert (H : Lfm2.layer_schedule ModelSample.lfm2_config 3 = Ok ModelSample.lfm2_schedule) by by_vm.
  split; [exact H|].
  assert (Hk : get_u32 ModelSample.lfm2_config "conv_kernel" = Ok 3) by by_vm.
  assert (Hok : Forall (kind_ok ModelSample.lfm2_spec
    (conv_spec ModelSample.lfm2_config ModelSample.lfm2_spec 3))
    (Lfm2.enumerated ModelSample.lfm2_schedule)).
  { repeat constructor; by_vm. }
  destruct (lfm2_follows_schedule ModelSample.lfm2_config 3 32000 ModelSample.lfm2_spec 3
    ModelSample.lfm2_schedule ModelSample.lfm2_config_ok Hk H Hok) as (_ & _ & g & b & Hrun & Hg).
  exists g, b. split; [exact Hrun|apply Hg].
Defined.
