(* ===== verification/ModelNames.v ===== *)
(** * The weights of the built-in architectures

    Every slot that a model declares can be filled from a Hugging Face
    checkpoint: some key maps to its name, and the role inferred from the
    name is the slot's. *)
From S2P Require Import Prelude Errors Serde CoreTypes Catalog Names Ir Config Binding Builder.
From S2P Require Import Graph Building Layers Models ModelGraphs.
From Stdlib Require Import ZArith Lia Ascii String.
From stdpp Require Import base list strings gmap.
From stdpp Require Import options.

Import Json.

Local Open Scope Z_scope.

(** ** Roles inferred from block names *)

Lemma str_map_append f a b :
  str_map f (String.append a b) = String.append (str_map f a) (str_map f b).
Proof. induction a as [|c a IH]; [done|]. rewrite !append_String. cbn [str_map]. by rewrite append_String, IH. Qed.

Lemma lower_digit c x : digit_value c = Some x -> ascii_lower c = c.
Proof. destruct c as [[] [] [] [] [] [] [] []]; vm_compute; congruence. Qed.

Lemma lower_digits d : all_digits d = true -> to_ascii_lowercase d = d.
Proof.
  unfold to_ascii_lowercase. induction d as [|c d IH]; [done|]. cbn.
  destruct (digit_value c) as [x|] eqn:E; [|done]. intros Hd. by rewrite (lower_digit c x E), IH.
Qed.

(** A pattern is not found in text without its first character. *)
Fixpoint has_char (a : ascii) (s : string) : bool :=
  match s with EmptyString => false | String c s => Ascii.eqb a c || has_char a s end.

Lemma contains_skip a p x y :
  has_char a x = false -> contains (String a p) (String.append x y) = contains (String a p) y.
Proof.
  induction x as [|c x IH]; [done|]. cbn [has_char]. intros [Hc Hx]%orb_false_iff.
  rewrite append_String, contains_String, IH by done.
  unfold starts_with. cbn [Prelude.strip_prefix]. by rewrite Hc.
Qed.

Lemma has_char_append a x y : has_char a (String.append x y) = has_char a x || has_char a y.
Proof.
  induction x as [|c x IH]; [done|]. rewrite append_String. cbn [has_char].
  by rewrite IH, orb_assoc.
Qed.

Lemma has_char_digits a d : digit_value a = None -> all_digits d = true -> has_char a d = false.
Proof.
  intros Ha. induction d as [|c d IH]; [done|]. cbn [has_char all_digits].
  destruct (digit_value c) as [x|] eqn:E; [|done]. intros Hd. rewrite IH, orb_false_r by done.
  destruct (Ascii.eqb a c) eqn:Eac; [|done]. apply Ascii.eqb_eq in Eac. congruence.
Qed.

(** The suffixes of all sublayers. *)
Definition all_slots : list (string * ParameterRole * Z) :=
  attention_slots true ++ ffn_slots ++ short_conv_slots.

Lemma contains_blk p n c :
  p <> EmptyString -> no_digits p = true ->
  contains p (String.append (blk n) c) = contains p "blk." || contains p c.
Proof.
  intros Hne Hp. unfold blk. rewrite append_assoc.
  apply contains_digits; [done|done|apply decimal_not_empty|apply decimal_digits].
Qed.

Lemma contains_w n c t :
  contains (String "w" t) (String.append (blk n) c) = contains (String "w" t) c.
Proof.
  apply contains_skip. unfold blk. rewrite has_char_append.
  by rewrite (has_char_digits "w" _ eq_refl (decimal_digits n)).
Qed.

Lemma ends_with_blk x n c :
  (String.length x <= String.length c)%nat -> ends_with x (String.append (blk n) c) = ends_with x c.
Proof. apply ends_with_app. Qed.

Lemma blk_role n s :
  s ∈ all_slots -> roles_compatible s.1.2 (infer_role (String.append (blk n) s.1.1)) = true.
Proof.
  intros Hs. unfold infer_role, to_ascii_lowercase. rewrite str_map_append.
  assert (str_map ascii_lower (blk n) = blk n) as ->.
  { unfold blk. rewrite str_map_append. f_equal. apply lower_digits, decimal_digits. }
  rewrite !contains_w. rewrite !contains_blk by done.
  unfold all_slots in Hs. cbn [app attention_slots ffn_slots short_conv_slots] in Hs.
  repeat (apply elem_of_cons in Hs as [->|Hs];
    [cbn [fst snd]; rewrite !ends_with_blk by (vm_compute; lia); vm_compute; reflexivity|]).
  by apply not_elem_of_nil in Hs.
Qed.

(** ** Keys *)

(** A key of a Hugging Face checkpoint. *)
Definition hf_key (key : string) : bool :=
  starts_with "model." key || String.eqb key "lm_head.weight".

(** [slot] can be filled through the name map [canonicalize]. *)
Definition fillable (canonicalize : string -> option string) (slot : ParameterSlot) : Prop :=
  exists key, hf_key key = true /\ canonicalize key = Some (slot_canonical_name slot) /\
    roles_compatible (slot_role slot) (infer_role (slot_canonical_name slot)) = true.

Lemma layer_key_hf n suffix : hf_key (layer_key "model.layers." n suffix) = true.
Proof.
  unfold hf_key, layer_key.
  change "model.layers." with (String.append "model." "layers.").
  by rewrite append_assoc, starts_with_append.
Qed.

Lemma blk_name_append n c : blk_name n c = String.append (blk n) (String "." c).
Proof. unfold blk_name, blk. by rewrite append_assoc. Qed.

(** Every suffix of [S] is the image of one in the table. *)
Definition covered (table : list (string * string)) (S : list (string * ParameterRole * Z)) : bool :=
  forallb (fun s => existsb (fun row => String.eqb s.1.1 (String "." row.2)) table) S.

Lemma layer_fillable canonicalize table n S s :
  (forall suffix c, (suffix, c) ∈ table ->
     canonicalize (layer_key "model.layers." n suffix) = Some (blk_name n c)) ->
  covered table S = true -> s ∈ S -> s ∈ all_slots ->
  fillable canonicalize (prefixed_slot (blk n) s).
Proof.
  intros Hmap Hcov Hs Hall. unfold covered in Hcov. rewrite forallb_forall in Hcov.
  apply list_elem_of_In, Hcov, existsb_exists in Hs as ([suffix c] & Hrow & E).
  apply list_elem_of_In in Hrow. cbn [snd] in E. apply String.eqb_eq in E.
  exists (layer_key "model.layers." n suffix). split; [apply layer_key_hf|].
  unfold prefixed_slot, required_slot. cbn [slot_canonical_name slot_role].
  rewrite (Hmap _ _ Hrow), blk_name_append, E. split; [done|]. rewrite <-E. by apply blk_role.
Qed.

Lemma stack_fillable {A} (index : A -> Z) (S : A -> list (string * ParameterRole * Z))
    canonicalize l slot :
  (forall a s, a ∈ l -> s ∈ S a -> fillable canonicalize (prefixed_slot (blk (index a)) s)) ->
  slot ∈ stack_slots index S l -> fillable canonicalize slot.
Proof.
  intros H (a & (s & -> & Hs)%list_elem_of_fmap & Ha)%list_elem_of_bind. by apply H.
Qed.

Lemma frame_fillable canonicalize id eps O S g slot :
  decoder_graph id eps O S g ->
  canonicalize "model.embed_tokens.weight" = Some "token_embd.weight" ->
  (exists key, hf_key key = true /\ canonicalize key = Some "output_norm.weight") ->
  canonicalize "lm_head.weight" = Some "output.weight" ->
  (forall s, s ∈ S -> fillable canonicalize s) ->
  slot ∈ ag_parameter_slots g -> fillable canonicalize slot.
Proof.
  intros Hg He (key & Hk & Hn) Ho HS. rewrite (dg_slots _ _ _ _ _ Hg).
  intros [->%list_elem_of_singleton|[Hin|[-> | ->%list_elem_of_singleton]%elem_of_cons]%elem_of_app]%elem_of_app.
  - by exists "model.embed_tokens.weight".
  - by apply HS.
  - by exists key.
  - by exists "lm_head.weight".
Qed.

Lemma attention_slots_all qk s : s ∈ attention_slots qk -> s ∈ all_slots.
Proof.
  intros Hs. apply elem_of_app. left. destruct qk; [done|].
  repeat (apply elem_of_cons in Hs as [->|Hs]; [absent|]). by apply not_elem_of_nil in Hs.
Qed.

Lemma decoder_slots_all qk l s : s ∈ decoder_slots qk l -> s ∈ all_slots.
Proof.
  intros [H|H]%elem_of_app; [by eapply attention_slots_all|].
  apply elem_of_app. right. apply elem_of_app. by left.
Qed.

Lemma hybrid_slots_all a s : s ∈ hybrid_slots a -> s ∈ all_slots.
Proof.
  unfold hybrid_slots. intros [H|H]%elem_of_app.
  - destruct a as [l []]; cbn [snd] in H; [by eapply attention_slots_all|].
    apply elem_of_app. right. apply elem_of_app. by right.
  - apply elem_of_app. right. apply elem_of_app. by left.
Qed.

(** ** What a successful build has read *)

Lemma lift_inv {A B} (r : Result A) (k : A -> Build B) b x :
  (lift r ≫= k) b = Ok x -> exists a, r = Ok a /\ k a b = Ok x.
Proof. unfold mbind, Build_bind, lift. destruct r as [a| |]; cbn; [by exists a|done|done]. Qed.

Lemma run_inv {A B} (m : Build A) (k : A -> Build B) b x :
  (m ≫= k) b = Ok x -> exists a b', m b = Ok (a, b') /\ k a b' = Ok x.
Proof. unfold mbind, Build_bind. destruct (m b) as [[a b']| |]; [by exists a, b'|done|done]. Qed.

Lemma for_layers_good {A} (step : BuilderValue -> A -> Build BuilderValue) (good : A -> Prop) l x b r :
  (forall a y b r, step y a b = Ok r -> good a) -> for_layers step x l b = Ok r -> Forall good l.
Proof.
  intros Hgood. revert x b. induction l as [|a l IH]; intros x b H; [constructor|].
  cbn in H. apply run_inv in H as (y & b' & H1 & H2). constructor; [by eapply Hgood|by eapply IH].
Qed.

Lemma attention_sublayer_good x layer qk spec b r :
  attention_sublayer x layer qk spec b = Ok r -> validate_block spec = Ok tt.
Proof. intros H. by apply lift_inv in H as ([] & H & _). Qed.

Lemma short_conv_sublayer_good x layer spec b r :
  short_conv_sublayer x layer spec b = Ok r -> validate_conv spec = Ok tt.
Proof. intros H. by apply lift_inv in H as ([] & H & _). Qed.

Lemma runs_Ok {A} (r : Result (A * ModelBuilder)) Q a b : runs r Q -> r = Ok (a, b) -> Q a b.
Proof. by intros (a' & b' & -> & HQ) [= <- <-]. Qed.

Section Inversion.
Context {SJ : SerdeJson}.

Lemma validate_block_cases spec :
  validate_block spec = Ok tt \/ exists e, validate_block spec = Err e.
Proof.
  unfold validate_block, ensure. destruct (negb _); cbn; [|by right; eexists].
  destruct (is_multiple_of _ _); [by left|by right; eexists].
Qed.

Ltac read_config H := repeat
  match type of H with (lift _ ≫= _) _ = Ok _ =>
    let a := fresh "a" in let E := fresh "E" in apply lift_inv in H as (a & E & H) end.

Lemma builds_inv r id qk n spec g b :
  builds r id qk n spec -> r = Ok (g, b) ->
  decoder_graph id (db_rms_norm_epsilon spec)
    (stack_ops Datatypes.id (decoder_ops qk spec) (seqZ 0 n))
    (stack_slots Datatypes.id (decoder_slots qk) (seqZ 0 n)) g.
Proof.
  intros [Hok Herr] H.
  destruct (Z.eq_dec n 0) as [Hn|Hne].
  { by apply (runs_Ok r (fun g _ => decoder_graph id _ _ _ g) g b (Hok (or_introl Hn))). }
  destruct (validate_block_cases spec) as [Hv|[e Hv]].
  - by apply (runs_Ok r (fun g _ => decoder_graph id _ _ _ g) g b (Hok (or_intror Hv))).
  - rewrite (Herr e Hne Hv) in H. done.
Qed.

Lemma decoder_inv config id g b :
  (Llama.build config (start id) = Ok (g, b) -> exists n spec, is_u32 n /\
     decoder_graph id (db_rms_norm_epsilon spec)
       (stack_ops Datatypes.id (decoder_ops false spec) (seqZ 0 n))
       (stack_slots Datatypes.id (decoder_slots false) (seqZ 0 n)) g) /\
  (Qwen3.build config (start id) = Ok (g, b) -> exists n spec, is_u32 n /\
     decoder_graph id (db_rms_norm_epsilon spec)
       (stack_ops Datatypes.id (decoder_ops true spec) (seqZ 0 n))
       (stack_slots Datatypes.id (decoder_slots true) (seqZ 0 n)) g).
Proof.
  split; intros H; unfold Llama.build, Qwen3.build in H; read_config H;
    apply num_layers_range in E;
    match type of H with context [for_layers (fun x layer => decoder_block x layer ?qk ?s)] =>
      exists a, s; split; [done|];
      apply (builds_inv _ id qk a s g b (frame_builds id qk a a1 s E)); exact H
    end.
Qed.

Lemma lfm2_inv config g b :
  Lfm2.build config (start "lfm2.hybrid") = Ok (g, b) -> exists eps O schedule,
    Z.of_nat (length schedule) <= u32_max /\
    decoder_graph "lfm2.hybrid" eps O
      (stack_slots fst hybrid_slots (Lfm2.enumerated schedule)) g.
Proof.
  intros H. unfold Lfm2.build in H. read_config H.
  pose proof (num_layers_range _ _ E) as Hn. pose proof (layer_schedule_Ok _ _ _ E3) as [Hlen _].
  unfold is_u32 in Hn.
  match type of H with context [for_layers (Lfm2.layer_step ?s ?c)] =>
    set (spec := s) in *; set (conv := c) in * end.
  exists a2, (stack_ops fst (hybrid_ops spec conv) (Lfm2.enumerated a3)), a3. split; [lia|].
  assert (Hgood : Forall (kind_ok spec conv) (Lfm2.enumerated a3)).
  { apply run_inv in H as (t & b1 & _ & H). apply run_inv in H as (y & b2 & _ & H).
    apply run_inv in H as (z & b3 & H & _). eapply for_layers_good; [|exact H].
    intros [k kind] y' b' r Hr. apply run_inv in Hr as (? & ? & Hr & _). unfold kind_ok. cbn.
    destruct kind; [by eapply attention_sublayer_good|by eapply short_conv_sublayer_good]. }
  eapply (runs_Ok _ (fun g _ => decoder_graph "lfm2.hybrid" a2
    (stack_ops fst (hybrid_ops spec conv) (Lfm2.enumerated a3))
    (stack_slots fst hybrid_slots (Lfm2.enumerated a3)) g) g b); [|exact H].
  eapply (frame_run "lfm2.hybrid" a0 a1 a2 (fun x =>
    for_layers (Lfm2.layer_step spec conv) x (Lfm2.enumerated a3))); [|by apply stack_outside].
  intros b' x Hb Hf Hx Hty. by apply (hybrid_stack_run spec conv a3); [|lia|..].
Qed.

(** C33: Every weight of a built graph can come from a Hugging Face checkpoint:
    for each parameter slot some Hugging Face key is mapped to the slot's
    canonical name by the architecture's own name map, and the role that is
    inferred from that name passes the binder's role check. *)
Theorem slots_fillable arch config g b slot :
  arch ∈ [Llama.architecture; Qwen3.architecture; Lfm2.architecture] ->
  ad_build arch config (start (ad_id arch)) = Ok (g, b) ->
  slot ∈ ag_parameter_slots g ->
  exists key, hf_key key = true /\
    ad_canonicalize_param arch key = Some (slot_canonical_name slot) /\
    roles_compatible (slot_role slot) (infer_role (slot_canonical_name slot)) = true.
Proof.
  intros Harch Hbuild. change (slot ∈ ag_parameter_slots g -> fillable (ad_canonicalize_param arch) slot).
  assert (Hdec : forall qk n spec id,
    is_u32 n -> decoder_graph id (db_rms_norm_epsilon spec)
       (stack_ops Datatypes.id (decoder_ops qk spec) (seqZ 0 n))
       (stack_slots Datatypes.id (decoder_slots qk) (seqZ 0 n)) g ->
    slot ∈ ag_parameter_slots g -> fillable canonicalize_hf_family slot).
  { intros qk n spec id Hn Hg. apply (frame_fillable _ _ _ _ _ _ _ Hg); [done| |done|].
    { by exists "model.norm.weight". }
    intros s. apply stack_fillable. intros l s' Hl%elem_of_seqZ Hs'. unfold Datatypes.id.
    apply (layer_fillable _ hf_suffixes l (decoder_slots qk l)); [|by destruct qk|done|].
    - intros suffix c Hin. refine (proj1 (hf_layer_key l suffix c _ Hin)). clear -Hn Hl. unfold is_u32 in *. lia.
    - by eapply decoder_slots_all. }
  repeat apply elem_of_cons in Harch as [->|Harch]; [..|by apply not_elem_of_nil in Harch];
    cbn [ad_build ad_id ad_canonicalize_param Llama.architecture Qwen3.architecture
         Lfm2.architecture] in *.
  - destruct (proj1 (decoder_inv config _ g b) Hbuild) as (n & spec & Hn & Hg). by eapply Hdec.
  - destruct (proj2 (decoder_inv config _ g b) Hbuild) as (n & spec & Hn & Hg). by eapply Hdec.
  - apply lfm2_inv in Hbuild as (eps & O & schedule & Hlen & Hg).
    apply (frame_fillable _ _ _ _ _ _ _ Hg); [done| |done|].
    { by exists "model.embedding_norm.weight". }
    intros s. apply stack_fillable. intros [l kind] s' Hl Hs'. cbn [fst].
    apply (layer_fillable _ lfm2_suffixes l (hybrid_slots (l, kind))); [|by destruct kind|done|].
    + intros suffix c Hin. refine (lfm2_layer_key l suffix c _ Hin).
      unfold Lfm2.enumerated in Hl. apply elem_of_lookup_imap in Hl as (i & k & [= -> _] & _).
      clear. unfold is_u32, wrap32, u32_max. pose proof (Z.mod_pos_bound (Z.of_nat i) (2 ^ 32)). lia.
    + by eapply hybrid_slots_all.
Qed.

End Inversion.

Lemma slots_fillable_witness :
  exists g b, ad_build Llama.architecture ModelSample.llama_config (start "llama.decoder") = Ok (g, b) /\
  exists key, hf_key key = true /\
    ad_canonicalize_param Llama.architecture key = Some "blk.1.attn_q.weight".
Proof.
  destruct (ad_build Llama.architecture ModelSample.llama_config (start "llama.decoder"))
    as [[g b]| |] eqn:E; [|exfalso; revert E; vm_compute; discriminate..].
  exists g, b. split; [reflexivity|].
  assert (Hslot : required_slot "blk.1.attn_q.weight" AttentionQ 2 ∈ ag_parameter_slots g).
  { assert (Hs : match ad_build Llama.architecture ModelSample.llama_config (start "llama.decoder")
      with Ok (g, _) => ag_parameter_slots g | _ => [] end !! 11%nat
      = Some (required_slot "blk.1.attn_q.weight" AttentionQ 2)) by by_vm.
    rewrite E in Hs. by apply (list_elem_of_lookup_2 _ _ _ Hs). }
  destruct (slots_fillable Llama.architecture ModelSample.llama_config g b _
    ltac:(left) E Hslot) as (key & Hk & Hc & _).
  exists key. split; [exact Hk|exact Hc].
Defined.
