(* ===== verification/Registry.v ===== *)
(** * The architecture registry: registry.rs and lib.rs of crates/dyninfer-architecture

    Registration and lookup of architectures, resolution from checkpoint
    metadata, the renaming of a catalog and the building of a package. *)
From S2P Require Import Prelude Strings Errors Serde CoreTypes Catalog Names Ir Config Fingerprint.
From S2P Require Import Support Binding Builder Graph Building Layers Models ModelGraphs ModelNames.
From Stdlib Require Import ZArith Lia Ascii String.
From stdpp Require Import base list strings gmap.
From stdpp Require Import options.
Import Json.

Local Open Scope Z_scope.

Section Registry.
Context {SJ : SerdeJson}.

(** [HashMap<String, Arc<dyn ArchitectureDefinition>>]. *)
Record ArchitectureRegistry := { defs : gmap string ArchitectureDefinition }.

(** The iteration order of a [HashMap] is unspecified. *)
Class HashOrder := {
  hash_iter : gmap string ArchitectureDefinition -> list (string * ArchitectureDefinition);
  hash_iter_perm m : hash_iter m ≡ₚ map_to_list m;
}.
Context {HO : HashOrder}.

Definition registry_new : ArchitectureRegistry := {| defs := ∅ |}.

Definition register (registry : ArchitectureRegistry) (def : ArchitectureDefinition)
    : ArchitectureRegistry := {| defs := <[ad_id def := def]> (defs registry) |}.

Definition get (registry : ArchitectureRegistry) (id : string) : option ArchitectureDefinition :=
  defs registry !! id.

Definition ids (registry : ArchitectureRegistry) : list string := (hash_iter (defs registry)).*1.

Definition mismatch (message : text) (id : option string) (detail : option text) : DynInferError :=
  ArchitectureMismatch {| am_message := message; am_architecture_id := id; am_detail := detail |}.

Definition require (registry : ArchitectureRegistry) (id : string) : Result ArchitectureDefinition :=
  ok_or (get registry id)
    (mismatch (Format "unknown architecture `{id}`" [AStr id]) (Some id) None).

Definition lists_model_type (needle : string) (def : ArchitectureDefinition) : bool :=
  existsb (fun t => eq_ignore_ascii_case t needle) (ad_model_types def).

Definition find_by_model_type (registry : ArchitectureRegistry) (model_type : string)
    : option string :=
  let needle := trim model_type in
  if String.eqb needle EmptyString then None
  else ad_id <$> List.find (lists_model_type needle) (hash_iter (defs registry)).*2.

Definition option_list {A} (o : option A) : list A := match o with Some a => [a] | None => [] end.

Definition meta_str (meta : MetadataMap) (key : string) : option string :=
  v ← meta !! key; as_str v.

Definition meta_model_type_candidates (meta : MetadataMap) : list string :=
  option_list (meta_str meta "model_type") ++
  match meta_str meta "hf_architecture" with
  | Some v => v :: option_list (to_ascii_lowercase <$> Prelude.strip_suffix "ForCausalLM" v)
  | None => []
  end.

(** The first candidate that [f] resolves. *)
Fixpoint find_map {A B} (f : A -> option B) (l : list A) : option B :=
  match l with
  | [] => None
  | a :: l => match f a with Some b => Some b | None => find_map f l end
  end.

Definition resolve_from_metadata (registry : ArchitectureRegistry) (meta : MetadataMap)
    : Result string :=
  let candidates := meta_model_type_candidates meta in
  ok_or (find_map (find_by_model_type registry) candidates)
    (mismatch
       (Format "could not resolve architecture from checkpoint metadata (tried {candidates:?})"
          [AStrs candidates]) None
       (Some (lit "pass --architecture explicitly or add a model file for this model_type"))).

(** ** Naming *)

(** The name of one parameter, [None] when it is dropped. *)
Definition canonical_of (def : ArchitectureDefinition) (param : LogicalParameter) : option string :=
  let source_key := match lp_aliases param with a :: _ => a | [] => lp_canonical_name param end in
  canonical ← ad_canonicalize_param def source_key;
  Some (if String.eqb canonical source_key && negb (String.eqb (lp_canonical_name param) source_key)
        then default canonical (ad_canonicalize_param def (lp_canonical_name param))
        else canonical).

Definition remap_parameter (def : ArchitectureDefinition) (param : LogicalParameter)
    : option LogicalParameter :=
  canonical ← canonical_of def param;
  Some {| lp_canonical_name := canonical;
          lp_role := infer_role canonical;
          lp_logical_type := lp_logical_type param;
          lp_encoding := lp_encoding param;
          lp_components := lp_components param;
          lp_aliases := if existsb (String.eqb canonical) (lp_aliases param) then lp_aliases param
                        else lp_aliases param ++ [canonical] |}.

Definition remap_parameters (def : ArchitectureDefinition) (params : list LogicalParameter)
    : list LogicalParameter := omap (remap_parameter def) params.

Variable content_digest : list FingerprintEntry -> Result Digest.

Definition apply_naming (registry : ArchitectureRegistry) (id : string) (catalog : CheckpointCatalog)
    : Result CheckpointCatalog :=
  def ← require registry id;
  let pc := ad_sanitize_catalog def
    {| pcat_convention_id := cc_convention_id catalog;
       pcat_parameters := remap_parameters def (cc_parameters catalog);
       pcat_metadata := cc_metadata catalog |} in
  fingerprint ← schema_fingerprint_from_parameters content_digest (pcat_parameters pc);
  Ok {| cc_container := cc_container catalog;
        cc_convention_id := cc_convention_id catalog;
        cc_source_files := cc_source_files catalog;
        cc_metadata := foldl (fun m kv => or_insert m kv.1 kv.2) (cc_metadata catalog)
                         (btree_iter (pcat_metadata pc));
        cc_raw_entries := cc_raw_entries catalog;
        cc_parameters := pcat_parameters pc;
        cc_schema_fingerprint := fingerprint |}.

(** ** Packages *)

Definition build_with_config (registry : ArchitectureRegistry) (id : string)
    (config : ResolvedModelConfig) : Result ArchitecturePackage :=
  def ← require registry id;
  '(graph, _) ← ad_build def config (set_architecture_id (ad_id def) ModelBuilder_new);
  Ok (from_module graph config (ad_revision def)).

Definition build_package (registry : ArchitectureRegistry) (id : string)
    (overrides checkpoint_meta : MetadataMap) : Result ArchitecturePackage :=
  def ← require registry id;
  config ← resolve (ad_config_schema def) overrides checkpoint_meta ∅;
  '(graph, _) ← ad_build def config (set_architecture_id (ad_id def) ModelBuilder_new);
  Ok (from_module graph config (ad_revision def)).

(** ** lib.rs *)

Definition register_all (registry : ArchitectureRegistry) : ArchitectureRegistry :=
  register (register (register registry Llama.architecture) Qwen3.architecture) Lfm2.architecture.

Definition model_type_candidates (meta : MetadataMap) : list string :=
  option_list (meta_str meta "model_type") ++ option_list (meta_str meta "hf_architecture").

(** [remap_model_type] followed by the check that the id is registered. *)
Definition registered_remap (registry : ArchitectureRegistry) (c : string) : option string :=
  id ← remap_model_type c;
  _ ← get registry id;
  Some id.

Definition resolve_architecture (registry : ArchitectureRegistry) (override_id : option string)
    (metadata : MetadataMap) : Result string :=
  let from_checkpoint :=
    match find_map (registered_remap registry) (model_type_candidates metadata) with
    | Some id => Ok id
    | None => resolve_from_metadata registry metadata
    end in
  match override_id with
  | None => from_checkpoint
  | Some id =>
      let id := trim id in
      if negb (String.eqb id EmptyString) && negb (eq_ignore_ascii_case id "auto") then
        match get registry id with
        | Some _ => Ok id
        | None => Err (mismatch (Format "unknown architecture `{id}`" [AStr id]) (Some id)
                         (Some (Format "known: {}" [AStrs (ids registry)])))
        end
      else from_checkpoint
  end.

(** runtime/src/model.rs: the loader's [bind] on an inspected catalog. *)
Definition loader_bind (registry : ArchitectureRegistry) (architecture_id : string)
    (catalog : CheckpointCatalog) (overrides : MetadataMap)
    : Result (ArchitecturePackage * CheckpointCatalog * BindingPlan) :=
  catalog ← apply_naming registry architecture_id catalog;
  package ← build_package registry architecture_id overrides (cc_metadata catalog);
  plan ← bind Binder_default package catalog;
  Ok (package, catalog, plan).

End Registry.

(** * Lemmas *)

Lemma find_perm {A} (f : A -> bool) l l' :
  l ≡ₚ l' -> (forall a b, a ∈ l -> b ∈ l -> f a = true -> f b = true -> a = b) ->
  List.find f l = List.find f l'.
Proof.
  induction 1 as [|x l l' Hp IH|x y l|l l' l'' H1 IH1 H2 IH2]; intros Hu; cbn.
  - done.
  - destruct (f x); [done|]. apply IH. intros a b Ha Hb. apply Hu; by right.
  - destruct (f x) eqn:Ex, (f y) eqn:Ey; try done. f_equal. apply Hu; try done; [left|right; left].
  - rewrite IH1 by done. apply IH2. intros a b Ha Hb. apply Hu; by rewrite H1.
Qed.

Lemma find_map_ext {A B} (f g : A -> option B) l : (forall a, f a = g a) -> find_map f l = find_map g l.
Proof. intros H. induction l as [|a l IH]; cbn; [done|]. by rewrite H, IH. Qed.

Lemma find_map_Some {A B} (f : A -> option B) l b :
  find_map f l = Some b -> exists a, a ∈ l /\ f a = Some b.
Proof.
  induction l as [|a l IH]; cbn; [done|]. destruct (f a) eqn:E.
  - intros [= <-]. exists a. split; [left|done].
  - intros (a' & Ha & H)%IH. exists a'. split; [by right|done].
Qed.

Section BuiltIn.
Context {SJ : SerdeJson}.

Definition built_in : ArchitectureRegistry := register_all registry_new.

Definition built_in_models : list ArchitectureDefinition :=
  [Llama.architecture; Qwen3.architecture; Lfm2.architecture].

Lemma built_in_values :
  map_to_list (defs built_in) ≡ₚ (fun d => (ad_id d, d)) <$> built_in_models.
Proof.
  unfold built_in, register_all, register, registry_new. cbn [defs].
  rewrite !map_to_list_insert by (rewrite ?lookup_insert_ne by done; apply lookup_empty).
  rewrite map_to_list_empty. cbn.
  symmetry. apply (Permutation_rev [(_, Llama.architecture); (_, Qwen3.architecture);
    (_, Lfm2.architecture)]).
Qed.

Lemma get_built_in id def :
  get built_in id = Some def <-> def ∈ built_in_models /\ ad_id def = id.
Proof.
  unfold get. rewrite <-elem_of_map_to_list, built_in_values. rewrite list_elem_of_fmap. split.
  - intros (d & [= -> ->] & Hd). done.
  - intros [Hd <-]. by exists def.
Qed.

Lemma lists_model_type_lower needle def :
  lists_model_type needle def =
  existsb (fun t => String.eqb t (to_ascii_lowercase needle)) (to_ascii_lowercase <$> ad_model_types def).
Proof. unfold lists_model_type. induction (ad_model_types def) as [|t l IH]; cbn; [done|]. by rewrite IH. Qed.

(** A needle names at most one built-in architecture. *)
Lemma model_types_exclusive needle a b :
  a ∈ built_in_models -> b ∈ built_in_models ->
  lists_model_type needle a = true -> lists_model_type needle b = true -> a = b.
Proof.
  rewrite !lists_model_type_lower. unfold built_in_models.
  generalize (to_ascii_lowercase needle). intros s Ha Hb.
  rewrite !existsb_exists. intros (t & Ht & Et%String.eqb_eq) (u & Hu & Eu%String.eqb_eq). subst t u.
  repeat (apply elem_of_cons in Ha as [->|Ha]; [|]); try by apply not_elem_of_nil in Ha.
  all: repeat (apply elem_of_cons in Hb as [->|Hb]; [|]); try by apply not_elem_of_nil in Hb.
  all: try reflexivity.
  all: exfalso; vm_compute in Ht, Hu; intuition congruence.
Qed.


Lemma built_in_perm (o : HashOrder) : (hash_iter (defs built_in)).*2 ≡ₚ built_in_models.
Proof.
  rewrite (fmap_Permutation snd _ _ (hash_iter_perm (defs built_in))).
  rewrite (fmap_Permutation snd _ _ built_in_values).
  reflexivity.
Qed.

(** Lookup by model type, without the hash map. *)
Lemma find_built_in (o : HashOrder) s :
  find_by_model_type built_in s =
  (if String.eqb (trim s) EmptyString then None
   else ad_id <$> List.find (lists_model_type (trim s)) built_in_models).
Proof.
  unfold find_by_model_type. destruct (String.eqb (trim s) EmptyString); [done|].
  f_equal. apply find_perm; [apply built_in_perm|].
  intros a b Ha Hb. rewrite built_in_perm in Ha, Hb. by apply model_types_exclusive.
Qed.

(** The remapping table covers the registry. *)
Lemma remapped_stem_lower s :
  remapped_stem s = snd <$> List.find (fun kv => String.eqb kv.1 (to_ascii_lowercase s))
    ((fun kv => (to_ascii_lowercase kv.1, kv.2)) <$> MODEL_REMAPPING).
Proof.
  unfold remapped_stem. induction MODEL_REMAPPING as [|kv l IH]; cbn; [done|].
  unfold eq_ignore_ascii_case at 1. destruct (String.eqb _ _); [done|]. exact IH.
Qed.

Lemma remap_covers_registry (o : HashOrder) s id :
  find_by_model_type built_in s = Some id -> registered_remap built_in s = Some id.
Proof.
  rewrite find_built_in. unfold registered_remap, remap_model_type.
  destruct (String.eqb (trim s) EmptyString); [done|]. rewrite remapped_stem_lower.
  intros H. destruct (List.find _ built_in_models) as [def|] eqn:E; [|done].
  injection H as <-. apply List.find_some in E as [Hdef Hl].
  rewrite lists_model_type_lower in Hl. revert Hl.
  generalize (to_ascii_lowercase (trim s)). intros low Hl.
  apply existsb_exists in Hl as (t & Ht & <-%String.eqb_eq). apply list_elem_of_In in Hdef.
  unfold built_in_models in Hdef.
  repeat (apply elem_of_cons in Hdef as [->|Hdef]; [|]); try by apply not_elem_of_nil in Hdef.
  all: vm_compute in Ht; repeat (destruct Ht as [<-|Ht]; [vm_compute; reflexivity|]); destruct Ht.
Qed.

(** C34: Resolution is deterministic although the registry iterates over a hash
    map: for any two iteration orders the built-in registry resolves the same
    override and metadata to the same id, which is one of the built-in ones,
    and a name that the registry knows is known to the remapping table. *)
Theorem resolve_order_independent (o1 o2 : HashOrder) override metadata id :
  (resolve_architecture (HO := o1) built_in override metadata = Ok id <->
   resolve_architecture (HO := o2) built_in override metadata = Ok id) /\
  (resolve_architecture (HO := o1) built_in override metadata = Ok id ->
   exists def, def ∈ built_in_models /\ ad_id def = id) /\
  (forall s, find_by_model_type (HO := o1) built_in s = Some id ->
     registered_remap built_in s = Some id).
Proof.
  assert (Hmeta : resolve_from_metadata (HO := o1) built_in metadata
                  = resolve_from_metadata (HO := o2) built_in metadata).
  { unfold resolve_from_metadata. f_equal. apply find_map_ext. intros s. by rewrite !find_built_in. }
  unfold resolve_architecture. rewrite Hmeta.
  split; [|split; [|intros s; apply remap_covers_registry]].
  - destruct override as [o|]; [|done]. destruct (_ && _); [|done].
    by destruct (get built_in (trim o)).
  - assert (Hck : match find_map (registered_remap built_in) (model_type_candidates metadata) with
        Some id => Ok id | None => resolve_from_metadata (HO := o2) built_in metadata end = Ok id ->
      exists def, def ∈ built_in_models /\ ad_id def = id).
    { destruct (find_map _ _) as [i|] eqn:E; intros H.
      - injection H as ->. apply find_map_Some in E as (c & _ & E). unfold registered_remap in E.
        apply bind_Some in E as (i & _ & E). apply bind_Some in E as (def & Hd & [= ->]).
        exists def. by apply get_built_in.
      - unfold resolve_from_metadata in H. apply ok_or_Ok, find_map_Some in H as (c & _ & Ef).
        apply (remap_covers_registry o2) in Ef. unfold registered_remap in Ef.
        apply bind_Some in Ef as (i & _ & Ef). clear E. rename Ef into E. apply bind_Some in E as (def & Hd & [= ->]).
        exists def. by apply get_built_in. }
    destruct override as [o|]; [|done]. destruct (_ && _); [|done].
    destruct (get built_in (trim o)) as [def|] eqn:E; [|done]. intros [= <-].
    exists def. by apply get_built_in.
Qed.

(** ** Naming *)

Lemma remap_parameter_Some def p p' :
  remap_parameter def p = Some p' <->
  exists c, canonical_of def p = Some c /\
    p' = {| lp_canonical_name := c; lp_role := infer_role c; lp_logical_type := lp_logical_type p;
            lp_encoding := lp_encoding p; lp_components := lp_components p;
            lp_aliases := if existsb (String.eqb c) (lp_aliases p) then lp_aliases p
                          else lp_aliases p ++ [c] |}.
Proof.
  unfold remap_parameter. destruct (canonical_of def p) as [c|]; cbn; split.
  - intros [= <-]. by exists c.
  - by intros (c' & [= <-] & ->).
  - done.
  - by intros (c' & ? & _).
Qed.

(** Two parameters read the same bytes in the same way. *)
Definition same_storage (p q : LogicalParameter) : Prop :=
  lp_logical_type p = lp_logical_type q /\ lp_encoding p = lp_encoding q /\
  lp_components p = lp_components q.

Lemma sanitize_built_in def : def ∈ built_in_models -> ad_sanitize_catalog def = tie_output_to_embed.
Proof.
  intros H. unfold built_in_models in H.
  by repeat (apply elem_of_cons in H as [->|H]; [reflexivity|]); apply not_elem_of_nil in H.
Qed.

(** What the tie leaves and adds. *)
Lemma tie_parameters catalog :
  (forall p, p ∈ pcat_parameters catalog -> p ∈ pcat_parameters (tie_output_to_embed catalog)) /\
  (forall p, p ∈ pcat_parameters (tie_output_to_embed catalog) ->
     p ∈ pcat_parameters catalog \/
     exists emb, emb ∈ pcat_parameters catalog /\ lp_canonical_name emb = "token_embd.weight" /\
       p = tied_output emb) /\
  (forall emb, emb ∈ pcat_parameters catalog -> lp_canonical_name emb = "token_embd.weight" ->
     "output.weight" ∈ lp_canonical_name <$> pcat_parameters (tie_output_to_embed catalog)).
Proof.
  unfold tie_output_to_embed. destruct (existsb (named "output.weight") _) eqn:Eo.
  - split; [done|]. split; [by left|]. intros _ _ _.
    apply existsb_exists in Eo as (p & Hp & En). apply String.eqb_eq in En as <-.
    apply list_elem_of_fmap_2. by apply list_elem_of_In.
  - destruct (List.find (named "token_embd.weight") _) as [emb|] eqn:Ef; cbn.
    + apply List.find_some in Ef as [Hemb Hname%String.eqb_eq]. apply list_elem_of_In in Hemb.
      split; [intros p Hp; apply elem_of_app; by left|]. split.
      * intros p [Hp| ->%list_elem_of_singleton]%elem_of_app; [by left|right]. by exists emb.
      * intros _ _ _. rewrite fmap_app. apply elem_of_app. right. left.
    + split; [done|]. split; [by left|]. intros emb Hemb Hn. exfalso.
      apply list_elem_of_In, (List.find_none _ _ Ef) in Hemb.
      unfold named in Hemb. by rewrite Hn in Hemb.
Qed.

Lemma elem_of_remap def ps p' :
  p' ∈ remap_parameters def ps <-> exists p, p ∈ ps /\ remap_parameter def p = Some p'.
Proof. unfold remap_parameters. apply list_elem_of_omap. Qed.

Section Naming.
Variable content_digest : list FingerprintEntry -> Result Digest.

Lemma apply_naming_parameters id catalog catalog' :
  apply_naming content_digest built_in id catalog = Ok catalog' ->
  exists def pc, def ∈ built_in_models /\ ad_id def = id /\
    pcat_parameters pc = remap_parameters def (cc_parameters catalog) /\
    pcat_metadata pc = cc_metadata catalog /\
    cc_parameters catalog' = pcat_parameters (tie_output_to_embed pc) /\
    cc_container catalog' = cc_container catalog /\
    cc_source_files catalog' = cc_source_files catalog /\
    cc_raw_entries catalog' = cc_raw_entries catalog /\
    schema_fingerprint_from_parameters content_digest (cc_parameters catalog')
      = Ok (cc_schema_fingerprint catalog').
Proof.
  unfold apply_naming, require. intros H. ok_inv. apply get_built_in in Hv as [Hdef Hid].
  rewrite sanitize_built_in in * by done. exists v.
  exists {| pcat_convention_id := cc_convention_id catalog;
            pcat_parameters := remap_parameters v (cc_parameters catalog);
            pcat_metadata := cc_metadata catalog |}. split; [done|]. split; [done|].
  split; [reflexivity|]. split; [reflexivity|]. split; [reflexivity|]. done.
Qed.

(** Renaming a catalog changes names only: every parameter of the result
    reads the bytes of a parameter of the input (the tied output those of the
    embedding), in the same way, under the name and role its key maps to;
    every parameter whose key maps to a name is kept; and the fingerprint is
    that of the new parameters. *)
Theorem apply_naming_renames id catalog catalog' :
  apply_naming content_digest built_in id catalog = Ok catalog' ->
  exists def, def ∈ built_in_models /\ ad_id def = id /\
  (forall p', p' ∈ cc_parameters catalog' -> exists p, p ∈ cc_parameters catalog /\
     same_storage p' p /\
     (canonical_of def p = Some (lp_canonical_name p') \/
      canonical_of def p = Some "token_embd.weight" /\ lp_canonical_name p' = "output.weight")) /\
  (forall p c, p ∈ cc_parameters catalog -> canonical_of def p = Some c ->
     exists p', p' ∈ cc_parameters catalog' /\ lp_canonical_name p' = c /\ lp_role p' = infer_role c /\
       same_storage p' p /\ c ∈ lp_aliases p') /\
  cc_raw_entries catalog' = cc_raw_entries catalog /\
  cc_source_files catalog' = cc_source_files catalog /\
  schema_fingerprint_from_parameters content_digest (cc_parameters catalog')
    = Ok (cc_schema_fingerprint catalog').
Proof.
  intros H. apply apply_naming_parameters in H
    as (def & pc & Hdef & Hid & Hps & _ & Hps' & _ & Hfiles & Hraw & Hfp).
  exists def. split; [done|]. split; [done|].
  destruct (tie_parameters pc) as (Hkeep & Hfrom & _). rewrite <-Hps' in *. rewrite Hps in *.
  split_and!; try done.
  - intros p' Hp'. apply Hfrom in Hp' as [Hp'|(emb & Hemb & Hname & ->)].
    + apply elem_of_remap in Hp' as (p & Hp & (c & Hc & ->)%remap_parameter_Some).
      exists p. split; [done|]. split; [done|]. by left.
    + apply elem_of_remap in Hemb as (p & Hp & (c & Hc & ->)%remap_parameter_Some).
      exists p. split; [done|]. split; [done|]. right. cbn in Hname. by rewrite <-Hname.
  - intros p c Hp Hc. eexists. split; [|].
    { apply Hkeep, elem_of_remap. exists p. split; [done|]. apply remap_parameter_Some. by exists c. }
    cbn. split_and!; try done.
    destruct (existsb (String.eqb c) (lp_aliases p)) eqn:E.
    + apply existsb_exists in E as (x & Hx & ->%String.eqb_eq). by apply list_elem_of_In.
    + apply elem_of_app. right. left.
Qed.

Lemma by_name_some ps k : k ∈ lp_canonical_name <$> ps -> is_Some (parameters_by_name ps !! k).
Proof.
  intros (p & -> & Hp)%list_elem_of_fmap. unfold parameters_by_name.
  assert (is_Some (foldl insert_canonical ∅ ps !! lp_canonical_name p)) as [q Hq].
  { rewrite insert_canonical_lookup. destruct (last _) eqn:E; [done|].
    apply last_None in E. exfalso.
    assert (Hin : In p (List.filter (fun q => String.eqb (lp_canonical_name q) (lp_canonical_name p)) ps)).
    { apply filter_In. rewrite String.eqb_refl. split; [by apply list_elem_of_In|done]. }
    by rewrite E in Hin. }
  exists q. by apply aliases_keep.
Qed.

Lemma stack_slots_required {A} (index : A -> Z) S l :
  Forall (fun s => slot_optional s = false) (stack_slots index S l).
Proof.
  rewrite Forall_forall. intros s (a & (x & -> & _)%list_elem_of_fmap & _)%list_elem_of_bind. done.
Qed.

Lemma built_in_graph def config g b :
  def ∈ built_in_models -> ad_build def config (start (ad_id def)) = Ok (g, b) ->
  exists eps O S, decoder_graph (ad_id def) eps O S g /\ Forall (fun s => slot_optional s = false) S.
Proof.
  intros Hdef Hbuild. unfold built_in_models in Hdef.
  repeat (apply elem_of_cons in Hdef as [->|Hdef]; [|]); try by apply not_elem_of_nil in Hdef.
  - destruct (proj1 (decoder_inv config _ g b) Hbuild) as (n & spec & _ & Hg).
    do 3 eexists. split; [exact Hg|apply stack_slots_required].
  - destruct (proj2 (decoder_inv config _ g b) Hbuild) as (n & spec & _ & Hg).
    do 3 eexists. split; [exact Hg|apply stack_slots_required].
  - destruct (lfm2_inv config g b Hbuild) as (eps & O & schedule & _ & Hg).
    do 3 eexists. split; [exact Hg|apply stack_slots_required].
Qed.

(** A complete checkpoint fills a model: when each slot of a built graph,
    except possibly the output projection, is the image of some parameter's
    key, then after renaming every slot resolves to a parameter; a missing
    output projection is answered by the tied embedding. *)
Theorem naming_fills_slots def config g b catalog catalog' slot :
  def ∈ built_in_models ->
  ad_build def config (start (ad_id def)) = Ok (g, b) ->
  apply_naming content_digest built_in (ad_id def) catalog = Ok catalog' ->
  (forall s, s ∈ ag_parameter_slots g -> slot_canonical_name s = "output.weight" \/
     exists p, p ∈ cc_parameters catalog /\ canonical_of def p = Some (slot_canonical_name s)) ->
  slot ∈ ag_parameter_slots g ->
  exists p, parameters_by_name (cc_parameters catalog') !! slot_canonical_name slot = Some p.
Proof.
  intros Hdef Hbuild Hname Hall Hslot. destruct (built_in_graph def config g b Hdef Hbuild)
    as (eps & O & S & Hg & _).
  apply apply_naming_parameters in Hname as (def' & pc & Hdef' & Hid & Hps & _ & Hps' & _).
  assert (def' = def) as ->.
  { pose proof (proj2 (get_built_in (ad_id def) def) (conj Hdef eq_refl)) as E.
    rewrite (proj2 (get_built_in (ad_id def) def') (conj Hdef' Hid)) in E. congruence. }
  destruct (tie_parameters pc) as (Hkeep & _ & Htie).
  assert (Hmapped : forall p c, p ∈ cc_parameters catalog -> canonical_of def p = Some c ->
    exists q, q ∈ pcat_parameters pc /\ lp_canonical_name q = c).
  { intros p c Hp Hc. destruct (remap_parameter def p) as [q|] eqn:Eq.
    - exists q. rewrite Hps. split; [apply elem_of_remap; by exists p|].
      apply remap_parameter_Some in Eq as (c' & Hc' & ->). cbn. congruence.
    - unfold remap_parameter in Eq. by rewrite Hc in Eq. }
  apply by_name_some. rewrite Hps'. destruct (Hall slot Hslot) as [->|(p & Hp & Hc)].
  - assert (Hemb : required_slot "token_embd.weight" Embedding 2 ∈ ag_parameter_slots g).
    { rewrite (dg_slots _ _ _ _ _ Hg). left. }
    destruct (Hall _ Hemb) as [?|(p & Hp & Hc)]; [done|].
    destruct (Hmapped p _ Hp Hc) as (q & Hq & Hn). by apply (Htie q).
  - destruct (Hmapped p _ Hp Hc) as (q & Hq & <-). apply list_elem_of_fmap_2. by apply Hkeep.
Qed.

(** C23: The loader's [bind] is complete: when renaming, building and binding
    succeed, the plan has exactly one binding per parameter slot of the
    graph, in the order of the slots, none is left unresolved, and each
    binds a parameter that the binder's checks accept for the slot. *)
Theorem loader_bind_complete id catalog overrides package catalog' plan :
  loader_bind content_digest built_in id catalog overrides = Ok (package, catalog', plan) ->
  pkg_id package = id /\ wf_graph (pkg_graph package) /\
  pb_slot_id <$> bp_bindings plan = slot_id <$> parameter_slots package /\
  bp_unresolved_optional_slots plan = [] /\
  forall slot, slot ∈ parameter_slots package -> exists p,
    parameters_by_name (cc_parameters catalog') !! slot_canonical_name slot = Some p /\
    fits_slot slot p.
Proof.
  unfold loader_bind. intros H. apply bind_Ok in H as (cat & Hname & H).
  apply bind_Ok in H as (pkg & Hpkg & H). apply bind_Ok in H as (pl & Hbind & [= <- <- <-]).
  unfold build_package, require in Hpkg.
  apply bind_Ok in Hpkg as (def & [Hdef <-]%ok_or_Ok%get_built_in & Hpkg).
  apply bind_Ok in Hpkg as (config & _ & Hpkg).
  apply bind_Ok in Hpkg as ([g b] & Hbuild & [= <-]).
  destruct (built_in_graph def config g b Hdef Hbuild) as (eps & O & S & Hg & HS).
  split; [apply Hg|]. split; [apply Hg|].
  unfold bind in Hbind. apply bind_Ok in Hbind as (st & Hst & [= <-]).
  apply bind_steps_Ok in Hst as [(Hb & Hu & Hfit) _]. cbn [bp_bindings bp_unresolved_optional_slots].
  set (slots := parameter_slots (from_module g config (ad_revision def))) in *.
  set (by_name := parameters_by_name (cc_parameters cat)) in *.
  assert (Hsome : forall slot, slot ∈ slots -> exists p,
    by_name !! slot_canonical_name slot = Some p /\ fits_slot slot p).
  { intros slot Hslot. specialize (Hfit slot Hslot). destruct (by_name !! _) as [p|]; [by exists p|].
    exfalso. revert Hfit. apply not_true_iff_false.
    assert (Hall : Forall (fun s => slot_optional s = false) slots).
    { change slots with (ag_parameter_slots g). rewrite (dg_slots _ _ _ _ _ Hg). apply Forall_app. split; [by constructor|].
      apply Forall_app. split; [done|]. by repeat constructor. }
    rewrite Forall_forall in Hall. by apply Hall. }
  rewrite Hb, Hu. clear -Hsome. split_and!; [| |exact Hsome].
  - induction slots as [|s l IH]; [done|]. cbn.
    destruct (Hsome s ltac:(left)) as (p & -> & _). cbn. f_equal. apply IH.
    intros slot Hs. apply Hsome. by right.
  - induction slots as [|s l IH]; [done|]. cbn [List.filter fmap list_fmap].
    destruct (Hsome s ltac:(left)) as (p & Ep & _). rewrite bool_decide_eq_false_2 by (rewrite Ep; done).
    apply IH. intros slot Hs. apply Hsome. by right.
Qed.

End Naming.
End BuiltIn.

(** ** Witnesses *)

Module RegistrySample.

(** A Llama checkpoint of one layer with tied embeddings. *)
Definition weight (key : string) (shape : list Z) : LogicalParameter :=
  {| lp_canonical_name := key; lp_role := infer_role key;
     lp_logical_type := {| lt_shape := shape; lt_element_type := F16 |};
     lp_encoding := plain F16; lp_components := []; lp_aliases := [key] |}.

Definition layer (suffix : string) : string := layer_key "model.layers." 0 suffix.

Definition catalog : CheckpointCatalog :=
  {| cc_container := {| ci_format_id := "safetensors"; ci_version := None; ci_magic := None |};
     cc_convention_id := "dense.hf"; cc_source_files := [];
     cc_metadata := <["num_layers" := JInt 1]> (∅ : gmap string (@Value serde)); cc_raw_entries := [];
     cc_parameters :=
       [weight "model.embed_tokens.weight" [32; 8]; weight "model.norm.weight" [8]]
       ++ ((fun s => weight (layer s) [8]) <$>
           ["input_layernorm.weight"; "post_attention_layernorm.weight"])
       ++ ((fun s => weight (layer s) [8; 8]) <$>
           ["self_attn.q_proj.weight"; "self_attn.k_proj.weight"; "self_attn.v_proj.weight";
            "self_attn.o_proj.weight"; "mlp.gate_proj.weight"; "mlp.up_proj.weight";
            "mlp.down_proj.weight"]);
     cc_schema_fingerprint := {| fp_digest := EmptyString; fp_entry_count := 0; fp_total_bytes := 0 |} |}.

End RegistrySample.

#[local] Instance sample_order : HashOrder := {|
  hash_iter m := map_to_list m; hash_iter_perm m := Permutation_refl _ |}.
#[local] Definition reverse_order : HashOrder := {|
  hash_iter m := rev (map_to_list m);
  hash_iter_perm m := Permutation_sym (Permutation_rev (map_to_list m)) |}.

Lemma resolve_order_independent_witness :
  resolve_architecture (HO := reverse_order) built_in (Some " llama.decoder") ∅ = Ok "llama.decoder" /\
  exists def, def ∈ built_in_models /\ ad_id def = "llama.decoder".
Proof.
  assert (H : resolve_architecture (HO := sample_order) built_in (Some " llama.decoder") ∅
              = Ok "llama.decoder") by by_vm.
  destruct (resolve_order_independent sample_order reverse_order (Some " llama.decoder") ∅
    "llama.decoder") as [Hiff [Hin _]].
  split; [exact (proj1 Hiff H)|exact (Hin H)].
Defined.

Lemma apply_naming_renames_witness :
  exists catalog', apply_naming sample_digest built_in "llama.decoder" RegistrySample.catalog
    = Ok catalog' /\ cc_raw_entries catalog' = [].
Proof.
  assert (Hok : is_Ok (apply_naming sample_digest built_in "llama.decoder" RegistrySample.catalog)
                = true) by by_vm.
  destruct (apply_naming sample_digest built_in "llama.decoder" RegistrySample.catalog)
    as [catalog'| |] eqn:E; [|discriminate Hok..].
  exists catalog'. split; [reflexivity|].
  destruct (apply_naming_renames sample_digest "llama.decoder" RegistrySample.catalog catalog' E)
    as (def & _ & _ & _ & _ & Hraw & _). exact Hraw.
Defined.

Lemma loader_bind_complete_witness :
  exists package catalog' plan,
    loader_bind sample_digest built_in "llama.decoder" RegistrySample.catalog ∅
      = Ok (package, catalog', plan) /\ bp_unresolved_optional_slots plan = [].
Proof.
  assert (Hok : is_Ok (loader_bind sample_digest built_in "llama.decoder" RegistrySample.catalog ∅)
                = true) by by_vm.
  destruct (loader_bind sample_digest built_in "llama.decoder" RegistrySample.catalog ∅)
    as [[[package catalog'] plan]| |] eqn:E; [|discriminate Hok..].
  exists package, catalog', plan. split; [reflexivity|].
  destruct (loader_bind_complete sample_digest "llama.decoder" RegistrySample.catalog ∅ package
    catalog' plan E) as (_ & _ & _ & Hu & _). exact Hu.
Defined.

(** [naming_fills_slots]'s completeness condition, as a check. *)
#[local] Definition complete_for (def : ArchitectureDefinition) (g : ArchitectureGraph)
    (catalog : CheckpointCatalog) : bool :=
  forallb (fun s => String.eqb (slot_canonical_name s) "output.weight"
    || existsb (fun p => bool_decide (canonical_of def p = Some (slot_canonical_name s)))
         (cc_parameters catalog)) (ag_parameter_slots g).

#[local] Definition one_layer : ResolvedModelConfig :=
  match resolve Llama.CONFIG_SCHEMA (<["num_layers" := JInt 1]> (∅ : gmap string (@Value serde))) ∅ ∅
  with Ok c => c | _ => {| values := ∅ |} end.

Lemma complete_for_spec def g catalog :
  complete_for def g catalog = true -> forall s, s ∈ ag_parameter_slots g ->
  slot_canonical_name s = "output.weight" \/
  exists p, p ∈ cc_parameters catalog /\ canonical_of def p = Some (slot_canonical_name s).
Proof.
  unfold complete_for. rewrite forallb_forall. intros H s Hs%list_elem_of_In%H.
  apply orb_prop in Hs as [Hs%String.eqb_eq|Hs]; [by left|right].
  apply existsb_exists in Hs as (p & Hp & Hc%bool_decide_eq_true_1).
  exists p. by split; [apply list_elem_of_In|].
Qed.

Lemma naming_fills_slots_witness :
  exists catalog' p,
    apply_naming sample_digest built_in "llama.decoder" RegistrySample.catalog = Ok catalog' /\
    parameters_by_name (cc_parameters catalog') !! "output.weight" = Some p.
Proof.
  assert (Hok : is_Ok (apply_naming sample_digest built_in "llama.decoder" RegistrySample.catalog)
                = true) by by_vm.
  destruct (apply_naming sample_digest built_in "llama.decoder" RegistrySample.catalog)
    as [catalog'| |] eqn:E; [|discriminate Hok..].
  assert (Hb : match ad_build Llama.architecture one_layer (start "llama.decoder") with
    | Ok (g, _) => complete_for Llama.architecture g RegistrySample.catalog
        && bool_decide (required_slot "output.weight" Output 2 ∈ ag_parameter_slots g)
    | _ => false end = true).
  { by_vm. }
  destruct (ad_build Llama.architecture one_layer (start "llama.decoder")) as [[g b]| |] eqn:Eb;
    [|discriminate Hb..].
  apply andb_prop in Hb as [Hc Hs]. apply bool_decide_eq_true_1 in Hs.
  destruct (naming_fills_slots sample_digest Llama.architecture one_layer g b RegistrySample.catalog
    catalog' _ ltac:(left) Eb E (complete_for_spec _ _ _ Hc) Hs) as [p Hp].
  exists catalog', p. split; [reflexivity|exact Hp].
Defined.
