(* ===== verification/Tokenizer.v ===== *)
(** * The BPE tokenizer: crates/dyninfer-runtime/src/tokenizer_bpe.rs

    The tables built from a parsed [tokenizer.json], the merge loop, encoding
    with atomic special pieces, and decoding. *)
From S2P Require Import Prelude Strings Errors Serde.
From Stdlib Require Import ZArith Lia Ascii String.
From stdpp Require Import base list strings gmap.
From stdpp Require Import options.

Local Open Scope Z_scope.

Definition SPACE_MARK : string := string_of_bytes (map byte_of [226; 150; 129]).
Definition GPT2_SPACE : string := utf8_encode 288.

(** ** Data *)

Record AddedToken := { at_id : Z; at_content : string; at_special : bool }.

Inductive MergeEntry : Type :=
  | MergeStr (s : string)
  | MergePair (v : list string).

Inductive TokenizerKind : Set := SentencePiece | ByteLevel.
#[export] Instance TokenizerKind_eq_dec : EqDecision TokenizerKind.
Proof. solve_decision. Defined.

Record TokenizerFile {SJ : SerdeJson} := {
  tf_added_tokens : list AddedToken;
  tf_vocab : gmap string Z;
  tf_merges : list MergeEntry;
  tf_byte_fallback : bool;
  tf_decoder : option Value;
}.

(** [ChatTemplate] is the rendering function of the template library. *)
Definition ChatTemplate : Type := string -> bool -> result text string.

Record BpeTokenizer := {
  bt_kind : TokenizerKind;
  bt_token_to_id : gmap string Z;
  bt_id_to_token : list string;
  bt_merges : gmap (string * string) Z;
  bt_byte_fallback : bool;
  bt_bos_id : option Z;
  bt_eos_id : option Z;
  bt_special_ids : list Z;
  bt_special_pieces : list (string * Z);
  bt_chat_template : option ChatTemplate;
  bt_byte_decoder : gmap string Z;
}.

(** ** gpt2_bytes_to_unicode *)

Definition byte_range (lo hi : Z) : list Z :=
  (fun n => lo + Z.of_nat n) <$> seq 0 (Z.to_nat (hi - lo + 1)).

Definition printable_bytes : list Z :=
  byte_range 33 126 ++ byte_range 161 172 ++ byte_range 174 255.

(** The pairs of a byte and the code point that stands for it. *)
Definition gpt2_pairs : list (Z * Z) :=
  let '(pairs, _) := foldl (fun '(pairs, n) b =>
      if bool_decide (b ∈ printable_bytes) then (pairs, n) else (pairs ++ [(b, 256 + n)], n + 1))
    ((fun b => (b, b)) <$> printable_bytes, 0) (byte_range 0 255) in
  pairs.

Definition gpt2_enc : gmap Z string :=
  foldl (fun m bc => <[bc.1 := utf8_encode bc.2]> m) ∅ gpt2_pairs.
Definition gpt2_dec : gmap string Z :=
  foldl (fun m bc => <[utf8_encode bc.2 := bc.1]> m) ∅ gpt2_pairs.

(** ** Building the tables *)

(** [v.resize(i + 1, String::new())] when needed, then [v[i] = s]. *)
Definition set_token (v : list string) (i : Z) (s : string) : list string :=
  let n := Z.to_nat i in
  <[n := s]> (if (length v <=? n)%nat then v ++ replicate (S n - length v) EmptyString else v).

Definition merge_pair (entry : MergeEntry) : option (string * string) :=
  match entry with
  | MergeStr s =>
      Some (match split_once " " s with Some (a, b) => (a, b) | None => (s, EmptyString) end)
  | MergePair (a :: b :: _) => Some (a, b)
  | MergePair _ => None
  end.

(** [(rank, entry)] in order; a repeated pair keeps its last rank. *)
Definition merge_table (entries : list MergeEntry) : gmap (string * string) Z :=
  (foldl (fun '(m, rank) entry =>
     (match merge_pair entry with Some p => <[p := wrap32 rank]> m | None => m end, rank + 1))
   (∅, 0) entries).1.

Definition find_added (tokens : list AddedToken) (contents : list string) : option Z :=
  at_id <$> List.find (fun t => bool_decide (at_content t ∈ contents)) tokens.

(** [b.0.len().cmp(&a.0.len())] *)
Definition longer_first (a b : string * Z) : bool := strlen b.1 <=? strlen a.1.

Section Load.
Context {SJ : SerdeJson}.
(** The order in which the hash map of the vocabulary is visited. *)
Context (vocab_iter : gmap string Z -> list (string * Z)).

Definition json_get (v : Value) (key : string) : option Value :=
  members ← as_object v; snd <$> List.find (fun kv => String.eqb kv.1 key) members.

(** [depth] bounds the nesting, which the JSON parser limits. *)
Fixpoint decoder_is_byte_level (depth : nat) (v : Value) : bool :=
  match depth with
  | O => false
  | S depth =>
      match as_object v with
      | None => false
      | Some _ =>
          bool_decide ((json_get v "type" ≫= as_str) = Some "ByteLevel") ||
          match json_get v "decoders" ≫= as_array with
          | Some arr => existsb (decoder_is_byte_level depth) arr
          | None => false
          end
      end
  end.

Definition detect_kind (depth : nat) (tf : TokenizerFile) : TokenizerKind :=
  let keys := (map_to_list (tf_vocab tf)).*1 in
  if match tf_decoder tf with Some dec => decoder_is_byte_level depth dec | None => false end
  then ByteLevel
  else
    let has_gpt2 := existsb (starts_with GPT2_SPACE) keys in
    let has_sp := existsb (starts_with SPACE_MARK) keys in
    if has_gpt2 && negb has_sp then ByteLevel else SentencePiece.

Definition add_token (st : gmap string Z * list string * list (string * Z)) (a : AddedToken)
    : gmap string Z * list string * list (string * Z) :=
  let '(token_to_id, id_to_token, special_pieces) := st in
  (<[at_content a := at_id a]> token_to_id,
   set_token id_to_token (at_id a) (at_content a),
   if at_special a || starts_with "<|" (at_content a)
   then special_pieces ++ [(at_content a, at_id a)] else special_pieces).

(** [from_bytes] after the JSON parser. *)
Definition from_tokenizer_file (depth : nat) (tf : TokenizerFile) : Result BpeTokenizer :=
  if bool_decide (tf_vocab tf = ∅) then Err (io (lit "tokenizer vocab is empty"))
  else
    let added := tf_added_tokens tf in
    let max_id := foldr Z.max 0 ((vocab_iter (tf_vocab tf)).*2 ++ map at_id added) in
    let id_to_token := foldl (fun v '(tok, id) => set_token v id tok)
      (replicate (Z.to_nat max_id + 1) EmptyString) (vocab_iter (tf_vocab tf)) in
    let '(token_to_id, id_to_token, special_pieces) :=
      foldl add_token (tf_vocab tf, id_to_token, []) added in
    let kind := detect_kind depth tf in
    let eos_id := option_map at_id (List.find (fun t => bool_decide (at_content t ∈
        ["</s>"; "<|endoftext|>"; "<|im_end|>"; "<|eot_id|>"])) added) in
    let eos_id := match eos_id with
                  | Some id => Some id
                  | None => find_added added ["<|endoftext|>"]
                  end in
    Ok {| bt_kind := kind; bt_token_to_id := token_to_id; bt_id_to_token := id_to_token;
          bt_merges := merge_table (tf_merges tf); bt_byte_fallback := tf_byte_fallback tf;
          bt_bos_id := find_added added ["<s>"; "<|begin_of_text|>"];
          bt_eos_id := match find_added added ["<|im_end|>"] with
                       | Some id => Some id
                       | None => eos_id
                       end;
          bt_special_ids := map at_id (List.filter at_special added);
          bt_special_pieces := stable_sort longer_first special_pieces;
          bt_chat_template := None;
          bt_byte_decoder := if bool_decide (kind = ByteLevel) then gpt2_dec else ∅ |}.

End Load.

(** ** The tokenizer's methods *)

Section Tokenizer.
Variable tok : BpeTokenizer.

Definition is_byte_level : bool := bool_decide (bt_kind tok = ByteLevel).

(** Also [piece_id]. *)
Definition token_id (piece : string) : option Z := bt_token_to_id tok !! piece.

Definition has_chatml_markers : bool :=
  bool_decide (is_Some (token_id "<|im_start|>")) && bool_decide (is_Some (token_id "<|im_end|>")).

Definition line_break : string := String newline EmptyString.

Definition apply_chat_template (user : string) (enable_thinking : bool) : Result (option string) :=
  if contains "<|im_start|>" user then Ok None
  else match bt_chat_template tok with
  | Some render =>
      match render user enable_thinking with
      | Ok rendered => Ok (Some rendered)
      | Err e => Err (io (Format "chat_template render failed: {e}" [AText e]))
      | Panic why => Panic why
      end
  | None =>
      if negb has_chatml_markers then Ok None
      else
        let out := concat_strings ["<|im_start|>user"; line_break; user; "<|im_end|>"; line_break;
                                   "<|im_start|>assistant"; line_break] in
        Ok (Some (if enable_thinking then out
                  else concat_strings [out; "<think>"; line_break; line_break; "</think>";
                                       line_break; line_break]))
  end.

Definition normalize_sp (text : string) : string :=
  String.append SPACE_MARK
    (concat_strings (map (fun ch => if String.eqb ch " " then SPACE_MARK else ch) (chars text))).

Definition initial_pieces_sp (normalized : string) : list string :=
  flat_map (fun ch =>
    match token_id ch with
    | Some _ => [ch]
    | None =>
        if bt_byte_fallback tok
        then map (fun b => String.append "<0x" (String.append (hex2 (u8 b)) ">")) (bytes_of_string ch)
        else ["<unk>"]
    end) (chars normalized).

(** [enc[b]] panics on a byte that is missing from the map. *)
Definition initial_pieces_byte_level (text : string) : Result (list string) :=
  try_map (fun b => match gpt2_enc !! u8 b with
                    | Some c => Ok c
                    | None => Panic "no entry found for key"
                    end) (bytes_of_string text).

(** The scan for the pair of neighbours of least rank: the first one. *)
Fixpoint best_pair (i : nat) (pieces : list string) (best_rank : Z) (best_i : option nat)
    : option nat :=
  match pieces with
  | a :: ((b :: _) as pieces') =>
      match bt_merges tok !! (a, b) with
      | Some rank =>
          if rank <? best_rank then best_pair (S i) pieces' rank (Some i)
          else best_pair (S i) pieces' best_rank best_i
      | None => best_pair (S i) pieces' best_rank best_i
      end
  | _ => best_i
  end.

(** [pieces[i] = pieces[i] + pieces[i + 1]; pieces.remove(i + 1)] *)
Fixpoint merge_at (i : nat) (pieces : list string) : list string :=
  match i, pieces with
  | O, a :: b :: pieces => String.append a b :: pieces
  | S i, a :: pieces => a :: merge_at i pieces
  | _, _ => pieces
  end.

(** The merge loop; [None] when [fuel] turns do not end it. *)
Fixpoint merge_loop (fuel : nat) (pieces : list string) : option (list string) :=
  match fuel with
  | O => None
  | S fuel =>
      match best_pair 0 pieces u32_max None with
      | None => Some pieces
      | Some i => merge_loop fuel (merge_at i pieces)
      end
  end.

Definition bpe_merge (fuel : nat) (pieces : list string) : option (list string) :=
  if (length pieces <=? 1)%nat then Some pieces else merge_loop fuel pieces.

Definition id_of_piece (p : string) : Z :=
  match token_id p with
  | Some id => id
  | None => default 0 (token_id "<unk>")
  end.

Definition encode_ordinary (fuel : nat) (text : string) : option (Result (list Z)) :=
  if bool_decide (text = EmptyString) then Some (Ok [])
  else
    match (match bt_kind tok with
           | SentencePiece => Ok (initial_pieces_sp (normalize_sp text))
           | ByteLevel => initial_pieces_byte_level text
           end) with
    | Ok pieces =>
        pieces ← bpe_merge fuel pieces;
        Some (Ok (map id_of_piece pieces))
    | Err e => Some (Err e)
    | Panic why => Some (Panic why)
    end.

(** The first special piece in [rest], the longest one at that position. *)
Definition special_at (rest : string) : option (nat * string * Z) :=
  foldl (fun at_best '(piece, id) =>
    match str_find piece rest with
    | Some pos =>
        match at_best with
        | Some (best, _, _) => if (pos <? best)%nat then Some (pos, piece, id) else at_best
        | None => Some (pos, piece, id)
        end
    | None => at_best
    end) None (bt_special_pieces tok).

(** [ids.extend(f()?)], with the inner loop's divergence passed on. *)
Definition extend (ids : list Z) (more : option (Result (list Z))) : option (Result (list Z)) :=
  r ← more; Some (l ← r; Ok (ids ++ l)).

(** The loop over the rest of the text. *)
Fixpoint encode_loop (fuel : nat) (merge_fuel : nat) (ids : list Z) (rest : string)
    : option (Result (list Z)) :=
  match fuel with
  | O => None
  | S fuel =>
      if bool_decide (rest = EmptyString) then Some (Ok ids)
      else
        match special_at rest with
        | None => extend ids (encode_ordinary merge_fuel rest)
        | Some (pos, piece, id) =>
            r ← (if (0 <? pos)%nat then extend ids (encode_ordinary merge_fuel (str_take pos rest))
                 else Some (Ok ids));
            match r with
            | Ok ids =>
                encode_loop fuel merge_fuel (ids ++ [id]) (str_drop (pos + String.length piece) rest)
            | other => Some other
            end
        end
  end.

Definition encode (fuel merge_fuel : nat) (text : string) (add_special_tokens : bool)
    : option (Result (list Z)) :=
  let ids := if add_special_tokens
             then match bt_bos_id tok with Some bos => [bos] | None => [] end
             else [] in
  encode_loop fuel merge_fuel ids text.

Definition is_special (id : Z) : bool :=
  bool_decide (Some id = bt_bos_id tok) || bool_decide (Some id = bt_eos_id tok)
  || bool_decide (id ∈ bt_special_ids tok).

(** The token a decoder reads for an id; [None] is [continue]. *)
Definition token_of (skip_special_tokens : bool) (id : Z) : option string :=
  if skip_special_tokens && is_special id then None
  else
    let t := default EmptyString (bt_id_to_token tok !! Z.to_nat id) in
    if bool_decide (t = EmptyString) then None else Some t.

Definition flush_bytes (st : bytes * string) : string :=
  match st.1 with [] => st.2 | _ => String.append st.2 (from_utf8_lossy st.1) end.

(** The byte a fallback token [<0xHH>] stands for. *)
Definition fallback_byte (t : string) : option Z :=
  hex ← (Prelude.strip_prefix "<0x" t ≫= Prelude.strip_suffix ">"); parse_hex_u8 hex.

Definition decode_sp (ids : list Z) (skip_special_tokens : bool) : string :=
  let st := foldl (fun st id =>
      match token_of skip_special_tokens id with
      | None => st
      | Some t =>
          match fallback_byte t with
          | Some b => (st.1 ++ [byte_of b], st.2)
          | None => ([], String.append (flush_bytes st) t)
          end
      end) ([], EmptyString) ids in
  let text := flush_bytes st in
  trim_start (str_replace (String.length text) SPACE_MARK " " text).

Definition decode_byte_level (ids : list Z) (skip_special_tokens : bool) : string :=
  let text := concat_strings (map (fun id =>
      match token_of skip_special_tokens id with
      | None => EmptyString
      | Some t =>
          if starts_with "<|" t && ends_with "|>" t then
            (if skip_special_tokens then EmptyString else t)
          else t
      end) ids) in
  from_utf8_lossy (flat_map (fun ch =>
    match bt_byte_decoder tok !! ch with
    | Some b => [byte_of b]
    | None => if String.eqb ch GPT2_SPACE then [" "%char] else bytes_of_string ch
    end) (chars text)).

Definition decode (ids : list Z) (skip_special_tokens : bool) : Result string :=
  Ok (match bt_kind tok with
      | SentencePiece => decode_sp ids skip_special_tokens
      | ByteLevel => decode_byte_level ids skip_special_tokens
      end).

End Tokenizer.

(** * The merge loop *)

Section Merge.
Variable tok : BpeTokenizer.

(** The rank of the pair at position [i]. *)
Definition rank_at (pieces : list string) (i : nat) : option Z :=
  a ← pieces !! i; b ← pieces !! S i; bt_merges tok !! (a, b).

(** One merge: the first pair among those of least rank, below [u32::MAX]. *)
Definition merge_step (pieces pieces' : list string) : Prop :=
  exists i rank, rank_at pieces i = Some rank /\ rank < u32_max /\
    (forall j r, rank_at pieces j = Some r -> rank <= r /\ ((j < i)%nat -> rank < r)) /\
    pieces' = merge_at i pieces.

Lemma rank_at_cons a pieces i : rank_at (a :: pieces) (S i) = rank_at pieces i.
Proof. done. Qed.

Lemma best_pair_cons a b pieces k best_rank best_i :
  best_pair tok k (a :: b :: pieces) best_rank best_i =
  match rank_at (a :: b :: pieces) 0 with
  | Some rank =>
      if rank <? best_rank then best_pair tok (S k) (b :: pieces) rank (Some k)
      else best_pair tok (S k) (b :: pieces) best_rank best_i
  | None => best_pair tok (S k) (b :: pieces) best_rank best_i
  end.
Proof. reflexivity. Qed.

(** What a scan from position [k] on finds: the first pair of least rank below
    [best_rank], or what it started with. *)
Definition scanned (pieces : list string) (k : nat) (best_rank : Z) (best_i found : option nat)
    : Prop :=
  found = best_i /\ (forall j r, rank_at pieces j = Some r -> best_rank <= r) \/
  exists i rank, found = Some (k + i)%nat /\ rank_at pieces i = Some rank /\ rank < best_rank /\
    forall j r, rank_at pieces j = Some r -> rank <= r /\ ((j < i)%nat -> rank < r).

Lemma scanned_skip a pieces k best_rank best_i found :
  (forall r, rank_at (a :: pieces) 0 = Some r -> best_rank <= r) ->
  scanned pieces (S k) best_rank best_i found -> scanned (a :: pieces) k best_rank best_i found.
Proof.
  intros H0 [[-> Hall]|(i & r & -> & Hi & Hlt & Hall)].
  - left. split; [done|]. intros [|j] r Hr; [by apply H0|by apply (Hall j)].
  - right. exists (S i), r. split; [f_equal; lia|]. split; [done|]. split; [done|].
    intros [|j] r' Hr'; [specialize (H0 r' Hr'); lia|].
    destruct (Hall j r' Hr') as [? Hj]. split; [done|]. intros. apply Hj. lia.
Qed.

Lemma scanned_take a pieces k rank best_rank best_i found :
  rank_at (a :: pieces) 0 = Some rank -> rank < best_rank ->
  scanned pieces (S k) rank (Some k) found -> scanned (a :: pieces) k best_rank best_i found.
Proof.
  intros H0 Hlt0 [[-> Hall]|(i & r & -> & Hi & Hlt & Hall)]; right.
  - exists 0%nat, rank. split; [f_equal; lia|]. split; [done|]. split; [done|].
    intros [|j] r Hr; [assert (r = rank) by congruence; lia|].
    split; [by apply (Hall j)|lia].
  - exists (S i), r. split; [f_equal; lia|]. split; [done|]. split; [lia|].
    intros [|j] r' Hr'; [assert (r' = rank) by congruence; lia|].
    destruct (Hall j r' Hr') as [? Hj]. split; [done|]. intros. apply Hj. lia.
Qed.

Lemma best_pair_spec pieces k best_rank best_i :
  scanned pieces k best_rank best_i (best_pair tok k pieces best_rank best_i).
Proof.
  revert k best_rank best_i. induction pieces as [|a [|b pieces] IH]; intros k best_rank best_i.
  - left. split; [done|]. by intros [|j] r.
  - left. split; [done|]. by intros [|[|j]] r.
  - rewrite best_pair_cons. destruct (rank_at (a :: b :: pieces) 0) as [rank|] eqn:E;
      [destruct (Z.ltb_spec rank best_rank)|].
    + by eapply scanned_take.
    + apply scanned_skip; [|done]. intros r Hr. assert (r = rank) by congruence. lia.
    + apply scanned_skip; [|done]. congruence.
Qed.

Lemma merge_at_spec i pieces :
  is_Some (rank_at pieces i) ->
  length (merge_at i pieces) = (length pieces - 1)%nat /\
  concat_strings (merge_at i pieces) = concat_strings pieces.
Proof.
  revert pieces. induction i as [|i IH]; intros [|a pieces] [r Hr]; try done.
  - destruct pieces as [|b pieces]; [done|]. cbn. split; [lia|]. apply append_assoc.
  - rewrite rank_at_cons in Hr. destruct (IH pieces (ex_intro _ r Hr)) as [Hl Hc].
    destruct pieces as [|b pieces]; [done|].
    cbn [merge_at length concat_strings foldr]. unfold concat_strings in *.
    rewrite Hl, Hc. cbn [length]. split; [lia|done].
Qed.

Lemma merge_step_shrinks pieces pieces' :
  merge_step pieces pieces' ->
  (length pieces' < length pieces)%nat /\ concat_strings pieces' = concat_strings pieces.
Proof.
  intros (i & rank & Hi & _ & _ & ->). destruct (merge_at_spec i pieces ltac:(by exists rank)) as [-> ->].
  split; [|done]. destruct pieces; [done|cbn; lia].
Qed.

Lemma merge_loop_spec fuel pieces :
  (length pieces <= fuel)%nat -> (0 < fuel)%nat ->
  exists out, (forall f, (fuel <= f)%nat -> merge_loop tok f pieces = Some out) /\
    rtc merge_step pieces out /\ nf merge_step out.
Proof.
  revert pieces. induction fuel as [|fuel IH]; intros pieces Hn Hpos; [lia|].
  destruct (best_pair_spec pieces 0 u32_max None) as [[Hb Hall]|(i & rank & Hb & Hi & Hlt & Hall)].
  - exists pieces. split; [|split; [done|]].
    + intros [|f] Hf; [lia|]. cbn. by rewrite Hb.
    + intros (p' & i & rank & Hi & Hlt & _). specialize (Hall i rank Hi). lia.
  - assert (Hs : merge_step pieces (merge_at i pieces)) by (by exists i, rank).
    destruct (merge_step_shrinks _ _ Hs) as [Hl _].
    destruct (IH (merge_at i pieces)) as (out & Hout & Hr & Hnf); [lia| |].
    + destruct (merge_at_spec i pieces ltac:(by exists rank)) as [Hl' _].
      unfold rank_at in Hi. destruct pieces as [|a [|b pieces]]; [done| |cbn in Hn; lia].
      destruct i as [|[|i]]; done.
    + exists out. split; [|split; [by eapply rtc_l|done]].
      intros [|f] Hf; [lia|]. cbn. rewrite Hb. apply Hout. lia.
Qed.

(** C30: The merge loop terminates: as many turns as there are pieces are
    enough, and then it has performed a sequence of merges, each of the first
    pair among those of least rank, until no known pair was left; merging never
    changes the text the pieces spell. *)
Theorem bpe_merge_total pieces :
  exists out, (forall fuel, (length pieces <= fuel)%nat -> bpe_merge tok fuel pieces = Some out) /\
    rtc merge_step pieces out /\ nf merge_step out /\
    concat_strings out = concat_strings pieces /\ (length out <= length pieces)%nat.
Proof.
  assert (Hinv : forall out, rtc merge_step pieces out ->
    concat_strings out = concat_strings pieces /\ (length out <= length pieces)%nat).
  { induction 1 as [|x y z Hs _ [IHc IHl]]; [done|].
    apply merge_step_shrinks in Hs as [Hl <-]. split; [done|lia]. }
  unfold bpe_merge. destruct (Nat.leb_spec (length pieces) 1) as [Hle|Hgt].
  - exists pieces. split; [done|]. split; [done|]. split; [|by apply Hinv].
    intros (p' & i & rank & Hi & _). unfold rank_at in Hi.
    destruct pieces as [|a [|b pieces]]; [done| |cbn in Hle; lia]. by destruct i as [|[|i]].
  - destruct (merge_loop_spec (length pieces) pieces) as (out & Hout & Hr & Hnf); [lia|lia|].
    exists out. split; [exact Hout|]. split; [done|]. split; [done|]. by apply Hinv.
Qed.

End Merge.

(** * Encoding *)

Section Encode.
Variable tok : BpeTokenizer.

Lemma gpt2_enc_total b : is_Some (gpt2_enc !! u8 b).
Proof.
  assert (H : forallb (fun n => bool_decide (is_Some (gpt2_enc !! n))) (byte_range 0 255) = true)
    by by_vm.
  rewrite forallb_forall in H. eapply bool_decide_eq_true_1, H. apply list_elem_of_In.
  unfold byte_range. apply list_elem_of_fmap. exists (Z.to_nat (u8 b)). pose proof (u8_range b).
  split; [lia|]. apply elem_of_seq. lia.
Qed.

Lemma initial_pieces_byte_level_Ok text :
  exists pieces, initial_pieces_byte_level text = Ok pieces /\
    Forall2 (fun b c => gpt2_enc !! u8 b = Some c) (bytes_of_string text) pieces.
Proof.
  unfold initial_pieces_byte_level.
  induction (bytes_of_string text) as [|b bs (pieces & Hp & IH)]; cbn [try_map]; [by exists []|].
  destruct (gpt2_enc_total b) as [c Hc]. rewrite Hc. cbn. rewrite Hp. cbn.
  exists (c :: pieces). split; [done|by constructor].
Qed.

(** Enough fuel for the merges of a text. *)
Lemma encode_ordinary_total text :
  exists n ids, forall fuel, (n <= fuel)%nat -> encode_ordinary tok fuel text = Some (Ok ids).
Proof.
  unfold encode_ordinary. case_bool_decide; [by exists 0%nat, []|].
  destruct (bt_kind tok).
  - destruct (bpe_merge_total tok (initial_pieces_sp tok (normalize_sp text))) as (out & Hout & _).
    eexists _, _. intros fuel Hf. rewrite (Hout fuel Hf). reflexivity.
  - destruct (initial_pieces_byte_level_Ok text) as (pieces & -> & _).
    destruct (bpe_merge_total tok pieces) as (out & Hout & _).
    eexists _, _. intros fuel Hf. rewrite (Hout fuel Hf). reflexivity.
Qed.

(** What the search over the special pieces returns. *)
Definition special_found (rest : string) (pieces : list (string * Z))
    (found : option (nat * string * Z)) : Prop :=
  match found with
  | Some (pos, piece, id) =>
      (piece, id) ∈ pieces /\ str_find piece rest = Some pos /\
      forall q i n, (q, i) ∈ pieces -> str_find q rest = Some n -> (pos <= n)%nat
  | None => forall q i, (q, i) ∈ pieces -> str_find q rest = None
  end.

Lemma special_at_spec rest : special_found rest (bt_special_pieces tok) (special_at tok rest).
Proof.
  unfold special_at.
  enough (H : forall pieces seen found, special_found rest seen found ->
    special_found rest (seen ++ pieces) (foldl (fun at_best '(piece, id) =>
      match str_find piece rest with
      | Some pos =>
          match at_best with
          | Some (best, _, _) => if (pos <? best)%nat then Some (pos, piece, id) else at_best
          | None => Some (pos, piece, id)
          end
      | None => at_best
      end) found pieces)).
  { apply (H _ []). cbn. intros q i Hq. by apply elem_of_nil in Hq. }
  induction pieces as [|[p id] pieces IH]; intros seen found Hf; [by rewrite app_nil_r|].
  replace (seen ++ (p, id) :: pieces) with ((seen ++ [(p, id)]) ++ pieces) by (by rewrite <-app_assoc).
  cbn [foldl]. apply IH. clear IH.
  assert (Hin : forall q i, (q, i) ∈ seen ++ [(p, id)] -> (q, i) ∈ seen \/ q = p /\ i = id).
  { intros q i [H|H]%elem_of_app; [by left|]. apply list_elem_of_singleton in H as [= -> ->]. by right. }
  destruct (str_find p rest) as [pos|] eqn:Ep; destruct found as [[[best q0] i0]|]; unfold special_found in *.
  - destruct Hf as (Hq & Hfind & Hmin). destruct (Nat.ltb_spec pos best).
    + split; [apply elem_of_app; right; by left|]. split; [done|].
      intros q i n [Hs|[-> ->]]%Hin Hn; [specialize (Hmin q i n Hs Hn); lia|].
      assert (n = pos) by congruence. lia.
    + split; [by apply elem_of_app; left|]. split; [done|].
      intros q i n [Hs|[-> ->]]%Hin Hn; [by apply (Hmin q i)|]. assert (n = pos) by congruence. lia.
  - split; [apply elem_of_app; right; by left|]. split; [done|].
    intros q i n [Hs|[-> ->]]%Hin Hn; [|assert (n = pos) by congruence; lia].
    by rewrite (Hf q i Hs) in Hn.
  - destruct Hf as (Hq & Hfind & Hmin). split; [by apply elem_of_app; left|]. split; [done|].
    intros q i n [Hs|[-> ->]]%Hin Hn; [by apply (Hmin q i)|congruence].
  - intros q i [Hs|[-> ->]]%Hin; [by apply (Hf q i)|done].
Qed.

Lemma extend_total ids text :
  exists n ids', forall fuel, (n <= fuel)%nat ->
    extend ids (encode_ordinary tok fuel text) = Some (Ok ids').
Proof.
  destruct (encode_ordinary_total text) as (n & more & Hm).
  exists n, (ids ++ more). intros fuel Hf. by rewrite (Hm fuel Hf).
Qed.

Lemma encode_loop_total m ids rest :
  Forall (fun p => p.1 <> EmptyString) (bt_special_pieces tok) -> (String.length rest <= m)%nat ->
  exists n ids', forall fuel merge_fuel, (m < fuel)%nat -> (n <= merge_fuel)%nat ->
    encode_loop tok fuel merge_fuel ids rest = Some (Ok ids').
Proof.
  intros Hne. revert ids rest. induction m as [|m IH]; intros ids rest Hm.
  { exists 0%nat, ids. intros [|fuel] mf Hf _; [lia|]. destruct rest; [done|cbn in Hm; lia]. }
  destruct (decide (rest = EmptyString)) as [->|Hrest].
  { exists 0%nat, ids. intros [|fuel] mf Hf _; [lia|done]. }
  pose proof (special_at_spec rest) as Hs. destruct (special_at tok rest) as [[[pos piece] id]|] eqn:Es.
  - destruct Hs as (Hin & Hfind & _). rewrite Forall_forall in Hne. specialize (Hne _ Hin). cbn in Hne.
    apply str_find_le in Hfind.
    assert (Hlen : (0 < String.length piece)%nat) by (destruct piece; [done|cbn; lia]).
    destruct (extend_total ids (str_take pos rest)) as (n1 & ids1 & H1).
    set (ids2 := if (0 <? pos)%nat then ids1 else ids).
    destruct (IH (ids2 ++ [id]) (str_drop (pos + String.length piece) rest)) as (n2 & ids3 & H2).
    { rewrite length_str_drop. lia. }
    exists (max n1 n2), ids3. intros [|fuel] mf Hf Hmf; [lia|]. cbn [encode_loop].
    rewrite bool_decide_eq_false_2 by done. rewrite Es. unfold ids2 in H2.
    destruct (0 <? pos)%nat; [rewrite H1 by lia|]; cbn [mbind option_bind]; apply H2; lia.
  - destruct (extend_total ids rest) as (n & ids' & H). exists n, ids'.
    intros [|fuel] mf Hf Hmf; [lia|]. cbn [encode_loop].
    rewrite bool_decide_eq_false_2 by done. rewrite Es. by apply H.
Qed.

Lemma encode_loop_diverges fuel merge_fuel ids rest i :
  (EmptyString, i) ∈ bt_special_pieces tok -> rest <> EmptyString ->
  (forall p j, (p, j) ∈ bt_special_pieces tok -> p <> EmptyString -> starts_with p rest = false) ->
  encode_loop tok fuel merge_fuel ids rest = None.
Proof.
  intros Hempty Hrest Hno. revert ids. induction fuel as [|fuel IH]; intros ids; [done|].
  cbn [encode_loop]. rewrite bool_decide_eq_false_2 by done.
  pose proof (special_at_spec rest) as Hs. destruct (special_at tok rest) as [[[pos piece] id]|].
  - destruct Hs as (Hin & Hfind & Hmin).
    assert (pos = 0%nat) as ->.
    { specialize (Hmin _ _ 0%nat Hempty (str_find_empty rest)). lia. }
    assert (piece = EmptyString) as ->.
    { destruct (decide (piece = EmptyString)) as [?|Hne]; [done|].
      apply str_find_zero in Hfind. by rewrite (Hno _ _ Hin Hne) in Hfind. }
    cbn [Nat.ltb Nat.leb mbind option_bind String.length Nat.add]. apply IH.
  - specialize (Hs _ _ Hempty). by rewrite str_find_empty in Hs.
Qed.

(** C29: Encoding terminates when no special piece is empty: some fuel is
    enough for every larger one, and the result is a list of ids, never an
    error or a panic. An empty special piece makes it run forever on any text
    that does not start with another special piece: no fuel is enough. *)
Theorem encode_termination text add_special_tokens :
  (Forall (fun p => p.1 <> EmptyString) (bt_special_pieces tok) ->
   exists n ids, forall fuel merge_fuel, (n <= fuel)%nat -> (n <= merge_fuel)%nat ->
     encode tok fuel merge_fuel text add_special_tokens = Some (Ok ids)) /\
  (forall i, (EmptyString, i) ∈ bt_special_pieces tok -> text <> EmptyString ->
   (forall p j, (p, j) ∈ bt_special_pieces tok -> p <> EmptyString -> starts_with p text = false) ->
   forall fuel merge_fuel, encode tok fuel merge_fuel text add_special_tokens = None).
Proof.
  unfold encode. split.
  - intros Hne. destruct (encode_loop_total (String.length text)
      (if add_special_tokens then match bt_bos_id tok with Some bos => [bos] | None => [] end else [])
      text Hne ltac:(done)) as (n & ids & H).
    exists (S (max n (String.length text))), ids. intros fuel mf Hf Hmf. apply H; lia.
  - intros i Hin Htext Hno fuel mf. by eapply encode_loop_diverges.
Qed.

End Encode.

(** * The tables of a loaded tokenizer *)

Lemma set_token_same v i s : set_token v i s !! Z.to_nat i = Some s.
Proof.
  unfold set_token. apply list_lookup_insert_eq. destruct (Nat.leb_spec (length v) (Z.to_nat i)); [|done].
  rewrite length_app, length_replicate. lia.
Qed.

Lemma set_token_other v i s j t :
  j <> Z.to_nat i -> v !! j = Some t -> set_token v i s !! j = Some t.
Proof.
  intros Hj Ht. unfold set_token. rewrite list_lookup_insert_ne by done.
  destruct (Nat.leb _ _); [|done]. by rewrite lookup_app_l by (by eapply lookup_lt_Some).
Qed.

(** No id is given to two different tokens. *)
Definition ids_consistent (l : list (string * Z)) : Prop :=
  forall p q i j, (p, i) ∈ l -> (q, j) ∈ l -> Z.to_nat i = Z.to_nat j -> p = q.

Lemma set_tokens_lookup l v p i :
  ids_consistent l -> (p, i) ∈ l ->
  foldl (fun v '(tok, id) => set_token v id tok) v l !! Z.to_nat i = Some p.
Proof.
  revert v. induction l as [|[q j] l IH] using rev_ind; intros v Hc Hin; [by apply elem_of_nil in Hin|].
  rewrite foldl_app. cbn [foldl]. destruct (decide (Z.to_nat i = Z.to_nat j)) as [He|Hne].
  - rewrite He, set_token_same. f_equal. apply (Hc q p j i); [set_solver|done|done].
  - apply set_token_other; [done|]. apply IH.
    + intros p' q' i' j' H1 H2. apply Hc; apply elem_of_app; by left.
    + apply elem_of_app in Hin as [Hin|Hin]; [done|].
      apply list_elem_of_singleton in Hin as [= -> ->]. done.
Qed.

Definition added_pairs (added : list AddedToken) : list (string * Z) :=
  (fun a => (at_content a, at_id a)) <$> added.

Lemma add_tokens_lookup added st :
  let st' := foldl add_token st added in
  st'.1.2 = foldl (fun v '(tok, id) => set_token v id tok) st.1.2 (added_pairs added) /\
  (forall p i, st'.1.1 !! p = Some i -> (p, i) ∈ added_pairs added \/ st.1.1 !! p = Some i).
Proof.
  revert st. induction added as [|a added IH]; intros [[m v] sp]; cbn [foldl added_pairs fmap list_fmap].
  { split; [done|]. by right. }
  destruct (IH (add_token (m, v, sp) a)) as [H1 H2]. cbn in H1, H2. split; [exact H1|].
  intros p i [Hin|Hl]%H2; [left; by right|]. cbn in Hl.
  destruct (decide (p = at_content a)) as [->|Hne].
  - rewrite lookup_insert_eq in Hl. injection Hl as <-. left. by left.
  - rewrite lookup_insert_ne in Hl by done. by right.
Qed.

(** The tokens of a file, with the ids it gives them. *)
Definition file_tokens `{SJ : SerdeJson} (tf : TokenizerFile) : list (string * Z) :=
  map_to_list (tf_vocab tf) ++ added_pairs (tf_added_tokens tf).

Lemma loaded_tables `{SJ : SerdeJson} vocab_iter depth tf tok :
  (forall m, vocab_iter m ≡ₚ map_to_list m) ->
  from_tokenizer_file vocab_iter depth tf = Ok tok -> ids_consistent (file_tokens tf) ->
  (forall p i, token_id tok p = Some i -> bt_id_to_token tok !! Z.to_nat i = Some p) /\
  (bt_kind tok = ByteLevel -> bt_byte_decoder tok = gpt2_dec).
Proof.
  intros Hiter Hload Hc. unfold from_tokenizer_file in Hload.
  case_bool_decide as Hempty; [done|].
  set (empty := replicate _ EmptyString) in Hload.
  destruct (foldl add_token _ _) as [[m v] sp] eqn:E. injection Hload as <-.
  cbn [bt_id_to_token bt_kind bt_byte_decoder]. unfold token_id. cbn [bt_token_to_id].
  split; [|intros ->; done].
  pose proof (add_tokens_lookup (tf_added_tokens tf) (tf_vocab tf,
    foldl (fun v '(tok, id) => set_token v id tok) empty (vocab_iter (tf_vocab tf)), [])) as [Hv Hm].
  rewrite E in Hv, Hm. cbn in Hv, Hm. rewrite Hv, <-foldl_app.
  intros p i Hp. apply set_tokens_lookup.
  - intros p' q' i' j' H1 H2. apply Hc; unfold file_tokens; rewrite <-Hiter; done.
  - apply elem_of_app. destruct (Hm p i Hp) as [Hin|Hin]; [by right|left].
    rewrite Hiter. by apply elem_of_map_to_list.
Qed.

(** * The round trip of byte-level tokenizers *)

Lemma gpt2_enc_dec b c :
  gpt2_enc !! u8 b = Some c -> gpt2_dec !! c = Some (u8 b) /\ is_char c = true.
Proof.
  intros Hc. assert (H : forallb (fun n => match gpt2_enc !! n with
      | Some c => bool_decide (gpt2_dec !! c = Some n) && is_char c
      | None => true end) (byte_range 0 255) = true) by by_vm.
  rewrite forallb_forall in H. specialize (H (u8 b)). rewrite Hc in H.
  assert (Hin : In (u8 b) (byte_range 0 255)).
  { apply list_elem_of_In. unfold byte_range. apply list_elem_of_fmap. exists (Z.to_nat (u8 b)).
    pose proof (u8_range b). split; [lia|]. apply elem_of_seq. lia. }
  specialize (H Hin). apply andb_prop in H as [H1 H2]. apply bool_decide_eq_true in H1.
  exact (conj H1 H2).
Qed.

(** The ids of [pieces] are read back as [pieces]. *)
Definition readable (tok : BpeTokenizer) (p : string) : Prop :=
  is_Some (token_id tok p) /\ starts_with "<|" p && ends_with "|>" p = false /\
  is_special tok (id_of_piece tok p) = false.

Lemma pieces_nonempty l : Forall (fun c => is_char c = true) l -> Forall (fun c => c <> EmptyString) l.
Proof. intros H. eapply Forall_impl; [exact H|]. by intros [|a s]. Qed.

Lemma merge_step_nonempty tok l l' :
  merge_step tok l l' -> Forall (fun c => c <> EmptyString) l -> Forall (fun c => c <> EmptyString) l'.
Proof.
  intros (i & rank & _ & _ & _ & ->). revert l. induction i as [|i IH]; intros l Hl.
  - destruct Hl as [|a l Ha Hl]; [constructor|]. destruct Hl as [|b l Hb Hl]; cbn; [by repeat constructor|].
    constructor; [|done]. by destruct a.
  - destruct Hl as [|a l Ha Hl]; [constructor|]. cbn. constructor; [done|]. by apply IH.
Qed.

Lemma decode_pieces tok skip out :
  (forall p i, token_id tok p = Some i -> bt_id_to_token tok !! Z.to_nat i = Some p) ->
  Forall (fun c => c <> EmptyString) out -> Forall (readable tok) out ->
  concat_strings (map (fun id =>
      match token_of tok skip id with
      | None => EmptyString
      | Some t => if starts_with "<|" t && ends_with "|>" t then (if skip then EmptyString else t) else t
      end) (map (id_of_piece tok) out)) = concat_strings out.
Proof.
  intros Hids Hne Hr. induction Hr as [|p out ([i Hi] & Hm & Hs) _ IH]; [done|].
  apply Forall_cons in Hne as [Hp Hne]. cbn [map concat_strings foldr].
  change (foldr String.append EmptyString) with concat_strings. rewrite (IH Hne). f_equal.
  unfold token_of. rewrite Hs, andb_false_r. unfold id_of_piece. rewrite Hi, (Hids p i Hi).
  change (default EmptyString (Some p)) with p. rewrite bool_decide_eq_false_2 by done. by rewrite Hm.
Qed.

Lemma byte_decode bs pieces :
  Forall2 (fun b c => gpt2_enc !! u8 b = Some c) bs pieces ->
  flat_map (fun ch => match gpt2_dec !! ch with
    | Some b => [byte_of b]
    | None => if String.eqb ch GPT2_SPACE then [" "%char] else bytes_of_string ch
    end) pieces = bs.
Proof.
  induction 1 as [|b c bs pieces Hc _ IH]; [done|]. cbn [flat_map].
  destruct (gpt2_enc_dec b c Hc) as [-> _]. cbn [app]. by rewrite IH, byte_of_u8.
Qed.

(** C31: A byte-level tokenizer loses nothing: for a tokenizer loaded from a file
    that gives no id to two tokens, decoding the ids of a text gives the text
    back, whenever no special piece occurs in it and the pieces it is merged
    into are ordinary tokens of the vocabulary. *)
Theorem byte_level_roundtrip `{SJ : SerdeJson} vocab_iter depth tf tok text skip :
  (forall m, vocab_iter m ≡ₚ map_to_list m) ->
  from_tokenizer_file vocab_iter depth tf = Ok tok -> ids_consistent (file_tokens tf) ->
  bt_kind tok = ByteLevel -> utf8_valid (bytes_of_string text) = true -> text <> EmptyString ->
  (forall p i, (p, i) ∈ bt_special_pieces tok -> str_find p text = None) ->
  (forall pieces out, initial_pieces_byte_level text = Ok pieces ->
     bpe_merge tok (length pieces) pieces = Some out -> Forall (readable tok) out) ->
  exists n ids, (forall fuel merge_fuel, (n <= fuel)%nat -> (n <= merge_fuel)%nat ->
      encode tok fuel merge_fuel text false = Some (Ok ids)) /\
    decode tok ids skip = Ok text.
Proof.
  intros Hiter Hload Hc Hkind Hutf Htext Hno Hread.
  destruct (loaded_tables vocab_iter depth tf tok Hiter Hload Hc) as [Hids Hdec].
  specialize (Hdec Hkind).
  destruct (initial_pieces_byte_level_Ok text) as (pieces & Hp & Henc).
  destruct (bpe_merge_total tok pieces) as (out & Hout & Hrtc & _ & Hcat & _).
  specialize (Hread pieces out Hp (Hout _ ltac:(done))).
  assert (Hchars : Forall (fun c => is_char c = true) pieces).
  { clear -Henc. induction Henc as [|b c bs ps Hbc _ IH]; constructor; [|done].
    by destruct (gpt2_enc_dec b c Hbc). }
  assert (Hne : Forall (fun c => c <> EmptyString) out).
  { apply pieces_nonempty in Hchars. clear -Hrtc Hchars.
    induction Hrtc as [|x y z Hs _ IH]; [done|]. by apply IH, (merge_step_nonempty tok x). }
  exists (S (length pieces)), (map (id_of_piece tok) out). split.
  - intros [|fuel] mf Hf Hmf; [lia|]. unfold encode. cbn [encode_loop].
    rewrite bool_decide_eq_false_2 by done.
    pose proof (special_at_spec tok text) as Hs.
    destruct (special_at tok text) as [[[pos piece] id]|].
    { destruct Hs as (Hin & Hfind & _). by rewrite (Hno _ _ Hin) in Hfind. }
    unfold extend, encode_ordinary. rewrite bool_decide_eq_false_2 by done.
    rewrite Hkind, Hp, Hout by lia. reflexivity.
  - unfold decode. rewrite Hkind. unfold decode_byte_level. rewrite Hdec.
    rewrite decode_pieces by done. rewrite Hcat, chars_concat by done.
    rewrite (byte_decode _ _ Henc). by rewrite from_utf8_lossy_valid.
Qed.

(** * Witnesses *)

Module TokenizerSample.
Import Json.

Definition file : @TokenizerFile serde :=
  {| tf_added_tokens := [{| at_id := 4; at_content := "<|im_end|>"; at_special := true |}];
     tf_vocab := <["a" := 0]> (<["b" := 1]> (<["ab" := 2]> (<[GPT2_SPACE := 3]> ∅)));
     tf_merges := [MergeStr "a b"]; tf_byte_fallback := false; tf_decoder := None |}.

Definition tokenizer : BpeTokenizer :=
  match from_tokenizer_file map_to_list 8 file with
  | Ok t => t
  | _ => {| bt_kind := ByteLevel; bt_token_to_id := ∅; bt_id_to_token := []; bt_merges := ∅;
            bt_byte_fallback := false; bt_bos_id := None; bt_eos_id := None; bt_special_ids := [];
            bt_special_pieces := []; bt_chat_template := None; bt_byte_decoder := ∅ |}
  end.

Lemma loads : from_tokenizer_file map_to_list 8 file = Ok tokenizer.
Proof.
  unfold tokenizer. destruct (from_tokenizer_file map_to_list 8 file) eqn:E; [done| |];
    assert (Hok : is_Ok (from_tokenizer_file map_to_list 8 file) = true) by by_vm; by rewrite E in Hok.
Qed.

(** The same with an empty special token. *)
Definition broken : BpeTokenizer :=
  {| bt_kind := ByteLevel; bt_token_to_id := ∅; bt_id_to_token := []; bt_merges := ∅;
     bt_byte_fallback := false; bt_bos_id := None; bt_eos_id := None; bt_special_ids := [];
     bt_special_pieces := [(EmptyString, 7)]; bt_chat_template := None; bt_byte_decoder := gpt2_dec |}.

Example encodes : encode tokenizer 10 10 "ab ab" false = Some (Ok [2; 3; 2]).
Proof. by_vm. Qed.
Example decodes : decode tokenizer [2; 3; 2; 4] true = Ok "ab ab".
Proof. by_vm. Qed.
End TokenizerSample.

Lemma encode_termination_witness :
  (exists n ids, forall fuel merge_fuel, (n <= fuel)%nat -> (n <= merge_fuel)%nat ->
     encode TokenizerSample.tokenizer fuel merge_fuel "ab ab" false = Some (Ok ids)) /\
  (forall fuel merge_fuel, encode TokenizerSample.broken fuel merge_fuel "a" false = None).
Proof.
  split.
  - apply (proj1 (encode_termination TokenizerSample.tokenizer "ab ab" false)).
    assert (Hs : bt_special_pieces TokenizerSample.tokenizer = [("<|im_end|>", 4)]) by by_vm.
    rewrite Hs. by repeat constructor.
  - apply (proj2 (encode_termination TokenizerSample.broken "a" false) 7); [by left|done|].
    intros p j [[= -> ->]|Hin%elem_of_nil]%elem_of_cons; done.
Defined.

Lemma byte_level_roundtrip_witness :
  exists n ids, (forall fuel merge_fuel, (n <= fuel)%nat -> (n <= merge_fuel)%nat ->
      encode TokenizerSample.tokenizer fuel merge_fuel "ab ab" false = Some (Ok ids)) /\
    decode TokenizerSample.tokenizer ids false = Ok "ab ab".
Proof.
  apply (byte_level_roundtrip map_to_list 8 TokenizerSample.file TokenizerSample.tokenizer "ab ab" false).
  - intros m. reflexivity.
  - exact TokenizerSample.loads.
  - assert (Hall : forallb (fun x => forallb (fun y =>
      implb (Nat.eqb (Z.to_nat x.2) (Z.to_nat y.2)) (String.eqb x.1 y.1))
      (file_tokens TokenizerSample.file)) (file_tokens TokenizerSample.file) = true) by by_vm.
    intros p q i j Hp Hq Hij. rewrite forallb_forall in Hall.
    apply list_elem_of_In in Hp, Hq. specialize (Hall _ Hp). rewrite forallb_forall in Hall.
    specialize (Hall _ Hq). cbn [fst snd] in Hall. rewrite Hij, Nat.eqb_refl in Hall.
    by apply String.eqb_eq.
  - by_vm.
  - by_vm.
  - discriminate.
  - assert (Hs : bt_special_pieces TokenizerSample.tokenizer = [("<|im_end|>", 4)]) by by_vm.
    intros p i Hin. rewrite Hs in Hin. apply list_elem_of_singleton in Hin as [= -> ->]. reflexivity.
  - intros pieces out Hp Hout.
    assert (H : match initial_pieces_byte_level "ab ab" with
                | Ok pieces => bpe_merge TokenizerSample.tokenizer (length pieces) pieces
                | _ => None
                end = Some ["ab"; GPT2_SPACE; "ab"]) by by_vm.
    rewrite Hp, Hout in H. injection H as ->.
    assert (Hr : forallb (fun p => bool_decide (is_Some (token_id TokenizerSample.tokenizer p)) &&
        negb (starts_with "<|" p && ends_with "|>" p) &&
        negb (is_special TokenizerSample.tokenizer (id_of_piece TokenizerSample.tokenizer p)))
      ["ab"; GPT2_SPACE; "ab"] = true) by by_vm.
    apply Forall_forall. intros p Hin%list_elem_of_In. rewrite forallb_forall in Hr.
    specialize (Hr p Hin). apply andb_prop in Hr as [Hr H3]. apply andb_prop in Hr as [H1 H2].
    apply negb_true_iff in H2, H3. exact (conj (bool_decide_eq_true_1 _ H1) (conj H2 H3)).
Defined.
