(* ===== verification/Session.v ===== *)
(** * Sessions: crates/dyninfer-runtime/src/session.rs

    A session prefills a prompt once and then decodes token by token against
    the KV cache of its runtime context. The context calls the native runtime
    (crates/iree-runtime, a foreign library): its operations are the interface
    [IreeContext], and what a session relies on is [CausalContext]. *)
From S2P Require Import Prelude Errors Serde CoreTypes.
From Stdlib Require Import ZArith Lia Ascii String SpecFloat.
From stdpp Require Import base list strings gmap.
From stdpp Require Import options.

Local Open Scope Z_scope.

(** ** Computations on a mutable object

    The fields of the object keep what was written to them when a method
    returns an error. *)
Definition Method (S A : Type) : Type := S -> Result A * S.

#[export] Instance method_ret {S} : MRet (Method S) := fun A a s => (Ok a, s).
#[export] Instance method_bind {S} : MBind (Method S) := fun A B f m s =>
  match m s with
  | (Ok a, s) => f a s
  | (Err e, s) => (Err e, s)
  | (Panic why, s) => (Panic why, s)
  end.

Definition lift {S A} (r : Result A) : Method S A := fun s => (r, s).
Definition self {S} : Method S S := fun s => (Ok s, s).
Definition modify {S} (f : S -> S) : Method S unit := fun s => (Ok tt, f s).

(** ** The runtime context *)

Class IreeContext (Ctx : Type) := {
  (** layers, page size, K/V heads, head dimension, element bytes, chunk size,
      vocabulary *)
  configure_paged_kv : Z -> Z -> Z -> Z -> Z -> Z -> Z -> Method Ctx unit;
  reset_paged_kv : Method Ctx unit;
  ensure_kv_pages : Z -> Method Ctx unit;
  paged_kv_metrics : Method Ctx (Z * Z);
  (** window, last real index, start position, whether logits are wanted *)
  invoke_paged_chunk_ex : list Z -> Z -> Z -> bool -> Method Ctx (option (list f32) * Z);
  invoke_prefill : list Z -> Z -> Method Ctx (list f32);
  (** token, position, attention bias *)
  invoke_decode : Z -> Z -> list f32 -> Method Ctx (list f32);
}.

(** [expect] of an optional value. *)
Definition expect {A} (o : option A) (why : string) : Result A :=
  match o with Some a => Ok a | None => Panic why end.

(** iree-runtime lib.rs *)
Definition invoke_paged_chunk {Ctx} `{IreeContext Ctx} (tokens : list Z) (last start_pos : Z)
    : Method Ctx (list f32) :=
  '(logits, _) ← invoke_paged_chunk_ex tokens last start_pos true;
  lift (expect logits "want_logits").

(** -1.0e7 as an [f32]. *)
Definition masked : f32 := f32_of_bits 3407386240.

(** [0] for [j <= pos], else [-1e7]: iree-runtime lib.rs. *)
Definition fill_causal_attn_bias (pos max_kv : Z) : list f32 :=
  (fun j => if Z.of_nat j >? pos then masked else S754_zero false) <$>
    seq 0 (Z.to_nat (Z.max max_kv 1)).

(** ** generate.rs: argmax *)

Definition NEG_INFINITY : f32 := S754_infinity true.

(** The loop of [argmax]: position, best index, best value. *)
Fixpoint argmax_from (i best_i : Z) (best_v : f32) (logits : list f32) : Z :=
  match logits with
  | [] => best_i
  | v :: logits =>
      if SFltb best_v v then argmax_from (i + 1) i v logits
      else argmax_from (i + 1) best_i best_v logits
  end.
Definition argmax (logits : list f32) : TokenId := wrap32 (argmax_from 0 0 NEG_INFINITY logits).

(** ** The session *)

Section Session.
Context {SJ : SerdeJson} {Ctx : Type} {IC : IreeContext Ctx}.

Record IreeSession := {
  is_metadata : ModelMetadata;
  is_config : SessionConfig;
  is_kv : KvCacheDescriptor;
  is_prefill_window : Z;
  is_pad_token_id : TokenId;
  is_position : Z;
  is_history : list TokenId;
  is_context : Ctx;
  is_attn_bias : list f32;
}.

Definition session_new (metadata : ModelMetadata) (config : SessionConfig) (kv : KvCacheDescriptor)
    (prefill_window : Z) (context : Ctx) : IreeSession :=
  let pad := match mm_extra metadata !! "pad_token_id" with
             | Some v => Some v
             | None => mm_extra metadata !! "bos_token_id"
             end in
  {| is_metadata := metadata; is_config := config; is_kv := kv;
     is_prefill_window := Z.max prefill_window 1;
     is_pad_token_id := default 0 (v ← pad; n ← as_u64 v; Some (wrap32 n));
     is_position := 0; is_history := []; is_context := context; is_attn_bias := [] |}.

Definition set_position (p : Z) (s : IreeSession) : IreeSession :=
  {| is_metadata := is_metadata s; is_config := is_config s; is_kv := is_kv s;
     is_prefill_window := is_prefill_window s; is_pad_token_id := is_pad_token_id s;
     is_position := p; is_history := is_history s; is_context := is_context s;
     is_attn_bias := is_attn_bias s |}.
Definition set_history (h : list TokenId) (s : IreeSession) : IreeSession :=
  {| is_metadata := is_metadata s; is_config := is_config s; is_kv := is_kv s;
     is_prefill_window := is_prefill_window s; is_pad_token_id := is_pad_token_id s;
     is_position := is_position s; is_history := h; is_context := is_context s;
     is_attn_bias := is_attn_bias s |}.
Definition set_context (c : Ctx) (s : IreeSession) : IreeSession :=
  {| is_metadata := is_metadata s; is_config := is_config s; is_kv := is_kv s;
     is_prefill_window := is_prefill_window s; is_pad_token_id := is_pad_token_id s;
     is_position := is_position s; is_history := is_history s; is_context := c;
     is_attn_bias := is_attn_bias s |}.
Definition set_attn_bias (b : list f32) (s : IreeSession) : IreeSession :=
  {| is_metadata := is_metadata s; is_config := is_config s; is_kv := is_kv s;
     is_prefill_window := is_prefill_window s; is_pad_token_id := is_pad_token_id s;
     is_position := is_position s; is_history := is_history s; is_context := is_context s;
     is_attn_bias := b |}.

(** [self.context.op()] *)
Definition with_context {A} (op : Method Ctx A) : Method IreeSession A := fun s =>
  let '(r, c) := op (is_context s) in (r, set_context c s).

Definition iree_error {A} (message : text) : Method IreeSession A :=
  lift (Err (IreeRuntime {| ir_message := message; ir_status_code := None |})).
Definition refuse (b : bool) (message : text) : Method IreeSession unit :=
  if b then iree_error message else mret tt.

Definition max_seq (s : IreeSession) : Z :=
  Z.min (Z.max (cfg_max_sequence_length (is_config s)) 1)
        (Z.max (kv_max_sequence_length (is_kv s)) 1).


(** The padded window and the index of its last real token. *)
Definition window_from_tokens (s : IreeSession) (tokens : list TokenId) : list Z * Z :=
  let w := Z.to_nat (is_prefill_window s) in
  let n := Nat.min (length tokens) w in
  if (n =? 0)%nat then (replicate w (is_pad_token_id s), 0)
  else (take n tokens ++ replicate (w - n) (is_pad_token_id s), Z.of_nat n - 1).

Definition paged_geometry (s : IreeSession) : option (Z * Z) :=
  match kv_storage (is_kv s) with
  | StaticGlobals => None
  | Paged page_size chunk_size => Some (page_size, chunk_size)
  end.

(** [(max_seq as usize).div_ceil(page_size).max(1)] *)
Definition max_pages (s : IreeSession) (page_size : Z) : Result Z :=
  if page_size =? 0 then Panic "attempt to divide by zero"
  else Ok (Z.max (div_ceil (max_seq s) page_size) 1).

(** [slice.chunks(n)], which panics for [n = 0]. *)
Fixpoint chunks_of (fuel n : nat) (l : list TokenId) : list (list TokenId) :=
  match fuel, l with
  | S fuel, _ :: _ => take n l :: chunks_of fuel n (drop n l)
  | _, _ => []
  end.
Definition chunks (n : Z) (l : list TokenId) : Result (list (list TokenId)) :=
  if n =? 0 then Panic "chunk size must be non-zero"
  else Ok (chunks_of (length l) (Z.to_nat n) l).

Definition check_batch : Method IreeSession unit :=
  s ← self;
  refuse (negb (cfg_batch_size (is_config s) =? 1))
    (Format "batch_size {} is not supported (only batch_size=1)" [AInt (cfg_batch_size (is_config s))]).

Definition check_prefill (tokens : list TokenId) (windowed : bool) : Method IreeSession unit :=
  s ← self;
  _ ← check_batch;
  _ ← refuse (bool_decide (tokens = [])) (lit "prefill requires a non-empty token list");
  _ ← refuse (windowed && match paged_geometry s with
                          | None => is_prefill_window s <? length_z tokens
                          | Some _ => false
                          end)
        (Format "prefill length {} exceeds compiled window {}"
           [AInt (length_z tokens); AInt (is_prefill_window s)]);
  refuse (max_seq s <? length_z tokens)
    (Format "prefill length {} exceeds session/KV limit {}" [AInt (length_z tokens); AInt (max_seq s)]).

Definition check_logits (operation : string) (values : list f32) : Method IreeSession unit :=
  s ← self;
  refuse (negb (length_z values =? mm_vocabulary_size (is_metadata s)))
    (Format "{} returned {} logits, expected vocab {}"
       [AStr operation; AInt (length_z values); AInt (mm_vocabulary_size (is_metadata s))]).

(** The chunk loop of [prefill]: [index] chunks are done, [logits] are those
    of the last chunk so far. *)
Fixpoint prefill_chunks (chunk_size : Z) (index count : nat) (logits : list f32)
    (chunks : list (list TokenId)) : Method IreeSession (list f32) :=
  match chunks with
  | [] => mret logits
  | chunk :: chunks =>
      s ← self;
      let '(window, last) := window_from_tokens s chunk in
      let want_logits := (S index =? count)%nat in
      '(chunk_logits, _) ← with_context
        (invoke_paged_chunk_ex window last (Z.of_nat index * chunk_size) want_logits);
      logits ← (if want_logits
                then lift (expect chunk_logits "final prefill chunk returns logits")
                else mret logits);
      prefill_chunks chunk_size (S index) count logits chunks
  end.

Definition prefill (tokens : list TokenId) : Method IreeSession (list f32) :=
  _ ← check_prefill tokens true;
  _ ← modify (set_history tokens);
  s ← self;
  values ← (match paged_geometry s with
            | Some (page_size, chunk_size) =>
                _ ← with_context reset_paged_kv;
                pages ← lift (max_pages s page_size);
                _ ← with_context (ensure_kv_pages pages);
                parts ← lift (chunks chunk_size tokens);
                prefill_chunks chunk_size 0 (length parts) [] parts
            | None =>
                let '(window, last) := window_from_tokens s tokens in
                with_context (invoke_prefill window last)
            end);
  _ ← check_logits "prefill" values;
  _ ← modify (set_position (length_z tokens));
  mret values.

Definition check_decode : Method IreeSession unit :=
  _ ← check_batch;
  s ← self;
  refuse (max_seq s <=? is_position s)
    (Format "decode position {} exceeds session/KV limit {}" [AInt (is_position s); AInt (max_seq s)]).

(** [self.history.push(token); self.position += 1] *)
Definition push_token (token : TokenId) : Method IreeSession unit :=
  modify (fun s => set_position (wrap64 (is_position s + 1)) (set_history (is_history s ++ [token]) s)).

Definition decode_token (token : TokenId) : Method IreeSession (list f32) :=
  _ ← check_decode;
  s ← self;
  values ← (match paged_geometry s with
            | Some (page_size, _) =>
                pages ← lift (max_pages s page_size);
                _ ← with_context (ensure_kv_pages pages);
                with_context (invoke_paged_chunk [token] 0 (is_position s))
            | None =>
                let bias := fill_causal_attn_bias (is_position s)
                              (Z.max (kv_max_sequence_length (is_kv s)) 1) in
                _ ← modify (set_attn_bias bias);
                with_context (invoke_decode token (is_position s) bias)
            end);
  _ ← check_logits "decode" values;
  _ ← push_token token;
  mret values.

(** The chunk loop of [prefill_argmax]. *)
Fixpoint argmax_chunks (chunk_size : Z) (index : nat) (token : Z) (chunks : list (list TokenId))
    : Method IreeSession Z :=
  match chunks with
  | [] => mret token
  | chunk :: chunks =>
      s ← self;
      let '(window, last) := window_from_tokens s chunk in
      '(_, token) ← with_context
        (invoke_paged_chunk_ex window last (Z.of_nat index * chunk_size) false);
      argmax_chunks chunk_size (S index) token chunks
  end.

Definition prefill_argmax (tokens : list TokenId) : Method IreeSession TokenId :=
  s ← self;
  match paged_geometry s with
  | None => values ← prefill tokens; mret (argmax values)
  | Some (page_size, chunk_size) =>
      _ ← check_prefill tokens false;
      _ ← modify (set_history tokens);
      _ ← with_context reset_paged_kv;
      pages ← lift (max_pages s page_size);
      _ ← with_context (ensure_kv_pages pages);
      parts ← lift (chunks chunk_size tokens);
      token ← argmax_chunks chunk_size 0 (-1) parts;
      _ ← refuse (token <? 0) (Format "prefill_argmax returned invalid token {token}" [AInt token]);
      _ ← modify (set_position (length_z tokens));
      mret (wrap32 token)
  end.

Definition decode_argmax (token : TokenId) : Method IreeSession TokenId :=
  s ← self;
  match paged_geometry s with
  | None => values ← decode_token token; mret (argmax values)
  | Some (page_size, _) =>
      _ ← check_decode;
      pages ← lift (max_pages s page_size);
      _ ← with_context (ensure_kv_pages pages);
      '(_, next) ← with_context (invoke_paged_chunk_ex [token] 0 (is_position s) false);
      _ ← refuse (next <? 0) (Format "decode_argmax returned invalid token {next}" [AInt next]);
      _ ← push_token token;
      mret (wrap32 next)
  end.

Definition session_reset : Method IreeSession unit :=
  s ← self;
  _ ← (match paged_geometry s with Some _ => with_context reset_paged_kv | None => mret tt end);
  modify (fun s => set_history [] (set_position 0 s)).

Record KvCacheMetrics := {
  km_page_count : Z;
  km_allocated_bytes : Z;
  km_capacity_bytes : Z;
  km_used_bytes : Z;
  km_filled_tokens : Z;
  km_layers : Z;
  km_kv_heads : Z;
  km_head_dim : Z;
  km_max_sequence_length : Z;
  km_key_dtype : ScalarType;
  km_value_dtype : ScalarType;
  km_paged : bool;
  km_chunk_size : Z;
}.

Definition kv_cache_metrics : Method IreeSession KvCacheMetrics :=
  s ← self;
  let capacity := capacity_bytes (is_kv s) in
  let geometry := paged_geometry s in
  let paged := match geometry with Some _ => true | None => false end in
  '(page_count, runtime_allocated) ← (if paged then with_context paged_kv_metrics
                                      else mret (0, capacity));
  let used := if paged then runtime_allocated else bytes_for_tokens (is_kv s) (is_position s) in
  mret {| km_page_count := page_count; km_allocated_bytes := runtime_allocated;
          km_capacity_bytes := capacity; km_used_bytes := used;
          km_filled_tokens := is_position s; km_layers := kv_layer_count (is_kv s);
          km_kv_heads := kv_head_count (is_kv s); km_head_dim := kv_head_dimension (is_kv s);
          km_max_sequence_length := kv_max_sequence_length (is_kv s);
          km_key_dtype := kv_element_type (is_kv s); km_value_dtype := kv_element_type (is_kv s);
          km_paged := paged;
          km_chunk_size := match geometry with Some (_, chunk) => chunk | None => 0 end |}.

End Session.
