(* ===== verification/SessionSpec.v ===== *)
(** * Sessions serve a language model

    What a runtime context promises ([CausalContext]), and the refinement: a
    session over such a context computes, at every step, the model's logits for
    the whole history of tokens. *)
From S2P Require Import Prelude Errors Serde CoreTypes Session.
From Stdlib Require Import ZArith Lia Ascii String SpecFloat.
From stdpp Require Import base list strings gmap.
From stdpp Require Import options.

Import Json.
Local Open Scope Z_scope.

(** The contract of a compiled causal model in a runtime context. [cc_lm] is
    the model: the logits after a sequence of tokens. [cc_holds c toks] says
    that the KV cache of [c] is that of [toks]. *)
Class CausalContext (Ctx : Type) {IC : IreeContext Ctx} := {
  cc_lm : list Z -> list f32;
  cc_vocab : Z;
  cc_max_kv : Z;
  cc_page_size : Z;
  cc_capacity : Ctx -> Z;
  cc_holds : Ctx -> list Z -> Prop;
  cc_lm_length toks : Z.of_nat (length (cc_lm toks)) = cc_vocab;
  (** The cache can be laid out, and reading its use leaves it alone. *)
  cc_configure layers page heads dim bytes chunk vocab c : 0 < page -> 0 < chunk ->
    exists c', configure_paged_kv layers page heads dim bytes chunk vocab c = (Ok tt, c');
  cc_metrics c : exists m, paged_kv_metrics c = (Ok m, c);
  (** Resetting empties the cache. *)
  cc_reset c : exists c', reset_paged_kv c = (Ok tt, c') /\ cc_holds c' [];
  (** Pages are added on demand and keep what is cached. *)
  cc_ensure n c toks : cc_holds c toks ->
    exists c', ensure_kv_pages n c = (Ok tt, c') /\ cc_holds c' toks /\
      n * cc_page_size <= cc_capacity c';
  (** A chunk at the end of the cache appends its tokens up to the last real
      one; the logits and the greedy token are those after it. *)
  cc_chunk c toks window last want : cc_holds c toks ->
    0 <= last < Z.of_nat (length window) -> Z.of_nat (length toks) + last + 1 <= cc_capacity c ->
    let toks' := toks ++ take (Z.to_nat (last + 1)) window in
    exists c', invoke_paged_chunk_ex window last (Z.of_nat (length toks)) want c =
        (Ok (if want then Some (cc_lm toks') else None, argmax (cc_lm toks')), c') /\
      cc_holds c' toks' /\ cc_capacity c <= cc_capacity c';
  (** The static prefill computes a whole prompt. *)
  cc_prefill c window last : 0 <= last < Z.of_nat (length window) -> last < cc_max_kv ->
    let toks := take (Z.to_nat (last + 1)) window in
    exists c', invoke_prefill window last c = (Ok (cc_lm toks), c') /\ cc_holds c' toks;
  (** The static decode appends one token, with the causal bias of its position. *)
  cc_decode c toks token : cc_holds c toks -> Z.of_nat (length toks) < cc_max_kv ->
    exists c', invoke_decode token (Z.of_nat (length toks))
                 (fill_causal_attn_bias (Z.of_nat (length toks)) cc_max_kv) c =
        (Ok (cc_lm (toks ++ [token])), c') /\ cc_holds c' (toks ++ [token]);
}.

(** ** Running methods *)

Lemma method_bind_Ok {S A B} (m : Method S A) (f : A -> Method S B) s a s' :
  m s = (Ok a, s') -> (m ≫= f) s = f a s'.
Proof. unfold mbind, method_bind. by intros ->. Qed.

Lemma method_bind_Err {S A B} (m : Method S A) (f : A -> Method S B) s e s' :
  m s = (Err e, s') -> (m ≫= f) s = (Err e, s').
Proof. unfold mbind, method_bind. by intros ->. Qed.

Lemma run_refuse_false {SJ : SerdeJson} {Ctx} b m (s : @IreeSession SJ Ctx) :
  b = false -> refuse b m s = (Ok tt, s).
Proof. by intros ->. Qed.

(** [runs H]: the next step of a method is a successful one, by [H]. *)
Ltac runs H := rewrite (method_bind_Ok _ _ _ _ _ H); cbn beta iota.
Ltac runs_self := rewrite (method_bind_Ok self _ _ _ _ eq_refl); cbn beta iota.

Section Spec.
Context {SJ : SerdeJson} {Ctx : Type} {IC : IreeContext Ctx} {CC : CausalContext Ctx}.
Implicit Type s : @IreeSession SJ Ctx.

(** A session as the loader makes it for the compiled model. *)
Record valid s : Prop := {
  va_batch : cfg_batch_size (is_config s) = 1;
  va_vocab : mm_vocabulary_size (is_metadata s) = cc_vocab;
  va_window : 1 <= is_prefill_window s;
  va_limit : max_seq s <= u32_max;
  va_kv : match kv_storage (is_kv s) with
          | StaticGlobals => cc_max_kv = Z.max (kv_max_sequence_length (is_kv s)) 1
          | Paged page_size chunk_size =>
              cc_page_size = page_size /\ 0 < page_size /\ 0 < chunk_size <= is_prefill_window s
          end;
}.

(** The parts of a session no operation changes. *)
Definition same_setup s s' : Prop :=
  is_metadata s' = is_metadata s /\ is_config s' = is_config s /\ is_kv s' = is_kv s /\
  is_prefill_window s' = is_prefill_window s /\ is_pad_token_id s' = is_pad_token_id s.

Lemma same_setup_refl s : same_setup s s.
Proof. by repeat split. Qed.
Lemma same_setup_trans s1 s2 s3 : same_setup s1 s2 -> same_setup s2 s3 -> same_setup s1 s3.
Proof. unfold same_setup. intros (?&?&?&?&?) (?&?&?&?&?). split_and!; congruence. Qed.

Lemma valid_same s s' : same_setup s s' -> valid s -> valid s'.
Proof.
  intros (Hm & Hc & Hk & Hw & _) [????H]. unfold max_seq in *.
  split; unfold max_seq; rewrite ?Hm, ?Hc, ?Hk, ?Hw; done.
Qed.

Lemma max_seq_same s s' : same_setup s s' -> max_seq s' = max_seq s.
Proof. intros (_ & Hc & Hk & _). unfold max_seq. by rewrite Hc, Hk. Qed.

Lemma max_seq_pos s : 1 <= max_seq s.
Proof. unfold max_seq. lia. Qed.

(** The session serves the history [toks]. *)
Definition serves s (toks : list Z) : Prop :=
  valid s /\ cc_holds (is_context s) toks /\ is_position s = length_z toks /\ is_history s = toks.

(** ** Steps *)

Lemma run_check_batch s : valid s -> check_batch s = (Ok tt, s).
Proof.
  intros Hv. unfold check_batch. runs_self. apply run_refuse_false.
  rewrite (va_batch s Hv). done.
Qed.

Lemma run_check_logits op values s :
  valid s -> Z.of_nat (length values) = cc_vocab -> check_logits op values s = (Ok tt, s).
Proof.
  intros Hv Hl. unfold check_logits. runs_self. apply run_refuse_false.
  unfold length_z. rewrite Hl, (va_vocab s Hv), Z.eqb_refl. done.
Qed.

Lemma run_with_context {A} (op : Method Ctx A) s a c :
  op (is_context s) = (Ok a, c) -> with_context op s = (Ok a, set_context c s).
Proof. unfold with_context. by intros ->. Qed.

Lemma window_spec s tokens :
  tokens <> [] -> length_z tokens <= is_prefill_window s ->
  let '(window, last) := window_from_tokens s tokens in
  0 <= last < Z.of_nat (length window) /\ last + 1 = length_z tokens /\
  take (Z.to_nat (last + 1)) window = tokens.
Proof.
  intros Hne Hw. unfold window_from_tokens, length_z in *.
  set (w := Z.to_nat (is_prefill_window s)).
  assert (Hlen : (0 < length tokens <= w)%nat) by (destruct tokens; [done|cbn in *; lia]).
  rewrite Nat.min_l by lia. destruct (Nat.eqb_spec (length tokens) 0); [lia|].
  rewrite length_app, length_take, length_replicate.
  replace (Z.to_nat (Z.of_nat (length tokens) - 1 + 1)) with (length tokens) by lia.
  split; [lia|]. split; [lia|]. rewrite (take_ge tokens) by lia. by rewrite take_app_length.
Qed.

Lemma max_pages_room s page_size :
  valid s -> 0 < page_size ->
  exists pages, max_pages s page_size = Ok pages /\ max_seq s <= pages * page_size.
Proof.
  intros Hv Hp. unfold max_pages. rewrite (proj2 (Z.eqb_neq _ _)) by lia. eexists. split; [reflexivity|].
  pose proof (max_seq_pos s). pose proof (div_ceil_spec (max_seq s) page_size Hp ltac:(lia)). nia.
Qed.

(** ** The chunks of a prompt *)

(** All chunks but the last one are full. *)
Fixpoint tiled (n : nat) (parts : list (list Z)) : Prop :=
  match parts with
  | [] => True
  | part :: parts => part <> [] /\ (length part <= n)%nat /\ (parts <> [] -> length part = n) /\ tiled n parts
  end.

Lemma chunks_tiled fuel n l : (0 < n)%nat -> tiled n (chunks_of fuel n l).
Proof.
  intros Hn. revert l. induction fuel as [|fuel IH]; intros [|a l]; try done.
  cbn [chunks_of tiled]. split_and!; [destruct n; [lia|done]|rewrite length_take; lia| |apply IH].
  intros Hne. rewrite length_take. destruct (Nat.le_gt_cases n (length (a :: l))); [lia|].
  rewrite (drop_ge (a :: l)) in Hne by lia. by destruct fuel.
Qed.

Lemma chunks_concat fuel n l :
  (0 < n)%nat -> (length l <= fuel)%nat -> concat (chunks_of fuel n l) = l.
Proof.
  intros Hn. revert l. induction fuel as [|fuel IH]; intros [|a l] Hl; cbn [length] in Hl; try done; [lia|].
  cbn [chunks_of concat]. rewrite IH; [by rewrite take_drop|].
  rewrite length_drop. cbn [length]. lia.
Qed.

(** ** The chunk loops *)

(** One chunk at the end of the cache. *)
Lemma run_chunk s done_toks chunk want :
  cc_holds (is_context s) done_toks -> chunk <> [] -> length_z chunk <= is_prefill_window s ->
  length_z (done_toks ++ chunk) <= cc_capacity (is_context s) ->
  let '(window, last) := window_from_tokens s chunk in
  exists c, with_context (invoke_paged_chunk_ex window last (length_z done_toks) want) s =
      (Ok (if want then Some (cc_lm (done_toks ++ chunk)) else None, argmax (cc_lm (done_toks ++ chunk))),
       set_context c s) /\
    cc_holds c (done_toks ++ chunk) /\ cc_capacity (is_context s) <= cc_capacity c.
Proof.
  intros Hh Hne Hw Hcap. pose proof (window_spec s chunk Hne Hw) as Hwin.
  destruct (window_from_tokens s chunk) as [window last]. destruct Hwin as (Hl & Hlast & Htake).
  unfold length_z in *. rewrite length_app in Hcap.
  destruct (cc_chunk (is_context s) done_toks window last want Hh Hl ltac:(lia)) as (c & Hc & Hh' & Hm).
  rewrite Htake in Hc, Hh'. exists c. by rewrite (run_with_context _ _ _ _ Hc).
Qed.

Lemma run_prefill_chunks n done_toks parts logits count s :
  (0 < n)%nat -> Z.of_nat n <= is_prefill_window s -> tiled n parts ->
  (parts <> [] -> exists index, length done_toks = (index * n)%nat /\ count = (index + length parts)%nat) ->
  cc_holds (is_context s) done_toks ->
  length_z (done_toks ++ concat parts) <= cc_capacity (is_context s) ->
  exists c, prefill_chunks (Z.of_nat n) (count - length parts) count logits parts s =
      (Ok (if decide (parts = []) then logits else cc_lm (done_toks ++ concat parts)), set_context c s) /\
    cc_holds c (done_toks ++ concat parts).
Proof.
  intros Hn Hw. revert done_toks logits s Hw. induction parts as [|part parts IH];
    intros done_toks logits s Hw Ht Hi Hh Hcap.
  { cbn [concat prefill_chunks] in *. rewrite app_nil_r. exists (is_context s). by destruct s. }
  destruct Ht as (Hne & Hle & Hfull & Ht). destruct (Hi ltac:(done)) as (index & Hdone & Hcount).
  cbn [length concat] in *. rewrite app_assoc in Hcap.
  assert (Hix : (count - S (length parts))%nat = index) by lia.
  cbn [prefill_chunks]. runs_self. rewrite Hix.
  pose proof (run_chunk s done_toks part (S index =? count)%nat Hh Hne) as Hchunk.
  destruct (window_from_tokens s part) as [window last].
  destruct Hchunk as (c & Hc & Hh' & Hm).
  { unfold length_z. lia. }
  { unfold length_z in *. rewrite !length_app in *. lia. }
  replace (Z.of_nat index * Z.of_nat n) with (length_z done_toks) by (unfold length_z; lia).
  runs Hc. rewrite app_assoc. destruct (decide (parts = [])) as [->|Hp].
  - cbn [length concat prefill_chunks] in *. rewrite (proj2 (Nat.eqb_eq _ _)) by lia.
    cbn. rewrite app_nil_r. exists c. split; [|done]. done.
  - assert (Hlen : (0 < length parts)%nat) by (destruct parts; [done|cbn; lia]).
    rewrite (proj2 (Nat.eqb_neq _ _)) by lia.
    destruct (IH (done_toks ++ part) logits (set_context c s)) as (c' & Hr & Hh''); try done.
    { intros _. exists (S index). rewrite length_app, Hdone, (Hfull Hp). lia. }
    { cbn [is_context set_context]. etrans; [exact Hcap|done]. }
    exists c'. split; [|done].
    replace (count - length parts)%nat with (S index) in Hr by lia.
    exact Hr.
Qed.

Lemma run_argmax_chunks n done_toks parts token s :
  (0 < n)%nat -> Z.of_nat n <= is_prefill_window s -> tiled n parts ->
  forall index, (parts <> [] -> length done_toks = (index * n)%nat) ->
  cc_holds (is_context s) done_toks ->
  length_z (done_toks ++ concat parts) <= cc_capacity (is_context s) ->
  exists c, argmax_chunks (Z.of_nat n) index token parts s =
      (Ok (if decide (parts = []) then token else argmax (cc_lm (done_toks ++ concat parts))),
       set_context c s) /\
    cc_holds c (done_toks ++ concat parts).
Proof.
  intros Hn. revert done_toks token s. induction parts as [|part parts IH];
    intros done_toks token s Hw Ht index Hi Hh Hcap.
  { cbn [concat argmax_chunks] in *. rewrite app_nil_r. exists (is_context s). by destruct s. }
  destruct Ht as (Hne & Hle & Hfull & Ht). pose proof (Hi ltac:(done)) as Hdone.
  cbn [concat] in *. rewrite app_assoc in Hcap.
  cbn [argmax_chunks]. runs_self.
  pose proof (run_chunk s done_toks part false Hh Hne) as Hchunk.
  destruct (window_from_tokens s part) as [window last].
  destruct Hchunk as (c & Hc & Hh' & Hm).
  { unfold length_z. lia. }
  { unfold length_z in *. rewrite !length_app in *. lia. }
  replace (Z.of_nat index * Z.of_nat n) with (length_z done_toks) by (unfold length_z; lia).
  runs Hc. rewrite app_assoc.
  destruct (IH (done_toks ++ part) (argmax (cc_lm (done_toks ++ part))) (set_context c s)) with (index := S index)
    as (c' & Hr & Hh''); try done.
  { intros Hp. rewrite length_app, Hdone, (Hfull Hp). lia. }
  { cbn [is_context set_context]. etrans; [exact Hcap|done]. }
  exists c'. split; [|done]. rewrite Hr.
  destruct (decide (parts = [])) as [->|]; [|done]. cbn [concat]. by rewrite app_nil_r.
Qed.

(** ** The methods *)

(** What a prompt must be for a session to take it. *)
Definition fits s (tokens : list Z) : Prop :=
  tokens <> [] /\ length_z tokens <= max_seq s /\
  (kv_storage (is_kv s) = StaticGlobals -> length_z tokens <= is_prefill_window s).

Lemma paged_geometry_static s : paged_geometry s = None <-> kv_storage (is_kv s) = StaticGlobals.
Proof. unfold paged_geometry. destruct (kv_storage (is_kv s)); naive_solver. Qed.

Lemma run_check_prefill s tokens windowed :
  valid s -> fits s tokens -> check_prefill tokens windowed s = (Ok tt, s).
Proof.
  intros Hv (Hne & Hmax & Hwin). unfold check_prefill. runs_self. runs (run_check_batch s Hv).
  rewrite bool_decide_eq_false_2 by done. cbn [refuse].
  runs (eq_refl : (mret tt : Method (@IreeSession SJ Ctx) unit) s = (Ok tt, s)).
  assert (Hf : windowed && match paged_geometry s with
                           | None => is_prefill_window s <? length_z tokens
                           | Some _ => false
                           end = false).
  { destruct (paged_geometry s) eqn:Hg; [apply andb_false_r|].
    apply paged_geometry_static in Hg. specialize (Hwin Hg).
    rewrite (proj2 (Z.ltb_ge _ _)) by lia. apply andb_false_r. }
  rewrite Hf. cbn [refuse].
  runs (eq_refl : (mret tt : Method (@IreeSession SJ Ctx) unit) s = (Ok tt, s)).
  apply run_refuse_false. apply Z.ltb_ge. lia.
Qed.

(** A prompt that does not fit is refused, and the session stays as it was. *)
Lemma prefill_refuses s tokens :
  valid s -> ~ fits s tokens -> exists e, prefill tokens s = (Err e, s).
Proof.
  intros Hv Hn. unfold prefill.
  assert (Hc : exists e, check_prefill tokens true s = (Err e, s)).
  { unfold check_prefill. runs_self. runs (run_check_batch s Hv).
    case_bool_decide as Hne; [by eexists|]. cbn [refuse].
    runs (eq_refl : (mret tt : Method (@IreeSession SJ Ctx) unit) s = (Ok tt, s)).
    rewrite andb_true_l.
    destruct (match paged_geometry s with Some _ => false | None => is_prefill_window s <? length_z tokens end)
      eqn:Hb; [by eexists|]. cbn [refuse].
    runs (eq_refl : (mret tt : Method (@IreeSession SJ Ctx) unit) s = (Ok tt, s)).
    destruct (max_seq s <? length_z tokens) eqn:Hm; [by eexists|].
    destruct Hn. apply Z.ltb_ge in Hm. split_and!; [done|lia|].
    intros Hg%paged_geometry_static. rewrite Hg in Hb. apply Z.ltb_ge in Hb. lia. }
  destruct Hc as [e Hc]. exists e. by apply method_bind_Err.
Qed.

(** The paged preamble: the cache is emptied and has room for the session. *)
Lemma run_pages s toks page_size chunk_size :
  valid s -> paged_geometry s = Some (page_size, chunk_size) -> cc_holds (is_context s) toks ->
  exists pages c, max_pages s page_size = Ok pages /\
    with_context (ensure_kv_pages pages) s = (Ok tt, set_context c s) /\
    cc_holds c toks /\ max_seq s <= cc_capacity c.
Proof.
  intros Hv Hg Hh. pose proof (va_kv s Hv) as Hkv. unfold paged_geometry in Hg.
  destruct (kv_storage (is_kv s)) as [|ps cs]; [done|]. injection Hg as -> ->.
  destruct Hkv as (Hps & Hpos & _). destruct (max_pages_room s page_size Hv Hpos) as (pages & Hp & Hroom).
  destruct (cc_ensure pages (is_context s) toks Hh) as (c & Hc & Hh' & Hcap).
  exists pages, c. split; [done|]. split; [by apply run_with_context|]. split; [done|].
  rewrite Hps in Hcap. lia.
Qed.

Lemma run_parts s page_size chunk_size tokens :
  valid s -> paged_geometry s = Some (page_size, chunk_size) ->
  exists n parts, chunk_size = Z.of_nat n /\ (0 < n)%nat /\ Z.of_nat n <= is_prefill_window s /\
    chunks chunk_size tokens = Ok parts /\ concat parts = tokens /\ tiled n parts.
Proof.
  intros Hv Hg. pose proof (va_kv s Hv) as Hkv. unfold paged_geometry in Hg.
  destruct (kv_storage (is_kv s)) as [|ps cs]; [done|]. injection Hg as -> ->.
  destruct Hkv as (_ & _ & Hpos). exists (Z.to_nat chunk_size), (chunks_of (length tokens) (Z.to_nat chunk_size) tokens).
  split; [lia|]. split; [lia|]. split; [lia|]. unfold chunks. rewrite (proj2 (Z.eqb_neq _ _)) by lia.
  split; [done|]. split; [apply chunks_concat; lia|apply chunks_tiled; lia].
Qed.

(** The cache after a prefill, and the outcome. *)
Definition prefilled {A} (m : Method (@IreeSession SJ Ctx) A) s tokens (value : A) : Prop :=
  exists s', m s = (Ok value, s') /\ serves s' tokens /\ same_setup s s'.

Lemma serves_after s c tokens :
  valid s -> cc_holds c tokens ->
  serves (set_position (length_z tokens) (set_context c (set_history tokens s))) tokens.
Proof. intros Hv Hh. repeat split; try done; apply (valid_same s); done. Qed.

Lemma prefill_serves s tokens :
  valid s -> fits s tokens -> prefilled (prefill tokens) s tokens (cc_lm tokens).
Proof.
  intros Hv Hf. pose proof Hf as (Hne & Hmax & Hwin). unfold prefilled, prefill.
  runs (run_check_prefill s tokens true Hv Hf).
  runs (eq_refl : modify (set_history tokens) s = (Ok tt, set_history tokens s)).
  set (s1 := set_history tokens s). assert (Hv1 : valid s1) by (by apply (valid_same s)).
  runs_self.
  assert (Hvalues : exists c, (match paged_geometry s1 with
            | Some (page_size, chunk_size) =>
                _ ← with_context reset_paged_kv;
                pages ← lift (max_pages s1 page_size);
                _ ← with_context (ensure_kv_pages pages);
                parts ← lift (chunks chunk_size tokens);
                prefill_chunks chunk_size 0 (length parts) [] parts
            | None =>
                let '(window, last) := window_from_tokens s1 tokens in
                with_context (invoke_prefill window last)
            end) s1 = (Ok (cc_lm tokens), set_context c s1) /\ cc_holds c tokens).
  { destruct (paged_geometry s1) as [[page_size chunk_size]|] eqn:Hg.
    - destruct (cc_reset (is_context s1)) as (c0 & Hc0 & Hh0).
      runs (run_with_context reset_paged_kv s1 tt c0 Hc0).
      destruct (run_pages (set_context c0 s1) [] page_size chunk_size) as (pages & c1 & Hp & Hc1 & Hh1 & Hroom);
        [by apply (valid_same s)|done|done|].
      change (max_pages (set_context c0 s1) page_size) with (max_pages s1 page_size) in Hp.
      rewrite Hp. runs (eq_refl : lift (Ok pages) (set_context c0 s1) = (Ok pages, set_context c0 s1)).
      runs Hc1. destruct (run_parts s1 page_size chunk_size tokens Hv1 Hg)
        as (n & parts & -> & Hn & Hnw & Hparts & Hcat & Htile).
      rewrite Hparts.
      runs (eq_refl : lift (Ok parts) (set_context c1 s1) = (Ok parts, set_context c1 s1)).
      destruct (run_prefill_chunks n [] parts [] (length parts) (set_context c1 s1))
        as (c2 & Hr & Hh2); try done.
      { intros _. by exists 0%nat. }
      { rewrite Hcat. cbn [app is_context set_context]. etrans; [exact Hmax|exact Hroom]. }
      rewrite Nat.sub_diag, Hcat in Hr. rewrite Hcat in Hh2. cbn [app] in *.
      rewrite decide_False in Hr by (intros ->; by rewrite <- Hcat in Hne).
      by exists c2.
    - apply paged_geometry_static in Hg. pose proof (va_kv s1 Hv1) as Hkv. rewrite Hg in Hkv.
      pose proof (window_spec s1 tokens Hne (Hwin Hg)) as Hw.
      destruct (window_from_tokens s1 tokens) as [window last]. destruct Hw as (Hl & Hlast & Htake).
      destruct (cc_prefill (is_context s1) window last Hl) as (c & Hc & Hh).
      { rewrite Hkv. unfold max_seq in Hmax. change (is_kv s1) with (is_kv s). lia. }
      rewrite Htake in Hc, Hh. exists c. split; [|done]. by apply run_with_context. }
  destruct Hvalues as (c & Hvalues & Hh). runs Hvalues.
  runs (run_check_logits "prefill" (cc_lm tokens) (set_context c s1)
          (valid_same s (set_context c s1) ltac:(by repeat split) Hv) (cc_lm_length tokens)).
  eexists. split; [reflexivity|]. split; [by apply (serves_after s c)|by repeat split].
Qed.

Lemma refuse_invalid_token (v : Z) m s :
  0 <= v -> refuse (v <? 0) m s = (Ok tt, s).
Proof. intros Hv. apply run_refuse_false. by apply Z.ltb_ge. Qed.

Lemma argmax_range logits : 0 <= argmax logits < 2 ^ 32.
Proof. apply Z.mod_pos_bound. lia. Qed.

Lemma wrap32_argmax logits : wrap32 (argmax logits) = argmax logits.
Proof. unfold wrap32. apply Z.mod_small, argmax_range. Qed.

Lemma prefill_argmax_serves s tokens :
  valid s -> fits s tokens -> prefilled (prefill_argmax tokens) s tokens (argmax (cc_lm tokens)).
Proof.
  intros Hv Hf. unfold prefilled, prefill_argmax. runs_self.
  destruct (paged_geometry s) as [[page_size chunk_size]|] eqn:Hg.
  2:{ destruct (prefill_serves s tokens Hv Hf) as (s' & Hr & Hs). runs Hr. by exists s'. }
  pose proof Hf as (Hne & Hmax & Hwin).
  runs (run_check_prefill s tokens false Hv Hf).
  runs (eq_refl : modify (set_history tokens) s = (Ok tt, set_history tokens s)).
  set (s1 := set_history tokens s). assert (Hv1 : valid s1) by (by apply (valid_same s)).
  destruct (cc_reset (is_context s1)) as (c0 & Hc0 & Hh0).
  runs (run_with_context reset_paged_kv s1 tt c0 Hc0).
  destruct (run_pages (set_context c0 s1) [] page_size chunk_size) as (pages & c1 & Hp & Hc1 & Hh1 & Hroom);
    [by apply (valid_same s)|done|done|].
  change (max_pages (set_context c0 s1) page_size) with (max_pages s page_size) in Hp.
  rewrite Hp. runs (eq_refl : lift (Ok pages) (set_context c0 s1) = (Ok pages, set_context c0 s1)).
  runs Hc1. destruct (run_parts s1 page_size chunk_size tokens Hv1 Hg)
    as (n & parts & -> & Hn & Hnw & Hparts & Hcat & Htile).
  rewrite Hparts. runs (eq_refl : lift (Ok parts) (set_context c1 s1) = (Ok parts, set_context c1 s1)).
  destruct (run_argmax_chunks n [] parts (-1) (set_context c1 s1) Hn Hnw Htile 0%nat)
    as (c2 & Hr & Hh2); try done.
  { rewrite Hcat. cbn [app is_context set_context]. etrans; [exact Hmax|exact Hroom]. }
  rewrite Hcat in Hr, Hh2. cbn [app] in *.
  rewrite decide_False in Hr by (intros ->; by rewrite <- Hcat in Hne).
  runs Hr. rewrite wrap32_argmax.
  runs (refuse_invalid_token (argmax (cc_lm tokens)) (Format "prefill_argmax returned invalid token {token}" [AInt (argmax (cc_lm tokens))]) (set_context c2 s1) (proj1 (argmax_range _))).
  eexists. split; [reflexivity|]. split; [by apply (serves_after s c2)|by repeat split].
Qed.

(** ** Decoding *)

Lemma run_check_decode s :
  valid s -> is_position s < max_seq s -> check_decode s = (Ok tt, s).
Proof.
  intros Hv Hp. unfold check_decode. runs (run_check_batch s Hv). runs_self.
  apply run_refuse_false. apply Z.leb_gt. lia.
Qed.

Lemma check_decode_full s :
  valid s -> max_seq s <= is_position s -> exists e, check_decode s = (Err e, s).
Proof.
  intros Hv Hp. unfold check_decode. runs (run_check_batch s Hv). runs_self.
  rewrite (proj2 (Z.leb_le _ _)) by lia. by eexists.
Qed.

Lemma run_push_token s c token toks :
  serves s toks -> is_position s < max_seq s -> cc_holds c (toks ++ [token]) ->
  forall b, exists s', push_token token (set_context c (set_attn_bias b s)) = (Ok tt, s') /\
    serves s' (toks ++ [token]) /\ same_setup s s'.
Proof.
  intros (Hv & Hh & Hpos & Hhist) Hlt Hc b. eexists. split; [reflexivity|].
  split; [|by repeat split]. split_and!.
  - by apply (valid_same s).
  - done.
  - cbn. rewrite Hpos. unfold length_z. rewrite length_app. cbn [length].
    pose proof (va_limit s Hv). rewrite Hpos in Hlt. unfold length_z in Hlt.
    rewrite wrap64_small; [lia|]. unfold is_u64, u64_max, u32_max in *. lia.
  - cbn. by rewrite Hhist.
Qed.

(** One token against a paged cache. *)
Lemma run_paged_token s toks token page_size chunk_size want :
  serves s toks -> is_position s < max_seq s -> paged_geometry s = Some (page_size, chunk_size) ->
  exists pages c1 c2, max_pages s page_size = Ok pages /\
    with_context (ensure_kv_pages pages) s = (Ok tt, set_context c1 s) /\
    invoke_paged_chunk_ex [token] 0 (is_position s) want c1 =
      (Ok (if want then Some (cc_lm (toks ++ [token])) else None, argmax (cc_lm (toks ++ [token]))), c2) /\
    cc_holds c2 (toks ++ [token]).
Proof.
  intros (Hv & Hh & Hpos & Hhist) Hlt Hg.
  destruct (run_pages s toks page_size chunk_size Hv Hg Hh) as (pages & c1 & Hp & Hc1 & Hh1 & Hroom).
  destruct (cc_chunk c1 toks [token] 0 want Hh1) as (c2 & Hc2 & Hh2 & _).
  { cbn. lia. } { unfold length_z in Hpos. lia. }
  exists pages, c1, c2. rewrite Hpos. done.
Qed.

Lemma decode_token_serves s toks token :
  serves s toks -> length_z toks < max_seq s ->
  prefilled (decode_token token) s (toks ++ [token]) (cc_lm (toks ++ [token])).
Proof.
  intros Hs Hlt. pose proof Hs as (Hv & Hh & Hpos & Hhist). rewrite <- Hpos in Hlt.
  unfold prefilled, decode_token. runs (run_check_decode s Hv Hlt). runs_self.
  assert (Hvalues : exists c b, (match paged_geometry s with
            | Some (page_size, _) =>
                pages ← lift (max_pages s page_size);
                _ ← with_context (ensure_kv_pages pages);
                with_context (invoke_paged_chunk [token] 0 (is_position s))
            | None =>
                let bias := fill_causal_attn_bias (is_position s)
                              (Z.max (kv_max_sequence_length (is_kv s)) 1) in
                _ ← modify (set_attn_bias bias);
                with_context (invoke_decode token (is_position s) bias)
            end) s = (Ok (cc_lm (toks ++ [token])), set_context c (set_attn_bias b s)) /\
      cc_holds c (toks ++ [token])).
  { destruct (paged_geometry s) as [[page_size chunk_size]|] eqn:Hg.
    - destruct (run_paged_token s toks token page_size chunk_size true Hs Hlt Hg)
        as (pages & c1 & c2 & Hp & Hc1 & Hc2 & Hh2).
      rewrite Hp. runs (eq_refl : lift (Ok pages) s = (Ok pages, s)). runs Hc1.
      exists c2, (is_attn_bias s). split; [|done]. unfold with_context, invoke_paged_chunk.
      cbn [is_context set_context]. by rewrite (method_bind_Ok _ _ _ _ _ Hc2).
    - apply paged_geometry_static in Hg. pose proof (va_kv s Hv) as Hkv. rewrite Hg in Hkv.
      rewrite <- Hkv. cbn zeta.
      destruct (cc_decode (is_context s) toks token Hh) as (c & Hc & Hh').
      { rewrite Hkv. unfold max_seq in Hlt. unfold length_z in Hpos. lia. }
      unfold length_z in Hpos. rewrite <- Hpos in Hc.
      exists c, (fill_causal_attn_bias (is_position s) cc_max_kv). split; [|done].
      runs (eq_refl : modify (set_attn_bias (fill_causal_attn_bias (is_position s) cc_max_kv)) s =
              (Ok tt, set_attn_bias (fill_causal_attn_bias (is_position s) cc_max_kv) s)).
      rewrite (run_with_context _ (set_attn_bias _ s) _ _ Hc). done. }
  destruct Hvalues as (c & b & Hvalues & Hc). runs Hvalues.
  runs (run_check_logits "decode" (cc_lm (toks ++ [token])) (set_context c (set_attn_bias b s))
          (valid_same s (set_context c (set_attn_bias b s)) ltac:(by repeat split) Hv) (cc_lm_length (toks ++ [token]))).
  destruct (run_push_token s c token toks Hs Hlt Hc b) as (s' & Hr & Hs'). runs Hr. by exists s'.
Qed.

Lemma decode_argmax_serves s toks token :
  serves s toks -> length_z toks < max_seq s ->
  prefilled (decode_argmax token) s (toks ++ [token]) (argmax (cc_lm (toks ++ [token]))).
Proof.
  intros Hs Hlt. pose proof Hs as (Hv & Hh & Hpos & Hhist).
  unfold prefilled, decode_argmax. runs_self.
  destruct (paged_geometry s) as [[page_size chunk_size]|] eqn:Hg.
  2:{ destruct (decode_token_serves s toks token Hs Hlt) as (s' & Hr & Hs'). runs Hr. by exists s'. }
  rewrite <- Hpos in Hlt. runs (run_check_decode s Hv Hlt).
  destruct (run_paged_token s toks token page_size chunk_size false Hs Hlt Hg)
    as (pages & c1 & c2 & Hp & Hc1 & Hc2 & Hh2).
  rewrite Hp. runs (eq_refl : lift (Ok pages) s = (Ok pages, s)). runs Hc1.
  runs (run_with_context (invoke_paged_chunk_ex [token] 0 (is_position s) false) (set_context c1 s) _ _ Hc2).
  rewrite wrap32_argmax.
  match goal with |- context [refuse _ ?m] =>
    runs (refuse_invalid_token (argmax (cc_lm (toks ++ [token]))) m (set_context c2 (set_context c1 s))
            (proj1 (argmax_range _))) end.
  destruct (run_push_token s c2 token toks Hs Hlt Hh2 (is_attn_bias s)) as (s' & Hr & Hs').
  change (set_context c2 (set_attn_bias (is_attn_bias s) s)) with (set_context c2 (set_context c1 s)) in Hr.
  runs Hr. by exists s'.
Qed.

(** ** Refusals leave the session as it was *)

Lemma check_prefill_refuses s tokens :
  valid s -> paged_geometry s <> None -> ~ fits s tokens ->
  exists e, check_prefill tokens false s = (Err e, s).
Proof.
  intros Hv Hg Hn. unfold check_prefill. runs_self. runs (run_check_batch s Hv).
  case_bool_decide as Hne; [by eexists|]. cbn [refuse andb].
  runs (eq_refl : (mret tt : Method (@IreeSession SJ Ctx) unit) s = (Ok tt, s)).
  runs (eq_refl : (mret tt : Method (@IreeSession SJ Ctx) unit) s = (Ok tt, s)).
  destruct (max_seq s <? length_z tokens) eqn:Hm; [by eexists|].
  destruct Hn. apply Z.ltb_ge in Hm. split_and!; [done|lia|]. by intros ?%paged_geometry_static.
Qed.

Lemma prefill_argmax_refuses s tokens :
  valid s -> ~ fits s tokens -> exists e, prefill_argmax tokens s = (Err e, s).
Proof.
  intros Hv Hn. unfold prefill_argmax. runs_self.
  destruct (paged_geometry s) as [[page_size chunk_size]|] eqn:Hg.
  - destruct (check_prefill_refuses s tokens Hv ltac:(congruence) Hn) as [e He].
    exists e. by apply method_bind_Err.
  - destruct (prefill_refuses s tokens Hv Hn) as [e He]. exists e. by apply method_bind_Err.
Qed.

Lemma decode_token_refuses s token :
  valid s -> max_seq s <= is_position s -> exists e, decode_token token s = (Err e, s).
Proof.
  intros Hv Hp. destruct (check_decode_full s Hv Hp) as [e He]. exists e. by apply method_bind_Err.
Qed.

Lemma decode_argmax_refuses s token :
  valid s -> max_seq s <= is_position s -> exists e, decode_argmax token s = (Err e, s).
Proof.
  intros Hv Hp. unfold decode_argmax. runs_self. destruct (paged_geometry s) as [[]|].
  - destruct (check_decode_full s Hv Hp) as [e He]. exists e. by apply method_bind_Err.
  - destruct (decode_token_refuses s token Hv Hp) as [e He]. exists e. by apply method_bind_Err.
Qed.

(** ** The abstract session

    Its state is the history the model continues, if there is one. *)
Inductive Request :=
  | RPrefill (tokens : list Z)
  | RPrefillArgmax (tokens : list Z)
  | RDecode (token : Z)
  | RDecodeArgmax (token : Z).
Inductive Reply := RLogits (values : list f32) | RToken (token : Z) | RRefused | RCrashed.

Definition serve_request (q : Request) : Method (@IreeSession SJ Ctx) Reply :=
  match q with
  | RPrefill tokens => values ← prefill tokens; mret (RLogits values)
  | RPrefillArgmax tokens => token ← prefill_argmax tokens; mret (RToken token)
  | RDecode token => values ← decode_token token; mret (RLogits values)
  | RDecodeArgmax token => token ← decode_argmax token; mret (RToken token)
  end.
Definition reply_of (r : Result Reply) : Reply :=
  match r with Ok r => r | Err _ => RRefused | Panic _ => RCrashed end.

(** A caller goes on after a refusal. *)
Fixpoint serve_all (qs : list Request) s : list Reply * IreeSession :=
  match qs with
  | [] => ([], s)
  | q :: qs =>
      let '(r, s) := serve_request q s in
      let '(rs, s) := serve_all qs s in
      (reply_of r :: rs, s)
  end.

Definition fits_dec s (tokens : list Z) : bool :=
  negb (bool_decide (tokens = [])) && (length_z tokens <=? max_seq s) &&
  match kv_storage (is_kv s) with
  | StaticGlobals => length_z tokens <=? is_prefill_window s
  | Paged _ _ => true
  end.

(** [None]: a request the contract says nothing about, decoding with nothing
    prefilled. *)
Definition spec_step s (h : option (list Z)) (q : Request) : option (Reply * option (list Z)) :=
  match q with
  | RPrefill tokens =>
      Some (if fits_dec s tokens then (RLogits (cc_lm tokens), Some tokens) else (RRefused, h))
  | RPrefillArgmax tokens =>
      Some (if fits_dec s tokens then (RToken (argmax (cc_lm tokens)), Some tokens) else (RRefused, h))
  | RDecode token =>
      h ← h;
      Some (if length_z h <? max_seq s then (RLogits (cc_lm (h ++ [token])), Some (h ++ [token]))
            else (RRefused, Some h))
  | RDecodeArgmax token =>
      h ← h;
      Some (if length_z h <? max_seq s then (RToken (argmax (cc_lm (h ++ [token]))), Some (h ++ [token]))
            else (RRefused, Some h))
  end.
Fixpoint spec_all s (h : option (list Z)) (qs : list Request) : option (list Reply * option (list Z)) :=
  match qs with
  | [] => Some ([], h)
  | q :: qs =>
      '(r, h) ← spec_step s h q;
      '(rs, h) ← spec_all s h qs;
      Some (r :: rs, h)
  end.

(** The simulation relation. *)
Definition simulates s (h : option (list Z)) : Prop :=
  match h with Some h => serves s h | None => valid s end.

Lemma simulates_valid s h : simulates s h -> valid s.
Proof. destruct h; [by intros []|done]. Qed.

Lemma fits_dec_spec s tokens : fits_dec s tokens = true <-> fits s tokens.
Proof.
  unfold fits_dec, fits. rewrite !andb_true_iff, negb_true_iff, bool_decide_eq_false, Z.leb_le.
  destruct (kv_storage (is_kv s)); [rewrite Z.leb_le|]; naive_solver.
Qed.

Lemma fits_dec_false s tokens : fits_dec s tokens = false -> ~ fits s tokens.
Proof. rewrite <- fits_dec_spec. by intros ->. Qed.

(** A successful method, and a refused one, as the abstract step has them. *)
Lemma served {A} (m : Method IreeSession A) (mk : A -> Reply) s toks v :
  prefilled m s toks v ->
  exists s', (x ← m; mret (mk x)) s = (Ok (mk v), s') /\ simulates s' (Some toks) /\ same_setup s s'.
Proof. intros (s' & Hr & Hs). exists s'. split; [|done]. by rewrite (method_bind_Ok _ _ _ _ _ Hr). Qed.

Lemma refused {A} (m : Method IreeSession A) (mk : A -> Reply) s h :
  (exists e, m s = (Err e, s)) -> simulates s h ->
  exists e s', (x ← m; mret (mk x)) s = (Err e, s') /\ simulates s' h /\ same_setup s s'.
Proof.
  intros [e He] Hs. exists e, s. by rewrite (method_bind_Err _ _ _ _ _ He).
Qed.

Lemma serve_request_spec s h q r h' :
  simulates s h -> spec_step s h q = Some (r, h') ->
  exists s', serve_request q s = (fst (serve_request q s), s') /\
    reply_of (fst (serve_request q s)) = r /\ simulates s' h' /\ same_setup s s'.
Proof.
  intros Hs Hq. pose proof (simulates_valid s h Hs) as Hv.
  assert (Hgo : (exists s', serve_request q s = (Ok r, s') /\ simulates s' h' /\ same_setup s s') \/
                (r = RRefused /\ exists e s', serve_request q s = (Err e, s') /\ simulates s' h' /\ same_setup s s')).
  { destruct q as [tokens|tokens|token|token]; cbn [spec_step] in Hq.
    1,2: injection Hq as Hq; destruct (fits_dec s tokens) eqn:Hf; injection Hq as <- <-;
      [apply fits_dec_spec in Hf; left; apply served; by (apply prefill_serves || apply prefill_argmax_serves)
      |apply fits_dec_false in Hf; right; split; [done|]; apply refused; [|done];
       by (apply prefill_refuses || apply prefill_argmax_refuses)].
    all: destruct h as [h|]; [|done]; cbn in Hq; injection Hq as Hq;
      destruct (length_z h <? max_seq s) eqn:Hl; injection Hq as <- <-;
      [apply Z.ltb_lt in Hl; left; apply served; by (apply decode_token_serves || apply decode_argmax_serves)
      |apply Z.ltb_ge in Hl; right; split; [done|]; apply refused; [|done];
       destruct Hs as (_ & _ & Hpos & _); rewrite <- Hpos in Hl;
       by (apply decode_token_refuses || apply decode_argmax_refuses)]. }
  destruct Hgo as [(s' & -> & Hs')|(-> & e & s' & -> & Hs')]; by exists s'.
Qed.

Lemma spec_step_same s s' h q : same_setup s s' -> spec_step s' h q = spec_step s h q.
Proof.
  intros H. pose proof (max_seq_same s s' H) as Hm. destruct H as (_ & _ & Hk & Hw & _).
  unfold spec_step, fits_dec. by rewrite Hm, Hk, Hw.
Qed.
Lemma spec_all_same s s' h qs : same_setup s s' -> spec_all s' h qs = spec_all s h qs.
Proof.
  intros H. revert h. induction qs as [|q qs IH]; intros h; [done|]. cbn [spec_all].
  rewrite (spec_step_same s s' h q H). destruct (spec_step s h q) as [[r h']|]; [|done].
  cbn. by rewrite IH.
Qed.


End Spec.

(** ** A context that keeps the contract

    A model of four tokens whose next token is the sum of the history modulo
    four; its cache is the history. *)
Module Toy.
Definition is_zero (b : f32) : bool := match b with S754_zero _ => true | _ => false end.
Definition lm (toks : list Z) : list f32 :=
  (fun i => if Z.of_nat i =? foldr Z.add 0 toks mod 4 then f32_of_bits 1065353216 else S754_zero false) <$> seq 0 4.
Record Context := { tokens : list Z; capacity : Z }.

#[global] Instance operations : IreeContext Context := {|
  configure_paged_kv _ _ _ _ _ _ _ c := (Ok tt, c);
  reset_paged_kv c := (Ok tt, {| tokens := []; capacity := capacity c |});
  ensure_kv_pages n c := (Ok tt, {| tokens := tokens c; capacity := Z.max (capacity c) (n * 2) |});
  paged_kv_metrics c := (Ok (capacity c / 2, capacity c * 16), c);
  invoke_paged_chunk_ex window last start want c :=
    let toks := take (Z.to_nat start) (tokens c) ++ take (Z.to_nat (last + 1)) window in
    (Ok (if want then Some (lm toks) else None, argmax (lm toks)),
     {| tokens := toks; capacity := capacity c |});
  invoke_prefill window last c :=
    let toks := take (Z.to_nat (last + 1)) window in
    (Ok (lm toks), {| tokens := toks; capacity := capacity c |});
  invoke_decode token position bias c :=
    let toks := take (length (filter (fun b => is_zero b = true) bias) - 1) (tokens c) ++ [token] in
    (Ok (lm toks), {| tokens := toks; capacity := capacity c |});
|}.

Lemma bias_zeros k n :
  (k < n)%nat ->
  length (filter (fun b => is_zero b = true) (fill_causal_attn_bias (Z.of_nat k) (Z.of_nat n))) = S k.
Proof.
  intros Hk. unfold fill_causal_attn_bias. replace (Z.to_nat (Z.max (Z.of_nat n) 1)) with (S k + (n - S k))%nat by lia.
  rewrite seq_app, fmap_app, filter_app, length_app.
  assert (Hz : forall a m, (a + m <= S k)%nat ->
    length (filter (fun b => is_zero b = true)
      ((fun j => if Z.of_nat j >? Z.of_nat k then masked else S754_zero false) <$> seq a m)) = m).
  { intros a m. revert a. induction m as [|m IH]; intros a Ha; [done|]. cbn [seq fmap list_fmap].
    rewrite Z.gtb_ltb, (proj2 (Z.ltb_ge _ _)) by lia. rewrite filter_cons_True by done.
    cbn [length]. by rewrite IH by lia. }
  assert (Hm : forall m a, (k < a)%nat ->
    filter (fun b => is_zero b = true)
      ((fun j => if Z.of_nat j >? Z.of_nat k then masked else S754_zero false) <$> seq a m) = []).
  { induction m as [|m IH]; intros a Ha; [done|]. cbn [seq fmap list_fmap].
    rewrite Z.gtb_ltb, (proj2 (Z.ltb_lt _ _)) by lia. rewrite filter_cons_False by (by vm_compute).
    apply IH. lia. }
  rewrite Hz, Hm by lia. cbn [length]. lia.
Qed.

#[global, refine] Instance contract : CausalContext Context := {|
  cc_lm := lm; cc_vocab := 4; cc_max_kv := 4; cc_page_size := 2;
  cc_capacity := capacity; cc_holds c toks := tokens c = toks;
|}.
Proof.
  - done.
  - intros. by eexists.
  - intros c. by eexists.
  - intros c. by eexists.
  - intros n c toks Hc. eexists. split; [reflexivity|]. split; [done|]. cbn. lia.
  - intros c toks window last want <- Hl Hcap. cbv zeta. eexists. cbn.
    rewrite Nat2Z.id, (take_ge (tokens c)) by done. split; [reflexivity|]. split; [done|]. cbn. lia.
  - intros c window last Hl Hk. cbv zeta. by eexists.
  - intros c toks token <- Hl. eexists. cbn [invoke_decode operations].
    change 4 with (Z.of_nat 4). rewrite bias_zeros by lia.
    replace (S (length (tokens c)) - 1)%nat with (length (tokens c)) by lia.
    rewrite (take_ge (tokens c)) by done. by split.
Defined.

Definition kv (storage : KvCacheStorage) : KvCacheDescriptor :=
  {| kv_layer_count := 1; kv_max_batch_size := 1; kv_max_sequence_length := 4; kv_head_count := 1;
     kv_head_dimension := 2; kv_element_type := F32; kv_layout := LayersSeqHeadsDim; kv_alignment := 64;
     kv_storage := storage |}.
Definition metadata : ModelMetadata :=
  {| mm_architecture_id := "toy"; mm_architecture_revision := "v1"; mm_vocabulary_size := 4;
     mm_context_length := 4; mm_num_layers := 1; mm_num_heads := 1; mm_num_kv_heads := 1;
     mm_head_dim := 2; mm_hidden_size := 2; mm_extra := ∅ |}.
Definition session (storage : KvCacheStorage) : IreeSession :=
  session_new metadata SessionConfig_default (kv storage) 3 {| tokens := []; capacity := 0 |}.

Lemma toy_session_valid storage :
  storage = StaticGlobals \/ storage = Paged 2 2 -> valid (session storage).
Proof. by intros [-> | ->]; split; vm_compute. Qed.
End Toy.

