(* ===== verification/LogitTrace.v ===== *)
(** * Logit traces: crates/dyninfer-cli/src/logit_trace.rs

    A trace is a directory with a JSON header and a file of little-endian
    [f32] rows. The writer fills a temporary directory and renames it; the
    reader checks the header, the size of the file and every row. *)
From S2P Require Import Prelude Strings Errors Serde CoreTypes Paths Names Session Floats.
From Stdlib Require Import ZArith Lia Ascii String SpecFloat.
From stdpp Require Import base list strings gmap.
From stdpp Require Import options.

Local Open Scope Z_scope.

(** ** anyhow *)

Inductive AnyError : Type :=
  | Msg (m : text)                         (** [bail!], [ensure!], [context] of a [None] *)
  | Context (m : text) (cause : AnyError)  (** [with_context] of an error *)
  | Foreign (m : text)                     (** an error of the standard library or serde *)
  | Inner (e : DynInferError).
Abbreviation AnyResult := (result AnyError).

Definition bail {A} (m : text) : AnyResult A := Err (Msg m).
Definition ensure_that (b : bool) (m : text) : AnyResult unit := ensure b (Msg m).
Definition context {A} (m : text) (r : AnyResult A) : AnyResult A :=
  match r with Err e => Err (Context m e) | r => r end.
(** [?] on a [Result] of the library. *)
Definition inner {A} (r : Result A) : AnyResult A :=
  match r with Ok a => Ok a | Err e => Err (Inner e) | Panic why => Panic why end.

(** ** The header *)

Definition TRACE_FORMAT : string := "dyninfer.logit-trace".
Definition TRACE_VERSION : Z := 1.
Definition TOKEN_TRACE_FORMAT : string := "dyninfer.tokenized-prompt".

Inductive TracePhase : Set := Prefill | Decode.
#[export] Instance TracePhase_eq_dec : EqDecision TracePhase.
Proof. solve_decision. Defined.

Record TraceRow := {
  tr_phase : TracePhase;
  tr_position : Z;
  tr_input_token : Z;
  tr_argmax : Z;
  tr_forced_token : option Z;
}.
#[export] Instance TraceRow_eq_dec : EqDecision TraceRow.
Proof. solve_decision. Defined.

Section Header.
Context {SJ : SerdeJson}.

Record TraceHeader := {
  th_format : string;
  th_version : Z;
  th_engine : string;
  th_checkpoint_sha256 : string;
  th_vocab_size : Z;
  th_prompt_tokens : list Z;
  th_decode_inputs : list Z;
  th_logits_dtype : string;
  th_logits_byte_order : string;
  th_rows : list TraceRow;
  th_logits_file : string;
  th_engine_metadata : Value;
}.

Record TokenizedPrompt := {
  tk_format : string;
  tk_version : Z;
  tk_checkpoint_sha256 : string;
  tk_prompt_tokens : list Z;
  tk_engine_metadata : Value;
}.

Definition set_rows (rows : list TraceRow) (h : TraceHeader) : TraceHeader :=
  {| th_format := th_format h; th_version := th_version h; th_engine := th_engine h;
     th_checkpoint_sha256 := th_checkpoint_sha256 h; th_vocab_size := th_vocab_size h;
     th_prompt_tokens := th_prompt_tokens h; th_decode_inputs := th_decode_inputs h;
     th_logits_dtype := th_logits_dtype h; th_logits_byte_order := th_logits_byte_order h;
     th_rows := rows; th_logits_file := th_logits_file h;
     th_engine_metadata := th_engine_metadata h |}.
Definition set_engine_metadata (v : Value) (h : TraceHeader) : TraceHeader :=
  {| th_format := th_format h; th_version := th_version h; th_engine := th_engine h;
     th_checkpoint_sha256 := th_checkpoint_sha256 h; th_vocab_size := th_vocab_size h;
     th_prompt_tokens := th_prompt_tokens h; th_decode_inputs := th_decode_inputs h;
     th_logits_dtype := th_logits_dtype h; th_logits_byte_order := th_logits_byte_order h;
     th_rows := th_rows h; th_logits_file := th_logits_file h;
     th_engine_metadata := v |}.

(** ** Validation *)

(** The first element that [f] holds of, with its index. *)
Fixpoint find_from {A} (f : A -> bool) (i : Z) (l : list A) : option (Z * A) :=
  match l with
  | [] => None
  | x :: l => if f x then Some (i, x) else find_from f (i + 1) l
  end.

Definition outside_vocabulary (kind : string) (vocab_size : Z) (tokens : list Z) : AnyResult unit :=
  match find_from (fun token => vocab_size <=? token) 0 tokens with
  | Some (index, token) =>
      bail (Format "{kind} token {index} ({token}) is outside vocabulary {vocab_size}"
              [AStr kind; AInt index; AInt token; AInt vocab_size])
  | None => Ok tt
  end.

Definition validate_trajectory (prompt decode : list Z) (vocab_size : Z) : AnyResult unit :=
  _ ← ensure_that (negb (bool_decide (prompt = []))) (lit "trace prompt token list is empty");
  _ ← outside_vocabulary "prompt" vocab_size prompt;
  outside_vocabulary "decode" vocab_size decode.

Definition is_ascii_hexdigit (a : ascii) : bool := bool_decide (is_Some (hex_value a)).
Definition ensure_sha256 (value : string) : AnyResult unit :=
  ensure_that ((strlen value =? 64) && forallb is_ascii_hexdigit (bytes_of_string value))
    (lit "checkpoint_sha256 must contain 64 hexadecimal characters").

(** Phase, position and input token of a row. [len() - 1] underflows on an
    empty prompt, and wraps. *)
Definition expected_row (h : TraceHeader) (index : nat) : AnyResult (TracePhase * Z * Z) :=
  match index with
  | O =>
      token ← ok_or (last (th_prompt_tokens h)) (Msg (lit "empty prompt"));
      Ok (Prefill, wrap64 (length_z (th_prompt_tokens h) - 1), token)
  | S decode_index =>
      position ← ok_or (checked_add (length_z (th_prompt_tokens h)) (Z.of_nat decode_index))
                   (Msg (lit "trace position overflows u64"));
      input ← ok_or (th_decode_inputs h !! decode_index)
                (Msg (Format "trace has unexpected row {index}" [AInt (Z.of_nat index)]));
      Ok (Decode, position, input)
  end.

(** One turn of the loop over the rows of [validate_header]. *)
Definition validate_row (h : TraceHeader) (index : nat) (row : TraceRow) : AnyResult unit :=
  '(phase, position, input) ← expected_row h index;
  let i := AInt (Z.of_nat index) in
  _ ← ensure_that (bool_decide (tr_phase row = phase))
        (Format "trace row {index} has inconsistent phase" [i]);
  _ ← ensure_that (tr_position row =? position)
        (Format "trace row {index} has discontinuous position {} (expected {position})"
           [i; AInt (tr_position row); AInt position]);
  _ ← ensure_that (tr_input_token row =? input)
        (Format "trace row {index} input token {} does not match trajectory token {input}"
           [i; AInt (tr_input_token row); AInt input]);
  _ ← ensure_that (tr_argmax row <? th_vocab_size h)
        (Format "trace row {index} argmax {} is outside vocabulary {}"
           [i; AInt (tr_argmax row); AInt (th_vocab_size h)]);
  ensure_that (bool_decide (tr_forced_token row = th_decode_inputs h !! index))
    (Format "trace row {index} forced token is inconsistent with decode_inputs" [i]).

Fixpoint validate_rows (h : TraceHeader) (index : nat) (rows : list TraceRow) : AnyResult unit :=
  match rows with
  | [] => Ok tt
  | row :: rows => _ ← validate_row h index row; validate_rows h (S index) rows
  end.

(** The path has one component, a name. *)
Definition plain_name (path : string) : bool :=
  match components path with [Normal _] => true | _ => false end.

Definition expected_rows (h : TraceHeader) : nat := S (length (th_decode_inputs h)).
Definition check_row_count (h : TraceHeader) : AnyResult unit :=
  ensure_that (Nat.eqb (length (th_rows h)) (expected_rows h))
    (Format "trace row count mismatch: expected {}, found {}"
       [AInt (Z.of_nat (expected_rows h)); AInt (length_z (th_rows h))]).

Definition validate_header (h : TraceHeader) : AnyResult unit :=
  _ ← ensure_that (String.eqb (th_format h) TRACE_FORMAT)
        (Format "unsupported trace format {:?}" [AStr (th_format h)]);
  _ ← ensure_that (th_version h =? TRACE_VERSION)
        (Format "unsupported trace version {}" [AInt (th_version h)]);
  _ ← ensure_that (negb (String.eqb (trim (th_engine h)) EmptyString)) (lit "trace engine is empty");
  _ ← ensure_sha256 (th_checkpoint_sha256 h);
  _ ← ensure_that (0 <? th_vocab_size h) (lit "trace vocabulary is empty");
  _ ← ensure_that (String.eqb (th_logits_dtype h) "f32")
        (Format "unsupported logits dtype {:?}" [AStr (th_logits_dtype h)]);
  _ ← ensure_that (String.eqb (th_logits_byte_order h) "little")
        (Format "unsupported logits byte order {:?}" [AStr (th_logits_byte_order h)]);
  _ ← ensure_that (plain_name (th_logits_file h))
        (lit "logits_file must be a plain relative file name");
  _ ← validate_trajectory (th_prompt_tokens h) (th_decode_inputs h) (th_vocab_size h);
  _ ← check_row_count h;
  validate_rows h 0 (th_rows h).

(** [argmax] of logit_trace.rs, the loop of [Session.argmax]. *)
Definition row_argmax (values : list f32) : Z := wrap32 (argmax_from 0 0 NEG_INFINITY values).

End Header.
Arguments TraceHeader : clear implicits.
Arguments TraceHeader {SJ}.

(** ** The store

    The directories that hold traces, by their paths; other paths may name
    files. Parents are not represented. *)
Abbreviation TraceDir := (gmap string bytes).
Inductive Node : Type := FileNode (content : bytes) | DirNode (files : TraceDir).
Abbreviation Fs := (gmap string Node).

Definition dir_at (fs : Fs) (path : string) : option TraceDir :=
  match fs !! path with Some (DirNode files) => Some files | _ => None end.
Definition file_in (fs : Fs) (directory name : string) : option bytes :=
  files ← dir_at fs directory; files !! name.

(** The JSON text of a header and its parser, derived by serde. A header is
    read back as written, its free-form metadata up to the text of its
    numbers. *)
Definition is_token (n : Z) : bool := (0 <=? n) && (n <=? u32_max).
Definition row_typed (row : TraceRow) : bool :=
  (0 <=? tr_position row) && (tr_position row <=? u64_max) && is_token (tr_input_token row)
  && is_token (tr_argmax row)
  && match tr_forced_token row with Some n => is_token n | None => true end.
(** The fields are values of their Rust types. *)
Definition header_typed {SJ : SerdeJson} (h : TraceHeader) : bool :=
  is_token (th_version h) && is_token (th_vocab_size h)
  && forallb is_token (th_prompt_tokens h) && forallb is_token (th_decode_inputs h)
  && forallb row_typed (th_rows h)
  && forallb (fun s => utf8_valid (bytes_of_string s))
       [th_format h; th_engine h; th_checkpoint_sha256 h; th_logits_dtype h;
        th_logits_byte_order h; th_logits_file h].

Class TraceJson {SJ : SerdeJson} := {
  header_to_json : TraceHeader -> bytes;
  header_from_json : bytes -> option TraceHeader;
  header_json_roundtrip h :
    header_typed h = true ->
    exists v, header_from_json (header_to_json h ++ [newline]) = Some (set_engine_metadata v h);
}.

(** [TokenizedPrompt::read], from what [fs::read] and the parser gave. *)
Section Tokenized.
Context {SJ : SerdeJson}.
Variable prompt_from_json : bytes -> option TokenizedPrompt.

Definition TokenizedPrompt_read (fs : Fs) (path : string) : AnyResult TokenizedPrompt :=
  content ← context (Format "read {}" [AStr path])
              (ok_or (match fs !! path with Some (FileNode b) => Some b | _ => None end)
                 (Foreign (lit "io error")));
  tokenized ← context (Format "parse {}" [AStr path])
                (ok_or (prompt_from_json content) (Foreign (lit "json error")));
  _ ← ensure_that (String.eqb (tk_format tokenized) TOKEN_TRACE_FORMAT)
        (Format "unsupported tokenization format {:?}" [AStr (tk_format tokenized)]);
  _ ← ensure_that (tk_version tokenized =? TRACE_VERSION)
        (Format "unsupported tokenization version {}" [AInt (tk_version tokenized)]);
  _ ← ensure_that (negb (bool_decide (tk_prompt_tokens tokenized = [])))
        (lit "llama.cpp tokenization produced no tokens");
  _ ← ensure_sha256 (tk_checkpoint_sha256 tokenized);
  Ok tokenized.
End Tokenized.

Section Trace.
Context {SJ : SerdeJson} {TJ : TraceJson}.

(** ** The reader *)

Record TraceReader := {
  rd_header : TraceHeader;
  rd_logits : bytes;        (** what is left of the file *)
  rd_next_row : nat;
}.

Definition open_trace (fs : Fs) (directory : string) : AnyResult TraceReader :=
  let header_path := path_join directory "trace.json" in
  content ← context (Format "read trace header {}" [AStr header_path])
              (ok_or (file_in fs directory "trace.json") (Foreign (lit "io error")));
  header ← context (Format "parse trace header {}" [AStr header_path])
             (ok_or (header_from_json content) (Foreign (lit "json error")));
  _ ← validate_header header;
  let logits_path := path_join directory (th_logits_file header) in
  expected_bytes ← ok_or (n ← checked_mul (length_z (th_rows header)) (th_vocab_size header);
                          checked_mul n 4)
                     (Msg (lit "trace byte size overflows u64"));
  logits ← context (Format "stat trace logits {}" [AStr logits_path])
             (ok_or (file_in fs directory (th_logits_file header)) (Foreign (lit "io error")));
  let actual_bytes := length_z logits in
  _ ← ensure_that (actual_bytes =? expected_bytes)
        (Format "trace logits size mismatch: expected {expected_bytes} bytes, found {actual_bytes}"
           [AInt expected_bytes; AInt actual_bytes]);
  Ok {| rd_header := header; rd_logits := logits; rd_next_row := 0 |}.

(** [bytes.chunks_exact(4)]. *)
Fixpoint quads (bs : bytes) : list bytes :=
  match bs with
  | a :: b :: c :: d :: bs => [a; b; c; d] :: quads bs
  | _ => []
  end.

(** The loop over the values of a row. *)
Fixpoint read_values (row : nat) (token : Z) (chunks : list bytes) : AnyResult (list f32) :=
  match chunks with
  | [] => Ok []
  | chunk :: chunks =>
      let value := f32_of_bits (le_value chunk) in
      _ ← ensure_that (is_finite value)
            (Format "trace row {} token {} is non-finite: {}" [AInt (Z.of_nat row); AInt token]);
      values ← read_values row (token + 1) chunks;
      Ok (value :: values)
  end.

Definition set_logits (logits : bytes) (r : TraceReader) : TraceReader :=
  {| rd_header := rd_header r; rd_logits := logits; rd_next_row := rd_next_row r |}.
Definition set_next_row (n : nat) (r : TraceReader) : TraceReader :=
  {| rd_header := rd_header r; rd_logits := rd_logits r; rd_next_row := n |}.

(** [next_row]: the result and the reader it leaves; a read that fails has
    consumed the rest. *)
Definition next_row (r : TraceReader) : AnyResult (list f32) * TraceReader :=
  let row := rd_next_row r in
  match th_rows (rd_header r) !! row with
  | None => (bail (Format "trace has no row {}" [AInt (Z.of_nat row)]), r)
  | Some recorded =>
      let n := Z.to_nat (th_vocab_size (rd_header r) * 4) in
      if (length (rd_logits r) <? n)%nat then
        (Err (Context (Format "read trace row {}" [AInt (Z.of_nat row)])
                (Foreign (lit "failed to fill whole buffer"))), set_logits [] r)
      else
        let r' := set_logits (drop n (rd_logits r)) r in
        match (values ← read_values row 0 (quads (take n (rd_logits r)));
               _ ← ensure_that (row_argmax values =? tr_argmax recorded)
                     (Format "trace row {} argmax mismatch: metadata {}, logits {}"
                        [AInt (Z.of_nat row); AInt (tr_argmax recorded); AInt (row_argmax values)]);
               Ok values) with
        | Ok values => (Ok values, set_next_row (S row) r')
        | error => (error, r')
        end
  end.

Definition finish_reading (r : TraceReader) : AnyResult unit :=
  _ ← ensure_that (Nat.eqb (rd_next_row r) (length (th_rows (rd_header r))))
        (Format "trace has {} unread rows"
           [AInt (length_z (th_rows (rd_header r)) - Z.of_nat (rd_next_row r))]);
  ensure_that (bool_decide (rd_logits r = [])) (lit "trace contains trailing logit bytes").

(** ** The writer *)

(** The calls of the operating system that may fail. *)
Inductive Call : Type :=
  | CreateDirAll | CreateDir | CreateLogits | WriteLogits (offset : Z) | FlushLogits | SyncLogits
  | CreateHeader | WriteHeader | SyncHeader | Rename.
Variable io_fails : Call -> bool.
(** What [remove_dir_all] leaves of a directory, when not all is removed. *)
Variable leftover : TraceDir -> option TraceDir.
Variable pid : Z.

Definition call (c : Call) : AnyResult unit := ensure (negb (io_fails c)) (Foreign (lit "io error")).

Record TraceWriter := {
  wr_destination : string;
  wr_temporary : string;
  wr_header : TraceHeader;
  wr_logits : bytes;        (** what was written to the buffered file *)
}.

Definition exists_path (fs : Fs) (path : string) : bool := bool_decide (is_Some (fs !! path)).

Definition temporary_name (parent name : string) (counter : nat) : string :=
  path_join parent
    (String.append "." (String.append name (String.append ".tmp-"
       (String.append (decimal pid) (String "-" (decimal (Z.of_nat counter))))))).

Definition new_header (engine checkpoint_sha256 : string) (vocab_size : Z)
    (prompt_tokens decode_inputs : list Z) (engine_metadata : Value) : TraceHeader :=
  {| th_format := TRACE_FORMAT; th_version := TRACE_VERSION; th_engine := engine;
     th_checkpoint_sha256 := checkpoint_sha256; th_vocab_size := vocab_size;
     th_prompt_tokens := prompt_tokens; th_decode_inputs := decode_inputs;
     th_logits_dtype := "f32"; th_logits_byte_order := "little"; th_rows := [];
     th_logits_file := "logits.f32le"; th_engine_metadata := engine_metadata |}.

(** [create], up to the directory: its path. *)
Definition choose_temporary (fs : Fs) (destination : string) : AnyResult string :=
  _ ← ensure_that (negb (exists_path fs destination))
        (Format "trace output {} already exists" [AStr destination]);
  let parent := default "." (parent destination) in
  _ ← context (Format "create trace parent {}" [AStr parent]) (call CreateDirAll);
  name ← ok_or (name ← file_name destination;
                if utf8_valid (bytes_of_string name) then Some name else None)
           (Msg (lit "trace output must have a UTF-8 file name"));
  temporary ← ok_or (List.find (fun candidate => negb (exists_path fs candidate))
                       (temporary_name parent name <$> seq 0 1000))
                (Msg (lit "could not allocate a temporary trace directory"));
  _ ← context (Format "create temporary trace {}" [AStr temporary]) (call CreateDir);
  Ok temporary.

(** The rest of [create]: an error leaves the directory, because the writer
    whose drop removes it does not exist yet. *)
Definition create (fs : Fs) (destination engine checkpoint_sha256 : string) (vocab_size : Z)
    (prompt_tokens decode_inputs : list Z) (engine_metadata : Value) : AnyResult TraceWriter * Fs :=
  match choose_temporary fs destination with
  | Ok temporary =>
      let logits_path := path_join temporary "logits.f32le" in
      match context (Format "create trace logits {}" [AStr logits_path]) (call CreateLogits) with
      | Ok _ =>
          let header := new_header engine checkpoint_sha256 vocab_size prompt_tokens decode_inputs
                          engine_metadata in
          ((_ ← validate_trajectory prompt_tokens decode_inputs vocab_size;
            _ ← ensure_sha256 checkpoint_sha256;
            Ok {| wr_destination := destination; wr_temporary := temporary;
                  wr_header := header; wr_logits := [] |}),
           <[temporary := DirNode {["logits.f32le" := []]}]> fs)
      | Err e => (Err e, <[temporary := DirNode ∅]> fs)
      | Panic why => (Panic why, <[temporary := DirNode ∅]> fs)
      end
  | Err e => (Err e, fs)
  | Panic why => (Panic why, fs)
  end.

(** The loop of [write_row]: what was written before an error stays. *)
Fixpoint write_values (row token : Z) (logits : bytes) (values : list f32)
    : AnyResult unit * bytes :=
  match values with
  | [] => (Ok tt, logits)
  | value :: values =>
      match (_ ← ensure_that (is_finite value)
                  (Format "trace row {row_index} token {token} is non-finite: {value}"
                     [AInt row; AInt token]);
             call (WriteLogits (length_z logits))) with
      | Ok _ => write_values row (token + 1) (logits ++ le_bytes 4 (bits_of_f32 value)) values
      | error => (error, logits)
      end
  end.

Definition set_written (header : TraceHeader) (logits : bytes) (w : TraceWriter) : TraceWriter :=
  {| wr_destination := wr_destination w; wr_temporary := wr_temporary w;
     wr_header := header; wr_logits := logits |}.

(** The checks of [write_row] before it writes. *)
Definition check_row (h : TraceHeader) (phase : TracePhase) (position input_token : Z)
    (values : list f32) : AnyResult unit :=
  let index := length (th_rows h) in
  let i := AInt (Z.of_nat index) in
  _ ← ensure_that (length_z values =? th_vocab_size h)
        (Format "trace row width mismatch: expected {}, found {}"
           [AInt (th_vocab_size h); AInt (length_z values)]);
  '(expected_phase, expected_position, expected_input) ← expected_row h index;
  _ ← ensure_that (bool_decide (phase = expected_phase))
        (Format "trace row {row_index} phase mismatch" [i]);
  _ ← ensure_that (position =? expected_position)
        (Format "trace row {row_index} position mismatch: expected {expected_position}, found {position}"
           [i; AInt expected_position; AInt position]);
  ensure_that (input_token =? expected_input)
    (Format "trace row {row_index} input mismatch: expected {expected_input}, found {input_token}"
       [i; AInt expected_input; AInt input_token]).

Definition write_row (phase : TracePhase) (position input_token : Z) (values : list f32)
    (w : TraceWriter) : AnyResult unit * TraceWriter :=
  let h := wr_header w in
  match check_row h phase position input_token values with
  | Ok _ =>
      match write_values (length_z (th_rows h)) 0 (wr_logits w) values with
      | (Ok _, logits) =>
          let row := {| tr_phase := phase; tr_position := position; tr_input_token := input_token;
                        tr_argmax := row_argmax values;
                        tr_forced_token := th_decode_inputs h !! length (th_rows h) |} in
          (Ok tt, set_written (set_rows (th_rows h ++ [row]) h) logits w)
      | (error, logits) => (error, set_written h logits w)
      end
  | error => (error, w)
  end.

(** [Drop] of an unfinished writer. *)
Definition drop_writer (w : TraceWriter) (fs : Fs) : Fs :=
  match fs !! wr_temporary w with
  | Some (DirNode files) =>
      match leftover files with
      | Some files => <[wr_temporary w := DirNode files]> fs
      | None => delete (wr_temporary w) fs
      end
  | _ => fs
  end.

(** The files [finish] makes in the temporary directory. *)
Definition staged (w : TraceWriter) : TraceDir :=
  <["trace.json" := header_to_json (wr_header w) ++ [newline]]> {["logits.f32le" := wr_logits w]}.

(** [fs::rename] of a directory: over nothing or an empty directory. *)
Definition rename_dir (fs : Fs) (from to : string) (files : TraceDir) : AnyResult Fs :=
  _ ← call Rename;
  match fs !! to with
  | None => Ok (<[to := DirNode files]> (delete from fs))
  | Some (DirNode existing) =>
      _ ← ensure (bool_decide (existing = ∅)) (Foreign (lit "directory not empty"));
      Ok (<[to := DirNode files]> (delete from fs))
  | Some (FileNode _) => Err (Foreign (lit "not a directory"))
  end.

(** [finish] consumes the writer: an error drops it. *)
Definition finish_steps (w : TraceWriter) (fs : Fs) : AnyResult Fs :=
  let h := wr_header w in
  _ ← check_row_count h;
  _ ← validate_header h;
  _ ← call FlushLogits; _ ← call SyncLogits;
  _ ← call CreateHeader; _ ← call WriteHeader; _ ← call SyncHeader;
  context (Format "publish trace {} -> {}" [AStr (wr_temporary w); AStr (wr_destination w)])
    (rename_dir fs (wr_temporary w) (wr_destination w) (staged w)).

Definition finish (w : TraceWriter) (fs : Fs) : AnyResult string * Fs :=
  match finish_steps w fs with
  | Ok fs => (Ok (wr_destination w), fs)
  | Err e => (Err e, drop_writer w fs)
  | Panic why => (Panic why, drop_writer w fs)
  end.

End Trace.
