(* ===== verification/LogitTraceSpec.v ===== *)
(** * What a logit trace promises

    The reader returns exactly the rows that were written, accepts nothing
    else, and a trace appears under its name only when it is complete. *)
From S2P Require Import Prelude Strings Errors Serde CoreTypes Paths Names Session Floats LogitTrace.
From Stdlib Require Import ZArith Lia Ascii String SpecFloat.
From stdpp Require Import base list strings gmap.
From stdpp Require Import options.

Local Open Scope Z_scope.

(** ** Rows as bytes *)

Definition row_bytes (values : list f32) : bytes :=
  concat ((fun v => le_bytes 4 (bits_of_f32 v)) <$> values).
Definition rows_bytes (rows : list (list f32)) : bytes := concat (row_bytes <$> rows).

(** A row that can be in a trace: finite values of the type. *)
Definition storable (values : list f32) : Prop :=
  Forall (fun v => is_finite v = true /\ is_f32 v = true) values.

Lemma length_row_bytes values : length (row_bytes values) = (4 * length values)%nat.
Proof.
  unfold row_bytes. induction values as [|v values IH]; [done|]. cbn [fmap list_fmap concat].
  rewrite length_app, IH, length_le_bytes. cbn. lia.
Qed.

Lemma row_bytes_cons v values :
  row_bytes (v :: values) = le_bytes 4 (bits_of_f32 v) ++ row_bytes values.
Proof. done. Qed.

Lemma rows_bytes_snoc rows values : rows_bytes (rows ++ [values]) = rows_bytes rows ++ row_bytes values.
Proof. unfold rows_bytes. rewrite fmap_app, concat_app. cbn. by rewrite app_nil_r. Qed.

Lemma length_rows_bytes vocab rows :
  Forall (fun values => length_z values = vocab) rows ->
  length_z (rows_bytes rows) = length_z rows * vocab * 4.
Proof.
  unfold length_z, rows_bytes. induction 1 as [|values rows Hv _ IH]; [done|]. cbn [fmap list_fmap concat].
  rewrite length_app, length_row_bytes. cbn [length]. lia.
Qed.

Lemma read_values_row_bytes row token values :
  storable values -> read_values row token (quads (row_bytes values)) = Ok values.
Proof.
  intros H. revert token. induction H as [|v values [Hf Hv] _ IH]; intros token; [done|].
  rewrite row_bytes_cons. set (rest := row_bytes values) in *.
  assert (Hq : quads (le_bytes 4 (bits_of_f32 v) ++ rest) = le_bytes 4 (bits_of_f32 v) :: quads rest) by done.
  rewrite Hq. cbn [read_values]. pose proof (bits_of_f32_range v Hv).
  rewrite le_value_le_bytes, Z.mod_small by done. rewrite f32_of_bits_of_f32 by done.
  unfold ensure_that. rewrite Hf. cbn. by rewrite IH.
Qed.

(** Values that were read are the bytes they came from. *)
Lemma read_values_inv row token bs values :
  read_values row token (quads bs) = Ok values -> (4 * length values = length bs)%nat ->
  storable values /\ row_bytes values = bs.
Proof.
  revert token bs. induction values as [|v values IH]; intros token bs H Hl.
  { destruct bs; [split; [constructor|done]|done]. }
  destruct bs as [|a [|b [|c [|d bs]]]]; try discriminate H. cbn [quads read_values] in H.
  unfold ensure_that in H. ok_inv.
    match goal with |- context [f32_of_bits ?e] => change e with (le_value [a; b; c; d]) end.
    destruct (IH _ _ Hv0) as [Hs Hb]; [cbn in Hl; lia|]. set (q := [a; b; c; d]) in *. pose proof (le_value_range q) as Hr. cbn [length q] in Hr.
  split; [constructor; [split; [done|apply f32_of_bits_valid]|done]|].
  rewrite row_bytes_cons, bits_of_f32_of_bits by (done || (cbn in Hr; lia)).
  change (le_bytes 4 (le_value q)) with (le_bytes (length q) (le_value q)).
  by rewrite le_bytes_le_value, Hb.
Qed.

Lemma read_values_length row token chunks values :
  read_values row token chunks = Ok values -> length values = length chunks.
Proof.
  revert token values. induction chunks as [|c chunks IH]; intros token values; cbn [read_values].
  { by intros [= <-]. }
  intros H. ok_inv. cbn. f_equal. by eapply IH.
Qed.

Lemma length_quads n bs : length bs = (4 * n)%nat -> length (quads bs) = n.
Proof.
  revert bs. induction n as [|n IH]; intros bs H; [by destruct bs|].
  destruct bs as [|a [|b [|c [|d bs]]]]; cbn in H; try lia. cbn. f_equal. apply IH. lia.
Qed.

Lemma write_values_Ok io_fails row token logits values logits' :
  write_values io_fails row token logits values = (Ok tt, logits') ->
  Forall (fun v => is_finite v = true) values /\ logits' = logits ++ row_bytes values.
Proof.
  revert token logits. induction values as [|v values IH]; intros token logits; cbn [write_values].
  { intros [= ->]. by rewrite app_nil_r. }
  unfold ensure_that, call. destruct (is_finite v) eqn:Hf; cbn -[row_bytes le_bytes]; [|done].
  destruct (io_fails _); cbn -[row_bytes le_bytes]; [done|]. intros [H ->]%IH. split; [by constructor|].
  by rewrite row_bytes_cons, app_assoc.
Qed.

(** ** The writer's invariant *)

Section Writer.
Context {SJ : SerdeJson} {TJ : TraceJson}.
Variable io_fails : Call -> bool.

(** The rows given to [write_row]. *)
Record Row := { row_phase : TracePhase; row_position : Z; row_input : Z; row_values : list f32 }.

Fixpoint write_rows (rows : list Row) (w : TraceWriter) : AnyResult unit * TraceWriter :=
  match rows with
  | [] => (Ok tt, w)
  | r :: rows =>
      match write_row io_fails (row_phase r) (row_position r) (row_input r) (row_values r) w with
      | (Ok _, w) => write_rows rows w
      | (error, w) => (error, w)
      end
  end.

(** The metadata of the [i]-th row. *)
Definition recorded (decode : list Z) (i : nat) (r : Row) : TraceRow :=
  {| tr_phase := row_phase r; tr_position := row_position r; tr_input_token := row_input r;
     tr_argmax := row_argmax (row_values r); tr_forced_token := decode !! i |}.

(** The writer [w] started as [w0] and has taken [rows]. *)
Record written (w0 w : TraceWriter) (rows : list Row) : Prop := {
  wt_header : wr_header w = set_rows (imap (recorded (th_decode_inputs (wr_header w0))) rows) (wr_header w0);
  wt_logits : wr_logits w = rows_bytes (row_values <$> rows);
  wt_destination : wr_destination w = wr_destination w0;
  wt_temporary : wr_temporary w = wr_temporary w0;
  wt_width : Forall (fun r => length_z (row_values r) = th_vocab_size (wr_header w0)) rows;
  wt_finite : Forall (fun r => Forall (fun v => is_finite v = true) (row_values r)) rows;
  wt_expected : forall i r, rows !! i = Some r ->
    expected_row (wr_header w0) i = Ok (row_phase r, row_position r, row_input r);
}.

Lemma expected_row_set_rows rows h i : expected_row (set_rows rows h) i = expected_row h i.
Proof. by destruct i. Qed.

Lemma write_row_written w0 w rows r w' :
  written w0 w rows ->
  write_row io_fails (row_phase r) (row_position r) (row_input r) (row_values r) w = (Ok tt, w') ->
  written w0 w' (rows ++ [r]).
Proof.
  intros [Hh Hl Hd Ht Hw Hf He]. unfold write_row.
  destruct (check_row _ _ _ _ _) as [u| |] eqn:Ec; try done.
  destruct (write_values _ _ _ _ _) as [[[]| |] logits] eqn:Ewr; intros [= <-].
  apply write_values_Ok in Ewr as [Hfin ->].
  assert (Hn : length (th_rows (wr_header w)) = length rows) by (rewrite Hh; cbn; by rewrite length_imap).
  unfold check_row, ensure_that in Ec. rewrite Hn in Ec. ok_inv.
  rewrite Hh, expected_row_set_rows in Hv0. apply Z.eqb_eq in Hv, Hv2, Ec. apply bool_decide_eq_true in Hv1.
  split; cbn [set_written wr_header wr_logits wr_destination wr_temporary].
  - rewrite Hn, Hh. cbn. unfold set_rows. cbn. f_equal.
    rewrite imap_app. cbn. unfold recorded at 3. do 3 f_equal. by rewrite Nat.add_0_r.
  - rewrite Hl, fmap_app. cbn. by rewrite rows_bytes_snoc.
  - done.
  - done.
  - apply Forall_app. split; [done|]. constructor; [|done]. rewrite Hv, Hh. done.
  - apply Forall_app. split; [done|]. by constructor.
  - intros i r' [Hi|[Hi Hr]]%lookup_app_Some; [by apply He|].
    apply list_lookup_singleton_Some in Hr as [Hi0 <-]. assert (i = length rows) as -> by lia.
    rewrite Hv0. congruence.
Qed.

Lemma write_rows_written w0 w done_ rows w' :
  written w0 w done_ -> write_rows rows w = (Ok tt, w') -> written w0 w' (done_ ++ rows).
Proof.
  revert w done_. induction rows as [|r rows IH]; intros w done_ Hw; cbn [write_rows].
  { intros [= <-]. by rewrite app_nil_r. }
  destruct (write_row _ _ _ _ _ _) as [[[]| |] w1] eqn:E; try done.
  intros H. eapply write_row_written in E; [|done].
  rewrite cons_middle, app_assoc. by eapply IH.
Qed.

Variable leftover : TraceDir -> option TraceDir.
Variable pid : Z.

Lemma create_Ok fs destination engine sha vocab prompt decode meta w fs' :
  create io_fails pid fs destination engine sha vocab prompt decode meta = (Ok w, fs') ->
  exists temporary,
    choose_temporary io_fails pid fs destination = Ok temporary /\
    w = {| wr_destination := destination; wr_temporary := temporary;
           wr_header := new_header engine sha vocab prompt decode meta; wr_logits := [] |} /\
    fs' = <[temporary := DirNode {["logits.f32le" := []]}]> fs /\
    validate_trajectory prompt decode vocab = Ok tt.
Proof.
  unfold create. destruct (choose_temporary _ _ _ _) as [temporary| |]; try done.
  destruct (context _ _); try done. intros [= H <-]. ok_inv. by exists temporary.
Qed.

Lemma written_nil w0 : wr_logits w0 = [] -> th_rows (wr_header w0) = [] -> written w0 w0 [].
Proof.
  intros Hl Hr. split; try done; try constructor. unfold set_rows. cbn. rewrite <-Hr.
  by destruct (wr_header w0).
Qed.

Lemma finish_published w fs path fs' :
  finish io_fails leftover w fs = (Ok path, fs') ->
  path = wr_destination w /\ check_row_count (wr_header w) = Ok tt /\
  validate_header (wr_header w) = Ok tt /\
  dir_at fs' (wr_destination w) = Some (staged w).
Proof.
  unfold finish, finish_steps. destruct (_ ≫= _) as [fs1| |] eqn:E; try done. intros [= <- <-].
  unfold call in E. ok_inv. unfold context, rename_dir, call in E.
  repeat (split; [done|]). unfold dir_at.
  destruct (ensure (negb (io_fails Rename)) _); try done. cbn in E.
  destruct (fs !! _) as [[|files]|]; try done; [|injection E as <-; by rewrite lookup_insert_eq].
  destruct (ensure _ _); try done. cbn in E. injection E as <-. by rewrite lookup_insert_eq.
Qed.
End Writer.

(** ** The reader's invariant *)

Fixpoint read_rows {SJ : SerdeJson} (n : nat) (r : TraceReader) : AnyResult (list (list f32)) * TraceReader :=
  match n with
  | O => (Ok [], r)
  | S n =>
      match next_row r with
      | (Ok values, r) =>
          match read_rows n r with
          | (Ok rows, r) => (Ok (values :: rows), r)
          | error => error
          end
      | (Err e, r) => (Err e, r)
      | (Panic why, r) => (Panic why, r)
      end
  end.

Section Reader.
Context {SJ : SerdeJson} {TJ : TraceJson}.

Lemma next_row_Ok (r : TraceReader) recorded values rest :
  th_rows (rd_header r) !! rd_next_row r = Some recorded ->
  tr_argmax recorded = row_argmax values -> length_z values = th_vocab_size (rd_header r) ->
  storable values -> rd_logits r = row_bytes values ++ rest ->
  next_row r = (Ok values, set_next_row (S (rd_next_row r)) (set_logits rest r)).
Proof.
  intros Hr Ha Hl Hs Hb. unfold next_row. rewrite Hr, <-Hl, Hb.
  assert (Hn : Z.to_nat (length_z values * 4) = length (row_bytes values))
    by (rewrite length_row_bytes; unfold length_z; lia).
  rewrite Hn, length_app. rewrite (proj2 (Nat.ltb_ge _ _)) by lia.
  rewrite take_app_length, drop_app_length, read_values_row_bytes by done. cbn.
  unfold ensure_that. by rewrite Ha, Z.eqb_refl.
Qed.

Lemma read_rows_Ok (r : TraceReader) recs rows :
  (rd_next_row r <= length (th_rows (rd_header r)))%nat ->
  drop (rd_next_row r) (th_rows (rd_header r)) = recs -> rd_logits r = rows_bytes rows ->
  Forall2 (fun rec values => tr_argmax rec = row_argmax values /\
    length_z values = th_vocab_size (rd_header r) /\ storable values) recs rows ->
  exists r', read_rows (length rows) r = (Ok rows, r') /\ finish_reading r' = Ok tt.
Proof.
  remember (th_vocab_size (rd_header r)) as vocab eqn:Hv. intros Hle Hrecs Hb H.
  revert r Hle Hrecs Hb Hv. induction H as [|rec values recs rows (Ha & Hl & Hs) _ IH]; intros r Hle Hrecs Hb Hv.
  - exists r. split; [done|]. unfold finish_reading, ensure_that. rewrite Hb. cbn.
    apply (f_equal length) in Hrecs. rewrite length_drop in Hrecs. cbn in Hrecs.
    rewrite (proj2 (Nat.eqb_eq _ _)) by lia. done.
  - assert (Hlk : th_rows (rd_header r) !! rd_next_row r = Some rec).
    { rewrite <-(Nat.add_0_r (rd_next_row r)), <-lookup_drop, Hrecs. done. }
    pose proof (next_row_Ok r rec values (rows_bytes rows) Hlk Ha ltac:(congruence) Hs Hb) as Hn.
    destruct (IH (set_next_row (S (rd_next_row r)) (set_logits (rows_bytes rows) r))) as (r' & Hr' & Hf).
    + cbn. apply lookup_lt_Some in Hlk. lia.
    + cbn. rewrite <-Nat.add_1_r, <-drop_drop, Hrecs. done.
    + done.
    + done.
    + exists r'. split; [|done]. cbn [read_rows length]. by rewrite Hn, Hr'.
Qed.

(** An accepted row is in the file, with the greatest logit that was recorded. *)
Lemma next_row_inv (r r' : TraceReader) values :
  0 <= th_vocab_size (rd_header r) -> next_row r = (Ok values, r') ->
  exists recorded, th_rows (rd_header r) !! rd_next_row r = Some recorded /\
    tr_argmax recorded = row_argmax values /\ length_z values = th_vocab_size (rd_header r) /\
    storable values /\ rd_logits r = row_bytes values ++ rd_logits r' /\
    rd_header r' = rd_header r /\ rd_next_row r' = S (rd_next_row r).
Proof.
  intros Hvocab. unfold next_row. destruct (th_rows _ !! _) as [recorded|]; [|done].
  destruct (Nat.ltb_spec (length (rd_logits r)) (Z.to_nat (th_vocab_size (rd_header r) * 4))); [done|].
  destruct (_ ≫= _) as [vs| |] eqn:E; intros [= <- <-]. unfold ensure_that in E. ok_inv.
  apply Z.eqb_eq in Hv0. exists recorded. split; [done|].
  set (n := Z.to_nat (th_vocab_size (rd_header r) * 4)) in *.
  assert (Hlen : length (take n (rd_logits r)) = n) by (rewrite length_take; lia).
  assert (Hq : (4 * length vs = n)%nat).
  { apply read_values_length in Hv. rewrite Hv.
    rewrite (length_quads (Z.to_nat (th_vocab_size (rd_header r)))); [|rewrite Hlen]; lia. }
  apply read_values_inv in Hv as [Hs Hb]; [|lia].
  repeat (split; [done || (unfold length_z; lia)|]). cbn. rewrite Hb, take_drop. done.
Qed.

Lemma read_rows_inv n (r r' : TraceReader) rows :
  0 <= th_vocab_size (rd_header r) -> read_rows n r = (Ok rows, r') ->
  length rows = n /\ rd_logits r = rows_bytes rows ++ rd_logits r' /\ rd_header r' = rd_header r /\
  rd_next_row r' = (rd_next_row r + n)%nat /\
  forall i values, rows !! i = Some values ->
    exists recorded, th_rows (rd_header r) !! (rd_next_row r + i)%nat = Some recorded /\
      tr_argmax recorded = row_argmax values /\ length_z values = th_vocab_size (rd_header r) /\
      storable values.
Proof.
  revert r rows. induction n as [|n IH]; intros r rows Hv; cbn [read_rows].
  { intros [= <- <-]. rewrite Nat.add_0_r. done. }
  destruct (next_row r) as [[values| |] r1] eqn:En; try done.
  destruct (read_rows n r1) as [[rows1| |] r2] eqn:Er; try done. intros [= <- <-].
  apply next_row_inv in En as (rec & Hrec & Ha & Hl & Hs & Hb & Hh & Hn); [|done].
  apply IH in Er as (<- & Hb1 & Hh1 & Hn1 & Hi1); [|by rewrite Hh].
  rewrite Hh, Hn in *. split; [done|]. split; [rewrite Hb, Hb1; unfold rows_bytes; cbn; by rewrite app_assoc|].
  split; [done|]. split; [lia|]. intros [|i] vs Hi.
  - injection Hi as <-. rewrite Nat.add_0_r. by exists rec.
  - rewrite Nat.add_succ_r. by apply Hi1.
Qed.

Lemma read_rows_count n (r r' : TraceReader) rows : read_rows n r = (Ok rows, r') -> length rows = n.
Proof.
  revert r rows. induction n as [|n IH]; intros r rows; cbn [read_rows]; [by intros [= <- _]|].
  destruct (next_row r) as [[values| |] r1]; try done.
  destruct (read_rows n r1) as [[rows1| |] r2] eqn:Er; try done. intros [= <- <-]. cbn. f_equal. by eapply IH.
Qed.
End Reader.

(** ** The header *)

Section Spec.
Context {SJ : SerdeJson} {TJ : TraceJson}.
Variable io_fails : Call -> bool.
Variable leftover : TraceDir -> option TraceDir.
Variable pid : Z.

Lemma expected_row_typed (h : TraceHeader) i phase position input :
  header_typed h = true -> expected_row h i = Ok (phase, position, input) ->
  0 <= position <= u64_max /\ is_token input = true.
Proof.
  unfold header_typed. rewrite !andb_true_iff, !forallb_forall. intros [[[[_ Hp] Hd] _] _].
  destruct i as [|i]; cbn [expected_row]; intros H; ok_inv.
  - split; [unfold wrap64, u64_max; match goal with |- context [?a mod ?b] => pose proof (Z.mod_pos_bound a b) end; lia|].
    apply Hp, list_elem_of_In. by apply last_Some_elem_of.
  - apply checked_add_Some in Hv as [-> Hv].
    split; [unfold length_z in *; lia|]. apply Hd, list_elem_of_In. by eapply list_elem_of_lookup_2.
Qed.

Lemma is_token_argmax values : is_token (row_argmax values) = true.
Proof. unfold is_token, row_argmax, wrap32, u32_max. rewrite andb_true_iff, !Z.leb_le.
  match goal with |- context [?a mod ?b] => pose proof (Z.mod_pos_bound a b) end; lia. Qed.

Lemma written_typed w0 w rows :
  header_typed (wr_header w0) = true -> th_rows (wr_header w0) = [] -> written w0 w rows ->
  header_typed (wr_header w) = true.
Proof.
  intros Ht H0 Hw. rewrite (wt_header _ _ _ Hw). pose proof Ht as Ht0.
  unfold header_typed in Ht |- *. rewrite !andb_true_iff in *. destruct Ht as [[[[Ha Hp] Hd] _] Hs].
  split; [|exact Hs]. split; [exact (conj (conj Ha Hp) Hd)|]. cbn [set_rows th_rows].
  apply forallb_forall. intros row Hin%list_elem_of_In.
  apply list_elem_of_lookup in Hin as [i Hi]. rewrite list_lookup_imap in Hi.
  destruct (rows !! i) as [r|] eqn:Er; [|done]. injection Hi as <-.
  apply (wt_expected _ _ _ Hw) in Er. apply expected_row_typed in Er as [Hpos Hin]; [|done].
  unfold row_typed. cbn. rewrite !andb_true_iff, !Z.leb_le, Hin, is_token_argmax.
  repeat (split; [done || lia|]). destruct (th_decode_inputs _ !! i) as [n|] eqn:En; [|done].
  apply (proj1 (forallb_forall _ _) Hd), list_elem_of_In. by eapply list_elem_of_lookup_2.
Qed.

Lemma validate_header_metadata v (h : TraceHeader) :
  validate_header (set_engine_metadata v h) = validate_header h.
Proof.
  assert (Hr : forall rows i, validate_rows (set_engine_metadata v h) i rows = validate_rows h i rows).
  { induction rows as [|row rows IH]; intros i; [done|]. cbn [validate_rows]. rewrite IH. done. }
  unfold validate_header. cbn [th_rows set_engine_metadata]. by rewrite Hr.
Qed.

Lemma validate_rows_lookup (h : TraceHeader) k rows i row :
  validate_rows h k rows = Ok tt -> rows !! i = Some row ->
  expected_row h (k + i) = Ok (tr_phase row, tr_position row, tr_input_token row) /\
  tr_argmax row < th_vocab_size h /\ tr_forced_token row = th_decode_inputs h !! (k + i)%nat.
Proof.
  revert k i. induction rows as [|row' rows IH]; intros k i H Hi; [done|].
  cbn [validate_rows] in H. ok_inv. destruct i as [|i].
  - injection Hi as ->. rewrite Nat.add_0_r. unfold validate_row, ensure_that in Hv. ok_inv.
    apply bool_decide_eq_true in Hv1, Hv. apply Z.eqb_eq in Hv2, Hv3. apply Z.ltb_lt in Hv4.
    rewrite Hv0. split; [congruence|done].
  - rewrite <-Nat.add_succ_comm. by apply IH.
Qed.

Lemma header_facts (h : TraceHeader) :
  validate_header h = Ok tt ->
  0 < th_vocab_size h /\ length (th_rows h) = S (length (th_decode_inputs h)) /\
  validate_rows h 0 (th_rows h) = Ok tt.
Proof.
  unfold validate_header, check_row_count, ensure_that. intros H. ok_inv.
  apply Z.ltb_lt in Hv3. apply Nat.eqb_eq in Hv8. done.
Qed.

Lemma all_digits_no_slash s : all_digits s = true -> has_slash s = false.
Proof.
  induction s as [|a s IH]; [done|]. cbn [all_digits has_slash].
  destruct (Ascii.eqb_spec a "/") as [->|_]; [done|]. destruct (digit_value a); [apply IH|done].
Qed.

(** A hidden name made from the name of a path is another path. *)
Lemma hidden_name_differs directory name suffix path :
  file_name path = Some name -> has_slash suffix = false -> (2 <= String.length suffix)%nat ->
  path_join directory (String.append "." (String.append name suffix)) <> path.
Proof.
  intros En Hs Hl Heq. pose proof En as En'. rewrite <-Heq in En. rewrite file_name_join in En.
  - injection En as En. apply (f_equal String.length) in En.
    rewrite !length_append in En. cbn [String.length] in En. lia.
  - rewrite !has_slash_append, (file_name_no_slash _ _ En'), Hs. done.
  - apply segment_component_long. rewrite !length_append. cbn [String.length]. lia.
Qed.

(** The temporary directory is not the destination. *)
Lemma choose_temporary_spec fs destination temporary :
  choose_temporary io_fails pid fs destination = Ok temporary ->
  fs !! destination = None /\ fs !! temporary = None /\ temporary <> destination.
Proof.
  unfold choose_temporary, ensure_that, context, call, exists_path.
  intros H. ok_inv. apply negb_true_iff, bool_decide_eq_false, eq_None_not_Some in Hv.
  destruct (ensure _ _) eqn:E1 in Hv0; [|done..]. clear Hv0 E1.
  destruct (file_name destination) as [name|] eqn:En; [|done]. cbn in Hv1.
  destruct (utf8_valid _); [|done]. injection Hv1 as <-.
  destruct (ensure _ _); [|done..]. clear Hv3.
  apply find_some in Hv2 as [Hin Hfree].
  apply negb_true_iff, bool_decide_eq_false, eq_None_not_Some in Hfree.
  split; [done|]. split; [done|]. intros ->.
  apply list_elem_of_In, list_elem_of_fmap in Hin as (counter & Ht & _). symmetry in Ht. revert Ht.
  unfold temporary_name. apply hidden_name_differs; [done| |].
  - rewrite !has_slash_append. rewrite (all_digits_no_slash (decimal pid)) by apply decimal_digits. cbn.
    apply all_digits_no_slash, decimal_digits.
  - rewrite !length_append. cbn [String.length]. lia.
Qed.

(** ** Properties *)

(** C16: Round trip: a trace that was written and published is opened and read
    back row by row to exactly what was written, with the header it was given
    and the row metadata that belongs to it, and nothing is left over. *)
Theorem trace_roundtrip fs destination engine sha vocab prompt decode meta rows w0 fs0 w fs1 path fs2 :
  create io_fails pid fs destination engine sha vocab prompt decode meta = (Ok w0, fs0) ->
  header_typed (wr_header w0) = true ->
  Forall (fun r => Forall (fun v => is_f32 v = true) (row_values r)) rows ->
  write_rows io_fails rows w0 = (Ok tt, w) ->
  finish io_fails leftover w fs1 = (Ok path, fs2) ->
  length_z (rows_bytes (row_values <$> rows)) <= u64_max ->
  path = destination /\ exists v r r',
    open_trace fs2 destination = Ok r /\
    rd_header r = set_engine_metadata v
      (set_rows (imap (recorded decode) rows) (new_header engine sha vocab prompt decode meta)) /\
    read_rows (length rows) r = (Ok (row_values <$> rows), r') /\ finish_reading r' = Ok tt.
Proof.
  intros Hc Ht Hv Hw Hf Hlen. apply create_Ok in Hc as (temporary & _ & -> & _ & _).
  assert (Hwr : written _ w rows) by (eapply (write_rows_written _ _ _ []); [|exact Hw]; by apply written_nil).
  apply finish_published in Hf as (-> & _ & Hval & Hdir). rewrite (wt_destination _ _ _ Hwr) in *. cbn in Hdir |- *.
  split; [done|]. pose proof (wt_header _ _ _ Hwr) as Hh. cbn in Hh. rewrite <-Hh.
  destruct (header_json_roundtrip (wr_header w)) as [v Hjson].
  { by eapply written_typed. }
  exists v. set (r := {| rd_header := set_engine_metadata v (wr_header w);
                         rd_logits := wr_logits w; rd_next_row := 0 |}).
  assert (Hrows : length (th_rows (wr_header w)) = length rows)
    by (rewrite Hh; cbn; by rewrite length_imap).
  assert (Hvocab : th_vocab_size (wr_header w) = vocab) by by rewrite Hh.
  assert (Hfile : th_logits_file (wr_header w) = "logits.f32le") by by rewrite Hh.
  pose proof (wt_width _ _ _ Hwr) as Hwidth. pose proof (wt_logits _ _ _ Hwr) as Hlog. cbn in Hwidth.
  assert (Hwidth' : Forall (fun values => length_z values = vocab) (row_values <$> rows))
    by (apply Forall_fmap; exact Hwidth).
  rewrite (length_rows_bytes vocab) in Hlen by done.
  assert (Hz : length_z (row_values <$> rows) = length_z rows) by (unfold length_z; by rewrite length_fmap).
  assert (Hopen : open_trace fs2 destination = Ok r).
  { unfold open_trace, file_in. rewrite Hdir. cbn. unfold staged. rewrite lookup_insert_eq. cbn.
    rewrite Hjson. cbn -[validate_header set_engine_metadata]. rewrite validate_header_metadata, Hval.
    cbn. rewrite Hfile, lookup_insert_ne, lookup_singleton_eq by done. cbn.
    destruct (header_facts _ Hval) as [Hpos _]. rewrite Hvocab in *. unfold length_z in *.
    rewrite Hrows. unfold checked_mul, checked_u64. rewrite (proj2 (Z.leb_le _ _)) by lia. cbn.
    rewrite (proj2 (Z.leb_le _ _)) by lia. cbn. unfold ensure_that.
    rewrite Hlog. pose proof (length_rows_bytes vocab (row_values <$> rows)) as Hb. unfold length_z in Hb.
    rewrite Hb, length_fmap, Z.eqb_refl by done. cbn. unfold r. by rewrite Hlog. }
  destruct (read_rows_Ok r (th_rows (wr_header w)) (row_values <$> rows)) as (r' & Hr & Hfin).
  - cbn. lia.
  - done.
  - done.
  - rewrite Hh. cbn. rewrite Hvocab. clear -Hwidth Hv Hwr.
    pose proof (wt_finite _ _ _ Hwr) as Hfin. apply Forall2_fmap_r.
    apply Forall2_same_length_lookup_2; [by rewrite length_imap|].
    intros i rec row Hi Hrow. rewrite list_lookup_imap, Hrow in Hi. injection Hi as <-.
    rewrite Forall_lookup in Hwidth, Hv, Hfin. split; [done|]. split; [by eapply Hwidth|].
    apply Forall_and. split; [by eapply Hfin|by eapply Hv].
  - exists r, r'. rewrite length_fmap in Hr. done.
Qed.

(** What an opened trace is. *)
Lemma open_trace_inv fs directory (r : TraceReader) :
  open_trace fs directory = Ok r ->
  file_in fs directory (th_logits_file (rd_header r)) = Some (rd_logits r) /\
  rd_next_row r = 0%nat /\ validate_header (rd_header r) = Ok tt /\
  length_z (rd_logits r) = length_z (th_rows (rd_header r)) * th_vocab_size (rd_header r) * 4.
Proof.
  intros Ho. unfold open_trace, ensure_that in Ho.
  destruct (context _ (ok_or (file_in _ _ _) _)) as [content| |]; [|done..]. cbn in Ho.
  destruct (context _ (ok_or (header_from_json _) _)) as [header| |]; [|done..]. cbn in Ho.
  apply bind_Ok in Ho as ([] & Hval & Ho). apply bind_Ok in Ho as (expected & Hexp & Ho).
  destruct (file_in fs directory (th_logits_file header)) as [logits|] eqn:Hfile; [|done]. cbn in Ho.
  ok_inv. cbn [rd_header rd_logits rd_next_row].
  destruct (checked_mul (length_z (th_rows header)) (th_vocab_size header)) as [n|] eqn:Em; [|done].
  cbn in Hexp. apply checked_mul_Some in Em as [-> _], Hexp as [-> _]. apply Z.eqb_eq in Hv. done.
Qed.

(** A trace whose rows have all been read is its file. *)
Lemma open_read fs directory (r r' : TraceReader) rows :
  open_trace fs directory = Ok r ->
  read_rows (length (th_rows (rd_header r))) r = (Ok rows, r') ->
  file_in fs directory (th_logits_file (rd_header r)) = Some (rows_bytes rows) /\
  finish_reading r' = Ok tt /\ length rows = S (length (th_decode_inputs (rd_header r))).
Proof.
  intros (Hfile & H0 & Hval & Hlen)%open_trace_inv Hr.
  pose proof (header_facts _ Hval) as (Hpos & Hcount & Hrows).
  apply read_rows_inv in Hr as (Hl & Hb & Hh & Hn & Hi); [|lia].
  assert (Hwidth : Forall (fun values => length_z values = th_vocab_size (rd_header r)) rows).
  { apply Forall_lookup. intros i values Hlk. by apply Hi in Hlk as (? & _ & _ & ? & _). }
  apply length_rows_bytes in Hwidth.
  assert (Hrest : rd_logits r' = []).
  { apply length_zero_iff_nil. apply (f_equal length_z) in Hb.
    unfold length_z in *. rewrite length_app in Hb. nia. }
  rewrite Hrest, app_nil_r in Hb. rewrite <-Hb. split; [done|]. split; [|lia].
  unfold finish_reading, ensure_that. rewrite Hn, Hh, H0, Nat.eqb_refl, Hrest. done.
Qed.

(** C39: The reader accepts nothing but what its header describes: when it has
    read every row of a trace, the file is exactly those rows, the header is a
    trajectory (a prompt, then one row for each forced token, positions without
    gaps), and every row has the width of the vocabulary, only finite logits
    and the recorded greatest one. *)
Theorem trace_reader_sound fs directory (r r' : TraceReader) rows :
  open_trace fs directory = Ok r ->
  read_rows (length (th_rows (rd_header r))) r = (Ok rows, r') ->
  let h := rd_header r in
  file_in fs directory (th_logits_file h) = Some (rows_bytes rows) /\
  finish_reading r' = Ok tt /\ length rows = S (length (th_decode_inputs h)) /\
  forall i values, rows !! i = Some values ->
    exists row, th_rows h !! i = Some row /\
      expected_row h i = Ok (tr_phase row, tr_position row, tr_input_token row) /\
      tr_forced_token row = th_decode_inputs h !! i /\
      tr_argmax row = row_argmax values /\ tr_argmax row < th_vocab_size h /\
      length_z values = th_vocab_size h /\ storable values.
Proof.
  intros Ho Hr h. destruct (open_read fs directory r r' rows Ho Hr) as (Hfile & Hfin & Hl).
  fold h in Hfile, Hl. split; [done|]. split; [done|]. split; [lia|]. intros i values Hlk.
  apply open_trace_inv in Ho as (_ & H0 & Hval & _).
  pose proof (header_facts _ Hval) as (Hpos & _ & Hrows).
  apply read_rows_inv in Hr as (_ & _ & _ & _ & Hi); [|lia].
  destruct (Hi i values Hlk) as (row & Hrow & Ha & Hw & Hs). rewrite H0 in Hrow.
  exists row. split; [done|].
  destruct (validate_rows_lookup _ 0 _ i row Hrows Hrow) as (He & Hlt & Hf). done.
Qed.

(** Calls of [write_row], refused ones included. *)
Definition attempt (rows : list Row) (w : TraceWriter) : TraceWriter :=
  foldl (fun w r =>
    snd (write_row io_fails (row_phase r) (row_position r) (row_input r) (row_values r) w)) w rows.

Lemma write_row_paths phase position input values w :
  let w' := snd (write_row io_fails phase position input values w) in
  wr_destination w' = wr_destination w /\ wr_temporary w' = wr_temporary w.
Proof.
  unfold write_row. destruct (check_row _ _ _ _ _); try done.
  by destruct (write_values _ _ _ _ _) as [[| |] logits].
Qed.

Lemma attempt_paths rows w :
  wr_destination (attempt rows w) = wr_destination w /\ wr_temporary (attempt rows w) = wr_temporary w.
Proof.
  revert w. unfold attempt. induction rows as [|r rows IH]; intros w; [done|]. cbn.
  destruct (write_row_paths (row_phase r) (row_position r) (row_input r) (row_values r) w) as [H1 H2].
  destruct (IH (snd (write_row io_fails (row_phase r) (row_position r) (row_input r) (row_values r) w)))
    as [H3 H4]. split; congruence.
Qed.

Lemma drop_writer_other w fs path :
  path <> wr_temporary w -> drop_writer leftover w fs !! path = fs !! path.
Proof.
  intros H. unfold drop_writer. repeat case_match; try done.
  - by rewrite lookup_insert_ne.
  - by rewrite lookup_delete_ne.
Qed.

Lemma rename_dir_Ok fs from to files fs' :
  rename_dir io_fails fs from to files = Ok fs' -> fs' = <[to := DirNode files]> (delete from fs).
Proof.
  unfold rename_dir, call. intros H. ok_inv. destruct (fs !! to) as [[|existing]|]; ok_inv; done.
Qed.

(** C17: A trace appears under its name complete or not at all: whatever rows a
    writer was given, refused or not, and whichever call of the system fails,
    the destination is untouched until [finish] succeeds, and then it holds
    exactly the header, a valid one, and the logits; no other path changes, and
    the temporary directory is gone. *)
Theorem trace_publication fs destination engine sha vocab prompt decode meta w0 fs0 rows fs1 result fs2 :
  create io_fails pid fs destination engine sha vocab prompt decode meta = (Ok w0, fs0) ->
  finish io_fails leftover (attempt rows w0) fs1 = (result, fs2) ->
  fs0 !! destination = None /\
  (forall path, path <> destination -> path <> wr_temporary w0 -> fs2 !! path = fs1 !! path) /\
  match result with
  | Ok path =>
      path = destination /\ fs2 !! wr_temporary w0 = None /\
      exists header logits, validate_header header = Ok tt /\
        fs2 !! destination
        = Some (DirNode {["trace.json" := header_to_json header ++ [newline]; "logits.f32le" := logits]})
  | _ => fs2 !! destination = fs1 !! destination
  end.
Proof.
  intros Hc Hf. apply create_Ok in Hc as (temporary & Hchoose & -> & -> & _).
  apply choose_temporary_spec in Hchoose as (Hd & _ & Hne).
  match type of Hf with finish _ _ (attempt _ ?w0) _ = _ => destruct (attempt_paths rows w0) as [E1 E2] end.
  cbn in E1, E2 |- *. split; [by rewrite lookup_insert_ne|].
  set (w := attempt rows _) in *. clearbody w. subst destination temporary.
  assert (Hdrop : forall path, path <> wr_temporary w -> drop_writer leftover w fs1 !! path = fs1 !! path).
  { intros path Hp. apply drop_writer_other. congruence. }
  unfold finish in Hf. destruct (finish_steps io_fails w fs1) as [fs3|e|why] eqn:Es; injection Hf as <- <-.
  - unfold finish_steps, context in Es. ok_inv.
    destruct (rename_dir _ _ _ _ _) as [fs4| |] eqn:Er; [|discriminate Es|discriminate Es].
    injection Es as <-. apply rename_dir_Ok in Er as ->.
    split; [intros path Hp Ht; by rewrite lookup_insert_ne, lookup_delete_ne|].
    split; [done|]. split; [by rewrite lookup_insert_ne, lookup_delete_eq by done|].
    exists (wr_header w), (wr_logits w). split; [done|]. by rewrite lookup_insert_eq.
  - split; [auto|]. by apply Hdrop.
  - split; [auto|]. by apply Hdrop.
Qed.
End Spec.

(** ** A concrete header text *)

Module Codec.
Import Json.

(** A string: each byte after a mark, and a closing mark. *)
Definition mark : ascii := byte_of 1.
Definition stop : ascii := byte_of 0.
Fixpoint enc_bytes (bs : bytes) : bytes :=
  match bs with [] => [stop] | b :: bs => mark :: b :: enc_bytes bs end.
Fixpoint dec_bytes (bs : bytes) : option (bytes * bytes) :=
  match bs with
  | m :: rest =>
      if Ascii.eqb m stop then Some ([], rest)
      else match rest with b :: rest => '(x, rest) ← dec_bytes rest; Some (b :: x, rest) | [] => None end
  | [] => None
  end.
Definition dec_nums_step (bs : bytes) : option (Z * bytes) :=
  match bs with
  | a :: b :: c :: d :: e :: f :: g :: h :: bs => Some (le_value [a; b; c; d; e; f; g; h], bs)
  | _ => None
  end.
Fixpoint dec_nums (bs : bytes) : list Z :=
  match bs with
  | a :: b :: c :: d :: e :: f :: g :: h :: bs => le_value [a; b; c; d; e; f; g; h] :: dec_nums bs
  | _ => []
  end.
Definition enc_nums (l : list Z) : bytes := concat (le_bytes 8 <$> l).

Definition row_nums (r : TraceRow) : list Z :=
  [match tr_phase r with Prefill => 0 | Decode => 1 end; tr_position r; tr_input_token r;
   tr_argmax r; match tr_forced_token r with Some n => n + 1 | None => 0 end].
Fixpoint rows_of_nums (l : list Z) : list TraceRow :=
  match l with
  | p :: pos :: i :: a :: f :: l =>
      {| tr_phase := if p =? 0 then Prefill else Decode; tr_position := pos; tr_input_token := i;
         tr_argmax := a; tr_forced_token := if f =? 0 then None else Some (f - 1) |} :: rows_of_nums l
  | _ => []
  end.

Definition items (h : TraceHeader) : list bytes :=
  [bytes_of_string (th_format h); bytes_of_string (th_engine h);
   bytes_of_string (th_checkpoint_sha256 h); bytes_of_string (th_logits_dtype h);
   bytes_of_string (th_logits_byte_order h); bytes_of_string (th_logits_file h);
   enc_nums [th_version h; th_vocab_size h]; enc_nums (th_prompt_tokens h);
   enc_nums (th_decode_inputs h); enc_nums (concat (row_nums <$> th_rows h))].
Definition of_items (l : list bytes) : option TraceHeader :=
  match l with
  | [format; engine; sha; dtype; order; file; nums; prompt; decode; rows] =>
      match dec_nums nums with
      | [version; vocab] =>
          Some {| th_format := string_of_bytes format; th_version := version;
                  th_engine := string_of_bytes engine; th_checkpoint_sha256 := string_of_bytes sha;
                  th_vocab_size := vocab; th_prompt_tokens := dec_nums prompt;
                  th_decode_inputs := dec_nums decode; th_logits_dtype := string_of_bytes dtype;
                  th_logits_byte_order := string_of_bytes order;
                  th_rows := rows_of_nums (dec_nums rows); th_logits_file := string_of_bytes file;
                  th_engine_metadata := value_null |}
      | _ => None
      end
  | _ => None
  end.

Definition to_json (h : TraceHeader) : bytes := concat (enc_bytes <$> items h).
Fixpoint dec_items (n : nat) (bs : bytes) : option (list bytes) :=
  match n with
  | O => Some []
  | S n => '(x, rest) ← dec_bytes bs; l ← dec_items n rest; Some (x :: l)
  end.
Definition from_json (bs : bytes) : option TraceHeader := l ← dec_items 10 bs; of_items l.

Lemma dec_enc_bytes bs rest : dec_bytes (enc_bytes bs ++ rest) = Some (bs, rest).
Proof. induction bs as [|b bs IH]; [done|]. cbn -[dec_bytes]. cbn [dec_bytes]. cbn. by rewrite IH. Qed.

Lemma dec_enc_items l rest : dec_items (length l) (concat (enc_bytes <$> l) ++ rest) = Some l.
Proof.
  induction l as [|x l IH]; [done|]. cbn [fmap list_fmap concat length dec_items].
  rewrite <-app_assoc, dec_enc_bytes. cbn -[dec_items]. by rewrite IH.
Qed.

Lemma dec_enc_nums l : Forall is_u64 l -> dec_nums (enc_nums l) = l.
Proof.
  induction 1 as [|n l Hn _ IH]; [done|]. unfold enc_nums in *. cbn [fmap list_fmap concat].
  set (rest := concat _) in *.
  change (dec_nums (le_bytes 8 n ++ rest)) with (le_value (le_bytes 8 n) :: dec_nums rest).
  unfold is_u64, u64_max in Hn. rewrite le_value_le_bytes, Z.mod_small, IH by (cbn; lia). done.
Qed.

Lemma rows_of_row_nums rows :
  Forall (fun r => row_typed r = true) rows -> rows_of_nums (concat (row_nums <$> rows)) = rows.
Proof.
  induction 1 as [|[ph pos i a f] rows H _ IH]; [done|]. cbn [fmap list_fmap concat row_nums app].
  cbn [rows_of_nums]. rewrite IH. f_equal. unfold row_typed in H. cbn in *.
  f_equal; [by destruct ph|]. destruct f as [n|]; [|done].
  rewrite !andb_true_iff in H. destruct H as [_ H]. unfold is_token in H.
  rewrite andb_true_iff, !Z.leb_le in H. rewrite (proj2 (Z.eqb_neq _ _)) by lia. f_equal. lia.
Qed.

Lemma token_u64 n : is_token n = true -> is_u64 n.
Proof. unfold is_token, is_u64, u32_max, u64_max. rewrite andb_true_iff, !Z.leb_le. lia. Qed.

Lemma row_nums_u64 r : row_typed r = true -> Forall is_u64 (row_nums r).
Proof.
  unfold row_typed. rewrite !andb_true_iff, !Z.leb_le. intros [[[[H1 H2] Hi] Ha] Hf].
  repeat constructor; try by apply token_u64.
  1,2: destruct (tr_phase r); done.
  1,2: unfold is_u64; lia.
  all: destruct (tr_forced_token r) as [n|]; [|done]; unfold is_token, u32_max in Hf;
    rewrite andb_true_iff, !Z.leb_le in Hf; unfold is_u64, u64_max; lia.
Qed.

Lemma json_roundtrip h :
  header_typed h = true -> exists v, from_json (to_json h ++ [newline]) = Some (set_engine_metadata v h).
Proof.
  unfold header_typed. rewrite !andb_true_iff, !forallb_forall. intros [[[[[Hver Hvoc] Hp] Hd] Hr] _].
  exists value_null. unfold from_json, to_json.
  change 10%nat with (length (items h)). rewrite dec_enc_items.
  assert (Htok : forall l, (forall x, In x l -> is_token x = true) -> Forall is_u64 l).
  { intros l H. apply Forall_forall. intros x Hx%list_elem_of_In. by apply token_u64, H. }
  assert (Hrows : Forall (fun r => row_typed r = true) (th_rows h))
    by (apply Forall_forall; intros x Hx%list_elem_of_In; auto).
  cbn [mbind option_bind of_items]. unfold items. cbn [of_items].
  rewrite (dec_enc_nums [th_version h; th_vocab_size h]) by (repeat constructor; by apply token_u64).
  rewrite !string_of_bytes_of_string, !dec_enc_nums, rows_of_row_nums; [by destruct h|done|..|by auto|by auto].
  apply Forall_concat, Forall_fmap. eapply Forall_impl; [exact Hrows|]. intros r. apply row_nums_u64.
Qed.

#[export] Instance trace_json : TraceJson :=
  {| header_to_json := to_json; header_from_json := from_json; header_json_roundtrip := json_roundtrip |}.
End Codec.

(** ** A concrete trace *)

Import Json Codec.

Definition no_faults (c : Call) : bool := false.
Definition sample_sha : string := "0123456789abcdef0123456789abcdef0123456789abcdef0123456789abcdef".
(** 0.0, 1.0, 2.0 and 3.0. *)
Definition sample_floats : list f32 := f32_of_bits <$> [0; 1065353216; 1073741824; 1077936128].
Definition pick (l : list nat) : list f32 := (fun i => nth i sample_floats S754_nan) <$> l.
Definition sample_rows : list Row :=
  [{| row_phase := Prefill; row_position := 1; row_input := 2; row_values := pick [0; 2; 1]%nat |};
   {| row_phase := Decode; row_position := 2; row_input := 0; row_values := pick [3; 2; 1]%nat |}].
Definition sample_w0 : TraceWriter :=
  {| wr_destination := "out/trace"; wr_temporary := "out/.trace.tmp-42-0";
     wr_header := new_header "test" sample_sha 3 [1; 2] [0] value_null; wr_logits := [] |}.
Definition sample_fs0 : Fs := {["out/.trace.tmp-42-0" := DirNode {["logits.f32le" := []]}]}.
Definition sample_w : TraceWriter := snd (write_rows no_faults sample_rows sample_w0).
Definition sample_fs : Fs := snd (finish no_faults (fun _ => None) sample_w sample_fs0).

Lemma trace_roundtrip_witness :
  exists v r r',
    open_trace sample_fs "out/trace" = Ok r /\
    rd_header r = set_engine_metadata v (set_rows (imap (recorded [0]) sample_rows)
      (new_header "test" sample_sha 3 [1; 2] [0] value_null)) /\
    read_rows 2 r = (Ok [pick [0; 2; 1]%nat; pick [3; 2; 1]%nat], r') /\ finish_reading r' = Ok tt.
Proof.
  apply (trace_roundtrip no_faults (fun _ => None) 42 ∅ "out/trace" "test" sample_sha 3 [1; 2] [0]
    value_null sample_rows sample_w0 sample_fs0 sample_w sample_fs0 "out/trace" sample_fs).
  - reflexivity.
  - reflexivity.
  - repeat constructor.
  - reflexivity.
  - reflexivity.
  - vm_compute. discriminate.
Defined.

Definition sample_reader : TraceReader :=
  {| rd_header := set_engine_metadata value_null (wr_header sample_w);
     rd_logits := wr_logits sample_w; rd_next_row := 0 |}.

Lemma trace_reader_sound_witness :
  file_in sample_fs "out/trace" "logits.f32le" = Some (rows_bytes (row_values <$> sample_rows)).
Proof.
  apply (trace_reader_sound sample_fs "out/trace" sample_reader (snd (read_rows 2 sample_reader))
    (row_values <$> sample_rows)).
  - reflexivity.
  - reflexivity.
Defined.

(** A writer that was given a row it refuses and then fails to rename. *)
Definition rename_fails (c : Call) : bool := match c with Rename => true | _ => false end.

Definition failed_run : AnyResult string * Fs :=
  finish rename_fails (fun _ => None) (attempt rename_fails sample_rows sample_w0) sample_fs0.

Lemma trace_publication_witness :
  is_Err (fst failed_run) = true /\ snd failed_run !! "out/trace" = sample_fs0 !! "out/trace".
Proof.
  split; [reflexivity|].
  assert (H := trace_publication rename_fails (fun _ => None) 42 ∅ "out/trace" "test" sample_sha 3 [1; 2]
    [0] value_null sample_w0 sample_fs0 sample_rows sample_fs0 (fst failed_run) (snd failed_run)).
  destruct H as (_ & _ & H); [reflexivity|reflexivity|].
  exact H.
Defined.

(** A row with a NaN is refused, but the values before it stay in the file: the
    trace that is finished after the row was given again is not accepted. *)
Definition refused_row : Row :=
  {| row_phase := Prefill; row_position := 1; row_input := 2; row_values := [S754_zero false; S754_nan; S754_nan] |}.

Lemma refused_row_spoils_trace :
  let w := attempt no_faults (refused_row :: sample_rows) sample_w0 in
  fst (finish no_faults (fun _ => None) w sample_fs0) = Ok "out/trace" /\
  is_Err (open_trace (snd (finish no_faults (fun _ => None) w sample_fs0)) "out/trace") = true.
Proof. split; vm_compute; reflexivity. Qed.
