(* ===== verification/Manifest.v ===== *)
(** * Bundles and loaded models

    The bound model (crates/dyninfer-core/src/ir.rs), the executable manifest
    (crates/dyninfer-core/src/types.rs), and the loader's side of a bundle
    (crates/dyninfer-runtime/src/model.rs): the ABI check, the metadata of a
    loaded model, and [create_session]. *)
From S2P Require Import Prelude Errors Serde CoreTypes Target Catalog Ir Session.
From Stdlib Require Import ZArith Lia Ascii String.
From stdpp Require Import base list strings gmap.
From stdpp Require Import options.

Local Open Scope Z_scope.

Record BoundModel {SJ : SerdeJson} := {
  bm_version : Z;
  bm_architecture : ArchitectureGraph;
  bm_resolved_config : MetadataMap;
  bm_binding : BindingPlan;
  bm_execution_shapes : list SpecializedExecutionShape;
  bm_target : TargetProfile;
  bm_precision_policy : PrecisionPolicy;
  bm_selected_kernels : list SelectedKernel;
}.

Record ManifestParameterComponent :=
  { mc_scope : string; mc_key : string; mc_byte_length : Z }.
#[export] Instance ManifestParameterComponent_eq_dec : EqDecision ManifestParameterComponent.
Proof. solve_decision. Defined.

Record ExecutableManifest {SJ : SerdeJson} := {
  em_format : string;
  em_version : Z;
  em_architecture_id : string;
  em_architecture_revision : string;
  em_checkpoint_schema : SchemaFingerprint;
  em_target : TargetProfile;
  em_precision_policy : PrecisionPolicy;
  em_selected_kernels : list SelectedKernel;
  em_shape_profile : ShapeProfile;
  em_entrypoints : list string;
  em_kv_cache : KvCacheDescriptor;
  em_parameter_scope : string;
  em_parameter_components : list ManifestParameterComponent;
  em_derived_parameters_required : bool;
  em_vmfb_path : string;
  em_prefill_window : Z;
  em_diagnostics : list text;
}.

Section Loader.
Context {SJ : SerdeJson}.

Definition cache_error (message : text) (digest path : option string) : DynInferError :=
  Cache {| cache_message := message; cache_digest := digest; cache_path := path |}.

(** Derived [Debug] of [KvCacheStorage]. *)
Definition debug_storage (s : KvCacheStorage) : text :=
  match s with
  | StaticGlobals => lit "StaticGlobals"
  | Paged page_size chunk_size =>
      Format "Paged { page_size: {}, chunk_size: {} }" [AInt page_size; AInt chunk_size]
  end.

(** The entrypoints an executable of this version must export. *)
Definition required_entrypoints (manifest : ExecutableManifest) : option (list string) :=
  let element := kv_element_type (em_kv_cache manifest) in
  match kv_storage (em_kv_cache manifest) with
  | StaticGlobals =>
      if (em_version manifest =? 1) || (em_version manifest =? 2) then Some ["prefill"; "decode"] else None
  | Paged page_size chunk_size =>
      let shaped := (0 <? page_size) && (0 <? chunk_size) in
      if (em_version manifest =? 10) && shaped && bool_decide (element = F32)
      then Some ["prefill_chunk"; "decode_chunk"]
      else if (em_version manifest =? 11) && shaped && bool_decide (element = F16 \/ element = F32)
      then Some ["prefill_chunk"; "decode_chunk"]
      else None
  end.

Definition validate_executable_abi (manifest : ExecutableManifest) (bundle : string) : Result unit :=
  if bool_decide (em_entrypoints manifest = ["add"]) then Ok tt
  else match required_entrypoints manifest with
  | None =>
      Err (cache_error (Format "unsupported executable/KV ABI version {} ({:?})"
             [AInt (em_version manifest); AText (debug_storage (kv_storage (em_kv_cache manifest)))])
             None (Some bundle))
  | Some required =>
      match List.find (fun e => negb (existsb (String.eqb e) (em_entrypoints manifest))) required with
      | Some missing =>
          Err (cache_error (Format "bundle is missing required `{missing}` entrypoint" [AStr missing])
                 None (Some bundle))
      | None => Ok tt
      end
  end.

(** The metadata [load_bundle] gives a model. *)
Definition or_get (o : option Value) (m : MetadataMap) (key : string) : option Value :=
  match o with Some v => Some v | None => m !! key end.

Definition vocabulary_size (catalog : CheckpointCatalog) : Z :=
  let m := cc_metadata catalog in
  let declared := or_get (or_get (m !! "vocab_size") m "llama.vocab_size") m "qwen3.vocab_size" in
  let of_shape :=
    p ← List.find (fun p => String.eqb (lp_canonical_name p) "token_embd.weight" ||
                            String.eqb (lp_canonical_name p) "output.weight") (cc_parameters catalog);
    head (lt_shape (lp_logical_type p)) in
  wrap32 (default 32000 (match v ← declared; as_u64 v with Some n => Some n | None => of_shape end)).

Definition loaded_metadata (manifest : ExecutableManifest) (catalog : CheckpointCatalog) : ModelMetadata :=
  let m := cc_metadata catalog in
  let kv := em_kv_cache manifest in
  {| mm_architecture_id := em_architecture_id manifest;
     mm_architecture_revision := em_architecture_revision manifest;
     mm_vocabulary_size := vocabulary_size catalog;
     mm_context_length := kv_max_sequence_length kv;
     mm_num_layers := kv_layer_count kv;
     mm_num_heads := wrap32 (default (kv_head_count kv)
       (v ← or_get (m !! "num_heads") m "llama.attention.head_count"; as_u64 v));
     mm_num_kv_heads := kv_head_count kv;
     mm_head_dim := kv_head_dimension kv;
     mm_hidden_size := wrap32 (default 0
       (v ← or_get (m !! "hidden_size") m "llama.embedding_length"; as_u64 v));
     mm_extra := m |}.

(** A loaded model without its executable, which the runtime context stands
    for. *)
Record LoadedModel := {
  lm_metadata : ModelMetadata;
  lm_manifest : ExecutableManifest;
  lm_binding : BindingPlan;
  lm_catalog : CheckpointCatalog;
}.

Section Sessions.
Context {Ctx : Type} {IC : IreeContext Ctx}.
(** [self.executable.open_context()] *)
Variable open_context : Result Ctx.

Definition create_session (model : LoadedModel) (config : SessionConfig) : Result IreeSession :=
  context ← open_context;
  let kv := em_kv_cache (lm_manifest model) in
  context ← (match kv_storage kv with
             | Paged page_size chunk_size =>
                 element ← expect (size_bytes (kv_element_type kv)) "scalar KV element type";
                 let '(r, context) :=
                   configure_paged_kv (kv_layer_count kv) page_size (kv_head_count kv)
                     (kv_head_dimension kv) element chunk_size
                     (mm_vocabulary_size (lm_metadata model)) context in
                 _ ← r; Ok context
             | StaticGlobals => Ok context
             end);
  Ok (session_new (lm_metadata model) config kv (em_prefill_window (lm_manifest model)) context).
End Sessions.

(** ** What a checked manifest promises *)

Definition runnable (manifest : ExecutableManifest) : Prop :=
  em_entrypoints manifest <> ["add"].

Lemma validate_abi_Ok manifest bundle :
  validate_executable_abi manifest bundle = Ok tt <->
  em_entrypoints manifest = ["add"] \/
  exists required, required_entrypoints manifest = Some required /\
    forall e, e ∈ required -> e ∈ em_entrypoints manifest.
Proof.
  unfold validate_executable_abi. case_bool_decide as Hadd; [naive_solver|].
  destruct (required_entrypoints manifest) as [required|] eqn:Hr; [|naive_solver].
  assert (Hin : forall e, existsb (String.eqb e) (em_entrypoints manifest) = true <->
                          e ∈ em_entrypoints manifest).
  { intros e. rewrite existsb_exists. setoid_rewrite String.eqb_eq.
    split; [intros (x & Hx & ->); by apply list_elem_of_In|].
    intros He. exists e. split; [by apply list_elem_of_In|done]. }
  destruct (List.find _ required) as [missing|] eqn:Hf.
  - apply find_some in Hf as [Hm Hn]. split; [done|]. intros [?|(? & [= <-] & H)]; [done|].
    apply list_elem_of_In, H, Hin in Hm. by rewrite Hm in Hn.
  - split; [|done]. intros _. right. exists required. split; [done|]. intros e He%list_elem_of_In.
    pose proof (find_none _ _ Hf e He) as Hn. apply negb_false_iff in Hn. by apply Hin.
Qed.

Lemma required_entrypoints_paged manifest required page_size chunk_size :
  required_entrypoints manifest = Some required ->
  kv_storage (em_kv_cache manifest) = Paged page_size chunk_size ->
  0 < page_size /\ 0 < chunk_size /\
  (kv_element_type (em_kv_cache manifest) = F16 \/ kv_element_type (em_kv_cache manifest) = F32).
Proof.
  unfold required_entrypoints. intros H Hs. rewrite Hs in H.
  repeat case_match; try done;
    match goal with E : _ = true |- _ =>
      apply andb_true_iff in E as [[_ Hsh]%andb_true_iff Hel%bool_decide_eq_true] end;
    apply andb_true_iff in Hsh as [?%Z.ltb_lt ?%Z.ltb_lt]; naive_solver.
Qed.

End Loader.
