(* ===== verification/Generate.v ===== *)
(** * Greedy generation: crates/dyninfer-runtime/src/generate.rs

    [generate_greedy] over a loaded model and its tokenizer, and the theorem
    that it produces the model's greedy continuation. *)
From S2P Require Import Prelude Errors Serde CoreTypes Target Catalog Ir KernelRegistry Binding Session SessionSpec Manifest Tokenizer.
From Stdlib Require Import ZArith Lia Ascii String SpecFloat.
From stdpp Require Import base list strings gmap.
From stdpp Require Import options.
Import Json.

Local Open Scope Z_scope.

(** ** apply_repetition_penalty *)

Definition f32_one : f32 := f32_of_bits 1065353216.
(** [f32::EPSILON] *)
Definition f32_epsilon : f32 := f32_of_bits 872415232.

(** [(penalty - 1.0).abs() < f32::EPSILON] *)
Definition no_penalty (penalty : f32) : bool :=
  SFltb (SFabs (SFsub 24 128 penalty f32_one)) f32_epsilon.

Definition penalized (penalty score : f32) : f32 :=
  if SFltb score (S754_zero false) then SFmul 24 128 score penalty else SFdiv 24 128 score penalty.

(** [HashMap<TokenId, u32>], with the order in which it is iterated. *)
Abbreviation Seen := (gmap Z Z).
Definition count (seen : Seen) (id : Z) : Seen :=
  <[id := wrap32 (default 0 (seen !! id) + 1)]> seen.

Section Penalty.
Variable keys : Seen -> list Z.

Definition penalize (penalty : f32) (logits : list f32) (token : Z) : list f32 :=
  match logits !! Z.to_nat token with
  | Some score => <[Z.to_nat token := penalized penalty score]> logits
  | None => logits
  end.

Definition apply_repetition_penalty (logits : list f32) (seen : Seen) (penalty : f32) : list f32 :=
  if no_penalty penalty || bool_decide (seen = ∅) then logits
  else foldl (penalize penalty) logits (keys seen).

End Penalty.

(** ** generate_greedy *)

Record GenerateConfig := {
  gc_max_new_tokens : Z;
  gc_eos_token_id : option Z;
  gc_stop_token_ids : list Z;
  gc_repetition_penalty : f32;
  gc_apply_chat_template : bool;
  gc_enable_thinking : bool;
}.
(** 1.1 as an [f32]. *)
Definition GenerateConfig_default : GenerateConfig :=
  {| gc_max_new_tokens := 48; gc_eos_token_id := None; gc_stop_token_ids := [];
     gc_repetition_penalty := f32_of_bits 1066192077; gc_apply_chat_template := true;
     gc_enable_thinking := true |}.

Record GenerateStats := {
  gs_prompt_tokens : Z;
  gs_generated_tokens : Z;
  gs_kv_page_count : Z;
  gs_kv_allocated_bytes : Z;
  gs_kv_capacity_bytes : Z;
  gs_kv_used_bytes : Z;
  gs_kv_key_dtype : string;
  gs_kv_value_dtype : string;
  gs_kv_paged : bool;
}.
Record GenerateOutput := {
  go_prompt : string;
  go_text : string;
  go_token_ids : list Z;
  go_stats : GenerateStats;
}.

Definition push_stop (stop : list Z) (id : option Z) : list Z :=
  match id with
  | Some id => if existsb (Z.eqb id) stop then stop else stop ++ [id]
  | None => stop
  end.
Definition stop_ids (tok : BpeTokenizer) (config : GenerateConfig) : list Z :=
  let eos := match gc_eos_token_id config with Some id => Some id | None => bt_eos_id tok end in
  push_stop (push_stop (gc_stop_token_ids config) eos) (token_id tok "<|endoftext|>").

Section Generate.
Context {SJ : SerdeJson} {Ctx : Type} {IC : IreeContext Ctx}.
Variable keys : Seen -> list Z.

(** The loop over greedy tokens; the state is what was generated, the ids and
    the tokens seen. *)
Fixpoint argmax_loop (n : nat) (stop : list Z) (next : Z) (generated ids : list Z) (seen : Seen)
    : Method (@IreeSession SJ Ctx) (list Z * list Z) :=
  match n with
  | O => mret (generated, ids)
  | S n =>
      if existsb (Z.eqb next) stop then mret (generated, ids)
      else
        following ← decode_argmax next;
        argmax_loop n stop following (generated ++ [next]) (ids ++ [next]) (count seen next)
  end.

(** The loop over logits. *)
Fixpoint logits_loop (n : nat) (penalty : f32) (stop : list Z) (logits : list f32)
    (generated ids : list Z) (seen : Seen) : Method (@IreeSession SJ Ctx) (list Z * list Z) :=
  match n with
  | O => mret (generated, ids)
  | S n =>
      let logits := apply_repetition_penalty keys logits seen penalty in
      let next := argmax logits in
      if existsb (Z.eqb next) stop then mret (generated, ids)
      else
        following ← decode_token next;
        logits_loop n penalty stop following (generated ++ [next]) (ids ++ [next]) (count seen next)
  end.

(** Generation in a session: the ids generated and all ids, and the cache
    metrics at the end. *)
Definition generate_ids (config : GenerateConfig) (stop ids : list Z)
    : Method (@IreeSession SJ Ctx) (list Z * list Z * KvCacheMetrics) :=
  let seen := foldl count ∅ ids in
  let n := Z.to_nat (gc_max_new_tokens config) in
  '(generated, ids) ← (if no_penalty (gc_repetition_penalty config)
    then next ← prefill_argmax ids; argmax_loop n stop next [] ids seen
    else logits ← prefill ids; logits_loop n (gc_repetition_penalty config) stop logits [] ids seen);
  cache ← kv_cache_metrics;
  mret (generated, ids, cache).

Definition model_prompt (tok : BpeTokenizer) (prompt : string) (config : GenerateConfig) : Result string :=
  if gc_apply_chat_template config
  then (default prompt <$> apply_chat_template tok prompt (gc_enable_thinking config))
  else Ok prompt.

Variable open_context : Result Ctx.

(** The fuel is that of [encode]. *)
Definition generate_greedy (fuel merge_fuel : nat) (model : LoadedModel) (tok : BpeTokenizer)
    (prompt : string) (config : GenerateConfig) (session_cfg : SessionConfig)
    : option (Result GenerateOutput) :=
  match model_prompt tok prompt config with
  | Err e => Some (Err e)
  | Panic why => Some (Panic why)
  | Ok text =>
      let add_special := negb (is_byte_level tok) && negb (gc_apply_chat_template config) in
      encoded ← Tokenizer.encode tok fuel merge_fuel text add_special;
      Some (ids ← encoded;
            if bool_decide (ids = []) then Err (io (lit "prompt produced no tokens"))
            else
              session ← create_session open_context model session_cfg;
              '(generated, all_ids, cache) ← fst (generate_ids config (stop_ids tok config) ids session);
              continuation ← Tokenizer.decode tok generated true;
              Ok {| go_prompt := prompt; go_text := String.append prompt continuation;
                    go_token_ids := all_ids;
                    go_stats :=
                      {| gs_prompt_tokens := length_z ids; gs_generated_tokens := length_z generated;
                         gs_kv_page_count := km_page_count cache;
                         gs_kv_allocated_bytes := km_allocated_bytes cache;
                         gs_kv_capacity_bytes := km_capacity_bytes cache;
                         gs_kv_used_bytes := km_used_bytes cache;
                         gs_kv_key_dtype := ScalarType_display (km_key_dtype cache);
                         gs_kv_value_dtype := ScalarType_display (km_value_dtype cache);
                         gs_kv_paged := km_paged cache |} |})
  end.

End Generate.

(** ** The repetition penalty, position by position *)

Lemma count_spec seen id t : is_Some (count seen id !! t) <-> is_Some (seen !! t) \/ t = id.
Proof.
  unfold count. destruct (decide (t = id)) as [->|Hne].
  - rewrite lookup_insert_eq. naive_solver.
  - rewrite lookup_insert_ne by done. naive_solver.
Qed.

Lemma counted_spec ids seen t :
  is_Some (foldl count seen ids !! t) <-> is_Some (seen !! t) \/ t ∈ ids.
Proof.
  revert seen. induction ids as [|id ids IH]; intros seen; cbn [foldl].
  - rewrite elem_of_nil. tauto.
  - rewrite IH, count_spec, elem_of_cons. tauto.
Qed.

Lemma existsb_eqb t stop : existsb (Z.eqb t) stop = true <-> t ∈ stop.
Proof.
  rewrite existsb_exists. setoid_rewrite Z.eqb_eq. setoid_rewrite <- list_elem_of_In. split; [by intros (x & ? & ->)|by exists t].
Qed.

Lemma penalize_lookup penalty logits token i :
  0 <= token ->
  penalize penalty logits token !! i =
    if bool_decide (token = Z.of_nat i) then penalized penalty <$> logits !! i else logits !! i.
Proof.
  intros Ht. unfold penalize. case_bool_decide as Hi.
  - rewrite Hi, Nat2Z.id. destruct (logits !! i) as [v|] eqn:Hv; [|by rewrite Hv].
    apply list_lookup_insert_eq. by eapply lookup_lt_Some.
  - destruct (logits !! Z.to_nat token) as [v|] eqn:Hv; [|done].
    apply list_lookup_insert_ne. lia.
Qed.

Lemma foldl_penalize penalty ks logits i :
  Forall (fun t => 0 <= t) ks -> NoDup ks ->
  foldl (penalize penalty) logits ks !! i =
    if bool_decide (Z.of_nat i ∈ ks) then penalized penalty <$> logits !! i else logits !! i.
Proof.
  intros Hks Hnd. revert logits. induction ks as [|k ks IH]; intros logits; cbn [foldl]; [done|].
  apply Forall_cons in Hks as [Hk Hks]. apply NoDup_cons in Hnd as [Hni Hnd].
  rewrite IH by done. rewrite penalize_lookup by done.
  destruct (decide (k = Z.of_nat i)) as [->|Hne].
  - rewrite (bool_decide_eq_false_2 (_ ∈ ks)) by done.
    rewrite !bool_decide_eq_true_2; [done|by left|done].
  - rewrite (bool_decide_eq_false_2 (k = _)) by done.
    apply (f_equal (fun b : bool => if b then penalized penalty <$> logits !! i else logits !! i)).
    apply bool_decide_ext. rewrite elem_of_cons. split; [by right|by intros [?|?]].
Qed.

Definition penalized_logits (penalty : f32) (h : list Z) (logits : list f32) : list f32 :=
  if no_penalty penalty then logits
  else imap (fun i v => if bool_decide (Z.of_nat i ∈ h) then penalized penalty v else v) logits.

Lemma snoc_app {A} (a : list A) x b : a ++ x :: b = (a ++ [x]) ++ b.
Proof. by rewrite <- app_assoc. Qed.

Section PenaltySpec.
Variable keys : Seen -> list Z.
(** A hash map yields each of its keys once, in some order. *)
Hypothesis keys_once : forall m, NoDup (keys m) /\ forall t, t ∈ keys m <-> is_Some (m !! t).

Lemma apply_penalty_spec penalty logits seen h :
  h <> [] -> Forall (fun t => 0 <= t) h -> (forall t, is_Some (seen !! t) <-> t ∈ h) ->
  apply_repetition_penalty keys logits seen penalty = penalized_logits penalty h logits.
Proof using keys_once.
  intros Hne Hh Hseen. unfold apply_repetition_penalty, penalized_logits.
  destruct (no_penalty penalty); [done|]. cbn [orb].
  rewrite bool_decide_eq_false_2.
  2:{ intros ->. destruct h as [|t h]; [done|]. destruct (proj2 (Hseen t)) as [? Hx]; [by left|].
      by rewrite lookup_empty in Hx. }
  destruct (keys_once seen) as [Hnd Hk].
  apply list_eq. intros i. rewrite foldl_penalize, list_lookup_imap; [|by apply Forall_forall; intros t Ht%Hk%Hseen; rewrite Forall_forall in Hh; apply Hh|done].
  rewrite (bool_decide_ext (Z.of_nat i ∈ keys seen) (Z.of_nat i ∈ h)) by (by rewrite Hk).
  case_bool_decide; [done|]. by destruct (logits !! i).
Qed.

End PenaltySpec.

(** ** Generation over a causal context *)

Section GenerateSpec.
Context {SJ : SerdeJson} {Ctx : Type} {IC : IreeContext Ctx} {CC : CausalContext Ctx}.
Variable keys : Seen -> list Z.
Hypothesis keys_once : forall m, NoDup (keys m) /\ forall t, t ∈ keys m <-> is_Some (m !! t).

(** The greedy next token, and the continuation of at most [n] tokens that
    ends at a stop token. *)
Definition pick (penalty : f32) (h : list Z) : Z := argmax (penalized_logits penalty h (cc_lm h)).
Fixpoint rollout (n : nat) (penalty : f32) (stop h : list Z) : list Z :=
  match n with
  | O => []
  | S n =>
      let t := pick penalty h in
      if existsb (Z.eqb t) stop then [] else t :: rollout n penalty stop (h ++ [t])
  end.

Lemma rollout_spec n penalty stop h :
  let gen := rollout n penalty stop h in
  (length gen <= n)%nat /\
  (forall k t, gen !! k = Some t -> t = pick penalty (h ++ take k gen) /\ t ∉ stop) /\
  ((length gen < n)%nat -> pick penalty (h ++ gen) ∈ stop).
Proof.
  cbv zeta. revert h. induction n as [|n IH]; intros h; cbn [rollout].
  { split_and!; [done|done|cbn; lia]. }
  destruct (existsb (Z.eqb (pick penalty h)) stop) eqn:Hs.
  { apply existsb_eqb in Hs. split_and!; [cbn; lia|done|by rewrite app_nil_r]. }
  destruct (IH (h ++ [pick penalty h])) as (Hl & Hk & Hstop).
  assert (Hns : pick penalty h ∉ stop) by (rewrite <- existsb_eqb, Hs; done).
  split_and!.
  - cbn [length]. lia.
  - intros [|k] t; cbn; [intros [= <-]; by rewrite app_nil_r|].
    intros Ht. destruct (Hk k t Ht) as [Heq ?]. rewrite <- app_assoc in Heq. done.
  - cbn [length]. intros ?. rewrite <- app_assoc in Hstop. apply Hstop. lia.
Qed.

Lemma pick_range penalty h : 0 <= pick penalty h.
Proof. apply argmax_range. Qed.

Implicit Type s : @IreeSession SJ Ctx.

(** What a loop does from a session that serves [h], when [gen] is left to
    generate: all of it if it fits in the session, and an error otherwise. *)
Definition generates {A} (m : Method IreeSession A) s (h gen : list Z) (value : A) : Prop :=
  if length_z h + length_z gen <=? max_seq s
  then exists s', m s = (Ok value, s') /\ serves s' (h ++ gen) /\ same_setup s s'
  else exists e s', m s = (Err e, s').

(** One decoding turn of either loop. *)
Lemma generates_step {A B} (m : Method IreeSession A) (f : A -> Method IreeSession B) s h t gen v value :
  serves s h ->
  (length_z h < max_seq s -> prefilled m s (h ++ [t]) v) ->
  (max_seq s <= length_z h -> exists e, m s = (Err e, s)) ->
  (forall s', serves s' (h ++ [t]) -> length_z (h ++ [t]) <= max_seq s' ->
     generates (f v) s' (h ++ [t]) gen value) ->
  generates (x ← m; f x) s h (t :: gen) value.
Proof.
  intros Hs Hok Herr Hf. unfold generates.
  replace (length_z (t :: gen)) with (1 + length_z gen) by (unfold length_z; cbn [length]; lia).
  destruct (Z.lt_ge_cases (length_z h) (max_seq s)) as [Hlt|Hge].
  - destruct (Hok Hlt) as (s' & Hr & Hs' & Hsame). rewrite (method_bind_Ok _ _ _ _ _ Hr).
    pose proof (max_seq_same s s' Hsame) as Hmax. specialize (Hf s' Hs').
    unfold generates in Hf. rewrite Hmax in Hf.
    replace (length_z (h ++ [t])) with (length_z h + 1) in Hf
      by (unfold length_z; rewrite length_app; cbn [length]; lia).
    specialize (Hf ltac:(lia)).
    replace (length_z h + (1 + length_z gen)) with (length_z h + 1 + length_z gen) by lia.
    case_match; [|done]. destruct Hf as (s2 & -> & Hs2 & Hsame2). rewrite <- app_assoc in Hs2.
    exists s2. split_and!; [done..|by eapply same_setup_trans].
  - destruct (Herr Hge) as [e He]. rewrite (method_bind_Err _ _ _ _ _ He).
    rewrite (proj2 (Z.leb_gt _ _)) by (unfold length_z in *; lia). by exists e, s.
Qed.

Lemma serves_position s h : serves s h -> is_position s = length_z h.
Proof. by intros (_ & _ & ? & _). Qed.
Lemma serves_valid s h : serves s h -> valid s.
Proof. by intros []. Qed.

Lemma generates_nil {A} s h (value : A) :
  serves s h -> length_z h <= max_seq s -> generates (mret value) s h [] value.
Proof.
  intros Hs Hl. unfold generates. rewrite (proj2 (Z.leb_le _ _)) by (unfold length_z at 2; cbn [length]; lia).
  rewrite app_nil_r. exists s. split_and!; [done..|apply same_setup_refl].
Qed.

Lemma pick_plain penalty h : no_penalty penalty = true -> pick penalty h = argmax (cc_lm h).
Proof. intros Hp. unfold pick, penalized_logits. by rewrite Hp. Qed.

Lemma argmax_loop_generates n penalty stop h generated ids seen s :
  no_penalty penalty = true -> serves s h -> length_z h <= max_seq s ->
  let gen := rollout n penalty stop h in
  generates (argmax_loop n stop (pick penalty h) generated ids seen) s h gen (generated ++ gen, ids ++ gen).
Proof.
  cbv zeta. intros Hp. revert h generated ids seen s.
  induction n as [|n IH]; intros h generated ids seen s Hs Hl; cbn [argmax_loop rollout].
  { rewrite !app_nil_r. by apply generates_nil. }
  destruct (existsb (Z.eqb (pick penalty h)) stop) eqn:He.
  { rewrite !app_nil_r. by apply generates_nil. }
  eapply generates_step with (v := pick penalty (h ++ [pick penalty h])); [done|..].
  - intros Hlt. rewrite (pick_plain penalty (h ++ _) Hp). by apply decode_argmax_serves.
  - intros Hge. apply decode_argmax_refuses; [by eapply serves_valid|]. by rewrite (serves_position s h Hs).
  - intros s' Hs' Hl'. rewrite (snoc_app generated _ (rollout _ _ _ _)), (snoc_app ids _ (rollout _ _ _ _)). by apply IH.
Qed.

Lemma logits_loop_generates n penalty stop h generated ids seen s :
  serves s h -> length_z h <= max_seq s ->
  h <> [] -> Forall (fun t => 0 <= t) h -> (forall t, is_Some (seen !! t) <-> t ∈ h) ->
  let gen := rollout n penalty stop h in
  generates (logits_loop keys n penalty stop (cc_lm h) generated ids seen) s h gen (generated ++ gen, ids ++ gen).
Proof using keys_once.
  cbv zeta. revert h generated ids seen s.
  induction n as [|n IH]; intros h generated ids seen s Hs Hl Hne Hh Hseen; cbn [logits_loop rollout].
  { rewrite !app_nil_r. by apply generates_nil. }
  rewrite (apply_penalty_spec keys keys_once penalty (cc_lm h) seen h) by done.
  change (argmax (penalized_logits penalty h (cc_lm h))) with (pick penalty h).
  destruct (existsb (Z.eqb (pick penalty h)) stop) eqn:He.
  { rewrite !app_nil_r. by apply generates_nil. }
  eapply generates_step with (v := cc_lm (h ++ [pick penalty h])); [done|..].
  - intros Hlt. by apply decode_token_serves.
  - intros Hge. apply decode_token_refuses; [by eapply serves_valid|]. by rewrite (serves_position s h Hs).
  - intros s' Hs' Hl'. rewrite (snoc_app generated _ (rollout _ _ _ _)), (snoc_app ids _ (rollout _ _ _ _)). apply IH; [done|done|by destruct h|..].
    + apply Forall_app. split; [done|]. by apply Forall_singleton, pick_range.
    + intros t. rewrite count_spec, Hseen, elem_of_app, list_elem_of_singleton. done.
Qed.

Lemma run_kv_cache_metrics s :
  exists m, kv_cache_metrics s = (Ok m, s) /\ km_filled_tokens m = is_position s.
Proof using CC.
  unfold kv_cache_metrics. runs_self. destruct (paged_geometry s) as [[page_size chunk_size]|].
  - destruct (cc_metrics (is_context s)) as ([pages bytes] & Hc).
    runs (run_with_context paged_kv_metrics s (pages, bytes) (is_context s) Hc). eexists. by destruct s.
  - runs (eq_refl : (mret (0, capacity_bytes (is_kv s)) : Method IreeSession (Z * Z)) s =
            (Ok (0, capacity_bytes (is_kv s)), s)).
    by eexists.
Qed.

(** What [generate_ids] does when [gen] is the continuation of [ids]. *)
Lemma run_generate_ids config stop ids s :
  valid s -> Forall (fun t => 0 <= t) ids ->
  let gen := rollout (Z.to_nat (gc_max_new_tokens config)) (gc_repetition_penalty config) stop ids in
  (fits s ids /\ length_z ids + length_z gen <= max_seq s ->
   exists cache s', generate_ids keys config stop ids s = (Ok (gen, ids ++ gen, cache), s')) /\
  (~ (fits s ids /\ length_z ids + length_z gen <= max_seq s) ->
   exists e s', generate_ids keys config stop ids s = (Err e, s')).
Proof using keys_once.
  intros Hv Hids. cbv zeta. unfold generate_ids.
  set (pen := gc_repetition_penalty config). set (n := Z.to_nat (gc_max_new_tokens config)).
  set (gen := rollout n pen stop ids).
  match goal with |- context [(?m ≫= _) s] => set (steps := m) end.
  assert (Hno : ~ fits s ids -> exists e s', steps s = (Err e, s')).
  { intros Hn. unfold steps. destruct (no_penalty pen).
    - destruct (prefill_argmax_refuses s ids Hv Hn) as [e He]. exists e, s. by apply method_bind_Err.
    - destruct (prefill_refuses s ids Hv Hn) as [e He]. exists e, s. by apply method_bind_Err. }
  assert (Hyes : fits s ids ->
            exists s1, serves s1 ids /\ same_setup s s1 /\
              exists m, steps s = m s1 /\ generates m s1 ids gen (gen, ids ++ gen)).
  { intros Hf. pose proof Hf as (Hne & Hmax & _). unfold steps. destruct (no_penalty pen) eqn:Hp.
    - destruct (prefill_argmax_serves s ids Hv Hf) as (s1 & Hr & Hs1 & Hsame).
      exists s1. split_and!; [done..|]. eexists. split; [by rewrite (method_bind_Ok _ _ _ _ _ Hr)|].
      rewrite <- (pick_plain pen ids Hp). apply (argmax_loop_generates n pen stop ids [] ids _ s1); [done..|].
      by rewrite (max_seq_same s s1 Hsame).
    - destruct (prefill_serves s ids Hv Hf) as (s1 & Hr & Hs1 & Hsame).
      exists s1. split_and!; [done..|]. eexists. split; [by rewrite (method_bind_Ok _ _ _ _ _ Hr)|].
      apply (logits_loop_generates n pen stop ids [] ids _ s1); [done| |done|done|].
      + by rewrite (max_seq_same s s1 Hsame).
      + intros t. rewrite counted_spec, lookup_empty. split; [intros [[? [=]]|?]; done|by right]. }
  assert (Hruns : fits s ids ->
    if length_z ids + length_z gen <=? max_seq s
    then exists s', steps s = (Ok (gen, ids ++ gen), s') else exists e s', steps s = (Err e, s')).
  { intros Hf. destruct (Hyes Hf) as (s1 & _ & Hsame & m & -> & Hg). unfold generates in Hg.
    rewrite (max_seq_same s s1 Hsame) in Hg. case_match; [|done]. by destruct Hg as (s' & ? & _); exists s'. }
  clearbody steps. split.
  - intros [Hf Hl]. specialize (Hruns Hf). rewrite (proj2 (Z.leb_le _ _)) in Hruns by done.
    destruct Hruns as (s' & Hr). runs Hr. destruct (run_kv_cache_metrics s') as (m & Hm & _).
    runs Hm. by exists m, s'.
  - intros Hn. assert (He : exists e s', steps s = (Err e, s')).
    { destruct (decide (length_z ids + length_z gen <= max_seq s)) as [Hl|Hl].
      - apply Hno. tauto.
      - destruct (fits_dec s ids) eqn:Hf; [|by apply Hno, fits_dec_false].
        apply fits_dec_spec in Hf. specialize (Hruns Hf).
        by rewrite (proj2 (Z.leb_gt _ _)) in Hruns by lia. }
    destruct He as (e & s' & He). exists e, s'. by apply method_bind_Err.
Qed.


End GenerateSpec.

(** ** Witness: the toy model continues a prompt *)

Module GenerateSample.
Definition keys (m : Seen) : list Z := (map_to_list m).*1.
Lemma keys_once m : NoDup (keys m) /\ forall t, t ∈ keys m <-> is_Some (m !! t).
Proof.
  split; [apply NoDup_fst_map_to_list|]. intros t. unfold keys. rewrite list_elem_of_fmap. split.
  - intros ([k v] & -> & Hin%elem_of_map_to_list). by exists v.
  - intros [v Hv]. exists (t, v). by rewrite elem_of_map_to_list.
Qed.

Definition manifest : @ExecutableManifest serde :=
  {| em_format := "dyninfer.bundle"; em_version := 2; em_architecture_id := "toy";
     em_architecture_revision := "v1"; em_checkpoint_schema := BindingSample.fingerprint;
     em_target := KernelSample.cpu_target; em_precision_policy := conservative_sensitive_ops;
     em_selected_kernels := []; em_shape_profile := single_bucket 4;
     em_entrypoints := ["prefill"; "decode"; "add"]; em_kv_cache := Toy.kv StaticGlobals;
     em_parameter_scope := "weights"; em_parameter_components := [];
     em_derived_parameters_required := false; em_vmfb_path := "executables/model.vmfb";
     em_prefill_window := 3; em_diagnostics := [] |}.
Definition model : LoadedModel :=
  {| lm_metadata := loaded_metadata manifest BindingSample.catalog; lm_manifest := manifest;
     lm_binding := BindingSample.plan []; lm_catalog := BindingSample.catalog |}.
Definition context : Toy.Context := {| Toy.tokens := []; Toy.capacity := 0 |}.
Definition session : IreeSession :=
  session_new (loaded_metadata manifest BindingSample.catalog) SessionConfig_default
    (Toy.kv StaticGlobals) 3 context.
Definition config (penalty : f32) : GenerateConfig :=
  {| gc_max_new_tokens := 1; gc_eos_token_id := None; gc_stop_token_ids := [];
     gc_repetition_penalty := penalty; gc_apply_chat_template := false; gc_enable_thinking := false |}.

Lemma sample_session_valid : valid session.
Proof. by split; vm_compute. Qed.

(** With a penalty of two, the loop over logits is used. *)
Example penalized_run :
  match generate_greedy keys (Ok context) 10 10 model TokenizerSample.tokenizer "ab ab"
          (config (f32_of_bits 1073741824)) SessionConfig_default with
  | Some (Ok out) => go_token_ids out = [2; 3; 2; 3] /\ go_text out = "ab ab "
  | _ => False
  end.
Proof. by vm_compute. Qed.
End GenerateSample.

