(* ===== verification/Perf.v ===== *)
(** * Benchmarks: crates/dyninfer-runtime/src/perf.rs

    [run_perf] runs warm-up and measured iterations of a synthetic prompt and
    a number of decode steps in one session, and summarises what was measured.
    The wall clock, the sampler of each phase and the allocator statistics of
    the C runtime are the class [PerfHost]; printing the report is left out. *)
From S2P Require Import Prelude Errors Serde CoreTypes Catalog Ir Binding Session SessionSpec Manifest Floats.
From S2P Require Import FloatArith PerfSample Generate.
From Stdlib Require Import ZArith Lia Ascii String SpecFloat.
From stdpp Require Import base list strings gmap.
From stdpp Require Import options.

Local Open Scope Z_scope.

Record PerfConfig := {
  pc_prefill_tokens : Z;
  pc_tg : Z;
  pc_warmup : Z;
  pc_iters : Z;
  pc_weight_bytes : Z;
  pc_fill_token : Z;
}.
Definition PerfConfig_default : PerfConfig :=
  {| pc_prefill_tokens := 128; pc_tg := 32; pc_warmup := 1; pc_iters := 1; pc_weight_bytes := 0; pc_fill_token := 1 |}.

(** lib.rs of the crate: [AllocatorMetrics] and what is live. *)
Record AllocatorMetrics := {
  al_host_bytes_peak : Z;
  al_host_bytes_allocated : Z;
  al_host_bytes_freed : Z;
  al_device_bytes_peak : Z;
  al_device_bytes_allocated : Z;
  al_device_bytes_freed : Z;
}.
Definition AllocatorMetrics_default : AllocatorMetrics :=
  {| al_host_bytes_peak := 0; al_host_bytes_allocated := 0; al_host_bytes_freed := 0;
     al_device_bytes_peak := 0; al_device_bytes_allocated := 0; al_device_bytes_freed := 0 |}.
Definition host_live_bytes (a : AllocatorMetrics) : Z :=
  saturating_sub (al_host_bytes_allocated a) (al_host_bytes_freed a).
Definition device_live_bytes (a : AllocatorMetrics) : Z :=
  saturating_sub (al_device_bytes_allocated a) (al_device_bytes_freed a).

Definition KvCacheMetrics_default : KvCacheMetrics :=
  {| km_page_count := 0; km_allocated_bytes := 0; km_capacity_bytes := 0; km_used_bytes := 0;
     km_filled_tokens := 0; km_layers := 0; km_kv_heads := 0; km_head_dim := 0;
     km_max_sequence_length := 0; km_key_dtype := F32; km_value_dtype := F32; km_paged := false;
     km_chunk_size := 0 |}.

Record PhaseMetrics := {
  pm_tokens : Z;
  pm_secs : f64;
  pm_tps : f64;
  pm_peak_rss_bytes : Z;
  pm_cpu : option f64 * option f64 * option f64;
  pm_gpu_busy : option f64 * option f64 * option f64;
  pm_mem_busy : option f64 * option f64 * option f64;
  pm_peak_dedicated_vram_bytes : option Z;
  pm_peak_gtt_bytes : option Z;
  pm_iree_host_live_bytes : Z;
  pm_iree_device_live_bytes : Z;
  pm_iree_host_bytes_peak : Z;
  pm_iree_device_bytes_peak : Z;
  pm_kv_page_count : Z;
  pm_kv_allocated_bytes : Z;
  pm_kv_capacity_bytes : Z;
  pm_kv_used_bytes : Z;
  pm_kv_filled_tokens : Z;
  pm_kv_layers : Z;
  pm_kv_heads : Z;
  pm_kv_head_dim : Z;
  pm_kv_max_seq : Z;
  pm_kv_key_dtype : string;
  pm_kv_value_dtype : string;
  pm_kv_paged : bool;
  pm_eff_weight_bw_gbs : option f64;
  pm_sample_count : Z;
}.
Definition PhaseMetrics_default : PhaseMetrics :=
  {| pm_tokens := 0; pm_secs := f64_zero; pm_tps := f64_zero; pm_peak_rss_bytes := 0;
     pm_cpu := (None, None, None); pm_gpu_busy := (None, None, None); pm_mem_busy := (None, None, None);
     pm_peak_dedicated_vram_bytes := None; pm_peak_gtt_bytes := None; pm_iree_host_live_bytes := 0;
     pm_iree_device_live_bytes := 0; pm_iree_host_bytes_peak := 0; pm_iree_device_bytes_peak := 0;
     pm_kv_page_count := 0; pm_kv_allocated_bytes := 0; pm_kv_capacity_bytes := 0; pm_kv_used_bytes := 0;
     pm_kv_filled_tokens := 0; pm_kv_layers := 0; pm_kv_heads := 0; pm_kv_head_dim := 0; pm_kv_max_seq := 0;
     pm_kv_key_dtype := EmptyString; pm_kv_value_dtype := EmptyString; pm_kv_paged := false;
     pm_eff_weight_bw_gbs := None; pm_sample_count := 0 |}.

Record PerfReport := {
  pf_prefill : PhaseMetrics;
  pf_decode : PhaseMetrics;
  pf_warmup : Z;
  pf_iters : Z;
  pf_weight_bytes : Z;
}.

Record RawPhase := {
  rp_tokens : Z;
  rp_secs : f64;
  rp_samples : PhaseSampleStats;
  rp_kv : KvCacheMetrics;
  rp_alloc : AllocatorMetrics;
  rp_weight_passes : Z;
  rp_weight_bytes : Z;
}.

(** ** Aggregation *)

(** One pass over the weights, or one per chunk of a paged prefill. *)
Definition prefill_weight_passes (tokens : Z) (paged : bool) (chunk_size : Z) : Z :=
  if negb paged || (chunk_size =? 0) then 1 else div_ceil tokens chunk_size.

Definition max_opt (a b : option Z) : option Z :=
  match a, b with
  | Some x, Some y => Some (Z.max x y)
  | None, Some y => Some y
  | x, None => x
  end.

(** The greatest value of a counter, from zero. *)
Definition peak (f : RawPhase -> Z) (phases : list RawPhase) : Z := foldl (fun a p => Z.max a (f p)) 0 phases.
Definition peak_opt (f : RawPhase -> option Z) (phases : list RawPhase) : option Z :=
  foldl (fun a p => max_opt a (f p)) None phases.

(** The percentiles of one phase, or those of the averages of several. *)
Definition summary_of (one : PhaseSampleStats -> option f64 * option f64 * option f64)
    (average : PhaseSampleStats -> option f64) (first : RawPhase) (phases : list RawPhase)
    : Result (option f64 * option f64 * option f64) :=
  if length_z phases =? 1 then Ok (one (rp_samples first))
  else percentile_summary (omap (fun p => average (rp_samples p)) phases).

(** 1e9 *)
Definition giga : f64 := f64_of_Z 1000000000.

Definition aggregate_phases (phases : list RawPhase) : Result PhaseMetrics :=
  match phases with
  | [] => Ok PhaseMetrics_default
  | first :: _ =>
      let tokens := rp_tokens first in
      let mean_secs := f64_div (f64_sum (rp_secs <$> phases)) (f64_of_Z (length_z phases)) in
      let positive := SFltb f64_zero mean_secs in
      let tps := if positive then f64_div (f64_of_Z tokens) mean_secs else f64_zero in
      cpu ← summary_of (fun s => (ps_cpu_avg_pct s, ps_cpu_p50_pct s, ps_cpu_p90_pct s)) ps_cpu_avg_pct first phases;
      gpu ← summary_of (fun s => (ps_gpu_busy_avg_pct s, ps_gpu_busy_p50_pct s, ps_gpu_busy_p90_pct s))
              ps_gpu_busy_avg_pct first phases;
      mem ← summary_of (fun s => (ps_mem_busy_avg_pct s, ps_mem_busy_p50_pct s, ps_mem_busy_p90_pct s))
              ps_mem_busy_avg_pct first phases;
      let weight_bytes := rp_weight_bytes first in
      let weight_passes := rp_weight_passes first in
      let bandwidth :=
        if (0 <? weight_bytes) && (0 <? weight_passes) && positive
        then Some (f64_div (f64_div (f64_mul (f64_of_Z weight_bytes) (f64_of_Z weight_passes)) mean_secs) giga)
        else None in
      let kv0 := rp_kv first in
      Ok {| pm_tokens := tokens; pm_secs := mean_secs; pm_tps := tps;
            pm_peak_rss_bytes := peak (fun p => ps_peak_rss_bytes (rp_samples p)) phases;
            pm_cpu := cpu; pm_gpu_busy := gpu; pm_mem_busy := mem;
            pm_peak_dedicated_vram_bytes := peak_opt (fun p => ps_peak_dedicated_vram_bytes (rp_samples p)) phases;
            pm_peak_gtt_bytes := peak_opt (fun p => ps_peak_gtt_bytes (rp_samples p)) phases;
            pm_iree_host_live_bytes := peak (fun p => host_live_bytes (rp_alloc p)) phases;
            pm_iree_device_live_bytes := peak (fun p => device_live_bytes (rp_alloc p)) phases;
            pm_iree_host_bytes_peak := peak (fun p => al_host_bytes_peak (rp_alloc p)) phases;
            pm_iree_device_bytes_peak := peak (fun p => al_device_bytes_peak (rp_alloc p)) phases;
            pm_kv_page_count := peak (fun p => km_page_count (rp_kv p)) phases;
            pm_kv_allocated_bytes := peak (fun p => km_allocated_bytes (rp_kv p)) phases;
            pm_kv_capacity_bytes := peak (fun p => km_capacity_bytes (rp_kv p)) phases;
            pm_kv_used_bytes := peak (fun p => km_used_bytes (rp_kv p)) phases;
            pm_kv_filled_tokens := peak (fun p => km_filled_tokens (rp_kv p)) phases;
            pm_kv_layers := km_layers kv0; pm_kv_heads := km_kv_heads kv0; pm_kv_head_dim := km_head_dim kv0;
            pm_kv_max_seq := km_max_sequence_length kv0;
            pm_kv_key_dtype := ScalarType_display (km_key_dtype kv0);
            pm_kv_value_dtype := ScalarType_display (km_value_dtype kv0);
            pm_kv_paged := km_paged kv0; pm_eff_weight_bw_gbs := bandwidth;
            pm_sample_count := foldl (fun a p => wrap64 (a + ps_sample_count (rp_samples p))) 0 phases |}
  end.

(** ** The run *)

(** What is measured around the phases, which are counted from zero: the
    seconds, the summary of the sampler, and the allocator statistics read
    after the phase. *)
Class PerfHost := {
  phase_secs : nat -> f64;
  phase_samples : nat -> PhaseSampleStats;
  phase_alloc : nat -> Result AllocatorMetrics;
}.

Section Perf.
Context {SJ : SerdeJson} {Ctx : Type} {IC : IreeContext Ctx} {PH : PerfHost}.

(** [session.kv_cache_metrics().unwrap_or_default()] *)
Definition kv_metrics_or_default : Method (@IreeSession SJ Ctx) KvCacheMetrics := fun s =>
  match kv_cache_metrics s with
  | (Err _, s) => (Ok KvCacheMetrics_default, s)
  | r => r
  end.
Definition alloc_or_default (phase : nat) : Method (@IreeSession SJ Ctx) AllocatorMetrics := fun s =>
  (match phase_alloc phase with Err _ => Ok AllocatorMetrics_default | r => r end, s).

Fixpoint decode_loop (n : nat) (token : Z) : Method (@IreeSession SJ Ctx) Z :=
  match n with
  | O => mret token
  | S n => next ← decode_argmax token; decode_loop n next
  end.

Fixpoint warm_up (n : nat) (prompt : list Z) (tg : nat) : Method (@IreeSession SJ Ctx) unit :=
  match n with
  | O => mret tt
  | S n =>
      _ ← session_reset;
      next ← prefill_argmax prompt;
      _ ← decode_loop tg next;
      warm_up n prompt tg
  end.

(** One measured iteration: the phases [2 * i] and [2 * i + 1]. *)
Definition iteration (config : PerfConfig) (prompt : list Z) (i : nat)
    : Method (@IreeSession SJ Ctx) (RawPhase * RawPhase) :=
  _ ← session_reset;
  next ← prefill_argmax prompt;
  prefill_kv ← kv_metrics_or_default;
  prefill_alloc ← alloc_or_default (2 * i);
  let prefill :=
    {| rp_tokens := pc_prefill_tokens config; rp_secs := phase_secs (2 * i);
       rp_samples := phase_samples (2 * i); rp_kv := prefill_kv; rp_alloc := prefill_alloc;
       rp_weight_passes := prefill_weight_passes (pc_prefill_tokens config) (km_paged prefill_kv) (km_chunk_size prefill_kv);
       rp_weight_bytes := pc_weight_bytes config |} in
  _ ← decode_loop (Z.to_nat (pc_tg config)) next;
  decode_kv ← kv_metrics_or_default;
  decode_alloc ← alloc_or_default (2 * i + 1);
  mret (prefill,
    {| rp_tokens := pc_tg config; rp_secs := phase_secs (2 * i + 1);
       rp_samples := phase_samples (2 * i + 1); rp_kv := decode_kv; rp_alloc := decode_alloc;
       rp_weight_passes := pc_tg config; rp_weight_bytes := pc_weight_bytes config |}).

Fixpoint iterations (n : nat) (config : PerfConfig) (prompt : list Z) (i : nat) (prefills decodes : list RawPhase)
    : Method (@IreeSession SJ Ctx) (list RawPhase * list RawPhase) :=
  match n with
  | O => mret (prefills, decodes)
  | S n =>
      '(prefill, decode) ← iteration config prompt i;
      iterations n config prompt (S i) (prefills ++ [prefill]) (decodes ++ [decode])
  end.

Variable open_context : Result Ctx.

Definition run_perf (model : LoadedModel) (config : PerfConfig) (session_cfg : SessionConfig) : Result PerfReport :=
  if pc_prefill_tokens config =? 0 then Err (io (lit "perf --prefill must be > 0"))
  else if pc_iters config =? 0 then Err (io (lit "perf --iters must be > 0"))
  else
    let prompt := replicate (Z.to_nat (pc_prefill_tokens config)) (pc_fill_token config) in
    session ← create_session open_context model session_cfg;
    '(prefills, decodes) ← fst
      ((_ ← warm_up (Z.to_nat (pc_warmup config)) prompt (Z.to_nat (pc_tg config));
        iterations (Z.to_nat (pc_iters config)) config prompt 0 [] []) session);
    prefill ← aggregate_phases prefills;
    decode ← aggregate_phases decodes;
    Ok {| pf_prefill := prefill; pf_decode := decode; pf_warmup := pc_warmup config;
          pf_iters := pc_iters config; pf_weight_bytes := pc_weight_bytes config |}.
End Perf.

(** ** A run measures the model's own continuation *)

Section PerfSpec.
Context {SJ : SerdeJson} {Ctx : Type} {IC : IreeContext Ctx} {CC : CausalContext Ctx} {PH : PerfHost}.
Implicit Type s : @IreeSession SJ Ctx.
Hypothesis alloc_no_panic : forall phase, no_panic (phase_alloc phase).

(** The tokens that [n] greedy steps feed after the history [h]. *)
Fixpoint fed (n : nat) (h : list Z) (token : Z) : list Z :=
  match n with
  | O => []
  | S n => token :: fed n (h ++ [token]) (argmax (cc_lm (h ++ [token])))
  end.
Lemma length_fed n h token : length (fed n h token) = n.
Proof using. revert h token. induction n as [|n IH]; intros h token; [done|]. cbn. by rewrite IH. Qed.

Lemma decode_loop_serves n h token s :
  serves s h -> length_z h + Z.of_nat n <= max_seq s ->
  exists last, prefilled (decode_loop n token) s (h ++ fed n h token) last.
Proof using CC.
  revert h token s. induction n as [|n IH]; intros h token s Hs Hl; cbn [decode_loop fed].
  { exists token, s. rewrite app_nil_r. split; [done|]. split; [done|]. apply same_setup_refl. }
  destruct (decode_argmax_serves s h token Hs ltac:(lia)) as (s1 & Hr & Hs1 & Hsame).
  destruct (IH (h ++ [token]) (argmax (cc_lm (h ++ [token]))) s1 Hs1) as (last & s2 & Hr2 & Hs2 & Hsame2).
  { rewrite (max_seq_same s s1 Hsame). unfold length_z in *. rewrite length_app. cbn [length]. lia. }
  exists last, s2. rewrite (method_bind_Ok _ _ _ _ _ Hr). split; [exact Hr2|].
  rewrite <-app_assoc in Hs2. split; [exact Hs2|]. by eapply same_setup_trans.
Qed.

Lemma decode_loop_refuses n h token s :
  serves s h -> length_z h <= max_seq s -> max_seq s < length_z h + Z.of_nat n ->
  exists e s', decode_loop n token s = (Err e, s').
Proof using CC.
  revert h token s. induction n as [|n IH]; intros h token s Hs Hle Hl; [lia|]. cbn [decode_loop].
  destruct (decide (length_z h < max_seq s)) as [Hlt|Hge].
  - destruct (decode_argmax_serves s h token Hs Hlt) as (s1 & Hr & Hs1 & Hsame).
    rewrite (method_bind_Ok _ _ _ _ _ Hr).
    apply (IH (h ++ [token])); [done|..]; rewrite (max_seq_same s s1 Hsame); unfold length_z in *;
      rewrite length_app; cbn [length]; lia.
  - destruct Hs as (Hv & _ & Hpos & _). destruct (decode_argmax_refuses s token Hv ltac:(lia)) as [e He].
    exists e, s. by apply method_bind_Err.
Qed.

Lemma run_session_reset s : valid s -> exists s', session_reset s = (Ok tt, s') /\ same_setup s s' /\ valid s'.
Proof using CC.
  intros Hv. unfold session_reset. runs_self. destruct (paged_geometry s) as [[page_size chunk_size]|].
  - destruct (cc_reset (is_context s)) as (c & Hc & _).
    runs (run_with_context reset_paged_kv s tt c Hc). eexists. split; [reflexivity|].
    split; [by repeat split|]. by apply (valid_same s).
  - runs (eq_refl : (mret tt : Method (@IreeSession SJ Ctx) unit) s = (Ok tt, s)). eexists. split; [reflexivity|].
    split; [by repeat split|]. by apply (valid_same s).
Qed.

Lemma fits_same s s' tokens : same_setup s s' -> fits s' tokens <-> fits s tokens.
Proof using.
  intros Hsame. unfold fits. rewrite (max_seq_same s s' Hsame). destruct Hsame as (_ & _ & Hk & Hw & _).
  by rewrite Hk, Hw.
Qed.

Lemma run_metrics s : exists m, kv_metrics_or_default s = (Ok m, s) /\ km_filled_tokens m = is_position s.
Proof using CC.
  destruct (run_kv_cache_metrics s) as (m & Hm & Hf). exists m. unfold kv_metrics_or_default. by rewrite Hm.
Qed.
Lemma run_alloc phase s : exists a, alloc_or_default phase s = (Ok a, s).
Proof using alloc_no_panic.
  pose proof (alloc_no_panic phase) as Hp. unfold alloc_or_default.
  destruct (phase_alloc phase); [by eexists..|done].
Qed.

(** An iteration fits: its prompt is taken and all its steps have room. *)
Definition room s (prompt : list Z) (tg : Z) : Prop := fits s prompt /\ length_z prompt + Z.of_nat (Z.to_nat tg) <= max_seq s.
Lemma room_dec s prompt tg : {room s prompt tg} + {~ room s prompt tg}.
Proof using.
  unfold room. destruct (fits_dec s prompt) eqn:Hf.
  - apply fits_dec_spec in Hf. destruct (Z_le_gt_dec (length_z prompt + Z.of_nat (Z.to_nat tg)) (max_seq s));
      [by left|right; lia].
  - apply fits_dec_false in Hf. right. tauto.
Qed.
Lemma room_same s s' prompt tg : same_setup s s' -> room s' prompt tg <-> room s prompt tg.
Proof using. intros H. unfold room. by rewrite (fits_same s s' prompt H), (max_seq_same s s' H). Qed.

(** The prefill and the steps of an iteration, whatever comes before. *)
Lemma run_phases s prompt tg :
  valid s ->
  (room s prompt tg ->
   exists s1 s2 last, prefill_argmax prompt s = (Ok (argmax (cc_lm prompt)), s1) /\ same_setup s s1 /\
     is_position s1 = length_z prompt /\
     decode_loop (Z.to_nat tg) (argmax (cc_lm prompt)) s1 = (Ok last, s2) /\ same_setup s s2 /\
     is_position s2 = length_z prompt + Z.of_nat (Z.to_nat tg) /\ valid s2) /\
  (~ room s prompt tg ->
   (exists e, prefill_argmax prompt s = (Err e, s)) \/
   exists s1, prefill_argmax prompt s = (Ok (argmax (cc_lm prompt)), s1) /\
     exists e s2, decode_loop (Z.to_nat tg) (argmax (cc_lm prompt)) s1 = (Err e, s2)).
Proof using CC.
  intros Hv. destruct (fits_dec s prompt) eqn:Hf.
  2: { apply fits_dec_false in Hf. split; [by intros [? _]|]. intros _. left. by apply prefill_argmax_refuses. }
  apply fits_dec_spec in Hf. pose proof Hf as (_ & Hmax & _).
  destruct (prefill_argmax_serves s prompt Hv Hf) as (s1 & Hr1 & Hs1 & Hsame1).
  pose proof Hs1 as (_ & _ & Hpos1 & _). split.
  - intros [_ Hl]. destruct (decode_loop_serves (Z.to_nat tg) prompt (argmax (cc_lm prompt)) s1 Hs1)
      as (last & s2 & Hr2 & Hs2 & Hsame2); [by rewrite (max_seq_same s s1 Hsame1)|].
    pose proof Hs2 as (Hv2 & _ & Hpos2 & _).
    exists s1, s2, last. split_and!; try done; [by eapply same_setup_trans|].
    rewrite Hpos2. unfold length_z. rewrite length_app, length_fed. lia.
  - intros Hn. right. exists s1. split; [done|]. apply (decode_loop_refuses _ prompt); [done|..].
    + by rewrite (max_seq_same s s1 Hsame1).
    + rewrite (max_seq_same s s1 Hsame1). apply Z.nle_gt. intros Hl. by apply Hn.
Qed.

Lemma run_warm_up n s prompt tg :
  valid s ->
  (room s prompt tg -> exists s', warm_up n prompt (Z.to_nat tg) s = (Ok tt, s') /\ same_setup s s' /\ valid s') /\
  (~ room s prompt tg -> n <> O -> exists e s', warm_up n prompt (Z.to_nat tg) s = (Err e, s')).
Proof using CC.
  intros Hv. split.
  - intros Hroom. revert s Hv Hroom. induction n as [|n IH]; intros s Hv Hroom; cbn [warm_up].
    { exists s. split; [done|]. split; [apply same_setup_refl|done]. }
    destruct (run_session_reset s Hv) as (s0 & Hr0 & Hsame0 & Hv0). rewrite (method_bind_Ok _ _ _ _ _ Hr0).
    apply (room_same s s0) in Hroom; [|done].
    destruct (run_phases s0 prompt tg Hv0) as [Hok _].
    destruct (Hok Hroom) as (s1 & s2 & last & Hr1 & _ & _ & Hr2 & Hsame2 & _ & Hv2).
    rewrite (method_bind_Ok _ _ _ _ _ Hr1), (method_bind_Ok _ _ _ _ _ Hr2).
    destruct (IH s2 Hv2) as (s3 & Hr3 & Hsame3 & Hv3); [by apply (room_same s0 s2)|].
    exists s3. split; [done|]. split; [|done]. eapply same_setup_trans; [exact Hsame0|].
    by eapply same_setup_trans.
  - intros Hno Hn. destruct n as [|n]; [done|]. cbn [warm_up].
    destruct (run_session_reset s Hv) as (s0 & Hr0 & Hsame0 & Hv0). rewrite (method_bind_Ok _ _ _ _ _ Hr0).
    rewrite <-(room_same s s0) in Hno by done. destruct (run_phases s0 prompt tg Hv0) as [_ Herr].
    destruct (Herr Hno) as [[e He]|(s1 & Hr1 & e & s2 & He)].
    + exists e, s0. by apply method_bind_Err.
    + rewrite (method_bind_Ok _ _ _ _ _ Hr1). exists e, s2. by apply method_bind_Err.
Qed.

(** What every measured phase says of a configuration. *)
Definition prefill_phase (config : PerfConfig) (p : RawPhase) : Prop :=
  rp_tokens p = pc_prefill_tokens config /\ km_filled_tokens (rp_kv p) = pc_prefill_tokens config.
Definition decode_phase (config : PerfConfig) (p : RawPhase) : Prop :=
  rp_tokens p = pc_tg config /\ km_filled_tokens (rp_kv p) = pc_prefill_tokens config + pc_tg config.
Definition prompt_of (config : PerfConfig) : list Z :=
  replicate (Z.to_nat (pc_prefill_tokens config)) (pc_fill_token config).
Lemma length_prompt_of config : 0 <= pc_prefill_tokens config -> length_z (prompt_of config) = pc_prefill_tokens config.
Proof using. intros H. unfold length_z, prompt_of. rewrite length_replicate. lia. Qed.

Lemma run_iteration s config i :
  valid s -> 0 <= pc_prefill_tokens config -> 0 <= pc_tg config ->
  (room s (prompt_of config) (pc_tg config) ->
   exists p d s', iteration config (prompt_of config) i s = (Ok (p, d), s') /\ same_setup s s' /\ valid s' /\
     prefill_phase config p /\ decode_phase config d) /\
  (~ room s (prompt_of config) (pc_tg config) ->
   exists e s', iteration config (prompt_of config) i s = (Err e, s')).
Proof using CC alloc_no_panic.
  intros Hv Hpre Htg. unfold iteration. pose proof (length_prompt_of config Hpre) as Hlen.
  destruct (run_session_reset s Hv) as (s0 & Hr0 & Hsame0 & Hv0). rewrite (method_bind_Ok _ _ _ _ _ Hr0).
  rewrite <-(room_same s s0) by done. destruct (run_phases s0 (prompt_of config) (pc_tg config) Hv0) as [Hok Herr]. split.
  - intros Hroom. destruct (Hok Hroom) as (s1 & s2 & last & Hr1 & Hsame1 & Hpos1 & Hr2 & Hsame2 & Hpos2 & Hv2).
    rewrite (method_bind_Ok _ _ _ _ _ Hr1).
    destruct (run_metrics s1) as (m1 & Hm1 & Hf1). rewrite (method_bind_Ok _ _ _ _ _ Hm1).
    destruct (run_alloc (2 * i) s1) as (a1 & Ha1). rewrite (method_bind_Ok _ _ _ _ _ Ha1). cbv zeta.
    rewrite (method_bind_Ok _ _ _ _ _ Hr2).
    destruct (run_metrics s2) as (m2 & Hm2 & Hf2). rewrite (method_bind_Ok _ _ _ _ _ Hm2).
    destruct (run_alloc (2 * i + 1) s2) as (a2 & Ha2). rewrite (method_bind_Ok _ _ _ _ _ Ha2).
    eexists _, _, s2. split; [reflexivity|]. split; [by eapply same_setup_trans|]. split; [done|].
    unfold prefill_phase, decode_phase. cbn [rp_tokens rp_kv]. rewrite Hf1, Hf2, Hpos1, Hpos2, Hlen. split_and!; try done. lia.
  - intros Hno. destruct (Herr Hno) as [[e He]|(s1 & Hr1 & e & s2 & He)].
    + exists e, s0. by apply method_bind_Err.
    + rewrite (method_bind_Ok _ _ _ _ _ Hr1).
      destruct (run_metrics s1) as (m1 & Hm1 & _). rewrite (method_bind_Ok _ _ _ _ _ Hm1).
      destruct (run_alloc (2 * i) s1) as (a1 & Ha1). rewrite (method_bind_Ok _ _ _ _ _ Ha1). cbv zeta.
      exists e, s2. by apply method_bind_Err.
Qed.

Lemma run_iterations n s config i prefills decodes :
  valid s -> 0 <= pc_prefill_tokens config -> 0 <= pc_tg config ->
  room s (prompt_of config) (pc_tg config) ->
  Forall (prefill_phase config) prefills -> Forall (decode_phase config) decodes ->
  exists ps ds s', iterations n config (prompt_of config) i prefills decodes s = (Ok (prefills ++ ps, decodes ++ ds), s') /\
    length ps = n /\ length ds = n /\ Forall (prefill_phase config) ps /\ Forall (decode_phase config) ds.
Proof using CC alloc_no_panic.
  intros Hv Hpre Htg. revert s i prefills decodes Hv. induction n as [|n IH]; intros s i prefills decodes Hv Hroom Hp Hd;
    cbn [iterations].
  { exists [], [], s. rewrite !app_nil_r. split_and!; done. }
  destruct (run_iteration s config i Hv Hpre Htg) as [Hok _].
  destruct (Hok Hroom) as (p & d & s1 & Hr & Hsame & Hv1 & Hpp & Hdd). rewrite (method_bind_Ok _ _ _ _ _ Hr). cbn beta iota.
  destruct (IH s1 (S i) (prefills ++ [p]) (decodes ++ [d]) Hv1) as (ps & ds & s2 & Hr2 & Hlp & Hld & Hps & Hds).
  { by apply (room_same s s1). } { apply Forall_app; auto. } { apply Forall_app; auto. }
  exists (p :: ps), (d :: ds), s2. rewrite <-!app_assoc in Hr2. cbn [length]. split_and!; auto.
Qed.

(** ** The report *)

Lemma peak_constant (f : RawPhase -> Z) v p phases :
  0 <= v -> Forall (fun p => f p = v) (p :: phases) -> peak f (p :: phases) = v.
Proof using.
  intros Hv [Hp H]%Forall_cons. unfold peak. cbn [foldl]. rewrite Hp, Z.max_r by done. clear p Hp.
  induction H as [|p l Hp _ IH]; [done|]. cbn [foldl]. by rewrite Hp, Z.max_id.
Qed.

Lemma aggregate_Ok p phases :
  length_z (p :: phases) < 2 ^ 53 ->
  exists m, aggregate_phases (p :: phases) = Ok m /\ pm_tokens m = rp_tokens p /\
    pm_kv_filled_tokens m = peak (fun p => km_filled_tokens (rp_kv p)) (p :: phases).
Proof using.
  intros Hl. unfold aggregate_phases.
  assert (Hs : forall one average, exists r, summary_of one average p (p :: phases) = Ok r).
  { intros one average. unfold summary_of. destruct (length_z (p :: phases) =? 1); [by eexists|].
    apply percentile_summary_Ok. pose proof (length_omap_le (fun p => average (rp_samples p)) (p :: phases)).
    unfold length_z in *. lia. }
  match goal with |- context [summary_of ?f ?g] => destruct (Hs f g) as [r1 ->] end. cbn [mbind result_mbind].
  match goal with |- context [summary_of ?f ?g] => destruct (Hs f g) as [r2 ->] end. cbn [mbind result_mbind].
  match goal with |- context [summary_of ?f ?g] => destruct (Hs f g) as [r3 ->] end. cbn [mbind result_mbind].
  eexists. split; [reflexivity|]. done.
Qed.

End PerfSpec.

(** ** Witness: the toy model *)

Module BenchSample.
Import GenerateSample.
Definition stats : PhaseSampleStats :=
  {| ps_peak_rss_bytes := 4096; ps_cpu_avg_pct := Some f64_one; ps_cpu_p50_pct := Some f64_one;
     ps_cpu_p90_pct := Some f64_one; ps_gpu_busy_avg_pct := None; ps_gpu_busy_p50_pct := None;
     ps_gpu_busy_p90_pct := None; ps_mem_busy_avg_pct := None; ps_mem_busy_p50_pct := None;
     ps_mem_busy_p90_pct := None; ps_peak_dedicated_vram_bytes := None; ps_peak_gtt_bytes := Some 7;
     ps_sample_count := 2 |}.
#[export] Instance host : PerfHost :=
  {| phase_secs i := f64_of_Z (Z.of_nat i + 1); phase_samples _ := stats;
     phase_alloc _ := Err (io (lit "no statistics")) |}.
Definition config : PerfConfig :=
  {| pc_prefill_tokens := 2; pc_tg := 2; pc_warmup := 1; pc_iters := 2; pc_weight_bytes := 100; pc_fill_token := 1 |}.

(** One step more than the session has room for. *)
Example too_long :
  is_Err (run_perf (Ok context) model
    {| pc_prefill_tokens := 2; pc_tg := 3; pc_warmup := 0; pc_iters := 1; pc_weight_bytes := 0; pc_fill_token := 1 |}
    SessionConfig_default) = true.
Proof. by vm_compute. Qed.
Example weight_passes :
  prefill_weight_passes 128 false 512 = 1 /\ prefill_weight_passes 512 true 512 = 1 /\
  prefill_weight_passes 513 true 512 = 2 /\ prefill_weight_passes 4096 true 0 = 1.
Proof. by vm_compute. Qed.
End BenchSample.

