(* ===== verification/Compiler.v ===== *)
(** * The compiler: crates/dyninfer-compiler

    Bound models, the configuration of the shared decoder, the dispatch of the
    kernels that coverage selected, and the manifest of a compiled bundle. The
    MLIR text of a program ([emit]) and its compilation to bytes are arguments:
    the text is that of [DecoderProgram.emit_program], IREE compiles it. *)
From S2P Require Import Prelude Errors Serde CoreTypes Target Catalog Ir KernelRegistry Encodings Coverage Config Graph Builder Session Manifest.
From Stdlib Require Import ZArith Lia Ascii String SpecFloat.
From stdpp Require Import base list strings gmap.
From stdpp Require Import options.

Local Open Scope Z_scope.

(** ** lowering/dense_decoder.rs: the configuration *)

Definition PREFILL_WINDOW : Z := 64.
Definition LARGE_PREFILL_WINDOW : Z := 32.
Definition TINY_PREFILL_WINDOW : Z := 4.
Definition PREFILL_MAX_KV : Z := 128.
Definition LARGE_MAX_KV : Z := 256.
Definition TINY_MAX_KV : Z := 4.
Definition PAGED_KV_PAGE_SIZE : Z := 256.
Definition PAGED_PREFILL_CHUNK_SIZE : Z := 512.

Inductive LayerKind : Set := AttentionLayer | ShortConvLayer.
#[export] Instance LayerKind_eq_dec : EqDecision LayerKind.
Proof. solve_decision. Defined.

#[export] Instance ExecutionMode_countable : Countable ExecutionMode.
Proof.
  refine (inj_countable' (fun m => match m with Prefill => true | Decode => false end)
            (fun b : bool => if b then Prefill else Decode) _).
  by intros [].
Defined.

Section Compiler.
Context {SJ : SerdeJson}.

Record DenseDecoderConfig := {
  dd_vocab : Z;
  dd_hidden : Z;
  dd_intermediate : Z;
  dd_num_heads : Z;
  dd_num_kv_heads : Z;
  dd_head_dim : Z;
  dd_num_layers : Z;
  dd_conv_dim : Z;
  dd_conv_kernel : Z;
  dd_seq : Z;
  dd_max_kv : Z;
  dd_page_size : Z;
  dd_paged_kv : bool;
  dd_iree_flash_attention : bool;
  dd_rms_norm_eps : f32;
  dd_rope_theta : option f32;
  dd_has_qk_norm : bool;
  dd_param_keys : gmap string string;
  dd_param_dtypes : gmap string ScalarType;
  dd_param_compute_dtypes : gmap string ScalarType;
  dd_param_bindings : gmap string ParameterBinding;
  dd_param_lowerings : gmap (string * ExecutionMode) string;
  dd_resolved_layer_types : gmap Z LayerKind;
}.

Definition q_dim (c : DenseDecoderConfig) : Z := mul32 (dd_num_heads c) (dd_head_dim c).
Definition kv_dim (c : DenseDecoderConfig) : Z := mul32 (dd_num_kv_heads c) (dd_head_dim c).
Definition gqa_group (c : DenseDecoderConfig) : Z := dd_num_heads c / Z.max (dd_num_kv_heads c) 1.

(** The closures [u] and [f]: the first key with a number. *)
Fixpoint config_u32 (cfg : MetadataMap) (keys : list string) (default : Z) : Z :=
  match keys with
  | [] => default
  | k :: keys =>
      match v ← cfg !! k; as_u64 v with
      | Some n => wrap32 n
      | None => config_u32 cfg keys default
      end
  end.
Fixpoint config_f32 (cfg : MetadataMap) (keys : list string) (default : f32) : f32 :=
  match keys with
  | [] => default
  | k :: keys =>
      match v ← cfg !! k; as_f64 v with
      | Some x => f32_of_f64 x
      | None => config_f32 cfg keys default
      end
  end.

Definition bound_param_dtype (param : ParameterBinding) : option ScalarType :=
  comp ← head (pb_components param);
  match pc_storage_type comp with Scalar ty => Some ty | _ => None end.

Definition resolve_layer_types (config : MetadataMap) : gmap Z LayerKind :=
  match v ← config !! "layer_types"; as_array v with
  | Some types =>
      list_to_map (imap (fun index entry =>
        (wrap32 (Z.of_nat index),
         match as_str entry with
         | Some "conv" => ShortConvLayer
         | _ => AttentionLayer
         end)) types)
  | None => ∅
  end.

Definition is_attention (operation : ArchitectureOperation) : bool :=
  match ao_kind operation with OpAttention _ _ _ _ => true | _ => false end.

(** The lowering that runs attention over the paged cache. *)
Definition ONLINE_PAGED : string := "attention.online_paged.generated".

Definition selects_paged (bound : BoundModel) (operation : ArchitectureOperation) : bool :=
  is_attention operation &&
  existsb (fun s => String.eqb (sk_operation_id s) (ao_id operation) &&
                    bool_decide (sk_mode s = Prefill) &&
                    String.eqb (sk_lowering_id s) ONLINE_PAGED) (bm_selected_kernels bound).

(** The maps over the parameters of a bound model: the last binding of a name
    wins, and the last selected kernel that reads a slot. *)
Definition by_name {A} (f : ParameterBinding -> option A) (bindings : list ParameterBinding) : gmap string A :=
  foldl (fun m b => match f b with Some a => <[pb_canonical_name b := a]> m | None => m end) ∅ bindings.
Definition by_selection {K A} `{Countable K} (key : string -> SelectedKernel -> K) (f : SelectedKernel -> A)
    (bound : BoundModel) : gmap K A :=
  foldl (fun m s =>
    foldl (fun m slot =>
      match List.find (fun b => String.eqb (pb_slot_id b) slot) (bp_bindings (bm_binding bound)) with
      | Some b => <[key (pb_canonical_name b) s := f s]> m
      | None => m
      end) m (sk_parameter_slots s)) ∅ (bm_selected_kernels bound).

Definition max_opt (l : list Z) (default : Z) : Z :=
  match l with [] => default | x :: l => foldl Z.max x l end.

(** 10000.0 and 1e-5 as [f32]. *)
Definition default_theta : f32 := f32_of_bits 1176256512.
Definition default_eps : f32 := f32_of_bits 925353388.

(** [portable_attn]: the variable DYNINFER_PORTABLE_ATTN is set. *)
Definition from_bound_model (portable_attn : bool) (bound : BoundModel) : DenseDecoderConfig :=
  let cfg := bm_resolved_config bound in
  let operations := ag_operations (bm_architecture bound) in
  let hidden := config_u32 cfg ["hidden_size"; "llama.embedding_length"] 64 in
  let num_heads := config_u32 cfg ["num_heads"; "llama.attention.head_count"] 4 in
  let vocab := config_u32 cfg ["vocab_size"; "llama.vocab_size"] 32 in
  let seq := default 1 (xs_sequence_length <$>
    List.find (fun shape => bool_decide (xs_mode shape = Prefill)) (bm_execution_shapes bound)) in
  let max_kv := max_opt (xs_max_kv_length <$> bm_execution_shapes bound) seq in
  let theta := head (omap (fun op => match ao_kind op with
                                     | OpRope _ _ theta => Some (f32_of_f64 theta)
                                     | _ => None
                                     end) operations) in
  let is_synthetic := (vocab =? 32) && (hidden =? 64) && (num_heads =? 4) in
  {| dd_vocab := vocab;
     dd_hidden := hidden;
     dd_conv_dim := config_u32 cfg ["conv_dim"] hidden;
     dd_conv_kernel := config_u32 cfg ["conv_kernel"] 3;
     dd_intermediate := config_u32 cfg ["intermediate_size"; "llama.feed_forward_length"] (mul32 hidden 2);
     dd_num_heads := num_heads;
     dd_num_kv_heads := config_u32 cfg ["num_kv_heads"; "llama.attention.head_count_kv"] num_heads;
     dd_head_dim := config_u32 cfg ["head_dim"] (hidden / Z.max num_heads 1);
     dd_num_layers := config_u32 cfg ["num_layers"; "n_layer"; "block_count"; "llama.block_count"] 1;
     dd_seq := seq;
     dd_max_kv := Z.max max_kv seq;
     dd_page_size := PAGED_KV_PAGE_SIZE;
     dd_paged_kv := existsb (selects_paged bound) operations;
     dd_iree_flash_attention := String.eqb (tp_driver (bm_target bound)) "hip" && negb portable_attn;
     dd_rms_norm_eps := config_f32 cfg ["rms_norm_eps"; "llama.attention.layer_norm_rms_epsilon"] default_eps;
     dd_rope_theta :=
       if is_synthetic then None
       else match theta with
            | Some t => if SFleb t (S754_zero false) then None else Some t
            | None => Some default_theta
            end;
     dd_has_qk_norm := existsb (fun op => match ao_kind op with
                                          | OpPerHeadRmsNorm _ _ _ => true | _ => false end) operations;
     dd_param_keys :=
       by_name (fun p => Some (match head (pb_components p) with
                               | Some c => pc_external_key c
                               | None => pb_canonical_name p
                               end)) (bp_bindings (bm_binding bound));
     dd_param_dtypes := by_name bound_param_dtype (bp_bindings (bm_binding bound));
     dd_param_compute_dtypes := by_selection (fun name _ => name) sk_activation_type bound;
     dd_param_bindings := by_name Some (bp_bindings (bm_binding bound));
     dd_param_lowerings := by_selection (fun name s => (name, sk_mode s)) sk_lowering_id bound;
     dd_resolved_layer_types := resolve_layer_types cfg |}.

Definition param_key (c : DenseDecoderConfig) (canonical : string) : string :=
  default canonical (dd_param_keys c !! canonical).
Definition param_dtype (c : DenseDecoderConfig) (canonical : string) : ScalarType :=
  default F32 (dd_param_dtypes c !! canonical).
Definition param_compute_dtype (c : DenseDecoderConfig) (canonical : string) : ScalarType :=
  default F32 (dd_param_compute_dtypes c !! canonical).
Definition param_lowering (c : DenseDecoderConfig) (canonical : string) (mode : ExecutionMode) : option string :=
  dd_param_lowerings c !! (canonical, mode).

Definition use_iree_attention (c : DenseDecoderConfig) : bool :=
  dd_iree_flash_attention c && (64 <=? dd_head_dim c).
Definition paged_kv_element_type (c : DenseDecoderConfig) : ScalarType :=
  if dd_paged_kv c && use_iree_attention c then F16 else F32.
Definition paged_kv_elem_asm (c : DenseDecoderConfig) : Result string :=
  match paged_kv_element_type c with
  | F16 => Ok "f16"
  | F32 => Ok "f32"
  | _ => Panic "paged KV storage is restricted to f16/f32"
  end.

Definition is_synthetic_fixture (c : DenseDecoderConfig) : bool :=
  (dd_vocab c =? 32) && (dd_hidden c =? 64) && (dd_intermediate c =? 128) && (dd_num_heads c =? 4) &&
  (dd_head_dim c =? 16) && (dd_num_layers c =? 1) && (dd_seq c =? TINY_PREFILL_WINDOW) &&
  negb (is_some (dd_rope_theta c)).

Definition supports_dense_emit (c : DenseDecoderConfig) : bool :=
  (0 <? dd_num_heads c) && (0 <? dd_num_kv_heads c) &&
  (dd_num_heads c mod dd_num_kv_heads c =? 0) &&
  (0 <? dd_head_dim c) && (dd_head_dim c mod 2 =? 0) &&
  (0 <? q_dim c) && (0 <? kv_dim c) && (0 <? dd_intermediate c) &&
  (1 <=? dd_num_layers c) && (dd_num_layers c <=? 32) &&
  (1 <=? dd_vocab c) && (dd_vocab c <=? 160000) &&
  (dd_hidden c <=? 2048) && (dd_head_dim c <=? 256) && (q_dim c <=? 4096) &&
  (1 <=? dd_seq c) && (dd_seq c <=? (if dd_paged_kv c then PAGED_PREFILL_CHUNK_SIZE else 256)) &&
  (dd_seq c <=? dd_max_kv c) && (dd_max_kv c <=? (if dd_paged_kv c then 1048576 else 512)) &&
  (1 <=? dd_conv_dim c) && (dd_conv_dim c <=? Z.max (dd_hidden c) 1) &&
  (1 <=? dd_conv_kernel c) && (dd_conv_kernel c <=? 16).

Definition has_short_conv (c : DenseDecoderConfig) : bool :=
  existsb (fun kv => bool_decide (kv.2 = ShortConvLayer)) (map_to_list (dd_resolved_layer_types c)).

Definition layer_kind (c : DenseDecoderConfig) (layer : Z) : LayerKind :=
  default AttentionLayer (dd_resolved_layer_types c !! layer).

(** [paged_max_writes]: the pages a chunk may touch. *)
Definition paged_max_writes (seq page : Z) : Result Z :=
  if page =? 0 then Panic "attempt to divide by zero"
  else Ok (Z.max (Z.min (div_ceil seq page + 1) u32_max) 1).

(** ** lib.rs: shapes and bound models *)

Definition default_shape_profile (architecture : ArchitecturePackage) : ShapeProfile :=
  let cfg := values (pkg_resolved_config architecture) in
  let get key := v ← cfg !! key; n ← as_u64 v; Some (wrap32 n) in
  let vocab := default 32 (get "vocab_size") in
  let hidden := default 64 (get "hidden_size") in
  let heads := default 4 (get "num_heads") in
  let layers := default 1 (get "num_layers") in
  let synthetic := (vocab =? 32) && (hidden =? 64) && (heads =? 4) in
  let large := (50000 <? vocab) || (16 <? layers) || (1024 <=? hidden) in
  let default_prefill := if synthetic then TINY_PREFILL_WINDOW
                         else if large then LARGE_PREFILL_WINDOW else PREFILL_WINDOW in
  let default_max_kv := if synthetic then TINY_MAX_KV
                        else if large then LARGE_MAX_KV else PREFILL_MAX_KV in
  let prefill := Z.max (default default_prefill (get "prefill_window")) 1 in
  let max_kv := Z.max (default default_max_kv (get "max_kv")) prefill in
  {| sp_batch_sizes := [1]; sp_sequence_buckets := [prefill]; sp_max_sequence_length := max_kv;
     sp_extra := None |}.

Definition with_online_paged (s : SelectedKernel) : SelectedKernel :=
  {| sk_operation_id := sk_operation_id s; sk_mode := sk_mode s;
     sk_kernel_id := "attention.online_paged.generated.f32"; sk_lowering_id := ONLINE_PAGED;
     sk_parameter_slots := sk_parameter_slots s; sk_input_type := sk_input_type s;
     sk_output_type := sk_output_type s; sk_activation_type := sk_activation_type s;
     sk_accumulator_type := sk_accumulator_type s |}.

(** The kernels of attention operations become the paged one. *)
Definition page_attention (graph : ArchitectureGraph) (kernels : list SelectedKernel) : list SelectedKernel :=
  let attention_ops : gset string :=
    list_to_set (ao_id <$> List.filter is_attention (ag_operations graph)) in
  (fun s => if bool_decide (sk_operation_id s ∈ attention_ops) then with_online_paged s else s) <$> kernels.

Definition build_bound_model (architecture : ArchitecturePackage) (binding : BindingPlan)
    (target : TargetProfile) (policy : PrecisionPolicy) (selected : list SelectedKernel)
    (shape : ShapeProfile) : Result BoundModel :=
  _ ← verify_architecture_graph (pkg_graph architecture);
  let batch_size := default 1 (head (sp_batch_sizes shape)) in
  let requested_prefill := Z.max (default 1 (head (sp_sequence_buckets shape))) 1 in
  let max_kv := Z.max (sp_max_sequence_length shape) requested_prefill in
  let paged := PAGED_PREFILL_CHUNK_SIZE <? max_kv in
  let prefill := if paged then PAGED_PREFILL_CHUNK_SIZE else requested_prefill in
  let execution mode sequence_length :=
    {| xs_mode := mode; xs_batch_size := batch_size; xs_sequence_length := sequence_length;
       xs_max_kv_length := max_kv |} in
  Ok {| bm_version := 1; bm_architecture := pkg_graph architecture;
        bm_resolved_config := values (pkg_resolved_config architecture); bm_binding := binding;
        bm_execution_shapes := [execution Prefill prefill; execution Decode 1];
        bm_target := target; bm_precision_policy := policy;
        bm_selected_kernels := if paged then page_attention (pkg_graph architecture) selected
                               else selected |}.

(** ** lib.rs and lowering/parameter.rs: the dispatch of selected kernels *)

(** The encodings [default_parameter_lowerings] registers. *)
Context (encodings : list QuantizationDefinition).

Definition implements_lowering (operation : KernelOperationKind) (lowering : string) : bool :=
  existsb (fun definition =>
    match qd_kernel_candidates definition with
    | Ok candidates =>
        existsb (fun c => bool_decide (kc_operation c = operation) && String.eqb (kc_lowering c) lowering)
          candidates
    | _ => false
    end) encodings.
Definition registered_parameter_lowering_matches (operation : OperationKind) (lowering : string) : bool :=
  implements_lowering (from_semantic operation) lowering.

Definition lowering_matches_operation (operation : OperationKind) (lowering : string) : bool :=
  match operation with
  | OpInput _ => String.eqb lowering "model.input.abi"
  | OpEmbedding =>
      String.eqb lowering "dense.gather.linalg" || registered_parameter_lowering_matches operation lowering
  | OpLinear _ | OpOutputProjection =>
      String.eqb lowering "dense.matmul.linalg" || registered_parameter_lowering_matches operation lowering
  | OpRmsNorm _ => String.eqb lowering "dense.rms_norm.generated"
  | OpPerHeadRmsNorm _ _ _ => String.eqb lowering "dense.per_head_rms_norm.generated"
  | OpRope _ _ _ => String.eqb lowering "rope.generated"
  | OpKvCacheWrite _ _ => String.eqb lowering "kv_cache.write.generated"
  | OpKvCacheRead _ _ => String.eqb lowering "kv_cache.read.generated"
  | OpAttention _ _ _ _ => String.eqb lowering "attention.gqa.generated" || String.eqb lowering ONLINE_PAGED
  | OpShortConv _ _ _ => String.eqb lowering "short_conv.gated.generated"
  | OpElementwise Silu => String.eqb lowering "elementwise.silu.generated"
  | OpElementwise Multiply => String.eqb lowering "elementwise.multiply.generated"
  | OpResidual => String.eqb lowering "residual.add.generated"
  end.

Definition compilation_error (message : text) (pass : string) : DynInferError :=
  Compilation {| ce_message := message; ce_pass := Some pass; ce_diagnostics := [] |}.

(** Derived [Debug] of the operation kinds and of the configuration. *)
Context (debug_kind : OperationKind -> text) (debug_config : DenseDecoderConfig -> text).

(** The kernel computes in [f32] (or on token ids). *)
Definition qualified_types (s : SelectedKernel) : bool :=
  bool_decide (sk_input_type s = I64) ||
  bool_decide (sk_input_type s = F32) && bool_decide (sk_output_type s = F32) &&
  bool_decide (sk_activation_type s = F32) && bool_decide (sk_accumulator_type s = F32).

Definition validate_lowering (kernels : list SelectedKernel) (operation : ArchitectureOperation)
    (mode : ExecutionMode) : Result unit :=
  selected ← ok_or (List.find (fun s => String.eqb (sk_operation_id s) (ao_id operation) &&
                                        bool_decide (sk_mode s = mode)) kernels)
    (compilation_error (Format "operation `{}` has no selected lowering for {:?}"
       [AStr (ao_id operation); AStr (debug_mode mode)]) "lower.bound_model");
  _ ← ensure (qualified_types selected)
    (compilation_error (Format
       "selected kernel `{}` requires {:?}/{:?}/{:?}/{:?}, but the current shared lowering is qualified only for f32 compute"
       [AStr (sk_kernel_id selected); AStr (ScalarType_debug (sk_input_type selected));
        AStr (ScalarType_debug (sk_output_type selected));
        AStr (ScalarType_debug (sk_activation_type selected));
        AStr (ScalarType_debug (sk_accumulator_type selected))]) "lower.precision");
  ensure (lowering_matches_operation (ao_kind operation) (sk_lowering_id selected))
    (compilation_error (Format "selected lowering `{}` does not implement operation `{}` ({:?})"
       [AStr (sk_lowering_id selected); AStr (ao_id operation); AText (debug_kind (ao_kind operation))])
       "lower.dispatch").

Definition validate_bound_model_lowerings (bound : BoundModel) : Result unit :=
  let modes := export_modes (bm_architecture bound) in
  try_for_each (fun operation =>
    try_for_each (fun mode => validate_lowering (bm_selected_kernels bound) operation mode) modes)
    (ag_operations (bm_architecture bound)).

(** ** lib.rs: lowering *)

Inductive PagedProgram : Set := Combined | PrefillProgram | DecodeProgram.

(** [emit_dense_decoder_cfg_program], after its assertion. *)
Context (emit : string -> DenseDecoderConfig -> PagedProgram -> Result string).
Context (portable_attn : bool).

Definition emit_dense_decoder_cfg_program (arch_id : string) (c : DenseDecoderConfig)
    (program : PagedProgram) : Result string :=
  if supports_dense_emit c then emit arch_id c program
  else Panic "unsupported dense decoder emit config".

Record LoweringOutput := {
  lo_mlir_text : string;
  lo_decode_mlir_text : option string;
  lo_prefill_window : Z;
  lo_max_kv : Z;
  lo_page_size : Z;
  lo_paged_kv : bool;
  lo_num_layers : Z;
  lo_kv_element_type : ScalarType;
}.

(** [reject_operations_outside_dense_decoder] *)
Definition reject_operations_outside_dense_decoder (bound : BoundModel) : Result unit := Ok tt.

Definition lower_bound_model (bound : BoundModel) : Result LoweringOutput :=
  _ ← validate_bound_model_lowerings bound;
  _ ← reject_operations_outside_dense_decoder bound;
  let config := from_bound_model portable_attn bound in
  let arch_id := ag_architecture_id (bm_architecture bound) in
  _ ← (match List.find (fun b => negb (is_some (dd_param_compute_dtypes config !! pb_canonical_name b)))
               (bp_bindings (bm_binding bound)) with
       | Some b => Err (compilation_error
           (Format "parameter `{}` has no operation-local compute dtype selection"
              [AStr (pb_canonical_name b)]) "lower.precision")
       | None => Ok tt
       end);
  _ ← ensure (supports_dense_emit config)
    (compilation_error (Format "shared transformer lowering does not support specialization {config:?}"
       [AText (debug_config config)]) "lower.bound_model");
  '(mlir_text, decode_mlir_text) ←
    (if dd_paged_kv config && negb (has_short_conv config) then
       prefill ← emit_dense_decoder_cfg_program arch_id config PrefillProgram;
       decode ← emit_dense_decoder_cfg_program arch_id config DecodeProgram;
       Ok (prefill, Some decode)
     else
       combined ← emit_dense_decoder_cfg_program arch_id config Combined;
       Ok (combined, None));
  Ok {| lo_mlir_text := mlir_text; lo_decode_mlir_text := decode_mlir_text;
        lo_prefill_window := dd_seq config; lo_max_kv := dd_max_kv config;
        lo_page_size := dd_page_size config; lo_paged_kv := dd_paged_kv config;
        lo_num_layers := dd_num_layers config; lo_kv_element_type := paged_kv_element_type config |}.

(** ** lib.rs: IREE *)

(** The discovered SDK parts, the in-process compiler and [iree-compile]. *)
Context (rocm_bc_dir sdk_linker : option string).
Context (inprocess : string -> list string -> Result bytes).
Context (tools : option (string -> list string -> Result bytes)).

Definition compile_flags_for (target : TargetProfile) : Result (list string) :=
  _ ← ensure (is_compile_ready target && negb (bool_decide (tp_executable_target_flags target = [])))
    (compilation_error
       (Format "target `{}` is not backed by verified local compile facts (architecture={:?})"
          [AStr (tp_driver target); debug_option AStr (tp_architecture target)]) "target.validate");
  let flags := tp_executable_target_flags target in
  let driver_in l := existsb (String.eqb (tp_driver target)) l in
  Ok (if driver_in ["hip"; "rocm"] then
        match rocm_bc_dir with
        | Some bc => flags ++ [String.append "--iree-rocm-bc-dir=" bc]
        | None => flags
        end
      else if driver_in ["local"; "local-task"; "local-sync"] &&
              negb (existsb (starts_with "--iree-llvmcpu-embedded-linker-path=") flags) then
        match sdk_linker with
        | Some linker => flags ++ [String.append "--iree-llvmcpu-embedded-linker-path=" linker]
        | None => flags
        end
      else flags).

Definition compile_mlir_prefer_inprocess (mlir : string) (target : TargetProfile)
    (force_subprocess : bool) : Result bytes :=
  flags ← compile_flags_for target;
  let inprocess_supported := negb (existsb (String.eqb (tp_driver target)) ["hip"; "rocm"]) in
  let subprocess :=
    match tools with
    | Some run => run mlir flags
    | None => Err (compilation_error (lit "IREE compiler unavailable (libIREECompiler + iree-compile)")
                     "iree-compile")
    end in
  if negb force_subprocess && inprocess_supported then
    match inprocess mlir flags with
    | Err _ => subprocess
    | r => r
    end
  else subprocess.

(** ** lib.rs: the manifest *)

Record CompileOptions := {
  co_mode : string;
  co_dump_ir : bool;
  co_smoke_only : bool;
  co_force_subprocess : bool;
}.
Record CompileRequest := {
  rq_bound_model : BoundModel;
  rq_architecture_revision : string;
  rq_checkpoint_schema : SchemaFingerprint;
  rq_shape_profile : ShapeProfile;
  rq_options : CompileOptions;
}.
Record CompileOutput := {
  out_executable : bytes;
  out_decode_executable : option bytes;
  out_manifest : ExecutableManifest;
  out_diagnostics : list Diagnostic;
  out_mlir_text : string;
}.

(** [Ord] of a manifest component. *)
Definition component_leb (a b : ManifestParameterComponent) : bool :=
  match String.compare (mc_scope a) (mc_scope b) with
  | Lt => true
  | Gt => false
  | Eq => match String.compare (mc_key a) (mc_key b) with
          | Lt => true
          | Gt => false
          | Eq => mc_byte_length a <=? mc_byte_length b
          end
  end.

(** Collected into a [BTreeSet]. *)
Definition sum_wrap (l : list Z) : Z := foldl (fun a b => wrap64 (a + b)) 0 l.
Definition binding_components (binding : BindingPlan) : list ManifestParameterComponent :=
  b ← bp_bindings binding;
  (fun c => {| mc_scope := pb_scope b; mc_key := pc_external_key c;
               mc_byte_length := sum_wrap (pc_byte_lengths c) |}) <$> pb_components b.
Definition manifest_components (binding : BindingPlan) : list ManifestParameterComponent :=
  stable_sort component_leb (remove_dups (binding_components binding)).

Definition validate_binding_for_compile (plan : BindingPlan) : Result unit :=
  try_for_each (fun b =>
    ensure (negb (bool_decide (pb_components b = [])))
      (compilation_error (Format "binding for `{}` has no storage components"
         [AStr (pb_canonical_name b)]) "binding.validate")) (bp_bindings plan).

Definition config_value (cfg : MetadataMap) (key : string) (default : Z) : Z :=
  match v ← cfg !! key; as_u64 v with Some n => wrap32 n | None => default end.

Definition compiled_kv_cache (request : CompileRequest) (lowering : LoweringOutput) : KvCacheDescriptor :=
  let cfg := bm_resolved_config (rq_bound_model request) in
  {| kv_layer_count := config_value cfg "num_layers" 1;
     kv_max_batch_size := default 1 (head (sp_batch_sizes (rq_shape_profile request)));
     kv_max_sequence_length := lo_max_kv lowering;
     kv_head_count := config_value cfg "num_kv_heads" 1;
     kv_head_dimension := config_value cfg "head_dim" 64;
     kv_element_type := lo_kv_element_type lowering;
     kv_layout := LayersHeadsSeqDim; kv_alignment := 64;
     kv_storage := if lo_paged_kv lowering then Paged (lo_page_size lowering) PAGED_PREFILL_CHUNK_SIZE
                   else StaticGlobals |}.

Definition manifest_of (request : CompileRequest) (lowering : LoweringOutput)
    (diagnostics : list Diagnostic) : ExecutableManifest :=
  let bound := rq_bound_model request in
  let paged := lo_paged_kv lowering in
  let profile := rq_shape_profile request in
  {| em_format := "dyninfer.bundle"; em_version := if paged then 11 else 2;
     em_architecture_id := ag_architecture_id (bm_architecture bound);
     em_architecture_revision := rq_architecture_revision request;
     em_checkpoint_schema := rq_checkpoint_schema request;
     em_target := bm_target bound; em_precision_policy := bm_precision_policy bound;
     em_selected_kernels := bm_selected_kernels bound;
     em_shape_profile :=
       if paged then {| sp_batch_sizes := sp_batch_sizes profile;
                        sp_sequence_buckets := [PAGED_PREFILL_CHUNK_SIZE];
                        sp_max_sequence_length := sp_max_sequence_length profile;
                        sp_extra := sp_extra profile |}
       else profile;
     em_entrypoints :=
       if co_smoke_only (rq_options request) then ["add"]
       else if paged then ["prefill_chunk"; "decode_chunk"; "add"]
       else ["prefill"; "decode"; "add"];
     em_kv_cache := compiled_kv_cache request lowering;
     em_parameter_scope := "weights";
     em_parameter_components := manifest_components (bm_binding bound);
     em_derived_parameters_required := false;
     em_vmfb_path := "executables/model.vmfb";
     em_prefill_window := lo_prefill_window lowering;
     em_diagnostics := Diagnostic_display <$> diagnostics |}.

(** The add smoke module. *)
Context (add_smoke_module : string).

Definition smoke_lowering : LoweringOutput :=
  {| lo_mlir_text := add_smoke_module; lo_decode_mlir_text := None; lo_prefill_window := 4;
     lo_max_kv := 4; lo_page_size := PAGED_KV_PAGE_SIZE; lo_paged_kv := false; lo_num_layers := 0;
     lo_kv_element_type := F32 |}.

Definition annotate_error {A} (r : Result A) : Result A :=
  match r with
  | Err (Compilation c) =>
      Err (Compilation {| ce_message := ce_message c; ce_pass := ce_pass c;
        ce_diagnostics := ce_diagnostics c ++ [Diagnostic_error "E_IREE_COMPILE" (ce_message c)] |})
  | r => r
  end.

(** The two compilations of a split program run in parallel: a panic of the
    decode one is an error, and that of the prefill one is not caught. *)
Definition compile_both (mlir decode_mlir : string) (target : TargetProfile) (force : bool)
    : Result (bytes * option bytes) :=
  match compile_mlir_prefer_inprocess mlir target force with
  | Panic why => Panic why
  | prefill =>
      decode ← (match compile_mlir_prefer_inprocess decode_mlir target force with
                | Panic _ => Err (compilation_error (lit "parallel decode compilation panicked")
                                    "iree-compile.decode")
                | r => Ok r
                end);
      prefill ← prefill;
      decode ← decode;
      Ok (prefill, Some decode)
  end.

Definition compile (request : CompileRequest) : Result CompileOutput :=
  let options := rq_options request in
  let bound := rq_bound_model request in
  lowering ← (if co_smoke_only options then Ok smoke_lowering else lower_bound_model bound);
  '(vmfb, decode_vmfb) ← annotate_error
    (match lo_decode_mlir_text lowering with
     | Some decode_mlir =>
         compile_both (lo_mlir_text lowering) decode_mlir (bm_target bound) (co_force_subprocess options)
     | None =>
         vmfb ← compile_mlir_prefer_inprocess (lo_mlir_text lowering) (bm_target bound)
                  (co_force_subprocess options);
         Ok (vmfb, None)
     end);
  let backend := if co_force_subprocess options then "iree-compile" else "libIREECompiler" in
  let size := length_z vmfb + match decode_vmfb with Some b => length_z b | None => 0 end in
  let diagnostics :=
    {| diag_code := "R_IREE_COMPILE"; diag_severity := SevRemark;
       diag_message := Format "compiled {} bytes via {backend}" [AInt size; AStr backend];
       diag_architecture_op := None; diag_parameter_slot := None; diag_checkpoint_key := None;
       diag_expected := None; diag_actual := None; diag_pass_name := Some "iree-compile";
       diag_suggestion := None |} ::
    (if co_dump_ir options
     then [Diagnostic_warning "W_DUMP_IR"
             (lit "dump_ir requested; MLIR retained in CompileOutput.mlir_text")]
     else []) in
  _ ← validate_binding_for_compile (bm_binding bound);
  Ok {| out_executable := vmfb; out_decode_executable := decode_vmfb;
        out_manifest := manifest_of request lowering diagnostics;
        out_diagnostics := diagnostics; out_mlir_text := lo_mlir_text lowering |}.

End Compiler.
