(* ===== verification/Decoder.v ===== *)
(** * The decoder's shared emitters: lowering/dense_decoder.rs

    What the paged and the static programs have in common: dimensions and
    names in the texts, loads and products of parameters, the short
    convolution, the output projection and the state of the convolutions. *)
From S2P Require Import Prelude Strings Errors Serde CoreTypes Ir KernelRegistry Encodings Mlir Kernels Codegen Compiler Floats.
From Stdlib Require Import ZArith Lia Ascii String SpecFloat.
From stdpp Require Import base list strings gmap.
From stdpp Require Import options.

(** * The lowering of parameters: crates/dyninfer-compiler/src/lowering/parameter.rs

    From a configuration's bindings and selected lowerings to the emitter of
    the encoding: globals, loads, helpers and calls. *)

Local Open Scope Z_scope.

Definition mlir_ty (ty : ScalarType) : string :=
  match ty with
  | U8 => "ui8"
  | U16 => "ui16"
  | U32 => "ui32"
  | U64 => "ui64"
  | Bool => "i1"
  | other => ScalarType_display other
  end.

Definition no_lowering (canonical : string) (requirement : text) : DynInferError :=
  compilation_error
    (Format "parameter `{canonical}` has no registered implementation for {requirement}"
       [AStr canonical; AText requirement]) "lower.parameter.dispatch".

Section Parameters.
Context {SJ : SerdeJson} {ML : MlirApi}.
(** The registered encodings ([ParameterLowerings::registry]). *)
Context (encodings : list QuantizationDefinition).

Abbreviation Function := (Emit FuncBuilder).
Abbreviation Program := (Emit ModuleBuilder).

Definition is_plain (binding : ParameterBinding) : bool :=
  match pb_encoding binding with Plain _ _ => true | _ => false end.

Definition definition (binding : ParameterBinding) : Result Emitter :=
  match resolve_encoding encodings (pb_encoding binding) with
  | Some d => Ok (emitter d)
  | None => Err (no_lowering (pb_canonical_name binding) (lit "registered encoding definition"))
  end.

(** The binding of a parameter that is not stored plain. *)
Definition encoded (c : DenseDecoderConfig) (canonical : string) : option ParameterBinding :=
  match dd_param_bindings c !! canonical with
  | Some binding => if is_plain binding then None else Some binding
  | None => None
  end.

(** What an emitter did, or the error when it has no such lowering. *)
Definition required {S} (canonical requirement : string) (m : Emit S bool) : Emit S unit :=
  done ← m;
  lift (ensure done (no_lowering canonical (lit requirement))).

Definition emit_global (c : DenseDecoderConfig) (symbol canonical shape : string) : Program unit :=
  match encoded c canonical with
  | Some binding =>
      x ← lift (definition binding);
      required canonical "external-global declaration" (emit_external_globals x binding symbol)
  | None =>
      let storage := mlir_ty (param_dtype c canonical) in
      util_global_parameter symbol (param_key c canonical)
        (fmt [("shape", shape); ("storage", storage)] "tensor<{shape}x{storage}>")
  end.

Definition emit_load (c : DenseDecoderConfig) (ssa symbol canonical shape : string) : Function unit :=
  match encoded c canonical with
  | Some binding =>
      x ← lift (definition binding);
      required canonical "external-component load" (emit_parameter_load x binding ssa symbol)
  | None =>
      let storage := param_dtype c canonical in
      let compute := param_compute_dtype c canonical in
      match storage, compute with
      | F16, F32 | Bf16, F32 | F32, F32 =>
          _ ← load_compute ssa symbol (mlir_ty storage) (mlir_ty compute) shape; mret tt
      | _, _ =>
          lift (Err (no_lowering canonical (Format "storage-to-compute conversion {storage}->{compute}"
                   [AStr (ScalarType_display storage); AStr (ScalarType_display compute)])))
      end
  end.

(** The operation a parameter's helper is for. *)
Definition helper_operation (c : DenseDecoderConfig) (canonical : string) (binding : ParameterBinding)
    (mode : ExecutionMode) : option ParameterLoweringOperation :=
  if String.eqb canonical "token_embd.weight" then Some LowerEmbedding
  else if String.eqb canonical "output.weight" then Some LowerOutputProjection
  else if rank (pb_logical_shape binding) =? 2 then
    Some (LowerLinear (match mode with Prefill => dd_seq c | Decode => 1 end))
  else None.

(** One mode of one parameter, given the keys of the helpers so far. *)
Definition emit_mode_helper (c : DenseDecoderConfig) (canonical : string) (binding : ParameterBinding)
    (x : Emitter) (emitted : gset string) (mode : ExecutionMode) : Program (gset string) :=
  match param_lowering c canonical mode, helper_operation c canonical binding mode with
  | Some lowering, Some operation =>
      let spec := {| pl_binding := binding; pl_lowering_id := lowering; pl_mode := mode;
                     pl_operation := operation |} in
      match helper_key x spec with
      | None => lift (Err (no_lowering canonical (lit "selected helper")))
      | Some key =>
          _ ← (if bool_decide (key ∈ emitted) then mret tt
               else required canonical "selected helper" (emit_helper x spec));
          mret ({[key]} ∪ emitted)
      end
  | _, _ => mret emitted
  end.
Definition emit_parameter_helpers (c : DenseDecoderConfig) (emitted : gset string)
    (entry : string * ParameterBinding) : Program (gset string) :=
  let '(canonical, binding) := entry in
  if is_plain binding then mret emitted
  else
    x ← lift (definition binding);
    emitted ← emit_mode_helper c canonical binding x emitted Prefill;
    emit_mode_helper c canonical binding x emitted Decode.
Fixpoint emit_helpers_of (c : DenseDecoderConfig) (emitted : gset string)
    (l : list (string * ParameterBinding)) : Program unit :=
  match l with
  | [] => mret tt
  | entry :: l => emitted ← emit_parameter_helpers c emitted entry; emit_helpers_of c emitted l
  end.
Definition emit_quantized_helpers (c : DenseDecoderConfig) : Program unit :=
  emit_helpers_of c ∅ (btree_iter (dd_param_bindings c)).

(** The specification of a selected lowering. *)
Definition selected_spec (c : DenseDecoderConfig) (canonical requirement : string)
    (binding : ParameterBinding) (mode : ExecutionMode) (operation : ParameterLoweringOperation)
    : Result ParameterLoweringSpec :=
  lowering ← ok_or (param_lowering c canonical mode) (no_lowering canonical (lit requirement));
  Ok {| pl_binding := binding; pl_lowering_id := lowering; pl_mode := mode; pl_operation := operation |}.

Definition emit_linear_parameter (c : DenseDecoderConfig) (result dense_function input_ssa parameter_ssa
    canonical : string) (mode : ExecutionMode) (rows input output : Z) : Function unit :=
  match encoded c canonical with
  | Some binding =>
      spec ← lift (selected_spec c canonical "operation-local selected lowering" binding mode (LowerLinear rows));
      x ← lift (definition binding);
      required canonical "linear call"
        (emit_linear_call x {| lc_lowering := spec; lc_result_ssa := result; lc_input_ssa := input_ssa;
                               lc_parameter_ssa := parameter_ssa |})
  | None =>
      op_asm (fmt [("result", result); ("dense_function", dense_function); ("input_ssa", input_ssa);
                   ("parameter_ssa", parameter_ssa); ("rows", num rows); ("input", num input);
                   ("output", num output)] "  %{result} = func.call @{dense_function}(%{input_ssa}, %{parameter_ssa}) : (tensor<{rows}x{input}xf32>, tensor<{output}x{input}xf32>) -> tensor<{rows}x{output}xf32>
")
  end.

Definition emit_embedding_parameter (c : DenseDecoderConfig) (result index_ssa parameter_ssa : string)
    (mode : ExecutionMode) : Function bool :=
  match encoded c "token_embd.weight" with
  | None => mret false
  | Some binding =>
      spec ← lift (selected_spec c "token_embd.weight" "embedding lowering" binding mode LowerEmbedding);
      x ← lift (definition binding);
      _ ← required "token_embd.weight" "embedding call"
            (emit_embedding_call x {| ec_lowering := spec; ec_result_ssa := result; ec_index_ssa := index_ssa;
                                      ec_parameter_ssa := parameter_ssa |});
      mret true
  end.

Definition emit_output_projection (c : DenseDecoderConfig) (hidden_ssa parameter_ssa : string)
    (mode : ExecutionMode) : Function bool :=
  match encoded c "output.weight" with
  | None => mret false
  | Some binding =>
      spec ← lift (selected_spec c "output.weight" "output-projection lowering" binding mode
                     LowerOutputProjection);
      x ← lift (definition binding);
      _ ← required "output.weight" "output-projection call"
            (emit_linear_call x {| lc_lowering := spec; lc_result_ssa := "y"; lc_input_ssa := hidden_ssa;
                                   lc_parameter_ssa := parameter_ssa |});
      _ ← op_asm (fmt [("", num (dd_vocab c))] "  %logits = tensor.collapse_shape %y [[0, 1]] : tensor<1x{}xf32> into tensor<{}xf32>
");
      mret true
  end.

End Parameters.


Section Decoder.
Context {SJ : SerdeJson} {ML : MlirApi}.
Context (encodings : list QuantizationDefinition).

Abbreviation Function := (Emit FuncBuilder).
Abbreviation Program := (Emit ModuleBuilder).

(** [m.expect(message)] *)
Definition expecting {S A} (message : string) (m : Emit S A) : Emit S A := fun s =>
  match m s with Err _ => Panic message | r => r end.

(** [if !m? { k }] *)
Definition unless {S} (m : Emit S bool) (k : Emit S unit) : Emit S unit := fun s =>
  '(done, s) ← m s; if (done : bool) then Ok (tt, s) else k s.

(** The local variables of the emitters that hold a dimension, under the names
    they have in the texts. *)
Definition dims (c : DenseDecoderConfig) : env :=
  [("s", num (dd_seq c)); ("h", num (dd_hidden c)); ("v", num (dd_vocab c));
   ("i", num (dd_intermediate c)); ("q", num (q_dim c)); ("kv", num (kv_dim c));
   ("nh", num (dd_num_heads c)); ("nkv", num (dd_num_kv_heads c)); ("g", num (gqa_group c));
   ("d", num (dd_head_dim c)); ("page", num (dd_page_size c)); ("mk", num (dd_max_kv c));
   ("cc", num (dd_conv_dim c)); ("k", num (dd_conv_kernel c)); ("c3", num (mul32 3 (dd_conv_dim c)))].

Definition layers (c : DenseDecoderConfig) : list Z := Z.of_nat <$> seq 0 (Z.to_nat (dd_num_layers c)).

(** [p] and [n] of a layer. *)
Definition layer_env (layer : Z) : env :=
  [("layer", num layer); ("p", fmt [("layer", num layer)] "blk{layer}");
   ("n", fmt [("layer", num layer)] "blk.{layer}")].

(** [1.0 / (d as f32).sqrt()] *)
Definition attention_scale (c : DenseDecoderConfig) : string :=
  fmt_exp 8 (f32_div f32_one (SFsqrt 24 128 (f32_of_Z (dd_head_dim c)))).

Definition emit_load_compute (c : DenseDecoderConfig) (ssa sym canonical shape : string) : Function unit :=
  expecting "selected parameter load was validated before MLIR emission"
    (emit_load encodings c ssa sym canonical shape).
(** Several loads: the SSA name, and the templates of symbol, canonical name
    and shape. *)
Definition emit_loads (c : DenseDecoderConfig) (e : env) (l : list (string * string * string * string))
    : Function unit :=
  emit_each (fun '(ssa, sym, canonical, shape) =>
    emit_load_compute c (fmt e ssa) (fmt e sym) (fmt e canonical) (fmt e shape)) l.

Definition emit_linear_call (c : DenseDecoderConfig) (result dense_fn x w weight_canonical : string)
    (s in_dim out_dim : Z) : Function unit :=
  let mode := if ends_with "_tok" dense_fn then Decode else Prefill in
  expecting "selected linear lowering was validated before MLIR emission"
    (emit_linear_parameter encodings c result dense_fn x w weight_canonical mode s in_dim out_dim).

(** ** The short convolution *)

Definition emit_conv_op (c : DenseDecoderConfig) (layer : Z) (mode : ExecutionMode) : Program unit :=
  let decoding := bool_decide (mode = Decode) in
  let s := if decoding then 1 else dd_seq c in
  let cc := dd_conv_dim c in
  let k := dd_conv_kernel c in
  let tok := if decoding then "_tok" else EmptyString in
  let pad := sub32 k 1 in
  let e := [("layer", num layer); ("tok", tok); ("s", num s); ("cc", num cc); ("k", num k);
            ("g", num (mul32 3 cc)); ("two_c", num (mul32 2 cc)); ("km1", num pad); ("pad", num pad);
            ("plen", num (add32 s pad)); ("state_start", num (saturating_sub s 1))] in
  func_private (fmt e "conv_op{layer}{tok}") (
    _ ← arg "gates" (fmt e "gates");
    _ ← result_ty (fmt e "tensor<{s}x{cc}xf32>");
    _ ← emit_loads c e [("conv_w3", "blk{layer}_shortconv_conv_weight", "blk.{layer}.shortconv.conv.weight", "{cc}x1x{k}")];
    _ ← op_asm (fmt e "  %c0f = arith.constant 0.0 : f32
  %B = tensor.extract_slice %gates[0, 0] [{s}, {cc}] [1, 1] : tensor<{s}x{g}xf32> to tensor<{s}x{cc}xf32>
  %Cgate = tensor.extract_slice %gates[0, {cc}] [{s}, {cc}] [1, 1] : tensor<{s}x{g}xf32> to tensor<{s}x{cc}xf32>
  %x = tensor.extract_slice %gates[0, {two_c}] [{s}, {cc}] [1, 1] : tensor<{s}x{g}xf32> to tensor<{s}x{cc}xf32>
  %Bx = arith.mulf %B, %x : tensor<{s}x{cc}xf32>
  %w = tensor.collapse_shape %conv_w3 [[0], [1, 2]] : tensor<{cc}x1x{k}xf32> into tensor<{cc}x{k}xf32>
");
    if decoding then
      if k =? 1 then op_asm (fmt e "  %out_e = tensor.empty() : tensor<1x{cc}xf32>
  %out_z = linalg.fill ins(%c0f : f32) outs(%out_e : tensor<1x{cc}xf32>) -> tensor<1x{cc}xf32>
  %conv = linalg.generic {{
      indexing_maps = [
        affine_map<(d0, d1, d2) -> (d0, d1)>,
        affine_map<(d0, d1, d2) -> (d1, d2)>,
        affine_map<(d0, d1, d2) -> (d0, d1)>],
      iterator_types = ['parallel', 'parallel', 'reduction']}}
    ins(%Bx, %w : tensor<1x{cc}xf32>, tensor<{cc}x1xf32>)
    outs(%out_z : tensor<1x{cc}xf32>) {{
    ^bb0(%a: f32, %b: f32, %acc: f32):
      %p = arith.mulf %a, %b : f32
      %sum = arith.addf %acc, %p : f32
      linalg.yield %sum : f32
  }} -> tensor<1x{cc}xf32>
  %y = arith.mulf %conv, %Cgate : tensor<1x{cc}xf32>
  util.global.store %Bx, @conv_state{layer} : tensor<1x{cc}xf32>
  return %y : tensor<1x{cc}xf32>") else op_asm (fmt e "  %state_old = util.global.load @conv_state{layer} : tensor<{k}x{cc}xf32>
  %shift = tensor.extract_slice %state_old[1, 0] [{km1}, {cc}] [1, 1] : tensor<{k}x{cc}xf32> to tensor<{km1}x{cc}xf32>
  %st_e = tensor.empty() : tensor<{k}x{cc}xf32>
  %st_z = linalg.fill ins(%c0f : f32) outs(%st_e : tensor<{k}x{cc}xf32>) -> tensor<{k}x{cc}xf32>
  %st_mid = tensor.insert_slice %shift into %st_z[0, 0] [{km1}, {cc}] [1, 1] : tensor<{km1}x{cc}xf32> into tensor<{k}x{cc}xf32>
  %state_new = tensor.insert_slice %Bx into %st_mid[{km1}, 0] [1, {cc}] [1, 1] : tensor<1x{cc}xf32> into tensor<{k}x{cc}xf32>
  %out_e = tensor.empty() : tensor<1x{cc}xf32>
  %out_z = linalg.fill ins(%c0f : f32) outs(%out_e : tensor<1x{cc}xf32>) -> tensor<1x{cc}xf32>
  %conv = linalg.generic {{
      indexing_maps = [
        affine_map<(d0, d1, d2) -> (d2, d1)>,
        affine_map<(d0, d1, d2) -> (d1, d2)>,
        affine_map<(d0, d1, d2) -> (d0, d1)>],
      iterator_types = ['parallel', 'parallel', 'reduction']}}
    ins(%state_new, %w : tensor<{k}x{cc}xf32>, tensor<{cc}x{k}xf32>)
    outs(%out_z : tensor<1x{cc}xf32>) {{
    ^bb0(%a: f32, %b: f32, %acc: f32):
      %p = arith.mulf %a, %b : f32
      %sum = arith.addf %acc, %p : f32
      linalg.yield %sum : f32
  }} -> tensor<1x{cc}xf32>
  %y = arith.mulf %conv, %Cgate : tensor<1x{cc}xf32>
  util.global.store %state_new, @conv_state{layer} : tensor<{k}x{cc}xf32>
  return %y : tensor<1x{cc}xf32>")
    else if k =? 1 then op_asm (fmt e "  %out_e = tensor.empty() : tensor<{s}x{cc}xf32>
  %out_z = linalg.fill ins(%c0f : f32) outs(%out_e : tensor<{s}x{cc}xf32>) -> tensor<{s}x{cc}xf32>
  %conv = linalg.generic {{
      indexing_maps = [
        affine_map<(d0, d1, d2) -> (d0, d1)>,
        affine_map<(d0, d1, d2) -> (d1, d2)>,
        affine_map<(d0, d1, d2) -> (d0, d1)>],
      iterator_types = ['parallel', 'parallel', 'reduction']}}
    ins(%Bx, %w : tensor<{s}x{cc}xf32>, tensor<{cc}x1xf32>)
    outs(%out_z : tensor<{s}x{cc}xf32>) {{
    ^bb0(%a: f32, %b: f32, %acc: f32):
      %p = arith.mulf %a, %b : f32
      %sum = arith.addf %acc, %p : f32
      linalg.yield %sum : f32
  }} -> tensor<{s}x{cc}xf32>
  %y = arith.mulf %conv, %Cgate : tensor<{s}x{cc}xf32>
  %state_new = tensor.extract_slice %Bx[{state_start}, 0] [1, {cc}] [1, 1] : tensor<{s}x{cc}xf32> to tensor<1x{cc}xf32>
  util.global.store %state_new, @conv_state{layer} : tensor<1x{cc}xf32>
  return %y : tensor<{s}x{cc}xf32>") else op_asm (fmt e "  %state_old = util.global.load @conv_state{layer} : tensor<{k}x{cc}xf32>
  %prefix = tensor.extract_slice %state_old[1, 0] [{pad}, {cc}] [1, 1] : tensor<{k}x{cc}xf32> to tensor<{pad}x{cc}xf32>
  %pad_e = tensor.empty() : tensor<{plen}x{cc}xf32>
  %pad_z = linalg.fill ins(%c0f : f32) outs(%pad_e : tensor<{plen}x{cc}xf32>) -> tensor<{plen}x{cc}xf32>
  %pad_mid = tensor.insert_slice %prefix into %pad_z[0, 0] [{pad}, {cc}] [1, 1] : tensor<{pad}x{cc}xf32> into tensor<{plen}x{cc}xf32>
  %padded = tensor.insert_slice %Bx into %pad_mid[{pad}, 0] [{s}, {cc}] [1, 1] : tensor<{s}x{cc}xf32> into tensor<{plen}x{cc}xf32>
  %out_e = tensor.empty() : tensor<{s}x{cc}xf32>
  %out_z = linalg.fill ins(%c0f : f32) outs(%out_e : tensor<{s}x{cc}xf32>) -> tensor<{s}x{cc}xf32>
  %conv = linalg.generic {{
      indexing_maps = [
        affine_map<(d0, d1, d2) -> (d0 + d2, d1)>,
        affine_map<(d0, d1, d2) -> (d1, d2)>,
        affine_map<(d0, d1, d2) -> (d0, d1)>],
      iterator_types = ['parallel', 'parallel', 'reduction']}}
    ins(%padded, %w : tensor<{plen}x{cc}xf32>, tensor<{cc}x{k}xf32>)
    outs(%out_z : tensor<{s}x{cc}xf32>) {{
    ^bb0(%a: f32, %b: f32, %acc: f32):
      %p = arith.mulf %a, %b : f32
      %sum = arith.addf %acc, %p : f32
      linalg.yield %sum : f32
  }} -> tensor<{s}x{cc}xf32>
  %y = arith.mulf %conv, %Cgate : tensor<{s}x{cc}xf32>
  %state_new = tensor.extract_slice %padded[{state_start}, 0] [{k}, {cc}] [1, 1] : tensor<{plen}x{cc}xf32> to tensor<{k}x{cc}xf32>
  util.global.store %state_new, @conv_state{layer} : tensor<{k}x{cc}xf32>
  return %y : tensor<{s}x{cc}xf32>")).

(** ** The output projection *)

Definition emit_output_proj (c : DenseDecoderConfig) (hidden_ssa weight_ssa : string) (mode : ExecutionMode)
    : Function unit :=
  unless (expecting "selected output lowering was validated before MLIR emission"
            (emit_output_projection encodings c hidden_ssa weight_ssa mode)) (
    let e := ("weight_ssa", weight_ssa) :: ("hidden_ssa", hidden_ssa) :: dims c in
    _ ← op_asm "  %c0f = arith.constant 0.0 : f32
";
    _ ← op_asm (fmt e "  %wt_i = tensor.empty() : tensor<{h}x{v}xf32>
");
    _ ← op_asm (fmt e "  %wt = linalg.transpose ins(%{weight_ssa} : tensor<{v}x{h}xf32>) outs(%wt_i : tensor<{h}x{v}xf32>) permutation = [1, 0]
");
    _ ← op_asm (fmt e "  %yi = tensor.empty() : tensor<1x{v}xf32>
");
    _ ← op_asm (fmt e "  %yz = linalg.fill ins(%c0f : f32) outs(%yi : tensor<1x{v}xf32>) -> tensor<1x{v}xf32>
");
    _ ← op_asm (fmt e "  %y = linalg.matmul ins(%{hidden_ssa}, %wt : tensor<1x{h}xf32>, tensor<{h}x{v}xf32>) outs(%yz : tensor<1x{v}xf32>) -> tensor<1x{v}xf32>
");
    op_asm (fmt e "  %logits = tensor.collapse_shape %y [[0, 1]] : tensor<1x{v}xf32> into tensor<{v}xf32>
")).

(** ** The state of the convolutions *)

Definition conv_layers (c : DenseDecoderConfig) : list Z :=
  List.filter (fun layer => bool_decide (layer_kind c layer = ShortConvLayer)) (layers c).

Definition emit_conv_state_globals (c : DenseDecoderConfig) : Program unit :=
  emit_each (fun layer =>
    util_global_mutable_zero (fmt [("layer", num layer)] "conv_state{layer}")
      (fmt (("", num (dd_conv_dim c)) :: dims c) "tensor<{k}x{}xf32>")) (conv_layers c).

Definition emit_zero_conv_states (c : DenseDecoderConfig) (indent : string) : Function unit :=
  if negb (has_short_conv c) then mret tt
  else
    _ ← op_asm (fmt [("indent", indent)] "{indent}%c0f_conv_reset = arith.constant 0.0 : f32
");
    emit_each (fun layer =>
      op_asm (fmt (("indent", indent) :: ("layer", num layer) :: dims c) "{indent}%conv_z{layer}_e = tensor.empty() : tensor<{k}x{cc}xf32>
{indent}%conv_z{layer} = linalg.fill ins(%c0f_conv_reset : f32) outs(%conv_z{layer}_e : tensor<{k}x{cc}xf32>) -> tensor<{k}x{cc}xf32>
{indent}util.global.store %conv_z{layer}, @conv_state{layer} : tensor<{k}x{cc}xf32>
")) (conv_layers c).

End Decoder.
