(* ===== verification/ParameterSymbols.v ===== *)
(** * The symbols of parameters

    What the lowering of parameters declares and refers to: the globals of a
    parameter, and the helper functions of the selected lowerings, each declared
    once for all the specifications that share its key. *)
From S2P Require Import Prelude Strings Errors Serde CoreTypes Ir KernelRegistry Encodings Names.
From S2P Require Import Mlir Symbols SymbolLogic Kernels CodegenSymbols Codegen Compiler Decoder.
From Stdlib Require Import ZArith Lia Ascii String.
From stdpp Require Import base list strings gmap.
From stdpp Require Import options.

Local Open Scope Z_scope.

(** Names in scope. *)
Ltac declared_name ::= cbn [name_text env_get String.eqb Ascii.eqb Bool.eqb]; solve [auto].

Section ParameterSymbols.
Context {SJ : SerdeJson} {ML : MlirApi}.
Context (encodings : list QuantizationDefinition).

Definition parameter_symbols (c : DenseDecoderConfig) (canonical symbol : string) : list string :=
  match encoded c canonical with
  | None => [symbol]
  | Some binding =>
      match definition encodings binding with Ok x => encoded_symbols x symbol | _ => [] end
  end.

(** Of an operation on a parameter in a mode. *)
Definition helper_of (c : DenseDecoderConfig) (canonical : string) (mode : ExecutionMode)
    (operation : ParameterLoweringOperation) : list string :=
  match encoded c canonical with
  | None => []
  | Some binding =>
      match definition encodings binding, param_lowering c canonical mode with
      | Ok x, Some lowering =>
          option_list (helper_name x {| pl_binding := binding; pl_lowering_id := lowering; pl_mode := mode;
                                        pl_operation := operation |})
      | _, _ => []
      end
  end.

Definition mode_helper (c : DenseDecoderConfig) (canonical : string) (binding : ParameterBinding)
    (x : Emitter) (mode : ExecutionMode) : list string :=
  match param_lowering c canonical mode, helper_operation c canonical binding mode with
  | Some lowering, Some operation =>
      option_list (helper_name x {| pl_binding := binding; pl_lowering_id := lowering; pl_mode := mode;
                                    pl_operation := operation |})
  | _, _ => []
  end.
Definition parameter_helpers (c : DenseDecoderConfig) (entry : string * ParameterBinding) : list string :=
  if is_plain entry.2 then []
  else
    match definition encodings entry.2 with
    | Ok x => mode_helper c entry.1 entry.2 x Prefill ++ mode_helper c entry.1 entry.2 x Decode
    | _ => []
    end.
Definition quantized_symbols (c : DenseDecoderConfig) : list string :=
  flat_map (parameter_helpers c) (btree_iter (dd_param_bindings c)).

(** The texts of keys can be quoted, and dimensions are not negative. *)
Record parameters_ok (c : DenseDecoderConfig) : Prop := {
  keys_quotable : forall canonical key, dd_param_keys c !! canonical = Some key -> is_quotable key;
  bindings_quotable : forall canonical binding,
    dd_param_bindings c !! canonical = Some binding -> quotable_keys binding;
  shapes_ok : forall canonical binding, dd_param_bindings c !! canonical = Some binding -> shape_ok binding;
}.

Lemma encoded_lookup c canonical binding :
  encoded c canonical = Some binding ->
  dd_param_bindings c !! canonical = Some binding /\ is_plain binding = false.
Proof.
  unfold encoded. destruct (dd_param_bindings c !! canonical) as [b|]; [|done].
  destruct (is_plain b) eqn:E; [done|]. by intros [= <-].
Qed.

Lemma required_scoped pre canonical requirement m adds :
  Scoped_when pre m adds -> Scoped pre (required canonical requirement m) adds.
Proof.
  intros H b [] b' Hb Hp. unfold required, mbind, emit_bind.
  destruct (m b) as [[ok b1]|e|s] eqn:E; cbn; try done. unfold lift. destruct ok; cbn; [|done].
  intros [= <-]. by apply H.
Qed.
Lemma required_refs R canonical requirement m : Refs R m any -> Refs R (required canonical requirement m) any.
Proof.
  intros H. unfold required. eapply Refs_bind; [exact H|]. intros done _.
  apply Refs_lift. done.
Qed.

Lemma mlir_ty_ident ty : is_ident (mlir_ty ty).
Proof. by destruct ty. Qed.
#[local] Hint Resolve mlir_ty_ident : ident.

Lemma emit_global_scoped pre c symbol canonical shape :
  parameters_ok c -> is_ident symbol -> is_ident canonical -> calm shape ->
  Scoped pre (emit_global encodings c symbol canonical shape) (parameter_symbols c canonical symbol).
Proof.
  intros Hc Hs Hn Ht. unfold emit_global, parameter_symbols.
  destruct (encoded c canonical) as [binding|] eqn:E.
  - apply Scoped_lift_then. intros x ->. apply required_scoped, external_globals_scoped; [done|].
    apply encoded_lookup in E as [E _]. by eapply bindings_quotable.
  - cbv zeta. apply Scoped_global_parameter; [done| |text].
    unfold param_key. destruct (dd_param_keys c !! canonical) eqn:E'; [by eapply keys_quotable|by apply ident_quotable].
Qed.

Lemma emit_load_refs (R : string -> Prop) c ssa symbol canonical shape :
  is_ident ssa -> is_ident symbol -> calm shape ->
  (forall n, n ∈ parameter_symbols c canonical symbol -> R n) ->
  Refs R (emit_load encodings c ssa symbol canonical shape) any.
Proof.
  intros Hv Hs Ht HR. unfold emit_load, parameter_symbols in *.
  destruct (encoded c canonical) as [binding|].
  - eapply Refs_bind; [refs|]. intros x Hx. rewrite Hx in HR.
    by apply required_refs, emit_parameter_load_refs.
  - assert (HR' : R symbol) by (apply HR; set_solver).
    assert (Hl : forall a b, Refs R (_ ← load_compute ssa symbol (mlir_ty a) (mlir_ty b) shape; mret tt) any).
    { intros a b. unfold load_compute. cbv zeta. pose proof (mlir_ty_ident a). pose proof (mlir_ty_ident b).
      eapply Refs_bind; [|intros; by apply Refs_ret]. refs. }
    cbv zeta. destruct (param_dtype c canonical), (param_compute_dtype c canonical);
      first [apply Hl|apply Refs_lift; done].
Qed.

(** ** Helpers *)

(** The helpers of the keys emitted so far are declared. *)
Definition keys_declared (emitted : gset string) (b : ModuleBuilder) : Prop :=
  forall x spec key name, key ∈ emitted -> shape_ok (pl_binding spec) ->
  helper_key x spec = Some key -> helper_name x spec = Some name -> name ∈ declared b.

Definition Helps (c : DenseDecoderConfig) (emitted : gset string) (m : Emit ModuleBuilder (gset string))
    (adds : list string) : Prop :=
  forall b emitted' b', module_ok b -> keys_declared emitted b -> m b = Ok (emitted', b') ->
  module_ok b' /\ declared b ⊆ declared b' /\ keys_declared emitted' b' /\ adds ⊆ declared b'.

Lemma Helps_ret c emitted : Helps c emitted (mret emitted) [].
Proof. intros b ? b' Hb Hk [= <- <-]. split; [done|]. split; [done|]. split; [done|apply list_subseteq_nil]. Qed.
Lemma Helps_bind c emitted m k adds adds' :
  Helps c emitted m adds -> (forall emitted', Helps c emitted' (k emitted') adds') ->
  Helps c emitted (m ≫= k) (adds ++ adds').
Proof.
  intros Hm Hk b e2 b2 Hb He. unfold mbind, emit_bind. destruct (m b) as [[e1 b1]|e|s] eqn:E; cbn; try done.
  intros Ek. destruct (Hm _ _ _ Hb He E) as (H1 & Hd1 & He1 & Ha1).
  destruct (Hk e1 _ _ _ H1 He1 Ek) as (H2 & Hd2 & He2 & Ha2). split; [done|]. split; [by etrans|].
  split; [done|]. apply list_subseteq_app_iff_l. split; [by etrans|done].
Qed.

Lemma Helps_lift {A} c emitted (r : Result A) k adds :
  (forall a, r = Ok a -> Helps c emitted (k a) adds) -> Helps c emitted (a ← lift r; k a) adds.
Proof.
  intros H b e1 b1 Hb He. unfold mbind, emit_bind, lift. destruct r as [a|e|s]; cbn; try done. by apply H.
Qed.

Lemma emit_mode_helper_helps c canonical binding x emitted mode :
  shape_ok binding ->
  Helps c emitted (emit_mode_helper c canonical binding x emitted mode) (mode_helper c canonical binding x mode).
Proof.
  intros Hs. unfold emit_mode_helper, mode_helper.
  destruct (param_lowering c canonical mode) as [lowering|]; [|apply Helps_ret].
  destruct (helper_operation c canonical binding mode) as [operation|]; [|apply Helps_ret]. cbv zeta.
  set (spec := {| pl_binding := binding; pl_lowering_id := lowering; pl_mode := mode; pl_operation := operation |}).
  destruct (helper_key x spec) as [key|] eqn:Ekey; [|by intros b e' b' _ _].
  intros b e' b' Hb Hk. case_bool_decide as Hin.
  { intros [= <- <-]. split; [done|]. split; [done|].
    assert (Hn : option_list (helper_name x spec) ⊆ declared b).
    { destruct (helper_name x spec) as [name|] eqn:Ename; [|apply list_subseteq_nil].
      intros n Hn%list_elem_of_singleton. subst n. by apply (Hk x spec key name). }
    split; [|done]. intros x' spec' key' name' Hkey'. apply elem_of_union in Hkey' as [Hkey'|Hkey'].
    - apply elem_of_singleton in Hkey' as ->. by apply Hk.
    - by apply (Hk x' spec' key').
  }
  unfold mbind, emit_bind. intros E.
  destruct (required canonical "selected helper" (emit_helper x spec) b) as [[u b1]|e|s] eqn:Er; cbn in E; try done.
  injection E as <- <-.
  assert (HS : Scoped [] (required canonical "selected helper" (emit_helper x spec)) (option_list (helper_name x spec))).
  { apply required_scoped. destruct (helper_name x spec) as [name|] eqn:Ename; [by apply emit_helper_scoped|].
    intros b2 b2' _ _ Ee. exfalso. revert Ee. clear -Ekey Ename. unfold helper_name in Ename.
    destruct x as [|layout|w]; cbn [emit_helper helper_key] in *; [done|..].
    - unfold block_helper_key in Ekey. by destruct (matrix_dims _) as [[]|].
    - unfold mlx_helper_key in Ekey. destruct (matrix_dims _) as [[]|]; [|done]. cbn in *.
      by destruct (mlx_group_size _). }
  destruct (HS _ _ _ Hb (list_subseteq_nil _) Er) as (H1 & Hd & Ha). split; [done|]. split; [done|]. split; [|done].
  intros x' spec' key' name' Hkey' Hs' Hk' Hn'. apply elem_of_union in Hkey' as [Hkey'|Hkey'].
  - apply elem_of_singleton in Hkey' as ->.
    pose proof (key_determines_name x' x spec' spec key name' Hs' Hs Hk' Ekey Hn') as Hname.
    apply Ha. rewrite Hname. apply list_elem_of_here.
  - apply Hd. by apply (Hk x' spec' key').
Qed.

Lemma emit_quantized_helpers_scoped pre c :
  parameters_ok c -> Scoped pre (emit_quantized_helpers encodings c) (quantized_symbols c).
Proof.
  intros Hc. unfold emit_quantized_helpers, quantized_symbols.
  assert (Hl : forall entry, entry ∈ btree_iter (dd_param_bindings c) -> shape_ok entry.2).
  { intros [k x] Hx%elem_of_btree_iter. by eapply shapes_ok. }
  assert (H : forall l emitted b b', (forall entry, entry ∈ l -> shape_ok entry.2) ->
    module_ok b -> keys_declared emitted b -> emit_helpers_of encodings c emitted l b = Ok (tt, b') ->
    module_ok b' /\ declared b ⊆ declared b' /\ flat_map (parameter_helpers c) l ⊆ declared b').
  { clear. induction l as [|[k x] l IH]; intros emitted b b' Hl Hb Hk; cbn [emit_helpers_of flat_map].
    { intros [= <-]. split; [done|]. split; [done|apply list_subseteq_nil]. }
    assert (He : Helps c emitted (emit_parameter_helpers encodings c emitted (k, x)) (parameter_helpers c (k, x))).
    { assert (Hx : shape_ok x) by apply (Hl (k, x)), list_elem_of_here.
      unfold emit_parameter_helpers, parameter_helpers. cbn [fst snd].
      destruct (is_plain x); [apply Helps_ret|].
      apply Helps_lift. intros d ->.
      apply Helps_bind; [by apply emit_mode_helper_helps|].
      intros emitted'. by apply emit_mode_helper_helps. }
    unfold mbind, emit_bind. destruct (emit_parameter_helpers _ _ _ _ b) as [[e1 b1]|e|s] eqn:E; cbn; try done.
    intros El. destruct (He _ _ _ Hb Hk E) as (H1 & Hd1 & Hk1 & Ha1).
    destruct (IH e1 b1 b') as (H2 & Hd2 & Ha2); [|done..|].
    { intros entry Hentry. apply Hl. by apply list_elem_of_further. }
    split; [done|]. split; [by etrans|]. apply list_subseteq_app_iff_l. split; [by etrans|done]. }
  intros b [] b' Hb _ E. eapply H; [exact Hl|exact Hb| |exact E]. intros x spec key name Hkey.
  by apply not_elem_of_empty in Hkey.
Qed.

(** ** Calls *)

Lemma selected_spec_ok c canonical requirement binding mode operation spec :
  selected_spec c canonical requirement binding mode operation = Ok spec ->
  exists lowering, param_lowering c canonical mode = Some lowering /\
    spec = {| pl_binding := binding; pl_lowering_id := lowering; pl_mode := mode; pl_operation := operation |}.
Proof. unfold selected_spec. destruct (param_lowering _ _ _) as [lowering|]; [|done]. intros [= <-]. eauto. Qed.

Lemma emit_linear_parameter_refs (R : string -> Prop) c result dense_function input_ssa parameter_ssa canonical mode
    rows input output :
  is_ident result -> is_ident dense_function -> is_ident input_ssa -> is_ident parameter_ssa ->
  R dense_function -> (forall n, n ∈ helper_of c canonical mode (LowerLinear rows) -> R n) ->
  Refs R (emit_linear_parameter encodings c result dense_function input_ssa parameter_ssa canonical mode
    rows input output) any.
Proof.
  intros H1 H2 H3 H4 Hd HR. unfold emit_linear_parameter, helper_of in *.
  destruct (encoded c canonical) as [binding|]; [|refs].
  eapply Refs_bind; [refs|intros spec (lowering & Hl & ->)%selected_spec_ok]. rewrite Hl in HR.
  eapply Refs_bind; [refs|intros x Hx]. rewrite Hx in HR.
  apply required_refs, emit_linear_call_refs; [done..|]. cbn [lc_lowering]. intros n Hn. apply HR.
  rewrite Hn. apply list_elem_of_here.
Qed.

Lemma emit_embedding_parameter_refs (R : string -> Prop) c result index_ssa parameter_ssa mode :
  is_ident result -> is_ident index_ssa -> is_ident parameter_ssa ->
  (forall n, n ∈ helper_of c "token_embd.weight" mode LowerEmbedding -> R n) ->
  Refs R (emit_embedding_parameter encodings c result index_ssa parameter_ssa mode) any.
Proof.
  intros H1 H2 H3 HR. unfold emit_embedding_parameter, helper_of in *.
  destruct (encoded c _) as [binding|]; [|by apply Refs_ret].
  eapply Refs_bind; [refs|intros spec (lowering & Hl & ->)%selected_spec_ok]. rewrite Hl in HR.
  eapply Refs_bind; [refs|intros x Hx]. rewrite Hx in HR.
  eapply Refs_bind; [|intros; by apply Refs_ret].
  apply required_refs, emit_embedding_call_refs; [done..|]. cbn [ec_lowering]. intros n Hn. apply HR.
  rewrite Hn. apply list_elem_of_here.
Qed.

Lemma emit_output_projection_refs (R : string -> Prop) c hidden_ssa parameter_ssa mode :
  is_ident hidden_ssa -> is_ident parameter_ssa ->
  (forall n, n ∈ helper_of c "output.weight" mode LowerOutputProjection -> R n) ->
  Refs R (emit_output_projection encodings c hidden_ssa parameter_ssa mode) any.
Proof.
  intros H1 H2 HR. unfold emit_output_projection, helper_of in *.
  destruct (encoded c _) as [binding|]; [|by apply Refs_ret].
  eapply Refs_bind; [refs|intros spec (lowering & Hl & ->)%selected_spec_ok]. rewrite Hl in HR.
  eapply Refs_bind; [refs|intros x Hx]. rewrite Hx in HR.
  eapply Refs_bind; [|intros _ _; refs].
  apply required_refs, emit_linear_call_refs; [done..|]. cbn [lc_lowering]. intros n Hn. apply HR.
  rewrite Hn. apply list_elem_of_here.
Qed.

(** The helpers that are emitted are the ones that are called. *)
Definition mode_rows (c : DenseDecoderConfig) (mode : ExecutionMode) : Z :=
  match mode with Prefill => dd_seq c | Decode => 1 end.
Definition operation_for (c : DenseDecoderConfig) (canonical : string) (mode : ExecutionMode)
    : ParameterLoweringOperation :=
  if String.eqb canonical "token_embd.weight" then LowerEmbedding
  else if String.eqb canonical "output.weight" then LowerOutputProjection
  else LowerLinear (mode_rows c mode).

Lemma helper_of_emitted c canonical mode :
  helper_of c canonical mode (operation_for c canonical mode) ⊆ quantized_symbols c.
Proof.
  unfold helper_of, quantized_symbols. intros n Hn.
  destruct (encoded c canonical) as [binding|] eqn:E; [|by apply elem_of_nil in Hn].
  apply encoded_lookup in E as [Hb Hp].
  destruct (definition encodings binding) as [x| |] eqn:Hx; [|by apply elem_of_nil in Hn..].
  destruct (param_lowering c canonical mode) as [lowering|] eqn:Hl; [|by apply elem_of_nil in Hn].
  apply list_elem_of_In, in_flat_map. exists (canonical, binding).
  split; [by apply list_elem_of_In, elem_of_btree_iter|]. apply list_elem_of_In.
  unfold parameter_helpers. cbn [fst snd]. rewrite Hp, Hx.
  assert (Hm : n ∈ mode_helper c canonical binding x mode).
  { unfold mode_helper. rewrite Hl.
    assert (Hrank : helper_operation c canonical binding mode = Some (operation_for c canonical mode)); [|by rewrite Hrank].
    unfold helper_operation, operation_for, mode_rows. destruct (String.eqb _ _); [done|].
    destruct (String.eqb _ _); [done|].
    unfold helper_name, matrix_dims in Hn. cbn [pl_binding] in Hn.
    destruct (pb_logical_shape binding) as [|a [|b [|]]]; try by apply elem_of_nil in Hn. done. }
  apply elem_of_app. destruct mode; [by left|by right].
Qed.
End ParameterSymbols.
