(* ===== verification/DecoderSymbols.v ===== *)
(** * The symbols of the decoder's shared emitters

    What the functions of a decoder may refer to - its parameters, the states
    of its convolutions, the helpers of its encoded parameters - as a record
    over a scope, and the shared emitters within it. *)
From S2P Require Import Prelude Strings Errors Serde CoreTypes Ir Encodings Names.
From S2P Require Import Mlir Symbols SymbolLogic Kernels CodegenSymbols Codegen Compiler.
From S2P Require Import Decoder ParameterSymbols Floats.
From Stdlib Require Import ZArith Lia Ascii String SpecFloat.
From stdpp Require Import base list strings gmap.
From stdpp Require Import options.

Local Open Scope Z_scope.

(** ** Rules *)

Section Rules.
Context {ML : MlirApi} (R : string -> Prop).

Lemma Refs_unless m k : Refs R m any -> Refs R k any -> Refs R (unless m k) any.
Proof.
  intros Hm Hk f [] f' Hf. unfold unless. destruct (m f) as [[[] f1]|e|s] eqn:E; cbn; try done.
  - intros [= <-]. by destruct (Hm _ _ _ Hf E) as (? & ? & ? & _).
  - intros Ek. destruct (Hm _ _ _ Hf E) as (H1 & Hn & Hp & _).
    destruct (Hk _ _ _ H1 Ek) as (H2 & Hn2 & Hp2 & _). by rewrite Hn2, Hp2.
Qed.
Lemma Refs_expecting {A} message (m : Emit FuncBuilder A) (Q : A -> Prop) :
  Refs R m Q -> Refs R (expecting message m) Q.
Proof.
  intros Hm f a f' Hf. unfold expecting. destruct (m f) as [[x f1]|e|s] eqn:E; try done.
  intros [= -> ->]. by apply (Hm _ _ _ Hf E).
Qed.
End Rules.

Section ScopedRules.
Context {ML : MlirApi}.

Lemma Scoped_option {A} pre (o : option A) (k : A -> Emit ModuleBuilder unit) adds :
  (forall a, o = Some a -> Scoped pre (k a) (adds a)) ->
  Scoped pre (match o with Some a => k a | None => mret tt end) (match o with Some a => adds a | None => [] end).
Proof. destruct o; intros H; [by apply H|apply Scoped_ret]. Qed.
Lemma Scoped_either {A} pre (b : bool) (m m' : Emit ModuleBuilder A) adds adds' :
  (b = true -> Scoped pre m adds) -> (b = false -> Scoped pre m' adds') ->
  Scoped pre (if b then m else m') (if b then adds else adds').
Proof. destruct b; auto. Qed.
Lemma Scoped_adds {A} pre (m : Emit ModuleBuilder A) adds adds' :
  Scoped pre m adds -> adds' ⊆ adds -> Scoped pre m adds'.
Proof. intros H Ha. by eapply Scoped_weaken. Qed.
End ScopedRules.

Create HintDb scoped.
#[export] Hint Extern 1 (Scoped _ (emit_linear _ _ _ _ _) _) => apply emit_linear_scoped; ident : scoped.
#[export] Hint Extern 1 (Scoped _ (emit_rms_norm _ _ _ _) _) => apply emit_rms_norm_scoped; ident : scoped.
#[export] Hint Extern 1 (Scoped _ (emit_rms_norm_heads _ _ _ _ _) _) => apply emit_rms_norm_heads_scoped; ident : scoped.
#[export] Hint Extern 1 (Scoped _ (emit_repeat_kv _ _ _ _ _ _) _) => apply emit_repeat_kv_scoped; ident : scoped.
#[export] Hint Extern 1 (Scoped _ (emit_iree_attention _ _ _ _ _ _) _) => apply emit_iree_attention_scoped; ident : scoped.
#[export] Hint Extern 1 (Scoped _ (emit_full_causal_mask _ _ _ _ _) _) => apply emit_full_causal_mask_scoped; ident : scoped.
#[export] Hint Extern 1 (Scoped _ (emit_online_attention_page _ _ _ _ _ _) _) => apply emit_online_attention_page_scoped; ident : scoped.
#[export] Hint Extern 1 (Scoped _ (emit_paged_causal_mask _ _ _ _ _) _) => apply emit_paged_causal_mask_scoped; ident : scoped.
#[export] Hint Extern 1 (Scoped _ (emit_rope_chunk _ _ _ _ _) _) => apply emit_rope_chunk_scoped; ident : scoped.
#[export] Hint Extern 1 (Scoped _ (emit_rope _ _ _ _ _) _) => apply emit_rope_scoped; ident : scoped.
#[export] Hint Extern 1 (Scoped _ (emit_rope_at _ _ _ _ _) _) => apply emit_rope_at_scoped; ident : scoped.
#[export] Hint Extern 1 (Scoped _ emit_add_smoke _) => apply emit_add_smoke_scoped : scoped.

(** The judgement [Scoped], by the structure of the emitter. *)
Ltac scoped :=
  cbv beta iota zeta;
  lazymatch goal with
  | |- Scoped _ (mbind _ (lift _)) _ => apply Scoped_lift_then; intros ? ?; scoped
  | |- Scoped _ (mbind _ _) _ => eapply Scoped_bind; [scoped|intros ?; scoped]
  | |- Scoped _ (mret tt) _ => apply Scoped_ret
  | |- Scoped _ (emit_if _ _) _ => apply Scoped_if; intros ?; scoped
  | |- Scoped _ (emit_each _ _) _ => eapply Scoped_each; intros ? ?; scoped
  | |- Scoped _ (match ?o with Some _ => _ | None => _ end) _ => eapply Scoped_option; intros ? ?; scoped
  | |- Scoped _ (if _ then _ else _) _ => eapply Scoped_either; intros ?; scoped
  | |- Scoped _ (func_private _ _) _ => unfold func_private; eapply Scoped_function; [ident|refs]
  | |- Scoped _ (func _ _) _ => unfold func; eapply Scoped_function; [ident|refs]
  | |- _ => solve [eauto with scoped]
  end.

(** ** Environments *)

Definition dims_kinds : kinds :=
  [("s", Ident); ("h", Ident); ("v", Ident); ("i", Ident); ("q", Ident); ("kv", Ident); ("nh", Ident);
   ("nkv", Ident); ("g", Ident); ("d", Ident); ("page", Ident); ("mk", Ident); ("cc", Ident); ("k", Ident);
   ("c3", Ident)].
Definition layer_kinds : kinds := [("layer", Ident); ("p", Ident); ("n", Ident)].

Section Environments.
Context {SJ : SerdeJson} {ML : MlirApi}.

Lemma dims_holds P c : env_holds P dims_kinds (dims c).
Proof. unfold dims, dims_kinds. holds. Qed.
Lemma layer_env_holds P layer : env_holds P layer_kinds (layer_env layer).
Proof. unfold layer_env, layer_kinds. holds. Qed.
Lemma attention_scale_ident c : is_ident (attention_scale c).
Proof. apply ident_fmt_exp. Qed.
End Environments.
#[export] Hint Resolve dims_holds layer_env_holds attention_scale_ident : ident.
#[export] Hint Extern 1 (Refs _ (unless _ _) _) => apply Refs_unless; refs : refs.
#[export] Hint Extern 1 (Refs _ (expecting _ _) _) => apply Refs_expecting; refs : refs.
#[export] Hint Extern 1 (Refs _ (args _) _) =>
  apply Refs_args; repeat (apply Forall_cons_2; [split; cbn [fst snd]; [ident|text]|]); apply Forall_nil_2 : refs.

(** Membership in a list whose elements are known. *)
Ltac member :=
  cbn [app fst snd];
  lazymatch goal with
  | |- _ ∈ _ :: _ => first [apply list_elem_of_here|apply list_elem_of_further; member]
  | |- _ ∈ _ ++ _ => apply elem_of_app; first [left; member|right; member]
  | H : ?b = true |- _ ∈ (if ?b then _ else _) => rewrite H; member
  | H : ?b = false |- _ ∈ (if ?b then _ else _) => rewrite H; member
  | |- _ => assumption
  end.

(** Names of the scope, which are in the context. *)
Ltac in_scope :=
  lazymatch goal with
  | H : ?g |- ?g => exact H
  | |- _ (if ?b then _ else _) => destruct b eqn:?; in_scope
  | |- _ => first [discriminate|solve [eauto]|unfold scope; member]
  end.
Ltac declared_name ::=
  cbn [name_text env_get app dims layer_env String.eqb Ascii.eqb Bool.eqb]; in_scope.

(** A fragment that is a template. *)
Ltac fragment :=
  eapply Scoped_adds; [eapply Scoped_append_fmt; [holds|reflexivity|vm_compute; reflexivity|]|];
  unfold Symbols.symbol_of, SymbolLogic.names;
  cbn [List.filter fmap list_fmap fst snd Bool.eqb name_text env_get app layer_env dims String.eqb Ascii.eqb].

(** ** What is in scope *)

Section DecoderSymbols.
Context {SJ : SerdeJson} {ML : MlirApi}.
Context (encodings : list QuantizationDefinition).

(** The parameters of a layer: the templates of symbol and canonical name. *)
Definition layer_weights (c : DenseDecoderConfig) (layer : Z) : list (string * string) :=
  ("{p}_attn_norm_weight", "{n}.attn_norm.weight") ::
  match layer_kind c layer with
  | AttentionLayer =>
      [("{p}_attn_q_weight", "{n}.attn_q.weight"); ("{p}_attn_k_weight", "{n}.attn_k.weight");
       ("{p}_attn_v_weight", "{n}.attn_v.weight"); ("{p}_attn_output_weight", "{n}.attn_output.weight")] ++
      (if dd_has_qk_norm c then
         [("{p}_attn_q_norm_weight", "{n}.attn_q_norm.weight"); ("{p}_attn_k_norm_weight", "{n}.attn_k_norm.weight")]
       else [])
  | ShortConvLayer =>
      [("{p}_shortconv_in_proj_weight", "{n}.shortconv.in_proj.weight");
       ("{p}_shortconv_conv_weight", "{n}.shortconv.conv.weight");
       ("{p}_shortconv_out_proj_weight", "{n}.shortconv.out_proj.weight")]
  end ++
  [("{p}_ffn_norm_weight", "{n}.ffn_norm.weight"); ("{p}_ffn_gate_weight", "{n}.ffn_gate.weight");
   ("{p}_ffn_up_weight", "{n}.ffn_up.weight"); ("{p}_ffn_down_weight", "{n}.ffn_down.weight")].
Definition weight_symbols (c : DenseDecoderConfig) (layer : Z) (t : string * string) : list string :=
  parameter_symbols encodings c (fmt (layer_env layer) t.2) (fmt (layer_env layer) t.1).
Definition conv_state (layer : Z) : string := String.append "conv_state" (num layer).
Definition conv_op (layer : Z) (mode : ExecutionMode) : string :=
  String.append "conv_op" (match mode with Prefill => num layer | Decode => String.append (num layer) "_tok" end).

Record parameters_in (R : string -> Prop) (c : DenseDecoderConfig) : Prop := {
  embedding_in : forall n, n ∈ parameter_symbols encodings c "token_embd.weight" "token_embd_weight" -> R n;
  output_norm_in : forall n, n ∈ parameter_symbols encodings c "output_norm.weight" "output_norm_weight" -> R n;
  output_in : forall n, n ∈ parameter_symbols encodings c "output.weight" "output_weight" -> R n;
  weights_in : forall layer t, layer ∈ layers c -> t ∈ layer_weights c layer ->
    forall n, n ∈ weight_symbols c layer t -> R n;
  conv_states_in : forall layer, layer ∈ conv_layers c -> R (conv_state layer);
}.
(** The helpers of a mode's encoded parameters. *)
Definition helpers_in (R : string -> Prop) (c : DenseDecoderConfig) (mode : ExecutionMode) : Prop :=
  forall canonical n, n ∈ helper_of encodings c canonical mode (operation_for c canonical mode) -> R n.

Lemma parameters_in_mono (R R' : string -> Prop) c :
  (forall n, R n -> R' n) -> parameters_in R c -> parameters_in R' c.
Proof. intros H [H1 H2 H3 H4 H5]. split; eauto. Qed.

(** The functions of a mode that every layer calls. *)
Definition mode_name (mode : ExecutionMode) (base : string) : string :=
  match mode with Prefill => base | Decode => String.append base "_tok" end.
Record functions_in (R : string -> Prop) (c : DenseDecoderConfig) (mode : ExecutionMode) : Prop := {
  dense_in : forall base, base ∈ ["rms_norm"; "linear_hq"; "linear_hkv"; "linear_qh"; "linear_hi"; "linear_ih"] ->
    R (mode_name mode base);
  conv_dense_in : has_short_conv c = true -> forall base, base ∈ ["linear_h_c3"; "linear_c_h"] -> R (mode_name mode base);
  conv_op_in : forall layer, layer ∈ conv_layers c -> R (conv_op layer mode);
}.

(** ** Loads and products *)

Definition load_ok (R : string -> Prop) (c : DenseDecoderConfig) (e : env)
    (l : string * string * string * string) : Prop :=
  let '(ssa, sym, canonical, shape) := l in
  is_ident (fmt e ssa) /\ is_ident (fmt e sym) /\ calm (fmt e shape) /\
  forall n, n ∈ parameter_symbols encodings c (fmt e canonical) (fmt e sym) -> R n.
Lemma emit_loads_refs R c e l : Forall (load_ok R c e) l -> Refs R (emit_loads encodings c e l) any.
Proof.
  intros H. unfold emit_loads. apply Refs_each. intros [[[ssa sym] canonical] shape] Hx.
  rewrite Forall_forall in H. destruct (H _ Hx) as (H1 & H2 & H3 & H4).
  apply Refs_expecting. by apply emit_load_refs.
Qed.

Lemma operation_for_linear c canonical mode :
  String.eqb canonical "token_embd.weight" = false -> String.eqb canonical "output.weight" = false ->
  operation_for c canonical mode = LowerLinear (mode_rows c mode).
Proof. unfold operation_for. by intros -> ->. Qed.

(** The canonical name of a layer's parameter is none of the others. *)
Lemma layer_canonical layer s :
  String.eqb (String.append "blk." (String.append (num layer) s)) "token_embd.weight" = false /\
  String.eqb (String.append "blk." (String.append (num layer) s)) "output.weight" = false.
Proof. done. Qed.

Lemma emit_linear_call_in (R : string -> Prop) c result dense_fn x w canonical s in_dim out_dim :
  let mode := if ends_with "_tok" dense_fn then Decode else Prefill in
  is_ident result -> is_ident dense_fn -> is_ident x -> is_ident w -> R dense_fn ->
  String.eqb canonical "token_embd.weight" = false -> String.eqb canonical "output.weight" = false ->
  s = mode_rows c mode -> helpers_in R c mode ->
  Refs R (Decoder.emit_linear_call encodings c result dense_fn x w canonical s in_dim out_dim) any.
Proof.
  intros mode H1 H2 H3 H4 Hd Ht Ho -> HR. unfold Decoder.emit_linear_call. cbv zeta. fold mode.
  apply Refs_expecting, emit_linear_parameter_refs; [done..|]. intros n Hn. apply (HR canonical).
  by rewrite operation_for_linear.
Qed.

Lemma layer_load (R : string -> Prop) c layer t sym canonical :
  parameters_in R c -> layer ∈ layers c -> t ∈ layer_weights c layer ->
  fmt (layer_env layer) t.1 = sym -> fmt (layer_env layer) t.2 = canonical ->
  forall n, n ∈ parameter_symbols encodings c canonical sym -> R n.
Proof. intros Hp Hl Ht <- <-. by apply (weights_in _ _ Hp). Qed.

(** ** The short convolution *)

Lemma layer_conv c layer : layer ∈ conv_layers c <-> layer ∈ layers c /\ layer_kind c layer = ShortConvLayer.
Proof. unfold conv_layers. by rewrite bool_filter_elem, bool_decide_eq_true. Qed.

Lemma conv_weight_name layer :
  fmt (layer_env layer) "{p}_shortconv_conv_weight" = fmt [("layer", num layer)] "blk{layer}_shortconv_conv_weight" /\
  fmt (layer_env layer) "{n}.shortconv.conv.weight" = fmt [("layer", num layer)] "blk.{layer}.shortconv.conv.weight".
Proof.
  unfold layer_env. rewrite !fmt_name. cbn. rewrite <-?append_assoc, ?append_nil_r.
  cbn. rewrite <-?append_assoc, ?append_nil_r. cbn. done.
Qed.

Lemma conv_op_ident layer mode : is_ident (conv_op layer mode).
Proof. unfold conv_op. destruct mode; ident. Qed.

Lemma layer_kind_conv c layer : layer_kind c layer = ShortConvLayer -> has_short_conv c = true.
Proof.
  unfold layer_kind, has_short_conv. intros H. apply existsb_exists.
  destruct (dd_resolved_layer_types c !! layer) as [k|] eqn:E; [|done]. exists (layer, k).
  split; [by apply list_elem_of_In, elem_of_map_to_list|]. cbn in *. by rewrite H.
Qed.

Lemma emit_conv_op_scoped pre c layer mode :
  parameters_in (scope pre) c -> layer ∈ conv_layers c ->
  Scoped pre (emit_conv_op encodings c layer mode) [conv_op layer mode].
Proof.
  intros Hp Hl. pose proof (conv_states_in _ _ Hp _ Hl) as Hstate. unfold conv_state in Hstate.
  apply layer_conv in Hl as [Hl Hk].
  unfold emit_conv_op, func_private. cbv zeta.
  match goal with |- Scoped _ (emit_function _ ?name _) _ => assert (Hn : name = conv_op layer mode) end.
  { unfold conv_op. rewrite fmt_name. cbn. destruct mode; cbn; by rewrite ?append_nil_r. }
  rewrite Hn. eapply Scoped_function; [apply conv_op_ident|].
  eapply Refs_bind; [refs|stepped]. eapply Refs_bind; [refs|stepped].
  eapply Refs_bind; [apply emit_loads_refs|stepped].
  { apply Forall_cons_2; [|apply Forall_nil_2]. cbn [load_ok]. split; [ident|]. split; [ident|]. split; [text|].
    apply (layer_load _ _ layer ("{p}_shortconv_conv_weight", "{n}.shortconv.conv.weight")); [done..| | |].
    - unfold layer_weights; rewrite Hk. member.
    - apply conv_weight_name.
    - apply conv_weight_name. }
  eapply Refs_bind; [apply Refs_op_asm; text|stepped].
  destruct mode; cbn [bool_decide decide]; destruct (dd_conv_kernel c =? 1); refs.
Qed.

(** A scope that extends another. *)
Lemma parameters_in_app pre adds c : parameters_in (scope pre) c -> parameters_in (scope (pre ++ adds)) c.
Proof. apply parameters_in_mono. unfold scope. intros n Hn. apply elem_of_app. by left. Qed.
Lemma helpers_in_app pre adds c mode : helpers_in (scope pre) c mode -> helpers_in (scope (pre ++ adds)) c mode.
Proof. intros H canonical n Hn. apply elem_of_app. left. by apply (H canonical). Qed.

(** ** The output projection and the embedding *)

Lemma emit_output_proj_refs (R : string -> Prop) c hidden_ssa weight_ssa mode :
  is_ident hidden_ssa -> is_ident weight_ssa -> helpers_in R c mode ->
  Refs R (emit_output_proj encodings c hidden_ssa weight_ssa mode) any.
Proof.
  intros H1 H2 HR. unfold emit_output_proj. apply Refs_unless; [|refs].
  apply Refs_expecting, emit_output_projection_refs; [done..|]. apply (HR "output.weight").
Qed.
Lemma emit_embedding_refs (R : string -> Prop) c result index_ssa parameter_ssa mode :
  is_ident result -> is_ident index_ssa -> is_ident parameter_ssa -> helpers_in R c mode ->
  Refs R (emit_embedding_parameter encodings c result index_ssa parameter_ssa mode) any.
Proof.
  intros H1 H2 H3 HR. apply emit_embedding_parameter_refs; [done..|]. apply (HR "token_embd.weight").
Qed.

(** ** The states of the convolutions *)

Lemma conv_state_name layer : fmt [("layer", num layer)] "conv_state{layer}" = conv_state layer.
Proof. by rewrite fmt_name. Qed.
Lemma conv_state_ident layer : is_ident (conv_state layer).
Proof. unfold conv_state. ident. Qed.

Lemma emit_conv_state_globals_scoped pre c :
  Scoped pre (emit_conv_state_globals c) (flat_map (fun layer => [conv_state layer]) (conv_layers c)).
Proof.
  unfold emit_conv_state_globals. apply Scoped_each. intros layer _. rewrite conv_state_name.
  apply Scoped_global_zero; [apply conv_state_ident|text].
Qed.

Lemma emit_zero_conv_states_refs (R : string -> Prop) c indent :
  calm indent -> (forall layer, layer ∈ conv_layers c -> R (conv_state layer)) ->
  Refs R (emit_zero_conv_states c indent) any.
Proof.
  intros Hi HR. unfold emit_zero_conv_states. destruct (negb _); [by apply Refs_ret|].
  eapply Refs_bind; [refs|stepped]. apply Refs_each. intros layer Hl. specialize (HR layer Hl).
  unfold conv_state in HR. refs.
Qed.
End DecoderSymbols.
(** The loads of parameters in scope. *)
Ltac same_text :=
  read_templates; cbn [render env_get app layer_env dims String.eqb Ascii.eqb Bool.eqb]; reflexivity.
Ltac load_in :=
  lazymatch goal with
  | Hp : parameters_in _ _ ?c |- forall n, n ∈ parameter_symbols _ _ (fmt _ ?canonical) (fmt _ ?sym) -> _ =>
      lazymatch canonical with
      | "token_embd.weight"%string => exact (embedding_in _ _ _ Hp)
      | "output_norm.weight"%string => exact (output_norm_in _ _ _ Hp)
      | "output.weight"%string => exact (output_in _ _ _ Hp)
      | _ =>
          lazymatch goal with
          | Hl : ?layer ∈ layers c |- _ =>
              apply (layer_load _ _ c layer (sym, canonical) _ _ Hp Hl); [|same_text|same_text];
              unfold layer_weights;
              lazymatch goal with Hk : layer_kind c layer = _ |- _ => rewrite Hk | _ => idtac end; member
          end
      end
  end.
Ltac loads :=
  apply emit_loads_refs;
  repeat (apply Forall_cons_2;
    [cbn [load_ok]; split; [ident|]; split; [ident|]; split; [text|]; load_in|]);
  apply Forall_nil_2.
#[export] Hint Extern 1 (Refs _ (emit_loads _ _ _ _) _) => loads : refs.

(** A product of a mode whose helpers are in scope. *)
Ltac helpers_of :=
  match goal with H : helpers_in _ _ ?c ?mode |- helpers_in _ _ ?c ?mode' => unify mode' mode; exact H end.
#[export] Hint Extern 1 (Refs _ (Decoder.emit_linear_call _ _ _ _ _ _ _ _ _ _) _) =>
  apply emit_linear_call_in; [ident|ident|ident|ident|in_scope|reflexivity|reflexivity|reflexivity|helpers_of] : refs.
#[export] Hint Extern 1 (Refs _ (emit_embedding_parameter _ _ _ _ _ _) _) =>
  apply emit_embedding_refs; [ident|ident|ident|helpers_of] : refs.
#[export] Hint Extern 1 (Refs _ (emit_output_proj _ _ _ _ _) _) =>
  apply emit_output_proj_refs; [ident|ident|helpers_of] : refs.

(** The functions of a mode, in the context. *)
Ltac functions Hf :=
  pose proof (dense_in _ _ _ Hf "rms_norm" ltac:(member));
  pose proof (dense_in _ _ _ Hf "linear_hq" ltac:(member));
  pose proof (dense_in _ _ _ Hf "linear_hkv" ltac:(member));
  pose proof (dense_in _ _ _ Hf "linear_qh" ltac:(member));
  pose proof (dense_in _ _ _ Hf "linear_hi" ltac:(member));
  pose proof (dense_in _ _ _ Hf "linear_ih" ltac:(member)).
(** And those of a convolution. *)
Ltac convolution Hf Hl Hk :=
  pose proof (conv_dense_in _ _ _ Hf (layer_kind_conv _ _ Hk) "linear_h_c3" ltac:(member));
  pose proof (conv_dense_in _ _ _ Hf (layer_kind_conv _ _ Hk) "linear_c_h" ltac:(member));
  pose proof (conv_op_in _ _ _ Hf _ (proj2 (layer_conv _ _) (conj Hl Hk))).

#[export] Hint Extern 1 (Refs _ (emit_zero_conv_states _ _) _) =>
  lazymatch goal with Hp : parameters_in _ _ _ |- _ => apply emit_zero_conv_states_refs; [text|exact (conv_states_in _ _ _ Hp)] end : refs.

Ltac extended := repeat first [apply parameters_in_app|apply helpers_in_app]; assumption.
#[export] Hint Extern 1 (Scoped _ (emit_conv_op _ _ _ _) _) =>
  apply emit_conv_op_scoped; [extended|assumption] : scoped.
#[export] Hint Extern 1 (Scoped _ (emit_conv_state_globals _) _) => apply emit_conv_state_globals_scoped : scoped.
