(* ===== verification/PagedDecoder.v ===== *)
(** * The paged decoder: lowering/dense_decoder.rs, [emit_paged_decoder]

    One chunk of tokens over a packed cache of keys and values: the entry
    function and the private functions it calls, for prefill and for decode. *)
From S2P Require Import Prelude Strings Errors Serde CoreTypes Ir Encodings Coverage.
From S2P Require Import Mlir Kernels Codegen Compiler Decoder.
From Stdlib Require Import ZArith Lia Ascii String.
From stdpp Require Import base list strings gmap.
From stdpp Require Import options.

Local Open Scope Z_scope.

(** [PagedVariant]: the prefill or the decode functions. *)
Record PagedVariant := { pv_decode : bool }.
Definition variant_function (v : PagedVariant) (base : string) : string :=
  if pv_decode v then fmt [("base", base)] "decode_{base}" else base.
Definition variant_helper (v : PagedVariant) (base : string) : string :=
  if pv_decode v then fmt [("base", base)] "{base}_tok" else base.
Definition variant_global (v : PagedVariant) (base : string) : string :=
  if pv_decode v then fmt [("base", base)] "paged_decode_{base}" else fmt [("base", base)] "paged_{base}".
Definition variant_mode (v : PagedVariant) : ExecutionMode := if pv_decode v then Decode else Prefill.

Section Paged.
Context {SJ : SerdeJson} {ML : MlirApi}.
Context (encodings : list QuantizationDefinition).

Abbreviation Function := (Emit FuncBuilder).
Abbreviation Program := (Emit ModuleBuilder).

(** [c.max_kv.div_ceil(c.page_size).max(1)] *)
Definition num_pages (c : DenseDecoderConfig) : Result Z :=
  if dd_page_size c =? 0 then Panic "attempt to divide by zero"
  else Ok (Z.max (div_ceil (dd_max_kv c) (dd_page_size c)) 1).

(** What the texts of the paged functions mention. *)
Record PagedNames := {
  pn_pages : Z;
  pn_kv_len : Z;
  pn_kv_elem : string;
}.
Definition paged_names (c : DenseDecoderConfig) : Result PagedNames :=
  pages ← num_pages c;
  kv_elem ← paged_kv_elem_asm c;
  Ok {| pn_pages := pages; pn_kv_len := saturating_mul32 pages (dd_page_size c); pn_kv_elem := kv_elem |}.
Definition paged_env (c : DenseDecoderConfig) (p : PagedNames) : env :=
  [("num_pages", num (pn_pages p)); ("kv_len", num (pn_kv_len p)); ("kv_elem", pn_kv_elem p)] ++ dims c.

Definition emit_paged_page_clone (c : DenseDecoderConfig) (variant : PagedVariant) : Program unit :=
  p ← lift (paged_names c);
  let n := paged_env c p in
  append_toplevel_asm (fmt
    ([("kv1_ty", fmt n "tensor<1x2x{page}x{nkv}x{d}x{kv_elem}>"); ("kv_ty", fmt n "tensor<2x{page}x{nkv}x{d}x{kv_elem}>"); ("k1_ty", fmt n "tensor<1x{page}x{nkv}x{d}x{kv_elem}>"); ("seq_ty", fmt n "tensor<{page}x{nkv}x{d}x{kv_elem}>");
      ("pkv_ty", fmt n "tensor<{nkv}x{page}x{d}x{kv_elem}>"); ("k_ty", fmt n "tensor<{nkv}x{kv_len}x{d}x{kv_elem}>");
      ("hist_pages", variant_function variant "hist_pages");
      ("packed_extract", variant_function variant "packed_extract");
      ("page_to_kv", variant_function variant "page_to_kv")] ++ n) "func.func private @{hist_pages}(%start_pos: tensor<i64>, %valid: tensor<i64>) -> tensor<i64> attributes {{noinline}} {{
  %start64 = tensor.extract %start_pos[] : tensor<i64>
  %valid64 = tensor.extract %valid[] : tensor<i64>
  %end64 = arith.addi %start64, %valid64 : i64
  %ps64 = arith.constant {page} : i64
  %hi_raw = arith.ceildivui %end64, %ps64 : i64
  %np64 = arith.constant {num_pages} : i64
  %hi = arith.minui %hi_raw, %np64 : i64
  %e = tensor.empty() : tensor<i64>
  %t = tensor.insert %hi into %e[] : tensor<i64>
  return %t : tensor<i64>
}}
func.func private @{packed_extract}(%k: {k_ty}, %v: {k_ty}, %pi: index) -> {kv1_ty} attributes {{noinline}} {{
  %c0 = arith.constant 0 : index
  %page_size = arith.constant {page} : index
  %off = arith.muli %pi, %page_size : index
  %kp = tensor.extract_slice %k[%c0, %off, %c0] [{nkv}, {page}, {d}] [1, 1, 1] : {k_ty} to {pkv_ty}
  %vp = tensor.extract_slice %v[%c0, %off, %c0] [{nkv}, {page}, {d}] [1, 1, 1] : {k_ty} to {pkv_ty}
  %kse = tensor.empty() : {seq_ty}
  %vse = tensor.empty() : {seq_ty}
  %kseq = linalg.transpose ins(%kp : {pkv_ty}) outs(%kse : {seq_ty}) permutation = [1, 0, 2]
  %vseq = linalg.transpose ins(%vp : {pkv_ty}) outs(%vse : {seq_ty}) permutation = [1, 0, 2]
  %k1 = tensor.expand_shape %kseq [[0, 1], [2], [3]] output_shape [1, {page}, {nkv}, {d}] : {seq_ty} into {k1_ty}
  %v1 = tensor.expand_shape %vseq [[0, 1], [2], [3]] output_shape [1, {page}, {nkv}, {d}] : {seq_ty} into {k1_ty}
  %kv_e = tensor.empty() : {kv_ty}
  %kv_k = tensor.insert_slice %k1 into %kv_e[0, 0, 0, 0] [1, {page}, {nkv}, {d}] [1, 1, 1, 1] : {k1_ty} into {kv_ty}
  %kv = tensor.insert_slice %v1 into %kv_k[1, 0, 0, 0] [1, {page}, {nkv}, {d}] [1, 1, 1, 1] : {k1_ty} into {kv_ty}
  %kv1 = tensor.expand_shape %kv [[0, 1], [2], [3], [4]] output_shape [1, 2, {page}, {nkv}, {d}] : {kv_ty} into {kv1_ty}
  %e = tensor.empty() : {kv1_ty}
  %c = linalg.copy ins(%kv1 : {kv1_ty}) outs(%e : {kv1_ty}) -> {kv1_ty}
  return %c : {kv1_ty}
}}
func.func private @{page_to_kv}(%kv1: {kv1_ty}) -> ({pkv_ty}, {pkv_ty}) attributes {{noinline}} {{
  %kv = tensor.collapse_shape %kv1 [[0, 1], [2], [3], [4]] : {kv1_ty} into {kv_ty}
  %ks = tensor.extract_slice %kv[0, 0, 0, 0] [1, {page}, {nkv}, {d}] [1, 1, 1, 1] : {kv_ty} to {k1_ty}
  %vs = tensor.extract_slice %kv[1, 0, 0, 0] [1, {page}, {nkv}, {d}] [1, 1, 1, 1] : {kv_ty} to {k1_ty}
  %kseq = tensor.collapse_shape %ks [[0, 1], [2], [3]] : {k1_ty} into {seq_ty}
  %vseq = tensor.collapse_shape %vs [[0, 1], [2], [3]] : {k1_ty} into {seq_ty}
  %ke = tensor.empty() : {pkv_ty}
  %ve = tensor.empty() : {pkv_ty}
  %k = linalg.transpose ins(%kseq : {seq_ty}) outs(%ke : {pkv_ty}) permutation = [1, 0, 2]
  %v = linalg.transpose ins(%vseq : {seq_ty}) outs(%ve : {pkv_ty}) permutation = [1, 0, 2]
  return %k, %v : {pkv_ty}, {pkv_ty}
}}
").

(** ** The operations of one fused attention layer *)

(** The page of write [w], in the latest state earlier writes gave it. *)
Fixpoint reuse_pages (fuel : nat) (e : env) (p w kv1_ty src_ssa : string) (prev : Z) : string * string :=
  match fuel with
  | O => (EmptyString, src_ssa)
  | S fuel =>
      let next_ssa := fmt [("p", p); ("w", w); ("", num (prev + 1))] "{p}kv1_s_w{w}_{}" in
      let text := fmt [("p", p); ("w", w); ("prev", num prev); ("next_ssa", next_ssa);
                       ("src_ssa", src_ssa); ("kv1_ty", kv1_ty)] "  %{p}same_w{w}_p{prev} = arith.cmpi eq, %{p}pi_w{w}_c, %{p}pi_w{prev}_c : index
  %{next_ssa} = scf.if %{p}same_w{w}_p{prev} -> ({kv1_ty}) {{
    scf.yield %{p}kv1o_w{prev} : {kv1_ty}
  }} else {{
    scf.yield %{src_ssa} : {kv1_ty}
  }}
" in
      let '(rest, last) := reuse_pages fuel e p w kv1_ty next_ssa (prev + 1) in
      (String.append text rest, last)
  end.
Definition write_page (e : env) (p kv1_ty : string) (w : nat) : string :=
  let e := ("w", num (Z.of_nat w)) :: e in
  let src_ssa := fmt e "{p}kv1_s_w{w}_0" in
  let '(reuse, src_ssa) := reuse_pages w e p (num (Z.of_nat w)) kv1_ty src_ssa 0 in
  String.append (fmt e "  %{p}pi_w{w} = arith.addi %{p}page_lo, %{p}c{w}_w : index
  %{p}pi_w{w}_c = arith.minui %{p}pi_w{w}, %{p}nlast : index
  %{p}pi_i64_w{w} = arith.index_cast %{p}pi_w{w}_c : index to i64
  %{p}pi_e_w{w} = tensor.empty() : tensor<i64>
  %{p}pi_t_w{w} = tensor.insert %{p}pi_i64_w{w} into %{p}pi_e_w{w}[] : tensor<i64>
  %{p}kv1_s_w{w}_0 = func.call @{packed_extract}(%{k_in}, %{v_in}, %{p}pi_w{w}_c) : ({k_ty}, {k_ty}, index) -> {kv1_ty}
")
    (String.append reuse (fmt (("src_ssa", src_ssa) :: e) "  %{p}kv_w{w} = tensor.collapse_shape %{src_ssa} [[0, 1], [2], [3], [4]] : {kv1_ty} into {kv_ty}
  %{p}kv2_w{w} = func.call @{layer_store}(%{p}kv_w{w}, %{p}pi_t_w{w}, %start_pos, %{p}chunk_k, %{p}chunk_v, %valid) : ({kv_ty}, tensor<i64>, tensor<i64>, {kv3_ty}, {kv3_ty}, tensor<i64>) -> ({kv_ty})
  %{p}kv1o_w{w} = tensor.expand_shape %{p}kv2_w{w} [[0, 1], [2], [3], [4]] output_shape [1, 2, {page}, {nkv}, {d}] : {kv_ty} into {kv1_ty}
")).

(** [rec]: the page to attend to, the written one when there is one. *)
Fixpoint select_page (fuel : nat) (w : Z) (kv1_ty : string) (indent : nat) (p : string) : string * string :=
  let pad := String.concat EmptyString (repeat " " indent) in
  match fuel with
  | O => (EmptyString, fmt [("p", p)] "{p}kv1_pg")
  | S fuel =>
      let '(inner, inner_ssa) := select_page fuel (w + 1) kv1_ty (indent + 2) p in
      let ssa := if w =? 0 then fmt [("p", p)] "{p}kv1a" else fmt [("p", p); ("w", num w)] "{p}sel_w{w}" in
      (fmt [("pad", pad); ("p", p); ("w", num w); ("ssa", ssa); ("kv1_ty", kv1_ty); ("inner", inner);
            ("inner_ssa", inner_ssa)] "{pad}%{p}eq_w{w} = arith.cmpi eq, %{p}pi, %{p}pi_w{w}_c : index
{pad}%{ssa} = scf.if %{p}eq_w{w} -> ({kv1_ty}) {{
{pad}  scf.yield %{p}kv1o_w{w} : {kv1_ty}
{pad}}} else {{
{inner}{pad}  scf.yield %{inner_ssa} : {kv1_ty}
{pad}}}
", ssa)
  end.

(** The written pages packed back, and the names of the packed tensors. *)
Fixpoint pack_pages (fuel : nat) (e : env) (w : Z) (k_ssa v_ssa : string) : string * string * string :=
  match fuel with
  | O => (EmptyString, k_ssa, v_ssa)
  | S fuel =>
      let e' := ("w", num w) :: e in
      let next_k := fmt e' "{p}k_w{w}" in
      let next_v := fmt e' "{p}v_w{w}" in
      let text := fmt ([("next_k", next_k); ("next_v", next_v); ("k_ssa", k_ssa); ("v_ssa", v_ssa)] ++ e') "  %{p}kp_w{w}, %{p}vp_w{w} = func.call @{page_to_kv}(%{p}kv1o_w{w}) : ({kv1_ty}) -> ({pkv_ty}, {pkv_ty})
  %{p}off_w{w} = arith.muli %{p}pi_w{w}_c, %{p}page_size_idx : index
  %{next_k} = tensor.insert_slice %{p}kp_w{w} into %{k_ssa}[0, %{p}off_w{w}, 0] [{nkv}, {page}, {d}] [1, 1, 1] : {pkv_ty} into {k_ty}
  %{next_v} = tensor.insert_slice %{p}vp_w{w} into %{v_ssa}[0, %{p}off_w{w}, 0] [{nkv}, {page}, {d}] [1, 1, 1] : {pkv_ty} into {k_ty}
" in
      let '(rest, k_ssa, v_ssa) := pack_pages fuel e (w + 1) next_k next_v in
      (String.append text rest, k_ssa, v_ssa)
  end.

Definition paged_fused_attn_ops (c : DenseDecoderConfig) (variant : PagedVariant) (layer : Z)
    (k_in v_in p : string) : Result (string * string * string) :=
  names ← paged_names c;
  max_writes ← paged_max_writes (dd_seq c) (dd_page_size c);
  let n := paged_env c names in
  let f := variant_function variant in
  let t :=
    [("p", p); ("k_in", k_in); ("v_in", v_in); ("nlast", num (saturating_sub (pn_pages names) 1));
     ("kv1_ty", fmt n "tensor<1x2x{page}x{nkv}x{d}x{kv_elem}>"); ("kv_ty", fmt n "tensor<2x{page}x{nkv}x{d}x{kv_elem}>"); ("qg_ty", fmt n "tensor<{nkv}x{g}x{s}x{d}xf32>"); ("kv3_ty", fmt n "tensor<{s}x{nkv}x{d}xf32>");
     ("row_ty", fmt n "tensor<{nkv}x{g}x{s}xf32>"); ("k_ty", fmt n "tensor<{nkv}x{kv_len}x{d}x{kv_elem}>"); ("pkv_ty", fmt n "tensor<{nkv}x{page}x{d}x{kv_elem}>"); ("mask_full_ty", fmt n "tensor<{nkv}x{g}x{s}x{kv_len}xi1>");
     ("prepare", f (fmt [("layer", num layer)] "layer_prepare_{layer}")); ("finish", f (fmt [("layer", num layer)] "layer_finish_{layer}"));
     ("layer_store", f "layer_store"); ("layer_page", f "layer_page");
     ("packed_extract", f "packed_extract"); ("hist_pages", f "hist_pages"); ("page_to_kv", f "page_to_kv");
     ("attention", variant_helper variant "iree_attention");
     ("full_mask", variant_helper variant "full_causal_mask");
     ("scale:.8e", attention_scale c)] ++ n in
  let kv1_ty := fmt n "tensor<1x2x{page}x{nkv}x{d}x{kv_elem}>" in
  let count := Z.to_nat max_writes in
  let write_consts := concat_strings ((fun w => fmt (("w", num (Z.of_nat w)) :: t) "  %{p}c{w}_w = arith.constant {w} : index
") <$> seq 0 count) in
  let writes := concat_strings (write_page t p kv1_ty <$> seq 0 count) in
  let '(select, sel_ssa) := select_page count 0 kv1_ty 4 p in
  let '(pack, k_ssa, v_ssa) := pack_pages count t 0 k_in v_in in
  let blocks := [("select", select); ("sel_ssa", sel_ssa); ("pack", pack); ("k_ssa", k_ssa);
                 ("v_ssa", v_ssa)] in
  let attn_body :=
    if use_iree_attention c then fmt (blocks ++ t) "{pack}  %{p}mask_full = func.call @{full_mask}(%start_pos, %valid) : (tensor<i64>, tensor<i64>) -> {mask_full_ty}
  %{p}scale = arith.constant {scale:.8e} : f16
  %{p}out_f = func.call @{attention}(%{p}query, %{k_ssa}, %{v_ssa}, %{p}scale, %{p}mask_full, %{p}out_0) : ({qg_ty}, {k_ty}, {k_ty}, f16, {mask_full_ty}, {qg_ty}) -> {qg_ty}
  %{p}one = arith.constant 1.0 : f32
  %{p}sum_e = tensor.empty() : {row_ty}
  %{p}sum_f = linalg.fill ins(%{p}one : f32) outs(%{p}sum_e : {row_ty}) -> {row_ty}
"
    else fmt (blocks ++ t) "  %{p}out_f, %{p}max_f, %{p}sum_f = scf.for %{p}pi = %{p}c0_page to %{p}page_hi step %{p}c1_page iter_args(%{p}out_i = %{p}out_0, %{p}max_i = %{p}max_0, %{p}sum_i = %{p}sum_0) -> ({qg_ty}, {row_ty}, {row_ty}) {{
    %{p}pi_i64 = arith.index_cast %{p}pi : index to i64
    %{p}pi_e = tensor.empty() : tensor<i64>
    %{p}pi_t = tensor.insert %{p}pi_i64 into %{p}pi_e[] : tensor<i64>
    %{p}kv1_pg = func.call @{packed_extract}(%{k_in}, %{v_in}, %{p}pi) : ({k_ty}, {k_ty}, index) -> {kv1_ty}
{select}    %{p}kva = tensor.collapse_shape %{sel_ssa} [[0, 1], [2], [3], [4]] : {kv1_ty} into {kv_ty}
    %{p}out_n, %{p}max_n, %{p}sum_n = func.call @{layer_page}(%{p}kva, %{p}pi_t, %start_pos, %{p}query, %valid, %{p}out_i, %{p}max_i, %{p}sum_i) : ({kv_ty}, tensor<i64>, tensor<i64>, {qg_ty}, tensor<i64>, {qg_ty}, {row_ty}, {row_ty}) -> ({qg_ty}, {row_ty}, {row_ty})
    scf.yield %{p}out_n, %{p}max_n, %{p}sum_n : {qg_ty}, {row_ty}, {row_ty}
  }}
{pack}" in
  Ok (fmt ([("write_consts", write_consts); ("writes", writes); ("attn_body", attn_body)] ++ t) "  %{p}c0_page = arith.constant 0 : index
  %{p}c1_page = arith.constant 1 : index
  %{p}nlast = arith.constant {nlast} : index
  %{p}page_size_idx = arith.constant {page} : index
  %{p}start64 = tensor.extract %start_pos[] : tensor<i64>
  %{p}start_idx = arith.index_cast %{p}start64 : i64 to index
  %{p}page_lo = arith.divui %{p}start_idx, %{p}page_size_idx : index
  %{p}hi_t = func.call @{hist_pages}(%start_pos, %valid) : (tensor<i64>, tensor<i64>) -> tensor<i64>
  %{p}hi64 = tensor.extract %{p}hi_t[] : tensor<i64>
  %{p}page_hi = arith.index_cast %{p}hi64 : i64 to index
{write_consts}  %{p}query, %{p}chunk_k, %{p}chunk_v, %{p}out_0, %{p}max_0, %{p}sum_0 = func.call @{prepare}() : () -> ({qg_ty}, {kv3_ty}, {kv3_ty}, {qg_ty}, {row_ty}, {row_ty})
{writes}{attn_body}  func.call @{finish}(%{p}out_f, %{p}sum_f) : ({qg_ty}, {row_ty}) -> ()
",
      k_ssa, v_ssa).

Definition emit_paged_fused_attn_layer (c : DenseDecoderConfig) (variant : PagedVariant) (layer : Z)
    : Program unit :=
  p ← lift (paged_names c);
  '(ops, k_out, v_out) ← lift (paged_fused_attn_ops c variant layer "k_0" "v_0" EmptyString);
  append_toplevel_asm (fmt
    [("name", variant_function variant (fmt [("layer", num layer)] "fused_attn_{layer}"));
     ("k_ty", fmt (paged_env c p) "tensor<{nkv}x{kv_len}x{d}x{kv_elem}>"); ("ops", ops); ("k_out", k_out); ("v_out", v_out)] "func.func private @{name}(%k_0: {k_ty}, %v_0: {k_ty}, %start_pos: tensor<i64>, %valid: tensor<i64>) -> ({k_ty}, {k_ty}) attributes {{noinline}} {{
{ops}  return %{k_out}, %{v_out} : {k_ty}, {k_ty}
}}
").

(** ** The entry function of a chunk *)

(** A layer of the chunk, and the names of its cache afterwards. *)
Definition chunk_layer (c : DenseDecoderConfig) (variant : PagedVariant) (k_ty : string) (layer : Z)
    : Function unit :=
  match layer_kind c layer with
  | ShortConvLayer =>
      op_asm (fmt [("short", variant_function variant (fmt [("layer", num layer)] "layer_shortconv_{layer}"))] "  func.call @{short}() : () -> ()
")
  | AttentionLayer =>
      op_asm (fmt [("layer", num layer); ("k_ty", k_ty);
                   ("fused", variant_function variant (fmt [("layer", num layer)] "fused_attn_{layer}"))] "  %k_out{layer}, %v_out{layer} = func.call @{fused}(%k_l{layer}, %v_l{layer}, %start_pos, %valid) : ({k_ty}, {k_ty}, tensor<i64>, tensor<i64>) -> ({k_ty}, {k_ty})
")
  end.
Definition kv_rets (c : DenseDecoderConfig) (layer : Z) : list string :=
  match layer_kind c layer with
  | ShortConvLayer => [fmt [("layer", num layer)] "k_l{layer}"; fmt [("layer", num layer)] "v_l{layer}"]
  | AttentionLayer => [fmt [("layer", num layer)] "k_out{layer}"; fmt [("layer", num layer)] "v_out{layer}"]
  end.

Definition emit_paged_fused_chunk (c : DenseDecoderConfig) (variant : PagedVariant) : Program unit :=
  p ← lift (paged_names c);
  let n := paged_env c p in
  let k_ty := fmt n "tensor<{nkv}x{kv_len}x{d}x{kv_elem}>" in
  let layers := layers c in
  _ ← emit_each (fun layer =>
        match layer_kind c layer with
        | AttentionLayer => emit_paged_fused_attn_layer c variant layer
        | ShortConvLayer => mret tt
        end) layers;
  let entry := if pv_decode variant then "decode_chunk" else "prefill_chunk" in
  func entry (
    _ ← args [("tokens", fmt n "tensor<{s}xi64>"); ("last", "tensor<i64>"); ("start_pos", "tensor<i64>")];
    _ ← arg_attrs "logits_buf" (fmt n "tensor<{v}xf32>") "{iree.abi.output = 0 : index}";
    _ ← emit_each (fun layer =>
          let e := [("layer", num layer); ("out_k", num (add32 1 (mul32 2 layer)));
                    ("out_v", num (add32 2 (mul32 2 layer)))] in
          _ ← arg_attrs (fmt e "k_l{layer}") k_ty (fmt e "{{iree.abi.output = {out_k} : index}}");
          _ ← arg_attrs (fmt e "v_l{layer}") k_ty (fmt e "{{iree.abi.output = {out_v} : index}}");
          mret tt) layers;
    _ ← result_ty (fmt n "tensor<{v}xf32>");
    _ ← emit_each (fun _ => _ ← result_ty k_ty; result_ty k_ty) layers;
    _ ← result_ty "tensor<i64>";
    _ ← op_asm (fmt (("begin", variant_function variant "chunk_begin") :: n) "  %valid = func.call @{begin}(%tokens, %last, %start_pos) : (tensor<{s}xi64>, tensor<i64>, tensor<i64>) -> (tensor<i64>)
");
    _ ← emit_each (chunk_layer c variant k_ty) layers;
    op_asm (fmt
      ([("logits_fn", variant_function variant "chunk_logits");
        ("kv_ret_ssa", join_with ", " ((fun name => fmt [("name", name)] "%{name}") <$> flat_map (kv_rets c) layers));
        ("kv_ret_tys", join_with ", " (repeat k_ty (2 * length layers)))] ++ n) "  %logits = func.call @{logits_fn}(%last) : (tensor<i64>) -> tensor<{v}xf32>
  %neg_inf = arith.constant 0xFF800000 : f32
  %zero_i64 = arith.constant 0 : i64
  %seed_v_e = tensor.empty() : tensor<f32>
  %seed_v = tensor.insert %neg_inf into %seed_v_e[] : tensor<f32>
  %seed_i_e = tensor.empty() : tensor<i64>
  %seed_i = tensor.insert %zero_i64 into %seed_i_e[] : tensor<i64>
  %best_v, %best_i = linalg.generic {{indexing_maps = [affine_map<(d0) -> (d0)>, affine_map<(d0) -> ()>, affine_map<(d0) -> ()>], iterator_types = ['reduction']}} ins(%logits : tensor<{v}xf32>) outs(%seed_v, %seed_i : tensor<f32>, tensor<i64>) {{
  ^bb0(%x: f32, %mv: f32, %mi: i64):
    %i = linalg.index 0 : index
    %ii = arith.index_cast %i : index to i64
    %gt = arith.cmpf ogt, %x, %mv : f32
    %nv = arith.select %gt, %x, %mv : f32
    %ni = arith.select %gt, %ii, %mi : i64
    linalg.yield %nv, %ni : f32, i64
  }} -> (tensor<f32>, tensor<i64>)
  %tok = tensor.extract %best_i[] : tensor<i64>
  %tok_e = tensor.empty() : tensor<i64>
  %tok_t = tensor.insert %tok into %tok_e[] : tensor<i64>
  return %logits, {kv_ret_ssa}, %tok_t : tensor<{v}xf32>, {kv_ret_tys}, tensor<i64>")).

(** ** The private functions *)

Definition emit_paged_chunk_begin (c : DenseDecoderConfig) (variant : PagedVariant) : Program unit :=
  let n := dims c in
  let hidden_ty := fmt n "tensor<{s}x{h}xf32>" in
  let e := [("hidden_ty", hidden_ty); ("hidden_global", variant_global variant "hidden");
            ("start_global", variant_global variant "start_pos");
            ("valid_global", variant_global variant "valid_count")] ++ n in
  let plain_embedding := negb (is_some (encoded c "token_embd.weight")) in
  func_private (variant_function variant "chunk_begin") (
    _ ← args [("tokens", fmt n "tensor<{s}xi64>"); ("last", "tensor<i64>"); ("start_pos", "tensor<i64>")];
    _ ← result_ty "tensor<i64>";
    _ ← emit_loads encodings c n [("emb_t", "token_embd_weight", "token_embd.weight", "{v}x{h}")];
    _ ← op_asm (fmt e "  %h_acc0 = tensor.empty() : {hidden_ty}
");
    _ ← (if plain_embedding then op_asm (fmt e "  %h_acc{s} = iree_linalg_ext.gather dimension_map = [0] ins(%emb_t, %tokens : tensor<{v}x{h}xf32>, tensor<{s}xi64>) outs(%h_acc0 : {hidden_ty}) -> {hidden_ty}
")
         else
           _ ← op_asm (fmt e "  %c0i = arith.constant 0 : index
  %c1i = arith.constant 1 : index
  %csi = arith.constant {s} : index
  %h_acc{s} = scf.for %p = %c0i to %csi step %c1i iter_args(%acc = %h_acc0) -> ({hidden_ty}) {{
  %t = tensor.extract %tokens[%p] : tensor<{s}xi64>
  %i = arith.index_cast %t : i64 to index
");
           _ ← unless (emit_embedding_parameter encodings c "r" "i" "emb_t" (variant_mode variant))
                 (lift (Panic "internal error: entered unreachable code: plain embeddings use gather or extract_slice"));
           op_asm (fmt e "  %next = tensor.insert_slice %r into %acc[%p, 0] [1, {h}] [1, 1] : tensor<1x{h}xf32> into {hidden_ty}
  scf.yield %next : {hidden_ty}
  }}
"));
    _ ← op_asm (fmt e "  %last64 = tensor.extract %last[] : tensor<i64>
  %one64 = arith.constant 1 : i64
  %valid64 = arith.addi %last64, %one64 : i64
  %valid_e = tensor.empty() : tensor<i64>
  %valid = tensor.insert %valid64 into %valid_e[] : tensor<i64>
  util.global.store %h_acc{s}, @{hidden_global} : {hidden_ty}
  util.global.store %start_pos, @{start_global} : tensor<i64>
  util.global.store %valid, @{valid_global} : tensor<i64>
");
    _ ← emit_if (has_short_conv c) (
          _ ← op_asm "  %start64_reset = tensor.extract %start_pos[] : tensor<i64>
  %c0_reset = arith.constant 0 : i64
  %is_first_chunk = arith.cmpi eq, %start64_reset, %c0_reset : i64
  scf.if %is_first_chunk {
";
          _ ← emit_zero_conv_states c "    ";
          op_asm "  }
");
    op_asm "  return %valid : tensor<i64>").

Definition emit_paged_layer_prepare (c : DenseDecoderConfig) (layer : Z) (variant : PagedVariant) : Program unit :=
  let n := layer_env layer ++ dims c in
  let weight := fun s => fmt n s in
  let hidden_ty := fmt n "tensor<{s}x{h}xf32>" in
  let qg_ty := fmt n "tensor<{nkv}x{g}x{s}x{d}xf32>" in
  let kv3_ty := fmt n "tensor<{s}x{nkv}x{d}xf32>" in
  let row_ty := fmt n "tensor<{nkv}x{g}x{s}xf32>" in
  let helper := variant_helper variant in
  let e := [("hidden_ty", hidden_ty); ("qg_ty", qg_ty); ("kv3_ty", kv3_ty); ("row_ty", row_ty);
            ("rms_norm", helper "rms_norm"); ("prepare_attention", helper "prepare_paged_attention");
            ("hidden_global", variant_global variant "hidden");
            ("start_global", variant_global variant "start_pos");
            ("norm_args", if dd_has_qk_norm c then ", %qnw, %knw" else EmptyString);
            ("norm_types", if dd_has_qk_norm c then fmt n ", tensor<{d}xf32>, tensor<{d}xf32>" else EmptyString)] ++ n in
  let s := dd_seq c in
  func_private (variant_function variant (fmt n "layer_prepare_{layer}")) (
    _ ← returns [qg_ty; kv3_ty; kv3_ty; qg_ty; row_ty; row_ty];
    _ ← emit_loads encodings c n
          [("attn_nw", "{p}_attn_norm_weight", "{n}.attn_norm.weight", "{h}");
           ("wq", "{p}_attn_q_weight", "{n}.attn_q.weight", "{q}x{h}"); ("wk", "{p}_attn_k_weight", "{n}.attn_k.weight", "{kv}x{h}");
           ("wv", "{p}_attn_v_weight", "{n}.attn_v.weight", "{kv}x{h}")];
    _ ← emit_if (dd_has_qk_norm c) (emit_loads encodings c n
          [("qnw", "{p}_attn_q_norm_weight", "{n}.attn_q_norm.weight", "{d}"); ("knw", "{p}_attn_k_norm_weight", "{n}.attn_k_norm.weight", "{d}")]);
    _ ← op_asm (fmt e "  %hidden = util.global.load @{hidden_global} : {hidden_ty}
  %start_pos = util.global.load @{start_global} : tensor<i64>
  %xn = func.call @{rms_norm}(%hidden, %attn_nw) : ({hidden_ty}, tensor<{h}xf32>) -> {hidden_ty}
");
    _ ← emit_linear_call encodings c "q" (helper "linear_hq") "xn" "wq" (weight "{n}.attn_q.weight") s (dd_hidden c) (q_dim c);
    _ ← emit_linear_call encodings c "k" (helper "linear_hkv") "xn" "wk" (weight "{n}.attn_k.weight") s (dd_hidden c) (kv_dim c);
    _ ← emit_linear_call encodings c "v" (helper "linear_hkv") "xn" "wv" (weight "{n}.attn_v.weight") s (dd_hidden c) (kv_dim c);
    _ ← op_asm (fmt e "  %qg, %kc, %vc = func.call @{prepare_attention}(%q, %k, %v, %start_pos{norm_args}) : (tensor<{s}x{q}xf32>, tensor<{s}x{kv}xf32>, tensor<{s}x{kv}xf32>, tensor<i64>{norm_types}) -> ({qg_ty}, {kv3_ty}, {kv3_ty})
");
    op_asm (fmt e "  %zero = arith.constant 0.0 : f32
  %neg = arith.constant -3.40282347E+38 : f32
  %out_e = tensor.empty() : {qg_ty}
  %row_e = tensor.empty() : {row_ty}
  %out = linalg.fill ins(%zero : f32) outs(%out_e : {qg_ty}) -> {qg_ty}
  %max = linalg.fill ins(%neg : f32) outs(%row_e : {row_ty}) -> {row_ty}
  %sum = linalg.fill ins(%zero : f32) outs(%row_e : {row_ty}) -> {row_ty}
  return %qg, %kc, %vc, %out, %max, %sum : {qg_ty}, {kv3_ty}, {kv3_ty}, {qg_ty}, {row_ty}, {row_ty}")).

Definition emit_paged_layer_store (c : DenseDecoderConfig) (variant : PagedVariant) : Program unit :=
  kv_elem ← lift (paged_kv_elem_asm c);
  let n := ("kv_elem", kv_elem) :: dims c in
  append_toplevel_asm (fmt
    ([("kv_ty", fmt n "tensor<2x{page}x{nkv}x{d}x{kv_elem}>"); ("kv3_ty", fmt n "tensor<{s}x{nkv}x{d}xf32>"); ("seq_m1", num (saturating_sub (dd_seq c) 1));
      ("name", variant_function variant "layer_store"); ("attrs", " attributes {noinline}");
      ("narrow_tok", if String.eqb kv_elem "f16" then "        %tok = arith.truncf %tok32 : f32 to f16
" else "        %tok = arith.addf %tok32, %zero : f32
");
      ("zero", if String.eqb kv_elem "f32" then "  %zero = arith.constant 0.0 : f32
" else EmptyString)] ++ n) "func.func private @{name}(%kv: {kv_ty}, %page_index: tensor<i64>, %start_pos: tensor<i64>, %chunk_k: {kv3_ty}, %chunk_v: {kv3_ty}, %valid_t: tensor<i64>) -> {kv_ty}{attrs} {{
  %pi64 = tensor.extract %page_index[] : tensor<i64>
  %start64 = tensor.extract %start_pos[] : tensor<i64>
  %pi = arith.index_cast %pi64 : i64 to index
  %start = arith.index_cast %start64 : i64 to index
  %page_size = arith.constant {page} : index
  %c0 = arith.constant 0 : index
  %c1 = arith.constant 1 : index
  %cseq_m1 = arith.constant {seq_m1} : index
{zero}  %page_start = arith.muli %pi, %page_size : index
  %page_end = arith.addi %page_start, %page_size : index
  %valid64 = tensor.extract %valid_t[] : tensor<i64>
  %valid = arith.index_cast %valid64 : i64 to index
  %chunk_end = arith.addi %start, %valid : index
  %starts_before_chunk_end = arith.cmpi ult, %page_start, %chunk_end : index
  %ends_after_chunk_start = arith.cmpi ugt, %page_end, %start : index
  %intersects = arith.andi %starts_before_chunk_end, %ends_after_chunk_start : i1
  %kv_e = tensor.empty() : {kv_ty}
  %kv_updated = scf.if %intersects -> ({kv_ty}) {{
    %new = linalg.generic {{
        indexing_maps = [affine_map<(pl, p, h, dd) -> (pl, p, h, dd)>, affine_map<(pl, p, h, dd) -> (pl, p, h, dd)>],
        iterator_types = ['parallel', 'parallel', 'parallel', 'parallel']}}
      ins(%kv : {kv_ty}) outs(%kv_e : {kv_ty}) {{
      ^bb0(%old: {kv_elem}, %o: {kv_elem}):
        %pl = linalg.index 0 : index
        %pp = linalg.index 1 : index
        %hh = linalg.index 2 : index
        %dd = linalg.index 3 : index
        %abs = arith.addi %page_start, %pp : index
        %ge = arith.cmpi uge, %abs, %start : index
        %lt = arith.cmpi ult, %abs, %chunk_end : index
        %hit = arith.andi %ge, %lt : i1
        %si0 = arith.subi %abs, %start : index
        %si1 = arith.select %hit, %si0, %c0 : index
        %si = arith.minui %si1, %cseq_m1 : index
        %tokk = tensor.extract %chunk_k[%si, %hh, %dd] : {kv3_ty}
        %tokv = tensor.extract %chunk_v[%si, %hh, %dd] : {kv3_ty}
        %is_v = arith.cmpi eq, %pl, %c1 : index
        %tok32 = arith.select %is_v, %tokv, %tokk : f32
{narrow_tok}        %val = arith.select %hit, %tok, %old : {kv_elem}
        linalg.yield %val : {kv_elem}
    }} -> {kv_ty}
    scf.yield %new : {kv_ty}
  }} else {{
    %keep = linalg.generic {{
        indexing_maps = [affine_map<(pl, p, h, dd) -> (pl, p, h, dd)>, affine_map<(pl, p, h, dd) -> (pl, p, h, dd)>],
        iterator_types = ['parallel', 'parallel', 'parallel', 'parallel']}}
      ins(%kv : {kv_ty}) outs(%kv_e : {kv_ty}) {{
      ^bb0(%old: {kv_elem}, %o: {kv_elem}):
        linalg.yield %old : {kv_elem}
    }} -> {kv_ty}
    scf.yield %keep : {kv_ty}
  }}
  return %kv_updated : {kv_ty}
}}
").

Definition emit_paged_layer_page (c : DenseDecoderConfig) (variant : PagedVariant) : Program unit :=
  let n := dims c in
  let qg_ty := fmt n "tensor<{nkv}x{g}x{s}x{d}xf32>" in
  let row_ty := fmt n "tensor<{nkv}x{g}x{s}xf32>" in
  let kv_ty := fmt n "tensor<2x{page}x{nkv}x{d}xf32>" in
  func_private (variant_function variant "layer_page") (
    _ ← args [("kv", kv_ty); ("page_index", "tensor<i64>"); ("start_pos", "tensor<i64>"); ("query", qg_ty);
              ("valid_t", "tensor<i64>"); ("out", qg_ty); ("max", row_ty); ("sum", row_ty)];
    _ ← returns [qg_ty; row_ty; row_ty];
    op_asm (fmt
      ([("qg_ty", qg_ty); ("row_ty", row_ty); ("mask_ty", fmt n "tensor<{nkv}x{g}x{s}x{page}xf32>"); ("kv_ty", kv_ty);
        ("k1_ty", fmt n "tensor<1x{page}x{nkv}x{d}xf32>"); ("page_seq_ty", fmt n "tensor<{page}x{nkv}x{d}xf32>"); ("page_head_ty", fmt n "tensor<{nkv}x{page}x{d}xf32>");
        ("scale_ty", if use_iree_attention c then "f16" else "f32");
        ("mask_helper", variant_helper variant "paged_causal_mask");
        ("attention_helper", variant_helper variant "online_attention_page");
        ("scale:.8e", attention_scale c)] ++ n) "  %pi64 = tensor.extract %page_index[] : tensor<i64>
  %pi = arith.index_cast %pi64 : i64 to index
  %ks = tensor.extract_slice %kv[0, 0, 0, 0] [1, {page}, {nkv}, {d}] [1, 1, 1, 1] : {kv_ty} to {k1_ty}
  %vs = tensor.extract_slice %kv[1, 0, 0, 0] [1, {page}, {nkv}, {d}] [1, 1, 1, 1] : {kv_ty} to {k1_ty}
  %kseq = tensor.collapse_shape %ks [[0, 1], [2], [3]] : {k1_ty} into {page_seq_ty}
  %vseq = tensor.collapse_shape %vs [[0, 1], [2], [3]] : {k1_ty} into {page_seq_ty}
  %ke2 = tensor.empty() : {page_head_ty}
  %ve2 = tensor.empty() : {page_head_ty}
  %kh = linalg.transpose ins(%kseq : {page_seq_ty}) outs(%ke2 : {page_head_ty}) permutation = [1, 0, 2]
  %vh = linalg.transpose ins(%vseq : {page_seq_ty}) outs(%ve2 : {page_head_ty}) permutation = [1, 0, 2]
  %mask = func.call @{mask_helper}(%start_pos, %pi, %valid_t) : (tensor<i64>, index, tensor<i64>) -> {mask_ty}
  %scale = arith.constant {scale:.8e} : {scale_ty}
  %next:3 = func.call @{attention_helper}(%query, %kh, %vh, %scale, %mask, %out, %max, %sum) : ({qg_ty}, {page_head_ty}, {page_head_ty}, {scale_ty}, {mask_ty}, {qg_ty}, {row_ty}, {row_ty}) -> ({qg_ty}, {row_ty}, {row_ty})
  return %next#0, %next#1, %next#2 : {qg_ty}, {row_ty}, {row_ty}")).

(** The two products of a feed-forward block and what is around them. *)
Definition feed_forward (c : DenseDecoderConfig) (variant : PagedVariant) (e : env) : Function unit :=
  let helper := variant_helper variant in
  let s := dd_seq c in
  _ ← emit_linear_call encodings c "gate" (helper "linear_hi") "fn" "wgate" (fmt e "{n}.ffn_gate.weight") s (dd_hidden c) (dd_intermediate c);
  _ ← emit_linear_call encodings c "up" (helper "linear_hi") "fn" "wup" (fmt e "{n}.ffn_up.weight") s (dd_hidden c) (dd_intermediate c);
  _ ← op_asm (fmt e "  %silu = linalg.generic {{
      indexing_maps = [affine_map<(d0, d1) -> (d0, d1)>, affine_map<(d0, d1) -> (d0, d1)>],
      iterator_types = ['parallel', 'parallel']}}
    ins(%gate : tensor<{s}x{i}xf32>) outs(%gate : tensor<{s}x{i}xf32>) {{
    ^bb0(%a: f32, %b: f32):
      %neg = arith.negf %a : f32
      %exp = math.exp %neg : f32
      %one = arith.constant 1.0 : f32
      %den = arith.addf %one, %exp : f32
      %value = arith.divf %a, %den : f32
      linalg.yield %value : f32
  }} -> tensor<{s}x{i}xf32>
  %ff = arith.mulf %silu, %up : tensor<{s}x{i}xf32>
");
  _ ← emit_linear_call encodings c "down" (helper "linear_ih") "ff" "wdown" (fmt e "{n}.ffn_down.weight") s (dd_intermediate c) (dd_hidden c);
  op_asm (fmt e "  %next_hidden = arith.addf %h2, %down : {hidden_ty}
  util.global.store %next_hidden, @{hidden_global} : {hidden_ty}
  return").

Definition emit_paged_layer_finish (c : DenseDecoderConfig) (layer : Z) (variant : PagedVariant) : Program unit :=
  let n := layer_env layer ++ dims c in
  let qg_ty := fmt n "tensor<{nkv}x{g}x{s}x{d}xf32>" in
  let row_ty := fmt n "tensor<{nkv}x{g}x{s}xf32>" in
  let e := [("hidden_ty", fmt n "tensor<{s}x{h}xf32>"); ("qg_ty", qg_ty); ("row_ty", row_ty);
            ("rms_norm", variant_helper variant "rms_norm");
            ("hidden_global", variant_global variant "hidden")] ++ n in
  func_private (variant_function variant (fmt n "layer_finish_{layer}")) (
    _ ← args [("out", qg_ty); ("sum", row_ty)];
    _ ← emit_loads encodings c n
          [("wo", "{p}_attn_output_weight", "{n}.attn_output.weight", "{h}x{q}"); ("ffn_nw", "{p}_ffn_norm_weight", "{n}.ffn_norm.weight", "{h}");
           ("wgate", "{p}_ffn_gate_weight", "{n}.ffn_gate.weight", "{i}x{h}"); ("wup", "{p}_ffn_up_weight", "{n}.ffn_up.weight", "{i}x{h}");
           ("wdown", "{p}_ffn_down_weight", "{n}.ffn_down.weight", "{h}x{i}")];
    _ ← op_asm (fmt e "  %hidden = util.global.load @{hidden_global} : {hidden_ty}
  %norm_e = tensor.empty() : {qg_ty}
  %norm = linalg.generic {{
      indexing_maps = [
        affine_map<(kh, g, q, d) -> (kh, g, q, d)>,
        affine_map<(kh, g, q, d) -> (kh, g, q)>,
        affine_map<(kh, g, q, d) -> (kh, g, q, d)>
      ],
      iterator_types = ['parallel', 'parallel', 'parallel', 'parallel']}}
    ins(%out, %sum : {qg_ty}, {row_ty}) outs(%norm_e : {qg_ty}) {{
    ^bb0(%value: f32, %den: f32, %o: f32):
      %result = arith.divf %value, %den : f32
      linalg.yield %result : f32
  }} -> {qg_ty}
  %ctx4e = tensor.empty() : tensor<{s}x{nkv}x{g}x{d}xf32>
  %ctx4 = linalg.transpose ins(%norm : {qg_ty}) outs(%ctx4e : tensor<{s}x{nkv}x{g}x{d}xf32>) permutation = [2, 0, 1, 3]
  %ctx = tensor.collapse_shape %ctx4 [[0], [1, 2, 3]] : tensor<{s}x{nkv}x{g}x{d}xf32> into tensor<{s}x{q}xf32>
");
    _ ← emit_linear_call encodings c "o" (variant_helper variant "linear_qh") "ctx" "wo" (fmt n "{n}.attn_output.weight")
          (dd_seq c) (q_dim c) (dd_hidden c);
    _ ← op_asm (fmt e "  %h2 = arith.addf %hidden, %o : {hidden_ty}
  %fn = func.call @{rms_norm}(%h2, %ffn_nw) : ({hidden_ty}, tensor<{h}xf32>) -> {hidden_ty}
");
    feed_forward c variant e).

Definition emit_paged_shortconv_layer (c : DenseDecoderConfig) (layer : Z) (variant : PagedVariant) : Program unit :=
  let n := layer_env layer ++ dims c in
  let e := [("hidden_ty", fmt n "tensor<{s}x{h}xf32>"); ("rms_norm", variant_helper variant "rms_norm");
            ("conv_op", if pv_decode variant then fmt n "conv_op{layer}_tok" else fmt n "conv_op{layer}");
            ("hidden_global", variant_global variant "hidden"); ("", num (mul32 3 (dd_conv_dim c)))] ++ n in
  let cc := dd_conv_dim c in
  func_private (variant_function variant (fmt n "layer_shortconv_{layer}")) (
    _ ← emit_loads encodings c (("", num (mul32 3 (dd_conv_dim c))) :: n)
          [("attn_nw", "{p}_attn_norm_weight", "{n}.attn_norm.weight", "{h}"); ("conv_in", "{p}_shortconv_in_proj_weight", "{n}.shortconv.in_proj.weight", "{}x{h}");
           ("conv_out_w", "{p}_shortconv_out_proj_weight", "{n}.shortconv.out_proj.weight", "{h}x{cc}"); ("ffn_nw", "{p}_ffn_norm_weight", "{n}.ffn_norm.weight", "{h}");
           ("wgate", "{p}_ffn_gate_weight", "{n}.ffn_gate.weight", "{i}x{h}"); ("wup", "{p}_ffn_up_weight", "{n}.ffn_up.weight", "{i}x{h}");
           ("wdown", "{p}_ffn_down_weight", "{n}.ffn_down.weight", "{h}x{i}")];
    _ ← op_asm (fmt e "  %hidden = util.global.load @{hidden_global} : {hidden_ty}
  %xn = func.call @{rms_norm}(%hidden, %attn_nw) : ({hidden_ty}, tensor<{h}xf32>) -> {hidden_ty}
");
    _ ← emit_linear_call encodings c "conv_inp" (variant_helper variant "linear_h_c3") "xn" "conv_in"
          (fmt n "{n}.shortconv.in_proj.weight") (dd_seq c) (dd_hidden c) (mul32 3 cc);
    _ ← op_asm (fmt e "  %conv_y = func.call @{conv_op}(%conv_inp) : (tensor<{s}x{}xf32>) -> tensor<{s}x{cc}xf32>
");
    _ ← emit_linear_call encodings c "conv_proj" (variant_helper variant "linear_c_h") "conv_y" "conv_out_w"
          (fmt n "{n}.shortconv.out_proj.weight") (dd_seq c) cc (dd_hidden c);
    _ ← op_asm (fmt e "  %h2 = arith.addf %hidden, %conv_proj : {hidden_ty}
  %fn = func.call @{rms_norm}(%h2, %ffn_nw) : ({hidden_ty}, tensor<{h}xf32>) -> {hidden_ty}
");
    feed_forward c variant e).

Definition emit_paged_chunk_logits (c : DenseDecoderConfig) (variant : PagedVariant) : Program unit :=
  let n := dims c in
  let e := [("hidden_ty", fmt n "tensor<{s}x{h}xf32>"); ("rms_norm", variant_helper variant "rms_norm");
            ("hidden_global", variant_global variant "hidden")] ++ n in
  func_private (variant_function variant "chunk_logits") (
    _ ← arg "last" "tensor<i64>";
    _ ← result_ty (fmt n "tensor<{v}xf32>");
    _ ← emit_loads encodings c n [("out_nw", "output_norm_weight", "output_norm.weight", "{h}"); ("wout", "output_weight", "output.weight", "{v}x{h}")];
    _ ← op_asm (fmt e "  %hidden = util.global.load @{hidden_global} : {hidden_ty}
  %last_i64 = tensor.extract %last[] : tensor<i64>
  %li = arith.index_cast %last_i64 : i64 to index
  %last_row = tensor.extract_slice %hidden[%li, 0] [1, {h}] [1, 1] : {hidden_ty} to tensor<1x{h}xf32>
  %last_tile = tensor.empty() : {hidden_ty}
  %last_s = tensor.insert_slice %last_row into %last_tile[0, 0] [1, {h}] [1, 1] : tensor<1x{h}xf32> into {hidden_ty}
  %ln = func.call @{rms_norm}(%last_s, %out_nw) : ({hidden_ty}, tensor<{h}xf32>) -> {hidden_ty}
  %ln1 = tensor.extract_slice %ln[0, 0] [1, {h}] [1, 1] : {hidden_ty} to tensor<1x{h}xf32>
");
    _ ← emit_output_proj encodings c "ln1" "wout" (variant_mode variant);
    op_asm (fmt n "  return %logits : tensor<{v}xf32>")).

Definition emit_paged_layer (c : DenseDecoderConfig) (variant : PagedVariant) (layer : Z) : Program unit :=
  match layer_kind c layer with
  | ShortConvLayer => emit_paged_shortconv_layer c layer variant
  | AttentionLayer =>
      _ ← emit_paged_layer_prepare c layer variant;
      emit_paged_layer_finish c layer variant
  end.

Definition emit_paged_decoder (c : DenseDecoderConfig) (variant : PagedVariant) : Program unit :=
  _ ← emit_paged_chunk_begin c variant;
  _ ← emit_paged_layer_store c variant;
  _ ← emit_if (negb (use_iree_attention c)) (emit_paged_layer_page c variant);
  _ ← emit_each (emit_paged_layer c variant) (layers c);
  _ ← emit_paged_chunk_logits c variant;
  _ ← emit_paged_page_clone c variant;
  emit_paged_fused_chunk c variant.

End Paged.
