(* ===== verification/PagedSymbols.v ===== *)
(** * The symbols of the paged decoder

    The functions of a chunk refer to the globals and the helpers of their
    variant and to each other, each after it is declared. *)
From S2P Require Import Prelude Strings Errors Serde CoreTypes Ir Encodings Names Coverage.
From S2P Require Import Mlir Symbols SymbolLogic Kernels CodegenSymbols Codegen Compiler.
From S2P Require Import Decoder ParameterSymbols DecoderSymbols PagedDecoder Floats.
From Stdlib Require Import ZArith Lia Ascii String SpecFloat.
From stdpp Require Import base list strings gmap.
From stdpp Require Import options.

Local Open Scope Z_scope.

(** ** Names *)

Lemma variant_function_ident v base : is_ident base -> is_ident (variant_function v base).
Proof. intros H. unfold variant_function. ident. Qed.
Lemma variant_helper_ident v base : is_ident base -> is_ident (variant_helper v base).
Proof. intros H. unfold variant_helper. ident. Qed.
Lemma variant_global_ident v base : is_ident base -> is_ident (variant_global v base).
Proof. intros H. unfold variant_global. ident. Qed.
#[export] Hint Extern 1 (is_ident (variant_function _ _)) => apply variant_function_ident; ident : ident.
#[export] Hint Extern 1 (is_ident (variant_helper _ _)) => apply variant_helper_ident; ident : ident.
#[export] Hint Extern 1 (is_ident (variant_global _ _)) => apply variant_global_ident; ident : ident.

Lemma variant_helper_mode v base : variant_helper v base = mode_name (variant_mode v) base.
Proof. unfold variant_helper, mode_name, variant_mode. destruct (pv_decode v); [by rewrite fmt_name|done]. Qed.

Definition layer_fn (v : PagedVariant) (base : string) (layer : Z) : string :=
  variant_function v (fmt [("layer", num layer)] base).

(** ** The pages of a fused layer *)

Section Pages.
Context (P : symbol -> Prop).

Lemma reuse_pages_yields fuel e p w kv1_ty src_ssa prev :
  is_ident p -> is_ident w -> calm kv1_ty -> is_ident src_ssa ->
  yields P (reuse_pages fuel e p w kv1_ty src_ssa prev).1 /\
  is_ident (reuse_pages fuel e p w kv1_ty src_ssa prev).2.
Proof.
  intros Hp Hw Hty. revert src_ssa prev. induction fuel as [|fuel IH]; intros src_ssa prev Hs; cbn [reuse_pages].
  { split; [apply yields_nil|done]. }
  set (next := fmt _ "{p}kv1_s_w{w}_{}").
  assert (Hn : is_ident next) by (subst next; ident). clearbody next.
  specialize (IH next (prev + 1) Hn). destruct (reuse_pages _ _ _ _ _ next _) as [rest last].
  cbn [fst snd] in *. destruct IH as [H1 H2]. split; [|done]. apply yields_app; [text|done].
Qed.

Lemma spaces_yields n : yields P (String.concat EmptyString (repeat " " n)).
Proof.
  induction n as [|n IH]; [apply yields_nil|]. cbn [repeat String.concat].
  destruct n as [|n]; cbn [repeat]; [by apply (yields_literal _ _ [])|].
  apply yields_app; [by apply (yields_literal _ _ [])|]. exact IH.
Qed.
End Pages.

Lemma select_page_yields P fuel w kv1_ty indent p :
  is_ident p -> calm kv1_ty ->
  yields P (select_page fuel w kv1_ty indent p).1 /\ is_ident (select_page fuel w kv1_ty indent p).2.
Proof.
  intros Hp Hty. revert w indent. induction fuel as [|fuel IH]; intros w indent; cbn [select_page].
  { cbn [fst snd]. split; [apply yields_nil|ident]. }
  pose proof (spaces_yields P indent) as Hpad. set (pad := String.concat _ _) in *. clearbody pad.
  specialize (IH (w + 1) (indent + 2)%nat). destruct (select_page fuel _ _ _ _) as [inner inner_ssa].
  cbn [fst snd] in *. destruct IH as [H1 H2].
  set (ssa := if w =? 0 then _ else _). assert (Hs : is_ident ssa) by (subst ssa; ident). clearbody ssa.
  split; [text|done].
Qed.

(** ** The operations of a fused layer *)

Definition paged_kinds : kinds := [("num_pages", Ident); ("kv_len", Ident); ("kv_elem", Ident)] ++ dims_kinds.
Definition ops_kinds : kinds :=
  [("p", Ident); ("k_in", Ident); ("v_in", Ident); ("nlast", Ident); ("kv1_ty", Block); ("kv_ty", Block);
   ("qg_ty", Block); ("kv3_ty", Block); ("row_ty", Block); ("k_ty", Block); ("pkv_ty", Block);
   ("mask_full_ty", Block); ("prepare", Ident); ("finish", Ident); ("layer_store", Ident); ("layer_page", Ident);
   ("packed_extract", Ident); ("hist_pages", Ident); ("page_to_kv", Ident); ("attention", Ident);
   ("full_mask", Ident); ("scale:.8e", Ident)] ++ paged_kinds.

Section Operations.
Context (R : string -> Prop) (e : env).
Context (He : env_holds (refers R) ops_kinds e) (Hc : env_holds (fun _ => False) ops_kinds e).

Lemma write_page_yields p kv1_ty w :
  is_ident p -> calm kv1_ty -> R (env_get e "packed_extract") -> R (env_get e "layer_store") ->
  yields (refers R) (write_page e p kv1_ty w).
Proof using All.
  intros Hp Hty Hx Hs. unfold write_page. cbv zeta.
  assert (Hsrc : is_ident (fmt (("w", num (Z.of_nat w)) :: e) "{p}kv1_s_w{w}_0")) by ident.
  destruct (reuse_pages_yields (refers R) w (("w", num (Z.of_nat w)) :: e) p (num (Z.of_nat w)) kv1_ty _ 0 Hp
    (ident_num _) Hty Hsrc) as [H1 H2].
  destruct (reuse_pages _ _ _ _ _ _ _) as [reuse src]. cbn [fst snd] in *.
  apply yields_app; [text|]. apply yields_app; [done|text].
Qed.

Lemma pack_pages_yields fuel w k_ssa v_ssa :
  is_ident k_ssa -> is_ident v_ssa -> R (env_get e "page_to_kv") ->
  let '(text, k, v) := pack_pages fuel e w k_ssa v_ssa in yields (refers R) text /\ is_ident k /\ is_ident v.
Proof using All.
  intros Hk Hv Hp. revert w k_ssa v_ssa Hk Hv.
  induction fuel as [|fuel IH]; intros w k_ssa v_ssa Hk Hv; cbn [pack_pages].
  { split; [apply yields_nil|done]. }
  cbv zeta.
  assert (Hnk : is_ident (fmt (("w", num w) :: e) "{p}k_w{w}")) by ident.
  assert (Hnv : is_ident (fmt (("w", num w) :: e) "{p}v_w{w}")) by ident.
  revert Hnk Hnv. generalize (fmt (("w", num w) :: e) "{p}k_w{w}"), (fmt (("w", num w) :: e) "{p}v_w{w}").
  intros nk nv Hnk Hnv. specialize (IH (w + 1) nk nv Hnk Hnv).
  destruct (pack_pages fuel e (w + 1) nk nv) as [[rest k] v]. destruct IH as (H1 & H2 & H3).
  split; [|done]. apply yields_app; [text|done].
Qed.
End Operations.

Section PagedSymbols.
Context {SJ : SerdeJson} {ML : MlirApi}.
Context (encodings : list QuantizationDefinition).

Lemma paged_kv_elem_ident c kv_elem : paged_kv_elem_asm c = Ok kv_elem -> is_ident kv_elem.
Proof. unfold paged_kv_elem_asm. destruct (paged_kv_element_type c); try done; by intros [= <-]. Qed.
Lemma paged_names_ident c p : paged_names c = Ok p -> is_ident (pn_kv_elem p).
Proof.
  unfold paged_names. destruct (num_pages c); cbn [mbind result_mbind]; [|done..].
  destruct (paged_kv_elem_asm c) eqn:E; cbn [mbind result_mbind]; [|done..]. intros [= <-].
  by eapply paged_kv_elem_ident.
Qed.

Lemma paged_env_holds P c p : is_ident (pn_kv_elem p) -> env_holds P paged_kinds (paged_env c p).
Proof. intros H. unfold paged_env, paged_kinds. holds. Qed.

(** What the fused layers call. *)
Record fused_in (R : string -> Prop) (c : DenseDecoderConfig) (v : PagedVariant) (layer : Z) : Prop := {
  prepare_in : R (layer_fn v "layer_prepare_{layer}" layer);
  finish_in : R (layer_fn v "layer_finish_{layer}" layer);
  page_fn_in : forall base, base ∈ ["layer_store"; "packed_extract"; "hist_pages"; "page_to_kv"] ->
    R (variant_function v base);
  iree_in : use_iree_attention c = true -> forall base, base ∈ ["iree_attention"; "full_causal_mask"] ->
    R (variant_helper v base);
  layer_page_in : use_iree_attention c = false -> R (variant_function v "layer_page");
}.

Record ops_in (R : string -> Prop) (c : DenseDecoderConfig) (e : env) : Prop := {
  _ : R (env_get e "packed_extract");
  _ : R (env_get e "layer_store");
  _ : R (env_get e "hist_pages");
  _ : R (env_get e "page_to_kv");
  _ : R (env_get e "prepare");
  _ : R (env_get e "finish");
  _ : use_iree_attention c = true -> R (env_get e "attention");
  _ : use_iree_attention c = true -> R (env_get e "full_mask");
  _ : use_iree_attention c = false -> R (env_get e "layer_page");
}.

Lemma paged_fused_attn_ops_yields (R : string -> Prop) c v layer k_in v_in p ops k_out v_out :
  is_ident k_in -> is_ident v_in -> is_ident p -> fused_in R c v layer ->
  paged_fused_attn_ops c v layer k_in v_in p = Ok (ops, k_out, v_out) ->
  yields (refers R) ops /\ is_ident k_out /\ is_ident v_out.
Proof.
  intros Hk Hv Hp Hin. unfold paged_fused_attn_ops.
  destruct (paged_names c) as [names| |] eqn:En; cbn [mbind result_mbind]; [|done..].
  apply paged_names_ident in En.
  destruct (paged_max_writes _ _) as [writes| |]; cbn [mbind result_mbind]; [|done..].
  cbv zeta.
  lazymatch goal with |- context [write_page ?t] =>
    assert (He : forall P, env_holds P ops_kinds t);
    [|assert (Ht : ops_in R c t); [|revert He Ht; generalize t; intros e He [Hx Hs Hh Hg Hprep Hfin Hattn Hmask Hpage]]]
  end.
  { intros P. pose proof (paged_env_holds P c names En). unfold ops_kinds. holds. }
  { destruct Hin as [Hprep Hfin Hfn Hiree Hpage]. split; cbn [env_get app String.eqb Ascii.eqb Bool.eqb]; [..|done].
    1-4: apply Hfn; member. 1-2: done. all: intros Hi; apply Hiree; [done|member]. }
  assert (Hty : calm (fmt (paged_env c names) "tensor<1x2x{page}x{nkv}x{d}x{kv_elem}>")).
  { pose proof (paged_env_holds (fun _ => False) c names En). text. }
  revert Hty. generalize (fmt (paged_env c names) "tensor<1x2x{page}x{nkv}x{d}x{kv_elem}>"). intros kv1_ty Hty.
  pose proof (He (refers R)) as HeR. pose proof (He (fun _ => False)) as Hec. clear He.
  assert (Hwrites : yields (refers R) (concat_strings (write_page e p kv1_ty <$> seq 0 (Z.to_nat writes)))).
  { apply yields_concat, Forall_fmap, Forall_forall. intros w _. by apply write_page_yields. }
  assert (Hconsts : yields (refers R) (concat_strings ((fun w => fmt (("w", num (Z.of_nat w)) :: e)
    "  %{p}c{w}_w = arith.constant {w} : index
") <$> seq 0 (Z.to_nat writes)))).
  { apply yields_concat, Forall_fmap, Forall_forall. intros w _. cbv beta delta [compose]. text. }
  destruct (select_page_yields (refers R) (Z.to_nat writes) 0 kv1_ty 4 p Hp Hty) as [Hsel Hssa].
  pose proof (pack_pages_yields R e HeR Hec (Z.to_nat writes) 0 k_in v_in Hk Hv Hg) as Hpack.
  destruct (select_page _ _ _ _ _) as [select sel_ssa]. destruct (pack_pages _ _ _ _ _) as [[pack k] v'].
  destruct Hpack as (Hpk & Hk' & Hv'). cbn [fst snd] in *.
  intros [= <- <- <-]. split; [|done]. text.
Qed.

(** ** The functions of a chunk *)

Record chunk_in (R : string -> Prop) (c : DenseDecoderConfig) (v : PagedVariant) : Prop := {
  chunk_parameters : parameters_in encodings R c;
  chunk_helpers : helpers_in encodings R c (variant_mode v);
  chunk_functions : functions_in R c (variant_mode v);
  chunk_states : forall base, base ∈ ["hidden"; "start_pos"; "valid_count"] -> R (variant_global v base);
  chunk_prepare : R (variant_helper v "prepare_paged_attention");
  chunk_iree : use_iree_attention c = true -> forall base, base ∈ ["iree_attention"; "full_causal_mask"] ->
    R (variant_helper v base);
  chunk_online : use_iree_attention c = false -> forall base, base ∈ ["online_attention_page"; "paged_causal_mask"] ->
    R (variant_helper v base);
}.
Lemma chunk_in_app pre adds c v : chunk_in (scope pre) c v -> chunk_in (scope (pre ++ adds)) c v.
Proof.
  assert (H : forall n, scope pre n -> scope (pre ++ adds) n) by (intros n Hn; apply elem_of_app; by left).
  intros [H1 H2 [H31 H32 H33] H4 H5 H6 H7].
  split; [by apply parameters_in_app|by apply helpers_in_app|split; eauto|eauto..].
Qed.

Definition linear_names : list string :=
  ["linear_hq"; "linear_hkv"; "linear_qh"; "linear_hi"; "linear_ih"; "linear_h_c3"; "linear_c_h"].
Lemma linear_name base : base ∈ linear_names ->
  is_ident base /\
  forall v, (if ends_with "_tok" (variant_helper v base) then Decode else Prefill) = variant_mode v.
Proof.
  unfold linear_names. intros H.
  repeat (apply elem_of_cons in H as [->|H]; [split; [done|intros [[]]; reflexivity]|]).
  by apply elem_of_nil in H.
Qed.
Lemma emit_linear_call_variant (R : string -> Prop) c v base result x w canonical s in_dim out_dim :
  base ∈ linear_names ->
  is_ident result -> is_ident x -> is_ident w -> R (variant_helper v base) ->
  String.eqb canonical "token_embd.weight" = false -> String.eqb canonical "output.weight" = false ->
  s = mode_rows c (variant_mode v) -> helpers_in encodings R c (variant_mode v) ->
  Refs R (Decoder.emit_linear_call encodings c result (variant_helper v base) x w canonical s in_dim out_dim) any.
Proof.
  intros Hb H1 H2 H3 H4 H5 H6 -> H7.
  destruct (linear_name base Hb) as [Hi Hm]. specialize (Hm v).
  apply emit_linear_call_in; rewrite ?Hm; try done. by apply variant_helper_ident.
Qed.

(** The context of a chunk's function. *)
Ltac chunk H :=
  let Hs := fresh "Hstates" in
  pose proof (chunk_parameters _ _ _ H); pose proof (chunk_helpers _ _ _ H);
  pose proof (chunk_functions _ _ _ H) as Hs; functions Hs;
  pose proof (chunk_states _ _ _ H "hidden" ltac:(member)); pose proof (chunk_states _ _ _ H "start_pos" ltac:(member));
  pose proof (chunk_states _ _ _ H "valid_count" ltac:(member)); pose proof (chunk_prepare _ _ _ H);
  rewrite <-!variant_helper_mode in *.
#[local] Hint Extern 0 (Refs _ (Decoder.emit_linear_call _ _ _ (variant_helper _ _) _ _ _ _ _ _) _) =>
  apply emit_linear_call_variant; [unfold linear_names; member|ident|ident|ident|in_scope|reflexivity|reflexivity|assumption|assumption] : refs.

Ltac named template layer :=
  cbv zeta;
  match goal with
  | |- Scoped _ (func_private (variant_function _ ?name) _) _ =>
      replace name with (fmt [("layer", num layer)] template) by (symmetry; same_text)
  end; unfold layer_fn.

Section Chunk.
Context (c : DenseDecoderConfig) (v : PagedVariant) (pre : list string).
Context (Hc : chunk_in (scope pre) c v) (Hrows : dd_seq c = mode_rows c (variant_mode v)).

Lemma emit_paged_chunk_begin_scoped :
  Scoped pre (emit_paged_chunk_begin encodings c v) [variant_function v "chunk_begin"].
Proof using All. chunk Hc. unfold emit_paged_chunk_begin. scoped. Qed.
Lemma emit_paged_chunk_logits_scoped :
  Scoped pre (emit_paged_chunk_logits encodings c v) [variant_function v "chunk_logits"].
Proof using All. chunk Hc. unfold emit_paged_chunk_logits. scoped. Qed.
Lemma emit_paged_layer_page_scoped :
  use_iree_attention c = false ->
  Scoped pre (emit_paged_layer_page c v) [variant_function v "layer_page"].
Proof using All.
  intros Hi. pose proof (chunk_online _ _ _ Hc Hi "online_attention_page" ltac:(member)).
  pose proof (chunk_online _ _ _ Hc Hi "paged_causal_mask" ltac:(member)).
  unfold emit_paged_layer_page. scoped.
Qed.
Lemma emit_paged_layer_prepare_scoped layer :
  layer ∈ layers c -> layer_kind c layer = AttentionLayer ->
  Scoped pre (emit_paged_layer_prepare encodings c layer v) [layer_fn v "layer_prepare_{layer}" layer].
Proof using All. intros Hl Hk. chunk Hc. unfold emit_paged_layer_prepare. named "layer_prepare_{layer}" layer. scoped. Qed.
Lemma emit_paged_layer_finish_scoped layer :
  layer ∈ layers c -> layer_kind c layer = AttentionLayer ->
  Scoped pre (emit_paged_layer_finish encodings c layer v) [layer_fn v "layer_finish_{layer}" layer].
Proof using All. intros Hl Hk. chunk Hc. unfold emit_paged_layer_finish. named "layer_finish_{layer}" layer. scoped. Qed.
Lemma emit_paged_shortconv_layer_scoped layer :
  layer ∈ layers c -> layer_kind c layer = ShortConvLayer ->
  Scoped pre (emit_paged_shortconv_layer encodings c layer v) [layer_fn v "layer_shortconv_{layer}" layer].
Proof using All.
  intros Hl Hk. pose proof (chunk_functions _ _ _ Hc) as Hf. convolution Hf Hl Hk. chunk Hc.
  assert (scope pre (if pv_decode v then fmt (layer_env layer ++ dims c) "conv_op{layer}_tok"
                     else fmt (layer_env layer ++ dims c) "conv_op{layer}")).
  { rewrite !fmt_name. unfold conv_op, variant_mode in *. cbn in *. by destruct (pv_decode v). }
  unfold emit_paged_shortconv_layer. named "layer_shortconv_{layer}" layer. scoped.
Qed.
End Chunk.

(** ** Fragments of several functions *)

Lemma emit_paged_layer_store_scoped pre c v :
  Scoped pre (emit_paged_layer_store c v) [variant_function v "layer_store"].
Proof.
  unfold emit_paged_layer_store. apply Scoped_lift_then. intros kv_elem Hk%paged_kv_elem_ident. cbv zeta.
  fragment; [apply Forall_nil_2|done].
Qed.

Lemma emit_paged_page_clone_scoped pre c v :
  Scoped pre (emit_paged_page_clone c v)
    [variant_function v "hist_pages"; variant_function v "packed_extract"; variant_function v "page_to_kv"].
Proof.
  unfold emit_paged_page_clone. apply Scoped_lift_then. intros p Hp%paged_names_ident. cbv zeta.
  pose proof (paged_env_holds (fun _ => False) c p Hp). pose proof (paged_env_holds (refers (scope pre)) c p Hp).
  fragment; [apply Forall_nil_2|done].
Qed.

Lemma emit_paged_fused_attn_layer_scoped pre c v layer :
  fused_in (scope pre) c v layer ->
  Scoped pre (emit_paged_fused_attn_layer c v layer) [layer_fn v "fused_attn_{layer}" layer].
Proof.
  intros Hin. unfold emit_paged_fused_attn_layer. apply Scoped_lift_then. intros p Hp%paged_names_ident.
  apply Scoped_lift_then. intros [[ops k_out] v_out] Hops.
  apply (paged_fused_attn_ops_yields (scope pre)) in Hops as (Hy & Hk & Hv); [|done..].
  pose proof (paged_env_holds (fun _ => False) c p Hp). pose proof (paged_env_holds (refers (scope pre)) c p Hp).
  fragment; [apply Forall_nil_2|done].
Qed.

(** ** The entry function *)

Definition chunk_entry (v : PagedVariant) : string := if pv_decode v then "decode_chunk" else "prefill_chunk".
Definition fused_symbols (c : DenseDecoderConfig) (v : PagedVariant) (layer : Z) : list string :=
  match layer_kind c layer with
  | AttentionLayer => [layer_fn v "fused_attn_{layer}" layer]
  | ShortConvLayer => []
  end.

Lemma output_attrs_calm layer :
  calm (trim (fmt [("layer", num layer); ("out_k", num (add32 1 (mul32 2 layer)));
                   ("out_v", num (add32 2 (mul32 2 layer)))] "{{iree.abi.output = {out_k} : index}}")) /\
  calm (trim (fmt [("layer", num layer); ("out_k", num (add32 1 (mul32 2 layer)));
                   ("out_v", num (add32 2 (mul32 2 layer)))] "{{iree.abi.output = {out_v} : index}}")).
Proof.
  split; apply plain_yields, plain_trim; read_templates;
    (apply plain_append; [done|]; apply plain_append; [apply ident_plain, ident_num|done]).
Qed.
Lemma logits_attrs_calm : calm (trim "{iree.abi.output = 0 : index}").
Proof. apply plain_yields, plain_trim. done. Qed.
Lemma kv_rets_calm P c l :
  yields P (join_with ", " ((fun name => fmt [("name", name)] "%{name}") <$> flat_map (kv_rets c) l)).
Proof.
  apply yields_join, Forall_fmap, Forall_forall. intros name Hn%list_elem_of_In%in_flat_map.
  destruct Hn as (layer & _ & Hn%list_elem_of_In). cbv beta delta [compose].
  assert (is_ident name); [|text]. revert name Hn. apply Forall_forall. unfold kv_rets.
  destruct (layer_kind c layer); (apply Forall_cons_2; [ident|apply Forall_cons_2; [ident|apply Forall_nil_2]]).
Qed.
Lemma kv_types_calm P ty n : calm ty -> yields P (join_with ", " (repeat ty n)).
Proof.
  intros H. apply yields_join, Forall_forall. intros s Hs%list_elem_of_In%repeat_spec. subst s. by apply calm_yields.
Qed.
#[local] Hint Extern 1 (yields _ (join_with _ (_ <$> flat_map (kv_rets _) _))) => apply kv_rets_calm : ident.
#[local] Hint Extern 1 (yields _ (join_with _ (repeat _ _))) => apply kv_types_calm; text : ident.
#[local] Hint Extern 1 (yields _ (trim (fmt _ "{{iree.abi.output = {out_k} : index}}"))) =>
  exact (proj1 (output_attrs_calm _)) : ident.
#[local] Hint Extern 1 (yields _ (trim (fmt _ "{{iree.abi.output = {out_v} : index}}"))) =>
  exact (proj2 (output_attrs_calm _)) : ident.
#[local] Hint Extern 1 (yields _ (trim "{iree.abi.output = 0 : index}")) => exact logits_attrs_calm : ident.

Record entry_in (R : string -> Prop) (c : DenseDecoderConfig) (v : PagedVariant) : Prop := {
  begin_in : R (variant_function v "chunk_begin");
  logits_in : R (variant_function v "chunk_logits");
  fused_layers_in : forall layer, layer ∈ layers c -> layer_kind c layer = AttentionLayer -> fused_in R c v layer;
  conv_layers_in : forall layer, layer ∈ layers c -> layer_kind c layer = ShortConvLayer ->
    R (layer_fn v "layer_shortconv_{layer}" layer);
}.

Lemma emit_paged_fused_chunk_scoped pre c v :
  entry_in (scope pre) c v ->
  Scoped pre (emit_paged_fused_chunk c v) (flat_map (fused_symbols c v) (layers c) ++ [chunk_entry v]).
Proof.
  intros [Hbegin Hlogits Hfused Hconv]. unfold emit_paged_fused_chunk. apply Scoped_lift_then.
  intros p Hp%paged_names_ident. cbv zeta. apply Scoped_bind.
  - apply Scoped_each. intros layer Hl. unfold fused_symbols. destruct (layer_kind c layer) eqn:Hk; [|apply Scoped_ret].
    by apply emit_paged_fused_attn_layer_scoped, Hfused.
  - intros _. set (pre' := pre ++ _). unfold func. eapply Scoped_function; [by destruct v as [[]]|].
    pose proof (paged_env_holds (fun _ => False) c p Hp). pose proof (paged_env_holds (refers (scope pre')) c p Hp).
    assert (scope pre' (variant_function v "chunk_begin")) by (apply elem_of_app; by left).
    assert (scope pre' (variant_function v "chunk_logits")) by (apply elem_of_app; by left).
    assert (forall layer, layer ∈ layers c -> layer_kind c layer = ShortConvLayer ->
      scope pre' (variant_function v (fmt [("layer", num layer)] "layer_shortconv_{layer}")))
      by (intros layer Hl Hk; apply elem_of_app; left; by apply Hconv).
    assert (forall layer, layer ∈ layers c -> layer_kind c layer = AttentionLayer ->
      scope pre' (variant_function v (fmt [("layer", num layer)] "fused_attn_{layer}"))).
    { intros layer Hl Hk. apply elem_of_app. right. apply list_elem_of_In, in_flat_map. exists layer.
      split; [by apply list_elem_of_In|]. apply list_elem_of_In. unfold fused_symbols. rewrite Hk. apply list_elem_of_here. }
    clearbody pre'. refs.
Qed.

Definition layer_fns (c : DenseDecoderConfig) (v : PagedVariant) (layer : Z) : list string :=
  match layer_kind c layer with
  | ShortConvLayer => [layer_fn v "layer_shortconv_{layer}" layer]
  | AttentionLayer => [layer_fn v "layer_prepare_{layer}" layer; layer_fn v "layer_finish_{layer}" layer]
  end.
Lemma layer_fns_elem c v layer n :
  layer ∈ layers c -> n ∈ layer_fns c v layer -> n ∈ flat_map (layer_fns c v) (layers c).
Proof.
  intros Hl Hn. apply list_elem_of_In, in_flat_map. exists layer. by split; apply list_elem_of_In.
Qed.

Lemma emit_paged_layers_scoped pre c v :
  chunk_in (scope pre) c v -> dd_seq c = mode_rows c (variant_mode v) ->
  Scoped pre (emit_each (emit_paged_layer encodings c v) (layers c)) (flat_map (layer_fns c v) (layers c)).
Proof.
  intros Hc Hrows. apply Scoped_each. intros layer Hl. unfold emit_paged_layer, layer_fns.
  destruct (layer_kind c layer) eqn:Hk; [|by apply emit_paged_shortconv_layer_scoped].
  apply (Scoped_bind _ _ _ [_] [_]); [by apply emit_paged_layer_prepare_scoped|]. intros _.
  apply emit_paged_layer_finish_scoped; [by apply chunk_in_app|done..].
Qed.

Lemma emit_paged_decoder_scoped pre c v :
  chunk_in (scope pre) c v -> dd_seq c = mode_rows c (variant_mode v) ->
  Scoped pre (emit_paged_decoder encodings c v) [chunk_entry v].
Proof.
  intros Hc Hrows. unfold emit_paged_decoder. eapply Scoped_adds.
  - eapply Scoped_bind; [by apply emit_paged_chunk_begin_scoped|intros _].
    eapply Scoped_bind; [apply emit_paged_layer_store_scoped|intros _].
    eapply Scoped_bind; [apply Scoped_if; intros Hi%negb_true_iff; apply emit_paged_layer_page_scoped;
      [repeat apply chunk_in_app; done|done..]|intros _].
    eapply Scoped_bind; [apply emit_paged_layers_scoped; [repeat apply chunk_in_app; done|done]|intros _].
    eapply Scoped_bind; [apply emit_paged_chunk_logits_scoped; [repeat apply chunk_in_app; done|done]|intros _].
    eapply Scoped_bind; [apply emit_paged_page_clone_scoped|intros _].
    apply emit_paged_fused_chunk_scoped. unfold scope. split; [member|member|..].
    + intros layer Hl Hk. split.
      * do 2 (apply elem_of_app; left). apply elem_of_app. right. apply (layer_fns_elem c v layer); [done|].
        unfold layer_fns. rewrite Hk. member.
      * do 2 (apply elem_of_app; left). apply elem_of_app. right. apply (layer_fns_elem c v layer); [done|].
        unfold layer_fns. rewrite Hk. member.
      * apply Forall_forall. repeat (apply Forall_cons_2; [member|]). apply Forall_nil_2.
      * intros Hi base Hb. do 6 (apply elem_of_app; left). by apply (chunk_iree _ _ _ Hc Hi).
      * intros Hi. do 3 (apply elem_of_app; left). apply elem_of_app. right. rewrite Hi. cbn [negb]. member.
    + intros layer Hl Hk. do 2 (apply elem_of_app; left). apply elem_of_app. right.
      apply (layer_fns_elem c v layer); [done|]. unfold layer_fns. rewrite Hk. member.
  - intros n ->%list_elem_of_singleton. repeat (apply elem_of_app; right). apply list_elem_of_here.
Qed.
End PagedSymbols.
