(* ===== verification/StaticDecoder.v ===== *)
(** * The static decoder: lowering/dense_decoder.rs, [emit_attn], [emit_decode_helpers],
    [emit_prefill] and [emit_decode]

    The program without a paged cache: the whole prompt in one window, and one
    token at a time over a cache of [max_kv] rows kept in globals. *)
From S2P Require Import Prelude Strings Errors Serde CoreTypes Ir Encodings Coverage.
From S2P Require Import Mlir Kernels Codegen Compiler Decoder.
From Stdlib Require Import ZArith Lia Ascii String.
From stdpp Require Import base list strings gmap.
From stdpp Require Import options.

Local Open Scope Z_scope.

Section Static.
Context {SJ : SerdeJson} {ML : MlirApi} {FF : FloatFunctions}.
Context (encodings : list QuantizationDefinition).

Abbreviation Function := (Emit FuncBuilder).
Abbreviation Program := (Emit ModuleBuilder).

Definition emit_attn (c : DenseDecoderConfig) : Program unit :=
  let n := dims c in
  let nh := dd_num_heads c in
  let nkv := dd_num_kv_heads c in
  let qk_norm := dd_has_qk_norm c in
  func_private "attn" (
    _ ← args [("q", fmt n "tensor<{s}x{q}xf32>"); ("k", fmt n "tensor<{s}x{kv}xf32>"); ("v", fmt n "tensor<{s}x{kv}xf32>")];
    _ ← emit_if qk_norm (args [("q_norm", fmt n "tensor<{d}xf32>"); ("k_norm", fmt n "tensor<{d}xf32>")]);
    _ ← returns [fmt n "tensor<{s}x{q}xf32>"; fmt n "tensor<{s}x{nkv}x{d}xf32>"; fmt n "tensor<{s}x{nkv}x{d}xf32>"];
    _ ← op_asm (fmt n "  %q3 = tensor.expand_shape %q [[0], [1, 2]] output_shape [{s}, {nh}, {d}] : tensor<{s}x{q}xf32> into tensor<{s}x{nh}x{d}xf32>
  %k3 = tensor.expand_shape %k [[0], [1, 2]] output_shape [{s}, {nkv}, {d}] : tensor<{s}x{kv}xf32> into tensor<{s}x{nkv}x{d}xf32>
  %v3 = tensor.expand_shape %v [[0], [1, 2]] output_shape [{s}, {nkv}, {d}] : tensor<{s}x{kv}xf32> into tensor<{s}x{nkv}x{d}xf32>
");
    _ ← emit_if qk_norm (op_asm (fmt n "  %qn = func.call @rms_norm_q_heads(%q3, %q_norm) : (tensor<{s}x{nh}x{d}xf32>, tensor<{d}xf32>) -> tensor<{s}x{nh}x{d}xf32>
"));
    let q_heads := if qk_norm then "qn" else "q3" in
    let kn_fn := if negb (nkv =? nh) then "rms_norm_kv_heads" else "rms_norm_q_heads" in
    _ ← emit_if qk_norm (op_asm (fmt (("kn_fn", kn_fn) :: n) "  %kn = func.call @{kn_fn}(%k3, %k_norm) : (tensor<{s}x{nkv}x{d}xf32>, tensor<{d}xf32>) -> tensor<{s}x{nkv}x{d}xf32>
"));
    let k_heads := if qk_norm then "kn" else "k3" in
    let rope := is_some (dd_rope_theta c) in
    let rope_kv := if negb (nkv =? nh) then "apply_rope_kv" else "apply_rope_q" in
    _ ← emit_if rope (
          _ ← op_asm (fmt (("q_heads", q_heads) :: n) "  %qr = func.call @apply_rope_q(%{q_heads}) : (tensor<{s}x{nh}x{d}xf32>) -> tensor<{s}x{nh}x{d}xf32>
");
          op_asm (fmt (("rope_kv", rope_kv) :: ("k_heads", k_heads) :: n) "  %kr = func.call @{rope_kv}(%{k_heads}) : (tensor<{s}x{nkv}x{d}xf32>) -> tensor<{s}x{nkv}x{d}xf32>
"));
    let '(q_ssa, k_ssa) := if rope then ("qr", "kr") else (q_heads, k_heads) in
    _ ← emit_if (negb (nkv =? nh)) (
          _ ← op_asm (fmt (("k_ssa", k_ssa) :: n) "  %krep = func.call @repeat_kv(%{k_ssa}) : (tensor<{s}x{nkv}x{d}xf32>) -> tensor<{s}x{nh}x{d}xf32>
");
          op_asm (fmt n "  %vrep = func.call @repeat_kv(%v3) : (tensor<{s}x{nkv}x{d}xf32>) -> tensor<{s}x{nh}x{d}xf32>
"));
    let '(k_full, v_full) := if negb (nkv =? nh) then ("krep", "vrep") else (k_ssa, "v3") in
    op_asm (fmt ([("scale:.8e", attention_scale c); ("q_ssa", q_ssa); ("k_ssa", k_ssa);
                  ("k_full", k_full); ("v_full", v_full)] ++ n) "  %q_ti = tensor.empty() : tensor<{nh}x{s}x{d}xf32>
  %k_ti = tensor.empty() : tensor<{nh}x{s}x{d}xf32>
  %v_ti = tensor.empty() : tensor<{nh}x{s}x{d}xf32>
  %qb = linalg.transpose ins(%{q_ssa} : tensor<{s}x{nh}x{d}xf32>) outs(%q_ti : tensor<{nh}x{s}x{d}xf32>) permutation = [1, 0, 2]
  %kb = linalg.transpose ins(%{k_full} : tensor<{s}x{nh}x{d}xf32>) outs(%k_ti : tensor<{nh}x{s}x{d}xf32>) permutation = [1, 0, 2]
  %vb = linalg.transpose ins(%{v_full} : tensor<{s}x{nh}x{d}xf32>) outs(%v_ti : tensor<{nh}x{s}x{d}xf32>) permutation = [1, 0, 2]
  %kt_i = tensor.empty() : tensor<{nh}x{d}x{s}xf32>
  %kt = linalg.transpose ins(%kb : tensor<{nh}x{s}x{d}xf32>) outs(%kt_i : tensor<{nh}x{d}x{s}xf32>) permutation = [0, 2, 1]
  %c0 = arith.constant 0.0 : f32
  %neg = arith.constant -1.0e+7 : f32
  %scale = arith.constant {scale:.8e} : f32
  %sc_i = tensor.empty() : tensor<{nh}x{s}x{s}xf32>
  %sc_z = linalg.fill ins(%c0 : f32) outs(%sc_i : tensor<{nh}x{s}x{s}xf32>) -> tensor<{nh}x{s}x{s}xf32>
  %scores = linalg.batch_matmul ins(%qb, %kt : tensor<{nh}x{s}x{d}xf32>, tensor<{nh}x{d}x{s}xf32>) outs(%sc_z : tensor<{nh}x{s}x{s}xf32>) -> tensor<{nh}x{s}x{s}xf32>
  %scores_s = linalg.generic {{
      indexing_maps = [affine_map<(d0, d1, d2) -> (d0, d1, d2)>, affine_map<(d0, d1, d2) -> (d0, d1, d2)>],
      iterator_types = ['parallel', 'parallel', 'parallel']}}
    ins(%scores : tensor<{nh}x{s}x{s}xf32>) outs(%scores : tensor<{nh}x{s}x{s}xf32>) {{
    ^bb0(%a: f32, %b: f32):
      %m = arith.mulf %a, %scale : f32
      linalg.yield %m : f32
  }} -> tensor<{nh}x{s}x{s}xf32>
  %masked = linalg.generic {{
      indexing_maps = [affine_map<(d0, d1, d2) -> (d0, d1, d2)>, affine_map<(d0, d1, d2) -> (d0, d1, d2)>],
      iterator_types = ['parallel', 'parallel', 'parallel']}}
    ins(%scores_s : tensor<{nh}x{s}x{s}xf32>) outs(%scores_s : tensor<{nh}x{s}x{s}xf32>) {{
    ^bb0(%a: f32, %b: f32):
      %ii = linalg.index 1 : index
      %jj = linalg.index 2 : index
      %cmp = arith.cmpi sgt, %jj, %ii : index
      %sel = arith.select %cmp, %neg, %a : f32
      linalg.yield %sel : f32
  }} -> tensor<{nh}x{s}x{s}xf32>
  %sm_i = tensor.empty() : tensor<{nh}x{s}x{s}xf32>
  %attn = linalg.softmax dimension(2) ins(%masked : tensor<{nh}x{s}x{s}xf32>) outs(%sm_i : tensor<{nh}x{s}x{s}xf32>) -> tensor<{nh}x{s}x{s}xf32>
  %ctx_i = tensor.empty() : tensor<{nh}x{s}x{d}xf32>
  %ctx_z = linalg.fill ins(%c0 : f32) outs(%ctx_i : tensor<{nh}x{s}x{d}xf32>) -> tensor<{nh}x{s}x{d}xf32>
  %ctx_b = linalg.batch_matmul ins(%attn, %vb : tensor<{nh}x{s}x{s}xf32>, tensor<{nh}x{s}x{d}xf32>) outs(%ctx_z : tensor<{nh}x{s}x{d}xf32>) -> tensor<{nh}x{s}x{d}xf32>
  %ctx_t_i = tensor.empty() : tensor<{s}x{nh}x{d}xf32>
  %ctx_t = linalg.transpose ins(%ctx_b : tensor<{nh}x{s}x{d}xf32>) outs(%ctx_t_i : tensor<{s}x{nh}x{d}xf32>) permutation = [1, 0, 2]
  %ctx = tensor.collapse_shape %ctx_t [[0], [1, 2]] : tensor<{s}x{nh}x{d}xf32> into tensor<{s}x{q}xf32>
  return %ctx, %{k_ssa}, %v3 : tensor<{s}x{q}xf32>, tensor<{s}x{nkv}x{d}xf32>, tensor<{s}x{nkv}x{d}xf32>
")).

(** ** The helpers of decode *)

(** The text of [attn_decode]. *)
Definition attn_decode_body (c : DenseDecoderConfig) : Function unit :=
  let n := dims c in
  let nh := dd_num_heads c in
  let nkv := dd_num_kv_heads c in
  let qk_norm := dd_has_qk_norm c in
  _ ← op_asm (fmt n "  %pos_i64 = tensor.extract %pos_t[] : tensor<i64>
  %pos = arith.index_cast %pos_i64 : i64 to index
  %q3 = tensor.expand_shape %q [[0], [1, 2]] output_shape [1, {nh}, {d}] : tensor<1x{q}xf32> into tensor<1x{nh}x{d}xf32>
");
  _ ← emit_if qk_norm (op_asm (fmt n "  %qn = func.call @rms_norm_q_heads_tok(%q3, %q_norm) : (tensor<1x{nh}x{d}xf32>, tensor<{d}xf32>) -> tensor<1x{nh}x{d}xf32>
"));
  let q_heads := if qk_norm then "qn" else "q3" in
  let kn_fn := if negb (nkv =? nh) then "rms_norm_kv_heads_tok" else "rms_norm_q_heads_tok" in
  _ ← emit_if qk_norm (op_asm (fmt (("kn_fn", kn_fn) :: n) "  %kn = func.call @{kn_fn}(%k_new, %k_norm) : (tensor<1x{nkv}x{d}xf32>, tensor<{d}xf32>) -> tensor<1x{nkv}x{d}xf32>
"));
  let k_heads := if qk_norm then "kn" else "k_new" in
  let rope := is_some (dd_rope_theta c) in
  let rope_kv := if negb (nkv =? nh) then "apply_rope_kv_at" else "apply_rope_q_at" in
  _ ← emit_if rope (
        _ ← op_asm (fmt (("q_heads", q_heads) :: n) "  %qr = func.call @apply_rope_q_at(%{q_heads}, %pos_t) : (tensor<1x{nh}x{d}xf32>, tensor<i64>) -> tensor<1x{nh}x{d}xf32>
");
        op_asm (fmt (("rope_kv", rope_kv) :: ("k_heads", k_heads) :: n) "  %kr = func.call @{rope_kv}(%{k_heads}, %pos_t) : (tensor<1x{nkv}x{d}xf32>, tensor<i64>) -> tensor<1x{nkv}x{d}xf32>
"));
  let '(q_ssa, k_ssa) := if rope then ("qr", "kr") else (q_heads, k_heads) in
  _ ← op_asm (fmt (("k_ssa", k_ssa) :: n) "  %k_upd = func.call @kv_update_row(%k_cache, %{k_ssa}, %pos_t) : (tensor<{mk}x{nkv}x{d}xf32>, tensor<1x{nkv}x{d}xf32>, tensor<i64>) -> tensor<{mk}x{nkv}x{d}xf32>
  %v_upd = func.call @kv_update_row(%v_cache, %v_new, %pos_t) : (tensor<{mk}x{nkv}x{d}xf32>, tensor<1x{nkv}x{d}xf32>, tensor<i64>) -> tensor<{mk}x{nkv}x{d}xf32>
");
  _ ← emit_if (negb (nkv =? nh)) (
        _ ← op_asm (fmt n "  %krep = func.call @repeat_kv_mk(%k_upd) : (tensor<{mk}x{nkv}x{d}xf32>) -> tensor<{mk}x{nh}x{d}xf32>
");
        op_asm (fmt n "  %vrep = func.call @repeat_kv_mk(%v_upd) : (tensor<{mk}x{nkv}x{d}xf32>) -> tensor<{mk}x{nh}x{d}xf32>
"));
  let '(k_full, v_full) := if negb (nkv =? nh) then ("krep", "vrep") else ("k_upd", "v_upd") in
  op_asm (fmt ([("scale:.8e", attention_scale c); ("q_ssa", q_ssa); ("k_full", k_full);
                ("v_full", v_full)] ++ n) "  %q_ti = tensor.empty() : tensor<{nh}x1x{d}xf32>
  %k_ti = tensor.empty() : tensor<{nh}x{mk}x{d}xf32>
  %v_ti = tensor.empty() : tensor<{nh}x{mk}x{d}xf32>
  %qb = linalg.transpose ins(%{q_ssa} : tensor<1x{nh}x{d}xf32>) outs(%q_ti : tensor<{nh}x1x{d}xf32>) permutation = [1, 0, 2]
  %kb = linalg.transpose ins(%{k_full} : tensor<{mk}x{nh}x{d}xf32>) outs(%k_ti : tensor<{nh}x{mk}x{d}xf32>) permutation = [1, 0, 2]
  %vb = linalg.transpose ins(%{v_full} : tensor<{mk}x{nh}x{d}xf32>) outs(%v_ti : tensor<{nh}x{mk}x{d}xf32>) permutation = [1, 0, 2]
  %kt_i = tensor.empty() : tensor<{nh}x{d}x{mk}xf32>
  %kt = linalg.transpose ins(%kb : tensor<{nh}x{mk}x{d}xf32>) outs(%kt_i : tensor<{nh}x{d}x{mk}xf32>) permutation = [0, 2, 1]
  %c0 = arith.constant 0.0 : f32
  %scale = arith.constant {scale:.8e} : f32
  %sc_i = tensor.empty() : tensor<{nh}x1x{mk}xf32>
  %sc_z = linalg.fill ins(%c0 : f32) outs(%sc_i : tensor<{nh}x1x{mk}xf32>) -> tensor<{nh}x1x{mk}xf32>
  %scores = linalg.batch_matmul ins(%qb, %kt : tensor<{nh}x1x{d}xf32>, tensor<{nh}x{d}x{mk}xf32>) outs(%sc_z : tensor<{nh}x1x{mk}xf32>) -> tensor<{nh}x1x{mk}xf32>
  %scores_s = linalg.generic {{
      indexing_maps = [affine_map<(d0, d1, d2) -> (d0, d1, d2)>, affine_map<(d0, d1, d2) -> (d0, d1, d2)>],
      iterator_types = ['parallel', 'parallel', 'parallel']}}
    ins(%scores : tensor<{nh}x1x{mk}xf32>) outs(%scores : tensor<{nh}x1x{mk}xf32>) {{
    ^bb0(%a: f32, %b: f32):
      %m = arith.mulf %a, %scale : f32
      linalg.yield %m : f32
  }} -> tensor<{nh}x1x{mk}xf32>
  %bias_i = tensor.empty() : tensor<{nh}x1x{mk}xf32>
  %bias_3d = linalg.generic {{
      indexing_maps = [
        affine_map<(d0, d1, d2) -> (d2)>,
        affine_map<(d0, d1, d2) -> (d0, d1, d2)>
      ],
      iterator_types = ['parallel', 'parallel', 'parallel']}}
    ins(%attn_bias : tensor<{mk}xf32>) outs(%bias_i : tensor<{nh}x1x{mk}xf32>) {{
    ^bb0(%b: f32, %o: f32):
      linalg.yield %b : f32
  }} -> tensor<{nh}x1x{mk}xf32>
  %masked_i = tensor.empty() : tensor<{nh}x1x{mk}xf32>
  %masked = linalg.generic {{
      indexing_maps = [
        affine_map<(d0, d1, d2) -> (d0, d1, d2)>,
        affine_map<(d0, d1, d2) -> (d0, d1, d2)>,
        affine_map<(d0, d1, d2) -> (d0, d1, d2)>
      ],
      iterator_types = ['parallel', 'parallel', 'parallel']}}
    ins(%scores_s, %bias_3d : tensor<{nh}x1x{mk}xf32>, tensor<{nh}x1x{mk}xf32>) outs(%masked_i : tensor<{nh}x1x{mk}xf32>) {{
    ^bb0(%a: f32, %b: f32, %o: f32):
      %s = arith.addf %a, %b : f32
      linalg.yield %s : f32
  }} -> tensor<{nh}x1x{mk}xf32>
  %sm_i = tensor.empty() : tensor<{nh}x1x{mk}xf32>
  %attn = linalg.softmax dimension(2) ins(%masked : tensor<{nh}x1x{mk}xf32>) outs(%sm_i : tensor<{nh}x1x{mk}xf32>) -> tensor<{nh}x1x{mk}xf32>
  %ctx_i = tensor.empty() : tensor<{nh}x1x{d}xf32>
  %ctx_z = linalg.fill ins(%c0 : f32) outs(%ctx_i : tensor<{nh}x1x{d}xf32>) -> tensor<{nh}x1x{d}xf32>
  %ctx_b = linalg.batch_matmul ins(%attn, %vb : tensor<{nh}x1x{mk}xf32>, tensor<{nh}x{mk}x{d}xf32>) outs(%ctx_z : tensor<{nh}x1x{d}xf32>) -> tensor<{nh}x1x{d}xf32>
  %ctx_t_i = tensor.empty() : tensor<1x{nh}x{d}xf32>
  %ctx_t = linalg.transpose ins(%ctx_b : tensor<{nh}x1x{d}xf32>) outs(%ctx_t_i : tensor<1x{nh}x{d}xf32>) permutation = [1, 0, 2]
  %ctx = tensor.collapse_shape %ctx_t [[0], [1, 2]] : tensor<1x{nh}x{d}xf32> into tensor<1x{q}xf32>
  return %ctx, %k_upd, %v_upd : tensor<1x{q}xf32>, tensor<{mk}x{nkv}x{d}xf32>, tensor<{mk}x{nkv}x{d}xf32>
").

Definition emit_decode_helpers (c : DenseDecoderConfig) : Program unit :=
  let n := dims c in
  let '(mk, h, i, nh, nkv, d) := (dd_max_kv c, dd_hidden c, dd_intermediate c, dd_num_heads c,
                                  dd_num_kv_heads c, dd_head_dim c) in
  let '(q, kv) := (q_dim c, kv_dim c) in
  let eps := dd_rms_norm_eps c in
  _ ← emit_rms_norm "rms_norm_tok" 1 h eps;
  _ ← emit_linear "linear_hq_tok" 1 h q true;
  _ ← emit_linear "linear_hkv_tok" 1 h kv true;
  _ ← emit_linear "linear_qh_tok" 1 q h true;
  _ ← emit_linear "linear_hi_tok" 1 h i true;
  _ ← emit_linear "linear_ih_tok" 1 i h true;
  _ ← emit_if (has_short_conv c) (
        let cc := dd_conv_dim c in
        _ ← emit_linear "linear_h_c3_tok" 1 h (mul32 3 cc) true;
        emit_linear "linear_c_h_tok" 1 cc h true);
  _ ← emit_if (dd_has_qk_norm c) (
        _ ← emit_rms_norm_heads "rms_norm_q_heads_tok" 1 nh d eps;
        emit_if (negb (nkv =? nh)) (emit_rms_norm_heads "rms_norm_kv_heads_tok" 1 nkv d eps));
  _ ← emit_each (fun layer => emit_conv_op encodings c layer Decode) (conv_layers c);
  _ ← emit_if (negb (nkv =? nh)) (emit_repeat_kv "repeat_kv_mk" mk nkv nh d (gqa_group c));
  _ ← (match dd_rope_theta c with
       | Some theta =>
           _ ← emit_rope_at "apply_rope_q_at" mk nh d theta;
           emit_if (negb (nkv =? nh)) (emit_rope_at "apply_rope_kv_at" mk nkv d theta)
       | None => mret tt
       end);
  _ ← func_private "kv_update_row" (
        _ ← args [("cache", fmt n "tensor<{mk}x{nkv}x{d}xf32>"); ("row", fmt n "tensor<1x{nkv}x{d}xf32>"); ("pos_t", "tensor<i64>")];
        _ ← result_ty (fmt n "tensor<{mk}x{nkv}x{d}xf32>");
        op_asm (fmt n "  %pos_i64 = tensor.extract %pos_t[] : tensor<i64>
  %pos = arith.index_cast %pos_i64 : i64 to index
  %c0 = arith.constant 0 : index
  %y = tensor.insert_slice %row into %cache[%pos, %c0, %c0] [1, {nkv}, {d}] [1, 1, 1] : tensor<1x{nkv}x{d}xf32> into tensor<{mk}x{nkv}x{d}xf32>
  return %y : tensor<{mk}x{nkv}x{d}xf32>"));
  func_private "attn_decode" (
    _ ← args [("q", fmt n "tensor<1x{q}xf32>"); ("k_cache", fmt n "tensor<{mk}x{nkv}x{d}xf32>"); ("v_cache", fmt n "tensor<{mk}x{nkv}x{d}xf32>");
              ("k_new", fmt n "tensor<1x{nkv}x{d}xf32>"); ("v_new", fmt n "tensor<1x{nkv}x{d}xf32>"); ("pos_t", "tensor<i64>");
              ("attn_bias", fmt n "tensor<{mk}xf32>")];
    _ ← emit_if (dd_has_qk_norm c) (args [("q_norm", fmt n "tensor<{d}xf32>"); ("k_norm", fmt n "tensor<{d}xf32>")]);
    _ ← returns [fmt n "tensor<1x{q}xf32>"; fmt n "tensor<{mk}x{nkv}x{d}xf32>"; fmt n "tensor<{mk}x{nkv}x{d}xf32>"];
    attn_decode_body c).

(** ** Prefill *)

(** The row of the embedding of one position, put in the window. *)
Definition prefill_token (c : DenseDecoderConfig) (pos : Z) : Function unit :=
  let e := ("pos", num pos) :: dims c in
  _ ← op_asm (fmt e "  %c{pos}i = arith.constant {pos} : index
");
  _ ← op_asm (fmt e "  %t{pos} = tensor.extract %tokens[%c{pos}i] : tensor<{s}xi64>
");
  _ ← op_asm (fmt e "  %i{pos} = arith.index_cast %t{pos} : i64 to index
");
  _ ← unless (emit_embedding_parameter encodings c (fmt e "r{pos}") (fmt e "i{pos}") "emb_t" Prefill)
        (op_asm (fmt e "  %r{pos} = tensor.extract_slice %emb_t[%i{pos}, 0] [1, {h}] [1, 1] : tensor<{v}x{h}xf32> to tensor<1x{h}xf32>
"));
  let prev := if pos =? 0 then "h_acc0" else fmt e "h_acc{pos}" in
  let next := fmt [("", num (add32 pos 1))] "h_acc{}" in
  op_asm (fmt (("next", next) :: ("prev", prev) :: e) "  %{next} = tensor.insert_slice %r{pos} into %{prev}[{pos}, 0] [1, {h}] [1, 1] : tensor<1x{h}xf32> into tensor<{s}x{h}xf32>
").

Definition prefill_conv (c : DenseDecoderConfig) (e : env) : Function unit :=
  let s := dd_seq c in
  let h := dd_hidden c in
  let cc := dd_conv_dim c in
  _ ← emit_loads encodings c (("", num (mul32 3 cc)) :: e)
        [("{p}_conv_in", "{p}_shortconv_in_proj_weight", "{n}.shortconv.in_proj.weight", "{}x{h}"); ("{p}_conv_out_w", "{p}_shortconv_out_proj_weight", "{n}.shortconv.out_proj.weight", "{h}x{cc}")];
  _ ← op_asm (fmt e "  %{p}_xn = func.call @rms_norm(%{xin}, %{p}_attn_nw) : (tensor<{s}x{h}xf32>, tensor<{h}xf32>) -> tensor<{s}x{h}xf32>
");
  _ ← emit_linear_call encodings c (fmt e "{p}_conv_inp") "linear_h_c3" (fmt e "{p}_xn") (fmt e "{p}_conv_in")
        (fmt e "{n}.shortconv.in_proj.weight") s h (mul32 3 cc);
  _ ← op_asm (fmt e "  %{p}_conv_y = func.call @conv_op{layer}(%{p}_conv_inp) : (tensor<{s}x{c3}xf32>) -> tensor<{s}x{cc}xf32>
");
  _ ← emit_linear_call encodings c (fmt e "{p}_conv_proj") "linear_c_h" (fmt e "{p}_conv_y") (fmt e "{p}_conv_out_w")
        (fmt e "{n}.shortconv.out_proj.weight") s cc h;
  op_asm (fmt e "  %{p}_h2 = arith.addf %{xin}, %{p}_conv_proj : tensor<{s}x{h}xf32>
").

(** The attention of a layer over the paged cache. *)
Definition prefill_paged_attention (c : DenseDecoderConfig) (e : env) : Function unit :=
  let list_ty := fmt e "!util.list<tensor<{num_layers}x2x{page}x{nkv}x{d}xf32>>" in
  let e := [("qg_ty", fmt e "tensor<{nkv}x{g}x{s}x{d}xf32>"); ("kv3_ty", fmt e "tensor<{s}x{nkv}x{d}xf32>"); ("list_ty", list_ty);
            ("norm_args", if dd_has_qk_norm c then fmt e ", %{p}_qnw, %{p}_knw" else EmptyString);
            ("norm_types", if dd_has_qk_norm c then fmt e ", tensor<{d}xf32>, tensor<{d}xf32>" else EmptyString)] ++ e in
  _ ← op_asm (fmt e "  %{p}_qg, %{p}_kc, %{p}_vc = func.call @prepare_paged_attention(%{p}_q, %{p}_k, %{p}_v, %start_pos{norm_args}) : (tensor<{s}x{q}xf32>, tensor<{s}x{kv}xf32>, tensor<{s}x{kv}xf32>, tensor<i64>{norm_types}) -> ({qg_ty}, {kv3_ty}, {kv3_ty})
");
  _ ← op_asm (fmt e "  func.call @store_paged_kv_{layer}(%{p}_kc, %{p}_vc, %start_pos, %pages) : ({kv3_ty}, {kv3_ty}, tensor<i64>, {list_ty}) -> ()
");
  _ ← op_asm (fmt e "  %{p}_ctxg = func.call @attend_pages_{layer}(%{p}_qg, %start_pos, %pages) : ({qg_ty}, tensor<i64>, {list_ty}) -> {qg_ty}
");
  _ ← op_asm (fmt e "  %{p}_ctx4e = tensor.empty() : tensor<{s}x{nkv}x{g}x{d}xf32>
");
  _ ← op_asm (fmt e "  %{p}_ctx4 = linalg.transpose ins(%{p}_ctxg : {qg_ty}) outs(%{p}_ctx4e : tensor<{s}x{nkv}x{g}x{d}xf32>) permutation = [2, 0, 1, 3]
");
  op_asm (fmt e "  %{p}_ctx = tensor.collapse_shape %{p}_ctx4 [[0], [1, 2, 3]] : tensor<{s}x{nkv}x{g}x{d}xf32> into tensor<{s}x{q}xf32>
").

Definition prefill_attention (c : DenseDecoderConfig) (e : env) : Function unit :=
  let s := dd_seq c in
  let h := dd_hidden c in
  let '(q, kv) := (q_dim c, kv_dim c) in
  _ ← emit_loads encodings c e
        [("{p}_wq", "{p}_attn_q_weight", "{n}.attn_q.weight", "{q}x{h}"); ("{p}_wk", "{p}_attn_k_weight", "{n}.attn_k.weight", "{kv}x{h}");
         ("{p}_wv", "{p}_attn_v_weight", "{n}.attn_v.weight", "{kv}x{h}"); ("{p}_wo", "{p}_attn_output_weight", "{n}.attn_output.weight", "{h}x{q}")];
  _ ← emit_if (dd_has_qk_norm c) (emit_loads encodings c e
        [("{p}_qnw", "{p}_attn_q_norm_weight", "{n}.attn_q_norm.weight", "{d}"); ("{p}_knw", "{p}_attn_k_norm_weight", "{n}.attn_k_norm.weight", "{d}")]);
  _ ← op_asm (fmt e "  %{p}_xn = func.call @rms_norm(%{xin}, %{p}_attn_nw) : (tensor<{s}x{h}xf32>, tensor<{h}xf32>) -> tensor<{s}x{h}xf32>
");
  _ ← emit_linear_call encodings c (fmt e "{p}_q") "linear_hq" (fmt e "{p}_xn") (fmt e "{p}_wq") (fmt e "{n}.attn_q.weight") s h q;
  _ ← emit_linear_call encodings c (fmt e "{p}_k") "linear_hkv" (fmt e "{p}_xn") (fmt e "{p}_wk") (fmt e "{n}.attn_k.weight") s h kv;
  _ ← emit_linear_call encodings c (fmt e "{p}_v") "linear_hkv" (fmt e "{p}_xn") (fmt e "{p}_wv") (fmt e "{n}.attn_v.weight") s h kv;
  _ ← (if dd_paged_kv c then prefill_paged_attention c e
       else if dd_has_qk_norm c then
         _ ← op_asm (fmt e "  %{p}_ctx, %{p}_kc, %{p}_vc = func.call @attn(%{p}_q, %{p}_k, %{p}_v, %{p}_qnw, %{p}_knw) : (tensor<{s}x{q}xf32>, tensor<{s}x{kv}xf32>, tensor<{s}x{kv}xf32>, tensor<{d}xf32>, tensor<{d}xf32>) -> (tensor<{s}x{q}xf32>, tensor<{s}x{nkv}x{d}xf32>, tensor<{s}x{nkv}x{d}xf32>)
");
         _ ← op_asm (fmt e "  %{p}_k_z = tensor.empty() : tensor<{mk}x{nkv}x{d}xf32>
  %{p}_v_z = tensor.empty() : tensor<{mk}x{nkv}x{d}xf32>
  %{p}_k_f0 = arith.constant 0.0 : f32
");
         _ ← op_asm (fmt e "  %{p}_k_old = linalg.fill ins(%{p}_k_f0 : f32) outs(%{p}_k_z : tensor<{mk}x{nkv}x{d}xf32>) -> tensor<{mk}x{nkv}x{d}xf32>
  %{p}_v_old = linalg.fill ins(%{p}_k_f0 : f32) outs(%{p}_v_z : tensor<{mk}x{nkv}x{d}xf32>) -> tensor<{mk}x{nkv}x{d}xf32>
");
         _ ← op_asm (fmt e "  %{p}_k_new = tensor.insert_slice %{p}_kc into %{p}_k_old[0, 0, 0] [{s}, {nkv}, {d}] [1, 1, 1] : tensor<{s}x{nkv}x{d}xf32> into tensor<{mk}x{nkv}x{d}xf32>
  %{p}_v_new = tensor.insert_slice %{p}_vc into %{p}_v_old[0, 0, 0] [{s}, {nkv}, {d}] [1, 1, 1] : tensor<{s}x{nkv}x{d}xf32> into tensor<{mk}x{nkv}x{d}xf32>
");
         op_asm (fmt e "  util.global.store %{p}_k_new, @kv_k{layer} : tensor<{mk}x{nkv}x{d}xf32>
  util.global.store %{p}_v_new, @kv_v{layer} : tensor<{mk}x{nkv}x{d}xf32>
")
       else
         _ ← op_asm (fmt e "  %{p}_ctx, %{p}_kc, %{p}_vc = func.call @attn(%{p}_q, %{p}_k, %{p}_v) : (tensor<{s}x{q}xf32>, tensor<{s}x{kv}xf32>, tensor<{s}x{kv}xf32>) -> (tensor<{s}x{q}xf32>, tensor<{s}x{nkv}x{d}xf32>, tensor<{s}x{nkv}x{d}xf32>)
");
         _ ← op_asm (fmt e "  %{p}_k_z = tensor.empty() : tensor<{mk}x{nkv}x{d}xf32>
  %{p}_v_z = tensor.empty() : tensor<{mk}x{nkv}x{d}xf32>
  %{p}_k_f0 = arith.constant 0.0 : f32
");
         _ ← op_asm (fmt e "  %{p}_k_old = linalg.fill ins(%{p}_k_f0 : f32) outs(%{p}_k_z : tensor<{mk}x{nkv}x{d}xf32>) -> tensor<{mk}x{nkv}x{d}xf32>
  %{p}_v_old = linalg.fill ins(%{p}_k_f0 : f32) outs(%{p}_v_z : tensor<{mk}x{nkv}x{d}xf32>) -> tensor<{mk}x{nkv}x{d}xf32>
");
         _ ← op_asm (fmt e "  %{p}_k_new = tensor.insert_slice %{p}_kc into %{p}_k_old[0, 0, 0] [{s}, {nkv}, {d}] [1, 1, 1] : tensor<{s}x{nkv}x{d}xf32> into tensor<{mk}x{nkv}x{d}xf32>
  %{p}_v_new = tensor.insert_slice %{p}_vc into %{p}_v_old[0, 0, 0] [{s}, {nkv}, {d}] [1, 1, 1] : tensor<{s}x{nkv}x{d}xf32> into tensor<{mk}x{nkv}x{d}xf32>
");
         op_asm (fmt e "  util.global.store %{p}_k_new, @kv_k{layer} : tensor<{mk}x{nkv}x{d}xf32>
  util.global.store %{p}_v_new, @kv_v{layer} : tensor<{mk}x{nkv}x{d}xf32>
"));
  _ ← emit_linear_call encodings c (fmt e "{p}_o") "linear_qh" (fmt e "{p}_ctx") (fmt e "{p}_wo") (fmt e "{n}.attn_output.weight") s q h;
  op_asm (fmt e "  %{p}_h2 = arith.addf %{xin}, %{p}_o : tensor<{s}x{h}xf32>
").

(** One layer, from the value [xin] to the value its texts call [{p}_hout]. *)
Definition prefill_layer (c : DenseDecoderConfig) (layer : Z) (xin : string) : Function string :=
  let e := ("xin", xin) :: ("", num (dd_intermediate c)) :: ("num_layers", num (dd_num_layers c)) ::
           layer_env layer ++ dims c in
  let '(s, h, i) := (dd_seq c, dd_hidden c, dd_intermediate c) in
  _ ← emit_loads encodings c e
        [("{p}_attn_nw", "{p}_attn_norm_weight", "{n}.attn_norm.weight", "{h}"); ("{p}_ffn_nw", "{p}_ffn_norm_weight", "{n}.ffn_norm.weight", "{h}");
         ("{p}_wgate", "{p}_ffn_gate_weight", "{n}.ffn_gate.weight", "{}x{h}"); ("{p}_wup", "{p}_ffn_up_weight", "{n}.ffn_up.weight", "{}x{h}");
         ("{p}_wdown", "{p}_ffn_down_weight", "{n}.ffn_down.weight", "{h}x{}")];
  _ ← (match layer_kind c layer with
       | ShortConvLayer => prefill_conv c e
       | AttentionLayer => prefill_attention c e
       end);
  _ ← op_asm (fmt e "  %{p}_fn = func.call @rms_norm(%{p}_h2, %{p}_ffn_nw) : (tensor<{s}x{h}xf32>, tensor<{h}xf32>) -> tensor<{s}x{h}xf32>
");
  _ ← emit_linear_call encodings c (fmt e "{p}_gate") "linear_hi" (fmt e "{p}_fn") (fmt e "{p}_wgate") (fmt e "{n}.ffn_gate.weight") s h i;
  _ ← emit_linear_call encodings c (fmt e "{p}_up") "linear_hi" (fmt e "{p}_fn") (fmt e "{p}_wup") (fmt e "{n}.ffn_up.weight") s h i;
  _ ← op_asm (fmt e "  %{p}_silu = linalg.generic {{
      indexing_maps = [affine_map<(d0, d1) -> (d0, d1)>, affine_map<(d0, d1) -> (d0, d1)>],
      iterator_types = ['parallel', 'parallel']}}
    ins(%{p}_gate : tensor<{s}x{i}xf32>) outs(%{p}_gate : tensor<{s}x{i}xf32>) {{
    ^bb0(%a: f32, %b: f32):
      %n = arith.negf %a : f32
      %e = math.exp %n : f32
      %one = arith.constant 1.0 : f32
      %den = arith.addf %one, %e : f32
      %sg = arith.divf %a, %den : f32
      linalg.yield %sg : f32
  }} -> tensor<{s}x{i}xf32>
");
  _ ← op_asm (fmt e "  %{p}_ff = arith.mulf %{p}_silu, %{p}_up : tensor<{s}x{i}xf32>
");
  _ ← emit_linear_call encodings c (fmt e "{p}_down") "linear_ih" (fmt e "{p}_ff") (fmt e "{p}_wdown") (fmt e "{n}.ffn_down.weight") s i h;
  _ ← op_asm (fmt e "  %{p}_hout = arith.addf %{p}_h2, %{p}_down : tensor<{s}x{h}xf32>
");
  mret (fmt e "{p}_hout").

(** [for layer in ..]: each layer starts from the previous one's result. *)
Fixpoint emit_layers (f : Z -> string -> Function string) (layers : list Z) (h_name : string) : Function string :=
  match layers with
  | [] => mret h_name
  | layer :: layers => h_name ← f layer h_name; emit_layers f layers h_name
  end.

Definition emit_prefill (c : DenseDecoderConfig) : Program unit :=
  let n := dims c in
  func (if dd_paged_kv c then "prefill_chunk" else "prefill") (
    _ ← args [("tokens", fmt n "tensor<{s}xi64>"); ("last", "tensor<i64>")];
    _ ← emit_if (dd_paged_kv c) (
          _ ← args [("start_pos", "tensor<i64>")];
          op_asm (fmt (("num_layers", num (dd_num_layers c)) :: n)
            "  %pages = util.global.load @kv_pages : !util.list<tensor<{num_layers}x2x{page}x{nkv}x{d}xf32>>
"));
    _ ← result_ty (fmt n "tensor<{v}xf32>");
    _ ← emit_loads encodings c n [("emb_t", "token_embd_weight", "token_embd.weight", "{v}x{h}")];
    _ ← op_asm (fmt n "  %h_acc0 = tensor.empty() : tensor<{s}x{h}xf32>
");
    _ ← emit_each (prefill_token c) (Z.of_nat <$> seq 0 (Z.to_nat (dd_seq c)));
    _ ← emit_if (has_short_conv c) (emit_zero_conv_states c "  ");
    h_name ← emit_layers (prefill_layer c) (layers c) (fmt n "h_acc{s}");
    let e := ("h_name", h_name) :: n in
    _ ← emit_loads encodings c n [("out_nw", "output_norm_weight", "output_norm.weight", "{h}"); ("wout", "output_weight", "output.weight", "{v}x{h}")];
    _ ← op_asm "  %last_i64 = tensor.extract %last[] : tensor<i64>
";
    _ ← op_asm "  %li = arith.index_cast %last_i64 : i64 to index
";
    _ ← op_asm (fmt e "  %last_row = tensor.extract_slice %{h_name}[%li, 0] [1, {h}] [1, 1] : tensor<{s}x{h}xf32> to tensor<1x{h}xf32>
");
    _ ← op_asm (fmt e "  %last_tile = tensor.empty() : tensor<{s}x{h}xf32>
");
    _ ← op_asm (fmt e "  %last_s = tensor.insert_slice %last_row into %last_tile[0, 0] [1, {h}] [1, 1] : tensor<1x{h}xf32> into tensor<{s}x{h}xf32>
");
    _ ← op_asm (fmt e "  %ln = func.call @rms_norm(%last_s, %out_nw) : (tensor<{s}x{h}xf32>, tensor<{h}xf32>) -> tensor<{s}x{h}xf32>
");
    _ ← op_asm (fmt e "  %ln1 = tensor.extract_slice %ln[0, 0] [1, {h}] [1, 1] : tensor<{s}x{h}xf32> to tensor<1x{h}xf32>
");
    _ ← emit_output_proj encodings c "ln1" "wout" Prefill;
    op_asm (fmt n "  return %logits : tensor<{v}xf32>")).

(** ** Decode *)

Definition decode_conv (c : DenseDecoderConfig) (e : env) : Function unit :=
  let h := dd_hidden c in
  let cc := dd_conv_dim c in
  _ ← emit_loads encodings c (("", num (mul32 3 cc)) :: e)
        [("{p}_conv_in", "{p}_shortconv_in_proj_weight", "{n}.shortconv.in_proj.weight", "{}x{h}"); ("{p}_conv_out_w", "{p}_shortconv_out_proj_weight", "{n}.shortconv.out_proj.weight", "{h}x{cc}")];
  _ ← op_asm (fmt e "  %{p}_xn = func.call @rms_norm_tok(%{xin}, %{p}_attn_nw) : (tensor<1x{h}xf32>, tensor<{h}xf32>) -> tensor<1x{h}xf32>
");
  _ ← emit_linear_call encodings c (fmt e "{p}_conv_inp") "linear_h_c3_tok" (fmt e "{p}_xn") (fmt e "{p}_conv_in")
        (fmt e "{n}.shortconv.in_proj.weight") 1 h (mul32 3 cc);
  _ ← op_asm (fmt e "  %{p}_conv_y = func.call @conv_op{layer}_tok(%{p}_conv_inp) : (tensor<1x{c3}xf32>) -> tensor<1x{cc}xf32>
");
  _ ← emit_linear_call encodings c (fmt e "{p}_conv_proj") "linear_c_h_tok" (fmt e "{p}_conv_y") (fmt e "{p}_conv_out_w")
        (fmt e "{n}.shortconv.out_proj.weight") 1 cc h;
  op_asm (fmt e "  %{p}_h2 = arith.addf %{xin}, %{p}_conv_proj : tensor<1x{h}xf32>
").

Definition decode_attention (c : DenseDecoderConfig) (e : env) : Function unit :=
  let h := dd_hidden c in
  let '(q, kv) := (q_dim c, kv_dim c) in
  _ ← emit_loads encodings c e
        [("{p}_wq", "{p}_attn_q_weight", "{n}.attn_q.weight", "{q}x{h}"); ("{p}_wk", "{p}_attn_k_weight", "{n}.attn_k.weight", "{kv}x{h}");
         ("{p}_wv", "{p}_attn_v_weight", "{n}.attn_v.weight", "{kv}x{h}"); ("{p}_wo", "{p}_attn_output_weight", "{n}.attn_output.weight", "{h}x{q}")];
  _ ← emit_if (dd_has_qk_norm c) (emit_loads encodings c e
        [("{p}_qnw", "{p}_attn_q_norm_weight", "{n}.attn_q_norm.weight", "{d}"); ("{p}_knw", "{p}_attn_k_norm_weight", "{n}.attn_k_norm.weight", "{d}")]);
  _ ← op_asm (fmt e "  %{p}_xn = func.call @rms_norm_tok(%{xin}, %{p}_attn_nw) : (tensor<1x{h}xf32>, tensor<{h}xf32>) -> tensor<1x{h}xf32>
");
  _ ← emit_linear_call encodings c (fmt e "{p}_q") "linear_hq_tok" (fmt e "{p}_xn") (fmt e "{p}_wq") (fmt e "{n}.attn_q.weight") 1 h q;
  _ ← emit_linear_call encodings c (fmt e "{p}_k") "linear_hkv_tok" (fmt e "{p}_xn") (fmt e "{p}_wk") (fmt e "{n}.attn_k.weight") 1 h kv;
  _ ← emit_linear_call encodings c (fmt e "{p}_v") "linear_hkv_tok" (fmt e "{p}_xn") (fmt e "{p}_wv") (fmt e "{n}.attn_v.weight") 1 h kv;
  _ ← op_asm (fmt e "  %{p}_k3 = tensor.expand_shape %{p}_k [[0], [1, 2]] output_shape [1, {nkv}, {d}] : tensor<1x{kv}xf32> into tensor<1x{nkv}x{d}xf32>
");
  _ ← op_asm (fmt e "  %{p}_v3 = tensor.expand_shape %{p}_v [[0], [1, 2]] output_shape [1, {nkv}, {d}] : tensor<1x{kv}xf32> into tensor<1x{nkv}x{d}xf32>
");
  _ ← op_asm (fmt e "  %{p}_k_old = util.global.load @kv_k{layer} : tensor<{mk}x{nkv}x{d}xf32>
");
  _ ← op_asm (fmt e "  %{p}_v_old = util.global.load @kv_v{layer} : tensor<{mk}x{nkv}x{d}xf32>
");
  _ ← (if dd_has_qk_norm c then op_asm (fmt e "  %{p}_ctx, %{p}_k_new, %{p}_v_new = func.call @attn_decode(%{p}_q, %{p}_k_old, %{p}_v_old, %{p}_k3, %{p}_v3, %pos, %attn_bias, %{p}_qnw, %{p}_knw) : (tensor<1x{q}xf32>, tensor<{mk}x{nkv}x{d}xf32>, tensor<{mk}x{nkv}x{d}xf32>, tensor<1x{nkv}x{d}xf32>, tensor<1x{nkv}x{d}xf32>, tensor<i64>, tensor<{mk}xf32>, tensor<{d}xf32>, tensor<{d}xf32>) -> (tensor<1x{q}xf32>, tensor<{mk}x{nkv}x{d}xf32>, tensor<{mk}x{nkv}x{d}xf32>)
") else op_asm (fmt e "  %{p}_ctx, %{p}_k_new, %{p}_v_new = func.call @attn_decode(%{p}_q, %{p}_k_old, %{p}_v_old, %{p}_k3, %{p}_v3, %pos, %attn_bias) : (tensor<1x{q}xf32>, tensor<{mk}x{nkv}x{d}xf32>, tensor<{mk}x{nkv}x{d}xf32>, tensor<1x{nkv}x{d}xf32>, tensor<1x{nkv}x{d}xf32>, tensor<i64>, tensor<{mk}xf32>) -> (tensor<1x{q}xf32>, tensor<{mk}x{nkv}x{d}xf32>, tensor<{mk}x{nkv}x{d}xf32>)
"));
  _ ← op_asm (fmt e "  util.global.store %{p}_k_new, @kv_k{layer} : tensor<{mk}x{nkv}x{d}xf32>
");
  _ ← op_asm (fmt e "  util.global.store %{p}_v_new, @kv_v{layer} : tensor<{mk}x{nkv}x{d}xf32>
");
  _ ← emit_linear_call encodings c (fmt e "{p}_o") "linear_qh_tok" (fmt e "{p}_ctx") (fmt e "{p}_wo") (fmt e "{n}.attn_output.weight") 1 q h;
  op_asm (fmt e "  %{p}_h2 = arith.addf %{xin}, %{p}_o : tensor<1x{h}xf32>
").

Definition decode_layer (c : DenseDecoderConfig) (layer : Z) (xin : string) : Function string :=
  let e := ("xin", xin) :: ("", num (dd_intermediate c)) :: layer_env layer ++ dims c in
  let '(h, i) := (dd_hidden c, dd_intermediate c) in
  _ ← emit_loads encodings c e
        [("{p}_attn_nw", "{p}_attn_norm_weight", "{n}.attn_norm.weight", "{h}"); ("{p}_ffn_nw", "{p}_ffn_norm_weight", "{n}.ffn_norm.weight", "{h}");
         ("{p}_wgate", "{p}_ffn_gate_weight", "{n}.ffn_gate.weight", "{}x{h}"); ("{p}_wup", "{p}_ffn_up_weight", "{n}.ffn_up.weight", "{}x{h}");
         ("{p}_wdown", "{p}_ffn_down_weight", "{n}.ffn_down.weight", "{h}x{}")];
  _ ← (match layer_kind c layer with
       | ShortConvLayer => decode_conv c e
       | AttentionLayer => decode_attention c e
       end);
  _ ← op_asm (fmt e "  %{p}_fn = func.call @rms_norm_tok(%{p}_h2, %{p}_ffn_nw) : (tensor<1x{h}xf32>, tensor<{h}xf32>) -> tensor<1x{h}xf32>
");
  _ ← emit_linear_call encodings c (fmt e "{p}_gate") "linear_hi_tok" (fmt e "{p}_fn") (fmt e "{p}_wgate") (fmt e "{n}.ffn_gate.weight") 1 h i;
  _ ← emit_linear_call encodings c (fmt e "{p}_up") "linear_hi_tok" (fmt e "{p}_fn") (fmt e "{p}_wup") (fmt e "{n}.ffn_up.weight") 1 h i;
  _ ← op_asm (fmt e "  %{p}_silu = linalg.generic {{
      indexing_maps = [affine_map<(d0, d1) -> (d0, d1)>, affine_map<(d0, d1) -> (d0, d1)>],
      iterator_types = ['parallel', 'parallel']}}
    ins(%{p}_gate : tensor<1x{i}xf32>) outs(%{p}_gate : tensor<1x{i}xf32>) {{
    ^bb0(%a: f32, %b: f32):
      %n = arith.negf %a : f32
      %e = math.exp %n : f32
      %one = arith.constant 1.0 : f32
      %den = arith.addf %one, %e : f32
      %sg = arith.divf %a, %den : f32
      linalg.yield %sg : f32
  }} -> tensor<1x{i}xf32>
");
  _ ← op_asm (fmt e "  %{p}_ff = arith.mulf %{p}_silu, %{p}_up : tensor<1x{i}xf32>
");
  _ ← emit_linear_call encodings c (fmt e "{p}_down") "linear_ih_tok" (fmt e "{p}_ff") (fmt e "{p}_wdown") (fmt e "{n}.ffn_down.weight") 1 i h;
  _ ← op_asm (fmt e "  %{p}_hout = arith.addf %{p}_h2, %{p}_down : tensor<1x{h}xf32>
");
  mret (fmt e "{p}_hout").

Definition emit_decode (c : DenseDecoderConfig) : Program unit :=
  let n := dims c in
  func "decode" (
    _ ← args [("token", "tensor<i64>"); ("pos", "tensor<i64>"); ("attn_bias", fmt n "tensor<{mk}xf32>")];
    _ ← result_ty (fmt n "tensor<{v}xf32>");
    _ ← emit_loads encodings c n [("emb_t", "token_embd_weight", "token_embd.weight", "{v}x{h}")];
    _ ← op_asm "  %tok = tensor.extract %token[] : tensor<i64>
";
    _ ← op_asm "  %ti = arith.index_cast %tok : i64 to index
";
    _ ← unless (emit_embedding_parameter encodings c "row" "ti" "emb_t" Decode)
          (op_asm (fmt n "  %row = tensor.extract_slice %emb_t[%ti, 0] [1, {h}] [1, 1] : tensor<{v}x{h}xf32> to tensor<1x{h}xf32>
"));
    h_name ← emit_layers (decode_layer c) (layers c) "row";
    _ ← emit_loads encodings c n [("out_nw", "output_norm_weight", "output_norm.weight", "{h}"); ("wout", "output_weight", "output.weight", "{v}x{h}")];
    _ ← op_asm (fmt (("h_name", h_name) :: n) "  %ln = func.call @rms_norm_tok(%{h_name}, %out_nw) : (tensor<1x{h}xf32>, tensor<{h}xf32>) -> tensor<1x{h}xf32>
");
    _ ← emit_output_proj encodings c "ln" "wout" Decode;
    op_asm (fmt n "  return %logits : tensor<{v}xf32>")).

End Static.
