(* ===== verification/StaticSymbols.v ===== *)
(** * The symbols of the static decoder

    The functions [attn], [attn_decode] and the two entry points refer to what
    the globals and the helpers declare. *)
From S2P Require Import Prelude Strings Errors Serde CoreTypes Ir Encodings Names Coverage.
From S2P Require Import Mlir Symbols SymbolLogic Kernels CodegenSymbols Codegen Compiler.
From S2P Require Import Decoder ParameterSymbols DecoderSymbols StaticDecoder Floats.
From Stdlib Require Import ZArith Lia Ascii String SpecFloat.
From stdpp Require Import base list strings gmap.
From stdpp Require Import options.

Local Open Scope Z_scope.

Section StaticSymbols.
Context {SJ : SerdeJson} {ML : MlirApi} {FF : FloatFunctions}.
Context (encodings : list QuantizationDefinition).

Lemma emit_attn_scoped pre c :
  (dd_has_qk_norm c = true -> scope pre "rms_norm_q_heads") ->
  (dd_has_qk_norm c = true -> negb (dd_num_kv_heads c =? dd_num_heads c) = true -> scope pre "rms_norm_kv_heads") ->
  (is_some (dd_rope_theta c) = true -> scope pre "apply_rope_q") ->
  (is_some (dd_rope_theta c) = true -> negb (dd_num_kv_heads c =? dd_num_heads c) = true ->
     scope pre "apply_rope_kv") ->
  (negb (dd_num_kv_heads c =? dd_num_heads c) = true -> scope pre "repeat_kv") ->
  Scoped pre (emit_attn c) ["attn"].
Proof.
  intros. unfold emit_attn, func_private. cbv zeta. eapply Scoped_function; [done|refs].
Qed.

Definition decode_helper_symbols (c : DenseDecoderConfig) : list string :=
  ["rms_norm_tok"; "linear_hq_tok"; "linear_hkv_tok"; "linear_qh_tok"; "linear_hi_tok"; "linear_ih_tok"] ++
  (if has_short_conv c then ["linear_h_c3_tok"; "linear_c_h_tok"] else []) ++
  (if dd_has_qk_norm c then "rms_norm_q_heads_tok" ::
     (if negb (dd_num_kv_heads c =? dd_num_heads c) then ["rms_norm_kv_heads_tok"] else []) else []) ++
  flat_map (fun layer => [conv_op layer Decode]) (conv_layers c) ++
  (if negb (dd_num_kv_heads c =? dd_num_heads c) then ["repeat_kv_mk"] else []) ++
  match dd_rope_theta c with
  | Some _ => "apply_rope_q_at" ::
      (if negb (dd_num_kv_heads c =? dd_num_heads c) then ["apply_rope_kv_at"] else [])
  | None => []
  end ++ ["kv_update_row"; "attn_decode"].

Lemma emit_decode_helpers_scoped pre c :
  parameters_in encodings (scope pre) c ->
  Scoped pre (emit_decode_helpers encodings c) (decode_helper_symbols c).
Proof.
  intros Hp. unfold emit_decode_helpers. cbv zeta. unfold attn_decode_body.
  unfold decode_helper_symbols. destruct (dd_rope_theta c) eqn:?; (eapply Scoped_adds; [scoped|]); done.
Qed.

(** ** The entry points *)

Lemma emit_layers_refs (R : string -> Prop) f l h_name :
  (forall layer xin, layer ∈ l -> is_ident xin -> Refs R (f layer xin) is_ident) ->
  is_ident h_name -> Refs R (emit_layers f l h_name) is_ident.
Proof.
  intros Hf. revert h_name. induction l as [|layer l IH]; intros h_name Hh; cbn [emit_layers]; [by apply Refs_ret|].
  eapply Refs_bind; [apply Hf; [apply list_elem_of_here|done]|]. intros h Hh'. apply IH; [|done].
  intros layer' xin Hl. apply Hf. by apply list_elem_of_further.
Qed.

Section Entry.
Context (R : string -> Prop) (c : DenseDecoderConfig).
Context (Hp : parameters_in encodings R c) (Hpaged : dd_paged_kv c = false).
Context (Hcache : forall layer, layer ∈ layers c -> layer_kind c layer = AttentionLayer ->
  R (String.append "kv_k" (num layer)) /\ R (String.append "kv_v" (num layer))).

Section Prefill.
Context (Hh : helpers_in encodings R c Prefill) (Hf : functions_in R c Prefill) (Hattn : R "attn").

Lemma prefill_layer_refs layer xin :
  layer ∈ layers c -> is_ident xin -> Refs R (prefill_layer encodings c layer xin) is_ident.
Proof using All.
  intros Hl Hx. unfold prefill_layer, prefill_attention. rewrite Hpaged. functions Hf.
  destruct (layer_kind c layer) eqn:Hk.
  - destruct (Hcache _ Hl Hk). cbn [mode_name] in *. refs.
  - convolution Hf Hl Hk. unfold conv_op in *. cbn [mode_name] in *. refs.
Qed.
#[local] Hint Extern 1 (Refs _ (emit_layers _ _ _) _) =>
  apply emit_layers_refs; [intros; apply prefill_layer_refs; assumption|ident] : refs.

Lemma emit_prefill_refs pre : R = scope pre -> Scoped pre (emit_prefill encodings c) ["prefill"].
Proof using All.
  intros HR. unfold emit_prefill. rewrite Hpaged. pose proof (dense_in _ _ _ Hf "rms_norm" ltac:(member)).
  unfold func. eapply Scoped_function; [done|]. rewrite <-HR. cbn [mode_name] in *. refs.
Qed.
End Prefill.

Section Decode.
Context (Hh : helpers_in encodings R c Decode) (Hf : functions_in R c Decode) (Hattn : R "attn_decode").

Lemma decode_layer_refs layer xin :
  layer ∈ layers c -> is_ident xin -> Refs R (decode_layer encodings c layer xin) is_ident.
Proof using All.
  intros Hl Hx. unfold decode_layer. functions Hf.
  destruct (layer_kind c layer) eqn:Hk.
  - destruct (Hcache _ Hl Hk). cbn [mode_name] in *. refs.
  - convolution Hf Hl Hk. unfold conv_op in *. cbn [mode_name] in *. refs.
Qed.
#[local] Hint Extern 1 (Refs _ (emit_layers _ _ _) _) =>
  apply emit_layers_refs; [intros; apply decode_layer_refs; assumption|ident] : refs.

Lemma emit_decode_refs pre : R = scope pre -> Scoped pre (emit_decode encodings c) ["decode"].
Proof using All.
  intros HR. unfold emit_decode. pose proof (dense_in _ _ _ Hf "rms_norm" ltac:(member)).
  unfold func. eapply Scoped_function; [done|]. rewrite <-HR. cbn [mode_name] in *. refs.
Qed.
End Decode.
End Entry.
End StaticSymbols.
