(* ===== verification/DecoderProgram.v ===== *)
(** * The decoder's programs: lowering/dense_decoder.rs, [emit_dense_decoder_cfg_program]

    The globals and helpers a program declares, and the program itself. *)
From S2P Require Import Prelude Strings Errors Serde CoreTypes Ir Encodings Coverage.
From S2P Require Import Mlir Kernels Codegen Compiler Decoder PagedDecoder StaticDecoder.
From Stdlib Require Import ZArith Lia Ascii String.
From stdpp Require Import base list strings gmap.
From stdpp Require Import options.

Local Open Scope Z_scope.

Section Program.
Context {SJ : SerdeJson} {ML : MlirApi} {FF : FloatFunctions}.
Context (encodings : list QuantizationDefinition).

Abbreviation Function := (Emit FuncBuilder).
Abbreviation Program := (Emit ModuleBuilder).

(** [let mut decode = c.clone(); decode.seq = 1;] *)
Definition decode_config (c : DenseDecoderConfig) : DenseDecoderConfig :=
  {| dd_vocab := dd_vocab c; dd_hidden := dd_hidden c; dd_intermediate := dd_intermediate c;
     dd_num_heads := dd_num_heads c; dd_num_kv_heads := dd_num_kv_heads c; dd_head_dim := dd_head_dim c;
     dd_num_layers := dd_num_layers c; dd_conv_dim := dd_conv_dim c; dd_conv_kernel := dd_conv_kernel c;
     dd_seq := 1; dd_max_kv := dd_max_kv c; dd_page_size := dd_page_size c; dd_paged_kv := dd_paged_kv c;
     dd_iree_flash_attention := dd_iree_flash_attention c; dd_rms_norm_eps := dd_rms_norm_eps c;
     dd_rope_theta := dd_rope_theta c; dd_has_qk_norm := dd_has_qk_norm c;
     dd_param_keys := dd_param_keys c; dd_param_dtypes := dd_param_dtypes c;
     dd_param_compute_dtypes := dd_param_compute_dtypes c; dd_param_bindings := dd_param_bindings c;
     dd_param_lowerings := dd_param_lowerings c; dd_resolved_layer_types := dd_resolved_layer_types c |}.

Definition with_prefill (program : PagedProgram) : bool :=
  match program with Combined | PrefillProgram => true | DecodeProgram => false end.
Definition with_decode (program : PagedProgram) : bool :=
  match program with Combined | DecodeProgram => true | PrefillProgram => false end.

(** ** Globals *)

(** Several globals: the templates of symbol, canonical name and shape. *)
Definition emit_globals_of (c : DenseDecoderConfig) (e : env) (l : list (string * string * string)) : Program unit :=
  emit_each (fun '(symbol, canonical, shape) =>
    emit_global encodings c (fmt e symbol) (fmt e canonical) (fmt e shape)) l.

Definition emit_layer_globals (c : DenseDecoderConfig) (layer : Z) : Program unit :=
  let e := layer_env layer ++ dims c in
  _ ← emit_globals_of c e [("{p}_attn_norm_weight", "{n}.attn_norm.weight", "{h}")];
  _ ← (match layer_kind c layer with
       | AttentionLayer =>
           _ ← emit_globals_of c e
                 [("{p}_attn_q_weight", "{n}.attn_q.weight", "{q}x{h}"); ("{p}_attn_k_weight", "{n}.attn_k.weight", "{kv}x{h}");
                  ("{p}_attn_v_weight", "{n}.attn_v.weight", "{kv}x{h}"); ("{p}_attn_output_weight", "{n}.attn_output.weight", "{h}x{q}")];
           emit_if (dd_has_qk_norm c) (emit_globals_of c e
                 [("{p}_attn_q_norm_weight", "{n}.attn_q_norm.weight", "{d}"); ("{p}_attn_k_norm_weight", "{n}.attn_k_norm.weight", "{d}")])
       | ShortConvLayer =>
           emit_globals_of c e
             [("{p}_shortconv_in_proj_weight", "{n}.shortconv.in_proj.weight", "{c3}x{h}"); ("{p}_shortconv_conv_weight", "{n}.shortconv.conv.weight", "{cc}x1x{k}");
              ("{p}_shortconv_out_proj_weight", "{n}.shortconv.out_proj.weight", "{h}x{cc}")]
       end);
  emit_globals_of c e
    [("{p}_ffn_norm_weight", "{n}.ffn_norm.weight", "{h}"); ("{p}_ffn_gate_weight", "{n}.ffn_gate.weight", "{i}x{h}");
     ("{p}_ffn_up_weight", "{n}.ffn_up.weight", "{i}x{h}"); ("{p}_ffn_down_weight", "{n}.ffn_down.weight", "{h}x{i}")].

Definition emit_paged_state_globals (c : DenseDecoderConfig) (variant : PagedVariant) : Program unit :=
  let n := dims c in
  let global := variant_global variant in
  _ ← emit_each (fun '(base, ty) => util_global_mutable_zero (global base) (fmt n ty))
        [("hidden", "tensor<{s}x{h}xf32>"); ("query", "tensor<{nkv}x{g}x{s}x{d}xf32>"); ("chunk_k", "tensor<{s}x{nkv}x{d}xf32>"); ("chunk_v", "tensor<{s}x{nkv}x{d}xf32>");
         ("attn_output", "tensor<{nkv}x{g}x{s}x{d}xf32>"); ("attn_max", "tensor<{nkv}x{g}x{s}xf32>"); ("attn_sum", "tensor<{nkv}x{g}x{s}xf32>")];
  _ ← append_toplevel_asm (fmt [("", global "start_pos")] "util.global private mutable @{} = dense<0> : tensor<i64>");
  append_toplevel_asm (fmt [("", global "valid_count")] "util.global private mutable @{} = dense<0> : tensor<i64>").

Definition emit_globals (c : DenseDecoderConfig) (program : PagedProgram) : Program unit :=
  let n := dims c in
  _ ← emit_globals_of c n [("token_embd_weight", "token_embd.weight", "{v}x{h}")];
  _ ← emit_each (emit_layer_globals c) (layers c);
  _ ← emit_globals_of c n [("output_norm_weight", "output_norm.weight", "{h}"); ("output_weight", "output.weight", "{v}x{h}")];
  if dd_paged_kv c then
    _ ← emit_conv_state_globals c;
    _ ← emit_if (with_prefill program) (emit_paged_state_globals c {| pv_decode := false |});
    emit_if (with_decode program) (emit_paged_state_globals (decode_config c) {| pv_decode := true |})
  else
    _ ← emit_each (fun layer =>
          match layer_kind c layer with
          | AttentionLayer =>
              let e := ("layer", num layer) :: n in
              _ ← util_global_mutable_zero (fmt e "kv_k{layer}") (fmt e "tensor<{mk}x{nkv}x{d}xf32>");
              util_global_mutable_zero (fmt e "kv_v{layer}") (fmt e "tensor<{mk}x{nkv}x{d}xf32>")
          | ShortConvLayer => mret tt
          end) (layers c);
    emit_conv_state_globals c.

(** ** Helpers *)

Definition emit_prepare_paged_attention (c : DenseDecoderConfig) (variant : PagedVariant) : Program unit :=
  let n := dims c in
  let helper := variant_helper variant in
  let q_grouped_ty := fmt n "tensor<{nkv}x{g}x{s}x{d}xf32>" in
  let kv_ty := fmt n "tensor<{s}x{nkv}x{d}xf32>" in
  let q_norm_helper := helper "rms_norm_q_heads" in
  let kv_norm_helper :=
    if dd_num_kv_heads c =? dd_num_heads c then q_norm_helper else helper "rms_norm_kv_heads" in
  let qk_norm := dd_has_qk_norm c in
  let rope := is_some (dd_rope_theta c) in
  let e := [("q_grouped_ty", q_grouped_ty); ("kv_ty", kv_ty); ("q_norm_helper", q_norm_helper);
            ("kv_norm_helper", kv_norm_helper); ("rope_q_helper", helper "apply_rope_q_chunk");
            ("rope_kv_helper", helper "apply_rope_kv_chunk")] ++ n in
  func_private (helper "prepare_paged_attention") (
    _ ← args [("q", fmt n "tensor<{s}x{q}xf32>"); ("k", fmt n "tensor<{s}x{kv}xf32>"); ("v", fmt n "tensor<{s}x{kv}xf32>");
              ("start_pos", "tensor<i64>")];
    _ ← emit_if qk_norm (args [("q_norm", fmt n "tensor<{d}xf32>"); ("k_norm", fmt n "tensor<{d}xf32>")]);
    _ ← returns [q_grouped_ty; kv_ty; kv_ty];
    _ ← op_asm (fmt e "  %q3 = tensor.expand_shape %q [[0], [1, 2]] output_shape [{s}, {nh}, {d}] : tensor<{s}x{q}xf32> into tensor<{s}x{nh}x{d}xf32>
  %k3 = tensor.expand_shape %k [[0], [1, 2]] output_shape [{s}, {nkv}, {d}] : tensor<{s}x{kv}xf32> into {kv_ty}
  %v3 = tensor.expand_shape %v [[0], [1, 2]] output_shape [{s}, {nkv}, {d}] : tensor<{s}x{kv}xf32> into {kv_ty}
");
    _ ← emit_if qk_norm (
          _ ← op_asm (fmt e "  %qn = func.call @{q_norm_helper}(%q3, %q_norm) : (tensor<{s}x{nh}x{d}xf32>, tensor<{d}xf32>) -> tensor<{s}x{nh}x{d}xf32>
");
          op_asm (fmt e "  %kn = func.call @{kv_norm_helper}(%k3, %k_norm) : ({kv_ty}, tensor<{d}xf32>) -> {kv_ty}
"));
    let '(q_name, k_name) := if qk_norm then ("qn", "kn") else ("q3", "k3") in
    _ ← emit_if rope (
          _ ← op_asm (fmt (("q_name", q_name) :: e) "  %qr = func.call @{rope_q_helper}(%{q_name}, %start_pos) : (tensor<{s}x{nh}x{d}xf32>, tensor<i64>) -> tensor<{s}x{nh}x{d}xf32>
");
          op_asm (fmt (("k_name", k_name) :: e) "  %kr = func.call @{rope_kv_helper}(%{k_name}, %start_pos) : ({kv_ty}, tensor<i64>) -> {kv_ty}
"));
    let '(q_name, k_name) := if rope then ("qr", "kr") else (q_name, k_name) in
    op_asm (fmt (("q_name", q_name) :: ("k_name", k_name) :: e) "  %q4 = tensor.expand_shape %{q_name} [[0], [1, 2], [3]] output_shape [{s}, {nkv}, {g}, {d}] : tensor<{s}x{nh}x{d}xf32> into tensor<{s}x{nkv}x{g}x{d}xf32>
  %qe = tensor.empty() : {q_grouped_ty}
  %qg = linalg.transpose ins(%q4 : tensor<{s}x{nkv}x{g}x{d}xf32>) outs(%qe : {q_grouped_ty}) permutation = [1, 2, 0, 3]
  return %qg, %{k_name}, %v3 : {q_grouped_ty}, {kv_ty}, {kv_ty}")).

(** The attention of one kind of chunk, and its rotary embedding. *)
Definition emit_chunk_attention (c : DenseDecoderConfig) (iree_attention full_causal_mask
    online_attention_page paged_causal_mask apply_rope_q_chunk apply_rope_kv_chunk : string) : Program unit :=
  let '(s, nh, nkv, d, g) := (dd_seq c, dd_num_heads c, dd_num_kv_heads c, dd_head_dim c, gqa_group c) in
  _ ← (if use_iree_attention c then
         pages ← lift (num_pages c);
         let kv_len := saturating_mul32 pages (dd_page_size c) in
         _ ← emit_iree_attention iree_attention s kv_len nkv g d;
         emit_full_causal_mask full_causal_mask s kv_len nkv g
       else
         _ ← emit_online_attention_page online_attention_page s (dd_page_size c) nkv g d;
         emit_paged_causal_mask paged_causal_mask s (dd_page_size c) nkv g);
  match dd_rope_theta c with
  | Some theta =>
      _ ← emit_rope_chunk apply_rope_q_chunk s nh d theta;
      emit_rope_chunk apply_rope_kv_chunk s nkv d theta
  | None => mret tt
  end.

Definition emit_paged_decode_helpers (c : DenseDecoderConfig) : Program unit :=
  let '(s, h, i, nh, nkv, d) := (dd_seq c, dd_hidden c, dd_intermediate c, dd_num_heads c,
                                 dd_num_kv_heads c, dd_head_dim c) in
  let '(q, kv, eps) := (q_dim c, kv_dim c, dd_rms_norm_eps c) in
  _ ← emit_rms_norm "rms_norm_tok" s h eps;
  _ ← emit_linear "linear_hq_tok" s h q true;
  _ ← emit_linear "linear_hkv_tok" s h kv true;
  _ ← emit_linear "linear_qh_tok" s q h true;
  _ ← emit_linear "linear_hi_tok" s h i true;
  _ ← emit_linear "linear_ih_tok" s i h true;
  _ ← emit_if (has_short_conv c) (
        let cc := dd_conv_dim c in
        _ ← emit_linear "linear_h_c3_tok" s h (mul32 3 cc) true;
        _ ← emit_linear "linear_c_h_tok" s cc h true;
        emit_each (fun layer => emit_conv_op encodings c layer Decode) (conv_layers c));
  _ ← emit_if (dd_has_qk_norm c) (
        _ ← emit_rms_norm_heads "rms_norm_q_heads_tok" s nh d eps;
        emit_if (negb (nkv =? nh)) (emit_rms_norm_heads "rms_norm_kv_heads_tok" s nkv d eps));
  _ ← emit_chunk_attention c "iree_attention_tok" "full_causal_mask_tok" "online_attention_page_tok" "paged_causal_mask_tok" "apply_rope_q_chunk_tok" "apply_rope_kv_chunk_tok";
  emit_prepare_paged_attention c {| pv_decode := true |}.

Definition emit_helpers (c : DenseDecoderConfig) (program : PagedProgram) : Program unit :=
  let '(s, h, i, nh, nkv, d) := (dd_seq c, dd_hidden c, dd_intermediate c, dd_num_heads c,
                                 dd_num_kv_heads c, dd_head_dim c) in
  let '(q, kv, eps) := (q_dim c, kv_dim c, dd_rms_norm_eps c) in
  let emit_prefill_helpers := negb (dd_paged_kv c) || with_prefill program in
  _ ← emit_if emit_prefill_helpers (
        _ ← emit_rms_norm "rms_norm" s h eps;
        _ ← emit_linear "linear_hq" s h q true;
        _ ← emit_linear "linear_hkv" s h kv true;
        _ ← emit_linear "linear_qh" s q h true;
        _ ← emit_linear "linear_hi" s h i true;
        _ ← emit_linear "linear_ih" s i h true;
        emit_if (has_short_conv c) (
          let cc := dd_conv_dim c in
          _ ← emit_linear "linear_h_c3" s h (mul32 3 cc) true;
          _ ← emit_linear "linear_c_h" s cc h true;
          emit_each (fun layer => emit_conv_op encodings c layer Prefill) (conv_layers c)));
  _ ← emit_quantized_helpers encodings c;
  _ ← emit_if (emit_prefill_helpers && dd_has_qk_norm c) (
        _ ← emit_rms_norm_heads "rms_norm_q_heads" s nh d eps;
        emit_if (negb (nkv =? nh)) (emit_rms_norm_heads "rms_norm_kv_heads" s nkv d eps));
  _ ← emit_if (emit_prefill_helpers && negb (nkv =? nh)) (emit_repeat_kv "repeat_kv" s nkv nh d (gqa_group c));
  _ ← emit_if (emit_prefill_helpers && negb (dd_paged_kv c)) (
        match dd_rope_theta c with
        | Some theta =>
            _ ← emit_rope "apply_rope_q" s nh d theta;
            emit_if (negb (nkv =? nh)) (emit_rope "apply_rope_kv" s nkv d theta)
        | None => mret tt
        end);
  if dd_paged_kv c then
    _ ← emit_if (with_prefill program) (
          _ ← emit_chunk_attention c "iree_attention" "full_causal_mask" "online_attention_page" "paged_causal_mask" "apply_rope_q_chunk" "apply_rope_kv_chunk";
          emit_prepare_paged_attention c {| pv_decode := false |});
    emit_if (with_decode program) (emit_paged_decode_helpers (decode_config c))
  else
    _ ← emit_attn c;
    emit_decode_helpers encodings c.

(** ** Programs *)

Definition build_dense_decoder_program (c : DenseDecoderConfig) (program : PagedProgram) : Program unit :=
  _ ← emit_globals c program;
  _ ← emit_helpers c program;
  _ ← (if dd_paged_kv c then
         _ ← emit_if (with_prefill program) (emit_paged_decoder encodings c {| pv_decode := false |});
         emit_if (with_decode program) (emit_paged_decoder encodings (decode_config c) {| pv_decode := true |})
       else
         _ ← emit_prefill encodings c;
         emit_decode encodings c);
  emit_add_smoke.

(** What [emit_dense_decoder_cfg_program] does after its assertion. *)
Definition emit_program (_ : string) (c : DenseDecoderConfig) (program : PagedProgram) : Result string :=
  b ← (match program with
       | Combined => ModuleBuilder_new
       | PrefillProgram => new_named "prefill"
       | DecodeProgram => new_named "decode"
       end);
  '(_, b) ← build_dense_decoder_program c program b;
  finish_module b.

End Program.
