(* ===== verification/ProgramSymbols.v ===== *)
(** * The symbols of a program

    The globals and the helpers that a program declares are what its functions
    refer to: every fragment of an emitted program is resolved by itself and the
    fragments before it, and the entry points are declared. *)
From S2P Require Import Prelude Strings Errors Serde CoreTypes Ir Encodings Names Coverage.
From S2P Require Import Mlir Symbols SymbolLogic Kernels CodegenSymbols Codegen Compiler.
From S2P Require Import Decoder ParameterSymbols DecoderSymbols PagedDecoder PagedSymbols.
From S2P Require Import StaticDecoder StaticSymbols DecoderProgram Floats.
From Stdlib Require Import ZArith Lia Ascii String SpecFloat.
From stdpp Require Import base list strings gmap.
From stdpp Require Import options.

Local Open Scope Z_scope.

(** Inclusion in a concatenation of known lists. *)
Ltac included :=
  lazymatch goal with
  | |- ?a ⊆ ?b ++ ?c =>
      first [apply list_subseteq_app_l; included|apply list_subseteq_app_r; included]
  | |- ?a ⊆ ?b => constr_eq a b; reflexivity
  end.

Section ProgramSymbols.
Context {SJ : SerdeJson} {ML : MlirApi} {FF : FloatFunctions}.
Context (encodings : list QuantizationDefinition).

(** ** Globals *)

Definition global_symbols_of (c : DenseDecoderConfig) (e : env) (l : list (string * string * string)) : list string :=
  flat_map (fun '(sym, canonical, _) => parameter_symbols encodings c (fmt e canonical) (fmt e sym)) l.
Lemma emit_globals_of_scoped pre c e l :
  parameters_ok c -> Forall (fun '(sym, canonical, shape) => is_ident (fmt e sym) /\ is_ident (fmt e canonical) /\ calm (fmt e shape)) l ->
  Scoped pre (emit_globals_of encodings c e l) (global_symbols_of c e l).
Proof.
  intros Hc Hl. unfold emit_globals_of, global_symbols_of. apply Scoped_each. intros [[sym canonical] shape] Hx.
  rewrite Forall_forall in Hl. destruct (Hl _ Hx) as (? & ? & ?). by apply emit_global_scoped.
Qed.
Ltac globals :=
  apply emit_globals_of_scoped; [assumption|];
  repeat (apply Forall_cons_2; [split; [ident|split; [ident|text]]|]); apply Forall_nil_2.
#[local] Hint Extern 1 (Scoped _ (emit_globals_of _ _ _ _) _) => globals : scoped.

Definition layer_symbols (c : DenseDecoderConfig) (layer : Z) : list string :=
  flat_map (weight_symbols encodings c layer) (layer_weights c layer).

(** The environments of the globals and of the loads give the same names. *)
Ltac weights c layer :=
  repeat match goal with
  | |- context [weight_symbols ?encodings c layer (?sym, ?canonical)] =>
      replace (weight_symbols encodings c layer (sym, canonical)) with
        (parameter_symbols encodings c (fmt (layer_env layer ++ dims c) canonical) (fmt (layer_env layer ++ dims c) sym))
        by (unfold weight_symbols; cbn [fst snd]; f_equal; same_text)
  end.

Lemma emit_layer_globals_scoped pre c layer :
  parameters_ok c -> Scoped pre (emit_layer_globals encodings c layer) (layer_symbols c layer).
Proof.
  intros Hc. unfold emit_layer_globals, layer_symbols, layer_weights. cbv zeta.
  destruct (layer_kind c layer); [destruct (dd_has_qk_norm c); cbn [emit_if]|]; (eapply Scoped_adds; [scoped|]);
    unfold global_symbols_of; cbn [flat_map app]; weights c layer;
    repeat (apply list_subseteq_app_iff_l; split; [included|]); apply list_subseteq_nil.
Qed.

Definition state_bases : list string :=
  ["hidden"; "query"; "chunk_k"; "chunk_v"; "attn_output"; "attn_max"; "attn_sum"; "start_pos"; "valid_count"].
Definition state_symbols (v : PagedVariant) : list string := variant_global v <$> state_bases.

Lemma emit_paged_state_globals_scoped pre c v : Scoped pre (emit_paged_state_globals c v) (state_symbols v).
Proof.
  unfold emit_paged_state_globals. cbv zeta. eapply Scoped_adds.
  - eapply Scoped_bind; [|intros _; eapply Scoped_bind; [|intros _]].
    + apply (Scoped_each _ _ (fun x => [variant_global v x.1])). intros [base ty] Hx.
      assert (H : Forall (fun x => is_ident x.1 /\ calm (fmt (dims c) x.2))
        [("hidden", "tensor<{s}x{h}xf32>"); ("query", "tensor<{nkv}x{g}x{s}x{d}xf32>"); ("chunk_k", "tensor<{s}x{nkv}x{d}xf32>"); ("chunk_v", "tensor<{s}x{nkv}x{d}xf32>");
         ("attn_output", "tensor<{nkv}x{g}x{s}x{d}xf32>"); ("attn_max", "tensor<{nkv}x{g}x{s}xf32>"); ("attn_sum", "tensor<{nkv}x{g}x{s}xf32>")]).
      { repeat (apply Forall_cons_2; [cbn [fst snd]; split; [ident|text]|]). apply Forall_nil_2. }
      rewrite Forall_forall in H. destruct (H _ Hx). apply Scoped_global_zero; [by apply variant_global_ident|done].
    + fragment; [apply Forall_nil_2|reflexivity].
    + fragment; [apply Forall_nil_2|reflexivity].
  - reflexivity.
Qed.

Definition kv_symbols (c : DenseDecoderConfig) (layer : Z) : list string :=
  match layer_kind c layer with
  | AttentionLayer => [String.append "kv_k" (num layer); String.append "kv_v" (num layer)]
  | ShortConvLayer => []
  end.
Definition conv_state_symbols (c : DenseDecoderConfig) : list string :=
  flat_map (fun layer => [conv_state layer]) (conv_layers c).
Definition global_symbols (c : DenseDecoderConfig) (program : PagedProgram) : list string :=
  parameter_symbols encodings c "token_embd.weight" "token_embd_weight" ++
  flat_map (layer_symbols c) (layers c) ++
  (parameter_symbols encodings c "output_norm.weight" "output_norm_weight" ++
   parameter_symbols encodings c "output.weight" "output_weight") ++
  (if dd_paged_kv c then
     conv_state_symbols c ++
     (if with_prefill program then state_symbols {| pv_decode := false |} else []) ++
     (if with_decode program then state_symbols {| pv_decode := true |} else [])
   else flat_map (kv_symbols c) (layers c) ++ conv_state_symbols c).

Lemma emit_globals_scoped pre c program :
  parameters_ok c -> Scoped pre (emit_globals encodings c program) (global_symbols c program).
Proof.
  intros Hc. unfold emit_globals, global_symbols. cbv zeta. eapply Scoped_adds.
  - eapply Scoped_bind; [scoped|intros _].
    eapply Scoped_bind; [apply Scoped_each; intros layer _; by apply emit_layer_globals_scoped|intros _].
    eapply Scoped_bind; [scoped|intros _].
    apply Scoped_either; intros _.
    + eapply Scoped_bind; [apply emit_conv_state_globals_scoped|intros _].
      eapply Scoped_bind; [apply Scoped_if; intros _; apply emit_paged_state_globals_scoped|intros _].
      apply Scoped_if; intros _; apply emit_paged_state_globals_scoped.
    + eapply Scoped_bind; [|intros _; apply emit_conv_state_globals_scoped].
      apply (Scoped_each _ _ (kv_symbols c)). intros layer _. unfold kv_symbols.
      destruct (layer_kind c layer); [|apply Scoped_ret]. cbv zeta. rewrite !(fmt_name _ "kv_k{layer}"), !(fmt_name _ "kv_v{layer}").
      apply (Scoped_bind _ _ _ [_] [_]); [|intros _]; (apply Scoped_global_zero; [cbn [name_text]; ident|text]).
  - unfold global_symbols_of. cbn [flat_map]. rewrite !app_nil_r. reflexivity.
Qed.

(** ** Helpers *)

Definition heads_differ (c : DenseDecoderConfig) : bool := negb (dd_num_kv_heads c =? dd_num_heads c).
Definition dense_symbols (c : DenseDecoderConfig) (mode : ExecutionMode) : list string :=
  (mode_name mode <$> ["rms_norm"; "linear_hq"; "linear_hkv"; "linear_qh"; "linear_hi"; "linear_ih"]) ++
  (if has_short_conv c then
     (mode_name mode <$> ["linear_h_c3"; "linear_c_h"]) ++ flat_map (fun layer => [conv_op layer mode]) (conv_layers c)
   else []).
Definition norm_symbols (c : DenseDecoderConfig) (mode : ExecutionMode) : list string :=
  if dd_has_qk_norm c then
    mode_name mode "rms_norm_q_heads" :: (if heads_differ c then [mode_name mode "rms_norm_kv_heads"] else [])
  else [].
Definition attention_symbols (c : DenseDecoderConfig) (mode : ExecutionMode) : list string :=
  (mode_name mode <$> (if use_iree_attention c then ["iree_attention"; "full_causal_mask"]
                       else ["online_attention_page"; "paged_causal_mask"])) ++
  (if is_some (dd_rope_theta c) then mode_name mode <$> ["apply_rope_q_chunk"; "apply_rope_kv_chunk"] else []).
Definition prepare_symbols (mode : ExecutionMode) : list string := [mode_name mode "prepare_paged_attention"].

Lemma functions_in_dense (R : string -> Prop) c mode :
  (forall n, n ∈ dense_symbols c mode -> R n) -> functions_in R c mode.
Proof.
  intros H. unfold dense_symbols in H. split.
  - intros base Hb. apply H, elem_of_app. left. by apply list_elem_of_fmap_2.
  - intros Hc base Hb. apply H. rewrite Hc. apply elem_of_app. right. apply elem_of_app. left.
    by apply list_elem_of_fmap_2.
  - intros layer Hl. apply H. pose proof (proj1 (layer_conv _ _) Hl) as [_ Hk].
    rewrite (layer_kind_conv _ _ Hk). do 2 (apply elem_of_app; right). apply list_elem_of_In, in_flat_map.
    exists layer. split; [by apply list_elem_of_In|by left].
Qed.

Lemma emit_prepare_paged_attention_scoped pre c v :
  norm_symbols c (variant_mode v) ⊆ pre -> attention_symbols c (variant_mode v) ⊆ pre ->
  Scoped pre (emit_prepare_paged_attention c v) (prepare_symbols (variant_mode v)).
Proof.
  intros Hn Ha. unfold prepare_symbols, norm_symbols, attention_symbols in *. rewrite <-variant_helper_mode.
  assert (dd_has_qk_norm c = true -> scope pre (variant_helper v "rms_norm_q_heads")).
  { intros Hq. apply Hn. rewrite Hq, variant_helper_mode. member. }
  assert (dd_has_qk_norm c = true -> (dd_num_kv_heads c =? dd_num_heads c) = false ->
    scope pre (variant_helper v "rms_norm_kv_heads")).
  { intros Hq Hh. apply Hn. unfold heads_differ. rewrite Hq, Hh, variant_helper_mode. cbn [negb]. member. }
  assert (is_some (dd_rope_theta c) = true -> scope pre (variant_helper v "apply_rope_q_chunk")).
  { intros Hr. apply Ha. rewrite Hr, variant_helper_mode. apply elem_of_app. right. apply list_elem_of_fmap_2. member. }
  assert (is_some (dd_rope_theta c) = true -> scope pre (variant_helper v "apply_rope_kv_chunk")).
  { intros Hr. apply Ha. rewrite Hr, variant_helper_mode. apply elem_of_app. right. apply list_elem_of_fmap_2. member. }
  unfold emit_prepare_paged_attention. cbv zeta. scoped.
Qed.

Lemma emit_chunk_attention_scoped pre c mode :
  Scoped pre (emit_chunk_attention c (mode_name mode "iree_attention") (mode_name mode "full_causal_mask")
    (mode_name mode "online_attention_page") (mode_name mode "paged_causal_mask")
    (mode_name mode "apply_rope_q_chunk") (mode_name mode "apply_rope_kv_chunk")) (attention_symbols c mode).
Proof.
  assert (Hm : forall base, is_ident base -> is_ident (mode_name mode base)) by (destruct mode; intros; cbn [mode_name]; [done|ident]).
  pose proof (Hm "iree_attention" ltac:(done)). pose proof (Hm "full_causal_mask" ltac:(done)).
  pose proof (Hm "online_attention_page" ltac:(done)). pose proof (Hm "paged_causal_mask" ltac:(done)).
  pose proof (Hm "apply_rope_q_chunk" ltac:(done)). pose proof (Hm "apply_rope_kv_chunk" ltac:(done)).
  unfold emit_chunk_attention, attention_symbols. eapply Scoped_adds; [scoped|].
  destruct (use_iree_attention c), (dd_rope_theta c); reflexivity.
Qed.

(** The decode chunk has the same parameters and selected lowerings. *)
Lemma parameters_in_decode (R : string -> Prop) c :
  parameters_in encodings R c -> parameters_in encodings R (decode_config c).
Proof. intros [H1 H2 H3 H4 H5]. split; assumption. Qed.
Lemma helpers_in_decode (R : string -> Prop) c :
  helpers_in encodings R c Decode -> helpers_in encodings R (decode_config c) Decode.
Proof. intros H. exact H. Qed.

(** The helpers of a mode's chunks. *)
Definition chunk_symbols (c : DenseDecoderConfig) (mode : ExecutionMode) : list string :=
  dense_symbols c mode ++ norm_symbols c mode ++ attention_symbols c mode ++ prepare_symbols mode.

Lemma emit_paged_decode_helpers_scoped pre c :
  parameters_in encodings (scope pre) c ->
  Scoped pre (emit_paged_decode_helpers encodings c) (chunk_symbols c Decode).
Proof.
  intros Hp. unfold emit_paged_decode_helpers. cbv beta iota zeta. eapply Scoped_adds.
  - do 6 (eapply Scoped_bind; [scoped|intros _]).
    eapply Scoped_bind; [scoped|intros _].
    eapply (Scoped_bind _ _ _ (norm_symbols c Decode)); [eapply Scoped_adds; [scoped|reflexivity]|intros _].
    eapply Scoped_bind; [apply (emit_chunk_attention_scoped _ c Decode)|intros _].
    apply (emit_prepare_paged_attention_scoped _ c {| pv_decode := true |}); cbn [variant_mode pv_decode]; included.
  - reflexivity.
Qed.

Definition helper_symbols (c : DenseDecoderConfig) (program : PagedProgram) : list string :=
  let prefill := negb (dd_paged_kv c) || with_prefill program in
  (if prefill then dense_symbols c Prefill else []) ++
  quantized_symbols encodings c ++
  (if prefill && dd_has_qk_norm c then
     "rms_norm_q_heads" :: (if heads_differ c then ["rms_norm_kv_heads"] else []) else []) ++
  (if prefill && heads_differ c then ["repeat_kv"] else []) ++
  (if prefill && negb (dd_paged_kv c) then
     if is_some (dd_rope_theta c) then "apply_rope_q" :: (if heads_differ c then ["apply_rope_kv"] else []) else []
   else []) ++
  (if dd_paged_kv c then
     (if with_prefill program then attention_symbols c Prefill ++ prepare_symbols Prefill else []) ++
     (if with_decode program then chunk_symbols (decode_config c) Decode else [])
   else "attn" :: decode_helper_symbols c).

Lemma emit_helpers_scoped pre c program :
  parameters_ok c -> parameters_in encodings (scope pre) c ->
  Scoped pre (emit_helpers encodings c program) (helper_symbols c program).
Proof.
  intros Hc Hp. unfold emit_helpers, helper_symbols. cbv beta iota zeta. eapply Scoped_adds.
  - eapply (Scoped_bind _ _ _ (if negb (dd_paged_kv c) || with_prefill program then dense_symbols c Prefill else []));
      [eapply Scoped_adds; [scoped|reflexivity]|intros _].
    eapply Scoped_bind; [by apply emit_quantized_helpers_scoped|intros _].
    eapply Scoped_bind; [scoped|intros _]. eapply Scoped_bind; [scoped|intros _].
    eapply Scoped_bind; [scoped|intros _].
    apply Scoped_either; intros Hpaged.
    + eapply Scoped_bind; [|intros _].
      * apply Scoped_if. intros Hw. eapply Scoped_bind; [apply (emit_chunk_attention_scoped _ c Prefill)|intros _].
        apply (emit_prepare_paged_attention_scoped _ c {| pv_decode := false |}); cbn [variant_mode pv_decode]; [|included].
        rewrite Hpaged, Hw. cbn [negb orb andb]. unfold norm_symbols. intros n Hn.
        do 3 (apply elem_of_app; left). apply elem_of_app. by right.
      * apply Scoped_if. intros _. apply emit_paged_decode_helpers_scoped, parameters_in_decode. extended.
    + eapply Scoped_bind; [|intros _; apply emit_decode_helpers_scoped; extended].
      rewrite Hpaged. cbn [negb orb andb].
      apply emit_attn_scoped; unfold heads_differ; intros; unfold scope;
        destruct (dd_rope_theta c); try done; member.
  - destruct (dd_paged_kv c), (dd_rope_theta c); reflexivity.
Qed.

(** ** Programs *)

Lemma conv_state_elem c layer : layer ∈ conv_layers c -> conv_state layer ∈ conv_state_symbols c.
Proof.
  intros Hl. apply list_elem_of_In, in_flat_map. exists layer. split; [by apply list_elem_of_In|by left].
Qed.

Lemma globals_parameters_in pre c program :
  global_symbols c program ⊆ pre -> parameters_in encodings (scope pre) c.
Proof.
  intros H. unfold global_symbols in H. split; unfold scope.
  - intros n Hn. apply H, elem_of_app. by left.
  - intros n Hn. apply H. do 2 (apply elem_of_app; right). apply elem_of_app. left. apply elem_of_app. by left.
  - intros n Hn. apply H. do 2 (apply elem_of_app; right). apply elem_of_app. left. apply elem_of_app. by right.
  - intros layer t Hl Ht n Hn. apply H, elem_of_app. right. apply elem_of_app. left.
    apply list_elem_of_In, in_flat_map. exists layer. split; [by apply list_elem_of_In|].
    apply in_flat_map. exists t. by split; apply list_elem_of_In.
  - intros layer Hl%conv_state_elem. apply H. do 3 (apply elem_of_app; right).
    destruct (dd_paged_kv c); apply elem_of_app; [by left|by right].
Qed.

Lemma quantized_helpers_in pre c mode :
  quantized_symbols encodings c ⊆ pre -> helpers_in encodings (scope pre) c mode.
Proof. intros H canonical n Hn. apply H. by apply (helper_of_emitted encodings c canonical mode). Qed.

(** What the globals and the helpers give a variant's chunk. *)
Lemma chunk_in_scope pre c v :
  parameters_in encodings (scope pre) c -> helpers_in encodings (scope pre) c (variant_mode v) ->
  state_symbols v ⊆ pre -> dense_symbols c (variant_mode v) ⊆ pre ->
  attention_symbols c (variant_mode v) ⊆ pre -> prepare_symbols (variant_mode v) ⊆ pre ->
  chunk_in encodings (scope pre) c v.
Proof.
  intros Hp Hh Hs Hd Ha Hpr. split; [done|done|by apply functions_in_dense|..].
  - intros base Hb. apply Hs, list_elem_of_fmap_2. unfold state_bases. revert base Hb.
    apply Forall_forall. repeat (apply Forall_cons_2; [member|]). apply Forall_nil_2.
  - rewrite variant_helper_mode. apply Hpr, list_elem_of_here.
  - intros Hi base Hb. rewrite variant_helper_mode. apply Ha, elem_of_app. left. rewrite Hi.
    by apply list_elem_of_fmap_2.
  - intros Hi base Hb. rewrite variant_helper_mode. apply Ha, elem_of_app. left. rewrite Hi.
    by apply list_elem_of_fmap_2.
Qed.

Definition entry_points (c : DenseDecoderConfig) (program : PagedProgram) : list string :=
  (if dd_paged_kv c then
     (if with_prefill program then ["prefill_chunk"] else []) ++
     (if with_decode program then ["decode_chunk"] else [])
   else ["prefill"; "decode"]) ++ ["add"].

Lemma emit_entries_scoped pre c program :
  global_symbols c program ⊆ pre -> helper_symbols c program ⊆ pre ->
  Scoped pre (if dd_paged_kv c then
       _ ← emit_if (with_prefill program) (emit_paged_decoder encodings c {| pv_decode := false |});
       emit_if (with_decode program) (emit_paged_decoder encodings (decode_config c) {| pv_decode := true |})
     else _ ← emit_prefill encodings c; emit_decode encodings c)
    (if dd_paged_kv c then
       (if with_prefill program then ["prefill_chunk"] else []) ++
       (if with_decode program then ["decode_chunk"] else [])
     else ["prefill"; "decode"]).
Proof using All.
  intros Hg Hh. pose proof (globals_parameters_in _ _ _ Hg) as Hp. unfold helper_symbols in Hh.
  repeat apply list_subseteq_app_iff_l in Hh as [? Hh].
  assert (Hq : forall mode, helpers_in encodings (scope pre) c mode) by (intros mode; by apply quantized_helpers_in).
  unfold global_symbols in Hg. do 3 apply list_subseteq_app_iff_l in Hg as [_ Hg].
  apply Scoped_either; intros Hpaged; rewrite Hpaged in *; cbn [negb orb andb] in *.
  - do 2 apply list_subseteq_app_iff_l in Hg as [? Hg]. apply list_subseteq_app_iff_l in Hh as [Hh1 Hh2].
    apply Scoped_bind; [|intros _]; apply Scoped_if; intros Hw; rewrite Hw in *;
      (apply emit_paged_decoder_scoped; [try apply chunk_in_app|reflexivity]).
    + apply list_subseteq_app_iff_l in Hh1 as [? ?]. by apply chunk_in_scope.
    + unfold chunk_symbols in Hh2. do 3 apply list_subseteq_app_iff_l in Hh2 as [? Hh2].
      apply chunk_in_scope; try done; [by apply parameters_in_decode|apply (Hq Decode)].
  - apply list_subseteq_app_iff_l in Hg as [Hkv _].
    assert (Hcache : forall layer, layer ∈ layers c -> layer_kind c layer = AttentionLayer ->
      scope pre (String.append "kv_k" (num layer)) /\ scope pre (String.append "kv_v" (num layer))).
    { intros layer Hl Hk. assert (Hn : kv_symbols c layer ⊆ pre).
      { etrans; [|exact Hkv]. intros n Hn. apply list_elem_of_In, in_flat_map. exists layer. by split; apply list_elem_of_In. }
      unfold kv_symbols in Hn. rewrite Hk in Hn. split; apply Hn; member. }
    apply (Scoped_bind _ _ _ ["prefill"] ["decode"]); [|intros _].
    + apply (emit_prefill_refs encodings (scope pre) c Hp Hpaged Hcache (Hq Prefill)); [by apply functions_in_dense| |done].
      apply Hh, list_elem_of_here.
    + eapply Scoped_pre; [apply (emit_decode_refs encodings (scope pre) c Hp Hpaged Hcache (Hq Decode)); [| |done]|by apply list_subseteq_app_l].
      * apply functions_in_dense. intros n Hn. apply Hh. apply list_elem_of_further.
        revert Hn. unfold dense_symbols, decode_helper_symbols. rewrite !elem_of_app. intros [Hn|Hn]; [by left|].
        right. destruct (has_short_conv c); [|by apply elem_of_nil in Hn]. rewrite elem_of_app in Hn.
        destruct Hn as [Hn|Hn]; [by left|]. right. right. by left.
      * apply Hh. apply list_elem_of_further. unfold decode_helper_symbols.
        do 6 (apply elem_of_app; right). member.
Qed.

Lemma build_program_scoped c program :
  parameters_ok c -> Scoped [] (build_dense_decoder_program encodings c program) (entry_points c program).
Proof using All.
  intros Hc. unfold build_dense_decoder_program, entry_points. eapply Scoped_adds.
  - eapply Scoped_bind; [by apply emit_globals_scoped|intros _].
    eapply Scoped_bind; [apply emit_helpers_scoped; [done|eapply globals_parameters_in; by apply list_subseteq_app_r]|intros _].
    eapply Scoped_bind; [apply emit_entries_scoped|intros _; apply emit_add_smoke_scoped].
    + by apply list_subseteq_app_l, list_subseteq_app_r.
    + by apply list_subseteq_app_r.
  - by do 2 apply list_subseteq_app_r.
Qed.

(** C4: the text of an emitted program is what MLIR prints of verified
    fragments in which nothing is referred to - a global, a state or a
    function - before it is declared, and which declare the entry points the
    runtime calls: whatever the architecture's configuration, the encodings of
    its parameters and the lowerings selected for them, as long as the keys of
    the checkpoint can be quoted and dimensions are not negative. *)
Theorem program_symbols_resolve arch_id c program text :
  parameters_ok c -> emit_program encodings arch_id c program = Ok text ->
  exists name fragments m,
    resolved [] fragments /\ entry_points c program ⊆ flat_map declared_by fragments /\
    module_parse (module_source {| md_module_name := name; md_toplevel := fragments; md_verified_text := None |}) = Ok m /\
    module_verify m = Ok tt /\ text = module_print m.
Proof using All.
  intros Hc. unfold emit_program.
  assert (Hnew : forall r, match program with Combined => ModuleBuilder_new | PrefillProgram => new_named "prefill"
      | DecodeProgram => new_named "decode" end = Ok r -> md_toplevel r = [] /\ md_verified_text r = None).
  { intros r. unfold new_named, ModuleBuilder_new. destruct context_new, program; cbn; by intros [= <-]. }
  destruct (match program with Combined => _ | PrefillProgram => _ | DecodeProgram => _ end) as [b0| |];
    cbn [mbind result_mbind]; [|done..]. destruct (Hnew b0 eq_refl) as [Ht Hv]. clear Hnew.
  destruct (build_dense_decoder_program _ _ _ b0) as [[[] [name fragments verified]]| |] eqn:E; cbn [mbind result_mbind]; [|done..].
  assert (H0 : module_ok b0) by (unfold module_ok; by rewrite Ht).
  destruct (build_program_scoped c program Hc b0 tt _ H0 (list_subseteq_nil _) E) as ((Hv' & Hr) & _ & Hd).
  cbn in Hv', Hr, Hd. subst verified. unfold finish_module, verify_builder, materialize. cbn [md_verified_text].
  destruct (module_parse _) as [m| |] eqn:Em; cbn [mbind result_mbind]; [|done..].
  destruct (module_verify m) as [[]| |] eqn:Ev; cbn [mbind result_mbind]; [|done..]. cbn. intros [= <-].
  by exists name, fragments, m.
Qed.
End ProgramSymbols.

(** A paged model of an attention layer and a convolution, with one weight
    packed in four bits. *)
Module ProgramSample.
Import Json.
#[local] Instance mlir : MlirApi :=
  {| mlir_module := unit; context_new := Ok tt; module_parse := fun _ => Ok tt;
     module_verify := fun _ => Ok tt; module_print := fun _ => "module" |}.
#[local] Instance floats : FloatFunctions := {| powf := fun x _ => x; cosf := fun x => x; sinf := fun x => x |}.

Definition component (name : string) (shape : Shape) (ty : ScalarType) : ParameterComponentBinding :=
  {| pc_component_name := name; pc_external_key := String.append "gate." name;
     pc_checkpoint_key := String.append "gate." name; pc_source_file_index := 0; pc_shape := shape;
     pc_storage_type := Scalar ty; pc_byte_lengths := [128]; pc_alignment := 1; pc_endianness := Little |}.
Definition gate : ParameterBinding :=
  {| pb_slot_id := "gate"; pb_canonical_name := "blk.1.ffn_gate.weight"; pb_checkpoint_keys := ["gate.weight"];
     pb_encoding := GroupQuantized F16 4 U32 false (-1) 32 F16 (Some F16) ZpNone "mlx.affine.u4" RowMajor
       ["packed"; "scales"; "biases"];
     pb_logical_shape := [32; 32]; pb_logical_type := F16;
     pb_components := [component "packed" [32; 4] U32; component "scales" [32; 1] F16; component "biases" [32; 1] F16];
     pb_transform := Identity; pb_scope := "weights"; pb_parameter_key := "gate"; pb_storage_bytes := 640;
     pb_alignment := 1 |}.
Definition config : DenseDecoderConfig :=
  {| dd_vocab := 32; dd_hidden := 32; dd_intermediate := 32; dd_num_heads := 2; dd_num_kv_heads := 1;
     dd_head_dim := 16; dd_num_layers := 2; dd_conv_dim := 8; dd_conv_kernel := 3; dd_seq := 3; dd_max_kv := 8;
     dd_page_size := 4; dd_paged_kv := true; dd_iree_flash_attention := false; dd_rms_norm_eps := f32_one;
     dd_rope_theta := Some f32_one; dd_has_qk_norm := true; dd_param_keys := {[ "output.weight" := "lm_head" ]};
     dd_param_dtypes := {[ "output.weight" := F16 ]};
     dd_param_compute_dtypes := ∅; dd_param_bindings := {[ "blk.1.ffn_gate.weight" := gate ]};
     dd_param_lowerings := {[ ("blk.1.ffn_gate.weight", Prefill) := "mlx.affine.u4.matmul.iree_grouped";
                              ("blk.1.ffn_gate.weight", Decode) := "mlx.affine.u4.matmul.iree_grouped" ]};
     dd_resolved_layer_types := {[ 0 := ShortConvLayer ]} |}.
Definition program : Result string := emit_program [MlxAffine (fun _ => lit "encoding") 4] "lfm2" config Combined.

Lemma config_ok : parameters_ok config.
Proof.
  split.
  - intros canonical key. unfold config, dd_param_keys. rewrite lookup_singleton_Some. by intros [_ <-].
  - intros canonical binding. unfold config, dd_param_bindings. rewrite lookup_singleton_Some. intros [_ <-].
    repeat constructor.
  - intros canonical binding. unfold config, dd_param_bindings. rewrite lookup_singleton_Some. intros [_ <-].
    repeat constructor; done.
Qed.

Lemma program_symbols_resolve_witness :
  parameters_ok config /\ program = Ok "module" /\
  exists name fragments m,
    resolved [] fragments /\ entry_points config Combined ⊆ flat_map declared_by fragments /\
    module_parse (module_source {| md_module_name := name; md_toplevel := fragments; md_verified_text := None |}) = Ok m /\
    module_verify m = Ok tt /\ "module"%string = module_print m.
Proof.
  split; [exact config_ok|]. assert (H : program = Ok "module") by (vm_compute; reflexivity). split; [exact H|].
  exact (program_symbols_resolve [MlxAffine (fun _ => lit "encoding") 4] "lfm2" config Combined "module" config_ok H).
Defined.
End ProgramSample.
