(* ===== verification/Bundle.v ===== *)
(** * The loader: crates/dyninfer-runtime/src/builtins.rs and model.rs

    The default registries, the path from a bound checkpoint to a compiled
    bundle, and the checks by which a bundle is loaded against a checkpoint. The
    files of a bundle are written and read by the caller: their contents are
    arguments. The artifact cache is left out. *)
From S2P Require Import Prelude Errors Serde CoreTypes Target Catalog Ir KernelRegistry Encodings Coverage Config Names Fingerprint Binding Provider Registry Session Manifest Compiler.
From Stdlib Require Import ZArith Lia Ascii String.
From stdpp Require Import base list strings gmap.
From stdpp Require Import options.
Import Json.

Local Open Scope Z_scope.

(** ** builtins.rs *)

Section Builtins.
Context {SJ : SerdeJson} (debug_encoding : PhysicalEncoding -> text).

Definition default_quantization_registry : Result (list QuantizationDefinition) :=
  Encodings.register_all debug_encoding [].
Definition default_kernel_registry (encodings : list QuantizationDefinition)
    : Result (list KernelCandidateDescriptor) :=
  registry ← register_builtin_semantic_candidates [];
  register_kernel_candidates encodings registry.
End Builtins.

(** ** crates/iree-runtime/src/lib.rs: FileParameterStorage *)

Record FileParameterDescriptor :=
  { fd_key : string; fd_source_file_index : Z; fd_offset : Z; fd_length : Z }.

Record FileParameterStorage := {
  fs_files : list string;
  (** keys in order, each with its file, offset and length *)
  fs_entries : list (string * (Z * Z * Z));
}.

Definition runtime_error (message : text) : DynInferError :=
  IreeRuntime {| ir_message := message; ir_status_code := None |}.

(** [CString::new] refuses interior NUL bytes. *)
Definition has_nul (s : string) : bool := existsb (fun c => Ascii.eqb c zero) (list_ascii_of_string s).

Section Storage.
(** [std::fs::metadata]: whether it is a file, and its size. *)
Variable stat : string -> result text (bool * Z).

Definition stat_file (path : string) : Result (string * Z) :=
  '(is_file, size) ← (match stat path with
                      | Ok m => Ok m
                      | Err error => Err (runtime_error
                          (Format "cannot stat direct parameter file {}: {error}" [AStr path; AText error]))
                      | Panic why => Panic why
                      end);
  _ ← ensure is_file
        (runtime_error (Format "direct parameter source is not a file: {}" [AStr path]));
  _ ← ensure (negb (has_nul path)) (runtime_error (Format "path contains NUL: {e}" [AStr path]));
  Ok (path, size).

(** One turn of the loop over entries; the map is of key to location. *)
Definition add_entry (sizes : list Z) (keys : gmap string (Z * Z * Z)) (entry : FileParameterDescriptor)
    : Result (gmap string (Z * Z * Z)) :=
  let key := fd_key entry in
  size ← ok_or (if fd_length entry =? 0 then None else sizes !! Z.to_nat (fd_source_file_index entry))
    (runtime_error (Format "invalid direct parameter descriptor `{}`" [AStr key]));
  end_ ← ok_or (checked_add (fd_offset entry) (fd_length entry))
    (runtime_error (Format "parameter range overflows for `{}`" [AStr key]));
  _ ← ensure (end_ <=? size)
    (runtime_error (Format "parameter `{}` range [{}, {end}) exceeds file size {}"
       [AStr key; AInt (fd_offset entry); AInt end_; AInt size]));
  let location := (fd_source_file_index entry, fd_offset entry, fd_length entry) in
  match keys !! key with
  | Some existing =>
      _ ← ensure (bool_decide (existing = location))
        (runtime_error (Format "direct parameter key `{}` maps to conflicting ranges" [AStr key]));
      Ok keys
  | None => Ok (<[key := location]> keys)
  end.

Definition FileParameterStorage_new (files : list string) (entries : list FileParameterDescriptor)
    : Result FileParameterStorage :=
  _ ← ensure (negb (bool_decide (files = [])) && negb (bool_decide (entries = [])))
        (runtime_error (lit "direct parameter files and entries must be non-empty"));
  stats ← try_map stat_file files;
  keys ← try_fold (add_entry stats.*2) ∅ entries;
  let sorted := btree_iter keys in
  _ ← ensure (negb (existsb (fun e => has_nul e.1) sorted))
        (runtime_error (lit "invalid parameter key: {error}"));
  Ok {| fs_files := stats.*1; fs_entries := sorted |}.
End Storage.

(** The descriptors of a provider plan: each parameter and its aliases. *)
Definition plan_descriptors (plan : RuntimeProviderPlan) : list FileParameterDescriptor :=
  p ← rp_parameters plan;
  (fun key => {| fd_key := key; fd_source_file_index := pd_source_file_index p;
                 fd_offset := pd_offset p; fd_length := pd_length p |}) <$>
    pd_external_key p :: pd_aliases p.

(** ** model.rs: compiling *)

Section Loader.
Context {SJ : SerdeJson} {HO : HashOrder} {H : Host}.
Variable content_digest : list FingerprintEntry -> Result Digest.
Context (debug_encoding : PhysicalEncoding -> text) (debug_kind : OperationKind -> text).
Context (debug_config : DenseDecoderConfig -> text) (debug_rejections : list CandidateRejection -> text).
Variable architectures : ArchitectureRegistry.

Definition kernel_coverage (architecture_id : string) (catalog : Result CheckpointCatalog)
    (dump : Result string) (target_spec : string) (overrides : MetadataMap) : Result CoverageReport :=
  target ← resolve_target dump target_spec;
  catalog ← catalog;
  '(package, catalog, binding) ← loader_bind content_digest architectures architecture_id catalog overrides;
  encodings ← default_quantization_registry debug_encoding;
  kernels ← default_kernel_registry encodings;
  dry_run_coverage (pkg_graph package) (cc_parameters catalog) binding encodings kernels target
    conservative_sensitive_ops.

Context (emit : string -> DenseDecoderConfig -> PagedProgram -> Result string) (portable_attn : bool).
Context (rocm_bc_dir sdk_linker : option string) (inprocess : string -> list string -> Result bytes).
Context (tools : option (string -> list string -> Result bytes)) (add_smoke_module : string).

(** The model coverage selects kernels for, up to the lookup in the cache. *)
Definition covered_model (package : ArchitecturePackage) (catalog : CheckpointCatalog)
    (plan : BindingPlan) (target : TargetProfile) : Result BoundModel :=
  let shape := default_shape_profile package in
  let policy := conservative_sensitive_ops in
  encodings ← default_quantization_registry debug_encoding;
  kernels ← default_kernel_registry encodings;
  coverage ← dry_run_coverage (pkg_graph package) (cc_parameters catalog) plan encodings kernels target policy;
  _ ← require_complete debug_rejections coverage;
  build_bound_model package plan target policy (selected_kernels coverage) shape.

(** Its compilation. *)
Definition compile_covered (package : ArchitecturePackage) (catalog : CheckpointCatalog)
    (options : CompileOptions) (bound : BoundModel) : Result CompileOutput :=
  encodings ← default_quantization_registry debug_encoding;
  compile encodings debug_kind debug_config emit portable_attn rocm_bc_dir sdk_linker inprocess tools
    add_smoke_module
    {| rq_bound_model := bound; rq_architecture_revision := pkg_revision package;
       rq_checkpoint_schema := cc_schema_fingerprint catalog;
       rq_shape_profile := default_shape_profile package; rq_options := options |}.

(** The compilation of a bound checkpoint for a target: the steps of
    [compile_to_bundle_with_overrides] after binding, without a cache. *)
Definition compile_bound (package : ArchitecturePackage) (catalog : CheckpointCatalog)
    (plan : BindingPlan) (target : TargetProfile) (options : CompileOptions) : Result CompileOutput :=
  bound ← covered_model package catalog plan target;
  compile_covered package catalog options bound.

Definition compile_to_bundle (architecture_id : string) (catalog : Result CheckpointCatalog)
    (dump : Result string) (target_spec : string) (options : CompileOptions) (overrides : MetadataMap)
    : Result (CompileOutput * BindingPlan) :=
  target ← resolve_target dump target_spec;
  catalog ← catalog;
  '(package, catalog, plan) ← loader_bind content_digest architectures architecture_id catalog overrides;
  output ← compile_bound package catalog plan target options;
  Ok (output, plan).

(** ** model.rs: load_bundle *)

Definition component_map (l : list ManifestParameterComponent) : gmap (string * string) Z :=
  foldl (fun m c => <[(mc_scope c, mc_key c) := mc_byte_length c]> m) ∅ l.
Definition plan_components (plan : RuntimeProviderPlan) : list ManifestParameterComponent :=
  (fun p => {| mc_scope := rp_scope plan; mc_key := pd_external_key p; mc_byte_length := pd_length p |})
    <$> rp_parameters plan.

(** The checks of a manifest against the checkpoint and this machine, up to
    the provider plan. *)
Definition check_bundle (manifest : ExecutableManifest) (binding : BindingPlan)
    (catalog : CheckpointCatalog) (dump : Result string) (bundle : string) : Result RuntimeProviderPlan :=
  let schema := fp_digest (em_checkpoint_schema manifest) in
  _ ← ensure (String.eqb (fp_digest (cc_schema_fingerprint catalog)) schema)
    (cache_error (lit "checkpoint schema does not match bundle") (Some schema) (Some bundle));
  let device := runtime_device (em_target manifest) in
  local_target ← resolve_target dump device;
  _ ← ensure (String.eqb (tp_capability_fingerprint local_target)
                (tp_capability_fingerprint (em_target manifest)))
    (cache_error (Format
       "bundle target fingerprint does not match the currently discovered device `{}`" [AStr device])
       (Some (tp_capability_fingerprint (em_target manifest))) (Some bundle));
  _ ← ensure (negb (em_derived_parameters_required manifest))
    (cache_error (lit "bundle requests forbidden derived parameters") (Some schema) (Some bundle));
  plan ← build_runtime_provider_plan catalog binding;
  _ ← ensure (bool_decide (component_map (em_parameter_components manifest) =
                           component_map (plan_components plan)))
    (cache_error (lit "checkpoint component keys or lengths do not match bundle manifest")
       (Some schema) (Some bundle));
  Ok plan.

Context {Ctx : Type}.
(** The parsed files of the bundle, the inspected checkpoint, and the opening
    of a runtime context on the parameters and a device. *)
Variable open_context : FileParameterStorage -> string -> Result Ctx.

Definition load_bundle (manifest : Result ExecutableManifest) (binding : Result BindingPlan)
    (inspected : Result CheckpointCatalog) (dump : Result string)
    (stat : string -> result text (bool * Z)) (bundle : string)
    : Result (LoadedModel * FileParameterStorage) :=
  manifest ← manifest;
  _ ← validate_executable_abi manifest bundle;
  binding ← binding;
  catalog ← inspected;
  catalog ← apply_naming content_digest architectures (em_architecture_id manifest) catalog;
  plan ← check_bundle manifest binding catalog dump bundle;
  storage ← FileParameterStorage_new stat (rp_file_paths plan) (plan_descriptors plan);
  _ ← open_context storage (runtime_device (em_target manifest));
  Ok ({| lm_metadata := loaded_metadata manifest catalog; lm_manifest := manifest;
         lm_binding := binding; lm_catalog := catalog |}, storage).

End Loader.

(** ** Sample: a one-layer Llama checkpoint in half precision *)

Module PipelineSample.
#[global] Instance host : Host := {|
  host_triple := "x86_64-unknown-linux-gnu"; detected_host_features := ["avx2"];
  Digest_of _ := "fp" |}.
#[global] Instance order : HashOrder := {|
  hash_iter m := map_to_list m; hash_iter_perm m := Permutation_refl _ |}.

Definition weight (index : nat) (kv : string * list Z) : LogicalParameter :=
  {| lp_canonical_name := kv.1; lp_role := infer_role kv.1;
     lp_logical_type := {| lt_shape := kv.2; lt_element_type := F16 |};
     lp_encoding := plain F16;
     lp_components := [{| sc_name := "data"; sc_key := kv.1; sc_source_file_index := 0; sc_shape := kv.2;
       sc_storage_type := Scalar F16;
       sc_byte_ranges := [{| br_offset := 4096 * Z.of_nat index; br_length := 2 * foldr Z.mul 1 kv.2 |}];
       sc_alignment := 32; sc_endianness := Little |}];
     lp_aliases := [kv.1] |}.

Definition layer (suffix : string) : string := layer_key "model.layers." 0 suffix.
Definition inspected : CheckpointCatalog :=
  {| cc_container := {| ci_format_id := "safetensors"; ci_version := None; ci_magic := None |};
     cc_convention_id := "dense.hf";
     cc_source_files := [{| sf_path := "m.safetensors"; sf_size_bytes := 65536; sf_content_digest := None |}];
     cc_metadata := list_to_map
       [("num_layers", JInt 1); ("vocab_size", JInt 4); ("hidden_size", JInt 8); ("num_heads", JInt 2);
        ("num_kv_heads", JInt 2); ("max_kv", JInt 4); ("prefill_window", JInt 3); ("head_dim", JInt 4);
        ("intermediate_size", JInt 8)];
     cc_raw_entries := [];
     cc_parameters := imap weight
       ([("model.embed_tokens.weight", [4; 8]); ("model.norm.weight", [8])]
       ++ ((fun s => (layer s, [8])) <$>
           ["input_layernorm.weight"; "post_attention_layernorm.weight"])
       ++ ((fun s => (layer s, [8; 8])) <$>
           ["self_attn.q_proj.weight"; "self_attn.k_proj.weight"; "self_attn.v_proj.weight";
            "self_attn.o_proj.weight"; "mlp.gate_proj.weight"; "mlp.up_proj.weight";
            "mlp.down_proj.weight"]));
     cc_schema_fingerprint := {| fp_digest := EmptyString; fp_entry_count := 0; fp_total_bytes := 0 |} |}.
Definition digest (l : list FingerprintEntry) : Result string := Ok "schema".
Definition bound : Result (ArchitecturePackage * CheckpointCatalog * BindingPlan) :=
  loader_bind digest built_in "llama.decoder" inspected ∅.
Definition nil_text {A} (_ : A) : text := lit EmptyString.
Definition emit (_ : string) (_ : DenseDecoderConfig) (_ : PagedProgram) : Result string := Ok "module {}".
Definition options : CompileOptions :=
  {| co_mode := "release"; co_dump_ir := false; co_smoke_only := false; co_force_subprocess := false |}.
Definition compile_for (package : ArchitecturePackage) (catalog : CheckpointCatalog) (plan : BindingPlan)
    (target : TargetProfile) : Result CompileOutput :=
  compile_bound nil_text nil_text nil_text nil_text emit false None None (fun _ _ => Ok []) None "module {}"
    package catalog plan target options.
Definition compiled (target : TargetProfile) : Result CompileOutput :=
  '(package, catalog, plan) ← bound;
  compile_for package catalog plan target.

(** It compiles for a CPU without native half precision. For a CUDA device
    coverage is complete as well, but the kernels it selects for [f16] weights
    are the native ones, which the compiler refuses. *)
Example compiles_on_cpu : is_Ok (compiled llvm_cpu_host) = true.
Proof. by_vm. Qed.
Definition covered_on (target : TargetProfile) : Result (list SelectedKernel) :=
  '(package, catalog, plan) ← bound;
  encodings ← default_quantization_registry nil_text;
  kernels ← default_kernel_registry encodings;
  report ← dry_run_coverage (pkg_graph package) (cc_parameters catalog) plan encodings kernels target
             conservative_sensitive_ops;
  _ ← require_complete nil_text report;
  Ok (selected_kernels report).
End PipelineSample.

Lemma native_selection_does_not_compile :
  is_compile_ready (cuda "sm_80") = true /\
  is_Ok (PipelineSample.covered_on (cuda "sm_80")) = true /\
  match PipelineSample.compiled (cuda "sm_80") with
  | Err (Compilation c) => ce_pass c = Some "lower.precision"
  | _ => False
  end.
Proof. by vm_compute. Qed.
