(* ===== verification/CompilerSpec.v ===== *)
(** * What coverage promises the compiler

    The kernels that a complete coverage report selects are the ones the
    compiler dispatches: the composition of crates/dyninfer-quantization
    (coverage), crates/dyninfer-kernel-registry (selection) and
    crates/dyninfer-compiler (lowering). *)
From S2P Require Import Prelude Errors Serde CoreTypes Target Catalog Ir KernelRegistry Encodings EncodingSpecs Coverage Config Graph Builder Session Manifest Compiler Bundle.
From Stdlib Require Import ZArith Lia Ascii String SpecFloat.
From stdpp Require Import base list strings gmap.
From stdpp Require Import options.
Import Json.

Local Open Scope Z_scope.

(** ** The default kernels *)

(** The kernel needs a native half-precision capability. *)
Definition native (c : KernelCandidateDescriptor) : bool :=
  existsb (fun f => String.eqb f "native_f16" || String.eqb f "native_bf16")
    (tc_required_features (kc_target c)).
Definition no_native_features (target : TargetProfile) : Prop :=
  ("native_f16" ∉ tp_features target) /\ ("native_bf16" ∉ tp_features target).

(** [lowering_matches_operation] by kernel operation. *)
Definition kind_matches (encodings : list QuantizationDefinition) (k : KernelOperationKind)
    (lowering : string) : bool :=
  match k with
  | KInput => String.eqb lowering "model.input.abi"
  | KEmbedding => String.eqb lowering "dense.gather.linalg" || implements_lowering encodings k lowering
  | KLinear | KOutputProjection =>
      String.eqb lowering "dense.matmul.linalg" || implements_lowering encodings k lowering
  | KRmsNorm => String.eqb lowering "dense.rms_norm.generated"
  | KPerHeadRmsNorm => String.eqb lowering "dense.per_head_rms_norm.generated"
  | KRope => String.eqb lowering "rope.generated"
  | KKvCacheWrite => String.eqb lowering "kv_cache.write.generated"
  | KKvCacheRead => String.eqb lowering "kv_cache.read.generated"
  | KAttention => String.eqb lowering "attention.gqa.generated" || String.eqb lowering ONLINE_PAGED
  | KShortConv => String.eqb lowering "short_conv.gated.generated"
  | KSilu => String.eqb lowering "elementwise.silu.generated"
  | KMultiply => String.eqb lowering "elementwise.multiply.generated"
  | KResidual => String.eqb lowering "residual.add.generated"
  end.

Lemma lowering_matches_kind encodings op lowering :
  lowering_matches_operation encodings op lowering = kind_matches encodings (from_semantic op) lowering.
Proof. by destruct op as [| | | | | | | | | |[]| |]. Qed.

Definition f32_kernel (c : KernelCandidateDescriptor) : bool :=
  bool_decide (kc_input_types c = [I64]) ||
  bool_decide (kc_input_types c = [F32]) && bool_decide (kc_output_types c = [F32]) &&
  bool_decide (kc_accumulator_types c = [F32]).

Section Defaults.
Context (debug_encoding : PhysicalEncoding -> text).

Lemma default_kernels_checked :
  match default_kernel_registry (all_definitions debug_encoding) with
  | Ok kernels =>
      forallb (fun c => native c ||
        kind_matches (all_definitions debug_encoding) (kc_operation c) (kc_lowering c) && f32_kernel c) kernels
  | _ => false
  end = true.
Proof. by_vm. Qed.

Definition gqa : KernelCandidateDescriptor :=
  builtin_candidate KAttention "attention.gqa.generated.f32" "attention.gqa.generated" F32 100
    "Architecture-independent generated lowering".
Definition online_paged : KernelCandidateDescriptor :=
  builtin_candidate KAttention "attention.online_paged.generated.f32" ONLINE_PAGED F32 90
    "Runtime-paged online-softmax attention".

Lemma default_attention_kernels :
  match default_kernel_registry (all_definitions debug_encoding) with
  | Ok kernels => List.filter (fun c => bool_decide (kc_operation c = KAttention)) kernels
  | _ => []
  end = [gqa; online_paged].
Proof. by_vm. Qed.

(** Only attention kernels use the paged lowering. *)
Lemma default_paged_kernels :
  match default_kernel_registry (all_definitions debug_encoding) with
  | Ok kernels => forallb (fun c => implb (String.eqb (kc_lowering c) ONLINE_PAGED)
                                      (bool_decide (kc_operation c = KAttention))) kernels
  | _ => false
  end = true.
Proof. by_vm. Qed.

Context (kernels : list KernelCandidateDescriptor).
Hypothesis default_kernels : default_kernel_registry (all_definitions debug_encoding) = Ok kernels.

Lemma default_kernel_dispatches c :
  c ∈ kernels -> native c = false ->
  kind_matches (all_definitions debug_encoding) (kc_operation c) (kc_lowering c) = true /\ f32_kernel c = true.
Proof using default_kernels.
  intros Hc Hn. pose proof default_kernels_checked as Hall. rewrite default_kernels in Hall.
  rewrite forallb_forall in Hall. apply list_elem_of_In in Hc. specialize (Hall c Hc).
  rewrite Hn in Hall. by apply andb_true_iff in Hall.
Qed.

Lemma native_excluded c request target :
  no_native_features target -> acceptable c request target -> native c = false.
Proof.
  intros [H16 Hb16] Hacc. destruct (native c) eqn:Hn; [|done].
  apply existsb_exists in Hn as (f & Hf%list_elem_of_In & Hor).
  pose proof (acc_features c request target Hacc f Hf) as Hin.
  apply orb_true_iff in Hor as [Hf'|Hf']; apply String.eqb_eq in Hf'; congruence.
Qed.

(** Paged attention is never selected: the plain kernel has the same
    requirements and a better score. *)
Lemma paged_not_chosen request target c :
  chosen (for_operation kernels request) request target c -> kc_lowering c <> ONLINE_PAGED.
Proof using default_kernels.
  intros (Hin & Hacc & Hbest) Hl. pose proof Hin as [Hk Hop]%for_operation_elem.
  pose proof default_paged_kernels as Hp. rewrite default_kernels in Hp. rewrite forallb_forall in Hp.
  apply list_elem_of_In in Hk. specialize (Hp c Hk). rewrite Hl in Hp. cbn in Hp.
  apply bool_decide_eq_true in Hp.
  pose proof default_attention_kernels as Ha. rewrite default_kernels in Ha.
  unfold for_operation in Hin, Hbest. rewrite <- Hop, Hp, Ha in Hin.
  assert (c = online_paged) as ->.
  { apply elem_of_cons in Hin as [Hc|Hc]; [by rewrite Hc in Hl|by apply list_elem_of_singleton in Hc]. }
  assert (Hg : acceptable gqa request target) by (destruct Hacc; by constructor).
  rewrite <- Hop, Hp, Ha in Hbest. destruct (Hbest gqa ltac:(by left) Hg) as [Hlt|[Heq _]].
  - revert Hlt. unfold candidate_score. cbn. case_match; vm_compute; discriminate.
  - revert Heq. unfold candidate_score. cbn. case_match; vm_compute; discriminate.
Qed.

(** A kernel record for a target without native features computes in [f32]
    and implements its operation. *)
Lemma record_dispatches parameters binding target policy om k :
  no_native_features target -> pp_sensitive_internal_type policy = F32 ->
  kernel_record parameters binding kernels target policy om k ->
  qualified_types k = true /\
  lowering_matches_operation (all_definitions debug_encoding) (ao_kind om.1) (sk_lowering_id k) = true /\
  sk_lowering_id k <> ONLINE_PAGED.
Proof using default_kernels.
  intros Hnf Hpol (_ & _ & _ & s & Hk & Ht & _ & Hl & Hi & Ho & Ha & Hacc).
  pose proof Hk as (Hin & Hok & _). apply for_operation_elem in Hin as [Hin Hop].
  pose proof (native_excluded _ _ _ Hnf Hok) as Hn.
  destruct (default_kernel_dispatches _ Hin Hn) as [Hm Hf].
  split_and!.
  - destruct Ht as (Hti & Hto & Hta & Htacc). unfold qualified_types. rewrite Hi, Ho, Ha, Hacc.
    apply orb_true_iff in Hf as [Hf|Hf].
    + apply bool_decide_eq_true in Hf. rewrite Hf in Hti. injection Hti as Hti. rewrite <- Hti. done.
    + apply andb_true_iff in Hf as [[Hf1 Hf2]%andb_true_iff Hf3].
      apply bool_decide_eq_true in Hf1, Hf2, Hf3. rewrite Hf1 in Hti. rewrite Hf2 in Hto.
      injection Hti as Hti. injection Hto as Hto. rewrite Hta, <- Hti, <- Hto.
      assert (sc_accumulator_type s = F32) as ->; [|done].
      destruct (is_precision_sensitive _); [by destruct Htacc as [-> _]|].
      rewrite Hf3 in Htacc. by injection Htacc as <-.
  - rewrite lowering_matches_kind, Hl. cbn in Hop. by rewrite <- Hop.
  - rewrite Hl. by apply paged_not_chosen in Hk.
Qed.

End Defaults.

(** ** From coverage to dispatch *)

Section Dispatch.
Context (parameters : list LogicalParameter) (binding : BindingPlan).
Context (kernels : list KernelCandidateDescriptor) (target : TargetProfile) (policy : PrecisionPolicy).
Context (graph : ArchitectureGraph).
Abbreviation record := (kernel_record parameters binding kernels target policy).

Definition selects (op : ArchitectureOperation) (mode : ExecutionMode) (s : SelectedKernel) : bool :=
  String.eqb (sk_operation_id s) (ao_id op) && bool_decide (sk_mode s = mode).

(** The kernel found for an operation and a mode is the one selected for it. *)
Lemma find_selected selected op mode :
  NoDup (ao_id <$> ag_operations graph) -> Forall2 record (coverage_pairs graph) selected ->
  op ∈ ag_operations graph -> mode ∈ export_modes graph ->
  exists k, List.find (selects op mode) selected = Some k /\ record (op, mode) k.
Proof.
  intros Hnd Hsel Hop Hm. assert (Hin : (op, mode) ∈ coverage_pairs graph) by by apply coverage_pairs_elem.
  assert (Hsub : Forall (fun om => om.1 ∈ ag_operations graph) (coverage_pairs graph)).
  { apply Forall_forall. intros [op' m'] [? _]%coverage_pairs_elem. done. }
  induction Hsel as [|om k pairs selected Hk _ IH]; [by apply elem_of_nil in Hin|].
  apply Forall_cons in Hsub as [Hom Hsub]. cbn [List.find].
  destruct (selects op mode k) eqn:Hs.
  - exists k. split; [done|]. apply andb_true_iff in Hs as [Hid%String.eqb_eq Hmode%bool_decide_eq_true].
    destruct om as [op' m']. cbn in Hom. pose proof Hk as (Hid' & Hm' & _). cbn in Hid', Hm'.
    assert (op' = op) as ->; [|congruence].
    apply (NoDup_fmap_elem ao_id (ag_operations graph)); [done..|congruence].
  - apply IH; [|done]. apply elem_of_cons in Hin as [<-|Hin]; [|done].
    destruct Hk as (Hid & Hmode & _). cbn in Hid, Hmode. unfold selects in Hs.
    rewrite Hid, Hmode, String.eqb_refl, bool_decide_eq_true_2 in Hs by done. done.
Qed.

(** The kernel that pages attention for an operation. *)
Definition page (s : SelectedKernel) : SelectedKernel :=
  if bool_decide (sk_operation_id s ∈ (list_to_set (ao_id <$> List.filter is_attention (ag_operations graph)) : gset string))
  then with_online_paged s else s.

Lemma find_paged selected op mode :
  List.find (selects op mode) (page_attention graph selected) = page <$> List.find (selects op mode) selected.
Proof.
  unfold page_attention. fold page. induction selected as [|k selected IH]; [done|]. cbn [fmap list_fmap List.find].
  assert (Hs : selects op mode (page k) = selects op mode k) by (unfold page; by case_bool_decide).
  change (if bool_decide _ then with_online_paged k else k) with (page k). rewrite Hs.
  destruct (selects op mode k); [done|]. exact IH.
Qed.

Lemma page_types s : qualified_types (page s) = qualified_types s.
Proof. unfold page. by case_bool_decide. Qed.

(** Paging changes the lowering of attention operations only. *)
Lemma page_lowering encodings op s :
  NoDup (ao_id <$> ag_operations graph) -> op ∈ ag_operations graph -> sk_operation_id s = ao_id op ->
  lowering_matches_operation encodings (ao_kind op) (sk_lowering_id s) = true ->
  lowering_matches_operation encodings (ao_kind op) (sk_lowering_id (page s)) = true.
Proof.
  intros Hnd Hop Hid Hm. unfold page. case_bool_decide as Ha; [|done]. cbn [with_online_paged sk_lowering_id].
  apply elem_of_list_to_set, list_elem_of_fmap in Ha as (op' & Hid' & Hin).
  apply list_elem_of_In, filter_In in Hin as [Hin Hatt]. apply list_elem_of_In in Hin.
  assert (op' = op) as -> by (apply (NoDup_fmap_elem ao_id (ag_operations graph)); [done..|congruence]).
  unfold is_attention in Hatt. by destruct (ao_kind op).
Qed.

Context (debug_encoding : PhysicalEncoding -> text) (debug_kind : OperationKind -> text).

Lemma validate_selected bound selected :
  bm_architecture bound = graph -> NoDup (ao_id <$> ag_operations graph) ->
  Forall2 record (coverage_pairs graph) selected ->
  bm_selected_kernels bound = selected \/ bm_selected_kernels bound = page_attention graph selected ->
  (forall om k, record om k -> qualified_types k = true /\
     lowering_matches_operation (all_definitions debug_encoding) (ao_kind om.1) (sk_lowering_id k) = true) ->
  validate_bound_model_lowerings (all_definitions debug_encoding) debug_kind bound = Ok tt.
Proof.
  intros Hg Hnd Hsel Hks Hgood. unfold validate_bound_model_lowerings. rewrite Hg.
  apply try_for_each_Ok, Forall_forall. intros op Hop. apply try_for_each_Ok, Forall_forall. intros mode Hm.
  destruct (find_selected selected op mode Hnd Hsel Hop Hm) as (k & Hk & Hrec).
  assert (Hfind : exists k', List.find (selects op mode) (bm_selected_kernels bound) = Some k' /\
            qualified_types k' = true /\
            lowering_matches_operation (all_definitions debug_encoding) (ao_kind op) (sk_lowering_id k') = true).
  { destruct (Hgood (op, mode) k Hrec) as [Hq Hl]. destruct Hks as [-> | ->]; [by exists k|].
    rewrite find_paged, Hk. exists (page k). split; [done|]. rewrite page_types. split; [done|].
    apply page_lowering; [done|done| |exact Hl]. by destruct Hrec. }
  destruct Hfind as (k' & Hfind & Hq & Hl). unfold validate_lowering. unfold selects in Hfind.
  rewrite Hfind. cbn [ok_or mbind result_mbind]. by rewrite Hq, Hl.
Qed.

End Dispatch.

(** ** The compute types of the parameters *)

Section ComputeTypes.
Context {A : Type} (f : SelectedKernel -> A).

Lemma foldl_keeps {B} (step : gmap string A -> B -> gmap string A) l m name :
  (forall m b, is_Some (m !! name) -> is_Some (step m b !! name)) ->
  is_Some (m !! name) -> is_Some (foldl step m l !! name).
Proof. intros Hs. revert m. induction l as [|b l IH]; intros m Hm; cbn; auto. Qed.

Lemma foldl_sets {B} (step : gmap string A -> B -> gmap string A) l b m name :
  (forall m b, is_Some (m !! name) -> is_Some (step m b !! name)) ->
  b ∈ l -> (forall m, is_Some (step m b !! name)) -> is_Some (foldl step m l !! name).
Proof.
  intros Hs Hb Hset. revert m. induction l as [|b' l IH]; intros m; [by apply elem_of_nil in Hb|]. cbn.
  apply elem_of_cons in Hb as [<-|Hb]; [|by apply IH]. by apply foldl_keeps.
Qed.

(** A bound parameter that a selected kernel reads is in the map. *)
Lemma by_selection_reads bound b k :
  NoDup (pb_slot_id <$> bp_bindings (bm_binding bound)) -> b ∈ bp_bindings (bm_binding bound) ->
  k ∈ bm_selected_kernels bound -> pb_slot_id b ∈ sk_parameter_slots k ->
  is_Some ((by_selection (fun name _ => name) f bound : gmap string A) !! pb_canonical_name b).
Proof.
  intros Hnd Hb Hk Hslot. unfold by_selection.
  assert (Hkeep : forall s m slot, is_Some (m !! pb_canonical_name b) ->
    is_Some ((match List.find (fun b => String.eqb (pb_slot_id b) slot) (bp_bindings (bm_binding bound)) with
              | Some b' => <[pb_canonical_name b' := f s]> m
              | None => m
              end : gmap string A) !! pb_canonical_name b)).
  { intros s m slot Hm. case_match; [|done]. rewrite lookup_insert_is_Some'. by right. }
  apply foldl_sets with (b := k); [|done|].
  - intros m s Hm. apply foldl_keeps; [|done]. intros m' slot. apply Hkeep.
  - intros m. apply foldl_sets with (b := pb_slot_id b); [|done|].
    + intros m' slot. apply Hkeep.
    + intros m'. destruct (List.find _ _) as [b'|] eqn:Hf.
      * apply find_some in Hf as [Hin Heq]. apply String.eqb_eq in Heq. apply list_elem_of_In in Hin.
        rewrite (NoDup_fmap_elem pb_slot_id (bp_bindings (bm_binding bound)) b' b Hnd Hin Hb Heq).
        rewrite lookup_insert_eq. by eexists.
      * apply list_elem_of_In in Hb. pose proof (find_none _ _ Hf b Hb) as Hn. cbn in Hn.
        by rewrite String.eqb_refl in Hn.
Qed.
End ComputeTypes.

(** ** Compiling what coverage accepts *)

Section Pipeline.
Context (debug_encoding : PhysicalEncoding -> text) (debug_rejections : list CandidateRejection -> text).
Context (debug_kind : OperationKind -> text) (debug_config : DenseDecoderConfig -> text).
Context (emit : string -> DenseDecoderConfig -> PagedProgram -> Result string) (portable_attn : bool).

(** What a complete report of the default registries says. *)
Lemma complete_records encodings kernels graph parameters binding target policy report :
  default_quantization_registry debug_encoding = Ok encodings ->
  default_kernel_registry encodings = Ok kernels ->
  dry_run_coverage graph parameters binding encodings kernels target policy = Ok report ->
  require_complete debug_rejections report = Ok tt ->
  encodings = all_definitions debug_encoding /\
  Forall2 (kernel_record parameters binding kernels target policy) (coverage_pairs graph)
    (selected_kernels report).
Proof.
  unfold default_quantization_registry. rewrite register_all_Ok. intros [= <-] Hk Hrun Hc.
  destruct (dry_run_operations debug_encoding graph parameters binding kernels target policy)
    as (os & Hos & Hall).
  rewrite Hos in Hrun. injection Hrun as <-. apply require_complete_Ok in Hc.
  split; [done|]. by eapply selected_records.
Qed.

Lemma build_bound_model_Ok package binding target policy selected shape :
  verify_architecture_graph (pkg_graph package) = Ok tt ->
  exists bound, build_bound_model package binding target policy selected shape = Ok bound /\
    bm_architecture bound = pkg_graph package /\ bm_binding bound = binding /\
    (bm_selected_kernels bound = selected \/
     bm_selected_kernels bound = page_attention (pkg_graph package) selected).
Proof.
  intros Hv. unfold build_bound_model. rewrite Hv. cbn [mbind result_mbind]. eexists. split; [reflexivity|].
  split; [done|]. split; [done|]. cbn [bm_selected_kernels]. case_match; [by right|by left].
Qed.

(** The slots that the selected kernels read are those of the operations. *)
Lemma selected_slots parameters binding kernels target policy graph selected bound slot :
  Forall2 (kernel_record parameters binding kernels target policy) (coverage_pairs graph) selected ->
  bm_selected_kernels bound = selected \/ bm_selected_kernels bound = page_attention graph selected ->
  export_modes graph <> [] -> slot ∈ ag_operations graph ≫= ao_parameters ->
  exists k, k ∈ bm_selected_kernels bound /\ slot ∈ sk_parameter_slots k.
Proof.
  intros Hsel Hks Hm Hslot. apply list_elem_of_bind in Hslot as (op & Hslot & Hop).
  destruct (export_modes graph) as [|mode modes] eqn:Hmodes; [done|].
  assert (Hin : (op, mode) ∈ coverage_pairs graph).
  { apply coverage_pairs_elem. split; [done|]. rewrite Hmodes. by left. }
  assert (Hk : exists k, k ∈ selected /\ slot ∈ sk_parameter_slots k).
  { clear - Hsel Hin Hslot. induction Hsel as [|om k oms selected Hk _ IH]; [by apply elem_of_nil in Hin|].
    apply elem_of_cons in Hin as [<-|Hin].
    - exists k. split; [by left|]. destruct Hk as (_ & _ & -> & _). done.
    - destruct (IH Hin) as (k' & Hk' & Hs). exists k'. split; [by right|done]. }
  destruct Hk as (k & Hk & Hs). destruct Hks as [-> | ->]; [by exists k|].
  exists (page graph k). split.
  - unfold page_attention. apply list_elem_of_fmap. by exists k.
  - unfold page. by case_bool_decide.
Qed.


End Pipeline.

