(* ===== verification/BundleSpec.v ===== *)
(** * Compiled bundles run

    From a compiled bundle to its sessions: the manifest of a compilation
    passes the loader's ABI check, and the sessions of the model loaded from it
    satisfy what [SessionSpec] asks of a session. *)
From S2P Require Import Prelude Errors Serde CoreTypes Target Catalog Ir KernelRegistry Encodings EncodingSpecs Coverage Config Graph Fingerprint Binding Provider Builder Session SessionSpec Manifest Compiler Bundle CompilerSpec.
From Stdlib Require Import ZArith Lia Ascii String SpecFloat.
From stdpp Require Import base list strings gmap.
From stdpp Require Import options.
Import Json.

Local Open Scope Z_scope.

Lemma manifest_entrypoints request lowering diagnostics c :
  co_smoke_only (rq_options request) = false ->
  lo_page_size lowering = PAGED_KV_PAGE_SIZE -> lo_paged_kv lowering = dd_paged_kv c ->
  lo_kv_element_type lowering = paged_kv_element_type c ->
  exists required, required_entrypoints (manifest_of request lowering diagnostics) = Some required /\
    forall e, e ∈ required -> e ∈ em_entrypoints (manifest_of request lowering diagnostics).
Proof.
  intros Hs Hps Hp He. unfold required_entrypoints, manifest_of. cbn. rewrite Hs, Hp, He, Hps.
  unfold paged_kv_element_type. destruct (dd_paged_kv c); cbn.
  - destruct (use_iree_attention c); cbn; (eexists; split; [reflexivity|]); set_solver.
  - eexists. split; [reflexivity|]. set_solver.
Qed.

Section BundleSpec.
Context (debug_encoding : PhysicalEncoding -> text) (debug_rejections : list CandidateRejection -> text).
Context (debug_kind : OperationKind -> text) (debug_config : DenseDecoderConfig -> text).
Context (emit : string -> DenseDecoderConfig -> PagedProgram -> Result string) (portable_attn : bool).
Context (rocm_bc_dir sdk_linker : option string) (inprocess : string -> list string -> Result bytes).
Context (tools : option (string -> list string -> Result bytes)) (add_smoke_module : string).

(** ** What a lowering says *)

Lemma lower_bound_model_Ok encodings bound lowering :
  lower_bound_model encodings debug_kind debug_config emit portable_attn bound = Ok lowering ->
  let config := from_bound_model portable_attn bound in
  supports_dense_emit config = true /\ lo_prefill_window lowering = dd_seq config /\
  lo_max_kv lowering = dd_max_kv config /\ lo_page_size lowering = PAGED_KV_PAGE_SIZE /\
  lo_paged_kv lowering = dd_paged_kv config /\ lo_kv_element_type lowering = paged_kv_element_type config.
Proof.
  unfold lower_bound_model. cbv zeta. set (config := from_bound_model portable_attn bound). intros H.
  apply bind_Ok in H as ([] & _ & H). apply bind_Ok in H as ([] & _ & H).
  apply bind_Ok in H as ([] & _ & H). apply bind_Ok in H as ([] & Hs & H).
  apply ensure_Ok in Hs. apply bind_Ok in H as ([text decode] & _ & [= <-]). done.
Qed.

(** The configurations that are lowered. *)
Lemma supported_shape c :
  supports_dense_emit c = true ->
  1 <= dd_seq c <= dd_max_kv c /\ dd_max_kv c <= 1048576 /\
  (dd_paged_kv c = false -> dd_seq c <= 256).
Proof.
  unfold supports_dense_emit. rewrite !andb_true_iff, !Z.leb_le. intros H. destruct_and! H.
  destruct (dd_paged_kv c); [split_and!; [lia|lia|lia|done]|].
  split_and!; lia.
Qed.

(** A bound model runs paged attention only in chunks of the window it was
    compiled for. *)
Lemma paged_window package binding target policy selected shape bound :
  build_bound_model package binding target policy selected shape = Ok bound ->
  (forall k, k ∈ selected -> sk_lowering_id k <> ONLINE_PAGED) ->
  dd_paged_kv (from_bound_model portable_attn bound) = true ->
  dd_seq (from_bound_model portable_attn bound) = PAGED_PREFILL_CHUNK_SIZE.
Proof.
  intros Hb Hsel Hp. unfold build_bound_model in Hb. apply bind_Ok in Hb as ([] & _ & [= <-]).
  unfold from_bound_model in *. cbn -[PAGED_PREFILL_CHUNK_SIZE] in *.
  destruct (PAGED_PREFILL_CHUNK_SIZE <? _); [done|]. exfalso.
  apply existsb_exists in Hp as (op & _ & Hop). unfold selects_paged in Hop.
  apply andb_true_iff in Hop as [_ Hex]. apply existsb_exists in Hex as (k & Hk & Hl).
  apply andb_true_iff in Hl as [_ Hl]. apply String.eqb_eq in Hl.
  apply list_elem_of_In in Hk. by apply (Hsel k Hk).
Qed.

Lemma compile_Ok encodings request out :
  compile encodings debug_kind debug_config emit portable_attn rocm_bc_dir sdk_linker inprocess tools
    add_smoke_module request = Ok out ->
  co_smoke_only (rq_options request) = false ->
  exists lowering diagnostics,
    lower_bound_model encodings debug_kind debug_config emit portable_attn (rq_bound_model request) = Ok lowering /\
    out_manifest out = manifest_of request lowering diagnostics.
Proof.
  unfold compile. intros H Hs. rewrite Hs in H. apply bind_Ok in H as (lowering & Hl & H).
  apply bind_Ok in H as ([vmfb decode] & _ & H). apply bind_Ok in H as ([] & _ & [= <-]).
  by eexists _, _.
Qed.

(** What is known of a compilation, from its manifest. *)
Lemma compile_bound_Ok package catalog plan target options out :
  compile_bound debug_encoding debug_kind debug_config debug_rejections emit portable_attn rocm_bc_dir
    sdk_linker inprocess tools add_smoke_module package catalog plan target options = Ok out ->
  co_smoke_only options = false ->
  exists request lowering diagnostics config,
    out_manifest out = manifest_of request lowering diagnostics /\
    co_smoke_only (rq_options request) = false /\
    rq_checkpoint_schema request = cc_schema_fingerprint catalog /\
    bm_binding (rq_bound_model request) = plan /\ bm_target (rq_bound_model request) = target /\
    supports_dense_emit config = true /\ lo_prefill_window lowering = dd_seq config /\
    lo_max_kv lowering = dd_max_kv config /\ lo_page_size lowering = PAGED_KV_PAGE_SIZE /\
    lo_paged_kv lowering = dd_paged_kv config /\ lo_kv_element_type lowering = paged_kv_element_type config /\
    (dd_paged_kv config = true -> dd_seq config = PAGED_PREFILL_CHUNK_SIZE).
Proof.
  unfold compile_bound, covered_model. intros H Hsmoke.
  apply bind_Ok in H as (bound & Hb & H).
  apply bind_Ok in Hb as (encodings & Henc & Hb). apply bind_Ok in Hb as (kernels & Hker & Hb).
  apply bind_Ok in Hb as (report & Hrun & Hb). apply bind_Ok in Hb as ([] & Hc & Hb).
  unfold compile_covered in H. rewrite Henc in H. cbn [mbind result_mbind] in H.
  destruct (complete_records debug_encoding debug_rejections _ _ _ _ _ _ _ _ Henc Hker Hrun Hc) as [-> Hsel].
  apply compile_Ok in H as (lowering & diagnostics & Hl & Hout); [|done]. cbn [rq_bound_model] in Hl.
  apply lower_bound_model_Ok in Hl as (Hs & Hl).
  eexists _, lowering, diagnostics, (from_bound_model portable_attn bound). split; [exact Hout|].
  split; [done|]. split; [done|].
  assert (Hbt : bm_binding bound = plan /\ bm_target bound = target).
  { clear - Hb. unfold build_bound_model in Hb. by apply bind_Ok in Hb as ([] & _ & [= <-]). }
  destruct Hbt as [Hbind Ht]. split; [exact Hbind|]. split; [exact Ht|]. split; [exact Hs|].
  destruct Hl as (Hl1 & Hl2 & Hl3 & Hl4 & Hl5). split_and!; [exact Hl1|exact Hl2|exact Hl3|exact Hl4|exact Hl5|].
  eapply paged_window; [exact Hb|]. intros k Hk.
  assert (Hrec : exists om, kernel_record (cc_parameters catalog) plan kernels target conservative_sensitive_ops om k).
  { clear - Hsel Hk. induction Hsel as [|om k' oms ks Hk' _ IH]; [by apply elem_of_nil in Hk|].
    apply elem_of_cons in Hk as [->|Hk]; [by exists om|by apply IH]. }
  destruct Hrec as (om & _ & _ & _ & s & Hchosen & _ & _ & -> & _).
  eapply paged_not_chosen; [exact Hker|exact Hchosen].
Qed.

(** ** Sessions *)

Section Sessions.
Context {Ctx : Type} {IC : IreeContext Ctx} {CC : CausalContext Ctx}.

(** The context runs the executable of this manifest. *)
Definition runs_manifest (manifest : ExecutableManifest) (metadata : ModelMetadata) : Prop :=
  mm_vocabulary_size metadata = cc_vocab /\
  match kv_storage (em_kv_cache manifest) with
  | StaticGlobals => cc_max_kv = Z.max (kv_max_sequence_length (em_kv_cache manifest)) 1
  | Paged page_size _ => cc_page_size = page_size
  end.

Lemma create_session_new (context : Ctx) model config :
  (forall page chunk, kv_storage (em_kv_cache (lm_manifest model)) = Paged page chunk -> 0 < page /\ 0 < chunk) ->
  exists c, create_session (Ok context) model config =
    Ok (session_new (lm_metadata model) config (em_kv_cache (lm_manifest model))
          (em_prefill_window (lm_manifest model)) c).
Proof using CC.
  intros Hp. unfold create_session. cbn [mbind result_mbind].
  destruct (kv_storage (em_kv_cache (lm_manifest model))) as [|page chunk] eqn:Hk; [by exists context|].
  destruct (Hp page chunk eq_refl) as [H1 H2].
  destruct (size_bytes_Some (kv_element_type (em_kv_cache (lm_manifest model)))) as (n & Hn & _). rewrite Hn.
  cbn [expect mbind result_mbind].
  destruct (cc_configure (kv_layer_count (em_kv_cache (lm_manifest model))) page
    (kv_head_count (em_kv_cache (lm_manifest model))) (kv_head_dimension (em_kv_cache (lm_manifest model)))
    n chunk (mm_vocabulary_size (lm_metadata model)) context H1 H2) as (c & Hc).
  rewrite Hc. by exists c.
Qed.

(** The session of a compiled model, whatever else its catalog says. *)
Lemma compiled_session package catalog plan target options out (context : Ctx) model config :
  compile_bound debug_encoding debug_kind debug_config debug_rejections emit portable_attn rocm_bc_dir
    sdk_linker inprocess tools add_smoke_module package catalog plan target options = Ok out ->
  co_smoke_only options = false -> lm_manifest model = out_manifest out ->
  runs_manifest (lm_manifest model) (lm_metadata model) -> cfg_batch_size config = 1 ->
  exists c, let s := session_new (lm_metadata model) config (em_kv_cache (lm_manifest model))
                       (em_prefill_window (lm_manifest model)) c in
    create_session (Ok context) model config = Ok s /\ valid s.
Proof.
  intros Hc Hs Hm [Hvocab Hrun] Hbatch. apply compile_bound_Ok in Hc as
    (request & lowering & diagnostics & c & Hout & Hsm & _ & _ & _ & Hsup & Hw & Hkv & Hps & Hp & He & Hpw);
    [|done].
  rewrite Hout in Hm. pose proof (manifest_entrypoints request lowering diagnostics c Hsm Hps Hp He) as Hreq.
  apply supported_shape in Hsup as (Hseq & Hmax & _).
  destruct (create_session_new context model config) as (ctx & Hcreate).
  { intros page chunk Hk. rewrite Hm in Hk. destruct Hreq as (required & Hreq & _).
    by destruct (required_entrypoints_paged _ _ page chunk Hreq Hk) as (? & ? & _). }
  exists ctx. cbv zeta. split; [exact Hcreate|]. clear Hcreate.
  split; cbn [session_new is_config is_metadata is_prefill_window is_kv].
  - done.
  - exact Hvocab.
  - lia.
  - unfold max_seq. rewrite Hm. cbn. rewrite Hkv. unfold u32_max. lia.
  - revert Hrun. rewrite Hm. cbn -[PAGED_KV_PAGE_SIZE PAGED_PREFILL_CHUNK_SIZE].
    rewrite Hp, Hps, Hw. destruct (dd_paged_kv c); [|done]. intros ->. split; [done|].
    rewrite (Hpw eq_refl). split; [done|]. unfold PAGED_PREFILL_CHUNK_SIZE. lia.
Qed.

Lemma shape_profile_bucket package :
  exists w, sp_sequence_buckets (default_shape_profile package) = [w] /\ 1 <= w /\
    w <= sp_max_sequence_length (default_shape_profile package).
Proof. eexists. split; [reflexivity|]. split; [apply Z.le_max_r|apply Z.le_max_r]. Qed.

Lemma bound_sizes package binding target policy selected shape bound w :
  build_bound_model package binding target policy selected shape = Ok bound ->
  sp_sequence_buckets shape = [w] -> 1 <= w -> w <= sp_max_sequence_length shape ->
  dd_max_kv (from_bound_model portable_attn bound) = sp_max_sequence_length shape /\
  dd_seq (from_bound_model portable_attn bound) =
    if PAGED_PREFILL_CHUNK_SIZE <? sp_max_sequence_length shape then PAGED_PREFILL_CHUNK_SIZE else w.
Proof.
  unfold build_bound_model. intros Hb Hbucket Hw Hmax. apply bind_Ok in Hb as ([] & _ & [= <-]).
  rewrite Hbucket. unfold from_bound_model. cbn -[PAGED_PREFILL_CHUNK_SIZE Z.ltb Z.max].
  rewrite (Z.max_l w 1), (Z.max_l _ w) by lia. split; [|done].
  rewrite bool_decide_eq_true_2 by done. cbn -[PAGED_PREFILL_CHUNK_SIZE Z.ltb Z.max].
  unfold PAGED_PREFILL_CHUNK_SIZE in *. destruct (Z.ltb_spec 512 (sp_max_sequence_length shape)); lia.
Qed.

(** The sizes of a compiled model are those of its shape profile: the cache
    holds the whole context, and one that is not paged is no larger than a
    chunk and takes prompts of a whole sequence bucket. *)
Lemma compiled_sizes package catalog plan target options out :
  compile_bound debug_encoding debug_kind debug_config debug_rejections emit portable_attn rocm_bc_dir
    sdk_linker inprocess tools add_smoke_module package catalog plan target options = Ok out ->
  co_smoke_only options = false ->
  let shape := default_shape_profile package in
  sp_max_sequence_length shape <= kv_max_sequence_length (em_kv_cache (out_manifest out)) /\
  (kv_storage (em_kv_cache (out_manifest out)) = StaticGlobals ->
   sp_max_sequence_length shape <= PAGED_PREFILL_CHUNK_SIZE /\
   sp_sequence_buckets shape = [em_prefill_window (out_manifest out)]).
Proof.
  intros H Hsmoke shape. unfold compile_bound, covered_model in H. fold shape in H.
  apply bind_Ok in H as (bound & Hb & H).
  apply bind_Ok in Hb as (encodings & Henc & Hb). apply bind_Ok in Hb as (kernels & _ & Hb).
  apply bind_Ok in Hb as (report & _ & Hb). apply bind_Ok in Hb as ([] & _ & Hb).
  unfold compile_covered in H. rewrite Henc in H. cbn [mbind result_mbind] in H.
  apply compile_Ok in H as (lowering & diagnostics & Hl & ->); [|done]. cbn [rq_bound_model] in Hl.
  apply lower_bound_model_Ok in Hl as (Hs & Hw & Hkv & _ & Hp & _). apply supported_shape in Hs as (Hseq & _ & Hstatic).
  destruct (shape_profile_bucket package) as (w & Hbucket & Hw1 & Hwmax). fold shape in Hbucket, Hwmax.
  destruct (bound_sizes _ _ _ _ _ _ _ w Hb Hbucket Hw1 Hwmax) as (Hmax & Hwin).
  cbn -[PAGED_PREFILL_CHUNK_SIZE shape]. rewrite Hkv, Hw, Hp, Hmax, Hbucket. split; [done|].
  destruct (dd_paged_kv _); [done|]. intros _. specialize (Hstatic eq_refl). rewrite Hwin in Hstatic |- *.
  unfold PAGED_PREFILL_CHUNK_SIZE in *. destruct (Z.ltb_spec 512 (sp_max_sequence_length shape)); [lia|done].
Qed.

(** C26: a compiled bundle runs. When the whole pipeline (coverage, bound
    model, lowering, IREE) compiles a model, the manifest it writes passes the
    loader's ABI check, and in a context that runs that executable every session
    of the loaded model with a batch of one is created and valid: paged caches
    have positive pages, chunks fit the compiled window, and the capacity is a
    machine word, so that the session refines the model. *)
Theorem compiled_session_valid package catalog catalog' plan target options out bundle (context : Ctx) config :
  compile_bound debug_encoding debug_kind debug_config debug_rejections emit portable_attn rocm_bc_dir
    sdk_linker inprocess tools add_smoke_module package catalog plan target options = Ok out ->
  co_smoke_only options = false ->
  runs_manifest (out_manifest out) (loaded_metadata (out_manifest out) catalog') ->
  cfg_batch_size config = 1 ->
  validate_executable_abi (out_manifest out) bundle = Ok tt /\
  exists s, create_session (Ok context)
      {| lm_metadata := loaded_metadata (out_manifest out) catalog'; lm_manifest := out_manifest out;
         lm_binding := plan; lm_catalog := catalog' |} config = Ok s /\ valid s.
Proof.
  intros Hc Hs Hrun Hbatch. split.
  - apply compile_bound_Ok in Hc as (request & lowering & diagnostics & c & -> & Hsm & _ & _ & _ & _ & _ & _ & Hps & Hp & He & _);
      [|done].
    apply validate_abi_Ok. right. exact (manifest_entrypoints request lowering diagnostics c Hsm Hps Hp He).
  - match goal with |- exists s, create_session _ ?m _ = _ /\ _ => set (model := m) end.
    destruct (compiled_session package catalog plan target options out context model config Hc Hs eq_refl Hrun Hbatch)
      as (ctx & Hcreate & Hvalid).
    eexists. split; [exact Hcreate|exact Hvalid].
Qed.

End Sessions.
End BundleSpec.

(** ** Witness: the toy context runs the sample bundle *)

Lemma compiled_session_valid_witness :
  exists package catalog plan out s,
    PipelineSample.bound = Ok (package, catalog, plan) /\
    PipelineSample.compile_for package catalog plan llvm_cpu_host = Ok out /\
    validate_executable_abi (out_manifest out) "bundle" = Ok tt /\
    create_session (Ok {| Toy.tokens := []; Toy.capacity := 0 |})
      {| lm_metadata := loaded_metadata (out_manifest out) PipelineSample.inspected;
         lm_manifest := out_manifest out; lm_binding := plan; lm_catalog := PipelineSample.inspected |}
      SessionConfig_default = Ok s /\ valid s.
Proof.
  assert (Hall : match PipelineSample.compiled llvm_cpu_host with
                 | Ok out => mm_vocabulary_size (loaded_metadata (out_manifest out) PipelineSample.inspected) = 4 /\
                     kv_storage (em_kv_cache (out_manifest out)) = StaticGlobals /\
                     kv_max_sequence_length (em_kv_cache (out_manifest out)) = 4
                 | _ => False
                 end) by (by vm_compute).
  unfold PipelineSample.compiled in Hall.
  destruct PipelineSample.bound as [[[package catalog] plan]| |] eqn:Hb; [|exact (False_ind _ Hall)..].
  cbn [mbind result_mbind] in Hall.
  destruct (PipelineSample.compile_for package catalog plan llvm_cpu_host) as [out| |] eqn:Hc; [|exact (False_ind _ Hall)..].
  destruct Hall as (Hv & Hk & Hm).
  destruct (compiled_session_valid PipelineSample.nil_text PipelineSample.nil_text PipelineSample.nil_text
    PipelineSample.nil_text PipelineSample.emit false None None (fun _ _ => Ok []) None "module {}"
    package catalog PipelineSample.inspected plan llvm_cpu_host PipelineSample.options out "bundle"
    {| Toy.tokens := []; Toy.capacity := 0 |} SessionConfig_default Hc eq_refl) as (Habi & s & Hs & Hvalid).
  - split; [exact Hv|]. rewrite Hk, Hm. reflexivity.
  - reflexivity.
  - exists package, catalog, plan, out, s. exact (conj eq_refl (conj Hc (conj Habi (conj Hs Hvalid)))).
Defined.
