(* ===== verification/Drift.v ===== *)
(** * Logit drift: crates/dyninfer-cli/src/drift.rs and logits.rs

    The metrics of one row of logits against a reference row, the loop that
    compares a session with a reference trace along its trajectory, and the
    thresholds a run is judged by. *)
From S2P Require Import Prelude Strings Errors Serde CoreTypes Paths Names Numbers Session Compiler Floats LogitTrace.
From Stdlib Require Import ZArith Lia Ascii String SpecFloat.
From stdpp Require Import base list strings gmap.
From stdpp Require Import options.

Local Open Scope Z_scope.

(** ** drift.rs *)

Record TokenLogit := { tl_token_id : Z; tl_logit : f32 }.

Record TokenDelta := {
  dl_token_id : Z;
  dl_reference : f32;
  dl_dyninfer : f32;
  dl_delta : f64;
  dl_absolute_delta : f64;
}.

Record RowMetrics := {
  rm_max_absolute_error : f64;
  rm_mean_absolute_error : f64;
  rm_rmse : f64;
  rm_mean_signed_delta : f64;
  rm_relative_l2_error : f64;
  rm_cosine_similarity : f64;
  rm_centered_rmse : f64;
  rm_reference_argmax : Z;
  rm_dyninfer_argmax : Z;
  rm_argmax_match : bool;
  rm_top_k : Z;
  rm_top_k_overlap : Z;
  rm_top_k_overlap_fraction : f64;
  rm_softmax_kl_reference_dyninfer : f64;
  rm_max_probability_delta : f64;
  rm_largest_deltas : list TokenDelta;
  rm_reference_top : list TokenLogit;
  rm_dyninfer_top : list TokenLogit;
}.

(** [f64::EPSILON] and -1.0e-12. *)
Definition f64_epsilon : f64 := f64_of_bits 4372995238176751616.
Definition minus_1e_12 : f64 := f64_of_bits 13650858631089744401.

(** [values[i]]: a panic out of range. *)
Definition at_index (values : list f32) (i : nat) : f32 := nth i values S754_nan.

Definition descending_leb (values : list f32) (left right : nat) : bool :=
  let l := f32_key (at_index values left) in
  let r := f32_key (at_index values right) in
  (r <? l) || ((r =? l) && (left <=? right)%nat).

Definition descending_indices (values : list f32) : list nat :=
  stable_sort (descending_leb values) (seq 0 (length values)).

Definition token_logits (values : list f32) (indices : list nat) : list TokenLogit :=
  (fun i => {| tl_token_id := wrap32 (Z.of_nat i); tl_logit := at_index values i |}) <$> indices.

(** The delta of a token, and the order of [largest_deltas]. *)
Definition delta_at (reference dyninfer : list f32) (i : nat) : f64 :=
  f64_sub (f64_of_f32 (at_index dyninfer i)) (f64_of_f32 (at_index reference i)).
Definition delta_leb (reference dyninfer : list f32) (left right : nat) : bool :=
  let l := f64_key (SFabs (delta_at reference dyninfer left)) in
  let r := f64_key (SFabs (delta_at reference dyninfer right)) in
  (r <? l) || ((r =? l) && (left <=? right)%nat).

(** The accumulators of the first loop. *)
Record Sums := {
  s_max_absolute : f64;
  s_absolute : f64;
  s_squared : f64;
  s_delta : f64;
  s_reference_squared : f64;
  s_dyninfer_squared : f64;
  s_dot : f64;
}.
Definition sums_start : Sums :=
  {| s_max_absolute := f64_zero; s_absolute := f64_zero; s_squared := f64_zero; s_delta := f64_zero;
     s_reference_squared := f64_zero; s_dyninfer_squared := f64_zero; s_dot := f64_zero |}.
Definition add_pair (s : Sums) (p : f32 * f32) : Sums :=
  let reference := f64_of_f32 p.1 in
  let dyninfer := f64_of_f32 p.2 in
  let delta := f64_sub dyninfer reference in
  let absolute := SFabs delta in
  {| s_max_absolute := float_max (s_max_absolute s) absolute;
     s_absolute := f64_add (s_absolute s) absolute;
     s_squared := f64_add (s_squared s) (f64_mul delta delta);
     s_delta := f64_add (s_delta s) delta;
     s_reference_squared := f64_add (s_reference_squared s) (f64_mul reference reference);
     s_dyninfer_squared := f64_add (s_dyninfer_squared s) (f64_mul dyninfer dyninfer);
     s_dot := f64_add (s_dot s) (f64_mul reference dyninfer) |}.

Definition cosine (s : Sums) : f64 :=
  let reference_norm := f64_sqrt (s_reference_squared s) in
  let dyninfer_norm := f64_sqrt (s_dyninfer_squared s) in
  if SFeqb reference_norm f64_zero || SFeqb dyninfer_norm f64_zero then
    if SFeqb reference_norm f64_zero && SFeqb dyninfer_norm f64_zero then f64_one else f64_zero
  else clamp (SFopp f64_one) f64_one (f64_div (s_dot s) (f64_mul reference_norm dyninfer_norm)).

(** The first non-finite logit of an engine. *)
Definition check_finite (engine : string) (values : list f32) : AnyResult unit :=
  match find_from (fun v => negb (is_finite v)) 0 values with
  | Some (index, _) => bail (Format "{engine} logit {index} is non-finite: {value}" [AStr engine; AInt index])
  | None => Ok tt
  end.

Definition u32_of (n : nat) : AnyResult Z :=
  if Z.of_nat n <=? u32_max then Ok (Z.of_nat n)
  else Err (Context (lit "vocabulary exceeds u32") (Foreign (lit "out of range"))).

(** [indices[0]]. *)
Definition first_index (indices : list nat) : AnyResult nat :=
  match indices with i :: _ => Ok i | [] => Panic "index out of bounds" end.

(** [reference_in_top_k], and how many of the other top tokens it has. *)
Definition top_k_overlap (top_reference top_dyninfer : list nat) : Z :=
  length_z (List.filter (fun i => existsb (Nat.eqb i) top_reference) top_dyninfer).

Section Compare.
(** [f64::exp] and [f64::ln] of the platform's mathematics library. *)
Variables exp ln : f64 -> f64.

Definition logsumexp (values : list f32) : f64 :=
  let maximum := foldl float_max (S754_infinity true) (f64_of_f32 <$> values) in
  f64_add maximum (ln (f64_sum ((fun v => exp (f64_sub (f64_of_f32 v) maximum)) <$> values))).

(** The loop over probabilities: the divergence and the greatest difference. *)
Definition add_probability (reference_lse dyninfer_lse : f64) (acc : f64 * f64) (p : f32 * f32)
    : f64 * f64 :=
  let reference_log := f64_sub (f64_of_f32 p.1) reference_lse in
  let dyninfer_log := f64_sub (f64_of_f32 p.2) dyninfer_lse in
  let reference_probability := exp reference_log in
  let dyninfer_probability := exp dyninfer_log in
  (f64_add acc.1 (f64_mul reference_probability (f64_sub reference_log dyninfer_log)),
   float_max acc.2 (SFabs (f64_sub reference_probability dyninfer_probability))).

Definition compare (reference dyninfer : list f32) (requested_top_k : Z) : AnyResult RowMetrics :=
  _ ← ensure_that (negb (bool_decide (reference = []))) (lit "cannot compare empty logit rows");
  _ ← ensure_that (length_z reference =? length_z dyninfer)
        (Format "logit row width mismatch: reference {}, dyninfer {}"
           [AInt (length_z reference); AInt (length_z dyninfer)]);
  _ ← ensure_that (negb (requested_top_k =? 0)) (lit "top-k must be greater than zero");
  _ ← check_finite "reference" reference;
  _ ← check_finite "dyninfer" dyninfer;
  let n := f64_of_Z (length_z reference) in
  let pairs := zip reference dyninfer in
  let s := foldl add_pair sums_start pairs in
  let mean_signed_delta := f64_div (s_delta s) n in
  let centered_squared_error :=
    f64_sum ((fun p : f32 * f32 =>
      let centered := f64_sub (f64_sub (f64_of_f32 p.2) (f64_of_f32 p.1)) mean_signed_delta in
      f64_mul centered centered) <$> pairs) in
  let reference_norm := f64_sqrt (s_reference_squared s) in
  let top_k := Z.min requested_top_k (length_z reference) in
  let k := Z.to_nat top_k in
  let reference_indices := descending_indices reference in
  let dyninfer_indices := descending_indices dyninfer in
  reference_first ← first_index reference_indices;
  reference_argmax ← u32_of reference_first;
  dyninfer_first ← first_index dyninfer_indices;
  dyninfer_argmax ← u32_of dyninfer_first;
  let overlap := top_k_overlap (take k reference_indices) (take k dyninfer_indices) in
  let reference_lse := logsumexp reference in
  let dyninfer_lse := logsumexp dyninfer in
  let '(kl, max_probability_delta) :=
    foldl (add_probability reference_lse dyninfer_lse) (f64_zero, f64_zero) pairs in
  let kl := if SFltb kl f64_zero && SFltb minus_1e_12 kl then f64_zero else kl in
  let delta_indices := stable_sort (delta_leb reference dyninfer) (seq 0 (length reference)) in
  Ok {| rm_max_absolute_error := s_max_absolute s;
        rm_mean_absolute_error := f64_div (s_absolute s) n;
        rm_rmse := f64_sqrt (f64_div (s_squared s) n);
        rm_mean_signed_delta := mean_signed_delta;
        rm_relative_l2_error := f64_div (f64_sqrt (s_squared s)) (float_max reference_norm f64_epsilon);
        rm_cosine_similarity := cosine s;
        rm_centered_rmse := f64_sqrt (f64_div centered_squared_error n);
        rm_reference_argmax := reference_argmax;
        rm_dyninfer_argmax := dyninfer_argmax;
        rm_argmax_match := reference_argmax =? dyninfer_argmax;
        rm_top_k := top_k;
        rm_top_k_overlap := overlap;
        rm_top_k_overlap_fraction := f64_div (f64_of_Z overlap) (f64_of_Z top_k);
        rm_softmax_kl_reference_dyninfer := kl;
        rm_max_probability_delta := max_probability_delta;
        rm_largest_deltas :=
          (fun i => let delta := delta_at reference dyninfer i in
             {| dl_token_id := wrap32 (Z.of_nat i); dl_reference := at_index reference i;
                dl_dyninfer := at_index dyninfer i; dl_delta := delta;
                dl_absolute_delta := SFabs delta |}) <$> take k delta_indices;
        rm_reference_top := token_logits reference (take k reference_indices);
        rm_dyninfer_top := token_logits dyninfer (take k dyninfer_indices) |}.

End Compare.

(** ** logits.rs: comparing along a trajectory *)

Record ComparedRow := {
  cr_step : nat;
  cr_phase : TracePhase;
  cr_position : Z;
  cr_input_token : Z;
  cr_forced_token : option Z;
  cr_metrics : RowMetrics;
}.

Section Run.
Context {SJ : SerdeJson} {TJ : TraceJson} {Ctx : Type} {IC : IreeContext Ctx}.
Variables exp ln : f64 -> f64.
Variable io_fails : Call -> bool.

(** [session.prefill(tokens)?] and the like: the value and the session. *)
Definition run_method {A} (m : Method (@IreeSession SJ Ctx) A) (s : IreeSession)
    : AnyResult (A * IreeSession) :=
  match m s with
  | (Ok a, s) => Ok (a, s)
  | (Err e, _) => Err (Inner e)
  | (Panic why, _) => Panic why
  end.

Definition read_next (r : TraceReader) : AnyResult (list f32 * TraceReader) :=
  match next_row r with
  | (Ok values, r) => Ok (values, r)
  | (Err e, _) => Err e
  | (Panic why, _) => Panic why
  end.

(** The retained dyninfer trace, when there is one. *)
Definition record_row (row : TraceRow) (values : list f32) (w : option TraceWriter)
    : AnyResult (option TraceWriter) :=
  match w with
  | None => Ok None
  | Some w =>
      match write_row io_fails (tr_phase row) (tr_position row) (tr_input_token row) values w with
      | (Ok _, w) => Ok (Some w)
      | (Err e, _) => Err e
      | (Panic why, _) => Panic why
      end
  end.

Record DriftState := {
  ds_session : @IreeSession SJ Ctx;
  ds_reference : TraceReader;
  ds_writer : option TraceWriter;
}.

(** One turn of the loop. *)
Definition compare_step (prompt decode : list Z) (top_k : Z) (step : nat) (row : TraceRow)
    (d : DriftState) : AnyResult (ComparedRow * DriftState) :=
  '(dyninfer_logits, session) ←
    (match step with
     | O => run_method (prefill prompt) (ds_session d)
     | S i =>
         token ← (match decode !! i with
                  | Some token => Ok token
                  | None => Panic "index out of bounds"
                  end);
         run_method (decode_token token) (ds_session d)
     end);
  '(reference_logits, reference) ← read_next (ds_reference d);
  metrics ← compare exp ln reference_logits dyninfer_logits top_k;
  _ ← ensure_that (rm_reference_argmax metrics =? tr_argmax row)
        (Format "reference row {step} metadata/logit argmax mismatch" [AInt (Z.of_nat step)]);
  writer ← record_row row dyninfer_logits (ds_writer d);
  Ok ({| cr_step := step; cr_phase := tr_phase row; cr_position := tr_position row;
         cr_input_token := tr_input_token row; cr_forced_token := tr_forced_token row;
         cr_metrics := metrics |},
      {| ds_session := session; ds_reference := reference; ds_writer := writer |}).

Fixpoint compare_rows (prompt decode : list Z) (top_k : Z) (step : nat) (trace_rows : list TraceRow)
    (d : DriftState) : AnyResult (list ComparedRow * DriftState) :=
  match trace_rows with
  | [] => Ok ([], d)
  | row :: trace_rows =>
      '(compared, d) ← compare_step prompt decode top_k step row d;
      '(rows, d) ← compare_rows prompt decode top_k (S step) trace_rows d;
      Ok (compared :: rows, d)
  end.

(** ** Aggregates and thresholds *)

Record LocatedValue := { lv_row : nat; lv_value : f64 }.
Record AggregateMetrics := {
  ag_worst_max_absolute_error : LocatedValue;
  ag_worst_rmse : LocatedValue;
  ag_worst_relative_l2_error : LocatedValue;
  ag_minimum_cosine_similarity : LocatedValue;
  ag_worst_softmax_kl : LocatedValue;
  ag_worst_probability_delta : LocatedValue;
  ag_first_argmax_disagreement : option nat;
}.
Record Thresholds := {
  ts_max_absolute_error : option f64;
  ts_max_rmse : option f64;
  ts_max_relative_l2_error : option f64;
  ts_min_cosine_similarity : option f64;
  ts_require_argmax_match : bool;
}.

(** Whether the comparison of [locate_max] is [Greater]: a greater value, or the
    same value in an earlier row. *)
Definition above (l r : LocatedValue) : bool :=
  let a := f64_key (lv_value l) in
  let b := f64_key (lv_value r) in
  (b <? a) || ((a =? b) && (lv_row l <? lv_row r)%nat).
(** The same of [locate_min], whose rows compare in their order. *)
Definition beyond (l r : LocatedValue) : bool :=
  let a := f64_key (lv_value l) in
  let b := f64_key (lv_value r) in
  (b <? a) || ((a =? b) && (lv_row r <? lv_row l)%nat).

Definition located (value : ComparedRow -> f64) (rows : list ComparedRow) : list LocatedValue :=
  imap (fun i row => {| lv_row := i; lv_value := value row |}) rows.

(** [max_by] and [min_by] of an iterator that is not empty. *)
Definition locate_max (rows : list ComparedRow) (value : ComparedRow -> f64) : AnyResult LocatedValue :=
  match located value rows with
  | x :: l => Ok (foldl (fun x y => if above x y then x else y) x l)
  | [] => Panic "non-empty rows"
  end.
Definition locate_min (rows : list ComparedRow) (value : ComparedRow -> f64) : AnyResult LocatedValue :=
  match located value rows with
  | x :: l => Ok (foldl (fun x y => if beyond x y then y else x) x l)
  | [] => Panic "non-empty rows"
  end.

(** [iter.position(f)]. *)
Fixpoint position_from {A} (f : A -> bool) (i : nat) (l : list A) : option nat :=
  match l with
  | [] => None
  | x :: l => if f x then Some i else position_from f (S i) l
  end.

Definition aggregate (rows : list ComparedRow) : AnyResult AggregateMetrics :=
  _ ← ensure_that (negb (bool_decide (length rows = O))) (lit "cannot aggregate an empty comparison");
  max_abs ← locate_max rows (fun row => rm_max_absolute_error (cr_metrics row));
  rmse ← locate_max rows (fun row => rm_rmse (cr_metrics row));
  l2 ← locate_max rows (fun row => rm_relative_l2_error (cr_metrics row));
  min_cosine ← locate_min rows (fun row => rm_cosine_similarity (cr_metrics row));
  kl ← locate_max rows (fun row => rm_softmax_kl_reference_dyninfer (cr_metrics row));
  probability ← locate_max rows (fun row => rm_max_probability_delta (cr_metrics row));
  Ok {| ag_worst_max_absolute_error := max_abs; ag_worst_rmse := rmse;
        ag_worst_relative_l2_error := l2; ag_minimum_cosine_similarity := min_cosine;
        ag_worst_softmax_kl := kl; ag_worst_probability_delta := probability;
        ag_first_argmax_disagreement :=
          position_from (fun row => negb (rm_argmax_match (cr_metrics row))) 0 rows |}.

(** A limit and what is compared with it. *)
Definition exceeds (name : string) (limit : option f64) (v : LocatedValue) : list text :=
  match limit with
  | Some limit =>
      if SFltb limit (lv_value v)
      then [Format "{name} {} > {} at row {}" [AStr name; AInt (Z.of_nat (lv_row v))]] else []
  | None => []
  end.
Definition falls_below (name : string) (limit : option f64) (v : LocatedValue) : list text :=
  match limit with
  | Some limit =>
      if SFltb (lv_value v) limit
      then [Format "{name} {} < {} at row {}" [AStr name; AInt (Z.of_nat (lv_row v))]] else []
  | None => []
  end.

Definition failures (t : Thresholds) (a : AggregateMetrics) : list text :=
  exceeds "max_abs" (ts_max_absolute_error t) (ag_worst_max_absolute_error a)
  ++ exceeds "rmse" (ts_max_rmse t) (ag_worst_rmse a)
  ++ exceeds "relative_l2" (ts_max_relative_l2_error t) (ag_worst_relative_l2_error a)
  ++ falls_below "cosine" (ts_min_cosine_similarity t) (ag_minimum_cosine_similarity a)
  ++ (if ts_require_argmax_match t then
        match ag_first_argmax_disagreement a with
        | Some row => [Format "argmax disagreement at row {row}" [AInt (Z.of_nat row)]]
        | None => []
        end
      else []).

Definition check_limit (name : string) (limit : option f64) : AnyResult unit :=
  match limit with
  | Some value =>
      ensure_that (is_finite value && SFleb f64_zero value)
        (Format "{name} must be finite and non-negative" [AStr name])
  | None => Ok tt
  end.
Definition validate_thresholds (t : Thresholds) : AnyResult unit :=
  _ ← check_limit "--max-abs" (ts_max_absolute_error t);
  _ ← check_limit "--max-rmse" (ts_max_rmse t);
  _ ← check_limit "--max-relative-l2" (ts_max_relative_l2_error t);
  match ts_min_cosine_similarity t with
  | Some value =>
      ensure_that (is_finite value && (SFleb (SFopp f64_one) value && SFleb value f64_one))
        (lit "--min-cosine must be finite and between -1 and 1")
  | None => Ok tt
  end.

(** ** The reference trace a run asked for *)

(** [a.eq_ignore_ascii_case(b)]. *)
Definition eq_ignore_ascii_case (a b : string) : bool :=
  String.eqb (to_ascii_lowercase a) (to_ascii_lowercase b).

Fixpoint check_greedy (rows : list TraceRow) (index : nat) (decode : list Z) : AnyResult unit :=
  match decode with
  | [] => Ok tt
  | token :: decode =>
      row ← (match rows !! index with Some row => Ok row | None => Panic "index out of bounds" end);
      _ ← ensure_that (tr_argmax row =? token)
            (Format "reference greedy token {index} does not equal preceding row argmax"
               [AInt (Z.of_nat index)]);
      check_greedy rows (S index) decode
  end.

Definition check_reference (h : TraceHeader) (checkpoint_sha256 : string) (vocab_size : Z)
    (prompt : list Z) (decode_steps : nat) (explicit_decode : option (list Z)) : AnyResult unit :=
  _ ← ensure_that (String.eqb (th_engine h) "llama.cpp") (lit "reference trace engine must be llama.cpp");
  _ ← ensure_that (eq_ignore_ascii_case (th_checkpoint_sha256 h) checkpoint_sha256)
        (Format "reference checkpoint digest {} does not match {}"
           [AStr (th_checkpoint_sha256 h); AStr checkpoint_sha256]);
  _ ← ensure_that (th_vocab_size h =? vocab_size)
        (Format "vocabulary mismatch: llama.cpp {}, dyninfer {}" [AInt (th_vocab_size h); AInt vocab_size]);
  _ ← ensure_that (bool_decide (th_prompt_tokens h = prompt))
        (lit "reference prompt token IDs differ from requested IDs");
  _ ← ensure_that (Nat.eqb (length (th_decode_inputs h)) decode_steps)
        (Format "reference returned {} decode inputs, expected {decode_steps}"
           [AInt (length_z (th_decode_inputs h)); AInt (Z.of_nat decode_steps)]);
  match explicit_decode with
  | Some tokens =>
      ensure_that (bool_decide (th_decode_inputs h = tokens))
        (lit "reference forced decode token IDs differ from requested IDs")
  | None => check_greedy (th_rows h) 0 (th_decode_inputs h)
  end.

(** ** generation_coherency *)

Record TokenDisagreement := { td_step : nat; td_reference_token : Z; td_dyninfer_token : Z }.
Record GenerationCoherency := {
  gn_reference_tokens : list Z;
  gn_dyninfer_tokens : list Z;
  gn_first_disagreement : option TokenDisagreement;
  gn_coherent : bool;
}.

(** The loop: [n] steps are left, [token] is the next one. *)
Fixpoint greedy_tokens (n : nat) (token : Z) (s : IreeSession) : AnyResult (list Z) :=
  match n with
  | O => Ok []
  | S O => Ok [token]
  | S n =>
      '(next, s) ← run_method (decode_argmax token) s;
      rest ← greedy_tokens n next s;
      Ok (token :: rest)
  end.

Fixpoint disagreement (step : nat) (pairs : list (Z * Z)) : option TokenDisagreement :=
  match pairs with
  | [] => None
  | (reference, dyninfer) :: pairs =>
      if reference =? dyninfer then disagreement (S step) pairs
      else Some {| td_step := step; td_reference_token := reference; td_dyninfer_token := dyninfer |}
  end.

(** [session] is what [create_session] gave. *)
Definition generation_coherency (session : Result IreeSession) (prompt reference_tokens : list Z)
    : AnyResult GenerationCoherency :=
  session ← inner session;
  '(token, s) ← run_method (prefill_argmax prompt) session;
  dyninfer_tokens ← greedy_tokens (length reference_tokens) token s;
  let first := disagreement 0 (zip reference_tokens dyninfer_tokens) in
  Ok {| gn_reference_tokens := reference_tokens; gn_dyninfer_tokens := dyninfer_tokens;
        gn_first_disagreement := first;
        gn_coherent := match first with None => true | Some _ => false end |}.

End Run.

(** ** Tokens on the command line *)

Definition compilation_prefill_window (prompt_tokens required_context : Z) : AnyResult Z :=
  if PAGED_PREFILL_CHUNK_SIZE <? required_context then Ok PAGED_PREFILL_CHUNK_SIZE
  else if prompt_tokens <=? u32_max then Ok prompt_tokens
  else Err (Context (lit "prompt length exceeds the u32 limit") (Foreign (lit "out of range"))).

Definition llama_kv_type (element_type : ScalarType) : AnyResult string :=
  match element_type with
  | F32 => Ok "f32"
  | F16 => Ok "f16"
  | Bf16 => Ok "bf16"
  | other => bail (lit "llama.cpp companion cannot match dyninfer KV type {other}")
  end.

(** [s.split(c)]. *)
Fixpoint split_char (c : ascii) (s : string) : list string :=
  match s with
  | EmptyString => [EmptyString]
  | String a s =>
      if Ascii.eqb a c then EmptyString :: split_char c s
      else match split_char c s with
           | x :: l => String a x :: l
           | [] => [String a EmptyString]
           end
  end.

Fixpoint parse_tokens (message : string) (index : Z) (parts : list string) : AnyResult (list Z) :=
  match parts with
  | [] => Ok []
  | token :: parts =>
      n ← context (Format message [AInt index; AStr token])
            (ok_or (parse_u32 token) (Foreign (lit "ParseIntError")));
      rest ← parse_tokens message (index + 1) parts;
      Ok (n :: rest)
  end.

Definition parse_comma_tokens (input option_ : string) : AnyResult (list Z) :=
  let input := trim input in
  _ ← ensure_that (negb (String.eqb input EmptyString)) (Format "{option} is empty" [AStr option_]);
  parse_tokens "{option} token {index} is not a u32: {token:?}" 0 (trim <$> split_char "," input).

Definition join_tokens (tokens : list Z) : string :=
  match decimal <$> tokens with
  | [] => EmptyString
  | x :: l => foldl (fun s t => String.append s (String "," t)) x l
  end.

(** [parse_token_file], from the text of the file. *)
Definition parse_token_text (json_tokens : string -> option (list Z)) (contents : string)
    : AnyResult (list Z) :=
  let trimmed := trim contents in
  _ ← ensure_that (negb (String.eqb trimmed EmptyString)) (lit "token file {} is empty");
  if starts_with "[" trimmed then
    tokens ← context (lit "parse JSON token array {}")
               (ok_or (json_tokens trimmed) (Foreign (lit "json error")));
    _ ← ensure_that (negb (bool_decide (tokens = []))) (lit "token file {} contains an empty array");
    Ok tokens
  else parse_tokens "token file {} token {index} is not a u32: {token:?}" 0 (split_whitespace trimmed).

Definition validate_token_range (tokens : list Z) (vocab_size : Z) (kind : string) : AnyResult unit :=
  outside_vocabulary kind vocab_size tokens.
