(* ===== verification/DriftRun.v ===== *)
(** * The drift command: crates/dyninfer-cli/src/logits.rs, [run]

    From the arguments to the report: the checkpoint is identified, the prompt
    is found, the model is loaded, the companion writes the reference trace,
    and the session is compared with it. *)
From S2P Require Import Prelude Strings Errors Serde CoreTypes Paths Catalog Names Session Manifest Compiler.
From S2P Require Import Floats LogitTrace Drift.
From Stdlib Require Import ZArith Lia Ascii String SpecFloat.
From stdpp Require Import base list strings gmap.
From stdpp Require Import options.

Local Open Scope Z_scope.

Inductive AddSpecial : Set := AddAuto | AddYes | AddNo.
Definition AddSpecial_as_str (a : AddSpecial) : string :=
  match a with AddAuto => "auto" | AddYes => "yes" | AddNo => "no" end.
Inductive FlashAttention : Set := FlashOff | FlashOn | FlashAuto.
Definition FlashAttention_as_str (f : FlashAttention) : string :=
  match f with FlashOff => "off" | FlashOn => "on" | FlashAuto => "auto" end.

(** What clap gives: exactly one of the three prompts, and not both of
    [--decode-steps] and [--decode-tokens]. *)
Record DriftArgs := {
  da_checkpoint : string;
  da_architecture : string;
  da_bundle : option string;
  da_target : string;
  da_prompt : option string;
  da_tokens : option string;
  da_tokens_file : option string;
  da_decode_steps : option Z;
  da_decode_tokens : option string;
  da_add_special : AddSpecial;
  da_parse_special : bool;
  da_llama_runner : string;
  da_llama_device : string;
  da_llama_gpu_layers : Z;
  da_llama_threads : option Z;
  da_llama_flash_attn : FlashAttention;
  da_llama_kv_type : option string;
  da_top_k : Z;
  da_json_out : option string;
  da_keep_traces : option string;
  da_generate_coherency : bool;
  da_max_abs : option f64;
  da_max_rmse : option f64;
  da_max_relative_l2 : option f64;
  da_min_cosine : option f64;
  da_require_argmax_match : bool;
}.

Definition thresholds_of (args : DriftArgs) : Thresholds :=
  {| ts_max_absolute_error := da_max_abs args; ts_max_rmse := da_max_rmse args;
     ts_max_relative_l2_error := da_max_relative_l2 args;
     ts_min_cosine_similarity := da_min_cosine args;
     ts_require_argmax_match := da_require_argmax_match args |}.

Section Run.
Context {SJ : SerdeJson} {TJ : TraceJson} {Ctx : Type} {IC : IreeContext Ctx}.

Record CheckpointIdentity := {
  ck_canonical_path : string;
  ck_size_bytes : Z;
  ck_sha256 : string;
  ck_schema_fingerprint : SchemaFingerprint;
}.
Record DyninferProvenance := {
  dp_bundle_path : string;
  dp_reused_bundle : bool;
  dp_manifest : ExecutableManifest;
}.
Record ReferenceProvenance := {
  rf_runner : string;
  rf_requested_device : string;
  rf_requested_gpu_layers : Z;
  rf_requested_threads : option Z;
  rf_requested_flash_attention : string;
  rf_requested_kv_type : string;
  rf_trace_metadata : Value;
}.
Record PromptProvenance := {
  pp_source : string;
  pp_tokens_file : option string;
  pp_add_special : option string;
  pp_parse_special : option bool;
  pp_tokenization_metadata : option Value;
}.
(** Format and version are constants of the type. *)
Definition REPORT_FORMAT : string := "dyninfer.logit-drift-report".
Definition REPORT_VERSION : Z := 1.
Record DriftReport := {
  dr_checkpoint : CheckpointIdentity;
  dr_prompt : PromptProvenance;
  dr_prompt_tokens : list Z;
  dr_decode_inputs : list Z;
  dr_dyninfer : DyninferProvenance;
  dr_reference : ReferenceProvenance;
  dr_comparison_caveats : list text;
  dr_thresholds : Thresholds;
  dr_rows : list ComparedRow;
  dr_aggregate : AggregateMetrics;
  dr_generation_coherency : option GenerationCoherency;
}.

(** ** What [run] calls

    The file system, the hash, the companion process and the model loader. The
    companion leaves its trace and its token file in the store. *)
Class DriftHost := {
  canonicalize : string -> AnyResult string;
  is_regular_file : string -> bool;
  file_len : string -> AnyResult Z;
  sha256_file : string -> AnyResult string;
  inspect : string -> Result CheckpointCatalog;
  scratch_directory : AnyResult string;
  create_directories : string -> AnyResult unit;
  (** runner, arguments, diagnostics, stage *)
  run_companion : string -> list string -> string -> string -> Fs -> AnyResult Fs;
  prompt_from_json : bytes -> option TokenizedPrompt;
  read_to_string : string -> AnyResult string;
  json_tokens : string -> option (list Z);
  resolve_architecture : option string -> string -> Result string;
  (** architecture, checkpoint, target, bundle, overrides: the bundle's root *)
  compile_to_bundle_with_overrides : string -> string -> string -> string -> list (string * Z) -> Result string;
  load_model : string -> string -> Result LoadedModel;
  (** [model.executable.open_context()] *)
  open_model_context : LoadedModel -> Result Ctx;
  manifest_value : ExecutableManifest -> Value;
}.

Context {DH : DriftHost}.
Variables exp ln : f64 -> f64.
Variable io_fails : Call -> bool.
Variable leftover : TraceDir -> option TraceDir.
Variable pid : Z.

(** ** The prompt *)

Definition parse_token_file (path : string) : AnyResult (list Z) :=
  contents ← context (Format "read token file {}" [AStr path]) (read_to_string path);
  parse_token_text json_tokens contents.

Definition tokenize_args (args : DriftArgs) (checkpoint prompt output : string) : list string :=
  ["tokenize"; "--checkpoint"; checkpoint; "--prompt"; prompt;
   "--add-special"; AddSpecial_as_str (da_add_special args); "--output"; output]
  ++ (if da_parse_special args then ["--parse-special"] else []).

Definition exact_prompt (source : string) (tokens_file : option string) : PromptProvenance :=
  {| pp_source := source; pp_tokens_file := tokens_file; pp_add_special := None;
     pp_parse_special := None; pp_tokenization_metadata := None |}.

Definition prompt_of (args : DriftArgs) (checkpoint checkpoint_sha256 scratch artifacts_root : string)
    (fs : Fs) : AnyResult (list Z * PromptProvenance * Fs) :=
  match da_prompt args, da_tokens args, da_tokens_file args with
  | Some prompt, _, _ =>
      let output := path_join scratch "tokenized-prompt.json" in
      fs ← run_companion (da_llama_runner args) (tokenize_args args checkpoint prompt output)
             (path_join artifacts_root "llama-tokenize.stderr.log") "tokenize prompt" fs;
      tokenized ← TokenizedPrompt_read prompt_from_json fs output;
      _ ← ensure_that (eq_ignore_ascii_case (tk_checkpoint_sha256 tokenized) checkpoint_sha256)
            (Format "tokenizer checkpoint digest {} does not match {}"
               [AStr (tk_checkpoint_sha256 tokenized); AStr checkpoint_sha256]);
      Ok (tk_prompt_tokens tokenized,
          {| pp_source := "llama.cpp_tokenized_text"; pp_tokens_file := None;
             pp_add_special := Some (AddSpecial_as_str (da_add_special args));
             pp_parse_special := Some (da_parse_special args);
             pp_tokenization_metadata := Some (tk_engine_metadata tokenized) |}, fs)
  | None, Some tokens, _ =>
      tokens ← parse_comma_tokens tokens "--tokens";
      Ok (tokens, exact_prompt "exact_cli_tokens" None, fs)
  | None, None, Some path =>
      tokens ← parse_token_file path;
      Ok (tokens, exact_prompt "exact_tokens_file" (Some path), fs)
  | None, None, None => Panic "clap prompt_input group"
  end.

(** ** The trajectory and the context it needs *)

Definition explicit_decode_of (args : DriftArgs) : AnyResult (option (list Z)) :=
  match da_decode_tokens args with
  | Some tokens => tokens ← parse_comma_tokens tokens "--decode-tokens"; Ok (Some tokens)
  | None => Ok None
  end.

Definition decode_steps_of (args : DriftArgs) (explicit_decode : option (list Z)) : Z :=
  match explicit_decode with
  | Some tokens => length_z tokens
  | None => default 8 (da_decode_steps args)
  end.

Definition check_coherency_args (args : DriftArgs) (explicit_decode : option (list Z)) (decode_steps : Z)
    : AnyResult unit :=
  if da_generate_coherency args then
    _ ← ensure_that (negb (bool_decide (is_Some explicit_decode)))
          (lit "--generate-coherency requires reference-greedy --decode-steps");
    ensure_that (0 <? decode_steps) (lit "--generate-coherency requires at least one decode step")
  else Ok tt.

(** Both sums are of machine words; the context is at least one. *)
Definition required_context_of (prompt_tokens decode_steps : Z) : AnyResult Z :=
  required ← ok_or (checked_add prompt_tokens decode_steps)
               (Msg (lit "prompt + decode step count overflow"));
  if required <=? u32_max then Ok (Z.max required 1)
  else Err (Context (lit "prompt + decode steps exceed the u32 context limit") (Foreign (lit "out of range"))).

(** ** The model *)

Definition bundle_of (args : DriftArgs) (checkpoint scratch : string) (required_context prefill_window : Z)
    : AnyResult (string * bool) :=
  match da_bundle args with
  | Some bundle => Ok (bundle, true)
  | None =>
      let bundle := path_join scratch "model.bundle" in
      architecture ← inner (resolve_architecture (Some (da_architecture args)) checkpoint);
      root ← inner (compile_to_bundle_with_overrides architecture checkpoint (da_target args) bundle
                      [("max_kv", required_context); ("prefill_window", prefill_window)]);
      Ok (root, false)
  end.

Definition check_capacity (model : LoadedModel) (prompt_tokens decode_steps required_context : Z)
    : AnyResult unit :=
  let kv := em_kv_cache (lm_manifest model) in
  _ ← ensure_that (required_context <=? kv_max_sequence_length kv)
        (Format "bundle KV capacity {} cannot fit prompt ({}) + decode steps ({})"
           [AInt (kv_max_sequence_length kv); AInt prompt_tokens; AInt decode_steps]);
  match kv_storage kv with
  | StaticGlobals =>
      ensure_that (prompt_tokens <=? em_prefill_window (lm_manifest model))
        (Format "bundle prefill window {} cannot fit {} prompt tokens"
           [AInt (em_prefill_window (lm_manifest model)); AInt prompt_tokens])
  | Paged _ _ => Ok tt
  end.

Definition select_kv_type (args : DriftArgs) (element_type : ScalarType) : AnyResult (string * list text) :=
  matching ← llama_kv_type element_type;
  let selected := to_ascii_lowercase (default matching (da_llama_kv_type args)) in
  _ ← ensure_that (existsb (String.eqb selected) ["f32"; "f16"; "bf16"])
        (lit "--llama-kv-type must be f32, f16, or bf16");
  Ok (selected,
      if String.eqb selected matching then []
      else [Format "llama.cpp KV type override {selected_kv_type} differs from dyninfer {}"
              [AStr selected; AStr (ScalarType_display element_type)]]).

(** ** The companion *)

(** [n.to_string()] of a signed integer. *)
Definition signed_decimal (n : Z) : string :=
  if n <? 0 then String "-" (decimal (- n)) else decimal n.

Definition reference_args (args : DriftArgs) (checkpoint output kv_type : string) (prompt_tokens : list Z)
    (explicit_decode : option (list Z)) (decode_steps required_context : Z) : AnyResult (list string) :=
  let base :=
    ["run"; "--checkpoint"; checkpoint; "--output-dir"; output;
     "--prompt-tokens"; join_tokens prompt_tokens; "--n-ctx"; decimal required_context;
     "--kv-type"; kv_type; "--device"; da_llama_device args;
     "--gpu-layers"; signed_decimal (da_llama_gpu_layers args);
     "--flash-attn"; FlashAttention_as_str (da_llama_flash_attn args)] in
  threads ← (match da_llama_threads args with
             | Some threads =>
                 _ ← ensure_that (0 <? threads) (lit "--llama-threads must be greater than zero");
                 Ok ["--threads"; decimal threads]
             | None => Ok []
             end);
  let decode :=
    match explicit_decode with
    | Some tokens => ["--decode-tokens"; join_tokens tokens]
    | None => ["--decode-steps"; decimal decode_steps]
    end in
  Ok (base ++ threads ++ decode).

(** ** The comparison *)

Definition drift_session (model : LoadedModel) (required_context : Z) : Result IreeSession :=
  create_session (open_model_context model) model
    {| cfg_max_sequence_length := required_context;
       cfg_batch_size := cfg_batch_size SessionConfig_default;
       cfg_seed := cfg_seed SessionConfig_default |}.

(** The writer of the retained trace. *)
Definition retained_writer (keep : option string) (model : LoadedModel) (checkpoint_sha256 : string)
    (vocab_size : Z) (prompt decode : list Z) (fs : Fs) : AnyResult (option TraceWriter * Fs) :=
  match keep with
  | None => Ok (None, fs)
  | Some root =>
      match create io_fails pid fs (path_join root "dyninfer") "dyninfer" checkpoint_sha256 vocab_size
              prompt decode (manifest_value (lm_manifest model)) with
      | (Ok writer, fs) => Ok (Some writer, fs)
      | (Err e, _) => Err e
      | (Panic why, _) => Panic why
      end
  end.
Definition finish_writer (writer : option TraceWriter) (fs : Fs) : AnyResult Fs :=
  match writer with
  | None => Ok fs
  | Some writer =>
      match finish io_fails leftover writer fs with
      | (Ok _, fs) => Ok fs
      | (Err e, _) => Err e
      | (Panic why, _) => Panic why
      end
  end.

(** From the opened reference trace to the report's results. *)
Definition evaluate (generate : bool) (keep : option string) (top_k : Z) (model : LoadedModel)
    (required_context : Z) (checkpoint_sha256 : string) (prompt : list Z) (reference : TraceReader) (fs : Fs)
    : AnyResult (list ComparedRow * AggregateMetrics * option GenerationCoherency * Fs) :=
  let h := rd_header reference in
  let decode := th_decode_inputs h in
  session ← inner (drift_session model required_context);
  '(writer, fs) ← retained_writer keep model checkpoint_sha256 (mm_vocabulary_size (lm_metadata model))
                    prompt decode fs;
  '(rows, d) ← compare_rows exp ln io_fails prompt decode top_k 0 (th_rows h)
                 {| ds_session := session; ds_reference := reference; ds_writer := writer |};
  _ ← finish_reading (ds_reference d);
  fs ← finish_writer (ds_writer d) fs;
  a ← aggregate rows;
  coherency ← (if generate
               then c ← generation_coherency (drift_session model required_context) prompt decode; Ok (Some c)
               else Ok None);
  Ok (rows, a, coherency, fs).

(** ** The report *)

Inductive ReportCall : Set := ReportDirectory | ReportCreate | ReportWrite | ReportSync | ReportRename | ReportRemove.
Variable report_fails : ReportCall -> bool.
Variable report_json : DriftReport -> bytes.
Definition report_call (c : ReportCall) : AnyResult unit := ensure (negb (report_fails c)) (Foreign (lit "io error")).

(** The closure of [write_json_atomic]; a file that was created has what was
    written to it. *)
Definition stage_report (path temporary : string) (content : bytes) (fs : Fs) : AnyResult unit * Fs :=
  match fs !! temporary with
  | Some (DirNode _) => (Err (Foreign (lit "is a directory")), fs)
  | _ =>
      match report_call ReportCreate with
      | Ok _ =>
          match (_ ← report_call ReportWrite; report_call ReportSync) with
          | Ok _ =>
              let staged := <[temporary := FileNode (content ++ [newline])]> fs in
              match (_ ← report_call ReportRename;
                     ensure (match fs !! path with Some (DirNode _) => false | _ => true end)
                       (Foreign (lit "is a directory"))) with
              | Ok _ => (Ok tt, <[path := FileNode (content ++ [newline])]> (delete temporary staged))
              | error => (error, staged)
              end
          | error => (error, <[temporary := FileNode []]> fs)
          end
      | error => (error, fs)
      end
  end.

Definition report_temporary (parent name : string) : string :=
  path_join parent (String.append "." (String.append name (String.append ".tmp-" (decimal pid)))).

Definition write_json_atomic (path : string) (content : bytes) (fs : Fs) : AnyResult unit * Fs :=
  let parent := default "." (parent path) in
  match (_ ← context (Format "create report directory {}" [AStr parent]) (report_call ReportDirectory);
         ok_or (name ← file_name path; if utf8_valid (bytes_of_string name) then Some name else None)
           (Msg (lit "report path must have a UTF-8 file name"))) with
  | Ok name =>
      let temporary := report_temporary parent name in
      match stage_report path temporary content fs with
      | (Ok _, fs) => (Ok tt, fs)
      | (error, fs) =>
          (context (Format "write JSON report {}" [AStr path]) error,
           match fs !! temporary with
           | Some (FileNode _) => if report_fails ReportRemove then fs else delete temporary fs
           | _ => fs
           end)
      end
  | Err e => (Err e, fs)
  | Panic why => (Panic why, fs)
  end.

(** ** The command *)

(** The verdict: the report, or the thresholds that were not met. The report is
    written first. *)
Definition conclude (args : DriftArgs) (report : DriftReport) (fs : Fs) : AnyResult DriftReport * Fs :=
  match (match da_json_out args with
         | Some path => write_json_atomic path (report_json report) fs
         | None => (Ok tt, fs)
         end) with
  | (Ok _, fs) =>
      let failed := failures (dr_thresholds report) (dr_aggregate report) in
      ((_ ← ensure_that (bool_decide (length failed = O))
             (Format "drift thresholds failed: {}" (AText <$> failed));
        Ok report), fs)
  | (Err e, fs) => (Err e, fs)
  | (Panic why, fs) => (Panic why, fs)
  end.

Definition check_args (args : DriftArgs) : AnyResult unit :=
  _ ← ensure_that (0 <? da_top_k args) (lit "--top-k must be greater than zero");
  _ ← (if eq_ignore_ascii_case (da_llama_device args) "cpu"
       then ensure_that (da_llama_gpu_layers args =? 0) (lit "--llama-device cpu requires --llama-gpu-layers 0")
       else Ok tt);
  validate_thresholds (thresholds_of args).

Definition identify (args : DriftArgs) : AnyResult CheckpointIdentity :=
  checkpoint ← context (Format "canonicalize checkpoint {}" [AStr (da_checkpoint args)])
                 (canonicalize (da_checkpoint args));
  _ ← ensure_that (is_regular_file checkpoint) (Format "checkpoint {} is not a file" [AStr checkpoint]);
  size ← file_len checkpoint;
  sha ← sha256_file checkpoint;
  inspected ← inner (inspect checkpoint);
  _ ← ensure_that (String.eqb (ci_format_id (cc_container inspected)) "gguf")
        (Format "logit drift requires exactly one GGUF checkpoint (found {})"
           [AStr (ci_format_id (cc_container inspected))]);
  Ok {| ck_canonical_path := checkpoint; ck_size_bytes := size; ck_sha256 := sha;
        ck_schema_fingerprint := cc_schema_fingerprint inspected |}.

(** Everything before the report is written. *)
Definition drift_report (args : DriftArgs) (fs : Fs) : AnyResult (DriftReport * Fs) :=
  _ ← check_args args;
  identity ← identify args;
  let checkpoint := ck_canonical_path identity in
  let sha := ck_sha256 identity in
  scratch ← context (lit "create drift scratch directory") scratch_directory;
  artifacts_root ← (match da_keep_traces args with
                    | Some directory =>
                        _ ← context (Format "create retained trace directory {}" [AStr directory])
                              (create_directories directory);
                        Ok directory
                    | None => Ok scratch
                    end);
  '(prompt, provenance, fs) ← prompt_of args checkpoint sha scratch artifacts_root fs;
  _ ← ensure_that (negb (bool_decide (prompt = []))) (lit "prompt token list is empty");
  explicit ← explicit_decode_of args;
  let decode_steps := decode_steps_of args explicit in
  _ ← check_coherency_args args explicit decode_steps;
  required_context ← required_context_of (length_z prompt) decode_steps;
  window ← compilation_prefill_window (length_z prompt) required_context;
  '(bundle, reused) ← bundle_of args checkpoint scratch required_context window;
  model ← inner (load_model bundle checkpoint);
  _ ← check_capacity model (length_z prompt) decode_steps required_context;
  let vocab := mm_vocabulary_size (lm_metadata model) in
  _ ← validate_token_range prompt vocab "prompt";
  _ ← (match explicit with Some tokens => validate_token_range tokens vocab "decode" | None => Ok tt end);
  '(kv_type, caveats) ← select_kv_type args (kv_element_type (em_kv_cache (lm_manifest model)));
  let trace := path_join artifacts_root "llama.cpp" in
  runner ← reference_args args checkpoint trace kv_type prompt explicit decode_steps required_context;
  fs ← run_companion (da_llama_runner args) runner (path_join artifacts_root "llama-reference.stderr.log")
         "evaluate reference trajectory" fs;
  reference ← open_trace fs trace;
  _ ← check_reference (rd_header reference) sha vocab prompt (Z.to_nat decode_steps) explicit;
  '(rows, a, coherency, fs) ← evaluate (da_generate_coherency args) (da_keep_traces args) (da_top_k args)
                                model required_context sha prompt reference fs;
  Ok ({| dr_checkpoint := identity; dr_prompt := provenance; dr_prompt_tokens := prompt;
         dr_decode_inputs := th_decode_inputs (rd_header reference);
         dr_dyninfer := {| dp_bundle_path := bundle; dp_reused_bundle := reused;
                           dp_manifest := lm_manifest model |};
         dr_reference :=
           {| rf_runner := da_llama_runner args; rf_requested_device := da_llama_device args;
              rf_requested_gpu_layers := da_llama_gpu_layers args;
              rf_requested_threads := da_llama_threads args;
              rf_requested_flash_attention := FlashAttention_as_str (da_llama_flash_attn args);
              rf_requested_kv_type := kv_type;
              rf_trace_metadata := th_engine_metadata (rd_header reference) |};
         dr_comparison_caveats := caveats; dr_thresholds := thresholds_of args; dr_rows := rows;
         dr_aggregate := a; dr_generation_coherency := coherency |}, fs).

Definition run (args : DriftArgs) (fs : Fs) : AnyResult DriftReport * Fs :=
  match drift_report args fs with
  | Ok (report, fs) => conclude args report fs
  | Err e => (Err e, fs)
  | Panic why => (Panic why, fs)
  end.

End Run.
