(* ===== verification/DriftSpec.v ===== *)
(** * What a drift run promises

    The rows a passing run reports are comparisons of the reference trace with
    the model's own logits along the forced trajectory, and none of them is
    outside the thresholds. Identical rows have no drift. *)
From S2P Require Import Prelude Strings Errors Serde CoreTypes Target Paths Catalog Names Session SessionSpec.
From S2P Require Import Manifest Compiler Bundle BundleSpec Floats FloatArith LogitTrace LogitTraceSpec Drift DriftRun.
From Stdlib Require Import ZArith Lia Ascii String SpecFloat.
From stdpp Require Import base list strings gmap.
From stdpp Require Import options.

Local Open Scope Z_scope.

(** ** The metrics are floats of the format *)

Create HintDb floats discriminated.
#[export] Hint Constants Opaque : floats.
#[export] Hint Variables Opaque : floats.
Lemma f64_add_valid x y : is_f64 x = true -> is_f64 y = true -> is_f64 (f64_add x y) = true.
Proof. apply SFadd_valid; lia. Qed.
Lemma f64_sub_valid x y : is_f64 x = true -> is_f64 y = true -> is_f64 (f64_sub x y) = true.
Proof. apply SFsub_valid; lia. Qed.
Lemma f64_mul_valid x y : is_f64 x = true -> is_f64 y = true -> is_f64 (f64_mul x y) = true.
Proof. apply SFmul_valid; lia. Qed.
Lemma f64_div_valid x y : is_f64 x = true -> is_f64 y = true -> is_f64 (f64_div x y) = true.
Proof. apply SFdiv_valid; lia. Qed.
Lemma f64_sqrt_valid x : is_f64 x = true -> is_f64 (f64_sqrt x) = true.
Proof. apply SFsqrt_valid; lia. Qed.
Lemma f64_abs_valid x : is_f64 x = true -> is_f64 (SFabs x) = true.
Proof. by destruct x. Qed.
Lemma f64_opp_valid x : is_f64 x = true -> is_f64 (SFopp x) = true.
Proof. by destruct x. Qed.
Lemma f64_max_valid x y : is_f64 x = true -> is_f64 y = true -> is_f64 (float_max x y) = true.
Proof. unfold float_max. intros. by repeat case_match. Qed.
Lemma f64_clamp_valid lo hi x :
  is_f64 lo = true -> is_f64 hi = true -> is_f64 x = true -> is_f64 (clamp lo hi x) = true.
Proof. unfold clamp. intros. by repeat case_match. Qed.
Lemma f64_of_Z_valid n : is_f64 (f64_of_Z n) = true.
Proof. apply binary_normalize_valid; lia. Qed.
Lemma f64_of_f32_valid x : is_f64 (f64_of_f32 x) = true.
Proof. destruct x; try done. apply binary_normalize_valid; lia. Qed.
Lemma f64_zero_valid : is_f64 f64_zero = true.
Proof. done. Qed.
Lemma f64_epsilon_valid : is_f64 f64_epsilon = true.
Proof. done. Qed.
#[export] Hint Resolve f64_add_valid f64_sub_valid f64_mul_valid f64_div_valid f64_sqrt_valid
  f64_abs_valid f64_opp_valid f64_max_valid f64_clamp_valid f64_of_Z_valid f64_of_f32_valid
  f64_zero_valid f64_epsilon_valid : floats.

#[local] Opaque f64_add f64_sub f64_mul f64_div f64_sqrt f64_of_Z f64_of_f32 float_max clamp SFabs SFopp is_f64.

Lemma f64_sum_valid l : Forall (fun x => is_f64 x = true) l -> is_f64 (f64_sum l) = true.
Proof.
  unfold f64_sum. pose proof (f64_opp_valid _ f64_zero_valid : is_f64 (S754_zero true) = true) as H. revert H.
  generalize (S754_zero true : f64). intros x Hx Hl. revert x Hx.
  induction Hl as [|y l Hy _ IH]; intros x Hx; cbn [foldl]; eauto with floats nocore.
Qed.

#[local] Transparent float_max.
Lemma number_float_max x y : is_nan x = false -> is_nan (float_max x y) = false.
Proof.
  unfold float_max. intros Hx. rewrite Hx. destruct (SFltb x y) eqn:E; [|by destruct x].
  destruct y; try done. by destruct x. Qed.

#[local] Opaque float_max.

(** The sums are values of the format, and the greatest error is a number. *)
Record sums_typed (s : Sums) : Prop := {
  sv_max : is_f64 (s_max_absolute s) = true;
  sv_number : is_nan (s_max_absolute s) = false;
  sv_abs : is_f64 (s_absolute s) = true;
  sv_sq : is_f64 (s_squared s) = true;
  sv_delta : is_f64 (s_delta s) = true;
  sv_ref : is_f64 (s_reference_squared s) = true;
  sv_dyn : is_f64 (s_dyninfer_squared s) = true;
  sv_dot : is_f64 (s_dot s) = true;
}.

Lemma add_pair_typed s p : sums_typed s -> sums_typed (add_pair s p).
Proof. intros []. split; cbn; try (by eauto 7 with floats nocore). by apply number_float_max. Qed.

Lemma sums_start_typed : sums_typed sums_start.
Proof. split; apply f64_zero_valid || done. Qed.

Lemma sums_typed_fold pairs s : sums_typed s -> sums_typed (foldl add_pair s pairs).
Proof. revert s. induction pairs as [|p pairs IH]; intros s Hs; [done|]. by apply IH, add_pair_typed. Qed.

Lemma cosine_valid s : sums_typed s -> is_f64 (cosine s) = true.
Proof. intros []. unfold cosine, f64_one. repeat case_match; eauto 9 with floats nocore. Qed.

Section Metrics.
Variables exp ln : f64 -> f64.

(** The metrics a threshold can be set on. *)
Lemma compare_valid reference dyninfer k m :
  Drift.compare exp ln reference dyninfer k = Ok m ->
  is_f64 (rm_max_absolute_error m) = true /\ is_nan (rm_max_absolute_error m) = false /\
  is_f64 (rm_rmse m) = true /\ is_f64 (rm_relative_l2_error m) = true /\
  is_f64 (rm_cosine_similarity m) = true.
Proof.
  unfold Drift.compare. intros H. ok_inv.
  cbn.
  pose proof (sums_typed_fold (zip reference dyninfer) sums_start sums_start_typed) as Hs.
  pose proof (cosine_valid _ Hs) as Hc. destruct Hs. split_and!; eauto 9 with floats nocore.
Qed.
End Metrics.

(** ** The greatest logit

    [row_argmax] keeps the first value that is greater than those before it;
    [descending_indices] sorts by the total order. They agree on finite rows
    without a negative zero. *)

#[local] Transparent f64_add f64_sub f64_mul f64_div f64_sqrt f64_of_Z f64_of_f32 float_max clamp SFabs SFopp is_f64.

(** [i] is the first of the greatest values. *)
Definition first_greatest (values : list f32) (i : nat) : Prop :=
  (i < length values)%nat /\
  forall j, (j < length values)%nat ->
    f32_key (at_index values j) < f32_key (at_index values i) \/
    (f32_key (at_index values j) = f32_key (at_index values i) /\ (i <= j)%nat).

Lemma first_greatest_unique values i j : first_greatest values i -> first_greatest values j -> i = j.
Proof. intros [Hi Gi] [Hj Gj]. specialize (Gi j Hj). specialize (Gj i Hi). lia. Qed.

Lemma descending_leb_spec values i j :
  descending_leb values i j = true <->
  f32_key (at_index values j) < f32_key (at_index values i) \/
  (f32_key (at_index values j) = f32_key (at_index values i) /\ (i <= j)%nat).
Proof.
  unfold descending_leb. rewrite orb_true_iff, andb_true_iff, Z.ltb_lt, Z.eqb_eq, Nat.leb_le. done.
Qed.

Lemma descending_leb_total values i j : descending_leb values i j = true \/ descending_leb values j i = true.
Proof. rewrite !descending_leb_spec. lia. Qed.
Lemma descending_leb_trans values i j k :
  descending_leb values i j = true -> descending_leb values j k = true -> descending_leb values i k = true.
Proof. rewrite !descending_leb_spec. lia. Qed.

Lemma descending_indices_head values :
  values <> [] -> exists i l, descending_indices values = i :: l /\ first_greatest values i.
Proof.
  intros Hne. destruct (descending_indices values) as [|i l] eqn:E.
  { apply (f_equal length) in E. unfold descending_indices in E.
    rewrite stable_sort_perm, length_seq in E. by destruct values. }
  exists i, l. split; [done|]. unfold descending_indices in E.
  apply stable_sort_head in E as [Hin Hall];
    [|intros; apply descending_leb_total|intros ???; apply descending_leb_trans].
  apply elem_of_seq in Hin. split; [lia|]. intros j Hj. rewrite Forall_forall in Hall.
  apply descending_leb_spec, Hall, elem_of_seq. lia.
Qed.

(** A finite row of the type without a negative zero. *)
Definition plain_logit (v : f32) : Prop := is_finite v = true /\ is_f32 v = true /\ v <> S754_zero true.

Lemma plain_ltb x y : plain_logit x -> plain_logit y -> SFltb x y = (f32_key x <? f32_key y).
Proof.
  intros (Fx & Vx & Zx) (Fy & Vy & Zy). pose proof (f32_ltb_key x y Fx Fy Vx Vy) as H.
  destruct (Z.ltb_spec (f32_key x) (f32_key y)) as [Hlt|Hge].
  - apply H. split; [done|]. destruct x as [[]| | |], y as [[]| | |]; done.
  - apply not_true_is_false. rewrite H. lia.
Qed.

Lemma argmax_from_first values i b rest :
  Forall plain_logit values -> (b < i)%nat -> (i <= length values)%nat -> drop i values = rest ->
  (forall j, (j < i)%nat ->
    f32_key (at_index values j) < f32_key (at_index values b) \/
    (f32_key (at_index values j) = f32_key (at_index values b) /\ (b <= j)%nat)) ->
  exists r, argmax_from (Z.of_nat i) (Z.of_nat b) (at_index values b) rest = Z.of_nat r /\
    first_greatest values r.
Proof.
  intros Hp. revert i b. induction rest as [|v rest IH]; intros i b Hb Hi Hd Hbest.
  - exists b. split; [done|]. apply (f_equal length) in Hd. rewrite length_drop in Hd. cbn in Hd.
    split; [lia|]. intros j Hj. apply Hbest. lia.
  - assert (Hv : values !! i = Some v).
    { rewrite <-(Nat.add_0_r i), <-lookup_drop, Hd. done. }
    pose proof (lookup_lt_Some _ _ _ Hv) as Hlt.
    assert (Hat : at_index values i = v) by (unfold at_index; by apply nth_lookup_Some).
    assert (Hd' : drop (S i) values = rest) by (rewrite <-Nat.add_1_r, <-drop_drop, Hd; done).
    assert (Hpl : forall j, (j < length values)%nat -> plain_logit (at_index values j)).
    { intros j Hj. rewrite Forall_lookup in Hp. destruct (lookup_lt_is_Some_2 _ _ Hj) as [x Hx].
      unfold at_index. rewrite (nth_lookup_Some _ _ _ _ Hx). by eapply Hp. }
    cbn [argmax_from]. rewrite <-Hat, plain_ltb by (apply Hpl; lia).
    replace (Z.of_nat i + 1) with (Z.of_nat (S i)) by lia.
    destruct (Z.ltb_spec (f32_key (at_index values b)) (f32_key (at_index values i))) as [Hl|Hge].
    + apply IH; [lia|lia|done|]. intros j Hj. destruct (decide (j = i)) as [->|]; [right; lia|].
      specialize (Hbest j ltac:(lia)). lia.
    + apply IH; [lia|lia|done|]. intros j Hj. destruct (decide (j = i)) as [->|]; [lia|]. apply Hbest. lia.
Qed.

Lemma row_argmax_first values :
  values <> [] -> Forall plain_logit values ->
  exists r, row_argmax values = wrap32 (Z.of_nat r) /\ first_greatest values r.
Proof.
  intros Hne Hp. destruct values as [|v rest]; [done|]. unfold row_argmax. cbn [argmax_from].
  assert (Hlt : SFltb NEG_INFINITY v = true).
  { apply Forall_cons in Hp as [(Fv & _) _]. by destruct v. }
  rewrite Hlt. destruct (argmax_from_first (v :: rest) 1 0 rest Hp) as (r & Hr & Hg).
  - lia.
  - cbn. lia.
  - done.
  - intros j Hj. assert (j = 0)%nat as -> by lia. right. lia.
  - exists r. split; [|done]. by f_equal.
Qed.

(** A row with zeros of both signs has two greatest logits: the trace records
    the first, the comparison reports the positive one. *)
Lemma argmax_of_signed_zeros :
  let values := [S754_zero true; S754_zero false] in
  row_argmax values = 0 /\ head (descending_indices values) = Some 1%nat.
Proof. by vm_compute. Qed.

(** ** Identical rows *)

(** The sums over pairs without a difference. *)
Definition quiet (s : Sums) : Prop :=
  s_max_absolute s = f64_zero /\ s_absolute s = f64_zero /\ s_squared s = f64_zero /\ s_delta s = f64_zero.

Lemma add_pair_quiet s v : is_finite (f64_of_f32 v) = true -> quiet s -> quiet (add_pair s (v, v)).
Proof.
  intros Hf (H1 & H2 & H3 & H4). unfold quiet, add_pair. cbn -[f64_sub f64_of_f32].
  unfold f64_sub. rewrite SFsub_self, H1, H2, H3, H4 by done. by vm_compute.
Qed.

Lemma quiet_sums values :
  Forall (fun v => is_finite (f64_of_f32 v) = true) values -> quiet (foldl add_pair sums_start (zip values values)).
Proof.
  intros H. assert (Hs : quiet sums_start) by done. revert Hs. generalize sums_start.
  induction H as [|v values Hv _ IH]; intros s Hs; [done|]. by apply IH, add_pair_quiet.
Qed.

Lemma f64_zero_div n : 0 < n < 2 ^ 1000 -> f64_div f64_zero (f64_of_Z n) = f64_zero.
Proof. intros Hn. by destruct (f64_of_Z_number n Hn) as (m & e & ->). Qed.

Lemma quiet_centered values :
  Forall (fun v => is_finite (f64_of_f32 v) = true) values ->
  SFabs (f64_sum ((fun p : f32 * f32 =>
    let centered := f64_sub (f64_sub (f64_of_f32 p.2) (f64_of_f32 p.1)) f64_zero in
    f64_mul centered centered) <$> zip values values)) = f64_zero.
Proof.
  intros H. unfold f64_sum. assert (Hs : SFabs (S754_zero true) = f64_zero) by done. revert Hs.
  generalize (S754_zero true : f64). induction H as [|v values Hv _ IH]; intros s Hs; [done|].
  apply IH. cbn -[f64_of_f32]. unfold f64_sub. rewrite SFsub_self by done.
  destruct s as [[]| | |]; done.
Qed.

(** The norm is not below the least positive float it is divided by. *)
Lemma zero_over_norm x : is_zero (f64_div f64_zero (float_max x f64_epsilon)) = true.
Proof.
  unfold float_max. destruct x as [[]|[]| |[] m e]; try done. cbn [is_nan].
  by destruct (SFltb (S754_finite false m e) f64_epsilon).
Qed.

Lemma overlap_self l : top_k_overlap l l = length_z l.
Proof.
  unfold top_k_overlap, length_z. f_equal. f_equal. apply forallb_filter_id, forallb_forall.
  intros i Hi. apply existsb_exists. exists i. by rewrite Nat.eqb_refl.
Qed.

Lemma check_finite_Ok engine values :
  Forall (fun v => is_finite v = true) values -> check_finite engine values = Ok tt.
Proof.
  intros H. unfold check_finite. assert (Hn : forall i, find_from (fun v => negb (is_finite v)) i values = None).
  { induction H as [|v values Hv _ IH]; intros i; [done|]. cbn. by rewrite Hv, IH. }
  by rewrite Hn.
Qed.

Lemma length_descending values : length (descending_indices values) = length values.
Proof. unfold descending_indices. by rewrite stable_sort_perm, length_seq. Qed.

Lemma compare_identical exp ln values k :
  values <> [] -> storable values -> length_z values <= 2 ^ 32 -> 0 < k ->
  exists m, Drift.compare exp ln values values k = Ok m /\
    rm_max_absolute_error m = f64_zero /\ rm_mean_absolute_error m = f64_zero /\
    rm_rmse m = f64_zero /\ rm_mean_signed_delta m = f64_zero /\
    is_zero (rm_relative_l2_error m) = true /\ is_zero (rm_centered_rmse m) = true /\
    rm_argmax_match m = true /\
    rm_top_k m = Z.min k (length_z values) /\ rm_top_k_overlap m = rm_top_k m /\
    exists i, rm_reference_argmax m = Z.of_nat i /\ first_greatest values i.
Proof.
  intros Hne Hs Hlen Hk.
  assert (Hfin : Forall (fun v => is_finite (f64_of_f32 v) = true) values).
  { eapply Forall_impl; [exact Hs|]. intros v [Fv Vv]. by apply f64_of_f32_finite. }
  assert (Hfin' : Forall (fun v => is_finite v = true) values).
  { eapply Forall_impl; [exact Hs|]. by intros v [Fv _]. }
  assert (Hn : 0 < length_z values < 2 ^ 1000).
  { unfold length_z in *. destruct values; [done|]. cbn [length] in *. split; [lia|]. 
    assert (2 ^ 32 < 2 ^ 1000) by (by vm_compute). lia. }
  destruct (descending_indices_head values Hne) as (i & l & Hi & Hg).
  unfold Drift.compare. rewrite (bool_decide_eq_false_2 (values = [])) by done.
  rewrite Z.eqb_refl, (proj2 (Z.eqb_neq k 0)), !check_finite_Ok by (done || lia).
  cbn [ensure_that ensure negb mbind result_mbind]. rewrite Hi. cbn [first_index mbind result_mbind].
  assert (Hu : u32_of i = Ok (Z.of_nat i)).
  { unfold u32_of. rewrite (proj2 (Z.leb_le _ _)); [done|]. destruct Hg as [Hg _].
    unfold length_z, u32_max in *. lia. }
  rewrite Hu. cbn [mbind result_mbind]. rewrite <-Hi.
  destruct (quiet_sums values Hfin) as (Q1 & Q2 & Q3 & Q4).
  pose proof (quiet_centered values Hfin) as Hc.
  destruct (foldl (add_probability exp _ _) _ _) as [kl pd].
  eexists. split; [reflexivity|]. cbn [rm_max_absolute_error rm_mean_absolute_error rm_rmse rm_mean_signed_delta
    rm_relative_l2_error rm_centered_rmse rm_argmax_match rm_top_k rm_top_k_overlap rm_reference_argmax].
  rewrite Q1, Q2, Q3, Q4, f64_zero_div by done. split_and!; try done.
  - apply zero_over_norm.
  - set (c := f64_sum _) in *. destruct (f64_of_Z_number _ Hn) as (m & e & ->). by destruct c as [| | |].
  - by rewrite Z.eqb_refl.
  - rewrite overlap_self. unfold length_z. rewrite length_take, length_descending. unfold length_z. lia.
  - by exists i.
Qed.

(** ** The worst row *)

Lemma located_lookup value rows i : located value rows !! i = (fun r => {| lv_row := i; lv_value := value r |}) <$> rows !! i.
Proof. unfold located. by rewrite list_lookup_imap. Qed.

(** A fold that keeps the better of two values by a key. *)
Lemma foldl_best (pick : LocatedValue -> LocatedValue -> LocatedValue) (le : Z -> Z -> Prop) `{!PreOrder le} x l :
  (forall x y, pick x y = x \/ pick x y = y) ->
  (forall x y, le (f64_key (lv_value x)) (f64_key (lv_value (pick x y))) /\
               le (f64_key (lv_value y)) (f64_key (lv_value (pick x y)))) ->
  let v := foldl pick x l in
  v ∈ x :: l /\ Forall (fun y => le (f64_key (lv_value y)) (f64_key (lv_value v))) (x :: l).
Proof.
  intros Hpick Hle. revert x. induction l as [|y l IH]; intros x; cbn [foldl].
  { split; [set_solver|]. by repeat constructor. }
  destruct (IH (pick x y)) as [Hin Hall]. apply Forall_cons in Hall as [Hp Hall].
  destruct (Hle x y) as [Hx Hy]. split.
  - apply elem_of_cons in Hin as [Hz|Hz]; [|rewrite !elem_of_cons; tauto]. rewrite Hz. rewrite !elem_of_cons. destruct (Hpick x y) as [-> | ->]; tauto.
  - repeat (constructor; [by etrans|]). done.
Qed.

Definition worst (le : Z -> Z -> Prop) (value : ComparedRow -> f64) (rows : list ComparedRow) (v : LocatedValue) : Prop :=
  (exists row, rows !! lv_row v = Some row /\ lv_value v = value row) /\
  forall row, row ∈ rows -> le (f64_key (value row)) (f64_key (lv_value v)).

Lemma worst_located le value rows v :
  v ∈ located value rows ->
  Forall (fun y => le (f64_key (lv_value y)) (f64_key (lv_value v))) (located value rows) ->
  worst le value rows v.
Proof.
  intros Hin Hall. split.
  - apply list_elem_of_lookup in Hin as [i Hi]. rewrite located_lookup in Hi.
    destruct (rows !! i) as [row|] eqn:E; [|done]. injection Hi as <-. by exists row.
  - intros row [i Hi]%list_elem_of_lookup. rewrite Forall_lookup in Hall.
    apply (Hall i {| lv_row := i; lv_value := value row |}). by rewrite located_lookup, Hi.
Qed.

Lemma locate_max_worst rows value v : locate_max rows value = Ok v -> worst Z.le value rows v.
Proof.
  unfold locate_max. destruct (located value rows) as [|x l] eqn:E; [done|]. intros [= <-].
  destruct (foldl_best (fun x y => if above x y then x else y) Z.le x l) as [Hin Hall].
  - intros a b. destruct (above a b); tauto.
  - intros a b. unfold above. destruct (Z.ltb_spec (f64_key (lv_value b)) (f64_key (lv_value a))); cbn; [lia|].
    destruct (Z.eqb_spec (f64_key (lv_value a)) (f64_key (lv_value b))); cbn; [case_match|]; lia.
  - rewrite <-E in *. by apply worst_located.
Qed.

Lemma locate_min_worst rows value v : locate_min rows value = Ok v -> worst Z.ge value rows v.
Proof.
  unfold locate_min. destruct (located value rows) as [|x l] eqn:E; [done|]. intros [= <-].
  assert (PreOrder Z.ge) by (split; red; lia).
  destruct (foldl_best (fun x y => if beyond x y then y else x) Z.ge x l) as [Hin Hall].
  - intros a b. destruct (beyond a b); tauto.
  - intros a b. unfold beyond. destruct (Z.ltb_spec (f64_key (lv_value b)) (f64_key (lv_value a))); cbn; [lia|].
    destruct (Z.eqb_spec (f64_key (lv_value a)) (f64_key (lv_value b))); cbn; [case_match|]; lia.
  - rewrite <-E in *. by apply worst_located.
Qed.

Lemma position_from_None {A} (f : A -> bool) i l :
  position_from f i l = None -> Forall (fun x => f x = false) l.
Proof.
  revert i. induction l as [|x l IH]; intros i; cbn; [by constructor|].
  destruct (f x) eqn:E; [done|]. intros H. constructor; [done|]. by eapply IH.
Qed.

(** ** Thresholds *)

Definition finite_limit (o : option f64) : Prop := forall l, o = Some l -> is_f64 l = true /\ is_finite l = true.

(** No row is above a limit, as long as the values are numbers. *)
Definition under (limit : option f64) (value : ComparedRow -> f64) (rows : list ComparedRow) : Prop :=
  forall l, limit = Some l -> (forall row, row ∈ rows -> is_nan (value row) = false) ->
    forall row, row ∈ rows -> SFltb l (value row) = false.
Definition over (limit : option f64) (value : ComparedRow -> f64) (rows : list ComparedRow) : Prop :=
  forall l, limit = Some l -> (forall row, row ∈ rows -> is_nan (value row) = false) ->
    forall row, row ∈ rows -> SFltb (value row) l = false.

Lemma worst_row le value rows v row :
  (forall row, row ∈ rows -> is_f64 (value row) = true) ->
  (forall row, row ∈ rows -> is_nan (value row) = false) ->
  worst le value rows v -> row ∈ rows ->
  is_f64 (lv_value v) = true /\ is_nan (lv_value v) = false /\
  le (f64_key (value row)) (f64_key (lv_value v)).
Proof.
  intros Hv Hn [(worst & Hw & ->) Hle] Hrow. apply list_elem_of_lookup_2 in Hw.
  split; [by apply Hv|]. split; [by apply Hn|by apply Hle].
Qed.

Lemma exceeds_under name limit value rows v :
  finite_limit limit -> (forall row, row ∈ rows -> is_f64 (value row) = true) ->
  worst Z.le value rows v -> exceeds name limit v = [] -> under limit value rows.
Proof.
  intros Hl Hv Hw He l -> Hn row Hrow. destruct (Hl l eq_refl) as [Vl Fl].
  destruct (worst_row _ _ _ _ row Hv Hn Hw Hrow) as (Vw & Nw & Hle).
  unfold exceeds in He. destruct (SFltb l (lv_value v)) eqn:E; [done|]. apply not_true_is_false. intros Hlt.
  enough (SFltb l (lv_value v) = true) by congruence.
  pose proof (ltb_key_trans 53 11 ltac:(lia) ltac:(lia) l (value row) (lv_value v)
    (is_finite_number _ Fl) (Hn row Hrow) Nw Vl (Hv row Hrow) Vw) as [H _]. by apply H.
Qed.

Lemma falls_below_over name limit value rows v :
  finite_limit limit -> (forall row, row ∈ rows -> is_f64 (value row) = true) ->
  worst Z.ge value rows v -> falls_below name limit v = [] -> over limit value rows.
Proof.
  intros Hl Hv Hw He l -> Hn row Hrow. destruct (Hl l eq_refl) as [Vl Fl].
  destruct (worst_row _ _ _ _ row Hv Hn Hw Hrow) as (Vw & Nw & Hle).
  unfold falls_below in He. destruct (SFltb (lv_value v) l) eqn:E; [done|]. apply not_true_is_false. intros Hlt.
  enough (SFltb (lv_value v) l = true) by congruence.
  pose proof (ltb_key_trans 53 11 ltac:(lia) ltac:(lia) l (value row) (lv_value v)
    (is_finite_number _ Fl) (Hn row Hrow) Nw Vl (Hv row Hrow) Vw) as [_ H]. apply H; [done|]. by apply Z.ge_le.
Qed.

(** No row is outside the thresholds. *)
Record within (t : Thresholds) (rows : list ComparedRow) : Prop := {
  wi_max_abs : under (ts_max_absolute_error t) (fun r => rm_max_absolute_error (cr_metrics r)) rows;
  wi_rmse : under (ts_max_rmse t) (fun r => rm_rmse (cr_metrics r)) rows;
  wi_l2 : under (ts_max_relative_l2_error t) (fun r => rm_relative_l2_error (cr_metrics r)) rows;
  wi_cosine : over (ts_min_cosine_similarity t) (fun r => rm_cosine_similarity (cr_metrics r)) rows;
  wi_argmax : ts_require_argmax_match t = true ->
    Forall (fun r => rm_argmax_match (cr_metrics r) = true) rows;
}.

Definition limits_typed (t : Thresholds) : Prop :=
  forall l, l ∈ [ts_max_absolute_error t; ts_max_rmse t; ts_max_relative_l2_error t; ts_min_cosine_similarity t] ->
    forall v, l = Some v -> is_f64 v = true.

Lemma check_limit_finite name limit :
  check_limit name limit = Ok tt -> (forall v, limit = Some v -> is_f64 v = true) -> finite_limit limit.
Proof.
  unfold check_limit, ensure_that. intros H Hv l ->. ok_inv. apply andb_true_iff in H as [Hf _].
  split; [by apply Hv|done].
Qed.

Lemma validate_thresholds_finite t :
  validate_thresholds t = Ok tt -> limits_typed t ->
  finite_limit (ts_max_absolute_error t) /\ finite_limit (ts_max_rmse t) /\
  finite_limit (ts_max_relative_l2_error t) /\ finite_limit (ts_min_cosine_similarity t).
Proof.
  unfold validate_thresholds. intros H Ht. ok_inv. repeat match goal with u : unit |- _ => destruct u end.
  split_and!; try (eapply check_limit_finite; [done|]; apply Ht; set_solver).
  intros l Hl. rewrite Hl in H. unfold ensure_that in H. ok_inv. apply andb_true_iff in H as [Hf _].
  split; [|done]. eapply Ht; [|exact Hl]. set_solver.
Qed.

Section Judged.
Variables exp ln : f64 -> f64.

Lemma failures_within t rows a :
  validate_thresholds t = Ok tt -> limits_typed t ->
  (forall row, row ∈ rows -> exists r d k, Drift.compare exp ln r d k = Ok (cr_metrics row)) ->
  aggregate rows = Ok a -> failures t a = [] -> within t rows.
Proof.
  intros Hv Ht Hc Ha Hf. destruct (validate_thresholds_finite t Hv Ht) as (F1 & F2 & F3 & F4).
  assert (Hm : forall row, row ∈ rows ->
    is_f64 (rm_max_absolute_error (cr_metrics row)) = true /\ is_f64 (rm_rmse (cr_metrics row)) = true /\
    is_f64 (rm_relative_l2_error (cr_metrics row)) = true /\ is_f64 (rm_cosine_similarity (cr_metrics row)) = true).
  { intros row Hrow. destruct (Hc row Hrow) as (r & d & k & H). apply compare_valid in H. tauto. }
  unfold aggregate in Ha. ok_inv. unfold failures in Hf. cbn in Hf.
  apply app_eq_nil in Hf as [Hf1 Hf]. apply app_eq_nil in Hf as [Hf2 Hf].
  apply app_eq_nil in Hf as [Hf3 Hf]. apply app_eq_nil in Hf as [Hf4 Hf].
  split.
  - eapply exceeds_under; [done| |eapply locate_max_worst; eassumption|eassumption]. intros row Hr. by apply Hm.
  - eapply exceeds_under; [done| |eapply locate_max_worst; eassumption|eassumption]. intros row Hr. by apply Hm.
  - eapply exceeds_under; [done| |eapply locate_max_worst; eassumption|eassumption]. intros row Hr. by apply Hm.
  - eapply falls_below_over; [done| |eapply locate_min_worst; eassumption|eassumption]. intros row Hr. by apply Hm.
  - intros Hreq. rewrite Hreq in Hf. destruct (position_from _ 0 rows) eqn:E; [done|].
    apply position_from_None in E. eapply Forall_impl; [exact E|]. intros row. cbn. by destruct (rm_argmax_match _).
Qed.
End Judged.

(** ** The trajectory *)

Section Run.
Context {SJ : SerdeJson} {TJ : TraceJson} {Ctx : Type} {IC : IreeContext Ctx} {CC : CausalContext Ctx}.
Variables exp ln : f64 -> f64.
Variable io_fails : Call -> bool.
Implicit Type s : @IreeSession SJ Ctx.

Lemma run_method_Ok {A} (m : Method (@IreeSession SJ Ctx) A) s a s' :
  run_method m s = Ok (a, s') -> m s = (Ok a, s').
Proof. unfold run_method. by destruct (m s) as [[| |] ?]; intros [= -> ->]. Qed.

(** The session before a step: new, or holding the tokens of the steps before. *)
Definition ready (prompt decode : list Z) (step : nat) s : Prop :=
  match step with
  | O => valid s
  | S i => serves s (prompt ++ take i decode)
  end.

(** The logits of a step are the model's, for the prompt and the forced tokens
    before it. *)
Lemma step_logits prompt decode step s values s' :
  ready prompt decode step s ->
  (match step with
   | O => run_method (prefill prompt) s
   | S i =>
       token ← (match decode !! i with Some token => Ok token | None => Panic "index out of bounds" end);
       run_method (decode_token token) s
   end) = Ok (values, s') ->
  values = cc_lm (prompt ++ take step decode) /\ ready prompt decode (S step) s'.
Proof.
  destruct step as [|i]; cbn [ready take]; intros Hr H.
  - apply run_method_Ok in H. rewrite app_nil_r. destruct (fits_dec s prompt) eqn:Hf.
    + apply fits_dec_spec in Hf. destruct (prefill_serves s prompt Hr Hf) as (s1 & H1 & Hs & _).
      rewrite H1 in H. by injection H as <- <-.
    + destruct (prefill_refuses s prompt Hr (fits_dec_false s prompt Hf)) as [e He]. by rewrite He in H.
  - destruct (decode !! i) as [token|] eqn:Hi; [|done]. cbn in H. apply run_method_Ok in H.
    set (toks := prompt ++ take i decode) in *.
    assert (Ht : prompt ++ take (S i) decode = toks ++ [token])
      by (unfold toks; by rewrite (take_S_r _ _ _ Hi), app_assoc).
    rewrite Ht. destruct (Z.lt_ge_cases (length_z toks) (max_seq s)) as [Hlt|Hge].
    + destruct (decode_token_serves s toks token Hr Hlt) as (s1 & H1 & Hs & _).
      rewrite H1 in H. by injection H as <- <-.
    + destruct Hr as (Hv & _ & Hp & _).
      destruct (decode_token_refuses s token Hv) as [e He]; [lia|]. by rewrite He in H.
Qed.

Lemma read_next_Ok r values r' : read_next r = Ok (values, r') -> next_row r = (Ok values, r').
Proof. unfold read_next. by destruct (next_row r) as [[| |] ?]; intros [= -> ->]. Qed.

(** What a compared row says of the reference row it was made from. *)
Record compared_with (prompt decode : list Z) (top_k : Z) (step : nat) (rec : TraceRow)
    (values : list f32) (row : ComparedRow) : Prop := {
  cw_step : cr_step row = step;
  cw_phase : cr_phase row = tr_phase rec;
  cw_position : cr_position row = tr_position rec;
  cw_input : cr_input_token row = tr_input_token rec;
  cw_forced : cr_forced_token row = tr_forced_token rec;
  cw_metrics : Drift.compare exp ln values (cc_lm (prompt ++ take step decode)) top_k = Ok (cr_metrics row);
  cw_argmax : rm_reference_argmax (cr_metrics row) = tr_argmax rec;
}.

Lemma compare_step_sound prompt decode top_k step rec d row d' :
  ready prompt decode step (ds_session d) ->
  compare_step exp ln io_fails prompt decode top_k step rec d = Ok (row, d') ->
  ready prompt decode (S step) (ds_session d') /\
  exists values, next_row (ds_reference d) = (Ok values, ds_reference d') /\
    compared_with prompt decode top_k step rec values row.
Proof.
  intros Hr H. unfold compare_step in H. ok_inv. 
  repeat match goal with p : (_ * _)%type |- _ => destruct p end. cbn in *. ok_inv.
  destruct (step_logits _ _ _ _ _ _ Hr Hv) as [-> Hr'].
  match goal with H : read_next _ = _ |- _ => apply read_next_Ok in H end.
  match goal with H : ensure_that _ _ = _ |- _ => unfold ensure_that in H end. ok_inv.
  split; [done|]. eexists. split; [eassumption|]. split; try done. by apply Z.eqb_eq.
Qed.

Lemma compare_rows_sound prompt decode top_k step recs d rows d' :
  ready prompt decode step (ds_session d) ->
  compare_rows exp ln io_fails prompt decode top_k step recs d = Ok (rows, d') ->
  exists refs, read_rows (length recs) (ds_reference d) = (Ok refs, ds_reference d') /\
    length rows = length recs /\
    forall i row, rows !! i = Some row -> exists rec values,
      recs !! i = Some rec /\ refs !! i = Some values /\
      compared_with prompt decode top_k (step + i) rec values row.
Proof.
  revert step d rows. induction recs as [|rec recs IH]; intros step d rows Hr H; cbn [compare_rows] in H.
  { injection H as <- <-. by exists []. }
  apply bind_Ok in H as ([row d1] & H1 & H). apply bind_Ok in H as ([rows1 d2] & H2 & H).
  injection H as <- <-. apply compare_step_sound in H1 as (Hr1 & values & Hn & Hc); [|done].
  apply IH in H2 as (refs & Hrefs & Hl & Hi); [|done].
  exists (values :: refs). cbn [length read_rows]. rewrite Hn, Hrefs. split; [done|]. split; [by rewrite Hl|].
  intros [|i] row'; cbn; [intros [= <-]|intros Hrow].
  - exists rec, values. by rewrite Nat.add_0_r.
  - apply Hi in Hrow as (rec' & values' & ?). exists rec', values'. by rewrite Nat.add_succ_r.
Qed.

(** ** A run against the model's own trace *)

Lemma step_serves prompt decode step s :
  ready prompt decode step s -> (step <= length decode)%nat -> (step = O -> fits s prompt) ->
  length_z prompt + length_z decode <= max_seq s ->
  exists s', (match step with
   | O => run_method (prefill prompt) s
   | S i =>
       token ← (match decode !! i with Some token => Ok token | None => Panic "index out of bounds" end);
       run_method (decode_token token) s
   end) = Ok (cc_lm (prompt ++ take step decode), s') /\
    ready prompt decode (S step) s' /\ max_seq s' = max_seq s.
Proof.
  destruct step as [|i]; cbn [ready take]; intros Hr Hstep Hfit Hmax.
  - rewrite app_nil_r. destruct (prefill_serves s prompt Hr (Hfit eq_refl)) as (s' & H & Hs & Hsame).
    exists s'. unfold run_method. rewrite H. split; [done|]. split; [done|]. by apply max_seq_same.
  - destruct (lookup_lt_is_Some_2 decode i ltac:(lia)) as [token Hi]. rewrite Hi. cbn.
    set (toks := prompt ++ take i decode) in *.
    assert (Ht : prompt ++ take (S i) decode = toks ++ [token])
      by (unfold toks; by rewrite (take_S_r _ _ _ Hi), app_assoc).
    cbn [take] in Ht. rewrite Ht. destruct (decode_token_serves s toks token Hr) as (s' & H & Hs & Hsame).
    { unfold toks, length_z in *. rewrite length_app, length_take. lia. }
    exists s'. unfold run_method. rewrite H. split; [done|]. split; [done|]. by apply max_seq_same.
Qed.

(** A row without drift. *)
Definition no_drift (row : ComparedRow) : Prop :=
  rm_max_absolute_error (cr_metrics row) = f64_zero /\ rm_rmse (cr_metrics row) = f64_zero /\
  is_zero (rm_relative_l2_error (cr_metrics row)) = true /\ rm_argmax_match (cr_metrics row) = true.

Lemma compare_own values k rec :
  values <> [] -> Forall plain_logit values -> length_z values <= 2 ^ 32 -> 0 < k ->
  tr_argmax rec = row_argmax values ->
  exists m, Drift.compare exp ln values values k = Ok m /\ rm_reference_argmax m = tr_argmax rec /\
    rm_max_absolute_error m = f64_zero /\ rm_rmse m = f64_zero /\
    is_zero (rm_relative_l2_error m) = true /\ rm_argmax_match m = true.
Proof.
  intros Hne Hp Hlen Hk Ha. destruct (compare_identical exp ln values k) as (m & Hm & H); [done| |done..|].
  { eapply Forall_impl; [exact Hp|]. intros v (? & ? & _). done. }
  destruct H as (H1 & _ & H3 & _ & H5 & _ & H7 & _ & _ & i & Hi & Hg).
  exists m. split; [done|]. split; [|done]. rewrite Ha, Hi.
  destruct (row_argmax_first values Hne Hp) as (r & -> & Hr).
  rewrite (first_greatest_unique _ _ _ Hr Hg). destruct Hg as [Hg _].
  unfold wrap32, length_z in *. rewrite Z.mod_small; [done|lia].
Qed.

Lemma compare_rows_own prompt decode top_k recs step d refs r' :
  0 < top_k -> (forall toks, Forall plain_logit (cc_lm toks)) -> 0 < cc_vocab <= 2 ^ 32 ->
  ready prompt decode step (ds_session d) -> ds_writer d = None ->
  (step = O -> fits (ds_session d) prompt) ->
  length_z prompt + length_z decode <= max_seq (ds_session d) ->
  (step + length recs <= S (length decode))%nat ->
  read_rows (length recs) (ds_reference d) = (Ok refs, r') ->
  (forall i rec, recs !! i = Some rec -> exists values, refs !! i = Some values /\
    values = cc_lm (prompt ++ take (step + i) decode) /\ tr_argmax rec = row_argmax values) ->
  exists rows d', compare_rows exp ln io_fails prompt decode top_k step recs d = Ok (rows, d') /\
    ds_reference d' = r' /\ length rows = length recs /\ Forall no_drift rows.
Proof.
  intros Hk Hplain Hvocab. revert step d refs. induction recs as [|rec recs IH];
    intros step d refs Hr Hw Hfit Hmax Hlen Hread Hrecs; cbn [length read_rows] in *.
  { injection Hread as <- <-. exists [], d. done. }
  destruct (next_row (ds_reference d)) as [[values| |] r1] eqn:En; try done.
  destruct (read_rows _ r1) as [[refs1| |] r2] eqn:Er; try done. injection Hread as <- <-.
  destruct (Hrecs 0%nat rec eq_refl) as (values' & [= <-] & Hvalues & Ha). rewrite Nat.add_0_r in Hvalues.
  destruct (step_serves prompt decode step (ds_session d) Hr) as (s' & Hs & Hr' & Hmax'); [lia|done|done|].
  destruct (compare_own values top_k rec) as (m & Hm & Hra & Hquiet).
  - intros ->. pose proof (cc_lm_length (prompt ++ take step decode)) as Hl. rewrite <-Hvalues in Hl. cbn in Hl. lia.
  - rewrite Hvalues. apply Hplain.
  - pose proof (cc_lm_length (prompt ++ take step decode)) as Hl. rewrite Hvalues. unfold length_z. lia.
  - done.
  - done.
  - set (d1 := {| ds_session := s'; ds_reference := r1; ds_writer := None |}).
    destruct (IH (S step) d1 refs1) as (rows & d' & Hrows & Hd' & Hl & Hq); [done|done|done|..].
    + cbn. rewrite Hmax'. done.
    + lia.
    + done.
    + intros i rec' Hi. destruct (Hrecs (S i) rec' Hi) as (v & Hv & Hv' & Ha').
      exists v. rewrite Nat.add_succ_comm. done.
    + eexists ({| cr_metrics := m |} :: rows), d'.
      split; [|split; [done|split; [cbn; by f_equal|by constructor]]].
      cbn [compare_rows]. unfold compare_step. rewrite Hs. cbn -[Drift.compare compare_rows].
      unfold read_next. rewrite En. cbn -[Drift.compare compare_rows]. rewrite <-Hvalues, Hm. cbn -[compare_rows].
      rewrite Hra, Z.eqb_refl. cbn -[compare_rows]. rewrite Hw. cbn -[compare_rows]. fold d1. by rewrite Hrows.
Qed.

Lemma zero_within name option_ limit v : is_zero (lv_value v) = true -> check_limit option_ limit = Ok tt -> exceeds name limit v = [].
Proof.
  unfold check_limit, exceeds, ensure_that. destruct limit as [l|]; [|done]. intros Hz H. ok_inv.
  apply andb_true_iff in H as [_ Hle]. destruct (lv_value v) as [sz| | |]; try done.
  destruct (SFltb l _) eqn:E; [|done]. by destruct l as [[]|[]| |[] ? ?].
Qed.

Lemma locate_max_zero rows value :
  rows <> [] -> (forall row, row ∈ rows -> is_zero (value row) = true) ->
  exists v, locate_max rows value = Ok v /\ is_zero (lv_value v) = true.
Proof.
  intros Hne Hz. assert (Hl : located value rows <> []) by (by destruct rows).
  destruct (locate_max rows value) as [v| |] eqn:E.
  - exists v. split; [done|]. apply locate_max_worst in E as [(row & Hr & ->) _].
    apply Hz. by eapply list_elem_of_lookup_2.
  - unfold locate_max in E. by destruct (located value rows).
  - unfold locate_max in E. by destruct (located value rows).
Qed.

Lemma locate_total rows value :
  rows <> [] -> (exists v, locate_max rows value = Ok v) /\ (exists v, locate_min rows value = Ok v).
Proof. intros Hne. unfold locate_max, locate_min. destruct rows; [done|]. split; by eexists. Qed.

Lemma no_drift_passes t rows :
  rows <> [] -> Forall no_drift rows -> validate_thresholds t = Ok tt ->
  ts_min_cosine_similarity t = None ->
  exists a, aggregate rows = Ok a /\ failures t a = [].
Proof.
  intros Hne Hq Hv Hcos. rewrite Forall_forall in Hq.
  destruct (locate_max_zero rows (fun r => rm_max_absolute_error (cr_metrics r)) Hne) as (v1 & E1 & Z1).
  { intros row Hr. destruct (Hq row Hr) as (-> & _). done. }
  destruct (locate_max_zero rows (fun r => rm_rmse (cr_metrics r)) Hne) as (v2 & E2 & Z2).
  { intros row Hr. destruct (Hq row Hr) as (_ & -> & _). done. }
  destruct (locate_max_zero rows (fun r => rm_relative_l2_error (cr_metrics r)) Hne) as (v3 & E3 & Z3).
  { intros row Hr. by destruct (Hq row Hr) as (_ & _ & ? & _). }
  destruct (locate_total rows (fun r => rm_cosine_similarity (cr_metrics r)) Hne) as [_ [v4 E4]].
  destruct (locate_total rows (fun r => rm_softmax_kl_reference_dyninfer (cr_metrics r)) Hne) as [[v5 E5] _].
  destruct (locate_total rows (fun r => rm_max_probability_delta (cr_metrics r)) Hne) as [[v6 E6] _].
  assert (Hpos : position_from (fun r => negb (rm_argmax_match (cr_metrics r))) 0 rows = None).
  { generalize 0%nat. clear -Hq. induction rows as [|row rows IH]; intros i; [done|]. cbn.
    destruct (Hq row ltac:(set_solver)) as (_ & _ & _ & ->). cbn. apply IH. set_solver. }
  eexists. split.
  - unfold aggregate, ensure_that. rewrite bool_decide_eq_false_2 by (by destruct rows). cbn [negb ensure mbind result_mbind].
    rewrite E1, E2, E3, E4, E5, E6. cbn [mbind result_mbind]. rewrite Hpos. reflexivity.
  - unfold validate_thresholds in Hv. ok_inv. repeat match goal with u : unit |- _ => destruct u end.
    unfold failures. cbn. rewrite Hcos. cbn. erewrite !zero_within by eassumption. cbn. by destruct (ts_require_argmax_match t).
Qed.

(** ** Coherency of free generation *)

(** The tokens the model generates greedily after a history. *)
Fixpoint model_greedy (n : nat) (history : list Z) : list Z :=
  match n with
  | O => []
  | S n => let token := argmax (cc_lm history) in token :: model_greedy n (history ++ [token])
  end.

Lemma length_model_greedy n history : length (model_greedy n history) = n.
Proof. revert history. induction n as [|n IH]; intros history; [done|]. cbn. by rewrite IH. Qed.

Lemma greedy_tokens_SS n token s :
  greedy_tokens (S (S n)) token s =
  ('(next, s) ← run_method (decode_argmax token) s;
   rest ← greedy_tokens (S n) next s;
   Ok (token :: rest)).
Proof. done. Qed.

Lemma greedy_tokens_serves n s history :
  serves s history -> length_z history + Z.of_nat n <= max_seq s + 1 ->
  greedy_tokens n (argmax (cc_lm history)) s = Ok (model_greedy n history).
Proof.
  revert s history. induction n as [|n IH]; intros s history Hs Hmax; [done|].
  destruct n as [|n]; [done|]. rewrite greedy_tokens_SS.
  destruct (decode_argmax_serves s history (argmax (cc_lm history)) Hs) as (s' & H & Hs' & Hsame); [lia|].
  unfold run_method. rewrite H. cbn [mbind result_mbind].
  rewrite IH; [done|done|]. rewrite (max_seq_same _ _ Hsame). unfold length_z in *. rewrite length_app. cbn. lia.
Qed.

Lemma disagreement_None i l1 l2 :
  length l1 = length l2 -> (disagreement i (zip l1 l2) = None <-> l1 = l2).
Proof.
  revert i l2. induction l1 as [|x l1 IH]; intros i [|y l2] Hl; try done. cbn.
  destruct (Z.eqb_spec x y) as [->|Hne]; [|split; [done|by intros [= -> _]]].
  rewrite IH by (cbn in Hl; lia). split; [by intros ->|by intros [= ->]].
Qed.

Lemma disagreement_Some i l1 l2 d :
  disagreement i (zip l1 l2) = Some d ->
  exists j, td_step d = (i + j)%nat /\ take j l1 = take j l2 /\
    l1 !! j = Some (td_reference_token d) /\ l2 !! j = Some (td_dyninfer_token d) /\
    td_reference_token d <> td_dyninfer_token d.
Proof.
  revert i l2. induction l1 as [|x l1 IH]; intros i [|y l2]; try done. cbn.
  destruct (Z.eqb_spec x y) as [->|Hne].
  - intros (j & -> & Ht & H)%IH. exists (S j). cbn. rewrite Ht. split; [lia|]. done.
  - intros [= <-]. exists 0%nat. rewrite Nat.add_0_r. done.
Qed.

(** The free run of the coherency check is the model's greedy generation,
    it is coherent exactly when the reference generated the same tokens, and a
    disagreement is the first one. *)
Theorem coherency_is_greedy s prompt reference_tokens :
  valid s -> fits s prompt -> length_z prompt + length_z reference_tokens <= max_seq s + 1 ->
  exists g, generation_coherency (Ok s) prompt reference_tokens = Ok g /\
    gn_dyninfer_tokens g = model_greedy (length reference_tokens) prompt /\
    (gn_coherent g = true <-> reference_tokens = model_greedy (length reference_tokens) prompt) /\
    forall d, gn_first_disagreement g = Some d ->
      take (td_step d) reference_tokens = take (td_step d) (gn_dyninfer_tokens g) /\
      reference_tokens !! td_step d = Some (td_reference_token d) /\
      gn_dyninfer_tokens g !! td_step d = Some (td_dyninfer_token d) /\
      td_reference_token d <> td_dyninfer_token d.
Proof.
  intros Hs Hfit Hmax. unfold generation_coherency. cbn [inner mbind result_mbind].
  destruct (prefill_argmax_serves s prompt Hs Hfit) as (s' & H & Hs' & Hsame).
  unfold run_method. rewrite H. cbn [mbind result_mbind].
  rewrite greedy_tokens_serves; [|done|rewrite (max_seq_same _ _ Hsame); exact Hmax]. cbn [mbind result_mbind].
  eexists. split; [reflexivity|]. cbn [gn_dyninfer_tokens gn_coherent gn_first_disagreement]. split; [done|]. split.
  - pose proof (disagreement_None 0 reference_tokens (model_greedy (length reference_tokens) prompt)
      ltac:(by rewrite length_model_greedy)) as Hn.
    destruct (disagreement 0 _); [|tauto]. split; [done|]. intros He%Hn. done.
  - intros d (j & Hj & Hd)%disagreement_Some. cbn in Hj. by subst j.
Qed.
End Run.

(** ** The command *)

Section Command.
Context {SJ : SerdeJson} {TJ : TraceJson} {Ctx : Type} {IC : IreeContext Ctx} {CC : CausalContext Ctx}.
Context {DH : @DriftHost SJ Ctx}.
Variables exp ln : f64 -> f64.
Variable io_fails : Call -> bool.
Variable leftover : TraceDir -> option TraceDir.
Variable pid : Z.
Variable report_fails : ReportCall -> bool.
Variable report_json : DriftReport -> bytes.

(** The rows of a report, against the reference trace. *)
Definition judged (prompt decode : list Z) (top_k : Z) (reference : TraceReader) (fs : Fs) (trace : string)
    (rows : list ComparedRow) : Prop :=
  length rows = S (length decode) /\
  exists refs, file_in fs trace (th_logits_file (rd_header reference)) = Some (rows_bytes refs) /\
    length refs = length rows /\
    forall i row, rows !! i = Some row -> exists rec values,
      th_rows (rd_header reference) !! i = Some rec /\ refs !! i = Some values /\
      compared_with exp ln prompt decode top_k i rec values row.

Lemma evaluate_sound generate keep top_k model required sha prompt reference fs trace fs0 rows a c fs' :
  (forall s, drift_session model required = Ok s -> valid s) ->
  open_trace fs0 trace = Ok reference ->
  evaluate exp ln io_fails leftover pid generate keep top_k model required sha prompt reference fs
    = Ok (rows, a, c, fs') ->
  aggregate rows = Ok a /\
  judged prompt (th_decode_inputs (rd_header reference)) top_k reference fs0 trace rows.
Proof.
  intros Hs Hopen H. unfold evaluate in H.
  apply bind_Ok in H as (s & Hcreate & H). apply bind_Ok in H as ([w fs1] & _ & H).
  apply bind_Ok in H as ([rows1 d] & Hrows & H). apply bind_Ok in H as ([] & Hfin & H).
  apply bind_Ok in H as (fs2 & _ & H). apply bind_Ok in H as (a1 & Ha & H).
  apply bind_Ok in H as (c1 & _ & H). injection H as -> -> -> ->. split; [done|].
  assert (Hv : valid s).
  { apply Hs. unfold inner in Hcreate. destruct (drift_session model required); congruence. }
  apply compare_rows_sound in Hrows as (refs & Hr & Hl & Hi); [|exact Hv]. cbn [ds_reference] in Hr.
  destruct (open_read _ _ _ _ _ Hopen Hr) as (Hfile & _ & Hcount).
  pose proof (read_rows_count _ _ _ _ Hr) as Hn. split; [lia|].
  exists refs. split; [done|]. split; [lia|]. intros i row Hrow. by apply Hi.
Qed.

Lemma check_reference_Ok h sha vocab prompt steps explicit :
  check_reference h sha vocab prompt steps explicit = Ok tt ->
  th_engine h = "llama.cpp" /\ th_vocab_size h = vocab /\ th_prompt_tokens h = prompt /\
  length (th_decode_inputs h) = steps /\
  match explicit with Some tokens => th_decode_inputs h = tokens | None => True end.
Proof.
  unfold check_reference, ensure_that. intros H.
  do 5 (apply bind_Ok in H as ([] & ?Hc & H)). apply ensure_Ok in Hc, Hc1, Hc2, Hc3.
  apply String.eqb_eq in Hc. apply Z.eqb_eq in Hc1. apply bool_decide_eq_true in Hc2. apply Nat.eqb_eq in Hc3.
  split_and!; try done. destruct explicit as [tokens|]; [|done].
  by apply ensure_Ok, bool_decide_eq_true in H.
Qed.

(** What a report was made from. *)
Lemma drift_report_Ok args fs report fs' :
  drift_report exp ln io_fails leftover pid args fs = Ok (report, fs') ->
  check_args args = Ok tt /\ dr_thresholds report = thresholds_of args /\ dr_prompt_tokens report <> [] /\
  exists fs1 trace model bundle checkpoint required reference keep coherency fs2,
    load_model bundle checkpoint = Ok model /\ open_trace fs1 trace = Ok reference /\
    th_engine (rd_header reference) = "llama.cpp" /\
    th_prompt_tokens (rd_header reference) = dr_prompt_tokens report /\
    dr_decode_inputs report = th_decode_inputs (rd_header reference) /\
    evaluate exp ln io_fails leftover pid (da_generate_coherency args) keep (da_top_k args) model required
      (ck_sha256 (dr_checkpoint report)) (dr_prompt_tokens report) reference fs1
      = Ok (dr_rows report, dr_aggregate report, coherency, fs2).
Proof.
  unfold drift_report. intros H.
  apply bind_Ok in H as ([] & Hargs & H). apply bind_Ok in H as (identity & _ & H).
  apply bind_Ok in H as (scratch & _ & H). apply bind_Ok in H as (root & _ & H).
  apply bind_Ok in H as ([[prompt provenance] fs1] & _ & H). apply bind_Ok in H as ([] & Hne & H).
  apply bind_Ok in H as (explicit & _ & H). apply bind_Ok in H as ([] & _ & H).
  apply bind_Ok in H as (required & _ & H). apply bind_Ok in H as (window & _ & H).
  apply bind_Ok in H as ([bundle reused] & _ & H). apply bind_Ok in H as (model & Hmodel & H).
  apply bind_Ok in H as ([] & _ & H). apply bind_Ok in H as ([] & _ & H).
  apply bind_Ok in H as ([] & _ & H). apply bind_Ok in H as ([kv caveats] & _ & H).
  apply bind_Ok in H as (runner & _ & H). apply bind_Ok in H as (fs2 & _ & H).
  apply bind_Ok in H as (reference & Hopen & H). apply bind_Ok in H as ([] & Hcheck & H).
  apply bind_Ok in H as ([[[rows a] c] fs3] & He & H). injection H as <- <-.
  apply check_reference_Ok in Hcheck as (Heng & _ & Hp & Hd & _).
  split; [done|]. split; [done|]. split.
  { unfold ensure_that in Hne. apply ensure_Ok, negb_true_iff, bool_decide_eq_false in Hne. done. }
  eexists fs2, _, model, _, _, _, reference, _, c, fs3. split.
  { unfold inner in Hmodel. destruct (load_model _ _) eqn:E; [|done..]. injection Hmodel as ->. exact E. }
  split; [exact Hopen|]. split; [done|]. split; [done|]. split; [done|]. exact He.
Qed.

Lemma check_args_thresholds args : check_args args = Ok tt -> validate_thresholds (thresholds_of args) = Ok tt.
Proof. unfold check_args. intros H. by do 2 (apply bind_Ok in H as ([] & _ & H)). Qed.

(** The report is complete under its name. *)
Lemma write_json_atomic_Ok path content fs fs' :
  write_json_atomic pid report_fails path content fs = (Ok tt, fs') ->
  fs' !! path = Some (FileNode (content ++ [newline])).
Proof.
  unfold write_json_atomic. destruct (_ ≫= _) as [name| |]; try done.
  unfold stage_report. destruct (fs !! _) as [[|]|]; try done;
    (destruct (report_call _ _) as [[]| |]; try done; destruct (_ ≫= _) as [[]| |]; try done;
     destruct (_ ≫= _) as [[]| |]; try done; intros [= <-]; by rewrite lookup_insert_eq).
Qed.

(** Staging replaces the report, or touches nothing but the temporary file. *)
Lemma stage_report_spec path temporary content fs r fs' :
  stage_report report_fails path temporary content fs = (r, fs') ->
  (r = Ok tt /\ fs' !! path = Some (FileNode (content ++ [newline])) /\
   forall other, other <> path -> other <> temporary -> fs' !! other = fs !! other) \/
  (r <> Ok tt /\ forall other, other <> temporary -> fs' !! other = fs !! other).
Proof.
  assert (Hins : forall c other, other <> temporary -> <[temporary := FileNode c]> fs !! other = fs !! other)
    by (intros; by rewrite lookup_insert_ne).
  unfold stage_report. intros H.
  assert (Hd : (exists d, fs !! temporary = Some (DirNode d)) \/
    (r, fs') = match report_call report_fails ReportCreate with
      | Ok _ =>
          match (_ ← report_call report_fails ReportWrite; report_call report_fails ReportSync) with
          | Ok _ =>
              let staged := <[temporary := FileNode (content ++ [newline])]> fs in
              match (_ ← report_call report_fails ReportRename;
                     ensure (match fs !! path with Some (DirNode _) => false | _ => true end)
                       (Foreign (lit "is a directory"))) with
              | Ok _ => (Ok tt, <[path := FileNode (content ++ [newline])]> (delete temporary staged))
              | error => (error, staged)
              end
          | error => (error, <[temporary := FileNode []]> fs)
          end
      | error => (error, fs)
      end).
  { destruct (fs !! temporary) as [[|d]|]; [by right|left; by exists d|by right]. }
  destruct Hd as [[d Hd]|Hd].
  { rewrite Hd in H. injection H as <- <-. by right. }
  clear H. destruct (report_call _ ReportCreate) as [[]| |]; [|by injection Hd as -> ->; right..].
  destruct (_ ≫= _) as [[]| |]; [|by injection Hd as -> ->; right; split; [|intros; apply Hins]..].
  destruct (_ ≫= _) as [[]| |]; [|by injection Hd as -> ->; right; split; [|intros; apply Hins]..].
  injection Hd as -> ->. left. split; [done|]. split; [by rewrite lookup_insert_eq|].
  intros other Hp Ht. rewrite lookup_insert_ne, lookup_delete_ne by done. by apply Hins.
Qed.

(** The report is written whole or not at all: its path holds what it held or
    all of the new report, and no other file changes but the temporary one. *)
Lemma write_json_atomic_spec path content fs r fs' :
  write_json_atomic pid report_fails path content fs = (r, fs') ->
  (fs' !! path = fs !! path \/ (r = Ok tt /\ fs' !! path = Some (FileNode (content ++ [newline])))) /\
  forall other, other <> path ->
    (forall name, file_name path = Some name -> other <> report_temporary pid (default "." (parent path)) name) ->
    fs' !! other = fs !! other.
Proof.
  unfold write_json_atomic.
  destruct (_ ≫= _) as [name| |] eqn:En; try (intros [= <- <-]; split; [by left|done]).
  assert (Hname : file_name path = Some name).
  { apply bind_Ok in En as ([] & _ & En). apply ok_or_Ok in En.
    destruct (file_name path) as [n|]; [|done]. cbn in En. destruct (utf8_valid _); congruence. }
  set (temporary := report_temporary pid _ name).
  assert (Hne : temporary <> path).
  { unfold temporary, report_temporary. apply hidden_name_differs; [done| |].
    - rewrite has_slash_append. cbn. apply all_digits_no_slash, decimal_digits.
    - rewrite length_append. cbn [String.length]. lia. }
  destruct (stage_report _ _ _ _ _) as [r1 fs1] eqn:Es. apply stage_report_spec in Es.
  destruct Es as [(-> & Hp & Ho)|[Hr Ho]].
  - intros [= <- <-]. split; [by right|]. intros other Hop Hot. apply Ho; [done|]. by apply Hot.
  - intros H.
    assert (Hfs : forall other, other <> temporary -> fs' !! other = fs !! other).
    { intros other Hot. assert (Hf : fs' = match fs1 !! temporary with
        | Some (FileNode _) => if report_fails ReportRemove then fs1 else delete temporary fs1
        | _ => fs1
        end) by (destruct r1 as [[]| |]; [done|congruence..]).
      rewrite Hf. destruct (fs1 !! temporary) as [[]|]; [destruct (report_fails _)| |];
        rewrite ?lookup_delete_ne by done; by apply Ho. }
    split; [left; by apply Hfs|]. intros other _ Hot. apply Hfs. by apply Hot.
Qed.


Lemma compare_rows_no_writer prompt decode top_k step recs d rows d' :
  compare_rows exp ln io_fails prompt decode top_k step recs d = Ok (rows, d') ->
  ds_writer d = None -> ds_writer d' = None.
Proof.
  revert step d rows. induction recs as [|rec recs IH]; intros step d rows H Hw; cbn [compare_rows] in H.
  { by injection H as <- <-. }
  apply bind_Ok in H as ([row d1] & H1 & H). apply bind_Ok in H as ([rows1 d2] & H2 & H).
  injection H as <- <-. eapply IH; [exact H2|]. unfold compare_step in H1.
  apply bind_Ok in H1 as ([? ?] & _ & H1). apply bind_Ok in H1 as ([? ?] & _ & H1).
  apply bind_Ok in H1 as (? & _ & H1). apply bind_Ok in H1 as ([] & _ & H1).
  rewrite Hw in H1. cbn in H1. by injection H1 as <- <-.
Qed.

End Command.

(** ** A concrete run

    The model of [SessionSpec.Toy] against a trace of its own rows. *)
Import Json Codec.

Module Sample.

Definition one : f32 := f32_of_bits 1065353216.
(** A reference that is near the model: the logits of the prompt are doubled. *)
Definition near_rows : list Row :=
  [{| row_phase := Prefill; row_position := 1; row_input := 2;
      row_values := (fun v => f32_add v v) <$> Toy.lm [1; 2] |};
   {| row_phase := Decode; row_position := 2; row_input := 3; row_values := Toy.lm [1; 2; 3] |}].
Definition own_rows : list Row :=
  [{| row_phase := Prefill; row_position := 1; row_input := 2; row_values := Toy.lm [1; 2] |};
   {| row_phase := Decode; row_position := 2; row_input := 3; row_values := Toy.lm [1; 2; 3] |}].
Definition w0 : TraceWriter :=
  {| wr_destination := "out/trace"; wr_temporary := "out/.trace.tmp-42-0";
     wr_header := new_header "llama.cpp" sample_sha 4 [1; 2] [3] value_null; wr_logits := [] |}.
Definition fs_of (rows : list Row) : Fs :=
  snd (finish no_faults (fun _ => None) (snd (write_rows no_faults rows w0)) sample_fs0).
Definition reader_of (rows : list Row) : TraceReader :=
  let w := snd (write_rows no_faults rows w0) in
  {| rd_header := set_engine_metadata value_null (wr_header w); rd_logits := wr_logits w; rd_next_row := 0 |}.
(** A stand-in for [exp] and [ln]. *)
Definition same (x : f64) : f64 := x.

Definition args : DriftArgs :=
  {| da_checkpoint := "model.gguf"; da_architecture := "auto"; da_bundle := Some "model.bundle";
     da_target := "cpu"; da_prompt := None; da_tokens := Some "1, 2"; da_tokens_file := None;
     da_decode_steps := Some 1; da_decode_tokens := None; da_add_special := AddAuto;
     da_parse_special := false; da_llama_runner := "dyninfer-llama-logits"; da_llama_device := "cpu";
     da_llama_gpu_layers := 0; da_llama_threads := None; da_llama_flash_attn := FlashOff;
     da_llama_kv_type := None; da_top_k := 2; da_json_out := Some "report.json"; da_keep_traces := None;
     da_generate_coherency := false; da_max_abs := Some f64_one; da_max_rmse := None;
     da_max_relative_l2 := None; da_min_cosine := None; da_require_argmax_match := true |}.

(** The bundle compiled in [Bundle.PipelineSample], loaded. *)
Definition model : Result LoadedModel :=
  '(package, catalog, plan) ← PipelineSample.bound;
  out ← PipelineSample.compile_for package catalog plan llvm_cpu_host;
  Ok {| lm_metadata := loaded_metadata (out_manifest out) PipelineSample.inspected;
        lm_manifest := out_manifest out; lm_binding := plan; lm_catalog := PipelineSample.inspected |}.

Definition as_gguf (c : CheckpointCatalog) : CheckpointCatalog :=
  {| cc_container := {| ci_format_id := "gguf"; ci_version := None; ci_magic := None |};
     cc_convention_id := cc_convention_id c; cc_source_files := cc_source_files c;
     cc_metadata := cc_metadata c; cc_raw_entries := cc_raw_entries c;
     cc_parameters := cc_parameters c; cc_schema_fingerprint := cc_schema_fingerprint c |}.

(** A host whose companion leaves the trace of some rows. *)
Definition host (rows : list Row) : @DriftHost _ Toy.Context := {|
  canonicalize path := Ok path;
  is_regular_file _ := true;
  file_len _ := Ok 0;
  sha256_file _ := Ok sample_sha;
  inspect _ := Ok (as_gguf PipelineSample.inspected);
  scratch_directory := Ok "tmp";
  create_directories _ := Ok tt;
  run_companion _ _ _ _ fs :=
    match fs_of rows !! "out/trace" with
    | Some node => Ok (<["tmp/llama.cpp" := node]> fs)
    | None => Err (Foreign (lit "no trace"))
    end;
  prompt_from_json _ := None;
  read_to_string _ := Err (Foreign (lit "no such file"));
  json_tokens _ := None;
  resolve_architecture _ _ := Ok "llama";
  compile_to_bundle_with_overrides _ _ _ _ _ := Ok "model.bundle";
  load_model _ _ := model;
  open_model_context _ := Ok {| Toy.tokens := []; Toy.capacity := 0 |};
  manifest_value _ := value_null;
|}.

Definition outcome (rows : list Row) : AnyResult DriftReport * Fs :=
  run (DH := host rows) same same no_faults (fun _ => None) 42 (fun _ => false) (fun _ => []) args ∅.

(** Every session of the model is valid. *)
Lemma model_sessions_valid rows bundle checkpoint m required s :
  load_model (DriftHost := host rows) bundle checkpoint = Ok m ->
  drift_session (DH := host rows) m required = Ok s -> valid s.
Proof.
  assert (H : match model with
    | Ok m => mm_vocabulary_size (lm_metadata m) = 4 /\
        kv_storage (em_kv_cache (lm_manifest m)) = StaticGlobals /\
        kv_max_sequence_length (em_kv_cache (lm_manifest m)) = 4
    | _ => False
    end) by (by vm_compute).
  intros Hm. cbn [load_model host] in Hm. rewrite Hm in H. destruct H as (Hv & Hk & Hmax).
  unfold drift_session, create_session. cbn [open_model_context host mbind result_mbind]. rewrite Hk.
  cbn [mbind result_mbind]. intros [= <-]. split; cbn [session_new is_config is_metadata is_prefill_window is_kv].
  - done.
  - exact Hv.
  - lia.
  - unfold max_seq. cbn. rewrite Hmax. unfold u32_max. lia.
  - rewrite Hk, Hmax. done.
Qed.
End Sample.



Lemma coherency_is_greedy_witness :
  exists g, generation_coherency (Ok (Toy.session (Paged 2 2))) [1; 2] [3; 1] = Ok g /\
    gn_dyninfer_tokens g = [3; 2].
Proof.
  destruct (coherency_is_greedy (Toy.session (Paged 2 2)) [1; 2] [3; 1]) as (g & Hg & Hd & _).
  - apply Toy.toy_session_valid. by right.
  - apply fits_dec_spec. reflexivity.
  - vm_compute. discriminate.
  - exists g. split; [exact Hg|]. rewrite Hd. reflexivity.
Defined.
