(* ===== verification/LoadSpec.v ===== *)
(** * Loading a compiled bundle

    A bundle written by the compiler loads against the checkpoint it was
    compiled for: the schema, target and component checks of [load_bundle], and
    the parameter storage (crates/iree-runtime, FileParameterStorage). *)
From S2P Require Import Prelude Errors Serde CoreTypes Target Catalog Ir KernelRegistry Encodings Coverage Config Fingerprint Binding Provider Registry Session Manifest Compiler Bundle BundleSpec.
From Stdlib Require Import ZArith Lia Ascii String.
From stdpp Require Import base list strings gmap.
From stdpp Require Import options.
Import Json.

Local Open Scope Z_scope.

(** ** Component maps *)

Definition component_entry (c : ManifestParameterComponent) : (string * string) * Z :=
  ((mc_scope c, mc_key c), mc_byte_length c).

Lemma component_map_list l : component_map l = list_to_map (component_entry <$> reverse l).
Proof.
  unfold component_map. induction l as [|c l IH] using rev_ind; [done|].
  rewrite foldl_app, reverse_app. cbn. by rewrite IH.
Qed.

Lemma component_map_perm l l' :
  l ≡ₚ l' -> NoDup (component_entry <$> l).*1 -> component_map l = component_map l'.
Proof.
  intros Hp Hnd. rewrite !component_map_list. apply list_to_map_proper.
  - by rewrite reverse_Permutation.
  - by rewrite !reverse_Permutation, Hp.
Qed.

(** The components of a manifest are the bound components. *)
Lemma manifest_components_perm binding :
  NoDup (binding_components binding) -> manifest_components binding ≡ₚ binding_components binding.
Proof.
  intros Hnd. unfold manifest_components. rewrite stable_sort_perm.
  apply NoDup_Permutation; [apply NoDup_remove_dups|done|]. intros c. apply elem_of_remove_dups.
Qed.

(** A manifest component from a key and its byte lengths. *)
Definition weight (kl : string * list Z) : ManifestParameterComponent :=
  {| mc_scope := "weights"; mc_key := kl.1; mc_byte_length := sum_wrap kl.2 |}.

Lemma binding_components_weights binding :
  (forall b, b ∈ bp_bindings binding -> pb_scope b = "weights") ->
  binding_components binding =
  weight <$> ((fun c => (pc_external_key c, pc_byte_lengths c)) <$> (bp_bindings binding ≫= pb_components)).
Proof.
  unfold binding_components. intros Hs. induction (bp_bindings binding) as [|b bs IH]; [done|]. cbn.
  rewrite !fmap_app, <- !list_fmap_compose. f_equal.
  - apply list_fmap_ext. intros i c _. unfold weight. cbn. by rewrite (Hs b ltac:(by left)).
  - rewrite list_fmap_compose. apply IH. intros b' Hb'. apply Hs. by right.
Qed.

(** The components of a manifest and of the provider plan are the same map. *)
Lemma components_agree catalog binding plan :
  build_runtime_provider_plan catalog binding = Ok plan ->
  (forall b, b ∈ bp_bindings binding -> pb_scope b = "weights") ->
  (forall c, c ∈ bp_bindings binding ≫= pb_components -> Forall is_u64 (pc_byte_lengths c)) ->
  component_map (manifest_components binding) = component_map (plan_components plan).
Proof.
  intros Hplan Hscope Hlens. apply plan_parameters in Hplan as (Hs & _ & _ & _ & Hnd & Hperm).
  assert (Hpc : plan_components plan =
    weight <$> ((fun d => (pd_external_key d, [pd_length d])) <$> rp_parameters plan)).
  { unfold plan_components. rewrite Hs, <- list_fmap_compose. apply list_fmap_ext. intros i d Hd.
    unfold weight. cbn. f_equal. apply list_elem_of_lookup_2 in Hd.
    apply (list_elem_of_fmap_2 (fun d => (pd_external_key d, [pd_length d]))) in Hd.
    rewrite Hperm in Hd. apply list_elem_of_fmap in Hd as (c & Hc & Hin). injection Hc as _ Hlen.
    specialize (Hlens c Hin). rewrite <- Hlen in Hlens. rewrite Forall_singleton in Hlens.
    unfold sum_wrap. cbn [foldl]. rewrite Z.add_0_l. symmetry. by apply wrap64_small. }
  assert (Hkeys : NoDup (component_entry <$> plan_components plan).*1).
  { rewrite Hpc, <- !list_fmap_compose.
    assert (Heq : (fst ∘ component_entry ∘ weight ∘ (fun d => (pd_external_key d, [pd_length d]))) <$> rp_parameters plan =
                  pair "weights" <$> (pd_external_key <$> rp_parameters plan)).
    { rewrite <- list_fmap_compose. done. }
    rewrite Heq. apply NoDup_fmap; [|done]. by intros ?? [= ->]. }
  assert (Hbp : binding_components binding ≡ₚ plan_components plan).
  { by rewrite binding_components_weights, Hpc, Hperm. }
  symmetry. apply component_map_perm; [|done]. rewrite manifest_components_perm; [by rewrite Hbp|].
  rewrite Hbp. apply (NoDup_fmap_1 component_entry), (NoDup_fmap_1 fst). exact Hkeys.
Qed.

(** ** The parameter storage *)

Definition location (e : FileParameterDescriptor) : Z * Z * Z :=
  (fd_source_file_index e, fd_offset e, fd_length e).
(** The entry is a non-empty range inside its file. *)
Definition entry_ok (sizes : list Z) (e : FileParameterDescriptor) : Prop :=
  fd_length e <> 0 /\ exists size, sizes !! Z.to_nat (fd_source_file_index e) = Some size /\
    fd_offset e + fd_length e <= size /\ size <= u64_max.
(** No key has two locations. *)
Definition consistent (entries : list FileParameterDescriptor) : Prop :=
  forall e1 e2, e1 ∈ entries -> e2 ∈ entries -> fd_key e1 = fd_key e2 -> location e1 = location e2.

Lemma add_entries_Ok sizes entries keys :
  Forall (entry_ok sizes) entries -> consistent entries ->
  (forall e l, e ∈ entries -> keys !! fd_key e = Some l -> l = location e) ->
  exists keys', try_fold (add_entry sizes) keys entries = Ok keys' /\
    forall key l, keys' !! key = Some l <->
      keys !! key = Some l \/ exists e, e ∈ entries /\ key = fd_key e /\ l = location e.
Proof.
  revert keys. induction entries as [|e entries IH]; intros keys Hok Hcons Hkeys.
  { exists keys. split; [done|]. intros key l. split; [by left|]. intros [?|(e & Hin & _)]; [done|].
    by apply elem_of_nil in Hin. }
  apply Forall_cons in Hok as [(Hlen & size & Hsize & Hend & Hmax) Hok].
  set (keys1 := match keys !! fd_key e with Some _ => keys | None => <[fd_key e := location e]> keys end).
  assert (Hadd : add_entry sizes keys e = Ok keys1).
  { unfold add_entry, keys1. rewrite (proj2 (Z.eqb_neq _ _)) by done. rewrite Hsize. cbn [ok_or mbind result_mbind].
    rewrite (proj2 (checked_add_Some (fd_offset e) (fd_length e) (fd_offset e + fd_length e))); [|split; [done|lia]].
    cbn [ok_or mbind result_mbind]. rewrite (proj2 (Z.leb_le _ _)) by done. cbn [ensure mbind result_mbind].
    destruct (keys !! fd_key e) as [l|] eqn:Hl; [|done].
    rewrite (Hkeys e l ltac:(by left) Hl), bool_decide_eq_true_2 by done. done. }
  assert (Hk1 : forall key l, keys1 !! key = Some l <-> keys !! key = Some l \/ key = fd_key e /\ l = location e).
  { intros key l. unfold keys1. destruct (keys !! fd_key e) as [l'|] eqn:Hl'.
    - split; [by left|]. intros [?|[-> ->]]; [done|]. by rewrite Hl', (Hkeys e l' ltac:(by left) Hl').
    - destruct (decide (key = fd_key e)) as [->|Hne].
      + rewrite lookup_insert_eq. rewrite Hl'. naive_solver.
      + rewrite lookup_insert_ne by done. naive_solver. }
  destruct (IH keys1) as (keys' & Hf & Hk'); [done| | |].
  - intros e1 e2 H1 H2. apply Hcons; by right.
  - intros e' l Hin Hl. apply Hk1 in Hl as [Hl|[Hkey ->]]; [apply (Hkeys e'); [by right|done]|].
    apply (Hcons e e'); [by left|by right|done].
  - exists keys'. cbn [try_fold]. rewrite Hadd. split; [done|]. intros key l. rewrite Hk', Hk1. split.
    + intros [[?|[-> ->]]|(e' & Hin & -> & ->)]; [by left|right; exists e; split; [by left|done]|].
      right. exists e'. split; [by right|done].
    + intros [?|(e' & [->|Hin]%elem_of_cons & -> & ->)]; [by left; left|left; by right|].
      right. by exists e'.
Qed.

(** The files a storage opens are the ones listed, with these sizes. *)
Definition stat_agrees (stat : string -> result text (bool * Z)) (files : list SourceFile) : Prop :=
  forall f, f ∈ files -> stat (sf_path f) = Ok (true, sf_size_bytes f) /\ has_nul (sf_path f) = false.

Lemma stat_files stat files :
  stat_agrees stat files ->
  try_map (stat_file stat) (sf_path <$> files) = Ok ((fun f => (sf_path f, sf_size_bytes f)) <$> files).
Proof.
  induction files as [|f files IH]; intros H; [done|]. cbn [fmap list_fmap try_map].
  destruct (H f ltac:(by left)) as [Hf Hn].
  assert (Hs : stat_file stat (sf_path f) = Ok (sf_path f, sf_size_bytes f)).
  { unfold stat_file. rewrite Hf. cbn [mbind result_mbind ensure]. by rewrite Hn. }
  rewrite Hs. cbn [mbind result_mbind]. change (list_fmap _ _ sf_path files) with (sf_path <$> files).
  rewrite IH; [done|]. intros f' Hf'. apply H. by right.
Qed.

Lemma storage_new_Ok stat files entries :
  files <> [] -> entries <> [] -> stat_agrees stat files ->
  Forall (entry_ok (sf_size_bytes <$> files)) entries -> consistent entries ->
  (forall e, e ∈ entries -> has_nul (fd_key e) = false) ->
  exists storage, FileParameterStorage_new stat (sf_path <$> files) entries = Ok storage /\
    fs_files storage = sf_path <$> files /\
    forall key l, (key, l) ∈ fs_entries storage <-> exists e, e ∈ entries /\ key = fd_key e /\ l = location e.
Proof.
  intros Hf He Hstat Hok Hcons Hnul. unfold FileParameterStorage_new.
  rewrite (bool_decide_eq_false_2 (entries = [])) by done.
  rewrite (bool_decide_eq_false_2 (_ = [])) by (by destruct files). cbn [negb andb ensure mbind result_mbind].
  rewrite stat_files by done. cbn [mbind result_mbind]. rewrite <- !list_fmap_compose.
  change (snd ∘ (fun f => (sf_path f, sf_size_bytes f))) with sf_size_bytes.
  destruct (add_entries_Ok (sf_size_bytes <$> files) entries ∅ Hok Hcons) as (keys & Hk & Hkeys).
  { intros e l _ Hl. by rewrite lookup_empty in Hl. }
  rewrite Hk. cbn [mbind result_mbind].
  assert (Hentries : forall key l, (key, l) ∈ btree_iter keys <-> exists e, e ∈ entries /\ key = fd_key e /\ l = location e).
  { intros key l. rewrite elem_of_btree_iter, Hkeys, lookup_empty. split; [by intros [?|?]|by right]. }
  assert (Hno : existsb (fun e => has_nul e.1) (btree_iter keys) = false).
  { apply not_true_iff_false. rewrite existsb_exists. intros ([key l] & Hin%list_elem_of_In & Hn).
    apply Hentries in Hin as (e & Hin & -> & _). cbn [fst] in Hn. pose proof (Hnul e Hin). congruence. }
  rewrite Hno. eexists. split; [reflexivity|]. split; [done|exact Hentries].
Qed.

(** ** The bundle loads *)

Section Load.
Context {HO : HashOrder} {H : Host}.
Variable content_digest : list FingerprintEntry -> Result Digest.
Context (debug_encoding : PhysicalEncoding -> text) (debug_rejections : list CandidateRejection -> text).
Context (debug_kind : OperationKind -> text) (debug_config : DenseDecoderConfig -> text).
Variable architectures : ArchitectureRegistry.
Context (emit : string -> DenseDecoderConfig -> PagedProgram -> Result string) (portable_attn : bool).
Context (rocm_bc_dir sdk_linker : option string) (inprocess : string -> list string -> Result bytes).
Context (tools : option (string -> list string -> Result bytes)) (add_smoke_module : string).
Context {Ctx : Type} (open_context : FileParameterStorage -> string -> Result Ctx).

Lemma plan_entries catalog binding plan :
  build_runtime_provider_plan catalog binding = Ok plan ->
  (forall f, f ∈ cc_source_files catalog -> sf_size_bytes f <= u64_max) ->
  Forall (entry_ok (sf_size_bytes <$> cc_source_files catalog)) (plan_descriptors plan).
Proof.
  intros Hplan Hsize. apply plan_parameters in Hplan as (_ & _ & _ & Hd & _).
  apply Forall_forall. intros e He. apply list_elem_of_bind in He as (d & He & Hin).
  rewrite Forall_forall in Hd. destruct (Hd d Hin) as (f & Hf & Hlen & Hend).
  apply list_elem_of_fmap in He as (key & -> & _). split; [cbn; lia|]. exists (sf_size_bytes f). cbn.
  rewrite list_lookup_fmap, Hf. split; [done|]. split; [done|]. apply Hsize. by eapply list_elem_of_lookup_2.
Qed.

(** A compiled bundle loads against its checkpoint. When the whole pipeline
    compiled a bundle for a named catalog and a target, loading that bundle with
    the checkpoint that gives the same catalog, on a machine where the target
    resolves to the same fingerprint, passes every check of [load_bundle]: ABI,
    schema, target, derived parameters, component keys and lengths, and file
    ranges. The parameter storage serves each parameter of the provider plan,
    under its external key and its aliases, from its own file range, and
    nothing else. *)
Lemma compiled_bundle_loads package catalog plan provider target target' options out inspected dump stat bundle :
  compile_bound debug_encoding debug_kind debug_config debug_rejections emit portable_attn rocm_bc_dir
    sdk_linker inprocess tools add_smoke_module package catalog plan target options = Ok out ->
  co_smoke_only options = false ->
  (forall b, b ∈ bp_bindings plan -> pb_scope b = "weights") ->
  (forall c, c ∈ bp_bindings plan ≫= pb_components -> Forall is_u64 (pc_byte_lengths c)) ->
  build_runtime_provider_plan catalog plan = Ok provider -> plan_descriptors provider <> [] ->
  consistent (plan_descriptors provider) ->
  (forall e, e ∈ plan_descriptors provider -> has_nul (fd_key e) = false) ->
  (forall f, f ∈ cc_source_files catalog -> sf_size_bytes f <= u64_max) ->
  apply_naming content_digest architectures (em_architecture_id (out_manifest out)) inspected = Ok catalog ->
  resolve_target dump (runtime_device target) = Ok target' ->
  tp_capability_fingerprint target' = tp_capability_fingerprint target ->
  stat_agrees stat (cc_source_files catalog) ->
  (forall storage, exists context, open_context storage (runtime_device target) = Ok context) ->
  exists model storage,
    load_bundle content_digest architectures open_context (Ok (out_manifest out)) (Ok plan) (Ok inspected)
      dump stat bundle = Ok (model, storage) /\
    lm_manifest model = out_manifest out /\ lm_catalog model = catalog /\ lm_binding model = plan /\
    fs_files storage = sf_path <$> cc_source_files catalog /\
    forall key l, (key, l) ∈ fs_entries storage <->
      exists d, d ∈ rp_parameters provider /\ (key = pd_external_key d \/ key ∈ pd_aliases d) /\
        l = (pd_source_file_index d, pd_offset d, pd_length d).
Proof.
  intros Hc Hs Hscope Hlens Hprov Hne Hcons Hnul Hsizes Hname Hres Hfp Hstat Hopen.
  apply compile_bound_Ok in Hc as (request & lowering & diagnostics & c & Hout & Hsm & Hschema & Hbind & Htarget &
    _ & _ & _ & Hps & Hp & He & _); [|done].
  pose proof (manifest_entrypoints request lowering diagnostics c Hsm Hps Hp He) as Hreq.
  rewrite Hout in *. unfold load_bundle. cbn [mbind result_mbind].
  assert (Habi : validate_executable_abi (manifest_of request lowering diagnostics) bundle = Ok tt).
  { apply validate_abi_Ok. by right. }
  rewrite Habi. cbn [mbind result_mbind]. rewrite Hname. cbn [mbind result_mbind].
  assert (Hcheck : check_bundle (manifest_of request lowering diagnostics) plan catalog dump bundle = Ok provider).
  { unfold check_bundle. cbn [em_checkpoint_schema em_target em_derived_parameters_required
      em_parameter_components manifest_of]. rewrite Hschema, Htarget, String.eqb_refl, Hres.
    cbn [ensure mbind result_mbind negb]. rewrite Hfp, String.eqb_refl, Hprov. cbn [ensure mbind result_mbind].
    rewrite Hbind, (components_agree catalog plan provider Hprov Hscope Hlens).
    by rewrite bool_decide_eq_true_2 by done. }
  rewrite Hcheck. cbn [mbind result_mbind].
  pose proof (plan_entries catalog plan provider Hprov Hsizes) as Hentries.
  pose proof (plan_parameters catalog plan provider Hprov) as (_ & Hpaths & Hfiles & _). rewrite Hpaths.
  destruct (storage_new_Ok stat (cc_source_files catalog) (plan_descriptors provider)) as (storage & Hst & Hsf & Hse);
    [done..|].
  rewrite Hst. cbn [mbind result_mbind em_target manifest_of]. rewrite Htarget.
  destruct (Hopen storage) as (context & ->). cbn [mbind result_mbind].
  eexists _, storage. split; [reflexivity|]. split; [done|]. split; [done|]. split; [done|]. split; [exact Hsf|].
  intros key l. rewrite Hse. split.
  - intros (e & Hin & -> & ->). apply list_elem_of_bind in Hin as (d & Hin & Hd). exists d. split; [done|].
    apply list_elem_of_fmap in Hin as (k & -> & Hk). split; [by apply elem_of_cons in Hk|done].
  - intros (d & Hd & Hk & ->). exists {| fd_key := key; fd_source_file_index := pd_source_file_index d;
      fd_offset := pd_offset d; fd_length := pd_length d |}. split; [|done].
    apply list_elem_of_bind. exists d. split; [|done]. apply list_elem_of_fmap. exists key. split; [done|].
    by apply elem_of_cons.
Qed.

End Load.

(** ** Witness: the sample bundle loads *)

Definition sample_stat (path : string) : result text (bool * Z) :=
  if String.eqb path "m.safetensors" then Ok (true, 65536) else Err (lit "not found").

(** The hypotheses on the provider plan, as a check. *)
Definition consistent_check (entries : list FileParameterDescriptor) : bool :=
  forallb (fun e1 => forallb (fun e2 =>
    implb (String.eqb (fd_key e1) (fd_key e2)) (bool_decide (location e1 = location e2))) entries) entries.
Lemma consistent_checked entries : consistent_check entries = true -> consistent entries.
Proof.
  intros Hc e1 e2 H1%list_elem_of_In H2%list_elem_of_In Hk. unfold consistent_check in Hc.
  rewrite forallb_forall in Hc. specialize (Hc e1 H1). rewrite forallb_forall in Hc. specialize (Hc e2 H2).
  rewrite Hk, String.eqb_refl in Hc. by apply bool_decide_eq_true in Hc.
Qed.

#[local] Instance FileParameterDescriptor_eq_dec : EqDecision FileParameterDescriptor.
Proof. solve_decision. Defined.
#[local] Instance SourceFile_eq_dec : EqDecision SourceFile.
Proof. solve_decision. Defined.

Definition plan_check (catalog : CheckpointCatalog) (plan : BindingPlan) (provider : RuntimeProviderPlan) : bool :=
  forallb (fun b => String.eqb (pb_scope b) "weights") (bp_bindings plan) &&
  forallb (fun c => forallb (fun n => (0 <=? n) && (n <=? u64_max)) (pc_byte_lengths c))
    (bp_bindings plan ≫= pb_components) &&
  negb (bool_decide (plan_descriptors provider = [])) && consistent_check (plan_descriptors provider) &&
  forallb (fun e => negb (has_nul (fd_key e))) (plan_descriptors provider) &&
  bool_decide (cc_source_files catalog =
    [{| sf_path := "m.safetensors"; sf_size_bytes := 65536; sf_content_digest := None |}]).

Lemma plan_checked catalog plan provider :
  plan_check catalog plan provider = true ->
  (forall b, b ∈ bp_bindings plan -> pb_scope b = "weights") /\
  (forall c, c ∈ bp_bindings plan ≫= pb_components -> Forall is_u64 (pc_byte_lengths c)) /\
  plan_descriptors provider <> [] /\ consistent (plan_descriptors provider) /\
  (forall e, e ∈ plan_descriptors provider -> has_nul (fd_key e) = false) /\
  (forall f, f ∈ cc_source_files catalog -> sf_size_bytes f <= u64_max) /\
  stat_agrees sample_stat (cc_source_files catalog).
Proof.
  unfold plan_check. rewrite !andb_true_iff. intros (((((H1 & H2) & H3) & H4) & H5) & H6).
  apply bool_decide_eq_true in H6. rewrite H6.
  rewrite forallb_forall in H1, H2, H5. apply negb_true_iff, bool_decide_eq_false in H3. split_and!.
  - intros b Hb%list_elem_of_In. by apply String.eqb_eq, H1.
  - intros c Hc%list_elem_of_In. specialize (H2 c Hc). rewrite forallb_forall in H2.
    apply Forall_forall. intros n Hn%list_elem_of_In. specialize (H2 n Hn).
    apply andb_true_iff in H2 as [?%Z.leb_le ?%Z.leb_le]. by split.
  - done.
  - by apply consistent_checked.
  - intros e He%list_elem_of_In. by apply negb_true_iff, H5.
  - intros f Hf%list_elem_of_singleton. subst f. by vm_compute.
  - intros f Hf%list_elem_of_singleton. subst f. by split.
Qed.

Lemma compiled_bundle_loads_witness :
  exists package catalog plan out model storage,
    PipelineSample.bound = Ok (package, catalog, plan) /\
    PipelineSample.compile_for package catalog plan llvm_cpu_host = Ok out /\
    load_bundle PipelineSample.digest built_in (fun _ _ => Ok tt) (Ok (out_manifest out)) (Ok plan)
      (Ok PipelineSample.inspected) (Ok EmptyString) sample_stat "bundle" = Ok (model, storage) /\
    fs_files storage = ["m.safetensors"].
Proof.
  assert (Hall : match PipelineSample.bound with
                 | Ok (package, catalog, plan) =>
                     match build_runtime_provider_plan catalog plan, PipelineSample.compile_for package catalog plan llvm_cpu_host with
                     | Ok provider, Ok out => plan_check catalog plan provider = true /\
                         em_architecture_id (out_manifest out) = "llama.decoder" /\
                         (sf_path <$> cc_source_files catalog) = ["m.safetensors"]
                     | _, _ => False
                     end
                 | _ => False
                 end) by (by vm_compute).
  destruct PipelineSample.bound as [[[package catalog] plan]| |] eqn:Hb; [|exact (False_ind _ Hall)..].
  destruct (build_runtime_provider_plan catalog plan) as [provider| |] eqn:Hp; [|exact (False_ind _ Hall)..].
  destruct (PipelineSample.compile_for package catalog plan llvm_cpu_host) as [out| |] eqn:Hc; [|exact (False_ind _ Hall)..].
  destruct Hall as (Hcheck & Hid & Hpaths).
  apply plan_checked in Hcheck as (H1 & H2 & H3 & H4 & H5 & H6 & H7).
  destruct (compiled_bundle_loads PipelineSample.digest PipelineSample.nil_text PipelineSample.nil_text
    PipelineSample.nil_text PipelineSample.nil_text built_in PipelineSample.emit false None None
    (fun _ _ => Ok []) None "module {}" (fun _ _ => Ok tt) package catalog plan provider llvm_cpu_host
    llvm_cpu_host PipelineSample.options out PipelineSample.inspected (Ok EmptyString) sample_stat "bundle"
    Hc eq_refl H1 H2 Hp H3 H4 H5 H6) as (model & storage & Hload & _ & _ & _ & Hfiles & _).
  - rewrite Hid. unfold PipelineSample.bound, loader_bind in Hb. apply bind_Ok in Hb as (c & Hname & Hb).
    apply bind_Ok in Hb as (p & _ & Hb). apply bind_Ok in Hb as (pl & _ & Hb).
    injection Hb as _ Hcat _. rewrite Hcat in Hname. exact Hname.
  - reflexivity.
  - reflexivity.
  - exact H7.
  - by exists tt.
  - exists package, catalog, plan, out, model, storage.
    exact (conj eq_refl (conj Hc (conj Hload (eq_trans Hfiles Hpaths)))).
Defined.
