(* ===== verification/Cache.v ===== *)
(** * The executable cache: crates/dyninfer-cache/src/lib.rs

    The cache directory as a store: entries [executables/<digest>/<file>], the
    publish locks and the private staging directories. First the operations one
    at a time, then publishers running concurrently, as a step relation whose
    steps are the file-system operations of [publish]. *)
From S2P Require Import Prelude Errors Serde CoreTypes Target Catalog Ir Session Manifest Compiler.
From Stdlib Require Import ZArith Lia Ascii String.
From stdpp Require Import base list strings gmap.
From stdpp Require Import options.

Local Open Scope Z_scope.

Record CacheKey := {
  ck_architecture_id : string;
  ck_architecture_revision : string;
  ck_architecture_digest : string;
  ck_resolved_config_digest : string;
  ck_binding_plan_digest : string;
  ck_checkpoint_schema : string;
  ck_target_fingerprint : string;
  ck_precision_policy_digest : string;
  ck_shape_profile_digest : string;
  ck_kernel_registry_version : string;
  ck_compiler_version : string;
  ck_iree_revision : string;
  ck_compile_options_digest : string;
}.
#[export] Instance CacheKey_eq_dec : EqDecision CacheKey.
Proof. solve_decision. Defined.

(** A directory: its files. *)
Abbreviation Dir := (gmap string bytes).

Record CacheEntry := {
  ce_digest : Digest;
  ce_key : CacheKey;
  ce_dir : Digest;
  ce_has_decode : bool;
  ce_size_bytes : Z;
}.

Definition size_of (dir : Dir) (file : string) : Z :=
  match dir !! file with Some b => length_z b | None => 0 end.
Definition is_file (dir : Dir) (file : string) : bool := bool_decide (is_Some (dir !! file)).

(** [entry_if_complete] on the directory of the entry. *)
Definition dir_complete (dir : Dir) : bool := is_file dir "manifest.json" && is_file dir "model.vmfb".
Definition entry_if_complete (entries : gmap Digest Dir) (digest : Digest) (key : CacheKey)
    : option CacheEntry :=
  dir ← entries !! digest;
  if dir_complete dir then
    Some {| ce_digest := digest; ce_key := key; ce_dir := digest;
            ce_has_decode := is_file dir "decode.vmfb";
            ce_size_bytes := wrap64 (size_of dir "model.vmfb" + size_of dir "decode.vmfb") |}
  else None.

Section Operations.
(** [CacheKey::digest], and the reading of key.json. *)
Variable key_digest : CacheKey -> Result Digest.
Variable parse_key : bytes -> Result CacheKey.

Definition cache_lookup (entries : gmap Digest Dir) (key : CacheKey) : Result (option CacheEntry) :=
  digest ← key_digest key;
  Ok (entry_if_complete entries digest key).

(** One turn of [list]. *)
Definition list_entry (name : Digest) (dir : Dir) : Result (option CacheEntry) :=
  match dir !! "key.json", dir !! "model.vmfb" with
  | Some json, Some _ =>
      key ← parse_key json;
      digest ← key_digest key;
      Ok (Some {| ce_digest := digest; ce_key := key; ce_dir := name;
                  ce_has_decode := is_file dir "decode.vmfb";
                  ce_size_bytes := wrap64 (size_of dir "model.vmfb" + size_of dir "decode.vmfb") |})
  | _, _ => Ok None
  end.

(** [read_dir] gives the entries in some order. *)
Variable read_dir : gmap Digest Dir -> list (Digest * Dir).

Definition cache_list (entries : gmap Digest Dir) : Result (list CacheEntry) :=
  found ← try_map (fun '(name, dir) => list_entry name dir) (read_dir entries);
  Ok (stable_sort (fun a b => string_leb (ce_digest a) (ce_digest b)) (omap id found)).

(** The first listed entry with this prefix; its directory is that of its
    digest. Removing a directory that is not there is an error. *)
Definition cache_remove (entries : gmap Digest Dir) (digest_prefix : string)
    : Result (bool * gmap Digest Dir) :=
  listed ← cache_list entries;
  match List.find (fun e => starts_with digest_prefix (ce_digest e)) listed with
  | Some e =>
      match entries !! ce_digest e with
      | Some _ => Ok (true, delete (ce_digest e) entries)
      | None => Err (cache_error (lit "No such file or directory") (Some (ce_digest e)) None)
      end
  | None => Ok (false, entries)
  end.

(** [Digest::short] *)
Definition short (digest : Digest) : string :=
  if (12 <=? String.length digest)%nat then substring 0 12 digest else digest.

Definition cache_verify (entries : gmap Digest Dir) : Result (list text) :=
  listed ← cache_list entries;
  Ok (omap (M:=list) (fun e =>
    let vmfb : option bytes :=
      match entries !! ce_dir e with Some dir => dir !! "model.vmfb" | None => None end in
    if bool_decide (default [] vmfb = [])
    then Some (Format "{}: empty vmfb" [AStr (short (ce_digest e))]) else None) listed).
End Operations.

(** ** make_cache_key *)

Record CacheKeyInputs {SJ : SerdeJson} := {
  ki_architecture_id : string;
  ki_architecture_revision : string;
  ki_architecture_digest : Digest;
  ki_resolved_config_digest : Digest;
  ki_binding : BindingPlan;
  ki_checkpoint_schema : string;
  ki_target : TargetProfile;
  ki_precision_policy : PrecisionPolicy;
  ki_shape_profile : ShapeProfile;
  ki_kernel_registry_version : string;
  ki_compiler_version : string;
  ki_iree_revision : string;
  ki_compile_options_digest : Digest;
}.

Section MakeKey.
Context {SJ : SerdeJson}.
(** [content_digest] at the three types it is used at. *)
Variable binding_digest : BindingPlan -> Result Digest.
Variable policy_digest : PrecisionPolicy -> Result Digest.
Variable shape_profile_digest : ShapeProfile -> Result Digest.

Definition make_cache_key (inputs : CacheKeyInputs) : Result CacheKey :=
  binding ← binding_digest (ki_binding inputs);
  policy ← policy_digest (ki_precision_policy inputs);
  shape ← shape_profile_digest (ki_shape_profile inputs);
  Ok {| ck_architecture_id := ki_architecture_id inputs;
        ck_architecture_revision := ki_architecture_revision inputs;
        ck_architecture_digest := ki_architecture_digest inputs;
        ck_resolved_config_digest := ki_resolved_config_digest inputs;
        ck_binding_plan_digest := binding;
        ck_checkpoint_schema := ki_checkpoint_schema inputs;
        ck_target_fingerprint := tp_capability_fingerprint (ki_target inputs);
        ck_precision_policy_digest := policy;
        ck_shape_profile_digest := shape;
        ck_kernel_registry_version := ki_kernel_registry_version inputs;
        ck_compiler_version := ki_compiler_version inputs;
        ck_iree_revision := ki_iree_revision inputs;
        ck_compile_options_digest := ki_compile_options_digest inputs |}.
End MakeKey.

(** ** Publishers *)

(** What a publisher is to publish: the bytes are those of the serialized
    manifest and key. *)
Record PublishJob := {
  pj_digest : Digest;
  pj_vmfb : bytes;
  pj_decode : option bytes;
  pj_manifest : bytes;
  pj_key : bytes;
}.

(** The files of an entry, in the order they are staged. *)
Definition job_files (job : PublishJob) : list (string * bytes) :=
  [("model.vmfb", pj_vmfb job)] ++
  match pj_decode job with Some b => [("decode.vmfb", b)] | None => [] end ++
  [("manifest.json", pj_manifest job); ("key.json", pj_key job)].
Definition write_files (dir : Dir) (files : list (string * bytes)) : Dir :=
  foldl (fun dir f => <[f.1 := f.2]> dir) dir files.
Definition job_dir (job : PublishJob) : Dir := write_files ∅ (job_files job).

(** What [publish] returns: the existing entry, its own, or an error. *)
Inductive Outcome : Set := Hit | Published | Failed.

(** The program counter of a publisher. *)
Inductive Counter : Type :=
  | Acquire (attempts : nat)        (** the loop of [acquire_publish_lock] *)
  | Contended (attempts : nat)      (** the lock file exists; is it stale? *)
  | Reclaim (attempts : nat)        (** found the lock stale, removes it *)
  | Lookup                          (** holds the lock; the first check *)
  | Stage                           (** creates the staging directory *)
  | Write (todo : list (string * bytes))
  | Recheck                         (** the second check *)
  | Exists                          (** [dir.exists()] *)
  | Remove                          (** removes an incomplete leftover *)
  | Rename
  | Clean (outcome : Outcome)       (** removes its staging directory *)
  | Release (outcome : Outcome)     (** drops the lock guard *)
  | Done (outcome : Outcome)
  | Crashed.

Record Publisher := { pb_job : PublishJob; pb_at : Counter }.

Record Store := {
  st_entries : gmap Digest Dir;
  st_locks : gmap Digest nat;       (** the publisher whose pid is in the lock *)
  st_staging : gmap nat Dir;        (** staging names are unique *)
  st_publishers : gmap nat Publisher;
}.

Definition set_at (p : nat) (job : PublishJob) (at_ : Counter) (s : Store) : Store :=
  {| st_entries := st_entries s; st_locks := st_locks s; st_staging := st_staging s;
     st_publishers := <[p := {| pb_job := job; pb_at := at_ |}]> (st_publishers s) |}.
Definition set_entries (entries : gmap Digest Dir) (s : Store) : Store :=
  {| st_entries := entries; st_locks := st_locks s; st_staging := st_staging s;
     st_publishers := st_publishers s |}.
Definition set_locks (locks : gmap Digest nat) (s : Store) : Store :=
  {| st_entries := st_entries s; st_locks := locks; st_staging := st_staging s;
     st_publishers := st_publishers s |}.
Definition set_staging (staging : gmap nat Dir) (s : Store) : Store :=
  {| st_entries := st_entries s; st_locks := st_locks s; st_staging := staging;
     st_publishers := st_publishers s |}.

Definition entry_complete (s : Store) (digest : Digest) : bool :=
  match st_entries s !! digest with Some dir => dir_complete dir | None => false end.

(** The process that holds a lock has exited. *)
Definition crashed (s : Store) (p : nat) : Prop :=
  exists job, st_publishers s !! p = Some {| pb_job := job; pb_at := Crashed |}.

(** The operations of publisher [p]. Every file-system operation may fail;
    removing a directory may stop half-way. [lock_is_stale] takes a lock of a
    process that has exited for stale once it is old enough, and a lock file
    that it cannot read, one that is gone by then, at once. *)
Inductive operation (s : Store) (p : nat) (job : PublishJob) : Counter -> Store -> Prop :=
  | op_lock n : st_locks s !! pj_digest job = None ->
      operation s p job (Acquire (S n))
        (set_at p job Lookup (set_locks (<[pj_digest job := p]> (st_locks s)) s))
  | op_taken n q : st_locks s !! pj_digest job = Some q ->
      operation s p job (Acquire (S n)) (set_at p job (Contended n) s)
  | op_wait n q : st_locks s !! pj_digest job = Some q ->
      operation s p job (Contended n) (set_at p job (Acquire n) s)
  | op_stale n q : st_locks s !! pj_digest job = Some q -> crashed s q ->
      operation s p job (Contended n) (set_at p job (Reclaim n) s)
  | op_vanished n : st_locks s !! pj_digest job = None ->
      operation s p job (Contended n) (set_at p job (Reclaim n) s)
  | op_reclaim n :
      operation s p job (Reclaim n)
        (set_at p job (Acquire n) (set_locks (delete (pj_digest job) (st_locks s)) s))
  | op_lock_fails n : operation s p job (Acquire n) (set_at p job (Done Failed) s)
  | op_hit : entry_complete s (pj_digest job) = true ->
      operation s p job Lookup (set_at p job (Release Hit) s)
  | op_miss : entry_complete s (pj_digest job) = false ->
      operation s p job Lookup (set_at p job Stage s)
  | op_stage :
      operation s p job Stage
        (set_at p job (Write (job_files job)) (set_staging (<[p := ∅]> (st_staging s)) s))
  | op_stage_fails : operation s p job Stage (set_at p job (Release Failed) s)
  | op_write file todo dir : st_staging s !! p = Some dir ->
      operation s p job (Write (file :: todo))
        (set_at p job (Write todo) (set_staging (<[p := <[file.1 := file.2]> dir]> (st_staging s)) s))
  | op_write_fails file todo : operation s p job (Write (file :: todo)) (set_at p job (Clean Failed) s)
  | op_written : operation s p job (Write []) (set_at p job Recheck s)
  | op_rehit : entry_complete s (pj_digest job) = true ->
      operation s p job Recheck (set_at p job (Clean Hit) s)
  | op_remiss : entry_complete s (pj_digest job) = false ->
      operation s p job Recheck (set_at p job Exists s)
  | op_absent : st_entries s !! pj_digest job = None ->
      operation s p job Exists (set_at p job Rename s)
  | op_present dir : st_entries s !! pj_digest job = Some dir ->
      operation s p job Exists (set_at p job Remove s)
  | op_remove :
      operation s p job Remove
        (set_at p job Rename (set_entries (delete (pj_digest job) (st_entries s)) s))
  | op_remove_fails dir dir' : st_entries s !! pj_digest job = Some dir -> dir' ⊆ dir ->
      operation s p job Remove
        (set_at p job (Clean Failed) (set_entries (<[pj_digest job := dir']> (st_entries s)) s))
  | op_rename dir : st_staging s !! p = Some dir ->
      (st_entries s !! pj_digest job = None \/ st_entries s !! pj_digest job = Some ∅) ->
      operation s p job Rename
        (set_at p job (Clean Published)
          (set_entries (<[pj_digest job := dir]> (st_entries s))
            (set_staging (delete p (st_staging s)) s)))
  | op_rename_fails : operation s p job Rename (set_at p job (Clean Failed) s)
  | op_clean outcome :
      operation s p job (Clean outcome)
        (set_at p job (Release outcome) (set_staging (delete p (st_staging s)) s))
  | op_release outcome :
      operation s p job (Release outcome)
        (set_at p job (Done outcome) (set_locks (delete (pj_digest job) (st_locks s)) s))
  | op_crash at_ : operation s p job at_ (set_at p job Crashed s).

(** One step of the store; without stale-lock recovery when [orderly]. *)
Inductive step (orderly : bool) (s s' : Store) : Prop :=
  | step_publisher p job at_ :
      st_publishers s !! p = Some {| pb_job := job; pb_at := at_ |} ->
      operation s p job at_ s' ->
      (orderly = true -> forall n, at_ <> Reclaim n) ->
      step orderly s s'.

(** A store where every publisher is about to start. *)
Definition initial (s : Store) : Prop :=
  st_locks s = ∅ /\ st_staging s = ∅ /\
  forall p pub, st_publishers s !! p = Some pub -> pb_at pub = Acquire 500.

(** * Properties *)

(** ** Subdirectories *)

Lemma dir_complete_subset (dir dir' : Dir) : dir' ⊆ dir -> dir_complete dir = false -> dir_complete dir' = false.
Proof.
  intros Hsub Hd. apply not_true_iff_false. intros Hc. apply not_true_iff_false in Hd. apply Hd.
  unfold dir_complete, is_file in *. rewrite andb_true_iff, !bool_decide_eq_true in *.
  destruct Hc as [[x Hx] [y Hy]]. split; eexists; by eapply lookup_weaken.
Qed.

Lemma job_dir_complete job : dir_complete (job_dir job) = true.
Proof.
  unfold dir_complete, is_file, job_dir, job_files, write_files. rewrite andb_true_iff, !bool_decide_eq_true.
  destruct (pj_decode job) as [b|]; cbn [app foldl fst snd]; split;
    repeat (first [rewrite lookup_insert_eq by done; by eexists|rewrite lookup_insert_ne by done]).
Qed.

(** ** The invariant *)

(** Between taking the lock and dropping it. *)
Definition critical (at_ : Counter) : bool :=
  match at_ with Acquire _ | Contended _ | Reclaim _ | Done _ | Crashed => false | _ => true end.
(** Between the second check and the rename. *)
Definition clearing (at_ : Counter) : bool :=
  match at_ with Exists | Remove | Rename => true | _ => false end.

Record publisher_ok (s : Store) (p : nat) (job : PublishJob) (at_ : Counter) : Prop := {
  po_lock : critical at_ = true -> st_locks s !! pj_digest job = Some p;
  po_clear : clearing at_ = true -> entry_complete s (pj_digest job) = false;
  po_staged :
    match at_ with
    | Write todo => exists dir, st_staging s !! p = Some dir /\ write_files dir todo = job_dir job
    | Recheck | Exists | Remove | Rename => st_staging s !! p = Some (job_dir job)
    | _ => True
    end;
  po_result :
    match at_ with
    | Clean outcome | Release outcome | Done outcome =>
        outcome <> Failed -> entry_complete s (pj_digest job) = true
    | _ => True
    end;
}.

Definition publishers_ok (s : Store) : Prop :=
  forall p job at_, st_publishers s !! p = Some {| pb_job := job; pb_at := at_ |} -> publisher_ok s p job at_.

(** The jobs of the publishers. *)
Definition has_job (s : Store) (job : PublishJob) : Prop :=
  exists p at_, st_publishers s !! p = Some {| pb_job := job; pb_at := at_ |}.

(** Every complete entry was there or is the work of one publisher. *)
Definition entries_ok (s0 s : Store) : Prop :=
  forall digest dir, st_entries s !! digest = Some dir -> dir_complete dir = true ->
    st_entries s0 !! digest = Some dir \/ exists job, has_job s job /\ pj_digest job = digest /\ dir = job_dir job.

(** What a step of [p] leaves to the other publishers. *)
Record frame (s s' : Store) (p : nat) (job : PublishJob) (at_ : Counter) : Prop := {
  fr_publishers q : q <> p -> st_publishers s' !! q = st_publishers s !! q;
  fr_staging q : q <> p -> st_staging s' !! q = st_staging s !! q;
  fr_locks digest : digest <> pj_digest job -> st_locks s' !! digest = st_locks s !! digest;
  fr_taken q : st_locks s !! pj_digest job = Some q -> q <> p -> st_locks s' !! pj_digest job = Some q;
  fr_entries digest : digest <> pj_digest job -> st_entries s' !! digest = st_entries s !! digest;
  fr_own : critical at_ = false -> st_entries s' = st_entries s;
  fr_kept : entry_complete s (pj_digest job) = true -> st_entries s' !! pj_digest job = st_entries s !! pj_digest job;
}.

(** Each operation keeps the frame and re-establishes its publisher. *)
Lemma operation_ok s s' p job at_ :
  publisher_ok s p job at_ -> operation s p job at_ s' -> (forall n, at_ <> Reclaim n) ->
  st_publishers s !! p = Some {| pb_job := job; pb_at := at_ |} ->
  frame s s' p job at_ /\
  exists at_', st_publishers s' !! p = Some {| pb_job := job; pb_at := at_' |} /\ publisher_ok s' p job at_'.
Proof.
  intros [Hl Hc Hs Hr] Hop Hno Hp. split.
  - destruct Hop; cbn in *; try (destruct (Hno n); reflexivity);
      (split; cbn;
       [intros ? ?; by rewrite lookup_insert_ne
       |intros ? ?; rewrite ?lookup_insert_ne, ?lookup_delete_ne by done; done
       |intros ? ?; rewrite ?lookup_insert_ne, ?lookup_delete_ne by done; done
       |intros ? ? ?; try specialize (Hl eq_refl); congruence
       |intros ? ?; rewrite ?lookup_insert_ne, ?lookup_delete_ne by done; done
       |done
       |intros He; try done; rewrite Hc in He by done; done]).
  - destruct Hop; cbn in *; try (destruct (Hno n); reflexivity);
      (eexists; split; [by rewrite lookup_insert_eq|]); (split; cbn -[job_files]; try done; auto).
    + by rewrite lookup_insert_eq.
    + exists ∅. by rewrite lookup_insert_eq.
    + destruct Hs as (d & Hd & Hw). exists (<[file.1:=file.2]> dir). rewrite lookup_insert_eq. split; [done|].
      assert (d = dir) as -> by congruence. exact Hw.
    + destruct Hs as (d & Hd & Hw). rewrite Hd. f_equal. exact Hw.
    + intros _. unfold entry_complete. cbn. by rewrite lookup_delete_eq.
    + intros _. unfold entry_complete. cbn. rewrite lookup_insert_eq.
      assert (Heq : Some dir = Some (job_dir job)) by (etrans; [symmetry; eassumption|exact Hs]).
      injection Heq as ->. apply job_dir_complete.
Qed.

(** The other publishers are not disturbed. *)
Lemma publisher_framed s s' p job at_ q job' at_' :
  frame s s' p job at_ -> publisher_ok s p job at_ -> q <> p -> publisher_ok s q job' at_' ->
  publisher_ok s' q job' at_'.
Proof.
  intros Hf Hp Hq [Hl Hc Hs Hr].
  assert (Hother : critical at_' = true -> pj_digest job' = pj_digest job -> critical at_ = false).
  { intros Hcrit Hd. destruct (critical at_) eqn:Ha; [|done]. destruct Hq.
    pose proof (po_lock _ _ _ _ Hp Ha) as H1. specialize (Hl Hcrit). rewrite Hd in Hl. congruence. }
  assert (Hkept : entry_complete s (pj_digest job') = true -> entry_complete s' (pj_digest job') = true).
  { unfold entry_complete. destruct (decide (pj_digest job' = pj_digest job)) as [->|Hd].
    - intros He. rewrite (fr_kept _ _ _ _ _ Hf He). exact He.
    - by rewrite (fr_entries _ _ _ _ _ Hf _ Hd). }
  split.
  - intros Hcrit. destruct (decide (pj_digest job' = pj_digest job)) as [Hd|Hd].
    + rewrite Hd. apply (fr_taken _ _ _ _ _ Hf); [|done]. rewrite <- Hd. by apply Hl.
    + rewrite (fr_locks _ _ _ _ _ Hf _ Hd). by apply Hl.
  - intros Hclear. assert (Hcrit : critical at_' = true) by (by destruct at_').
    specialize (Hc Hclear). unfold entry_complete in *.
    destruct (decide (pj_digest job' = pj_digest job)) as [Hd|Hd].
    + by rewrite (fr_own _ _ _ _ _ Hf (Hother Hcrit Hd)).
    + by rewrite (fr_entries _ _ _ _ _ Hf _ Hd).
  - rewrite (fr_staging _ _ _ _ _ Hf q Hq). exact Hs.
  - destruct at_'; auto.
Qed.

Lemma step_publishers s s' : publishers_ok s -> step true s s' -> publishers_ok s'.
Proof.
  intros Hok [p job at_ Hp Hop Hno]. pose proof (Hok p job at_ Hp) as Hpok.
  destruct (operation_ok s s' p job at_ Hpok Hop (Hno eq_refl) Hp) as (Hf & at_' & Hp' & Hpok').
  intros q job' at2 Hq. destruct (decide (q = p)) as [->|Hne]; [by simplify_eq|].
  rewrite (fr_publishers _ _ _ _ _ Hf q Hne) in Hq.
  apply (publisher_framed s s' p job at_); auto.
Qed.

(** A step never removes or changes a complete entry. *)
Lemma step_keeps s s' digest :
  publishers_ok s -> step true s s' -> entry_complete s digest = true ->
  st_entries s' !! digest = st_entries s !! digest.
Proof.
  intros Hok [p job at_ Hp Hop Hno] Hc. pose proof (Hok p job at_ Hp) as Hpok.
  destruct (operation_ok s s' p job at_ Hpok Hop (Hno eq_refl) Hp) as (Hf & _).
  destruct (decide (digest = pj_digest job)) as [->|Hd]; [by apply (fr_kept _ _ _ _ _ Hf)|].
  by apply (fr_entries _ _ _ _ _ Hf).
Qed.

Lemma step_jobs s s' job : step true s s' -> has_job s job -> has_job s' job.
Proof.
  intros [p job' at_ Hp Hop _] (q & at_' & Hq).
  assert (Hpub : exists at2, st_publishers s' = <[p := {| pb_job := job'; pb_at := at2 |}]> (st_publishers s)).
  { destruct Hop; cbn; by eexists. }
  destruct Hpub as (at2 & Hpub). destruct (decide (q = p)) as [->|Hne].
  - assert (job = job') as -> by congruence. exists p, at2. rewrite Hpub. by rewrite lookup_insert_eq.
  - exists q, at_'. rewrite Hpub. by rewrite lookup_insert_ne.
Qed.

(** Entries change only by an incomplete removal or by a publication. *)
Lemma step_entries s s' digest dir :
  publishers_ok s -> step true s s' -> st_entries s' !! digest = Some dir -> dir_complete dir = true ->
  st_entries s !! digest = Some dir \/ exists job, has_job s' job /\ pj_digest job = digest /\ dir = job_dir job.
Proof.
  intros Hok Hstep Hdir Hcomp. pose proof Hstep as [p job at_ Hp Hop Hno]. specialize (Hno eq_refl).
  pose proof (Hok p job at_ Hp) as [_ Hclear Hstaged _].
  assert (Hjob : has_job s' job) by (eapply step_jobs; [exact Hstep|by exists p, at_]).
  destruct Hop; cbn in *; try (destruct (Hno n); reflexivity); try (by left).
  - left. destruct (decide (digest = pj_digest job)) as [->|Hd]; [by rewrite lookup_delete_eq in Hdir|].
    by rewrite lookup_delete_ne in Hdir.
  - destruct (decide (digest = pj_digest job)) as [->|Hd]; [|left; by rewrite lookup_insert_ne in Hdir].
    rewrite lookup_insert_eq in Hdir. injection Hdir as <-. specialize (Hclear eq_refl).
    unfold entry_complete in Hclear. rewrite H in Hclear.
    by rewrite (dir_complete_subset dir0 dir' H0 Hclear) in Hcomp.
  - destruct (decide (digest = pj_digest job)) as [->|Hd]; [|left; by rewrite lookup_insert_ne in Hdir].
    rewrite lookup_insert_eq in Hdir. right. exists job. split; [done|]. split; [done|].
    assert (Heq : Some dir0 = Some (job_dir job)) by (etrans; [symmetry; eassumption|exact Hstaged]).
    injection Heq as Heq. injection Hdir as <-. exact Heq.
Qed.

(** ** Runs *)

Lemma run_invariant s0 s : initial s0 -> rtc (step true) s0 s -> publishers_ok s /\ entries_ok s0 s.
Proof.
  intros (Hl & Hs & Hi) Hrun.
  assert (H0 : publishers_ok s0).
  { intros p job at_ Hp. apply Hi in Hp. cbn in Hp. subst at_. by split. }
  assert (He0 : entries_ok s0 s0) by (intros digest dir Hd _; by left).
  assert (Hgo : forall a b, rtc (step true) a b -> publishers_ok a /\ entries_ok s0 a -> publishers_ok b /\ entries_ok s0 b).
  { induction 1 as [|a b c Hab _ IH]; [done|]. intros [Ha Hea]. apply IH.
    split; [by eapply step_publishers|]. intros digest dir Hd Hc.
    destruct (step_entries a b digest dir Ha Hab Hd Hc) as [Hd'|?]; [|by right].
    destruct (Hea digest dir Hd' Hc) as [?|(job & Hj & ?)]; [by left|].
    right. exists job. split; [by eapply step_jobs|done]. }
  by apply (Hgo s0 s).
Qed.

Lemma run_keeps s s' digest :
  publishers_ok s -> rtc (step true) s s' -> entry_complete s digest = true ->
  st_entries s' !! digest = st_entries s !! digest.
Proof.
  intros Hok Hrun. induction Hrun as [|a b c Hab _ IH]; [done|]. intros Hc.
  pose proof (step_keeps a b digest Hok Hab Hc) as Hab'. rewrite <- Hab'. apply IH.
  - by eapply step_publishers.
  - unfold entry_complete in *. by rewrite Hab'.
Qed.

(** C2: publication is atomic. However many publishers run, in whatever
    interleaving, with file-system failures and crashes at any point, as long as
    no lock is taken for stale: at most one publisher per digest is between
    taking the lock and dropping it; an entry that is complete (that a reader
    sees) never changes or disappears afterwards; every complete entry that was
    not there before is exactly the files of one publisher's job for that
    digest, the decode module and the key included; and a publisher that reports
    success leaves such an entry behind. *)
Theorem publication_atomic s0 s :
  initial s0 -> rtc (step true) s0 s ->
  (forall p q job job' at_ at_', st_publishers s !! p = Some {| pb_job := job; pb_at := at_ |} ->
     st_publishers s !! q = Some {| pb_job := job'; pb_at := at_' |} ->
     critical at_ = true -> critical at_' = true -> pj_digest job = pj_digest job' -> p = q) /\
  (forall s' digest, rtc (step true) s s' -> entry_complete s digest = true ->
     st_entries s' !! digest = st_entries s !! digest) /\
  (forall digest dir, st_entries s !! digest = Some dir -> dir_complete dir = true ->
     st_entries s0 !! digest = Some dir \/
     exists job, has_job s job /\ pj_digest job = digest /\ dir = job_dir job) /\
  (forall p job outcome, st_publishers s !! p = Some {| pb_job := job; pb_at := Done outcome |} ->
     outcome <> Failed -> entry_complete s (pj_digest job) = true).
Proof.
  intros Hinit Hrun. destruct (run_invariant s0 s Hinit Hrun) as [Hok Hent]. split_and!.
  - intros p q job job' at_ at_' Hp Hq Hcp Hcq Hd.
    pose proof (po_lock _ _ _ _ (Hok p job at_ Hp) Hcp) as H1.
    pose proof (po_lock _ _ _ _ (Hok q job' at_' Hq) Hcq) as H2. rewrite Hd in H1. congruence.
  - intros s' digest Hrun' Hc. by apply run_keeps.
  - exact Hent.
  - intros p job outcome Hp. exact (po_result _ _ _ _ (Hok p job (Done outcome) Hp)).
Qed.


(** ** Running publishers *)

(** A schedule: a publisher goes on, or cannot create its staging directory. *)
Inductive Action : Set := Proceed | StageFails.

Definition perform (s : Store) (pa : nat * Action) : option Store :=
  let p := pa.1 in
  pub ← st_publishers s !! p;
  let job := pb_job pub in
  let goto at_ s := Some (set_at p job at_ s) in
  let digest := pj_digest job in
  match pa.2, pb_at pub with
  | StageFails, Stage => goto (Release Failed) s
  | StageFails, _ => None
  | Proceed, Acquire (S n) =>
      match st_locks s !! digest with
      | None => goto Lookup (set_locks (<[digest := p]> (st_locks s)) s)
      | Some _ => goto (Contended n) s
      end
  | Proceed, Contended n =>
      match st_locks s !! digest with
      | None => goto (Reclaim n) s
      | Some _ => goto (Acquire n) s
      end
  | Proceed, Acquire O => goto (Done Failed) s
  | Proceed, Reclaim n => goto (Acquire n) (set_locks (delete digest (st_locks s)) s)
  | Proceed, Lookup => if entry_complete s digest then goto (Release Hit) s else goto Stage s
  | Proceed, Stage => goto (Write (job_files job)) (set_staging (<[p := ∅]> (st_staging s)) s)
  | Proceed, Write (file :: todo) =>
      dir ← st_staging s !! p;
      goto (Write todo) (set_staging (<[p := <[file.1 := file.2]> dir]> (st_staging s)) s)
  | Proceed, Write [] => goto Recheck s
  | Proceed, Recheck => if entry_complete s digest then goto (Clean Hit) s else goto Exists s
  | Proceed, Exists => match st_entries s !! digest with None => goto Rename s | Some _ => goto Remove s end
  | Proceed, Remove => goto Rename (set_entries (delete digest (st_entries s)) s)
  | Proceed, Rename =>
      dir ← st_staging s !! p;
      match st_entries s !! digest with
      | None => goto (Clean Published)
                  (set_entries (<[digest := dir]> (st_entries s)) (set_staging (delete p (st_staging s)) s))
      | Some _ => goto (Clean Failed) s
      end
  | Proceed, Clean outcome => goto (Release outcome) (set_staging (delete p (st_staging s)) s)
  | Proceed, Release outcome => goto (Done outcome) (set_locks (delete digest (st_locks s)) s)
  | Proceed, (Done _ | Crashed) => None
  end.

(** [perform] does operations. *)
Lemma perform_operation s pa s' :
  perform s pa = Some s' ->
  exists job at_, st_publishers s !! pa.1 = Some {| pb_job := job; pb_at := at_ |} /\ operation s pa.1 job at_ s'.
Proof.
  destruct pa as [p a]. unfold perform. cbn [fst snd].
  destruct (st_publishers s !! p) as [[job at_]|] eqn:Hp; [|done]. cbn [mbind option_bind pb_job pb_at].
  intros H. exists job, at_. split; [done|].
  destruct a, at_ as [[|n]|n|n| | |[|file todo]| | | | |o|o|o|]; try done;
    repeat (unfold mbind, option_bind in H; cbn beta iota in H; case_match; try done); injection H as <-;
    first [by econstructor | by eapply op_rename; [done|by left]].
Qed.

Definition run (actions : list (nat * Action)) (s : Store) : option Store :=
  foldl (fun s pa => s ← s; perform s pa) (Some s) actions.

Lemma run_steps actions s s' : run actions s = Some s' -> rtc (step false) s s'.
Proof.
  unfold run. revert s. induction actions as [|pa actions IH]; intros s; cbn [foldl mbind option_bind].
  { by intros [= <-]. }
  destruct (perform s pa) as [s1|] eqn:Hp.
  - intros H. eapply rtc_l; [|by apply IH].
    apply perform_operation in Hp as (job & at_ & Hpub & Hop). by eapply step_publisher.
  - intros H. exfalso. clear IH Hp. induction actions; [done|by auto].
Qed.

(** No publisher of the run removes a lock it found stale. *)
Fixpoint orderly (actions : list (nat * Action)) (s : Store) : bool :=
  match actions with
  | [] => true
  | pa :: actions =>
      match st_publishers s !! pa.1 with
      | Some {| pb_at := Reclaim _ |} => false
      | _ => match perform s pa with Some s' => orderly actions s' | None => true end
      end
  end.

Lemma run_orderly actions s s' : orderly actions s = true -> run actions s = Some s' -> rtc (step true) s s'.
Proof.
  unfold run. revert s. induction actions as [|pa actions IH]; intros s; cbn [foldl mbind option_bind orderly].
  { by intros _ [= <-]. }
  destruct (perform s pa) as [s1|] eqn:Hp.
  - intros Ho H. pose proof Hp as (job & at_ & Hpub & Hop)%perform_operation. rewrite Hpub in Ho.
    eapply rtc_l; [|apply IH; [|exact H]; by destruct at_].
    eapply step_publisher; [done|done|]. intros _ n ->. done.
  - intros _ H. exfalso. clear IH Hp. induction actions; [done|by auto].
Qed.

(** ** Examples *)

Module CacheSample.
Definition job (n : Z) : PublishJob :=
  {| pj_digest := "d"; pj_vmfb := [byte_of n]; pj_decode := None; pj_manifest := [byte_of 1]; pj_key := [byte_of 2] |}.
Definition start (publishers : list nat) : Store :=
  {| st_entries := ∅; st_locks := ∅; st_staging := ∅;
     st_publishers := list_to_map ((fun p => (p, {| pb_job := job (Z.of_nat p); pb_at := Acquire 500 |})) <$> publishers) |}.

Lemma start_publisher publishers p pub : st_publishers (start publishers) !! p = Some pub -> pb_at pub = Acquire 500.
Proof.
  intros Hp. cbn in Hp. apply elem_of_list_to_map_2, list_elem_of_fmap in Hp as (q & Hq & _). by injection Hq as _ ->.
Qed.
Lemma start_initial publishers : initial (start publishers).
Proof. split; [done|]. split; [done|]. apply start_publisher. Qed.
(** Publisher [p] goes on [n] times. *)
Definition go (p n : nat) : list (nat * Action) := replicate n (p, Proceed).

(** Publisher 0 has the lock when 2 tries to take it, cannot create its
    staging directory and drops the lock. 2 looks at the lock file only now,
    does not find it and takes the lock for stale; before it removes it, 1 has
    taken it. So 1 and 2 both hold the lock. 2 passes the second check, 1
    renames its directory into place, and 2 finds a directory that exists. *)
Definition race : list (nat * Action) :=
  go 0 1 ++ go 2 1 ++ go 0 1 ++ [(0%nat, StageFails)] ++ go 0 1 ++ go 2 1 ++ go 1 1 ++ go 2 2 ++
  go 2 7 ++ go 1 9 ++ go 2 1.
End CacheSample.

Lemma publication_atomic_witness :
  exists s, rtc (step true) (CacheSample.start [1%nat]) s /\ entry_complete s "d" = true /\
    forall s', rtc (step true) s s' -> st_entries s' !! "d" = st_entries s !! "d".
Proof.
  assert (Hc : match run (CacheSample.go 1 12) (CacheSample.start [1%nat]) with
               | Some s => entry_complete s "d" = true
               | None => False
               end) by (by vm_compute).
  destruct (run (CacheSample.go 1 12) (CacheSample.start [1%nat])) as [s|] eqn:Hrun; [|exact (False_ind _ Hc)].
  apply run_orderly in Hrun; [|reflexivity].
  exists s. split; [exact Hrun|]. split; [exact Hc|]. intros s' Hrun'.
  destruct (publication_atomic (CacheSample.start [1%nat]) s (CacheSample.start_initial _) Hrun)
    as (_ & Hkeep & _ & _). exact (Hkeep s' "d" Hrun' Hc).
Defined.

(** Recovery of a stale lock breaks it, and no process has to die: a lock that
    its holder drops between the failed creation and the look at its age is
    taken for stale, and the removal hits the lock of the next holder. Two
    publishers then hold the lock, and one of them removes the complete entry
    that the other has just published. *)
Lemma stale_recovery_removes_complete_entry :
  exists s0 s1 s2, initial s0 /\ rtc (step false) s0 s1 /\ step false s1 s2 /\
    entry_complete s1 "d" = true /\ st_entries s2 !! "d" = None.
Proof.
  set (s0 := CacheSample.start [0%nat; 1%nat; 2%nat]).
  assert (Hc : match run CacheSample.race s0 with
               | Some s1 => entry_complete s1 "d" = true /\
                   match perform s1 (2%nat, Proceed) with Some s2 => st_entries s2 !! "d" = None | None => False end
               | None => False
               end) by (by vm_compute).
  destruct (run CacheSample.race s0) as [s1|] eqn:Hrun; [|exact (False_ind _ Hc)]. destruct Hc as [Hc Hn].
  destruct (perform s1 (2%nat, Proceed)) as [s2|] eqn:Hp; [|exact (False_ind _ Hn)].
  exists s0, s1, s2. split; [apply CacheSample.start_initial|]. split; [exact (run_steps _ _ _ Hrun)|].
  split; [|exact (conj Hc Hn)].
  apply perform_operation in Hp as (job & at_ & Hpub & Hop).
  exact (step_publisher false s1 s2 2%nat job at_ Hpub Hop (fun H => False_ind _ (diff_false_true H))).
Qed.
