(* ===== verification/Publishing.v ===== *)
(** * Publishing without contention: crates/dyninfer-cache/src/lib.rs, [publish]

    The whole of [publish] as a function of the entries, for a caller that
    nobody contends with; every file-system call may fail. The function is
    refined by the step relation of [Cache]: each of its results is that of a
    run of a publisher. *)
From S2P Require Import Prelude Errors Serde CoreTypes Paths Session Manifest Cache.
From Stdlib Require Import ZArith Lia Ascii String.
From stdpp Require Import base list strings gmap.
From stdpp Require Import options.

Local Open Scope Z_scope.

Inductive PublishCall : Set :=
  | TakeLock | MakeStaging | StageFile (name : string) | RemoveLeftover | RenameStaged.

Definition cache_io (digest : Digest) (path : string) : DynInferError :=
  cache_error (lit "{err}") (Some digest) (Some path).

(** The files of an entry. *)
Lemma job_files_at job :
  job_dir job !! "manifest.json" = Some (pj_manifest job) /\ job_dir job !! "model.vmfb" = Some (pj_vmfb job) /\
  job_dir job !! "decode.vmfb" = pj_decode job.
Proof.
  unfold job_dir, job_files, write_files. destruct (pj_decode job) as [b|]; cbn [app foldl fst snd];
    split_and!; repeat (first [rewrite lookup_insert_eq by done; done|rewrite lookup_insert_ne by done]); done.
Qed.

Section Publish.
Context {SJ : SerdeJson}.
Variable key_digest : CacheKey -> Result Digest.
(** [serde_json::to_vec_pretty] of a manifest and of a key. *)
Variable manifest_json : ExecutableManifest -> Result bytes.
Variable key_json : CacheKey -> Result bytes.
(** The root of the cache and the staging directory of this call. *)
Variables root staging : string.
(** The calls that fail, and what is left of a directory whose removal fails. *)
Variable fails : PublishCall -> bool.
Variable remains : Dir -> Dir.

Abbreviation Cached := (Method (gmap Digest Dir)).

Definition entry_dir (digest : Digest) : string := path_join (path_join root "executables") digest.
Definition lock_path (digest : Digest) : string :=
  path_join (path_join root "locks") (String.append digest ".lock").

Definition publish_call (call : PublishCall) (digest : Digest) (path : string) : Cached unit :=
  lift (ensure (negb (fails call)) (cache_io digest path)).
Definition stage_file (digest : Digest) (name : string) : Cached unit :=
  publish_call (StageFile name) digest (path_join staging name).
Definition stage_decode (digest : Digest) (decode_vmfb : option bytes) : Cached unit :=
  match decode_vmfb with Some _ => stage_file digest "decode.vmfb" | None => mret tt end.

(** Removing what an interrupted publisher left. *)
Definition clear_leftover (digest : Digest) : Cached unit := fun entries =>
  match entries !! digest with
  | Some dir =>
      if fails RemoveLeftover then (Err (cache_io digest (entry_dir digest)), <[digest := remains dir]> entries)
      else (Ok tt, delete digest entries)
  | None => (Ok tt, entries)
  end.
Definition rename_staged (digest : Digest) (dir : Dir) : Cached unit :=
  _ ← publish_call RenameStaged digest (entry_dir digest);
  modify <[digest := dir]>.

(** The closure of [publish], from the staging directory to the entry. *)
Definition publish_staged (digest : Digest) (key : CacheKey) (vmfb : bytes) (decode_vmfb : option bytes)
    (manifest : ExecutableManifest) : Cached CacheEntry :=
  _ ← stage_file digest "model.vmfb";
  _ ← stage_decode digest decode_vmfb;
  manifest_bytes ← lift (manifest_json manifest);
  _ ← stage_file digest "manifest.json";
  key_bytes ← lift (key_json key);
  _ ← stage_file digest "key.json";
  entries ← self;
  match entry_if_complete entries digest key with
  | Some existing => mret existing
  | None =>
      _ ← clear_leftover digest;
      _ ← rename_staged digest
            (job_dir {| pj_digest := digest; pj_vmfb := vmfb; pj_decode := decode_vmfb;
                        pj_manifest := manifest_bytes; pj_key := key_bytes |});
      mret {| ce_digest := digest; ce_key := key; ce_dir := digest;
              ce_has_decode := bool_decide (is_Some decode_vmfb);
              ce_size_bytes := wrap64 (length_z vmfb + match decode_vmfb with Some b => length_z b | None => 0 end) |}
  end.

Definition publish (key : CacheKey) (vmfb : bytes) (decode_vmfb : option bytes) (manifest : ExecutableManifest)
    : Cached CacheEntry :=
  digest ← lift (key_digest key);
  _ ← publish_call TakeLock digest (lock_path digest);
  entries ← self;
  match entry_if_complete entries digest key with
  | Some existing => mret existing
  | None =>
      _ ← publish_call MakeStaging digest staging;
      publish_staged digest key vmfb decode_vmfb manifest
  end.

(** ** It is a run of a publisher *)

(** Publishers keep their jobs. *)
Lemma run_jobs s s' p job at_ :
  rtc (step true) s s' -> st_publishers s' !! p = Some {| pb_job := job; pb_at := at_ |} ->
  exists at0, st_publishers s !! p = Some {| pb_job := job; pb_at := at0 |}.
Proof.
  intros Hr. revert job at_. induction Hr as [s|s s1 s' [q job' at_' Hq Hop _] _ IH]; intros job at_ Hp; [by exists at_|].
  destruct (IH _ _ Hp) as (at1 & Hp1).
  assert (Hpub : exists at2, st_publishers s1 = <[q := {| pb_job := job'; pb_at := at2 |}]> (st_publishers s)).
  { destruct Hop; cbn; by eexists. }
  destruct Hpub as (at2 & Hpub). rewrite Hpub in Hp1. destruct (decide (q = p)) as [->|Hne].
  - rewrite lookup_insert_eq in Hp1. injection Hp1 as <- _. by exists at_'.
  - rewrite lookup_insert_ne in Hp1 by done. by exists at1.
Qed.

(** A publisher about to take its lock, which nobody holds. *)
Definition about_to_publish (s : Store) (p : nat) (job : PublishJob) (n : nat) : Prop :=
  st_publishers s !! p = Some {| pb_job := job; pb_at := Acquire (S n) |} /\ st_locks s !! pj_digest job = None.

(** From [s], publisher [p] gets to [at_] in the store [s']. *)
Definition gets_to (p : nat) (job : PublishJob) (s s' : Store) (at_ : Counter) : Prop :=
  rtc (step true) s s' /\ st_publishers s' !! p = Some {| pb_job := job; pb_at := at_ |}.

Lemma goes p job s s' at_ s'' at_' :
  gets_to p job s s' at_ -> operation s' p job at_ s'' -> (forall n, at_ <> Reclaim n) ->
  st_publishers s'' !! p = Some {| pb_job := job; pb_at := at_' |} -> gets_to p job s s'' at_'.
Proof.
  intros [Hr Hp] Hop Hno Hp'. split; [|done]. eapply rtc_r; [exact Hr|]. by eapply step_publisher.
Qed.

Lemma entry_if_complete_spec s digest key :
  entry_complete s digest = bool_decide (is_Some (entry_if_complete (st_entries s) digest key)).
Proof.
  unfold entry_complete, entry_if_complete.
  destruct (st_entries s !! digest) as [dir|]; cbn [mbind option_bind];
    [|by rewrite bool_decide_eq_false_2 by (by intros [? [=]])].
  destruct (dir_complete dir); [by rewrite bool_decide_eq_true_2|].
  by rewrite bool_decide_eq_false_2 by (by intros [? [=]]).
Qed.

(** The publisher's last steps: whatever it got, it drops the lock. *)
Lemma released p job s s' outcome :
  gets_to p job s s' (Release outcome) ->
  exists s'', gets_to p job s s'' (Done outcome) /\ st_entries s'' = st_entries s'.
Proof.
  intros H.
  eexists. split; [eapply goes; [exact H|apply op_release|done|cbn; by rewrite lookup_insert_eq]|done].
Qed.
Lemma cleaned p job s s' outcome :
  gets_to p job s s' (Clean outcome) ->
  exists s'', gets_to p job s s'' (Done outcome) /\ st_entries s'' = st_entries s'.
Proof.
  intros H. eapply goes with (s'' := set_at p job (Release outcome) (set_staging (delete p (st_staging s')) s')) in H;
    [|apply op_clean|done|cbn; by rewrite lookup_insert_eq].
  destruct (released _ _ _ _ _ H) as (s2 & H2 & He). by exists s2.
Qed.

(** Staging: a publisher may write its files, or fail at any of them. *)
Lemma staged p job s s' todo rest dir :
  gets_to p job s s' (Write (todo ++ rest)) -> st_staging s' !! p = Some dir ->
  exists s'', gets_to p job s s'' (Write rest) /\ st_entries s'' = st_entries s' /\
    st_staging s'' !! p = Some (write_files dir todo).
Proof.
  revert s' dir. induction todo as [|f todo IH]; intros s' dir H Hd; [by exists s'|]. cbn [app] in H.
  eapply goes with (at_' := Write (todo ++ rest)) in H; [|by apply op_write|done|cbn; by rewrite lookup_insert_eq].
  destruct (IH _ (<[f.1 := f.2]> dir) H) as (s2 & H2 & He & Hs); [cbn; by rewrite lookup_insert_eq|].
  exists s2. split; [done|]. split; [by rewrite He|done].
Qed.
Lemma staging_fails p job s s' todo file rest dir :
  gets_to p job s s' (Write (todo ++ file :: rest)) -> st_staging s' !! p = Some dir ->
  exists s'', gets_to p job s s'' (Done Failed) /\ st_entries s'' = st_entries s'.
Proof.
  intros H Hd. destruct (staged _ _ _ _ _ _ _ H Hd) as (s2 & H2 & He & _). rewrite <- He.
  eapply goes with (at_' := Clean Failed) in H2; [|apply op_write_fails|done|cbn; by rewrite lookup_insert_eq].
  destruct (cleaned _ _ _ _ _ H2) as (s3 & H3 & He3). by exists s3.
Qed.

Definition agrees {A} (r : Result A) (outcome : Outcome) : Prop :=
  match r with Ok _ => outcome <> Failed | _ => outcome = Failed end.

Lemma job_of_files job :
  {| pj_digest := pj_digest job; pj_vmfb := pj_vmfb job; pj_decode := pj_decode job;
     pj_manifest := pj_manifest job; pj_key := pj_key job |} = job.
Proof. by destruct job. Qed.

(** From the second check on. *)
Lemma published p job s s' key :
  (forall dir, remains dir ⊆ dir) ->
  gets_to p job s s' (Write []) -> st_staging s' !! p = Some (job_dir job) ->
  entry_if_complete (st_entries s') (pj_digest job) key = None ->
  exists s'' outcome, gets_to p job s s'' (Done outcome) /\
    let '(r, entries) := (_ ← clear_leftover (pj_digest job); rename_staged (pj_digest job) (job_dir job)) (st_entries s') in
    st_entries s'' = entries /\ agrees r outcome.
Proof.
  intros Hrem H Hst Hno.
  eapply goes with (at_' := Recheck) in H; [|apply op_written|done|cbn; by rewrite lookup_insert_eq].
  eapply goes with (at_' := Cache.Exists) in H;
    [|apply op_remiss; rewrite (entry_if_complete_spec _ _ key); cbn; rewrite Hno; by rewrite bool_decide_eq_false_2 by (by intros [])
     |done|cbn; by rewrite lookup_insert_eq].
  assert (Hcleared : forall s2 entries, gets_to p job s s2 Rename -> st_entries s2 = entries ->
    entries !! pj_digest job = None -> st_staging s2 !! p = Some (job_dir job) ->
    exists s'' outcome, gets_to p job s s'' (Done outcome) /\
      let '(r, entries) := rename_staged (pj_digest job) (job_dir job) entries in
      st_entries s'' = entries /\ agrees r outcome).
  { intros s2 entries H2 <- Hn Hs2. unfold rename_staged, publish_call, lift, modify. cbn.
    destruct (fails RenameStaged); cbn.
    - eapply goes with (at_' := Clean Failed) in H2; [|apply op_rename_fails|done|cbn; by rewrite lookup_insert_eq].
      destruct (cleaned _ _ _ _ _ H2) as (s3 & H3 & He3). by exists s3, Failed.
    - eapply goes with (at_' := Clean Published) in H2;
        [|apply op_rename; [exact Hs2|by left]|done|cbn; by rewrite lookup_insert_eq].
      destruct (cleaned _ _ _ _ _ H2) as (s3 & H3 & He3). by exists s3, Published. }
  unfold mbind, method_bind, clear_leftover. destruct (st_entries s' !! pj_digest job) as [dir|] eqn:Hd.
  - eapply goes with (at_' := Remove) in H; [|by eapply op_present|done|cbn; by rewrite lookup_insert_eq].
    destruct (fails RemoveLeftover).
    + eapply goes with (at_' := Clean Failed) in H;
        [|by apply (op_remove_fails _ _ _ dir (remains dir))|done|cbn; by rewrite lookup_insert_eq].
      destruct (cleaned _ _ _ _ _ H) as (s3 & H3 & He3). by exists s3, Failed.
    + eapply goes with (at_' := Rename) in H; [|apply op_remove|done|cbn; by rewrite lookup_insert_eq].
      eapply Hcleared; [exact H|done|cbn; apply lookup_delete_eq|exact Hst].
  - eapply goes with (at_' := Rename) in H; [|by apply op_absent|done|cbn; by rewrite lookup_insert_eq].
    eapply Hcleared; [exact H|done|done|exact Hst].
Qed.
(** From the staging directory on. *)
Lemma staged_run p job s s' key manifest r entries :
  (forall b, manifest_json manifest = Ok b -> b = pj_manifest job) ->
  (forall b, key_json key = Ok b -> b = pj_key job) ->
  (forall dir, remains dir ⊆ dir) ->
  gets_to p job s s' (Write (job_files job)) -> st_staging s' !! p = Some ∅ ->
  entry_if_complete (st_entries s') (pj_digest job) key = None ->
  publish_staged (pj_digest job) key (pj_vmfb job) (pj_decode job) manifest (st_entries s') = (r, entries) ->
  exists s'' outcome, gets_to p job s s'' (Done outcome) /\ st_entries s'' = entries /\ agrees r outcome.
Proof.
  intros Hm Hk Hrem H0 Hst Hno H.
  assert (Hfailed : exists s'' outcome, gets_to p job s s'' (Done outcome) /\ st_entries s'' = st_entries s' /\ outcome = Failed).
  { destruct (staging_fails p job s s' [] _ _ ∅ H0 Hst) as (s3 & H3 & He3). by exists s3, Failed. }
  assert (Hpublished : forall mb kb, manifest_json manifest = Ok mb -> key_json key = Ok kb ->
    exists s2, gets_to p job s s2 (Write []) /\ st_entries s2 = st_entries s' /\
      st_staging s2 !! p = Some (job_dir {| pj_digest := pj_digest job; pj_vmfb := pj_vmfb job;
        pj_decode := pj_decode job; pj_manifest := mb; pj_key := kb |})).
  { intros mb kb ->%Hm ->%Hk. rewrite job_of_files. rewrite <- (app_nil_r (job_files job)) in H0.
    destruct (staged _ _ _ _ _ _ _ H0 Hst) as (s2 & H2 & He2 & Hs2). by exists s2. }
  assert (Hcall : forall call path (f : unit -> Cached CacheEntry), 
    (publish_call call (pj_digest job) path ≫= f) (st_entries s') =
      if fails call then (Err (cache_io (pj_digest job) path), st_entries s') else f tt (st_entries s')).
  { intros call path f. unfold publish_call, lift, mbind, method_bind. by destruct (fails call). }
  assert (Hdecode : forall f : unit -> Cached CacheEntry,
    (stage_decode (pj_digest job) (pj_decode job) ≫= f) (st_entries s') = f tt (st_entries s') \/
    exists e, (stage_decode (pj_digest job) (pj_decode job) ≫= f) (st_entries s') = (Err e, st_entries s')).
  { intros f. unfold stage_decode, stage_file. destruct (pj_decode job); [|by left]. rewrite Hcall.
    destruct (fails _); [right; by eexists|by left]. }
  assert (Hlift : forall (x : Result bytes) (f : bytes -> Cached CacheEntry),
    (lift x ≫= f) (st_entries s') = match x with
      | Ok b => f b (st_entries s') | Err e => (Err e, st_entries s') | Panic w => (Panic w, st_entries s') end).
  { intros x f. unfold lift, mbind, method_bind. by destruct x. }
  revert H. unfold publish_staged, stage_file. rewrite Hcall.
  destruct (fails (StageFile "model.vmfb")); [intros [= <- <-]; naive_solver|].
  match goal with |- context [stage_decode _ _ ≫= ?f] => destruct (Hdecode f) as [->|(e & ->)] end;
    [|intros [= <- <-]; naive_solver].
  rewrite Hlift. destruct (manifest_json manifest) as [mb| |] eqn:Hmb; [|intros [= <- <-]; naive_solver..].
  rewrite Hcall. destruct (fails (StageFile "manifest.json")); [intros [= <- <-]; naive_solver|].
  rewrite Hlift. destruct (key_json key) as [kb| |] eqn:Hkb; [|intros [= <- <-]; naive_solver..].
  rewrite Hcall. destruct (fails (StageFile "key.json")); [intros [= <- <-]; naive_solver|].
  unfold self. unfold mbind at 1, method_bind at 1. rewrite Hno.
  pose proof (Hm mb eq_refl) as ->. pose proof (Hk kb eq_refl) as ->. rewrite job_of_files in *.
  destruct (Hpublished _ _ eq_refl eq_refl) as (s2 & H2 & He2 & Hs2). rewrite job_of_files in Hs2. rewrite <- He2 in *.
  destruct (published p job s s2 key Hrem H2 Hs2 Hno) as (s3 & outcome & H3 & Hout). intros H.
  exists s3, outcome. split; [done|]. revert Hout H. unfold mbind, method_bind.
  destruct (clear_leftover (pj_digest job) (st_entries s2)) as [[[]| |] e1]; [|by intros [-> Ho] [= <- <-]..].
  destruct (rename_staged (pj_digest job) (job_dir job) e1) as [[[]| |] e2]; by intros [-> Ho] [= <- <-].
Qed.

(** What [publish] returns and leaves is what a publisher of the job that
    nobody contends with returns and leaves in one of its runs. *)
Lemma publish_is_run p n job s key manifest r entries :
  key_digest key = Ok (pj_digest job) ->
  (forall b, manifest_json manifest = Ok b -> b = pj_manifest job) ->
  (forall b, key_json key = Ok b -> b = pj_key job) ->
  (forall dir, remains dir ⊆ dir) ->
  about_to_publish s p job n ->
  publish key (pj_vmfb job) (pj_decode job) manifest (st_entries s) = (r, entries) ->
  exists s' outcome, gets_to p job s s' (Done outcome) /\ st_entries s' = entries /\ agrees r outcome.
Proof.
  intros Hkey Hm Hk Hrem [Hp Hlock] H.
  assert (H0 : gets_to p job s s (Acquire (S n))) by by split.
  unfold publish, publish_call in H. unfold mbind, method_bind, lift at 1 in H. rewrite Hkey in H. cbn in H.
  destruct (fails TakeLock); cbn in H.
  { injection H as <- <-. eapply goes with (at_' := Done Failed) in H0;
      [|apply op_lock_fails|done|cbn; by rewrite lookup_insert_eq]. eexists _, Failed. split; [exact H0|done]. }
  eapply goes with (at_' := Cache.Lookup) in H0; [|by apply op_lock|done|cbn; by rewrite lookup_insert_eq].
  destruct (entry_if_complete (st_entries s) (pj_digest job) key) as [e|] eqn:He; cbn in H.
  { injection H as <- <-. eapply goes with (at_' := Release Hit) in H0;
      [|apply op_hit; rewrite (entry_if_complete_spec _ _ key); cbn; by rewrite He, bool_decide_eq_true_2
       |done|cbn; by rewrite lookup_insert_eq].
    destruct (released _ _ _ _ _ H0) as (s3 & H3 & He3). by exists s3, Hit. }
  eapply goes with (at_' := Stage) in H0;
    [|apply op_miss; rewrite (entry_if_complete_spec _ _ key); cbn; rewrite He; by rewrite bool_decide_eq_false_2 by (by intros [])
     |done|cbn; by rewrite lookup_insert_eq].
  destruct (fails MakeStaging); cbn in H.
  { injection H as <- <-. eapply goes with (at_' := Release Failed) in H0;
      [|apply op_stage_fails|done|cbn; by rewrite lookup_insert_eq].
    destruct (released _ _ _ _ _ H0) as (s3 & H3 & He3). by exists s3, Failed. }
  eapply goes with (at_' := Write (job_files job)) in H0; [|apply op_stage|done|cbn; by rewrite lookup_insert_eq].
  match type of H0 with gets_to _ _ _ ?st _ => set (s2 := st) in * end.
  assert (Hst : st_staging s2 !! p = Some ∅) by (cbn; by rewrite lookup_insert_eq).
  assert (Hs2 : st_entries s2 = st_entries s) by done. rewrite <- Hs2 in H, He. clearbody s2.
  by eapply staged_run.
Qed.

(** Publishing adds at most the one complete entry. *)
Lemma publish_entries key vmfb decode manifest entries r entries' digest dir :
  (forall dir, remains dir ⊆ dir) ->
  publish key vmfb decode manifest entries = (r, entries') ->
  entries' !! digest = Some dir -> dir_complete dir = true ->
  entries !! digest = Some dir \/
  key_digest key = Ok digest /\ exists mb kb, manifest_json manifest = Ok mb /\
    dir = job_dir {| pj_digest := digest; pj_vmfb := vmfb; pj_decode := decode; pj_manifest := mb; pj_key := kb |}.
Proof.
  intros Hrem H Hdir Hc. destruct (key_digest key) as [d| |] eqn:Hd.
  2,3: left; revert H; unfold publish, lift, mbind, method_bind; rewrite Hd; by intros [= _ <-].
  set (kb := match key_json key with Ok b => b | _ => [] end).
  (* the entries are those of a run, whatever the manifest's bytes are when it has none *)
  assert (Hrun : forall mb, (forall b, manifest_json manifest = Ok b -> b = mb) ->
    entries !! digest = Some dir \/
    d = digest /\ dir = job_dir {| pj_digest := digest; pj_vmfb := vmfb; pj_decode := decode; pj_manifest := mb; pj_key := kb |}).
  { intros mb Hmb.
    set (job := {| pj_digest := d; pj_vmfb := vmfb; pj_decode := decode; pj_manifest := mb; pj_key := kb |}).
    set (s := {| st_entries := entries; st_locks := ∅; st_staging := ∅;
                 st_publishers := {[ 0%nat := {| pb_job := job; pb_at := Acquire 500 |} ]} |}).
    assert (Hini : initial s).
    { split; [done|]. split; [done|]. intros p pub Hp. cbn in Hp. by apply lookup_singleton_Some in Hp as [_ <-]. }
    destruct (publish_is_run 0 499 job s key manifest r entries') as (s' & outcome & [Hrtc _] & He & _);
      [done|exact Hmb|by intros b Hb; subst job kb; cbn; rewrite Hb|exact Hrem
      |split; [cbn; by rewrite lookup_singleton_eq|cbn; by rewrite lookup_empty]|exact H|].
    destruct (run_invariant s s' Hini Hrtc) as [_ Hok]. specialize (Hok digest dir). rewrite He in Hok.
    destruct (Hok Hdir Hc) as [Hin|(job' & (p & at_ & Hp) & Hdig & Hj)]; [by left|right].
    destruct (run_jobs s s' p job' at_ Hrtc Hp) as (at0 & Hp0). cbn in Hp0.
    apply lookup_singleton_Some in Hp0 as [_ [= Hjob _]].
    rewrite <- Hjob in Hdig, Hj. cbn in Hdig. rewrite <- Hdig. by split. }
  destruct (manifest_json manifest) as [mb| |] eqn:Hm.
  2,3: left; destruct (Hrun []) as [Hin|[_ H1]]; [by intros ? [=]|exact Hin|].
  2,3: destruct (Hrun [Ascii.zero]) as [Hin|[_ H2]]; [by intros ? [=]|exact Hin|].
  2,3: rewrite H1 in H2; apply (f_equal (lookup "manifest.json")) in H2.
  2,3: rewrite !(proj1 (job_files_at _)) in H2; by injection H2.
  destruct (Hrun mb) as [?|[-> ?]]; [by intros b [= ->]|by left|right]. split; [done|]. by exists mb, kb.
Qed.
End Publish.
