(* ===== verification/BundleFiles.v ===== *)
(** * Bundles on disk: crates/dyninfer-runtime/src/model.rs

    The loader with its files: compilation through the cache and into a bundle
    directory, and loading from one. Files are a map from paths to contents;
    every call may fail, and a write that fails may leave something behind. *)
From S2P Require Import Prelude Errors Serde CoreTypes Target Catalog Ir KernelRegistry Coverage Config Fingerprint Binding Provider Registry Session Manifest Compiler Bundle Paths Cache Publishing.
From Stdlib Require Import ZArith Lia Ascii String.
From stdpp Require Import base list strings gmap.
From stdpp Require Import options.

Local Open Scope Z_scope.

Abbreviation Files := (gmap string bytes) (only parsing).
Inductive FileCall : Set := MakeDirectories | WriteFile | ReadFile.

(** The bundle directories and the entries of the cache. *)
Record Disk := { dk_files : Files; dk_entries : gmap Digest Dir }.

Record BundlePaths := {
  bn_root : string;
  bn_manifest : string;
  bn_bindings : string;
  bn_vmfb : string;
  bn_decode_vmfb : option string;
}.

(** What the loader's files hold, as JSON. *)
Class BundleJson {SJ : SerdeJson} := {
  manifest_json : ExecutableManifest -> Result bytes;
  plan_json : BindingPlan -> Result bytes;
  fingerprint_json : SchemaFingerprint -> Result bytes;
  key_json : CacheKey -> Result bytes;
  manifest_from_json : bytes -> Result ExecutableManifest;
  plan_from_json : bytes -> Result BindingPlan;
}.

(** [content_digest] at the types the cache key takes it of. *)
Class KeyDigests {SJ : SerdeJson} := {
  architecture_digest : string * string * ArchitectureGraph -> Result Digest;
  resolved_config_digest : ResolvedModelConfig -> Result Digest;
  options_digest : CompileOptions -> Result Digest;
  binding_digest : BindingPlan -> Result Digest;
  policy_digest : PrecisionPolicy -> Result Digest;
  shape_digest : ShapeProfile -> Result Digest;
  key_digest : CacheKey -> Result Digest;
}.

(** What the file system and the publisher's calls do. *)
Class FileHost := {
  call_fails : FileCall -> string -> bool;
  torn_write : string -> bytes -> option bytes;
  publish_fails : PublishCall -> bool;
  removal_remains : Dir -> Dir;
}.

(** [From<std::io::Error>] *)
Definition os_error : DynInferError := io (lit "{value}").

Definition KERNEL_REGISTRY_VERSION : string := "5".
Definition COMPILER_VERSION : string := "0.3.0-iree-3.11.0-paged-kv-v11.01-bool-mask".
Definition IREE_REVISION : string := "3.11.0+e4a3b0405d7d".

Section Calls.
Context {FH : FileHost}.

Definition create_dir_all (path : string) : Method Files unit :=
  lift (ensure (negb (call_fails MakeDirectories path)) os_error).
Definition write_file (path : string) (b : bytes) : Method Files unit := fun fs =>
  if call_fails WriteFile path
  then (Err os_error, match torn_write path b with Some torn => <[path := torn]> fs | None => fs end)
  else (Ok tt, <[path := b]> fs).
Definition read_file (path : string) (fs : Files) : Result bytes :=
  _ ← ensure (negb (call_fails ReadFile path)) os_error;
  ok_or (fs !! path) os_error.
(** [path.is_file()] *)
Definition file_exists (path : string) (fs : Files) : bool := bool_decide (is_Some (fs !! path)).
End Calls.

(** ** The directory of a bundle *)

Definition manifest_path (root : string) : string := path_join root "manifest.json".
Definition bindings_path (root : string) : string := path_join root "bindings.json".
Definition schema_path (root : string) : string := path_join root "checkpoint-schema.json".
Definition executables_path (root : string) : string := path_join root "executables".
Definition vmfb_path (root : string) : string := path_join (executables_path root) "model.vmfb".
Definition decode_path (root : string) : string := path_join (executables_path root) "decode.vmfb".
Definition bundle_paths (root : string) (has_decode : bool) : BundlePaths :=
  {| bn_root := root; bn_manifest := manifest_path root; bn_bindings := bindings_path root;
     bn_vmfb := vmfb_path root; bn_decode_vmfb := if has_decode then Some (decode_path root) else None |}.

Section Loader.
Context {SJ : SerdeJson} {BJ : BundleJson} {KD : KeyDigests} {FH : FileHost} {HO : HashOrder} {H : Host}.

Definition write_bundle (root : string) (vmfb : bytes) (decode_vmfb : option bytes)
    (manifest : ExecutableManifest) (plan : BindingPlan) (catalog : CheckpointCatalog)
    : Method Files BundlePaths :=
  _ ← create_dir_all (executables_path root);
  _ ← write_file (vmfb_path root) vmfb;
  _ ← (match decode_vmfb with Some b => write_file (decode_path root) b | None => mret tt end);
  manifest_bytes ← lift (manifest_json manifest);
  _ ← write_file (manifest_path root) manifest_bytes;
  plan_bytes ← lift (plan_json plan);
  _ ← write_file (bindings_path root) plan_bytes;
  schema_bytes ← lift (fingerprint_json (cc_schema_fingerprint catalog));
  _ ← write_file (schema_path root) schema_bytes;
  mret (bundle_paths root (bool_decide (is_Some decode_vmfb))).

(** The files of the cache entry are read through [read_entry]. *)
Variable cache_root : string.
Definition read_entry (hit : CacheEntry) (entries : gmap Digest Dir) (name : string) : Result bytes :=
  _ ← ensure (negb (call_fails ReadFile (path_join (entry_dir cache_root (ce_dir hit)) name))) os_error;
  ok_or (dir ← entries !! ce_dir hit; dir !! name) os_error.

Definition materialize_bundle_from_cache (hit : CacheEntry) (entries : gmap Digest Dir) (plan : BindingPlan)
    (root : string) : Method Files BundlePaths :=
  manifest_bytes ← lift (read_entry hit entries "manifest.json");
  manifest ← lift (manifest_from_json manifest_bytes);
  vmfb ← lift (read_entry hit entries "model.vmfb");
  _ ← create_dir_all (executables_path root);
  _ ← write_file (vmfb_path root) vmfb;
  _ ← (if ce_has_decode hit
       then b ← lift (read_entry hit entries "decode.vmfb"); write_file (decode_path root) b
       else mret tt);
  manifest_bytes ← lift (manifest_json manifest);
  _ ← write_file (manifest_path root) manifest_bytes;
  plan_bytes ← lift (plan_json plan);
  _ ← write_file (bindings_path root) plan_bytes;
  mret (bundle_paths root (ce_has_decode hit)).

Definition cache_key_for (package : ArchitecturePackage) (catalog : CheckpointCatalog) (plan : BindingPlan)
    (target : TargetProfile) (policy : PrecisionPolicy) (shape : ShapeProfile) (options : CompileOptions)
    : Result CacheKey :=
  architecture ← architecture_digest (pkg_id package, pkg_revision package, pkg_graph package);
  config ← resolved_config_digest (pkg_resolved_config package);
  options ← options_digest options;
  make_cache_key binding_digest policy_digest shape_digest
    {| ki_architecture_id := pkg_id package; ki_architecture_revision := pkg_revision package;
       ki_architecture_digest := architecture; ki_resolved_config_digest := config; ki_binding := plan;
       ki_checkpoint_schema := fp_digest (cc_schema_fingerprint catalog); ki_target := target;
       ki_precision_policy := policy; ki_shape_profile := shape;
       ki_kernel_registry_version := KERNEL_REGISTRY_VERSION; ki_compiler_version := COMPILER_VERSION;
       ki_iree_revision := IREE_REVISION; ki_compile_options_digest := options |}.

(** ** Compiling into a bundle *)

Variable content_digest : list FingerprintEntry -> Result Digest.
Context (debug_encoding : PhysicalEncoding -> text) (debug_kind : OperationKind -> text).
Context (debug_config : DenseDecoderConfig -> text) (debug_rejections : list CandidateRejection -> text).
Variable architectures : ArchitectureRegistry.
Context (emit : string -> DenseDecoderConfig -> PagedProgram -> Result string) (portable_attn : bool).
Context (rocm_bc_dir sdk_linker : option string) (inprocess : string -> list string -> Result bytes).
Context (tools : option (string -> list string -> Result bytes)) (add_smoke_module : string).
(** The staging directory of a publication. *)
Variable staging : string.

Definition on_files {A} (m : Method Files A) : Method Disk A := fun disk =>
  let '(r, files) := m (dk_files disk) in (r, {| dk_files := files; dk_entries := dk_entries disk |}).
Definition on_entries {A} (m : Method (gmap Digest Dir) A) : Method Disk A := fun disk =>
  let '(r, entries) := m (dk_entries disk) in (r, {| dk_files := dk_files disk; dk_entries := entries |}).

Definition bound_key (package : ArchitecturePackage) (catalog : CheckpointCatalog) (plan : BindingPlan)
    (target : TargetProfile) (options : CompileOptions) : Result CacheKey :=
  cache_key_for package catalog plan target conservative_sensitive_ops (default_shape_profile package) options.

Definition lookup_bound (cached : bool) (key : Result CacheKey) : Method Disk (option CacheEntry) :=
  if cached
  then key ← lift key; disk ← self; lift (cache_lookup key_digest (dk_entries disk) key)
  else mret None.
Definition publish_output (cached : bool) (key : Result CacheKey) (output : CompileOutput) : Method Disk unit :=
  if cached
  then key ← lift key;
       _ ← on_entries (publish key_digest manifest_json key_json cache_root staging publish_fails removal_remains
                         key (out_executable output) (out_decode_executable output) (out_manifest output));
       mret tt
  else mret tt.

(** From a covered model to the bundle; [cached] says whether the loader has
    a cache. *)
Definition bundle_bound (cached : bool) (package : ArchitecturePackage) (catalog : CheckpointCatalog)
    (plan : BindingPlan) (target : TargetProfile) (root : string) (options : CompileOptions) (bound : BoundModel)
    : Method Disk BundlePaths :=
  let key := bound_key package catalog plan target options in
  hit ← lookup_bound cached key;
  match hit with
  | Some hit =>
      disk ← self;
      on_files (materialize_bundle_from_cache hit (dk_entries disk) plan root)
  | None =>
      output ← lift (compile_covered debug_encoding debug_kind debug_config emit portable_attn rocm_bc_dir
                       sdk_linker inprocess tools add_smoke_module package catalog options bound);
      _ ← publish_output cached key output;
      on_files (write_bundle root (out_executable output) (out_decode_executable output) (out_manifest output)
                  plan catalog)
  end.

Definition compile_to_bundle_with_overrides (cached : bool) (architecture_id : string)
    (catalog : Result CheckpointCatalog) (dump : Result string) (target_spec : string) (root : string)
    (options : CompileOptions) (overrides : MetadataMap) : Method Disk BundlePaths :=
  target ← lift (resolve_target dump target_spec);
  catalog ← lift catalog;
  '(package, catalog, plan) ← lift (loader_bind content_digest architectures architecture_id catalog overrides);
  bound ← lift (covered_model debug_encoding debug_rejections package catalog plan target);
  bundle_bound cached package catalog plan target root options bound.

(** ** Loading from a bundle *)

Record ExecutableHandle := {
  eh_vmfb_path : string;
  eh_decode_vmfb_path : option string;
  eh_parameters : FileParameterStorage;
  eh_device : string;
}.

Context {Ctx : Type}.
(** [Context::create] with the modules, the parameters and the device. *)
Variable create_context : bytes -> option bytes -> FileParameterStorage -> string -> Result Ctx.

Definition open_executable (handle : ExecutableHandle) (fs : Files) : Result Ctx :=
  vmfb ← read_file (eh_vmfb_path handle) fs;
  decode ← (match eh_decode_vmfb_path handle with
            | Some path => b ← read_file path fs; Ok (Some b)
            | None => Ok None
            end);
  create_context vmfb decode (eh_parameters handle) (eh_device handle).

(** The decode module of a paged bundle, when its file is there. *)
Definition decode_module (manifest : ExecutableManifest) (bundle : string) (fs : Files) : option string :=
  if existsb (Z.eqb (em_version manifest)) [10; 11] && file_exists (decode_path bundle) fs
  then Some (decode_path bundle) else None.

Definition load_bundle_from (bundle : string) (inspected : Result CheckpointCatalog) (dump : Result string)
    (stat : string -> result text (bool * Z)) (fs : Files)
    : Result (LoadedModel * BundlePaths * ExecutableHandle) :=
  manifest_bytes ← read_file (manifest_path bundle) fs;
  manifest ← manifest_from_json manifest_bytes;
  let decode := decode_module manifest bundle fs in
  let handle storage device :=
    {| eh_vmfb_path := vmfb_path bundle; eh_decode_vmfb_path := decode; eh_parameters := storage; eh_device := device |} in
  '(model, storage) ← load_bundle content_digest architectures (fun storage device => open_executable (handle storage device) fs)
    (Ok manifest) (plan_bytes ← read_file (bindings_path bundle) fs; plan_from_json plan_bytes)
    inspected dump stat bundle;
  Ok (model, bundle_paths bundle (bool_decide (is_Some decode)), handle storage (runtime_device (em_target manifest))).
End Loader.
