(* ===== verification/BundleFilesSpec.v ===== *)
(** * Compiled, written, loaded

    The bundle a compilation leaves on disk, from the compiler or from an entry
    of the cache, is the one the loader opens. *)
From S2P Require Import Prelude Errors Serde CoreTypes Target Catalog Ir KernelRegistry Encodings Coverage Config Graph Fingerprint Binding Provider Registry Session SessionSpec Manifest Compiler Bundle BundleSpec LoadSpec Paths Cache Publishing BundleFiles.
From Stdlib Require Import ZArith Lia Ascii String.
From stdpp Require Import base list strings gmap.
From stdpp Require Import options.

Local Open Scope Z_scope.

(** ** Methods that succeed *)

Lemma method_Ok {S A B} (m : Method S A) (f : A -> Method S B) s b s' :
  (m ≫= f) s = (Ok b, s') -> exists a s1, m s = (Ok a, s1) /\ f a s1 = (Ok b, s').
Proof. unfold mbind, method_bind. destruct (m s) as [[a| |] s1]; [|done..]. intros H. by exists a, s1. Qed.
Lemma lift_Ok {S A} (r : Result A) (s s' : S) a : lift r s = (Ok a, s') -> r = Ok a /\ s' = s.
Proof. unfold lift. by intros [= -> ->]. Qed.

(** Takes a successful run apart, step by step. *)
Ltac ran H :=
  let a := fresh "a" in let s1 := fresh "fs" in let E := fresh "E" in
  apply method_Ok in H as (a & s1 & E & H).

(** ** The files of a bundle *)

Lemma file_names root :
  (file_name (manifest_path root) = Some "manifest.json" /\ file_name (bindings_path root) = Some "bindings.json") /\
  (file_name (schema_path root) = Some "checkpoint-schema.json" /\ file_name (vmfb_path root) = Some "model.vmfb") /\
  file_name (decode_path root) = Some "decode.vmfb".
Proof. split_and!; by apply file_name_join. Qed.

(** What a bundle directory holds. *)
Record bundle_at (fs : Files) (root : string) (vmfb : bytes) (decode : option bytes) (manifest plan : bytes) : Prop := {
  ba_vmfb : fs !! vmfb_path root = Some vmfb;
  ba_decode : fs !! decode_path root = decode;
  ba_manifest : fs !! manifest_path root = Some manifest;
  ba_bindings : fs !! bindings_path root = Some plan;
}.

(** Files with different names are different. *)
Ltac other_file root :=
  let H := fresh in pose proof (file_names root) as H; destruct H as ((? & ?) & (? & ?) & ?);
  rewrite lookup_insert_ne by (let E := fresh in intros E; apply (f_equal file_name) in E; congruence).
Ltac at_file root := repeat (first [rewrite lookup_insert_eq | other_file root]); try done.

Section Files.
Context {SJ : SerdeJson} {BJ : BundleJson} {FH : FileHost}.

Lemma write_file_Ok path b fs fs' a : write_file path b fs = (Ok a, fs') -> fs' = <[path := b]> fs.
Proof. unfold write_file. destruct (call_fails WriteFile path); by intros [= <-]. Qed.
Lemma create_dir_all_Ok path fs fs' a : create_dir_all path fs = (Ok a, fs') -> fs' = fs.
Proof. unfold create_dir_all. intros H. by apply lift_Ok in H as [_ ->]. Qed.
(** Writing the decode module, if there is one. *)
Lemma write_decode_Ok root decode fs fs' a :
  (match decode with Some b => write_file (decode_path root) b | None => mret tt end) fs = (Ok a, fs') ->
  fs' = match decode with Some b => <[decode_path root := b]> fs | None => fs end.
Proof. destruct decode; [apply write_file_Ok|]. by intros [= _ <-]. Qed.

Lemma bundle_written root vmfb decode manifest plan (fs : Files) extra :
  (decode = None -> fs !! decode_path root = None) ->
  let fs1 := <[vmfb_path root := vmfb]> fs in
  let fs2 := match decode with Some b => <[decode_path root := b]> fs1 | None => fs1 end in
  let fs3 := <[bindings_path root := plan]> (<[manifest_path root := manifest]> fs2) in
  bundle_at fs3 root vmfb decode manifest plan /\
  bundle_at (<[schema_path root := extra]> fs3) root vmfb decode manifest plan.
Proof.
  intros Hnone. cbv zeta. destruct decode as [b|]; [|specialize (Hnone eq_refl)];
    (split; split; at_file root).
Qed.

Lemma write_bundle_at root vmfb decode manifest plan catalog fs paths fs' :
  write_bundle root vmfb decode manifest plan catalog fs = (Ok paths, fs') ->
  (decode = None -> fs !! decode_path root = None) ->
  paths = bundle_paths root (bool_decide (is_Some decode)) /\
  exists mb pb, manifest_json manifest = Ok mb /\ plan_json plan = Ok pb /\ bundle_at fs' root vmfb decode mb pb.
Proof.
  unfold write_bundle. intros H Hnone. ran H. apply create_dir_all_Ok in E as ->.
  ran H. apply write_file_Ok in E as ->. ran H. apply write_decode_Ok in E as ->.
  ran H. apply lift_Ok in E as [Hm ->]. ran H. apply write_file_Ok in E as ->.
  ran H. apply lift_Ok in E as [Hp ->]. ran H. apply write_file_Ok in E as ->.
  ran H. apply lift_Ok in E as [_ ->]. ran H. apply write_file_Ok in E as ->.
  injection H as <- <-. split; [done|]. eexists _, _. split; [exact Hm|]. split; [exact Hp|].
  by apply bundle_written.
Qed.

(** A bundle from a cache entry has the modules of its job, and the manifest
    the entry's is read as. *)
Lemma materialized_at cache_root hit entries job plan root fs paths fs' :
  materialize_bundle_from_cache cache_root hit entries plan root fs = (Ok paths, fs') ->
  entries !! ce_dir hit = Some (job_dir job) -> ce_has_decode hit = bool_decide (is_Some (pj_decode job)) ->
  (pj_decode job = None -> fs !! decode_path root = None) ->
  paths = bundle_paths root (bool_decide (is_Some (pj_decode job))) /\
  exists manifest mb pb, manifest_from_json (pj_manifest job) = Ok manifest /\ manifest_json manifest = Ok mb /\
    plan_json plan = Ok pb /\ bundle_at fs' root (pj_vmfb job) (pj_decode job) mb pb.
Proof.
  unfold materialize_bundle_from_cache. intros H Hdir Hdec Hnone.
  assert (Hread : forall name b, read_entry cache_root hit entries name = Ok b -> job_dir job !! name = Some b).
  { intros name b Hr. unfold read_entry in Hr. rewrite Hdir in Hr. apply bind_Ok in Hr as ([] & _ & Hr).
    cbn [mbind option_bind] in Hr. destruct (job_dir job !! name) as [x|]; [|done]. by injection Hr as ->. }
  ran H. apply lift_Ok in E as [Hmb%Hread ->]. ran H. apply lift_Ok in E as [Hm ->].
  ran H. apply lift_Ok in E as [Hv%Hread ->]. ran H. apply create_dir_all_Ok in E as ->.
  ran H. apply write_file_Ok in E as ->. ran H. rename E into Hd.
  ran H. apply lift_Ok in E as [Hmj ->]. ran H. apply write_file_Ok in E as ->.
  ran H. apply lift_Ok in E as [Hp ->]. ran H. apply write_file_Ok in E as ->.
  injection H as <- <-. rewrite Hdec. split; [done|].
  pose proof (job_files_at job) as (Jm & Jv & Jd). rewrite Jm in Hmb. injection Hmb as <-.
  rewrite Jv in Hv. injection Hv as <-.
  eexists _, _, _. split; [exact Hm|]. split; [exact Hmj|]. split; [exact Hp|].
  match type of Hd with _ = (_, ?f) => set (fs2 := f) in * end.
  assert (Hfs : fs2 = match pj_decode job with Some b => <[decode_path root := b]> (<[vmfb_path root := pj_vmfb job]> fs)
                      | None => <[vmfb_path root := pj_vmfb job]> fs end).
  { rewrite Hdec in Hd. revert Hd. destruct (pj_decode job) as [b|] eqn:Hj; intros Hd.
    - apply method_Ok in Hd as (b' & s1 & [Hb%Hread ->]%lift_Ok & Hw%write_file_Ok). rewrite Hw.
      rewrite Jd in Hb. by simplify_eq.
    - by injection Hd as _ <-. }
  rewrite Hfs. apply (bundle_written root _ _ _ _ fs []). exact Hnone.
Qed.

(** A compiler output without a decode module leaves an older file of that
    name in place, and a paged bundle is then loaded with it. *)
Lemma stale_decode_module root vmfb manifest plan catalog fs paths fs' stale :
  write_bundle root vmfb None manifest plan catalog fs = (Ok paths, fs') ->
  em_version manifest = 11 -> fs !! decode_path root = Some stale ->
  bn_decode_vmfb paths = None /\ decode_module manifest root fs' = Some (decode_path root) /\
  fs' !! decode_path root = Some stale.
Proof.
  unfold write_bundle. intros H Hv Hs. ran H. apply create_dir_all_Ok in E as ->.
  ran H. apply write_file_Ok in E as ->. ran H. injection E as _ <-.
  ran H. apply lift_Ok in E as [_ ->]. ran H. apply write_file_Ok in E as ->.
  ran H. apply lift_Ok in E as [_ ->]. ran H. apply write_file_Ok in E as ->.
  ran H. apply lift_Ok in E as [_ ->]. ran H. apply write_file_Ok in E as ->.
  injection H as <- <-. split; [done|].
  match goal with |- context [decode_module manifest root ?f] => assert (Hd : f !! decode_path root = Some stale) by at_file root end.
  split; [|exact Hd]. unfold decode_module, file_exists. by rewrite Hv, Hd.
Qed.
End Files.

(** ** What the compiler gives *)

Import Json.

Section Built.
Context {BJ : BundleJson} {KD : KeyDigests} {FH : FileHost} {HO : HashOrder} {H : Host}.
Variable cache_root : string.
Variable content_digest : list FingerprintEntry -> Result Digest.
Context (debug_encoding : PhysicalEncoding -> text) (debug_kind : OperationKind -> text).
Context (debug_config : DenseDecoderConfig -> text) (debug_rejections : list CandidateRejection -> text).
Variable architectures : ArchitectureRegistry.
Context (emit : string -> DenseDecoderConfig -> PagedProgram -> Result string) (portable_attn : bool).
Context (rocm_bc_dir sdk_linker : option string) (inprocess : string -> list string -> Result bytes).
Context (tools : option (string -> list string -> Result bytes)) (add_smoke_module : string).
Variable staging : string.

(** Everything that determines a compilation. *)
Record Build := {
  bd_package : ArchitecturePackage;
  bd_catalog : CheckpointCatalog;
  bd_plan : BindingPlan;
  bd_target : TargetProfile;
  bd_options : CompileOptions;
}.
Definition build_output (b : Build) : Result CompileOutput :=
  compile_bound debug_encoding debug_kind debug_config debug_rejections emit portable_attn rocm_bc_dir
    sdk_linker inprocess tools add_smoke_module (bd_package b) (bd_catalog b) (bd_plan b) (bd_target b) (bd_options b).
Definition build_key (b : Build) : Result CacheKey :=
  bound_key (bd_package b) (bd_catalog b) (bd_plan b) (bd_target b) (bd_options b).

(** The builds that share the cache. *)
Variable shares : Build -> Prop.

(** The cache holds only what was compiled: the entry of a key is that of some
    build with the key. *)
Definition honest (entries : gmap Digest Dir) : Prop :=
  forall digest dir, entries !! digest = Some dir -> dir_complete dir = true ->
    exists b key out mb kb, shares b /\ build_key b = Ok key /\ key_digest key = Ok digest /\ build_output b = Ok out /\
      manifest_json (out_manifest out) = Ok mb /\
      dir = job_dir {| pj_digest := digest; pj_vmfb := out_executable out; pj_decode := out_decode_executable out;
                       pj_manifest := mb; pj_key := kb |}.
(** The key says everything their compilations depend on. *)
Definition key_determines : Prop :=
  forall b1 b2 k1 k2 digest, shares b1 -> shares b2 -> build_key b1 = Ok k1 -> build_key b2 = Ok k2 ->
    key_digest k1 = Ok digest -> key_digest k2 = Ok digest -> build_output b1 = build_output b2.

(** Only paged models have a decode module. *)
Lemma output_decode b out d :
  build_output b = Ok out -> co_smoke_only (bd_options b) = false -> out_decode_executable out = Some d ->
  em_version (out_manifest out) = 11.
Proof.
  unfold build_output, compile_bound. intros Hb Hs Hd. apply bind_Ok in Hb as (bound & _ & Hb).
  unfold compile_covered in Hb. apply bind_Ok in Hb as (encodings & _ & Hb).
  unfold compile in Hb. cbn [rq_options rq_bound_model] in Hb. rewrite Hs in Hb.
  apply bind_Ok in Hb as (lowering & Hl & Hb). apply bind_Ok in Hb as ([vmfb decode] & Hc & Hb).
  apply bind_Ok in Hb as ([] & _ & [= <-]). cbn in Hd |- *. subst decode.
  assert (Hp : is_Some (lo_decode_mlir_text lowering)).
  { destruct (lo_decode_mlir_text lowering) as [m|]; [done|]. exfalso. revert Hc. unfold annotate_error.
    destruct (compile_mlir_prefer_inprocess _ _ _ _ _ _ _); cbn; [by intros [=]| |done].
    by repeat case_match. }
  revert Hl Hp. unfold lower_bound_model. cbv zeta. intros Hl Hp.
  apply bind_Ok in Hl as ([] & _ & Hl). apply bind_Ok in Hl as ([] & _ & Hl).
  apply bind_Ok in Hl as ([] & _ & Hl). apply bind_Ok in Hl as ([] & _ & Hl).
  destruct (dd_paged_kv _ && _) eqn:Hpaged.
  - apply andb_true_iff in Hpaged as [Hpaged _]. apply bind_Ok in Hl as ([t o] & _ & [= <-]). 
    change ((if dd_paged_kv (from_bound_model portable_attn bound) then 11 else 2) = 11). by rewrite Hpaged.
  - apply bind_Ok in Hl as ([t o] & Ht & [= <-]). cbn in Hp. apply bind_Ok in Ht as (? & _ & [= _ <-]).
    by destruct Hp.
Qed.

Lemma output_architecture b out :
  build_output b = Ok out -> co_smoke_only (bd_options b) = false ->
  em_architecture_id (out_manifest out) = ag_architecture_id (pkg_graph (bd_package b)).
Proof.
  unfold build_output, compile_bound. intros Hb Hs. apply bind_Ok in Hb as (bound & Hcov & Hb).
  assert (Ha : bm_architecture bound = pkg_graph (bd_package b)).
  { unfold covered_model in Hcov. apply bind_Ok in Hcov as (? & _ & Hcov). apply bind_Ok in Hcov as (? & _ & Hcov).
    apply bind_Ok in Hcov as (? & _ & Hcov). apply bind_Ok in Hcov as ([] & _ & Hcov).
    unfold build_bound_model in Hcov. by apply bind_Ok in Hcov as ([] & _ & [= <-]). }
  unfold compile_covered in Hb. apply bind_Ok in Hb as (encodings & _ & Hb).
  destruct (compile_Ok _ _ _ _ _ _ _ _ _ _ _ _ Hb Hs) as (lowering & diagnostics & _ & ->). cbn. by rewrite Ha.
Qed.

(** ** The bundle is that of the compiler, with and without a cache *)

(** What is read is what was written. *)
Definition reads_back {A} (write : A -> Result bytes) (read : bytes -> Result A) (a : A) : Prop :=
  forall b, write a = Ok b -> read b = Ok a.

Abbreviation built_bundle b cached root bound :=
  (bundle_bound cache_root debug_encoding debug_kind debug_config emit portable_attn rocm_bc_dir sdk_linker inprocess
     tools add_smoke_module staging cached (bd_package b) (bd_catalog b) (bd_plan b) (bd_target b) root (bd_options b) bound).

Lemma on_files_Ok {A} (m : Method Files A) disk a disk' :
  on_files m disk = (Ok a, disk') -> m (dk_files disk) = (Ok a, dk_files disk') /\ dk_entries disk' = dk_entries disk.
Proof. unfold on_files. destruct (m (dk_files disk)) as [r files]. by intros [= -> <-]. Qed.

(** A hit is an honest entry of the build's key. *)
Lemma lookup_hit b disk hit disk' :
  shares b -> honest (dk_entries disk) -> key_determines ->
  lookup_bound true (build_key b) disk = (Ok (Some hit), disk') ->
  disk' = disk /\ exists out mb kb, let job := {| pj_digest := ce_dir hit; pj_vmfb := out_executable out;
      pj_decode := out_decode_executable out; pj_manifest := mb; pj_key := kb |} in
    build_output b = Ok out /\ manifest_json (out_manifest out) = Ok mb /\
    dk_entries disk !! ce_dir hit = Some (job_dir job) /\
    ce_has_decode hit = bool_decide (is_Some (out_decode_executable out)).
Proof.
  intros Hb Hhon Hdet Hl. unfold lookup_bound in Hl. apply method_Ok in Hl as (key & d1 & [Hk ->]%lift_Ok & Hl).
  apply method_Ok in Hl as (d2 & d3 & Hself & Hl). injection Hself as <- <-.
  apply lift_Ok in Hl as [Hl ->]. split; [done|]. unfold cache_lookup in Hl.
  apply bind_Ok in Hl as (digest & Hdig & [= Hl]). unfold entry_if_complete in Hl.
  destruct (dk_entries disk !! digest) as [dir|] eqn:Hdir; [|done]. cbn [mbind option_bind] in Hl.
  destruct (dir_complete dir) eqn:Hc; [|done]. injection Hl as <-. cbn [ce_dir ce_has_decode].
  destruct (Hhon _ _ Hdir Hc) as (b' & key' & out & mb & kb & Hb' & Hk' & Hd' & Hout & Hmb & ->).
  exists out, mb, kb. cbv zeta. split; [by rewrite (Hdet b b' key key' digest)|]. split; [done|]. split; [done|].
  unfold is_file. destruct (job_files_at {| pj_digest := digest; pj_vmfb := out_executable out;
    pj_decode := out_decode_executable out; pj_manifest := mb; pj_key := kb |}) as (_ & _ & ->). done.
Qed.

Lemma lookup_miss cached b disk disk' :
  lookup_bound cached (build_key b) disk = (Ok None, disk') -> disk' = disk.
Proof.
  unfold lookup_bound. destruct cached; [|by intros [= <-]]. intros Hl.
  apply method_Ok in Hl as (key & d1 & [_ ->]%lift_Ok & Hl). apply method_Ok in Hl as (d2 & d3 & Hself & Hl).
  injection Hself as <- <-. by apply lift_Ok in Hl as [_ ->].
Qed.

(** Publishing keeps the cache honest and the files as they are. *)
Lemma publish_honest cached b out disk r disk' :
  shares b -> (forall dir, removal_remains dir ⊆ dir) ->
  honest (dk_entries disk) -> build_output b = Ok out ->
  publish_output cache_root staging cached (build_key b) out disk = (r, disk') ->
  dk_files disk' = dk_files disk /\ honest (dk_entries disk').
Proof.
  intros Hb Hrem Hhon Hout Hp. unfold publish_output in Hp.
  destruct cached; [|injection Hp as _ Hd; rewrite <- Hd; exact (conj eq_refl Hhon)].
  unfold lift, mbind, method_bind in Hp.
  destruct (build_key b) as [key| |] eqn:Hk; [|injection Hp as _ Hd; rewrite <- Hd; exact (conj eq_refl Hhon)..].
  unfold on_entries in Hp.
  destruct (publish _ _ _ _ _ _ _ _ _ _ _ (dk_entries disk)) as [r0 entries'] eqn:Hpub.
  assert (Hd : {| dk_files := dk_files disk; dk_entries := entries' |} = disk').
  { destruct r0; injection Hp as _ Hd; exact Hd. }
  rewrite <- Hd. split; [reflexivity|]. intros digest dir Hdir Hc.
  destruct (publish_entries _ _ _ _ _ _ _ _ _ _ _ _ _ _ _ _ Hrem Hpub Hdir Hc) as [Hin|(Hkd & mb & kb & Hmb & Hj)];
    [exact (Hhon digest dir Hin Hc)|].
  exact (ex_intro _ b (ex_intro _ key (ex_intro _ out (ex_intro _ mb (ex_intro _ kb
    (conj Hb (conj Hk (conj Hkd (conj Hout (conj Hmb Hj)))))))))).
Qed.

(** The bundle holds the compiler's modules and manifest, however it was made. *)
Lemma bundle_bound_at b cached root bound disk paths disk' :
  shares b -> (forall dir, removal_remains dir ⊆ dir) -> honest (dk_entries disk) -> key_determines ->
  (forall out, build_output b = Ok out -> reads_back manifest_json manifest_from_json (out_manifest out)) ->
  covered_model debug_encoding debug_rejections (bd_package b) (bd_catalog b) (bd_plan b) (bd_target b) = Ok bound ->
  dk_files disk !! decode_path root = None ->
  built_bundle b cached root bound disk = (Ok paths, disk') ->
  honest (dk_entries disk') /\
  exists out mb pb, build_output b = Ok out /\
    paths = bundle_paths root (bool_decide (is_Some (out_decode_executable out))) /\
    manifest_from_json mb = Ok (out_manifest out) /\ plan_json (bd_plan b) = Ok pb /\
    bundle_at (dk_files disk') root (out_executable out) (out_decode_executable out) mb pb.
Proof.
  intros Hb Hrem Hhon Hdet Hback Hcov Hstale H0. unfold bundle_bound in H0. cbv zeta in H0.
  fold (build_key b) in H0. ran H0. destruct a as [hit|].
  - assert (Hc : cached = true) by (destruct cached; [done|by injection E]). subst cached.
    destruct (lookup_hit b disk hit fs Hb Hhon Hdet E) as (-> & out & mb & kb & Hout & Hmb & Hdir & Hdec).
    ran H0. injection E0 as <- <-. apply on_files_Ok in H0 as [Hm He]. rewrite He. split; [done|].
    pose proof (Hback out Hout mb Hmb) as Hread.
    apply (materialized_at _ _ _ {| pj_digest := ce_dir hit; pj_vmfb := out_executable out;
      pj_decode := out_decode_executable out; pj_manifest := mb; pj_key := kb |}) in Hm as
      (-> & manifest & mb' & pb & Hr & Hw & Hp & Hat); [|done..].
    cbn [pj_manifest] in Hr. rewrite Hread in Hr. injection Hr as <-. rewrite Hmb in Hw. injection Hw as <-.
    exists out, mb, pb. exact (conj Hout (conj eq_refl (conj Hread (conj Hp Hat)))).
  - apply lookup_miss in E as ->. ran H0. apply lift_Ok in E as [Hc ->].
    assert (Hout : build_output b = Ok a). { unfold build_output, compile_bound. by rewrite Hcov. }
    ran H0. destruct (publish_honest cached b a disk _ _ Hb Hrem Hhon Hout E) as [Hf Hhon'].
    apply on_files_Ok in H0 as [Hw He]. rewrite He. split; [done|].
    apply write_bundle_at in Hw as (-> & mb & pb & Hmb & Hp & Hat); [|by rewrite Hf].
    exists a, mb, pb. exact (conj Hout (conj eq_refl (conj (Hback a Hout mb Hmb) (conj Hp Hat)))).
Qed.

(** ** Compiled, then loaded *)

Context {Ctx : Type}.
Variable create_context : bytes -> option bytes -> FileParameterStorage -> string -> Result Ctx.

(** The plan's ranges can be served, and the files are the ones on disk. *)
Record servable (catalog : CheckpointCatalog) (plan : BindingPlan) (provider : RuntimeProviderPlan)
    (stat : string -> result text (bool * Z)) : Prop := {
  sv_scope : forall x, x ∈ bp_bindings plan -> pb_scope x = "weights";
  sv_lengths : forall c, c ∈ bp_bindings plan ≫= pb_components -> Forall is_u64 (pc_byte_lengths c);
  sv_plan : build_runtime_provider_plan catalog plan = Ok provider;
  sv_some : plan_descriptors provider <> [];
  sv_consistent : consistent (plan_descriptors provider);
  sv_nul : forall e, e ∈ plan_descriptors provider -> has_nul (fd_key e) = false;
  sv_sizes : forall f, f ∈ cc_source_files catalog -> sf_size_bytes f <= u64_max;
  sv_stat : stat_agrees stat (cc_source_files catalog);
}.

Lemma read_file_Some path (fs : Files) b :
  (forall path, call_fails ReadFile path = false) -> fs !! path = Some b -> read_file path fs = Ok b.
Proof. intros Hr Hb. unfold read_file. by rewrite Hr, Hb. Qed.

(** The handle of a bundle opens the modules that are there. *)
Lemma open_bundle root vmfb decode mb pb (fs : Files) storage device :
  (forall path, call_fails ReadFile path = false) -> bundle_at fs root vmfb decode mb pb ->
  open_executable create_context
    {| eh_vmfb_path := vmfb_path root; eh_decode_vmfb_path := if bool_decide (is_Some decode) then Some (decode_path root) else None;
       eh_parameters := storage; eh_device := device |} fs = create_context vmfb decode storage device.
Proof.
  intros Hr [Hv Hd _ _]. unfold open_executable. cbn [eh_vmfb_path eh_decode_vmfb_path eh_parameters eh_device].
  rewrite (read_file_Some _ _ _ Hr Hv). cbn [mbind result_mbind]. destruct decode as [d|]; [|done].
  rewrite bool_decide_eq_true_2 by done. by rewrite (read_file_Some _ _ _ Hr Hd).
Qed.

(** C5: what is compiled can be loaded, with and without a cache. A compilation
    that ends leaves a bundle directory from which the loader, given the same
    checkpoint and a machine on which the target is still found, gets a model
    with exactly the manifest, the plan and the modules of the compiler for
    this very checkpoint, target and options, and with the provider plan's
    ranges; it does not matter whether they came from the compiler or from an
    entry of a cache that other compilations have filled, and the cache remains
    one that holds only what was compiled. *)
Theorem compile_then_load b cached id inspected dump spec root overrides disk paths disk' provider target' stat :
  shares b -> co_smoke_only (bd_options b) = false -> ag_architecture_id (pkg_graph (bd_package b)) = id ->
  (forall dir, removal_remains dir ⊆ dir) -> (forall path, call_fails ReadFile path = false) ->
  honest (dk_entries disk) -> key_determines ->
  (forall out, build_output b = Ok out -> reads_back manifest_json manifest_from_json (out_manifest out)) ->
  reads_back plan_json plan_from_json (bd_plan b) ->
  loader_bind content_digest architectures id inspected overrides = Ok (bd_package b, bd_catalog b, bd_plan b) ->
  servable (bd_catalog b) (bd_plan b) provider stat ->
  resolve_target dump spec = Ok (bd_target b) ->
  resolve_target dump (runtime_device (bd_target b)) = Ok target' ->
  tp_capability_fingerprint target' = tp_capability_fingerprint (bd_target b) ->
  (forall vmfb decode storage, exists c, create_context vmfb decode storage (runtime_device (bd_target b)) = Ok c) ->
  dk_files disk !! decode_path root = None ->
  compile_to_bundle_with_overrides cache_root content_digest debug_encoding debug_kind debug_config debug_rejections
    architectures emit portable_attn rocm_bc_dir sdk_linker inprocess tools add_smoke_module staging cached id
    (Ok inspected) dump spec root (bd_options b) overrides disk = (Ok paths, disk') ->
  honest (dk_entries disk') /\
  exists out model handle, build_output b = Ok out /\
    load_bundle_from content_digest architectures create_context root (Ok inspected) dump stat (dk_files disk') =
      Ok (model, paths, handle) /\
    lm_manifest model = out_manifest out /\ lm_binding model = bd_plan b /\ lm_catalog model = bd_catalog b /\
    fs_files (eh_parameters handle) = sf_path <$> cc_source_files (bd_catalog b) /\
    (forall key l, (key, l) ∈ fs_entries (eh_parameters handle) <->
      exists d, d ∈ rp_parameters provider /\ (key = pd_external_key d \/ key ∈ pd_aliases d) /\
        l = (pd_source_file_index d, pd_offset d, pd_length d)) /\
    eh_device handle = runtime_device (bd_target b) /\
    open_executable create_context handle (dk_files disk') =
      create_context (out_executable out) (out_decode_executable out) (eh_parameters handle) (eh_device handle).
Proof.
  intros Hb Hsmoke Hid Hrem Hread Hhon Hdet Hback Hplan Hbind [] Htarget Hres Hfp Hopen Hstale Hc.
  unfold compile_to_bundle_with_overrides in Hc. ran Hc. apply lift_Ok in E as [E ->]. rewrite Htarget in E. injection E as <-.
  ran Hc. apply lift_Ok in E as [[= <-] ->]. ran Hc. apply lift_Ok in E as [E ->]. rewrite Hbind in E. injection E as <-.
  cbn beta iota in Hc. ran Hc. apply lift_Ok in E as [Hcov ->].
  apply (bundle_bound_at b) in Hc as (Hhon' & out & mb & pb & Hout & -> & Hmb & Hpb & Hat); [|done..].
  split; [exact Hhon'|].
  assert (Hname : apply_naming content_digest architectures (em_architecture_id (out_manifest out)) inspected = Ok (bd_catalog b)).
  { rewrite (output_architecture b out Hout Hsmoke), Hid. unfold loader_bind in Hbind.
    apply bind_Ok in Hbind as (c & Hn & Hbind). apply bind_Ok in Hbind as (? & _ & Hbind).
    apply bind_Ok in Hbind as (? & _ & Hbind). injection Hbind as _ <- _. exact Hn. }
  set (decode := if bool_decide (is_Some (out_decode_executable out)) then Some (decode_path root) else None).
  assert (Hdec : decode_module (out_manifest out) root (dk_files disk') = decode).
  { unfold decode_module, file_exists. rewrite (ba_decode _ _ _ _ _ _ Hat). subst decode.
    destruct (out_decode_executable out) as [d|] eqn:Hd; [|by rewrite andb_false_r].
    by rewrite (output_decode b out d Hout Hsmoke Hd). }
  set (handle storage device := {| eh_vmfb_path := vmfb_path root; eh_decode_vmfb_path := decode;
    eh_parameters := storage; eh_device := device |}).
  assert (Hhandle : forall storage device, open_executable create_context (handle storage device) (dk_files disk') =
    create_context (out_executable out) (out_decode_executable out) storage device).
  { intros storage device. subst handle decode. cbv beta. by eapply open_bundle. }
  destruct (compiled_bundle_loads content_digest debug_encoding debug_rejections debug_kind debug_config architectures emit portable_attn
    rocm_bc_dir sdk_linker inprocess tools add_smoke_module
    (fun storage device => open_executable create_context (handle storage device) (dk_files disk'))
    (bd_package b) (bd_catalog b) (bd_plan b) provider (bd_target b) target' (bd_options b) out inspected dump stat root)
    as (model & storage & Hload & Hmodel & Hcat & Hbinding & Hsf & Hse); [done..| |].
  { intros storage. destruct (Hopen (out_executable out) (out_decode_executable out) storage) as [c Hcc].
    exists c. by rewrite Hhandle. }
  assert (Hdevice : em_target (out_manifest out) = bd_target b).
  { destruct (compile_bound_Ok _ _ _ _ _ _ _ _ _ _ _ _ _ _ _ _ _ Hout Hsmoke)
      as (request & lowering & diagnostics & c & -> & _ & _ & _ & Ht & _). exact Ht. }
  exists out, model, (handle storage (runtime_device (em_target (out_manifest out)))).
  split; [exact Hout|]. split.
  { unfold load_bundle_from. rewrite (read_file_Some _ _ _ Hread (ba_manifest _ _ _ _ _ _ Hat)).
    cbn [mbind result_mbind]. rewrite Hmb. cbn [mbind result_mbind].
    rewrite (read_file_Some _ _ _ Hread (ba_bindings _ _ _ _ _ _ Hat)). cbn [mbind result_mbind].
    rewrite (Hplan pb Hpb), Hdec. subst handle decode. cbv beta zeta in Hload |- *. rewrite Hload.
    cbn [mbind result_mbind]. by destruct (out_decode_executable out). }
  split; [exact Hmodel|]. split; [exact Hbinding|]. split; [exact Hcat|]. split; [exact Hsf|].
  split; [exact Hse|]. split; [cbn; by rewrite Hdevice|]. apply Hhandle.
Qed.
End Built.

(** ** Witness: the sample checkpoint, compiled through an empty cache *)

Module FilesSample.
#[global] Instance json : BundleJson := {|
  manifest_json _ := Ok [Ascii.zero]; plan_json _ := Ok [Ascii.one]; fingerprint_json _ := Ok []; key_json _ := Ok [];
  manifest_from_json _ := out ← PipelineSample.compiled llvm_cpu_host; Ok (out_manifest out);
  plan_from_json _ := '(_, _, plan) ← PipelineSample.bound; Ok plan;
|}.
#[global] Instance digests : KeyDigests := {|
  architecture_digest _ := Ok "graph"; resolved_config_digest _ := Ok "config"; options_digest _ := Ok "options";
  binding_digest _ := Ok "binding"; policy_digest _ := Ok "policy"; shape_digest _ := Ok "shape";
  key_digest _ := Ok "key"; |}.
#[global] Instance files : FileHost := {|
  call_fails _ _ := false; torn_write _ _ := None; publish_fails _ := false; removal_remains dir := dir; |}.

Definition spec : string := runtime_device llvm_cpu_host.
Definition compile_into (root : string) (disk : Disk) : Result BundlePaths * Disk :=
  compile_to_bundle_with_overrides "cache" PipelineSample.digest PipelineSample.nil_text PipelineSample.nil_text
    PipelineSample.nil_text PipelineSample.nil_text built_in PipelineSample.emit false None None (fun _ _ => Ok []) None
    "module {}" "staging" true "llama.decoder" (Ok PipelineSample.inspected) (Ok EmptyString) spec root
    PipelineSample.options ∅ disk.
Definition empty : Disk := {| dk_files := ∅; dk_entries := ∅ |}.
Definition open (vmfb : bytes) (decode : option bytes) (storage : FileParameterStorage) (device : string)
  : Result (bytes * option bytes) := Ok (vmfb, decode).

(** The second compilation is a hit: it writes no schema file. *)
Example second_hits :
  match compile_into "a" empty with
  | (Ok _, disk) =>
      match compile_into "b" disk with
      | (Ok paths, disk') => bn_vmfb paths = "b/executables/model.vmfb" /\
          dk_files disk' !! vmfb_path "b" = dk_files disk !! vmfb_path "a" /\
          bool_decide (is_Some (dk_files disk' !! schema_path "a")) = true /\
          dk_files disk' !! schema_path "b" = None
      | _ => False
      end
  | _ => False
  end.
Proof. by vm_compute. Qed.
End FilesSample.

Lemma compile_then_load_witness :
  exists paths disk' model handle,
    FilesSample.compile_into "bundle" FilesSample.empty = (Ok paths, disk') /\
    load_bundle_from PipelineSample.digest built_in FilesSample.open "bundle" (Ok PipelineSample.inspected)
      (Ok EmptyString) sample_stat (dk_files disk') = Ok (model, paths, handle) /\
    open_executable FilesSample.open handle (dk_files disk') = Ok ([], None).
Proof.
  assert (Hall : match PipelineSample.bound with
                 | Ok (package, catalog, plan) =>
                     match build_runtime_provider_plan catalog plan, PipelineSample.compile_for package catalog plan llvm_cpu_host with
                     | Ok provider, Ok out => plan_check catalog plan provider = true /\
                         ag_architecture_id (pkg_graph package) = "llama.decoder" /\
                         out_executable out = [] /\ out_decode_executable out = None
                     | _, _ => False
                     end
                 | _ => False
                 end) by (by vm_compute).
  destruct PipelineSample.bound as [[[package catalog] plan]| |] eqn:Hb; [|exact (False_ind _ Hall)..].
  destruct (build_runtime_provider_plan catalog plan) as [provider| |] eqn:Hp; [|exact (False_ind _ Hall)..].
  destruct (PipelineSample.compile_for package catalog plan llvm_cpu_host) as [out| |] eqn:Hc; [|exact (False_ind _ Hall)..].
  destruct Hall as (Hcheck & Hid & Hexe & Hdec). apply plan_checked in Hcheck as (H1 & H2 & H3 & H4 & H5 & H6 & H7).
  assert (Hrun : match FilesSample.compile_into "bundle" FilesSample.empty with (Ok _, _) => True | _ => False end)
    by (by vm_compute).
  destruct (FilesSample.compile_into "bundle" FilesSample.empty) as [[paths| |] disk'] eqn:Hci; [|exact (False_ind _ Hrun)..].
  set (b := {| bd_package := package; bd_catalog := catalog; bd_plan := plan; bd_target := llvm_cpu_host;
               bd_options := PipelineSample.options |}).
  destruct (compile_then_load "cache" PipelineSample.digest PipelineSample.nil_text PipelineSample.nil_text
    PipelineSample.nil_text PipelineSample.nil_text built_in PipelineSample.emit false None None (fun _ _ => Ok []) None
    "module {}" "staging" (eq b) FilesSample.open b true "llama.decoder" PipelineSample.inspected (Ok EmptyString)
    FilesSample.spec "bundle" ∅ FilesSample.empty paths disk' provider llvm_cpu_host sample_stat)
    as (_ & out' & model & handle & Hout & Hload & _ & _ & _ & _ & _ & _ & Hopen).
  - reflexivity.
  - reflexivity.
  - exact Hid.
  - intros dir. reflexivity.
  - reflexivity.
  - intros digest dir Hd. discriminate Hd.
  - intros b1 b2 k1 k2 digest <- <- _ _ _ _. reflexivity.
  - intros out' Hout' bytes _. change (build_output _ _ _ _ _ _ _ _ _ _ _ b) with (PipelineSample.compile_for package catalog plan llvm_cpu_host) in Hout'.
    cbn. unfold PipelineSample.compiled. rewrite Hb. cbn [mbind result_mbind]. by rewrite Hout'.
  - intros bytes _. cbn. by rewrite Hb.
  - exact Hb.
  - by split.
  - reflexivity.
  - reflexivity.
  - reflexivity.
  - intros vmfb decode storage. by eexists.
  - reflexivity.
  - exact Hci.
  - exists paths, disk', model, handle. split; [reflexivity|]. split; [exact Hload|].
    rewrite Hopen. unfold FilesSample.open.
    assert (Heq : Ok out' = Ok out :> Result CompileOutput) by (etrans; [symmetry; exact Hout|exact Hc]).
    injection Heq as ->. by rewrite Hexe, Hdec.
Defined.
